(* ===== verification/_CoqProject ===== *)
-Q . S2P
Prelude.v
Dlist.v
Delta.v
Tqueue.v
Tdqueue.v
Slist.v
Types.v
Event.v
Timer.v
Kernel.v
Queues.v
KernelInv.v
KernelSpec.v
World.v
EventSpec.v
Semaphore.v
Sched.v
Mutex.v
Signal.v
Fifo.v
Bytes.v
Ring.v
Prng.v
Crc.v
Bump.v
Serial.v
Msgq.v
MemSlab.v
Workqueue.v
Flags.v
Poll.v
Avr.v
Atomic.v
Context.v
Interrupt.v
DebugUtils.v
Thread.v
Debug.v
Fault.v
System.v
Gpio.v
I2c.v
Tcn75.v
Client.v
Time.v
Spi.v
Sd.v
SdSpec.v
Usart.v
HwTimer.v
Mcp2515.v
Exti.v
Startup.v
StaticThreads.v
Worker.v
Wait.v
