(* ===== verification/Prelude.v ===== *)
(** * AVRTOS: a verification library of the kernel

    AVRTOS is a real-time operating system for 8-bit AVR microcontrollers:
    threads with their own stacks, a scheduler driven by a tick interrupt,
    synchronisation objects with wait queues, timers, events and workqueues,
    small allocators and utilities.  This library translates the C (and some
    assembly) of src/src/avrtos function by function and proves what makes it
    correct, or shows where it is not.

    ** How the program is modelled

    Machine words are [Z] with explicit wrapping ([u8], [u16], ...); a 16-bit
    value that may be a pointer is a [word]: an integer, or a block and an
    offset.  The intrusive links of the lists ([struct dnode], [snode],
    [titem]) live in one shared link memory [mem], at the address of the
    structure plus the offset of the member, so that aliasing, stale links and
    double insertions behave as in C; other fields are records in maps by
    address ([Types.kstate]).  Functions run in the monad [M] of Types: a
    result is [Done] with a value and a state, [Susp] when the thread is
    switched out (with the continuation that runs when it is resumed), [Fault]
    for the kernel faults, [NoFuel] when a loop exhausts its fuel.  The
    configuration switches the modelled code branches on are the fields of the
    class [Config], the addresses chosen by the linker the class [Layout], user
    callbacks the class [Handlers].

    ** The files

    - Prelude: words, link memory, wrapping, generic lemmas.  Delta: the
      abstract time queue (delays and absolute expiry times), the interface
      [DeltaQueue].
    - Dlist, Slist, Tqueue, Tdqueue (dstruct/*.c): the containers, each with
      the predicate that says what list the memory holds; Queues: what they
      refine.
    - Types (types.h, defines.h, object headers), Event (event.c), Timer
      (timer.c), Kernel (kernel.c, kernel.h, kernel_private.h, the control flow
      of arch/thread_switch_preempt.S): the translated functions.
    - KernelInv, KernelSpec: the kernel invariant [Inv F k T rs ts Q] (run
      queue [rs], scheduled wake-ups [ts], wait queues [Q]) and a lemma per
      kernel function in terms of [rs], [ts] and [Q].  The clients below are
      proved against these lemmas only.
    - World: a concrete kernel on which the theorems are instantiated.
    - Sched: tick, round robin, thread termination, scheduler locks.
      Semaphore, Mutex, Signal (signal.c, condvar.c), Fifo, Msgq, MemSlab
      (alloc/slab.c, mem_slab.c), Workqueue, Flags, Poll, EventSpec: one
      component each, with its invariant ([sem_ok], [mutex_ok], [fifo_ok],
      [msgq_ok], ...).
    - System: threads, tick and semaphore composed: a step function on whole
      systems and what holds in every reachable state.
    - Bytes (memcpy), Ring (ring.c), Prng (prng.c), Crc (subsystems/crc.c),
      Bump (alloc/bump.c, alloc/default.c), Serial (misc/serial.c): the
      utilities.
    - Avr: the instructions and programs of arch/*.S; Atomic (atomic.c,
      arch_atomic.S), Context (context switch, tick counter), Interrupt (the
      tick interrupt, instruction by instruction, with the C functions that it
      calls as routines that keep the calling convention), DebugUtils
      (debug_utils.S), Thread (thread creation, stacks, canaries.c,
      stack_sentinel.c), Debug (debug.c, dstruct/debug.c: what the dumps
      print), Fault (fault.c, assert.c: what is reported before a halt).
    - Gpio (drivers/gpio.h, gpio.c), I2c (drivers/i2c.c), Tcn75
      (devices/tcn75.c): drivers over a peripheral and devices that are
      parameters, with the laws of a well-behaved device as a class.
    - Client: a component that keeps a state of its own and calls the kernel:
      the monad [SM] over [M], and [resumes], which says that a call ends with
      a result after any number of suspensions, whatever the other threads do
      in between as long as they keep the kernel invariant.  [released] says
      what the unlock of a client's mutex leaves: the mutex free, or its
      longest waiter ready with a wait that ends in 0.  Time (systime.c,
      K_MSEC, k_msleep), Spi (drivers/spi.c), Sd and SdSpec (devices/sd.c) and
      Mcp2515 (devices/mcp2515.c) are such clients; the bus is a parameter,
      and a dialogue with it a list of bytes sent and received ([talk]).
    - Usart (drivers/usart.c), HwTimer (drivers/timer.c, timer.h, sysclock.c),
      Exti (drivers/exti.c, exti.h, misc/led.c): drivers on the registers of
      their peripheral.
    - Startup (init.c, idle.c, z_init_threads and the other loops over linker
      sections): from the image of the static initialisers to the running
      system.  StaticThreads: what the start-up makes of the threads defined at
      compile time.  Worker (k_workqueue_create of workqueue.c), Wait (k_wait
      of kernel.c).

    ** What the theorems show

    - Kernel: the tick wakes exactly the threads whose time has come
      ([Sched.tick_wakes]); ready threads run in turn ([Sched.round_robin]);
      every operation of a synchronisation object does what it promises on
      every branch and keeps the kernel invariant ([*_spec] theorems).
    - Composition: units of a semaphore are conserved, a binary semaphore is a
      lock, the structures of the kernel stay well formed and the system never
      faults, for every interleaving of calls and ticks ([System]), from the
      first instruction on ([Startup.startup_system]).
    - Drivers: what reaches the bus or the registers, in which order, and with
      which result, sleeps included ([SdSpec], [Mcp2515], [I2c], [Usart],
      whose interrupts are taken only while their bit of UCSRnB is set);
      round trips of commands and frames; the period that the timers are
      programmed to ([HwTimer]).
    - Containers: refinement of list operations and of absolute time lines.
    - Machine level: a context switch saves and restores exactly the context;
      an interrupted thread goes on as if it had not been, at once or when it
      is switched to again ([Interrupt.tick_transparent],
      [Interrupt.preemption_transparent]); the first switch to a new thread
      reaches its entry function; the atomic routines compute their reference
      functions; the tick counter counts.
    - Utilities: equivalence with reference definitions (checksums), round
      trips (number printing, the dump of a thread, the report of a fault),
      disjointness (allocators).
    - Defects: some theorems exhibit behaviour that the code should not have
      ([Mutex.k_mutex_two_holders], [Poll.k_poll_double_wake],
      [Sched.stale_wait_node], [Workqueue.k_work_submit_twice],
      [Atomic.atomic_cas_compares_zero], ...).

    ** Bounds and fuel

    Loops over link structures take the fuel [loop_fuel] of [Config].  [Inv]
    requires it to be larger than the number of threads, which bounds every
    wait queue and the queue of wake-ups; the theorems on events and timers
    require it to be larger than the number of queued items.  No theorem
    assumes that a call returns: [Done] and [Susp] results are concluded.
    Fewer than 256 threads exist, so that 8-bit counts do not wrap.  The
    assembly runs with a fuel larger than the length of the program.  The fuel
    of the tick interrupt is the number of jumps, three at most.

    ** Not modelled

    In the system-level theorems interrupts are taken between kernel calls
    only, where the code has them enabled; at machine level the tick comes
    anywhere. The debug outputs that options add to the tick interrupt and
    the variants for a 3-byte program counter are left out. Instruction
    timing and sleep modes are not modelled, and what a peripheral does with
    its registers is a parameter. Text output other than the bytes of
    misc/serial.c and of the dumps, the trace macros (compiled out by
    default), stdio, logging and the configuration headers are left out, with
    the reason in the manifest. *)

From stdpp Require Export base numbers gmap list.

#[global] Open Scope Z_scope.

(** ** Machine integers

    An AVR register holds 8 bits; [size_t], pointers and [k_ticks_t] are 16 bits
    wide.  Values are [Z] in range and every operation wraps explicitly. *)

Definition u8 (z : Z) : Z := z mod 256.
Definition u16 (z : Z) : Z := z mod 65536.
Definition u32 (z : Z) : Z := z mod 4294967296.
Definition u64 (z : Z) : Z := z mod 18446744073709551616.

(** Conversion to [int8_t] (two's complement). *)
Definition s8 (z : Z) : Z := (z + 128) mod 256 - 128.

(** Conversion to [int16_t], AVR's [int] and [ptrdiff_t]. *)
Definition s16 (z : Z) : Z := (z + 32768) mod 65536 - 32768.

Lemma u8_range z : 0 <= u8 z < 256.
Proof. apply Z.mod_pos_bound. lia. Qed.
Lemma u16_range z : 0 <= u16 z < 65536.
Proof. apply Z.mod_pos_bound. lia. Qed.
Lemma u32_range z : 0 <= u32 z < 4294967296.
Proof. apply Z.mod_pos_bound. lia. Qed.
Lemma s8_range z : -128 <= s8 z < 128.
Proof. unfold s8. pose proof (Z.mod_pos_bound (z + 128) 256). lia. Qed.

Lemma u8_small z : 0 <= z < 256 → u8 z = z.
Proof. intros. unfold u8. by apply Z.mod_small. Qed.
Lemma u16_small z : 0 <= z < 65536 → u16 z = z.
Proof. intros. unfold u16. by apply Z.mod_small. Qed.
Lemma u32_small z : 0 <= z < 4294967296 → u32 z = z.
Proof. intros. unfold u32. by apply Z.mod_small. Qed.
Lemma s8_small z : -128 <= z < 128 → s8 z = z.
Proof. intros. unfold s8. rewrite Z.mod_small; lia. Qed.

(** ** Error codes (errno.h) *)

Definition EIO : Z := 5.
Definition EBADF : Z := 9.
Definition EAGAIN : Z := 11.
Definition ENOMEM : Z := 12.
Definition EBUSY : Z := 16.
Definition EINVAL : Z := 22.
Definition ENOMSG : Z := 35.
Definition ENOTSUP : Z := 95.
Definition EALREADY : Z := 114.
Definition ETIMEDOUT : Z := 110.
Definition ECANCELED : Z := 125.
Definition ENOENT : Z := 2.

(** ** Pointers and link words

    A machine word is an integer or a pointer into a block (a C object) at a
    byte offset.  [NULL] is the integer 0. *)

Inductive word :=
  | Int (z : Z)
  | Ptr (b : positive) (o : Z).

#[global] Instance word_eq_dec : EqDecision word.
Proof. solve_decision. Defined.

Definition word_enc (w : word) : Z + positive * Z :=
  match w with Int z => inl z | Ptr b o => inr (b, o) end.
Definition word_dec (x : Z + positive * Z) : word :=
  match x with inl z => Int z | inr (b, o) => Ptr b o end.

#[global] Instance word_countable : Countable word.
Proof. by apply (inj_countable' word_enc word_dec); intros []. Defined.

Definition NULL : word := Int 0.

#[global] Instance word_inhabited : Inhabited word := populate NULL.

(** Pointer arithmetic in bytes: [sys_ptr_add], and [CONTAINER_OF] with a
    negative offset. *)
Definition ptr_add (p : word) (n : Z) : word :=
  match p with Int z => Int (z + n) | Ptr b o => Ptr b (o + n) end.

Definition CONTAINER_OF (p : word) (ofs : Z) : word := ptr_add p (- ofs).

Lemma ptr_add_0 p : ptr_add p 0 = p.
Proof. destruct p; simpl; f_equal; lia. Qed.

Lemma ptr_add_assoc p a b : ptr_add (ptr_add p a) b = ptr_add p (a + b).
Proof. destruct p; simpl; f_equal; lia. Qed.

Lemma container_of_add p n : CONTAINER_OF (ptr_add p n) n = p.
Proof. destruct p; unfold CONTAINER_OF; simpl; f_equal; lia. Qed.

Lemma add_container_of p n : ptr_add (CONTAINER_OF p n) n = p.
Proof. destruct p; unfold CONTAINER_OF; simpl; f_equal; lia. Qed.

#[global] Instance ptr_add_inj n : Inj (=) (=) (λ p, ptr_add p n).
Proof. intros p q H. by rewrite <- (container_of_add p n), H, container_of_add. Qed.

(** The address the linker gave to a block: a parameter, used only where the
    code reads a pointer as an integer. *)
Class Layout := addr_of : positive → Z.

Definition word_int `{Layout} (w : word) : Z :=
  match w with Int z => z | Ptr b o => u16 (addr_of b + o) end.

(** ** Link memory

    Every link structure of the kernel ([struct dnode], [struct titem],
    [struct snode]) is a node of two 16-bit words.  A node is addressed by the
    pointer to its first word, so a union of two link structures (such as
    [k_thread.tie]) is the same node read in two ways.  The address space of
    an AVR has no traps: reading an address nothing was stored to yields the
    content of a zeroed memory. *)

Record node := Node { w0 : word; w1 : word }.

#[global] Instance node_eq_dec : EqDecision node.
Proof. solve_decision. Defined.
#[global] Instance node_inhabited : Inhabited node := populate (Node NULL NULL).

Abbreviation mem := (gmap word node).

Definition rd0 (m : mem) (p : word) : word := w0 (m !!! p).
Definition rd1 (m : mem) (p : word) : word := w1 (m !!! p).
Definition wr0 (m : mem) (p v : word) : mem := <[p := Node v (rd1 m p)]> m.
Definition wr1 (m : mem) (p v : word) : mem := <[p := Node (rd0 m p) v]> m.

Lemma rd0_wr0 m p v q : rd0 (wr0 m p v) q = if decide (p = q) then v else rd0 m q.
Proof.
  unfold rd0, wr0. rewrite !lookup_total_alt. rewrite lookup_insert.
  by case_decide.
Qed.
Lemma rd1_wr1 m p v q : rd1 (wr1 m p v) q = if decide (p = q) then v else rd1 m q.
Proof.
  unfold rd1, wr1. rewrite !lookup_total_alt. rewrite lookup_insert.
  by case_decide.
Qed.
Lemma rd1_wr0 m p v q : rd1 (wr0 m p v) q = rd1 m q.
Proof.
  unfold rd1, wr0. rewrite !lookup_total_alt. rewrite lookup_insert.
  case_decide as E; [|done]. subst. unfold rd1. by rewrite lookup_total_alt.
Qed.
Lemma rd0_wr1 m p v q : rd0 (wr1 m p v) q = rd0 m q.
Proof.
  unfold rd0, wr1. rewrite !lookup_total_alt. rewrite lookup_insert.
  case_decide as E; [|done]. subst. unfold rd0. by rewrite lookup_total_alt.
Qed.

Lemma rd0_wr0_eq m p v : rd0 (wr0 m p v) p = v.
Proof. rewrite rd0_wr0. by case_decide. Qed.
Lemma rd0_wr0_ne m p v q : p ≠ q → rd0 (wr0 m p v) q = rd0 m q.
Proof. intros. rewrite rd0_wr0. by case_decide. Qed.
Lemma rd1_wr1_eq m p v : rd1 (wr1 m p v) p = v.
Proof. rewrite rd1_wr1. by case_decide. Qed.
Lemma rd1_wr1_ne m p v q : p ≠ q → rd1 (wr1 m p v) q = rd1 m q.
Proof. intros. rewrite rd1_wr1. by case_decide. Qed.

#[global] Arguments rd0 : simpl never.
#[global] Arguments rd1 : simpl never.
#[global] Arguments wr0 : simpl never.
#[global] Arguments wr1 : simpl never.

(** Rewriting reads over writes. *)
Create Rewrite HintDb links.
#[export] Hint Rewrite rd1_wr0 rd0_wr1 rd0_wr0_eq rd1_wr1_eq : links.

(** [links_simpl] pushes every read of the goal through the writes above it,
    splitting on address equality where needed. *)
Ltac links_simpl :=
  repeat (autorewrite with links;
          match goal with
          | |- context [rd0 (wr0 ?m ?p ?v) ?q] =>
              first [ rewrite (rd0_wr0_ne m p v q) by congruence
                    | rewrite (rd0_wr0 m p v q); case_decide; try subst ]
          | |- context [rd1 (wr1 ?m ?p ?v) ?q] =>
              first [ rewrite (rd1_wr1_ne m p v q) by congruence
                    | rewrite (rd1_wr1 m p v q); case_decide; try subst ]
          end);
  autorewrite with links.

(** Two memories agree on a set of nodes. *)
Definition agree_on (P : word → Prop) (m m' : mem) : Prop :=
  ∀ p, P p → rd0 m' p = rd0 m p ∧ rd1 m' p = rd1 m p.

Lemma agree_on_refl P m : agree_on P m m.
Proof. done. Qed.

Lemma agree_on_trans P m1 m2 m3 : agree_on P m1 m2 → agree_on P m2 m3 → agree_on P m1 m3.
Proof. intros H1 H2 p Hp. destruct (H1 p Hp), (H2 p Hp). split; congruence. Qed.

Lemma agree_on_impl (P Q : word → Prop) m m' :
  agree_on P m m' → (∀ p, Q p → P p) → agree_on Q m m'.
Proof. intros H HPQ p Hp. auto. Qed.

(** ** List facts shared by the components *)

Lemma NoDup_snoc {A} (l : list A) x : NoDup (l ++ [x]) ↔ NoDup l ∧ x ∉ l.
Proof.
  rewrite NoDup_app. split.
  - intros (?&H&_). split; [done|]. intros Hx. by apply (H x Hx), list_elem_of_singleton.
  - intros [??]. split_and!; [done| |apply NoDup_singleton].
    intros y Hy ->%list_elem_of_singleton. done.
Qed.

(** [nodup] turns [NoDup] and [∉] hypotheses on explicit lists into the
    inequalities they state. *)
Ltac nodup :=
  repeat match goal with
    | H : NoDup (_ :: _) |- _ => apply NoDup_cons in H as [? H]
    | H : NoDup [] |- _ => clear H
    | H : _ ∉ _ :: _ |- _ => apply not_elem_of_cons in H as [? H]
    | H : _ ∉ [] |- _ => clear H
    | H : _ ∉ _ ++ _ |- _ => apply not_elem_of_app in H as [? H]
    end.

(** Inequality of an element of a list with one outside it. *)
Ltac ne_elem := first [congruence | intros ->; contradiction | intros <-; contradiction].

(** Non-membership of an element in an explicit list. *)
Ltac nelem :=
  repeat match goal with
    | |- _ ∉ _ :: _ => apply not_elem_of_cons; split
    | |- _ ∉ _ ++ _ => apply not_elem_of_app; split
    | |- _ ∉ [] => apply not_elem_of_nil
    end;
  first [assumption | done | congruence | ne_elem].
