(* ===== verification/Dlist.v ===== *)
(** * Doubly linked lists (dstruct/dlist.c)

    [struct dnode] is a node whose first word is [next]/[head] and whose second
    is [prev]/[tail].  A list is a ring through its sentinel.  The operations
    are translated write by write; [ring m l ns] says that the ring through [l]
    visits exactly the nodes [ns], and every operation refines the list
    operation of the same name. *)

From S2P Require Import Prelude.

Abbreviation next := rd0.
Abbreviation prev := rd1.

Definition dlist_init (m : mem) (list : word) : mem :=
  let m := wr0 m list list in
  wr1 m list list.

Definition dlist_append (m : mem) (list node : word) : mem :=
  let tail := prev m list in
  let m := wr0 m tail node in
  let m := wr1 m node tail in
  let m := wr1 m list node in
  wr0 m node list.

Definition dlist_prepend (m : mem) (list node : word) : mem :=
  let head := next m list in
  let m := wr1 m node list in
  let m := wr0 m node head in
  let m := wr1 m head node in
  wr0 m list node.

Definition dlist_insert (m : mem) (successor node : word) : mem :=
  let p := prev m successor in
  let m := wr0 m p node in
  let m := wr1 m node p in
  let m := wr0 m node successor in
  wr1 m successor node.

Definition dlist_remove (m : mem) (node : word) : mem :=
  let p := prev m node in
  let n := next m node in
  let m := wr0 m p n in
  wr1 m n p.

Definition dlist_get (m : mem) (list : word) : word * mem :=
  let item := next m list in
  (item, dlist_remove m item).

Definition dlist_is_empty (m : mem) (list : word) : bool :=
  bool_decide (next m list = list).

(** The [while] loop of [dlist_count]; [None] when the fuel runs out. *)
Fixpoint dlist_count_loop (fuel : nat) (m : mem) (list cur : word) (count : Z) : option Z :=
  match fuel with
  | O => None
  | S fuel =>
      if decide (cur = list) then Some count
      else dlist_count_loop fuel m list (next m cur) (u8 (count + 1))
  end.

Definition dlist_count (fuel : nat) (m : mem) (list : word) : option Z :=
  dlist_count_loop fuel m list (next m list) 0.

(** ** The representation predicate *)

Fixpoint linked (m : mem) (x : word) (ys : list word) : Prop :=
  match ys with
  | [] => True
  | y :: ys' => next m x = y ∧ prev m y = x ∧ linked m y ys'
  end.

Definition cyc (m : mem) (l : word) (ns : list word) : Prop := linked m l (ns ++ [l]).

Definition ring (m : mem) (l : word) (ns : list word) : Prop :=
  NoDup (l :: ns) ∧ cyc m l ns.

Lemma linked_app m x ys y zs :
  linked m x (ys ++ y :: zs) ↔ linked m x (ys ++ [y]) ∧ linked m y zs.
Proof.
  revert x. induction ys as [|a ys IH]; intros x; simpl; [tauto|].
  rewrite IH. tauto.
Qed.

Lemma linked_frame m m' x ys y :
  (∀ p, p ∈ x :: ys → next m' p = next m p) →
  (∀ p, p ∈ ys ++ [y] → prev m' p = prev m p) →
  linked m x (ys ++ [y]) → linked m' x (ys ++ [y]).
Proof.
  revert x. induction ys as [|a ys IH]; intros x Hn Hp; simpl.
  - intros (?&?&_). rewrite Hn, Hp; [done|set_solver..].
  - intros (?&?&?). rewrite Hn, Hp by set_solver. split_and!; [done..|].
    apply IH; [set_solver..|done].
Qed.

Lemma cyc_rotate m l ns1 n ns2 :
  cyc m l (ns1 ++ n :: ns2) ↔ cyc m n (ns2 ++ l :: ns1).
Proof.
  unfold cyc. rewrite <- !app_assoc. simpl.
  rewrite (linked_app m l ns1 n (ns2 ++ [l])), (linked_app m n ns2 l (ns1 ++ [n])). tauto.
Qed.

Lemma ring_rotate m l ns1 n ns2 :
  ring m l (ns1 ++ n :: ns2) ↔ ring m n (ns2 ++ l :: ns1).
Proof.
  unfold ring. rewrite cyc_rotate.
  assert (l :: ns1 ++ n :: ns2 ≡ₚ n :: ns2 ++ l :: ns1) as ->; [|done].
  rewrite <- !Permutation_middle.
  rewrite (Permutation_app_comm ns2 ns1). apply perm_swap.
Qed.

Lemma ring_frame m m' l ns :
  agree_on (λ p, p ∈ l :: ns) m m' → ring m l ns → ring m' l ns.
Proof.
  intros Ha [Hnd Hc]. split; [done|]. revert Hc. apply linked_frame.
  - intros p Hp. by apply Ha.
  - intros p Hp. apply Ha. set_solver.
Qed.

Lemma ring_nil m l : ring m l [] ↔ next m l = l ∧ prev m l = l.
Proof.
  unfold ring, cyc. simpl. split; [tauto|]. intros. split_and!; try tauto.
  apply NoDup_singleton.
Qed.

Lemma ring_next m l n ns : ring m l (n :: ns) → next m l = n.
Proof. intros [_ H]. apply H. Qed.

Lemma ring_prev m l ns n : ring m l (ns ++ [n]) → prev m l = n.
Proof.
  intros [_ H]. unfold cyc in H. rewrite <- app_assoc in H. simpl in H.
  apply linked_app in H as [_ (?&?&_)]. done.
Qed.

(** ** The operations on rings *)

Lemma dlist_init_ring m l : ring (dlist_init m l) l [].
Proof. apply ring_nil. unfold dlist_init. split; links_simpl; done. Qed.

Lemma dlist_init_frame m l p :
  p ≠ l → next (dlist_init m l) p = next m p ∧ prev (dlist_init m l) p = prev m p.
Proof. intros. unfold dlist_init. split; links_simpl; done. Qed.

(** Linking a fresh node between the last node and the sentinel. *)
Lemma dlist_insert_ring m l ns n :
  ring m l ns → n ∉ l :: ns → ring (dlist_insert m l n) l (ns ++ [n]).
Proof.
  intros [Hnd Hc] Hn. split.
  { rewrite app_comm_cons. apply NoDup_snoc. done. }
  unfold cyc in *. rewrite <- app_assoc. simpl.
  apply not_elem_of_cons in Hn as [Hnl Hn].
  destruct ns as [|t ns' _] using rev_ind.
  - simpl in *. destruct Hc as (?&?&_). unfold dlist_insert.
    split_and!; links_simpl; first [done | congruence].
  - rewrite <- !app_assoc in *. simpl in *.
    apply linked_app in Hc as [Hl (Ht&Hp&_)].
    apply NoDup_cons in Hnd as [Hl1 Hnd]. apply NoDup_snoc in Hnd as [_ Ht1].
    rewrite linked_app. unfold dlist_insert. rewrite Hp. simpl. split.
    + revert Hl. apply linked_frame; intros p Hp'.
      * assert (p ≠ t ∧ p ≠ n) as [??] by (split; intros ->; set_solver).
        by links_simpl.
      * assert (p ≠ l ∧ p ≠ n) as [??] by (split; intros ->; set_solver).
        by links_simpl.
    + assert (t ≠ l) by set_solver. assert (t ≠ n) by set_solver.
      split_and!; links_simpl; first [done | congruence].
Qed.

Lemma dlist_insert_frame m l ns n p :
  ring m l ns → p ∉ n :: l :: ns →
  next (dlist_insert m l n) p = next m p ∧ prev (dlist_insert m l n) p = prev m p.
Proof.
  intros Hr Hp. unfold dlist_insert.
  assert (prev m l ∈ l :: ns).
  { destruct ns as [|t ns' _] using rev_ind.
    - apply ring_nil in Hr as [_ ->]. set_solver.
    - rewrite (ring_prev _ _ _ _ Hr). set_solver. }
  assert (p ≠ n ∧ p ≠ l ∧ p ≠ prev m l) as (?&?&?) by (split_and!; intros ->; set_solver).
  split; links_simpl; done.
Qed.

(** [dlist_append] and [dlist_insert] write the same values at the same places
    in a different order. *)
Lemma dlist_append_insert m l n :
  n ≠ l → n ≠ prev m l → ∀ p,
  next (dlist_append m l n) p = next (dlist_insert m l n) p ∧
  prev (dlist_append m l n) p = prev (dlist_insert m l n) p.
Proof. intros ?? p. unfold dlist_append, dlist_insert. split; links_simpl; first [done | congruence]. Qed.

Lemma ring_ext m m' l ns :
  (∀ p, next m' p = next m p ∧ prev m' p = prev m p) → ring m l ns → ring m' l ns.
Proof. intros H. apply ring_frame. intros p _. apply H. Qed.

Lemma ring_prev_elem m l ns : ring m l ns → prev m l ∈ l :: ns.
Proof.
  intros Hr. destruct ns as [|t ns' _] using rev_ind.
  - apply ring_nil in Hr as [_ ->]. set_solver.
  - rewrite (ring_prev _ _ _ _ Hr). set_solver.
Qed.

Lemma ring_next_elem m l ns : ring m l ns → next m l ∈ l :: ns.
Proof.
  intros Hr. destruct ns as [|t ns'].
  - apply ring_nil in Hr as [-> _]. set_solver.
  - rewrite (ring_next _ _ _ _ Hr). set_solver.
Qed.

Lemma dlist_append_ring m l ns n :
  ring m l ns → n ∉ l :: ns → ring (dlist_append m l n) l (ns ++ [n]).
Proof.
  intros Hr Hn. pose proof (ring_prev_elem _ _ _ Hr).
  eapply ring_ext; [|by apply dlist_insert_ring].
  apply dlist_append_insert; intros ->; set_solver.
Qed.

Lemma dlist_append_frame m l ns n p :
  ring m l ns → p ∉ n :: l :: ns →
  next (dlist_append m l n) p = next m p ∧ prev (dlist_append m l n) p = prev m p.
Proof.
  intros Hr Hp. pose proof (ring_prev_elem _ _ _ Hr). unfold dlist_append.
  assert (p ≠ n ∧ p ≠ l ∧ p ≠ prev m l) as (?&?&?) by (split_and!; intros ->; set_solver).
  split; links_simpl; done.
Qed.

(** Prepending is inserting before the head. *)
Lemma dlist_prepend_insert m l n :
  prev m (next m l) = l → n ≠ l → n ≠ next m l → ∀ p,
  next (dlist_prepend m l n) p = next (dlist_insert m (next m l) n) p ∧
  prev (dlist_prepend m l n) p = prev (dlist_insert m (next m l) n) p.
Proof.
  intros E ?? p. unfold dlist_prepend, dlist_insert. rewrite E.
  split; links_simpl; first [done | congruence].
Qed.

Lemma ring_next_prev m l ns : ring m l ns → prev m (next m l) = l.
Proof.
  intros [_ H]. unfold cyc in H. destruct ns; simpl in H; destruct H as (->&?&_); done.
Qed.

Lemma dlist_prepend_ring m l ns n :
  ring m l ns → n ∉ l :: ns → ring (dlist_prepend m l n) l (n :: ns).
Proof.
  intros Hr Hn. pose proof (ring_next_elem _ _ _ Hr).
  assert (n ≠ l) by (intros ->; set_solver).
  assert (n ≠ next m l) by (intros ->; set_solver).
  eapply ring_ext; [by apply dlist_prepend_insert; eauto using ring_next_prev|].
  destruct ns as [|h t].
  - rewrite (proj1 (proj1 (ring_nil m l) Hr)). by apply (dlist_insert_ring _ _ []).
  - rewrite (ring_next _ _ _ _ Hr).
    apply (ring_rotate _ _ [] h t) in Hr.
    apply (ring_rotate _ h t l [n]).
    replace (t ++ l :: [n]) with ((t ++ [l]) ++ [n]) by by rewrite <- app_assoc.
    apply dlist_insert_ring; [done|]. set_solver.
Qed.

Lemma dlist_prepend_frame m l ns n p :
  ring m l ns → p ∉ n :: l :: ns →
  next (dlist_prepend m l n) p = next m p ∧ prev (dlist_prepend m l n) p = prev m p.
Proof.
  intros Hr Hp. pose proof (ring_next_elem _ _ _ Hr). unfold dlist_prepend.
  assert (p ≠ n ∧ p ≠ l ∧ p ≠ next m l) as (?&?&?) by (split_and!; intros ->; set_solver).
  split; links_simpl; done.
Qed.

(** Unlinking the node the ring starts from. *)
Lemma dlist_remove_ring_first m n z zs :
  ring m n (z :: zs) → ring (dlist_remove m n) z zs.
Proof.
  intros [Hnd Hc]. apply NoDup_cons in Hnd as [Hn Hnd]. split; [done|].
  unfold cyc in *. simpl in Hc. destruct Hc as (Hnz&Hzn&Hc).
  destruct zs as [|t zs' _] using rev_ind; simpl in *.
  - destruct Hc as (?&?&_). unfold dlist_remove.
    split_and!; links_simpl; first [done | congruence].
  - rewrite <- !app_assoc in *. simpl in *.
    apply linked_app in Hc as [Hl (Ht&Hp&_)]. rewrite linked_app. simpl.
    apply NoDup_cons in Hnd as [Hz Hnd]. apply NoDup_snoc in Hnd as [_ Ht1].
    unfold dlist_remove. rewrite Hnz, Hp. split.
    + revert Hl. apply linked_frame; intros p Hp'.
      * assert (p ≠ t) by (intros ->; set_solver). by links_simpl.
      * assert (p ≠ z) by (intros ->; set_solver). by links_simpl.
    + split_and!; links_simpl; first [done | congruence].
Qed.

(** Unlinking any node other than the sentinel. *)
Lemma dlist_remove_ring m l ns1 n ns2 :
  ring m l (ns1 ++ n :: ns2) → ring (dlist_remove m n) l (ns1 ++ ns2).
Proof.
  intros Hr%ring_rotate. destruct ns2 as [|z ns2]; simpl in Hr;
    apply dlist_remove_ring_first in Hr.
  - by rewrite app_nil_r.
  - by apply ring_rotate.
Qed.

Lemma ring_neighbours m n ns :
  ring m n ns → ns ≠ [] → prev m n ∈ ns ∧ next m n ∈ ns.
Proof.
  intros Hr Hne. split.
  - destruct ns as [|t ns _] using rev_ind; [done|].
    rewrite (ring_prev _ _ _ _ Hr). set_solver.
  - destruct ns as [|t ns]; [done|]. rewrite (ring_next _ _ _ _ Hr). set_solver.
Qed.

Lemma dlist_remove_frame m l ns1 n ns2 p :
  ring m l (ns1 ++ n :: ns2) → p ∉ l :: ns1 ++ ns2 →
  next (dlist_remove m n) p = next m p ∧ prev (dlist_remove m n) p = prev m p.
Proof.
  intros Hr%ring_rotate Hp.
  destruct (ring_neighbours _ _ _ Hr) as [H1 H2]; [by destruct ns2|].
  unfold dlist_remove.
  assert (p ≠ prev m n ∧ p ≠ next m n) as [??] by (split; intros ->; set_solver).
  split; links_simpl; done.
Qed.

(** A node linked to itself is in no list: removing it changes nothing. *)
(** Removing the node the ring is seen from. *)
Lemma dlist_remove_head_frame m n ns p :
  ring m n ns → p ∉ n :: ns →
  next (dlist_remove m n) p = next m p ∧ prev (dlist_remove m n) p = prev m p.
Proof.
  intros Hr Hp. apply not_elem_of_cons in Hp as [Hpn Hp].
  assert (prev m n ∈ n :: ns ∧ next m n ∈ n :: ns) as [H1 H2].
  { destruct ns as [|t ns _] using rev_ind.
    - apply ring_nil in Hr as [-> ->]. set_solver.
    - destruct (ring_neighbours _ _ _ Hr) as [H1 H2]; [by destruct ns|].
      split; by apply list_elem_of_further. }
  unfold dlist_remove.
  assert (prev m n ≠ p) by (intros E; rewrite E in H1; apply elem_of_cons in H1 as [?|?]; done).
  assert (next m n ≠ p) by (intros E; rewrite E in H2; apply elem_of_cons in H2 as [?|?]; done).
  split; links_simpl; done.
Qed.

Lemma dlist_remove_self m n :
  ring m n [] → ∀ p, next (dlist_remove m n) p = next m p ∧ prev (dlist_remove m n) p = prev m p.
Proof.
  intros [Hn Hp]%ring_nil p. unfold dlist_remove. rewrite Hn, Hp.
  split; links_simpl; first [done | congruence].
Qed.

Lemma dlist_get_cons m l n ns :
  ring m l (n :: ns) →
  dlist_get m l = (n, dlist_remove m n) ∧ ring (dlist_remove m n) l ns.
Proof.
  intros Hr. unfold dlist_get. rewrite (ring_next _ _ _ _ Hr). split; [done|].
  by apply (dlist_remove_ring _ _ []).
Qed.

(** On an empty list [dlist_get] returns the list itself and changes nothing. *)
Lemma dlist_get_nil m l :
  ring m l [] → (dlist_get m l).1 = l ∧
  ∀ p, next (dlist_get m l).2 p = next m p ∧ prev (dlist_get m l).2 p = prev m p.
Proof.
  intros Hr. unfold dlist_get. rewrite (proj1 (proj1 (ring_nil _ _) Hr)). simpl.
  split; [done|]. by apply dlist_remove_self.
Qed.

Lemma dlist_is_empty_spec m l ns :
  ring m l ns → dlist_is_empty m l = bool_decide (ns = []).
Proof.
  intros Hr. unfold dlist_is_empty. apply bool_decide_ext. split.
  - intros E. destruct ns as [|n ns]; [done|]. exfalso.
    rewrite (ring_next _ _ _ _ Hr) in E. destruct Hr as [[? _]%NoDup_cons _]. set_solver.
  - intros ->. by apply ring_nil in Hr as [? _].
Qed.

Lemma dlist_count_loop_spec m l ns x fuel c :
  linked m x (ns ++ [l]) → l ∉ ns → (length ns < fuel)%nat → 0 <= c < 256 →
  dlist_count_loop fuel m l (next m x) c = Some (u8 (c + Z.of_nat (length ns))).
Proof.
  revert x fuel c. induction ns as [|n ns IH]; intros x fuel c Hl Hn Hf Hc.
  - destruct fuel; [simpl in Hf; lia|]. simpl in *. destruct Hl as (->&_).
    rewrite decide_True by done. rewrite u8_small; f_equal; lia.
  - destruct fuel; [simpl in Hf; lia|]. simpl in *. destruct Hl as (->&_&Hl).
    rewrite decide_False by set_solver.
    rewrite IH; [|done|set_solver|lia|apply u8_range].
    f_equal. unfold u8. rewrite Zplus_mod_idemp_l. f_equal. lia.
Qed.

(** Insertion before a given node: the head of [ns2], or the sentinel. *)
Lemma dlist_insert_before m l ns1 ns2 n :
  ring m l (ns1 ++ ns2) → n ∉ l :: ns1 ++ ns2 →
  ring (dlist_insert m (hd l ns2) n) l (ns1 ++ n :: ns2) ∧
  ∀ p, p ∉ n :: l :: ns1 ++ ns2 →
    next (dlist_insert m (hd l ns2) n) p = next m p ∧
    prev (dlist_insert m (hd l ns2) n) p = prev m p.
Proof.
  intros Hr Hn. destruct ns2 as [|s ns2]; simpl.
  - rewrite app_nil_r in *. split; [by apply dlist_insert_ring|].
    intros p Hp. by eapply dlist_insert_frame.
  - apply ring_rotate in Hr. split.
    + replace (ns1 ++ n :: s :: ns2) with ((ns1 ++ [n]) ++ s :: ns2) by by rewrite <- app_assoc.
      apply ring_rotate. rewrite app_comm_cons, app_assoc.
      apply dlist_insert_ring; [done|]. set_solver.
    + intros p Hp. eapply dlist_insert_frame; [done|]. set_solver.
Qed.
