(* ===== verification/Delta.v ===== *)
(** * Delta lists: the abstract specification of the time queues

    [dstruct/tqueue.c] and [dstruct/tdqueue.c] keep a list of items, each with
    the delay that separates it from its predecessor.  This file states what
    such a queue promises: the list operations on deltas ([delta_*]) and their
    meaning on absolute expiry times ([expiries]).  The pointer-level files
    refine [delta_*]; the interface class [DeltaQueue] is what the two
    implementations give to their clients. *)

From S2P Require Import Prelude.

Section Delta.
Context {A : Type} `{EqDecision A}.
Implicit Types (q : list (A * Z)) (d n : Z).

Fixpoint delta_insert (x : A) d q : list (A * Z) :=
  match q with
  | [] => [(x, d)]
  | (a, e) :: t =>
      if e <=? d then (a, e) :: delta_insert x (d - e) t else (x, d) :: (a, e - d) :: t
  end.

Fixpoint delta_shift n q : list (A * Z) :=
  match q with
  | [] => []
  | (a, e) :: t => if e <=? n then (a, 0) :: delta_shift (n - e) t else (a, e - n) :: t
  end.

Definition delta_pop q : option (A * list (A * Z)) :=
  match q with
  | (a, e) :: t => if e =? 0 then Some (a, t) else None
  | [] => None
  end.

(** The successor inherits the delay of the removed item. *)
Definition delta_bump d q : list (A * Z) :=
  match q with [] => [] | (a, e) :: t => (a, e + d) :: t end.

Fixpoint delta_remove (x : A) q : option (list (A * Z)) :=
  match q with
  | [] => None
  | (a, e) :: t => if decide (a = x) then Some (delta_bump e t)
                   else t' ← delta_remove x t; Some ((a, e) :: t')
  end.

(** Items that have expired, and the rest. *)
Fixpoint delta_expired q : list A * list (A * Z) :=
  match q with
  | (a, e) :: t => if e =? 0 then let '(xs, r) := delta_expired t in (a :: xs, r) else ([], q)
  | [] => ([], [])
  end.

(** ** Absolute times *)

Fixpoint expiries (now : Z) q : list (A * Z) :=
  match q with
  | [] => []
  | (a, e) :: t => (a, now + e) :: expiries (now + e) t
  end.

(** Insertion after every item that expires at the same time or earlier. *)
Fixpoint timed_insert (x : A) (t : Z) (l : list (A * Z)) : list (A * Z) :=
  match l with
  | [] => [(x, t)]
  | (a, u) :: l' => if u <=? t then (a, u) :: timed_insert x t l' else (x, t) :: (a, u) :: l'
  end.

Definition total q : Z := foldr (λ p acc, p.2 + acc) 0 q.

(** Well-formed queue: delays are non-negative and every absolute delay fits
    [k_delta_t] (16 bits). *)
Definition delta_ok q : Prop := Forall (λ p, 0 <= p.2) q ∧ total q < 65536.

Lemma total_nonneg q : Forall (λ p, 0 <= p.2) q → 0 <= total q.
Proof. induction 1; simpl; lia. Qed.

Lemma delta_ok_nil : delta_ok [].
Proof. split; [constructor|simpl; lia]. Qed.

Lemma delta_ok_cons a e q :
  delta_ok ((a, e) :: q) ↔ 0 <= e ∧ delta_ok q ∧ e + total q < 65536.
Proof.
  unfold delta_ok. rewrite Forall_cons. simpl. split.
  - intros [[? Hq] ?]. pose proof (total_nonneg _ Hq). split_and!; try done; lia.
  - intros (?&[? ?]&?). done.
Qed.

Lemma expiries_ge now q :
  Forall (λ p, 0 <= p.2) q → Forall (λ p, now <= p.2) (expiries now q).
Proof.
  intros Hq. revert now. induction Hq as [|[a e] q He Hq IH]; intros now; simpl; [constructor|].
  simpl in He. constructor; simpl; [lia|].
  eapply Forall_impl; [apply (IH (now + e))|]. simpl. intros; lia.
Qed.

Lemma delta_insert_expiries x d q now :
  expiries now (delta_insert x d q) = timed_insert x (now + d) (expiries now q).
Proof.
  revert d now. induction q as [|[a e] q IH]; intros d now; simpl; [done|].
  destruct (Z.leb_spec e d).
  - simpl. rewrite (proj2 (Z.leb_le (now + e) (now + d))) by lia. rewrite IH.
    do 2 f_equal. lia.
  - simpl. rewrite (proj2 (Z.leb_gt (now + e) (now + d))) by lia.
    replace (now + d + (e - d)) with (now + e) by lia. done.
Qed.

(** Shifting by [n] moves the clock from [now] to [now + n]; what was due
    before the new clock is due at it. *)
Lemma delta_shift_expiries n q now :
  0 <= n → Forall (λ p, 0 <= p.2) q →
  expiries (now + n) (delta_shift n q) =
    (λ p, (p.1, Z.max (now + n) p.2)) <$> expiries now q.
Proof.
  intros Hn Hq. revert n now Hn. induction Hq as [|[a e] q He Hq IH]; intros n now Hn; simpl; [done|].
  simpl in He. destruct (Z.leb_spec e n); simpl.
  - rewrite Z.max_l by lia. f_equal; [f_equal; lia|].
    rewrite Z.add_0_r. replace (now + n) with ((now + e) + (n - e)) by lia.
    rewrite IH by lia. done.
  - rewrite Z.max_r by lia. replace (now + n + (e - n)) with (now + e) by lia.
    f_equal. pose proof (expiries_ge (now + e) q Hq) as Hge.
    induction Hge as [|[b t] l Ht _ IHl]; simpl; [done|]. simpl in Ht.
    rewrite Z.max_r by lia. by rewrite <- IHl.
Qed.

Lemma delta_remove_expiries x q q' now :
  delta_remove x q = Some q' →
  ∃ q1 t q2, expiries now q = q1 ++ (x, t) :: q2 ∧ expiries now q' = q1 ++ q2 ∧ x ∉ q1.*1.
Proof.
  revert q' now. induction q as [|[a e] q IH]; intros q' now; simpl; [done|].
  case_decide as E.
  - intros [= <-]. subst. exists [], (now + e), (expiries (now + e) q).
    split_and!; [done| |set_solver]. destruct q as [|[b f] q]; simpl; [done|].
    replace (now + (f + e)) with (now + e + f) by lia. done.
  - destruct (delta_remove x q) as [r|] eqn:Hr; simpl; [|done]. intros [= <-].
    destruct (IH r (now + e) eq_refl) as (q1&t&q2&E1&E2&E3).
    exists ((a, now + e) :: q1), t, q2. simpl. rewrite E1, E2. set_solver.
Qed.

Lemma delta_remove_None x q : delta_remove x q = None ↔ x ∉ q.*1.
Proof.
  induction q as [|[a e] q IH]; simpl; [set_solver|]. case_decide; [set_solver|].
  destruct (delta_remove x q); simpl; set_solver.
Qed.

(** ** The operations preserve well-formedness *)

Lemma delta_insert_total x d q :
  Forall (λ p, 0 <= p.2) q → 0 <= d →
  Forall (λ p, 0 <= p.2) (delta_insert x d q) ∧
  total (delta_insert x d q) = Z.max d (total q).
Proof.
  intros Hq. revert d. induction Hq as [|[a e] q He Hq IH]; intros d Hd; simpl.
  - split; [by repeat constructor|lia].
  - simpl in He. pose proof (total_nonneg _ Hq). destruct (Z.leb_spec e d); simpl.
    + destruct (IH (d - e)) as [Hf ->]; [lia|]. split; [by constructor|lia].
    + split; [|lia]. repeat constructor; simpl; [lia|lia|done].
Qed.

Lemma delta_insert_ok x d q :
  delta_ok q → 0 <= d < 65536 → delta_ok (delta_insert x d q).
Proof.
  intros [Hq Ht] Hd. destruct (delta_insert_total x d q) as [? E]; [done|lia|].
  split; [done|lia].
Qed.

Lemma delta_shift_ok n q : delta_ok q → 0 <= n → delta_ok (delta_shift n q).
Proof.
  intros [Hq Ht] Hn. cut (Forall (λ p, 0 <= p.2) (delta_shift n q) ∧
    total (delta_shift n q) <= total q).
  { intros [??]. split; [done|lia]. }
  clear Ht. revert n Hn. induction Hq as [|[a e] q He Hq IH]; intros n Hn; simpl.
  - split; [done|lia].
  - simpl in He. destruct (Z.leb_spec e n); simpl.
    + destruct (IH (n - e)); [lia|]. split; [by constructor|lia].
    + split; [constructor; simpl; [lia|done]|lia].
Qed.

Lemma delta_bump_ok e q : delta_ok q → 0 <= e → e + total q < 65536 → delta_ok (delta_bump e q).
Proof.
  intros Hq ??. destruct q as [|[a f] q]; simpl; [apply delta_ok_nil|].
  apply delta_ok_cons in Hq as (?&?&?). simpl in *. apply delta_ok_cons. split_and!; [lia|done|lia].
Qed.

Lemma delta_remove_ok x q q' : delta_ok q → delta_remove x q = Some q' →
  delta_ok q' ∧ total q' <= total q.
Proof.
  revert q'. induction q as [|[a e] q IH]; intros q' Hok; simpl; [done|].
  apply delta_ok_cons in Hok as (?&Hq&?). case_decide.
  - intros [= <-]. split; [by apply delta_bump_ok|]. destruct q as [|[b f] q]; simpl in *; lia.
  - destruct (delta_remove x q) as [r|] eqn:Hr; simpl; [|done]. intros [= <-].
    destruct (IH r Hq eq_refl) as [Hok ?]. simpl. split; [|lia].
    apply delta_ok_cons. split_and!; [done|done|lia].
Qed.

Lemma delta_insert_elem x d q : (delta_insert x d q).*1 ≡ₚ x :: q.*1.
Proof.
  revert d. induction q as [|[a e] q IH]; intros d; simpl; [done|].
  destruct (e <=? d); simpl; [|done]. rewrite IH. apply perm_swap.
Qed.

Lemma delta_shift_elem n q : (delta_shift n q).*1 = q.*1.
Proof.
  revert n. induction q as [|[a e] q IH]; intros n; simpl; [done|].
  destruct (e <=? n); simpl; by rewrite ?IH.
Qed.

Lemma delta_remove_elem x q q' : delta_remove x q = Some q' → q.*1 ≡ₚ x :: q'.*1.
Proof.
  revert q'. induction q as [|[a e] q IH]; intros q'; simpl; [done|]. case_decide.
  - intros [= <-]. subst. destruct q as [|[b f] q]; done.
  - destruct (delta_remove x q) as [r|] eqn:Hr; simpl; [|done]. intros [= <-]. simpl.
    rewrite IH by done. apply perm_swap.
Qed.

(** What has expired after [n] ticks: exactly the items whose absolute delay
    is at most the new clock, in the order of the queue; the others keep
    their absolute expiry time. *)
Lemma filter_due_all t (l : list (A * Z)) :
  Forall (λ p, t < p.2) l →
  filter (λ p, p.2 <= t) l = [] ∧ filter (λ p, t < p.2) l = l.
Proof.
  induction 1 as [|[a u] l Hu Hl [IH1 IH2]]; [done|]. simpl in Hu.
  rewrite !filter_cons. simpl. rewrite decide_False, decide_True by lia. by rewrite IH1, IH2.
Qed.

Lemma delta_expired_expiries n q now :
  0 <= n → Forall (λ p, 0 <= p.2) q →
  (delta_expired (delta_shift n q)).1 = (filter (λ p, p.2 <= now + n) (expiries now q)).*1 ∧
  expiries (now + n) (delta_expired (delta_shift n q)).2
    = filter (λ p, now + n < p.2) (expiries now q).
Proof.
  intros Hn Hq. revert n now Hn.
  induction Hq as [|[a e] q He Hq IH]; intros n now Hn; simpl; [done|].
  simpl in He. rewrite !filter_cons. simpl. destruct (Z.leb_spec e n); simpl.
  - destruct (IH (n - e) (now + e)) as [E1 E2]; [lia|].
    replace (now + e + (n - e)) with (now + n) in * by lia.
    destruct (delta_expired _) as [xs r]. simpl in *. rewrite E1, E2.
    rewrite decide_True, decide_False by lia. done.
  - destruct (Z.eqb_spec (e - n) 0); [lia|]. simpl.
    rewrite decide_False, decide_True by lia.
    destruct (filter_due_all (now + n) (expiries (now + e) q)) as [-> ->].
    + eapply Forall_impl; [by apply expiries_ge|]. simpl. intros; lia.
    + by replace (now + n + (e - n)) with (now + e) by lia.
Qed.

Lemma delta_expired_ok q : delta_ok q → delta_ok (delta_expired q).2.
Proof.
  induction q as [|[a e] q IH]; intros Hok; simpl; [done|].
  destruct (Z.eqb_spec e 0); [|done]. apply delta_ok_cons in Hok as (_&Hq&_).
  specialize (IH Hq). by destruct (delta_expired q).
Qed.
End Delta.

(** ** The interface of a time queue

    A root designates the queue in the link memory; [dq_rep] relates it to a
    delta list.  [dq_pop_nil] is what popping an empty queue requires. *)
Class DeltaQueue := {
  dq_schedule : nat → mem → word → word → Z → option mem;
  dq_shift : nat → mem → word → Z → option mem;
  dq_pop : mem → word → word * mem;
  dq_rep : mem → word → list (word * Z) → Prop;
  dq_fresh : word → word → list (word * Z) → Prop;
  dq_pop_nil : mem → word → Prop;
  dq_nodup m r q : dq_rep m r q → NoDup q.*1 ∧ NULL ∉ q.*1;
  dq_schedule_ok fuel m r q x d :
    dq_rep m r q → delta_ok q → dq_fresh x r q → 0 <= d < 65536 → (length q < fuel)%nat →
    ∃ m', dq_schedule fuel m r x d = Some m' ∧ dq_rep m' r (delta_insert x d q);
  dq_shift_ok fuel m r q n :
    dq_rep m r q → delta_ok q → 0 <= n < 65536 → (length q < fuel)%nat →
    ∃ m', dq_shift fuel m r n = Some m' ∧ dq_rep m' r (delta_shift n q) ∧
          (dq_pop_nil m r → dq_pop_nil m' r);
  dq_pop_due m r x q :
    dq_rep m r ((x, 0) :: q) → ∃ m', dq_pop m r = (x, m') ∧ dq_rep m' r q ∧
      (dq_pop_nil m r → dq_pop_nil m' r);
  dq_pop_early m r x d q : dq_rep m r ((x, d) :: q) → 0 < d < 65536 → (dq_pop m r).1 = NULL
    ∧ dq_rep (dq_pop m r).2 r ((x, d) :: q);
  dq_pop_empty m r : dq_rep m r [] → dq_pop_nil m r →
    (dq_pop m r).1 = NULL ∧ dq_rep (dq_pop m r).2 r [];
}.

Section DeltaQueueClient.
Context `{DeltaQueue}.

(** The loop every client runs after a shift: pop until nothing has expired. *)
Fixpoint dq_drain (fuel : nat) (m : mem) (r : word) : option (list word * mem) :=
  match fuel with
  | O => None
  | S fuel =>
      let '(x, m) := dq_pop m r in
      if decide (x = NULL) then Some ([], m)
      else '(xs, m) ← dq_drain fuel m r; Some (x :: xs, m)
  end.

Lemma dq_drain_expired fuel m r q :
  dq_rep m r q → delta_ok q → dq_pop_nil m r → (length q < fuel)%nat →
  ∃ m', dq_drain fuel m r = Some ((delta_expired q).1, m') ∧ dq_rep m' r (delta_expired q).2.
Proof.
  revert fuel m. induction q as [|[x d] q IH]; intros fuel m Hrep Hok Hnil Hf;
    (destruct fuel as [|fuel]; [simpl in Hf; lia|]); simpl.
  - destruct (dq_pop_empty _ _ Hrep Hnil) as [E Hr]. destruct (dq_pop m r) as [y m'].
    simpl in *. subst. eauto.
  - destruct (dq_nodup _ _ _ Hrep) as [_ Hnn]. apply delta_ok_cons in Hok as (?&Hok&?).
    pose proof (total_nonneg _ (proj1 Hok)). destruct (Z.eqb_spec d 0) as [->|Hd].
    + destruct (dq_pop_due _ _ _ _ Hrep) as (m'&->&Hr&Hn).
      rewrite decide_False by (intros ->; set_solver).
      destruct (IH fuel m' Hr Hok (Hn Hnil)) as (m''&->&Hr'); [simpl in Hf; lia|].
      simpl. destruct (delta_expired q). eauto.
    + destruct (dq_pop_early _ _ _ _ _ Hrep) as [E Hr]; [lia|].
      destruct (dq_pop m r) as [y m']. simpl in *. subst. eauto.
Qed.

(** One tick of [n]: the items whose time has come are delivered in the order of
    their times, and the others keep theirs. *)
Lemma dq_advance fuel m r q now n :
  dq_rep m r q → delta_ok q → dq_pop_nil m r → 0 <= n < 65536 → (length q < fuel)%nat →
  ∃ m1 m2 q', dq_shift fuel m r n = Some m1 ∧
    dq_drain fuel m1 r = Some ((filter (λ p, p.2 <= now + n) (expiries now q)).*1, m2) ∧
    dq_rep m2 r q' ∧ delta_ok q' ∧
    expiries (now + n) q' = filter (λ p, now + n < p.2) (expiries now q).
Proof.
  intros Hr Hok Hnil Hn Hf. destruct (dq_shift_ok _ _ _ _ _ Hr Hok Hn Hf) as (m1&E1&Hr1&Hnil1).
  pose proof (delta_shift_ok n q Hok (proj1 Hn)) as Hok1.
  assert (length (delta_shift n q) = length q) as Hlen.
  { rewrite <- (length_fmap fst), delta_shift_elem. apply length_fmap. }
  destruct (dq_drain_expired fuel m1 r _ Hr1 Hok1 (Hnil1 Hnil)) as (m2&E2&Hr2); [lia|].
  destruct (delta_expired_expiries n q now) as [H1 H2]; [lia|apply Hok|].
  exists m1, m2, (delta_expired (delta_shift n q)).2. rewrite <- H1, <- H2.
  split_and!; try done. by apply delta_expired_ok.
Qed.
End DeltaQueueClient.
