(* ===== verification/Tqueue.v ===== *)
(** * The singly linked time queue (dstruct/tqueue.c)

    A [struct titem] is a node whose first word is [delay_shift] (also named
    [timeout]) and whose second is [next].  The code walks the list with a
    [struct titem **]: a pointer to the word that holds the link, which is
    either the root variable or the [next] field of an item, two bytes after
    its start.  So the word a double pointer [pp] designates is the second word
    of the node at [CONTAINER_OF(pp, struct titem, next)]; the root variable is
    the second word of the node two bytes before it. *)

From S2P Require Import Prelude Delta.

Section Tqueue.
Context `{Layout}.

Definition titem_next_ofs : Z := 2.
Definition titem_next_addr (p : word) : word := ptr_add p titem_next_ofs.

(** [*pp] and [*pp = v] for a [struct titem **pp]. *)
Definition deref (m : mem) (pp : word) : word := rd1 m (CONTAINER_OF pp titem_next_ofs).
Definition assign (m : mem) (pp v : word) : mem := wr1 m (CONTAINER_OF pp titem_next_ofs) v.

Definition delay_shift (m : mem) (p : word) : Z := word_int (rd0 m p).
Definition set_delay (m : mem) (p : word) (d : Z) : mem := wr0 m p (Int d).

Fixpoint z_tqueue_schedule_loop (fuel : nat) (m : mem) (prev_next_p item : word) : option mem :=
  match fuel with
  | O => None
  | S fuel =>
      let p_current := deref m prev_next_p in
      if decide (p_current = NULL) then Some (assign m prev_next_p item)
      else if delay_shift m p_current <=? delay_shift m item then
        let m := set_delay m item (u16 (delay_shift m item - delay_shift m p_current)) in
        z_tqueue_schedule_loop fuel m (titem_next_addr p_current) item
      else
        let m := wr1 m item p_current in
        let m := set_delay m p_current (u16 (delay_shift m p_current - delay_shift m item)) in
        Some (assign m prev_next_p item)
  end.

Definition z_tqueue_schedule (fuel : nat) (m : mem) (root item : word) : option mem :=
  z_tqueue_schedule_loop fuel m root item.

Definition tqueue_schedule (fuel : nat) (m : mem) (root item : word) (timeout : Z) : option mem :=
  if decide (item = NULL) then Some m
  else
    let m := wr1 m item NULL in
    let m := set_delay m item timeout in
    z_tqueue_schedule fuel m root item.

Fixpoint tqueue_shift_loop (fuel : nat) (m : mem) (prev_next_p : word) (time_passed : Z) : option mem :=
  match fuel with
  | O => None
  | S fuel =>
      let p_current := deref m prev_next_p in
      if decide (p_current = NULL) then Some m
      else if delay_shift m p_current <=? time_passed then
        if negb (delay_shift m p_current =? 0) then
          let time_passed := u16 (time_passed - delay_shift m p_current) in
          tqueue_shift_loop fuel (set_delay m p_current 0) (titem_next_addr p_current) time_passed
        else tqueue_shift_loop fuel m (titem_next_addr p_current) time_passed
      else Some (set_delay m p_current (u16 (delay_shift m p_current - time_passed)))
  end.

Definition tqueue_shift (fuel : nat) (m : mem) (root : word) (time_passed : Z) : option mem :=
  tqueue_shift_loop fuel m root time_passed.

(** [chk] is [CONFIG_KERNEL_ARGS_CHECKS]: with it [z_user(root)] tests the
    argument. *)
Definition tqueue_pop (chk : bool) (m : mem) (root : word) : word * mem :=
  if chk && bool_decide (root = NULL) then (NULL, m)
  else
    let item := deref m root in
    if decide (item ≠ NULL ∧ delay_shift m item = 0) then (item, assign m root (rd1 m item))
    else (NULL, m).

Definition tqueue_pop_reschedule (fuel : nat) (chk : bool) (m : mem) (root : word) (timeout : Z)
    : option (word * mem) :=
  let '(item, m) := tqueue_pop chk m root in
  if decide (item ≠ NULL) then
    m ← tqueue_schedule fuel m root item timeout; Some (item, m)
  else Some (item, m).

Fixpoint tqueue_remove_loop (fuel : nat) (m : mem) (pp_next item : word) : option (Z * mem) :=
  match fuel with
  | O => None
  | S fuel =>
      let p_current := deref m pp_next in
      if decide (p_current = NULL) then Some (- ENOENT, m)
      else if decide (p_current = item) then
        let m := assign m pp_next (rd1 m p_current) in
        let n := rd1 m p_current in
        let m := if decide (n ≠ NULL)
                 then set_delay m n (u16 (delay_shift m n + delay_shift m item)) else m in
        Some (0, wr1 m item NULL)
      else tqueue_remove_loop fuel m (titem_next_addr p_current) item
  end.

Definition tqueue_remove (fuel : nat) (chk : bool) (m : mem) (root item : word) : option (Z * mem) :=
  if chk && (bool_decide (item = NULL) || bool_decide (root = NULL)) then Some (- EINVAL, m)
  else tqueue_remove_loop fuel m root item.

Definition tqueue_reschedule (fuel : nat) (chk : bool) (m : mem) (root item : word) (timeout : Z)
    : option (Z * mem) :=
  '(ret, m) ← tqueue_remove fuel chk m root item;
  if negb (ret =? 0) then Some (ret, m)
  else m ← tqueue_schedule fuel m root item timeout; Some (0, m).

(** ** The representation predicate

    [chain m p q]: following [next] from node [p] visits the items of [q]
    with their delays and ends at [NULL]. *)
Fixpoint chain (m : mem) (p : word) (q : list (word * Z)) : Prop :=
  match q with
  | [] => rd1 m p = NULL
  | (a, d) :: t => rd1 m p = a ∧ a ≠ NULL ∧ rd0 m a = Int d ∧ chain m a t
  end.

Definition tq_node (root : word) : word := CONTAINER_OF root titem_next_ofs.

Definition tq_rep (m : mem) (root : word) (q : list (word * Z)) : Prop :=
  NoDup (tq_node root :: q.*1) ∧ chain m (tq_node root) q.

Lemma deref_next m p : deref m (titem_next_addr p) = rd1 m p.
Proof. unfold deref, titem_next_addr. by rewrite container_of_add. Qed.
Lemma assign_next m p v : assign m (titem_next_addr p) v = wr1 m p v.
Proof. unfold assign, titem_next_addr. by rewrite container_of_add. Qed.
Lemma root_next root : root = titem_next_addr (tq_node root).
Proof. unfold titem_next_addr, tq_node. by rewrite add_container_of. Qed.

Lemma chain_frame m m' p q :
  rd1 m' p = rd1 m p → agree_on (λ x, x ∈ q.*1) m m' → chain m p q → chain m' p q.
Proof.
  revert p. induction q as [|[a d] q IH]; intros p Hp Ha; simpl; [congruence|].
  intros (E&?&?&?). destruct (Ha a) as [Ha0 Ha1]; [simpl; set_solver|].
  split_and!; [congruence|done|congruence|].
  apply IH; [done| |done]. eapply agree_on_impl; [done|]. simpl. set_solver.
Qed.

Lemma chain_nonnull m p q : chain m p q → NULL ∉ q.*1.
Proof.
  revert p. induction q as [|[a d] q IH]; intros p; simpl; [set_solver|].
  intros (_&?&_&?%IH). set_solver.
Qed.

Lemma delay_shift_int m p d : rd0 m p = Int d → delay_shift m p = d.
Proof. unfold delay_shift. by intros ->. Qed.

(** ** Scheduling *)

Lemma z_tqueue_schedule_loop_spec fuel m p item d q :
  chain m p q → delta_ok q → NoDup (item :: p :: q.*1) → item ≠ NULL →
  rd0 m item = Int d → rd1 m item = NULL → 0 <= d < 65536 → (length q < fuel)%nat →
  ∃ m', z_tqueue_schedule_loop fuel m (titem_next_addr p) item = Some m' ∧
    chain m' p (delta_insert item d q) ∧ rd0 m' p = rd0 m p ∧
    agree_on (λ x, x ∉ item :: p :: q.*1) m m'.
Proof.
  revert fuel m p d. induction q as [|[a e] q IH]; intros fuel m p d Hc Hok Hnd Hnn Hd Hn Hr Hf;
    (destruct fuel as [|fuel]; [simpl in Hf; lia|]);
    cbn [z_tqueue_schedule_loop]; rewrite deref_next; simpl in Hnd, Hc; nodup.
  - rewrite Hc, decide_True by done. rewrite assign_next.
    eexists; split; [done|]. simpl. split_and!; links_simpl; try done.
    intros x Hx. simpl in Hx. nodup. split; links_simpl; done.
  - destruct Hc as (Hpa&Ha&Hae&Hc). apply delta_ok_cons in Hok as (He&Hok&Ht).
    pose proof (total_nonneg _ (proj1 Hok)).
    rewrite Hpa, decide_False by done.
    rewrite (delay_shift_int _ _ _ Hd), (delay_shift_int _ _ _ Hae).
    simpl. destruct (Z.leb_spec e d) as [Hle|Hlt].
    + rewrite u16_small by lia. unfold set_delay.
      destruct (IH fuel (wr0 m item (Int (d - e))) a (d - e)) as (m'&Hs&Hc'&Ha0&Hag);
        try (links_simpl; done).
      * revert Hc. apply chain_frame; links_simpl; [done|].
        intros x Hx. assert (item ≠ x) by ne_elem. split; links_simpl; done.
      * rewrite !NoDup_cons, !not_elem_of_cons. done.
      * lia.
      * simpl in Hf. lia.
      * exists m'. split; [done|]. destruct (Hag p) as [Hp0 Hp1]; [nelem|].
        revert Hp0 Hp1 Ha0. links_simpl. intros Hp0 Hp1 Ha0. simpl.
        split_and!; try congruence; try done.
        intros x Hx. simpl in Hx. nodup. destruct (Hag x) as [-> ->]; [nelem|].
        split; links_simpl; done.
    + rewrite assign_next. eexists; split; [done|]. unfold set_delay.
      assert (E : delay_shift (wr1 m item a) a = e) by (unfold delay_shift; links_simpl; by rewrite Hae).
      assert (E' : delay_shift (wr1 m item a) item = d) by (unfold delay_shift; links_simpl; by rewrite Hd).
      rewrite E, E', u16_small by lia. simpl. split_and!; links_simpl; try done.
      * revert Hc. apply chain_frame; links_simpl; [done|]. intros x Hx.
        assert (item ≠ x) by ne_elem. assert (a ≠ x) by ne_elem. assert (p ≠ x) by ne_elem.
        split; links_simpl; done.
      * intros x Hx. simpl in Hx. nodup. split; links_simpl; done.
Qed.

(** ** Time passing *)

Lemma tqueue_shift_loop_spec fuel m p n q :
  chain m p q → delta_ok q → NoDup (p :: q.*1) → 0 <= n < 65536 → (length q < fuel)%nat →
  ∃ m', tqueue_shift_loop fuel m (titem_next_addr p) n = Some m' ∧
    chain m' p (delta_shift n q) ∧ agree_on (λ x, x ∉ q.*1) m m' ∧
    ∀ x, rd1 m' x = rd1 m x.
Proof.
  revert fuel m p n. induction q as [|[a e] q IH]; intros fuel m p n Hc Hok Hnd Hn Hf;
    (destruct fuel as [|fuel]; [simpl in Hf; lia|]);
    cbn [tqueue_shift_loop]; rewrite deref_next; simpl in Hnd, Hc; nodup.
  - rewrite Hc, decide_True by done. exists m. done.
  - destruct Hc as (Hpa&Ha&Hae&Hc). apply delta_ok_cons in Hok as (He&Hok&Ht).
    rewrite Hpa, decide_False, (delay_shift_int _ _ _ Hae) by done. simpl.
    pose proof (total_nonneg _ (proj1 Hok)). unfold set_delay.
    destruct (Z.leb_spec e n) as [Hle|Hlt].
    + destruct (IH fuel (wr0 m a (Int 0)) a (n - e)) as (m'&Hs&Hc'&Hag&Hw1);
        [|done|by apply NoDup_cons|lia|simpl in Hf; lia|].
      { revert Hc. apply chain_frame; links_simpl; [done|].
        intros x Hx. assert (a ≠ x) by ne_elem. split; links_simpl; done. }
      assert (Hfin : chain m' p ((a, 0) :: delta_shift (n - e) q) ∧
                agree_on (λ x, x ∉ a :: q.*1) m m' ∧ ∀ x, rd1 m' x = rd1 m x).
      { simpl. split_and!; try done.
        - rewrite Hw1. by links_simpl.
        - destruct (Hag a) as [-> _]; [done|]. by links_simpl.
        - intros x Hx. nodup. destruct (Hag x) as [-> ->]; [done|]. split; links_simpl; done.
        - intros x. rewrite Hw1. by links_simpl. }
      destruct (Z.eqb_spec e 0) as [->|]; simpl.
      * rewrite Z.sub_0_r in *.
        destruct (IH fuel m a n) as (m''&Hs'&Hc''&Hag'&Hw1');
          [done|done|by apply NoDup_cons|lia|simpl in Hf; lia|].
        exists m''. split; [done|]. simpl. split_and!; try done.
        -- rewrite Hw1'. done.
        -- destruct (Hag' a) as [-> _]; done.
        -- intros x Hx. nodup. by apply Hag'.
      * rewrite u16_small by lia. exists m'. done.
    + eexists; split; [done|]. rewrite u16_small by lia. simpl. split_and!; links_simpl; try done.
      * revert Hc. apply chain_frame; links_simpl; [done|].
        intros x Hx. assert (a ≠ x) by ne_elem. split; links_simpl; done.
      * intros x Hx. simpl in Hx. nodup. split; links_simpl; done.
      * intros x. by links_simpl.
Qed.

(** ** Removal *)

Lemma tqueue_remove_loop_spec fuel m p item q :
  chain m p q → delta_ok q → NoDup (p :: q.*1) → (length q < fuel)%nat →
  match delta_remove item q with
  | Some q' => ∃ m', tqueue_remove_loop fuel m (titem_next_addr p) item = Some (0, m') ∧
      chain m' p q' ∧ rd0 m' p = rd0 m p ∧ agree_on (λ x, x ∉ p :: q.*1) m m' ∧
      rd1 m' item = NULL ∧ rd0 m' item = rd0 m item
  | None => tqueue_remove_loop fuel m (titem_next_addr p) item = Some (- ENOENT, m)
  end.
Proof.
  revert fuel m p. induction q as [|[a e] q IH]; intros fuel m p Hc Hok Hnd Hf;
    (destruct fuel as [|fuel]; [simpl in Hf; lia|]);
    cbn [tqueue_remove_loop delta_remove]; rewrite deref_next; simpl in Hnd, Hc; nodup.
  - by rewrite Hc, decide_True.
  - destruct Hc as (Hpa&Ha&Hae&Hc). apply delta_ok_cons in Hok as (He&Hok&Ht).
    rewrite Hpa, (decide_False (P := a = NULL)) by done. case_decide as Heq.
    + subst item. eexists; split; [done|]. rewrite assign_next. unfold set_delay.
      assert (Hn : rd1 (wr1 m p (rd1 m a)) a = rd1 m a) by by links_simpl.
      rewrite Hn. destruct q as [|[b f] q]; simpl in Hc |- *.
      * rewrite Hc, decide_False by tauto.
        split_and!; links_simpl; try done. intros x Hx. nodup. split; links_simpl; done.
      * destruct Hc as (Hab&Hb&Hbf&Hc). rewrite Hab, decide_True by done.
        apply delta_ok_cons in Hok as (?&Hok&?). simpl in Ht, H0, H1, Hnd. nodup.
        pose proof (total_nonneg _ (proj1 Hok)).
        assert (E1 : delay_shift (wr1 m p b) b = f) by (unfold delay_shift; links_simpl; by rewrite Hbf).
        assert (E2 : delay_shift (wr1 m p b) a = e) by (unfold delay_shift; links_simpl; by rewrite Hae).
        rewrite E1, E2, u16_small by lia.
        split_and!; links_simpl; try done.
        -- revert Hc. apply chain_frame; links_simpl; [done|]. intros x Hx.
           assert (a ≠ x) by ne_elem. assert (b ≠ x) by ne_elem. assert (p ≠ x) by ne_elem.
           split; links_simpl; done.
        -- intros x Hx. nodup. split; links_simpl; done.
    + specialize (IH fuel m a Hc Hok). destruct (delta_remove item q) as [q'|] eqn:Hrm; simpl.
      * destruct IH as (m'&Hs&Hc'&Ha0&Hag&Hi&Hi0); [by apply NoDup_cons|simpl in Hf; lia|].
        exists m'. split; [done|]. destruct (Hag p) as [Hp0 Hp1]; [nelem|].
        split_and!; try done; [congruence|congruence|].
        intros x Hx. nodup. apply Hag. nelem.
      * apply IH; [by apply NoDup_cons|simpl in Hf; lia].
Qed.

(** ** The public operations on represented queues

    Each keeps the queue apart from every other node: only the root word and
    the items of the queue are written. *)

Lemma tqueue_schedule_spec fuel m root q x d :
  tq_rep m root q → delta_ok q → x ∉ tq_node root :: q.*1 → x ≠ NULL →
  0 <= d < 65536 → (length q < fuel)%nat →
  ∃ m', tqueue_schedule fuel m root x d = Some m' ∧ tq_rep m' root (delta_insert x d q) ∧
    rd0 m' (tq_node root) = rd0 m (tq_node root) ∧
    agree_on (λ y, y ∉ x :: tq_node root :: q.*1) m m'.
Proof.
  intros [Hnd Hc] Hok Hx Hnn Hd Hf. unfold tqueue_schedule, z_tqueue_schedule.
  rewrite decide_False by done. unfold set_delay.
  assert (Hnd' : NoDup (x :: tq_node root :: q.*1)) by by apply NoDup_cons.
  nodup.
  destruct (z_tqueue_schedule_loop_spec fuel (wr0 (wr1 m x NULL) x (Int d)) (tq_node root) x d q)
    as (m'&Hs&Hc'&Hr0&Hag); try done; try (links_simpl; done).
  - revert Hc. apply chain_frame; links_simpl; [done|]. intros y Hy.
    assert (x ≠ y) by ne_elem. split; links_simpl; done.
  - rewrite !NoDup_cons, !not_elem_of_cons. done.
  - exists m'. rewrite <- root_next in Hs. split; [done|]. split_and!.
    + split; [|done]. rewrite NoDup_cons. rewrite delta_insert_elem, NoDup_cons.
      split_and!; [nelem|done|done].
    + rewrite Hr0. by links_simpl.
    + intros y Hy. destruct (Hag y Hy) as [-> ->]. nodup. split; links_simpl; done.
Qed.

Lemma tqueue_shift_spec fuel m root q n :
  tq_rep m root q → delta_ok q → 0 <= n < 65536 → (length q < fuel)%nat →
  ∃ m', tqueue_shift fuel m root n = Some m' ∧ tq_rep m' root (delta_shift n q) ∧
    agree_on (λ y, y ∉ q.*1) m m' ∧ ∀ y, rd1 m' y = rd1 m y.
Proof.
  intros [Hnd Hc] Hok Hn Hf. unfold tqueue_shift.
  destruct (tqueue_shift_loop_spec fuel m (tq_node root) n q) as (m'&Hs&Hc'&Hag&Hw); try done.
  exists m'. rewrite <- root_next in Hs. split_and!; try done.
  split; [|done]. by rewrite delta_shift_elem.
Qed.

Lemma tqueue_pop_spec chk m root q :
  tq_rep m root q → root ≠ NULL →
  match delta_pop q with
  | Some (x, q') => ∃ m', tqueue_pop chk m root = (x, m') ∧ tq_rep m' root q' ∧
      rd0 m' (tq_node root) = rd0 m (tq_node root) ∧ agree_on (λ y, y ≠ tq_node root) m m'
  | None => tqueue_pop chk m root = (NULL, m)
  end.
Proof.
  intros [Hnd Hc] Hr. unfold tqueue_pop. rewrite (bool_decide_eq_false_2 _ Hr), andb_false_r.
  rewrite (root_next root), deref_next, assign_next. fold (tq_node root).
  replace (tq_node (titem_next_addr (tq_node root))) with (tq_node root) by by rewrite <- root_next.
  destruct q as [|[a e] q]; simpl in *.
  - rewrite Hc, decide_False by tauto. done.
  - destruct Hc as (Hpa&Ha&Hae&Hc). rewrite Hpa, (delay_shift_int _ _ _ Hae).
    destruct (Z.eqb_spec e 0) as [->|He].
    + rewrite decide_True by done. eexists; split; [done|]. nodup. split_and!.
      * split; [rewrite <- root_next; by apply NoDup_cons|]. rewrite <- root_next.
        destruct q as [|[b f] q]; simpl in Hc |- *; links_simpl; [done|].
        destruct Hc as (?&?&?&Hc). split_and!; try done. revert Hc.
        simpl in *. nodup. apply chain_frame; links_simpl; [done|].
        intros y Hy. assert (tq_node root ≠ y) by ne_elem. split; links_simpl; done.
      * by links_simpl.
      * intros y Hy. split; links_simpl; done.
    + rewrite decide_False by tauto. done.
Qed.

Lemma tqueue_remove_spec fuel chk m root item q :
  tq_rep m root q → delta_ok q → root ≠ NULL → item ≠ NULL → (length q < fuel)%nat →
  match delta_remove item q with
  | Some q' => ∃ m', tqueue_remove fuel chk m root item = Some (0, m') ∧
      tq_rep m' root q' ∧ rd0 m' (tq_node root) = rd0 m (tq_node root) ∧
      agree_on (λ y, y ∉ tq_node root :: q.*1) m m' ∧ rd1 m' item = NULL
  | None => tqueue_remove fuel chk m root item = Some (- ENOENT, m)
  end.
Proof.
  intros [Hnd Hc] Hok Hr Hi Hf. unfold tqueue_remove.
  rewrite (bool_decide_eq_false_2 _ Hr), (bool_decide_eq_false_2 _ Hi), andb_false_r.
  pose proof (tqueue_remove_loop_spec fuel m (tq_node root) item q Hc Hok Hnd Hf) as Hspec.
  rewrite <- root_next in Hspec.
  destruct (delta_remove item q) as [q'|] eqn:Hrm; [|done].
  destruct Hspec as (m'&?&?&?&?&?&?). exists m'. split_and!; try done. split; [|done].
  pose proof (delta_remove_elem _ _ _ Hrm) as Hp. apply NoDup_cons in Hnd as [Hn1 Hnd].
  rewrite Hp in Hn1, Hnd. nodup. by apply NoDup_cons.
Qed.

(** [tqueue] implements the time-queue interface. *)
#[export] Program Instance tqueue_delta_queue (chk : bool) : DeltaQueue := {|
  dq_schedule := tqueue_schedule;
  dq_shift := tqueue_shift;
  dq_pop := tqueue_pop chk;
  dq_rep m r q := tq_rep m r q ∧ r ≠ NULL;
  dq_fresh x r q := (x ∉ tq_node r :: q.*1) ∧ x ≠ NULL;
  dq_pop_nil m r := True;
|}.
Next Obligation.
  intros _ m r q [[Hnd Hc] _]. apply NoDup_cons in Hnd as [_ ?]. eauto using chain_nonnull.
Qed.
Next Obligation.
  intros _ fuel m r q x d [Hr Hn] Hok [Hx Hxn] Hd Hf.
  destruct (tqueue_schedule_spec fuel m r q x d) as (m'&?&?&_); eauto.
Qed.
Next Obligation.
  intros _ fuel m r q n [Hr Hn] Hok Hd Hf.
  destruct (tqueue_shift_spec fuel m r q n) as (m'&?&?&_); eauto 10.
Qed.
Next Obligation.
  intros chk m r x q [Hr Hn].
  destruct (tqueue_pop_spec chk m r _ Hr Hn) as (m'&?&?&_). eauto 10.
Qed.
Next Obligation.
  intros chk m r x d q [Hr Hn] Hd. pose proof (tqueue_pop_spec chk m r _ Hr Hn) as Hp.
  simpl in Hp. rewrite (proj2 (Z.eqb_neq d 0)) in Hp by lia. rewrite Hp. done.
Qed.
Next Obligation.
  intros chk m r [Hr Hn] _. pose proof (tqueue_pop_spec chk m r _ Hr Hn) as Hp.
  simpl in Hp. rewrite Hp. done.
Qed.
End Tqueue.
