(* ===== verification/Tdqueue.v ===== *)
(** * The doubly linked time queue (dstruct/tdqueue.c)

    A [struct tditem] holds its delay in its first word and its [struct dnode]
    two bytes further; the queue is a ring through the sentinel. *)

From S2P Require Import Prelude Dlist Delta Tqueue.

Section Tdqueue.
Context `{Layout}.

Definition tditem_node_ofs : Z := 2.
Definition tditem_node (item : word) : word := ptr_add item tditem_node_ofs.
Definition tditem_of (node : word) : word := CONTAINER_OF node tditem_node_ofs.

Fixpoint z_tdqueue_schedule_loop (fuel : nat) (m : mem) (tqueue item p_node : word) : option mem :=
  match fuel with
  | O => None
  | S fuel =>
      if decide (p_node = tqueue) then Some (dlist_insert m p_node (tditem_node item))
      else
        let p_item := tditem_of p_node in
        if delay_shift m p_item <=? delay_shift m item then
          let m := set_delay m item (u16 (delay_shift m item - delay_shift m p_item)) in
          z_tdqueue_schedule_loop fuel m tqueue item (next m p_node)
        else
          let m := dlist_insert m p_node (tditem_node item) in
          Some (set_delay m p_item (u16 (delay_shift m p_item - delay_shift m item)))
  end.

Definition z_tdqueue_schedule (fuel : nat) (m : mem) (tqueue item : word) : option mem :=
  z_tdqueue_schedule_loop fuel m tqueue item (next m tqueue).

Definition tdqueue_schedule (fuel : nat) (m : mem) (tqueue item : word) (timeout : Z) : option mem :=
  if decide (item = NULL) then Some m
  else
    let m := dlist_init m (tditem_node item) in
    let m := set_delay m item timeout in
    z_tdqueue_schedule fuel m tqueue item.

Fixpoint tdqueue_shift_loop (fuel : nat) (m : mem) (tqueue p_node : word) (time_passed : Z) : option mem :=
  match fuel with
  | O => None
  | S fuel =>
      if decide (p_node = tqueue) then Some m
      else
        let p_item := tditem_of p_node in
        if delay_shift m p_item <=? time_passed then
          if negb (delay_shift m p_item =? 0) then
            let time_passed := u16 (time_passed - delay_shift m p_item) in
            let m := set_delay m p_item 0 in
            tdqueue_shift_loop fuel m tqueue (next m p_node) time_passed
          else tdqueue_shift_loop fuel m tqueue (next m p_node) time_passed
        else Some (set_delay m p_item (u16 (delay_shift m p_item - time_passed)))
  end.

Definition tdqueue_shift (fuel : nat) (m : mem) (tqueue : word) (time_passed : Z) : option mem :=
  tdqueue_shift_loop fuel m tqueue (next m tqueue) time_passed.

Definition tdqueue_pop (m : mem) (tqueue : word) : word * mem :=
  let head := tditem_of (next m tqueue) in
  if delay_shift m head =? 0 then (head, dlist_remove m (tditem_node head)) else (NULL, m).

Definition tdqueue_pop_reschedule (fuel : nat) (m : mem) (tqueue : word) (timeout : Z)
    : option (word * mem) :=
  let '(item, m) := tdqueue_pop m tqueue in
  if decide (item ≠ NULL) then
    m ← tdqueue_schedule fuel m tqueue item timeout; Some (item, m)
  else Some (item, m).

Definition tdqueue_remove (m : mem) (tqueue item : word) : mem :=
  let p := prev m (tditem_node item) in
  let n := next m (tditem_node item) in
  let m := wr0 m p n in
  let m := wr1 m n p in
  if decide (n ≠ tqueue) then
    let successor := tditem_of n in
    set_delay m successor (u16 (delay_shift m successor + delay_shift m item))
  else m.

(** ** The representation predicate *)

Definition nodes_of (q : list (word * Z)) : list word := tditem_node <$> q.*1.

Definition delays_ok (m : mem) (q : list (word * Z)) : Prop :=
  Forall (λ p, rd0 m p.1 = Int p.2) q.

(** The delay word of an item is no link word of the queue. *)
Definition td_sep (l : word) (q : list (word * Z)) : Prop :=
  ∀ a, a ∈ q.*1 → a ∉ l :: nodes_of q.

Definition tdq_rep (m : mem) (l : word) (q : list (word * Z)) : Prop :=
  ring m l (nodes_of q) ∧ delays_ok m q ∧ td_sep l q ∧ NULL ∉ q.*1.

Lemma tditem_node_of n : tditem_node (tditem_of n) = n.
Proof. unfold tditem_node, tditem_of. by rewrite add_container_of. Qed.
Lemma tditem_of_node a : tditem_of (tditem_node a) = a.
Proof. unfold tditem_node, tditem_of. by rewrite container_of_add. Qed.
#[export] Instance tditem_node_inj : Inj (=) (=) tditem_node.
Proof. intros a b E. by rewrite <- (tditem_of_node a), E, tditem_of_node. Qed.

Lemma nodes_of_app q1 q2 : nodes_of (q1 ++ q2) = nodes_of q1 ++ nodes_of q2.
Proof. unfold nodes_of. by rewrite !fmap_app. Qed.

Lemma nodes_of_cons a d q : nodes_of ((a, d) :: q) = tditem_node a :: nodes_of q.
Proof. done. Qed.

Lemma elem_of_nodes a q : tditem_node a ∈ nodes_of q ↔ a ∈ q.*1.
Proof.
  unfold nodes_of. rewrite list_elem_of_fmap. split; [|by eauto].
  by intros (b&->%(inj tditem_node)&?).
Qed.

Lemma delays_frame m m' q :
  (∀ a, a ∈ q.*1 → rd0 m' a = rd0 m a) → delays_ok m q → delays_ok m' q.
Proof.
  intros Ha. unfold delays_ok. rewrite !Forall_forall. intros Hd [a d] Hin. simpl.
  rewrite Ha; [by apply (Hd _ Hin)|]. apply list_elem_of_fmap. by exists (a, d).
Qed.

Lemma td_hd_next m l q1 q2 :
  ring m l (nodes_of (q1 ++ q2)) →
  match q2 with
  | [] => True
  | (a, _) :: q2' => next m (tditem_node a) = hd l (nodes_of q2')
  end.
Proof.
  intros Hr. destruct q2 as [|[a d] q2]; [done|]. rewrite nodes_of_app in Hr. simpl in Hr.
  apply ring_rotate in Hr. destruct q2 as [|[b e] q2]; simpl in *; by eapply ring_next.
Qed.

(** [x] is not in the queue, and none of its words is a word of the queue. *)
Definition td_fresh (x l : word) (q : list (word * Z)) : Prop :=
  x ≠ NULL ∧ x ≠ tditem_node x ∧ (x ∉ l :: nodes_of q) ∧ (tditem_node x ∉ l :: nodes_of q) ∧
  (x ∉ q.*1) ∧ (tditem_node x ∉ q.*1).

Lemma td_fresh_elem x l q q' : q.*1 ≡ₚ q'.*1 → td_fresh x l q → td_fresh x l q'.
Proof. intros E (?&?&?&?&?&?). unfold td_fresh, nodes_of in *. by rewrite <- E. Qed.

Lemma td_rep_insert m l q1 q2 x d :
  tdq_rep m l (q1 ++ q2) → td_fresh x l (q1 ++ q2) → rd0 m x = Int d →
  tdq_rep (dlist_insert m (hd l (nodes_of q2)) (tditem_node x)) l (q1 ++ (x, d) :: q2) ∧
  agree_on (λ p, p ∉ tditem_node x :: l :: nodes_of (q1 ++ q2)) m
    (dlist_insert m (hd l (nodes_of q2)) (tditem_node x)).
Proof.
  intros (Hr&Hd&Hs&Hn) (Hxn&Hxx&Hx&Hnx&Hxq&Hnxq) Hxd.
  pose proof Hr as Hr'. rewrite nodes_of_app in Hr'.
  destruct (dlist_insert_before m l (nodes_of q1) (nodes_of q2) (tditem_node x)) as [Hr2 Hag];
    [done|by rewrite <- nodes_of_app|]. rewrite <- nodes_of_app in Hag.
  split; [|done].
  assert (Hkeep : ∀ a, a ∈ (q1 ++ q2).*1 ∨ a = x →
    rd0 (dlist_insert m (hd l (nodes_of q2)) (tditem_node x)) a = rd0 m a).
  { intros a Ha. apply Hag. apply not_elem_of_cons. destruct Ha as [Ha | ->].
    - split; [by intros ->|]. by apply Hs.
    - done. }
  split_and!.
  - rewrite nodes_of_app. done.
  - unfold delays_ok in *. rewrite Forall_app, Forall_cons in *. destruct Hd as [Hd1 Hd2].
    split_and!.
    + eapply delays_frame, Hd1. intros a Ha. apply Hkeep. left. rewrite fmap_app. set_solver.
    + simpl. rewrite Hkeep; auto.
    + eapply delays_frame, Hd2. intros a Ha. apply Hkeep. left. rewrite fmap_app. set_solver.
  - intros a Ha. rewrite nodes_of_app. unfold nodes_of at 2. simpl. fold (nodes_of q2).
    rewrite fmap_app in Ha. simpl in Ha. rewrite nodes_of_app in Hx.
    assert (a = x ∨ a ∈ (q1 ++ q2).*1) as [-> | Ha'] by (rewrite fmap_app; set_solver).
    + set_solver.
    + pose proof (Hs a Ha') as Hsa. rewrite nodes_of_app in Hsa.
      assert (a ≠ tditem_node x) by (by intros ->). set_solver.
  - rewrite fmap_app in *. simpl. set_solver.
Qed.

Lemma td_set_delay m l q1 a e e' q2 :
  tdq_rep m l (q1 ++ (a, e) :: q2) →
  tdq_rep (set_delay m a e') l (q1 ++ (a, e') :: q2).
Proof.
  intros (Hr&Hd&Hs&Hn). unfold set_delay.
  assert (El : (q1 ++ (a, e) :: q2).*1 = (q1 ++ (a, e') :: q2).*1) by by rewrite !fmap_app.
  assert (En : nodes_of (q1 ++ (a, e) :: q2) = nodes_of (q1 ++ (a, e') :: q2))
    by (unfold nodes_of; by rewrite El).
  assert (Hnd : NoDup (q1 ++ (a, e) :: q2).*1).
  { destruct Hr as [[_ Hnd]%NoDup_cons _]. by apply NoDup_fmap in Hnd; [|apply _]. }
  rewrite fmap_app in Hnd. simpl in Hnd. apply NoDup_app in Hnd as (_&Hnd1&[Hnd2 _]%NoDup_cons).
  split_and!.
  - rewrite <- En. revert Hr. apply ring_frame. intros p Hp.
    assert (a ≠ p).
    { intros ->. eapply Hs; [|done]. rewrite fmap_app. simpl. set_solver. }
    split; links_simpl; done.
  - unfold delays_ok in *. rewrite Forall_app, Forall_cons in *. destruct Hd as (Hd1&_&Hd2).
    split_and!; simpl; [| by links_simpl|].
    + eapply delays_frame, Hd1. intros b Hb. assert (a ≠ b) by (intros ->; set_solver).
      by links_simpl.
    + eapply delays_frame, Hd2. intros b Hb. assert (a ≠ b) by ne_elem. by links_simpl.
  - unfold td_sep. rewrite <- El, <- En. done.
  - by rewrite <- El.
Qed.

Lemma tdq_hd_sentinel m l q1 q2 :
  tdq_rep m l (q1 ++ q2) →
  hd l (nodes_of q2) = l ↔ q2 = [].
Proof.
  intros ([[Hl _]%NoDup_cons _]&_). rewrite nodes_of_app in Hl.
  destruct q2 as [|[a d] q2]; simpl; [done|]. unfold nodes_of in Hl. simpl in Hl. set_solver.
Qed.

Lemma tdq_delay m l q1 a d q2 :
  tdq_rep m l (q1 ++ (a, d) :: q2) → delay_shift m a = d.
Proof.
  intros (_&Hd&_). unfold delays_ok in Hd. rewrite Forall_app, Forall_cons in Hd.
  by apply delay_shift_int, Hd.
Qed.

(** Writing the delay of an item that is not queued. *)
Lemma tdq_rep_other m l q x d :
  tdq_rep m l q → td_fresh x l q → tdq_rep (set_delay m x d) l q.
Proof.
  intros (Hr&Hd&Hs&Hn) (_&_&Hx&_&Hxq&_). unfold set_delay. split_and!; try done.
  - revert Hr. apply ring_frame. intros p Hp. assert (x ≠ p) by ne_elem. split; links_simpl; done.
  - revert Hd. apply delays_frame. intros a Ha. assert (x ≠ a) by ne_elem. by links_simpl.
Qed.

Lemma z_tdqueue_schedule_loop_spec fuel m l q1 q2 x d :
  tdq_rep m l (q1 ++ q2) → delta_ok q2 → td_fresh x l (q1 ++ q2) →
  rd0 m x = Int d → 0 <= d < 65536 → (length q2 < fuel)%nat →
  ∃ m', z_tdqueue_schedule_loop fuel m l x (hd l (nodes_of q2)) = Some m' ∧
    tdq_rep m' l (q1 ++ delta_insert x d q2).
Proof.
  revert fuel m q1 d. induction q2 as [|[a e] q2 IH]; intros fuel m q1 d Hrep Hok Hx Hxd Hd Hf;
    (destruct fuel as [|fuel]; [simpl in Hf; lia|]); cbn [z_tdqueue_schedule_loop].
  - rewrite decide_True by done. eexists; split; [done|].
    by destruct (td_rep_insert m l q1 [] x d Hrep Hx Hxd) as [? _].
  - rewrite decide_False by by rewrite (tdq_hd_sentinel _ _ _ _ Hrep).
    cbn [nodes_of hd fmap list_fmap fst]. rewrite tditem_of_node.
    rewrite (tdq_delay _ _ _ _ _ _ Hrep), (delay_shift_int _ _ _ Hxd).
    apply delta_ok_cons in Hok as (He&Hok&Ht). pose proof (total_nonneg _ (proj1 Hok)).
    simpl. destruct (Z.leb_spec e d).
    + rewrite u16_small by lia.
      pose proof (tdq_rep_other _ _ _ x (d - e) Hrep Hx) as Hrep'.
      pose proof (td_hd_next _ _ _ _ (proj1 Hrep')) as Hnx. simpl in Hnx. rewrite Hnx.
      assert (E : q1 ++ (a, e) :: q2 = (q1 ++ [(a, e)]) ++ q2) by by rewrite <- app_assoc.
      rewrite E in Hrep', Hx. destruct (IH fuel (set_delay m x (d - e)) (q1 ++ [(a, e)]) (d - e))
        as (m'&Hs&Hr'); try done.
      * unfold set_delay. by links_simpl.
      * lia.
      * simpl in Hf. lia.
      * exists m'. split; [done|]. by rewrite <- app_assoc in Hr'.
    + eexists; split; [done|].
      destruct (td_rep_insert m l q1 ((a, e) :: q2) x d Hrep Hx Hxd) as [Hr' _].
      cbn [nodes_of hd fmap list_fmap fst] in Hr'.
      assert (E : q1 ++ (x, d) :: (a, e) :: q2 = (q1 ++ [(x, d)]) ++ (a, e) :: q2)
        by by rewrite <- app_assoc.
      rewrite (tdq_delay _ _ _ _ _ _ Hr'). rewrite E in Hr'.
      rewrite (tdq_delay _ _ _ _ _ _ Hr'), u16_small by lia.
      apply td_set_delay with (e' := e - d) in Hr'. by rewrite <- app_assoc in Hr'.
Qed.

Lemma tdqueue_schedule_spec fuel m l q x d :
  tdq_rep m l q → delta_ok q → td_fresh x l q → 0 <= d < 65536 → (length q < fuel)%nat →
  ∃ m', tdqueue_schedule fuel m l x d = Some m' ∧ tdq_rep m' l (delta_insert x d q).
Proof.
  intros Hrep Hok Hx Hd Hf. unfold tdqueue_schedule, z_tdqueue_schedule.
  pose proof Hx as (Hnn&Hxx&Hx1&Hx2&Hx3&Hx4). rewrite decide_False by done.
  set (m1 := set_delay (dlist_init m (tditem_node x)) x d).
  assert (Hag : ∀ p, p ≠ x → p ≠ tditem_node x → rd0 m1 p = rd0 m p ∧ rd1 m1 p = rd1 m p).
  { intros p ??. unfold m1, set_delay.
    destruct (dlist_init_frame m (tditem_node x) p) as [E1 E2]; [done|].
    split; links_simpl; done. }
  assert (Hrep1 : tdq_rep m1 l q).
  { destruct Hrep as (Hr&Hdl&Hs&Hn). split_and!; try done.
    - revert Hr. apply ring_frame. intros p Hp. apply Hag; intros ->; done.
    - revert Hdl. apply delays_frame. intros a Ha. apply Hag; intros ->; done. }
  destruct (z_tdqueue_schedule_loop_spec fuel m1 l [] q x d) as (m'&Hs&Hr'); try done.
  { unfold m1, set_delay. by links_simpl. }
  exists m'. split; [|done]. destruct Hrep1 as (Hr1&_). rewrite <- Hs. f_equal.
  destruct q as [|[a e] q]; simpl; [by apply ring_nil in Hr1 as [? _]|].
  by apply ring_next in Hr1.
Qed.

Lemma tdqueue_shift_loop_spec fuel m l q1 q2 n :
  tdq_rep m l (q1 ++ q2) → delta_ok q2 → 0 <= n < 65536 → (length q2 < fuel)%nat →
  ∃ m', tdqueue_shift_loop fuel m l (hd l (nodes_of q2)) n = Some m' ∧
    tdq_rep m' l (q1 ++ delta_shift n q2) ∧ agree_on (λ p, p ∉ q2.*1) m m'.
Proof.
  revert fuel m q1 n. induction q2 as [|[a e] q2 IH]; intros fuel m q1 n Hrep Hok Hn Hf;
    (destruct fuel as [|fuel]; [simpl in Hf; lia|]); cbn [tdqueue_shift_loop].
  - rewrite decide_True by done. by exists m.
  - rewrite decide_False by by rewrite (tdq_hd_sentinel _ _ _ _ Hrep).
    cbn [nodes_of hd fmap list_fmap fst]. rewrite tditem_of_node.
    rewrite (tdq_delay _ _ _ _ _ _ Hrep).
    apply delta_ok_cons in Hok as (He&Hok&Ht). pose proof (total_nonneg _ (proj1 Hok)).
    simpl. destruct (Z.leb_spec e n) as [Hle|Hlt].
    + assert (Hstep : ∀ m0 n0, tdq_rep m0 l (q1 ++ (a, 0) :: q2) → 0 <= n0 < 65536 →
        ∃ m', tdqueue_shift_loop fuel m0 l (next m0 (tditem_node a)) n0 = Some m' ∧
          tdq_rep m' l (q1 ++ (a, 0) :: delta_shift n0 q2) ∧ agree_on (λ p, p ∉ q2.*1) m0 m').
      { intros m0 n0 Hrep0 Hn0. pose proof (td_hd_next _ _ _ _ (proj1 Hrep0)) as Hnx.
        simpl in Hnx. rewrite Hnx.
        assert (E : q1 ++ (a, 0) :: q2 = (q1 ++ [(a, 0)]) ++ q2) by by rewrite <- app_assoc.
        rewrite E in Hrep0. destruct (IH fuel m0 (q1 ++ [(a, 0)]) n0) as (m'&?&Hr'&?);
          [done..|simpl in Hf; lia|]. exists m'. rewrite <- app_assoc in Hr'. done. }
      destruct (Z.eqb_spec e 0) as [->|]; simpl.
      * rewrite Z.sub_0_r. destruct (Hstep m n Hrep Hn) as (m'&?&?&Hag).
        exists m'. split_and!; try done. eapply agree_on_impl; [done|]. simpl. set_solver.
      * rewrite u16_small by lia.
        destruct (Hstep (set_delay m a 0) (n - e)) as (m'&?&?&Hag);
          [by eapply td_set_delay|lia|]. exists m'. split_and!; try done.
        intros p Hp. destruct (Hag p) as [-> ->]; [set_solver|]. simpl in Hp. nodup.
        unfold set_delay. split; links_simpl; done.
    + eexists; split; [done|]. rewrite u16_small by lia. split; [by eapply td_set_delay|].
      intros p Hp. simpl in Hp. nodup. unfold set_delay. split; links_simpl; done.
Qed.

Lemma tdqueue_shift_spec fuel m l q n :
  tdq_rep m l q → delta_ok q → 0 <= n < 65536 → (length q < fuel)%nat →
  ∃ m', tdqueue_shift fuel m l n = Some m' ∧ tdq_rep m' l (delta_shift n q) ∧
    agree_on (λ p, p ∉ q.*1) m m'.
Proof.
  intros Hrep Hok Hn Hf. unfold tdqueue_shift.
  assert (next m l = hd l (nodes_of q)) as ->.
  { destruct Hrep as (Hr&_). destruct q as [|[a e] q]; simpl;
      [by apply ring_nil in Hr as [? _]|by apply ring_next in Hr]. }
  by apply (tdqueue_shift_loop_spec fuel m l [] q n).
Qed.

Lemma td_sep_sub l q q' : q'.*1 ⊆ q.*1 → td_sep l q → td_sep l q'.
Proof.
  intros Hsub Hs a Ha. specialize (Hs a (Hsub _ Ha)). rewrite not_elem_of_cons in *.
  destruct Hs as [? Hs]. split; [done|]. intros Hin. apply Hs. clear -Hin Hsub.
  unfold nodes_of in *. apply list_elem_of_fmap in Hin as (b&->&Hb).
  apply list_elem_of_fmap_2. by apply Hsub.
Qed.

(** Unlinking an item leaves the rest of the queue as it was. *)
Lemma tdq_unlink m l q1 a e q2 :
  tdq_rep m l (q1 ++ (a, e) :: q2) →
  tdq_rep (dlist_remove m (tditem_node a)) l (q1 ++ q2) ∧
  agree_on (λ p, p ∉ l :: nodes_of (q1 ++ q2)) m (dlist_remove m (tditem_node a)).
Proof.
  intros (Hr&Hd&Hs&Hn). pose proof Hr as Hr'. rewrite nodes_of_app in Hr'. simpl in Hr'.
  assert (Hag : agree_on (λ p, p ∉ l :: nodes_of (q1 ++ q2)) m (dlist_remove m (tditem_node a))).
  { intros p Hp. rewrite nodes_of_app in Hp.
    by apply (dlist_remove_frame m l (nodes_of q1) (tditem_node a) (nodes_of q2)). }
  assert (Hsub : (q1 ++ q2).*1 ⊆ (q1 ++ (a, e) :: q2).*1).
  { rewrite !fmap_app. simpl. set_solver. }
  pose proof (td_sep_sub l _ _ Hsub Hs) as Hs'.
  split; [|done]. split_and!; try done.
  - rewrite nodes_of_app. by apply dlist_remove_ring.
  - unfold delays_ok in *. rewrite Forall_app, Forall_cons in Hd. destruct Hd as (Hd1&_&Hd2).
    eapply delays_frame; [|by apply Forall_app].
    intros b Hb. apply Hag. by apply Hs'.
  - set_solver.
Qed.

Lemma tdqueue_pop_spec m l q :
  tdq_rep m l q → q ≠ [] →
  match delta_pop q with
  | Some (x, q') => tdqueue_pop m l = (x, dlist_remove m (tditem_node x)) ∧
      tdq_rep (dlist_remove m (tditem_node x)) l q' ∧
      agree_on (λ p, p ∉ l :: nodes_of q) m (dlist_remove m (tditem_node x))
  | None => tdqueue_pop m l = (NULL, m)
  end.
Proof.
  intros Hrep Hne. destruct q as [|[a e] q]; [done|]. simpl.
  pose proof (proj1 Hrep) as Hr. simpl in Hr. apply ring_next in Hr.
  unfold tdqueue_pop. rewrite Hr, tditem_of_node.
  cbn [fst]. rewrite (tdq_delay m l [] a e q Hrep). destruct (e =? 0); [|done].
  destruct (tdq_unlink m l [] a e q Hrep) as [? Hag]. split_and!; try done.
  eapply agree_on_impl; [done|]. simpl. set_solver.
Qed.

Lemma tdqueue_remove_spec m l q x :
  tdq_rep m l q → delta_ok q → x ∈ q.*1 →
  ∃ q', delta_remove x q = Some q' ∧ tdq_rep (tdqueue_remove m l x) l q'.
Proof.
  intros Hrep Hok Hx.
  assert (∃ q1 e q2, q = q1 ++ (x, e) :: q2 ∧ x ∉ q1.*1) as (q1&e&q2&->&Hx1).
  { clear -Hx. induction q as [|[a f] q IH]; [set_solver|].
    destruct (decide (a = x)) as [->|]; [exists [], f, q; set_solver|].
    destruct IH as (q1&e&q2&->&?); [simpl in Hx; set_solver|].
    exists ((a, f) :: q1), e, q2. simpl. set_solver. }
  assert (delta_remove x (q1 ++ (x, e) :: q2) = Some (q1 ++ delta_bump e q2)) as ->.
  { clear -Hx1. induction q1 as [|[a f] q1 IH]; simpl in *; [by rewrite decide_True|].
    nodup. rewrite decide_False by done. by rewrite IH. }
  eexists; split; [done|]. unfold tdqueue_remove.
  assert (Hok2 : delta_ok ((x, e) :: q2)).
  { clear -Hok. induction q1 as [|[a f] q1 IH]; [done|]. by apply delta_ok_cons in Hok as (_&?&_); auto. }
  pose proof (td_hd_next _ _ _ _ (proj1 Hrep)) as Hnx. simpl in Hnx. rewrite Hnx.
  destruct (tdq_unlink _ _ _ _ _ _ Hrep) as [Hrep' Hag].
  unfold dlist_remove in Hrep', Hag. rewrite Hnx in Hrep', Hag.
  destruct q2 as [|[b f] q2]; simpl in Hrep', Hag |- *; [by rewrite decide_False by tauto|].
  rewrite decide_True by (pose proof (tdq_hd_sentinel _ _ _ _ Hrep') as Hh; simpl in Hh; by rewrite Hh).
  apply delta_ok_cons in Hok2 as (?&Hok2&Htot). apply delta_ok_cons in Hok2 as (?&Hok2&?).
  pose proof (total_nonneg _ (proj1 Hok2)). simpl in Htot.
  rewrite tditem_of_node, (tdq_delay _ _ _ _ _ _ Hrep').
  assert (delay_shift (wr1 (wr0 m (prev m (tditem_node x)) (tditem_node b)) (tditem_node b)
            (prev m (tditem_node x))) x = e) as ->.
  { unfold delay_shift. destruct (Hag x) as [-> _].
    - destruct Hrep as (_&_&Hs&_). specialize (Hs x Hx).
      intros Hin. apply Hs. clear -Hin.
      rewrite nodes_of_app, !nodes_of_cons in *. set_solver.
    - by apply (tdq_delay _ _ _ _ _ _ Hrep). }
  rewrite u16_small by lia. by eapply td_set_delay.
Qed.

(** On an empty queue there is no item: the code reads the word in front of
    the sentinel as if it were the delay of one. *)
Lemma tdqueue_pop_nil m l :
  tdq_rep m l [] →
  tdqueue_pop m l =
    (if delay_shift m (tditem_of l) =? 0 then (tditem_of l, dlist_remove m l) else (NULL, m)).
Proof.
  intros (Hr&_). apply ring_nil in Hr as [Hn _]. unfold tdqueue_pop.
  by rewrite Hn, tditem_node_of.
Qed.

Lemma tditem_of_ne l : tditem_of l ≠ l.
Proof. unfold tditem_of, CONTAINER_OF, tditem_node_ofs. destruct l; simpl; intros [=]; lia. Qed.

(** [tdqueue] implements the time-queue interface, except that popping an
    empty queue needs a non-zero word in front of the sentinel. *)
#[export] Program Instance tdqueue_delta_queue : DeltaQueue := {|
  dq_schedule := tdqueue_schedule;
  dq_shift := tdqueue_shift;
  dq_pop := tdqueue_pop;
  dq_rep m l q := tdq_rep m l q ∧ tditem_of l ∉ nodes_of q;
  dq_fresh x l q := td_fresh x l q ∧ tditem_node x ≠ tditem_of l;
  dq_pop_nil m l := delay_shift m (tditem_of l) ≠ 0;
|}.
Next Obligation.
  intros m l q [([[_ Hnd]%NoDup_cons _]&_&_&?) _]. split; [|done].
  by apply NoDup_fmap in Hnd; [|apply _].
Qed.
Next Obligation.
  intros fuel m l q x d [Hr Hl] Hok [Hx Hxl] Hd Hf.
  destruct (tdqueue_schedule_spec fuel m l q x d) as (m'&?&?); try done.
  exists m'. split_and!; try done. unfold nodes_of in *. rewrite delta_insert_elem. simpl.
  set_solver.
Qed.
Next Obligation.
  intros fuel m l q n [Hr Hl] Hok Hd Hf.
  destruct (tdqueue_shift_spec fuel m l q n) as (m'&?&?&Hag); try done.
  exists m'. split_and!; try done; [unfold nodes_of in *; by rewrite delta_shift_elem|].
  unfold delay_shift. destruct (Hag (tditem_of l)) as [-> _]; [|done].
  intros Hin. destruct Hr as ([[Hn _]%NoDup_cons _]&_). apply Hn.
  rewrite <- (tditem_node_of l). by apply elem_of_nodes.
Qed.
Next Obligation.
  intros m l x q [Hr Hl]. pose proof (tdqueue_pop_spec m l _ Hr) as Hp. simpl in Hp.
  destruct Hp as (->&?&Hag); [done|]. eexists; split; [done|]. split_and!; try done.
  - intros Hin. apply Hl. simpl. set_solver.
  - unfold delay_shift. destruct (Hag (tditem_of l)) as [-> _]; [|done].
    apply not_elem_of_cons. split; [apply tditem_of_ne|done].
Qed.
Next Obligation.
  intros m l x d q [Hr Hl] Hd. pose proof (tdqueue_pop_spec m l _ Hr) as Hp. simpl in Hp.
  rewrite (proj2 (Z.eqb_neq d 0)) in Hp by lia. by rewrite Hp.
Qed.
Next Obligation.
  intros m l [Hr Hl] Hn. rewrite (tdqueue_pop_nil _ _ Hr).
  by rewrite (proj2 (Z.eqb_neq _ _) Hn).
Qed.
End Tdqueue.
