(* ===== verification/Slist.v ===== *)
(** * Singly linked queues (dstruct/slist.c)

    A [struct slist] is a node whose words are [head] and [tail]; a
    [struct snode] uses the first word of its node as [next]. *)

From S2P Require Import Prelude.

Definition slist_init (m : mem) (list : word) : mem :=
  let m := wr0 m list NULL in
  wr1 m list NULL.

Definition slist_append (m : mem) (list node : word) : mem :=
  let m := wr0 m node NULL in
  let m := if decide (rd0 m list = NULL) then wr0 m list node
           else wr0 m (rd1 m list) node in
  wr1 m list node.

Definition slist_get (m : mem) (list : word) : word * mem :=
  let node := rd0 m list in
  if decide (rd0 m list ≠ NULL) then
    let m := wr0 m list (rd0 m node) in
    let m := if decide (rd0 m list = NULL) then wr1 m list NULL else m in
    (node, m)
  else (node, m).

Definition slist_peek_head (m : mem) (list : word) : word := rd0 m list.
Definition slist_peek_tail (m : mem) (list : word) : word := rd1 m list.

(** [slist_foreach] in [slist_count]; [uint8_t] counter. *)
Fixpoint slist_count_loop (fuel : nat) (m : mem) (node : word) (count : Z) : option Z :=
  match fuel with
  | O => None
  | S fuel => if decide (node = NULL) then Some count
              else slist_count_loop fuel m (rd0 m node) (u8 (count + 1))
  end.

Definition slist_count (fuel : nat) (m : mem) (list : word) : option Z :=
  slist_count_loop fuel m (rd0 m list) 0.

(** ** The representation predicate *)

Fixpoint schain (m : mem) (p : word) (ns : list word) : Prop :=
  match ns with
  | [] => rd0 m p = NULL
  | a :: t => rd0 m p = a ∧ a ≠ NULL ∧ schain m a t
  end.

Definition sl_rep (m : mem) (l : word) (ns : list word) : Prop :=
  NoDup (l :: ns) ∧ schain m l ns ∧ rd1 m l = default NULL (last ns).

Lemma schain_frame m m' p ns :
  (∀ x, x ∈ p :: ns → rd0 m' x = rd0 m x) → schain m p ns → schain m' p ns.
Proof.
  revert p. induction ns as [|a ns IH]; intros p Hx; simpl.
  - rewrite Hx by set_solver. done.
  - intros (?&?&?). rewrite Hx by set_solver. split_and!; [done..|].
    apply IH; [set_solver|done].
Qed.

Lemma sl_rep_frame m m' l ns :
  agree_on (λ x, x ∈ l :: ns) m m' → sl_rep m l ns → sl_rep m' l ns.
Proof.
  intros Ha (Hnd&Hc&Ht). split_and!; [done| |].
  - revert Hc. apply schain_frame. intros x Hx. by apply Ha.
  - destruct (Ha l) as [_ ->]; [set_solver|done].
Qed.

Lemma schain_snoc m p ns t x :
  schain m p (ns ++ [t]) → t ∉ p :: ns → x ∉ p :: ns ++ [t] → x ≠ NULL → rd0 m x = NULL →
  schain (wr0 m t x) p (ns ++ [t; x]).
Proof.
  revert p. induction ns as [|a ns IH]; intros p; simpl.
  - intros (?&?&?) Ht Hx Hnn Hxn. nodup. split_and!; links_simpl; done.
  - intros (?&?&?) Ht Hx Hnn Hxn. nodup. split_and!; links_simpl; try done.
    apply IH; try done; nelem.
Qed.

Lemma schain_nonnull m p ns : schain m p ns → NULL ∉ ns.
Proof.
  revert p. induction ns as [|a ns IH]; intros p; simpl; [set_solver|].
  intros (_&?&?%IH). set_solver.
Qed.

Lemma slist_init_rep m l : sl_rep (slist_init m l) l [].
Proof.
  unfold slist_init. split_and!; simpl; links_simpl; try done. apply NoDup_singleton.
Qed.

Lemma slist_append_rep m l ns x :
  sl_rep m l ns → x ∉ l :: ns → x ≠ NULL →
  sl_rep (slist_append m l x) l (ns ++ [x]) ∧
  agree_on (λ y, y ∉ x :: l :: ns) m (slist_append m l x).
Proof.
  intros (Hnd&Hc&Ht) Hx Hnn. unfold slist_append. split; [split_and!|].
  - rewrite app_comm_cons. by apply NoDup_snoc.
  - nodup. destruct ns as [|t ns _] using rev_ind; simpl in *.
    + rewrite rd0_wr0_ne by done. rewrite Hc, decide_True by done.
      split_and!; links_simpl; done.
    + rewrite last_snoc in Ht. simpl in Ht. rewrite <- app_assoc in *. simpl in *.
      assert (Hne : rd0 m l ≠ NULL) by (destruct ns; simpl in Hc; destruct Hc as (->&?&_); done).
      rewrite rd0_wr0_ne by done. rewrite decide_False by done.
      rewrite rd1_wr0, Ht. apply NoDup_app in Hnd as (Hnd&Hdis&_).
      assert (Hl : l ≠ t ∧ l ∉ ns) by set_solver. assert (Hxt : x ≠ t ∧ x ∉ ns) by set_solver.
      assert (Htn : t ∉ ns) by set_solver. destruct Hl, Hxt.
      apply (schain_frame (wr0 (wr0 m x NULL) t x)); [intros y Hy; by rewrite rd0_wr1|].
      apply schain_snoc; [|nelem|nelem; set_solver|done|by links_simpl].
      revert Hc. apply schain_frame. intros y Hy.
      assert (x ≠ y) by (intros ->; set_solver). by links_simpl.
  - rewrite last_snoc. by links_simpl.
  - assert (Hlast : rd0 m l ≠ NULL → rd1 m l ∈ ns).
    { intros Hne. rewrite Ht. destruct ns as [|t ns _] using rev_ind; [done|].
      rewrite last_snoc. simpl. set_solver. }
    intros y Hy. nodup. rewrite rd0_wr0_ne, rd1_wr0 by done.
    case_decide; [split; links_simpl; done|].
    assert (rd1 m l ≠ y) by (intros <-; auto). split; links_simpl; done.
Qed.

Lemma slist_get_rep m l n ns :
  sl_rep m l (n :: ns) →
  (slist_get m l).1 = n ∧ sl_rep (slist_get m l).2 l ns ∧
  agree_on (λ y, y ≠ l) m (slist_get m l).2 .
Proof.
  intros (Hnd&Hc&Ht). simpl in Hc. destruct Hc as (Hn&Hnn&Hc). unfold slist_get.
  rewrite Hn, decide_True by done. simpl. nodup. rewrite rd0_wr0_eq. split; [done|].
  destruct ns as [|b ns]; simpl in Hc.
  - rewrite Hc, decide_True by done. split.
    + split_and!; simpl; links_simpl; try done. by apply NoDup_singleton.
    + intros y Hy. split; links_simpl; done.
  - destruct Hc as (Hb&Hbn&Hc). rewrite Hb, decide_False by done. nodup. split.
    + split_and!; [rewrite !NoDup_cons, not_elem_of_cons; done| |].
      * simpl. split_and!; links_simpl; try done. revert Hc. apply schain_frame.
        intros y Hy. assert (l ≠ y) by (intros ->; set_solver). by links_simpl.
      * rewrite rd1_wr0, Ht. by rewrite !last_cons; destruct (last ns).
    + intros y Hy. split; links_simpl; done.
Qed.

Lemma slist_get_nil m l : sl_rep m l [] → slist_get m l = (NULL, m).
Proof.
  intros (_&Hc&_). simpl in Hc. unfold slist_get. by rewrite Hc, decide_False by tauto.
Qed.

Lemma slist_count_loop_spec fuel m p ns c :
  schain m p ns → (length ns < fuel)%nat → 0 <= c < 256 →
  slist_count_loop fuel m (rd0 m p) c = Some (u8 (c + Z.of_nat (length ns))).
Proof.
  revert fuel p c. induction ns as [|a ns IH]; intros fuel p c Hc Hf Hr;
    (destruct fuel; [simpl in Hf; lia|]); simpl in *.
  - rewrite Hc, decide_True by done. rewrite u8_small; f_equal; lia.
  - destruct Hc as (->&?&Hc). rewrite decide_False by done.
    rewrite IH by (done || lia || apply u8_range).
    f_equal. unfold u8. rewrite Zplus_mod_idemp_l. f_equal. lia.
Qed.
