(* ===== verification/Types.v ===== *)
(** * Kernel types, configuration and the execution monad

    The data of types.h, defines.h and of the object headers: the thread, the
    kernel structure, the synchronisation objects, the configuration of
    avrtos_conf.h, and the monad in which the kernel functions are written.
    Link nodes ([struct dnode], [struct titem], [struct snode]) embedded in
    these structures live in the shared link memory [links], at the address of
    the structure plus the offset of the member. *)

From S2P Require Import Prelude Dlist.

(** ** Configuration (avrtos_conf.h, defines.h)

    The switches are those the modelled code branches on.  The last fields are
    the addresses of the kernel's own objects, chosen by the linker, and the
    bound on the iterations of a loop over a kernel list. *)
Class Config := {
  CONFIG_KERNEL_ARGS_CHECKS : bool;
  CONFIG_KERNEL_REENTRANCY : bool;
  CONFIG_POLLING : bool;
  CONFIG_THREAD_JOIN : bool;
  CONFIG_KERNEL_THREAD_IDLE : bool;
  CONFIG_KERNEL_TIMERS : bool;
  CONFIG_KERNEL_EVENTS : bool;
  CONFIG_KERNEL_EVENTS_ALLOW_NO_WAIT : bool;
  Z_KERNEL_TIME_SLICE_TICKS : Z;
  z_thread_idle : word;
  z_thread_main : word;
  z_timeouts_queue : word;
  z_event_q : word;
  z_timers_runqueue : word;
  loop_fuel : nat;
}.

Definition z_user `{Config} (cond : bool) : bool := if CONFIG_KERNEL_ARGS_CHECKS then cond else true.

Definition nonnull (p : word) : bool := bool_decide (p ≠ NULL).

Lemma z_user_true `{Config} b : b = true → negb (z_user b) = false.
Proof. intros ->. unfold z_user. by destruct CONFIG_KERNEL_ARGS_CHECKS. Qed.

Lemma nonnull_true p : p ≠ NULL → nonnull p = true.
Proof. apply bool_decide_true. Qed.

(** [k_timeout_t] holds a 16-bit number of ticks. *)
Definition K_NO_WAIT : Z := 0.
Definition K_FOREVER : Z := 65535.

(** Thread flags (defines.h). *)
Definition Z_THREAD_STATE_MSK : Z := 3.
Definition Z_THREAD_SCHED_LOCKED_MSK : Z := 4.
Definition Z_THREAD_PRIO_MSK : Z := 24.
Definition Z_THREAD_PRIO_COOP : Z := 16.
Definition Z_THREAD_TIMER_EXPIRED_MSK : Z := 32.
Definition Z_THREAD_PEND_CANCELED_MSK : Z := 64.
Definition Z_THREAD_WAKEUP_SCHED_MSK : Z := 128.

Definition Z_THREAD_STATE_STOPPED : Z := 0.
Definition Z_THREAD_STATE_READY : Z := 1.
Definition Z_THREAD_STATE_PENDING : Z := 2.
Definition Z_THREAD_STATE_IDLE : Z := 3.

Definition K_FAULT_KERNEL_HALT : Z := 5.

(** ** Structures *)

Record k_thread := {
  sp : word;
  flags : Z;
  swap_data : word;
  stack_end : word;
  stack_size : Z;
  symbol : Z;
  sched_lock_cnt : Z;
}.

Record k_sem := { count : Z; limit : Z }.
Record k_mutex := { lock : Z; owner : word }.
Record k_signal := { signal : Z; sig_flags : Z }.
Record k_flags := { kf_flags : Z; reset_value : Z }.
Record k_msgq := {
  msg_size : Z; max_msgs : Z; used_msgs : Z;
  buf_start : word; buf_end : word; read_cursor : word; write_cursor : word;
}.
Record slab_allocator := { sa_buffer : word; sa_count : Z; sa_block_size : Z; sa_free_list : word }.
Record k_event := { ev_handler : word; scheduled : Z }.
Record k_timer := { tm_timeout : Z; tm_handler : word }.
Record k_workqueue := { wq_flags : Z }.
(** [_workqueue] is a member of [struct k_work_delayable], whose first member
    is its [struct k_work]. *)
Record k_work := { wk_handler : word; wk_workqueue : word }.
Record k_pollfd := { revents : Z; pfd_type : Z; pfd_obj : word; pfd_thread : word }.

#[global] Instance k_thread_inhabited : Inhabited k_thread :=
  populate {| sp := NULL; flags := 0; swap_data := NULL; stack_end := NULL; stack_size := 0;
              symbol := 0; sched_lock_cnt := 0 |}.
#[global] Instance k_sem_inhabited : Inhabited k_sem := populate {| count := 0; limit := 0 |}.
#[global] Instance k_mutex_inhabited : Inhabited k_mutex := populate {| lock := 0; owner := NULL |}.
#[global] Instance k_signal_inhabited : Inhabited k_signal :=
  populate {| signal := 0; sig_flags := 0 |}.
#[global] Instance k_flags_inhabited : Inhabited k_flags :=
  populate {| kf_flags := 0; reset_value := 0 |}.
#[global] Instance k_msgq_inhabited : Inhabited k_msgq :=
  populate {| msg_size := 0; max_msgs := 0; used_msgs := 0; buf_start := NULL; buf_end := NULL;
              read_cursor := NULL; write_cursor := NULL |}.
#[global] Instance slab_inhabited : Inhabited slab_allocator :=
  populate {| sa_buffer := NULL; sa_count := 0; sa_block_size := 0; sa_free_list := NULL |}.
#[global] Instance k_event_inhabited : Inhabited k_event :=
  populate {| ev_handler := NULL; scheduled := 0 |}.
#[global] Instance k_timer_inhabited : Inhabited k_timer :=
  populate {| tm_timeout := 0; tm_handler := NULL |}.
#[global] Instance k_workqueue_inhabited : Inhabited k_workqueue := populate {| wq_flags := 0 |}.
#[global] Instance k_work_inhabited : Inhabited k_work := populate {| wk_handler := NULL; wk_workqueue := NULL |}.
#[global] Instance k_pollfd_inhabited : Inhabited k_pollfd :=
  populate {| revents := 0; pfd_type := 0; pfd_obj := NULL; pfd_thread := NULL |}.

(** Offsets of the link members (AVR structures are packed). *)
Definition ofs_tie : Z := 3.
Definition ofs_wqhandle : Z := 7.
Definition thread_tie (t : word) : word := ptr_add t ofs_tie.
Definition thread_wqh (t : word) : word := ptr_add t ofs_wqhandle.
Definition thread_of_tie (n : word) : word := CONTAINER_OF n ofs_tie.
Definition thread_of_wqh (n : word) : word := CONTAINER_OF n ofs_wqhandle.

Definition ofs_join_waitqueue `{Config} : Z :=
  18 + (if CONFIG_POLLING then 1 else 0) + (if CONFIG_KERNEL_REENTRANCY then 1 else 0).
Definition thread_join `{Config} (t : word) : word := ptr_add t ofs_join_waitqueue.

Definition sem_waitqueue (s : word) : word := ptr_add s 2.
Definition mutex_waitqueue (m : word) : word := ptr_add m 1.
Definition signal_waitqueue (s : word) : word := ptr_add s 2.
Definition condvar_waitqueue (c : word) : word := c.
Definition flags_waitqueue (f : word) : word := f.
Definition fifo_queue (f : word) : word := f.
Definition fifo_waitqueue (f : word) : word := ptr_add f 4.
Definition msgq_waitqueue (q : word) : word := q.
Definition mem_slab_allocator (s : word) : word := s.
Definition mem_slab_waitqueue (s : word) : word := ptr_add s 7.
Definition event_tie (e : word) : word := e.
Definition timer_tie (t : word) : word := t.
Definition ofs_pfd_wqhandle : Z := 5.
Definition pollfd_wqhandle (p : word) : word := ptr_add p ofs_pfd_wqhandle.

Lemma thread_of_tie_tie t : thread_of_tie (thread_tie t) = t.
Proof. apply container_of_add. Qed.
Lemma thread_of_wqh_wqh t : thread_of_wqh (thread_wqh t) = t.
Proof. apply container_of_add. Qed.
#[global] Instance thread_tie_inj : Inj (=) (=) thread_tie.
Proof. apply _. Qed.
#[global] Instance thread_wqh_inj : Inj (=) (=) thread_wqh.
Proof. apply _. Qed.

(** ** The state of the machine as the kernel sees it *)
Record kstate := {
  links : mem;                     (* all the link nodes *)
  threads : gmap word k_thread;    (* by address *)
  wqflags : gmap word Z;           (* flags of z_wqhandle, by address *)
  current : word;                  (* z_ker.current *)
  ready_count : Z;                 (* z_ker.ready_count, uint8_t *)
  run_queue : word;                (* z_ker.run_queue *)
  sreg_i : bool;                   (* the global interrupt flag *)
  sems : gmap word k_sem;
  mutexes : gmap word k_mutex;
  signals : gmap word k_signal;
  kflags : gmap word k_flags;
  msgqs : gmap word k_msgq;
  slabs : gmap word slab_allocator;
  events : gmap word k_event;
  timers : gmap word k_timer;
  workqueues : gmap word k_workqueue;
  works : gmap word k_work;
  pollfds : gmap word k_pollfd;
  bytes : gmap word Z;             (* message buffers, by byte *)
}.

(** Updates of one component. *)
Definition set_links (x : mem) (k : kstate) : kstate :=
    {| links := x; threads := threads k; wqflags := wqflags k; current := current k; ready_count
     := ready_count k; run_queue := run_queue k; sreg_i := sreg_i k; sems := sems k; mutexes :=
     mutexes k; signals := signals k; kflags := kflags k; msgqs := msgqs k; slabs := slabs k;
     events := events k; timers := timers k; workqueues := workqueues k; works := works k;
     pollfds := pollfds k; bytes := bytes k |}.
Definition set_threads (x : gmap word k_thread) (k : kstate) : kstate :=
    {| links := links k; threads := x; wqflags := wqflags k; current := current k; ready_count
     := ready_count k; run_queue := run_queue k; sreg_i := sreg_i k; sems := sems k; mutexes :=
     mutexes k; signals := signals k; kflags := kflags k; msgqs := msgqs k; slabs := slabs k;
     events := events k; timers := timers k; workqueues := workqueues k; works := works k;
     pollfds := pollfds k; bytes := bytes k |}.
Definition set_wqflags (x : gmap word Z) (k : kstate) : kstate :=
    {| links := links k; threads := threads k; wqflags := x; current := current k; ready_count
     := ready_count k; run_queue := run_queue k; sreg_i := sreg_i k; sems := sems k; mutexes :=
     mutexes k; signals := signals k; kflags := kflags k; msgqs := msgqs k; slabs := slabs k;
     events := events k; timers := timers k; workqueues := workqueues k; works := works k;
     pollfds := pollfds k; bytes := bytes k |}.
Definition set_current (x : word) (k : kstate) : kstate :=
    {| links := links k; threads := threads k; wqflags := wqflags k; current := x; ready_count
     := ready_count k; run_queue := run_queue k; sreg_i := sreg_i k; sems := sems k; mutexes :=
     mutexes k; signals := signals k; kflags := kflags k; msgqs := msgqs k; slabs := slabs k;
     events := events k; timers := timers k; workqueues := workqueues k; works := works k;
     pollfds := pollfds k; bytes := bytes k |}.
Definition set_ready_count (x : Z) (k : kstate) : kstate :=
    {| links := links k; threads := threads k; wqflags := wqflags k; current := current k;
     ready_count := x; run_queue := run_queue k; sreg_i := sreg_i k; sems := sems k; mutexes :=
     mutexes k; signals := signals k; kflags := kflags k; msgqs := msgqs k; slabs := slabs k;
     events := events k; timers := timers k; workqueues := workqueues k; works := works k;
     pollfds := pollfds k; bytes := bytes k |}.
Definition set_run_queue (x : word) (k : kstate) : kstate :=
    {| links := links k; threads := threads k; wqflags := wqflags k; current := current k;
     ready_count := ready_count k; run_queue := x; sreg_i := sreg_i k; sems := sems k; mutexes
     := mutexes k; signals := signals k; kflags := kflags k; msgqs := msgqs k; slabs := slabs k;
     events := events k; timers := timers k; workqueues := workqueues k; works := works k;
     pollfds := pollfds k; bytes := bytes k |}.
Definition set_sreg_i (x : bool) (k : kstate) : kstate :=
    {| links := links k; threads := threads k; wqflags := wqflags k; current := current k;
     ready_count := ready_count k; run_queue := run_queue k; sreg_i := x; sems := sems k;
     mutexes := mutexes k; signals := signals k; kflags := kflags k; msgqs := msgqs k; slabs :=
     slabs k; events := events k; timers := timers k; workqueues := workqueues k; works := works
     k; pollfds := pollfds k; bytes := bytes k |}.
Definition set_sems (x : gmap word k_sem) (k : kstate) : kstate :=
    {| links := links k; threads := threads k; wqflags := wqflags k; current := current k;
     ready_count := ready_count k; run_queue := run_queue k; sreg_i := sreg_i k; sems := x;
     mutexes := mutexes k; signals := signals k; kflags := kflags k; msgqs := msgqs k; slabs :=
     slabs k; events := events k; timers := timers k; workqueues := workqueues k; works := works
     k; pollfds := pollfds k; bytes := bytes k |}.
Definition set_mutexes (x : gmap word k_mutex) (k : kstate) : kstate :=
    {| links := links k; threads := threads k; wqflags := wqflags k; current := current k;
     ready_count := ready_count k; run_queue := run_queue k; sreg_i := sreg_i k; sems := sems k;
     mutexes := x; signals := signals k; kflags := kflags k; msgqs := msgqs k; slabs := slabs k;
     events := events k; timers := timers k; workqueues := workqueues k; works := works k;
     pollfds := pollfds k; bytes := bytes k |}.
Definition set_signals (x : gmap word k_signal) (k : kstate) : kstate :=
    {| links := links k; threads := threads k; wqflags := wqflags k; current := current k;
     ready_count := ready_count k; run_queue := run_queue k; sreg_i := sreg_i k; sems := sems k;
     mutexes := mutexes k; signals := x; kflags := kflags k; msgqs := msgqs k; slabs := slabs k;
     events := events k; timers := timers k; workqueues := workqueues k; works := works k;
     pollfds := pollfds k; bytes := bytes k |}.
Definition set_kflags (x : gmap word k_flags) (k : kstate) : kstate :=
    {| links := links k; threads := threads k; wqflags := wqflags k; current := current k;
     ready_count := ready_count k; run_queue := run_queue k; sreg_i := sreg_i k; sems := sems k;
     mutexes := mutexes k; signals := signals k; kflags := x; msgqs := msgqs k; slabs := slabs
     k; events := events k; timers := timers k; workqueues := workqueues k; works := works k;
     pollfds := pollfds k; bytes := bytes k |}.
Definition set_msgqs (x : gmap word k_msgq) (k : kstate) : kstate :=
    {| links := links k; threads := threads k; wqflags := wqflags k; current := current k;
     ready_count := ready_count k; run_queue := run_queue k; sreg_i := sreg_i k; sems := sems k;
     mutexes := mutexes k; signals := signals k; kflags := kflags k; msgqs := x; slabs := slabs
     k; events := events k; timers := timers k; workqueues := workqueues k; works := works k;
     pollfds := pollfds k; bytes := bytes k |}.
Definition set_slabs (x : gmap word slab_allocator) (k : kstate) : kstate :=
    {| links := links k; threads := threads k; wqflags := wqflags k; current := current k;
     ready_count := ready_count k; run_queue := run_queue k; sreg_i := sreg_i k; sems := sems k;
     mutexes := mutexes k; signals := signals k; kflags := kflags k; msgqs := msgqs k; slabs :=
     x; events := events k; timers := timers k; workqueues := workqueues k; works := works k;
     pollfds := pollfds k; bytes := bytes k |}.
Definition set_events (x : gmap word k_event) (k : kstate) : kstate :=
    {| links := links k; threads := threads k; wqflags := wqflags k; current := current k;
     ready_count := ready_count k; run_queue := run_queue k; sreg_i := sreg_i k; sems := sems k;
     mutexes := mutexes k; signals := signals k; kflags := kflags k; msgqs := msgqs k; slabs :=
     slabs k; events := x; timers := timers k; workqueues := workqueues k; works := works k;
     pollfds := pollfds k; bytes := bytes k |}.
Definition set_timers (x : gmap word k_timer) (k : kstate) : kstate :=
    {| links := links k; threads := threads k; wqflags := wqflags k; current := current k;
     ready_count := ready_count k; run_queue := run_queue k; sreg_i := sreg_i k; sems := sems k;
     mutexes := mutexes k; signals := signals k; kflags := kflags k; msgqs := msgqs k; slabs :=
     slabs k; events := events k; timers := x; workqueues := workqueues k; works := works k;
     pollfds := pollfds k; bytes := bytes k |}.
Definition set_workqueues (x : gmap word k_workqueue) (k : kstate) : kstate :=
    {| links := links k; threads := threads k; wqflags := wqflags k; current := current k;
     ready_count := ready_count k; run_queue := run_queue k; sreg_i := sreg_i k; sems := sems k;
     mutexes := mutexes k; signals := signals k; kflags := kflags k; msgqs := msgqs k; slabs :=
     slabs k; events := events k; timers := timers k; workqueues := x; works := works k; pollfds
     := pollfds k; bytes := bytes k |}.
Definition set_works (x : gmap word k_work) (k : kstate) : kstate :=
    {| links := links k; threads := threads k; wqflags := wqflags k; current := current k;
     ready_count := ready_count k; run_queue := run_queue k; sreg_i := sreg_i k; sems := sems k;
     mutexes := mutexes k; signals := signals k; kflags := kflags k; msgqs := msgqs k; slabs :=
     slabs k; events := events k; timers := timers k; workqueues := workqueues k; works := x;
     pollfds := pollfds k; bytes := bytes k |}.
Definition set_pollfds (x : gmap word k_pollfd) (k : kstate) : kstate :=
    {| links := links k; threads := threads k; wqflags := wqflags k; current := current k;
     ready_count := ready_count k; run_queue := run_queue k; sreg_i := sreg_i k; sems := sems k;
     mutexes := mutexes k; signals := signals k; kflags := kflags k; msgqs := msgqs k; slabs :=
     slabs k; events := events k; timers := timers k; workqueues := workqueues k; works := works
     k; pollfds := x; bytes := bytes k |}.
Definition set_bytes (x : gmap word Z) (k : kstate) : kstate :=
    {| links := links k; threads := threads k; wqflags := wqflags k; current := current k;
     ready_count := ready_count k; run_queue := run_queue k; sreg_i := sreg_i k; sems := sems k;
     mutexes := mutexes k; signals := signals k; kflags := kflags k; msgqs := msgqs k; slabs :=
     slabs k; events := events k; timers := timers k; workqueues := workqueues k; works := works
     k; pollfds := pollfds k; bytes := x |}.

(** The thread at an address, and an update of it in place. *)
Definition thr (k : kstate) (t : word) : k_thread := threads k !!! t.
Definition upd_thread (t : word) (f : k_thread → k_thread) (k : kstate) : kstate :=
  set_threads (<[t := f (thr k t)]> (threads k)) k.

Definition with_flags (fl : Z) (t : k_thread) : k_thread :=
  {| sp := sp t; flags := fl; swap_data := swap_data t; stack_end := stack_end t;
     stack_size := stack_size t; symbol := symbol t; sched_lock_cnt := sched_lock_cnt t |}.
Definition with_swap_data (d : word) (t : k_thread) : k_thread :=
  {| sp := sp t; flags := flags t; swap_data := d; stack_end := stack_end t;
     stack_size := stack_size t; symbol := symbol t; sched_lock_cnt := sched_lock_cnt t |}.
Definition with_sched_lock_cnt (c : Z) (t : k_thread) : k_thread :=
  {| sp := sp t; flags := flags t; swap_data := swap_data t; stack_end := stack_end t;
     stack_size := stack_size t; symbol := symbol t; sched_lock_cnt := c |}.

Definition set_flags (t : word) (fl : Z) : kstate → kstate := upd_thread t (with_flags fl).
Definition set_swap_data (t : word) (d : word) : kstate → kstate := upd_thread t (with_swap_data d).

(** ** The execution monad

    A kernel function either returns, or gives the CPU away: [Susp k c] is a
    call of [z_thread_switch], [k] the state the next thread runs in and [c]
    what the suspended thread does when it is switched back to.  [Fault] is
    [__fault], which never returns.  [NoFuel] is a loop over a kernel list that
    exceeded [loop_fuel]. *)
Inductive res (A : Type) :=
  | Done (a : A) (k : kstate)
  | Susp (k : kstate) (resume : kstate → res A)
  | Fault (reason : Z) (k : kstate)
  | NoFuel.
Arguments Done {A}.
Arguments Susp {A}.
Arguments Fault {A}.
Arguments NoFuel {A}.

Definition M (A : Type) : Type := kstate → res A.

Fixpoint rbind {A B} (r : res A) (f : A → M B) : res B :=
  match r with
  | Done a k => f a k
  | Susp k c => Susp k (λ k', rbind (c k') f)
  | Fault n k => Fault n k
  | NoFuel => NoFuel
  end.

Definition ret {A} (a : A) : M A := λ k, Done a k.
Definition bind {A B} (m : M A) (f : A → M B) : M B := λ k, rbind (m k) f.
Definition get : M kstate := λ k, Done k k.
Definition modify (f : kstate → kstate) : M unit := λ k, Done tt (f k).
Definition fault {A} (reason : Z) : M A := λ k, Fault reason k.

(** Lift a link-memory operation that may exceed its fuel. *)
Definition on_links (f : mem → option mem) : M unit := λ k,
  match f (links k) with Some m => Done tt (set_links m k) | None => NoFuel end.

Declare Scope kernel_scope.
Delimit Scope kernel_scope with kernel.
Notation "'let*' x := c 'in' d" := (bind c (λ x, d))
  (at level 200, x pattern, c at level 200, d at level 200) : kernel_scope.
Notation "c ;; d" := (bind c (λ _ : unit, d)) (at level 100, d at level 200) : kernel_scope.
Notation "'when' b 'do' c" := (if b then c else ret tt)
  (at level 200, b at level 200, c at level 200) : kernel_scope.
#[global] Open Scope kernel_scope.

(** [irq_lock]/[irq_unlock] (kernel.h): the interrupt flag is saved and cleared,
    then restored. *)
Definition irq_lock : M bool := λ k, Done (sreg_i k) (set_sreg_i false k).
Definition irq_unlock (key : bool) : M unit := modify (set_sreg_i key).

Lemma bind_done {A B} (m : M A) (f : A → M B) k a k' :
  m k = Done a k' → bind m f k = f a k'.
Proof. unfold bind. by intros ->. Qed.

(** The call gives the CPU away in the state [k'], and when it is switched back
    to in a state [k2] it ends as [post k2]. *)
Definition suspends {A} (r : res A) (k' : kstate) (post : kstate → res A) : Prop :=
  ∃ cont, r = Susp k' cont ∧ ∀ k2, cont k2 = post k2.

Lemma set_sreg_id k : set_sreg_i (sreg_i k) k = k.
Proof. by destruct k. Qed.
Lemma set_sreg_set b b' k : set_sreg_i b (set_sreg_i b' k) = set_sreg_i b k.
Proof. done. Qed.

(** A critical section: [irq_lock] ... [irq_unlock]. *)
Lemma bind_irq_lock {A} (f : bool → M A) k : bind irq_lock f k = f (sreg_i k) (set_sreg_i false k).
Proof. done. Qed.
Lemma bind_irq_unlock {A} (f : unit → M A) key k : bind (irq_unlock key) f k = f tt (set_sreg_i key k).
Proof. done. Qed.
Lemma bind_get {A} (f : kstate → M A) k : bind get f k = f k k.
Proof. done. Qed.
Lemma bind_modify {A} (g : kstate → kstate) (f : unit → M A) k : bind (modify g) f k = f tt (g k).
Proof. done. Qed.
Lemma bind_ret {A B} (a : A) (f : A → M B) k : bind (ret a) f k = f a k.
Proof. done. Qed.

Lemma suspends_intro {A} k' (post : kstate → res A) : suspends (Susp k' post) k' post.
Proof. by exists post. Qed.

Lemma suspends_bind {A B} (m : M A) (f : A → M B) k k' post :
  suspends (m k) k' post → suspends (bind m f k) k' (λ k2, rbind (post k2) f).
Proof. intros (cont&E&Hc). exists (λ k2, rbind (cont k2) f). unfold bind. rewrite E. split; [done|]. intros k2. by rewrite Hc. Qed.

Lemma suspends_ext {A} (r : res A) k' post post' :
  suspends r k' post → (∀ k2, post k2 = post' k2) → suspends r k' post'.
Proof. intros (cont&->&Hc) Hp. exists cont. split; [done|]. intros k2. by rewrite Hc. Qed.

(** [mred] executes the monad's operations. *)
Ltac mred := unfold irq_lock, irq_unlock, bind, get, modify, ret; cbn [rbind].

(** ** User code

    Handlers are function pointers the kernel calls: the code behind an address
    is a parameter. *)
Class Handlers := {
  call_event_handler : word → word → M unit;
  call_timer_handler : word → word → M Z;
  call_work_handler : word → word → M unit;
}.

(** Structure updates used by several files. *)
Definition with_scheduled (b : Z) (e : k_event) : k_event :=
  {| ev_handler := ev_handler e; scheduled := b |}.
Definition evt (k : kstate) (e : word) : k_event := events k !!! e.
Definition upd_event (e : word) (f : k_event → k_event) (k : kstate) : kstate :=
  set_events (<[e := f (evt k e)]> (events k)) k.
Definition tmr (k : kstate) (t : word) : k_timer := timers k !!! t.
Definition upd_timer (t : word) (f : k_timer → k_timer) (k : kstate) : kstate :=
  set_timers (<[t := f (tmr k t)]> (timers k)) k.
Definition upd_links (f : mem → mem) (k : kstate) : kstate := set_links (f (links k)) k.
Definition set_byte (p : word) (v : Z) (k : kstate) : kstate := set_bytes (<[p := v]> (bytes k)) k.
