(* ===== verification/Event.v ===== *)
(** * Events (event.c)

    An event is queued in the time queue [z_event_q] by its [tie]; its handler
    runs from the system tick. *)

From S2P Require Import Prelude Delta Tqueue Types.

Section Event.
Context `{Layout, Config, Handlers}.

Definition k_event_init (event handler : word) : M Z :=
  if negb (z_user (nonnull event && nonnull handler)) then ret (- EINVAL)
  else
    modify (upd_event event (λ _, {| ev_handler := handler; scheduled := 0 |}));;
    ret 0.

Definition z_event_schedule (event : word) (timeout : Z) : M unit :=
  modify (upd_event event (with_scheduled 1));;
  modify (upd_links (λ m, wr1 m (event_tie event) NULL));;
  modify (upd_links (λ m, set_delay m (event_tie event) timeout));;
  on_links (λ m, z_tqueue_schedule loop_fuel m z_event_q (event_tie event)).

Definition tqueue_reschedule_M (root item : word) (timeout : Z) : M Z := λ k,
  match tqueue_reschedule loop_fuel CONFIG_KERNEL_ARGS_CHECKS (links k) root item timeout with
  | Some (r, m) => Done r (set_links m k)
  | None => NoFuel
  end.

Definition tqueue_remove_M (root item : word) : M Z := λ k,
  match tqueue_remove loop_fuel CONFIG_KERNEL_ARGS_CHECKS (links k) root item with
  | Some (r, m) => Done r (set_links m k)
  | None => NoFuel
  end.

Definition tqueue_pop_M (root : word) : M word := λ k,
  let '(x, m) := tqueue_pop CONFIG_KERNEL_ARGS_CHECKS (links k) root in Done x (set_links m k).

Definition z_event_reschedule (event : word) (timeout : Z) : M unit :=
  let* _ := tqueue_reschedule_M z_event_q (event_tie event) timeout in ret tt.

Definition k_event_schedule (event : word) (timeout : Z) : M Z :=
  if negb (z_user (nonnull event)) then ret (- EINVAL)
  else if negb CONFIG_KERNEL_EVENTS_ALLOW_NO_WAIT && negb (z_user (negb (timeout =? K_NO_WAIT)))
  then ret (- EINVAL)
  else
    let* lock := irq_lock in
    let* k := get in
    let* r :=
      if negb (scheduled (evt k event) =? 0) then ret (- EAGAIN)
      else
        (if CONFIG_KERNEL_EVENTS_ALLOW_NO_WAIT && (timeout =? K_NO_WAIT)
         then call_event_handler (ev_handler (evt k event)) event
         else z_event_schedule event timeout);;
        ret 0 in
    irq_unlock lock;;
    ret r.

Definition k_event_cancel (event : word) : M Z :=
  if negb (z_user (nonnull event)) then ret (- EINVAL)
  else
    let* lock := irq_lock in
    let* k := get in
    let* r :=
      if scheduled (evt k event) =? 0 then ret (- EAGAIN)
      else
        let* _ := tqueue_remove_M z_event_q (event_tie event) in
        modify (upd_event event (with_scheduled 0));;
        ret 0 in
    irq_unlock lock;;
    ret r.

Definition k_event_pending (event : word) : M bool :=
  if negb (z_user (nonnull event)) then ret false
  else let* k := get in ret (scheduled (evt k event) =? 1).

(** The [while] loop of [z_event_q_process]. *)
Fixpoint z_event_q_loop (fuel : nat) : M unit :=
  match fuel with
  | O => λ _, NoFuel
  | S fuel =>
      let* tie := tqueue_pop_M z_event_q in
      if decide (tie = NULL) then ret tt
      else
        modify (upd_event tie (with_scheduled 0));;
        let* k := get in
        call_event_handler (ev_handler (evt k tie)) tie;;
        z_event_q_loop fuel
  end.

Definition z_event_q_process : M unit :=
  on_links (λ m, tqueue_shift loop_fuel m z_event_q Z_KERNEL_TIME_SLICE_TICKS);;
  z_event_q_loop loop_fuel.
End Event.
