(* ===== verification/Timer.v ===== *)
(** * Kernel timers (timer.c)

    A started timer is queued in the time queue [z_timers_runqueue]; a stopped
    one has [K_TIMER_STOPPED] in the delay word of its [tie]. *)

From S2P Require Import Prelude Delta Tqueue Types Event.

Section Timer.
Context `{Layout, Config, Handlers}.

Definition K_TIMER_STOPPED : Z := 65535.

Definition tie_timeout (k : kstate) (timer : word) : Z := delay_shift (links k) (timer_tie timer).
Definition set_tie_timeout (timer : word) (v : Z) : kstate → kstate :=
  upd_links (λ m, set_delay m (timer_tie timer) v).

Definition z_timer_start (timer : word) (starting_delay : Z) : M unit :=
  let* key := irq_lock in
  on_links (λ m, tqueue_schedule loop_fuel m z_timers_runqueue (timer_tie timer) starting_delay);;
  irq_unlock key.

(** One expired timer of the loop of [z_timers_process]. *)
Definition z_timer_expired (timer : word) : M unit :=
  let* k := get in
  let* r := call_timer_handler (tm_handler (tmr k timer)) timer in
  (when negb (r =? 0) do modify (set_tie_timeout timer K_TIMER_STOPPED));;
  let* k := get in
  when negb (tie_timeout k timer =? K_TIMER_STOPPED) do
    (modify (upd_links (λ m, wr1 m (timer_tie timer) NULL));;
     modify (set_tie_timeout timer (tm_timeout (tmr k timer)));;
     on_links (λ m, z_tqueue_schedule loop_fuel m z_timers_runqueue (timer_tie timer))).

(** The [while] loop of [z_timers_process]. *)
Fixpoint z_timers_loop (fuel : nat) : M unit :=
  match fuel with
  | O => λ _, NoFuel
  | S fuel =>
      let* item := tqueue_pop_M z_timers_runqueue in
      if decide (item = NULL) then ret tt
      else
        z_timer_expired item;;
        z_timers_loop fuel
  end.

Definition z_timers_process : M unit :=
  on_links (λ m, tqueue_shift loop_fuel m z_timers_runqueue Z_KERNEL_TIME_SLICE_TICKS);;
  z_timers_loop loop_fuel.

Definition k_timer_init (timer handler : word) (timeout starting_delay : Z) : M Z :=
  if negb (z_user (nonnull timer && nonnull handler)) then ret (- EINVAL)
  else if timeout =? K_NO_WAIT then ret (- EINVAL)
  else
    modify (upd_timer timer (λ _, {| tm_timeout := timeout; tm_handler := handler |}));;
    (if negb (timeout =? K_FOREVER) then z_timer_start timer starting_delay
     else modify (set_tie_timeout timer K_FOREVER));;
    ret 0.

Definition k_timer_started (timer : word) : M bool :=
  if negb (z_user (nonnull timer)) then ret false
  else
    let* key := irq_lock in
    let* k := get in
    let r := negb (tie_timeout k timer =? K_TIMER_STOPPED) in
    irq_unlock key;;
    ret r.

Definition k_timer_stop (timer : word) : M Z :=
  if negb (z_user (nonnull timer)) then ret (- EINVAL)
  else
    let* k := get in
    if tie_timeout k timer =? K_TIMER_STOPPED then ret 0
    else
      let* key := irq_lock in
      let* _ := tqueue_remove_M z_timers_runqueue (timer_tie timer) in
      modify (set_tie_timeout timer K_TIMER_STOPPED);;
      irq_unlock key;;
      ret 0.

Definition k_timer_start (timer : word) (starting_delay : Z) : M Z :=
  if negb (z_user (nonnull timer)) then ret (- EINVAL)
  else
    let* started := k_timer_started timer in
    if started then ret 0
    else if starting_delay =? K_FOREVER then ret (- EINVAL)
    else
      z_timer_start timer starting_delay;;
      ret 0.
End Timer.
