(* ===== verification/Kernel.v ===== *)
(** * The kernel: threads, scheduler and wait queues (kernel.c, kernel.h)

    [CONFIG_THREAD_MONITOR], [CONFIG_KERNEL_ASSERT] and the debug hooks are
    off, as in the default configuration. *)

From S2P Require Import Prelude Dlist Delta Tqueue Types Event Timer.

Section Kernel.
Context `{Layout, Config, Handlers}.

(** ** Thread flags *)

Definition z_set_thread_state (thread : word) (state : Z) (k : kstate) : kstate :=
  set_flags thread (Z.lor (Z.land (flags (thr k thread)) (Z.lnot Z_THREAD_STATE_MSK))
                          (Z.land state Z_THREAD_STATE_MSK)) k.

Definition z_get_thread_state (k : kstate) (thread : word) : Z :=
  Z.land (flags (thr k thread)) Z_THREAD_STATE_MSK.

Definition or_flags (thread : word) (msk : Z) (k : kstate) : kstate :=
  set_flags thread (Z.lor (flags (thr k thread)) msk) k.
Definition clr_flags (thread : word) (msk : Z) (k : kstate) : kstate :=
  set_flags thread (Z.land (flags (thr k thread)) (Z.lnot msk)) k.
Definition test_flags (k : kstate) (thread : word) (msk : Z) : bool :=
  negb (Z.land (flags (thr k thread)) msk =? 0).

(** ** Scheduling *)

Definition z_schedule (thread : word) (k : kstate) : kstate :=
  let k := z_set_thread_state thread Z_THREAD_STATE_READY k in
  let k :=
    if ready_count k =? 0 then
      let k := upd_links (λ m, dlist_init m (thread_tie thread)) k in
      set_run_queue (thread_tie thread) k
    else upd_links (λ m, dlist_prepend m (run_queue k) (thread_tie thread)) k in
  set_ready_count (u8 (ready_count k + 1)) k.

(** [z_scheduler] returns the thread that was running. *)
Definition z_scheduler (k : kstate) : word * kstate :=
  let prev := current k in
  let k := clr_flags prev (Z.lor Z_THREAD_TIMER_EXPIRED_MSK Z_THREAD_PEND_CANCELED_MSK) k in
  let k := if z_get_thread_state k (current k) =? Z_THREAD_STATE_READY
           then set_run_queue (next (links k) (run_queue k)) k else k in
  let k := set_current (thread_of_tie (run_queue k)) k in
  (prev, k).

(** [z_yield] and [z_thread_switch] (arch/thread_switch_preempt.S): nothing
    is switched when the scheduler picks the thread that was running; else
    the status register is saved with the context and restored on return. *)
Definition z_yield : M unit := λ k,
  let '(prev, k) := z_scheduler k in
  if decide (prev = current k) then Done tt k
  else Susp k (λ k', Done tt (set_sreg_i (sreg_i k) k')).

Definition z_cancel_scheduled_wake_up (thread : word) : M unit :=
  let* k := get in
  when test_flags k thread Z_THREAD_WAKEUP_SCHED_MSK do
    (modify (clr_flags thread Z_THREAD_WAKEUP_SCHED_MSK);;
     let* _ := tqueue_remove_M z_timeouts_queue (thread_tie thread) in ret tt).

Definition z_suspend (thread : word) : M unit :=
  let* k := get in
  if z_get_thread_state k thread =? Z_THREAD_STATE_PENDING then
    z_cancel_scheduled_wake_up thread
  else
    modify (upd_links (λ m, dlist_remove m (thread_tie thread)));;
    modify (λ k, set_ready_count (u8 (ready_count k - 1)) k);;
    let* k := get in
    if ready_count k =? 0 then
      if CONFIG_KERNEL_THREAD_IDLE then modify (set_run_queue (thread_tie z_thread_idle))
      else fault K_FAULT_KERNEL_HALT
    else
      when bool_decide (thread = current k) do
        modify (set_run_queue (prev (links k) (next (links k) (thread_tie thread)))).

Definition z_schedule_wake_up (timeout : Z) : M unit :=
  when negb (timeout =? K_FOREVER) do
    (let* k := get in
     let cur := current k in
     modify (or_flags cur Z_THREAD_WAKEUP_SCHED_MSK);;
     modify (upd_links (λ m, set_delay m (thread_tie cur) timeout));;
     modify (upd_links (λ m, wr1 m (thread_tie cur) NULL));;
     on_links (λ m, z_tqueue_schedule loop_fuel m z_timeouts_queue (thread_tie cur))).

Definition z_pend_current (timeout : Z) : M unit :=
  let* k := get in
  z_suspend (current k);;
  z_schedule_wake_up timeout;;
  let* k := get in
  modify (z_set_thread_state (current k) Z_THREAD_STATE_PENDING);;
  z_yield.

Definition z_pend_current_on (waitqueue : word) (timeout : Z) : M Z :=
  if timeout =? K_NO_WAIT then ret (- EAGAIN)
  else
    (when nonnull waitqueue do
       (let* k := get in
        modify (upd_links (λ m, dlist_append m waitqueue (thread_wqh (current k))))));;
    z_pend_current timeout;;
    let* k := get in
    if test_flags k (current k) Z_THREAD_TIMER_EXPIRED_MSK then ret (- ETIMEDOUT)
    else if test_flags k (current k) Z_THREAD_PEND_CANCELED_MSK then ret (- ECANCELED)
    else ret 0.

Definition z_wake_up (thread : word) : M unit :=
  z_cancel_scheduled_wake_up thread;;
  modify (z_schedule thread).

(** [pfd->revents |= K_POLL_READY] *)
Definition K_POLL_READY : Z := 1.
Definition K_POLL_ERR : Z := 2.
Definition pfd (k : kstate) (p : word) : k_pollfd := pollfds k !!! p.
Definition with_revents (r : Z) (p : k_pollfd) : k_pollfd :=
  {| revents := r; pfd_type := pfd_type p; pfd_obj := pfd_obj p; pfd_thread := pfd_thread p |}.
Definition upd_pfd (p : word) (f : k_pollfd → k_pollfd) (k : kstate) : kstate :=
  set_pollfds (<[p := f (pfd k p)]> (pollfds k)) k.
Definition wqflag (k : kstate) (h : word) : Z := wqflags k !!! h.

Definition z_unpend_first_thread (waitqueue : word) : M word :=
  let* k := get in
  let '(tie, m) := dlist_get (links k) waitqueue in
  modify (set_links m);;
  if decide (waitqueue ≠ tie) then
    let polling := CONFIG_POLLING && negb (wqflag k tie =? 0) in
    (when polling do
       (let p := CONTAINER_OF tie ofs_pfd_wqhandle in
        modify (λ k, upd_pfd p (with_revents (Z.lor (revents (pfd k p)) K_POLL_READY)) k)));;
    let pending_thread :=
      if polling then pfd_thread (pfd k (CONTAINER_OF tie ofs_pfd_wqhandle)) else thread_of_wqh tie in
    modify (upd_links (λ m, dlist_init m (thread_wqh pending_thread)));;
    z_wake_up pending_thread;;
    ret (if polling then NULL else pending_thread)
  else ret NULL.

Definition z_unpend_first_and_swap (waitqueue set_swap : word) : M word :=
  let* pending_thread := z_unpend_first_thread waitqueue in
  (when nonnull pending_thread do modify (set_swap_data pending_thread set_swap));;
  ret pending_thread.

Definition z_cancel_first_pending (waitqueue : word) : M unit :=
  let* pending_thread := z_unpend_first_thread waitqueue in
  when nonnull pending_thread do modify (or_flags pending_thread Z_THREAD_PEND_CANCELED_MSK).

(** The [while] loop of [z_cancel_all_pending]. *)
Fixpoint z_cancel_all_loop (fuel : nat) (waitqueue : word) (count : Z) : M Z :=
  match fuel with
  | O => λ _, NoFuel
  | S fuel =>
      let* pending_thread := z_unpend_first_thread waitqueue in
      if decide (pending_thread = NULL) then ret count
      else
        modify (or_flags pending_thread Z_THREAD_PEND_CANCELED_MSK);;
        z_cancel_all_loop fuel waitqueue (u8 (count + 1))
  end.

Definition z_cancel_all_pending (waitqueue : word) : M Z := z_cancel_all_loop loop_fuel waitqueue 0.

(** [while (z_unpend_first_thread(waitqueue) != NULL) ret++;] of
    [k_signal_raise] and [k_condvar_broadcast], [wrap] being the width of the
    counter. *)
Fixpoint z_unpend_all_loop (wrap : Z → Z) (fuel : nat) (waitqueue : word) (count : Z) : M Z :=
  match fuel with
  | O => λ _, NoFuel
  | S fuel =>
      let* pending_thread := z_unpend_first_thread waitqueue in
      if decide (pending_thread = NULL) then ret count
      else z_unpend_all_loop wrap fuel waitqueue (wrap (count + 1))
  end.

(** ** The system tick *)

(** One expired thread of the loop of [z_sched_enter]. *)
Definition z_sched_expire (thread : word) (k : kstate) : kstate :=
  let k := or_flags thread Z_THREAD_TIMER_EXPIRED_MSK k in
  let k := clr_flags thread Z_THREAD_WAKEUP_SCHED_MSK k in
  let k := upd_links (λ m, dlist_remove m (thread_wqh thread)) k in
  z_schedule thread k.

Fixpoint z_sched_enter_loop (fuel : nat) : M unit :=
  match fuel with
  | O => λ _, NoFuel
  | S fuel =>
      let* ready := tqueue_pop_M z_timeouts_queue in
      if decide (ready = NULL) then ret tt
      else
        modify (z_sched_expire (thread_of_tie ready));;
        z_sched_enter_loop fuel
  end.

Definition z_sched_enter : M unit :=
  on_links (λ m, tqueue_shift loop_fuel m z_timeouts_queue Z_KERNEL_TIME_SLICE_TICKS);;
  z_sched_enter_loop loop_fuel;;
  (when CONFIG_KERNEL_TIMERS do z_timers_process);;
  (when CONFIG_KERNEL_EVENTS do z_event_q_process).

(** The tail of the system tick interrupt: the interrupted thread is
    preempted unless it is cooperative or has locked the scheduler. *)
Definition sched_locked (k : kstate) : bool :=
  test_flags k (current k) (Z.lor Z_THREAD_PRIO_COOP Z_THREAD_SCHED_LOCKED_MSK).

Definition systick_isr : M unit :=
  z_sched_enter;;
  let* k := get in
  if sched_locked k then ret tt else z_yield.

(** ** The public API *)

Definition k_thread_start (thread : word) : M Z :=
  let* k := get in
  if negb (z_get_thread_state k thread =? Z_THREAD_STATE_STOPPED) then ret (- EAGAIN)
  else
    let* key := irq_lock in
    modify (z_schedule thread);;
    irq_unlock key;;
    ret 0.

(** The loop that wakes up the threads joining an aborted thread. *)
Fixpoint z_wake_joiners (fuel : nat) (waitqueue : word) : M unit :=
  match fuel with
  | O => λ _, NoFuel
  | S fuel =>
      let* waiter := z_unpend_first_thread waitqueue in
      if decide (waiter = NULL) then ret tt else z_wake_joiners fuel waitqueue
  end.

Definition k_thread_abort (thread : word) : M Z :=
  let* k := get in
  if z_get_thread_state k thread =? Z_THREAD_STATE_STOPPED then ret (- EINVAL)
  else
    let* key := irq_lock in
    z_suspend thread;;
    modify (z_set_thread_state thread Z_THREAD_STATE_STOPPED);;
    (when CONFIG_THREAD_JOIN do z_wake_joiners loop_fuel (thread_join thread));;
    let* k := get in
    (when bool_decide (thread = current k) do z_yield);;
    irq_unlock key;;
    ret 0.

Definition k_abort : M unit :=
  let* k := get in
  let* _ := k_thread_abort (current k) in
  ret tt.

Definition k_thread_join (thread : word) (timeout : Z) : M Z :=
  if negb (z_user (nonnull thread)) then ret (- EINVAL)
  else
    let* key := irq_lock in
    let* k := get in
    let* r :=
      if z_get_thread_state k thread =? Z_THREAD_STATE_STOPPED then ret 0
      else z_pend_current_on (thread_join thread) timeout in
    irq_unlock key;;
    ret r.

Definition k_thread_set_priority (thread : word) (prio : Z) : M unit :=
  let* key := irq_lock in
  modify (λ k, set_flags thread
    (Z.lor (Z.land (flags (thr k thread)) (Z.lnot Z_THREAD_PRIO_MSK)) (Z.land prio Z_THREAD_PRIO_MSK)) k);;
  irq_unlock key.

Definition k_ready_count : M Z := let* k := get in ret (ready_count k).

Definition set_lock_cnt (thread : word) (c : Z) : kstate → kstate :=
  upd_thread thread (with_sched_lock_cnt c).

Definition k_sched_lock : M unit :=
  let* key := irq_lock in
  modify (λ k, or_flags (current k) Z_THREAD_SCHED_LOCKED_MSK k);;
  irq_unlock key;;
  when CONFIG_KERNEL_REENTRANCY do
    modify (λ k, set_lock_cnt (current k) (u8 (sched_lock_cnt (thr k (current k)) + 1)) k).

Definition k_sched_unlock_flag : M unit :=
  let* key := irq_lock in
  modify (λ k, clr_flags (current k) Z_THREAD_SCHED_LOCKED_MSK k);;
  irq_unlock key.

Definition k_sched_unlock : M unit :=
  if CONFIG_KERNEL_REENTRANCY then
    let* k := get in
    let cnt := sched_lock_cnt (thr k (current k)) in
    if cnt =? 0 then ret tt
    else if cnt =? 1 then
      modify (set_lock_cnt (current k) 0);;
      k_sched_unlock_flag
    else modify (set_lock_cnt (current k) (u8 (cnt - 1)))
  else k_sched_unlock_flag.

Definition k_sched_locked : M bool := let* k := get in ret (sched_locked k).
Definition k_cur_is_preempt : M bool :=
  let* k := get in ret (negb (test_flags k (current k) Z_THREAD_PRIO_COOP)).
Definition k_cur_is_coop : M bool :=
  let* k := get in ret (test_flags k (current k) Z_THREAD_PRIO_COOP).

Definition k_sleep (timeout : Z) : M unit :=
  let* key := irq_lock in
  z_pend_current timeout;;
  irq_unlock key.

Definition k_yield : M unit :=
  let* key := irq_lock in
  z_yield;;
  irq_unlock key.

Definition k_yield_from_isr : M unit :=
  let* k := get in
  when negb (sched_locked k) do z_yield.

Definition k_yield_from_isr_cond (thread : word) : M unit :=
  when nonnull thread do k_yield_from_isr.
End Kernel.
