(* ===== verification/Queues.v ===== *)
(** * Properties of the containers (dstruct/)

    The time queues keep absolute expiry times, through the interface
    [DeltaQueue] that both implement; the linked lists implement list
    operations. *)

From S2P Require Import Prelude Dlist Delta Tqueue Tdqueue Slist.

Section Queues.
Context `{Layout}.

(** [tqueue_schedule] inserts an item at its absolute time, after the items
    due at the same time or earlier, and moves the time of no other item. *)
Theorem tqueue_schedule_timeline fuel m root q x d now :
  tq_rep m root q → delta_ok q → x ∉ tq_node root :: q.*1 → x ≠ NULL →
  0 <= d < 65536 → (length q < fuel)%nat →
  ∃ m' q', tqueue_schedule fuel m root x d = Some m' ∧ tq_rep m' root q' ∧ delta_ok q' ∧
    expiries now q' = timed_insert x (now + d) (expiries now q).
Proof.
  intros Hr Hok Hx Hn Hd Hf.
  destruct (tqueue_schedule_spec fuel m root q x d) as (m'&E&Hr'&_); [done..|].
  exists m', (delta_insert x d q). split_and!; try done; [by apply delta_insert_ok|].
  apply delta_insert_expiries.
Qed.

(** C23: after [tqueue_shift] by [n] ticks, popping until nothing is due yields
    exactly the items whose time has come, in the order of their times, and
    leaves the others with theirs. *)
Theorem tqueue_advance chk fuel m root q now n :
  tq_rep m root q → delta_ok q → root ≠ NULL → 0 <= n < 65536 → (length q < fuel)%nat →
  ∃ m1 m2 q', tqueue_shift fuel m root n = Some m1 ∧
    dq_drain (H := tqueue_delta_queue chk) fuel m1 root
      = Some ((filter (λ p, p.2 <= now + n) (expiries now q)).*1, m2) ∧
    tq_rep m2 root q' ∧ delta_ok q' ∧
    expiries (now + n) q' = filter (λ p, now + n < p.2) (expiries now q).
Proof.
  intros Hr Hok Hn Hd Hf.
  destruct (dq_advance (H := tqueue_delta_queue chk) fuel m root q now n)
    as (m1&m2&q'&?&?&[? _]&?&?); [done..|]. by exists m1, m2, q'.
Qed.

(** [tqueue_remove] takes out the item it is given, keeps the time of every
    other item, and reports an item that is not there without any change. *)
Theorem tqueue_remove_timeline fuel chk m root q x now :
  tq_rep m root q → delta_ok q → root ≠ NULL → x ≠ NULL → (length q < fuel)%nat →
  if decide (x ∈ q.*1) then
    ∃ m' q' q1 t q2, tqueue_remove fuel chk m root x = Some (0, m') ∧ tq_rep m' root q' ∧
      delta_ok q' ∧ expiries now q = q1 ++ (x, t) :: q2 ∧ expiries now q' = q1 ++ q2
  else tqueue_remove fuel chk m root x = Some (- ENOENT, m).
Proof.
  intros Hr Hok Hn Hx Hf. pose proof (tqueue_remove_spec fuel chk m root x q Hr Hok Hn Hx Hf) as Hs.
  case_decide as Hin.
  - destruct (delta_remove x q) as [q'|] eqn:E; [|by apply delta_remove_None in E].
    destruct Hs as (m'&?&?&_). destruct (delta_remove_expiries _ _ _ now E) as (q1&t&q2&?&?&_).
    destruct (delta_remove_ok _ _ _ Hok E). by exists m', q', q1, t, q2.
  - by rewrite (proj2 (delta_remove_None x q) Hin) in Hs.
Qed.

(** The doubly linked time queue delivers as the singly linked one does,
    provided the word in front of its sentinel is not 0. *)
Theorem tdqueue_advance fuel m l q now n :
  tdq_rep m l q → tditem_of l ∉ nodes_of q → delta_ok q → delay_shift m (tditem_of l) ≠ 0 →
  0 <= n < 65536 → (length q < fuel)%nat →
  ∃ m1 m2 q', tdqueue_shift fuel m l n = Some m1 ∧
    dq_drain (H := tdqueue_delta_queue) fuel m1 l
      = Some ((filter (λ p, p.2 <= now + n) (expiries now q)).*1, m2) ∧
    tdq_rep m2 l q' ∧ delta_ok q' ∧
    expiries (now + n) q' = filter (λ p, now + n < p.2) (expiries now q).
Proof.
  intros Hr Hl Hok Hn Hd Hf.
  destruct (dq_advance (H := tdqueue_delta_queue) fuel m l q now n)
    as (m1&m2&q'&?&?&[? _]&?&?); [done..|]. by exists m1, m2, q'.
Qed.

(** Popping an empty [tdqueue] reads the word in front of the sentinel as the
    delay of an item: when it is 0 the pop returns a pointer that is no item,
    computed from the sentinel, instead of [NULL]. *)
Theorem tdqueue_pop_empty m l :
  tdq_rep m l [] → delay_shift m (tditem_of l) = 0 →
  (tdqueue_pop m l).1 = tditem_of l.
Proof. intros Hr Hz. by rewrite (tdqueue_pop_nil _ _ Hr), Hz. Qed.

(** C28: the operations of the circular doubly linked list implement those of a
    list: append, prepend, insertion before an element, removal anywhere and
    removal of the first. *)
Theorem dlist_implements_list m l xs ys n :
  ring m l (xs ++ ys) → n ∉ l :: xs ++ ys →
  ring (dlist_init m l) l [] ∧
  ring (dlist_append m l n) l (xs ++ ys ++ [n]) ∧
  ring (dlist_prepend m l n) l (n :: xs ++ ys) ∧
  ring (dlist_insert m (hd l ys) n) l (xs ++ n :: ys) ∧
  ring (dlist_remove (dlist_insert m (hd l ys) n) n) l (xs ++ ys) ∧
  dlist_is_empty m l = bool_decide (xs ++ ys = []) ∧
  match xs ++ ys with
  | [] => (dlist_get m l).1 = l ∧ ring (dlist_get m l).2 l []
  | z :: zs => (dlist_get m l).1 = z ∧ ring (dlist_get m l).2 l zs
  end.
Proof.
  intros Hr Hn. destruct (dlist_insert_before m l xs ys n Hr Hn) as [Hi _].
  split_and!; [apply dlist_init_ring|rewrite app_assoc; by apply dlist_append_ring
    |by apply dlist_prepend_ring|done|by apply dlist_remove_ring|by apply dlist_is_empty_spec|].
  destruct (xs ++ ys) as [|z zs].
  - destruct (dlist_get_nil m l Hr) as [E Ha]. split; [done|]. by eapply ring_ext.
  - by destruct (dlist_get_cons m l z zs Hr) as [-> ?].
Qed.

(** The singly linked queue is first in, first out: an appended item comes
    out after all those queued before it, and peeking sees both ends. *)
Theorem slist_implements_queue m l ns x :
  sl_rep m l ns → x ∉ l :: ns → x ≠ NULL →
  let m' := slist_append m l x in
  sl_rep (slist_init m l) l [] ∧ sl_rep m' l (ns ++ [x]) ∧
  slist_peek_head m' l = hd x ns ∧ slist_peek_tail m' l = x ∧
  (slist_get m' l).1 = hd x ns ∧ sl_rep (slist_get m' l).2 l (tl (ns ++ [x])).
Proof.
  intros Hr Hx Hn m'. destruct (slist_append_rep m l ns x Hr Hx Hn) as [Hr' _].
  fold m' in Hr'. split_and!; [apply slist_init_rep|done|..].
  - destruct Hr' as (_&Hc&_). unfold slist_peek_head. by destruct ns; destruct Hc as [Hc _]; rewrite Hc.
  - destruct Hr' as (_&_&Ht). by rewrite last_snoc in Ht.
  - destruct ns; by apply slist_get_rep in Hr' as (?&_).
  - destruct ns; by apply slist_get_rep in Hr' as (_&?&_).
Qed.
End Queues.

(** ** Instances *)

Section Instances.
#[local] Instance q_layout : Layout := λ b, 64 * Zpos b.

Definition q_root : word := Ptr 1 2.
Definition q_a : word := Ptr 2 0.
Definition q_b : word := Ptr 3 0.
Definition q_c : word := Ptr 4 0.

(** [q_a] due in 5 ticks, then [q_b] 3 ticks after it. *)
Definition q_mem : mem := wr1 (wr0 (wr1 (wr0 (wr1 ∅ (tq_node q_root) q_a) q_a (Int 5)) q_a q_b) q_b (Int 3)) q_b NULL.

Lemma q_rep : tq_rep q_mem q_root [(q_a, 5); (q_b, 3)].
Proof. split; [by apply (bool_decide_unpack _)|by vm_compute]. Qed.

Lemma q_ok : delta_ok [(q_a, 5); (q_b, 3)].
Proof. split; [repeat constructor|]; by vm_compute. Qed.

Lemma tqueue_schedule_timeline_witness :
  ∃ m' q', tqueue_schedule 4 q_mem q_root q_c 7 = Some m' ∧ tq_rep m' q_root q' ∧
    expiries 100 q' = [(q_a, 105); (q_c, 107); (q_b, 108)].
Proof.
  destruct (tqueue_schedule_timeline 4 q_mem q_root [(q_a, 5); (q_b, 3)] q_c 7 100)
    as (m'&q'&?&?&_&?); [apply q_rep|apply q_ok|set_solver|done|lia|simpl; lia|].
  by exists m', q'.
Defined.

Lemma tqueue_advance_witness :
  ∃ m1 m2 q', tqueue_shift 4 q_mem q_root 6 = Some m1 ∧
    dq_drain (H := tqueue_delta_queue true) 4 m1 q_root = Some ([q_a], m2) ∧
    tq_rep m2 q_root q' ∧ expiries 106 q' = [(q_b, 108)].
Proof.
  destruct (tqueue_advance true 4 q_mem q_root [(q_a, 5); (q_b, 3)] 100 6)
    as (m1&m2&q'&?&?&?&_&?); [apply q_rep|apply q_ok|done|lia|simpl; lia|].
  by exists m1, m2, q'.
Defined.

Lemma tqueue_remove_timeline_witness :
  ∃ m' q', tqueue_remove 4 true q_mem q_root q_a = Some (0, m') ∧ tq_rep m' q_root q' ∧
    expiries 100 q' = [(q_b, 108)].
Proof.
  pose proof (tqueue_remove_timeline 4 true q_mem q_root [(q_a, 5); (q_b, 3)] q_a 100
    q_rep q_ok ltac:(done) ltac:(done) ltac:(simpl; lia)) as Hs.
  rewrite decide_True in Hs by by left.
  destruct Hs as (m'&q'&q1&t&q2&?&?&_&E&?). exists m', q'. split_and!; [done..|].
  destruct q1 as [|x q1]; simplify_eq/=; [done|].
  destruct q1 as [|y q1]; simplify_eq/=. by destruct q1.
Defined.

(** The doubly linked queue of the same two items; its sentinel is at offset 2
    of a block whose first word is 1. *)
Definition d_mem : mem :=
  set_delay (set_delay (set_delay
    (dlist_append (dlist_append (dlist_init ∅ q_root) q_root (tditem_node q_a)) q_root (tditem_node q_b))
    (tditem_of q_root) 1) q_a 5) q_b 3.

Lemma tdqueue_advance_witness :
  ∃ m1 m2 q', tdqueue_shift 4 d_mem q_root 6 = Some m1 ∧
    dq_drain (H := tdqueue_delta_queue) 4 m1 q_root = Some ([q_a], m2) ∧
    tdq_rep m2 q_root q' ∧ expiries 106 q' = [(q_b, 108)].
Proof.
  destruct (tdqueue_advance 4 d_mem q_root [(q_a, 5); (q_b, 3)] 100 6)
    as (m1&m2&q'&?&?&?&_&?); [|by apply (bool_decide_unpack _)|apply q_ok|by vm_compute|lia|simpl; lia|].
  - split_and!; [split; [by apply (bool_decide_unpack _)|by vm_compute]|repeat constructor| |
      by apply (bool_decide_unpack _)].
    intros a Ha. simpl in Ha. set_solver.
  - by exists m1, m2, q'.
Defined.

Lemma tdqueue_pop_empty_witness :
  let m := dlist_init (set_delay ∅ (tditem_of q_root) 0) q_root in
  (tdqueue_pop m q_root).1 = Ptr 1 0.
Proof.
  apply (tdqueue_pop_empty (dlist_init (set_delay ∅ (tditem_of q_root) 0) q_root) q_root); [|done].
  split_and!; [apply dlist_init_ring|constructor|intros a Ha; by apply not_elem_of_nil in Ha
    |apply not_elem_of_nil].
Defined.

Lemma dlist_implements_list_witness :
  let m := dlist_append (dlist_init ∅ q_root) q_root q_a in
  ring (dlist_append m q_root q_b) q_root [q_a; q_b] ∧
  ring (dlist_prepend m q_root q_b) q_root [q_b; q_a].
Proof.
  destruct (dlist_implements_list (dlist_append (dlist_init ∅ q_root) q_root q_a) q_root [] [q_a] q_b)
    as (_&?&?&_); [|by apply (bool_decide_unpack _)|done].
  split; [by apply (bool_decide_unpack _)|by vm_compute].
Defined.

Lemma slist_implements_queue_witness :
  let m := slist_append (slist_init ∅ q_root) q_root q_a in
  sl_rep (slist_append m q_root q_b) q_root [q_a; q_b] ∧
  (slist_get (slist_append m q_root q_b) q_root).1 = q_a.
Proof.
  destruct (slist_implements_queue (slist_append (slist_init ∅ q_root) q_root q_a) q_root [q_a] q_b)
    as (_&?&_&_&?&_); [|by apply (bool_decide_unpack _)|done|done].
  split_and!; [by apply (bool_decide_unpack _)|by vm_compute|done].
Defined.
End Instances.
