(* ===== verification/KernelInv.v ===== *)
(** * The kernel invariant

    Abstract state of the kernel: the ready threads in the order of the run
    queue ([rs], the head is where [run_queue] points), the threads with a
    scheduled wake-up ([ts], with their delays) and the threads pending on each
    wait queue ([Q]).  [Inv] says that the link memory represents it and that
    the flags of the threads agree with it.  The lemmas of this file are about
    the link memory alone. *)

From S2P Require Import Prelude Dlist Delta Tqueue Types Event Timer Kernel.

Section KernelInv.
Context `{Layout, Config, Handlers}.

(** Where objects are in memory: [T] the threads, [H] the wait-queue heads.
    No link node of a thread is that of another, a head or the root. *)
Record memmap (T : gset word) (Hd : gset word) : Prop := {
  mm_tie_wqh t t' : t ∈ T → t' ∈ T → thread_tie t ≠ thread_wqh t';
  mm_head_tie l t : l ∈ Hd → t ∈ T → l ≠ thread_tie t;
  mm_head_wqh l t : l ∈ Hd → t ∈ T → l ≠ thread_wqh t;
  mm_root_tie t : t ∈ T → tq_node z_timeouts_queue ≠ thread_tie t;
  mm_root_wqh t : t ∈ T → tq_node z_timeouts_queue ≠ thread_wqh t;
  mm_root_head : tq_node z_timeouts_queue ∉ Hd;
  mm_root_null : z_timeouts_queue ≠ NULL;
  mm_null_node : tq_node z_timeouts_queue ≠ NULL;
  mm_null_head : NULL ∉ Hd;
  mm_null_tie t : t ∈ T → thread_tie t ≠ NULL;
  mm_null_wqh t : t ∈ T → thread_wqh t ≠ NULL;
  mm_null_thread : NULL ∉ T;
  mm_idle : z_thread_idle ∉ T;
}.

(** A node that is none of the kernel's own: [F] is the memory of these. *)
Definition foreign (T Hd : gset word) (p : word) : Prop :=
  (p ∉ Hd) ∧ p ≠ NULL ∧ p ≠ tq_node z_timeouts_queue ∧
  ∀ t, t ∈ T → p ≠ thread_tie t ∧ p ≠ thread_wqh t.

Variable F : mem.

Definition tq_items (ts : list (word * Z)) : list (word * Z) :=
  (λ p, (thread_tie p.1, p.2)) <$> ts.

Lemma tq_items_fst ts : (tq_items ts).*1 = thread_tie <$> ts.*1.
Proof. unfold tq_items. rewrite <- !list_fmap_compose. done. Qed.

Lemma tq_items_length ts : length (tq_items ts) = length ts.
Proof. apply length_fmap. Qed.

Lemma tq_items_insert t d ts :
  delta_insert (thread_tie t) d (tq_items ts) = tq_items (delta_insert t d ts).
Proof.
  revert d. induction ts as [|[a e] ts IH]; intros d; simpl; [done|].
  destruct (e <=? d); simpl; by rewrite ?IH.
Qed.
Lemma tq_items_shift n ts : delta_shift n (tq_items ts) = tq_items (delta_shift n ts).
Proof.
  revert n. induction ts as [|[a e] ts IH]; intros n; simpl; [done|].
  destruct (e <=? n); simpl; by rewrite ?IH.
Qed.
Lemma tq_items_remove t ts :
  delta_remove (thread_tie t) (tq_items ts) = tq_items <$> delta_remove t ts.
Proof.
  induction ts as [|[a e] ts IH]; simpl; [done|].
  destruct (decide (a = t)) as [->|Hne].
  - rewrite decide_True by done. simpl. destruct ts as [|[b f] ts]; done.
  - rewrite decide_False by by intros ?%(inj thread_tie).
    rewrite IH. by destruct (delta_remove t ts).
Qed.
Lemma total_tq_items ts : total (tq_items ts) = total ts.
Proof. induction ts as [|[a e] ts IH]; simpl; [done|]. by rewrite IH. Qed.
Lemma tq_items_ok ts : delta_ok (tq_items ts) ↔ delta_ok ts.
Proof.
  unfold delta_ok. rewrite total_tq_items. unfold tq_items. by rewrite Forall_fmap.
Qed.

Definition rq_ok (m : mem) (rq : word) (rs : list word) : Prop :=
  match rs with
  | [] => rq = thread_tie z_thread_idle
  | t :: rs' => rq = thread_tie t ∧ ring m rq (thread_tie <$> rs')
  end.

Definition wq_ok (m : mem) (Q : gmap word (list word)) : Prop :=
  ∀ l ws, Q !! l = Some ws → ring m l (thread_wqh <$> ws).

(** [t] pends on no wait queue. *)
Definition unqueued (Q : gmap word (list word)) (t : word) : Prop :=
  ∀ l ws, Q !! l = Some ws → t ∉ ws.

(** Removing the wait node of [t] from "its list" is harmless: it is linked
    to itself or was never linked. *)
Definition benign (m : mem) (t : word) : Prop :=
  ring m (thread_wqh t) [] ∨
  (next m (thread_wqh t) = NULL ∧ prev m (thread_wqh t) = NULL).

Record links_ok (T : gset word) (m : mem) (rq : word) (rs : list word)
    (ts : list (word * Z)) (Q : gmap word (list word)) : Prop := {
  lk_map : memmap T (dom Q);
  lk_rs_T t : t ∈ rs → t ∈ T;
  lk_ts_T t : t ∈ ts.*1 → t ∈ T;
  lk_ws_T l ws t : Q !! l = Some ws → t ∈ ws → t ∈ T;
  lk_rs_ts t : t ∈ rs → t ∉ ts.*1;
  lk_once l1 l2 ws1 ws2 t :
    Q !! l1 = Some ws1 → Q !! l2 = Some ws2 → t ∈ ws1 → t ∈ ws2 → l1 = l2;
  lk_run : rq_ok m rq rs;
  lk_run_nd : NoDup rs;
  lk_tmo : tq_rep m z_timeouts_queue (tq_items ts);
  lk_tmo_ok : delta_ok ts;
  lk_wq : wq_ok m Q;
  lk_benign t : t ∈ ts.*1 → unqueued Q t → benign m t;
  lk_frame : agree_on (foreign T (dom Q)) F m;
}.

(** ** Frames *)

Lemma rq_ok_frame m m' rq rs :
  agree_on (λ p, p ∈ thread_tie <$> rs) m m' → rq_ok m rq rs → rq_ok m' rq rs.
Proof.
  intros Ha. destruct rs as [|t rs]; simpl; [done|]. intros [-> Hr]. split; [done|].
  by eapply ring_frame.
Qed.

Lemma tq_rep_frame m m' root q :
  agree_on (λ p, p ∈ tq_node root :: q.*1) m m' → tq_rep m root q → tq_rep m' root q.
Proof.
  intros Ha [Hnd Hc]. split; [done|]. revert Hc. apply chain_frame.
  - apply Ha. set_solver.
  - eapply agree_on_impl; [done|]. set_solver.
Qed.

Lemma benign_frame m m' t :
  rd0 m' (thread_wqh t) = rd0 m (thread_wqh t) →
  rd1 m' (thread_wqh t) = rd1 m (thread_wqh t) → benign m t → benign m' t.
Proof. unfold benign. rewrite !ring_nil. by intros -> ->. Qed.

(** A change confined to the run queue and to ties of unqueued threads. *)
Lemma links_ok_ties T m m' rq rs ts Q rq' rs' :
  links_ok T m rq rs ts Q →
  agree_on (λ p, (∀ t, t ∈ T → t ∉ ts.*1 → p ≠ thread_tie t)) m m' →
  rq_ok m' rq' rs' → NoDup rs' → (∀ t, t ∈ rs' → t ∈ T ∧ t ∉ ts.*1) →
  links_ok T m' rq' rs' ts Q.
Proof.
  intros Hl Ha Hrq Hnd Hrs. destruct Hl. split; try done.
  all: cycle -1.
  { eapply agree_on_trans; [done|]. eapply agree_on_impl; [done|].
    intros p (_&_&_&Hp) t Ht _. by apply Hp. }
  - intros t Ht. by apply Hrs.
  - intros t Ht. by apply Hrs.
  - revert lk_tmo0. apply tq_rep_frame. rewrite tq_items_fst. intros p Hp. apply Ha.
    intros t Ht Hts ->. apply elem_of_cons in Hp as [E|Hp].
    + by eapply mm_root_tie in Ht.
    + apply list_elem_of_fmap in Hp as (t'&->%(inj thread_tie)&?). done.
  - intros l ws Hw. specialize (lk_wq0 l ws Hw). revert lk_wq0. apply ring_frame.
    intros p Hp. apply Ha. intros t Ht _ ->. apply elem_of_cons in Hp as [E|Hp].
    + eapply mm_head_tie in Ht; [by apply Ht|done|]. by apply elem_of_dom_2 in Hw.
    + apply list_elem_of_fmap in Hp as (t'&E&?).
      eapply mm_tie_wqh in E; eauto.
  - intros t Ht Hu. eapply benign_frame; [..|by apply lk_benign0];
      apply Ha; intros t' Ht' _ E; symmetry in E; eapply mm_tie_wqh in E; eauto.
Qed.

(** The tie of a thread that is in no list. *)
Lemma links_ok_free_tie T m rq rs ts Q t m' :
  links_ok T m rq rs ts Q → t ∈ T → t ∉ rs → t ∉ ts.*1 →
  agree_on (λ p, p ≠ thread_tie t) m m' → links_ok T m' rq rs ts Q.
Proof.
  intros Hl Ht Hrs Hts Ha. eapply links_ok_ties; eauto using lk_run_nd, lk_rs_T, lk_rs_ts.
  - eapply agree_on_impl; [done|]. intros p Hp. by apply Hp.
  - eapply rq_ok_frame; [|by apply Hl]. intros p Hp. apply Ha. intros ->.
    by apply list_elem_of_fmap in Hp as (t'&->%(inj thread_tie)&?).
Qed.

Lemma rq_hd_elem rs rq m : rq_ok m rq rs → rs ≠ [] → ∃ t, t ∈ rs ∧ rq = thread_tie t.
Proof. destruct rs; simpl; [done|]. intros [-> _] _. eexists; split; [|done]. set_solver. Qed.

(** ** Run queue operations *)

Lemma links_run_first T m rq ts Q t :
  links_ok T m rq [] ts Q → t ∈ T → t ∉ ts.*1 →
  links_ok T (dlist_init m (thread_tie t)) (thread_tie t) [t] ts Q.
Proof.
  intros Hl Ht Hts. eapply links_ok_ties; [done| | |apply NoDup_singleton|].
  - intros p Hp. by apply dlist_init_frame, Hp.
  - split; [done|]. apply dlist_init_ring.
  - intros t' ->%list_elem_of_singleton. done.
Qed.

Lemma links_run_prepend T m rq t0 rs ts Q t :
  links_ok T m rq (t0 :: rs) ts Q → t ∈ T → t ∉ t0 :: rs → t ∉ ts.*1 →
  links_ok T (dlist_prepend m rq (thread_tie t)) rq (t0 :: t :: rs) ts Q.
Proof.
  intros Hl Ht Hrs Hts. destruct (lk_run _ _ _ _ _ _ Hl) as [-> Hr].
  assert (Hn : thread_tie t ∉ thread_tie t0 :: (thread_tie <$> rs)).
  { intros Hin. change (thread_tie t0 :: (thread_tie <$> rs)) with (thread_tie <$> (t0 :: rs)) in Hin.
    by apply list_elem_of_fmap in Hin as (?&->%(inj thread_tie)&?). }
  eapply links_ok_ties; [done| | | |].
  - intros p Hp. eapply dlist_prepend_frame; [done|]. intros Hin.
    change (thread_tie t0 :: (thread_tie <$> rs)) with (thread_tie <$> (t0 :: rs)) in Hin.
    apply elem_of_cons in Hin as [->|Hin]; [by apply (Hp t)|].
    apply list_elem_of_fmap in Hin as (t'&->&?).
    apply (Hp t'); [by eapply lk_rs_T|by eapply lk_rs_ts|done].
  - split; [done|]. by apply dlist_prepend_ring.
  - pose proof (lk_run_nd _ _ _ _ _ _ Hl). rewrite !NoDup_cons, !not_elem_of_cons in *. naive_solver.
  - intros t' Ht'. destruct (decide (t' = t)) as [->|]; [done|].
    split; [eapply lk_rs_T|eapply lk_rs_ts]; [done|set_solver|done|set_solver].
Qed.

Lemma links_run_rotate T m rq t0 rs ts Q :
  links_ok T m rq (t0 :: rs) ts Q →
  links_ok T m (next m rq) (rs ++ [t0]) ts Q.
Proof.
  intros Hl. destruct (lk_run _ _ _ _ _ _ Hl) as [-> Hr].
  eapply links_ok_ties; [done|apply agree_on_refl| | |].
  - destruct rs as [|t1 rs]; simpl in *.
    + pose proof Hr as Hr'. apply ring_nil in Hr as [-> _]. done.
    + rewrite (ring_next _ _ _ _ Hr). split; [done|].
      rewrite fmap_app. simpl. by apply (ring_rotate m _ [] _ _).
  - pose proof (lk_run_nd _ _ _ _ _ _ Hl) as Hnd. by rewrite Permutation_app_comm.
  - intros t' Ht'. assert (t' ∈ t0 :: rs) by set_solver.
    split; [eapply lk_rs_T|eapply lk_rs_ts]; done.
Qed.

(** Removing the head [c] of a run queue that has other threads: the new head
    is the thread before it, the last of the queue. *)
Lemma links_run_remove_head T m rq c rs t ts Q :
  links_ok T m rq (c :: rs ++ [t]) ts Q →
  prev (dlist_remove m (thread_tie c)) (next (dlist_remove m (thread_tie c)) (thread_tie c))
    = thread_tie t ∧
  links_ok T (dlist_remove m (thread_tie c)) (thread_tie t) (t :: rs) ts Q.
Proof.
  intros Hl. destruct (lk_run _ _ _ _ _ _ Hl) as [-> Hr].
  rewrite fmap_app in Hr. simpl in Hr.
  assert (Hring : ring (dlist_remove m (thread_tie c)) (thread_tie t) (thread_tie <$> rs)).
  { apply ring_rotate in Hr. simpl in Hr.
    exact (dlist_remove_ring m (thread_tie t) [] (thread_tie c) (thread_tie <$> rs) Hr). }
  assert (Hnx : next (dlist_remove m (thread_tie c)) (thread_tie c) = next m (thread_tie c)).
  { pose proof Hr as Hr2. apply ring_rotate in Hr2. simpl in Hr2.
    destruct (dlist_remove_frame m _ [] _ _ (thread_tie c) Hr2) as [? _]; [|done].
    destruct Hr as [[Hn _]%NoDup_cons _]. simpl. set_solver. }
  split.
  - rewrite Hnx. unfold dlist_remove. autorewrite with links.
    rewrite (ring_prev _ _ _ _ Hr). done.
  - eapply links_ok_ties; [done| | | |].
    + intros p Hp. apply ring_rotate in Hr. simpl in Hr.
      apply (dlist_remove_frame m _ [] _ _ p Hr). simpl. intros Hin.
      change (thread_tie t :: (thread_tie <$> rs)) with (thread_tie <$> (t :: rs)) in Hin.
      apply list_elem_of_fmap in Hin as (t'&->&?).
      apply (Hp t'); [eapply lk_rs_T|eapply lk_rs_ts|done]; try done; set_solver.
    + split; [done|]. done.
    + pose proof (lk_run_nd _ _ _ _ _ _ Hl) as Hnd. apply NoDup_cons in Hnd as [_ Hnd].
      by rewrite Permutation_app_comm in Hnd.
    + intros t' Ht'. split; [eapply lk_rs_T|eapply lk_rs_ts]; try done; set_solver.
Qed.

Lemma links_run_remove_only T m rq c ts Q :
  links_ok T m rq [c] ts Q →
  links_ok T (dlist_remove m (thread_tie c)) (thread_tie z_thread_idle) [] ts Q.
Proof.
  intros Hl. destruct (lk_run _ _ _ _ _ _ Hl) as [-> Hr]. simpl in Hr.
  eapply links_ok_ties; [done| |done|constructor|set_solver].
  intros p _. by apply dlist_remove_self.
Qed.
(** ** Wait queues *)

Ltac mm_false lem E :=
  exfalso; eapply lem;
  [.. | first [exact E | exact (eq_sym E)]]; eauto using lk_ws_T, lk_ts_T, lk_rs_T, lk_map;
  try (by eapply elem_of_dom_2).

(** A change confined to the heads and the wait nodes (and to address 0). *)
Lemma links_ok_wqs T m m' rq rs ts Q Q' :
  links_ok T m rq rs ts Q →
  agree_on (λ p, (p ∉ dom Q) ∧ p ≠ NULL ∧ ∀ t, t ∈ T → p ≠ thread_wqh t) m m' →
  dom Q' = dom Q → wq_ok m' Q' →
  (∀ l ws t, Q' !! l = Some ws → t ∈ ws → t ∈ T) →
  (∀ l1 l2 ws1 ws2 t,
    Q' !! l1 = Some ws1 → Q' !! l2 = Some ws2 → t ∈ ws1 → t ∈ ws2 → l1 = l2) →
  (∀ t, t ∈ ts.*1 → unqueued Q' t → benign m' t) →
  links_ok T m' rq rs ts Q'.
Proof.
  intros Hl Ha Hdom Hwq HT Hon Hben. destruct Hl. split; try done.
  all: cycle -1.
  { rewrite Hdom. eapply agree_on_trans; [done|]. eapply agree_on_impl; [done|].
    intros p (Hp1&Hp2&_&Hp). split_and!; [done..|]. intros t Ht. by apply Hp. }
  - by rewrite Hdom.
  - revert lk_run0. apply rq_ok_frame. intros p Hp. apply Ha.
    apply list_elem_of_fmap in Hp as (t&->&Ht%lk_rs_T0). split_and!.
    + intros Hd. by eapply (mm_head_tie _ _ lk_map0).
    + by eapply mm_null_tie.
    + intros t' Ht'. by eapply mm_tie_wqh.
  - revert lk_tmo0. apply tq_rep_frame. rewrite tq_items_fst. intros p Hp. apply Ha.
    apply elem_of_cons in Hp as [->|Hp].
    + split_and!; [by eapply mm_root_head|by eapply mm_null_node|].
      intros t Ht. by eapply mm_root_wqh.
    + apply list_elem_of_fmap in Hp as (t&->&Ht%lk_ts_T0). split_and!.
      * intros Hd. by eapply (mm_head_tie _ _ lk_map0).
      * by eapply mm_null_tie.
      * intros t' Ht'. by eapply mm_tie_wqh.
Qed.

Lemma wqh_inj_elem t (ws : list word) : thread_wqh t ∈ thread_wqh <$> ws → t ∈ ws.
Proof. by intros (t'&->%(inj thread_wqh)&?)%list_elem_of_fmap. Qed.

(** Nodes of one wait queue are not nodes of another. *)
Lemma wq_nodes_disjoint T m rq rs ts Q l ws l' ws' p :
  links_ok T m rq rs ts Q → Q !! l = Some ws → Q !! l' = Some ws' → l ≠ l' →
  p ∈ l :: (thread_wqh <$> ws) → p ∉ l' :: (thread_wqh <$> ws').
Proof.
  intros Hl Hw Hw' Hne. pose proof (lk_map _ _ _ _ _ _ Hl) as Hm.
  apply elem_of_dom_2 in Hw as Hd. apply elem_of_dom_2 in Hw' as Hd'.
  intros [->|(t&->&Ht)%list_elem_of_fmap]%elem_of_cons [E|(t'&E&Ht')%list_elem_of_fmap]%elem_of_cons.
  - done.
  - mm_false mm_head_wqh E.
  - mm_false mm_head_wqh E.
  - apply (inj thread_wqh) in E as ->. apply Hne. by eapply lk_once.
Qed.

(** Queueing a thread that pends nowhere at the end of a wait queue. *)
Lemma links_wq_append T m rq rs ts Q l ws t :
  links_ok T m rq rs ts Q → Q !! l = Some ws → t ∈ T → unqueued Q t →
  links_ok T (dlist_append m l (thread_wqh t)) rq rs ts (<[l := ws ++ [t]]> Q).
Proof.
  intros Hl Hw Ht Hu. pose proof (lk_map _ _ _ _ _ _ Hl) as Hm.
  apply elem_of_dom_2 in Hw as Hd.
  pose proof (lk_wq _ _ _ _ _ _ Hl l ws Hw) as Hr.
  assert (Hn : thread_wqh t ∉ l :: (thread_wqh <$> ws)).
  { intros [E|Hin%wqh_inj_elem]%elem_of_cons; [|by eapply Hu].
    mm_false mm_head_wqh E. }
  assert (Hfr : ∀ p, p ∉ thread_wqh t :: l :: (thread_wqh <$> ws) →
            rd0 (dlist_append m l (thread_wqh t)) p = rd0 m p ∧
            rd1 (dlist_append m l (thread_wqh t)) p = rd1 m p).
  { intros p Hp. by eapply dlist_append_frame. }
  eapply links_ok_wqs; [done| | | | | |].
  - intros p (Hp1&Hp2&Hp3). apply Hfr.
    intros [E|[->|(t'&->&Ht')%list_elem_of_fmap]%elem_of_cons]%elem_of_cons;
      [by eapply Hp3|done|]. eapply Hp3; [by eapply lk_ws_T|done].
  - by apply dom_insert_lookup_L.
  - intros l' ws' [[<- <-]|[Hne Hw']]%lookup_insert_Some.
    + rewrite fmap_app. by apply dlist_append_ring.
    + eapply ring_frame; [|by eapply lk_wq]. intros p Hp. apply Hfr.
      intros [->|Hp']%elem_of_cons; [|by eapply wq_nodes_disjoint in Hp'].
      apply elem_of_cons in Hp as [E|Hp%wqh_inj_elem]; [|by eapply Hu].
      mm_false mm_head_wqh E.
  - intros l' ws' t' [[<- <-]|[Hne Hw']]%lookup_insert_Some; [|by eapply lk_ws_T].
    intros Ht'.
    apply elem_of_app in Ht' as [?| ->%list_elem_of_singleton]; [by eapply lk_ws_T|done].
  - intros l1 l2 ws1 ws2 t' [[<- <-]|[Hne1 H1']]%lookup_insert_Some
      [[<- <-]|[Hne2 H2']]%lookup_insert_Some; [done|..].
    + intros [Ht1| ->%list_elem_of_singleton]%elem_of_app Ht2; [by eapply lk_once|].
      by apply Hu in H2'.
    + intros Ht1 [Ht2| ->%list_elem_of_singleton]%elem_of_app; [by eapply lk_once|].
      by apply Hu in H1'.
    + by eapply lk_once.
  - intros t' Ht' Hu'.
    assert (t' ≠ t). { intros ->. eapply (Hu' l); [apply lookup_insert_eq|set_solver]. }
    assert (Hu2 : unqueued Q t').
    { intros l' ws' Hw' Hin. destruct (decide (l' = l)) as [->|Hne].
      - eapply (Hu' l); [apply lookup_insert_eq|]. rewrite Hw in Hw'. set_solver.
      - eapply (Hu' l'); [by rewrite lookup_insert_ne|done]. }
    assert (thread_wqh t' ∉ thread_wqh t :: l :: (thread_wqh <$> ws)).
    { intros [E%(inj thread_wqh)|[E|Hin%wqh_inj_elem]%elem_of_cons]%elem_of_cons; [done| |by eapply Hu2].
      mm_false mm_head_wqh E. }
    eapply benign_frame; [by apply Hfr..|]. by eapply lk_benign.
Qed.

(** Taking a thread out of the wait queue it is in: from the head
    ([dlist_get]), its node being initialised afterwards, or, on expiry, from
    the middle. *)
Lemma links_wq_remove T m m' rq rs ts Q l ws1 t ws2 :
  links_ok T m rq rs ts Q → Q !! l = Some (ws1 ++ t :: ws2) →
  agree_on (λ p, p ≠ thread_wqh t) (dlist_remove m (thread_wqh t)) m' →
  (t ∈ ts.*1 → benign m' t) →
  links_ok T m' rq rs ts (<[l := ws1 ++ ws2]> Q).
Proof.
  intros Hl Hw Hm' Hts. pose proof (lk_map _ _ _ _ _ _ Hl) as Hm.
  apply elem_of_dom_2 in Hw as Hd.
  pose proof (lk_wq _ _ _ _ _ _ Hl l _ Hw) as Hr. rewrite fmap_app in Hr. simpl in Hr.
  assert (Hsub : ∀ t', t' ∈ ws1 ++ ws2 → t' ∈ ws1 ++ t :: ws2).
  { intros t'. rewrite !elem_of_app, elem_of_cons. tauto. }
  assert (Hfr : ∀ p, p ∉ l :: (thread_wqh <$> ws1 ++ ws2) → p ≠ thread_wqh t →
            rd0 m' p = rd0 m p ∧ rd1 m' p = rd1 m p).
  { intros p Hp Hpt. destruct (Hm' p Hpt) as [-> ->]. rewrite fmap_app in Hp.
    by eapply dlist_remove_frame. }
  assert (Htws : t ∉ ws1 ++ ws2).
  { destruct (lk_wq _ _ _ _ _ _ Hl l _ Hw) as [[_ Hnd%NoDup_fmap_1]%NoDup_cons _].
    rewrite <- Permutation_middle in Hnd. by apply NoDup_cons in Hnd as [? _]. }
  assert (HtT : t ∈ T) by (eapply lk_ws_T; [done..|set_solver]).
  eapply links_ok_wqs; [done| | | | | |].
  - intros p (Hp1&Hp2&Hp3). apply Hfr; [|by apply Hp3].
    intros [->|(t'&->&Ht')%list_elem_of_fmap]%elem_of_cons; [done|].
    eapply Hp3; [|done]. eapply lk_ws_T; eauto.
  - by apply dom_insert_lookup_L.
  - intros l' ws' [[<- <-]|[Hne Hw']]%lookup_insert_Some.
    + eapply ring_frame; [|rewrite fmap_app; by apply dlist_remove_ring].
      eapply agree_on_impl; [apply Hm'|]. intros p Hp ->.
      apply elem_of_cons in Hp as [E|Hp%wqh_inj_elem]; [mm_false mm_head_wqh E|done].
    + assert (Hne' : ∀ p, p ∈ l :: (thread_wqh <$> ws1 ++ t :: ws2) → p ∉ l' :: (thread_wqh <$> ws')).
      { intros p Hp. eapply (wq_nodes_disjoint _ _ _ _ _ _ l _ l' ws' p Hl Hw); done. }
      eapply ring_frame; [|by eapply lk_wq]. intros p Hp. apply Hfr.
      2:{ intros ->. eapply Hne'; [|done]. right. apply list_elem_of_fmap. exists t.
          split; [done|]. set_solver. }
      intros Hp'.
      assert (Hp2 : p ∈ l :: (thread_wqh <$> ws1 ++ t :: ws2)).
      { revert Hp'. rewrite !elem_of_cons, !list_elem_of_fmap. naive_solver. }
      by eapply Hne'.
  - intros l' ws' t' [[<- <-]|[Hne Hw']]%lookup_insert_Some; [|by eapply lk_ws_T].
    intros Ht'%Hsub. by eapply lk_ws_T.
  - intros l1 l2 wsa wsb t' [[<- <-]|[Hne1 H1']]%lookup_insert_Some
      [[<- <-]|[Hne2 H2']]%lookup_insert_Some Hta Htb; [done|..];
      eapply lk_once; eauto.
  - intros t' Ht' Hu'.
    destruct (decide (t' = t)) as [->|Hnt]; [by apply Hts|].
    assert (Hu2 : unqueued Q t').
    { intros l' ws' Hw' Hin. destruct (decide (l' = l)) as [->|Hne].
      - eapply (Hu' l); [apply lookup_insert_eq|]. rewrite Hw in Hw'. injection Hw' as <-.
        revert Hin. rewrite !elem_of_app, elem_of_cons. naive_solver.
      - eapply (Hu' l'); [by rewrite lookup_insert_ne|done]. }
    assert (thread_wqh t' ∉ l :: (thread_wqh <$> ws1 ++ ws2)).
    { intros [E|Hin%wqh_inj_elem%Hsub]%elem_of_cons; [|by eapply Hu2].
      mm_false mm_head_wqh E. }
    eapply benign_frame; [apply Hfr; [done|by intros ?%(inj thread_wqh)]..|]. by eapply lk_benign.
Qed.

(** Initialising, or removing "from its list", the wait node of a thread that
    pends nowhere. *)
Lemma links_wqh_init T m rq rs ts Q t :
  links_ok T m rq rs ts Q → t ∈ T → unqueued Q t →
  links_ok T (dlist_init m (thread_wqh t)) rq rs ts Q.
Proof.
  intros Hl Ht Hu.
  eapply links_ok_wqs; [done| |done| | | |].
  - intros p (Hp1&Hp2&Hp3). by apply dlist_init_frame, Hp3.
  - intros l ws Hw. eapply ring_frame; [|by eapply lk_wq]. intros p Hp.
    apply dlist_init_frame. intros ->.
    apply elem_of_cons in Hp as [E|Hp%wqh_inj_elem]; [|by eapply Hu].
    mm_false mm_head_wqh E.
  - intros. by eapply lk_ws_T.
  - intros. by eapply lk_once.
  - intros t' Ht' Hu'. destruct (decide (t' = t)) as [->|Hne].
    + left. apply dlist_init_ring.
    + eapply benign_frame; [apply dlist_init_frame; by intros ?%(inj thread_wqh)..|].
      by eapply lk_benign.
Qed.

Lemma links_wqh_remove T m rq rs ts Q t :
  links_ok T m rq rs ts Q → t ∈ T → unqueued Q t → benign m t →
  links_ok T (dlist_remove m (thread_wqh t)) rq rs ts Q.
Proof.
  intros Hl Ht Hu Hb.
  assert (Hfr : agree_on (λ p, p ≠ NULL) m (dlist_remove m (thread_wqh t))).
  { intros p Hp. destruct Hb as [Hb|[Hb1 Hb2]]; [by apply dlist_remove_self|].
    unfold dlist_remove. rewrite Hb1, Hb2. split; links_simpl; done. }
  pose proof (lk_map _ _ _ _ _ _ Hl) as Hm.
  eapply links_ok_wqs; [done| |done| | | |].
  - eapply agree_on_impl; [done|]. tauto.
  - intros l ws Hw. eapply ring_frame; [|by eapply lk_wq]. eapply agree_on_impl; [done|].
    intros p Hp ->. apply elem_of_cons in Hp as [E|(t'&E&Ht')%list_elem_of_fmap].
    + apply (mm_null_head _ _ Hm). rewrite E. by eapply elem_of_dom_2.
    + eapply (mm_null_wqh _ _ Hm t'); [by eapply lk_ws_T|done].
  - intros. by eapply lk_ws_T.
  - intros. by eapply lk_once.
  - intros t' Ht' Hu'. eapply benign_frame; [| |by eapply lk_benign];
      apply Hfr; eapply mm_null_wqh; eauto using lk_ts_T.
Qed.

(** ** The queue of timeouts *)

(** A change confined to the root and the ties of threads that are not ready. *)
Lemma links_ok_tmo T m m' rq rs ts ts' Q :
  links_ok T m rq rs ts Q →
  agree_on (λ p, p ≠ tq_node z_timeouts_queue ∧
                 ∀ t, t ∈ T → t ∉ rs → p ≠ thread_tie t) m m' →
  tq_rep m' z_timeouts_queue (tq_items ts') → delta_ok ts' →
  (∀ t, t ∈ ts'.*1 → t ∈ T ∧ (t ∉ rs) ∧ (t ∈ ts.*1 ∨ benign m t ∨ ¬ unqueued Q t)) →
  links_ok T m' rq rs ts' Q.
Proof.
  intros Hl Ha Hrep Hok Hts. destruct Hl. split; try done.
  all: cycle -1.
  { eapply agree_on_trans; [done|]. eapply agree_on_impl; [done|].
    intros p (_&_&Hp1&Hp). split; [done|]. intros t Ht _. by apply Hp. }
  - intros t Ht. by apply Hts.
  - intros t Ht Hin. by apply Hts in Hin as (_&?&_).
  - revert lk_run0. apply rq_ok_frame. intros p Hp. apply Ha.
    apply list_elem_of_fmap in Hp as (t&->&Ht). split.
    + intros E. mm_false mm_root_tie E.
    + intros t' _ Ht' ->%(inj thread_tie). done.
  - intros l ws Hw. specialize (lk_wq0 l ws Hw). revert lk_wq0. apply ring_frame.
    intros p Hp. apply Ha. apply elem_of_dom_2 in Hw as Hd.
    apply elem_of_cons in Hp as [->|(t&->&Ht)%list_elem_of_fmap]; split.
    + intros ->. by eapply mm_root_head.
    + intros t Ht _. by eapply mm_head_tie.
    + intros E. mm_false mm_root_wqh E.
    + intros t' Ht' _ E. mm_false mm_tie_wqh E.
  - intros t Ht Hu. apply Hts in Ht as (HT&_&Hb).
    assert (benign m t) as Hb' by naive_solver.
    eapply benign_frame; [apply Ha..|done]; (split; [intros E; mm_false mm_root_wqh E|]);
      intros t' Ht' _ E; mm_false mm_tie_wqh E.
Qed.

Lemma tie_items_elem t ts : thread_tie t ∈ (tq_items ts).*1 ↔ t ∈ ts.*1.
Proof.
  rewrite tq_items_fst, list_elem_of_fmap. split; [|naive_solver].
  by intros (t'&->%(inj thread_tie)&?).
Qed.

Lemma tmo_agree T m m' rq rs ts Q :
  links_ok T m rq rs ts Q →
  agree_on (λ p, p ∉ tq_node z_timeouts_queue :: (tq_items ts).*1) m m' →
  agree_on (λ p, p ≠ tq_node z_timeouts_queue ∧
                 ∀ t, t ∈ T → t ∉ rs → p ≠ thread_tie t) m m'.
Proof.
  intros Hl Ha. eapply agree_on_impl; [done|]. intros p [Hp1 Hp2].
  apply not_elem_of_cons. split; [done|]. rewrite tq_items_fst.
  intros (t&->&Ht)%list_elem_of_fmap. eapply (Hp2 t); [by eapply lk_ts_T| |done].
  intros Hrs. by eapply lk_rs_ts in Hrs.
Qed.

(** The writes of [z_schedule_wake_up]. *)
Lemma links_tmo_schedule T m rq rs ts Q t d :
  links_ok T m rq rs ts Q → t ∈ T → t ∉ rs → t ∉ ts.*1 →
  (¬ unqueued Q t ∨ benign m t) → 0 <= d < 65536 → (length ts < loop_fuel)%nat →
  ∃ m', z_tqueue_schedule loop_fuel (wr1 (set_delay m (thread_tie t) d) (thread_tie t) NULL)
          z_timeouts_queue (thread_tie t) = Some m' ∧
    links_ok T m' rq rs (delta_insert t d ts) Q.
Proof.
  intros Hl Ht Hrs Hts Hb Hd Hf. pose proof (lk_map _ _ _ _ _ _ Hl) as Hm.
  destruct (lk_tmo _ _ _ _ _ _ Hl) as [Hnd Hc].
  set (x := thread_tie t) in *. set (r := tq_node z_timeouts_queue) in *.
  assert (Hx : x ∉ r :: (tq_items ts).*1).
  { intros [E|Hin]%elem_of_cons; [mm_false mm_root_tie E|].
    by apply Hts, tie_items_elem. }
  set (m1 := wr1 (set_delay m x d) x NULL).
  assert (Ha1 : agree_on (λ p, p ≠ x) m m1).
  { intros p Hp. unfold m1, set_delay. split; links_simpl; done. }
  destruct (z_tqueue_schedule_loop_spec loop_fuel m1 r x d (tq_items ts))
    as (m'&Hs&Hc'&_&Ha); try done.
  - revert Hc. apply chain_frame.
    + apply Ha1. intros E. apply Hx. rewrite <- E. by apply list_elem_of_here.
    + eapply agree_on_impl; [apply Ha1|]. intros p Hp ->. apply Hx. by apply list_elem_of_further.
  - apply tq_items_ok. by eapply lk_tmo_ok.
  - by constructor.
  - by eapply mm_null_tie.
  - unfold m1, set_delay. by links_simpl.
  - unfold m1, set_delay. by links_simpl.
  - by rewrite tq_items_length.
  - exists m'. unfold r in Hs. rewrite <- root_next in Hs. split; [done|].
    unfold x in Hc'. rewrite tq_items_insert in Hc'.
    eapply links_ok_tmo; [done| | |by apply delta_insert_ok; [eapply lk_tmo_ok|]|].
    + intros p [Hp1 Hp2]. assert (p ≠ x) by by apply Hp2.
      destruct (Ha p) as [-> ->]; [|by apply Ha1].
      intros [->|[->|Hin]%elem_of_cons]%elem_of_cons; [done..|].
      rewrite tq_items_fst in Hin. apply list_elem_of_fmap in Hin as (t'&->&Ht').
      apply (Hp2 t'); [by eapply lk_ts_T| |done]. intros Hr. by eapply lk_rs_ts in Hr.
    + split; [|done]. rewrite <- tq_items_insert, delta_insert_elem.
      rewrite perm_swap. by constructor.
    + intros t' Ht'. rewrite delta_insert_elem in Ht'. apply elem_of_cons in Ht' as [->|Ht'].
      * naive_solver.
      * split_and!; [by eapply lk_ts_T| |by left]. intros Hr. by eapply lk_rs_ts in Hr.
Qed.

Lemma links_tmo_remove T m rq rs ts Q t :
  links_ok T m rq rs ts Q → t ∈ ts.*1 → (length ts < loop_fuel)%nat →
  ∃ m' ts', tqueue_remove loop_fuel CONFIG_KERNEL_ARGS_CHECKS m z_timeouts_queue (thread_tie t)
              = Some (0, m') ∧
    delta_remove t ts = Some ts' ∧ links_ok T m' rq rs ts' Q.
Proof.
  intros Hl Ht Hf. pose proof (lk_map _ _ _ _ _ _ Hl) as Hm.
  pose proof (tqueue_remove_spec loop_fuel CONFIG_KERNEL_ARGS_CHECKS m z_timeouts_queue
    (thread_tie t) (tq_items ts)) as Hs.
  rewrite tq_items_remove in Hs.
  destruct (delta_remove t ts) as [ts'|] eqn:E; [|by apply delta_remove_None in E].
  destruct Hs as (m'&Hs&Hrep&_&Ha&_).
  - by eapply lk_tmo.
  - apply tq_items_ok. by eapply lk_tmo_ok.
  - by eapply mm_root_null.
  - eapply mm_null_tie; [done|by eapply lk_ts_T].
  - by rewrite tq_items_length.
  - exists m', ts'. split_and!; [done|done|].
    eapply links_ok_tmo; [done|by eapply tmo_agree|done| |].
    + eapply delta_remove_ok; [by eapply lk_tmo_ok|done].
    + intros t' Ht'. assert (t' ∈ ts.*1) by (rewrite delta_remove_elem by done; by right).
      split_and!; [by eapply lk_ts_T| |by left]. intros Hr. by eapply lk_rs_ts in Hr.
Qed.

Lemma links_tmo_shift T m rq rs ts Q n :
  links_ok T m rq rs ts Q → 0 <= n < 65536 → (length ts < loop_fuel)%nat →
  ∃ m', tqueue_shift loop_fuel m z_timeouts_queue n = Some m' ∧
    links_ok T m' rq rs (delta_shift n ts) Q.
Proof.
  intros Hl Hn Hf.
  destruct (tqueue_shift_spec loop_fuel m z_timeouts_queue (tq_items ts) n)
    as (m'&Hs&Hrep&Ha&_).
  - by eapply lk_tmo.
  - apply tq_items_ok. by eapply lk_tmo_ok.
  - done.
  - by rewrite tq_items_length.
  - exists m'. split; [done|]. rewrite tq_items_shift in Hrep.
    eapply links_ok_tmo; [done| |done| |].
    + eapply tmo_agree; [done|]. eapply agree_on_impl; [done|].
      intros p Hp Hin. apply Hp. by right.
    + apply delta_shift_ok; [by eapply lk_tmo_ok|lia].
    + rewrite delta_shift_elem. intros t' Ht'.
      split_and!; [by eapply lk_ts_T| |by left]. intros Hr. by eapply lk_rs_ts in Hr.
Qed.

Lemma tq_items_pop ts :
  delta_pop (tq_items ts) = prod_map thread_tie tq_items <$> delta_pop ts.
Proof. destruct ts as [|[a e] ts]; simpl; [done|]. by destruct (e =? 0). Qed.

Lemma links_tmo_pop T m rq rs ts Q :
  links_ok T m rq rs ts Q →
  match delta_pop ts with
  | Some (t, ts') => ∃ m',
      tqueue_pop CONFIG_KERNEL_ARGS_CHECKS m z_timeouts_queue = (thread_tie t, m') ∧
      links_ok T m' rq rs ts' Q ∧
      agree_on (λ p, p ≠ tq_node z_timeouts_queue) m m'
  | None => tqueue_pop CONFIG_KERNEL_ARGS_CHECKS m z_timeouts_queue = (NULL, m)
  end.
Proof.
  intros Hl. pose proof (lk_map _ _ _ _ _ _ Hl) as Hm.
  pose proof (tqueue_pop_spec CONFIG_KERNEL_ARGS_CHECKS m z_timeouts_queue (tq_items ts)) as Hs.
  rewrite tq_items_pop in Hs.
  destruct (delta_pop ts) as [[t ts']|] eqn:E; simpl in Hs.
  - destruct Hs as (m'&Hs&Hrep&_&Ha); [by eapply lk_tmo|by eapply mm_root_null|].
    exists m'. split_and!; [done| |done].
    destruct ts as [|[a e] ts0]; [done|]. simpl in E. destruct (Z.eqb_spec e 0); [|done].
    injection E as -> ->.
    eapply links_ok_tmo; [done| |done| |].
    + eapply agree_on_impl; [done|]. intros p [Hp _]. done.
    + eapply (delta_ok_cons t e), lk_tmo_ok, Hl.
    + intros t' Ht'. assert (t' ∈ ((t, e) :: ts').*1) by (simpl; by right).
      split_and!; [by eapply lk_ts_T| |by left]. intros Hr. by eapply lk_rs_ts in Hr.
  - apply Hs; [by eapply lk_tmo|by eapply mm_root_null].
Qed.
End KernelInv.
