(* ===== verification/KernelSpec.v ===== *)
(** * What the kernel functions do, in terms of the abstract state

    [Inv k T rs ts Q]: the ready threads are [rs] (the head is where
    [run_queue] points), the threads with a scheduled wake-up are [ts] (with
    their delays) and the threads pending on the wait queue [l] are those of
    [Q !! l], first in first out; the flags of every thread of [T] agree with
    the queues it is in. *)

From S2P Require Import Prelude Dlist Delta Tqueue Types Event Timer Kernel KernelInv.

(** ** Flag arithmetic *)

Lemma land_lor_skip fl a m : Z.land a m = 0 → Z.land (Z.lor fl a) m = Z.land fl m.
Proof. intros E. by rewrite Z.land_lor_distr_l, E, Z.lor_0_r. Qed.
Lemma land_lor_hit fl a m : Z.land a m = m → Z.land (Z.lor fl a) m = m.
Proof.
  intros E. rewrite Z.land_lor_distr_l, E. apply Z.bits_inj'. intros n _.
  rewrite Z.lor_spec, Z.land_spec. by destruct (Z.testbit fl n), (Z.testbit m n).
Qed.
Lemma land_clr_skip fl a m : Z.land (Z.lnot a) m = m → Z.land (Z.land fl (Z.lnot a)) m = Z.land fl m.
Proof. intros E. by rewrite <- Z.land_assoc, E. Qed.
Lemma land_clr_hit fl a m : Z.land (Z.lnot a) m = 0 → Z.land (Z.land fl (Z.lnot a)) m = 0.
Proof. intros E. by rewrite <- Z.land_assoc, E, Z.land_0_r. Qed.

Lemma land_set_field fl a b : Z.land b a = b → Z.land (Z.lor (Z.land fl (Z.lnot a)) b) a = b.
Proof.
  intros E. rewrite Z.land_lor_distr_l, E, <- Z.land_assoc, (Z.land_comm (Z.lnot a)), Z.land_lnot_diag.
  by rewrite Z.land_0_r.
Qed.

Lemma land_clr_id fl a : Z.land fl a = 0 → Z.land fl (Z.lnot a) = fl.
Proof.
  intros E. apply Z.bits_inj'. intros n Hn. rewrite Z.land_spec, Z.lnot_spec by done.
  assert (Hb : Z.testbit (Z.land fl a) n = false) by (rewrite E; apply Z.bits_0).
  rewrite Z.land_spec in Hb. by destruct (Z.testbit fl n), (Z.testbit a n).
Qed.

Section KernelSpec.
Context `{Layout, Config, Handlers}.

(** The memory of the nodes that are not the kernel's ([foreign]). *)
Variable F : mem.

(** The fields no scheduling function touches. *)
Definition kobjs (k : kstate) :=
  (wqflags k, sems k, mutexes k, signals k, kflags k, msgqs k, slabs k, events k, timers k,
   workqueues k, works k, pollfds k, bytes k).
Definition keeps (k k' : kstate) : Prop := kobjs k' = kobjs k ∧ sreg_i k' = sreg_i k.

#[global] Instance keeps_preorder : PreOrder keeps.
Proof. split; [done|]. intros k1 k2 k3 [??] [??]. split; congruence. Qed.

(** What the flags of a thread say, given the queues it is in. *)
Definition fl_ok (fl : Z) (ready timed queued : Prop) : Prop :=
  (ready ↔ Z.land fl Z_THREAD_STATE_MSK = Z_THREAD_STATE_READY) ∧
  (timed ↔ Z.land fl Z_THREAD_WAKEUP_SCHED_MSK ≠ 0) ∧
  (timed ∨ queued → Z.land fl Z_THREAD_STATE_MSK = Z_THREAD_STATE_PENDING).

Definition thread_ok (k : kstate) (rs : list word) (ts : list (word * Z))
    (Q : gmap word (list word)) (t : word) : Prop :=
  fl_ok (flags (thr k t)) (t ∈ rs) (t ∈ ts.*1) (∃ l ws, Q !! l = Some ws ∧ t ∈ ws).

(** [InvX x]: the flags of the thread [x], if any, are not constrained (a
    function is in the middle of changing its state). *)
Record InvX (x : option word) (k : kstate) (T : gset word) (rs : list word)
    (ts : list (word * Z)) (Q : gmap word (list word)) : Prop := {
  inv_links : links_ok F T (links k) (run_queue k) rs ts Q;
  inv_count : ready_count k = Z.of_nat (length rs);
  inv_flags t : t ∈ T → x ≠ Some t → thread_ok k rs ts Q t;
  inv_wqflag t : t ∈ T → wqflag k (thread_wqh t) = 0;
  inv_idle : z_get_thread_state k z_thread_idle ≠ Z_THREAD_STATE_READY;
  inv_size : (size T < 256)%nat;
  inv_fuel : (size T < loop_fuel)%nat;
}.
Definition Inv := InvX None.

(** ** Reading threads over updates *)

Lemma thr_upd t f k t' :
  thr (upd_thread t f k) t' = if decide (t = t') then f (thr k t) else thr k t'.
Proof.
  unfold thr at 1. simpl. rewrite !lookup_total_alt, lookup_insert. by case_decide.
Qed.
Lemma thr_upd_eq t f k : thr (upd_thread t f k) t = f (thr k t).
Proof. rewrite thr_upd. by rewrite decide_True. Qed.
Lemma thr_upd_ne t f k t' : t ≠ t' → thr (upd_thread t f k) t' = thr k t'.
Proof. intros. rewrite thr_upd. by rewrite decide_False. Qed.

Lemma flags_clr_eq t msk k : flags (thr (clr_flags t msk k) t) = Z.land (flags (thr k t)) (Z.lnot msk).
Proof. unfold clr_flags, set_flags. by rewrite thr_upd_eq. Qed.
Lemma flags_or_eq t msk k : flags (thr (or_flags t msk k) t) = Z.lor (flags (thr k t)) msk.
Proof. unfold or_flags, set_flags. by rewrite thr_upd_eq. Qed.

Lemma links_length_ts T m rq rs ts Q :
  links_ok F T m rq rs ts Q → NoDup ts.*1 ∧ (length ts ≤ size T)%nat.
Proof.
  intros Hl. assert (Hnd : NoDup ts.*1).
  { destruct (lk_tmo _ _ _ _ _ _ _ Hl) as [[_ Hnd]%NoDup_cons _].
    rewrite tq_items_fst in Hnd. by eapply NoDup_fmap_1. }
  split; [done|]. rewrite <- (length_fmap fst), <- (size_list_to_set (C:=gset word)) by done.
  apply subseteq_size. intros t Ht%elem_of_list_to_set. by eapply lk_ts_T.
Qed.

Lemma links_fuel T m rq rs ts Q :
  links_ok F T m rq rs ts Q → (size T < loop_fuel)%nat → (length ts < loop_fuel)%nat.
Proof. intros [_ ?]%links_length_ts ?. lia. Qed.

(** A thread changes queues: the facts about the others are kept. *)
Lemma thread_ok_change k k' rs rs' ts ts' Q Q' t :
  thread_ok k rs ts Q t → flags (thr k' t) = flags (thr k t) →
  (t ∈ rs' ↔ t ∈ rs) → (t ∈ ts'.*1 ↔ t ∈ ts.*1) →
  ((∃ l ws, Q' !! l = Some ws ∧ t ∈ ws) → ∃ l ws, Q !! l = Some ws ∧ t ∈ ws) →
  thread_ok k' rs' ts' Q' t.
Proof. intros (Hr&Ht&Hp) E1 E2 E3 E4. unfold thread_ok, fl_ok. rewrite E1, E2, E3. tauto. Qed.

Lemma Inv_open c k T rs ts Q : Inv k T rs ts Q → InvX (Some c) k T rs ts Q.
Proof. intros []. split; auto. Qed.

Lemma Inv_close c k T rs ts Q :
  InvX (Some c) k T rs ts Q → thread_ok k rs ts Q c → Inv k T rs ts Q.
Proof.
  intros [] Hc. split; auto. intros t Ht _. destruct (decide (t = c)) as [->|]; [done|].
  apply inv_flags0; congruence.
Qed.

(** Only the thread [c] changes queues or flags. *)
Lemma InvX_step c k k' T rs rs' ts ts' Q Q' :
  InvX (Some c) k T rs ts Q → c ∈ T →
  links_ok F T (links k') (run_queue k') rs' ts' Q' →
  ready_count k' = Z.of_nat (length rs') → keeps k k' →
  (∀ t, t ≠ c → flags (thr k' t) = flags (thr k t)) →
  (∀ t, t ≠ c → t ∈ rs' ↔ t ∈ rs) → (∀ t, t ≠ c → t ∈ ts'.*1 ↔ t ∈ ts.*1) →
  (∀ t, t ≠ c → (∃ l ws, Q' !! l = Some ws ∧ t ∈ ws) → ∃ l ws, Q !! l = Some ws ∧ t ∈ ws) →
  InvX (Some c) k' T rs' ts' Q'.
Proof.
  intros Hi Hc Hl Hn [Hk _] Hf H1' H2' H3'. split; try done; try by apply Hi.
  - intros t Ht Hne. eapply thread_ok_change; [by apply Hi|..]; auto with congruence;
      first [apply Hf | apply H1' | apply H2' | apply H3']; congruence.
  - intros t Ht. unfold wqflag. assert (wqflags k' = wqflags k) as -> by (unfold kobjs in Hk; congruence).
    by eapply inv_wqflag.
  - unfold z_get_thread_state. rewrite Hf; [apply Hi|].
    intros <-. by eapply mm_idle; [eapply lk_map|].
Qed.

(** Ready threads pend nowhere. *)
Lemma inv_ready_unqueued k T rs ts Q t :
  Inv k T rs ts Q → t ∈ rs → unqueued Q t.
Proof.
  intros Hi Ht l ws Hw Hin. pose proof (inv_links _ _ _ _ _ _ Hi) as Hl.
  destruct (inv_flags _ _ _ _ _ _ Hi t) as (Hr&_&Hp); [by eapply lk_rs_T|done|].
  assert (Z_THREAD_STATE_PENDING = Z_THREAD_STATE_READY); [|done].
  rewrite <- Hp by eauto. by apply Hr.
Qed.

(** ** [z_schedule] *)

Definition rq_add (rs : list word) (t : word) : list word :=
  match rs with [] => [t] | c :: rs' => c :: t :: rs' end.

Lemma rq_add_elem rs t t' : t' ∈ rq_add rs t ↔ t' = t ∨ t' ∈ rs.
Proof. destruct rs; simpl; set_solver. Qed.
Lemma rq_add_length rs t : length (rq_add rs t) = S (length rs).
Proof. by destruct rs. Qed.

Lemma rq_add_count (T : gset word) (rs : list word) t :
  NoDup rs → (∀ x, x ∈ rs → x ∈ T) → t ∈ T → t ∉ rs → (size T < 256)%nat →
  u8 (Z.of_nat (length rs) + 1) = Z.of_nat (length (rq_add rs t)).
Proof.
  intros Hnd HT Ht Hrs Hs. rewrite rq_add_length.
  assert (length (t :: rs) ≤ size T)%nat.
  { rewrite <- (size_list_to_set (C:=gset word)) by by constructor.
    apply subseteq_size. intros x. rewrite elem_of_list_to_set, elem_of_cons.
    intros [->|?]; auto. }
  simpl in *. rewrite u8_small; lia.
Qed.

(** The link part of [z_schedule]. *)
Lemma z_schedule_links t k T rs ts Q :
  links_ok F T (links k) (run_queue k) rs ts Q → ready_count k = Z.of_nat (length rs) →
  (size T < 256)%nat → t ∈ T → t ∉ rs → t ∉ ts.*1 →
  let k' := z_schedule t k in
  links_ok F T (links k') (run_queue k') (rq_add rs t) ts Q ∧
  ready_count k' = Z.of_nat (length (rq_add rs t)) ∧ keeps k k' ∧ current k' = current k ∧
  (∀ t', t' ≠ t → thr k' t' = thr k t') ∧
  flags (thr k' t) = Z.lor (Z.land (flags (thr k t)) (Z.lnot 3)) 1.
Proof.
  intros Hl Hc Hs Ht Hrs Hts k'.
  assert (Hrc : ready_count k' = u8 (ready_count k + 1)).
  { subst k'. unfold z_schedule. simpl. by destruct (ready_count k =? 0). }
  assert (Hthr : threads k' = threads (z_set_thread_state t 1 k)).
  { subst k'. unfold z_schedule. simpl. by destruct (ready_count k =? 0). }
  assert (keeps k k' ∧ current k' = current k) as [Hk Hcur].
  { subst k'. unfold z_schedule. simpl. by destruct (ready_count k =? 0). }
  split_and!; try done.
  - subst k'. unfold z_schedule. simpl. destruct rs as [|c rs].
    + rewrite (proj2 (Z.eqb_eq _ _)) by done. simpl. eapply links_run_first; done.
    + rewrite (proj2 (Z.eqb_neq _ _)) by (rewrite Hc; simpl; lia). simpl.
      eapply links_run_prepend; done.
  - rewrite Hrc, Hc. eapply rq_add_count; eauto using lk_run_nd, lk_rs_T.
  - intros t' Hne. unfold thr. rewrite Hthr. by apply thr_upd_ne.
  - unfold thr at 1. rewrite Hthr. fold (thr (z_set_thread_state t 1 k) t).
    unfold z_set_thread_state, set_flags. by rewrite thr_upd_eq.
Qed.

(** [z_schedule] of a thread that is in no queue makes it ready, as the next
    thread to run after the running one. *)
Lemma z_schedule_spec t k T rs ts Q :
  InvX (Some t) k T rs ts Q → t ∈ T → t ∉ rs → t ∉ ts.*1 → unqueued Q t →
  Z.land (flags (thr k t)) Z_THREAD_WAKEUP_SCHED_MSK = 0 →
  let k' := z_schedule t k in
  Inv k' T (rq_add rs t) ts Q ∧ keeps k k' ∧ current k' = current k ∧
  (∀ t', t' ≠ t → thr k' t' = thr k t') ∧
  flags (thr k' t) = Z.lor (Z.land (flags (thr k t)) (Z.lnot 3)) 1.
Proof.
  intros Hi Ht Hrs Hts Hu Hw k'.
  destruct (z_schedule_links t k T rs ts Q) as (Hl'&Hc'&Hk&Hcur&Hoth&Hfl);
    [by apply Hi..|done|done|done|].
  fold k' in Hl', Hc', Hk, Hcur, Hoth, Hfl. split_and!; try done.
  apply (Inv_close t).
  - eapply InvX_step; [done..| | |done|auto].
    + intros t' Hne. by rewrite Hoth.
    + intros t' Hne. rewrite rq_add_elem. naive_solver.
  - unfold thread_ok, fl_ok. rewrite Hfl. unfold Z_THREAD_STATE_MSK. split_and!.
    + rewrite rq_add_elem, land_set_field by done. naive_solver.
    + rewrite land_lor_skip, land_clr_skip by done. naive_solver.
    + intros [?|(l&ws&Hw'&Hin)]; [done|]. by apply Hu in Hw'.
Qed.

(** ** [z_scheduler] *)

Definition rotate (rs : list word) : list word :=
  match rs with [] => [] | c :: rs' => rs' ++ [c] end.

(** The thread that runs when the run queue is [rs]. *)
Definition running (rs : list word) : word := hd z_thread_idle rs.

Lemma rotate_elem rs t : t ∈ rotate rs ↔ t ∈ rs.
Proof. destruct rs; simpl; [done|]. set_solver. Qed.
Lemma rotate_length rs : length (rotate rs) = length rs.
Proof. destruct rs; simpl; [done|]. rewrite length_app. simpl. lia. Qed.

Lemma rq_ok_running m rq rs : rq_ok m rq rs → thread_of_tie rq = running rs.
Proof. destruct rs; simpl; [intros -> | intros [-> _]]; apply thread_of_tie_tie. Qed.

Definition SCHED_CLR : Z := Z.lor Z_THREAD_TIMER_EXPIRED_MSK Z_THREAD_PEND_CANCELED_MSK.

(** The scheduler clears the result flags of the thread that was running and
    picks the head of the run queue, after moving a thread that is still
    ready to its end. *)
Lemma z_scheduler_links k T rs ts Q :
  links_ok F T (links k) (run_queue k) rs ts Q →
  (z_get_thread_state k (current k) = Z_THREAD_STATE_READY → rs ≠ []) →
  let rs' := if z_get_thread_state k (current k) =? Z_THREAD_STATE_READY then rotate rs else rs in
  let k' := (z_scheduler k).2 in
  (z_scheduler k).1 = current k ∧ links k' = links k ∧ ready_count k' = ready_count k ∧
  links_ok F T (links k') (run_queue k') rs' ts Q ∧ current k' = running rs' ∧ keeps k k' ∧
  (∀ t, t ≠ current k → thr k' t = thr k t) ∧
  flags (thr k' (current k)) = Z.land (flags (thr k (current k))) (Z.lnot SCHED_CLR).
Proof.
  intros Hl Hne rs' k'. subst rs' k'.
  assert (Hst : z_get_thread_state (clr_flags (current k) SCHED_CLR k) (current k)
                = z_get_thread_state k (current k)).
  { unfold z_get_thread_state, clr_flags, set_flags. rewrite thr_upd_eq. simpl flags.
    by rewrite land_clr_skip. }
  unfold z_scheduler. fold SCHED_CLR. cbn zeta.
  change (current (clr_flags (current k) SCHED_CLR k)) with (current k). rewrite Hst.
  destruct (Z.eqb_spec (z_get_thread_state k (current k)) Z_THREAD_STATE_READY) as [E|E].
  - specialize (Hne E). destruct rs as [|c rs]; [done|].
    assert (Hl' := links_run_rotate _ _ _ _ _ _ _ _ Hl).
    split_and!; try done.
    + simpl. eapply rq_ok_running, Hl'.
    + intros t Ht. by apply thr_upd_ne.
    + exact (flags_clr_eq _ _ _).
  - split_and!; try done.
    + simpl. eapply rq_ok_running, Hl.
    + intros t Ht. by apply thr_upd_ne.
    + exact (flags_clr_eq _ _ _).
Qed.

Lemma sched_clr_ok fl ready timed queued :
  fl_ok fl ready timed queued → fl_ok (Z.land fl (Z.lnot SCHED_CLR)) ready timed queued.
Proof. unfold fl_ok. rewrite !land_clr_skip by done. done. Qed.

(** ** Giving up the CPU while ready: [z_yield] *)
Lemma z_yield_spec k T c rs ts Q :
  Inv k T (c :: rs) ts Q → current k = c →
  let k' := (z_scheduler k).2 in
  Inv k' T (rotate (c :: rs)) ts Q ∧ current k' = running (rotate (c :: rs)) ∧ keeps k k' ∧
  (∀ t, t ≠ c → thr k' t = thr k t) ∧
  z_yield k = if decide (rs = []) then Done tt k'
              else Susp k' (λ k2, Done tt (set_sreg_i (sreg_i k) k2)).
Proof.
  intros Hi Hc k'. pose proof (inv_links _ _ _ _ _ _ Hi) as Hl.
  assert (HcT : c ∈ T) by (eapply lk_rs_T; [done|]; by left).
  assert (Hst : z_get_thread_state k (current k) = Z_THREAD_STATE_READY).
  { rewrite Hc. destruct (inv_flags _ _ _ _ _ _ Hi c) as (Hr&_); [done..|]. apply Hr. by left. }
  destruct (z_scheduler_links k T (c :: rs) ts Q Hl) as (H1'&H2'&H3'&Hl'&Hcur&Hk&Hoth&Hfl); [done|].
  fold k' in H2', H3', Hl', Hcur, Hk, Hoth, Hfl. rewrite Hst in Hl', Hcur.
  simpl (_ =? _) in Hl', Hcur. cbn iota in Hl', Hcur. rewrite Hc in *.
  split_and!; try done.
  - apply (Inv_close c).
    + eapply InvX_step; [by eapply Inv_open|done|done| |done| | |done|auto].
      * rewrite H3', rotate_length. by apply Hi.
      * intros t Ht. by rewrite Hoth.
      * intros t Ht. by rewrite rotate_elem.
    + pose proof (sched_clr_ok _ _ _ _ (inv_flags _ _ _ _ _ _ Hi c HcT ltac:(done))) as Hok.
      unfold thread_ok. rewrite Hfl. revert Hok. unfold fl_ok. by rewrite rotate_elem.
  - unfold z_yield. destruct (z_scheduler k) as [p k1] eqn:E. simpl in H1', k'.
    subst k' p. rewrite Hcur.
    destruct rs as [|t rs]; simpl; [by rewrite decide_True|].
    rewrite decide_False; [|].
    + destruct Hk as [_ ->]. done.
    + pose proof (lk_run_nd _ _ _ _ _ _ _ Hl) as Hnd. nodup. congruence.
Qed.

(** ** Pending *)

(** When the running thread leaves, the last thread of the queue, the one that
    ran before it, is run next. *)
Definition rq_leave (rs : list word) : list word :=
  match reverse rs with [] => [] | t :: l => t :: reverse l end.

Lemma rq_leave_snoc rs t : rq_leave (rs ++ [t]) = t :: rs.
Proof. unfold rq_leave. rewrite reverse_snoc. by rewrite reverse_involutive. Qed.

Lemma rq_leave_elem rs t : t ∈ rq_leave rs ↔ t ∈ rs.
Proof.
  destruct rs as [|x rs _] using rev_ind; [done|]. rewrite rq_leave_snoc. set_solver.
Qed.
Lemma rq_leave_length rs : length (rq_leave rs) = length rs.
Proof.
  destruct rs as [|x rs _] using rev_ind; [done|].
  rewrite rq_leave_snoc, length_app. simpl. lia.
Qed.

Definition can_idle (rs : list word) : Prop := CONFIG_KERNEL_THREAD_IDLE = true ∨ rs ≠ [].

(** [z_suspend] of the running thread takes it out of the run queue. *)
Lemma z_suspend_running k T c rs ts Q :
  links_ok F T (links k) (run_queue k) (c :: rs) ts Q → current k = c →
  ready_count k = Z.of_nat (length (c :: rs)) → (length (c :: rs) < 256)%nat →
  z_get_thread_state k c = Z_THREAD_STATE_READY → can_idle rs →
  ∃ k', z_suspend c k = Done tt k' ∧
    links_ok F T (links k') (run_queue k') (rq_leave rs) ts Q ∧
    ready_count k' = Z.of_nat (length rs) ∧ threads k' = threads k ∧ current k' = c ∧
    keeps k k' ∧ (benign (links k) c → benign (links k') c).
Proof.
  intros Hl Hc Hn Hlen Hst Hidle. pose proof (lk_map _ _ _ _ _ _ _ Hl) as Hm.
  assert (HcT : c ∈ T) by (eapply lk_rs_T; [done|by left]).
  assert (Hben : benign (links k) c → benign (dlist_remove (links k) (thread_tie c)) c).
  { destruct (lk_run _ _ _ _ _ _ _ Hl) as [E Hr]. rewrite E in Hr. intros Hb.
    eapply benign_frame; [..|done]; (eapply dlist_remove_head_frame; [done|]);
      (change (thread_tie c :: (thread_tie <$> rs)) with (thread_tie <$> c :: rs));
      intros (t&E'&Ht)%list_elem_of_fmap; eapply (mm_tie_wqh _ _ Hm t c);
      eauto using lk_rs_T. }
  unfold z_suspend. unfold bind at 1, get. cbn [rbind].
  rewrite Hst. simpl (_ =? _). cbn iota.
  unfold bind, modify, get, ret, upd_links. simpl.
  rewrite Hn. rewrite u8_small by (simpl length in *; lia).
  replace (Z.of_nat (length (c :: rs)) - 1) with (Z.of_nat (length rs)) by (simpl length; lia).
  destruct rs as [|t rs _] using rev_ind.
  - simpl. destruct Hidle as [->|?]; [|done]. eexists; split; [done|]. simpl.
    split_and!; try done. eapply links_run_remove_only, Hl.
  - rewrite (proj2 (Z.eqb_neq _ _)) by (rewrite length_app; simpl; lia).
    rewrite bool_decide_true by done. eexists; split; [done|]. simpl.
    destruct (links_run_remove_head _ _ _ _ _ _ _ _ _ Hl) as [-> Hl'].
    rewrite rq_leave_snoc. split_and!; done.
Qed.

(** The flags of a thread that pends, and the queue of timeouts. *)
Definition tmo_add (timeout : Z) (c : word) (ts : list (word * Z)) : list (word * Z) :=
  if timeout =? K_FOREVER then ts else delta_insert c timeout ts.
Definition pend_flags (timeout fl : Z) : Z :=
  Z.lor (Z.land (if timeout =? K_FOREVER then fl else Z.lor fl Z_THREAD_WAKEUP_SCHED_MSK)
                (Z.lnot 3)) 2.

Lemma tmo_add_elem timeout c ts t : t ≠ c → t ∈ (tmo_add timeout c ts).*1 ↔ t ∈ ts.*1.
Proof.
  intros. unfold tmo_add. destruct (_ =? _); [done|]. rewrite delta_insert_elem. set_solver.
Qed.

Lemma z_schedule_wake_up_spec timeout k T c rs ts Q :
  links_ok F T (links k) (run_queue k) rs ts Q → current k = c → c ∈ T → c ∉ rs → c ∉ ts.*1 →
  (¬ unqueued Q c ∨ benign (links k) c) → 0 <= timeout < 65536 → (size T < loop_fuel)%nat →
  ∃ k', z_schedule_wake_up timeout k = Done tt k' ∧
    links_ok F T (links k') (run_queue k') rs (tmo_add timeout c ts) Q ∧
    ready_count k' = ready_count k ∧ current k' = c ∧ keeps k k' ∧
    (∀ t, t ≠ c → thr k' t = thr k t) ∧
    flags (thr k' c) = if timeout =? K_FOREVER then flags (thr k c)
                       else Z.lor (flags (thr k c)) Z_THREAD_WAKEUP_SCHED_MSK.
Proof.
  intros Hl Hc HcT Hrs Hts Hb Ht Hs. unfold z_schedule_wake_up, tmo_add.
  destruct (timeout =? K_FOREVER) eqn:E; cbn [negb].
  - eexists; split; [done|]. done.
  - destruct (links_tmo_schedule _ _ _ _ _ _ _ c timeout Hl) as (m'&Hm'&Hl');
      [done..|by eapply links_fuel|].
    unfold bind, get, modify, on_links, upd_links. simpl. rewrite Hc. rewrite Hm'.
    eexists; split; [done|]. simpl. split_and!; try done.
    + intros t Hne. exact (thr_upd_ne _ _ _ _ (not_eq_sym Hne)).
    + exact (flags_or_eq _ _ _).
Qed.

Lemma keeps_sreg k b : kobjs (set_sreg_i b k) = kobjs k.
Proof. done. Qed.

Lemma links_rest_T T m rq c rs ts Q :
  links_ok F T m rq (c :: rs) ts Q → c ∈ T ∧ (c ∉ rs) ∧ c ∉ ts.*1.
Proof.
  intros Hl. split_and!.
  - eapply lk_rs_T; [done|by left].
  - pose proof (lk_run_nd _ _ _ _ _ _ _ Hl) as Hnd. by apply NoDup_cons in Hnd as [? _].
  - eapply lk_rs_ts; [done|by left].
Qed.

(** The running thread [c], possibly already in the wait queue it pends on
    ([Qp]), gives up the CPU: it is in no run queue, its wake-up is scheduled
    unless it waits forever, and the next thread runs.  When it runs again
    the status register is restored. *)
Lemma z_pend_current_spec timeout k T c rs ts Q :
  InvX (Some c) k T (c :: rs) ts Q →
  Z.land (flags (thr k c)) Z_THREAD_STATE_MSK = Z_THREAD_STATE_READY →
  Z.land (flags (thr k c)) Z_THREAD_WAKEUP_SCHED_MSK = 0 →
  current k = c → can_idle rs →
  (¬ unqueued Q c ∨ benign (links k) c) → 0 <= timeout < 65536 →
  ∃ k', z_pend_current timeout k = Susp k' (λ k2, Done tt (set_sreg_i (sreg_i k) k2)) ∧
    Inv k' T (rq_leave rs) (tmo_add timeout c ts) Q ∧
    current k' = running (rq_leave rs) ∧ keeps k k' ∧
    (∀ t, t ≠ c → thr k' t = thr k t) ∧
    flags (thr k' c) = Z.land (pend_flags timeout (flags (thr k c))) (Z.lnot SCHED_CLR).
Proof.
  intros Hi Hst Hwk Hc Hid Hb Ht. pose proof (inv_links _ _ _ _ _ _ Hi) as Hl.
  destruct (links_rest_T _ _ _ _ _ _ _ Hl) as (HcT&Hcrs&Hcts).
  assert (Hlen : (length (c :: rs) < 256)%nat).
  { pose proof (inv_size _ _ _ _ _ _ Hi). assert (length (c :: rs) ≤ size T)%nat; [|lia].
    rewrite <- (size_list_to_set (C:=gset word) (c :: rs)) by by eapply lk_run_nd.
    apply subseteq_size. intros t Hin%elem_of_list_to_set. by eapply lk_rs_T. }
  destruct (z_suspend_running k T c rs ts Q) as (k1&E1&Hl1&Hn1&Hth1&Hc1&Hk1&Hb1);
    [done..|apply Hi|done|done|done|].
  destruct (z_schedule_wake_up_spec timeout k1 T c (rq_leave rs) ts Q)
    as (k2&E2&Hl2&Hn2&Hc2&Hk2&Hoth2&Hfl2);
    [done|done|done|by rewrite rq_leave_elem|done|naive_solver|done|by apply Hi|].
  assert (Hth1' : ∀ t, thr k1 t = thr k t) by (intros t; unfold thr; by rewrite Hth1).
  set (k3 := z_set_thread_state c Z_THREAD_STATE_PENDING k2).
  assert (Hfl3 : flags (thr k3 c) = pend_flags timeout (flags (thr k c))).
  { unfold k3, z_set_thread_state, set_flags. rewrite thr_upd_eq. simpl flags.
    rewrite Hfl2, Hth1'. done. }
  assert (Hst3 : Z.land (pend_flags timeout (flags (thr k c))) Z_THREAD_STATE_MSK
                 = Z_THREAD_STATE_PENDING) by by apply land_set_field.
  assert (Hoth3 : ∀ t, t ≠ c → thr k3 t = thr k t).
  { intros t Hne. unfold k3, z_set_thread_state, set_flags. rewrite thr_upd_ne by done.
    by rewrite Hoth2, Hth1'. }
  destruct (z_scheduler_links k3 T (rq_leave rs) (tmo_add timeout c ts) Q)
    as (P1&P2&P3&P4&P5&P6&P7&P8).
  { done. }
  { change (current k3) with (current k2). rewrite Hc2. unfold z_get_thread_state. rewrite Hfl3, Hst3. done. }
  change (current k3) with (current k2) in *. rewrite Hc2 in *.
  assert (z_get_thread_state k3 c = Z_THREAD_STATE_PENDING) as Hst3'
    by (unfold z_get_thread_state; by rewrite Hfl3).
  rewrite Hst3' in P4, P5. simpl (_ =? _) in P4, P5. cbn iota in P4, P5.
  set (k4 := (z_scheduler k3).2) in *.
  assert (Hk : keeps k k4) by (etransitivity; [done|]; etransitivity; done).
  exists k4. split_and!; try done.
  - unfold z_pend_current. unfold bind at 1, get. cbn [rbind]. rewrite Hc.
    rewrite (bind_done _ _ _ _ _ E1), (bind_done _ _ _ _ _ E2).
    unfold bind, modify, get. cbn [rbind]. rewrite Hc2. fold k3.
    unfold z_yield. destruct (z_scheduler k3) as [p k5] eqn:E5. simpl in P1, k4. subst p k4.
    rewrite P5, decide_False.
    + destruct Hk as [_ ->]. done.
    + intros E. assert (running (rq_leave rs) ≠ c); [|done]. unfold running.
      destruct (rq_leave rs) as [|t rs'] eqn:Ers; simpl.
      * intros <-. eapply mm_idle; [eapply lk_map|]; done.
      * intros ->. apply Hcrs. rewrite <- rq_leave_elem, Ers. by left.
  - apply (Inv_close c).
    + eapply InvX_step; [exact Hi|done|done| |done| | | |auto].
      * rewrite rq_leave_length. rewrite P3. change (ready_count k3) with (ready_count k2). by rewrite Hn2.
      * intros t Hne. by rewrite P7, Hoth3.
      * intros t Hne. rewrite rq_leave_elem. set_solver.
      * intros t Hne. by apply tmo_add_elem.
    + unfold thread_ok. rewrite P8, Hfl3. apply sched_clr_ok. unfold fl_ok. rewrite Hst3.
      split_and!; [|..|done].
      * rewrite rq_leave_elem. split; [done|]. discriminate.
      * unfold pend_flags, tmo_add.
        rewrite land_lor_skip, land_clr_skip by done. destruct (timeout =? K_FOREVER); [naive_solver|].
        rewrite land_lor_hit by done. rewrite delta_insert_elem. split; [done|]. intros _. by left.
  - intros t Hne. by rewrite P7, Hoth3.
  - by rewrite P8, Hfl3.
Qed.

(** What the caller of [z_pend_current_on] gets when it runs again. *)
Definition pend_result (fl : Z) : Z :=
  if negb (Z.land fl Z_THREAD_TIMER_EXPIRED_MSK =? 0) then - ETIMEDOUT
  else if negb (Z.land fl Z_THREAD_PEND_CANCELED_MSK =? 0) then - ECANCELED else 0.

Lemma z_pend_current_on_no_wait l k : z_pend_current_on l K_NO_WAIT k = Done (- EAGAIN) k.
Proof. done. Qed.

Lemma z_pend_current_on_spec l timeout k T c rs ts Q ws :
  Inv k T (c :: rs) ts Q → Q !! l = Some ws → current k = c → can_idle rs →
  0 < timeout < 65536 →
  ∃ k', suspends (z_pend_current_on l timeout k) k'
          (λ k2, Done (pend_result (flags (thr k2 (current k2)))) (set_sreg_i (sreg_i k) k2)) ∧
    Inv k' T (rq_leave rs) (tmo_add timeout c ts) (<[l := ws ++ [c]]> Q) ∧
    current k' = running (rq_leave rs) ∧ keeps k k' ∧
    (∀ t, t ≠ c → thr k' t = thr k t) ∧
    flags (thr k' c) = Z.land (pend_flags timeout (flags (thr k c))) (Z.lnot SCHED_CLR).
Proof.
  intros Hi Hw Hc Hid Ht. pose proof (inv_links _ _ _ _ _ _ Hi) as Hl.
  destruct (links_rest_T _ _ _ _ _ _ _ Hl) as (HcT&Hcrs&Hcts).
  assert (Hu : unqueued Q c) by (eapply inv_ready_unqueued; [done|by left]).
  destruct (inv_flags _ _ _ _ _ _ Hi c) as (Hr&Hwk&_); [done..|].
  set (k0 := upd_links (λ m, dlist_append m l (thread_wqh c)) k).
  assert (Hi0 : InvX (Some c) k0 T (c :: rs) ts (<[l:=ws ++ [c]]> Q)).
  { eapply InvX_step; [by eapply Inv_open|done| |by apply Hi|done..|].
    - by apply links_wq_append.
    - intros t Hne (l'&ws'&Hw'&Hin). apply lookup_insert_Some in Hw' as [[<- <-]|[? Hw']]; [|by eauto].
      exists l, ws. set_solver. }
  assert (Hnn : nonnull l = true).
  { apply bool_decide_true. intros ->. eapply mm_null_head; [by eapply lk_map|by eapply elem_of_dom_2]. }
  destruct (z_pend_current_spec timeout k0 T c rs ts (<[l:=ws ++ [c]]> Q)) as (k'&E&Hi'&Hcur&Hk&Hoth&Hfl);
    [done|apply Hr; by left|destruct (decide (Z.land (flags (thr k c)) Z_THREAD_WAKEUP_SCHED_MSK = 0)); naive_solver|done|done| |lia|].
  { left. intros Hu'. eapply (Hu' l); [apply lookup_insert_eq|set_solver]. }
  exists k'. split_and!; try done.
  unfold z_pend_current_on. rewrite (proj2 (Z.eqb_neq _ _)) by (unfold K_NO_WAIT; lia).
  rewrite Hnn. unfold bind at 1 2, get, modify. cbn [rbind]. rewrite Hc. fold k0.
  eapply suspends_ext; [apply suspends_bind; rewrite E; apply suspends_intro|].
  intros k2. simpl. unfold bind, get, test_flags, pend_result. simpl.
  change (thr (set_sreg_i (sreg_i k0) k2)) with (thr k2).
  destruct (negb _); [done|]. by destruct (negb _).
Qed.

(** ** Waking up *)

Definition tmo_del (t : word) (ts : list (word * Z)) : list (word * Z) :=
  default ts (delta_remove t ts).

Lemma tmo_del_elem t t' ts : t' ≠ t → t' ∈ (tmo_del t ts).*1 ↔ t' ∈ ts.*1.
Proof.
  intros. unfold tmo_del. destruct (delta_remove t ts) as [ts'|] eqn:E; simpl; [|done].
  rewrite (delta_remove_elem _ _ _ E), elem_of_cons. naive_solver.
Qed.
Lemma tmo_del_not_elem t ts : NoDup ts.*1 → t ∉ (tmo_del t ts).*1.
Proof.
  intros Hnd. unfold tmo_del. destruct (delta_remove t ts) as [ts'|] eqn:E; simpl.
  - rewrite (delta_remove_elem _ _ _ E) in Hnd. by apply NoDup_cons in Hnd as [? _].
  - by apply delta_remove_None.
Qed.

Definition wake_flags (fl : Z) : Z :=
  Z.lor (Z.land (Z.land fl (Z.lnot Z_THREAD_WAKEUP_SCHED_MSK)) (Z.lnot 3)) 1.

(** The wake-up of a pending thread is cancelled if it was scheduled. *)
Lemma z_cancel_scheduled_wake_up_spec t k T rs ts Q :
  links_ok F T (links k) (run_queue k) rs ts Q → (size T < loop_fuel)%nat →
  (t ∈ ts.*1 ↔ Z.land (flags (thr k t)) Z_THREAD_WAKEUP_SCHED_MSK ≠ 0) →
  ∃ k', z_cancel_scheduled_wake_up t k = Done tt k' ∧
    links_ok F T (links k') (run_queue k') rs (tmo_del t ts) Q ∧
    ready_count k' = ready_count k ∧ current k' = current k ∧ keeps k k' ∧
    (∀ t', t' ≠ t → thr k' t' = thr k t') ∧
    flags (thr k' t) = Z.land (flags (thr k t)) (Z.lnot Z_THREAD_WAKEUP_SCHED_MSK).
Proof.
  intros Hl Hs Ht. unfold z_cancel_scheduled_wake_up, bind, get. simpl.
  unfold test_flags.
  destruct (Z.eqb_spec (Z.land (flags (thr k t)) Z_THREAD_WAKEUP_SCHED_MSK) 0) as [E|E]; cbn [negb].
  - assert (t ∉ ts.*1) by naive_solver. eexists; split; [done|].
    unfold tmo_del. rewrite (proj2 (delta_remove_None t ts)) by done. simpl.
    rewrite land_clr_id by done. done.
  - destruct (links_tmo_remove _ _ _ _ _ _ _ t Hl) as (m'&ts'&Hm&Hd&Hl');
      [by apply Ht|by eapply links_fuel|].
    unfold modify, tqueue_remove_M. simpl. rewrite Hm. simpl.
    eexists; split; [done|]. unfold tmo_del. rewrite Hd. simpl. split_and!; try done.
    + intros t' Hne. exact (thr_upd_ne _ _ _ _ (not_eq_sym Hne)).
    + exact (flags_clr_eq _ _ _).
Qed.

Lemma z_wake_up_spec t k T rs ts Q :
  InvX (Some t) k T rs ts Q → t ∈ T → t ∉ rs → unqueued Q t →
  (t ∈ ts.*1 ↔ Z.land (flags (thr k t)) Z_THREAD_WAKEUP_SCHED_MSK ≠ 0) →
  ∃ k', z_wake_up t k = Done tt k' ∧
    Inv k' T (rq_add rs t) (tmo_del t ts) Q ∧ keeps k k' ∧ current k' = current k ∧
    (∀ t', t' ≠ t → thr k' t' = thr k t') ∧ flags (thr k' t) = wake_flags (flags (thr k t)).
Proof.
  intros Hi Ht Hrs Hu Hts. pose proof (inv_links _ _ _ _ _ _ Hi) as Hl.
  destruct (z_cancel_scheduled_wake_up_spec t k T rs ts Q) as (k1&E1&Hl1&Hn1&Hc1&Hk1&Hoth1&Hfl1);
    [done|by apply Hi|done|].
  assert (Hnd : NoDup ts.*1) by by eapply links_length_ts.
  destruct (z_schedule_spec t k1 T rs (tmo_del t ts) Q) as (Hi'&Hk&Hc&Hoth&Hfl).
  - eapply InvX_step; [done|done|done| |done| |done| |auto].
    + rewrite Hn1. by apply Hi.
    + intros t' Hne. by rewrite Hoth1.
    + intros. by apply tmo_del_elem.
  - done.
  - done.
  - by apply tmo_del_not_elem.
  - done.
  - rewrite Hfl1. by apply land_clr_hit.
  - exists (z_schedule t k1). split_and!.
    + unfold z_wake_up. by rewrite (bind_done _ _ _ _ _ E1).
    + done.
    + by etransitivity.
    + by rewrite Hc.
    + intros t' Hne. by rewrite Hoth, Hoth1.
    + rewrite Hfl, Hfl1. done.
Qed.

(** [z_unpend_first_thread] on an empty wait queue changes nothing. *)
Lemma z_unpend_first_thread_nil x l k T rs ts Q :
  InvX x k T rs ts Q → Q !! l = Some [] →
  ∃ m', z_unpend_first_thread l k = Done NULL (set_links m' k) ∧
    (∀ p, rd0 m' p = rd0 (links k) p ∧ rd1 m' p = rd1 (links k) p).
Proof.
  intros Hi Hw. pose proof (lk_wq _ _ _ _ _ _ _ (inv_links _ _ _ _ _ _ Hi) l _ Hw) as Hr.
  unfold z_unpend_first_thread. unfold bind at 1, get. cbn [rbind].
  destruct (dlist_get_nil _ _ Hr) as [E Ha].
  destruct (dlist_get (links k) l) as [tie m']. cbn [fst snd] in E, Ha. subst tie.
  unfold bind at 1, modify at 1. cbn [rbind]. destruct (decide (l ≠ l)) as [Hne|]; [by destruct Hne|].
  by exists m'.
Qed.

Lemma Inv_set_links x k T rs ts Q m' :
  InvX x k T rs ts Q → (∀ p, rd0 m' p = rd0 (links k) p ∧ rd1 m' p = rd1 (links k) p) →
  InvX x (set_links m' k) T rs ts Q.
Proof.
  intros [Hl ? ? ? ? ? ?] Ha. split; try done. simpl.
  eapply links_ok_ties; [done| | |by eapply lk_run_nd|].
  - intros p _. apply Ha.
  - eapply rq_ok_frame; [|by apply Hl]. intros p _. apply Ha.
  - intros t Ht. split; [by eapply lk_rs_T|by eapply lk_rs_ts].
Qed.

(** The first thread of the wait queue is woken up, whatever its state says. *)
Lemma z_unpend_first_thread_any l k T rs ts Q t ws :
  InvX (Some t) k T rs ts Q → Q !! l = Some (t :: ws) → t ∉ rs →
  (t ∈ ts.*1 ↔ Z.land (flags (thr k t)) Z_THREAD_WAKEUP_SCHED_MSK ≠ 0) →
  ∃ k', z_unpend_first_thread l k = Done t k' ∧
    Inv k' T (rq_add rs t) (tmo_del t ts) (<[l := ws]> Q) ∧
    keeps k k' ∧ current k' = current k ∧
    (∀ t', t' ≠ t → thr k' t' = thr k t') ∧ flags (thr k' t) = wake_flags (flags (thr k t)).
Proof.
  intros Hi Hw Hrs Htm. pose proof (inv_links _ _ _ _ _ _ Hi) as Hl.
  assert (HtT : t ∈ T) by (eapply lk_ws_T; [done|done|by left]).
  pose proof (lk_wq _ _ _ _ _ _ _ Hl l _ Hw) as Hring. simpl in Hring.
  destruct (dlist_get_cons _ _ _ _ Hring) as [Hget _].
  assert (Hne : l ≠ thread_wqh t) by by intros E; destruct Hring as [[Hn _]%NoDup_cons _]; set_solver.
  set (m1 := dlist_init (dlist_remove (links k) (thread_wqh t)) (thread_wqh t)).
  assert (Hl1 : links_ok F T m1 (run_queue k) rs ts (<[l := ws]> Q)).
  { eapply (links_wq_remove _ _ _ _ _ _ _ _ l [] t ws); [done..| |].
    - intros p Hpt. by apply dlist_init_frame.
    - intros _. left. apply dlist_init_ring. }
  set (k1 := set_links m1 k).
  assert (Hu : unqueued (<[l := ws]> Q) t).
  { intros l' ws' [[<- <-]|[Hne' Hw']]%lookup_insert_Some Hin.
    - destruct Hring as [[_ Hnd]%NoDup_cons _]. apply NoDup_cons in Hnd as [Hn _].
      apply Hn. apply list_elem_of_fmap. eauto.
    - apply Hne'. eapply (lk_once _ _ _ _ _ _ _ Hl l l'); [done|done|by left|done]. }
  destruct (z_wake_up_spec t k1 T rs ts (<[l := ws]> Q)) as (k'&E&Hi'&Hk&Hc&Hoth&Hfl);
    [|done..|].
  { eapply InvX_step; [exact Hi|done|done|by apply Hi|done..|].
    intros t' Hne' (l'&ws'&[[<- <-]|[? Hw']]%lookup_insert_Some&Hin); [|by eauto].
    exists l, (t :: ws). split; [done|by right]. }
  exists k'. split_and!; try done.
  unfold z_unpend_first_thread. unfold bind at 1, get. cbn [rbind]. rewrite Hget.
  unfold bind at 1, modify at 1. cbn [rbind]. rewrite decide_True by done.
  unfold wqflag. change (wqflags (set_links _ k)) with (wqflags k).
  fold (wqflag k (thread_wqh t)). rewrite (inv_wqflag _ _ _ _ _ _ Hi t HtT).
  rewrite andb_false_r. unfold bind at 1, ret at 1. cbn [rbind].
  rewrite thread_of_wqh_wqh. unfold bind at 1, modify, upd_links. cbn [rbind].
  fold m1. change (set_links m1 (set_links _ k)) with k1.
  by rewrite (bind_done _ _ _ _ _ E).
Qed.

(** The first thread of the wait queue, and only it, is woken up; it becomes
    the next thread to run after the running one. *)
Lemma z_unpend_first_thread_cons l k T rs ts Q t ws :
  Inv k T rs ts Q → Q !! l = Some (t :: ws) →
  ∃ k', z_unpend_first_thread l k = Done t k' ∧
    Inv k' T (rq_add rs t) (tmo_del t ts) (<[l := ws]> Q) ∧
    keeps k k' ∧ current k' = current k ∧
    (∀ t', t' ≠ t → thr k' t' = thr k t') ∧ flags (thr k' t) = wake_flags (flags (thr k t)).
Proof.
  intros Hi Hw. apply z_unpend_first_thread_any; [by apply Inv_open|done| |].
  - intros Hin. eapply inv_ready_unqueued in Hin; [|done]. eapply Hin; [done|by left].
  - destruct (inv_flags _ _ _ _ _ _ Hi t) as (Hr&Htm&Hp); [|done..].
    eapply lk_ws_T; [by apply Hi|done|by left].
Qed.

(** ** Cancelling a whole wait queue *)

Lemma Inv_or_flags k T rs ts Q t msk :
  Inv k T rs ts Q → t ∈ T → Z.land msk Z_THREAD_STATE_MSK = 0 →
  Z.land msk Z_THREAD_WAKEUP_SCHED_MSK = 0 → Inv (or_flags t msk k) T rs ts Q.
Proof.
  intros Hi Ht H1' H2'. apply (Inv_close t).
  - eapply InvX_step; [by apply Inv_open|done|by apply Hi|by apply Hi|done| |done|done|auto].
    intros t' Hne. unfold or_flags, set_flags. by rewrite thr_upd_ne.
  - destruct (inv_flags _ _ _ _ _ _ Hi t) as (Hr&Hw&Hp); [done..|].
    unfold thread_ok, fl_ok. rewrite flags_or_eq, !land_lor_skip by done. done.
Qed.

Definition cancel_flags (fl : Z) : Z := Z.lor (wake_flags fl) Z_THREAD_PEND_CANCELED_MSK.

Lemma wq_nodup k T rs ts Q l ws : Inv k T rs ts Q → Q !! l = Some ws → NoDup ws.
Proof.
  intros Hi Hw. destruct (lk_wq _ _ _ _ _ _ _ (inv_links _ _ _ _ _ _ Hi) l _ Hw) as [Hnd _].
  apply NoDup_cons in Hnd as [_ Hnd]. by eapply NoDup_fmap_1.
Qed.

Lemma wq_length k T rs ts Q l ws : Inv k T rs ts Q → Q !! l = Some ws → (length ws ≤ size T)%nat.
Proof.
  intros Hi Hw. rewrite <- (size_list_to_set (C:=gset word) ws) by by eapply wq_nodup.
  apply subseteq_size. intros t Ht%elem_of_list_to_set. eapply lk_ws_T; [by apply Hi|done..].
Qed.

Lemma thread_nonnull k T rs ts Q t : Inv k T rs ts Q → t ∈ T → t ≠ NULL.
Proof. intros Hi Ht ->. eapply mm_null_thread; [eapply lk_map, Hi|done]. Qed.

Lemma z_cancel_all_loop_spec ws fuel cnt l k T rs ts Q :
  Inv k T rs ts Q → Q !! l = Some ws → (length ws < fuel)%nat → 0 <= cnt < 256 →
  ∃ k', z_cancel_all_loop fuel l cnt k = Done (u8 (cnt + Z.of_nat (length ws))) k' ∧
    Inv k' T (foldl rq_add rs ws) (foldl (λ ts t, tmo_del t ts) ts ws) (<[l := []]> Q) ∧
    keeps k k' ∧ current k' = current k ∧
    (∀ t, t ∉ ws → thr k' t = thr k t) ∧
    (∀ t, t ∈ ws → flags (thr k' t) = cancel_flags (flags (thr k t))).
Proof.
  revert fuel cnt k rs ts Q. induction ws as [|t ws IH]; intros fuel cnt k rs ts Q Hi Hw Hf Hcnt;
    (destruct fuel as [|fuel]; [simpl in Hf; lia|]); cbn [z_cancel_all_loop].
  - destruct (z_unpend_first_thread_nil _ _ _ _ _ _ _ Hi Hw) as (m'&E&Ha).
    rewrite (bind_done _ _ _ _ _ E). rewrite decide_True by done.
    eexists. split; [simpl; rewrite Z.add_0_r, u8_small by done; done|].
    rewrite insert_id by done. split_and!; try done; [by apply Inv_set_links|].
    intros t Ht. by apply not_elem_of_nil in Ht.
  - pose proof (wq_nodup _ _ _ _ _ _ _ Hi Hw) as Hnd. apply NoDup_cons in Hnd as [Htws Hnd].
    assert (HtT : t ∈ T) by (eapply lk_ws_T; [by apply Hi|done|by left]).
    destruct (z_unpend_first_thread_cons _ _ _ _ _ _ _ _ Hi Hw) as (k1&E&Hi1&Hk1&Hc1&Hoth1&Hfl1).
    rewrite (bind_done _ _ _ _ _ E), decide_False by by eapply thread_nonnull.
    unfold bind, modify. cbn [rbind]. set (k2 := or_flags t Z_THREAD_PEND_CANCELED_MSK k1).
    assert (Hi2 : Inv k2 T (rq_add rs t) (tmo_del t ts) (<[l := ws]> Q)) by by apply Inv_or_flags.
    destruct (IH fuel (u8 (cnt + 1)) k2 _ _ _ Hi2) as (k'&E'&Hi'&Hk'&Hc'&Hoth'&Hfl');
      [apply lookup_insert_eq|simpl in Hf; lia|apply u8_range|].
    assert (Hoth2 : ∀ t', t' ≠ t → thr k2 t' = thr k t').
    { intros t' Hne. rewrite <- (Hoth1 t') by done. by apply thr_upd_ne. }
    exists k'. split_and!.
    + rewrite E'. f_equal. unfold u8. rewrite Zplus_mod_idemp_l. f_equal. simpl length. lia.
    + simpl. by rewrite insert_insert_eq in Hi'.
    + etransitivity; [exact Hk1|]. etransitivity; [|exact Hk']. done.
    + by rewrite Hc'.
    + intros t' [??]%not_elem_of_cons. by rewrite Hoth', Hoth2.
    + intros t' [->|Ht']%elem_of_cons.
      * rewrite Hoth' by done. unfold k2. by rewrite flags_or_eq, Hfl1.
      * rewrite Hfl' by done. rewrite Hoth2; [done|]. by intros ->.
Qed.

Lemma foldl_rq_add c rs ws : foldl rq_add (c :: rs) ws = c :: reverse ws ++ rs.
Proof.
  revert rs. induction ws as [|t ws IH]; intros rs; [done|].
  simpl. rewrite IH, reverse_cons, <- app_assoc. done.
Qed.

(** ** The system tick *)

(** The wait queues without the thread [t]. *)
Definition wq_del (t : word) (Q : gmap word (list word)) : gmap word (list word) :=
  (λ ws, filter (λ x, x ≠ t) ws) <$> Q.

Lemma filter_ne_id (t : word) (ws : list word) : t ∉ ws → filter (λ x, x ≠ t) ws = ws.
Proof.
  induction ws as [|x ws IH]; intros Hn; [done|]. apply not_elem_of_cons in Hn as [Hne Hn].
  rewrite filter_cons_True by done. by rewrite IH.
Qed.

Lemma wq_del_unqueued t Q : unqueued Q t → wq_del t Q = Q.
Proof.
  intros Hu. unfold wq_del. apply map_eq. intros l. rewrite lookup_fmap.
  destruct (Q !! l) as [ws|] eqn:E; simpl; [|done]. f_equal. apply filter_ne_id. by eapply Hu.
Qed.

Lemma wq_del_queued T m rq rs ts Q t l ws1 ws2 :
  links_ok F T m rq rs ts Q → Q !! l = Some (ws1 ++ t :: ws2) →
  <[l := ws1 ++ ws2]> Q = wq_del t Q.
Proof.
  intros Hl Hw. unfold wq_del. apply map_eq. intros l'. rewrite lookup_fmap.
  destruct (decide (l' = l)) as [->|Hne].
  - rewrite lookup_insert_eq, Hw. simpl. f_equal.
    destruct (lk_wq _ _ _ _ _ _ _ Hl l _ Hw) as [[_ Hnd%NoDup_fmap_1]%NoDup_cons _].
    rewrite <- Permutation_middle in Hnd. apply NoDup_cons in Hnd as [Hn _].
    apply not_elem_of_app in Hn as [??].
    rewrite filter_app, filter_cons_False by (intros Hx; by apply Hx). by rewrite !filter_ne_id.
  - rewrite lookup_insert_ne by done.
    destruct (Q !! l') as [ws|] eqn:E; simpl; [|done]. f_equal. symmetry. apply filter_ne_id.
    intros Hin. apply Hne. eapply (lk_once _ _ _ _ _ _ _ Hl l' l); [done|done|done|].
    set_solver.
Qed.

Lemma unqueued_dec Q t : unqueued Q t ∨ ∃ l ws1 ws2, Q !! l = Some (ws1 ++ t :: ws2).
Proof.
  destruct (decide (map_Forall (λ _ ws, t ∉ ws) Q)) as [Hf|Hf].
  - left. intros l ws Hw. by apply (Hf l ws).
  - right. apply map_not_Forall in Hf as (l&ws&Hw&Hin); [|apply _].
    assert (Hin' : t ∈ ws) by by apply dec_stable.
    apply list_elem_of_split in Hin' as (ws1&ws2&->). eauto.
Qed.

Definition expire_flags (fl : Z) : Z :=
  Z.lor (Z.land (Z.land (Z.lor fl Z_THREAD_TIMER_EXPIRED_MSK) (Z.lnot Z_THREAD_WAKEUP_SCHED_MSK))
           (Z.lnot 3)) 1.

(** One iteration of the loop of [z_sched_enter]. *)
Lemma z_sched_expire_spec k T rs ts ts' Q t :
  Inv k T rs ts Q → delta_pop ts = Some (t, ts') →
  ∃ m1, tqueue_pop_M z_timeouts_queue k = Done (thread_tie t) (set_links m1 k) ∧
    let k' := z_sched_expire t (set_links m1 k) in
    Inv k' T (rq_add rs t) ts' (wq_del t Q) ∧ keeps k k' ∧ current k' = current k ∧
    (∀ t', t' ≠ t → thr k' t' = thr k t') ∧ flags (thr k' t) = expire_flags (flags (thr k t)).
Proof.
  intros Hi Hp. pose proof (inv_links _ _ _ _ _ _ Hi) as Hl.
  pose proof (links_tmo_pop _ _ _ _ _ _ _ Hl) as Hpop. rewrite Hp in Hpop.
  destruct Hpop as (m1&E1&Hl1&Ha1).
  assert (Ets : ts = (t, 0) :: ts').
  { destruct ts as [|[a e] ts0]; [done|]. simpl in Hp. destruct (Z.eqb_spec e 0); [|done]. congruence. }
  assert (Htin : t ∈ ts.*1) by (rewrite Ets; by left).
  assert (HtT : t ∈ T) by by apply (lk_ts_T _ _ _ _ _ _ _ Hl).
  assert (Hts' : t ∉ ts'.*1).
  { apply links_length_ts in Hl as [Hnd _]. rewrite Ets in Hnd. by apply NoDup_cons in Hnd as [? _]. }
  assert (Hrs : t ∉ rs) by (intros Hin; by apply (lk_rs_ts _ _ _ _ _ _ _ Hl) in Hin).
  exists m1. split; [unfold tqueue_pop_M; by rewrite E1|]. cbn zeta. unfold z_sched_expire.
  set (k2 := upd_links _ _).
  assert (Hl2 : links_ok F T (links k2) (run_queue k2) rs ts' (wq_del t Q) ∧ unqueued (wq_del t Q) t).
  { split.
    - simpl. destruct (unqueued_dec Q t) as [Hu|(l&ws1&ws2&Hw)].
      + rewrite wq_del_unqueued by done. apply links_wqh_remove; [done..|].
        assert (thread_wqh t ≠ tq_node z_timeouts_queue).
        { intros E. by eapply mm_root_wqh; [eapply lk_map| |]. }
        eapply benign_frame; [by apply Ha1|by apply Ha1|by apply (lk_benign _ _ _ _ _ _ _ Hl)].
      + rewrite <- (wq_del_queued _ _ _ _ _ _ _ _ _ _ Hl Hw).
        eapply links_wq_remove; [done..|]. done.
    - intros l ws Hw. unfold wq_del in Hw. rewrite lookup_fmap in Hw.
      apply fmap_Some in Hw as (ws0&_&->). rewrite list_elem_of_filter. naive_solver. }
  destruct Hl2 as [Hl2 Hu2].
  assert (Hfl2 : flags (thr k2 t) = Z.land (Z.lor (flags (thr k t)) Z_THREAD_TIMER_EXPIRED_MSK)
                                           (Z.lnot Z_THREAD_WAKEUP_SCHED_MSK)).
  { change (thr k2) with (thr (clr_flags t Z_THREAD_WAKEUP_SCHED_MSK
      (or_flags t Z_THREAD_TIMER_EXPIRED_MSK (set_links m1 k)))).
    by rewrite flags_clr_eq, flags_or_eq. }
  assert (Hoth2 : ∀ t', t' ≠ t → thr k2 t' = thr k t').
  { intros t' Hne. change (thr k2 t') with (thr (clr_flags t Z_THREAD_WAKEUP_SCHED_MSK
      (or_flags t Z_THREAD_TIMER_EXPIRED_MSK (set_links m1 k))) t').
    unfold clr_flags, or_flags, set_flags. by rewrite !thr_upd_ne. }
  destruct (z_schedule_spec t k2 T rs ts' (wq_del t Q)) as (Hi'&Hk'&Hc'&Hoth'&Hfl'); try done.
  - eapply InvX_step; [by apply Inv_open|done|done|by apply Hi|done| |done| |].
    + intros t' Hne. by rewrite Hoth2.
    + intros t' Hne. rewrite Ets. simpl. set_solver.
    + intros t' Hne (l&ws&Hw&Hin). unfold wq_del in Hw. rewrite lookup_fmap in Hw.
      apply fmap_Some in Hw as (ws0&Hw0&->). apply list_elem_of_filter in Hin as [_ Hin]. eauto.
  - rewrite Hfl2. by apply land_clr_hit.
  - split_and!; try done.
    + intros t' Hne. by rewrite Hoth', Hoth2.
    + by rewrite Hfl', Hfl2.
Qed.

Definition wq_dels (xs : list word) (Q : gmap word (list word)) : gmap word (list word) :=
  foldl (λ Q t, wq_del t Q) Q xs.

Lemma z_sched_enter_loop_spec fuel k T rs ts Q :
  Inv k T rs ts Q → (length ts < fuel)%nat →
  ∃ k', z_sched_enter_loop fuel k = Done tt k' ∧
    Inv k' T (foldl rq_add rs (delta_expired ts).1) (delta_expired ts).2
      (wq_dels (delta_expired ts).1 Q) ∧
    keeps k k' ∧ current k' = current k ∧
    (∀ t, t ∉ (delta_expired ts).1 → thr k' t = thr k t) ∧
    (∀ t, t ∈ (delta_expired ts).1 → flags (thr k' t) = expire_flags (flags (thr k t))).
Proof.
  revert k rs ts Q. induction fuel as [|fuel IH]; intros k rs ts Q Hi Hf; [lia|].
  cbn [z_sched_enter_loop].
  assert (Hstop : delta_pop ts = None →
    tqueue_pop_M z_timeouts_queue k = Done NULL k).
  { intros Hp. pose proof (links_tmo_pop _ _ _ _ _ _ _ (inv_links _ _ _ _ _ _ Hi)) as Hpop.
    rewrite Hp in Hpop. unfold tqueue_pop_M. rewrite Hpop. by destruct k. }
  destruct ts as [|[t e] ts]; [|simpl in Hstop; cbn [delta_expired]; destruct (Z.eqb_spec e 0) as [->|He]].
  - rewrite (bind_done _ _ _ _ _ (Hstop eq_refl)), decide_True by done.
    exists k. split_and!; try done. intros t Ht. by apply not_elem_of_nil in Ht.
  - destruct (z_sched_expire_spec k T rs ((t, 0) :: ts) ts Q t Hi eq_refl)
      as (m1&E1&Hi1&Hk1&Hc1&Hoth1&Hfl1).
    assert (HtT : t ∈ T).
    { eapply (lk_ts_T _ _ _ _ _ _ _ (inv_links _ _ _ _ _ _ Hi)). by left. }
    rewrite (bind_done _ _ _ _ _ E1), decide_False.
    2:{ eapply mm_null_tie; [eapply lk_map, Hi|done]. }
    rewrite thread_of_tie_tie. unfold bind, modify. cbn [rbind].
    set (k1 := z_sched_expire t (set_links m1 k)) in *.
    destruct (IH k1 _ _ _ Hi1) as (k'&E'&Hi'&Hk'&Hc'&Hoth'&Hfl'); [simpl in Hf; lia|].
    assert (Ht' : t ∉ (delta_expired ts).1).
    { intros Hin. pose proof (links_length_ts _ _ _ _ _ _ (inv_links _ _ _ _ _ _ Hi)) as [Hnd _].
      simpl in Hnd. apply NoDup_cons in Hnd as [Hn _]. apply Hn.
      clear -Hin. induction ts as [|[a e] ts IH]; simpl in *; [done|].
      destruct (e =? 0); simpl in *; [|by apply not_elem_of_nil in Hin].
      destruct (delta_expired ts) as [xs r]. simpl in *. set_solver. }
    destruct (delta_expired ts) as [xs r]. simpl in *.
    exists k'. split_and!; try done.
    + by etransitivity.
    + by rewrite Hc'.
    + intros t' [??]%not_elem_of_cons. by rewrite Hoth', Hoth1.
    + intros t' [->|Hin]%elem_of_cons; [by rewrite Hoth'|].
      rewrite Hfl' by done. rewrite Hoth1; [done|]. by intros ->.
  - rewrite (bind_done _ _ _ _ _ (Hstop eq_refl)), decide_True by done.
    exists k. split_and!; try done. simpl. intros t' Ht. by apply not_elem_of_nil in Ht.
Qed.

(** The part of the tick that wakes threads up, in absolute times: with the
    clock at [now], the threads due at [now] plus one time slice or before
    are made ready in the order of their expiries, the others wait on. *)
Lemma z_sched_enter_wakes now k T rs ts Q :
  Inv k T rs ts Q → 0 <= Z_KERNEL_TIME_SLICE_TICKS < 65536 →
  let due := (filter (λ p, p.2 <= now + Z_KERNEL_TIME_SLICE_TICKS) (expiries now ts)).*1 in
  ∃ k' ts', z_sched_enter k
      = ((when CONFIG_KERNEL_TIMERS do z_timers_process);;
         (when CONFIG_KERNEL_EVENTS do z_event_q_process)) k' ∧
    Inv k' T (foldl rq_add rs due) ts' (wq_dels due Q) ∧
    expiries (now + Z_KERNEL_TIME_SLICE_TICKS) ts'
      = filter (λ p, now + Z_KERNEL_TIME_SLICE_TICKS < p.2) (expiries now ts) ∧
    keeps k k' ∧ current k' = current k ∧
    (∀ t, t ∉ due → thr k' t = thr k t) ∧
    (∀ t, t ∈ due → flags (thr k' t) = expire_flags (flags (thr k t))).
Proof.
  intros Hi Hn due. pose proof (inv_links _ _ _ _ _ _ Hi) as Hl.
  destruct (links_tmo_shift _ _ _ _ _ _ _ Z_KERNEL_TIME_SLICE_TICKS Hl) as (m1&E1&Hl1);
    [done|by eapply links_fuel; [|apply Hi]|].
  assert (Hi1 : Inv (set_links m1 k) T rs (delta_shift Z_KERNEL_TIME_SLICE_TICKS ts) Q).
  { destruct Hi. split; try done. intros t Ht Hne. eapply thread_ok_change; [by eauto|done..| |auto].
    by rewrite delta_shift_elem. }
  destruct (z_sched_enter_loop_spec loop_fuel _ _ _ _ _ Hi1) as (k'&E'&Hi'&Hk'&Hc'&Hoth'&Hfl').
  { eapply links_fuel; [by eapply inv_links|by apply Hi]. }
  destruct (delta_expired_expiries Z_KERNEL_TIME_SLICE_TICKS ts now) as [Edue Erest];
    [lia|by apply Hl|].
  fold due in Edue. rewrite Edue in *.
  exists k', (delta_expired (delta_shift Z_KERNEL_TIME_SLICE_TICKS ts)).2. split_and!; try done.
  unfold z_sched_enter, on_links, bind at 1. rewrite E1. cbn [rbind].
  by rewrite (bind_done _ _ _ _ _ E').
Qed.

(** ** Interface of the wait queues for the synchronisation objects *)

Lemma Inv_sreg b k T rs ts Q : Inv k T rs ts Q → Inv (set_sreg_i b k) T rs ts Q.
Proof. by intros []. Qed.

(** Updates of objects other than threads, links and wait-queue flags. *)
Lemma Inv_objs k k' T rs ts Q :
  Inv k T rs ts Q → links k' = links k → threads k' = threads k → run_queue k' = run_queue k →
  ready_count k' = ready_count k → wqflags k' = wqflags k → Inv k' T rs ts Q.
Proof.
  intros [] E1 E2 E3 E4 E5. split; unfold thread_ok, z_get_thread_state, thr, wqflag in *;
    rewrite ?E1, ?E2, ?E3, ?E4, ?E5; auto.
Qed.

Definition timeouts_del (ws : list word) (ts : list (word * Z)) : list (word * Z) :=
  foldl (λ ts t, tmo_del t ts) ts ws.

Lemma z_cancel_all_pending_spec l ws k T rs ts Q :
  Inv k T rs ts Q → Q !! l = Some ws →
  ∃ k', z_cancel_all_pending l k = Done (Z.of_nat (length ws)) k' ∧
    Inv k' T (foldl rq_add rs ws) (timeouts_del ws ts) (<[l := []]> Q) ∧
    keeps k k' ∧ current k' = current k ∧
    (∀ t, t ∉ ws → thr k' t = thr k t) ∧
    (∀ t, t ∈ ws → flags (thr k' t) = cancel_flags (flags (thr k t))).
Proof.
  intros Hi Hw. pose proof (wq_length _ _ _ _ _ _ _ Hi Hw).
  pose proof (inv_fuel _ _ _ _ _ _ Hi). pose proof (inv_size _ _ _ _ _ _ Hi).
  destruct (z_cancel_all_loop_spec ws loop_fuel 0 l k T rs ts Q) as (k'&E&Hr); [done|done|lia|lia|].
  exists k'. split; [|done]. unfold z_cancel_all_pending. rewrite E, u8_small; [done|lia].
Qed.

(** Waking up every waiter. *)
Lemma z_unpend_all_loop_spec wrap ws fuel cnt l k T rs ts Q :
  Inv k T rs ts Q → Q !! l = Some ws → (length ws < fuel)%nat →
  ∃ k' n, z_unpend_all_loop wrap fuel l cnt k = Done n k' ∧
    n = Nat.iter (length ws) (λ c, wrap (c + 1)) cnt ∧
    Inv k' T (foldl rq_add rs ws) (timeouts_del ws ts) (<[l := []]> Q) ∧
    keeps k k' ∧ current k' = current k ∧
    (∀ t, t ∉ ws → thr k' t = thr k t) ∧
    (∀ t, t ∈ ws → flags (thr k' t) = wake_flags (flags (thr k t))).
Proof.
  revert fuel cnt k rs ts Q. induction ws as [|t ws IH]; intros fuel cnt k rs ts Q Hi Hw Hf;
    (destruct fuel as [|fuel]; [simpl in Hf; lia|]); cbn [z_unpend_all_loop].
  - destruct (z_unpend_first_thread_nil _ _ _ _ _ _ _ Hi Hw) as (m'&E&Ha).
    rewrite (bind_done _ _ _ _ _ E). rewrite decide_True by done.
    eexists _, _. split; [done|]. split; [done|].
    rewrite insert_id by done. split_and!; try done; [by apply Inv_set_links|].
    intros t Ht. by apply not_elem_of_nil in Ht.
  - pose proof (wq_nodup _ _ _ _ _ _ _ Hi Hw) as Hnd. apply NoDup_cons in Hnd as [Htws Hnd].
    assert (HtT : t ∈ T) by (eapply lk_ws_T; [by apply Hi|done|by left]).
    destruct (z_unpend_first_thread_cons _ _ _ _ _ _ _ _ Hi Hw) as (k1&E&Hi1&Hk1&Hc1&Hoth1&Hfl1).
    rewrite (bind_done _ _ _ _ _ E), decide_False by by eapply thread_nonnull.
    destruct (IH fuel (wrap (cnt + 1)) k1 _ _ _ Hi1) as (k'&n&E'&Hn&Hi'&Hk'&Hc'&Hoth'&Hfl');
      [apply lookup_insert_eq|simpl in Hf; lia|].
    exists k', n. split_and!; [done| | |by etransitivity|by rewrite Hc'| |].
    + rewrite Hn. symmetry. apply (Nat.iter_succ_r (length ws) (λ c, wrap (c + 1))).
    + simpl. by rewrite insert_insert_eq in Hi'.
    + intros t' [??]%not_elem_of_cons. by rewrite Hoth', Hoth1.
    + intros t' [->|Ht']%elem_of_cons.
      * by rewrite Hoth', Hfl1.
      * rewrite Hfl' by done. rewrite Hoth1; [done|]. by intros ->.
Qed.

Lemma iter_count (wrap : Z → Z) n :
  (∀ c, 0 <= c <= Z.of_nat n → wrap c = c) → Nat.iter n (λ c, wrap (c + 1)) 0 = Z.of_nat n.
Proof.
  induction n as [|n IH]; intros Hw; [done|]. simpl. rewrite IH.
  - rewrite Hw; lia.
  - intros c Hc. apply Hw. lia.
Qed.

(** The three ways a wait ends, for a thread that was waiting with its result
    flags clear. *)
Lemma pend_result_wake fl : Z.land fl SCHED_CLR = 0 → pend_result (wake_flags fl) = 0.
Proof.
  intros E. unfold pend_result, wake_flags.
  rewrite !land_lor_skip, !land_clr_skip by done.
  assert (Z.land fl Z_THREAD_TIMER_EXPIRED_MSK = 0) as ->.
  { change Z_THREAD_TIMER_EXPIRED_MSK with (Z.land SCHED_CLR Z_THREAD_TIMER_EXPIRED_MSK).
    by rewrite Z.land_assoc, E. }
  assert (Z.land fl Z_THREAD_PEND_CANCELED_MSK = 0) as ->; [|done].
  change Z_THREAD_PEND_CANCELED_MSK with (Z.land SCHED_CLR Z_THREAD_PEND_CANCELED_MSK).
  by rewrite Z.land_assoc, E.
Qed.

Lemma pend_result_expire fl : pend_result (expire_flags fl) = - ETIMEDOUT.
Proof.
  unfold pend_result, expire_flags. rewrite land_lor_skip, !land_clr_skip, land_lor_hit by done.
  done.
Qed.

Lemma pend_result_cancel fl : Z.land fl SCHED_CLR = 0 → pend_result (cancel_flags fl) = - ECANCELED.
Proof.
  intros E. unfold pend_result, cancel_flags, wake_flags.
  rewrite land_lor_skip, land_lor_skip, !land_clr_skip by done. rewrite land_lor_hit by done.
  assert (Z.land fl Z_THREAD_TIMER_EXPIRED_MSK = 0) as ->; [|done].
  change Z_THREAD_TIMER_EXPIRED_MSK with (Z.land SCHED_CLR Z_THREAD_TIMER_EXPIRED_MSK).
  by rewrite Z.land_assoc, E.
Qed.

Lemma pend_clr fl : Z.land (Z.land fl (Z.lnot SCHED_CLR)) SCHED_CLR = 0.
Proof. by apply land_clr_hit. Qed.

(** The kernel's links do not depend on the foreign nodes. *)
Lemma links_ok_foreign F' m' T m rq rs ts Q :
  links_ok F T m rq rs ts Q → agree_on (λ p, ¬ foreign T (dom Q) p) m m' →
  agree_on (foreign T (dom Q)) F' m' → links_ok F' T m' rq rs ts Q.
Proof.
  intros Hl Ha HF. pose proof (lk_map _ _ _ _ _ _ _ Hl) as Hm.
  assert (Htie : ∀ t, t ∈ T → ¬ foreign T (dom Q) (thread_tie t)).
  { intros t Ht (_&_&_&Hf). by destruct (Hf t Ht). }
  assert (Hwqh : ∀ t, t ∈ T → ¬ foreign T (dom Q) (thread_wqh t)).
  { intros t Ht (_&_&_&Hf). by destruct (Hf t Ht). }
  destruct Hl. split; try done.
  - revert lk_run. apply rq_ok_frame. intros p (t&->&Ht)%list_elem_of_fmap. apply Ha. auto.
  - revert lk_tmo. apply tq_rep_frame. rewrite tq_items_fst.
    intros p [->|(t&->&Ht)%list_elem_of_fmap]%elem_of_cons; apply Ha; [|auto].
    intros (_&_&Hr&_). done.
  - intros l ws Hw. specialize (lk_wq l ws Hw). revert lk_wq. apply ring_frame.
    intros p [->|(t&->&Ht)%list_elem_of_fmap]%elem_of_cons; apply Ha; [|eauto].
    intros (Hd&_). apply Hd. by eapply elem_of_dom_2.
  - intros t Ht Hu. eapply benign_frame; [..|by apply lk_benign]; apply Ha; auto.
Qed.

(** Changing the data of a thread the scheduler does not read. *)
Lemma Inv_upd_thread t f k T rs ts Q :
  (∀ x, flags (f x) = flags x) → Inv k T rs ts Q → Inv (upd_thread t f k) T rs ts Q.
Proof.
  intros Hf Hi. assert (Hfl : ∀ t', flags (thr (upd_thread t f k) t') = flags (thr k t')).
  { intros t'. rewrite thr_upd. case_decide; [subst; apply Hf|done]. }
  destruct Hi. split; try done.
  - intros t' Ht' Hne. unfold thread_ok. rewrite Hfl. by apply inv_flags0.
  - unfold z_get_thread_state. by rewrite Hfl.
Qed.
(** Waking a thread leaves the data threads exchange alone. *)
Definition swap_same (k k' : kstate) : Prop := ∀ t, swap_data (thr k' t) = swap_data (thr k t).

Lemma swap_same_flags t fl k : swap_same k (set_flags t fl k).
Proof. intros t'. unfold set_flags. rewrite thr_upd. by case_decide; subst. Qed.

Lemma swap_same_schedule t k : swap_same k (z_schedule t k).
Proof.
  intros t'. rewrite <- (swap_same_flags t (Z.lor (Z.land (flags (thr k t)) (Z.lnot Z_THREAD_STATE_MSK))
    (Z.land Z_THREAD_STATE_READY Z_THREAD_STATE_MSK)) k t').
  unfold z_schedule. fold (z_set_thread_state t Z_THREAD_STATE_READY k).
  by destruct (ready_count _ =? 0).
Qed.

Lemma z_wake_up_swap t k k' : z_wake_up t k = Done tt k' → swap_same k k'.
Proof.
  unfold z_wake_up, z_cancel_scheduled_wake_up. mred.
  destruct (test_flags k t Z_THREAD_WAKEUP_SCHED_MSK).
  - unfold tqueue_remove_M. destruct (tqueue_remove _ _ _ _ _) as [[r m]|]; cbn [rbind]; [|done].
    intros [= <-] t'. rewrite (swap_same_schedule t _ t').
    change (thr (set_links m ?x) t') with (thr x t'). apply swap_same_flags.
  - intros [= <-]. apply swap_same_schedule.
Qed.

Lemma z_unpend_first_thread_swap l k r k' : z_unpend_first_thread l k = Done r k' → swap_same k k'.
Proof.
  unfold z_unpend_first_thread. rewrite bind_get. destruct (dlist_get (links k) l) as [tie m].
  rewrite bind_modify. destruct (decide (l ≠ tie)); [|by intros [= _ <-]].
  destruct (CONFIG_POLLING && _); mred;
    (match goal with |- context [z_wake_up ?t ?k1] => destruct (z_wake_up t k1) as [[] k2| | |] eqn:E end);
    cbn [rbind]; try done; intros [= _ <-] t'; by rewrite (z_wake_up_swap _ _ _ E t').
Qed.

(** No step of a wait touches them either: the state a call leaves, or the one
    it is suspended in, has the data of the state it started from. *)
Definition res_swap {A} (k : kstate) (r : res A) : Prop :=
  match r with Done _ k' | Susp k' _ => swap_same k k' | Fault _ _ | NoFuel => True end.

Lemma res_swap_bind {A B} (m : M A) (f : A → M B) k :
  res_swap k (m k) → (∀ x k', swap_same k k' → res_swap k' (f x k')) → res_swap k (bind m f k).
Proof.
  unfold bind. destruct (m k) as [x k'|k' c| |]; cbn [rbind res_swap]; try done.
  intros Hm Hf. specialize (Hf x k' Hm). destruct (f x k') as [y k2|k2 c| |]; cbn [res_swap] in *; try done;
    intros t; by rewrite Hf.
Qed.

Lemma res_swap_get {B} (f : kstate → M B) k : res_swap k (f k k) → res_swap k (bind get f k).
Proof. done. Qed.

Lemma res_swap_modify g k : swap_same k (g k) → res_swap k (modify g k).
Proof. done. Qed.

Lemma swap_same_threads k k' : threads k' = threads k → swap_same k k'.
Proof. intros E t. unfold thr. by rewrite E. Qed.

Lemma res_swap_when (b : bool) (m : M unit) k : res_swap k (m k) → res_swap k ((when b do m) k).
Proof. by destruct b. Qed.

Lemma res_swap_on_links f k : res_swap k (on_links f k).
Proof. unfold on_links. destruct (f (links k)); [by apply swap_same_threads|done]. Qed.

Lemma z_cancel_scheduled_wake_up_swap t k : res_swap k (z_cancel_scheduled_wake_up t k).
Proof.
  apply res_swap_get, res_swap_when, res_swap_bind; [apply res_swap_modify, swap_same_flags|].
  intros _ k1 _. apply res_swap_bind; [|done]. unfold tqueue_remove_M.
  destruct (tqueue_remove _ _ _ _ _) as [[? ?]|]; [by apply swap_same_threads|done].
Qed.

Lemma z_suspend_swap t k : res_swap k (z_suspend t k).
Proof.
  apply res_swap_get. destruct (_ =? _); [apply z_cancel_scheduled_wake_up_swap|].
  apply res_swap_bind; [by apply swap_same_threads|]. intros _ k1 _.
  apply res_swap_bind; [by apply swap_same_threads|]. intros _ k2 _.
  apply res_swap_get. destruct (_ =? 0).
  - destruct CONFIG_KERNEL_THREAD_IDLE; [by apply swap_same_threads|done].
  - apply res_swap_when. by apply swap_same_threads.
Qed.

Lemma z_schedule_wake_up_swap timeout k : res_swap k (z_schedule_wake_up timeout k).
Proof.
  apply res_swap_when, res_swap_get, res_swap_bind; [apply swap_same_flags|]. intros _ k1 _.
  do 2 (apply res_swap_bind; [by apply swap_same_threads|]; intros _ ? _). apply res_swap_on_links.
Qed.

Lemma z_yield_swap k : res_swap k (z_yield k).
Proof.
  assert (Hs : swap_same k (z_scheduler k).2).
  { intros t. unfold z_scheduler. cbn [snd].
    set (k1 := clr_flags _ _ k). transitivity (swap_data (thr k1 t)); [|apply swap_same_flags].
    by destruct (_ =? _). }
  unfold z_yield. destruct (z_scheduler k) as [p k1]. by destruct (decide _).
Qed.

Lemma z_pend_current_on_swap l timeout k : res_swap k (z_pend_current_on l timeout k).
Proof.
  unfold z_pend_current_on. destruct (_ =? _); [done|]. apply res_swap_bind.
  { apply res_swap_when, res_swap_get. by apply swap_same_threads. }
  intros _ k1 _. apply res_swap_bind.
  - apply res_swap_get, res_swap_bind; [apply z_suspend_swap|]. intros _ k2 _.
    apply res_swap_bind; [apply z_schedule_wake_up_swap|]. intros _ k3 _. apply res_swap_get.
    apply res_swap_bind; [apply swap_same_flags|]. intros _ k4 _. apply z_yield_swap.
  - intros _ k2 _. apply res_swap_get. by destruct (test_flags k2 (current k2) Z_THREAD_TIMER_EXPIRED_MSK), (test_flags k2 (current k2) Z_THREAD_PEND_CANCELED_MSK).
Qed.

(** Handing a datum to the first waiter. *)
Lemma z_unpend_first_and_swap_nil l x k T rs ts Q :
  Inv k T rs ts Q → Q !! l = Some [] →
  ∃ m', z_unpend_first_and_swap l x k = Done NULL (set_links m' k) ∧
    (∀ p, rd0 m' p = rd0 (links k) p ∧ rd1 m' p = rd1 (links k) p).
Proof.
  intros Hi Hw. destruct (z_unpend_first_thread_nil _ _ _ _ _ _ _ Hi Hw) as (m1&E&Ha).
  exists m1. split; [|done]. unfold z_unpend_first_and_swap.
  by rewrite (bind_done _ _ _ _ _ E).
Qed.

Lemma z_unpend_first_and_swap_cons l x k T rs ts Q t ws :
  Inv k T rs ts Q → Q !! l = Some (t :: ws) →
  ∃ k', z_unpend_first_and_swap l x k = Done t k' ∧
    Inv k' T (rq_add rs t) (tmo_del t ts) (<[l := ws]> Q) ∧
    t ≠ NULL ∧ keeps k k' ∧ current k' = current k ∧
    (∀ t', t' ≠ t → thr k' t' = thr k t') ∧
    flags (thr k' t) = wake_flags (flags (thr k t)) ∧ swap_data (thr k' t) = x.
Proof.
  intros Hi Hw. destruct (z_unpend_first_thread_cons _ _ _ _ _ _ _ _ Hi Hw) as (k1&E&Hi1&Hk1&Hc1&Hoth&Hfl).
  assert (Ht : t ≠ NULL).
  { eapply thread_nonnull; [done|]. eapply lk_ws_T; [by apply Hi|done|by left]. }
  exists (set_swap_data t x k1). unfold z_unpend_first_and_swap.
  rewrite (bind_done _ _ _ _ _ E), nonnull_true by done.
  split; [done|]. unfold set_swap_data. rewrite thr_upd_eq. split_and!; try done.
  - by apply Inv_upd_thread.
  - intros t' Hne. by rewrite thr_upd_ne, Hoth.
Qed.
End KernelSpec.

(** A change confined to foreign nodes. *)
Lemma Inv_foreign `{Layout, Config, Handlers} F m' k T rs ts Q :
  Inv F k T rs ts Q → agree_on (λ p, ¬ foreign T (dom Q) p) (links k) m' →
  Inv m' (set_links m' k) T rs ts Q.
Proof.
  intros [] Ha. split; try done. by eapply links_ok_foreign.
Qed.

Lemma Inv_frame `{Layout, Config, Handlers} F k T rs ts Q p :
  Inv F k T rs ts Q → foreign T (dom Q) p → rd0 (links k) p = rd0 F p ∧ rd1 (links k) p = rd1 F p.
Proof. intros Hi Hp. by apply (lk_frame _ _ _ _ _ _ _ (inv_links _ _ _ _ _ _ _ Hi)). Qed.

(** The foreign memory may be taken to be the current one: a later [Inv] for it
    says that the foreign nodes have not changed since. *)
Lemma Inv_rebase `{Layout, Config, Handlers} F k T rs ts Q :
  Inv F k T rs ts Q → Inv (links k) k T rs ts Q.
Proof. intros []. split; try done. by eapply links_ok_foreign. Qed.
