(* ===== verification/World.v ===== *)
(** * A concrete kernel

    A small system on which the theorems are instantiated: three threads, a
    wait queue of each kind of object and of each thread, the addresses a linker could give them,
    and states reached by running the modelled functions. *)

From S2P Require Import Prelude Dlist Delta Tqueue Types Event Timer Kernel KernelInv KernelSpec.

#[export] Instance w_layout : Layout := λ b, 64 * Zpos b.

#[export] Instance w_config : Config := {
  CONFIG_KERNEL_ARGS_CHECKS := true;
  CONFIG_KERNEL_REENTRANCY := true;
  CONFIG_POLLING := true;
  CONFIG_THREAD_JOIN := true;
  CONFIG_KERNEL_THREAD_IDLE := true;
  CONFIG_KERNEL_TIMERS := true;
  CONFIG_KERNEL_EVENTS := true;
  CONFIG_KERNEL_EVENTS_ALLOW_NO_WAIT := true;
  Z_KERNEL_TIME_SLICE_TICKS := 1;
  z_thread_idle := Ptr 20 0;
  z_thread_main := Ptr 1 0;
  z_timeouts_queue := Ptr 21 0;
  z_event_q := Ptr 22 0;
  z_timers_runqueue := Ptr 23 0;
  loop_fuel := 16;
}.

#[export] Instance w_handlers : Handlers := {
  call_event_handler := λ _ _, ret tt;
  call_timer_handler := λ _ _, ret 0;
  call_work_handler := λ _ _, ret tt;
}.

(** The threads, and the wait queues by the offset of the member in the object. *)
Definition t1 : word := Ptr 1 0.
Definition t2 : word := Ptr 2 0.
Definition t3 : word := Ptr 3 0.
Definition w_T : gset word := {[t1; t2; t3]}.

Definition w_obj (ofs : Z) : word := Ptr (Z.to_pos (10 + ofs)) 0.
Definition w_offsets : list Z := [0; 1; 2; 4; 7].
Definition w_heads : list word := ((λ o, ptr_add (w_obj o) o) <$> w_offsets) ++ (thread_join <$> [t1; t2; t3]).
Definition w_Q : gmap word (list word) := list_to_map ((λ l, (l, [])) <$> w_heads).

Definition w_thread (fl : Z) : k_thread :=
  {| sp := NULL; flags := fl; swap_data := NULL; stack_end := NULL; stack_size := 0;
     symbol := 0; sched_lock_cnt := 0 |}.

(** No thread has been started. *)
Definition w_init : kstate := {|
  links := foldl dlist_init ∅ w_heads;
  threads := <[z_thread_idle := w_thread Z_THREAD_STATE_IDLE]> ∅;
  wqflags := list_to_map ((λ t, (thread_wqh t, 0)) <$> [t1; t2; t3]);
  current := z_thread_idle; ready_count := 0; run_queue := thread_tie z_thread_idle;
  sreg_i := true; sems := ∅; mutexes := ∅; signals := ∅; kflags := ∅; msgqs := ∅; slabs := ∅;
  events := ∅; timers := ∅; workqueues := ∅; works := ∅; pollfds := ∅; bytes := ∅ |}.

Definition w_F : mem := links w_init.

Lemma w_T_cases t : t ∈ w_T → t = t1 ∨ t = t2 ∨ t = t3.
Proof. unfold w_T. set_solver. Qed.

Lemma w_Q_lookup l ws : w_Q !! l = Some ws → ws = [] ∧ l ∈ w_heads.
Proof.
  intros Hl. unfold w_Q in Hl. apply elem_of_list_to_map_2 in Hl.
  apply list_elem_of_fmap in Hl as (l'&E&Hin). simpl in E. injection E as -> ->.
  split; [done|]. exact Hin.
Qed.

Lemma w_heads_dom l : l ∈ dom w_Q → l ∈ w_heads.
Proof. intros [ws Hw]%elem_of_dom. by destruct (w_Q_lookup _ _ Hw). Qed.

Lemma w_memmap : memmap w_T (dom w_Q).
Proof.
  assert (Hh : ∀ l, l ∈ dom w_Q → l ∈ w_heads) by apply w_heads_dom.
  split; try done.
  all: repeat match goal with |- ∀ _, _ => intro end.
  all: repeat match goal with
    | Ht : _ ∈ w_T |- _ => apply w_T_cases in Ht
    | Ht : _ ∈ dom w_Q |- _ => apply w_heads_dom in Ht; unfold w_heads, w_offsets in Ht; simpl in Ht
    | |- _ ∉ dom w_Q => intros Hd%w_heads_dom; revert Hd; unfold w_heads, w_offsets; simpl
    | |- _ ∉ w_T => intros Hd%w_T_cases
    end.
  all: try set_solver.
  all: repeat (destruct_or!; subst; try done).
Qed.

Lemma w_Q_heads l : l ∈ w_heads → w_Q !! l = Some [].
Proof. unfold w_heads, w_offsets. simpl. intros Hl. repeat (apply elem_of_cons in Hl as [->|Hl]; [done|]). by apply not_elem_of_nil in Hl. Qed.

Lemma w_thread_stopped t : t ∈ w_T → flags (thr w_init t) = 0.
Proof. by intros [->|[->| ->]]%w_T_cases. Qed.

(** The state before any thread is started satisfies the kernel invariant. *)
Lemma w_init_inv : Inv w_F w_init w_T [] [] w_Q.
Proof.
  assert (Hu : ∀ t, ¬ ∃ l ws, w_Q !! l = Some ws ∧ t ∈ ws).
  { intros t (l&ws&[-> _]%w_Q_lookup&Ht). by apply not_elem_of_nil in Ht. }
  split; try done.
  - split; try done; try by (intros t Ht; apply not_elem_of_nil in Ht).
    + apply w_memmap.
    + intros l ws t Hw Ht. destruct (Hu t). eauto.
    + intros l1 l2 ws1 ws2 t H1 _ Ht1 _. destruct (Hu t). eauto.
    + constructor.
    + split; [by apply NoDup_singleton|done].
    + intros l ws [-> Hl]%w_Q_lookup. apply ring_nil. unfold w_heads, w_offsets in Hl. simpl in Hl.
      repeat (apply elem_of_cons in Hl as [->|Hl]; [done|]). by apply not_elem_of_nil in Hl.
  - intros t Ht _. unfold thread_ok. rewrite w_thread_stopped by done. split_and!.
    + split; [|done]. intros Hn. by apply not_elem_of_nil in Hn.
    + split; [|done]. intros Hn. by apply not_elem_of_nil in Hn.
    + intros [Hn|Hn]; [by apply not_elem_of_nil in Hn|by apply Hu in Hn].
  - by intros t [->|[->| ->]]%w_T_cases.
  - vm_compute. lia.
  - vm_compute. lia.
Qed.

Definition w_start (t : word) (k : kstate) : kstate := set_current t (z_schedule t k).

(** Three ready threads: [t1] runs, then [t3], then [t2]. *)
Definition w_ready : kstate := set_current t1 (z_schedule t3 (z_schedule t2 (z_schedule t1 w_init))).

Lemma w_unqueued t : unqueued w_Q t.
Proof. intros l ws [-> _]%w_Q_lookup. apply not_elem_of_nil. Qed.

Lemma w_start_inv k rs t :
  Inv w_F k w_T rs [] w_Q → t ∈ w_T → t ∉ rs → flags (thr k t) = 0 →
  Inv w_F (z_schedule t k) w_T (rq_add rs t) [] w_Q ∧
  (∀ t', t' ≠ t → thr (z_schedule t k) t' = thr k t').
Proof.
  intros Hi Ht Hrs Hf.
  destruct (z_schedule_spec w_F t k w_T rs [] w_Q) as (Hi'&_&_&Hoth&_); try done.
  - by apply Inv_open.
  - apply not_elem_of_nil.
  - apply w_unqueued.
  - by rewrite Hf.
Qed.

Lemma w_ready_inv : Inv w_F w_ready w_T [t1; t3; t2] [] w_Q.
Proof.
  destruct (w_start_inv w_init [] t1) as [H1 O1]; [apply w_init_inv|set_solver|set_solver|done|].
  destruct (w_start_inv _ _ t2 H1) as [H2 O2]; [set_solver|set_solver|done|].
  destruct (w_start_inv _ _ t3 H2) as [H3 _]; [set_solver|set_solver|done|].
  unfold w_ready. revert H3. generalize (z_schedule t3 (z_schedule t2 (z_schedule t1 w_init))).
  intros k Hi. by eapply Inv_objs.
Qed.

Definition susp_state {A} (r : res A) : kstate := match r with Susp k _ => k | _ => w_init end.

(** [t1], then [t2], wait on the queue [h] for at most 5 and 3 ticks. *)
Definition w_wait1 (h : word) : kstate := susp_state (z_pend_current_on h 5 w_ready).
Definition w_wait2 (h : word) : kstate := susp_state (z_pend_current_on h 3 (w_wait1 h)).

Lemma w_pend_inv h timeout k c rs ts Q ws :
  Inv w_F k w_T (c :: rs) ts Q → Q !! h = Some ws → current k = c → 0 < timeout < 65536 →
  let k' := susp_state (z_pend_current_on h timeout k) in
  Inv w_F k' w_T (rq_leave rs) (tmo_add timeout c ts) (<[h := ws ++ [c]]> Q) ∧
  current k' = running (rq_leave rs) ∧ keeps k k' ∧ Z.land (flags (thr k' c)) SCHED_CLR = 0 ∧
  (∀ t, t ≠ c → thr k' t = thr k t).
Proof.
  intros Hi Hw Hc Ht. destruct (z_pend_current_on_spec w_F h timeout k w_T c rs ts Q ws)
    as (k'&(cont&E&_)&Hi'&Hcur&Hk&Hoth&Hfl); try done; [by left|].
  rewrite E. simpl. split_and!; try done. rewrite Hfl. apply pend_clr.
Qed.

Lemma w_wait1_inv h : h ∈ w_heads →
  Inv w_F (w_wait1 h) w_T [t2; t3] [(t1, 5)] (<[h := [t1]]> w_Q) ∧ current (w_wait1 h) = t2 ∧
  keeps w_ready (w_wait1 h) ∧ Z.land (flags (thr (w_wait1 h) t1)) SCHED_CLR = 0.
Proof.
  intros Hh. destruct (w_pend_inv h 5 w_ready t1 [t3; t2] [] w_Q []) as (?&?&?&?&_);
    [apply w_ready_inv|by apply w_Q_heads|done|lia|done].
Qed.

Lemma w_wait2_inv h : h ∈ w_heads →
  Inv w_F (w_wait2 h) w_T [t3] [(t2, 3); (t1, 2)] (<[h := [t1; t2]]> w_Q) ∧ current (w_wait2 h) = t3 ∧
  keeps w_ready (w_wait2 h) ∧ Z.land (flags (thr (w_wait2 h) t1)) SCHED_CLR = 0.
Proof.
  intros Hh. destruct (w_wait1_inv h Hh) as (Hi&Hc&Hk&Hf).
  destruct (w_pend_inv h 3 (w_wait1 h) t2 [t3] [(t1, 5)] (<[h := [t1]]> w_Q) [t1]) as (Hi'&?&?&?&Hoth);
    [done|apply lookup_insert_eq|done|lia|].
  rewrite insert_insert_eq in Hi'. split_and!; try done.
  - by etransitivity.
  - unfold w_wait2. by rewrite Hoth.
Qed.

(** Nodes that are not the kernel's. *)
Lemma w_foreign p : p ∉ w_heads → p ≠ NULL → p ≠ tq_node z_timeouts_queue →
  p ∉ thread_tie <$> [t1; t2; t3] → p ∉ thread_wqh <$> [t1; t2; t3] → foreign w_T (dom w_Q) p.
Proof.
  intros H1 H2 H3 H4 H5. split_and!; [by intros Hd%w_heads_dom|done|done|].
  intros t Ht. simpl in H4, H5. apply w_T_cases in Ht. set_solver.
Qed.
