(* ===== verification/EventSpec.v ===== *)
(** * Properties of events and timers (event.c, timer.c)

    Handlers are user code, so the theorems on the processing of the queues
    are about handlers that leave the kernel's links, events and timers alone:
    what they do is observed through a log, any function of the state that the
    kernel functions do not change. *)

From S2P Require Import Prelude Delta Tqueue Types Event Timer World.

Lemma delta_expired_split {A} (q : list (A * Z)) ds r :
  delta_expired q = (ds, r) → q = ((λ x, (x, 0)) <$> ds) ++ r ∧ delta_pop r = None.
Proof.
  revert ds r. induction q as [|[a e] q IH]; intros ds r; simpl; [by intros [= <- <-]|].
  destruct (Z.eqb_spec e 0) as [->|He].
  - destruct (delta_expired q) as [xs r'] eqn:E. intros [= <- <-].
    destruct (IH xs r' eq_refl) as [-> ?]. done.
  - intros [= <- <-]. simpl. by rewrite (proj2 (Z.eqb_neq _ _) He).
Qed.

Lemma delta_insert_zeros {A} (x : A) d ds r :
  0 <= d → delta_insert x d (((λ y, (y, 0)) <$> ds) ++ r) = ((λ y, (y, 0)) <$> ds) ++ delta_insert x d r.
Proof.
  intros Hd. induction ds as [|y ds IH]; [done|]. rewrite fmap_cons. cbn [app delta_insert].
  rewrite (proj2 (Z.leb_le 0 d)) by done. by rewrite Z.sub_0_r, IH.
Qed.

Lemma delta_insert_pop {A} (x : A) d r :
  0 < d → Forall (λ p, 0 <= p.2) r → delta_pop r = None → delta_pop (delta_insert x d r) = None.
Proof.
  intros Hd Hr. destruct r as [|[a e] r]; simpl; [by rewrite (proj2 (Z.eqb_neq d 0)) by lia|].
  apply Forall_cons in Hr as [He _]. simpl in He. destruct (Z.eqb_spec e 0) as [|Hne]; [done|]. intros _.
  destruct (Z.leb_spec e d); simpl; [by rewrite (proj2 (Z.eqb_neq e 0))|].
  by rewrite (proj2 (Z.eqb_neq d 0)) by lia.
Qed.

Lemma tq_rep_set_delay `{Layout} m root q t v :
  tq_rep m root q → t ∉ tq_node root :: q.*1 → tq_rep (set_delay m t v) root q.
Proof.
  intros [Hnd Hc] [_ Ht]%not_elem_of_cons. split; [done|]. revert Hc. unfold set_delay. apply chain_frame.
  - by rewrite rd1_wr0.
  - intros y Hy. rewrite rd1_wr0. split; [|done]. apply rd0_wr0_ne. by intros ->.
Qed.

Section EventSpec.
Context `{Layout, Config, Handlers}.
Context {L : Type} (log : kstate → L).

(** What the log does not depend on. *)
Record log_ok : Prop := {
  log_links m k : log (set_links m k) = log k;
  log_event e f k : log (upd_event e f k) = log k;
}.

(** A well-behaved event handler adds one entry to the log. *)
Definition event_handlers_ok (add : L → word → word → L) : Prop := ∀ fn e k, ∃ k',
  call_event_handler fn e k = Done tt k' ∧ links k' = links k ∧ events k' = events k ∧
  log k' = add (log k) fn e.

(** The calls the expiry of the events [ds] makes. *)
Definition calls (k : kstate) (ds : list word) : list (word * word) :=
  (λ e, (ev_handler (evt k e), e)) <$> ds.

Lemma evt_upd_eq e f k : evt (upd_event e f k) e = f (evt k e).
Proof. unfold evt at 1, upd_event. simpl. by rewrite lookup_total_insert_eq. Qed.
Lemma evt_upd_ne e f k e' : e ≠ e' → evt (upd_event e f k) e' = evt k e'.
Proof. intros. unfold evt at 1, upd_event. simpl. by rewrite lookup_total_insert_ne. Qed.

Lemma z_event_q_loop_spec add ds fuel r k :
  log_ok → event_handlers_ok add → NULL ∉ ds → NoDup ds → z_event_q ≠ NULL →
  tq_rep (links k) z_event_q (((λ x, (x, 0)) <$> ds) ++ r) → delta_pop r = None →
  (length ds < fuel)%nat →
  ∃ k', z_event_q_loop fuel k = Done tt k' ∧ tq_rep (links k') z_event_q r ∧
    log k' = foldl (λ l p, add l p.1 p.2) (log k) (calls k ds) ∧
    (∀ e, evt k' e = if decide (e ∈ ds) then with_scheduled 0 (evt k e) else evt k e).
Proof.
  intros Hlog Hh Hnn Hnd Hz. revert ds fuel k Hnn Hnd.
  induction ds as [|d ds IH]; intros fuel k Hnn Hnd Hr Hp Hf;
    (destruct fuel as [|fuel]; [simpl in Hf; lia|]); cbn [z_event_q_loop].
  - pose proof (tqueue_pop_spec CONFIG_KERNEL_ARGS_CHECKS _ _ _ Hr Hz) as E. simpl in E, Hr.
    rewrite Hp in E. exists (set_links (links k) k).
    unfold bind at 1, tqueue_pop_M. rewrite E. cbn [rbind]. rewrite decide_True by done.
    split_and!; [done|done|apply log_links, Hlog|]. intros e. by rewrite decide_False by apply not_elem_of_nil.
  - pose proof (tqueue_pop_spec CONFIG_KERNEL_ARGS_CHECKS _ _ _ Hr Hz) as E. simpl in E.
    destruct E as (m1&E&Hr1&_). apply not_elem_of_cons in Hnn as [Hdn Hnn].
    apply NoDup_cons in Hnd as [Hd Hnd].
    set (k1 := upd_event d (with_scheduled 0) (set_links m1 k)).
    destruct (Hh (ev_handler (evt k d)) d k1) as (k2&E2&Hl2&He2&Hlog2).
    destruct (IH fuel k2 Hnn Hnd) as (k'&E'&Hr'&Hlog'&He'); [by rewrite Hl2|done|simpl in Hf; lia|].
    exists k'. assert (He2' : ∀ e, evt k2 e = evt k1 e) by (intros; unfold evt; by rewrite He2).
    assert (Hk1 : ∀ e, e ≠ d → evt k1 e = evt k e) by (intros e ?; exact (evt_upd_ne d _ (set_links m1 k) e ltac:(done))).
    split_and!; [|done| |].
    + unfold bind at 1, tqueue_pop_M. rewrite E. cbn [rbind]. rewrite decide_False by done.
      rewrite bind_modify, bind_get. fold k1.
      assert (ev_handler (evt k1 d) = ev_handler (evt k d)) as -> by (unfold k1; by rewrite evt_upd_eq).
      by rewrite (bind_done _ _ _ _ _ E2).
    + rewrite Hlog', Hlog2. cbn [foldl].
      assert (log k1 = log k) as -> by (unfold k1; rewrite (log_event Hlog), (log_links Hlog); done).
      unfold calls. rewrite fmap_cons. cbn [foldl fst snd].
      f_equal. apply Forall_fmap_ext, Forall_forall. intros e He. rewrite He2', Hk1; [done|]. by intros ->.
    + intros e. rewrite He', He2'. destruct (decide (e = d)) as [->|Hne].
      * rewrite decide_False, decide_True by (done || by left). unfold k1. by rewrite evt_upd_eq.
      * rewrite Hk1 by done. rewrite (decide_ext (e ∈ ds) (e ∈ d :: ds)); [done|]. set_solver.
Qed.

(** A well-behaved timer handler adds one entry to the log and returns [rv]. *)
Definition timer_handlers_ok (add : L → word → word → L) (rv : word → word → Z) : Prop :=
  ∀ fn t k, ∃ k', call_timer_handler fn t k = Done (rv fn t) k' ∧ links k' = links k ∧
    timers k' = timers k ∧ log k' = add (log k) fn t.

Definition tcalls (k : kstate) (ds : list word) : list (word * word) :=
  (λ t, (tm_handler (tmr k t), t)) <$> ds.

(** What becomes of the timer [t] when it expires: queued again after its
    period, unless its handler asks for it to be stopped. *)
Definition timer_requeue (rv : word → word → Z) (k : kstate) (q : list (word * Z)) (t : word)
    : list (word * Z) :=
  if rv (tm_handler (tmr k t)) t =? 0 then delta_insert t (tm_timeout (tmr k t)) q else q.

Lemma tmr_timers k k' t : timers k' = timers k → tmr k' t = tmr k t.
Proof. unfold tmr. by intros ->. Qed.

Lemma z_timer_expired_spec add rv t q k :
  log_ok → timer_handlers_ok add rv → t ≠ NULL → z_timers_runqueue ≠ NULL →
  tq_rep (links k) z_timers_runqueue q → delta_ok q → t ∉ tq_node z_timers_runqueue :: q.*1 →
  0 < tm_timeout (tmr k t) < 65536 → delay_shift (links k) t = 0 → (length q < loop_fuel)%nat →
  let fn := tm_handler (tmr k t) in
  ∃ k', z_timer_expired t k = Done tt k' ∧
    tq_rep (links k') z_timers_runqueue (timer_requeue rv k q t) ∧ timers k' = timers k ∧
    log k' = add (log k) fn t ∧
    (rv fn t ≠ 0 → tie_timeout k' t = K_TIMER_STOPPED) ∧
    agree_on (λ y, y ∉ t :: tq_node z_timers_runqueue :: q.*1) (links k) (links k').
Proof.
  intros Hlog Hh Htn Hz Hr Hok Ht Hp Hd Hf fn.
  destruct (Hh fn t k) as (k1&E1&Hl1&Ht1&Hlog1).
  unfold z_timer_expired. rewrite bind_get. fold fn.
  rewrite (bind_done _ _ _ _ _ E1). unfold timer_requeue. fold fn.
  destruct (Z.eqb_spec (rv fn t) 0) as [Hrv|Hrv]; cbn [negb].
  - rewrite bind_ret, bind_get. unfold tie_timeout, timer_tie. rewrite Hl1, Hd. cbn [Z.eqb negb K_TIMER_STOPPED].
    rewrite !bind_modify, (tmr_timers _ _ _ Ht1).
    destruct (tqueue_schedule_spec loop_fuel (links k) z_timers_runqueue q t (tm_timeout (tmr k t)))
      as (m'&E&Hr'&_&Ha); [done..|lia|done|].
    eexists. unfold on_links. cbn [links upd_links set_links set_tie_timeout timer_tie]. rewrite Hl1.
    unfold tqueue_schedule in E. rewrite decide_False in E by done. unfold timer_tie. rewrite E.
    split_and!; [done|done|done| |done|done].
    unfold set_tie_timeout, upd_links. by rewrite !(log_links Hlog).
  - rewrite bind_modify, bind_get. unfold set_tie_timeout, upd_links.
    set (k2 := set_links _ k1).
    assert (Hst : tie_timeout k2 t = K_TIMER_STOPPED).
    { unfold tie_timeout, k2, delay_shift, set_delay, timer_tie. cbn [links set_links].
      by rewrite rd0_wr0_eq. }
    rewrite Hst. cbn [Z.eqb negb K_TIMER_STOPPED Pos.eqb]. exists k2. split_and!; try done.
    + unfold k2. cbn [links set_links]. rewrite Hl1. unfold timer_tie.
      apply (tq_rep_set_delay (links k)); [done|set_solver].
    + unfold k2. by rewrite (log_links Hlog).
    + intros y Hy. unfold k2. cbn [links set_links]. rewrite Hl1. unfold timer_tie, set_delay.
      split; autorewrite with links; [|done]. apply rd0_wr0_ne. set_solver.
Qed.

(** The queue holds the expired timers [ds], then [r]. *)
Lemma z_timers_loop_spec add rv ds fuel r k :
  log_ok → timer_handlers_ok add rv → z_timers_runqueue ≠ NULL →
  tq_rep (links k) z_timers_runqueue (((λ t, (t, 0)) <$> ds) ++ r) → delta_ok r → delta_pop r = None →
  (∀ t, t ∈ ds → 0 < tm_timeout (tmr k t) < 65536) →
  (length ds < fuel)%nat → (length ds + length r < loop_fuel)%nat →
  ∃ k', z_timers_loop fuel k = Done tt k' ∧
    tq_rep (links k') z_timers_runqueue (foldl (timer_requeue rv k) r ds) ∧
    delta_ok (foldl (timer_requeue rv k) r ds) ∧ timers k' = timers k ∧
    log k' = foldl (λ l p, add l p.1 p.2) (log k) (tcalls k ds).
Proof.
  intros Hlog Hh Hz. revert ds fuel r k.
  induction ds as [|d ds IH]; intros fuel r k Hr Hok Hp Hper Hf Hlf;
    (destruct fuel as [|fuel]; [simpl in Hf; lia|]); cbn [z_timers_loop];
    pose proof (tqueue_pop_spec CONFIG_KERNEL_ARGS_CHECKS _ _ _ Hr Hz) as E;
    unfold bind at 1, tqueue_pop_M.
  - simpl in E, Hr. rewrite Hp in E. exists (set_links (links k) k). rewrite E. cbn [rbind].
    rewrite decide_True by done. split_and!; try done. apply log_links, Hlog.
  - rewrite fmap_cons in E, Hr. cbn [app delta_pop] in E. rewrite Z.eqb_refl in E.
    destruct E as (m1&E&Hr1&_&Ha1).
    set (k1 := set_links m1 k).
    assert (Hnd : (d ∉ tq_node z_timers_runqueue :: (((λ t, (t, 0)) <$> ds) ++ r).*1) ∧ d ≠ NULL).
    { destruct Hr as [Hnd Hc]. split; [|by destruct Hc as (_&?&_)].
      cbn [app fmap list_fmap fst] in Hnd. apply NoDup_cons in Hnd as [H1' H2'].
      apply NoDup_cons in H2' as [H2' _]. apply not_elem_of_cons. split; [|done].
      intros ->. apply H1'. by left. }
    destruct Hnd as [Hnd Hdn].
    assert (Hz0 : ∀ (ds' : list word) d', delta_ok (((λ t : word, (t, 0)) <$> ds') ++ d') ↔ delta_ok d').
    { intros ds' d'. unfold delta_ok. rewrite Forall_app.
      assert (total (((λ t : word, (t, 0)) <$> ds') ++ d') = total d') as ->.
      { clear. induction ds' as [|x ds' IH]; [done|]. rewrite fmap_cons. cbn [app total foldr snd].
        unfold total in IH. by rewrite IH. }
      split; [tauto|]. intros [? ?]. split_and!; [|done..]. apply Forall_fmap, Forall_forall. done. }
    destruct (z_timer_expired_spec add rv d (((λ t, (t, 0)) <$> ds) ++ r) k1)
      as (k2&E2&Hr2&Ht2&Hlog2&_&_); [done..|by apply Hz0|done|apply Hper; by left| | |].
    { apply delay_shift_int. change (links k1) with m1. destruct (Ha1 d) as [-> _].
      - intros ->. apply Hnd. by left.
      - by destruct Hr as [_ (_&_&?&_)]. }
    { rewrite length_app, length_fmap. simpl in Hlf. lia. }
    assert (Hreq : timer_requeue rv k1 (((λ t, (t, 0)) <$> ds) ++ r) d
                   = ((λ t, (t, 0)) <$> ds) ++ timer_requeue rv k r d).
    { unfold timer_requeue. change (tmr k1 d) with (tmr k d). destruct (_ =? 0); [|done].
      apply delta_insert_zeros. pose proof (Hper d ltac:(by left)). lia. }
    rewrite Hreq in Hr2.
    assert (Hpd := Hper d ltac:(by left)).
    destruct (IH fuel (timer_requeue rv k r d) k2) as (k'&E'&Hr'&Hok'&Ht'&Hlog'); [done|..].
    + unfold timer_requeue. destruct (_ =? 0); [|done]. apply delta_insert_ok; [done|lia].
    + unfold timer_requeue. destruct (_ =? 0); [|done]. apply delta_insert_pop; [lia|apply Hok|done].
    + intros t Ht. rewrite (tmr_timers k1 k2) by done. apply Hper. by right.
    + simpl in Hf. lia.
    + enough (length (timer_requeue rv k r d) ≤ S (length r))%nat by (simpl in Hlf; lia).
      unfold timer_requeue. destruct (_ =? 0); [|lia].
      rewrite <- (length_fmap fst), delta_insert_elem. simpl. by rewrite length_fmap.
    + assert (Heq : ∀ l, foldl (timer_requeue rv k2) l ds = foldl (timer_requeue rv k) l ds).
      { intros l. unfold timer_requeue. clear -Ht2. revert l. induction ds as [|x ds IH]; intros l; [done|].
        simpl. by rewrite (tmr_timers k1 k2) by done. }
      rewrite Heq in Hr', Hok'. exists k'. split_and!; [|exact Hr'|exact Hok'|by rewrite Ht', Ht2|].
      * rewrite E. cbn [rbind]. rewrite decide_False by done. fold k1.
        by rewrite (bind_done _ _ _ _ _ E2).
      * rewrite Hlog', Hlog2. unfold tcalls. rewrite fmap_cons. cbn [foldl fst snd].
        assert (log k1 = log k) as -> by apply log_links, Hlog.
        f_equal. apply Forall_fmap_ext, Forall_forall. intros e He. by rewrite (tmr_timers k1 k2).
Qed.

(** ** Theorems *)

(** The shift that starts the processing of a queue, and what it leaves. *)
Lemma queue_shift root now q k :
  tq_rep (links k) root q → delta_ok q → 0 <= Z_KERNEL_TIME_SLICE_TICKS < 65536 →
  (length q < loop_fuel)%nat →
  ∃ m ds r, on_links (λ m, tqueue_shift loop_fuel m root Z_KERNEL_TIME_SLICE_TICKS) k
      = Done tt (set_links m k) ∧
    tq_rep m root (((λ x, (x, 0)) <$> ds) ++ r) ∧ delta_pop r = None ∧ delta_ok r ∧
    (length ds + length r = length q)%nat ∧
    ds = (filter (λ p, p.2 <= now + Z_KERNEL_TIME_SLICE_TICKS) (expiries now q)).*1 ∧
    expiries (now + Z_KERNEL_TIME_SLICE_TICKS) r
      = filter (λ p, now + Z_KERNEL_TIME_SLICE_TICKS < p.2) (expiries now q).
Proof.
  intros Hr Hok Hs Hf. destruct (tqueue_shift_spec _ _ _ _ _ Hr Hok Hs Hf) as (m&E&Hr'&_&_).
  destruct (delta_expired_expiries Z_KERNEL_TIME_SLICE_TICKS q now) as [H1' H2']; [lia|apply Hok|].
  pose proof (delta_expired_ok _ (delta_shift_ok Z_KERNEL_TIME_SLICE_TICKS q Hok (proj1 Hs))) as Hok'.
  destruct (delta_expired (delta_shift Z_KERNEL_TIME_SLICE_TICKS q)) as [ds r] eqn:Ee.
  destruct (delta_expired_split _ _ _ Ee) as [Eq Hp].
  exists m, ds, r. split_and!; try done.
  - unfold on_links. by rewrite E.
  - by rewrite <- Eq.
  - rewrite <- (length_fmap fst q), <- (delta_shift_elem Z_KERNEL_TIME_SLICE_TICKS q), Eq.
    by rewrite length_fmap, length_app, length_fmap.
Qed.

(** On each tick every event whose time has come, and no other, is marked as
    not scheduled and has its handler called once, in the order of the
    times; the others keep their time. *)
Theorem z_event_q_process_spec add now q k :
  log_ok → event_handlers_ok add → z_event_q ≠ NULL →
  tq_rep (links k) z_event_q q → delta_ok q → 0 <= Z_KERNEL_TIME_SLICE_TICKS < 65536 →
  (length q < loop_fuel)%nat →
  let now' := now + Z_KERNEL_TIME_SLICE_TICKS in
  let due := (filter (λ p, p.2 <= now') (expiries now q)).*1 in
  ∃ k' q', z_event_q_process k = Done tt k' ∧ tq_rep (links k') z_event_q q' ∧ delta_ok q' ∧
    expiries now' q' = filter (λ p, now' < p.2) (expiries now q) ∧
    log k' = foldl (λ l p, add l p.1 p.2) (log k) (calls k due) ∧
    (∀ e, evt k' e = if decide (e ∈ due) then with_scheduled 0 (evt k e) else evt k e).
Proof.
  intros Hlog Hh Hz Hr Hok Hs Hf now' due.
  destruct (queue_shift z_event_q now q k) as (m&ds&r&E&Hr1&Hp&Hok'&Hlen&Hds&He); [done..|].
  assert (Hnd : (NULL ∉ ds) ∧ NoDup ds).
  { destruct Hr1 as [[_ Hnd]%NoDup_cons Hc]. apply chain_nonnull in Hc. revert Hnd Hc.
    rewrite fmap_app, <- list_fmap_compose.
    rewrite (list_fmap_id ds : (fst ∘ (λ x, (x, 0))) <$> ds = ds). intros [? _]%NoDup_app Hc.
    split; [|done]. intros Hin. apply Hc. apply elem_of_app. by left. }
  destruct (z_event_q_loop_spec add ds loop_fuel r (set_links m k)) as (k'&E'&Hr'&Hlog'&Hev);
    [done|done|apply Hnd|apply Hnd|done|done|done|lia|].
  exists k', r. split_and!; try done.
  - unfold z_event_q_process. by rewrite (bind_done _ _ _ _ _ E).
  - rewrite Hlog', (log_links Hlog). unfold due, now'. by rewrite <- Hds.
  - intros e. rewrite Hev. unfold due, now'. by rewrite <- Hds.
Qed.

(** C24: on each tick every timer whose time has come, and no other, has its
    handler called once, in the order of the times; it is then due again
    exactly one period later, unless the handler stopped it by returning a
    non-zero value; the others keep their time, and the processing ends. *)
Theorem z_timers_process_spec add rv now q k :
  log_ok → timer_handlers_ok add rv → z_timers_runqueue ≠ NULL →
  tq_rep (links k) z_timers_runqueue q → delta_ok q → 0 <= Z_KERNEL_TIME_SLICE_TICKS < 65536 →
  (length q < loop_fuel)%nat → (∀ t, t ∈ q.*1 → 0 < tm_timeout (tmr k t) < 65536) →
  let now' := now + Z_KERNEL_TIME_SLICE_TICKS in
  let due := (filter (λ p, p.2 <= now') (expiries now q)).*1 in
  ∃ k' q', z_timers_process k = Done tt k' ∧ tq_rep (links k') z_timers_runqueue q' ∧
    delta_ok q' ∧ timers k' = timers k ∧
    expiries now' q' =
      foldl (λ l t, if rv (tm_handler (tmr k t)) t =? 0
                    then timed_insert t (now' + tm_timeout (tmr k t)) l else l)
            (filter (λ p, now' < p.2) (expiries now q)) due ∧
    log k' = foldl (λ l p, add l p.1 p.2) (log k) (tcalls k due).
Proof.
  intros Hlog Hh Hz Hr Hok Hs Hf Hper now' due.
  destruct (queue_shift z_timers_runqueue now q k) as (m&ds&r&E&Hr1&Hp&Hok'&Hlen&Hds&He); [done..|].
  destruct (z_timers_loop_spec add rv ds loop_fuel r (set_links m k)) as (k'&E'&Hr'&Hok2&Ht&Hlog');
    [done..| |lia|lia|].
  { intros t Ht. apply Hper. revert Ht. rewrite Hds. intros Ht.
    apply list_elem_of_fmap in Ht as ([t' d]&->&Ht). apply list_elem_of_filter in Ht as [_ Ht].
    clear -Ht. revert now Ht. induction q as [|[a e] q IH]; intros now; simpl.
    - intros Hin. by apply not_elem_of_nil in Hin.
    - intros [[= -> ->]|Hin]%elem_of_cons; [by left|right; by eapply IH]. }
  exists k', (foldl (timer_requeue rv k) r ds). split_and!; try done.
  - unfold z_timers_process. by rewrite (bind_done _ _ _ _ _ E).
  - unfold due, now'. rewrite <- Hds, <- He. clear. revert r.
    induction ds as [|d ds IH]; intros r; [done|]. cbn [foldl]. rewrite IH. f_equal.
    unfold timer_requeue. destruct (_ =? 0); [|done]. apply delta_insert_expiries.
  - rewrite Hlog', (log_links Hlog). unfold due, now'. by rewrite <- Hds.
Qed.
End EventSpec.

(** ** Instances

    Two events and two timers, due in 1 and 3 ticks; a handler at the integer
    address [n] logs the digit [n], and a timer handler returns [n - 1]. *)

Section Instances.
Definition l_log (k : kstate) : Z := default 0 (bytes k !! NULL).
Definition l_add (l : Z) (fn _ : word) : Z := l * 10 + word_int fn.
Definition l_ret (fn _ : word) : Z := word_int fn - 1.
Definition l_call (fn e : word) (k : kstate) : kstate :=
  set_bytes (<[NULL := l_add (l_log k) fn e]> (bytes k)) k.

#[local] Instance l_handlers : Handlers := {
  call_event_handler := λ fn e, modify (l_call fn e);
  call_timer_handler := λ fn t, modify (l_call fn t);; ret (l_ret fn t);
  call_work_handler := λ _ _, ret tt;
}.

Lemma l_log_call fn e k : l_log (l_call fn e k) = l_add (l_log k) fn e.
Proof. unfold l_log, l_call. cbn [bytes set_bytes]. by rewrite lookup_insert_eq. Qed.

Definition l_x : word := Ptr 51 0.
Definition l_y : word := Ptr 52 0.

Definition l_links (root : word) : mem :=
  wr1 (wr0 (wr1 (wr0 (wr1 ∅ (tq_node root) l_x) l_x (Int 1)) l_x l_y) l_y (Int 2)) l_y NULL.

Definition l_event (fn : Z) : k_event := {| ev_handler := Int fn; scheduled := 1 |}.
Definition l_timer (fn : Z) : k_timer := {| tm_timeout := 5; tm_handler := Int fn |}.

Definition l_state (root : word) : kstate :=
  set_events (<[l_x := l_event 1]> (<[l_y := l_event 2]> ∅))
  (set_timers (<[l_x := l_timer 1]> (<[l_y := l_timer 2]> ∅)) (set_links (l_links root) w_init)).

Lemma l_log_ok : log_ok l_log.
Proof. by split. Qed.

Lemma l_rep root : tq_node root ≠ l_x → tq_node root ≠ l_y →
  tq_rep (l_links root) root [(l_x, 1); (l_y, 2)].
Proof.
  intros Hx Hy. unfold tq_rep, l_links. simpl. split.
  - repeat constructor; set_solver.
  - by links_simpl.
Qed.

Lemma l_ok : delta_ok [(l_x, 1); (l_y, 2)].
Proof. split; [repeat constructor|]; by vm_compute. Qed.

Lemma z_event_q_process_witness :
  ∃ k' q', z_event_q_process (l_state z_event_q) = Done tt k' ∧ tq_rep (links k') z_event_q q' ∧
    expiries 101 q' = [(l_y, 103)] ∧ l_log k' = 1 ∧ scheduled (evt k' l_x) = 0 ∧
    scheduled (evt k' l_y) = 1.
Proof.
  destruct (z_event_q_process_spec l_log l_add 100 [(l_x, 1); (l_y, 2)] (l_state z_event_q))
    as (k'&q'&E&Hr&_&He&Hl&Hev);
    [apply l_log_ok| |done|by apply l_rep|apply l_ok|by vm_compute|simpl; lia|].
  - intros fn e k. exists (l_call fn e k). split_and!; try done. apply l_log_call.
  - exists k', q'. split_and!; [exact E|exact Hr|exact He|by rewrite Hl|by rewrite (Hev l_x)|by rewrite (Hev l_y)].
Defined.

Lemma z_timers_process_witness :
  ∃ k' q', z_timers_process (l_state z_timers_runqueue) = Done tt k' ∧
    tq_rep (links k') z_timers_runqueue q' ∧
    expiries 101 q' = [(l_y, 103); (l_x, 106)] ∧ l_log k' = 1.
Proof.
  destruct (z_timers_process_spec l_log l_add l_ret 100 [(l_x, 1); (l_y, 2)] (l_state z_timers_runqueue))
    as (k'&q'&E&Hr&_&_&He&Hl);
    [apply l_log_ok| |done|by apply l_rep|apply l_ok|by vm_compute|simpl; lia| |].
  - intros fn e k. exists (l_call fn e k). split_and!; try done. apply l_log_call.
  - intros t Ht. simpl in Ht. apply elem_of_cons in Ht as [->|Ht]; [by vm_compute|].
    apply list_elem_of_singleton in Ht as ->. by vm_compute.
  - exists k', q'. split_and!; [exact E|exact Hr|exact He|by rewrite Hl].
Defined.
End Instances.
