(* ===== verification/Semaphore.v ===== *)
(** * Semaphores (semaphore.c) *)

From S2P Require Import Prelude Dlist Delta Tqueue Types Event Timer Kernel KernelInv KernelSpec World.

Section Semaphore.
Context `{Layout, Config, Handlers}.
Variable F : mem.

Definition sem (k : kstate) (s : word) : k_sem := sems k !!! s.
Definition upd_sem (s : word) (f : k_sem → k_sem) (k : kstate) : kstate :=
  set_sems (<[s := f (sem k s)]> (sems k)) k.
Definition with_count (c : Z) (s : k_sem) : k_sem := {| count := c; limit := limit s |}.

Definition k_sem_init (s : word) (initial_count lim : Z) : M Z :=
  if negb (z_user (nonnull s && negb (lim =? 0))) then ret (- EINVAL)
  else
    modify (upd_sem s (λ _, {| count := Z.min lim initial_count; limit := lim |}));;
    modify (upd_links (λ m, dlist_init m (sem_waitqueue s)));;
    ret 0.

Definition k_sem_take (s : word) (timeout : Z) : M Z :=
  if negb (z_user (nonnull s)) then ret (- EINVAL)
  else
    let* key := irq_lock in
    let* k := get in
    let* r :=
      if 0 <? count (sem k s) then
        modify (upd_sem s (with_count (u8 (count (sem k s) - 1))));;
        ret 0
      else z_pend_current_on (sem_waitqueue s) timeout in
    irq_unlock key;;
    ret r.

Definition k_sem_give (s : word) : M word :=
  if negb (z_user (nonnull s)) then ret NULL
  else
    let* key := irq_lock in
    let* thread := z_unpend_first_thread (sem_waitqueue s) in
    (when bool_decide (thread = NULL) do
       (let* k := get in
        when count (sem k s) <? limit (sem k s) do
          modify (upd_sem s (with_count (u8 (count (sem k s) + 1))))));;
    irq_unlock key;;
    ret thread.

Definition k_sem_cancel_wait (s : word) : M Z :=
  let* key := irq_lock in
  let* r := z_cancel_all_pending (sem_waitqueue s) in
  irq_unlock key;;
  ret (s8 r).

(** ** The semaphore invariant

    A unit is never kept while a thread waits for one. *)
Record sem_ok (k : kstate) (s : word) (ws : list word) : Prop := {
  sem_range : 0 <= count (sem k s) <= limit (sem k s);
  sem_limit : limit (sem k s) < 256;
  sem_waiters : ws ≠ [] → count (sem k s) = 0;
}.

Lemma sem_upd_eq s f k : sem (upd_sem s f k) s = f (sem k s).
Proof. unfold sem at 1, upd_sem. simpl. by rewrite lookup_total_insert_eq. Qed.

Lemma sem_sreg b k s : sem (set_sreg_i b k) s = sem k s.
Proof. done. Qed.

Lemma sem_keeps s k k' : keeps k k' → sem k' s = sem k s.
Proof. intros [Hk _]. unfold kobjs in Hk. unfold sem. congruence. Qed.

Lemma Inv_upd_sem s f k T rs ts Q : Inv F k T rs ts Q → Inv F (upd_sem s f k) T rs ts Q.
Proof. intros Hi. by eapply Inv_objs. Qed.

(** The calls on each branch, with everything they leave as it was. *)
Lemma k_sem_take_unit s timeout k : s ≠ NULL → 0 < count (sem k s) <= 256 →
  k_sem_take s timeout k = Done 0 (upd_sem s (with_count (count (sem k s) - 1)) k).
Proof.
  intros Hs Hc. unfold k_sem_take. rewrite z_user_true by by apply nonnull_true.
  rewrite bind_irq_lock, bind_get. change (sem (set_sreg_i false k) s) with (sem k s).
  rewrite (proj2 (Z.ltb_lt _ _)) by lia. rewrite u8_small by lia. by destruct k.
Qed.

Lemma k_sem_take_no_wait s k : s ≠ NULL → count (sem k s) <= 0 → k_sem_take s K_NO_WAIT k = Done (- EAGAIN) k.
Proof.
  intros Hs Hc. unfold k_sem_take. rewrite z_user_true by by apply nonnull_true.
  rewrite bind_irq_lock, bind_get. change (sem (set_sreg_i false k) s) with (sem k s).
  rewrite (proj2 (Z.ltb_ge _ _)) by lia. rewrite (bind_done _ _ _ _ _ (z_pend_current_on_no_wait _ _)). by destruct k.
Qed.

Lemma k_sem_take_wait s timeout k T c rs ts Q ws :
  Inv F k T (c :: rs) ts Q → current k = c → can_idle rs → s ≠ NULL →
  Q !! sem_waitqueue s = Some ws → count (sem k s) <= 0 → 0 < timeout < 65536 →
  ∃ k', suspends (k_sem_take s timeout k) k'
      (λ k2, Done (pend_result (flags (thr k2 (current k2)))) (set_sreg_i (sreg_i k) k2)) ∧
    Inv F k' T (rq_leave rs) (tmo_add timeout c ts) (<[sem_waitqueue s := ws ++ [c]]> Q) ∧
    current k' = running (rq_leave rs) ∧ sem k' s = sem k s ∧ (∀ t, t ≠ c → thr k' t = thr k t) ∧
    Z.land (flags (thr k' c)) SCHED_CLR = 0.
Proof.
  intros Hi Hc Hid Hs Hw Hn Ht. unfold k_sem_take. rewrite z_user_true by by apply nonnull_true.
  rewrite bind_irq_lock, bind_get. change (sem (set_sreg_i false k) s) with (sem k s).
  rewrite (proj2 (Z.ltb_ge _ _)) by lia.
  destruct (z_pend_current_on_spec F (sem_waitqueue s) timeout (set_sreg_i false k) T c rs ts Q ws)
    as (k'&Hsus&Hi'&Hc'&Hk&Hoth&Hfl); [by apply Inv_sreg|done|done|done|lia|].
  exists k'. split_and!; try done.
  - eapply suspends_ext; [by apply suspends_bind|]. done.
  - by rewrite (sem_keeps s _ _ Hk).
  - rewrite Hfl. apply pend_clr.
Qed.

Lemma k_sem_give_nil s k T rs ts Q :
  Inv F k T rs ts Q → s ≠ NULL → Q !! sem_waitqueue s = Some [] → sem_ok k s [] →
  ∃ k', k_sem_give s k = Done NULL k' ∧ Inv F k' T rs ts Q ∧
    sreg_i k' = sreg_i k ∧ current k' = current k ∧ (∀ t, thr k' t = thr k t) ∧
    sem k' s = {| count := Z.min (limit (sem k s)) (count (sem k s) + 1); limit := limit (sem k s) |}.
Proof.
  intros Hi Hs Hw [Hr Hlim _]. unfold k_sem_give. rewrite z_user_true by by apply nonnull_true.
  rewrite bind_irq_lock. pose proof (Inv_sreg _ false _ _ _ _ _ Hi) as Hi0.
  destruct (z_unpend_first_thread_nil _ _ _ _ _ _ _ _ Hi0 Hw) as (m'&E&Ha).
  rewrite (bind_done _ _ _ _ _ E), bool_decide_true by done.
  set (k1 := set_links m' (set_sreg_i false k)).
  assert (Hi1 : Inv F (set_sreg_i (sreg_i k) k1) T rs ts Q) by by apply Inv_sreg, Inv_set_links.
  mred. change (sem k1 s) with (sem k s).
  destruct (Z.ltb_spec (count (sem k s)) (limit (sem k s))); eexists; (split; [done|]).
  - rewrite u8_small by lia. split_and!; try done.
    + exact (Inv_upd_sem s _ _ _ _ _ _ Hi1).
    + rewrite sem_sreg, sem_upd_eq. change (sem k1 s) with (sem k s). unfold with_count. f_equal. lia.
  - split_and!; try done. change (sem (set_sreg_i (sreg_i k) k1) s) with (sem k s).
    destruct (sem k s) as [c l] eqn:E0. simpl in *. f_equal. lia.
Qed.

Lemma k_sem_give_cons s k T rs ts Q t ws :
  Inv F k T rs ts Q → s ≠ NULL → Q !! sem_waitqueue s = Some (t :: ws) →
  ∃ k', k_sem_give s k = Done t k' ∧
    Inv F k' T (rq_add rs t) (tmo_del t ts) (<[sem_waitqueue s := ws]> Q) ∧
    keeps k k' ∧ current k' = current k ∧ (∀ t', t' ≠ t → thr k' t' = thr k t') ∧
    (Z.land (flags (thr k t)) SCHED_CLR = 0 → pend_result (flags (thr k' t)) = 0).
Proof.
  intros Hi Hs Hw. unfold k_sem_give. rewrite z_user_true by by apply nonnull_true.
  rewrite bind_irq_lock. pose proof (Inv_sreg _ false _ _ _ _ _ Hi) as Hi0.
  destruct (z_unpend_first_thread_cons _ _ _ _ _ _ _ _ _ Hi0 Hw) as (k1&E&Hi1&Hk1&Hc1&Hoth&Hfl).
  rewrite (bind_done _ _ _ _ _ E), bool_decide_false.
  2:{ eapply thread_nonnull; [done|]. eapply lk_ws_T; [by apply Hi|done|by left]. }
  exists (set_sreg_i (sreg_i k) k1). split; [done|]. split_and!; try done.
  - by apply Inv_sreg.
  - destruct Hk1 as [Hk1 _]. by split.
  - intros Hz. change (thr (set_sreg_i (sreg_i k) k1) t) with (thr k1 t). rewrite Hfl. by apply pend_result_wake.
Qed.

(** C9: [k_sem_take] takes a unit when there is one; else it fails at once
    when told not to wait and queues the thread last when told to wait, and
    then returns 0, [-ETIMEDOUT] or [-ECANCELED] according to how it was
    woken; in every case the invariants hold. *)
Theorem k_sem_take_spec s timeout k T c rs ts Q ws :
  Inv F k T (c :: rs) ts Q → current k = c → can_idle rs → s ≠ NULL →
  Q !! sem_waitqueue s = Some ws → sem_ok k s ws → 0 <= timeout < 65536 →
  if 0 <? count (sem k s) then
    let k' := upd_sem s (with_count (count (sem k s) - 1)) k in
    k_sem_take s timeout k = Done 0 k' ∧ Inv F k' T (c :: rs) ts Q ∧ sem_ok k' s ws
  else if timeout =? K_NO_WAIT then k_sem_take s timeout k = Done (- EAGAIN) k
  else ∃ k',
    suspends (k_sem_take s timeout k) k'
      (λ k2, Done (pend_result (flags (thr k2 (current k2)))) (set_sreg_i (sreg_i k) k2)) ∧
    Inv F k' T (rq_leave rs) (tmo_add timeout c ts) (<[sem_waitqueue s := ws ++ [c]]> Q) ∧
    current k' = running (rq_leave rs) ∧ sem_ok k' s (ws ++ [c]) ∧
    Z.land (flags (thr k' c)) SCHED_CLR = 0.
Proof.
  intros Hi Hc Hid Hs Hw [Hr Hlim Hws] Ht. destruct (Z.ltb_spec 0 (count (sem k s))).
  - cbn zeta. split_and!; [apply k_sem_take_unit; [done|lia]|by apply Inv_upd_sem|].
    split; rewrite sem_upd_eq; simpl; [lia|done|]. intros Hne. specialize (Hws Hne). lia.
  - destruct (Z.eqb_spec timeout K_NO_WAIT) as [->|Hne]; [apply k_sem_take_no_wait; [done|lia]|].
    destruct (k_sem_take_wait s timeout k T c rs ts Q ws) as (k'&Hsus&Hi'&Hc'&Es&_&Hfl);
      [done..|unfold K_NO_WAIT in Hne; lia|].
    exists k'. split_and!; try done. split; rewrite Es; [done|done|]. intros _. lia.
Qed.

(** C10: [k_sem_give] hands the unit to the thread that has waited longest,
    which becomes ready with a wait that ends in 0, the count unchanged; with
    no waiter the count grows up to its limit; the invariants hold after. *)
Theorem k_sem_give_spec s k T rs ts Q ws :
  Inv F k T rs ts Q → s ≠ NULL → Q !! sem_waitqueue s = Some ws → sem_ok k s ws →
  match ws with
  | [] => ∃ k', k_sem_give s k = Done NULL k' ∧ Inv F k' T rs ts Q ∧ sem_ok k' s [] ∧
      sreg_i k' = sreg_i k ∧ count (sem k' s) = Z.min (limit (sem k s)) (count (sem k s) + 1)
  | t :: ws' => ∃ k', k_sem_give s k = Done t k' ∧
      Inv F k' T (rq_add rs t) (tmo_del t ts) (<[sem_waitqueue s := ws']> Q) ∧
      sem_ok k' s ws' ∧ keeps k k' ∧ current k' = current k ∧
      (Z.land (flags (thr k t)) SCHED_CLR = 0 → pend_result (flags (thr k' t)) = 0)
  end.
Proof.
  intros Hi Hs Hw Hok. pose proof Hok as [Hr Hlim Hws]. destruct ws as [|t ws].
  - destruct (k_sem_give_nil s k T rs ts Q) as (k'&E&Hi'&Hsr&_&_&Es); [done..|].
    exists k'. split_and!; try done; [|by rewrite Es]. split; rewrite Es; simpl; [lia|done|done].
  - destruct (k_sem_give_cons s k T rs ts Q t ws) as (k'&E&Hi'&Hk&Hc&_&Hf); [done..|].
    exists k'. split_and!; try done. pose proof (sem_keeps s _ _ Hk) as Es.
    split; rewrite Es; [done|done|]. intros _. by apply Hws.
Qed.
End Semaphore.

(** ** Instances *)

Definition w_sem (c : Z) (k : kstate) : kstate := upd_sem (w_obj 2) (λ _, {| count := c; limit := 3 |}) k.

Lemma w_sem_ok c k ws :
  0 <= c <= 3 → (ws ≠ [] → c = 0) → sem_ok (w_sem c k) (w_obj 2) ws.
Proof. intros. split; unfold w_sem; rewrite sem_upd_eq; done. Qed.

Lemma k_sem_take_witness :
  let k := w_sem 0 w_ready in
  (0 <? count (sem k (w_obj 2))) = false ∧
  ∃ k', suspends (k_sem_take (w_obj 2) 5 k) k'
    (λ k2, Done (pend_result (flags (thr k2 (current k2)))) (set_sreg_i true k2)) ∧
    current k' = t2 ∧ sem_ok k' (w_obj 2) [t1].
Proof.
  split; [reflexivity|].
  destruct (k_sem_take_spec w_F (w_obj 2) 5 (w_sem 0 w_ready) w_T t1 [t3; t2] [] w_Q [])
    as (k'&Hs&_&Hc&Ho&_).
  - apply Inv_upd_sem, w_ready_inv.
  - reflexivity.
  - by left.
  - done.
  - by apply w_Q_heads; vm_compute; set_solver.
  - by apply w_sem_ok.
  - lia.
  - exists k'. split_and!; done.
Defined.

Lemma k_sem_give_witness :
  let k := w_sem 0 (w_wait2 (sem_waitqueue (w_obj 2))) in
  ∃ k', k_sem_give (w_obj 2) k = Done t1 k' ∧ sem_ok k' (w_obj 2) [t2] ∧
    pend_result (flags (thr k' t1)) = 0.
Proof.
  assert (Hh : sem_waitqueue (w_obj 2) ∈ w_heads) by (vm_compute; set_solver).
  destruct (w_wait2_inv _ Hh) as (Hi&_&_&Hf). cbn zeta. revert Hi Hf.
  generalize (w_wait2 (sem_waitqueue (w_obj 2))). intros k Hi Hf.
  destruct (k_sem_give_spec w_F (w_obj 2) (w_sem 0 k) w_T [t3]
    [(t2, 3); (t1, 2)] (<[sem_waitqueue (w_obj 2) := [t1; t2]]> w_Q) [t1; t2])
    as (k'&E&_&Ho&_&_&Hres).
  - by apply Inv_upd_sem.
  - done.
  - apply lookup_insert_eq.
  - by apply w_sem_ok.
  - exists k'. auto.
Defined.
