(* ===== verification/Sched.v ===== *)
(** * Properties of the scheduler (kernel.c)

    Rotation of the ready threads, expiry of the waits, termination of a
    thread, locking of the scheduler; the first section holds the lemmas the
    theorems apply. *)

From S2P Require Import Prelude Dlist Delta Tqueue Types Event Timer Kernel KernelInv KernelSpec World Semaphore.

(** The state in which a call leaves the machine to the next thread, or ends. *)
Definition after {A} (k : kstate) (r : res A) : kstate :=
  match r with Done _ k' => k' | Susp k' _ => k' | _ => k end.

Section Sched.
Context `{Layout, Config, Handlers}.
Variable F : mem.

(** The machine after [n] yields. *)
Definition yields (n : nat) (k : kstate) : kstate := Nat.iter n (λ k, after k (z_yield k)) k.

Lemma after_z_yield k T c rs ts Q :
  Inv F k T (c :: rs) ts Q → current k = c →
  let k' := after k (z_yield k) in
  Inv F k' T (rotate (c :: rs)) ts Q ∧ current k' = running (rotate (c :: rs)).
Proof.
  intros Hi Hc. destruct (z_yield_spec F k T c rs ts Q Hi Hc) as (Hi'&Hc'&_&_&E).
  cbn zeta. rewrite E. by case_decide.
Qed.

Lemma yields_rotate n k T rs ts Q :
  rs ≠ [] → Inv F k T rs ts Q → current k = running rs →
  Inv F (yields n k) T (Nat.iter n rotate rs) ts Q ∧
  current (yields n k) = running (Nat.iter n rotate rs).
Proof.
  intros Hne Hi Hc. induction n as [|n [IH1 IH2]]; [done|].
  unfold yields in *. rewrite !Nat.iter_succ.
  assert (length (Nat.iter n rotate rs) = length rs) as Hlen.
  { clear. induction n as [|n IH]; [done|]. by rewrite Nat.iter_succ, rotate_length. }
  destruct (Nat.iter n rotate rs) as [|c rs'] eqn:E.
  - destruct rs; done.
  - by apply after_z_yield.
Qed.

Lemma rotate_iter l1 l2 : Nat.iter (length l1) rotate (l1 ++ l2) = l2 ++ l1.
Proof.
  revert l2. induction l1 as [|x l1 IH]; intros l2; [by rewrite app_nil_r|].
  cbn [length]. rewrite Nat.iter_succ_r. simpl. rewrite <- app_assoc, IH. by rewrite <- app_assoc.
Qed.

(** ** Threads that end *)

Lemma z_wake_joiners_unpend fuel l k cnt n k' :
  z_unpend_all_loop (λ c, c) fuel l cnt k = Done n k' → z_wake_joiners fuel l k = Done tt k'.
Proof.
  revert k cnt. induction fuel as [|fuel IH]; intros k cnt; [done|].
  cbn [z_wake_joiners z_unpend_all_loop]. unfold bind.
  destruct (z_unpend_first_thread l k) as [w k1|k1 c| |]; simpl; [|done..].
  case_decide; [|by apply IH]. by intros [= _ ->].
Qed.

Lemma z_wake_joiners_spec l js k T rs ts Q :
  Inv F k T rs ts Q → Q !! l = Some js →
  ∃ k', z_wake_joiners loop_fuel l k = Done tt k' ∧
    Inv F k' T (foldl rq_add rs js) (timeouts_del js ts) (<[l := []]> Q) ∧
    keeps k k' ∧ current k' = current k ∧
    (∀ t, t ∉ js → thr k' t = thr k t) ∧
    (∀ t, t ∈ js → flags (thr k' t) = wake_flags (flags (thr k t))).
Proof.
  intros Hi Hw. pose proof (wq_length _ _ _ _ _ _ _ _ Hi Hw). pose proof (inv_fuel _ _ _ _ _ _ _ Hi).
  destruct (z_unpend_all_loop_spec F (λ c, c) js loop_fuel 0 l k T rs ts Q) as (k'&n&E&_&?);
    [done|done|lia|].
  exists k'. split; [|done]. by eapply z_wake_joiners_unpend.
Qed.

(** The running thread leaves the run queue for good: the part of
    [k_thread_abort] before the waiters of the join are woken up. *)
Lemma z_suspend_stop k T c rs ts Q :
  Inv F k T (c :: rs) ts Q → current k = c → can_idle rs →
  ∃ k', (z_suspend c;; modify (z_set_thread_state c Z_THREAD_STATE_STOPPED)) k = Done tt k' ∧
    Inv F k' T (rq_leave rs) ts Q ∧ keeps k k' ∧ current k' = c ∧
    z_get_thread_state k' c = Z_THREAD_STATE_STOPPED ∧ (∀ t, t ≠ c → thr k' t = thr k t).
Proof.
  intros Hi Hc Hid. pose proof (inv_links _ _ _ _ _ _ _ Hi) as Hl.
  destruct (links_rest_T _ _ _ _ _ _ _ _ Hl) as (HcT&Hcrs&Hcts).
  assert (Hu : unqueued Q c) by (eapply inv_ready_unqueued; [done|by left]).
  destruct (inv_flags _ _ _ _ _ _ _ Hi c) as (Hr&Hwk&_); [done..|].
  assert (Hlen : (length (c :: rs) < 256)%nat).
  { pose proof (inv_size _ _ _ _ _ _ _ Hi). assert (length (c :: rs) ≤ size T)%nat; [|lia].
    rewrite <- (size_list_to_set (C:=gset word) (c :: rs)) by by eapply lk_run_nd.
    apply subseteq_size. intros t Hin%elem_of_list_to_set. by eapply lk_rs_T. }
  destruct (z_suspend_running F k T c rs ts Q) as (k1&E1&Hl1&Hn1&Hth1&Hc1&Hk1&_);
    [done|done|apply Hi|done|apply Hr; by left|done|].
  assert (Hfl : flags (thr (z_set_thread_state c Z_THREAD_STATE_STOPPED k1) c)
                = Z.lor (Z.land (flags (thr k c)) (Z.lnot Z_THREAD_STATE_MSK)) 0).
  { unfold z_set_thread_state, set_flags. rewrite thr_upd_eq. unfold thr. by rewrite Hth1. }
  assert (Hst : z_get_thread_state (z_set_thread_state c Z_THREAD_STATE_STOPPED k1) c
                = Z_THREAD_STATE_STOPPED).
  { unfold z_get_thread_state. rewrite Hfl. by apply land_set_field. }
  assert (Hoth : ∀ t, t ≠ c →
    thr (z_set_thread_state c Z_THREAD_STATE_STOPPED k1) t = thr k t).
  { intros t Hne. unfold z_set_thread_state, set_flags. rewrite thr_upd_ne by done.
    unfold thr. by rewrite Hth1. }
  eexists. split; [by rewrite (bind_done _ _ _ _ _ E1)|]. split_and!; try done.
  apply (Inv_close F c).
  - eapply InvX_step; [by eapply Inv_open|done|exact Hl1| |done| | |done|auto].
    + by rewrite rq_leave_length.
    + intros t Hne. by rewrite Hoth.
    + intros t Hne. rewrite rq_leave_elem. set_solver.
  - unfold thread_ok, fl_ok. unfold z_get_thread_state in Hst. rewrite Hst. split_and!.
    + rewrite rq_leave_elem. split; [done|discriminate].
    + rewrite Hfl, land_lor_skip, land_clr_skip by done. apply Hwk.
    + intros [?|(l&ws&Hw&Hin)]; [done|]. by destruct (Hu l ws Hw).
Qed.

Lemma rotate_all rs : Nat.iter (length rs) rotate rs = rs.
Proof. rewrite <- (app_nil_r rs) at 2. by rewrite rotate_iter. Qed.

Lemma rotate_lookup rs i t : rs !! i = Some t → running (Nat.iter i rotate rs) = t.
Proof.
  intros Ht. pose proof (rotate_iter (take i rs) (t :: drop (S i) rs)) as E.
  apply lookup_lt_Some in Ht as Hlt.
  rewrite take_drop_middle, length_take, Nat.min_l in E by (done || lia). by rewrite E.
Qed.

(** A suspended or terminated thread's call of [k_thread_abort] after the
    suspension. *)
Lemma z_cancel_stop k T rs ts Q l ws t :
  Inv F k T rs ts Q → Q !! l = Some ws → t ∈ ws →
  ∃ k', (z_suspend t;; modify (z_set_thread_state t Z_THREAD_STATE_STOPPED)) k = Done tt k' ∧
    InvX F (Some t) k' T rs (tmo_del t ts) Q ∧ keeps k k' ∧ current k' = current k ∧
    z_get_thread_state k' t = Z_THREAD_STATE_STOPPED ∧ (∀ t', t' ≠ t → thr k' t' = thr k t') ∧
    Z.land (flags (thr k' t)) Z_THREAD_WAKEUP_SCHED_MSK = 0.
Proof.
  intros Hi Hw Ht. pose proof (inv_links _ _ _ _ _ _ _ Hi) as Hl.
  assert (HtT : t ∈ T) by by eapply lk_ws_T.
  destruct (inv_flags _ _ _ _ _ _ _ Hi t) as (Hr&Hwk&Hp); [done..|].
  assert (Hst : z_get_thread_state k t = Z_THREAD_STATE_PENDING) by (apply Hp; eauto).
  destruct (z_cancel_scheduled_wake_up_spec F t k T rs ts Q Hl) as (k1&E1&Hl1&Hn1&Hc1&Hk1&Hoth1&Hfl1);
    [apply Hi|done|].
  set (k2 := z_set_thread_state t Z_THREAD_STATE_STOPPED k1).
  assert (Hfl : flags (thr k2 t) = Z.lor (Z.land (flags (thr k1 t)) (Z.lnot Z_THREAD_STATE_MSK)) 0).
  { unfold k2, z_set_thread_state, set_flags. by rewrite thr_upd_eq. }
  assert (Hoth : ∀ t', t' ≠ t → thr k2 t' = thr k t').
  { intros t' Hne. unfold k2, z_set_thread_state, set_flags. rewrite thr_upd_ne by done. by apply Hoth1. }
  exists k2. split_and!; try done.
  - unfold z_suspend. unfold bind at 1 2, get. cbn [rbind]. rewrite Hst, Z.eqb_refl.
    by rewrite E1.
  - eapply InvX_step; [by eapply Inv_open|done|exact Hl1| |done| |done| |auto].
    + change (ready_count k1 = Z.of_nat (length rs)). rewrite Hn1. by apply Hi.
    + intros t' Hne. by rewrite Hoth.
    + intros t' Hne. by apply tmo_del_elem.
  - unfold z_get_thread_state. rewrite Hfl. by apply land_set_field.
  - rewrite Hfl, land_lor_skip, land_clr_skip, Hfl1 by done. by apply land_clr_hit.
Qed.

(** ** Locking the scheduler *)

Fixpoint repeat_M (n : nat) (m : M unit) : M unit :=
  match n with O => ret tt | S n => m;; repeat_M n m end.

(** The running thread [c] holds [n] locks, [b] tells that the flag is set. *)
Definition sched_locks (k : kstate) (c : word) (n : Z) (b : bool) : Prop :=
  current k = c ∧ sched_lock_cnt (thr k c) = n ∧
  test_flags k c Z_THREAD_SCHED_LOCKED_MSK = b.

(** The other flags of the thread, here its priority class. *)
Definition coop (k : kstate) (c : word) : bool := test_flags k c Z_THREAD_PRIO_COOP.

Lemma k_sched_lock_step k c n b :
  CONFIG_KERNEL_REENTRANCY = true → sched_locks k c n b →
  ∃ k', k_sched_lock k = Done tt k' ∧ sched_locks k' c (u8 (n + 1)) true ∧ coop k' c = coop k c.
Proof.
  intros Hc (<-&Hn&Hf). unfold k_sched_lock. rewrite Hc. mred. eexists. split; [done|].
  unfold sched_locks, coop, test_flags, set_lock_cnt, or_flags, set_flags.
  cbn [current upd_thread set_threads set_sreg_i]. rewrite !thr_upd_eq.
  unfold thr, upd_thread. cbn [threads set_threads set_sreg_i current]. fold (thr k (current k)).
  rewrite !lookup_total_insert_eq. cbn [flags sched_lock_cnt with_sched_lock_cnt with_flags].
  change (thr (set_sreg_i false k)) with (thr k). rewrite Hn, land_lor_hit, land_lor_skip by done.
  done.
Qed.

Lemma k_sched_unlock_step k c n :
  CONFIG_KERNEL_REENTRANCY = true → sched_locks k c n true → 0 < n < 256 →
  ∃ k', k_sched_unlock k = Done tt k' ∧ sched_locks k' c (n - 1) (bool_decide (1 < n)) ∧
    coop k' c = coop k c.
Proof.
  intros Hc (<-&Hn&Hf) Hr. unfold k_sched_unlock. rewrite Hc, bind_get. cbn zeta. rewrite Hn.
  rewrite (proj2 (Z.eqb_neq n 0)) by lia. destruct (Z.eqb_spec n 1) as [->|Hn1].
  - unfold k_sched_unlock_flag. mred. eexists. split; [done|].
    unfold sched_locks, coop, test_flags, set_lock_cnt, clr_flags, set_flags.
    cbn [current upd_thread set_threads set_sreg_i].
    unfold thr, upd_thread. cbn [threads set_threads set_sreg_i current].
    rewrite !lookup_total_insert_eq. cbn [flags sched_lock_cnt with_sched_lock_cnt with_flags].
    unfold thr. cbn [threads set_threads set_sreg_i current]. rewrite !lookup_total_insert_eq.
    cbn [flags sched_lock_cnt with_sched_lock_cnt with_flags].
    rewrite land_clr_hit, land_clr_skip by done. done.
  - eexists. split; [done|].
    unfold sched_locks, coop, test_flags, set_lock_cnt. rewrite !thr_upd_eq.
    cbn [flags sched_lock_cnt with_sched_lock_cnt]. rewrite u8_small, bool_decide_true by lia. done.
Qed.

Lemma k_sched_unlock_zero k c b :
  CONFIG_KERNEL_REENTRANCY = true → sched_locks k c 0 b → k_sched_unlock k = Done tt k.
Proof.
  intros Hc (<-&Hn&Hf). unfold k_sched_unlock. rewrite Hc, bind_get. cbn zeta. by rewrite Hn.
Qed.

Lemma repeat_lock i k c n b :
  CONFIG_KERNEL_REENTRANCY = true → sched_locks k c n b → 0 <= n < 256 →
  ∃ k', repeat_M i k_sched_lock k = Done tt k' ∧
    sched_locks k' c (u8 (n + Z.of_nat i)) (bool_decide (i ≠ 0%nat) || b) ∧ coop k' c = coop k c.
Proof.
  intros Hc. revert k n b. induction i as [|i IH]; intros k n b Hl Hr.
  - exists k. rewrite Z.add_0_r, u8_small by done. done.
  - destruct (k_sched_lock_step k c n b) as (k1&E1&Hl1&Hp1); [done..|].
    destruct (IH k1 (u8 (n + 1)) true Hl1) as (k2&E2&Hl2&Hp2); [apply u8_range|].
    exists k2. cbn [repeat_M]. rewrite (bind_done _ _ _ _ _ E1). split_and!; [done| |congruence].
    rewrite orb_true_r in Hl2. rewrite bool_decide_true by done.
    replace (u8 (n + Z.of_nat (S i))) with (u8 (u8 (n + 1) + Z.of_nat i)); [done|].
    unfold u8. rewrite Zplus_mod_idemp_l. f_equal. lia.
Qed.

Lemma repeat_unlock i k c n :
  CONFIG_KERNEL_REENTRANCY = true → sched_locks k c n (bool_decide (0 < n)) →
  Z.of_nat i <= n < 256 →
  ∃ k', repeat_M i k_sched_unlock k = Done tt k' ∧
    sched_locks k' c (n - Z.of_nat i) (bool_decide (Z.of_nat i < n)) ∧ coop k' c = coop k c.
Proof.
  intros Hc. revert k n. induction i as [|i IH]; intros k n Hl Hr.
  - exists k. rewrite Z.sub_0_r. done.
  - rewrite bool_decide_true in Hl by lia.
    destruct (k_sched_unlock_step k c n) as (k1&E1&Hl1&Hp1); [done|done|lia|].
    destruct (IH k1 (n - 1)) as (k2&E2&Hl2&Hp2); [|lia|].
    { by rewrite (bool_decide_ext (0 < n - 1) (1 < n)) by lia. }
    exists k2. cbn [repeat_M]. rewrite (bind_done _ _ _ _ _ E1). split_and!; [done| |congruence].
    replace (n - Z.of_nat (S i)) with (n - 1 - Z.of_nat i) by lia.
    by rewrite (bool_decide_ext (Z.of_nat (S i) < n) (Z.of_nat i < n - 1)) by lia.
Qed.

Lemma sched_locked_flags k c n b :
  sched_locks k c n b → sched_locked k = coop k c || b.
Proof.
  intros (<-&_&Hb). unfold sched_locked, coop. rewrite <- Hb. unfold test_flags.
  rewrite Z.land_lor_distr_r. rewrite <- negb_andb. f_equal.
  destruct (Z.eqb_spec (Z.land (flags (thr k (current k))) Z_THREAD_PRIO_COOP) 0) as [->|E1]; [done|].
  simpl. apply Z.eqb_neq. intros [E _]%Z.lor_eq_0_iff. done.
Qed.

Lemma bind_seq {A} (m n : M unit) (g : unit → M A) k k' :
  bind m (λ _, n) k = Done tt k' → bind m (λ _, bind n g) k = g tt k'.
Proof. unfold bind. destruct (m k); simpl; intros E; [by rewrite E|discriminate..]. Qed.

(** A thread that is not ready any more leaves the CPU to the first of the run
    queue. *)
Lemma z_yield_leave k T rs ts Q c :
  Inv F k T rs ts Q → current k = c → c ∉ rs → c ∈ T →
  ∃ k', z_yield k = Susp k' (λ k2, Done tt (set_sreg_i (sreg_i k) k2)) ∧
    Inv F k' T rs ts Q ∧ current k' = running rs ∧
    z_get_thread_state k' c = z_get_thread_state k c ∧ (∀ t, t ≠ c → thr k' t = thr k t).
Proof.
  intros Hi Hc Hrs HcT. pose proof (inv_links _ _ _ _ _ _ _ Hi) as Hl.
  destruct (inv_flags _ _ _ _ _ _ _ Hi c) as (Hr&Hwk&Hp); [done..|].
  assert (Hst : z_get_thread_state k (current k) ≠ Z_THREAD_STATE_READY).
  { rewrite Hc. intros E. apply Hrs, Hr, E. }
  destruct (z_scheduler_links F k T rs ts Q Hl) as (P1&P2&P3&P4&P5&P6&P7&P8); [done|].
  rewrite (proj2 (Z.eqb_neq _ _) Hst) in P4, P5. rewrite Hc in *.
  exists (z_scheduler k).2. split_and!; try done.
  - unfold z_yield. destruct (z_scheduler k) as [p k1]. simpl in *. subst p.
    destruct P6 as [_ ->]. rewrite P5, decide_False; [done|].
    unfold running. destruct rs as [|r rs]; simpl.
    + intros ->. by eapply mm_idle; [eapply lk_map|].
    + intros ->. apply Hrs. by left.
  - apply (Inv_close F c).
    + eapply InvX_step; [by eapply Inv_open|done|exact P4|by rewrite P3; apply Hi|done| |done|done|auto].
      intros t Hne. by rewrite P7.
    + unfold thread_ok. rewrite P8. apply sched_clr_ok. by apply Hi.
  - unfold z_get_thread_state. rewrite P8. by apply land_clr_skip.
Qed.

Lemma foldl_rq_add_elem rs ws t : t ∈ foldl rq_add rs ws ↔ t ∈ ws ∨ t ∈ rs.
Proof.
  revert rs. induction ws as [|w ws IH]; intros rs; simpl; [set_solver|].
  rewrite IH, rq_add_elem. set_solver.
Qed.

Lemma tmo_del_notin t ts : t ∉ ts.*1 → tmo_del t ts = ts.
Proof. intros Ht. unfold tmo_del. by rewrite (proj2 (delta_remove_None t ts)). Qed.

(** ** Theorems *)

(** C8: round robin: when the ready threads yield in turn they run in the order of
    the run queue, each once in a round of as many turns as there are ready
    threads, and a round leaves the queue as it was. *)
Theorem round_robin k T rs ts Q i t :
  Inv F k T rs ts Q → current k = running rs → rs !! i = Some t →
  current (yields i k) = t ∧
  Inv F (yields (length rs) k) T rs ts Q ∧ current (yields (length rs) k) = current k.
Proof.
  intros Hi Hc Ht. assert (Hne : rs ≠ []) by by destruct rs.
  destruct (yields_rotate (length rs) k T rs ts Q Hne Hi Hc) as [Hi1 Hc1].
  destruct (yields_rotate i k T rs ts Q Hne Hi Hc) as [_ Hcur].
  rewrite rotate_all in Hi1, Hc1. split_and!; [|done|congruence].
  rewrite Hcur. by apply rotate_lookup.
Qed.

(** C7: the system tick makes ready exactly the threads whose wake-up time, on an
    absolute clock, has come, in the order of these times; their waits end
    with [-ETIMEDOUT], they leave the wait queues, and no other wait is
    affected or delayed; then timers and events are processed. *)
Theorem tick_wakes now k T rs ts Q :
  Inv F k T rs ts Q → 0 <= Z_KERNEL_TIME_SLICE_TICKS < 65536 →
  let now' := now + Z_KERNEL_TIME_SLICE_TICKS in
  let due := (filter (λ p, p.2 <= now') (expiries now ts)).*1 in
  ∃ k' ts', z_sched_enter k
      = ((when CONFIG_KERNEL_TIMERS do z_timers_process);;
         (when CONFIG_KERNEL_EVENTS do z_event_q_process)) k' ∧
    Inv F k' T (foldl rq_add rs due) ts' (wq_dels due Q) ∧
    expiries now' ts' = filter (λ p, now' < p.2) (expiries now ts) ∧
    current k' = current k ∧ (∀ t, t ∉ due → thr k' t = thr k t) ∧
    (∀ t, t ∈ due → pend_result (flags (thr k' t)) = - ETIMEDOUT).
Proof.
  intros Hi Hs now' due.
  destruct (z_sched_enter_wakes F now k T rs ts Q Hi Hs) as (k'&ts'&E&Hi'&He&_&Hc&Ho&Hfl).
  exists k', ts'. split_and!; try done. intros t Ht. rewrite Hfl by done. apply pend_result_expire.
Qed.

(** A thread that terminates itself gives the CPU away, is in no queue any
    more, and every thread that was joining it is ready again with a join
    that returns 0. *)
Theorem k_thread_abort_self k T c rs ts Q js :
  Inv F k T (c :: rs) ts Q → current k = c → can_idle rs → CONFIG_THREAD_JOIN = true →
  Q !! thread_join c = Some js →
  ∃ k', suspends (k_thread_abort c k) k' (λ k2, Done 0 (set_sreg_i (sreg_i k) k2)) ∧
    Inv F k' T (foldl rq_add (rq_leave rs) js) (timeouts_del js ts) (<[thread_join c := []]> Q) ∧
    current k' = running (foldl rq_add (rq_leave rs) js) ∧
    z_get_thread_state k' c = Z_THREAD_STATE_STOPPED ∧
    (∀ t, t ∈ js → Z.land (flags (thr k t)) SCHED_CLR = 0 → pend_result (flags (thr k' t)) = 0).
Proof.
  intros Hi Hc Hid HJ Hw. pose proof (inv_links _ _ _ _ _ _ _ Hi) as Hl.
  destruct (links_rest_T _ _ _ _ _ _ _ _ Hl) as (HcT&Hcrs&_).
  assert (Hst : z_get_thread_state k c = Z_THREAD_STATE_READY).
  { destruct (inv_flags _ _ _ _ _ _ _ Hi c) as (Hr&_); [done..|]. apply Hr. by left. }
  assert (Hcj : c ∉ js) by (intros Hin; eapply inv_ready_unqueued; [exact Hi|by left|done|done]).
  destruct (z_suspend_stop (set_sreg_i false k) T c rs ts Q) as (k1&E1&Hi1&Hk1&Hc1&Hs1&Ho1);
    [by apply Inv_sreg|done..|].
  destruct (z_wake_joiners_spec _ _ _ _ _ _ _ Hi1 Hw) as (k2&E2&Hi2&Hk2&Hc2&Ho2&Hf2).
  assert (Hs2 : z_get_thread_state k2 c = Z_THREAD_STATE_STOPPED).
  { unfold z_get_thread_state. rewrite Ho2 by done. exact Hs1. }
  rewrite Hc1 in Hc2.
  destruct (z_yield_leave k2 _ _ _ _ c Hi2 Hc2) as (k3&E3&Hi3&Hc3&Hs3&Ho3); [|done|].
  { rewrite foldl_rq_add_elem, rq_leave_elem. naive_solver. }
  exists k3. split_and!; try done.
  - unfold k_thread_abort. rewrite bind_get, Hst. cbn [Z.eqb Z_THREAD_STATE_READY Z_THREAD_STATE_STOPPED].
    rewrite bind_irq_lock, (bind_seq _ _ _ _ _ E1), HJ, (bind_done _ _ _ _ _ E2), bind_get.
    rewrite bool_decide_true by done. eapply suspends_ext; [apply suspends_bind; rewrite E3; apply suspends_intro|].
    done.
  - by rewrite Hs3.
  - intros t Ht Hz. assert (t ≠ c) by by intros ->.
    rewrite Ho3, Hf2, Ho1 by done. by apply pend_result_wake.
Qed.

(** A thread aborted while it pends stays in the wait queue: [k_thread_abort]
    reports success and the thread is stopped, yet the next release of the
    object wakes the stopped thread up and makes it ready again. *)
Theorem k_thread_abort_pending l t ws k T rs ts Q :
  Inv F k T rs ts Q → current k = running rs → CONFIG_THREAD_JOIN = true →
  Q !! l = Some (t :: ws) → l ≠ thread_join t → Q !! thread_join t = Some [] →
  ∃ k1 k2, k_thread_abort t k = Done 0 k1 ∧
    z_get_thread_state k1 t = Z_THREAD_STATE_STOPPED ∧
    z_unpend_first_thread l k1 = Done t k2 ∧
    Inv F k2 T (rq_add rs t) (tmo_del t ts) (<[l := ws]> Q) ∧
    z_get_thread_state k2 t = Z_THREAD_STATE_READY.
Proof.
  intros Hi Hc HJ Hw Hne Hwj. pose proof (inv_links _ _ _ _ _ _ _ Hi) as Hl.
  assert (HtT : t ∈ T) by (eapply (lk_ws_T _ _ _ _ _ _ _ Hl l); [done|by left]).
  destruct (inv_flags _ _ _ _ _ _ _ Hi t) as (Hr&_&Hp); [done..|].
  assert (Hst : z_get_thread_state k t = Z_THREAD_STATE_PENDING).
  { apply Hp. right. exists l, (t :: ws). split; [done|by left]. }
  assert (Hrs : t ∉ rs) by (intros Hin%Hr; unfold z_get_thread_state in Hst; by rewrite Hst in Hin).
  assert (Hcur : t ≠ current k).
  { rewrite Hc. unfold running. destruct rs as [|r rs]; simpl; [|set_solver].
    intros ->. by eapply mm_idle; [eapply lk_map|]. }
  destruct (z_cancel_stop (set_sreg_i false k) T rs ts Q l (t :: ws) t)
    as (k1&E1&Hi1&Hk1&Hc1&Hs1&Ho1&Hf1); [by apply Inv_sreg|done|by left|].
  destruct (z_unpend_first_thread_nil F (Some t) _ _ _ _ _ _ Hi1 Hwj) as (m2&E2&Ha2).
  set (k2 := set_sreg_i (sreg_i k) (set_links m2 k1)).
  assert (Hi2 : InvX F (Some t) k2 T rs (tmo_del t ts) Q).
  { pose proof (Inv_set_links F _ _ _ _ _ _ _ Hi1 Ha2) as [].
    by split. }
  assert (Htd : t ∉ (tmo_del t ts).*1) by (apply tmo_del_not_elem; by eapply links_length_ts).
  destruct (z_unpend_first_thread_any F l k2 T rs (tmo_del t ts) Q t ws)
    as (k3&E3&Hi3&Hk3&Hc3&Ho3&Hf3); [done|done|done| |].
  { split; [done|]. intros E. by destruct (E Hf1). }
  exists k2, k3. split_and!; try done.
  - unfold k_thread_abort. rewrite bind_get, Hst. cbn [Z.eqb Z_THREAD_STATE_PENDING Z_THREAD_STATE_STOPPED].
    rewrite bind_irq_lock, (bind_seq _ _ _ _ _ E1), HJ.
    assert (E : z_wake_joiners loop_fuel (thread_join t) k1 = Done tt (set_links m2 k1)).
    { pose proof (inv_fuel _ _ _ _ _ _ _ Hi). destruct loop_fuel as [|f]; [lia|].
      cbn [z_wake_joiners]. by rewrite (bind_done _ _ _ _ _ E2). }
    rewrite (bind_done _ _ _ _ _ E), bind_get.
    rewrite bool_decide_false; [done|]. change (current (set_links m2 k1)) with (current k1).
    by rewrite Hc1.
  - by rewrite (tmo_del_notin t (tmo_del t ts)) in Hi3.
  - destruct (inv_flags _ _ _ _ _ _ _ Hi3 t) as (Hr3&_); [done..|].
    apply Hr3. rewrite rq_add_elem. by left.
Qed.

(** Scheduler locks nest: after [i] locks and [j] unlocks, with [i] at most
    255, the thread is preempted exactly when it is preemptive and has
    released every lock. *)
Theorem sched_lock_nesting i j k c :
  CONFIG_KERNEL_REENTRANCY = true → sched_locks k c 0 false → (j ≤ i < 256)%nat →
  ∃ k', (repeat_M i k_sched_lock;; repeat_M j k_sched_unlock) k = Done tt k' ∧
    sched_locks k' c (Z.of_nat i - Z.of_nat j) (bool_decide (j < i)%nat) ∧
    sched_locked k' = coop k c || bool_decide (j < i)%nat ∧
    ((j < i)%nat → k_yield_from_isr k' = Done tt k').
Proof.
  intros Hc Hl Hij. destruct (repeat_lock i k c 0 false) as (k1&E1&Hl1&Hp1); [done..|].
  rewrite orb_false_r, u8_small, Z.add_0_l in Hl1 by lia.
  rewrite (bool_decide_ext (i ≠ 0%nat) (0 < Z.of_nat i)) in Hl1 by lia.
  destruct (repeat_unlock j k1 c (Z.of_nat i)) as (k2&E2&Hl2&Hp2); [done|done|lia|].
  rewrite (bool_decide_ext (Z.of_nat j < Z.of_nat i) (j < i)%nat) in Hl2 by lia.
  pose proof (sched_locked_flags _ _ _ _ Hl2) as Hs. rewrite Hp2, Hp1 in Hs.
  exists k2. rewrite (bind_done _ _ _ _ _ E1). split_and!; try done.
  intros Hlt. unfold k_yield_from_isr. rewrite bind_get, Hs, bool_decide_true by done.
  by rewrite orb_true_r.
Qed.

(** The nesting counter is 8 bits wide: after 256 nested locks it is 0 again
    while the scheduler is locked, and no number of unlocks ever unlocks it. *)
Theorem sched_lock_overflow j k c :
  CONFIG_KERNEL_REENTRANCY = true → sched_locks k c 0 false →
  ∃ k', (repeat_M 256 k_sched_lock;; repeat_M j k_sched_unlock) k = Done tt k' ∧
    sched_locks k' c 0 true ∧ sched_locked k' = true.
Proof.
  intros Hc Hl. destruct (repeat_lock 256 k c 0 false) as (k1&E1&Hl1&Hp1); [done..|].
  exists k1. rewrite (bind_done _ _ _ _ _ E1). split_and!; [|done|].
  - induction j as [|j IH]; [done|]. cbn [repeat_M].
    by rewrite (bind_done _ _ _ _ _ (k_sched_unlock_zero _ _ _ Hc Hl1)).
  - rewrite (sched_locked_flags _ _ _ _ Hl1). apply orb_true_r.
Qed.
End Sched.

(** ** A wait node that is unlinked twice

    [t1], then [t2], wait on a semaphore; the wait of [t1] times out, [t1]
    sleeps, [t3] gives a unit to [t2] and waits in its turn; then the sleep of
    [t1] expires. *)
Definition w_stale : kstate :=
  let step {A} (k : kstate) (m : M A) := after k (m k) in
  let s := w_obj 2 in
  let k := upd_sem s (λ _, {| count := 0; limit := 3 |}) w_ready in
  let k := step k (k_sem_take s 1) in
  let k := step k (k_sem_take s K_FOREVER) in
  let k := step k systick_isr in
  let k := step k (k_sleep 1) in
  let k := step k (k_sem_give s) in
  step k (k_sem_take s K_FOREVER).

(** The expiry of a sleep unlinks the wait node of the thread again although
    the thread pends nowhere: the stale links of an earlier wait that timed
    out put a running thread back at the head of the semaphore's wait queue,
    and the next unit goes to it while the thread that waits is lost. *)
Theorem stale_wait_node :
  let s := w_obj 2 in
  let k := after w_stale (z_sched_enter w_stale) in
  current w_stale = t2 ∧ next (links w_stale) (sem_waitqueue s) = thread_wqh t3 ∧
  current k = t2 ∧ next (links k) (sem_waitqueue s) = thread_wqh t2 ∧
  ∃ k', k_sem_give s k = Done t2 k' ∧ z_get_thread_state k' t3 = Z_THREAD_STATE_PENDING.
Proof. vm_compute. split_and!; try done. by eexists. Qed.

(** ** Instances *)

Lemma round_robin_witness :
  current (yields 2 w_ready) = t2 ∧ Inv w_F (yields 3 w_ready) w_T [t1; t3; t2] [] w_Q.
Proof.
  pose proof w_ready_inv as Hi. assert (Hc : current w_ready = t1) by reflexivity.
  revert Hi Hc. generalize w_ready. intros k Hi Hc.
  by destruct (round_robin w_F k w_T [t1; t3; t2] [] w_Q 2 t2) as (?&?&_).
Defined.

(** [t2] waits 3 ticks from now on, [t1] 2 more after it: at time 100 they are due
    at 103 and 105, so that no wait ends at 101. *)
Lemma tick_wakes_witness :
  let h := sem_waitqueue (w_obj 2) in
  ∃ k' ts', z_sched_enter (w_wait2 h)
      = ((when CONFIG_KERNEL_TIMERS do z_timers_process);;
         (when CONFIG_KERNEL_EVENTS do z_event_q_process)) k' ∧
    expiries 101 ts' = [(t2, 103); (t1, 105)] ∧ current k' = t3.
Proof.
  assert (Hh : sem_waitqueue (w_obj 2) ∈ w_heads) by (vm_compute; set_solver).
  destruct (w_wait2_inv _ Hh) as (Hi&Hc&_). cbn zeta. revert Hi Hc.
  generalize (w_wait2 (sem_waitqueue (w_obj 2))). intros k Hi Hc.
  destruct (tick_wakes w_F 100 k w_T [t3] [(t2, 3); (t1, 2)] _ Hi) as (k'&ts'&E&_&He&Hc'&_);
    [by vm_compute|].
  exists k', ts'. split; [exact E|]. split; [|by rewrite Hc'].
  exact He.
Defined.

(** [t1] and [t2] join [t3], which ends. *)
Lemma k_thread_abort_self_witness :
  let k := w_wait2 (thread_join t3) in
  ∃ k', suspends (k_thread_abort t3 k) k' (λ k2, Done 0 (set_sreg_i true k2)) ∧
    current k' = t1 ∧ z_get_thread_state k' t3 = Z_THREAD_STATE_STOPPED ∧
    pend_result (flags (thr k' t1)) = 0.
Proof.
  assert (Hh : thread_join t3 ∈ w_heads) by (vm_compute; set_solver).
  destruct (w_wait2_inv _ Hh) as (Hi&Hc&[_ Hs]&Hf). cbn zeta. revert Hi Hc Hs Hf.
  change (sreg_i w_ready) with true.
  generalize (w_wait2 (thread_join t3)). intros k Hi Hc Hs Hf.
  destruct (k_thread_abort_self w_F k w_T t3 [] [(t2, 3); (t1, 2)] _ [t1; t2] Hi Hc)
    as (k'&Hsus&_&Hc'&Hst&Hr); [by left|done|apply lookup_insert_eq|].
  rewrite Hs in Hsus. exists k'. split_and!; try done. apply Hr; [by left|done].
Defined.

Lemma k_thread_abort_pending_witness :
  let s := w_obj 2 in let k := w_wait2 (sem_waitqueue s) in
  ∃ k1 k2, k_thread_abort t1 k = Done 0 k1 ∧ z_get_thread_state k1 t1 = Z_THREAD_STATE_STOPPED ∧
    z_unpend_first_thread (sem_waitqueue s) k1 = Done t1 k2 ∧
    z_get_thread_state k2 t1 = Z_THREAD_STATE_READY.
Proof.
  assert (Hh : sem_waitqueue (w_obj 2) ∈ w_heads) by (vm_compute; set_solver).
  destruct (w_wait2_inv _ Hh) as (Hi&Hc&_). cbn zeta. revert Hi Hc.
  generalize (w_wait2 (sem_waitqueue (w_obj 2))). intros k Hi Hc.
  destruct (k_thread_abort_pending w_F (sem_waitqueue (w_obj 2)) t1 [t2] k w_T [t3] [(t2, 3); (t1, 2)] _ Hi)
    as (k1&k2&?&?&?&_&?); [done|done|apply lookup_insert_eq|done| |by exists k1, k2].
  rewrite lookup_insert_ne by done. apply w_Q_heads. vm_compute. set_solver.
Defined.

Lemma sched_lock_nesting_witness :
  ∃ k', (repeat_M 3 k_sched_lock;; repeat_M 2 k_sched_unlock) w_ready = Done tt k' ∧
    sched_locked k' = true ∧ k_yield_from_isr k' = Done tt k'.
Proof.
  destruct (sched_lock_nesting 3 2 w_ready t1) as (k'&E&_&Hs&Hy); [done|by vm_compute|lia|].
  exists k'. split_and!; [done| |apply Hy; lia]. rewrite Hs. apply orb_true_r.
Defined.

Lemma sched_lock_overflow_witness :
  ∃ k', (repeat_M 256 k_sched_lock;; repeat_M 300 k_sched_unlock) w_ready = Done tt k' ∧
    sched_locked k' = true.
Proof.
  assert (Hl : sched_locks w_ready t1 0 false) by by vm_compute.
  revert Hl. generalize w_ready. intros k Hl.
  destruct (sched_lock_overflow 300 k t1) as (k'&E&_&Hs); [reflexivity|exact Hl|].
  exists k'. split; [exact E|exact Hs].
Defined.
