(* ===== verification/Mutex.v ===== *)
(** * Mutexes (mutex.c) *)

From S2P Require Import Prelude Dlist Delta Tqueue Types Event Timer Kernel KernelInv KernelSpec World.

Section Mutex.
Context `{Layout, Config, Handlers}.
Variable F : mem.

Definition Z_MUTEX_UNLOCKED_VALUE : Z := 0.
Definition mutex (k : kstate) (m : word) : k_mutex := mutexes k !!! m.
Definition upd_mutex (m : word) (f : k_mutex → k_mutex) (k : kstate) : kstate :=
  set_mutexes (<[m := f (mutex k m)]> (mutexes k)) k.
Definition with_lock (l : Z) (m : k_mutex) : k_mutex := {| lock := l; owner := owner m |}.
Definition with_owner (o : word) (m : k_mutex) : k_mutex := {| lock := lock m; owner := o |}.

Definition k_mutex_init (m : word) : M Z :=
  if negb (z_user (nonnull m)) then ret (- EINVAL)
  else
    modify (upd_mutex m (λ _, {| lock := Z_MUTEX_UNLOCKED_VALUE; owner := NULL |}));;
    modify (upd_links (λ l, dlist_init l (mutex_waitqueue m)));;
    ret 0.

Definition k_mutex_lock (m : word) (timeout : Z) : M Z :=
  if negb (z_user (nonnull m)) then ret (- EINVAL)
  else
    let* key := irq_lock in
    let* k := get in
    if lock (mutex k m) =? Z_MUTEX_UNLOCKED_VALUE then
      modify (upd_mutex m (with_lock 1));;
      modify (λ k, upd_mutex m (with_owner (current k)) k);;
      irq_unlock key;;
      ret 0
    else if decide (owner (mutex k m) = current k) then
      (when CONFIG_KERNEL_REENTRANCY do
         modify (λ k, upd_mutex m (with_lock (u8 (lock (mutex k m) + 1))) k));;
      irq_unlock key;;
      ret 0
    else
      let* r := z_pend_current_on (mutex_waitqueue m) timeout in
      (when r =? 0 do modify (λ k, upd_mutex m (with_owner (current k)) k));;
      irq_unlock key;;
      ret r.

Definition k_mutex_unlock (m : word) : M word :=
  if negb (z_user (nonnull m)) then ret NULL
  else
    let* key := irq_lock in
    let* k := get in
    if decide (owner (mutex k m) ≠ current k) then
      irq_unlock key;; ret NULL
    else if CONFIG_KERNEL_REENTRANCY && (1 <? lock (mutex k m)) then
      modify (upd_mutex m (with_lock (u8 (lock (mutex k m) - 1))));;
      irq_unlock key;;
      ret NULL
    else
      let* thread := z_unpend_first_thread (mutex_waitqueue m) in
      (when bool_decide (thread = NULL) do
         modify (upd_mutex m (λ _, {| lock := Z_MUTEX_UNLOCKED_VALUE; owner := NULL |})));;
      irq_unlock key;;
      ret thread.

Definition k_mutex_cancel_wait (m : word) : M Z :=
  let* key := irq_lock in
  let* r := z_cancel_all_pending (mutex_waitqueue m) in
  irq_unlock key;;
  ret (s8 r).

(** ** The mutex invariant *)

Record mutex_ok (k : kstate) (m : word) (ws : list word) : Prop := {
  mutex_range : 0 <= lock (mutex k m) < 256;
  mutex_free : lock (mutex k m) = 0 → owner (mutex k m) = NULL;
  mutex_waiters : ws ≠ [] → lock (mutex k m) ≠ 0;
}.

Lemma mutex_upd_eq m f k : mutex (upd_mutex m f k) m = f (mutex k m).
Proof. unfold mutex at 1, upd_mutex. simpl. by rewrite lookup_total_insert_eq. Qed.

Lemma upd_mutex_upd m f g k : upd_mutex m g (upd_mutex m f k) = upd_mutex m (λ x, g (f x)) k.
Proof. unfold upd_mutex at 1. rewrite mutex_upd_eq. unfold upd_mutex, set_mutexes. simpl. by rewrite insert_insert_eq. Qed.

Lemma upd_mutex_sreg m f b k : upd_mutex m f (set_sreg_i b k) = set_sreg_i b (upd_mutex m f k).
Proof. done. Qed.

Lemma mutex_keeps m k k' : keeps k k' → mutex k' m = mutex k m.
Proof. intros [Hk _]. unfold kobjs in Hk. unfold mutex. congruence. Qed.

Lemma mutex_sreg b k m : mutex (set_sreg_i b k) m = mutex k m.
Proof. done. Qed.

Lemma Inv_upd_mutex m f k T rs ts Q : Inv F k T rs ts Q → Inv F (upd_mutex m f k) T rs ts Q.
Proof. intros Hi. by eapply Inv_objs. Qed.

(** What the pending lock does when its thread runs again. *)
Definition lock_resume (m : word) (key : bool) (k2 : kstate) : res Z :=
  let r := pend_result (flags (thr k2 (current k2))) in
  Done r (set_sreg_i key (if r =? 0 then upd_mutex m (with_owner (current k2)) k2 else k2)).

(** The uncontended lock and unlock, as the other modules use them. *)
Lemma k_mutex_lock_free m timeout k : m ≠ NULL → lock (mutex k m) = 0 →
  k_mutex_lock m timeout k = Done 0 (upd_mutex m (λ _, {| lock := 1; owner := current k |}) k).
Proof.
  intros Hm El. unfold k_mutex_lock. rewrite z_user_true by by apply nonnull_true.
  rewrite bind_irq_lock, bind_get, mutex_sreg. unfold Z_MUTEX_UNLOCKED_VALUE. rewrite El. cbn [Z.eqb].
  mred. rewrite upd_mutex_upd, upd_mutex_sreg, set_sreg_set.
  change (sreg_i k) with (sreg_i (upd_mutex m (λ x, with_owner (current k) (with_lock 1 x)) k)). by rewrite set_sreg_id.
Qed.

Lemma k_mutex_unlock_alone m k T rs ts Q :
  Inv F k T rs ts Q → m ≠ NULL → Q !! mutex_waitqueue m = Some [] → owner (mutex k m) = current k → lock (mutex k m) = 1 →
  ∃ m', (∀ p, rd0 m' p = rd0 (links k) p ∧ rd1 m' p = rd1 (links k) p) ∧
    k_mutex_unlock m k
    = Done NULL (upd_mutex m (λ _, {| lock := Z_MUTEX_UNLOCKED_VALUE; owner := NULL |}) (set_links m' k)).
Proof.
  intros Hi Hm Hw Ho Hl. unfold k_mutex_unlock. rewrite z_user_true by by apply nonnull_true.
  rewrite bind_irq_lock, bind_get, mutex_sreg. change (current (set_sreg_i false k)) with (current k).
  destruct (decide _) as [Hne|_]; [done|]. rewrite Hl. rewrite andb_false_r.
  destruct (z_unpend_first_thread_nil _ _ _ _ _ _ _ _ (Inv_sreg _ false _ _ _ _ _ Hi) Hw) as (m'&E&Ha).
  rewrite (bind_done _ _ _ _ _ E), bool_decide_true by done. exists m'. split; [done|]. by destruct k.
Qed.

(** C11: a free mutex is locked and owned by the caller; its owner locks it again
    at once, counting the nesting when reentrancy is configured; any other
    thread waits, queued last, or fails at once when told not to wait, and owns
    the mutex when its wait ends in 0; the invariants hold in every case. *)
Theorem k_mutex_lock_spec m timeout k T c rs ts Q ws :
  Inv F k T (c :: rs) ts Q → current k = c → can_idle rs → m ≠ NULL →
  Q !! mutex_waitqueue m = Some ws → mutex_ok k m ws → lock (mutex k m) < 255 →
  0 <= timeout < 65536 →
  if lock (mutex k m) =? 0 then
    let k' := upd_mutex m (λ _, {| lock := 1; owner := c |}) k in
    k_mutex_lock m timeout k = Done 0 k' ∧ Inv F k' T (c :: rs) ts Q ∧ mutex_ok k' m ws
  else if decide (owner (mutex k m) = c) then
    let n := if CONFIG_KERNEL_REENTRANCY then lock (mutex k m) + 1 else lock (mutex k m) in
    ∃ k', k_mutex_lock m timeout k = Done 0 k' ∧ Inv F k' T (c :: rs) ts Q ∧ mutex_ok k' m ws ∧
      lock (mutex k' m) = n ∧ owner (mutex k' m) = c ∧ current k' = c ∧ threads k' = threads k
  else if timeout =? K_NO_WAIT then k_mutex_lock m timeout k = Done (- EAGAIN) k
  else ∃ k', suspends (k_mutex_lock m timeout k) k' (lock_resume m (sreg_i k)) ∧
    Inv F k' T (rq_leave rs) (tmo_add timeout c ts) (<[mutex_waitqueue m := ws ++ [c]]> Q) ∧
    current k' = running (rq_leave rs) ∧ mutex_ok k' m (ws ++ [c]) ∧ mutex k' m = mutex k m ∧
    Z.land (flags (thr k' c)) SCHED_CLR = 0.
Proof.
  intros Hi Hc Hid Hm Hw [Hr Hf Hws] Hmax Ht. destruct (Z.eqb_spec (lock (mutex k m)) 0) as [El|El].
  { cbn zeta. rewrite k_mutex_lock_free, Hc by done. split_and!; [done|by apply Inv_upd_mutex|].
    split; rewrite mutex_upd_eq; simpl; lia. }
  unfold k_mutex_lock. rewrite z_user_true by by apply nonnull_true. rewrite bind_irq_lock, bind_get, mutex_sreg.
  change (current (set_sreg_i false k)) with (current k). rewrite Hc. unfold Z_MUTEX_UNLOCKED_VALUE.
  rewrite (proj2 (Z.eqb_neq _ _) El).
  destruct (decide (owner (mutex k m) = c)) as [Eo|Eo].
  - cbn zeta. unfold bind. destruct CONFIG_KERNEL_REENTRANCY; eexists; (split; [done|]).
    + cbn beta. rewrite !mutex_sreg. rewrite u8_small by lia.
      split_and!; try done; try (rewrite mutex_upd_eq; done).
      * by apply Inv_sreg, Inv_upd_mutex, Inv_sreg.
      * split; rewrite mutex_sreg, mutex_upd_eq, mutex_sreg; simpl;
           [lia|intros ?; exfalso; lia|intros _; lia].
    + split_and!; try done. by apply Inv_sreg, Inv_sreg.
  - destruct (Z.eqb_spec timeout K_NO_WAIT) as [->|Hne].
    + rewrite (bind_done _ _ _ _ _ (z_pend_current_on_no_wait _ _)). by destruct k.
    + destruct (z_pend_current_on_spec F (mutex_waitqueue m) timeout (set_sreg_i false k) T c rs ts Q ws)
        as (k'&Hsus&Hi'&Hc'&Hk&Hoth&Hfl); [by apply Inv_sreg|done|done|done|unfold K_NO_WAIT in Hne; lia|].
      pose proof (mutex_keeps m _ _ Hk) as E. rewrite mutex_sreg in E.
      exists k'. split_and!; try done.
      * eapply suspends_ext; [by apply suspends_bind|]. intros k2. unfold lock_resume. cbn [rbind].
         set (r := pend_result _). by destruct (r =? 0).
      * split; rewrite E; [done|done|]. intros _. done.
      * rewrite Hfl. apply pend_clr.
Qed.

(** Unlocking the outermost lock, with and without a waiter. *)
Lemma k_mutex_unlock_waiter m k T rs ts Q t ws :
  Inv F k T rs ts Q → m ≠ NULL → Q !! mutex_waitqueue m = Some (t :: ws) →
  owner (mutex k m) = current k → lock (mutex k m) = 1 →
  ∃ k', k_mutex_unlock m k = Done t k' ∧
    Inv F k' T (rq_add rs t) (tmo_del t ts) (<[mutex_waitqueue m := ws]> Q) ∧ keeps k k' ∧
    current k' = current k ∧ (∀ t', t' ≠ t → thr k' t' = thr k t') ∧
    flags (thr k' t) = wake_flags (flags (thr k t)).
Proof.
  intros Hi Hm Hw Ho Hl. unfold k_mutex_unlock. rewrite z_user_true by by apply nonnull_true.
  rewrite bind_irq_lock, bind_get, mutex_sreg. change (current (set_sreg_i false k)) with (current k).
  destruct (decide _) as [Hne|_]; [done|]. rewrite Hl. rewrite andb_false_r.
  pose proof (Inv_sreg _ false _ _ _ _ _ Hi) as Hi0.
  destruct (z_unpend_first_thread_cons _ _ _ _ _ _ _ _ _ Hi0 Hw) as (k1&E&Hi1&[Hk1 Hs1]&Hc1&Hoth&Hfl).
  rewrite (bind_done _ _ _ _ _ E), bool_decide_false.
  2:{ eapply thread_nonnull; [done|]. eapply lk_ws_T; [by apply Hi|done|by left]. }
  exists (set_sreg_i (sreg_i k) k1). split; [done|]. split_and!; try done.
  by apply Inv_sreg.
Qed.

(** C12: only the owner unlocks; a nested lock is only counted down; the last
    unlock frees the mutex when nobody waits, and otherwise makes the thread
    that has waited longest ready, with a wait that ends in 0, leaving the
    mutex locked; the invariants hold in every case. *)
Theorem k_mutex_unlock_spec m k T rs ts Q ws :
  Inv F k T rs ts Q → m ≠ NULL → Q !! mutex_waitqueue m = Some ws → mutex_ok k m ws →
  if decide (owner (mutex k m) ≠ current k) then k_mutex_unlock m k = Done NULL k
  else if CONFIG_KERNEL_REENTRANCY && (1 <? lock (mutex k m)) then
    let k' := upd_mutex m (with_lock (lock (mutex k m) - 1)) k in
    k_mutex_unlock m k = Done NULL k' ∧ Inv F k' T rs ts Q ∧ mutex_ok k' m ws
  else match ws with
    | [] => ∃ k', k_mutex_unlock m k = Done NULL k' ∧ Inv F k' T rs ts Q ∧ mutex_ok k' m [] ∧
        lock (mutex k' m) = 0 ∧ owner (mutex k' m) = NULL
    | t :: ws' => ∃ k', k_mutex_unlock m k = Done t k' ∧
        Inv F k' T (rq_add rs t) (tmo_del t ts) (<[mutex_waitqueue m := ws']> Q) ∧
        mutex_ok k' m ws' ∧ mutex k' m = mutex k m ∧
        (Z.land (flags (thr k t)) SCHED_CLR = 0 → pend_result (flags (thr k' t)) = 0)
    end.
Proof.
  intros Hi Hm Hw [Hr Hf Hws]. unfold k_mutex_unlock. rewrite z_user_true by by apply nonnull_true.
  rewrite bind_irq_lock, bind_get, mutex_sreg. change (current (set_sreg_i false k)) with (current k).
  destruct (decide (owner (mutex k m) ≠ current k)) as [Ho|Ho]; [by destruct k|].
  destruct (CONFIG_KERNEL_REENTRANCY && (1 <? lock (mutex k m))) eqn:Eb.
  - apply andb_true_iff in Eb as [_ Hgt%Z.ltb_lt]. cbn zeta. rewrite u8_small by lia. split_and!.
    + by destruct k.
    + by apply Inv_upd_mutex.
    + split; rewrite mutex_upd_eq; simpl; [lia|lia|]. intros Hne. specialize (Hws Hne). lia.
  - pose proof (Inv_sreg _ false _ _ _ _ _ Hi) as Hi0. destruct ws as [|t ws].
    + destruct (z_unpend_first_thread_nil _ _ _ _ _ _ _ _ Hi0 Hw) as (m'&E&Ha).
      rewrite (bind_done _ _ _ _ _ E), bool_decide_true by done.
      eexists; split; [done|]. split_and!; try (rewrite mutex_sreg, mutex_upd_eq; done).
      * by apply Inv_sreg, Inv_upd_mutex, Inv_set_links.
      * split; rewrite mutex_sreg, mutex_upd_eq; unfold Z_MUTEX_UNLOCKED_VALUE; simpl; [lia|done|done].
    + destruct (z_unpend_first_thread_cons _ _ _ _ _ _ _ _ _ Hi0 Hw) as (k1&E&Hi1&Hk1&Hc1&Hoth&Hfl).
      rewrite (bind_done _ _ _ _ _ E), bool_decide_false.
      2:{ eapply thread_nonnull; [done|]. eapply lk_ws_T; [by apply Hi|done|by left]. }
      pose proof (mutex_keeps m _ _ Hk1) as Em. rewrite mutex_sreg in Em.
      exists (set_sreg_i (sreg_i k) k1). split; [done|]. split_and!; try done.
      * by apply Inv_sreg.
      * split; rewrite mutex_sreg, Em; [done|done|]. intros _. by apply Hws.
      * intros Hz. change (thr (set_sreg_i (sreg_i k) k1) t) with (thr k1 t). rewrite Hfl.
        by apply pend_result_wake.
Qed.

(** Mutual exclusion fails when the owner unlocks a contended mutex and locks
    it again before the waiter has run: the second lock succeeds at once,
    because the mutex still names the old owner, and the lock the waiter
    pends in also ends in 0. *)
Theorem k_mutex_two_holders m timeout k T rs ts Q t ws :
  Inv F k T rs ts Q → m ≠ NULL → Q !! mutex_waitqueue m = Some (t :: ws) → t ≠ current k →
  owner (mutex k m) = current k → lock (mutex k m) = 1 →
  Z.land (flags (thr k t)) SCHED_CLR = 0 →
  ∃ k1 k2, k_mutex_unlock m k = Done t k1 ∧ k_mutex_lock m timeout k1 = Done 0 k2 ∧
    ∀ k3, current k3 = t → flags (thr k3 t) = flags (thr k2 t) →
      ∃ k4, lock_resume m (sreg_i k) k3 = Done 0 k4 ∧ owner (mutex k4 m) = t.
Proof.
  intros Hi Hm Hw Hne Ho Hl Hz.
  destruct (k_mutex_unlock_waiter _ _ _ _ _ _ _ _ Hi Hm Hw Ho Hl) as (k1&E&_&Hk&Hc&_&Hfl).
  pose proof (mutex_keeps m _ _ Hk) as Em.
  assert (∃ k2, k_mutex_lock m timeout k1 = Done 0 k2 ∧ threads k2 = threads k1) as (k2&E2&Hth).
  { unfold k_mutex_lock. rewrite z_user_true by by apply nonnull_true.
    rewrite bind_irq_lock, bind_get, mutex_sreg, Em, Hl. cbn [Z.eqb Z_MUTEX_UNLOCKED_VALUE].
    rewrite decide_True by (rewrite Ho; done).
    unfold bind. destruct CONFIG_KERNEL_REENTRANCY; by eexists. }
  exists k1, k2. split_and!; [done|done|]. intros k3 Hc3 Hf3. unfold lock_resume.
  assert (flags (thr k2 t) = wake_flags (flags (thr k t))) as E3 by (unfold thr at 1; by rewrite Hth).
  rewrite Hc3, Hf3, E3, pend_result_wake by done.
  eexists; split; [done|]. simpl. by rewrite mutex_sreg, mutex_upd_eq.
Qed.
End Mutex.

(** ** Instances *)

Definition w_mutex (l : Z) (o : word) (k : kstate) : kstate :=
  upd_mutex (w_obj 1) (λ _, {| lock := l; owner := o |}) k.

Lemma w_mutex_ok l o k ws :
  0 <= l < 256 → (l = 0 → o = NULL) → (ws ≠ [] → l ≠ 0) → mutex_ok (w_mutex l o k) (w_obj 1) ws.
Proof. intros. split; unfold w_mutex; rewrite mutex_upd_eq; done. Qed.

Lemma w_mutex_head : mutex_waitqueue (w_obj 1) ∈ w_heads.
Proof. vm_compute. set_solver. Qed.

Lemma k_mutex_lock_witness :
  ∃ k', suspends (k_mutex_lock (w_obj 1) 5 (w_mutex 1 t2 w_ready)) k' (lock_resume (w_obj 1) true) ∧
    mutex_ok k' (w_obj 1) [t1].
Proof.
  destruct (k_mutex_lock_spec w_F (w_obj 1) 5 (w_mutex 1 t2 w_ready) w_T t1 [t3; t2] [] w_Q [])
    as (k'&Hs&_&_&Ho&_).
  - apply Inv_upd_mutex, w_ready_inv.
  - reflexivity.
  - by left.
  - done.
  - apply w_Q_heads, w_mutex_head.
  - by apply w_mutex_ok.
  - reflexivity.
  - lia.
  - exists k'. split; done.
Defined.

Lemma k_mutex_unlock_witness :
  ∃ k', k_mutex_unlock (w_obj 1) (w_mutex 1 t3 (w_wait2 (mutex_waitqueue (w_obj 1)))) = Done t1 k' ∧
    mutex_ok k' (w_obj 1) [t2].
Proof.
  destruct (w_wait2_inv _ w_mutex_head) as (Hi&Hc&_). revert Hi Hc.
  generalize (w_wait2 (mutex_waitqueue (w_obj 1))). intros k Hi Hc.
  pose proof (k_mutex_unlock_spec w_F (w_obj 1) (w_mutex 1 t3 k) w_T [t3] [(t2, 3); (t1, 2)]
    (<[mutex_waitqueue (w_obj 1) := [t1; t2]]> w_Q) [t1; t2]) as Hspec.
  unfold w_mutex in Hspec. rewrite mutex_upd_eq in Hspec. cbn [owner lock] in Hspec.
  change (current (upd_mutex _ _ k)) with (current k) in Hspec. rewrite Hc in Hspec.
  destruct Hspec as (k'&E&_&Ho&_).
  - by apply Inv_upd_mutex.
  - done.
  - apply lookup_insert_eq.
  - by apply w_mutex_ok.
  - exists k'. split; done.
Defined.

Lemma k_mutex_two_holders_witness :
  ∃ k1 k2, k_mutex_unlock (w_obj 1) (w_mutex 1 t3 (w_wait2 (mutex_waitqueue (w_obj 1)))) = Done t1 k1 ∧
    k_mutex_lock (w_obj 1) K_FOREVER k1 = Done 0 k2.
Proof.
  destruct (w_wait2_inv _ w_mutex_head) as (Hi&Hc&_&Hz). revert Hi Hc Hz.
  generalize (w_wait2 (mutex_waitqueue (w_obj 1))). intros k Hi Hc Hz.
  destruct (k_mutex_two_holders w_F (w_obj 1) K_FOREVER (w_mutex 1 t3 k) w_T [t3] [(t2, 3); (t1, 2)]
    (<[mutex_waitqueue (w_obj 1) := [t1; t2]]> w_Q) t1 [t2]) as (k1&k2&E1&E2&_).
  - by apply Inv_upd_mutex.
  - done.
  - apply lookup_insert_eq.
  - change (current (w_mutex 1 t3 k)) with (current k). by rewrite Hc.
  - unfold w_mutex at 1. rewrite mutex_upd_eq. change (current (w_mutex 1 t3 k)) with (current k). by rewrite Hc.
  - unfold w_mutex. by rewrite mutex_upd_eq.
  - exact Hz.
  - by exists k1, k2.
Defined.
