(* ===== verification/Signal.v ===== *)
(** * Signals and condition variables (signal.c, condvar.c) *)

From S2P Require Import Prelude Dlist Delta Tqueue Types Event Timer Kernel KernelInv KernelSpec World Mutex.

Section Signal.
Context `{Layout, Config, Handlers}.
Variable F : mem.

Definition K_POLL_STATE_NOT_READY : Z := 0.
Definition K_POLL_STATE_SIGNALED : Z := 1.

Definition sgn (k : kstate) (s : word) : k_signal := signals k !!! s.
Definition upd_signal (s : word) (f : k_signal → k_signal) (k : kstate) : kstate :=
  set_signals (<[s := f (sgn k s)]> (signals k)) k.

Definition k_signal_init (s : word) : M Z :=
  if negb (z_user (nonnull s)) then ret (- EINVAL)
  else
    modify (upd_signal s (λ _, {| signal := 0; sig_flags := K_POLL_STATE_NOT_READY |}));;
    modify (upd_links (λ m, dlist_init m (signal_waitqueue s)));;
    ret 0.

Definition k_signal_raise (s : word) (value : Z) : M Z :=
  if negb (z_user (nonnull s)) then ret (- EINVAL)
  else
    let* key := irq_lock in
    modify (upd_signal s (λ x, {| signal := u8 value;
                                  sig_flags := Z.lor (sig_flags x) K_POLL_STATE_SIGNALED |}));;
    let* r := z_unpend_all_loop s8 loop_fuel (signal_waitqueue s) 0 in
    irq_unlock key;;
    ret r.

Definition k_poll_signal (s : word) (timeout : Z) : M Z :=
  if negb (z_user (nonnull s)) then ret (- EINVAL)
  else
    let* key := irq_lock in
    let* k := get in
    let* r :=
      if negb (Z.land (sig_flags (sgn k s)) K_POLL_STATE_SIGNALED =? 0) then ret 0
      else z_pend_current_on (signal_waitqueue s) timeout in
    irq_unlock key;;
    ret r.

Definition k_poll_cancel_wait (s : word) : M Z :=
  if negb (z_user (nonnull s)) then ret (- EINVAL)
  else
    let* key := irq_lock in
    let* r := z_cancel_all_pending (signal_waitqueue s) in
    irq_unlock key;;
    ret (s8 r).

(** ** Condition variables *)

Definition k_condvar_init (c : word) : M Z :=
  if negb (z_user (nonnull c)) then ret (- EINVAL)
  else modify (upd_links (λ m, dlist_init m (condvar_waitqueue c)));; ret 0.

Definition k_condvar_broadcast (c : word) : M Z :=
  if negb (z_user (nonnull c)) then ret (- EINVAL)
  else
    let* key := irq_lock in
    let* r := z_unpend_all_loop s16 loop_fuel (condvar_waitqueue c) 0 in
    irq_unlock key;;
    ret r.

Definition k_condvar_wait (c m : word) (timeout : Z) : M Z :=
  if negb (z_user (nonnull c && nonnull m)) then ret (- EINVAL)
  else
    let* key := irq_lock in
    let* _ := k_mutex_unlock m in
    let* r := z_pend_current_on (condvar_waitqueue c) timeout in
    irq_unlock key;;
    if r =? 0 then k_mutex_lock m K_FOREVER else ret r.

Lemma sgn_upd_eq s f k : sgn (upd_signal s f k) s = f (sgn k s).
Proof. unfold sgn at 1, upd_signal. simpl. by rewrite lookup_total_insert_eq. Qed.

Lemma sgn_keeps s k k' : keeps k k' → sgn k' s = sgn k s.
Proof. intros [Hk _]. unfold kobjs in Hk. unfold sgn. congruence. Qed.

(** Raising a signal makes every waiter ready, in the order they waited and
    with waits that end in 0, returns how many they were, and leaves the
    signal set, so that a later poll returns 0 at once without waiting. *)
Theorem k_signal_raise_spec s value timeout k T rs ts Q ws :
  Inv F k T rs ts Q → s ≠ NULL → Q !! signal_waitqueue s = Some ws → (length ws < 128)%nat →
  ∃ k', k_signal_raise s value k = Done (Z.of_nat (length ws)) k' ∧
    Inv F k' T (foldl rq_add rs ws) (timeouts_del ws ts) (<[signal_waitqueue s := []]> Q) ∧
    signal (sgn k' s) = u8 value ∧ current k' = current k ∧ sreg_i k' = sreg_i k ∧
    (∀ t, t ∉ ws → thr k' t = thr k t) ∧
    (∀ t, t ∈ ws → Z.land (flags (thr k t)) SCHED_CLR = 0 → pend_result (flags (thr k' t)) = 0) ∧
    k_poll_signal s timeout k' = Done 0 k'.
Proof.
  intros Hi Hs Hw Hlen. unfold k_signal_raise. rewrite z_user_true by by apply nonnull_true.
  rewrite bind_irq_lock, bind_modify. set (k0 := upd_signal s _ _).
  assert (Hi0 : Inv F k0 T rs ts Q) by by eapply Inv_objs.
  destruct (z_unpend_all_loop_spec F s8 ws loop_fuel 0 (signal_waitqueue s) k0 T rs ts Q)
    as (k'&n&E&Hn&Hi'&Hk&Hc&Hoth&Hfl); [done|done| |].
  { pose proof (wq_length _ _ _ _ _ _ _ _ Hi Hw). pose proof (inv_fuel _ _ _ _ _ _ _ Hi). lia. }
  rewrite iter_count in Hn by (intros; apply s8_small; lia). subst n.
  rewrite (bind_done _ _ _ _ _ E).
  pose proof (sgn_keeps s _ _ Hk) as Es. unfold k0 in Es. rewrite sgn_upd_eq in Es.
  exists (set_sreg_i (sreg_i k) k'). split_and!; try done.
  - by apply Inv_sreg.
  - change (sgn (set_sreg_i (sreg_i k) k') s) with (sgn k' s). by rewrite Es.
  - intros t Ht Hz. change (thr (set_sreg_i (sreg_i k) k') t) with (thr k' t).
    rewrite Hfl by done. by apply pend_result_wake.
  - unfold k_poll_signal. rewrite z_user_true by by apply nonnull_true.
    rewrite bind_irq_lock, bind_get.
    change (sgn (set_sreg_i _ (set_sreg_i _ k')) s) with (sgn k' s). rewrite Es.
    simpl sig_flags. unfold K_POLL_STATE_SIGNALED. rewrite land_lor_hit by done. by destruct k'.
Qed.

(** A wait on a condition variable that does not end in 0 returns without
    the mutex, which it has released: with no time to wait the call fails at
    once and the mutex it was called with is free. *)
Theorem k_condvar_wait_no_wait c m k T rs ts Q :
  Inv F k T rs ts Q → c ≠ NULL → m ≠ NULL → Q !! mutex_waitqueue m = Some [] →
  owner (mutex k m) = current k → lock (mutex k m) = 1 →
  ∃ k', k_condvar_wait c m K_NO_WAIT k = Done (- EAGAIN) k' ∧ Inv F k' T rs ts Q ∧
    lock (mutex k' m) = Z_MUTEX_UNLOCKED_VALUE ∧ owner (mutex k' m) = NULL.
Proof.
  intros Hi Hc Hm Hw Ho Hl. unfold k_condvar_wait.
  rewrite z_user_true by by rewrite !nonnull_true. rewrite bind_irq_lock.
  pose proof (Inv_sreg _ false _ _ _ _ _ Hi) as Hi0.
  assert (Hu : ∃ k1, k_mutex_unlock m (set_sreg_i false k) = Done NULL k1 ∧ Inv F k1 T rs ts Q ∧
    mutex k1 m = {| lock := Z_MUTEX_UNLOCKED_VALUE; owner := NULL |}).
  { unfold k_mutex_unlock. rewrite z_user_true by by apply nonnull_true.
    rewrite bind_irq_lock, bind_get. rewrite !mutex_sreg.
    change (current (set_sreg_i false (set_sreg_i false k))) with (current k).
    destruct (decide _) as [Hne|_]; [done|]. rewrite Hl, andb_false_r.
    destruct (z_unpend_first_thread_nil _ _ _ _ _ _ _ _ (Inv_sreg _ false _ _ _ _ _ Hi0) Hw) as (m'&E&Ha).
    rewrite (bind_done _ _ _ _ _ E), bool_decide_true by done.
    eexists; split; [done|]. split; [by apply Inv_sreg, Inv_upd_mutex, Inv_set_links; [apply Inv_sreg|]|].
    by rewrite mutex_sreg, mutex_upd_eq. }
  destruct Hu as (k1&E&Hi1&Em). rewrite (bind_done _ _ _ _ _ E).
  rewrite (bind_done _ _ _ _ _ (z_pend_current_on_no_wait _ _)).
  exists (set_sreg_i (sreg_i k) k1). split; [done|]. split; [by apply Inv_sreg|].
  by rewrite mutex_sreg, Em.
Qed.
End Signal.

(** ** Instances *)

Lemma k_signal_raise_witness :
  ∃ k', k_signal_raise (w_obj 2) 7 (w_wait2 (signal_waitqueue (w_obj 2))) = Done 2 k' ∧
    k_poll_signal (w_obj 2) K_FOREVER k' = Done 0 k'.
Proof.
  assert (Hh : signal_waitqueue (w_obj 2) ∈ w_heads) by (vm_compute; set_solver).
  destruct (w_wait2_inv _ Hh) as (Hi&_). revert Hi.
  generalize (w_wait2 (signal_waitqueue (w_obj 2))). intros k Hi.
  destruct (k_signal_raise_spec w_F (w_obj 2) 7 K_FOREVER k w_T [t3] [(t2, 3); (t1, 2)]
    (<[signal_waitqueue (w_obj 2) := [t1; t2]]> w_Q) [t1; t2]) as (k'&E&_&_&_&_&_&_&Hp).
  - done.
  - done.
  - apply lookup_insert_eq.
  - simpl. lia.
  - by exists k'.
Defined.

Lemma k_condvar_wait_no_wait_witness :
  ∃ k', k_condvar_wait (w_obj 0) (w_obj 1) K_NO_WAIT (w_mutex 1 t1 w_ready) = Done (- EAGAIN) k' ∧
    owner (mutex k' (w_obj 1)) = NULL.
Proof.
  destruct (k_condvar_wait_no_wait w_F (w_obj 0) (w_obj 1) (w_mutex 1 t1 w_ready) w_T [t1; t3; t2] [] w_Q)
    as (k'&E&_&_&Ho).
  - apply Inv_upd_mutex, w_ready_inv.
  - done.
  - done.
  - apply w_Q_heads, w_mutex_head.
  - reflexivity.
  - reflexivity.
  - by exists k'.
Defined.
