(* ===== verification/Fifo.v ===== *)
(** * FIFOs (fifo.c)

    A queue of items linked through their first word, with a wait queue of
    consumers; an item put while a thread waits goes to the thread directly,
    through its [swap_data]. *)

From S2P Require Import Prelude Dlist Delta Tqueue Slist Types Event Timer Kernel KernelInv KernelSpec World.

Section Fifo.
Context `{Layout, Config, Handlers}.
Variable F : mem.

Definition k_fifo_init (f : word) : M Z :=
  if negb (z_user (nonnull f)) then ret (- EINVAL)
  else
    modify (upd_links (λ m, slist_init m (fifo_queue f)));;
    modify (upd_links (λ m, dlist_init m (fifo_waitqueue f)));;
    ret 0.

Definition z_fifo_put (f item : word) : M word :=
  let* thread := z_unpend_first_and_swap (fifo_waitqueue f) item in
  (when bool_decide (thread = NULL) do
     modify (upd_links (λ m, slist_append m (fifo_queue f) item)));;
  ret thread.

Definition k_fifo_put (f item : word) : M word :=
  if negb (z_user (nonnull f)) then ret NULL
  else
    let* key := irq_lock in
    let* thread := z_fifo_put f item in
    irq_unlock key;;
    ret thread.

Definition slist_get_M (q : word) : M word := λ k,
  let '(item, m) := slist_get (links k) q in Done item (set_links m k).

Definition k_fifo_get (f : word) (timeout : Z) : M word :=
  if negb (z_user (nonnull f)) then ret NULL
  else
    let* key := irq_lock in
    let* item := slist_get_M (fifo_queue f) in
    let* item :=
      if decide (item = NULL) then
        let* r := z_pend_current_on (fifo_waitqueue f) timeout in
        if r =? 0 then let* k := get in ret (swap_data (thr k (current k))) else ret item
      else ret item in
    irq_unlock key;;
    ret item.

Definition k_fifo_cancel_wait (f : word) : M Z :=
  if negb (z_user (nonnull f)) then ret (- EINVAL)
  else
    let* key := irq_lock in
    let* r := z_cancel_all_pending (fifo_waitqueue f) in
    irq_unlock key;;
    ret (s8 r).

Definition k_fifo_peek_head (f : word) : M word :=
  if negb (z_user (nonnull f)) then ret NULL
  else let* key := irq_lock in
       let* k := get in
       irq_unlock key;;
       ret (slist_peek_head (links k) (fifo_queue f)).

Definition k_fifo_peek_tail (f : word) : M word :=
  if negb (z_user (nonnull f)) then ret NULL
  else let* key := irq_lock in
       let* k := get in
       irq_unlock key;;
       ret (slist_peek_tail (links k) (fifo_queue f)).

Definition k_fifo_is_empty (f : word) : M bool :=
  if negb (z_user (nonnull f)) then ret true
  else let* item := k_fifo_peek_head f in ret (bool_decide (item = NULL)).

(** ** The FIFO invariant: the items queued, none while a thread waits *)

Record fifo_ok (k : kstate) (T : gset word) (Q : gmap word (list word)) (f : word)
    (items ws : list word) : Prop := {
  fifo_rep : sl_rep (links k) (fifo_queue f) items;
  fifo_own : ∀ p, p ∈ fifo_queue f :: items → foreign T (dom Q) p;
  fifo_wait : Q !! fifo_waitqueue f = Some ws;
  fifo_excl : ws ≠ [] → items = [];
}.

(** The result of a consumer that waited. *)
Definition fifo_resume (key : bool) (k2 : kstate) : res word :=
  let t := thr k2 (current k2) in
  Done (if pend_result (flags t) =? 0 then swap_data t else NULL) (set_sreg_i key k2).

Lemma fifo_frame k k' T Q Q' f items ws ws' :
  fifo_ok k T Q f items ws → agree_on (foreign T (dom Q)) (links k) (links k') →
  dom Q' = dom Q → Q' !! fifo_waitqueue f = Some ws' → (ws' ≠ [] → items = []) →
  fifo_ok k' T Q' f items ws'.
Proof.
  intros [Hr Ho Hw He] Ha Hd Hw' He'. split; [|by rewrite Hd|done|done].
  eapply sl_rep_frame; [|done]. intros p Hp. by apply Ha, Ho.
Qed.

Lemma fifo_ok_sreg b k T Q f items ws : fifo_ok k T Q f items ws → fifo_ok (set_sreg_i b k) T Q f items ws.
Proof. by intros []. Qed.

(** [k_fifo_put] gives the item to the consumer that has waited longest,
    which becomes ready and will return it; with no consumer the item is
    queued last, and the kernel's own links are untouched. *)
Theorem k_fifo_put_spec f item k T rs ts Q items ws :
  Inv F k T rs ts Q → fifo_ok k T Q f items ws → f ≠ NULL → item ≠ NULL →
  foreign T (dom Q) item → item ∉ fifo_queue f :: items →
  match ws with
  | [] => ∃ k', k_fifo_put f item k = Done NULL k' ∧ Inv (links k') k' T rs ts Q ∧
      fifo_ok k' T Q f (items ++ [item]) [] ∧ threads k' = threads k ∧ current k' = current k
  | t :: ws' => ∃ k', k_fifo_put f item k = Done t k' ∧
      Inv (links k) k' T (rq_add rs t) (tmo_del t ts) (<[fifo_waitqueue f := ws']> Q) ∧
      fifo_ok k' T (<[fifo_waitqueue f := ws']> Q) f items ws' ∧ current k' = current k ∧
      (Z.land (flags (thr k t)) SCHED_CLR = 0 →
       ∀ k3, current k3 = t → thr k3 t = thr k' t →
         fifo_resume true k3 = Done item (set_sreg_i true k3))
  end.
Proof.
  intros Hi Hok Hf Hit Hfor Hnin. unfold k_fifo_put, z_fifo_put, z_unpend_first_and_swap.
  rewrite z_user_true by by apply nonnull_true. rewrite bind_irq_lock.
  pose proof (Inv_rebase _ _ _ _ _ _ Hi) as Hib. pose proof (Inv_sreg _ false _ _ _ _ _ Hib) as Hi0.
  destruct Hok as [Hr Ho Hw He]. destruct ws as [|t ws].
  - destruct (z_unpend_first_and_swap_nil _ _ item _ _ _ _ _ Hi0 Hw) as (m1&E&Ha).
    assert (Hi1 : Inv (links k) (set_links m1 (set_sreg_i false k)) T rs ts Q) by by apply Inv_set_links.
    assert (Hr1 : sl_rep m1 (fifo_queue f) items).
    { eapply sl_rep_frame; [|done]. intros p _. apply Ha. }
    destruct (slist_append_rep m1 (fifo_queue f) items item Hr1 Hnin Hit) as [Hr2 Ha2].
    unfold bind at 1. rewrite (bind_done _ _ _ _ _ E), bool_decide_true by done.
    eexists; split; [done|]. split_and!; try done.
    + apply Inv_sreg. eapply (Inv_foreign _ _ _ _ _ _ _ Hi1). intros p Hp. apply Ha2.
      intros [->|Hin]%elem_of_cons; [done|]. by apply Hp, Ho.
    + split; [done| |done|done]. intros p Hp.
      rewrite app_comm_cons in Hp. apply elem_of_app in Hp as [Hp| ->%list_elem_of_singleton]; auto.
  - destruct (z_unpend_first_and_swap_cons _ _ item _ _ _ _ _ _ _ Hi0 Hw)
      as (k1&E&Hi1&Ht&Hk1&Hc1&Hoth&Hfl&Hsw).
    unfold bind at 1. rewrite (bind_done _ _ _ _ _ E), bool_decide_false by done.
    eexists; split; [done|]. split_and!.
    + by apply Inv_sreg.
    + eapply (fifo_frame k); [by split| | |apply lookup_insert_eq|].
      * intros p Hp. apply (Inv_frame _ _ _ _ _ _ p Hi1). by rewrite dom_insert_lookup_L.
      * by apply dom_insert_lookup_L.
      * intros _. by apply He.
    + done.
    + intros Hz k3 Hc3 Hth3. unfold fifo_resume. rewrite Hc3, Hth3.
      change (thr (set_sreg_i (sreg_i k) k1) t) with (thr k1 t).
      by rewrite Hfl, pend_result_wake, Hsw.
Qed.

(** [k_fifo_get] takes the oldest item; with none it returns [NULL] at once
    when told not to wait, and else queues the caller last among the
    consumers, which returns the item it is given or [NULL] when the wait
    fails. *)
Theorem k_fifo_get_spec f timeout k T c rs ts Q items ws :
  Inv F k T (c :: rs) ts Q → fifo_ok k T Q f items ws → current k = c → can_idle rs →
  f ≠ NULL → 0 <= timeout < 65536 →
  match items with
  | item :: items' => ∃ k', k_fifo_get f timeout k = Done item k' ∧
      Inv (links k') k' T (c :: rs) ts Q ∧ fifo_ok k' T Q f items' ws ∧ threads k' = threads k
  | [] =>
      if timeout =? K_NO_WAIT then ∃ k', k_fifo_get f timeout k = Done NULL k' ∧
        Inv (links k) k' T (c :: rs) ts Q ∧ fifo_ok k' T Q f [] ws ∧ threads k' = threads k
      else ∃ k', suspends (k_fifo_get f timeout k) k' (fifo_resume (sreg_i k)) ∧
        Inv (links k) k' T (rq_leave rs) (tmo_add timeout c ts) (<[fifo_waitqueue f := ws ++ [c]]> Q) ∧
        fifo_ok k' T (<[fifo_waitqueue f := ws ++ [c]]> Q) f [] (ws ++ [c]) ∧
        current k' = running (rq_leave rs) ∧ Z.land (flags (thr k' c)) SCHED_CLR = 0
  end.
Proof.
  intros Hi Hok Hc Hid Hf Ht. pose proof Hok as [Hr Ho Hw He].
  unfold k_fifo_get. rewrite z_user_true by by apply nonnull_true. rewrite bind_irq_lock.
  pose proof (Inv_rebase _ _ _ _ _ _ Hi) as Hib. pose proof (Inv_sreg _ false _ _ _ _ _ Hib) as Hi0.
  destruct items as [|item items].
  - assert (E : slist_get_M (fifo_queue f) (set_sreg_i false k) = Done NULL (set_sreg_i false k)).
    { unfold slist_get_M. simpl links. rewrite (slist_get_nil _ _ Hr). by destruct k. }
    rewrite (bind_done _ _ _ _ _ E), decide_True by done.
    destruct (Z.eqb_spec timeout K_NO_WAIT) as [->|Hne].
    + unfold bind at 1 2. rewrite z_pend_current_on_no_wait. cbn [rbind].
      eexists; split; [done|]. split_and!; [by apply Inv_sreg|by split|done].
    + destruct (z_pend_current_on_spec _ (fifo_waitqueue f) timeout (set_sreg_i false k) T c rs ts Q ws Hi0 Hw)
        as (k'&Hsus&Hi'&Hc'&Hk&Hoth&Hfl); [done|done|unfold K_NO_WAIT in Hne; lia|].
      exists k'. split_and!; try done.
      * eapply suspends_ext; [apply suspends_bind, suspends_bind, Hsus|]. intros k2.
        unfold fifo_resume. cbn [rbind]. by destruct (_ =? 0).
      * eapply (fifo_frame k); [by split| | |apply lookup_insert_eq|done].
        -- intros p Hp. apply (Inv_frame _ _ _ _ _ _ p Hi'). by rewrite dom_insert_lookup_L.
        -- by apply dom_insert_lookup_L.
      * rewrite Hfl. apply pend_clr.
  - destruct (slist_get_rep _ _ _ _ Hr) as (E1&Hr'&Ha).
    destruct (slist_get (links k) (fifo_queue f)) as [x m'] eqn:Eg. cbn [fst snd] in *. subst x.
    assert (E : slist_get_M (fifo_queue f) (set_sreg_i false k) = Done item (set_links m' (set_sreg_i false k))).
    { unfold slist_get_M. simpl links. by rewrite Eg. }
    assert (Hit : item ≠ NULL).
    { destruct Hr as (_&Hch&_). simpl in Hch. tauto. }
    rewrite (bind_done _ _ _ _ _ E), decide_False by done.
    eexists; split; [done|]. split_and!; [|split|done].
    + apply Inv_sreg. eapply (Inv_foreign _ _ _ _ _ _ _ Hi0).
      intros p Hp. apply Ha. intros ->. by apply Hp, Ho, list_elem_of_here.
    + done.
    + intros p Hp. apply Ho. apply elem_of_cons in Hp as [->|Hp]; [by left|by right; right].
    + done.
    + intros Hne. by specialize (He Hne).
Qed.
End Fifo.

(** ** Instances *)

(** An empty FIFO at object 4, and a foreign node for an item. *)
Definition w_item : word := Ptr 30 0.

Lemma w_foreign_item : foreign w_T (dom w_Q) w_item.
Proof. apply w_foreign; vm_compute; set_solver. Qed.
Lemma w_foreign_fifo : foreign w_T (dom w_Q) (fifo_queue (w_obj 4)).
Proof. apply w_foreign; vm_compute; set_solver. Qed.

Lemma w_fifo_head : fifo_waitqueue (w_obj 4) ∈ w_heads.
Proof. vm_compute. set_solver. Qed.

Lemma w_fifo_rep k : rd0 (links k) (fifo_queue (w_obj 4)) = NULL →
  rd1 (links k) (fifo_queue (w_obj 4)) = NULL → sl_rep (links k) (fifo_queue (w_obj 4)) [].
Proof. intros. split_and!; [apply NoDup_singleton|done|done]. Qed.

Lemma k_fifo_put_witness :
  ∃ k', k_fifo_put (w_obj 4) w_item (w_wait2 (fifo_waitqueue (w_obj 4))) = Done t1 k' ∧
    ∀ k3, current k3 = t1 → thr k3 t1 = thr k' t1 →
      fifo_resume true k3 = Done w_item (set_sreg_i true k3).
Proof.
  destruct (w_wait2_inv _ w_fifo_head) as (Hi&_&_&Hz). revert Hi Hz.
  generalize (w_wait2 (fifo_waitqueue (w_obj 4))). intros k Hi Hz.
  assert (Hdom : dom (<[fifo_waitqueue (w_obj 4) := [t1; t2]]> w_Q) = dom w_Q).
  { apply dom_insert_lookup_L. eexists. apply w_Q_heads, w_fifo_head. }
  destruct (Inv_frame _ _ _ _ _ _ (fifo_queue (w_obj 4)) Hi) as [Hr0 Hr1].
  { rewrite Hdom. apply w_foreign_fifo. }
  destruct (k_fifo_put_spec w_F (w_obj 4) w_item k w_T [t3] [(t2, 3); (t1, 2)]
    (<[fifo_waitqueue (w_obj 4) := [t1; t2]]> w_Q) [] [t1; t2]) as (k'&E&_&_&_&Hres).
  - done.
  - split; [|rewrite Hdom; intros p ->%list_elem_of_singleton; apply w_foreign_fifo|apply lookup_insert_eq|done].
    apply w_fifo_rep; [rewrite Hr0|rewrite Hr1]; reflexivity.
  - done.
  - done.
  - rewrite Hdom. apply w_foreign_item.
  - vm_compute. set_solver.
  - exists k'. auto.
Defined.

Lemma k_fifo_get_witness :
  ∃ k', suspends (k_fifo_get (w_obj 4) 5 w_ready) k' (fifo_resume true) ∧
    fifo_ok k' w_T (<[fifo_waitqueue (w_obj 4) := [t1]]> w_Q) (w_obj 4) [] [t1].
Proof.
  destruct (k_fifo_get_spec w_F (w_obj 4) 5 w_ready w_T t1 [t3; t2] [] w_Q [] [])
    as (k'&Hs&_&Ho&_).
  - apply w_ready_inv.
  - split; [|intros p ->%list_elem_of_singleton; apply w_foreign_fifo|apply w_Q_heads, w_fifo_head|done].
    apply w_fifo_rep; reflexivity.
  - reflexivity.
  - by left.
  - done.
  - lia.
  - by exists k'.
Defined.
