(* ===== verification/Bytes.v ===== *)
(** * Byte buffers: [memcpy] *)

From S2P Require Import Prelude.

Abbreviation bmem := (gmap word Z).

Definition rdb (b : bmem) (p : word) : Z := default 0 (b !! p).

(** The [n] bytes at [p]. *)
Definition read_bytes (b : bmem) (p : word) (n : nat) : list Z :=
  (λ i, rdb b (ptr_add p (Z.of_nat i))) <$> seq 0 n.

(** [memcpy(dst, src, n)], byte by byte from the first. *)
Fixpoint memcpy_loop (b : bmem) (dst src : word) (i n : nat) : bmem :=
  match n with
  | O => b
  | S n => memcpy_loop (<[ptr_add dst (Z.of_nat i) := rdb b (ptr_add src (Z.of_nat i))]> b) dst src (S i) n
  end.
Definition memcpy (b : bmem) (dst src : word) (n : nat) : bmem := memcpy_loop b dst src 0 n.

(** [p] is none of the [n] bytes at [q]. *)
Definition outside (p q : word) (n : nat) : Prop := ∀ i, (i < n)%nat → p ≠ ptr_add q (Z.of_nat i).
Definition disjoint_bytes (p : word) (n : nat) (q : word) (m : nat) : Prop :=
  ∀ i, (i < n)%nat → outside (ptr_add p (Z.of_nat i)) q m.

Lemma rdb_insert b p v q : rdb (<[p := v]> b) q = if decide (p = q) then v else rdb b q.
Proof. unfold rdb. rewrite lookup_insert. by case_decide. Qed.

Lemma ptr_add_ofs_inj p i j : ptr_add p i = ptr_add p j → i = j.
Proof. destruct p; simpl; intros [=]; lia. Qed.

Lemma memcpy_loop_spec b dst src i n p :
  (∀ j, (i ≤ j < i + n)%nat → outside (ptr_add src (Z.of_nat j)) dst (i + n)) →
  (∀ j, (i ≤ j < i + n)%nat →
    rdb (memcpy_loop b dst src i n) (ptr_add dst (Z.of_nat j)) = rdb b (ptr_add src (Z.of_nat j))) ∧
  ((∀ j, (i ≤ j < i + n)%nat → p ≠ ptr_add dst (Z.of_nat j)) → rdb (memcpy_loop b dst src i n) p = rdb b p).
Proof.
  revert b i p. induction n as [|n IH]; intros b i p Ho; [split; [lia|done]|]. cbn [memcpy_loop].
  set (b' := <[_ := _]> b).
  assert (Ho' : ∀ j, (S i ≤ j < S i + n)%nat → outside (ptr_add src (Z.of_nat j)) dst (S i + n)).
  { intros j Hj. replace (S i + n)%nat with (i + S n)%nat by lia. apply Ho. lia. }
  split.
  - intros j Hj. destruct (decide (j = i)) as [->|Hne].
    + destruct (IH b' (S i) (ptr_add dst (Z.of_nat i)) Ho') as [_ ->].
      * unfold b'. rewrite rdb_insert. by rewrite decide_True.
      * intros j' Hj' E%ptr_add_ofs_inj. lia.
    + destruct (IH b' (S i) p Ho') as [Hin _]. rewrite Hin by lia. unfold b'. rewrite rdb_insert.
      rewrite decide_False; [done|]. intros E. exact (Ho j ltac:(lia) i ltac:(lia) (eq_sym E)).
  - intros Hp. destruct (IH b' (S i) p Ho') as [_ Hout].
    rewrite Hout by (intros j Hj; apply Hp; lia).
    unfold b'. rewrite rdb_insert, decide_False; [done|]. intros E. exact (Hp i ltac:(lia) (eq_sym E)).
Qed.

(** Copying between disjoint buffers: the destination holds the source, every
    other byte is unchanged. *)
Lemma memcpy_read b dst src n :
  disjoint_bytes src n dst n → read_bytes (memcpy b dst src n) dst n = read_bytes b src n.
Proof.
  intros Hd. unfold read_bytes. apply list_fmap_ext. intros k i Hi.
  apply lookup_seq in Hi as [-> Hlt]. simpl.
  destruct (memcpy_loop_spec b dst src 0 n dst) as [Hin _]; [|apply Hin; lia].
  intros j Hj. simpl. apply Hd. lia.
Qed.

Lemma memcpy_other b dst src n q m :
  disjoint_bytes src n dst n → disjoint_bytes q m dst n →
  read_bytes (memcpy b dst src n) q m = read_bytes b q m.
Proof.
  intros Hd Hq. unfold read_bytes. apply list_fmap_ext. intros k i Hi.
  apply lookup_seq in Hi as [-> Hlt]. simpl.
  destruct (memcpy_loop_spec b dst src 0 n (ptr_add q (Z.of_nat k))) as [_ Hout].
  - intros j Hj. simpl. apply Hd. lia.
  - apply Hout. intros j Hj. apply Hq; lia.
Qed.

Lemma disjoint_bytes_sub p n q m p' n' q' m' d e :
  disjoint_bytes p n q m → p' = ptr_add p d → q' = ptr_add q e →
  0 <= d → d + Z.of_nat n' <= Z.of_nat n → 0 <= e → e + Z.of_nat m' <= Z.of_nat m →
  disjoint_bytes p' n' q' m'.
Proof.
  intros Hd -> -> ?? ?? i Hi j Hj. rewrite !ptr_add_assoc.
  specialize (Hd (Z.to_nat (d + Z.of_nat i)) ltac:(lia) (Z.to_nat (e + Z.of_nat j)) ltac:(lia)).
  by rewrite !Z2Nat.id in Hd by lia.
Qed.

(** Two blocks of one array. *)
Lemma disjoint_blocks p n d e :
  d + Z.of_nat n <= e ∨ e + Z.of_nat n <= d → disjoint_bytes (ptr_add p d) n (ptr_add p e) n.
Proof. intros Hd i Hi j Hj E. rewrite !ptr_add_assoc in E. apply ptr_add_ofs_inj in E. lia. Qed.

Lemma disjoint_bytes_sym p n q m : disjoint_bytes p n q m → disjoint_bytes q m p n.
Proof. intros Hd i Hi j Hj E. by eapply Hd. Qed.

Lemma read_bytes_length b p n : length (read_bytes b p n) = n.
Proof. unfold read_bytes. by rewrite length_fmap, length_seq. Qed.

(** [l] written from [p + j] on. *)
Fixpoint put_bytes (m : bmem) (p : word) (j : Z) (l : list Z) : bmem :=
  match l with [] => m | v :: l => put_bytes (<[ptr_add p j := v]> m) p (j + 1) l end.

(** Bits put together with [|] and [<<]. *)
Lemma lor_high a b n : 0 <= n → 0 <= b < 2 ^ n → Z.lor (Z.shiftl a n) b = a * 2 ^ n + b.
Proof.
  intros Hn Hb. rewrite <- Z.add_nocarry_lor; [by rewrite Z.shiftl_mul_pow2|].
  apply Z.bits_inj'. intros i Hi. rewrite Z.land_spec, Z.bits_0. destruct (Z.lt_ge_cases i n) as [Hlt|Hge].
  - by rewrite Z.shiftl_spec_low.
  - rewrite <- (Z.mod_small b (2 ^ n)), Z.mod_pow2_bits_high by lia. apply andb_false_r.
Qed.
