(* ===== verification/Ring.v ===== *)
(** * Ring buffer (ring.c)

    A ring is a byte buffer with two 8-bit cursors; one slot is meant to stay
    free so that equal cursors mean an empty ring. *)

From S2P Require Import Prelude Types Bytes World.

Record k_ring := { buffer : word; rd : Z; wr : Z; rsize : Z }.
#[global] Instance k_ring_inhabited : Inhabited k_ring :=
  populate {| buffer := NULL; rd := 0; wr := 0; rsize := 0 |}.

(** The rings, by address, and the bytes of the buffers. *)
Record ring_state := { rings : gmap word k_ring; rbytes : bmem }.

Section Ring.
Context `{Config}.

Definition rg (s : ring_state) (p : word) : k_ring := rings s !!! p.
Definition set_ring (p : word) (x : k_ring) (s : ring_state) : ring_state :=
  {| rings := <[p := x]> (rings s); rbytes := rbytes s |}.
Definition set_rbyte (p : word) (v : Z) (s : ring_state) : ring_state :=
  {| rings := rings s; rbytes := <[p := v]> (rbytes s) |}.

Definition k_ring_init (ring buf : word) (sz : Z) (s : ring_state) : Z * ring_state :=
  if negb (z_user (nonnull ring && nonnull buf && negb (sz =? 0))) then (- EINVAL, s)
  else (0, set_ring ring {| buffer := buf; rd := 0; wr := 0; rsize := sz |} s).

Definition k_ring_push (ring : word) (data : Z) (s : ring_state) : Z * ring_state :=
  if negb (z_user (nonnull ring)) then (- EINVAL, s)
  else
    let x := rg s ring in
    let r := rd x in
    let w := wr x in
    let rem := u8 (rsize x - (w - r) - 1) in
    if rem =? 0 then (- ENOMEM, s)
    else
      let s := set_rbyte (ptr_add (buffer x) w) data s in
      let w := u8 (w + 1) in
      let w := if w =? rsize x then 0 else w in
      (0, set_ring ring {| buffer := buffer x; rd := rd x; wr := w; rsize := rsize x |} s).

Definition k_ring_pop (ring data : word) (s : ring_state) : Z * ring_state :=
  if negb (z_user (nonnull ring && nonnull data)) then (- EINVAL, s)
  else
    let x := rg s ring in
    let w := wr x in
    let r := rd x in
    if r =? w then (- EAGAIN, s)
    else
      let s := set_rbyte data (rdb (rbytes s) (ptr_add (buffer x) r)) s in
      let r := u8 (r + 1) in
      let r := if r =? rsize x then 0 else r in
      (0, set_ring ring {| buffer := buffer x; rd := r; wr := wr x; rsize := rsize x |} s).

Definition k_ring_reset (ring : word) (s : ring_state) : Z * ring_state := (- ENOTSUP, s).

(** ** Representation: the bytes from the read cursor on, cyclically *)

Definition ring_slot (x : k_ring) (i : Z) : word := ptr_add (buffer x) ((rd x + i) mod rsize x).

Record ring_holds (s : ring_state) (p : word) (items : list Z) : Prop := {
  rh_nonnull : p ≠ NULL;
  rh_size : 0 < rsize (rg s p) < 256;
  rh_rd : 0 <= rd (rg s p) < rsize (rg s p);
  rh_wr : wr (rg s p) = (rd (rg s p) + Z.of_nat (length items)) mod rsize (rg s p);
  rh_room : Z.of_nat (length items) < rsize (rg s p);
  rh_items i v : items !! i = Some v → rdb (rbytes s) (ring_slot (rg s p) (Z.of_nat i)) = v;
}.

Lemma rg_set p x s : rg (set_ring p x s) p = x.
Proof. unfold rg, set_ring. simpl. by rewrite lookup_total_insert_eq. Qed.

(** Moving a cursor is an increment modulo the size. *)
Lemma cursor_next c n : 0 <= c < n → n < 256 →
  (if u8 (c + 1) =? n then 0 else u8 (c + 1)) = (c + 1) mod n.
Proof.
  intros ??. rewrite u8_small by lia. destruct (Z.eqb_spec (c + 1) n) as [->|].
  - by rewrite Z.mod_same by lia.
  - by rewrite Z.mod_small by lia.
Qed.

(** The cursors of a ring of at most 128 bytes: the free space computed is 0
    exactly when the ring is full and has not wrapped. *)
Lemma ring_rem sz r n :
  0 < sz <= 128 → 0 <= r < sz → 0 <= n < sz →
  u8 (sz - ((r + n) mod sz - r) - 1) = 0 ↔ r = 0 ∧ n = sz - 1.
Proof.
  intros Hs Hr Hn. assert (Hm : (r + n) mod sz = r + n ∧ r + n < sz ∨ (r + n) mod sz = r + n - sz ∧ sz <= r + n).
  { destruct (decide (r + n < sz)); [left; by rewrite Z.mod_small by lia|right].
    split; [|lia]. symmetry. apply (Z.mod_unique _ _ 1); lia. }
  destruct Hm as [[-> Hlt]|[-> Hlt]].
  - rewrite u8_small by lia. lia.
  - rewrite u8_small by lia. lia.
Qed.

Lemma ring_slot_ne x i j :
  0 < rsize x → 0 <= i < rsize x → 0 <= j < rsize x → i ≠ j → ring_slot x i ≠ ring_slot x j.
Proof.
  intros Hs Hi Hj Hne E%ptr_add_ofs_inj. apply Hne.
  rewrite <- (Z.mod_small i (rsize x)), <- (Z.mod_small j (rsize x)) by done.
  replace i with (rd x + i - rd x) by lia. replace j with (rd x + j - rd x) by lia.
  by rewrite <- (Zminus_mod_idemp_l (rd x + i)), E, Zminus_mod_idemp_l.
Qed.

(** A push on a ring of at most 128 bytes with room stores the byte behind
    those it holds; a full ring whose read cursor is 0 refuses the byte. *)
Theorem k_ring_push_spec p data s items :
  ring_holds s p items → rsize (rg s p) <= 128 →
  let n := Z.of_nat (length items) in
  if n <? rsize (rg s p) - 1 then
    ∃ s', k_ring_push p data s = (0, s') ∧ ring_holds s' p (items ++ [data])
  else rd (rg s p) = 0 → k_ring_push p data s = (- ENOMEM, s).
Proof.
  intros Hh Hs n. destruct Hh as [Hp Hsz Hrd Hwr Hroom Hit].
  pose proof (ring_rem (rsize (rg s p)) (rd (rg s p)) n) as Hrem.
  unfold k_ring_push. rewrite z_user_true by by apply nonnull_true. cbn zeta.
  rewrite Hwr. fold n. destruct (Z.ltb_spec n (rsize (rg s p) - 1)) as [Hlt|Hge].
  - rewrite (proj2 (Z.eqb_neq _ 0)) by (rewrite Hrem; lia).
    rewrite cursor_next; [|apply Z.mod_pos_bound; lia|lia].
    eexists. split; [done|]. split; rewrite ?rg_set; cbn [buffer rd wr rsize]; [done..| | |].
    + rewrite length_app. cbn [length]. rewrite Zplus_mod_idemp_l. f_equal. lia.
    + rewrite length_app. cbn [length]. lia.
    + intros i v Hi. unfold set_rbyte, set_ring. cbn [rbytes]. unfold ring_slot. cbn [buffer rd rsize].
      fold (ring_slot (rg s p) n). fold (ring_slot (rg s p) (Z.of_nat i)). rewrite rdb_insert.
      destruct (decide (i = length items)) as [->|Hne].
      * rewrite lookup_app_r, Nat.sub_diag in Hi by done. simpl in Hi.
        rewrite decide_True by done. congruence.
      * pose proof (lookup_lt_Some _ _ _ Hi) as Hl. rewrite length_app in Hl. cbn [length] in Hl.
        rewrite lookup_app_l in Hi by lia. rewrite decide_False; [by apply Hit|].
        apply ring_slot_ne; lia.
  - intros Hr0. rewrite (proj2 (Z.eqb_eq _ 0)); [done|]. apply Hrem; lia.
Qed.

(** A pop takes out the oldest byte, and reports an empty ring. *)
Theorem k_ring_pop_spec p q s items :
  ring_holds s p items → q ≠ NULL → outside q (buffer (rg s p)) (Z.to_nat (rsize (rg s p))) →
  match items with
  | [] => k_ring_pop p q s = (- EAGAIN, s)
  | v :: items' => ∃ s', k_ring_pop p q s = (0, s') ∧ rdb (rbytes s') q = v ∧ ring_holds s' p items'
  end.
Proof.
  intros Hh Hq Hout. destruct Hh as [Hp Hsz Hrd Hwr Hroom Hit].
  unfold k_ring_pop. rewrite z_user_true by by rewrite !nonnull_true. cbn zeta. rewrite Hwr.
  destruct items as [|v items].
  - cbn [length]. rewrite Z.add_0_r, Z.mod_small by done. by rewrite Z.eqb_refl.
  - assert (Hne : rd (rg s p) ≠ (rd (rg s p) + Z.of_nat (length (v :: items))) mod rsize (rg s p)).
    { cbn [length] in *. destruct (decide (rd (rg s p) + Z.of_nat (S (length items)) < rsize (rg s p))).
      - rewrite Z.mod_small by lia. lia.
      - intros E. rewrite <- (Z.mod_add _ (-1)), Z.mod_small in E by lia. lia. }
    rewrite (proj2 (Z.eqb_neq _ _) Hne). rewrite cursor_next by lia.
    pose proof (Hit 0%nat v eq_refl) as H0. unfold ring_slot in H0. cbn [Z.of_nat] in H0.
    rewrite Z.add_0_r, Z.mod_small in H0 by done. rewrite H0.
    eexists. split; [done|]. split.
    { cbn [rbytes set_ring set_rbyte]. rewrite rdb_insert. by rewrite decide_True. }
    split; rewrite ?rg_set; cbn [buffer rd wr rsize rbytes set_ring set_rbyte]; [done|done|by apply Z.mod_pos_bound; lia| | |].
    + cbn [length]. rewrite Zplus_mod_idemp_l. f_equal. lia.
    + cbn [length] in Hroom. lia.
    + intros i u Hi. rewrite rdb_insert. unfold ring_slot. cbn [buffer rd rsize].
      rewrite Zplus_mod_idemp_l. replace (rd (rg s p) + 1 + Z.of_nat i) with (rd (rg s p) + Z.of_nat (S i)) by lia.
      rewrite decide_False; [by apply (Hit (S i))|].
      pose proof (Z.mod_pos_bound (rd (rg s p) + Z.of_nat (S i)) (rsize (rg s p))).
      specialize (Hout (Z.to_nat ((rd (rg s p) + Z.of_nat (S i)) mod rsize (rg s p)))).
      rewrite Z2Nat.id in Hout by lia. apply Hout. lia.
Qed.

(** A full ring whose read cursor is not 0 accepts one more byte, and the
    ring is then empty: all the bytes it held, and the new one, are lost. *)
Theorem k_ring_push_full p data s items :
  ring_holds s p items → rsize (rg s p) <= 128 →
  Z.of_nat (length items) = rsize (rg s p) - 1 → rd (rg s p) ≠ 0 →
  ∃ s', k_ring_push p data s = (0, s') ∧ ring_holds s' p [].
Proof.
  intros Hh Hs Hn Hr. destruct Hh as [Hp Hsz Hrd Hwr Hroom Hit].
  pose proof (ring_rem (rsize (rg s p)) (rd (rg s p)) (Z.of_nat (length items))) as Hrem.
  unfold k_ring_push. rewrite z_user_true by by apply nonnull_true. cbn zeta. rewrite Hwr.
  rewrite (proj2 (Z.eqb_neq _ 0)) by (rewrite Hrem; lia).
  rewrite cursor_next; [|apply Z.mod_pos_bound; lia|lia].
  eexists. split; [done|]. split; rewrite ?rg_set; cbn [buffer rd wr rsize length]; [done..| |lia|].
  - rewrite Zplus_mod_idemp_l, Hn. replace (rd (rg s p) + (rsize (rg s p) - 1) + 1)
      with (rd (rg s p) + 0 + 1 * rsize (rg s p)) by lia. apply Z.mod_add. lia.
  - intros i v Hi. by rewrite lookup_nil in Hi.
Qed.
End Ring.

(** ** Instances *)

Definition w_ring : word := Ptr 61 0.
Definition w_ring_buf : word := Ptr 62 0.

(** A ring of 4 bytes with cursor [r] that holds [n] times the byte 7. *)
Definition w_rings (r n : Z) : ring_state := {|
  rings := {[w_ring := {| buffer := w_ring_buf; rd := r; wr := (r + n) mod 4; rsize := 4 |}]};
  rbytes := list_to_map ((λ i, (ptr_add w_ring_buf i, 7)) <$> [0; 1; 2; 3]) |}.

Lemma w_rings_hold r n : 0 <= r < 4 → (n < 4)%nat → ring_holds (w_rings r (Z.of_nat n)) w_ring (replicate n 7).
Proof.
  intros Hr Hn.
  assert (E : rg (w_rings r (Z.of_nat n)) w_ring
              = {| buffer := w_ring_buf; rd := r; wr := (r + Z.of_nat n) mod 4; rsize := 4 |})
    by (unfold rg, w_rings; cbn [rings]; by rewrite lookup_total_singleton).
  split; rewrite ?E, ?length_replicate; cbn [rsize rd wr]; [done|lia|done|done|lia|].
  intros i v [-> Hi]%lookup_replicate. unfold ring_slot, w_rings. cbn [rbytes]. cbn [buffer rd rsize].
  assert (Hc : 0 <= (r + Z.of_nat i) mod 4 < 4) by by apply Z.mod_pos_bound.
  revert Hc. generalize ((r + Z.of_nat i) mod 4). intros c Hc.
  assert (c = 0 ∨ c = 1 ∨ c = 2 ∨ c = 3) as [-> | [-> | [-> | ->]]] by lia; reflexivity.
Qed.

Lemma k_ring_push_witness :
  ∃ s', k_ring_push w_ring 9 (w_rings 3 2) = (0, s') ∧ ring_holds s' w_ring [7; 7; 9].
Proof.
  exact (k_ring_push_spec w_ring 9 (w_rings 3 2) [7; 7] (w_rings_hold 3 2 ltac:(lia) ltac:(lia)) ltac:(by vm_compute)).
Defined.

Lemma k_ring_pop_witness :
  ∃ s', k_ring_pop w_ring (Ptr 63 0) (w_rings 3 2) = (0, s') ∧ rdb (rbytes s') (Ptr 63 0) = 7 ∧
    ring_holds s' w_ring [7].
Proof.
  apply (k_ring_pop_spec w_ring (Ptr 63 0) (w_rings 3 2) [7; 7] (w_rings_hold 3 2 ltac:(lia) ltac:(lia)));
    [done|]. by intros i _.
Defined.

Lemma k_ring_push_full_witness :
  ∃ s', k_ring_push w_ring 9 (w_rings 1 3) = (0, s') ∧ ring_holds s' w_ring [].
Proof.
  apply (k_ring_push_full w_ring 9 (w_rings 1 3) [7; 7; 7] (w_rings_hold 1 3 ltac:(lia) ltac:(lia)));
    by vm_compute.
Defined.
