(* ===== verification/Prng.v ===== *)
(** * Pseudo-random numbers (prng.c)

    Two linear feedback shift registers of 32 and 31 bits. *)

From S2P Require Import Prelude Bytes.

Definition K_PRNG_POLY_MASK_32 : Z := 0xB4BCD35C.
Definition K_PRNG_POLY_MASK_31 : Z := 0x7A5BC2E3.

Record k_prng := { lfsr32 : Z; lfsr31 : Z }.

(** [K_PRNG_DEFINE_DEFAULT]. *)
Definition K_PRNG_DEFAULT : k_prng := {| lfsr32 := 0x000ABCDE; lfsr31 := 0x23456789 |}.

(** The new value of the register, which is also the result. *)
Definition z_shift_lfsr (lfsr poly_mask : Z) : Z :=
  let feedback := Z.land lfsr 1 in
  let lfsr := Z.shiftr lfsr 1 in
  if negb (feedback =? 0) then Z.lxor lfsr poly_mask else lfsr.

Definition k_prng_get (prng : k_prng) : Z * k_prng :=
  let a := z_shift_lfsr (lfsr32 prng) K_PRNG_POLY_MASK_32 in
  let a := z_shift_lfsr a K_PRNG_POLY_MASK_32 in
  let b := z_shift_lfsr (lfsr31 prng) K_PRNG_POLY_MASK_31 in
  (Z.lxor (u16 a) (u16 b), {| lfsr32 := a; lfsr31 := b |}).

Definition k_prng_get_u32 (prng : k_prng) : Z * k_prng :=
  let '(rdm1, prng) := k_prng_get prng in
  let '(rdm2, prng) := k_prng_get prng in
  (Z.lor rdm1 (Z.shiftl rdm2 16), prng).

(** A 16-bit store, low byte first. *)
Definition wr16 (b : bmem) (p : word) (v : Z) : bmem :=
  <[ptr_add p 1 := Z.shiftr v 8]> (<[p := u8 v]> b).

Fixpoint k_prng_get_buffer_loop (n : nat) (i : Z) (prng : k_prng) (b : bmem) (buffer : word)
    : bmem * k_prng :=
  match n with
  | O => (b, prng)
  | S n =>
      let '(v, prng) := k_prng_get prng in
      k_prng_get_buffer_loop n (i + 1) prng (wr16 b (ptr_add buffer (2 * i)) v) buffer
  end.

Definition k_prng_get_buffer (prng : k_prng) (b : bmem) (buffer : word) (len : Z) : bmem * k_prng :=
  let '(b, prng) := k_prng_get_buffer_loop (Z.to_nat (Z.shiftr len 1)) 0 prng b buffer in
  if negb (Z.land len 1 =? 0) then
    let '(v, prng) := k_prng_get prng in (<[ptr_add buffer (len - 1) := u8 v]> b, prng)
  else (b, prng).

(** ** The registers never get stuck

    A shift is undone from its result: the bit shifted out is the top bit of
    the result, because the mask has that bit. *)
Definition unshift_lfsr (n y poly_mask : Z) : Z :=
  if Z.testbit y (n - 1) then Z.lor (Z.shiftl (Z.lxor y poly_mask) 1) 1 else Z.shiftl y 1.

(** A mask for a register of [n] bits. *)
Definition mask_ok (n m : Z) : Prop := 0 < n ∧ 0 <= m < 2 ^ n ∧ Z.testbit m (n - 1) = true.

Lemma mask_32 : mask_ok 32 K_PRNG_POLY_MASK_32.
Proof. repeat split; done. Qed.
Lemma mask_31 : mask_ok 31 K_PRNG_POLY_MASK_31.
Proof. repeat split; done. Qed.

Lemma land_1_testbit x : negb (Z.land x 1 =? 0) = Z.testbit x 0.
Proof.
  change (Z.land x 1) with (Z.land x (Z.ones 1)). rewrite Z.land_ones by done.
  change (2 ^ 1) with 2. rewrite Z.bit0_odd, Zmod_odd. by destruct (Z.odd x).
Qed.

Lemma shiftr_top n x : 0 < n → 0 <= x < 2 ^ n → Z.testbit (Z.shiftr x 1) (n - 1) = false.
Proof.
  intros Hn Hx. rewrite Z.shiftr_spec by lia. replace (n - 1 + 1) with n by lia.
  destruct (decide (x = 0)) as [->|]; [apply Z.bits_0|].
  apply Z.bits_above_log2; [lia|]. apply Z.log2_lt_pow2; lia.
Qed.

Lemma lxor_bound n a b : 0 <= n → 0 <= a < 2 ^ n → 0 <= b < 2 ^ n → 0 <= Z.lxor a b < 2 ^ n.
Proof.
  intros Hn Ha Hb. split; [apply Z.lxor_nonneg; lia|].
  rewrite <- (Z.mod_small a (2 ^ n)), <- (Z.mod_small b (2 ^ n)), <- !Z.land_ones by done.
  assert (E : Z.lxor (Z.land a (Z.ones n)) (Z.land b (Z.ones n)) = Z.land (Z.lxor a b) (Z.ones n)).
  { apply Z.bits_inj'. intros i Hi. rewrite !Z.lxor_spec, !Z.land_spec, Z.lxor_spec.
    by destruct (Z.testbit a i), (Z.testbit b i), (Z.testbit (Z.ones n) i). }
  rewrite E, Z.land_ones by done. apply Z.mod_pos_bound. by apply Z.pow_pos_nonneg.
Qed.

Lemma z_shift_lfsr_range n x m : mask_ok n m → 0 <= x < 2 ^ n → 0 <= z_shift_lfsr x m < 2 ^ n.
Proof.
  intros (Hn&Hm&_) Hx. unfold z_shift_lfsr.
  assert (Hs : 0 <= Z.shiftr x 1 < 2 ^ n).
  { rewrite Z.shiftr_div_pow2 by done. change (2 ^ 1) with 2. pose proof (Z.div_mod x 2).
    pose proof (Z.mod_pos_bound x 2). lia. }
  destruct (negb _); [|done]. apply lxor_bound; [lia|done|done].
Qed.

Lemma unshift_shift n x m : mask_ok n m → 0 <= x < 2 ^ n → unshift_lfsr n (z_shift_lfsr x m) m = x.
Proof.
  intros (Hn&Hm&Ht) Hx. unfold unshift_lfsr, z_shift_lfsr. rewrite land_1_testbit.
  pose proof (shiftr_top n x Hn Hx) as Hs.
  assert (Hx2 : ∀ i, 0 <= i → Z.testbit x i = if i =? 0 then Z.testbit x 0 else Z.testbit (Z.shiftr x 1) (i - 1)).
  { intros i Hi. destruct (Z.eqb_spec i 0) as [->|]; [done|]. rewrite Z.shiftr_spec by lia. f_equal. lia. }
  destruct (Z.testbit x 0) eqn:E0; cbn [negb].
  - rewrite Z.lxor_spec, Hs, Ht. cbn [xorb]. rewrite Z.lxor_assoc, Z.lxor_nilpotent, Z.lxor_0_r.
    apply Z.bits_inj'. intros i Hi. rewrite Hx2 by done. rewrite Z.lor_spec, Z.shiftl_spec by done.
    destruct (Z.eqb_spec i 0) as [->|]; [done|].
    assert (Z.testbit 1 i = false) as -> by (apply (Z.pow2_bits_false 0 i); lia). apply orb_false_r.
  - rewrite Hs. apply Z.bits_inj'. intros i Hi. rewrite Hx2 by done. rewrite Z.shiftl_spec by done.
    destruct (Z.eqb_spec i 0) as [->|]; done.
Qed.

Lemma z_shift_lfsr_nonzero n x m : mask_ok n m → 0 < x < 2 ^ n → z_shift_lfsr x m ≠ 0.
Proof.
  intros Hm [Hx Hx2] E. assert (Hu : unshift_lfsr n (z_shift_lfsr x m) m = x).
  { apply unshift_shift; [done|]. split; [by apply Z.lt_le_incl|done]. }
  rewrite E in Hu. unfold unshift_lfsr in Hu. rewrite Z.bits_0 in Hu. cbn in Hu. subst x. done.
Qed.

(** A generator that is not stuck. *)
Definition prng_ok (p : k_prng) : Prop := 0 < lfsr32 p < 2 ^ 32 ∧ 0 < lfsr31 p < 2 ^ 31.

Definition k_prng_next (p : k_prng) : k_prng := (k_prng_get p).2.

Lemma shift_pos n x m : mask_ok n m → 0 < x < 2 ^ n → 0 < z_shift_lfsr x m < 2 ^ n.
Proof.
  intros Hm Hx. pose proof (z_shift_lfsr_range n x m Hm ltac:(lia)).
  pose proof (z_shift_lfsr_nonzero n x m Hm Hx). lia.
Qed.

Lemma k_prng_next_ok p : prng_ok p → prng_ok (k_prng_next p).
Proof.
  intros [H1 H2]. split; cbn [k_prng_next k_prng_get snd lfsr32 lfsr31].
  - apply (shift_pos 32); [apply mask_32|]. apply (shift_pos 32); [apply mask_32|done].
  - by apply (shift_pos 31); [apply mask_31|].
Qed.

Lemma u16_lxor_range a b : 0 <= Z.lxor (u16 a) (u16 b) < 65536.
Proof. change 65536 with (2 ^ 16). apply lxor_bound; [done|apply u16_range..]. Qed.

(** From seeds that are not 0 the generator never reaches a stuck register
    and distinct states have distinct successors, so that no output sequence
    merges into another; every output fits 16 bits. *)
Theorem k_prng_never_stuck p q :
  prng_ok p → prng_ok q →
  (∀ n, prng_ok (Nat.iter n k_prng_next p)) ∧
  (k_prng_next p = k_prng_next q → p = q) ∧ 0 <= (k_prng_get p).1 < 65536.
Proof.
  intros Hp Hq. split_and!.
  - induction n as [|n IH]; [done|]. rewrite Nat.iter_succ. by apply k_prng_next_ok.
  - intros E. destruct Hp as [Hp1 Hp2], Hq as [Hq1 Hq2].
    unfold k_prng_next, k_prng_get in E. simpl in E. injection E as E32 E31.
    apply (f_equal (λ y, unshift_lfsr 31 y K_PRNG_POLY_MASK_31)) in E31.
    rewrite !(unshift_shift 31) in E31 by (apply mask_31 || lia).
    do 2 apply (f_equal (λ y, unshift_lfsr 32 y K_PRNG_POLY_MASK_32)) in E32.
    rewrite !(unshift_shift 32 (z_shift_lfsr _ _)) in E32
      by (apply mask_32 || (apply z_shift_lfsr_range; [apply mask_32|lia])).
    rewrite !(unshift_shift 32) in E32 by (apply mask_32 || lia).
    destruct p, q. simpl in *. congruence.
  - apply u16_lxor_range.
  - apply u16_lxor_range.
Qed.

(** ** Filling a buffer *)

(** The outputs of the generator, and their bytes, low byte first. *)
Fixpoint prng_outputs (n : nat) (p : k_prng) : list Z :=
  match n with O => [] | S n => (k_prng_get p).1 :: prng_outputs n (k_prng_next p) end.
Definition le_bytes (vs : list Z) : list Z := v ← vs; [u8 v; Z.shiftr v 8].

Lemma k_prng_get_range p : 0 <= (k_prng_get p).1 < 65536.
Proof. apply u16_lxor_range. Qed.

Lemma rdb_wr16 b p v i : 0 <= v < 65536 →
  rdb (wr16 b p v) (ptr_add p i) =
    if i =? 0 then u8 v else if i =? 1 then Z.shiftr v 8 else rdb b (ptr_add p i).
Proof.
  intros Hv. unfold wr16. rewrite !rdb_insert.
  destruct (Z.eqb_spec i 0) as [->|H0].
  - rewrite ptr_add_0, decide_False, decide_True; [done..|].
    intros E. rewrite <- (ptr_add_0 p) in E at 2. by apply ptr_add_ofs_inj in E.
  - destruct (Z.eqb_spec i 1) as [->|H1]; [by rewrite decide_True|].
    rewrite !decide_False; [done| |].
    + intros E. rewrite <- (ptr_add_0 p) in E at 1. by apply ptr_add_ofs_inj in E.
    + intros E. by apply ptr_add_ofs_inj in E.
Qed.

Lemma prng_outputs_length n p : length (prng_outputs n p) = n.
Proof. revert p. induction n as [|n IH]; intros p; [done|]. simpl. by rewrite IH. Qed.

Lemma prng_outputs_snoc n p :
  prng_outputs (S n) p = prng_outputs n p ++ [(k_prng_get (Nat.iter n k_prng_next p)).1].
Proof.
  revert p. induction n as [|n IH]; intros p; [done|].
  change (prng_outputs (S (S n)) p) with ((k_prng_get p).1 :: prng_outputs (S n) (k_prng_next p)).
  rewrite IH, Nat.iter_succ_r. done.
Qed.

Lemma k_prng_get_buffer_loop_spec n i p b buffer :
  0 <= i →
  let '(b', p') := k_prng_get_buffer_loop n i p b buffer in
  p' = Nat.iter n k_prng_next p ∧
  ∀ j, rdb b' (ptr_add buffer j) =
    match prng_outputs n p !! Z.to_nat ((j - 2 * i) / 2) with
    | Some v => if decide (2 * i <= j) then if Z.even j then u8 v else Z.shiftr v 8
                else rdb b (ptr_add buffer j)
    | None => rdb b (ptr_add buffer j)
    end.
Proof.
  revert i p b. induction n as [|n IH]; intros i p b Hi; cbn [k_prng_get_buffer_loop]; [done|].
  rewrite (surjective_pairing (k_prng_get p)). fold (k_prng_next p).
  specialize (IH (i + 1) (k_prng_next p) (wr16 b (ptr_add buffer (2 * i)) (k_prng_get p).1) ltac:(lia)).
  destruct (k_prng_get_buffer_loop n _ _ _ _) as [b' p'] eqn:E. destruct IH as [-> IH].
  split; [by rewrite Nat.iter_succ_r|]. intros j. rewrite IH.
  set (v := (k_prng_get p).1).
  assert (Hw : rdb (wr16 b (ptr_add buffer (2 * i)) v) (ptr_add buffer j) =
    if j - 2 * i =? 0 then u8 v else if j - 2 * i =? 1 then Z.shiftr v 8 else rdb b (ptr_add buffer j)).
  { replace (ptr_add buffer j) with (ptr_add (ptr_add buffer (2 * i)) (j - 2 * i))
      by (rewrite ptr_add_assoc; f_equal; lia).
    by apply rdb_wr16, k_prng_get_range. }
  rewrite Hw. clear Hw IH E. cbn [prng_outputs]. fold v.
  destruct (decide (2 * (i + 1) <= j)) as [Hge|Hlt].
  - replace (Z.to_nat ((j - 2 * i) / 2)) with (S (Z.to_nat ((j - 2 * (i + 1)) / 2))).
    + rewrite lookup_cons, (proj2 (Z.eqb_neq _ 0)), (proj2 (Z.eqb_neq _ 1)) by lia.
      destruct (prng_outputs n _ !! _); [|done]. by rewrite decide_True by lia.
    + replace (j - 2 * i) with (j - 2 * (i + 1) + 1 * 2) by lia. rewrite Z.div_add by done.
      pose proof (Z.div_pos (j - 2 * (i + 1)) 2). lia.
  - assert (Hz : ∀ d, d < 2 → Z.to_nat (d / 2) = 0%nat).
    { intros d Hd. pose proof (Z.div_lt_upper_bound d 2 1). lia. }
    rewrite (Hz (j - 2 * i)) by lia. rewrite lookup_cons.
    assert (∀ (o : option Z) (x : Z), match o with Some _ => x | None => x end = x) as -> by by intros [].
    destruct (decide (2 * i <= j)).
    + assert (j = 2 * i + 0 ∨ j = 2 * i + 1) as [->|Ej] by lia.
      * rewrite (proj2 (Z.eqb_eq _ 0)), Z.add_0_r, Z.even_mul by lia. done.
      * rewrite (proj2 (Z.eqb_neq _ 0)), (proj2 (Z.eqb_eq _ 1)) by lia.
        assert (Z.even j = false) as ->; [|done].
        rewrite Ej, Z.add_comm, Z.even_add_mul_2. done.
    + rewrite (proj2 (Z.eqb_neq _ 0)), (proj2 (Z.eqb_neq _ 1)) by lia. done.
Qed.

Lemma le_bytes_lookup vs i :
  le_bytes vs !! i = (λ v, if Nat.even i then u8 v else Z.shiftr v 8) <$> vs !! Nat.div2 i.
Proof.
  revert i. induction vs as [|v vs IH]; intros i; [done|].
  change (le_bytes (v :: vs)) with (u8 v :: Z.shiftr v 8 :: le_bytes vs).
  destruct i as [|[|i]]; [done..|]. cbn [lookup list_lookup Nat.even Nat.div2]. apply IH.
Qed.

Lemma read_bytes_lookup b p n i :
  (i < n)%nat → read_bytes b p n !! i = Some (rdb b (ptr_add p (Z.of_nat i))).
Proof.
  intros Hi. unfold read_bytes. rewrite list_lookup_fmap, lookup_seq_lt by done. done.
Qed.

Lemma div2_index i : 0 <= i → Z.to_nat (i / 2) = Nat.div2 (Z.to_nat i) ∧ Z.even i = Nat.even (Z.to_nat i).
Proof.
  intros Hi. rewrite <- (Z2Nat.id i) at 1 3 by done. generalize (Z.to_nat i). clear. intros n.
  rewrite Nat.div2_div, Z2Nat.inj_div by lia. rewrite Nat2Z.id. split; [done|].
  induction n as [n IH] using (well_founded_induction Nat.lt_wf_0).
  destruct n as [|[|n]]; [done..|]. cbn [Nat.even]. rewrite <- IH by lia.
  replace (Z.of_nat (S (S n))) with (Z.of_nat n + 2 * 1) by lia. apply Z.even_add_mul_2.
Qed.

(** [k_prng_get_buffer] writes the successive outputs of the generator, low
    byte first, and the low byte of one more output behind them when the
    length is odd; it touches no other byte. *)
Theorem k_prng_get_buffer_spec p b buffer len :
  0 <= len < 65536 →
  let '(b', p') := k_prng_get_buffer p b buffer len in
  read_bytes b' buffer (Z.to_nat len) = take (Z.to_nat len) (le_bytes (prng_outputs (Z.to_nat ((len + 1) / 2)) p)) ∧
  p' = Nat.iter (Z.to_nat ((len + 1) / 2)) k_prng_next p ∧
  ∀ j, j < 0 ∨ len <= j → rdb b' (ptr_add buffer j) = rdb b (ptr_add buffer j).
Proof.
  intros Hl. unfold k_prng_get_buffer.
  pose proof (k_prng_get_buffer_loop_spec (Z.to_nat (Z.shiftr len 1)) 0 p b buffer ltac:(lia)) as Hs.
  destruct (k_prng_get_buffer_loop _ _ _ _ _) as [b1 p1]. destruct Hs as [-> Hs].
  assert (E1 : Z.shiftr len 1 = len / 2) by (rewrite Z.shiftr_div_pow2 by done; done).
  rewrite E1 in Hs |- *.
  assert (E2 : Z.land len 1 = len mod 2).
  { change (Z.land len 1) with (Z.land len (Z.ones 1)). by rewrite Z.land_ones. }
  rewrite E2. clear E1 E2. pose proof (Z.div_mod len 2) as Hdm. pose proof (Z.mod_pos_bound len 2) as Hmb.
  set (n := Z.to_nat (len / 2)) in *.
  assert (Hread : ∀ j, rdb b1 (ptr_add buffer j) =
    match prng_outputs n p !! Z.to_nat (j / 2) with
    | Some v => if decide (0 <= j) then if Z.even j then u8 v else Z.shiftr v 8 else rdb b (ptr_add buffer j)
    | None => rdb b (ptr_add buffer j) end).
  { intros j. rewrite Hs. by rewrite Z.mul_0_r, Z.sub_0_r. }
  assert (Hout : ∀ j, j < 0 ∨ Z.of_nat n * 2 <= j → rdb b1 (ptr_add buffer j) = rdb b (ptr_add buffer j)).
  { intros j Hj. rewrite Hread. destruct (decide (0 <= j)).
    - rewrite lookup_ge_None_2; [done|]. rewrite prng_outputs_length.
      pose proof (Z.div_le_lower_bound j 2 (Z.of_nat n)). lia.
    - by destruct (_ !! _). }
  assert (Hin : ∀ i, (i < 2 * n)%nat →
    le_bytes (prng_outputs n p) !! i = Some (rdb b1 (ptr_add buffer (Z.of_nat i)))).
  { intros i Hi. rewrite le_bytes_lookup, Hread.
    destruct (div2_index (Z.of_nat i)) as [-> ->]; [lia|]. rewrite Nat2Z.id.
    destruct (lookup_lt_is_Some_2 (prng_outputs n p) (Nat.div2 i)) as [v ->].
    { rewrite prng_outputs_length, Nat.div2_div. apply Nat.Div0.div_lt_upper_bound. lia. }
    cbn [fmap option_fmap option_map]. by rewrite decide_True by lia. }
  clear Hs Hread. destruct (Z.eqb_spec (len mod 2) 0) as [E0|E0]; cbn [negb].
  - replace (Z.to_nat ((len + 1) / 2)) with n by (unfold n; f_equal; apply Z.div_unique with 1; lia).
    split_and!; [|done|intros j Hj; apply Hout; lia].
    apply list_eq. intros i. destruct (decide (i < Z.to_nat len)%nat) as [Hi|Hi].
    + rewrite read_bytes_lookup, lookup_take, decide_True by done. symmetry. apply Hin. lia.
    + rewrite !lookup_ge_None_2; [done|rewrite length_take; lia|rewrite read_bytes_length; lia].
  - replace (Z.to_nat ((len + 1) / 2)) with (S n).
    2:{ unfold n. rewrite <- Z2Nat.inj_succ by lia. f_equal. apply Z.div_unique with 0; lia. }
    assert (Hlen : len = 2 * Z.of_nat n + 1) by lia.
    set (p1 := Nat.iter n k_prng_next p). rewrite (surjective_pairing (k_prng_get p1)).
    change (prng_outputs (S n) p) with (prng_outputs (S n) p). rewrite prng_outputs_snoc. fold p1.
    set (v := (k_prng_get p1).1). split_and!; [|by rewrite Nat.iter_succ|].
    + apply list_eq. intros i. destruct (decide (i < Z.to_nat len)%nat) as [Hi|Hi].
      * rewrite read_bytes_lookup, lookup_take, decide_True by done. rewrite rdb_insert.
        unfold le_bytes. rewrite bind_app. fold (le_bytes (prng_outputs n p)). cbn [mbind list_bind app].
        assert (Hll : length (le_bytes (prng_outputs n p)) = (2 * n)%nat).
        { rewrite <- (prng_outputs_length n p) at 2. clear.
          induction (prng_outputs n p) as [|x l IH]; [done|].
          change (le_bytes (x :: l)) with (u8 x :: Z.shiftr x 8 :: le_bytes l). cbn [length]. lia. }
        destruct (decide (i < 2 * n)%nat).
        -- rewrite decide_False by (intros E%ptr_add_ofs_inj; lia).
           rewrite lookup_app_l, Hin by lia. done.
        -- rewrite decide_True by (f_equal; lia). rewrite lookup_app_r by lia.
           replace (i - _)%nat with 0%nat by lia. done.
      * rewrite !lookup_ge_None_2; [done|rewrite length_take; lia|rewrite read_bytes_length; lia].
    + intros j Hj. rewrite rdb_insert, decide_False by (intros E%ptr_add_ofs_inj; lia). apply Hout. lia.
Qed.

(** ** Instances *)

Lemma k_prng_never_stuck_witness :
  let p := K_PRNG_DEFAULT in
  prng_ok (Nat.iter 1000 k_prng_next p) ∧ 0 <= (k_prng_get p).1 < 65536.
Proof.
  assert (Hp : prng_ok K_PRNG_DEFAULT) by by split.
  destruct (k_prng_never_stuck K_PRNG_DEFAULT K_PRNG_DEFAULT Hp Hp) as (Hn&_&Hr).
  split; [exact (Hn 1000%nat)|exact Hr].
Defined.

Lemma k_prng_get_buffer_witness :
  read_bytes (k_prng_get_buffer K_PRNG_DEFAULT ∅ (Ptr 1 0) 3).1 (Ptr 1 0) 3 = [76; 13; 152].
Proof.
  destruct (k_prng_get_buffer_spec K_PRNG_DEFAULT ∅ (Ptr 1 0) 3 ltac:(lia)) as (E&_&_).
  etransitivity; [exact E|]. vm_compute. reflexivity.
Defined.
