(* ===== verification/Crc.v ===== *)
(** * Checksums (subsystems/crc.c) *)

From S2P Require Import Prelude.

(** One bit of [crc8]: the register shifts left, the polynomial is subtracted
    when the bit shifted out is 1. *)
Definition crc8_bit (crc : Z) : Z :=
  if negb (Z.land crc 0x80 =? 0) then u8 (Z.lxor (Z.shiftl crc 1) 0x31) else u8 (Z.shiftl crc 1).

Definition crc8_byte (crc byte : Z) : Z := Nat.iter 8 crc8_bit (Z.lxor crc byte).

(** The [while (len--)] loop, over the bytes of the buffer. *)
Definition crc8 (buf : list Z) : Z := foldl crc8_byte 0xff buf.

Definition CRC7_POLY : Z := 0x89.

Definition crc7_bit (crc : Z) : Z :=
  if negb (Z.land crc 0x80 =? 0) then u8 (Z.lxor (Z.shiftl crc 1) (Z.shiftl CRC7_POLY 1))
  else u8 (Z.shiftl crc 1).

Definition crc7_byte (crc byte : Z) : Z := Nat.iter 8 crc7_bit (Z.lxor crc byte).

Definition crc7 (data : list Z) : Z := Z.shiftr (foldl crc7_byte 0 data) 1.

(** ** The reference: division of polynomials over GF(2)

    A polynomial is the integer of its coefficients.  [gf2_step] brings down
    the next coefficient of the dividend and subtracts the divisor [poly], of
    degree [deg], when it goes in: schoolbook long division. *)
Definition gf2_step (deg poly : Z) (rem : Z) (b : bool) : Z :=
  let r := Z.lor (Z.shiftl rem 1) (Z.b2z b) in
  if Z.testbit r deg then Z.lxor r poly else r.

Definition gf2_mod (deg poly : Z) (coeffs : list bool) : Z := foldl (gf2_step deg poly) 0 coeffs.

(** The bits of a byte, the most significant first. *)
Definition byte_bits (v : Z) : list bool := (λ i, Z.testbit v i) <$> [7; 6; 5; 4; 3; 2; 1; 0].
Definition bits (buf : list Z) : list bool := buf ≫= byte_bits.

Definition byte_ok (v : Z) : Prop := 0 <= v < 256.
Definition all_bytes : list Z := Z.of_nat <$> seq 0 256.

Lemma byte_in v : byte_ok v → v ∈ all_bytes.
Proof.
  intros Hv. apply list_elem_of_fmap. exists (Z.to_nat v). rewrite Z2Nat.id by apply Hv.
  split; [done|]. apply elem_of_seq. unfold byte_ok in Hv. lia.
Qed.

(** A decidable fact that holds of all bytes, checked by evaluation. *)
Lemma for_bytes (P : Z → bool) : forallb P all_bytes = true → ∀ v, byte_ok v → P v = true.
Proof.
  intros Hall v Hv. rewrite forallb_forall in Hall. apply Hall.
  rewrite <- list_elem_of_In. by apply byte_in.
Qed.

Lemma lxor_byte a b : byte_ok a → byte_ok b → byte_ok (Z.lxor a b).
Proof.
  intros Ha Hb. unfold byte_ok in *. split; [apply Z.lxor_nonneg; lia|].
  destruct (Z.eq_dec (Z.lxor a b) 0) as [->|Hne]; [done|].
  assert (Hl : ∀ c, 0 <= c < 256 → Z.log2 c < 8).
  { intros c Hc. destruct (Z.eq_dec c 0) as [->|]; [done|]. apply Z.log2_lt_pow2; lia. }
  change 256 with (2 ^ 8). apply Z.log2_lt_pow2.
  - assert (0 <= Z.lxor a b) by (apply Z.lxor_nonneg; lia). lia.
  - eapply Z.le_lt_trans; [apply Z.log2_lxor; lia|]. apply Z.max_lub_lt; by apply Hl.
Qed.

(** ** Both checksums are the same linear register

    [reg_bit p] is one step of a register of 8 bits with the feedback [p]. *)
Definition reg_bit (p c : Z) : Z := Z.lxor (u8 (Z.shiftl c 1)) (if Z.testbit c 7 then p else 0).

Lemma u8_land z : u8 z = Z.land z 255.
Proof. change 255 with (Z.ones 8). by rewrite Z.land_ones. Qed.

Lemma land_lxor_l a b m : Z.land (Z.lxor a b) m = Z.lxor (Z.land a m) (Z.land b m).
Proof.
  apply Z.bits_inj'. intros i _. rewrite !Z.lxor_spec, !Z.land_spec, Z.lxor_spec.
  by destruct (Z.testbit a i), (Z.testbit b i), (Z.testbit m i).
Qed.

Lemma u8_lxor a b : u8 (Z.lxor a b) = Z.lxor (u8 a) (u8 b).
Proof. rewrite !u8_land. apply land_lxor_l. Qed.

Lemma shiftl_lxor a b n : Z.shiftl (Z.lxor a b) n = Z.lxor (Z.shiftl a n) (Z.shiftl b n).
Proof.
  apply Z.bits_inj'. intros i Hi. rewrite Z.lxor_spec, !Z.shiftl_spec by done. apply Z.lxor_spec.
Qed.

Lemma reg_bit_lxor p a b : reg_bit p (Z.lxor a b) = Z.lxor (reg_bit p a) (reg_bit p b).
Proof.
  unfold reg_bit. rewrite shiftl_lxor, u8_lxor, Z.lxor_spec.
  generalize (u8 (Z.shiftl a 1)), (u8 (Z.shiftl b 1)). intros x y.
  apply Z.bits_inj'. intros i _. rewrite !Z.lxor_spec.
  destruct (Z.testbit a 7), (Z.testbit b 7); cbn [xorb]; rewrite ?Z.bits_0;
    by destruct (Z.testbit x i), (Z.testbit y i), (Z.testbit p i).
Qed.

Lemma reg_bits_lxor n p a b :
  Nat.iter n (reg_bit p) (Z.lxor a b) = Z.lxor (Nat.iter n (reg_bit p) a) (Nat.iter n (reg_bit p) b).
Proof. induction n as [|n IH]; [done|]. rewrite !Nat.iter_succ, IH. apply reg_bit_lxor. Qed.

Lemma reg_bit_byte p c : byte_ok p → byte_ok (reg_bit p c).
Proof.
  intros Hp. unfold reg_bit. apply lxor_byte; [apply u8_range|]. by destruct (Z.testbit c 7).
Qed.
Lemma reg_bits_byte n p c : byte_ok p → byte_ok c → byte_ok (Nat.iter n (reg_bit p) c).
Proof. intros Hp Hc. induction n; [done|]. rewrite Nat.iter_succ. by apply reg_bit_byte. Qed.

Lemma land_0x80 c : negb (Z.land c 0x80 =? 0) = Z.testbit c 7.
Proof.
  assert (E : Z.land c 0x80 = if Z.testbit c 7 then 0x80 else 0).
  { apply Z.bits_inj'. intros i Hi. change 0x80 with (2 ^ 7).
    rewrite Z.land_spec. destruct (decide (i = 7)) as [->|Hne].
    - rewrite Z.pow2_bits_true by done. rewrite andb_true_r.
      destruct (Z.testbit c 7); [by rewrite Z.pow2_bits_true|by rewrite Z.bits_0].
    - rewrite Z.pow2_bits_false by done. rewrite andb_false_r.
      destruct (Z.testbit c 7); [by rewrite Z.pow2_bits_false|by rewrite Z.bits_0]. }
  rewrite E. by destruct (Z.testbit c 7).
Qed.

Lemma crc8_bit_reg c : crc8_bit c = reg_bit 0x31 c.
Proof.
  unfold crc8_bit, reg_bit. rewrite land_0x80. destruct (Z.testbit c 7); [apply u8_lxor|].
  by rewrite Z.lxor_0_r.
Qed.
Lemma crc7_bit_reg c : crc7_bit c = reg_bit 0x12 c.
Proof.
  unfold crc7_bit, reg_bit. rewrite land_0x80. destruct (Z.testbit c 7); [by rewrite u8_lxor|].
  by rewrite Z.lxor_0_r.
Qed.

Definition reg_byte (p c v : Z) : Z := Nat.iter 8 (reg_bit p) (Z.lxor c v).

Lemma iter_ext {A} (f g : A → A) n x : (∀ y, f y = g y) → Nat.iter n f x = Nat.iter n g x.
Proof. intros E. induction n as [|n IH]; [done|]. by rewrite !Nat.iter_succ, IH, E. Qed.

Lemma crc8_byte_reg c v : crc8_byte c v = reg_byte 0x31 c v.
Proof. apply iter_ext, crc8_bit_reg. Qed.
Lemma crc7_byte_reg c v : crc7_byte c v = reg_byte 0x12 c v.
Proof. apply iter_ext, crc7_bit_reg. Qed.

Lemma foldl_ext {A B} (f g : A → B → A) l x : (∀ a b, f a b = g a b) → foldl f x l = foldl g x l.
Proof. intros E. revert x. induction l as [|b l IH]; intros x; [done|]. simpl. by rewrite E. Qed.

(** Reading a byte at once, or its bits one after the other. *)
Definition reg_in (p : Z) (c : Z) (b : bool) : Z := reg_bit p (Z.lxor c (if b then 0x80 else 0)).

Lemma reg_in_fold p bs c :
  foldl (reg_in p) c bs = Z.lxor (Nat.iter (length bs) (reg_bit p) c) (foldl (reg_in p) 0 bs).
Proof.
  revert c. induction bs as [|b bs IH]; intros c; [by rewrite Z.lxor_0_r|].
  cbn [foldl length]. rewrite IH, (IH (reg_in p 0 b)). rewrite Nat.iter_succ_r. unfold reg_in at 1 3.
  rewrite Z.lxor_0_l, reg_bit_lxor, reg_bits_lxor. by rewrite Z.lxor_assoc.
Qed.

Lemma reg_byte_bits p c v :
  (Nat.iter 8 (reg_bit p) v =? foldl (reg_in p) 0 (byte_bits v)) = true →
  reg_byte p c v = foldl (reg_in p) c (byte_bits v).
Proof. intros E%Z.eqb_eq. unfold reg_byte. rewrite reg_bits_lxor, reg_in_fold, E. done. Qed.

(** The register and the long division in step: [d] zeros brought down after
    the remainder [a] give the register, shifted to the top of the byte. *)
Definition augmented (deg poly : Z) (a : Z) : Z :=
  Z.shiftl (foldl (gf2_step deg poly) a (replicate (Z.to_nat deg) false)) (8 - deg).

Definition in_step (deg poly p : Z) (a : Z) (b : bool) : bool :=
  (reg_in p (augmented deg poly a) b =? augmented deg poly (gf2_step deg poly a b)) &&
  (0 <=? gf2_step deg poly a b) && (gf2_step deg poly a b <? 2 ^ deg).

Lemma reg_divides deg poly p bs a :
  (∀ a b, 0 <= a < 2 ^ deg → in_step deg poly p a b = true) → 0 <= a < 2 ^ deg →
  foldl (reg_in p) (augmented deg poly a) bs = augmented deg poly (foldl (gf2_step deg poly) a bs).
Proof.
  intros Hs. revert a. induction bs as [|b bs IH]; intros a Ha; [done|]. cbn [foldl].
  pose proof (Hs a b Ha) as E. unfold in_step in E.
  apply andb_true_iff in E as [[E%Z.eqb_eq El%Z.leb_le]%andb_true_iff Eh%Z.ltb_lt].
  rewrite E. by apply IH.
Qed.

Lemma all_bytes_check (P : Z → bool → bool) a b :
  forallb (λ a, P a false && P a true) all_bytes = true → byte_ok a → P a b = true.
Proof.
  intros Hall Ha. pose proof (for_bytes (λ a, P a false && P a true) Hall a Ha) as E.
  apply andb_true_iff in E as [??]. by destruct b.
Qed.

Lemma crc8_in_step a b : 0 <= a < 2 ^ 8 → in_step 8 0x131 0x31 a b = true.
Proof. intros Ha. apply (all_bytes_check (in_step 8 0x131 0x31)); [by vm_compute|exact Ha]. Qed.
Lemma crc7_in_step a b : 0 <= a < 2 ^ 7 → in_step 7 CRC7_POLY 0x12 a b = true.
Proof.
  intros Ha. assert (H128 : (128 <=? a) = false) by (apply Z.leb_gt; lia).
  assert (E : (128 <=? a) || in_step 7 CRC7_POLY 0x12 a b = true).
  { apply (all_bytes_check (λ a b, (128 <=? a) || in_step 7 CRC7_POLY 0x12 a b)); [by vm_compute|].
    unfold byte_ok. lia. }
  rewrite H128, orb_false_l in E. exact E.
Qed.

Lemma crc8_byte_bits c v : byte_ok v → crc8_byte c v = foldl (reg_in 0x31) c (byte_bits v).
Proof.
  intros Hv. rewrite crc8_byte_reg. apply reg_byte_bits.
  apply (for_bytes (λ v, Nat.iter 8 (reg_bit 0x31) v =? foldl (reg_in 0x31) 0 (byte_bits v)));
    [by vm_compute|done].
Qed.
Lemma crc7_byte_bits c v : byte_ok v → crc7_byte c v = foldl (reg_in 0x12) c (byte_bits v).
Proof.
  intros Hv. rewrite crc7_byte_reg. apply reg_byte_bits.
  apply (for_bytes (λ v, Nat.iter 8 (reg_bit 0x12) v =? foldl (reg_in 0x12) 0 (byte_bits v)));
    [by vm_compute|done].
Qed.

Lemma foldl_bytes_bits (step : Z → Z → Z) p buf c :
  (∀ c v, byte_ok v → step c v = foldl (reg_in p) c (byte_bits v)) → Forall byte_ok buf →
  foldl step c buf = foldl (reg_in p) c (bits buf).
Proof.
  intros Hs Hb. revert c. induction Hb as [|v buf Hv Hb IH]; intros c; [done|].
  change (bits (v :: buf)) with (byte_bits v ++ bits buf). rewrite foldl_app. cbn [foldl].
  by rewrite IH, Hs.
Qed.

(** ** What a checksum detects *)

(** The differences a whole byte of the register can forget. *)
Definition forgets (p e : Z) : bool := Nat.iter 8 (reg_bit p) e =? 0.

Lemma reg_bytes_diff p ys c d :
  Z.lxor (foldl (reg_byte p) c ys) (foldl (reg_byte p) d ys)
  = Nat.iter (8 * length ys) (reg_bit p) (Z.lxor c d).
Proof.
  revert c d. induction ys as [|y ys IH]; intros c d; [done|]. cbn [foldl length]. rewrite IH.
  unfold reg_byte. rewrite <- reg_bits_lxor.
  assert (Z.lxor (Z.lxor c y) (Z.lxor d y) = Z.lxor c d) as ->.
  { rewrite (Z.lxor_comm d y), Z.lxor_assoc, <- (Z.lxor_assoc y y), Z.lxor_nilpotent, Z.lxor_0_l. done. }
  rewrite <- Nat.iter_add. f_equal. lia.
Qed.

(** A register difference that is not 0 stays so, if it is in [good]. *)
Lemma reg_bits_nonzero (good : Z → bool) p n e :
  byte_ok p → (∀ x, byte_ok x → good x = true → good (reg_bit p x) = true) →
  byte_ok e → good e = true → good (Nat.iter n (reg_bit p) e) = true.
Proof.
  intros Hp Hg He Hge. induction n as [|n IH]; [done|]. rewrite Nat.iter_succ.
  apply Hg; [by apply reg_bits_byte|done].
Qed.

(** C30: [crc8] is the remainder of the polynomial division it stands for:
    the message with its first byte complemented, times x^8, modulo
    x^8 + x^5 + x^4 + 1. *)
Theorem crc8_remainder v buf :
  Forall byte_ok (v :: buf) →
  crc8 (v :: buf) = gf2_mod 8 0x131 (bits (Z.lxor 0xff v :: buf) ++ replicate 8 false).
Proof.
  intros Hb. apply Forall_cons in Hb as [Hv Hb]. unfold crc8. cbn [foldl].
  change (crc8_byte 0xff v) with (crc8_byte 0 (Z.lxor 0xff v)).
  change (foldl crc8_byte (crc8_byte 0 (Z.lxor 0xff v)) buf) with (foldl crc8_byte 0 (Z.lxor 0xff v :: buf)).
  rewrite (foldl_bytes_bits _ 0x31); [|apply crc8_byte_bits|].
  2:{ constructor; [|done]. apply lxor_byte; [|done]. by unfold byte_ok. }
  change 0 with (augmented 8 0x131 0) at 1. rewrite reg_divides; [|apply crc8_in_step|lia].
  unfold augmented, gf2_mod. rewrite foldl_app. apply Z.shiftl_0_r.
Qed.

Lemma crc7_gf2 buf :
  Forall byte_ok buf → crc7 buf = gf2_mod 7 CRC7_POLY (bits buf ++ replicate 7 false).
Proof.
  intros Hb. unfold crc7. rewrite (foldl_bytes_bits _ 0x12); [|apply crc7_byte_bits|done].
  change 0 with (augmented 7 CRC7_POLY 0) at 1. rewrite reg_divides; [|apply crc7_in_step|lia].
  unfold augmented, gf2_mod. rewrite foldl_app, Z.shiftr_shiftl_l by lia. apply Z.shiftl_0_r.
Qed.

Lemma crc7_bytes buf c : Forall byte_ok buf → byte_ok c → byte_ok (foldl crc7_byte c buf).
Proof.
  intros Hb. revert c. induction Hb as [|v buf Hv _ IH]; intros c Hc; [done|]. cbn [foldl]. apply IH.
  rewrite crc7_byte_reg. apply reg_bits_byte; [by unfold byte_ok|by apply lxor_byte].
Qed.

(** [crc7] is the remainder of the message times x^7 modulo x^7 + x^3 + 1. *)
Theorem crc7_remainder buf :
  Forall byte_ok buf → crc7 buf = gf2_mod 7 CRC7_POLY (bits buf ++ replicate 7 false).
Proof. exact (crc7_gf2 buf). Qed.

Lemma reg_byte_lxor p c a b : Z.lxor (reg_byte p c a) (reg_byte p c b) = Nat.iter 8 (reg_bit p) (Z.lxor a b).
Proof.
  unfold reg_byte. rewrite <- reg_bits_lxor. f_equal.
  rewrite (Z.lxor_comm c a), Z.lxor_assoc, <- (Z.lxor_assoc c c), Z.lxor_nilpotent, Z.lxor_0_l. done.
Qed.

(** The difference of the registers of two messages that differ in one byte. *)
Lemma one_byte_diff p xs a b ys c :
  Z.lxor (foldl (reg_byte p) c (xs ++ a :: ys)) (foldl (reg_byte p) c (xs ++ b :: ys))
  = Nat.iter (8 * length ys) (reg_bit p) (Nat.iter 8 (reg_bit p) (Z.lxor a b)).
Proof. rewrite !foldl_app. cbn [foldl]. by rewrite reg_bytes_diff, reg_byte_lxor. Qed.

(** [crc8] detects every error confined to one byte of a message, of any
    length. *)
Theorem crc8_detects_byte xs a b ys :
  byte_ok a → byte_ok b → crc8 (xs ++ a :: ys) = crc8 (xs ++ b :: ys) → a = b.
Proof.
  intros Ha Hb E. unfold crc8 in E. rewrite !(foldl_ext _ _ _ _ crc8_byte_reg) in E.
  pose proof (one_byte_diff 0x31 xs a b ys 0xff) as D. rewrite E, Z.lxor_nilpotent in D.
  rewrite <- Nat.iter_add in D. apply Z.lxor_eq. symmetry in D.
  destruct (decide (Z.lxor a b = 0)) as [|Hne]; [done|].
  pose proof (reg_bits_nonzero (λ x, negb (x =? 0)) 0x31 (8 * length ys + 8) (Z.lxor a b)) as Hn.
  cbn beta in Hn. rewrite D in Hn. exfalso. discriminate Hn.
  - by unfold byte_ok.
  - intros x Hx Hx0.
    pose proof (for_bytes (λ x, (x =? 0) || negb (reg_bit 0x31 x =? 0))) as Hc. specialize (Hc ltac:(by vm_compute) x Hx).
    cbn beta in Hc. apply negb_true_iff in Hx0. by rewrite Hx0 in Hc.
  - by apply lxor_byte.
  - by apply negb_true_iff, Z.eqb_neq.
Qed.

(** The registers of [crc7] are even. *)
Lemma reg12_even c : Z.even (reg_bit 0x12 c) = true.
Proof.
  assert (H : Z.testbit (reg_bit 0x12 c) 0 = false).
  { unfold reg_bit. rewrite Z.lxor_spec, u8_land, Z.land_spec, Z.shiftl_spec_low by lia.
    by destruct (Z.testbit c 7). }
  rewrite Z.bit0_odd in H. by rewrite <- Z.negb_odd, H.
Qed.

Lemma crc7_even data : Z.even (foldl (reg_byte 0x12) 0 data) = true.
Proof.
  destruct data as [|v data] using rev_ind; [done|]. rewrite foldl_app. cbn [foldl].
  unfold reg_byte. rewrite Nat.iter_succ. apply reg12_even.
Qed.

(** [crc7] detects every error confined to one byte of a message except one:
    the byte changed by the pattern 0x89, its own polynomial. *)
Theorem crc7_detects_byte xs a b ys :
  byte_ok a → byte_ok b →
  crc7 (xs ++ a :: ys) = crc7 (xs ++ b :: ys) ↔ a = b ∨ Z.lxor a b = CRC7_POLY.
Proof.
  intros Ha Hb. unfold crc7. rewrite !(foldl_ext _ _ _ _ crc7_byte_reg).
  pose proof (one_byte_diff 0x12 xs a b ys 0) as D.
  assert (Hinj : ∀ x y, Z.even x = true → Z.even y = true → Z.shiftr x 1 = Z.shiftr y 1 ↔ Z.lxor x y = 0).
  { intros x y Hx Hy. rewrite Z.lxor_eq_0_iff. split; [|by intros ->].
    rewrite !Z.shiftr_div_pow2 by done. change (2 ^ 1) with 2. rewrite Z.even_spec in Hx, Hy.
    destruct Hx as [x' ->], Hy as [y' ->]. rewrite !(Z.mul_comm 2), !Z.div_mul by done. congruence. }
  rewrite (Hinj _ _ (crc7_even _) (crc7_even _)), D. clear D Hinj.
  assert (He : byte_ok (Z.lxor a b)) by by apply lxor_byte.
  assert (H8 : Nat.iter 8 (reg_bit 0x12) (Z.lxor a b) = 0 ↔ Z.lxor a b = 0 ∨ Z.lxor a b = CRC7_POLY).
  { pose proof (for_bytes (λ e, eqb (forgets 0x12 e) ((e =? 0) || (e =? CRC7_POLY))) ltac:(by vm_compute) _ He) as E.
    apply eqb_prop in E. unfold forgets in E. rewrite <- Z.eqb_eq, E, orb_true_iff, !Z.eqb_eq. done. }
  assert (Hab : a = b ↔ Z.lxor a b = 0) by by rewrite Z.lxor_eq_0_iff.
  rewrite Hab, <- H8. split.
  - intros E. destruct (Z.eq_dec (Nat.iter 8 (reg_bit 0x12) (Z.lxor a b)) 0) as [|Hne]; [done|exfalso].
    pose proof (reg_bits_nonzero (λ x, negb (x =? 0) && Z.even x) 0x12 (8 * length ys)
      (Nat.iter 8 (reg_bit 0x12) (Z.lxor a b))) as Hn.
    cbn beta in Hn. rewrite E in Hn. discriminate Hn.
    + by unfold byte_ok.
    + intros x Hx [Hx0 Hxe]%andb_true_iff. rewrite reg12_even, andb_true_r.
      pose proof (for_bytes (λ x, (x =? 0) || Z.odd x || negb (reg_bit 0x12 x =? 0)) ltac:(by vm_compute) x Hx) as Hc.
      cbn beta in Hc. apply negb_true_iff in Hx0. rewrite <- Z.negb_even, Hxe, Hx0 in Hc. done.
    + by apply reg_bits_byte.
    + apply andb_true_iff. split; [by apply negb_true_iff, Z.eqb_neq|].
      rewrite Nat.iter_succ. apply reg12_even.
  - intros ->. induction (8 * length ys)%nat as [|n IH]; [done|]. by rewrite Nat.iter_succ, IH.
Qed.

(** ** Instances *)

Lemma crc8_remainder_witness :
  crc8 [0x12; 0x34] = gf2_mod 8 0x131 (bits [0xed; 0x34] ++ replicate 8 false) ∧ crc8 [0x12; 0x34] = 0x37.
Proof. split; [|by vm_compute]. apply crc8_remainder. repeat constructor; by unfold byte_ok. Defined.

Lemma crc7_remainder_witness :
  crc7 [0x40; 0; 0; 0; 0] = gf2_mod 7 CRC7_POLY (bits [0x40; 0; 0; 0; 0] ++ replicate 7 false) ∧
  crc7 [0x40; 0; 0; 0; 0] = 0x4a.
Proof. split; [|by vm_compute]. apply crc7_remainder. repeat constructor; by unfold byte_ok. Defined.

Lemma crc8_detects_byte_witness : crc8 ([1; 2] ++ 5 :: [3]) ≠ crc8 ([1; 2] ++ 6 :: [3]).
Proof.
  assert (H5 : byte_ok 5) by by unfold byte_ok. assert (H6 : byte_ok 6) by by unfold byte_ok.
  intros E. discriminate (crc8_detects_byte [1; 2] 5 6 [3] H5 H6 E).
Defined.

Lemma crc7_detects_byte_witness :
  crc7 ([1; 2] ++ 0x89 :: [3]) = crc7 ([1; 2] ++ 0 :: [3]).
Proof.
  refine (proj2 (crc7_detects_byte [1; 2] 0x89 0 [3] _ _) _); [by unfold byte_ok..|by right].
Defined.
