(* ===== verification/Bump.v ===== *)
(** * Bump allocator and global allocator (alloc/bump.c, alloc/default.c)

    Addresses are 16-bit integers here: the code rounds a pointer up through
    its integer value.  Assertions are off, as in the default configuration. *)

From S2P Require Import Prelude.

Record bump_allocator := { bump_buf : Z; bump_size : Z; bump_next : Z }.
Record alloc_stats := { total : Z; used : Z; free : Z }.

Definition Z_ALIGN_MASK (align : Z) : Z := u16 (align - 1).
Definition Z_ALIGN_PTR (ptr align : Z) : Z :=
  Z.land (u16 (ptr + Z_ALIGN_MASK align)) (u16 (Z.lnot (Z_ALIGN_MASK align))).
Definition Z_NO_ALIGN : Z := 1.

Definition bump_init (buf size : Z) : Z * bump_allocator :=
  (0, {| bump_buf := buf; bump_size := size; bump_next := buf |}).

(** [ptr - a->buf + size] is computed on 16 bits. *)
Definition bump_alloc (a : bump_allocator) (size align : Z) : option Z * bump_allocator :=
  let ptr := Z_ALIGN_PTR (bump_next a) align in
  if bump_size a <? u16 (s16 (ptr - bump_buf a) + size) then (None, a)
  else (Some ptr, {| bump_buf := bump_buf a; bump_size := bump_size a; bump_next := u16 (ptr + size) |}).

Definition bump_reset (a : bump_allocator) : bump_allocator :=
  {| bump_buf := bump_buf a; bump_size := bump_size a; bump_next := bump_buf a |}.

Definition bump_stats (a : bump_allocator) : alloc_stats :=
  let used := u16 (bump_next a - bump_buf a) in
  {| total := bump_size a; used := used; free := u16 (bump_size a - used) |}.

(** ** The global allocator, with the interrupt flag *)
Record global_alloc := { z_global_allocator : bump_allocator; ga_sreg_i : bool }.

Definition with_alloc (a : bump_allocator) (g : global_alloc) : global_alloc :=
  {| z_global_allocator := a; ga_sreg_i := ga_sreg_i g |}.
Definition with_irq (b : bool) (g : global_alloc) : global_alloc :=
  {| z_global_allocator := z_global_allocator g; ga_sreg_i := b |}.

Definition z_malloc (size align : Z) (g : global_alloc) : option Z * global_alloc :=
  if size =? 0 then (None, g)
  else
    let key := ga_sreg_i g in
    let g := with_irq false g in
    let '(ptr, a) := bump_alloc (z_global_allocator g) size align in
    (ptr, with_irq key (with_alloc a g)).

Definition k_malloc (size : Z) (g : global_alloc) : option Z * global_alloc := z_malloc size Z_NO_ALIGN g.
Definition k_free (ptr : Z) (g : global_alloc) : global_alloc := g.

Definition z_global_allocator_reset (g : global_alloc) : global_alloc :=
  let key := ga_sreg_i g in
  let g := with_irq false g in
  with_irq key (with_alloc (bump_reset (z_global_allocator g)) g).

Definition k_global_allocator_stats_get (g : global_alloc) : Z * Z * Z :=
  let st := bump_stats (z_global_allocator g) in (total st, used st, free st).

(** ** Properties *)

Record bump_ok (a : bump_allocator) : Prop := {
  bo_buf : 0 < bump_buf a;
  bo_next : bump_buf a <= bump_next a <= bump_buf a + bump_size a;
  bo_end : bump_buf a + bump_size a + 128 < 65536;
}.

(** A request the 16-bit comparison is right about. *)
Definition request_ok (a : bump_allocator) (size align : Z) : Prop :=
  0 < size ∧ bump_size a + size + 128 < 65536 ∧ ∃ k, 0 <= k <= 7 ∧ align = 2 ^ k.

Definition align_up (p align : Z) : Z := (p + align - 1) / align * align.

Lemma align_up_bounds p align : 0 < align → p <= align_up p align < p + align.
Proof.
  intros Ha. unfold align_up. pose proof (Z.div_mod (p + align - 1) align).
  pose proof (Z.mod_pos_bound (p + align - 1) align). lia.
Qed.

Lemma align_ptr_up p k :
  0 <= k <= 7 → 0 <= p → p + 128 < 65536 → Z_ALIGN_PTR p (2 ^ k) = align_up p (2 ^ k).
Proof.
  intros Hk Hp He. assert (Hpow : 1 <= 2 ^ k <= 128).
  { split; [apply (Z.pow_le_mono_r 2 0 k); lia|]. apply (Z.pow_le_mono_r 2 k 7); lia. }
  unfold Z_ALIGN_PTR, Z_ALIGN_MASK. rewrite (u16_small (2 ^ k - 1)), u16_small by lia.
  replace (p + (2 ^ k - 1)) with (p + 2 ^ k - 1) by lia. unfold align_up.
  assert (E : 2 ^ k - 1 = Z.ones k) by (rewrite Z.ones_equiv; lia). rewrite E.
  assert (Hq : 0 <= p + 2 ^ k - 1 < 2 ^ 16) by lia. revert Hq. generalize (p + 2 ^ k - 1). intros q Hq.
  unfold u16. change 65536 with (2 ^ 16). rewrite <- Z.land_ones, (Z.land_comm (Z.lnot _)), Z.land_assoc by done.
  rewrite (Z.land_ones q), Z.mod_small by done. rewrite <- Z.ldiff_land, Z.ldiff_ones_r by lia.
  by rewrite Z.shiftl_mul_pow2, Z.shiftr_div_pow2 by lia.
Qed.

Lemma bump_alloc_cases a size align :
  bump_ok a → request_ok a size align →
  let ptr := align_up (bump_next a) align in
  bump_alloc a size align =
    if bump_buf a + bump_size a <? ptr + size then (None, a)
    else (Some ptr, {| bump_buf := bump_buf a; bump_size := bump_size a; bump_next := ptr + size |}).
Proof.
  intros [Hb Hn He] (Hs&Ho&k&Hk&->) ptr. subst ptr. unfold bump_alloc.
  rewrite align_ptr_up by lia.
  assert (Hpow : 1 <= 2 ^ k <= 128).
  { split; [apply (Z.pow_le_mono_r 2 0 k); lia|]. apply (Z.pow_le_mono_r 2 k 7); lia. }
  pose proof (align_up_bounds (bump_next a) (2 ^ k)) as Hup. revert Hup.
  generalize (align_up (bump_next a) (2 ^ k)). intros ptr Hup.
  assert (u16 (s16 (ptr - bump_buf a) + size) = ptr - bump_buf a + size) as ->.
  { unfold u16, s16.
    replace ((ptr - bump_buf a + 32768) `mod` 65536 - 32768 + size)
      with ((ptr - bump_buf a + 32768) `mod` 65536 + (size - 32768)) by lia.
    rewrite Zplus_mod_idemp_l, Z.mod_small by lia. lia. }
  destruct (Z.ltb_spec (bump_size a) (ptr - bump_buf a + size)).
  - by rewrite (proj2 (Z.ltb_lt _ _)) by lia.
  - rewrite (proj2 (Z.ltb_ge _ _)) by lia. rewrite u16_small by lia. done.
Qed.

(** Serving a list of requests: the blocks handed out. *)
Fixpoint bump_allocs (a : bump_allocator) (rs : list (Z * Z)) : list (Z * Z) * bump_allocator :=
  match rs with
  | [] => ([], a)
  | (size, align) :: rs =>
      let '(p, a) := bump_alloc a size align in
      let '(bs, a) := bump_allocs a rs in
      (match p with Some p => (p, size) :: bs | None => bs end, a)
  end.

(** Blocks one after the other, from [lo] to [hi]. *)
Fixpoint in_order (lo hi : Z) (bs : list (Z * Z)) : Prop :=
  match bs with
  | [] => lo <= hi
  | (p, n) :: bs => lo <= p ∧ 0 < n ∧ in_order (p + n) hi bs
  end.

Lemma in_order_mono lo lo' hi bs : lo' <= lo → in_order lo hi bs → in_order lo' hi bs.
Proof. intros Hl. destruct bs as [|[p n] bs]; simpl; [lia|]. intros (?&?&?). split_and!; [lia|done|done]. Qed.

(** The blocks handed out by any sequence of requests lie in the buffer one
    after the other, so no two overlap, and each is aligned as requested; a
    request that does not fit is refused and changes nothing. *)
Theorem bump_allocs_disjoint a rs :
  bump_ok a → Forall (λ r, request_ok a r.1 r.2) rs →
  let '(bs, a') := bump_allocs a rs in
  in_order (bump_next a) (bump_buf a + bump_size a) bs ∧ bump_ok a' ∧
  bump_next a <= bump_next a' ∧ used (bump_stats a') + free (bump_stats a') = total (bump_stats a') ∧
  (∀ r, r ∈ rs → let '(p, a1) := bump_alloc a r.1 r.2 in
     match p with
     | Some p => p mod r.2 = 0 ∧ bump_next a <= p ∧ p + r.1 = bump_next a1
     | None => a1 = a ∧ bump_buf a + bump_size a < align_up (bump_next a) r.2 + r.1
     end).
Proof.
  intros Hok Hrs.
  assert (Hlist : let '(bs, a') := bump_allocs a rs in
    in_order (bump_next a) (bump_buf a + bump_size a) bs ∧ bump_ok a' ∧ bump_next a <= bump_next a').
  { revert a Hok Hrs. induction rs as [|[size align] rs IH]; intros a Hok Hrs; simpl.
    - split_and!; [apply Hok|done|lia].
    - apply Forall_cons in Hrs as [Hr Hrs]. cbn [fst snd] in Hr.
      pose proof (bump_alloc_cases a size align Hok Hr) as E. cbn zeta in E. rewrite E. clear E.
      assert (Ha : 0 < align) by (destruct Hr as (_&_&k&Hk&->); apply Z.pow_pos_nonneg; lia).
      pose proof (align_up_bounds (bump_next a) align Ha) as Hup.
      destruct (Z.ltb_spec (bump_buf a + bump_size a) (align_up (bump_next a) align + size)) as [Hlt|Hge].
      + specialize (IH a Hok Hrs). by destruct (bump_allocs a rs).
      + destruct Hok as [Hb Hn He], Hr as (Hs&_). simpl.
        specialize (IH {| bump_buf := bump_buf a; bump_size := bump_size a;
          bump_next := align_up (bump_next a) align + size |}).
        destruct (bump_allocs _ rs) as [bs a']. cbn [bump_next bump_buf bump_size] in IH.
        destruct IH as (IH1&IH2&IH3); [split; cbn [bump_next bump_buf bump_size]; lia|done|]. cbn [in_order].
        split_and!; (done || lia). }
  destruct (bump_allocs a rs) as [bs a']. destruct Hlist as (H1&H2&H3). split_and!; try done.
  - destruct H2 as [Hb Hn He]. unfold bump_stats. cbn [used free total]. rewrite !u16_small; lia.
  - intros [size align] Hin. rewrite Forall_forall in Hrs. specialize (Hrs _ Hin). cbn [fst snd] in *.
    assert (Ha : 0 < align) by (destruct Hrs as (_&_&k&Hk&->); apply Z.pow_pos_nonneg; lia).
    pose proof (bump_alloc_cases a size align Hok Hrs) as E. cbn zeta in E. rewrite E.
    pose proof (align_up_bounds (bump_next a) align Ha).
    destruct (Z.ltb_spec (bump_buf a + bump_size a) (align_up (bump_next a) align + size)); cbn [bump_next];
      [done|split_and!; [|lia|done]]. unfold align_up. by apply Z.mod_mul; lia.
Qed.

(** The size check wraps around: a request of almost 64 KiB is granted by an
    allocator of any size, and moves the allocator back into the blocks
    already handed out. *)
Theorem bump_alloc_overflow a size :
  bump_ok a → bump_buf a < bump_next a →
  65536 - (bump_next a - bump_buf a) <= size < 65536 →
  ∃ a', bump_alloc a size Z_NO_ALIGN = (Some (bump_next a), a') ∧
    bump_buf a + bump_size a < bump_next a + size ∧ bump_buf a <= bump_next a' < bump_next a.
Proof.
  intros [Hb Hn He] Hlt Hs. unfold bump_alloc.
  change Z_NO_ALIGN with (2 ^ 0). rewrite align_ptr_up by lia.
  assert (align_up (bump_next a) (2 ^ 0) = bump_next a) as ->.
  { unfold align_up. change (2 ^ 0) with 1. rewrite Z.div_1_r. lia. }
  assert (u16 (s16 (bump_next a - bump_buf a) + size) = bump_next a - bump_buf a + size - 65536) as ->.
  { unfold u16, s16. replace ((bump_next a - bump_buf a + 32768) `mod` 65536 - 32768 + size)
      with ((bump_next a - bump_buf a + 32768) `mod` 65536 + (size - 32768)) by lia.
    rewrite Zplus_mod_idemp_l. symmetry. apply (Z.mod_unique _ _ 1); lia. }
  rewrite (proj2 (Z.ltb_ge _ _)) by lia. eexists. split; [done|]. cbn [bump_next].
  assert (u16 (bump_next a + size) = bump_next a + size - 65536) as ->; [|lia].
  unfold u16. symmetry. apply (Z.mod_unique _ _ 1); lia.
Qed.

(** ** Instances *)

Definition w_bump (next : Z) : bump_allocator := {| bump_buf := 512; bump_size := 100; bump_next := next |}.

Lemma w_bump_ok n : 512 <= n <= 612 → bump_ok (w_bump n).
Proof. intros Hn. split; cbn; lia. Qed.

Lemma bump_allocs_disjoint_witness :
  in_order 512 612 [(512, 3); (516, 20)] ∧
  bump_allocs (w_bump 512) [(3, 1); (20, 4); (80, 1)] = ([(512, 3); (516, 20)], w_bump 536).
Proof.
  assert (Hr : ∀ s al k, al = 2 ^ k → 0 < s <= 80 → 0 <= k <= 7 → request_ok (w_bump 512) s al).
  { intros s al k -> Hs Hk. split_and!; [lia|cbn; lia|by exists k]. }
  assert (E : bump_allocs (w_bump 512) [(3, 1); (20, 4); (80, 1)] = ([(512, 3); (516, 20)], w_bump 536))
    by reflexivity.
  assert (Hrs : Forall (λ r, request_ok (w_bump 512) r.1 r.2) [(3, 1); (20, 4); (80, 1)]).
  { constructor; [apply (Hr 3 1 0); done|]. constructor; [apply (Hr 20 4 2); done|].
    constructor; [apply (Hr 80 1 0); done|constructor]. }
  pose proof (bump_allocs_disjoint (w_bump 512) [(3, 1); (20, 4); (80, 1)] (w_bump_ok 512 ltac:(lia)) Hrs) as H.
  rewrite E in H. split; [exact (proj1 H)|exact E].
Defined.

Lemma bump_alloc_overflow_witness :
  ∃ a', bump_alloc (w_bump 528) 65530 Z_NO_ALIGN = (Some 528, a') ∧ bump_next a' = 522.
Proof.
  destruct (bump_alloc_overflow (w_bump 528) 65530) as (a'&E&_); [apply w_bump_ok; lia|cbn; lia|cbn; lia|].
  exists a'. split; [exact E|]. by injection E as <-.
Defined.
