(* ===== verification/Serial.v ===== *)
(** * Serial output (misc/serial.c)

    A function is modelled by the characters it sends; the transmission itself
    is the USART driver's. *)

From S2P Require Import Prelude Bytes.

Definition chr_0 : Z := 48.
Definition chr_A : Z := 65.
Definition chr_minus : Z := 45.
Definition chr_space : Z := 32.
Definition chr_nl : Z := 10.

Definition figure2hex (value : Z) : Z :=
  if value <? 10 then u8 (value + chr_0) else u8 (value + chr_A - 10).

Definition serial_u8 (val : Z) : list Z :=
  let hundred := figure2hex (val / 100) in
  let ten := figure2hex ((val / 10) mod 10) in
  let unit := figure2hex (val mod 10) in
  (if 100 <=? val then [hundred] else []) ++ (if 10 <=? val then [ten] else []) ++ [unit].

(** The loop of [serial_u16] from [p] on: the digits array, filled from its end,
    and the index of the first digit to send. *)
Fixpoint serial_u16_loop (n : nat) (p val first_digit : Z) (digits : list Z) : Z * list Z :=
  match n with
  | O => (first_digit, digits)
  | S n =>
      let cur := figure2hex (val mod 10) in
      let digits := <[Z.to_nat (4 - p) := cur]> digits in
      let first_digit := if negb (cur =? chr_0) then 4 - p else first_digit in
      serial_u16_loop n (p + 1) (val / 10) first_digit digits
  end.

(** [digits] is not initialised in the source; every element is assigned. *)
Definition serial_u16 (val : Z) : list Z :=
  let '(first_digit, digits) := serial_u16_loop 5 0 val 4 (replicate 5 0) in
  take (Z.to_nat (5 - first_digit)) (drop (Z.to_nat first_digit) digits).

Definition serial_s8 (val : Z) : list Z :=
  if val =? 0 then [chr_0]
  else if val <? 0 then chr_minus :: serial_u8 (u8 (- val))
  else serial_u8 (u8 val).

Definition serial_hex (val : Z) : list Z :=
  [figure2hex (Z.shiftr val 4); figure2hex (Z.land val 0xF)].

Definition serial_hex16 (val : Z) : list Z :=
  serial_hex (u8 (Z.shiftr val 8)) ++ serial_hex (u8 val).

(** The [for] loop of [serial_send_hex]; its counter has 8 bits. *)
Fixpoint serial_send_hex_loop (fuel : nat) (b : bmem) (buffer : word) (i len : Z) : option (list Z) :=
  match fuel with
  | O => None
  | S fuel =>
      if i <? len then
        out ← serial_send_hex_loop fuel b buffer (u8 (i + 1)) len;
        Some (serial_hex (rdb b (ptr_add buffer i)) ++
              (if 0xF =? Z.land i 0xF then [chr_nl] else [chr_space]) ++ out)
      else Some []
  end.
Definition serial_send_hex (fuel : nat) (b : bmem) (buffer : word) (len : Z) : option (list Z) :=
  serial_send_hex_loop fuel b buffer 0 len.

Definition serial_send (b : bmem) (buffer : word) (len : Z) : list Z := read_bytes b buffer (Z.to_nat len).

(** The [for] loop of [serial_send_p], which reads program memory. *)
Definition serial_send_p (flash : bmem) (buffer : word) (len : Z) : list Z :=
  read_bytes flash buffer (Z.to_nat len).

(** [strlen] *)
Fixpoint strlen (fuel : nat) (b : bmem) (text : word) : option Z :=
  match fuel with
  | O => None
  | S fuel => if rdb b text =? 0 then Some 0
              else n ← strlen fuel b (ptr_add text 1); Some (n + 1)
  end.

Definition serial_print (fuel : nat) (b : bmem) (text : word) : option (list Z) :=
  len ← strlen fuel b text; Some (serial_send b text len).
Definition serial_printl (fuel : nat) (b : bmem) (text : word) : option (list Z) :=
  out ← serial_print fuel b text; Some (out ++ [chr_nl]).
Definition serial_print_p (fuel : nat) (flash : bmem) (text : word) : option (list Z) :=
  len ← strlen fuel flash text; Some (serial_send_p flash text len).
Definition serial_printl_p (fuel : nat) (flash : bmem) (text : word) : option (list Z) :=
  out ← serial_print_p fuel flash text; Some (out ++ [chr_nl]).

(** ** Reading numbers back *)

Definition dec_value (s : list Z) : Z := foldl (λ acc c, acc * 10 + (c - chr_0)) 0 s.
Definition is_dec (c : Z) : Prop := chr_0 <= c <= chr_0 + 9.

(** A decimal number as it is usually written. *)
Definition dec_repr (v : Z) (s : list Z) : Prop :=
  Forall is_dec s ∧ dec_value s = v ∧ (v ≠ 0 → hd chr_0 s ≠ chr_0) ∧ (v = 0 → s = [chr_0]).

Definition sdec_repr (v : Z) (s : list Z) : Prop :=
  if v <? 0 then ∃ s', s = chr_minus :: s' ∧ dec_repr (- v) s' else dec_repr v s.

Definition hex_digit (c : Z) : Z := if c <? chr_A then c - chr_0 else c - chr_A + 10.
Definition hex_value (s : list Z) : Z := foldl (λ acc c, acc * 16 + hex_digit c) 0 s.

Lemma figure2hex_dec v : 0 <= v < 10 → figure2hex v = chr_0 + v.
Proof. intros Hv. unfold figure2hex, chr_0. rewrite (proj2 (Z.ltb_lt _ _)), u8_small by lia. lia. Qed.

Lemma hex_digit_figure v : 0 <= v < 16 → hex_digit (figure2hex v) = v.
Proof.
  intros Hv. unfold hex_digit, figure2hex, chr_0, chr_A. destruct (Z.ltb_spec v 10).
  - rewrite u8_small, (proj2 (Z.ltb_lt _ _)) by lia. lia.
  - rewrite u8_small, (proj2 (Z.ltb_ge _ _)) by lia. lia.
Qed.

(** The decimal digits of [v] from the [n]-th down to the units. *)
Fixpoint digits_of (n : nat) (v : Z) : list Z :=
  match n with O => [] | S n => chr_0 + v / 10 ^ Z.of_nat n mod 10 :: digits_of n v end.

Lemma digits_of_is_dec n v : Forall is_dec (digits_of n v).
Proof.
  induction n as [|n IH]; [done|]. cbn [digits_of]. constructor; [|done].
  unfold is_dec. pose proof (Z.mod_pos_bound (v / 10 ^ Z.of_nat n) 10). lia.
Qed.

Lemma dec_value_app s1 s2 acc :
  foldl (λ acc c, acc * 10 + (c - chr_0)) acc (s1 ++ s2) =
  foldl (λ acc c, acc * 10 + (c - chr_0)) (foldl (λ acc c, acc * 10 + (c - chr_0)) acc s1) s2.
Proof. apply foldl_app. Qed.

Lemma dec_value_digits n v acc :
  0 <= v → foldl (λ acc c, acc * 10 + (c - chr_0)) acc (digits_of n v)
           = acc * 10 ^ Z.of_nat n + v mod 10 ^ Z.of_nat n.
Proof.
  intros Hv. revert acc. induction n as [|n IH]; intros acc.
  - cbn. rewrite Z.mod_1_r. lia.
  - cbn [digits_of foldl]. rewrite IH. rewrite Nat2Z.inj_succ, Z.pow_succ_r by lia.
    assert (Hp : 0 < 10 ^ Z.of_nat n) by (apply Z.pow_pos_nonneg; lia).
    rewrite (Z.mul_comm 10 (10 ^ Z.of_nat n)), (Z.rem_mul_r v) by lia. lia.
Qed.

Lemma digits_of_repr n v :
  (n ≠ 0)%nat → 10 ^ Z.of_nat (n - 1) <= v < 10 ^ Z.of_nat n ∨ (n = 1%nat ∧ v = 0) →
  dec_repr v (digits_of n v).
Proof.
  intros Hn Hv. destruct n as [|n]; [done|]. replace (S n - 1)%nat with n in Hv by lia.
  assert (Hp : 0 < 10 ^ Z.of_nat n) by (apply Z.pow_pos_nonneg; lia).
  assert (Hv0 : 0 <= v < 10 ^ Z.of_nat (S n)).
  { destruct Hv as [?|[E ->]]; [lia|]. injection E as ->. done. }
  split_and!.
  - apply digits_of_is_dec.
  - unfold dec_value. rewrite dec_value_digits, Z.mod_small by lia. lia.
  - intros Hne. destruct Hv as [Hv|[_ ?]]; [|done]. cbn [digits_of hd].
    rewrite Nat2Z.inj_succ, Z.pow_succ_r in Hv by lia.
    assert (1 <= v / 10 ^ Z.of_nat n < 10).
    { split; [apply Z.div_le_lower_bound; lia|apply Z.div_lt_upper_bound; lia]. }
    rewrite Z.mod_small by lia. lia.
  - intros ->. destruct Hv as [Hv|[E _]]; [lia|]. injection E as ->. done.
Qed.

Lemma digit_bound v : 0 <= v mod 10 < 10.
Proof. by apply Z.mod_pos_bound. Qed.

Lemma chr_0_digit d : (chr_0 + d =? chr_0) = (d =? 0).
Proof. destruct (Z.eqb_spec d 0) as [->|]; [done|]. apply Z.eqb_neq. lia. Qed.

Lemma digits_of_range n i v :
  Z.of_nat n = i + 1 → 0 <= i → 10 ^ i <= v < 10 ^ (i + 1) → dec_repr v (digits_of n v).
Proof.
  intros Hn Hi Hv. apply digits_of_repr; [lia|]. left.
  replace (Z.of_nat (n - 1)) with i by lia. by rewrite Hn.
Qed.

Lemma digits_of_unit v : 0 <= v < 10 → dec_repr v (digits_of 1 v).
Proof.
  intros Hv. apply digits_of_repr; [done|]. destruct (decide (v = 0)); [by right|left].
  change (10 ^ Z.of_nat (1 - 1)) with 1. change (10 ^ Z.of_nat 1) with 10. lia.
Qed.

(** The index of the first digit sent: that of the highest digit that is not 0. *)
Lemma serial_u16_digits v :
  0 <= v →
  let d i := v / 10 ^ i mod 10 in
  let first := if negb (d 4 =? 0) then 0 else if negb (d 3 =? 0) then 1
               else if negb (d 2 =? 0) then 2 else if negb (d 1 =? 0) then 3 else 4 in
  serial_u16 v = drop (Z.to_nat first) (digits_of 5 v).
Proof.
  intros Hv d first. unfold serial_u16. cbn [serial_u16_loop].
  rewrite !figure2hex_dec by apply digit_bound. rewrite !Z.div_div by done.
  change (10 * (10 * (10 * 10))) with (10 ^ 4). change (10 * (10 * 10)) with (10 ^ 3).
  change (10 * 10) with (10 ^ 2). replace (v / 10) with (v / 10 ^ 1) by done.
  replace (v mod 10) with (v / 10 ^ 0 mod 10) by (change (10 ^ 0) with 1; by rewrite Z.div_1_r).
  rewrite !chr_0_digit. cbn [replicate Z.to_nat insert list_insert Z.add Z.sub Z.opp Z.pos_sub Pos.to_nat].
  change (v / 10 ^ 4 mod 10) with (d 4). change (v / 10 ^ 3 mod 10) with (d 3).
  change (v / 10 ^ 2 mod 10) with (d 2). change (v / 10 ^ 1 mod 10) with (d 1).
  change (v / 10 ^ 0 mod 10) with (d 0).
  change (digits_of 5 v) with [chr_0 + d 4; chr_0 + d 3; chr_0 + d 2; chr_0 + d 1; chr_0 + d 0].
  clearbody d. subst first.
  destruct (d 4 =? 0), (d 3 =? 0), (d 2 =? 0), (d 1 =? 0), (d 0 =? 0); reflexivity.
Qed.

(** A digit of a number below a power of ten, or of its first digit's power. *)
Lemma digit_zero v i : 0 <= i → 0 <= v < 10 ^ i → (v / 10 ^ i mod 10 =? 0) = true.
Proof. intros Hi Hv. by rewrite Z.div_small. Qed.
Lemma digit_nonzero v i : 0 <= i → 10 ^ i <= v < 10 ^ (i + 1) → (v / 10 ^ i mod 10 =? 0) = false.
Proof.
  intros Hi Hv. rewrite Z.pow_add_r in Hv by lia.
  assert (Hp : 0 < 10 ^ i) by (apply Z.pow_pos_nonneg; lia).
  assert (1 <= v / 10 ^ i < 10).
  { split; [apply Z.div_le_lower_bound; lia|apply Z.div_lt_upper_bound; lia]. }
  apply Z.eqb_neq. rewrite Z.mod_small; lia.
Qed.

Lemma serial_u16_repr v : 0 <= v < 65536 → dec_repr v (serial_u16 v).
Proof.
  intros Hv. rewrite serial_u16_digits by lia. cbn zeta.
  assert (Hc : 10 ^ 4 <= v < 10 ^ (4 + 1) ∨ 10 ^ 3 <= v < 10 ^ (3 + 1) ∨ 10 ^ 2 <= v < 10 ^ (2 + 1) ∨
    10 ^ 1 <= v < 10 ^ (1 + 1) ∨ 0 <= v < 10 ^ 1) by lia.
  destruct Hc as [Hc|[Hc|[Hc|[Hc|Hc]]]].
  - rewrite digit_nonzero by lia. by apply (digits_of_range 5 4).
  - rewrite (digit_zero v 4), digit_nonzero by lia. by apply (digits_of_range 4 3).
  - rewrite (digit_zero v 4), (digit_zero v 3), digit_nonzero by lia.
    by apply (digits_of_range 3 2).
  - rewrite (digit_zero v 4), (digit_zero v 3), (digit_zero v 2), digit_nonzero by lia.
    by apply (digits_of_range 2 1).
  - rewrite (digit_zero v 4), (digit_zero v 3), (digit_zero v 2), (digit_zero v 1) by lia.
    apply digits_of_unit. lia.
Qed.

Lemma serial_u8_repr v : 0 <= v < 256 → dec_repr v (serial_u8 v).
Proof.
  intros Hv. unfold serial_u8.
  assert (Hh : v / 100 = v / 10 ^ 2 mod 10).
  { rewrite Z.mod_small; [done|]. split; [apply Z.div_pos; lia|apply Z.div_lt_upper_bound; lia]. }
  rewrite Hh, !figure2hex_dec by apply digit_bound.
  replace (v / 10) with (v / 10 ^ 1) by done.
  replace (v mod 10) with (v / 10 ^ 0 mod 10) by (change (10 ^ 0) with 1; by rewrite Z.div_1_r).
  destruct (Z.leb_spec 100 v); [rewrite (proj2 (Z.leb_le 10 v)) by lia|destruct (Z.leb_spec 10 v)].
  - apply (digits_of_range 3 2); lia.
  - apply (digits_of_range 2 1); lia.
  - apply digits_of_unit. lia.
Qed.

(** Numbers are printed so that they read back: in base 10 without leading
    zeros and with the sign of a negative number, in base 16 with a fixed
    number of digits. *)
Theorem serial_numbers_read_back :
  (∀ v, 0 <= v < 256 → dec_repr v (serial_u8 v)) ∧
  (∀ v, 0 <= v < 65536 → dec_repr v (serial_u16 v)) ∧
  (∀ v, -128 <= v < 128 → sdec_repr v (serial_s8 v)) ∧
  (∀ v, 0 <= v < 256 → hex_value (serial_hex v) = v) ∧
  (∀ v, 0 <= v < 65536 → hex_value (serial_hex16 v) = v).
Proof.
  assert (Hhex : ∀ v acc, 0 <= v < 256 →
    foldl (λ acc c, acc * 16 + hex_digit c) acc (serial_hex v) = acc * 256 + v).
  { intros v acc Hv. unfold serial_hex. cbn [foldl].
    rewrite Z.shiftr_div_pow2 by done. change (Z.land v 0xF) with (Z.land v (Z.ones 4)).
    rewrite Z.land_ones by done. change (2 ^ 4) with 16.
    pose proof (Z.mod_pos_bound v 16). pose proof (Z.div_mod v 16).
    assert (0 <= v / 16 < 16) by (split; [apply Z.div_pos; lia|apply Z.div_lt_upper_bound; lia]).
    rewrite !hex_digit_figure by lia. lia. }
  split_and!.
  - apply serial_u8_repr.
  - apply serial_u16_repr.
  - intros v Hv. unfold serial_s8, sdec_repr. destruct (Z.eqb_spec v 0) as [->|Hne].
    { apply (digits_of_repr 1 0); [done|by right]. }
    destruct (Z.ltb_spec v 0).
    + exists (serial_u8 (u8 (- v))). split; [done|]. rewrite u8_small by lia. apply serial_u8_repr. lia.
    + rewrite u8_small by lia. apply serial_u8_repr. lia.
  - intros v Hv. unfold hex_value. rewrite Hhex by done. lia.
  - intros v Hv. unfold hex_value, serial_hex16. rewrite foldl_app, !Hhex by apply u8_range.
    rewrite Z.shiftr_div_pow2 by done. change (2 ^ 8) with 256. unfold u8.
    rewrite (Z.mod_small (v / 256)); [pose proof (Z.div_mod v 256); lia|].
    split; [apply Z.div_pos; lia|apply Z.div_lt_upper_bound; lia].
Qed.

(** What [serial_send_hex] prints for the bytes from index [i] on. *)
Definition hex_dump (i : Z) (vs : list Z) : list Z :=
  concat (imap (λ j v, serial_hex v ++
    (if 0xF =? Z.land (i + Z.of_nat j) 0xF then [chr_nl] else [chr_space])) vs).

Lemma hex_dump_cons i v vs :
  hex_dump i (v :: vs) = serial_hex v ++ (if 0xF =? Z.land i 0xF then [chr_nl] else [chr_space])
                         ++ hex_dump (i + 1) vs.
Proof.
  unfold hex_dump. rewrite imap_cons. cbn [concat]. rewrite Z.add_0_r, <- app_assoc. do 3 f_equal.
  apply imap_ext. intros j x _. unfold compose. by replace (i + Z.of_nat (S j)) with (i + 1 + Z.of_nat j) by lia.
Qed.

Lemma serial_send_hex_loop_spec n fuel b buffer i :
  0 <= i → i + Z.of_nat n < 256 → (n < fuel)%nat →
  serial_send_hex_loop fuel b buffer i (i + Z.of_nat n) =
  Some (hex_dump i (read_bytes b (ptr_add buffer i) n)).
Proof.
  revert fuel i. induction n as [|n IH]; intros fuel i Hi Hn Hf;
    (destruct fuel as [|fuel]; [lia|]); cbn [serial_send_hex_loop].
  - rewrite Z.add_0_r, Z.ltb_irrefl. done.
  - rewrite (proj2 (Z.ltb_lt _ _)) by lia. rewrite u8_small by lia.
    replace (i + Z.of_nat (S n)) with (i + 1 + Z.of_nat n) by lia.
    rewrite IH by lia. cbn [mbind option_bind].
    assert (E : read_bytes b (ptr_add buffer i) (S n)
                = rdb b (ptr_add buffer i) :: read_bytes b (ptr_add buffer (i + 1)) n).
    { unfold read_bytes. cbn [seq fmap list_fmap]. rewrite ptr_add_assoc, Z.add_0_r. f_equal.
      rewrite <- fmap_S_seq, <- list_fmap_compose. apply list_fmap_ext. intros k x _. unfold compose.
      rewrite !ptr_add_assoc. do 2 f_equal. lia. }
    by rewrite E, hex_dump_cons.
Qed.

Lemma serial_send_hex_diverges fuel b buffer i len :
  0 <= i < 256 → 256 <= len → serial_send_hex_loop fuel b buffer i len = None.
Proof.
  revert i. induction fuel as [|fuel IH]; intros i Hi Hl; [done|]. cbn [serial_send_hex_loop].
  rewrite (proj2 (Z.ltb_lt _ _)), IH; [done|apply u8_range|done|lia].
Qed.

(** [serial_send_hex] prints each byte of a buffer of fewer than 256 bytes,
    16 a line; given a longer buffer it never ends, its counter having 8
    bits. *)
Theorem serial_send_hex_spec b buffer len :
  0 <= len →
  if len <? 256 then ∀ fuel, len < Z.of_nat fuel →
    serial_send_hex fuel b buffer len = Some (hex_dump 0 (read_bytes b buffer (Z.to_nat len)))
  else ∀ fuel, serial_send_hex fuel b buffer len = None.
Proof.
  intros Hl. unfold serial_send_hex. destruct (Z.ltb_spec len 256).
  - intros fuel Hf. pose proof (serial_send_hex_loop_spec (Z.to_nat len) fuel b buffer 0) as E.
    rewrite Z.add_0_l, Z2Nat.id, ptr_add_0 in E by lia. apply E; lia.
  - intros fuel. apply serial_send_hex_diverges; lia.
Qed.

Lemma serial_send_hex_witness :
  let b : bmem := {[Ptr 1 0 := 0x4f; Ptr 1 1 := 0xa]} in
  serial_send_hex 3 b (Ptr 1 0) 2 = Some [52; 70; 32; 48; 65; 32] ∧
  ∀ fuel, serial_send_hex fuel b (Ptr 1 0) 300 = None.
Proof.
  split.
  - exact (serial_send_hex_spec {[Ptr 1 0 := 0x4f; Ptr 1 1 := 0xa]} (Ptr 1 0) 2 ltac:(lia) 3%nat ltac:(lia)).
  - exact (serial_send_hex_spec {[Ptr 1 0 := 0x4f; Ptr 1 1 := 0xa]} (Ptr 1 0) 300 ltac:(lia)).
Defined.
