(* ===== verification/Msgq.v ===== *)
(** * Message queues (msgq.c)

    A ring of [max_msgs] slots of [msg_size] bytes with a wait queue shared by
    the consumers (when it is empty) and the producers (when it is full). *)

From S2P Require Import Prelude Dlist Delta Tqueue Bytes Types Event Timer Kernel KernelInv KernelSpec World.

Section Msgq.
Context `{Layout, Config, Handlers}.
Variable F : mem.

Definition msgq (k : kstate) (q : word) : k_msgq := msgqs k !!! q.
Definition upd_msgq (q : word) (f : k_msgq → k_msgq) (k : kstate) : kstate :=
  set_msgqs (<[q := f (msgq k q)]> (msgqs k)) k.
Definition with_used (n : Z) (q : k_msgq) : k_msgq :=
  {| msg_size := msg_size q; max_msgs := max_msgs q; used_msgs := n; buf_start := buf_start q;
     buf_end := buf_end q; read_cursor := read_cursor q; write_cursor := write_cursor q |}.
Definition with_read (p : word) (q : k_msgq) : k_msgq :=
  {| msg_size := msg_size q; max_msgs := max_msgs q; used_msgs := used_msgs q; buf_start := buf_start q;
     buf_end := buf_end q; read_cursor := p; write_cursor := write_cursor q |}.
Definition with_write (p : word) (q : k_msgq) : k_msgq :=
  {| msg_size := msg_size q; max_msgs := max_msgs q; used_msgs := used_msgs q; buf_start := buf_start q;
     buf_end := buf_end q; read_cursor := read_cursor q; write_cursor := p |}.

Definition memcpy_M (dst src : word) (n : Z) : M unit :=
  modify (λ k, set_bytes (memcpy (bytes k) dst src (Z.to_nat n)) k).

(** The cursor after the slot at [p]. *)
Definition advance (q : k_msgq) (p : word) : word :=
  let p := ptr_add p (msg_size q) in
  if decide (p = buf_end q) then buf_start q else p.

Definition k_msgq_init (q buffer : word) (size max : Z) : M Z :=
  if negb (z_user (nonnull q && nonnull buffer && negb (size =? 0) && negb (max =? 0)))
  then ret (- EINVAL)
  else
    modify (upd_links (λ m, dlist_init m (msgq_waitqueue q)));;
    modify (upd_msgq q (λ _,
      {| msg_size := size; max_msgs := max; used_msgs := 0; buf_start := buffer;
         buf_end := ptr_add buffer (u16 (size * max)); read_cursor := buffer;
         write_cursor := buffer |}));;
    ret 0.

Definition k_msgq_put (q data : word) (timeout : Z) : M Z :=
  if negb (z_user (nonnull q && nonnull data)) then ret (- EINVAL)
  else
    let* key := irq_lock in
    let* k := get in
    let mq := msgq k q in
    let* r :=
      if used_msgs mq <? max_msgs mq then
        let* pending_thread := z_unpend_first_thread (msgq_waitqueue q) in
        (if decide (pending_thread ≠ NULL) then
           let* k := get in
           memcpy_M (swap_data (thr k pending_thread)) data (msg_size mq)
         else
           memcpy_M (write_cursor mq) data (msg_size mq);;
           modify (λ k, upd_msgq q (λ mq, with_write (advance mq (write_cursor mq)) mq) k);;
           modify (λ k, upd_msgq q (λ mq, with_used (u8 (used_msgs mq + 1)) mq) k));;
        ret 0
      else if timeout =? K_NO_WAIT then ret (- ENOMEM)
      else
        modify (λ k, set_swap_data (current k) data k);;
        z_pend_current_on (msgq_waitqueue q) timeout in
    irq_unlock key;;
    ret r.

Definition k_msgq_get (q data : word) (timeout : Z) : M Z :=
  if negb (z_user (nonnull q && nonnull data)) then ret (- EINVAL)
  else
    let* key := irq_lock in
    let* k := get in
    let mq := msgq k q in
    let* r :=
      if 0 <? used_msgs mq then
        memcpy_M data (read_cursor mq) (msg_size mq);;
        modify (λ k, upd_msgq q (λ mq, with_read (advance mq (read_cursor mq)) mq) k);;
        let* pending_thread := z_unpend_first_thread (msgq_waitqueue q) in
        (if decide (pending_thread ≠ NULL) then
           let* k := get in
           memcpy_M (write_cursor (msgq k q)) (swap_data (thr k pending_thread)) (msg_size mq);;
           modify (λ k, upd_msgq q (λ mq, with_write (advance mq (write_cursor mq)) mq) k)
         else
           modify (λ k, upd_msgq q (λ mq, with_used (u8 (used_msgs mq - 1)) mq) k));;
        ret 0
      else if timeout =? K_NO_WAIT then ret (- ENOMSG)
      else
        modify (λ k, set_swap_data (current k) data k);;
        z_pend_current_on (msgq_waitqueue q) timeout in
    irq_unlock key;;
    ret r.

Definition k_msgq_purge (q : word) : M Z :=
  if negb (z_user (nonnull q)) then ret (- EINVAL)
  else
    let* key := irq_lock in
    modify (λ k, upd_msgq q (λ mq, with_used 0 (with_write (read_cursor mq) mq)) k);;
    let* r := z_cancel_all_pending (msgq_waitqueue q) in
    irq_unlock key;;
    ret (s8 r).

Definition k_msgq_peek (q data : word) : M Z :=
  if negb (z_user (nonnull q)) then ret (- EINVAL)
  else
    let* key := irq_lock in
    let* k := get in
    let mq := msgq k q in
    let* r :=
      if 0 <? used_msgs mq then memcpy_M data (read_cursor mq) (msg_size mq);; ret 0
      else ret (u8 (- ENOMSG)) in
    irq_unlock key;;
    ret (s8 r).

Definition k_msgq_num_free_get (q : word) : M Z :=
  if negb (z_user (nonnull q)) then ret (u8 (- EINVAL))
  else
    let* key := irq_lock in
    let* k := get in
    irq_unlock key;;
    ret (u8 (max_msgs (msgq k q) - used_msgs (msgq k q))).

Definition k_msgq_num_used_get (q : word) : M Z :=
  if negb (z_user (nonnull q)) then ret (u8 (- EINVAL))
  else
    let* key := irq_lock in
    let* k := get in
    irq_unlock key;;
    ret (used_msgs (msgq k q)).

(** ** The representation of a queue of messages *)

(** The slot of index [i] modulo the capacity. *)
Definition slot (mq : k_msgq) (i : Z) : word :=
  ptr_add (buf_start mq) ((i mod max_msgs mq) * msg_size mq).

Record ring_ok (b : bmem) (mq : k_msgq) (r : Z) (msgs : list (list Z)) : Prop := {
  mq_size : 0 < msg_size mq;
  mq_max : 0 < max_msgs mq < 256;
  mq_r : 0 <= r < max_msgs mq;
  mq_used : used_msgs mq = Z.of_nat (length msgs);
  mq_cap : used_msgs mq <= max_msgs mq;
  mq_end : buf_end mq = ptr_add (buf_start mq) (max_msgs mq * msg_size mq);
  mq_read : read_cursor mq = slot mq r;
  mq_write : write_cursor mq = slot mq (r + used_msgs mq);
  mq_msgs : ∀ i msg, msgs !! i = Some msg →
    read_bytes b (slot mq (r + Z.of_nat i)) (Z.to_nat (msg_size mq)) = msg;
}.

(** A buffer outside the ring. *)
Definition outside_ring (mq : k_msgq) (p : word) : Prop :=
  disjoint_bytes p (Z.to_nat (msg_size mq)) (buf_start mq) (Z.to_nat (max_msgs mq * msg_size mq)).

Lemma slot_mod mq i : 0 < max_msgs mq → slot mq (i mod max_msgs mq) = slot mq i.
Proof. intros. unfold slot. by rewrite Z.mod_mod by lia. Qed.

Lemma advance_slot mq i :
  0 < msg_size mq → 0 < max_msgs mq →
  buf_end mq = ptr_add (buf_start mq) (max_msgs mq * msg_size mq) →
  advance mq (slot mq i) = slot mq (i + 1).
Proof.
  intros Hs Hm He. unfold advance, slot. rewrite He, ptr_add_assoc.
  pose proof (Z.mod_pos_bound i (max_msgs mq) ltac:(lia)) as Hb.
  rewrite <- (Zplus_mod_idemp_l i 1).
  case_decide as E.
  - apply ptr_add_ofs_inj in E.
    assert (i mod max_msgs mq + 1 = max_msgs mq) as -> by nia.
    by rewrite Z_mod_same_full, Z.mul_0_l, ptr_add_0.
  - assert (i mod max_msgs mq + 1 ≠ max_msgs mq) by (intros E'; apply E; f_equal; nia).
    rewrite (Z.mod_small (_ + 1)) by lia. f_equal. lia.
Qed.

Lemma slot_in_ring mq i p :
  0 < msg_size mq → 0 < max_msgs mq → outside_ring mq p →
  disjoint_bytes p (Z.to_nat (msg_size mq)) (slot mq i) (Z.to_nat (msg_size mq)).
Proof.
  intros Hs Hm Ho. pose proof (Z.mod_pos_bound i (max_msgs mq) ltac:(lia)) as Hb.
  eapply (disjoint_bytes_sub _ _ _ _ _ _ _ _ 0); [exact Ho|by rewrite ptr_add_0|reflexivity|..];
    rewrite ?Z2Nat.id by nia; nia.
Qed.

Lemma slots_disjoint mq i j :
  0 < msg_size mq → 0 < max_msgs mq → i mod max_msgs mq ≠ j mod max_msgs mq →
  disjoint_bytes (slot mq i) (Z.to_nat (msg_size mq)) (slot mq j) (Z.to_nat (msg_size mq)).
Proof.
  intros Hs Hm Hne. apply disjoint_blocks. rewrite Z2Nat.id by lia.
  destruct (Z.lt_total (i mod max_msgs mq) (j mod max_msgs mq)) as [?|[?|?]]; [left|done|right]; nia.
Qed.

Lemma mod_slots_ne r i j n :
  0 < n → 0 <= i < n → 0 <= j < n → i ≠ j → (r + i) mod n ≠ (r + j) mod n.
Proof.
  intros Hn Hi Hj Hne E.
  assert ((i - j) mod n = 0) as E0.
  { replace (i - j) with ((r + i) - (r + j)) by lia. rewrite Zminus_mod, E, Z.sub_diag. apply Zmod_0_l. }
  apply Z.mod_divide in E0 as [x Hx]; [|lia].
  destruct (Z.lt_total x 0) as [?|[->|?]]; nia.
Qed.

Definition sz (mq : k_msgq) : nat := Z.to_nat (msg_size mq).

(** Writing a message into the free slot at the write cursor. *)
Lemma ring_put b mq r msgs data :
  ring_ok b mq r msgs → used_msgs mq < max_msgs mq → outside_ring mq data →
  ring_ok (memcpy b (write_cursor mq) data (sz mq))
    (with_used (used_msgs mq + 1) (with_write (advance mq (write_cursor mq)) mq)) r
    (msgs ++ [read_bytes b data (sz mq)]).
Proof.
  intros [] Hlt Ho. split; simpl; try done.
  - rewrite length_app. simpl. lia.
  - lia.
  - change (slot _ (r + (used_msgs mq + 1))) with (slot mq (r + (used_msgs mq + 1))).
    rewrite mq_write0, advance_slot by (done || lia). f_equal. lia.
  - intros i msg Hi. change (slot _ (r + Z.of_nat i)) with (slot mq (r + Z.of_nat i)). fold (sz mq).
    assert (Hd : disjoint_bytes data (sz mq) (write_cursor mq) (sz mq)).
    { rewrite mq_write0. apply slot_in_ring; [done|lia|done]. }
    apply lookup_app_Some in Hi as [Hi|[Hge Hi]].
    + rewrite memcpy_other; [by apply mq_msgs0|done|]. rewrite mq_write0.
      apply lookup_lt_Some in Hi. apply slots_disjoint; [done|lia|]. apply mod_slots_ne; lia.
    + assert (i = length msgs) as -> by (apply lookup_lt_Some in Hi; simpl in Hi; lia).
      rewrite Nat.sub_diag in Hi. injection Hi as <-.
      rewrite <- mq_used0, <- mq_write0. by apply memcpy_read.
Qed.

(** Reading the oldest message into a buffer. *)
Lemma ring_get b mq r m msgs data :
  ring_ok b mq r (m :: msgs) → outside_ring mq data →
  read_bytes (memcpy b data (read_cursor mq) (sz mq)) data (sz mq) = m ∧
  ring_ok (memcpy b data (read_cursor mq) (sz mq))
    (with_used (used_msgs mq - 1) (with_read (advance mq (read_cursor mq)) mq))
    ((r + 1) mod max_msgs mq) msgs.
Proof.
  intros [] Ho.
  assert (Hsl : ∀ i, disjoint_bytes (slot mq i) (sz mq) data (sz mq)).
  { intros i. apply disjoint_bytes_sym, slot_in_ring; [done|lia|done]. }
  simpl in mq_used0. split.
  - rewrite memcpy_read by (rewrite mq_read0; apply Hsl). rewrite mq_read0.
    rewrite <- (mq_msgs0 0%nat m eq_refl). by rewrite Z.add_0_r.
  - split; simpl; try done.
    + apply Z.mod_pos_bound. lia.
    + lia.
    + lia.
    + change (slot _ ((r + 1) mod max_msgs mq)) with (slot mq ((r + 1) mod max_msgs mq)).
      rewrite slot_mod by lia. rewrite mq_read0. apply advance_slot; done || lia.
    + rewrite mq_write0. change (slot _ ((r + 1) mod max_msgs mq + (used_msgs mq - 1)))
        with (slot mq ((r + 1) mod max_msgs mq + (used_msgs mq - 1))).
      unfold slot. rewrite Zplus_mod_idemp_l. do 3 f_equal. lia.
    + intros i msg Hi. fold (sz mq).
      change (slot _ ((r + 1) mod max_msgs mq + Z.of_nat i)) with (slot mq ((r + 1) mod max_msgs mq + Z.of_nat i)).
      rewrite memcpy_other; [|rewrite mq_read0; apply Hsl|apply Hsl].
      rewrite <- (mq_msgs0 (S i) msg Hi). f_equal.
      unfold slot. rewrite Zplus_mod_idemp_l. do 3 f_equal. lia.
Qed.

(** ** The queue in the kernel *)

Record msgq_ok (k : kstate) (Q : gmap word (list word)) (q : word) (r : Z)
    (msgs : list (list Z)) (ws : list word) : Prop := {
  mqo_ring : ring_ok (bytes k) (msgq k q) r msgs;
  mqo_wait : Q !! msgq_waitqueue q = Some ws;
  mqo_excl : ws ≠ [] → used_msgs (msgq k q) = 0 ∨ used_msgs (msgq k q) = max_msgs (msgq k q);
}.

Lemma msgq_upd_eq q f k : msgq (upd_msgq q f k) q = f (msgq k q).
Proof. unfold msgq at 1, upd_msgq. simpl. by rewrite lookup_total_insert_eq. Qed.

Lemma msgq_upd_upd q f g k : upd_msgq q g (upd_msgq q f k) = upd_msgq q (λ x, g (f x)) k.
Proof. unfold upd_msgq at 1. rewrite msgq_upd_eq. unfold upd_msgq, set_msgqs. simpl. by rewrite insert_insert_eq. Qed.

Lemma msgq_keeps q k k' : keeps k k' → msgq k' q = msgq k q ∧ bytes k' = bytes k.
Proof. intros [Hk _]. unfold kobjs in Hk. unfold msgq. split; congruence. Qed.

Lemma msgq_sreg b k q : msgq (set_sreg_i b k) q = msgq k q.
Proof. done. Qed.

Lemma ring_empty b b' mq r msgs : ring_ok b mq r msgs → used_msgs mq = 0 → ring_ok b' mq r msgs ∧ msgs = [].
Proof.
  intros [] Hu. assert (msgs = []) as -> by (destruct msgs; [done|simpl in *; lia]).
  split; [|done]. split; try done.
Qed.

Lemma Inv_msgq q f b k T rs ts Q :
  Inv F k T rs ts Q → Inv F (upd_msgq q f (set_bytes b k)) T rs ts Q.
Proof. intros Hi. by eapply Inv_objs. Qed.

(** The caller waits, with its buffer recorded. *)
Lemma msgq_wait q data timeout k T c rs ts Q r msgs ws :
  Inv F k T (c :: rs) ts Q → msgq_ok k Q q r msgs ws → current k = c → can_idle rs →
  timeout ≠ K_NO_WAIT → 0 <= timeout < 65536 →
  used_msgs (msgq k q) = 0 ∨ used_msgs (msgq k q) = max_msgs (msgq k q) →
  ∃ k', suspends (bind (modify (λ k, set_swap_data (current k) data k);; z_pend_current_on (msgq_waitqueue q) timeout)
        (λ r, irq_unlock (sreg_i k);; ret r) (set_sreg_i false k)) k'
      (λ k2, Done (pend_result (flags (thr k2 (current k2)))) (set_sreg_i (sreg_i k) k2)) ∧
    Inv F k' T (rq_leave rs) (tmo_add timeout c ts) (<[msgq_waitqueue q := ws ++ [c]]> Q) ∧
    msgq_ok k' (<[msgq_waitqueue q := ws ++ [c]]> Q) q r msgs (ws ++ [c]) ∧
    swap_data (thr k' c) = data ∧ bytes k' = bytes k ∧ ∀ t, t ≠ c → thr k' t = thr k t.
Proof.
  intros Hi [Hr Hw He] Hc Hid Hne Ht Hu. pose proof (Inv_sreg _ false _ _ _ _ _ Hi) as Hi0.
  assert (Hi1 : Inv F (set_swap_data c data (set_sreg_i false k)) T (c :: rs) ts Q) by by apply Inv_upd_thread.
  destruct (z_pend_current_on_spec _ (msgq_waitqueue q) timeout _ T c rs ts Q ws Hi1 Hw)
    as (k'&Hsus&Hi'&Hc'&Hk&Hoth&Hfl); [done|done|unfold K_NO_WAIT in Hne; lia|].
  destruct (msgq_keeps q _ _ Hk) as [Em Eb]. exists k'. split_and!; [|done| | |done|].
  - eapply suspends_ext; [apply suspends_bind|].
    + rewrite bind_modify. change (current (set_sreg_i false k)) with (current k). rewrite Hc. exact Hsus.
    + done.
  - split; [|apply lookup_insert_eq|]; rewrite Em; [by rewrite Eb|intros _; exact Hu].
  - destruct Hsus as (cont&E&_). pose proof (z_pend_current_on_swap (msgq_waitqueue q) timeout (set_swap_data c data (set_sreg_i false k))) as Hs.
    rewrite E in Hs. rewrite (Hs c). unfold set_swap_data. by rewrite thr_upd_eq.
  - intros t Hx. rewrite (Hoth t Hx). unfold set_swap_data. by rewrite thr_upd_ne.
Qed.

(** A producer that waits, with its message at [src], fills the slot that the
    read of the oldest message sets free. *)
Lemma msgq_refill k k2 q r m msgs data src b :
  let mq := msgq k q in
  let n := sz mq in
  let k3 := set_sreg_i b (upd_msgq q (λ mq, with_write (advance mq (write_cursor mq)) mq)
    (set_bytes (memcpy (bytes k2) (write_cursor (msgq k2 q)) src n) k2)) in
  ring_ok (bytes k) mq r (m :: msgs) → outside_ring mq data → outside_ring mq src → disjoint_bytes src n data n →
  msgq k2 q = with_read (advance mq (read_cursor mq)) mq → bytes k2 = memcpy (bytes k) data (read_cursor mq) n →
  ring_ok (bytes k3) (msgq k3 q) ((r + 1) mod max_msgs mq) (msgs ++ [read_bytes (bytes k) src n]) ∧
  read_bytes (bytes k3) data n = m.
Proof.
  intros mq n k3 Hr Hout Ho1 Ho2 Em Eb. destruct (ring_get _ _ _ _ _ data Hr Hout) as [Hmsg Hr'].
  pose proof (mq_used _ _ _ _ Hr) as Hu. pose proof (mq_cap _ _ _ _ Hr) as Hcap. simpl in Hu.
  pose proof (mq_max _ _ _ _ Hr) as Hmax.
  assert (Hbk : bytes k3 = memcpy (memcpy (bytes k) data (read_cursor mq) n) (write_cursor mq) src n).
  { change (bytes k3) with (memcpy (bytes k2) (write_cursor (msgq k2 q)) src n). by rewrite Em, Eb. }
  rewrite Hbk. split.
  - unfold k3. rewrite msgq_sreg, msgq_upd_eq. change (msgq (set_bytes _ k2) q) with (msgq k2 q). rewrite Em.
    pose proof (ring_put _ _ _ _ src Hr' ltac:(simpl; lia) Ho1) as Hr2.
    rewrite (memcpy_other (bytes k) data) in Hr2; [|rewrite (mq_read _ _ _ _ Hr); apply disjoint_bytes_sym, slot_in_ring; [by apply Hr|lia|done]|done].
    cbn [with_used with_write with_read used_msgs] in Hr2.
    replace (used_msgs mq - 1 + 1) with (used_msgs mq) in Hr2 by lia. exact Hr2.
  - rewrite memcpy_other; [exact Hmsg| |]; rewrite (mq_write _ _ _ _ Hr);
      (apply slot_in_ring; [by apply Hr|lia|done]).
Qed.

(** C18: [k_msgq_put] on a queue with room hands the message to the consumer that
    has waited longest, or appends it to the queue; on a full queue it fails
    at once when told not to wait, and else waits, last of the producers, with
    its message recorded; the representation holds in every case. *)
Theorem k_msgq_put_spec q data timeout k T c rs ts Q r msgs ws :
  Inv F k T (c :: rs) ts Q → msgq_ok k Q q r msgs ws → current k = c → can_idle rs →
  q ≠ NULL → data ≠ NULL → 0 <= timeout < 65536 →
  outside_ring (msgq k q) data →
  (∀ t, t ∈ ws → outside_ring (msgq k q) (swap_data (thr k t)) ∧
     disjoint_bytes data (sz (msgq k q)) (swap_data (thr k t)) (sz (msgq k q))) →
  let n := sz (msgq k q) in
  if used_msgs (msgq k q) <? max_msgs (msgq k q) then
    match ws with
    | [] => ∃ k', k_msgq_put q data timeout k = Done 0 k' ∧ Inv F k' T (c :: rs) ts Q ∧
        msgq_ok k' Q q r (msgs ++ [read_bytes (bytes k) data n]) []
    | t :: ws' => ∃ k', k_msgq_put q data timeout k = Done 0 k' ∧
        Inv F k' T (rq_add (c :: rs) t) (tmo_del t ts) (<[msgq_waitqueue q := ws']> Q) ∧
        msgq_ok k' (<[msgq_waitqueue q := ws']> Q) q r msgs ws' ∧
        read_bytes (bytes k') (swap_data (thr k t)) n = read_bytes (bytes k) data n ∧ current k' = c ∧
        (Z.land (flags (thr k t)) SCHED_CLR = 0 → pend_result (flags (thr k' t)) = 0)
    end
  else if timeout =? K_NO_WAIT then k_msgq_put q data timeout k = Done (- ENOMEM) k
  else ∃ k', suspends (k_msgq_put q data timeout k) k'
        (λ k2, Done (pend_result (flags (thr k2 (current k2)))) (set_sreg_i (sreg_i k) k2)) ∧
      Inv F k' T (rq_leave rs) (tmo_add timeout c ts) (<[msgq_waitqueue q := ws ++ [c]]> Q) ∧
      msgq_ok k' (<[msgq_waitqueue q := ws ++ [c]]> Q) q r msgs (ws ++ [c]) ∧
      swap_data (thr k' c) = data ∧ bytes k' = bytes k ∧ ∀ t, t ≠ c → thr k' t = thr k t.
Proof.
  intros Hi [Hr Hw He] Hc Hid Hq Hd Ht Hout Hws n. unfold k_msgq_put.
  rewrite z_user_true by by rewrite !nonnull_true. rewrite bind_irq_lock, bind_get.
  change (msgq (set_sreg_i false k) q) with (msgq k q).
  pose proof (Inv_sreg _ false _ _ _ _ _ Hi) as Hi0. pose proof Hr as [].
  destruct (Z.ltb_spec (used_msgs (msgq k q)) (max_msgs (msgq k q))) as [Hlt|Hge].
  - destruct ws as [|t ws].
    + destruct (z_unpend_first_thread_nil _ _ _ _ _ _ _ _ Hi0 Hw) as (m'&E&Ha).
      unfold bind at 1. rewrite (bind_done _ _ _ _ _ E). rewrite decide_False by (intros Hn; by apply Hn).
      eexists. split; [reflexivity|]. split.
      * by eapply Inv_objs; [apply (Inv_set_links _ _ _ _ _ _ _ _ Hi0 Ha)|..].
      * split; [|done|done]. rewrite msgq_upd_upd, msgq_sreg, msgq_upd_eq.
        change (msgq (set_bytes _ _) q) with (msgq k q). cbn [used_msgs with_write].
        rewrite u8_small by lia. by apply ring_put.
    + destruct (z_unpend_first_thread_cons _ _ _ _ _ _ _ _ _ Hi0 Hw) as (k1&E&Hi1&Hk1&Hc1&Hoth&Hfl).
      pose proof (z_unpend_first_thread_swap _ _ _ _ E t) as Hsw.
      change (thr (set_sreg_i false k) t) with (thr k t) in Hsw.
      assert (Hnn : t ≠ NULL).
      { eapply thread_nonnull; [done|]. eapply lk_ws_T; [by apply Hi|done|by left]. }
      destruct (msgq_keeps q _ _ Hk1) as [Em Eb]. rewrite msgq_sreg in Em.
      destruct (Hws t) as [Ho1 Ho2]; [by left|].
      unfold bind at 1. rewrite (bind_done _ _ _ _ _ E). rewrite decide_True by done.
      eexists. split; [reflexivity|]. split_and!.
      * by eapply Inv_objs.
      * assert (used_msgs (msgq k q) = 0) as Hu by (destruct He; [done|done|lia]).
        split; [|apply lookup_insert_eq|]; rewrite !msgq_sreg;
          change (msgq (set_bytes _ k1) q) with (msgq k1 q); rewrite Em.
        -- by eapply ring_empty.
        -- by left.
      * rewrite Hsw. change (bytes (set_sreg_i _ (set_bytes ?b k1))) with b. rewrite Eb.
        apply memcpy_read. done.
      * cbn [current set_sreg_i set_bytes]. by rewrite Hc1.
      * change (thr (set_sreg_i _ (set_bytes _ k1)) t) with (thr k1 t). rewrite Hfl. apply pend_result_wake.
  - destruct (Z.eqb_spec timeout K_NO_WAIT) as [->|Hne].
    + by destruct k.
    + apply msgq_wait; [done|by split|done..|lia].
Qed.

(** C19: [k_msgq_get] copies the oldest message into the caller's buffer; a
    producer that waits, the oldest first, has its message appended in the
    slot set free; an empty queue makes the call fail at once or wait, last of
    the consumers, with its buffer recorded; the representation holds. *)
Theorem k_msgq_get_spec q data timeout k T c rs ts Q r msgs ws :
  Inv F k T (c :: rs) ts Q → msgq_ok k Q q r msgs ws → current k = c → can_idle rs →
  q ≠ NULL → data ≠ NULL → 0 <= timeout < 65536 →
  outside_ring (msgq k q) data →
  (∀ t, t ∈ ws → outside_ring (msgq k q) (swap_data (thr k t)) ∧
     disjoint_bytes (swap_data (thr k t)) (sz (msgq k q)) data (sz (msgq k q))) →
  let n := sz (msgq k q) in
  match msgs with
  | msg :: msgs' =>
    match ws with
    | [] => ∃ k' r', k_msgq_get q data timeout k = Done 0 k' ∧ Inv F k' T (c :: rs) ts Q ∧
        msgq_ok k' Q q r' msgs' [] ∧ read_bytes (bytes k') data n = msg
    | t :: ws' => ∃ k' r', k_msgq_get q data timeout k = Done 0 k' ∧
        Inv F k' T (rq_add (c :: rs) t) (tmo_del t ts) (<[msgq_waitqueue q := ws']> Q) ∧
        msgq_ok k' (<[msgq_waitqueue q := ws']> Q) q r'
          (msgs' ++ [read_bytes (bytes k) (swap_data (thr k t)) n]) ws' ∧
        read_bytes (bytes k') data n = msg ∧ current k' = c ∧
        (Z.land (flags (thr k t)) SCHED_CLR = 0 → pend_result (flags (thr k' t)) = 0)
    end
  | [] =>
    if timeout =? K_NO_WAIT then k_msgq_get q data timeout k = Done (- ENOMSG) k
    else ∃ k', suspends (k_msgq_get q data timeout k) k'
        (λ k2, Done (pend_result (flags (thr k2 (current k2)))) (set_sreg_i (sreg_i k) k2)) ∧
      Inv F k' T (rq_leave rs) (tmo_add timeout c ts) (<[msgq_waitqueue q := ws ++ [c]]> Q) ∧
      msgq_ok k' (<[msgq_waitqueue q := ws ++ [c]]> Q) q r [] (ws ++ [c]) ∧
      swap_data (thr k' c) = data ∧ bytes k' = bytes k ∧ ∀ t, t ≠ c → thr k' t = thr k t
  end.
Proof.
  intros Hi [Hr Hw He] Hc Hid Hq Hd Ht Hout Hws n. unfold k_msgq_get.
  rewrite z_user_true by by rewrite !nonnull_true. rewrite bind_irq_lock, bind_get.
  change (msgq (set_sreg_i false k) q) with (msgq k q).
  pose proof (Inv_sreg _ false _ _ _ _ _ Hi) as Hi0.
  pose proof (mq_used _ _ _ _ Hr) as Hu. pose proof (mq_max _ _ _ _ Hr) as Hmax.
  pose proof (mq_cap _ _ _ _ Hr) as Hcap.
  destruct msgs as [|msg msgs].
  - rewrite (proj2 (Z.ltb_ge 0 (used_msgs (msgq k q)))) by (simpl in Hu; lia). destruct (Z.eqb_spec timeout K_NO_WAIT) as [->|Hne].
    + by destruct k.
    + apply msgq_wait; [done|by split|done..|left; simpl in Hu; lia].
  - destruct (ring_get _ _ _ _ _ data Hr Hout) as [Hmsg Hr']. simpl length in Hu.
    rewrite (proj2 (Z.ltb_lt 0 (used_msgs (msgq k q)))) by lia.
    set (k1 := upd_msgq q (λ mq, with_read (advance mq (read_cursor mq)) mq)
      (set_bytes (memcpy (bytes k) data (read_cursor (msgq k q)) (sz (msgq k q))) (set_sreg_i false k))).
    assert (Hi1 : Inv F k1 T (c :: rs) ts Q) by by apply Inv_msgq.
    assert (Em1 : msgq k1 q = with_read (advance (msgq k q) (read_cursor (msgq k q))) (msgq k q)).
    { unfold k1. rewrite msgq_upd_eq. done. }
    assert (Eb1 : bytes k1 = memcpy (bytes k) data (read_cursor (msgq k q)) (sz (msgq k q))) by done.
    destruct ws as [|t ws].
    + destruct (z_unpend_first_thread_nil _ _ _ _ _ _ _ _ Hi1 Hw) as (m'&E&Ha).
      unfold bind at 1, memcpy_M at 1. rewrite !bind_modify. cbv beta. fold (sz (msgq k q)).
      change (bytes (set_sreg_i false k)) with (bytes k). fold k1.
      rewrite (bind_done _ _ _ _ _ E). rewrite decide_False by (intros Hn; by apply Hn).
      eexists _, _. split; [reflexivity|]. split_and!.
      * by eapply Inv_objs; [apply (Inv_set_links _ _ _ _ _ _ _ _ Hi1 Ha)|..].
      * split; [|done|done]. rewrite msgq_sreg, msgq_upd_eq.
        change (msgq (set_links m' k1) q) with (msgq k1 q). rewrite Em1.
        cbn [used_msgs with_read]. rewrite u8_small by lia. exact Hr'.
      * exact Hmsg.
    + destruct (z_unpend_first_thread_cons _ _ _ _ _ _ _ _ _ Hi1 Hw) as (k2&E&Hi2&Hk2&Hc2&Hoth&Hfl).
      pose proof (z_unpend_first_thread_swap _ _ _ _ E t) as Hsw.
      change (thr k1 t) with (thr k t) in Hsw.
      assert (Hnn : t ≠ NULL).
      { eapply thread_nonnull; [done|]. eapply lk_ws_T; [by apply Hi|done|by left]. }
      destruct (msgq_keeps q _ _ Hk2) as [Em Eb]. rewrite Em1 in Em. rewrite Eb1 in Eb.
      destruct (Hws t) as [Ho1 Ho2]; [by left|].
      unfold bind at 1, memcpy_M at 1. rewrite !bind_modify. cbv beta. fold (sz (msgq k q)).
      change (bytes (set_sreg_i false k)) with (bytes k). fold k1.
      rewrite (bind_done _ _ _ _ _ E). rewrite decide_True by done.
      destruct (msgq_refill k k2 q _ _ _ data (swap_data (thr k t)) (sreg_i k) Hr Hout Ho1 Ho2 Em Eb) as [Hrk Hrd].
      eexists _, _. split; [reflexivity|]. rewrite Hsw. split_and!; [by eapply Inv_objs| | | |].
      * split; [|apply lookup_insert_eq|].
        -- exact Hrk.
        -- intros _. right. rewrite !msgq_sreg, msgq_upd_eq. change (msgq (set_bytes _ k2) q) with (msgq k2 q).
           rewrite Em. destruct He as [?|?]; [done|lia|]. done.
      * exact Hrd.
      * cbn [current set_sreg_i set_bytes upd_msgq set_msgqs]. by rewrite Hc2.
      * change (thr (set_sreg_i _ (upd_msgq _ _ (set_bytes _ k2))) t) with (thr k2 t). rewrite Hfl. apply pend_result_wake.
Qed.
End Msgq.

(** ** Instances: a queue of three messages of two bytes that holds one *)

Definition w_buf : word := Ptr 31 0.
Definition w_data : word := Ptr 32 0.
Definition w_mq : k_msgq :=
  {| msg_size := 2; max_msgs := 3; used_msgs := 1; buf_start := w_buf; buf_end := ptr_add w_buf 6;
     read_cursor := ptr_add w_buf 4; write_cursor := w_buf |}.
Definition w_bytes : bmem :=
  list_to_map [(ptr_add w_buf 4, 7); (ptr_add w_buf 5, 8); (w_data, 5); (ptr_add w_data 1, 6)].
Definition w_msgq (k : kstate) : kstate := upd_msgq (w_obj 0) (λ _, w_mq) (set_bytes w_bytes k).

Lemma w_msgq_head : msgq_waitqueue (w_obj 0) ∈ w_heads.
Proof. vm_compute. set_solver. Qed.

Lemma w_msgq_ok k Q : Q !! msgq_waitqueue (w_obj 0) = Some [] → msgq_ok (w_msgq k) Q (w_obj 0) 2 [[7; 8]] [].
Proof.
  intros HQ. split; [|done|done]. unfold w_msgq. rewrite msgq_upd_eq. split; try done.
  intros [|i] msg; [|done]. intros [= <-]. reflexivity.
Qed.

Lemma w_msgq_get k : msgq (w_msgq k) (w_obj 0) = w_mq.
Proof. unfold w_msgq. by rewrite msgq_upd_eq. Qed.

Lemma w_data_outside : outside_ring w_mq w_data.
Proof. intros i _ j _. done. Qed.

(** A queue of one message, full or empty. *)
Definition w_mq1 (used : Z) : k_msgq :=
  {| msg_size := 2; max_msgs := 1; used_msgs := used; buf_start := w_buf; buf_end := ptr_add w_buf 2;
     read_cursor := w_buf; write_cursor := w_buf |}.
Definition w_msgq1 (used : Z) (k : kstate) : kstate := upd_msgq (w_obj 0) (λ _, w_mq1 used) (set_bytes w_bytes k).

Lemma w_msgq1_get used k : msgq (w_msgq1 used k) (w_obj 0) = w_mq1 used.
Proof. unfold w_msgq1. by rewrite msgq_upd_eq. Qed.

Lemma w_msgq1_ok used k msgs Q : Q !! msgq_waitqueue (w_obj 0) = Some [] → (used, msgs) ∈ [(0, []); (1, [[0; 0]])] →
  msgq_ok (w_msgq1 used k) Q (w_obj 0) 0 msgs [].
Proof.
  intros HQ Hm. split; [|done|done]. rewrite w_msgq1_get.
  apply elem_of_cons in Hm as [[= -> ->]|[[= -> ->]|Hm]%elem_of_cons]; [..|by apply not_elem_of_nil in Hm]; split; try done.
  intros [|i] msg; [|done]. intros [= <-]. reflexivity.
Qed.

Lemma k_msgq_put_witness :
  (∃ k', k_msgq_put (w_obj 0) w_data K_FOREVER (w_msgq w_ready) = Done 0 k' ∧
    msgq_ok k' w_Q (w_obj 0) 2 [[7; 8]; [5; 6]] []) ∧
  ∃ k' cont, k_msgq_put (w_obj 0) w_data K_FOREVER (w_msgq1 1 w_ready) = Susp k' cont ∧ swap_data (thr k' t1) = w_data.
Proof.
  assert (HQ : w_Q !! msgq_waitqueue (w_obj 0) = Some []) by apply w_Q_heads, w_msgq_head.
  assert (Hno : ∀ (P : word → Prop) t, t ∈ @nil word → P t) by (intros P t Ht; by apply not_elem_of_nil in Ht).
  split.
  - pose proof (k_msgq_put_spec w_F (w_obj 0) w_data K_FOREVER (w_msgq w_ready) w_T t1 [t3; t2] [] w_Q 2
      [[7; 8]] []) as Hs. rewrite w_msgq_get in Hs.
    destruct Hs as (k'&E&_&Ho); [apply Inv_msgq, w_ready_inv|by apply w_msgq_ok|reflexivity|by left|done..|apply w_data_outside|apply Hno|].
    by exists k'.
  - pose proof (k_msgq_put_spec w_F (w_obj 0) w_data K_FOREVER (w_msgq1 1 w_ready) w_T t1 [t3; t2] [] w_Q 0
      [[0; 0]] []) as Hs. rewrite w_msgq1_get in Hs.
    destruct Hs as (k'&(cont&E&_)&_&_&Hsw&_);
      [apply Inv_msgq, w_ready_inv|apply w_msgq1_ok; [done|by right; left]|reflexivity|by left|done..|by intros i _ j _|apply Hno|].
    by exists k', cont.
Defined.

Lemma k_msgq_get_witness :
  (∃ k', k_msgq_get (w_obj 0) w_data K_FOREVER (w_msgq w_ready) = Done 0 k' ∧
    read_bytes (bytes k') w_data 2 = [7; 8]) ∧
  ∃ k' cont, k_msgq_get (w_obj 0) w_data K_FOREVER (w_msgq1 0 w_ready) = Susp k' cont ∧ swap_data (thr k' t1) = w_data.
Proof.
  assert (HQ : w_Q !! msgq_waitqueue (w_obj 0) = Some []) by apply w_Q_heads, w_msgq_head.
  assert (Hno : ∀ (P : word → Prop) t, t ∈ @nil word → P t) by (intros P t Ht; by apply not_elem_of_nil in Ht).
  split.
  - pose proof (k_msgq_get_spec w_F (w_obj 0) w_data K_FOREVER (w_msgq w_ready) w_T t1 [t3; t2] [] w_Q 2
      [[7; 8]] []) as Hs. rewrite w_msgq_get in Hs.
    destruct Hs as (k'&r'&E&_&_&Hb); [apply Inv_msgq, w_ready_inv|by apply w_msgq_ok|reflexivity|by left|done..|apply w_data_outside|apply Hno|].
    by exists k'.
  - pose proof (k_msgq_get_spec w_F (w_obj 0) w_data K_FOREVER (w_msgq1 0 w_ready) w_T t1 [t3; t2] [] w_Q 0
      [] []) as Hs. rewrite w_msgq1_get in Hs.
    destruct Hs as (k'&(cont&E&_)&_&_&Hsw&_);
      [apply Inv_msgq, w_ready_inv|apply w_msgq1_ok; [done|by left]|reflexivity|by left|done..|by intros i _ j _|apply Hno|].
    by exists k', cont.
Defined.
