(* ===== verification/MemSlab.v ===== *)
(** * Slab allocator and memory slabs (alloc/slab.c, mem_slab.c)

    The free blocks of a slab are linked through their first word; a block that
    is freed while a thread waits goes to the thread directly. *)

From S2P Require Import Prelude Dlist Delta Tqueue Slist Bytes Types Event Timer Kernel KernelInv KernelSpec World.

Section MemSlab.
Context `{Layout, Config, Handlers}.
Variable F : mem.

Definition slab (k : kstate) (s : word) : slab_allocator := slabs k !!! s.
Definition upd_slab (s : word) (f : slab_allocator → slab_allocator) (k : kstate) : kstate :=
  set_slabs (<[s := f (slab k s)]> (slabs k)) k.
Definition with_free_list (p : word) (a : slab_allocator) : slab_allocator :=
  {| sa_buffer := sa_buffer a; sa_count := sa_count a; sa_block_size := sa_block_size a;
     sa_free_list := p |}.

(** The loop of [z_slab_alloc_finalize_init], for [n] more blocks from [p]. *)
Fixpoint finalize_loop (n : nat) (m : mem) (free_list p : word) (block_size : Z) : word * mem :=
  match n with
  | O => (free_list, m)
  | S n => finalize_loop n (wr0 m p free_list) p (ptr_add p block_size) block_size
  end.

Definition z_slab_alloc_finalize_init (s : word) (k : kstate) : kstate :=
  let a := slab k s in
  let '(fl, m) := finalize_loop (Z.to_nat (sa_count a)) (links k) NULL (sa_buffer a) (sa_block_size a) in
  upd_slab s (with_free_list fl) (set_links m k).

Definition slab_init (s buffer : word) (block_size blocks_count : Z) : M Z :=
  if negb (z_user (nonnull buffer && (2 <=? block_size) && negb (blocks_count =? 0))) then ret (- EINVAL)
  else
    modify (upd_slab s (λ a, {| sa_buffer := buffer; sa_count := blocks_count;
                                sa_block_size := block_size; sa_free_list := sa_free_list a |}));;
    modify (z_slab_alloc_finalize_init s);;
    ret 0.

Definition slab_alloc (s : word) : M word :=
  let* k := get in
  let fl := sa_free_list (slab k s) in
  if decide (fl = NULL) then ret NULL
  else
    modify (upd_slab s (with_free_list (rd0 (links k) fl)));;
    ret fl.

Definition slab_free (s ptr : word) : M unit :=
  let* k := get in
  modify (upd_links (λ m, wr0 m ptr (sa_free_list (slab k s))));;
  modify (upd_slab s (with_free_list ptr)).

Definition slab_reset (s : word) : M unit := modify (z_slab_alloc_finalize_init s).

Definition slab_available (s : word) : M Z :=
  let* k := get in
  ret (if decide (sa_free_list (slab k s) ≠ NULL) then 0 else - ENOMEM).

(** [slab_stats]: total, free and used bytes. *)
Definition slab_stats (s : word) : M (Z * Z * Z) := λ k,
  let a := slab k s in
  match (if decide (sa_free_list a = NULL) then Some 0
         else (λ n, u8 (n + 1)) <$> slist_count loop_fuel (links k) (sa_free_list a)) with
  | Some free_nb =>
      let total := u16 (sa_block_size a * sa_count a) in
      let free := u16 (free_nb * sa_block_size a) in
      Done (total, free, u16 (total - free)) k
  | None => NoFuel
  end.

Definition k_mem_slab_init (s buffer : word) (block_size num_blocks : Z) : M Z :=
  let* r := slab_init (mem_slab_allocator s) buffer block_size num_blocks in
  (when r =? 0 do modify (upd_links (λ m, dlist_init m (mem_slab_waitqueue s))));;
  ret r.

(** The result is the return code and the value stored in [*mem], if any. *)
Definition k_mem_slab_alloc (s mem : word) (timeout : Z) : M (Z * option word) :=
  if negb (z_user (nonnull s && nonnull mem)) then ret (- EINVAL, None)
  else
    let* key := irq_lock in
    let* ptr := slab_alloc (mem_slab_allocator s) in
    let* r :=
      if decide (ptr ≠ NULL) then ret (0, Some ptr)
      else if timeout =? K_NO_WAIT then ret (- ENOMEM, None)
      else
        let* r := z_pend_current_on (mem_slab_waitqueue s) timeout in
        if r =? 0 then let* k := get in ret (r, Some (swap_data (thr k (current k))))
        else ret (r, None) in
    irq_unlock key;;
    ret r.

Definition k_mem_slab_free (s ptr : word) : M word :=
  if negb (z_user (nonnull s && nonnull ptr)) then ret NULL
  else if decide (ptr = NULL) then ret NULL
  else
    let* key := irq_lock in
    let* thread := z_unpend_first_and_swap (mem_slab_waitqueue s) ptr in
    (when bool_decide (thread = NULL) do slab_free (mem_slab_allocator s) ptr);;
    irq_unlock key;;
    ret thread.

(** ** The free list *)

Fixpoint flist (m : mem) (p : word) (ns : list word) : Prop :=
  match ns with
  | [] => p = NULL
  | a :: t => p = a ∧ a ≠ NULL ∧ flist m (rd0 m a) t
  end.

(** The blocks of a slab. *)
Definition blocks (a : slab_allocator) : list word :=
  (λ i, ptr_add (sa_buffer a) (Z.of_nat i * sa_block_size a)) <$> seq 0 (Z.to_nat (sa_count a)).

Lemma flist_frame m m' p ns :
  (∀ x, x ∈ ns → rd0 m' x = rd0 m x) → flist m p ns → flist m' p ns.
Proof.
  revert p. induction ns as [|a ns IH]; intros p Hx; simpl; [done|].
  intros (->&Hn&Hf). split_and!; [done..|]. rewrite Hx by by left.
  apply IH; [|done]. intros x Hin. apply Hx. by right.
Qed.

Lemma finalize_loop_spec n m fl p sz ns :
  0 < sz → flist m fl ns →
  (∀ i, (i < n)%nat → ptr_add p (Z.of_nat i * sz) ≠ NULL ∧ ptr_add p (Z.of_nat i * sz) ∉ ns) →
  let '(fl', m') := finalize_loop n m fl p sz in
  flist m' fl' (reverse ((λ i, ptr_add p (Z.of_nat i * sz)) <$> seq 0 n) ++ ns) ∧
  agree_on (λ x, x ∉ (λ i, ptr_add p (Z.of_nat i * sz)) <$> seq 0 n) m m'.
Proof.
  intros Hsz. revert m fl p ns. induction n as [|n IH]; intros m fl p ns Hf Hp; simpl; [done|].
  assert (Hp0 : p ≠ NULL ∧ p ∉ ns).
  { pose proof (Hp 0%nat ltac:(lia)) as Hx. simpl in Hx. by rewrite ptr_add_0 in Hx. }
  assert (Hsh : ∀ i, ptr_add (ptr_add p sz) (Z.of_nat i * sz) = ptr_add p (Z.of_nat (S i) * sz)).
  { intros i. rewrite ptr_add_assoc. f_equal. lia. }
  specialize (IH (wr0 m p fl) p (ptr_add p sz) (p :: ns)).
  destruct (finalize_loop n (wr0 m p fl) p (ptr_add p sz) sz) as [fl' m'].
  destruct IH as [IHf IHa].
  - simpl. split_and!; [done|by destruct Hp0|]. links_simpl. eapply flist_frame; [|done].
    intros x Hx. rewrite rd0_wr0_ne; [done|]. intros ->. by destruct Hp0.
  - intros i Hi. rewrite Hsh. destruct (Hp (S i) ltac:(lia)) as [Hn1 Hn2]. split; [done|].
    apply not_elem_of_cons. split; [|done]. intros E.
    assert (Z.of_nat (S i) * sz = 0) by (eapply (ptr_add_ofs_inj p); by rewrite ptr_add_0). nia.
  - assert (Hmap : (λ i, ptr_add (ptr_add p sz) (Z.of_nat i * sz)) <$> seq 0 n =
                   (λ i, ptr_add p (Z.of_nat i * sz)) <$> seq 1 n).
    { rewrite <- (fmap_S_seq 0 n), <- list_fmap_compose. apply list_fmap_ext. intros. apply Hsh. }
    rewrite Hmap in IHf, IHa. rewrite ptr_add_0, reverse_cons, <- app_assoc. split; [done|].
    intros x [Hx1 Hx2]%not_elem_of_cons. destruct (IHa x Hx2) as [-> ->]. split; links_simpl; done.
Qed.

(** ** The slab invariant: every block is free or allocated, never both *)

Record slab_ok (k : kstate) (T : gset word) (Q : gmap word (list word)) (s : word)
    (free alloc ws : list word) : Prop := {
  so_list : flist (links k) (sa_free_list (slab k s)) free;
  so_part : free ++ alloc ≡ₚ blocks (slab k s);
  so_nodup : NoDup (blocks (slab k s));
  so_own : ∀ b, b ∈ blocks (slab k s) → foreign T (dom Q) b;
  so_wait : Q !! mem_slab_waitqueue s = Some ws;
  so_excl : ws ≠ [] → free = [];
}.

Lemma slab_upd_eq s f k : slab (upd_slab s f k) s = f (slab k s).
Proof. unfold slab at 1, upd_slab. simpl. by rewrite lookup_total_insert_eq. Qed.

Lemma slab_keeps s k k' : keeps k k' → slab k' s = slab k s.
Proof. intros [Hk _]. unfold kobjs in Hk. unfold slab. congruence. Qed.

Lemma slab_free_nonnull k T Q s free alloc ws b :
  slab_ok k T Q s free alloc ws → b ∈ free ++ alloc → b ≠ NULL ∧ foreign T (dom Q) b.
Proof.
  intros [_ Hp _ Ho _ _] Hb. rewrite Hp in Hb. apply Ho in Hb. split; [|done]. by destruct Hb as (_&?&_).
Qed.

Lemma slab_ok_frame k k' T Q Q' s free alloc ws ws' :
  slab_ok k T Q s free alloc ws → agree_on (foreign T (dom Q)) (links k) (links k') →
  slab k' s = slab k s → dom Q' = dom Q → Q' !! mem_slab_waitqueue s = Some ws' →
  (ws' ≠ [] → free = []) → slab_ok k' T Q' s free alloc ws'.
Proof.
  intros Hok Ha Hs Hd Hw He. pose proof Hok as []. split; rewrite ?Hs, ?Hd; try done.
  eapply flist_frame; [|done]. intros x Hx. apply Ha.
  eapply slab_free_nonnull; [done|]. apply elem_of_app. by left.
Qed.

(** C20: [slab_init] links all the blocks of the buffer into the free list. *)
Theorem slab_init_spec s buffer block_size n k T Q :
  let a := {| sa_buffer := buffer; sa_count := n; sa_block_size := block_size;
              sa_free_list := sa_free_list (slab k s) |} in
  buffer ≠ NULL → 2 <= block_size → 0 < n < 256 → Q !! mem_slab_waitqueue s = Some [] →
  (∀ b, b ∈ blocks a → foreign T (dom Q) b) →
  ∃ k', slab_init s buffer block_size n k = Done 0 k' ∧
    slab_ok k' T Q s (reverse (blocks a)) [] [] ∧ blocks (slab k' s) = blocks a ∧
    agree_on (λ p, p ∉ blocks a) (links k) (links k').
Proof.
  intros a Hb Hsz Hn Hw Hfor. unfold slab_init.
  rewrite z_user_true.
  2:{ rewrite nonnull_true by done. rewrite (proj2 (Z.leb_le _ _)) by done.
      by rewrite (proj2 (Z.eqb_neq _ _)) by lia. }
  rewrite !bind_modify. set (k1 := upd_slab _ _ k).
  assert (Ea : slab k1 s = a) by (unfold k1; by rewrite slab_upd_eq).
  unfold z_slab_alloc_finalize_init. rewrite Ea.
  pose proof (finalize_loop_spec (Z.to_nat n) (links k) NULL buffer block_size [] ltac:(lia) eq_refl) as Hl.
  cbn [sa_count sa_buffer sa_block_size a]. change (links k1) with (links k).
  destruct (finalize_loop _ _ _ _ _) as [fl m]. destruct Hl as [Hf Ha].
  { intros i Hi. split; [|apply not_elem_of_nil].
    assert (Hin : ptr_add buffer (Z.of_nat i * block_size) ∈ blocks a).
    { unfold blocks. apply list_elem_of_fmap. exists i. split; [done|].
      apply elem_of_seq. simpl. lia. }
    apply Hfor in Hin. by destruct Hin as (_&?&_). }
  rewrite app_nil_r in Hf.
  eexists; split; [done|].
  assert (Es : slab (upd_slab s (with_free_list fl) (set_links m k1)) s = with_free_list fl a).
  { rewrite slab_upd_eq. by rewrite <- Ea. }
  split_and!; [|by rewrite Es|exact Ha].
  split; rewrite ?Es; try done.
  - rewrite app_nil_r. apply reverse_Permutation.
  - apply NoDup_fmap_2; [|apply NoDup_seq].
    intros i j E%ptr_add_ofs_inj. cbn in E. nia.
Qed.

(** The result of a thread that waited for a block. *)
Definition alloc_resume (key : bool) (k2 : kstate) : res (Z * option word) :=
  let t := thr k2 (current k2) in
  let r := pend_result (flags t) in
  Done (r, if r =? 0 then Some (swap_data t) else None) (set_sreg_i key k2).

(** C21: [k_mem_slab_alloc] returns a block that was free and is now allocated,
    so never one that is in use; with none it fails at once or waits, last,
    for a block to be freed. *)
Theorem k_mem_slab_alloc_spec s mem timeout k T c rs ts Q free alloc ws :
  Inv F k T (c :: rs) ts Q → slab_ok k T Q s free alloc ws → current k = c → can_idle rs →
  s ≠ NULL → mem ≠ NULL → 0 <= timeout < 65536 →
  match free with
  | b :: free' => ∃ k', k_mem_slab_alloc s mem timeout k = Done (0, Some b) k' ∧ (b ∉ alloc) ∧
      Inv (links k') k' T (c :: rs) ts Q ∧ slab_ok k' T Q s free' (b :: alloc) ws
  | [] =>
    if timeout =? K_NO_WAIT then k_mem_slab_alloc s mem timeout k = Done (- ENOMEM, None) k
    else ∃ k', suspends (k_mem_slab_alloc s mem timeout k) k' (alloc_resume (sreg_i k)) ∧
      Inv (links k) k' T (rq_leave rs) (tmo_add timeout c ts) (<[mem_slab_waitqueue s := ws ++ [c]]> Q) ∧
      slab_ok k' T (<[mem_slab_waitqueue s := ws ++ [c]]> Q) s [] alloc (ws ++ [c])
  end.
Proof.
  intros Hi Hok Hc Hid Hs Hm Ht. unfold k_mem_slab_alloc.
  rewrite z_user_true by by rewrite !nonnull_true. rewrite bind_irq_lock.
  pose proof (Inv_rebase _ _ _ _ _ _ Hi) as Hib. pose proof (Inv_sreg _ false _ _ _ _ _ Hib) as Hi0.
  pose proof Hok as [Hl Hp Hnd Ho Hw He]. unfold slab_alloc, mem_slab_allocator.
  destruct free as [|b free].
  - simpl in Hl. rewrite (bind_done _ _ (set_sreg_i false k) NULL (set_sreg_i false k)).
    2:{ rewrite bind_get. change (slab (set_sreg_i false k) s) with (slab k s). by rewrite decide_True. }
    rewrite decide_False by (intros Hn; by apply Hn).
    destruct (Z.eqb_spec timeout K_NO_WAIT) as [->|Hne]; [by destruct k|].
    destruct (z_pend_current_on_spec _ (mem_slab_waitqueue s) timeout (set_sreg_i false k) T c rs ts Q ws Hi0 Hw)
      as (k'&Hsus&Hi'&Hc'&Hk&Hoth&Hfl); [done|done|unfold K_NO_WAIT in Hne; lia|].
    exists k'. split_and!; [|done|].
    + eapply suspends_ext; [apply suspends_bind, suspends_bind, Hsus|]. intros k2.
      unfold alloc_resume. cbn [rbind]. by destruct (_ =? 0).
    + eapply (slab_ok_frame k); [done| | | |apply lookup_insert_eq|done].
      * intros p Hpf. apply (Inv_frame _ _ _ _ _ _ p Hi'). by rewrite dom_insert_lookup_L.
      * by rewrite (slab_keeps s _ _ Hk).
      * by apply dom_insert_lookup_L.
  - simpl in Hl. destruct Hl as (Hb&Hbn&Hl). set (k1 := upd_slab s (with_free_list (rd0 (links k) b)) (set_sreg_i false k)).
    rewrite (bind_done _ _ (set_sreg_i false k) b k1).
    2:{ rewrite bind_get. change (slab (set_sreg_i false k) s) with (slab k s).
        rewrite Hb, decide_False by done. done. }
    rewrite decide_True by done.
    assert (Hnd2 : NoDup ((b :: free) ++ alloc)) by by rewrite Hp.
    simpl in Hnd2. apply NoDup_cons in Hnd2 as [Hnb Hnd2].
    eexists; split; [done|]. split_and!.
    + intros Hin. apply Hnb, elem_of_app. by right.
    + apply Inv_sreg. by eapply Inv_objs.
    + split; change (slab (set_sreg_i ?b k1) s) with (slab k1 s); unfold k1; rewrite ?slab_upd_eq; try done.
      * rewrite <- Permutation_middle. done.
      * intros Hne. by specialize (He Hne).
Qed.

(** C22: [k_mem_slab_free] of an allocated block gives it to the thread that has
    waited longest, for which it stays allocated, or puts it back in the free
    list. *)
Theorem k_mem_slab_free_spec s b k T rs ts Q free alloc alloc' ws :
  Inv F k T rs ts Q → slab_ok k T Q s free alloc ws → alloc ≡ₚ b :: alloc' → s ≠ NULL →
  match ws with
  | [] => ∃ k', k_mem_slab_free s b k = Done NULL k' ∧ Inv (links k') k' T rs ts Q ∧
      slab_ok k' T Q s (b :: free) alloc' []
  | t :: ws' => ∃ k', k_mem_slab_free s b k = Done t k' ∧
      Inv (links k) k' T (rq_add rs t) (tmo_del t ts) (<[mem_slab_waitqueue s := ws']> Q) ∧
      slab_ok k' T (<[mem_slab_waitqueue s := ws']> Q) s free alloc ws' ∧
      (Z.land (flags (thr k t)) SCHED_CLR = 0 →
       ∀ k3, current k3 = t → thr k3 t = thr k' t →
         alloc_resume true k3 = Done (0, Some b) (set_sreg_i true k3))
  end.
Proof.
  intros Hi Hok Hal Hs.
  assert (b ≠ NULL ∧ foreign T (dom Q) b) as [Hbn Hbf].
  { eapply slab_free_nonnull; [done|]. apply elem_of_app. right. rewrite Hal. by left. }
  unfold k_mem_slab_free, mem_slab_allocator. rewrite z_user_true by by rewrite !nonnull_true.
  rewrite decide_False by done. rewrite bind_irq_lock.
  pose proof (Inv_rebase _ _ _ _ _ _ Hi) as Hib. pose proof (Inv_sreg _ false _ _ _ _ _ Hib) as Hi0.
  pose proof Hok as [Hl Hp Hnd Ho Hw He]. destruct ws as [|t ws].
  - destruct (z_unpend_first_and_swap_nil _ _ b _ _ _ _ _ Hi0 Hw) as (m1&E&Ha).
    assert (Hi1 : Inv (links k) (set_links m1 (set_sreg_i false k)) T rs ts Q) by by apply Inv_set_links.
    rewrite (bind_done _ _ _ _ _ E), bool_decide_true by done.
    eexists; split; [reflexivity|]. split.
    + apply Inv_sreg. eapply Inv_objs; [eapply (Inv_foreign _ (wr0 m1 b (sa_free_list (slab k s))) _ _ _ _ _ Hi1)|done..].
      intros p Hpf. assert (b ≠ p) by (intros ->; by apply Hpf). simpl. split; links_simpl; done.
    + split; change (slab (set_sreg_i ?b ?x) s) with (slab x s); rewrite ?slab_upd_eq; try done.
      * simpl. split_and!; [done|done|]. links_simpl.
        eapply flist_frame; [|exact Hl]. intros x Hx.
        assert (b ≠ x).
        { intros ->. assert (Hnd2 : NoDup (free ++ alloc)) by by rewrite Hp.
          rewrite Hal in Hnd2. apply NoDup_app in Hnd2 as (_&Hd&_). apply (Hd x); [done|by left]. }
        links_simpl. apply Ha.
      * simpl. rewrite <- Hp, Hal. by rewrite <- Permutation_middle.
  - destruct (z_unpend_first_and_swap_cons _ _ b _ _ _ _ _ _ _ Hi0 Hw)
      as (k1&E&Hi1&Ht&Hk1&Hc1&Hoth&Hfl&Hsw).
    rewrite (bind_done _ _ _ _ _ E), bool_decide_false by done.
    eexists; split; [reflexivity|]. split_and!.
    + by apply Inv_sreg.
    + eapply (slab_ok_frame k); [done| | | |apply lookup_insert_eq|].
      * intros p Hpf. apply (Inv_frame _ _ _ _ _ _ p Hi1). by rewrite dom_insert_lookup_L.
      * change (slab (set_sreg_i (sreg_i k) k1) s) with (slab k1 s). by rewrite (slab_keeps s _ _ Hk1).
      * by apply dom_insert_lookup_L.
      * intros _. by apply He.
    + intros Hz k3 Hc3 Hth3. unfold alloc_resume. rewrite Hc3, Hth3.
      change (thr (set_sreg_i (sreg_i k) k1) t) with (thr k1 t).
      by rewrite Hfl, pend_result_wake, Hsw.
Qed.
End MemSlab.

(** ** Instances: two blocks of four bytes *)

Definition w_b0 : word := Ptr 33 0.
Definition w_b1 : word := Ptr 33 4.
Definition w_slab_alloc (fl : word) : slab_allocator :=
  {| sa_buffer := w_b0; sa_count := 2; sa_block_size := 4; sa_free_list := fl |}.
Definition w_slab (fl : word) (k : kstate) : kstate := upd_slab (w_obj 7) (λ _, w_slab_alloc fl) k.

Lemma w_slab_head : mem_slab_waitqueue (w_obj 7) ∈ w_heads.
Proof. vm_compute. set_solver. Qed.

Lemma w_blocks fl : blocks (w_slab_alloc fl) = [w_b0; w_b1].
Proof. reflexivity. Qed.

Lemma w_blocks_foreign b : b ∈ [w_b0; w_b1] → foreign w_T (dom w_Q) b.
Proof.
  intros [->|[->|Hn%not_elem_of_nil]%elem_of_cons]%elem_of_cons; [| |done];
    apply w_foreign; vm_compute; set_solver.
Qed.

Lemma w_slab_get fl k : slab (w_slab fl k) (w_obj 7) = w_slab_alloc fl.
Proof. unfold w_slab. by rewrite slab_upd_eq. Qed.

Lemma w_slab_nodup : NoDup [w_b0; w_b1].
Proof. apply (bool_decide_unpack _). vm_compute. done. Qed.

Lemma slab_init_witness :
  ∃ k', slab_init (w_obj 7) w_b0 4 2 w_ready = Done 0 k' ∧
    slab_ok k' w_T w_Q (w_obj 7) [w_b1; w_b0] [] [].
Proof.
  destruct (slab_init_spec (w_obj 7) w_b0 4 2 w_ready w_T w_Q) as (k'&E&Ho&_).
  - done.
  - lia.
  - lia.
  - apply w_Q_heads, w_slab_head.
  - apply w_blocks_foreign.
  - by exists k'.
Defined.

Lemma k_mem_slab_alloc_witness :
  let k := w_slab w_b0 (set_links (wr0 (links w_ready) w_b0 NULL) w_ready) in
  ∃ k', k_mem_slab_alloc (w_obj 7) (Ptr 40 0) K_FOREVER k = Done (0, Some w_b0) k' ∧
    slab_ok k' w_T w_Q (w_obj 7) [] [w_b0; w_b1] [].
Proof.
  cbn zeta. pose proof w_ready_inv as Hi. assert (Hc : current w_ready = t1) by reflexivity.
  revert Hi Hc. generalize w_ready. intros k Hi Hc.
  assert (Hf : foreign w_T (dom w_Q) w_b0) by (apply w_blocks_foreign; by left).
  set (m := wr0 (links k) w_b0 NULL).
  assert (Hi1 : Inv m (set_links m k) w_T [t1; t3; t2] [] w_Q).
  { eapply Inv_foreign; [exact Hi|]. intros p Hp.
    assert (w_b0 ≠ p) by (intros <-; by apply Hp). unfold m. split; links_simpl; done. }
  destruct (k_mem_slab_alloc_spec m (w_obj 7) (Ptr 40 0) K_FOREVER (w_slab w_b0 (set_links m k))
    w_T t1 [t3; t2] [] w_Q [w_b0] [w_b1] []) as (k'&E&_&_&Ho).
  - by eapply Inv_objs.
  - split; rewrite ?w_slab_get, ?w_blocks; try done.
    + simpl. split_and!; [done|done|]. unfold m. by links_simpl.
    + apply w_slab_nodup.
    + apply w_blocks_foreign.
  - done.
  - by left.
  - done.
  - done.
  - done.
  - by exists k'.
Defined.

Lemma k_mem_slab_free_witness :
  ∃ k', k_mem_slab_free (w_obj 7) w_b1 (w_slab NULL (w_wait2 (mem_slab_waitqueue (w_obj 7)))) = Done t1 k' ∧
    ∀ k3, current k3 = t1 → thr k3 t1 = thr k' t1 →
      alloc_resume true k3 = Done (0, Some w_b1) (set_sreg_i true k3).
Proof.
  destruct (w_wait2_inv _ w_slab_head) as (Hi&_&_&Hz). revert Hi Hz.
  generalize (w_wait2 (mem_slab_waitqueue (w_obj 7))). intros k Hi Hz.
  assert (Hdom : dom (<[mem_slab_waitqueue (w_obj 7) := [t1; t2]]> w_Q) = dom w_Q).
  { apply dom_insert_lookup_L. eexists. apply w_Q_heads, w_slab_head. }
  destruct (k_mem_slab_free_spec w_F (w_obj 7) w_b1 (w_slab NULL k) w_T [t3] [(t2, 3); (t1, 2)]
    (<[mem_slab_waitqueue (w_obj 7) := [t1; t2]]> w_Q) [] [w_b0; w_b1] [w_b0] [t1; t2])
    as (k'&E&_&_&Hres).
  - by eapply Inv_objs.
  - split; rewrite ?w_slab_get, ?w_blocks, ?Hdom; try done.
    + apply w_slab_nodup.
    + apply w_blocks_foreign.
  - apply perm_swap.
  - done.
  - exists k'. auto.
Defined.
