(* ===== verification/Workqueue.v ===== *)
(** * Workqueues (workqueue.c)

    A workqueue is a thread that runs the handlers of the work items of a FIFO
    in order.  The node of an item ([_tie]) is at its address; the event of a
    delayable item follows its [struct k_work] (4 bytes). *)

From S2P Require Import Prelude Dlist Delta Tqueue Slist Types Event Timer Kernel KernelInv KernelSpec World Fifo.

Section Workqueue.
Context `{Layout, Config, Handlers}.
Variable F : mem.

Definition work_tie (work : word) : word := work.
Definition workqueue_q (workqueue : word) : word := workqueue.
Definition ofs_dwork_event : Z := 4.
Definition dwork_event (dwork : word) : word := ptr_add dwork ofs_dwork_event.

Definition wrk (k : kstate) (w : word) : k_work := works k !!! w.
Definition upd_work (w : word) (f : k_work → k_work) (k : kstate) : kstate :=
  set_works (<[w := f (wrk k w)]> (works k)) k.
Definition wkq (k : kstate) (w : word) : k_workqueue := workqueues k !!! w.
Definition upd_wkq (w : word) (f : k_workqueue → k_workqueue) (k : kstate) : kstate :=
  set_workqueues (<[w := f (wkq k w)]> (workqueues k)) k.

Definition Z_WQ_YIELDEACH_MSK : Z := 1.

Definition k_work_init (work handler : word) : M unit :=
  modify (upd_work work (λ w, {| wk_handler := handler; wk_workqueue := wk_workqueue w |})).

Definition z_work_submittable (k : kstate) (work : word) : bool :=
  bool_decide (rd0 (links k) (work_tie work) = NULL).

Definition z_work_submit (workqueue work : word) : M unit :=
  let* _ := z_fifo_put (workqueue_q workqueue) (work_tie work) in ret tt.

Definition k_work_submit (workqueue work : word) : M bool :=
  let* key := irq_lock in
  let* k := get in
  let* r := if z_work_submittable k work then z_work_submit workqueue work;; ret true else ret false in
  irq_unlock key;;
  ret r.

Definition k_workqueue_enable_yieldeach (workqueue : word) : M unit :=
  let* key := irq_lock in
  modify (upd_wkq workqueue (λ w, {| wq_flags := Z.lor (wq_flags w) Z_WQ_YIELDEACH_MSK |}));;
  irq_unlock key.

Definition k_workqueue_disable_yieldeach (workqueue : word) : M unit :=
  let* key := irq_lock in
  modify (upd_wkq workqueue (λ w, {| wq_flags := Z.land (wq_flags w) (Z.lnot Z_WQ_YIELDEACH_MSK) |}));;
  irq_unlock key.

(** One turn of the loop of [z_workqueue_entry], after the item is known. *)
Definition workqueue_run (workqueue item : word) : M unit :=
  let work := CONTAINER_OF item 0 in
  let* k := get in
  let handler := wk_handler (wrk k work) in
  let* key := irq_lock in
  modify (upd_links (λ m, wr0 m item NULL));;
  irq_unlock key;;
  call_work_handler handler work;;
  let* k := get in
  when negb (Z.land (wq_flags (wkq k workqueue)) Z_WQ_YIELDEACH_MSK =? 0) do k_yield.

(** [z_workqueue_entry] never returns: [fuel] turns of it. *)
Fixpoint z_workqueue_entry (fuel : nat) (workqueue : word) : M unit :=
  match fuel with
  | O => λ _, NoFuel
  | S fuel =>
      let* item := k_fifo_get (workqueue_q workqueue) K_FOREVER in
      workqueue_run workqueue item;;
      z_workqueue_entry fuel workqueue
  end.

(** ** Delayable work *)

Definition z_delayable_work_trigger (event : word) : M unit :=
  let dwork := CONTAINER_OF event ofs_dwork_event in
  let* k := get in
  z_work_submit (wk_workqueue (wrk k dwork)) dwork.

(** [trigger] is the address of [z_delayable_work_trigger]. *)
Definition k_work_delayable_init (trigger dwork handler : word) : M unit :=
  k_work_init dwork handler;;
  let* _ := k_event_init (dwork_event dwork) trigger in
  modify (upd_work dwork (λ w, {| wk_handler := wk_handler w; wk_workqueue := NULL |})).

Definition z_work_delayable_schedule (workqueue dwork : word) (timeout : Z) : M unit :=
  modify (upd_work dwork (λ w, {| wk_handler := wk_handler w; wk_workqueue := workqueue |}));;
  if timeout =? K_NO_WAIT then z_work_submit workqueue dwork
  else z_event_schedule (dwork_event dwork) timeout.

Definition k_work_delayable_schedule (workqueue dwork : word) (timeout : Z) : M Z :=
  if negb (z_user (nonnull workqueue && nonnull dwork)) then ret (- EINVAL)
  else
    let* lock := irq_lock in
    let* k := get in
    let* r :=
      if negb (scheduled (evt k (dwork_event dwork)) =? 0) || negb (z_work_submittable k dwork)
      then ret (- EBUSY)
      else z_work_delayable_schedule workqueue dwork timeout;; ret 0 in
    irq_unlock lock;;
    ret r.

Definition k_work_delayable_reschedule (workqueue dwork : word) (timeout : Z) : M Z :=
  if negb (z_user (nonnull workqueue && nonnull dwork)) then ret (- EINVAL)
  else
    let* lock := irq_lock in
    let* k := get in
    let* r :=
      if negb (z_work_submittable k dwork) then ret (- EBUSY)
      else if negb (scheduled (evt k (dwork_event dwork)) =? 0) then
        z_event_reschedule (dwork_event dwork) timeout;; ret 0
      else z_work_delayable_schedule workqueue dwork timeout;; ret 1 in
    irq_unlock lock;;
    ret r.

Definition k_work_delayable_cancel (dwork : word) : M Z :=
  if negb (z_user (nonnull dwork)) then ret (- EINVAL)
  else
    let* r := k_event_cancel (dwork_event dwork) in
    if negb (r =? - EAGAIN) then ret r
    else
      let* lock := irq_lock in
      let* k := get in
      irq_unlock lock;;
      ret (if z_work_submittable k dwork then r else - EBUSY).

(** ** Submission *)

(** [z_fifo_put] with no consumer waiting. *)
Lemma z_work_submit_queued F0 wq w k T rs ts Q items :
  Inv F0 k T rs ts Q → fifo_ok k T Q (workqueue_q wq) items [] → w ≠ NULL →
  foreign T (dom Q) w →
  ∃ m1, (∀ p, rd0 m1 p = rd0 (links k) p ∧ rd1 m1 p = rd1 (links k) p) ∧
    z_work_submit wq w k = Done tt (set_links (slist_append m1 (workqueue_q wq) w) k) ∧
    (w ∉ workqueue_q wq :: items →
     fifo_ok (set_links (slist_append m1 (workqueue_q wq) w) k) T Q (workqueue_q wq) (items ++ [w]) [] ∧
     Inv (slist_append m1 (workqueue_q wq) w) (set_links (slist_append m1 (workqueue_q wq) w) k) T rs ts Q).
Proof.
  intros Hi [Hr Ho Hw He] Hn Hfor. unfold z_work_submit, z_fifo_put.
  destruct (z_unpend_first_and_swap_nil _ _ w _ _ _ _ _ Hi Hw) as (m1&E&Ha).
  exists m1. split_and!; [done| |].
  - unfold bind at 1, work_tie. by rewrite (bind_done _ _ _ _ _ E), bool_decide_true.
  - intros Hnin.
    assert (Hi1 : Inv F0 (set_links m1 k) T rs ts Q) by by apply Inv_set_links.
    assert (Hr1 : sl_rep m1 (workqueue_q wq) items).
    { eapply sl_rep_frame; [|done]. intros p _. apply Ha. }
    destruct (slist_append_rep m1 (workqueue_q wq) items w Hr1 Hnin Hn) as [Hr2 Ha2]. split.
    + split; [done| |done|done]. intros p Hp.
      rewrite app_comm_cons in Hp. apply elem_of_app in Hp as [Hp| ->%list_elem_of_singleton]; auto.
    + eapply (Inv_foreign _ _ _ _ _ _ _ Hi1). intros p Hp. apply Ha2.
      intros [->|Hin]%elem_of_cons; [done|]. by apply Hp, Ho.
Qed.

(** A work item whose node is unlinked is appended to a workqueue whose
    thread is busy, once, and a linked one is refused without any effect. *)
Theorem k_work_submit_spec wq w k T rs ts Q items :
  Inv F k T rs ts Q → fifo_ok k T Q (workqueue_q wq) items [] → w ≠ NULL →
  foreign T (dom Q) w → w ∉ workqueue_q wq :: items →
  if z_work_submittable k w then
    ∃ k', k_work_submit wq w k = Done true k' ∧ Inv (links k') k' T rs ts Q ∧
      fifo_ok k' T Q (workqueue_q wq) (items ++ [w]) []
  else k_work_submit wq w k = Done false k.
Proof.
  intros Hi Hok Hn Hfor Hnin. unfold k_work_submit. rewrite bind_irq_lock, bind_get.
  change (z_work_submittable (set_sreg_i false k) w) with (z_work_submittable k w).
  destruct (z_work_submittable k w); [|by destruct k].
  pose proof (Inv_sreg _ false _ _ _ _ _ Hi) as Hi0.
  destruct (z_work_submit_queued _ wq w _ _ _ _ _ _ Hi0 (fifo_ok_sreg _ _ _ _ _ _ _ Hok) Hn Hfor) as (m1&_&E&Hrest).
  unfold bind at 1. rewrite (bind_done _ _ _ _ _ E).
  destruct (Hrest Hnin) as [Hok' Hi'].
  eexists; split; [reflexivity|]. split; [by apply Inv_sreg|by apply fifo_ok_sreg].
Qed.

(** The node of the last item of a workqueue is unlinked too, so an item
    that has just been submitted can be submitted again: the second call
    succeeds and links the item to itself, so that getting it from the queue
    leaves it there. *)
Theorem k_work_submit_twice wq w k T rs ts Q :
  Inv F k T rs ts Q → fifo_ok k T Q (workqueue_q wq) [] [] → w ≠ NULL →
  foreign T (dom Q) w → w ≠ workqueue_q wq → rd0 (links k) w = NULL →
  ∃ k1 k2, k_work_submit wq w k = Done true k1 ∧ k_work_submit wq w k1 = Done true k2 ∧
    rd0 (links k2) w = w ∧
    slist_peek_head (slist_get (links k2) (workqueue_q wq)).2 (workqueue_q wq) = w.
Proof.
  intros Hi Hok Hn Hfor Hne Hr0. unfold k_work_submit at 1. rewrite bind_irq_lock, bind_get.
  unfold z_work_submittable at 1. rewrite bool_decide_true by done.
  pose proof (Inv_sreg _ false _ _ _ _ _ Hi) as Hi0.
  destruct (z_work_submit_queued _ wq w _ _ _ _ _ _ Hi0 (fifo_ok_sreg _ _ _ _ _ _ _ Hok) Hn Hfor) as (m1&_&E&Hrest).
  unfold bind at 1. rewrite (bind_done _ _ _ _ _ E).
  destruct Hrest as [Hok1 Hi1].
  { intros [?| ?%not_elem_of_nil]%elem_of_cons; done. }
  set (k1 := set_sreg_i (sreg_i k) (set_links (slist_append m1 (workqueue_q wq) w) (set_sreg_i false k))).
  exists k1.
  assert (Hi1' : Inv (links k1) k1 T rs ts Q) by by apply Inv_sreg.
  pose proof Hok1 as [(Hnd&Hch&Htl) _ _ _]. cbn [links set_links] in Hch, Htl. simpl app in Hch, Htl.
  simpl in Hch, Htl. destruct Hch as (Hh&_&Hnx).
  unfold k_work_submit. rewrite bind_irq_lock, bind_get.
  unfold z_work_submittable. rewrite bool_decide_true by exact Hnx.
  pose proof (Inv_sreg _ false _ _ _ _ _ Hi1') as Hi2.
  destruct (z_work_submit_queued _ wq w _ _ _ _ _ _ Hi2 (fifo_ok_sreg false _ _ _ _ _ _ Hok1) Hn Hfor)
    as (m2&Ha2&E2&_).
  eexists. split; [reflexivity|]. unfold bind at 1. rewrite (bind_done _ _ _ _ _ E2).
  split; [reflexivity|]. cbn [links set_sreg_i set_links].
  assert (Hq : rd0 m2 (workqueue_q wq) = w ∧ rd1 m2 (workqueue_q wq) = w).
  { destruct (Ha2 (workqueue_q wq)) as [-> ->]. done. }
  destruct Hq as [Hq0 Hq1].
  assert (Hself : slist_append m2 (workqueue_q wq) w = wr1 (wr0 (wr0 m2 w NULL) w w) (workqueue_q wq) w).
  { unfold slist_append. rewrite rd0_wr0_ne, Hq0 by done. rewrite decide_False by done.
    by rewrite rd1_wr0, Hq1. }
  rewrite Hself. split; [by links_simpl|].
  unfold slist_get, slist_peek_head.
  assert (Hh2 : rd0 (wr1 (wr0 (wr0 m2 w NULL) w w) (workqueue_q wq) w) (workqueue_q wq) = w).
  { by links_simpl. }
  rewrite Hh2, decide_True by done. cbn [snd].
  rewrite rd0_wr0_eq. replace (rd0 (wr1 (wr0 (wr0 m2 w NULL) w w) (workqueue_q wq) w) w) with w by by links_simpl.
  rewrite decide_False by done. by links_simpl.
Qed.
End Workqueue.

(** ** Instances *)

Lemma w_fifo_ok k : Inv w_F k w_T [t1; t3; t2] [] w_Q → fifo_ok k w_T w_Q (w_obj 4) [] [].
Proof.
  intros Hi. destruct (Inv_frame _ _ _ _ _ _ (fifo_queue (w_obj 4)) Hi w_foreign_fifo) as [Hr0 Hr1].
  split; [|intros p ->%list_elem_of_singleton; apply w_foreign_fifo|apply w_Q_heads, w_fifo_head|done].
  apply w_fifo_rep; [rewrite Hr0|rewrite Hr1]; reflexivity.
Qed.

Lemma k_work_submit_witness :
  ∃ k', k_work_submit (w_obj 4) w_item w_ready = Done true k' ∧
    fifo_ok k' w_T w_Q (w_obj 4) [w_item] [].
Proof.
  pose proof (k_work_submit_spec w_F (w_obj 4) w_item w_ready w_T [t1; t3; t2] [] w_Q []) as Hs.
  destruct Hs as (k'&E&_&Ho).
  - apply w_ready_inv.
  - apply w_fifo_ok, w_ready_inv.
  - done.
  - apply w_foreign_item.
  - vm_compute. set_solver.
  - by exists k'.
Defined.

Lemma k_work_submit_twice_witness :
  ∃ k1 k2, k_work_submit (w_obj 4) w_item w_ready = Done true k1 ∧
    k_work_submit (w_obj 4) w_item k1 = Done true k2 ∧ rd0 (links k2) w_item = w_item.
Proof.
  destruct (k_work_submit_twice w_F (w_obj 4) w_item w_ready w_T [t1; t3; t2] [] w_Q)
    as (k1&k2&E1&E2&Hl&_).
  - apply w_ready_inv.
  - apply w_fifo_ok, w_ready_inv.
  - done.
  - apply w_foreign_item.
  - done.
  - reflexivity.
  - by exists k1, k2.
Defined.
