(* ===== verification/Flags.v ===== *)
(** * Flags (flags.c)

    A waiting thread keeps its options and the mask of the flags it waits for
    in the two bytes of [swap_data]; [k_flags_notify] walks the wait queue and
    wakes up, in the order they wait, the threads whose mask meets the flags
    that become set. *)

From S2P Require Import Prelude Dlist Delta Tqueue Types Event Timer Kernel KernelInv KernelSpec World Bytes.

Section Flags.
Context `{Layout, Config, Handlers}.
Variable F : mem.

Definition K_FLAGS_SET_ANY : Z := 1.
Definition K_FLAGS_CONSUME : Z := 16.
Definition K_FLAGS_SET : Z := 32.
Definition K_FLAGS_SCHED : Z := 128.

Definition flg (k : kstate) (f : word) : k_flags := kflags k !!! f.
Definition upd_kflags (f : word) (g : k_flags → k_flags) (k : kstate) : kstate :=
  set_kflags (<[f := g (flg k f)]> (kflags k)) k.
Definition with_kf_flags (v : Z) (x : k_flags) : k_flags :=
  {| kf_flags := v; reset_value := reset_value x |}.

(** The options byte and the mask byte of [swap_data]. *)
Definition swap_bits (swapd : word) : Z := u16 (word_int swapd).
Definition Z_SWAP_DATA_GET_OPTIONS (swapd : word) : Z := u8 (Z.shiftr (swap_bits swapd) 8).
Definition Z_SWAP_DATA_GET_PEND_MASK (swapd : word) : Z := u8 (Z.land (swap_bits swapd) 0xFF).
Definition Z_SWAP_DATA_GET_TRIG_MASK (swapd : word) : Z := u8 (Z.land (swap_bits swapd) 0xFF).
Definition Z_SWAP_DATA_INIT_TRIG_MASK (trig : Z) : word := Int (Z.land trig 0xFF).
Definition Z_SWAP_DATA_INIT_OPT_N_MASK (opt mask : Z) : word :=
  Int (Z.lor (u16 (Z.shiftl opt 8)) mask).

Definition k_flags_init (f : word) (value : Z) : M Z :=
  if negb (z_user (nonnull f)) then ret (- EINVAL)
  else
    modify (upd_links (λ m, dlist_init m (flags_waitqueue f)));;
    modify (upd_kflags f (λ _, {| kf_flags := value; reset_value := value |}));;
    ret 0.

Definition k_flags_poll (f mask : word) (options timeout : Z) : M Z :=
  if negb (z_user (nonnull f && nonnull mask)) then ret (- EINVAL)
  else if negb (z_user (Z.land options (Z.lnot (Z.lor K_FLAGS_SET_ANY K_FLAGS_CONSUME)) =? 0))
  then ret (- ENOTSUP)
  else
    let* k := get in
    let mask_val := rdb (bytes k) mask in
    if mask_val =? 0 then ret 0
    else
      let* lock := irq_lock in
      let* k := get in
      let value := kf_flags (flg k f) in
      let trig := Z.land value mask_val in
      let* r :=
        if trig =? 0 then
          modify (set_swap_data (current k) (Z_SWAP_DATA_INIT_OPT_N_MASK options mask_val));;
          let* r := z_pend_current_on (flags_waitqueue f) timeout in
          (when r =? 0 do
             modify (λ k, set_byte mask (Z_SWAP_DATA_GET_TRIG_MASK (swap_data (thr k (current k)))) k));;
          ret r
        else
          (when negb (Z.land options K_FLAGS_CONSUME =? 0) do
             modify (upd_kflags f (with_kf_flags (Z.land value (Z.lnot mask_val)))));;
          modify (set_byte mask trig);;
          ret 0 in
      irq_unlock lock;;
      ret r.

(** The [while] loop of [k_flags_notify]; it returns the number of threads
    notified. *)
Fixpoint k_flags_notify_loop (fuel : nat) (f : word) (notify_value : Z) (tie : word) (n : Z) : M Z :=
  match fuel with
  | O => λ _, NoFuel
  | S fuel =>
      if notify_value =? 0 then ret n
      else if decide (flags_waitqueue f = tie) then
        modify (λ k, upd_kflags f (with_kf_flags (Z.lor (kf_flags (flg k f)) notify_value)) k);;
        ret n
      else
        let* k := get in
        let thread := thread_of_wqh tie in
        let swapd := swap_data (thr k thread) in
        let trig := Z.land notify_value (Z_SWAP_DATA_GET_PEND_MASK swapd) in
        if trig =? 0 then k_flags_notify_loop fuel f notify_value (next (links k) tie) n
        else
          modify (set_swap_data thread (Z_SWAP_DATA_INIT_TRIG_MASK trig));;
          modify (upd_links (λ m, dlist_remove m tie));;
          z_wake_up thread;;
          let* k := get in
          k_flags_notify_loop fuel f
            (if negb (Z.land (Z_SWAP_DATA_GET_OPTIONS swapd) K_FLAGS_CONSUME =? 0)
             then Z.land notify_value (Z.lnot trig) else notify_value)
            (next (links k) tie) (s8 (n + 1))
  end.

Definition k_flags_notify (f : word) (notify_value options : Z) : M Z :=
  if negb (z_user (nonnull f)) then ret (- EINVAL)
  else if negb (z_user (Z.land options (Z.lnot (Z.lor K_FLAGS_SET K_FLAGS_SCHED)) =? 0))
  then ret (- ENOTSUP)
  else
    let* lock := irq_lock in
    let* k := get in
    let tie := next (links k) (flags_waitqueue f) in
    let notify_value := Z.land (u8 (Z.lnot (kf_flags (flg k f)))) notify_value in
    let* n := k_flags_notify_loop loop_fuel f notify_value tie 0 in
    (when (0 <? n) && negb (Z.land options K_FLAGS_SCHED =? 0) do z_yield);;
    irq_unlock lock;;
    ret n.

Definition k_flags_reset (f : word) : M Z :=
  if negb (z_user (nonnull f)) then ret (- EINVAL)
  else
    let* lock := irq_lock in
    let* r := z_cancel_all_pending (flags_waitqueue f) in
    modify (λ k, upd_kflags f (with_kf_flags (reset_value (flg k f))) k);;
    irq_unlock lock;;
    ret (s8 r).

(** ** Waking up a thread whose wait node has been unlinked but not
    initialised *)

(** The wait node of a thread that pends on nothing and has no timeout is not
    constrained. *)
Lemma links_free_wqh T m m' rq rs ts Q t :
  links_ok F T m rq rs ts Q → t ∈ T → unqueued Q t → t ∉ ts.*1 →
  agree_on (λ p, p ≠ thread_wqh t) m m' → links_ok F T m' rq rs ts Q.
Proof.
  intros Hl Ht Hu Hts Ha. pose proof (lk_map _ _ _ _ _ _ _ Hl) as Hm.
  eapply links_ok_wqs; [done| |done| | | |].
  - intros p (_&_&Hp). by apply Ha, Hp.
  - intros l ws Hw. eapply ring_frame; [|by eapply lk_wq]. intros p Hp. apply Ha. intros ->.
    apply elem_of_cons in Hp as [E|Hp%wqh_inj_elem]; [|by eapply Hu].
    eapply (mm_head_wqh _ _ Hm); [by eapply elem_of_dom_2|done|done].
  - intros. by eapply lk_ws_T.
  - intros. by eapply lk_once.
  - intros t' Ht' Hu'. assert (t' ≠ t) by by intros ->.
    eapply benign_frame; [apply Ha; by intros ?%(inj thread_wqh)..|]. by eapply lk_benign.
Qed.

Lemma wq_remove_unqueued T m rq rs ts Q l ws1 t ws2 :
  links_ok F T m rq rs ts Q → Q !! l = Some (ws1 ++ t :: ws2) → unqueued (<[l := ws1 ++ ws2]> Q) t.
Proof.
  intros Hl Hw l' ws' [[<- <-]|[Hne Hw']]%lookup_insert_Some Hin.
  - destruct (lk_wq _ _ _ _ _ _ _ Hl l _ Hw) as [[_ Hnd%NoDup_fmap_1]%NoDup_cons _].
    rewrite <- Permutation_middle in Hnd. by apply NoDup_cons in Hnd as [? _].
  - apply Hne. eapply (lk_once _ _ _ _ _ _ _ Hl l l'); [done|done| |done].
    apply elem_of_app. right. by left.
Qed.

(** Removing the timeout of an unlinked thread. *)
Lemma tmo_remove_unlinked T m rq rs ts Q l ws1 t ws2 :
  links_ok F T m rq rs ts Q → Q !! l = Some (ws1 ++ t :: ws2) → t ∈ ts.*1 →
  (length ts < loop_fuel)%nat →
  ∃ m', tqueue_remove loop_fuel CONFIG_KERNEL_ARGS_CHECKS (dlist_remove m (thread_wqh t))
          z_timeouts_queue (thread_tie t) = Some (0, m') ∧
    links_ok F T m' rq rs (tmo_del t ts) (<[l := ws1 ++ ws2]> Q) ∧
    rd0 m' (thread_wqh t) = rd0 (dlist_remove m (thread_wqh t)) (thread_wqh t).
Proof.
  intros Hl Hw Hts Hf. pose proof (lk_map _ _ _ _ _ _ _ Hl) as Hm.
  assert (HtT : t ∈ T) by by eapply lk_ts_T.
  pose proof (wq_remove_unqueued _ _ _ _ _ _ _ _ _ _ Hl Hw) as Hu.
  set (A := dlist_remove m (thread_wqh t)). set (B := dlist_init A (thread_wqh t)).
  assert (HlB : links_ok F T B rq rs ts (<[l := ws1 ++ ws2]> Q)).
  { eapply links_wq_remove; [done|done| |].
    - intros p Hp. by apply dlist_init_frame.
    - intros _. left. apply dlist_init_ring. }
  assert (HAB : agree_on (λ p, p ≠ thread_wqh t) A B) by (intros p Hp; by apply dlist_init_frame).
  assert (Hnode : ∀ p, p ∈ tq_node z_timeouts_queue :: (tq_items ts).*1 → p ≠ thread_wqh t).
  { intros p Hp E. rewrite tq_items_fst in Hp.
    apply elem_of_cons in Hp as [->|(t'&->&Ht'%(lk_ts_T _ _ _ _ _ _ _ Hl))%list_elem_of_fmap].
    - by eapply (mm_root_wqh _ _ Hm).
    - by eapply (mm_tie_wqh _ _ Hm t' t). }
  pose proof (tqueue_remove_spec loop_fuel CONFIG_KERNEL_ARGS_CHECKS A z_timeouts_queue
    (thread_tie t) (tq_items ts)) as Hs.
  rewrite tq_items_remove in Hs.
  destruct (delta_remove t ts) as [ts'|] eqn:E; [|by apply delta_remove_None in E].
  destruct Hs as (m'&Hs&Hrep&_&Ha&_).
  - eapply tq_rep_frame; [|by eapply lk_tmo]. intros p Hp. destruct (HAB p); [by apply Hnode|]. by split.
  - apply tq_items_ok. by eapply lk_tmo_ok.
  - by eapply mm_root_null.
  - by eapply mm_null_tie.
  - by rewrite tq_items_length.
  - exists m'. unfold tmo_del. rewrite E. simpl. split; [done|]. split.
    2:{ apply Ha. intros Hp%Hnode. done. }
    assert (Hsub : ∀ t', t' ∈ ts'.*1 → t' ∈ ts.*1) by (intros t' ?; rewrite delta_remove_elem by done; by right).
    assert (Hnd : NoDup ts.*1) by by eapply links_length_ts.
    apply (links_free_wqh _ (dlist_init m' (thread_wqh t)) _ _ _ _ _ t); [|done|done| |].
    + eapply (links_ok_tmo _ _ B); [done| | | |].
      * eapply agree_on_impl; [|intros p Hp; apply Hp]. intros p [Hp1 Hp2]. unfold B.
        destruct (decide (p = thread_wqh t)) as [->|Hne].
        { pose proof (dlist_init_ring m' (thread_wqh t)) as [-> ->]%ring_nil.
          pose proof (dlist_init_ring A (thread_wqh t)) as [-> ->]%ring_nil. done. }
        destruct (dlist_init_frame m' (thread_wqh t) p Hne) as [-> ->].
        destruct (dlist_init_frame A (thread_wqh t) p Hne) as [-> ->].
        apply Ha. rewrite tq_items_fst. intros [->|(t'&->&Ht')%list_elem_of_fmap]%elem_of_cons; [done|].
        eapply Hp2; [by eapply lk_ts_T| |done]. intros Hr. by eapply (lk_rs_ts _ _ _ _ _ _ _ Hl).
      * eapply tq_rep_frame; [|done]. intros p Hp. apply dlist_init_frame. apply Hnode.
        revert Hp. rewrite !elem_of_cons. intros [->|Hp]; [by left|right].
        revert Hp. rewrite !tq_items_fst, !list_elem_of_fmap. naive_solver.
      * eapply delta_remove_ok; [by eapply lk_tmo_ok|done].
      * intros t' Ht'. split_and!; [by eapply lk_ts_T, Hsub| |left; by apply Hsub].
        intros Hr. eapply (lk_rs_ts _ _ _ _ _ _ _ Hl); [done|by apply Hsub].
    + intros Hin. pose proof (tmo_del_not_elem t ts Hnd) as Hn. unfold tmo_del in Hn.
      rewrite E in Hn. done.
    + intros p Hp. destruct (dlist_init_frame m' (thread_wqh t) p Hp). by split.
Qed.

Lemma z_schedule_wqh t k T rs ts Q p :
  links_ok F T (links k) (run_queue k) rs ts Q → ready_count k = Z.of_nat (length rs) →
  t ∈ T → p ∈ T → rd0 (links (z_schedule t k)) (thread_wqh p) = rd0 (links k) (thread_wqh p).
Proof.
  intros Hl Hc Ht Hp. pose proof (lk_map _ _ _ _ _ _ _ Hl) as Hm.
  assert (Hne : ∀ t', t' ∈ T → thread_wqh p ≠ thread_tie t').
  { intros t' Ht' E. by eapply (mm_tie_wqh _ _ Hm t' p). }
  unfold z_schedule. simpl. destruct rs as [|c rs].
  - rewrite (proj2 (Z.eqb_eq _ _)) by done. simpl. apply dlist_init_frame. by apply Hne.
  - rewrite (proj2 (Z.eqb_neq _ _)) by (rewrite Hc; simpl; lia). simpl.
    destruct (lk_run _ _ _ _ _ _ _ Hl) as [E Hr].
    eapply dlist_prepend_frame; [exact Hr|]. apply not_elem_of_cons. split; [by apply Hne|].
    rewrite E. change (thread_wqh p ∉ thread_tie <$> (c :: rs)).
    intros (t'&E'&Ht')%list_elem_of_fmap. eapply Hne; [|done]. by eapply lk_rs_T.
Qed.

(** [dlist_remove(tie); z_wake_up(thread);]: the thread, wherever it is in the
    queue, becomes ready; its stale node still leads to its successor. *)
Lemma z_wake_up_unlinked l k T rs ts Q ws1 t ws2 :
  Inv F k T rs ts Q → Q !! l = Some (ws1 ++ t :: ws2) →
  ∃ k', z_wake_up t (upd_links (λ m, dlist_remove m (thread_wqh t)) k) = Done tt k' ∧
    Inv F k' T (rq_add rs t) (tmo_del t ts) (<[l := ws1 ++ ws2]> Q) ∧
    keeps k k' ∧ current k' = current k ∧
    (∀ t', t' ≠ t → thr k' t' = thr k t') ∧ flags (thr k' t) = wake_flags (flags (thr k t)) ∧
    next (links k') (thread_wqh t) = next (links k) (thread_wqh t).
Proof.
  intros Hi Hw. pose proof (inv_links _ _ _ _ _ _ _ Hi) as Hl.
  assert (Hin : t ∈ ws1 ++ t :: ws2) by (apply elem_of_app; right; by left).
  assert (HtT : t ∈ T) by by eapply lk_ws_T.
  assert (Hrs : t ∉ rs) by by intros Hr; eapply (inv_ready_unqueued _ _ _ _ _ _ _ Hi Hr).
  destruct (inv_flags _ _ _ _ _ _ _ Hi t HtT) as (_&Htm&_); [done|].
  pose proof (wq_remove_unqueued _ _ _ _ _ _ _ _ _ _ Hl Hw) as Hu.
  assert (Hnx : rd0 (dlist_remove (links k) (thread_wqh t)) (thread_wqh t) = rd0 (links k) (thread_wqh t)).
  { pose proof (lk_wq _ _ _ _ _ _ _ Hl l _ Hw) as Hr. rewrite fmap_app in Hr. simpl in Hr.
    eapply dlist_remove_frame; [exact Hr|]. destruct Hr as [Hnd _].
    rewrite <- Permutation_middle in Hnd. rewrite Permutation_swap in Hnd.
    apply NoDup_cons in Hnd as [? _]. done. }
  assert (Hs1 : ∃ k1, z_cancel_scheduled_wake_up t (upd_links (λ m, dlist_remove m (thread_wqh t)) k) = Done tt k1 ∧
    links_ok F T (links k1) (run_queue k1) rs (tmo_del t ts) (<[l := ws1 ++ ws2]> Q) ∧
    ready_count k1 = ready_count k ∧ current k1 = current k ∧ keeps k k1 ∧
    (∀ t', t' ≠ t → thr k1 t' = thr k t') ∧
    flags (thr k1 t) = Z.land (flags (thr k t)) (Z.lnot Z_THREAD_WAKEUP_SCHED_MSK) ∧
    rd0 (links k1) (thread_wqh t) = rd0 (links k) (thread_wqh t)).
  { unfold z_cancel_scheduled_wake_up. rewrite bind_get. unfold test_flags.
    change (thr (upd_links _ k) t) with (thr k t).
    destruct (Z.eqb_spec (Z.land (flags (thr k t)) Z_THREAD_WAKEUP_SCHED_MSK) 0) as [E|E]; cbn [negb].
    - assert (Hnt : t ∉ ts.*1) by naive_solver. eexists; split; [done|].
      unfold tmo_del. rewrite (proj2 (delta_remove_None t ts)) by done. simpl.
      rewrite land_clr_id by done. split_and!; try done.
      eapply links_wq_remove; [done|done|done|done].
    - destruct (tmo_remove_unlinked _ _ _ _ _ _ _ _ _ _ Hl Hw) as (m'&Hm&Hl'&Hx);
        [by apply Htm|eapply links_fuel; [done|by apply Hi]|].
      rewrite bind_modify. unfold bind, tqueue_remove_M. simpl. rewrite Hm. simpl.
      eexists; split; [done|]. split_and!; try done.
      + intros t' Hne. exact (thr_upd_ne _ _ _ _ (not_eq_sym Hne)).
      + exact (flags_clr_eq _ _ _).
      + simpl. by rewrite Hx. }
  destruct Hs1 as (k1&E1&Hl1&Hn1&Hc1&Hk1&Hoth1&Hfl1&Hnx1).
  assert (Hnd : NoDup ts.*1) by by eapply links_length_ts.
  destruct (z_schedule_spec F t k1 T rs (tmo_del t ts) (<[l := ws1 ++ ws2]> Q)) as (Hi'&Hk&Hc&Hoth&Hfl);
    [|done|done|by apply tmo_del_not_elem|done|rewrite Hfl1; by apply land_clr_hit|].
  - eapply InvX_step; [by apply Inv_open|done|done| |done| |done| |].
    + rewrite Hn1. by apply Hi.
    + intros t' Hne. by rewrite Hoth1.
    + intros. by apply tmo_del_elem.
    + intros t' _ (l'&ws'&[[<- <-]|[_ Hw']]%lookup_insert_Some&Hin'); [|by eauto].
      exists l, (ws1 ++ t :: ws2). split; [done|]. revert Hin'. rewrite !elem_of_app, elem_of_cons. tauto.
  - exists (z_schedule t k1). split_and!.
    + unfold z_wake_up. by rewrite (bind_done _ _ _ _ _ E1).
    + done.
    + by etransitivity.
    + by rewrite Hc.
    + intros t' Hne. by rewrite Hoth, Hoth1.
    + rewrite Hfl, Hfl1. done.
    + rewrite <- Hnx1. eapply z_schedule_wqh; [exact Hl1| |done|done].
      rewrite Hn1. by apply Hi.
Qed.

(** ** Notification *)

(** What a notification of the bits [nv] does to the waiters [ws], whose
    requests are [req]: the threads it wakes up, each with the bits that woke
    it, and the bits left to be stored. *)
Fixpoint flags_walk (req : word → word) (nv : Z) (ws : list word) : list (word * Z) * Z :=
  if nv =? 0 then ([], 0) else
  match ws with
  | [] => ([], nv)
  | t :: ws =>
      let trig := Z.land nv (Z_SWAP_DATA_GET_PEND_MASK (req t)) in
      if trig =? 0 then flags_walk req nv ws
      else
        let '(woken, rest) := flags_walk req
          (if negb (Z.land (Z_SWAP_DATA_GET_OPTIONS (req t)) K_FLAGS_CONSUME =? 0)
           then Z.land nv (Z.lnot trig) else nv) ws in
        ((t, trig) :: woken, rest)
  end.

Lemma flags_walk_sub req nv ws t : t ∈ (flags_walk req nv ws).1.*1 → t ∈ ws.
Proof.
  revert nv. induction ws as [|x ws IH]; intros nv; simpl.
  - destruct (nv =? 0); apply not_elem_of_nil || (intros Ht; by apply not_elem_of_nil in Ht).
  - destruct (nv =? 0); [intros Ht; by apply not_elem_of_nil in Ht|].
    destruct (_ =? 0).
    + intros Ht. right. by eapply IH.
    + match goal with |- context [flags_walk req ?n ws] => pose proof (IH n) as IHn; destruct (flags_walk req n ws) end.
      simpl in *. intros [->|Ht]%elem_of_cons; [by left|right; auto].
Qed.

Lemma ring_next_mid m l ns1 n ns2 : ring m l (ns1 ++ n :: ns2) → next m n = hd l ns2.
Proof. intros Hr%ring_rotate. destruct ns2; by apply ring_next in Hr. Qed.

(** The threads of [ws] that a walk leaves waiting. *)
Definition flags_kept (woken : list word) (ws : list word) : list word := filter (λ t, t ∉ woken) ws.

Lemma flags_kept_cons_ne t woken ws : t ∉ ws → flags_kept (t :: woken) ws = flags_kept woken ws.
Proof.
  intros Ht. unfold flags_kept. induction ws as [|x ws IH]; [done|].
  apply not_elem_of_cons in Ht as [Hne Ht]. rewrite !filter_cons.
  rewrite IH by done. repeat case_decide; try done; set_solver.
Qed.

Lemma flags_kept_nil ws : flags_kept [] ws = ws.
Proof.
  unfold flags_kept. induction ws as [|x ws IH]; [done|].
  rewrite filter_cons_True by apply not_elem_of_nil. by rewrite IH.
Qed.

Lemma with_kf_flags_id x : with_kf_flags (Z.lor (kf_flags x) 0) x = x.
Proof. rewrite Z.lor_0_r. by destruct x. Qed.

Lemma flg_upd_eq f g k : flg (upd_kflags f g k) f = g (flg k f).
Proof. unfold flg at 1, upd_kflags. simpl. by rewrite lookup_total_insert_eq. Qed.

Lemma flg_keeps f k k' : keeps k k' → flg k' f = flg k f.
Proof. intros [Hk _]. unfold kobjs in Hk. unfold flg. congruence. Qed.

Lemma z_wake_up_swap_same t k k' t' : z_wake_up t k = Done tt k' → swap_data (thr k' t') = swap_data (thr k t').
Proof. intros E. by apply z_wake_up_swap in E. Qed.

(** The result of a walk in the state of the kernel. *)
Record notified (f : word) (k k' : kstate) (T : gset word) rs ts Q (pre ws : list word)
    (woken : list (word * Z)) (rest : Z) : Prop := {
  nt_inv : Inv F k' T (foldl rq_add rs woken.*1) (timeouts_del woken.*1 ts)
             (<[flags_waitqueue f := pre ++ flags_kept woken.*1 ws]> Q);
  nt_flags : flg k' f = with_kf_flags (Z.lor (kf_flags (flg k f)) rest) (flg k f);
  nt_current : current k' = current k;
  nt_irq : sreg_i k' = sreg_i k;
  nt_others t : t ∉ woken.*1 → thr k' t = thr k t;
  nt_woken t trig : (t, trig) ∈ woken →
    flags (thr k' t) = wake_flags (flags (thr k t)) ∧ swap_data (thr k' t) = Z_SWAP_DATA_INIT_TRIG_MASK trig;
}.

Lemma k_flags_notify_loop_spec f ws : ∀ req fuel nv n k T rs ts Q pre,
  Inv F k T rs ts Q → Q !! flags_waitqueue f = Some (pre ++ ws) →
  (∀ t, t ∈ ws → swap_data (thr k t) = req t) →
  (length ws < fuel)%nat → 0 <= n → n + Z.of_nat (length ws) < 128 →
  ∃ k', k_flags_notify_loop fuel f nv (hd (flags_waitqueue f) (thread_wqh <$> ws)) n k
    = Done (n + Z.of_nat (length (flags_walk req nv ws).1)) k' ∧
    notified f k k' T rs ts Q pre ws (flags_walk req nv ws).1 (flags_walk req nv ws).2.
Proof.
  induction ws as [|t ws IH]; intros req fuel nv n k T rs ts Q pre Hi Hw Hreq Hf Hn0 Hn;
    (destruct fuel as [|fuel]; [simpl in Hf; lia|]); cbn [k_flags_notify_loop flags_walk].
  { destruct (Z.eqb_spec nv 0) as [->|Hnv]; cbn [fst snd length fmap list_fmap hd].
    - exists k. rewrite Z.add_0_r. split; [done|].
      split; try done; try by (intros; exfalso; eapply not_elem_of_nil).
      + simpl. by rewrite insert_id by by rewrite Hw.
      + by rewrite with_kf_flags_id.
    - rewrite decide_True by done. rewrite Z.add_0_r. eexists. split; [done|].
      split; try done; try by (intros; exfalso; eapply not_elem_of_nil).
      + simpl. rewrite insert_id by by rewrite Hw. by eapply Inv_objs.
      + by rewrite flg_upd_eq. }
  destruct (Z.eqb_spec nv 0) as [->|Hnv]; cbn [fst snd length].
  { exists k. rewrite Z.add_0_r. split; [done|].
    split; try done; try by (intros; exfalso; eapply not_elem_of_nil).
    - simpl. rewrite flags_kept_nil. by rewrite insert_id by by rewrite Hw.
    - by rewrite with_kf_flags_id. }
  change (hd (flags_waitqueue f) (thread_wqh <$> (t :: ws))) with (thread_wqh t).
  pose proof (inv_links _ _ _ _ _ _ _ Hi) as Hl.
  pose proof (lk_wq _ _ _ _ _ _ _ Hl _ _ Hw) as Hr. rewrite fmap_app, fmap_cons in Hr.
  rewrite decide_False.
  2:{ destruct Hr as [[Hx _]%NoDup_cons _]. intros E. apply Hx. rewrite E. apply elem_of_app. right. by left. }
  rewrite bind_get. cbv zeta. rewrite thread_of_wqh_wqh, Hreq by by left.
  assert (HtT : t ∈ T) by (eapply lk_ws_T; [done|done|apply elem_of_app; right; by left]).
  assert (Hnd : NoDup (pre ++ t :: ws)) by by eapply wq_nodup.
  assert (Htws : t ∉ ws) by by (apply NoDup_app in Hnd as (_&_&[? _]%NoDup_cons)).
  set (trig := Z.land nv _). destruct (Z.eqb_spec trig 0) as [Et|Et]; cbn [fst snd].
  - rewrite (ring_next_mid _ _ _ _ _ Hr).
    destruct (IH req fuel nv n k T rs ts Q (pre ++ [t])) as (k'&E&[Hi' Hfl Hc Hs Ho Hwk]);
      [done|by rewrite <- app_assoc|intros; apply Hreq; by right|simpl in Hf; lia|done|simpl in Hn; lia|].
    exists k'. split; [exact E|]. split; try done.
    rewrite <- app_assoc in Hi'. simpl in Hi'. unfold flags_kept in *. rewrite filter_cons_True; [done|].
    intros Hin%flags_walk_sub. done.
  - set (nv' := if negb _ then _ else _).
    rewrite !bind_modify. set (k1 := set_swap_data t (Z_SWAP_DATA_INIT_TRIG_MASK trig) k).
    assert (Hi1 : Inv F k1 T rs ts Q) by by apply Inv_upd_thread.
    destruct (z_wake_up_unlinked _ _ _ _ _ _ _ _ _ Hi1 Hw) as (k2&E2&Hi2&Hk2&Hc2&Ho2&Hf2&Hx2).
    rewrite (bind_done _ _ _ _ _ E2), bind_get, Hx2.
    change (links k1) with (links k). rewrite (ring_next_mid _ _ _ _ _ Hr).
    rewrite s8_small by (simpl in Hn; lia).
    destruct (IH req fuel nv' (n + 1) k2 T (rq_add rs t) (tmo_del t ts)
      (<[flags_waitqueue f := pre ++ ws]> Q) pre) as (k'&E&[Hi' Hfl Hc Hs Ho Hwk]);
      [done|apply lookup_insert_eq| |simpl in Hf; lia|lia|simpl in Hn; lia|].
    { intros t' Ht'. rewrite Ho2 by by intros ->. unfold k1, set_swap_data.
      rewrite thr_upd_ne by by intros ->. apply Hreq. by right. }
    assert (Hsub : t ∉ (flags_walk req nv' ws).1.*1) by by intros Hin%flags_walk_sub.
    destruct (flags_walk req nv' ws) as [woken left] eqn:Ew. cbn [fst snd] in *.
    exists k'. split.
    { rewrite E. f_equal. simpl. lia. }
    assert (Hfk : flg k2 f = flg k f).
    { by rewrite (flg_keeps f _ _ Hk2). }
    split.
    + rewrite insert_insert_eq in Hi'. rewrite fmap_cons. cbn [fst].
      assert (flags_kept (t :: woken.*1) (t :: ws) = flags_kept woken.*1 ws) as ->; [|exact Hi'].
      rewrite <- (flags_kept_cons_ne t _ ws Htws). unfold flags_kept.
      by rewrite filter_cons_False by (intros Hx; apply Hx; by left).
    + by rewrite Hfl, Hfk.
    + by rewrite Hc, Hc2.
    + rewrite Hs. destruct Hk2 as [_ ->]. done.
    + simpl. intros t' [Hne Hin]%not_elem_of_cons. rewrite Ho by done. rewrite Ho2 by done.
      unfold k1, set_swap_data. by rewrite thr_upd_ne.
    + intros t' tr [[= -> ->]|Hin]%elem_of_cons.
      * rewrite Ho by done. rewrite Hf2. unfold k1, set_swap_data.
        split; [by rewrite thr_upd_eq|].
        rewrite (z_wake_up_swap_same _ _ _ _ E2).
        change (thr (upd_links _ ?k) ?t) with (thr k t). unfold k1, set_swap_data. by rewrite thr_upd_eq.
      * destruct (Hwk _ _ Hin) as [H1' H2']. split; [|done].
        assert (t' ≠ t). { intros ->. apply Hsub. apply list_elem_of_fmap. by exists (t, tr). }
        rewrite H1', Ho2 by done. unfold k1, set_swap_data. by rewrite thr_upd_ne.
Qed.

(** ** [swap_data] over a wait *)

(** Up to where it returns or suspends, the call does not write [swap_data]. *)
Definition keeps_swap {A} (c : M A) : Prop := ∀ k,
  match c k with Done _ k' | Susp k' _ => swap_same k k' | _ => True end.

Lemma keeps_swap_bind {A B} (c : M A) (f : A → M B) :
  keeps_swap c → (∀ a, keeps_swap (f a)) → keeps_swap (bind c f).
Proof.
  intros Hc Hf k. specialize (Hc k). unfold bind. destruct (c k) as [a k1|k1 r| |]; cbn [rbind]; [|done..].
  specialize (Hf a k1). destruct (f a k1); try done; intros t; by rewrite Hf, Hc.
Qed.
Lemma keeps_swap_get : keeps_swap get.
Proof. by intros k t. Qed.
Lemma keeps_swap_ret {A} (a : A) : keeps_swap (ret a).
Proof. by intros k t. Qed.
Lemma keeps_swap_modify g : (∀ k, swap_same k (g k)) → keeps_swap (modify g).
Proof. intros Hg k. apply Hg. Qed.
Lemma keeps_swap_links g : keeps_swap (modify (upd_links g)).
Proof. by apply keeps_swap_modify. Qed.
Lemma keeps_swap_on_links g : keeps_swap (on_links g).
Proof. intros k. unfold on_links. by destruct (g (links k)). Qed.
Lemma keeps_swap_flags t g : keeps_swap (modify (λ k, set_flags t (g k) k)).
Proof. apply keeps_swap_modify. intros k. apply swap_same_flags. Qed.

Lemma keeps_swap_cancel t : keeps_swap (z_cancel_scheduled_wake_up t).
Proof.
  apply keeps_swap_bind; [apply keeps_swap_get|]. intros k. destruct (test_flags _ _ _); [|apply keeps_swap_ret].
  apply keeps_swap_bind; [apply keeps_swap_flags|]. intros _. apply keeps_swap_bind; [|intros; apply keeps_swap_ret].
  intros k'. unfold tqueue_remove_M. by destruct (tqueue_remove _ _ _ _ _) as [[]|].
Qed.

Lemma keeps_swap_suspend t : keeps_swap (z_suspend t).
Proof.
  apply keeps_swap_bind; [apply keeps_swap_get|]. intros k.
  destruct (_ =? _); [apply keeps_swap_cancel|].
  apply keeps_swap_bind; [apply keeps_swap_links|]. intros _.
  apply keeps_swap_bind; [by apply keeps_swap_modify|]. intros _.
  apply keeps_swap_bind; [apply keeps_swap_get|]. intros k'.
  destruct (ready_count k' =? 0); [destruct CONFIG_KERNEL_THREAD_IDLE; [by apply keeps_swap_modify|done]|].
  destruct (bool_decide _); [by apply keeps_swap_modify|apply keeps_swap_ret].
Qed.

Lemma keeps_swap_wake_up timeout : keeps_swap (z_schedule_wake_up timeout).
Proof.
  unfold z_schedule_wake_up. destruct (negb _); [|apply keeps_swap_ret].
  apply keeps_swap_bind; [apply keeps_swap_get|]. intros k.
  apply keeps_swap_bind; [apply keeps_swap_flags|]. intros _.
  apply keeps_swap_bind; [apply keeps_swap_links|]. intros _.
  apply keeps_swap_bind; [apply keeps_swap_links|]. intros _. apply keeps_swap_on_links.
Qed.

Lemma keeps_swap_yield : keeps_swap z_yield.
Proof.
  intros k. unfold z_yield. destruct (z_scheduler k) as [p k'] eqn:E.
  assert (Hs : swap_same k k'); [|by destruct (decide _)].
  revert E. unfold z_scheduler. destruct (_ =? _); intros [= _ <-]; apply swap_same_flags.
Qed.

Lemma keeps_swap_pend timeout : keeps_swap (z_pend_current timeout).
Proof.
  apply keeps_swap_bind; [apply keeps_swap_get|]. intros k.
  apply keeps_swap_bind; [apply keeps_swap_suspend|]. intros _.
  apply keeps_swap_bind; [apply keeps_swap_wake_up|]. intros _.
  apply keeps_swap_bind; [apply keeps_swap_get|]. intros k'.
  apply keeps_swap_bind; [apply keeps_swap_flags|]. intros _. apply keeps_swap_yield.
Qed.

Lemma keeps_swap_pend_on l timeout : keeps_swap (z_pend_current_on l timeout).
Proof.
  unfold z_pend_current_on. destruct (_ =? _); [apply keeps_swap_ret|].
  apply keeps_swap_bind.
  { destruct (nonnull l); [|apply keeps_swap_ret].
    apply keeps_swap_bind; [apply keeps_swap_get|]. intros k. apply keeps_swap_links. }
  intros _. apply keeps_swap_bind; [apply keeps_swap_pend|]. intros _.
  apply keeps_swap_bind; [apply keeps_swap_get|]. intros k.
  destruct (test_flags _ _ _); [apply keeps_swap_ret|]. destruct (test_flags _ _ _); apply keeps_swap_ret.
Qed.

Lemma swap_mask opt m : 0 <= m < 256 → Z_SWAP_DATA_GET_PEND_MASK (Z_SWAP_DATA_INIT_OPT_N_MASK opt m) = m.
Proof.
  intros Hm. unfold Z_SWAP_DATA_GET_PEND_MASK, swap_bits, Z_SWAP_DATA_INIT_OPT_N_MASK, word_int.
  assert (E : ∀ x, Z.land (u16 x) 0xFF = Z.land x 0xFF).
  { intros x. change 0xFF with (Z.ones 8). rewrite !Z.land_ones by lia. unfold u16.
    change (2 ^ 8) with 256. apply Z.mod_mod_divide. by exists 256. }
  rewrite E, Z.land_lor_distr_l, E.
  change 0xFF with (Z.ones 8). rewrite !Z.land_ones, Z.shiftl_mul_pow2 by lia.
  rewrite Z.mod_mul, Z.lor_0_l by done. change (2 ^ 8) with 256.
  rewrite (Z.mod_small m) by lia. by apply u8_small.
Qed.

(** ** The invariant of a flags object

    No flag that is set is one a thread waits for. *)
Definition flags_ok (k : kstate) (f : word) (ws : list word) : Prop :=
  ∀ t, t ∈ ws → Z.land (kf_flags (flg k f)) (Z_SWAP_DATA_GET_PEND_MASK (swap_data (thr k t))) = 0.

Lemma land_sub a b c : Z.land a b = a → Z.land b c = 0 → Z.land a c = 0.
Proof. intros <- E. by rewrite <- Z.land_assoc, E, Z.land_0_r. Qed.

Lemma land_sub_refl a m : Z.land (Z.land a m) a = Z.land a m.
Proof. by rewrite (Z.land_comm _ a), Z.land_assoc, Z.land_diag. Qed.

Lemma flags_walk_step (b : bool) nv trig : Z.land (if b then Z.land nv (Z.lnot trig) else nv) nv = if b then Z.land nv (Z.lnot trig) else nv.
Proof. destruct b; [apply land_sub_refl|apply Z.land_diag]. Qed.

Lemma land_sub_trans a b c : Z.land a b = a → Z.land b c = b → Z.land a c = a.
Proof. intros E1 E2. by rewrite <- E1, <- Z.land_assoc, E2. Qed.

(** The bits left are bits of the notification, none of them is one that a
    thread left waiting waits for, and a thread is woken up by some of the bits
    it waits for. *)
Lemma flags_walk_spec req ws : ∀ nv, NoDup ws →
  Z.land (flags_walk req nv ws).2 nv = (flags_walk req nv ws).2 ∧
  (∀ t, t ∈ ws → t ∉ (flags_walk req nv ws).1.*1 →
    Z.land (flags_walk req nv ws).2 (Z_SWAP_DATA_GET_PEND_MASK (req t)) = 0) ∧
  (∀ t trig, (t, trig) ∈ (flags_walk req nv ws).1 → trig ≠ 0 ∧ Z.land trig nv = trig ∧
    Z.land trig (Z_SWAP_DATA_GET_PEND_MASK (req t)) = trig).
Proof.
  induction ws as [|x ws IH]; intros nv Hnd; simpl; (destruct (Z.eqb_spec nv 0) as [->|Hnv]; cbn [fst snd];
    [split_and!; [done|intros; apply Z.land_0_l|by intros t tr ?%not_elem_of_nil]|]).
  { split_and!; [apply Z.land_diag|by intros t ?%not_elem_of_nil|by intros t tr ?%not_elem_of_nil]. }
  apply NoDup_cons in Hnd as [Hx Hnd].
  set (m := Z_SWAP_DATA_GET_PEND_MASK (req x)).
  destruct (Z.eqb_spec (Z.land nv m) 0) as [E|E].
  - destruct (IH nv Hnd) as (H1'&H2'&H3'). split_and!; [done| |done].
    intros t [->|Ht]%elem_of_cons Hn; [by eapply land_sub|by apply H2'].
  - set (nv' := if negb _ then _ else _). destruct (IH nv' Hnd) as (H1'&H2'&H3').
    pose proof (λ b, flags_walk_step b nv (Z.land nv m)) as Hs.
    specialize (Hs (negb (Z.land (Z_SWAP_DATA_GET_OPTIONS (req x)) K_FLAGS_CONSUME =? 0))).
    fold nv' in Hs.
    assert (Hr0 : Z.land (flags_walk req nv' ws).2 nv = (flags_walk req nv' ws).2) by by eapply land_sub_trans.
    destruct (flags_walk req nv' ws) as [woken rest]. cbn [fst snd] in *. split_and!; [done| |].
    + intros t [->|Ht]%elem_of_cons Hn; rewrite fmap_cons in Hn;
        [destruct Hn; by left|]. apply not_elem_of_cons in Hn as [_ Hn]. by apply H2'.
    + intros t trig [[= -> ->]|Hin]%elem_of_cons.
      * split_and!; [done|apply land_sub_refl|]. by rewrite <- Z.land_assoc, Z.land_diag.
      * destruct (H3' _ _ Hin) as (?&?&?). split_and!; [done| |done]. by apply (land_sub_trans _ nv').
Qed.

(** C27: [k_flags_notify] wakes up, in the order they wait, exactly the waiters
    whose mask meets the new bits not yet consumed, tells each the bits that
    woke it, removes only them from the queue, stores the bits left, and keeps
    the invariant that no set flag is one a thread waits for; it returns the
    number of threads woken and yields only if told to and some were. *)
Theorem k_flags_notify_spec f value options k T rs ts Q ws :
  Inv F k T rs ts Q → f ≠ NULL → Q !! flags_waitqueue f = Some ws → flags_ok k f ws →
  (length ws < 128)%nat → Z.land options (Z.lnot (Z.lor K_FLAGS_SET K_FLAGS_SCHED)) = 0 →
  let req t := swap_data (thr k t) in
  let '(woken, rest) := flags_walk req (Z.land (u8 (Z.lnot (kf_flags (flg k f)))) value) ws in
  let n := Z.of_nat (length woken) in
  ∃ k', notified f (set_sreg_i false k) k' T rs ts Q [] ws woken rest ∧
    flags_ok k' f (flags_kept woken.*1 ws) ∧
    (∀ t trig, (t, trig) ∈ woken → trig ≠ 0 ∧ Z.land trig value = trig ∧
       Z.land trig (Z_SWAP_DATA_GET_PEND_MASK (req t)) = trig ∧
       (Z.land (flags (thr k t)) SCHED_CLR = 0 → pend_result (flags (thr k' t)) = 0)) ∧
    k_flags_notify f value options k =
      if (0 <? n) && negb (Z.land options K_FLAGS_SCHED =? 0)
      then (z_yield;; irq_unlock (sreg_i k);; ret n) k'
      else Done n (set_sreg_i (sreg_i k) k').
Proof.
  intros Hi Hf Hw Hok Hlen Hopt req. set (k0 := set_sreg_i false k).
  set (nv := Z.land (u8 _) value). pose proof (Inv_sreg _ false _ _ _ _ _ Hi) as Hi0. fold k0 in Hi0.
  assert (Hnd : NoDup ws) by by eapply wq_nodup.
  assert (Hn : next (links k0) (flags_waitqueue f) = hd (flags_waitqueue f) (thread_wqh <$> ws)).
  { pose proof (lk_wq _ _ _ _ _ _ _ (inv_links _ _ _ _ _ _ _ Hi0) _ _ Hw) as Hr.
    destruct ws; [by apply ring_nil in Hr as [-> _]|by rewrite (ring_next _ _ _ _ Hr)]. }
  destruct (k_flags_notify_loop_spec f ws req loop_fuel nv 0 k0 T rs ts Q [])
    as (k'&E&Hnt); [done|done|done| |done|lia|].
  { pose proof (wq_length _ _ _ _ _ _ _ _ Hi Hw). pose proof (inv_fuel _ _ _ _ _ _ _ Hi). lia. }
  destruct (flags_walk_spec req ws nv Hnd) as (H1'&H2'&H3').
  destruct (flags_walk req nv ws) as [woken rest]. cbn [fst snd] in *.
  exists k'. split; [exact Hnt|]. destruct Hnt as [Hi' Hfl Hc Hs Ho Hwk]. split_and!.
  - intros t [Hnin Ht]%list_elem_of_filter. rewrite Hfl, Ho by done. simpl.
    rewrite Z.land_lor_distr_l. change (thr k0 t) with (thr k t). change (flg k0 f) with (flg k f).
    rewrite (Hok t Ht), Z.lor_0_l. by apply H2'.
  - intros t trig Hin. destruct (H3' _ _ Hin) as (?&?&?). destruct (Hwk _ _ Hin) as [Hflg _]. split_and!; try done.
    + apply (land_sub_trans _ nv); [done|]. unfold nv. by rewrite <- Z.land_assoc, Z.land_diag.
    + intros Hz. rewrite Hflg. by apply pend_result_wake.
  - unfold k_flags_notify. rewrite z_user_true by by apply nonnull_true. rewrite Hopt.
    rewrite z_user_true by done. rewrite bind_irq_lock, bind_get. cbv zeta. fold k0. rewrite Hn.
    change (flg k0 f) with (flg k f). fold nv. rewrite (bind_done _ _ _ _ _ E), Z.add_0_l.
    by destruct (_ && _).
Qed.

(** [k_flags_poll] returns at once, through its mask, the flags already set
    among those asked for, which it clears if told to consume them; else it
    fails at once when told not to wait, and otherwise queues the caller, with
    its options and mask in [swap_data], where a notification puts the bits
    that wake it up; the invariants hold after. *)
Theorem k_flags_poll_spec f mask options timeout k T c rs ts Q ws m :
  Inv F k T (c :: rs) ts Q → current k = c → can_idle rs → f ≠ NULL → mask ≠ NULL →
  Q !! flags_waitqueue f = Some ws → flags_ok k f ws → rdb (bytes k) mask = m → 0 < m < 256 →
  Z.land options (Z.lnot (Z.lor K_FLAGS_SET_ANY K_FLAGS_CONSUME)) = 0 → 0 <= timeout < 65536 →
  let value := kf_flags (flg k f) in
  let trig := Z.land value m in
  if negb (trig =? 0) then
    ∃ k', k_flags_poll f mask options timeout k = Done 0 k' ∧ Inv F k' T (c :: rs) ts Q ∧
      flags_ok k' f ws ∧ rdb (bytes k') mask = trig ∧
      kf_flags (flg k' f) = if Z.land options K_FLAGS_CONSUME =? 0 then value else Z.land value (Z.lnot m)
  else if timeout =? K_NO_WAIT then
    k_flags_poll f mask options timeout k
      = Done (- EAGAIN) (set_swap_data c (Z_SWAP_DATA_INIT_OPT_N_MASK options m) k)
  else ∃ k',
    suspends (k_flags_poll f mask options timeout k) k' (λ k2,
      let r := pend_result (flags (thr k2 (current k2))) in
      Done r (set_sreg_i (sreg_i k) (if r =? 0 then
        set_byte mask (Z_SWAP_DATA_GET_TRIG_MASK (swap_data (thr k2 (current k2)))) k2 else k2))) ∧
    Inv F k' T (rq_leave rs) (tmo_add timeout c ts) (<[flags_waitqueue f := ws ++ [c]]> Q) ∧
    current k' = running (rq_leave rs) ∧ flags_ok k' f (ws ++ [c]) ∧
    swap_data (thr k' c) = Z_SWAP_DATA_INIT_OPT_N_MASK options m ∧
    Z.land (flags (thr k' c)) SCHED_CLR = 0.
Proof.
  intros Hi Hc Hid Hf Hm Hw Hok Hmv Hmr Hopt Ht value trig. unfold k_flags_poll.
  rewrite z_user_true by by rewrite !nonnull_true. rewrite Hopt. rewrite z_user_true by done.
  rewrite bind_get, Hmv, (proj2 (Z.eqb_neq m 0)) by lia. rewrite bind_irq_lock, bind_get. cbv zeta.
  change (flg (set_sreg_i false k) f) with (flg k f). fold value. fold trig.
  change (current (set_sreg_i false k)) with (current k). rewrite Hc.
  destruct (Z.eqb_spec trig 0) as [Et|Et]; cbn [negb].
  - set (k0 := set_swap_data c (Z_SWAP_DATA_INIT_OPT_N_MASK options m) (set_sreg_i false k)).
    assert (Hi0 : Inv F k0 T (c :: rs) ts Q) by by apply Inv_upd_thread, Inv_sreg.
    destruct (Z.eqb_spec timeout K_NO_WAIT) as [->|Hne]; [by mred|].
    destruct (z_pend_current_on_spec F (flags_waitqueue f) timeout k0 T c rs ts Q ws)
      as (k'&Hsus&Hi'&Hc'&Hk&Hoth&Hfl); [done|done|done|done|unfold K_NO_WAIT in Hne; lia|].
    assert (Hsw : swap_same k0 k').
    { pose proof (keeps_swap_pend_on (flags_waitqueue f) timeout k0) as Hs.
      destruct Hsus as (cont&E&_). by rewrite E in Hs. }
    exists k'. split_and!; try done.
    + eapply suspends_ext.
      * apply suspends_bind. unfold bind at 1, modify at 1. cbn [rbind]. fold k0.
        apply suspends_bind. exact Hsus.
      * intros k2. mred. by destruct (_ =? 0).
    + assert (Ek : flg k' f = flg k f) by by apply (flg_keeps f) in Hk.
      intros t [Ht'|Ht']%elem_of_app; rewrite Ek, Hsw.
      * assert (t ≠ c). { intros ->. eapply (inv_ready_unqueued _ _ _ _ _ _ _ Hi); [by left|done|done]. }
        unfold k0, set_swap_data. rewrite thr_upd_ne by done. by apply Hok.
      * apply list_elem_of_singleton in Ht' as ->. unfold k0, set_swap_data. rewrite thr_upd_eq. simpl.
        rewrite swap_mask by lia. done.
    + rewrite Hsw. unfold k0, set_swap_data. by rewrite thr_upd_eq.
    + rewrite Hfl. apply pend_clr.
  - pose proof (flg_upd_eq f (with_kf_flags (Z.land value (Z.lnot m))) (set_sreg_i false k)) as Ef.
    destruct (Z.eqb_spec (Z.land options K_FLAGS_CONSUME) 0) as [Eo|Eo]; cbn [negb]; eexists; (split; [reflexivity|]);
      (split_and!; [by eapply Inv_objs| |by unfold set_byte; simpl; rewrite rdb_insert, decide_True|]).
    + exact Hok.
    + done.
    + intros t Ht'. change (flg _ f) with (flg (upd_kflags f (with_kf_flags (Z.land value (Z.lnot m))) (set_sreg_i false k)) f).
      rewrite Ef. change (thr _ t) with (thr k t).
      apply (land_sub _ value); [apply land_sub_refl|by apply Hok].
    + change (flg _ f) with (flg (upd_kflags f (with_kf_flags (Z.land value (Z.lnot m))) (set_sreg_i false k)) f).
      by rewrite Ef.
Qed.
End Flags.

(** ** Instances *)

Definition w_flags_obj : word := w_obj 0.
Definition w_flags (v : Z) (k : kstate) : kstate :=
  set_byte (Ptr 30 0) 6 (upd_kflags w_flags_obj (λ _, {| kf_flags := v; reset_value := 0 |}) k).

(** [t1] waits for the flags 3, [t2] for 4, which it consumes. *)
Definition w_flags2 (k : kstate) : kstate :=
  set_swap_data t2 (Z_SWAP_DATA_INIT_OPT_N_MASK 16 4) (set_swap_data t1 (Z_SWAP_DATA_INIT_OPT_N_MASK 1 3) k).

Lemma w_flags2_req k :
  swap_data (thr (w_flags2 k) t1) = Int 259 ∧ swap_data (thr (w_flags2 k) t2) = Int 4100.
Proof.
  unfold w_flags2, set_swap_data. rewrite thr_upd_eq, thr_upd_ne, thr_upd_eq by done. done.
Qed.

Lemma k_flags_notify_witness :
  let k := w_flags 0 (w_flags2 (w_wait2 (flags_waitqueue w_flags_obj))) in
  ∃ k', k_flags_notify w_flags_obj 5 K_FLAGS_SET k = Done 2 k' ∧ kf_flags (flg k' w_flags_obj) = 1.
Proof.
  assert (Hh : flags_waitqueue w_flags_obj ∈ w_heads) by (vm_compute; set_solver).
  destruct (w_wait2_inv _ Hh) as (Hi&_). cbn zeta. revert Hi.
  generalize (w_wait2 (flags_waitqueue w_flags_obj)). intros k Hi.
  destruct (w_flags2_req k) as [E1 E2].
  assert (Hf : flg (w_flags 0 (w_flags2 k)) w_flags_obj = {| kf_flags := 0; reset_value := 0 |}).
  { exact (flg_upd_eq w_flags_obj (λ _, {| kf_flags := 0; reset_value := 0 |}) (w_flags2 k)). }
  pose proof (k_flags_notify_spec w_F w_flags_obj 5 K_FLAGS_SET (w_flags 0 (w_flags2 k)) w_T [t3]
    [(t2, 3); (t1, 2)] (<[flags_waitqueue w_flags_obj := [t1; t2]]> w_Q) [t1; t2]) as Hs.
  rewrite Hf in Hs. cbn [kf_flags] in Hs.
  assert (Ew : flags_walk (λ t, swap_data (thr (w_flags 0 (w_flags2 k)) t)) (Z.land (u8 (Z.lnot 0)) 5) [t1; t2]
    = ([(t1, 1); (t2, 4)], 1)).
  { unfold flags_walk. change (thr (w_flags 0 (w_flags2 k))) with (thr (w_flags2 k)). rewrite E1, E2. reflexivity. }
  cbv zeta in Hs. rewrite Ew in Hs.
  destruct Hs as (k'&Hn&_&_&E).
  - by apply (Inv_objs _ (w_flags2 k)); [apply Inv_upd_thread; [done|]; apply Inv_upd_thread|..].
  - done.
  - apply lookup_insert_eq.
  - intros t _. rewrite Hf. done.
  - simpl. lia.
  - done.
  - exists (set_sreg_i (sreg_i (w_flags 0 (w_flags2 k))) k'). split; [exact E|].
    pose proof (nt_flags _ _ _ _ _ _ _ _ _ _ _ _ Hn) as Hx.
    change (flg (set_sreg_i _ k') w_flags_obj) with (flg k' w_flags_obj). rewrite Hx.
    change (flg (set_sreg_i false ?x) w_flags_obj) with (flg x w_flags_obj). rewrite Hf. reflexivity.
Defined.

Lemma k_flags_poll_witness :
  let k := w_flags 0 w_ready in
  ∃ k', suspends (k_flags_poll w_flags_obj (Ptr 30 0) K_FLAGS_CONSUME 9 k) k' (λ k2,
      let r := pend_result (flags (thr k2 (current k2))) in
      Done r (set_sreg_i true (if r =? 0 then
        set_byte (Ptr 30 0) (Z_SWAP_DATA_GET_TRIG_MASK (swap_data (thr k2 (current k2)))) k2 else k2))) ∧
    current k' = t2 ∧ swap_data (thr k' t1) = Int (16 * 256 + 6).
Proof.
  assert (Hf : flg (w_flags 0 w_ready) w_flags_obj = {| kf_flags := 0; reset_value := 0 |}).
  { exact (flg_upd_eq w_flags_obj (λ _, {| kf_flags := 0; reset_value := 0 |}) w_ready). }
  assert (Hsr : sreg_i (w_flags 0 w_ready) = true) by reflexivity.
  pose proof w_ready_inv as Hi. assert (Hc : current w_ready = t1) by reflexivity. revert Hf Hsr Hi Hc.
  cbv zeta. generalize w_ready. intros k Hf Hsr Hi Hc.
  pose proof (k_flags_poll_spec w_F w_flags_obj (Ptr 30 0) K_FLAGS_CONSUME 9 (w_flags 0 k) w_T t1 [t3; t2] []
    w_Q [] 6) as Hs.
  rewrite Hf, Hsr in Hs. cbv zeta in Hs. cbn [kf_flags] in Hs. rewrite Z.land_0_l in Hs. cbn [negb Z.eqb] in Hs.
  destruct Hs as (k'&Hsus&_&Hc'&_&Hsw&_).
  - by eapply Inv_objs.
  - done.
  - by left.
  - done.
  - done.
  - apply w_Q_heads. vm_compute. set_solver.
  - by intros t ?%not_elem_of_nil.
  - unfold w_flags, set_byte. simpl. by rewrite rdb_insert, decide_True.
  - lia.
  - done.
  - lia.
  - exists k'. split_and!; [exact Hsus|done|by rewrite Hsw].
Defined.
