(* ===== verification/Poll.v ===== *)
(** * Polling several objects (poll.c)

    [k_poll] links one wait node of its own per object that is not ready,
    waits on no queue of its own, and unlinks the nodes that are still linked
    when it is woken up. *)

From S2P Require Import Prelude Dlist Delta Tqueue Slist Types Event Timer Kernel KernelInv KernelSpec World Semaphore Mutex Fifo Msgq MemSlab Sched.

Section Poll.
Context `{Layout, Config, Handlers}.
Variable F : mem.

Definition K_POLL_TYPE_SEM : Z := 1.
Definition K_POLL_TYPE_MUTEX : Z := 2.
Definition K_POLL_TYPE_MSGQ_PUT : Z := 3.
Definition K_POLL_TYPE_MSGQ_GET : Z := 4.
Definition K_POLL_TYPE_FIFO : Z := 5.
Definition K_POLL_TYPE_MEM_SLAB : Z := 6.
Definition Z_WQ_FLAG_POLLIN : Z := 1.
Definition Z_WQ_FLAG_POLLOUT : Z := 2.

(** [sizeof(struct k_pollfd)]. *)
Definition sizeof_pollfd : Z := 12.

Definition with_pfd_thread (t : word) (p : k_pollfd) : k_pollfd :=
  {| revents := revents p; pfd_type := pfd_type p; pfd_obj := pfd_obj p; pfd_thread := t |}.
Definition set_wqflag (h : word) (v : Z) (k : kstate) : kstate := set_wqflags (<[h := v]> (wqflags k)) k.

(** The [switch] on the type: [None] is an unknown type, [Some None] an object
    that is ready, [Some (Some (q, fl))] the wait queue and the handle flags. *)
Definition poll_queue (k : kstate) (x : k_pollfd) : option (option (word * Z)) :=
  let o := pfd_obj x in
  let t := pfd_type x in
  if t =? K_POLL_TYPE_SEM then
    Some (if count (sem k o) =? 0 then Some (sem_waitqueue o, Z_WQ_FLAG_POLLIN) else None)
  else if t =? K_POLL_TYPE_MUTEX then
    Some (if negb (lock (mutex k o) =? Z_MUTEX_UNLOCKED_VALUE)
          then Some (mutex_waitqueue o, Z_WQ_FLAG_POLLIN) else None)
  else if t =? K_POLL_TYPE_FIFO then
    Some (if decide (slist_peek_head (links k) (fifo_queue o) = NULL)
          then Some (fifo_waitqueue o, Z_WQ_FLAG_POLLIN) else None)
  else if t =? K_POLL_TYPE_MSGQ_GET then
    Some (if used_msgs (msgq k o) =? 0 then Some (msgq_waitqueue o, Z_WQ_FLAG_POLLIN) else None)
  else if t =? K_POLL_TYPE_MSGQ_PUT then
    Some (if used_msgs (msgq k o) =? max_msgs (msgq k o)
          then Some (msgq_waitqueue o, Z_WQ_FLAG_POLLOUT) else None)
  else if t =? K_POLL_TYPE_MEM_SLAB then
    Some (if decide (sa_free_list (slab k (mem_slab_allocator o)) = NULL)
          then Some (mem_slab_waitqueue o, Z_WQ_FLAG_POLLIN) else None)
  else None.

(** The first [for] loop, from the descriptor [p] on. *)
Fixpoint k_poll_setup (n : nat) (p : word) (r : Z) : M Z :=
  match n with
  | O => ret r
  | S n =>
      let* k := get in
      match poll_queue k (pfd k p) with
      | None =>
          modify (λ k, upd_pfd p (with_revents (Z.lor (revents (pfd k p)) K_POLL_ERR)) k);;
          k_poll_setup n (ptr_add p sizeof_pollfd) (- EINVAL)
      | Some w =>
          (match w with
           | Some (_, fl) => modify (set_wqflag (pollfd_wqhandle p) fl)
           | None => ret tt
           end);;
          let waitqueue := match w with Some (q, _) => q | None => NULL end in
          if nonnull waitqueue then
            modify (upd_pfd p (with_revents 0));;
            modify (upd_pfd p (with_pfd_thread (current k)));;
            modify (upd_links (λ m, dlist_append m waitqueue (pollfd_wqhandle p)));;
            k_poll_setup n (ptr_add p sizeof_pollfd) r
          else
            modify (λ k, upd_pfd p (with_revents (Z.lor (revents (pfd k p)) K_POLL_READY)) k);;
            k_poll_setup n (ptr_add p sizeof_pollfd) (s8 (r + 1))
      end
  end.

(** The second [for] loop. *)
Fixpoint k_poll_cleanup (n : nat) (p : word) : M unit :=
  match n with
  | O => ret tt
  | S n =>
      let* k := get in
      (when (revents (pfd k p) =? 0) && (1 <=? pfd_type (pfd k p)) && (pfd_type (pfd k p) <=? 6) do
         modify (upd_links (λ m, dlist_remove m (pollfd_wqhandle p))));;
      k_poll_cleanup n (ptr_add p sizeof_pollfd)
  end.

Definition k_poll (pfds : word) (nfds timeout : Z) : M Z :=
  if negb (z_user (nonnull pfds && (0 <? nfds))) then ret (- EINVAL)
  else
    let* key := irq_lock in
    let* r := k_poll_setup (Z.to_nat nfds) pfds 0 in
    let* r := if r =? 0 then z_pend_current_on NULL timeout else ret r in
    k_poll_cleanup (Z.to_nat nfds) pfds;;
    irq_unlock key;;
    ret r.

(** ** Sets of lists *)

Definition in_rings (R : gmap word (list word)) (p : word) : Prop :=
  ∃ l ns, R !! l = Some ns ∧ p ∈ l :: ns.

Record rings (m : mem) (R : gmap word (list word)) : Prop := {
  rg_ring l ns : R !! l = Some ns → ring m l ns;
  rg_disj l1 l2 ns1 ns2 p :
    R !! l1 = Some ns1 → R !! l2 = Some ns2 → p ∈ l1 :: ns1 → p ∈ l2 :: ns2 → l1 = l2;
}.

Lemma rings_append m R l ns n :
  rings m R → R !! l = Some ns → ¬ in_rings R n →
  rings (dlist_append m l n) (<[l := ns ++ [n]]> R) ∧
  agree_on (λ p, ¬ in_rings R p ∧ p ≠ n) m (dlist_append m l n).
Proof.
  intros [Hr Hd] Hl Hn.
  assert (Hfr : ∀ p, p ∉ n :: l :: ns → next (dlist_append m l n) p = next m p ∧ prev (dlist_append m l n) p = prev m p).
  { intros p Hp. by apply (dlist_append_frame _ _ ns); [apply Hr|]. }
  assert (Hn' : ∀ l' ns', R !! l' = Some ns' → n ∉ l' :: ns').
  { intros l' ns' Hl' Hin. apply Hn. by exists l', ns'. }
  split; [split|].
  - intros l' ns' [[<- <-]|[Hne Hl']]%lookup_insert_Some.
    + apply dlist_append_ring; [by apply Hr|by apply Hn'].
    + eapply ring_frame; [|by apply Hr]. intros p Hp. apply Hfr.
      intros [->|Hp']%elem_of_cons; [by eapply Hn'|]. apply Hne. by eapply Hd.
  - assert (Hx : ∀ l' ns' p, R !! l' = Some ns' → l' ≠ l → p ∈ l :: ns ++ [n] → p ∈ l' :: ns' → False).
    { intros l' ns' p Hl' Hne Hp Hp'. rewrite app_comm_cons in Hp. apply elem_of_app in Hp as [Hp|Hp].
      - apply Hne. by eapply Hd.
      - apply list_elem_of_singleton in Hp as ->. by eapply Hn'. }
    intros l1 l2 ns1 ns2 p [[<- <-]|[Hne1 H1']]%lookup_insert_Some
      [[<- <-]|[Hne2 H2']]%lookup_insert_Some Hp1 Hp2; [done| | |by eapply Hd];
      exfalso; by eapply Hx.
  - intros p [Hp Hpn]. apply Hfr. intros [->|Hin]%elem_of_cons; [done|]. apply Hp. by exists l, ns.
Qed.

Lemma rings_remove m R l ns1 n ns2 :
  rings m R → R !! l = Some (ns1 ++ n :: ns2) →
  rings (dlist_remove m n) (<[l := ns1 ++ ns2]> R) ∧
  agree_on (λ p, ¬ in_rings R p) m (dlist_remove m n).
Proof.
  intros [Hr Hd] Hl. pose proof (Hr _ _ Hl) as Hrl.
  assert (Hsub : ∀ p, p ∈ l :: ns1 ++ ns2 → p ∈ l :: ns1 ++ n :: ns2).
  { intros p. rewrite !elem_of_cons, !elem_of_app, elem_of_cons. tauto. }
  split; [split|].
  - intros l' ns' [[<- <-]|[Hne Hl']]%lookup_insert_Some.
    + by apply dlist_remove_ring.
    + eapply ring_frame; [|by apply Hr]. intros p Hp. eapply dlist_remove_frame; [done|].
      intros Hp'%Hsub. apply Hne. by eapply Hd.
  - intros l1 l2 nsa nsb p [[<- <-]|[Hne1 H1']]%lookup_insert_Some
      [[<- <-]|[Hne2 H2']]%lookup_insert_Some Hp1 Hp2; [done| | |by eapply Hd];
      [apply Hsub in Hp1|apply Hsub in Hp2]; by eapply Hd.
  - intros p Hp. eapply dlist_remove_frame; [done|]. intros Hp'%Hsub. apply Hp. by exists l, (ns1 ++ n :: ns2).
Qed.

Lemma linked_unique m m' x ys : linked m x ys → linked m' x ys →
  ∀ i p, ys !! i = Some p → prev m' p = prev m p ∧ next m' (nth i (x :: ys) p) = next m (nth i (x :: ys) p).
Proof.
  revert x. induction ys as [|y ys IH]; intros x; [done|]. simpl.
  intros (E1&E2&Hl) (E3&E4&Hl') [|i] p Hp; simpl in Hp.
  - injection Hp as <-. by rewrite E1, E2, E3, E4.
  - apply (IH y); done.
Qed.

(** Two memories with the same list agree on its nodes. *)
Lemma ring_agree m m' l ns : ring m l ns → ring m' l ns → agree_on (λ p, p ∈ l :: ns) m m'.
Proof.
  intros [_ Hc] [_ Hc'] p Hp.
  assert (Hn : next m' p = next m p).
  { apply list_elem_of_lookup in Hp as [i Hi].
    destruct (lookup_lt_is_Some_2 (ns ++ [l]) i) as [q Hq].
    { apply lookup_lt_Some in Hi. rewrite length_app. simpl in *. lia. }
    destruct (linked_unique _ _ _ _ Hc Hc' i q Hq) as [_ E].
    assert (nth i (l :: ns ++ [l]) q = p) as <-; [|done].
    apply nth_lookup_Some. rewrite app_comm_cons, lookup_app_l; [done|].
    by apply lookup_lt_Some in Hi. }
  split; [done|].
  assert (Hp' : p ∈ ns ++ [l]) by set_solver.
  apply list_elem_of_lookup in Hp' as [i Hi].
  by destruct (linked_unique _ _ _ _ Hc Hc' i p Hi).
Qed.

(** The lists [R] after the nodes [adds], each a pair of a list and a node,
    have been appended. *)
Definition added (l : word) (adds : list (word * word)) : list word := (filter (λ a, a.1 = l) adds).*2.
Definition with_added (R : gmap word (list word)) (adds : list (word * word)) : gmap word (list word) :=
  map_imap (λ l ns, Some (ns ++ added l adds)) R.

Lemma with_added_lookup R adds l ns :
  with_added R adds !! l = Some ns ↔ ∃ ns0, R !! l = Some ns0 ∧ ns = ns0 ++ added l adds.
Proof.
  unfold with_added. rewrite map_lookup_imap. destruct (R !! l) as [ns0|]; simpl; [|naive_solver].
  split; [intros [= <-]; eauto|by intros (?&[= <-]&->)].
Qed.

Lemma with_added_nil R : with_added R [] = R.
Proof.
  apply map_eq. intros l. unfold with_added. rewrite map_lookup_imap. destruct (R !! l); simpl; [|done].
  by rewrite app_nil_r.
Qed.

Lemma with_added_snoc R adds l n ns :
  R !! l = Some ns →
  <[l := (ns ++ added l adds) ++ [n]]> (with_added R adds) = with_added R (adds ++ [(l, n)]).
Proof.
  intros Hl. apply map_eq. intros l'. unfold with_added. rewrite lookup_insert. rewrite !map_lookup_imap.
  unfold added. rewrite filter_app. case_decide as E.
  - subst l'. rewrite Hl. simpl. rewrite fmap_app, filter_cons_True by done. simpl. by rewrite app_assoc.
  - destruct (R !! l') as [ns'|]; simpl; [|done]. rewrite filter_cons_False by done. by rewrite filter_nil, app_nil_r.
Qed.

Lemma with_added_cons R adds l n ns :
  R !! l = Some ns →
  with_added R ((l, n) :: adds) !! l = Some (ns ++ n :: added l adds) ∧
  <[l := ns ++ added l adds]> (with_added R ((l, n) :: adds)) = with_added R adds.
Proof.
  intros Hl. split.
  - apply with_added_lookup. exists ns. split; [done|]. unfold added. by rewrite filter_cons_True.
  - apply map_eq. intros l'. unfold with_added. rewrite lookup_insert. rewrite !map_lookup_imap.
    case_decide as E; [subst l'; by rewrite Hl|].
    destruct (R !! l') as [ns'|]; simpl; [|done]. unfold added. by rewrite filter_cons_False.
Qed.

Lemma in_with_added R adds p :
  in_rings (with_added R adds) p → in_rings R p ∨ p ∈ adds.*2.
Proof.
  intros (l&ns&(ns0&Hl&->)%with_added_lookup&Hp). rewrite app_comm_cons in Hp.
  apply elem_of_app in Hp as [Hp|Hp]; [left; by exists l, ns0|right].
  apply list_elem_of_fmap in Hp as (a&->&[_ Ha]%list_elem_of_filter).
  apply list_elem_of_fmap. by exists a.
Qed.

(** ** The two loops *)

Fixpoint pfds_from (p : word) (n : nat) : list word :=
  match n with O => [] | S n => p :: pfds_from (ptr_add p sizeof_pollfd) n end.

(** What the kernel holds besides links, handle flags and descriptors. *)
Definition poll_rest (k : kstate) :=
  (threads k, current k, ready_count k, run_queue k, sreg_i k, sems k, mutexes k, signals k, kflags k,
   msgqs k, slabs k, events k, timers k, workqueues k, works k, bytes k).

Definition poll_adds (k : kstate) (ps : list word) : list (word * word) :=
  omap (λ p, match poll_queue k (pfd k p) with
             | Some (Some (q, _)) => Some (q, pollfd_wqhandle p) | _ => None end) ps.
Definition is_ready (k : kstate) (p : word) : bool :=
  match poll_queue k (pfd k p) with Some None => true | _ => false end.
Definition ready_revents (k : kstate) (p : word) : Z :=
  if is_ready k p then Z.lor (revents (pfd k p)) K_POLL_READY else 0.
Definition num_ready (k : kstate) (ps : list word) : nat := length (filter (λ p, is_ready k p = true) ps).

(** A descriptor of a known type, whose object has a wait queue among [R] if it
    is not ready, and, for a fifo, is no list of [R] and no wait node. *)
Record pollable (k : kstate) (R : gmap word (list word)) (nodes : list word) (p : word) : Prop := {
  pl_queue : match poll_queue k (pfd k p) with
             | Some (Some (q, _)) => q ≠ NULL ∧ is_Some (R !! q) | Some None => True | None => False end;
  pl_fifo : pfd_type (pfd k p) = K_POLL_TYPE_FIFO →
            ¬ in_rings R (fifo_queue (pfd_obj (pfd k p))) ∧ fifo_queue (pfd_obj (pfd k p)) ∉ nodes;
}.

(** The state [k] reached from [kb] while the nodes [adds] are linked. *)
Record polled (kb k : kstate) (R : gmap word (list word)) (nodes : list word) (adds : list (word * word)) : Prop := {
  pd_rings : rings (links k) (with_added R adds);
  pd_frame : agree_on (λ q, ¬ in_rings R q ∧ q ∉ nodes) (links kb) (links k);
  pd_rest : poll_rest k = poll_rest kb;
  pd_wqflags h : h ∉ nodes → wqflag k h = wqflag kb h;
  pd_adds x : x ∈ adds.*2 → x ∈ nodes;
}.

Lemma polled_queue kb k R nodes adds p :
  polled kb k R nodes adds → pollable kb R nodes p → pfd k p = pfd kb p →
  poll_queue k (pfd k p) = poll_queue kb (pfd kb p).
Proof.
  intros [_ Hf Hr _ _] [_ Hfi] ->. unfold poll_queue, sem, mutex, msgq, slab.
  unfold poll_rest in Hr. injection Hr as ????? E1 E2 ?? E3 E4 ?????.
  rewrite E1, E2, E3, E4.
  destruct (pfd_type (pfd kb p) =? K_POLL_TYPE_SEM); [done|].
  destruct (pfd_type (pfd kb p) =? K_POLL_TYPE_MUTEX); [done|].
  destruct (Z.eqb_spec (pfd_type (pfd kb p)) K_POLL_TYPE_FIFO) as [Et|_]; [|done].
  unfold slist_peek_head. destruct (Hf (fifo_queue (pfd_obj (pfd kb p))) (Hfi Et)) as [-> _]. done.
Qed.

Lemma pfd_upd_eq p f k : pfd (upd_pfd p f k) p = f (pfd k p).
Proof. unfold pfd at 1, upd_pfd. simpl. by rewrite lookup_total_insert_eq. Qed.
Lemma pfd_upd_ne p f k q : p ≠ q → pfd (upd_pfd p f k) q = pfd k q.
Proof. intros. unfold pfd at 1, upd_pfd. simpl. by rewrite lookup_total_insert_ne. Qed.

(** Linking the node of one descriptor. *)
Lemma polled_append kb k R nodes adds p q fl :
  polled kb k R nodes adds → is_Some (R !! q) → pollfd_wqhandle p ∈ nodes →
  ¬ in_rings R (pollfd_wqhandle p) → pollfd_wqhandle p ∉ adds.*2 →
  let k' := upd_links (λ m, dlist_append m q (pollfd_wqhandle p))
    (upd_pfd p (with_pfd_thread (current k)) (upd_pfd p (with_revents 0)
      (set_wqflag (pollfd_wqhandle p) fl k))) in
  polled kb k' R nodes (adds ++ [(q, pollfd_wqhandle p)]).
Proof.
  intros [Hr Hf Hs Hw Had] [ns Hq] Hn Hin Hna k'.
  assert (Hq' : with_added R adds !! q = Some (ns ++ added q adds)) by (apply with_added_lookup; eauto).
  destruct (rings_append _ _ _ _ (pollfd_wqhandle p) Hr Hq') as [Hr' Ha].
  { intros [?|?]%in_with_added; contradiction. }
  split.
  - rewrite <- (with_added_snoc _ _ _ _ ns Hq). exact Hr'.
  - eapply agree_on_trans; [exact Hf|]. eapply agree_on_impl; [exact Ha|]. cbv beta.
    intros x [Hx1 Hx2]. split; [|by intros ->].
    intros [?|Hx%Had]%in_with_added; contradiction.
  - exact Hs.
  - intros h Hh. unfold wqflag. simpl. rewrite lookup_total_insert_ne by (intros <-; contradiction). by apply Hw.
  - intros x. rewrite fmap_app. simpl. intros [Hx|Hx%list_elem_of_singleton]%elem_of_app; [by apply Had|by subst].
Qed.

Lemma pollfd_ne p n q : q ∈ pfds_from (ptr_add p sizeof_pollfd) n → p ≠ q.
Proof.
  assert (Hg : ∀ n p q, q ∈ pfds_from p n → ∃ i : nat, q = ptr_add p (sizeof_pollfd * Z.of_nat i)).
  { clear. induction n as [|n IH]; intros p q; simpl; [by intros ?%not_elem_of_nil|].
    intros [->|Hq]%elem_of_cons; [exists O; by rewrite ptr_add_0|].
    destruct (IH _ _ Hq) as [i ->]. exists (S i). rewrite ptr_add_assoc. f_equal. unfold sizeof_pollfd. lia. }
  intros [i ->]%Hg E. rewrite ptr_add_assoc in E. rewrite <- (ptr_add_0 p) in E at 1.
  destruct p; injection E; unfold sizeof_pollfd; lia.
Qed.

Lemma k_poll_setup_spec kb R nodes n : ∀ p r k adds,
  polled kb k R nodes adds →
  (∀ q, q ∈ pfds_from p n → pollable kb R nodes q ∧ pfd k q = pfd kb q ∧
     pollfd_wqhandle q ∈ nodes ∧ ¬ in_rings R (pollfd_wqhandle q) ∧ pollfd_wqhandle q ∉ adds.*2) →
  0 <= r → r + Z.of_nat n < 128 →
  ∃ k', k_poll_setup n p r k = Done (r + Z.of_nat (num_ready kb (pfds_from p n))) k' ∧
    polled kb k' R nodes (adds ++ poll_adds kb (pfds_from p n)) ∧
    (∀ q, q ∈ pfds_from p n → revents (pfd k' q) = ready_revents kb q ∧ pfd_type (pfd k' q) = pfd_type (pfd kb q)) ∧
    (∀ q, q ∉ pfds_from p n → pfd k' q = pfd k q).
Proof.
  induction n as [|n IH]; intros p r k adds Hp Hq Hr0 Hr; cbn [k_poll_setup pfds_from].
  { exists k. rewrite Z.add_0_r. split_and!; [done|by rewrite app_nil_r| |done]. by intros q ?%not_elem_of_nil. }
  destruct (Hq p) as (Hpl&Ep&Hn&Hin&Hna); [by left|].
  rewrite bind_get. cbv zeta. rewrite (polled_queue _ _ _ _ _ _ Hp Hpl Ep).
  assert (Hrest : ∀ k1 adds1, polled kb k1 R nodes adds1 →
    (∀ x, x ∈ adds1.*2 → x ∈ adds.*2 ∨ x = pollfd_wqhandle p) →
    (∀ q, p ≠ q → pfd k1 q = pfd k q) →
    ∀ q, q ∈ pfds_from (ptr_add p sizeof_pollfd) n → pollable kb R nodes q ∧ pfd k1 q = pfd kb q ∧
     pollfd_wqhandle q ∈ nodes ∧ ¬ in_rings R (pollfd_wqhandle q) ∧ pollfd_wqhandle q ∉ adds1.*2).
  { intros k1 adds1 Hp1 Ha1 Ho1 q Hq1. destruct (Hq q) as (?&Eq&?&?&?); [by right|].
    pose proof (pollfd_ne _ _ _ Hq1) as Hne. split_and!; try done.
    - by rewrite Ho1.
    - intros [?|Hx]%Ha1; [done|]. apply Hne. by apply ptr_add_inj in Hx. }
  assert (Hnp : p ∉ pfds_from (ptr_add p sizeof_pollfd) n) by by intros Hx%pollfd_ne.
  pose proof (pl_queue _ _ _ _ Hpl) as Hpq.
  destruct (poll_queue kb (pfd kb p)) as [[[q fl]|]|] eqn:Epq; [| |done].
  - (* not ready: the node is linked *)
    destruct Hpq as [Hqn Hqs]. rewrite bind_modify. rewrite (nonnull_true q) by done.
    rewrite !bind_modify. set (k1 := upd_links _ _).
    pose proof (polled_append kb k R nodes adds p q fl Hp Hqs Hn Hin Hna) as Hp1.
    cbv zeta in Hp1. change (polled kb k1 R nodes (adds ++ [(q, pollfd_wqhandle p)])) in Hp1.
    assert (Ho1 : ∀ x, p ≠ x → pfd k1 x = pfd k x).
    { intros x Hx. change (pfd k1 x) with (pfd (upd_pfd p (with_pfd_thread (current k))
        (upd_pfd p (with_revents 0) (set_wqflag (pollfd_wqhandle p) fl k))) x).
      by rewrite !pfd_upd_ne. }
    assert (He1 : revents (pfd k1 p) = 0 ∧ pfd_type (pfd k1 p) = pfd_type (pfd kb p)).
    { change (pfd k1 p) with (pfd (upd_pfd p (with_pfd_thread (current k))
        (upd_pfd p (with_revents 0) (set_wqflag (pollfd_wqhandle p) fl k))) p).
      rewrite !pfd_upd_eq. simpl. split; [done|]. by rewrite <- Ep. }
    destruct (IH (ptr_add p sizeof_pollfd) r k1 (adds ++ [(q, pollfd_wqhandle p)])) as (k'&E&Hp'&Hrev&Ho);
      [done| |done|lia|].
    { apply Hrest; [done| |done]. intros x. rewrite fmap_app. simpl.
      intros [?|?%list_elem_of_singleton]%elem_of_app; auto. }
    exists k'. split_and!.
    + rewrite E. unfold num_ready. rewrite filter_cons_False; [done|].
      unfold is_ready. by rewrite Epq.
    + rewrite <- app_assoc in Hp'. unfold poll_adds. cbn [omap list_omap]. rewrite Epq. exact Hp'.
    + intros x [->|Hx]%elem_of_cons; [|by apply Hrev]. rewrite Ho by done.
      destruct He1 as [-> ->]. unfold ready_revents, is_ready. by rewrite Epq.
    + intros x [Hx1 Hx2]%not_elem_of_cons. rewrite Ho by done. by apply Ho1, not_eq_sym.
  - (* ready *)
    rewrite bind_ret. change (nonnull NULL) with false. cbv iota. rewrite bind_modify.
    set (k1 := upd_pfd p _ k). rewrite s8_small by lia.
    assert (Hp1 : polled kb k1 R nodes adds) by by destruct Hp.
    destruct (IH (ptr_add p sizeof_pollfd) (r + 1) k1 adds) as (k'&E&Hp'&Hrev&Ho); [done| |lia|lia|].
    { apply Hrest; [done|auto|]. intros x Hx. by apply pfd_upd_ne. }
    exists k'. split_and!.
    + rewrite E. unfold num_ready. rewrite filter_cons_True by (unfold is_ready; by rewrite Epq).
      f_equal. simpl. lia.
    + unfold poll_adds. cbn [omap list_omap]. rewrite Epq. exact Hp'.
    + intros x [->|Hx]%elem_of_cons; [|by apply Hrev]. rewrite Ho by done. unfold k1.
      rewrite pfd_upd_eq. unfold ready_revents, is_ready. rewrite Epq, Ep. done.
    + intros x [Hx1 Hx2]%not_elem_of_cons. rewrite Ho by done. by apply pfd_upd_ne, not_eq_sym.
Qed.

Lemma poll_queue_type k x w : poll_queue k x = Some w → 1 <= pfd_type x <= 6.
Proof.
  unfold poll_queue, K_POLL_TYPE_SEM, K_POLL_TYPE_MUTEX, K_POLL_TYPE_FIFO, K_POLL_TYPE_MSGQ_GET,
    K_POLL_TYPE_MSGQ_PUT, K_POLL_TYPE_MEM_SLAB.
  repeat match goal with |- (if pfd_type x =? ?n then _ else _) = _ → _ =>
    destruct (Z.eqb_spec (pfd_type x) n) as [E|_]; [intros _; lia|] end.
  done.
Qed.

Lemma k_poll_cleanup_spec kb R nodes n : ∀ p k,
  polled kb k R nodes (poll_adds kb (pfds_from p n)) →
  (∀ q, q ∈ pfds_from p n → pollable kb R nodes q ∧
     revents (pfd k q) = ready_revents kb q ∧ pfd_type (pfd k q) = pfd_type (pfd kb q)) →
  ∃ m', k_poll_cleanup n p k = Done tt (set_links m' k) ∧ polled kb (set_links m' k) R nodes [].
Proof.
  induction n as [|n IH]; intros p k Hp Hq; cbn [k_poll_cleanup pfds_from] in *.
  { exists (links k). assert (set_links (links k) k = k) as -> by by destruct k. done. }
  destruct (Hq p) as (Hpl&Er&Et); [by left|]. rewrite bind_get, Er, Et.
  assert (Hrest : ∀ m, ∀ q, q ∈ pfds_from (ptr_add p sizeof_pollfd) n → pollable kb R nodes q ∧
     revents (pfd (set_links m k) q) = ready_revents kb q ∧
     pfd_type (pfd (set_links m k) q) = pfd_type (pfd kb q)).
  { intros m q Hx. apply Hq. by right. }
  pose proof (pl_queue _ _ _ _ Hpl) as Hpq. unfold ready_revents, is_ready.
  unfold poll_adds in Hp. cbn [omap list_omap] in Hp.
  destruct (poll_queue kb (pfd kb p)) as [[[q fl]|]|] eqn:Epq; [| |done].
  - destruct (poll_queue_type _ _ _ Epq) as [H1' H6'].
    rewrite (proj2 (Z.leb_le _ _) H1'), (proj2 (Z.leb_le _ _) H6'). cbn [andb Z.eqb].
    rewrite bind_modify. destruct Hpq as [_ [ns Hns]].
    destruct (with_added_cons R (poll_adds kb (pfds_from (ptr_add p sizeof_pollfd) n)) q (pollfd_wqhandle p) ns Hns) as [Hl Heq].
    destruct Hp as [Hr Hf Hs Hw Had].
    destruct (rings_remove _ _ _ _ _ _ Hr Hl) as [Hr' Ha].
    set (m1 := dlist_remove (links k) (pollfd_wqhandle p)) in *.
    destruct (IH (ptr_add p sizeof_pollfd) (set_links m1 k)) as (m'&E&Hp').
    { split; [|  |done|done|].
      - rewrite <- Heq. exact Hr'.
      - eapply agree_on_trans; [exact Hf|]. eapply agree_on_impl; [exact Ha|]. cbv beta.
        intros x [Hx1 Hx2] [?|Hx]%in_with_added; [done|]. by apply Hx2, Had.
      - intros x Hx. apply Had. rewrite fmap_cons. by right. }
    { apply Hrest. }
    exists m'. done.
  - assert ((Z.lor (revents (pfd kb p)) K_POLL_READY =? 0) = false) as ->.
    { apply Z.eqb_neq. intros [_ E]%Z.lor_eq_0_iff. done. }
    cbn [andb]. rewrite bind_ret. apply (IH (ptr_add p sizeof_pollfd) k); [exact Hp|].
    intros x Hx. apply Hq. by right.
Qed.

(** The wait queues of the kernel as a set of lists. *)
Definition wq_rings (Q : gmap word (list word)) : gmap word (list word) := (λ ws : list word, thread_wqh <$> ws) <$> Q.

Lemma wq_rings_ok T m rq rs ts Q : links_ok F T m rq rs ts Q → rings m (wq_rings Q).
Proof.
  intros Hl. split.
  - intros l ns. unfold wq_rings. rewrite lookup_fmap. destruct (Q !! l) as [ws|] eqn:E; [|done].
    intros [= <-]. by eapply lk_wq.
  - intros l1 l2 ns1 ns2 p. unfold wq_rings. rewrite !lookup_fmap.
    destruct (Q !! l1) as [ws1|] eqn:E1; [|done]. destruct (Q !! l2) as [ws2|] eqn:E2; [|done].
    intros [= <-] [= <-] Hp1 Hp2. destruct (decide (l1 = l2)) as [|Hne]; [done|].
    by destruct (wq_nodes_disjoint _ _ _ _ _ _ _ _ _ _ _ p Hl E1 E2 Hne Hp1).
Qed.

Lemma foreign_not_in_rings T Q p :
  (∀ l ws t, Q !! l = Some ws → t ∈ ws → t ∈ T) → foreign T (dom Q) p → ¬ in_rings (wq_rings Q) p.
Proof.
  intros HT (Hd&_&_&Hf) (l&ns&Hl&Hp). unfold wq_rings in Hl. rewrite lookup_fmap in Hl.
  destruct (Q !! l) as [ws|] eqn:E; [|done]. injection Hl as <-.
  apply elem_of_cons in Hp as [->|(t&->&Ht)%list_elem_of_fmap].
  - apply Hd. by eapply elem_of_dom_2.
  - by destruct (Hf t (HT _ _ _ E Ht)) as [_ ?].
Qed.

(** Once every node is unlinked the memory is as before but for the nodes. *)
Lemma polled_agree kb k R nodes :
  polled kb k R nodes [] → rings (links kb) R → agree_on (λ q, q ∉ nodes) (links kb) (links k).
Proof.
  intros [Hr Hf _ _ _] Hb q Hq. rewrite with_added_nil in Hr.
  destruct (decide (map_Forall (λ l ns, q ∉ l :: ns) R)) as [Hn|Hn].
  - apply Hf. split; [|done]. intros (l&ns&Hl&Hin). by apply (Hn l ns).
  - apply map_not_Forall in Hn as (l&ns&Hl&Hin); [|apply _].
    eapply ring_agree; [by eapply rg_ring|by eapply rg_ring|]. by apply dec_stable.
Qed.

Lemma Inv_polled k k1 m' b (nodes : list word) T rs ts Q :
  Inv F k T rs ts Q → agree_on (λ q, q ∉ nodes) (links k) m' →
  poll_rest (set_links m' k1) = poll_rest (set_sreg_i false k) →
  (∀ h, h ∉ nodes → wqflag (set_links m' k1) h = wqflag (set_sreg_i false k) h) →
  (∀ p, p ∈ nodes → foreign T (dom Q) p) →
  Inv m' (set_sreg_i b (set_links m' k1)) T rs ts Q.
Proof.
  intros Hi Ha Hs Hw Hf.
  assert (Hi' : Inv m' (set_links m' k) T rs ts Q).
  { eapply Inv_foreign; [done|]. eapply agree_on_impl; [exact Ha|]. cbv beta.
    intros q Hq Hin. by apply Hq, Hf. }
  unfold poll_rest in Hs. simpl in Hs. injection Hs as E1 E2 E3 E4 _ _ _ _ _ _ _ _ _ _ _ _.
  destruct Hi' as [Hl Hc Hfl Hwf Hid Hs1 Hs2]. split; simpl in *; try done.
  - by rewrite E4.
  - by rewrite E3.
  - intros t Ht Hx. specialize (Hfl t Ht Hx). unfold thread_ok, thr in *. simpl in *. by rewrite E1.
  - intros t Ht. rewrite <- (Hwf t Ht). apply (Hw (thread_wqh t)). intros Hin%Hf.
    destruct Hin as (_&_&_&Hin). by destruct (Hin t Ht).
  - unfold z_get_thread_state, thr in *. simpl in *. by rewrite E1.
Qed.

(** A poll that need not wait, because an object is ready or because it is
    told not to, returns the number of ready objects, or [-EAGAIN] when there
    is none; the descriptors of the ready ones say so, the others say nothing,
    and every wait queue is as it was: only the descriptors' own nodes differ. *)
Theorem k_poll_no_wait_spec pfds n timeout k T rs ts Q :
  let ps := pfds_from pfds n in
  let nodes := pollfd_wqhandle <$> ps in
  Inv F k T rs ts Q → pfds ≠ NULL → (0 < n < 128)%nat →
  (∀ p, p ∈ ps → foreign T (dom Q) (pollfd_wqhandle p) ∧ pollable k (wq_rings Q) nodes p) →
  (0 < num_ready k ps)%nat ∨ timeout = K_NO_WAIT →
  ∃ k', k_poll pfds (Z.of_nat n) timeout k
      = Done (if decide (num_ready k ps = 0%nat) then - EAGAIN else Z.of_nat (num_ready k ps)) k' ∧
    Inv (links k') k' T rs ts Q ∧
    agree_on (λ q, q ∉ nodes) (links k) (links k') ∧ poll_rest k' = poll_rest k ∧
    ∀ p, p ∈ ps → revents (pfd k' p) = ready_revents k p.
Proof.
  intros ps nodes Hi Hnn Hn Hps Hgo. unfold k_poll.
  rewrite z_user_true by (rewrite nonnull_true by done; simpl; apply Z.ltb_lt; lia).
  rewrite bind_irq_lock, Nat2Z.id. set (k0 := set_sreg_i false k).
  pose proof (inv_links _ _ _ _ _ _ _ Hi) as Hl. pose proof (wq_rings_ok _ _ _ _ _ _ Hl) as Hrg.
  assert (Hfr : ∀ p, p ∈ ps → ¬ in_rings (wq_rings Q) (pollfd_wqhandle p)).
  { intros p Hp. eapply foreign_not_in_rings; [|by apply Hps]. intros. by eapply lk_ws_T. }
  assert (Hp0 : polled k0 k0 (wq_rings Q) nodes []).
  { split; try done; [by rewrite with_added_nil|by intros x ?%not_elem_of_nil]. }
  assert (Hpl : ∀ p, p ∈ ps → pollable k0 (wq_rings Q) nodes p) by (intros p Hp; by destruct (Hps p Hp) as [_ []]).
  destruct (k_poll_setup_spec k0 (wq_rings Q) nodes n pfds 0 k0 []) as (k1&E1&Hp1&Hrev1&_); [done| |lia|lia|].
  { intros q Hq. split_and!; [by apply Hpl|done| |by apply Hfr|apply not_elem_of_nil].
    apply list_elem_of_fmap. by exists q. }
  rewrite (bind_done _ _ _ _ _ E1), Z.add_0_l. fold ps. change (num_ready k0 ps) with (num_ready k ps).
  destruct (k_poll_cleanup_spec k0 (wq_rings Q) nodes n pfds k1) as (m'&E2&Hp2); [done| |].
  { intros q Hq. split; [by apply Hpl|by apply Hrev1]. }
  pose proof (polled_agree _ _ _ _ Hp2 Hrg) as Ha. destruct Hp2 as [_ _ Hs2 Hw2 _].
  exists (set_sreg_i (sreg_i k) (set_links m' k1)). split_and!.
  - assert (Hr : ∀ r : Z, (if r =? 0 then z_pend_current_on NULL timeout else ret r) k1
        = Done (if r =? 0 then - EAGAIN else r) k1 ∨ (r = 0 ∧ timeout ≠ K_NO_WAIT)).
    { intros r. destruct (Z.eqb_spec r 0); [|by left]. destruct (decide (timeout = K_NO_WAIT)) as [->|]; auto. }
    destruct (Hr (Z.of_nat (num_ready k ps))) as [E|[? ?]]; [|destruct Hgo; [lia|done]].
    rewrite (bind_done _ _ _ _ _ E), (bind_done _ _ _ _ _ E2). mred.
    destruct (decide _) as [->|]; [done|]. by rewrite (proj2 (Z.eqb_neq _ _)) by lia.
  - eapply Inv_polled; [done|exact Ha|exact Hs2|exact Hw2|].
    intros p (q&->&Hq)%list_elem_of_fmap. by apply Hps.
  - exact Ha.
  - unfold poll_rest in *. simpl in *. unfold k0 in Hs2. simpl in Hs2. congruence.
  - intros p Hp. destruct (Hrev1 p Hp) as [E _]. exact E.
Qed.
End Poll.

(** ** Two objects that become ready before the poller runs

    [t1] polls two semaphores and waits; [t2] gives a unit to each of them and
    yields. *)
Definition w_sem2 : word := Ptr 50 0.
Definition w_pfds : word := Ptr 40 0.
Definition w_pfd (t : Z) (o : word) : k_pollfd :=
  {| revents := 0; pfd_type := t; pfd_obj := o; pfd_thread := NULL |}.
Definition w_polling : kstate :=
  let step {A} (k : kstate) (m : M A) := after k (m k) in
  let k := step w_ready (k_sem_init (w_obj 2) 0 3) in
  let k := step k (k_sem_init w_sem2 0 3) in
  set_pollfds {[ w_pfds := w_pfd 1 (w_obj 2); ptr_add w_pfds 12 := w_pfd 1 w_sem2 ]} k.
Definition w_poll_given : kstate :=
  let step {A} (k : kstate) (m : M A) := after k (m k) in
  let k := step w_polling (k_poll w_pfds 2 K_FOREVER) in
  let k := step k (k_sem_give (w_obj 2)) in
  step k (k_sem_give w_sem2).
Definition resumed {A} (r : res A) (k : kstate) : res A := match r with Susp _ c => c k | r => r end.

(** The second object wakes up the poller again although it is ready
    already: its node is linked into the run queue a second time, which cuts
    the other ready threads off and counts four ready threads of three; from
    then on the poller is the only thread the scheduler ever picks.  The poll
    itself returns 0 and not the number of ready objects. *)
Theorem k_poll_double_wake :
  let k := w_poll_given in
  let k1 := after k (k_yield k) in
  current k = t2 ∧ ready_count k = 4 ∧ next (links k) (thread_tie t1) = thread_tie t1 ∧
  current k1 = t1 ∧ z_get_thread_state k1 t2 = Z_THREAD_STATE_READY ∧
  z_get_thread_state k1 t3 = Z_THREAD_STATE_READY ∧
  current (z_scheduler k1).2 = t1 ∧
  match resumed (k_poll w_pfds 2 K_FOREVER w_polling) k1 with
  | Done r k2 => r = 0 ∧ current (z_scheduler k2).2 = t1
  | _ => False
  end.
Proof. vm_compute. by split_and!. Qed.

(** ** Instances *)

(** A poll of a semaphore with a unit and of a locked mutex. *)
Definition w_poll (k : kstate) : kstate :=
  set_pollfds {[ w_pfds := w_pfd 1 (w_obj 2); ptr_add w_pfds 12 := w_pfd 2 (w_obj 1) ]}
    (w_sem 1 (w_mutex 1 t2 k)).

Lemma k_poll_no_wait_witness :
  ∃ k', k_poll w_pfds 2 K_FOREVER (w_poll w_ready) = Done 1 k' ∧
    revents (pfd k' w_pfds) = K_POLL_READY ∧ revents (pfd k' (ptr_add w_pfds 12)) = 0.
Proof.
  assert (Hi : Inv w_F (w_poll w_ready) w_T [t1; t3; t2] [] w_Q).
  { pose proof w_ready_inv as Hi. revert Hi. generalize w_ready. intros k Hi. by eapply Inv_objs. }
  assert (Hq : poll_queue (w_poll w_ready) (pfd (w_poll w_ready) w_pfds) = Some None ∧
    poll_queue (w_poll w_ready) (pfd (w_poll w_ready) (ptr_add w_pfds 12))
      = Some (Some (mutex_waitqueue (w_obj 1), Z_WQ_FLAG_POLLIN)) ∧
    pfd (w_poll w_ready) w_pfds = w_pfd 1 (w_obj 2) ∧
    pfd (w_poll w_ready) (ptr_add w_pfds 12) = w_pfd 2 (w_obj 1)) by (vm_compute; done).
  revert Hi Hq. generalize (w_poll w_ready). intros k Hi (E1&E2&E3&E4).
  assert (Hnum : num_ready k (pfds_from w_pfds 2) = 1%nat).
  { unfold num_ready. cbn [pfds_from]. rewrite filter_cons_True by (unfold is_ready; by rewrite E1).
    rewrite filter_cons_False; [done|]. unfold is_ready. unfold sizeof_pollfd. by rewrite E2. }
  destruct (k_poll_no_wait_spec w_F w_pfds 2 K_FOREVER k w_T [t1; t3; t2] [] w_Q)
    as (k'&E&_&_&_&Hr).
  - done.
  - done.
  - lia.
  - intros p Hp. cbn [pfds_from] in Hp. unfold sizeof_pollfd in Hp.
    assert (Hx : mutex_waitqueue (w_obj 1) ∈ w_heads) by (vm_compute; set_solver).
    apply elem_of_cons in Hp as [->|[->|Hp%not_elem_of_nil]%elem_of_cons]; [| |done].
    + split; [apply w_foreign; vm_compute; set_solver|]. split; [by rewrite E1|by rewrite E3].
    + split; [apply w_foreign; vm_compute; set_solver|]. split; [|by rewrite E4].
      rewrite E2. split; [done|]. unfold wq_rings. rewrite lookup_fmap, (w_Q_heads _ Hx). by eexists.
  - left. rewrite Hnum. lia.
  - rewrite Hnum in E. exists k'. split; [exact E|].
    rewrite !Hr by (cbn [pfds_from]; unfold sizeof_pollfd; set_solver).
    unfold ready_revents, is_ready. rewrite E1, E2, E3. done.
Defined.
