(* ===== verification/Avr.v ===== *)
(** * The assembly sources (arch/*.S)

    The semantics of the instructions the assembly uses, on the registers, the
    data space (where the registers r0 to r31, SPL, SPH and SREG are mapped at
    their addresses), the stack pointer, the status register and the program
    counter; and the programs, as lists of instructions.  A jump target is an
    index of its list. *)

From S2P Require Import Prelude.

Record avr := { regs : Z → Z; ram : Z → Z; spr : Z; sreg : Z; pc : Z }.

Definition upd (f : Z → Z) (a v : Z) : Z → Z := λ x, if x =? a then v else f x.

Definition set_regs (f : Z → Z) (m : avr) : avr :=
  {| regs := f; ram := ram m; spr := spr m; sreg := sreg m; pc := pc m |}.
Definition set_ram (f : Z → Z) (m : avr) : avr :=
  {| regs := regs m; ram := f; spr := spr m; sreg := sreg m; pc := pc m |}.
Definition set_spr (x : Z) (m : avr) : avr :=
  {| regs := regs m; ram := ram m; spr := x; sreg := sreg m; pc := pc m |}.
Definition set_sreg (x : Z) (m : avr) : avr :=
  {| regs := regs m; ram := ram m; spr := spr m; sreg := x; pc := pc m |}.
Definition set_pc (x : Z) (m : avr) : avr :=
  {| regs := regs m; ram := ram m; spr := spr m; sreg := sreg m; pc := x |}.
Definition set_reg (r v : Z) (m : avr) : avr := set_regs (upd (regs m) r v) m.

(** ** The data space *)

Definition SPL : Z := 0x5D.
Definition SPH : Z := 0x5E.
Definition SREG : Z := 0x5F.

Definition ld_data (m : avr) (a : Z) : Z :=
  if a <? 32 then regs m a
  else if a =? SPL then u8 (spr m)
  else if a =? SPH then Z.shiftr (spr m) 8
  else if a =? SREG then sreg m
  else ram m a.

Definition st_data (a v : Z) (m : avr) : avr :=
  if a <? 32 then set_reg a v m
  else if a =? SPL then set_spr (Z.land (spr m) 0xFF00 + v) m
  else if a =? SPH then set_spr (u8 (spr m) + 256 * v) m
  else if a =? SREG then set_sreg v m
  else set_ram (upd (ram m) a v) m.

(** ** The status register *)

Definition flag_bit (n : Z) (b : bool) (s : Z) : Z :=
  if b then Z.lor s (2 ^ n) else Z.land s (Z.lnot (2 ^ n)).
Definition FLAG_C : Z := 0.
Definition FLAG_Z : Z := 1.
Definition FLAG_N : Z := 2.
Definition FLAG_V : Z := 3.
Definition FLAG_S : Z := 4.
Definition FLAG_H : Z := 5.
Definition FLAG_I : Z := 7.

(** The flags S, V, N and Z of a result [res] with overflow [v]. *)
Definition svnz (res : Z) (v : bool) (s : Z) : Z :=
  let n := Z.testbit res 7 in
  flag_bit FLAG_S (xorb n v) (flag_bit FLAG_V v (flag_bit FLAG_N n (flag_bit FLAG_Z (res =? 0) s))).

Definition add_flags (a b c : Z) (s : Z) : Z :=
  let res := u8 (a + b + c) in
  flag_bit FLAG_H (16 <=? a mod 16 + b mod 16 + c)
    (flag_bit FLAG_C (256 <=? a + b + c)
       (svnz res (Z.testbit (Z.land (Z.lxor a res) (Z.lxor b res)) 7) s)).

Definition sub_flags (a b : Z) (s : Z) : Z :=
  let res := u8 (a - b) in
  flag_bit FLAG_H (a mod 16 <? b mod 16)
    (flag_bit FLAG_C (a <? b)
       (svnz res (Z.testbit (Z.land (Z.lxor a b) (Z.lxor a res)) 7) s)).

(** ** Instructions *)

Inductive instr :=
  | PUSH (r : Z) | POP (r : Z)
  | MOVW (d r : Z)
  | LDS (r a : Z) | STS (a r : Z)
  | LD_X (r : Z) | ST_X (r : Z) | ST_Xp (r : Z) | LD_Zp (r : Z) | LDD_Z (r q : Z)
  | LDI (r k : Z)
  | ADD (d r : Z) | ADC (d r : Z) | SUBI (d k : Z)
  | OR (d r : Z) | EOR (d r : Z) | AND (d r : Z) | ANDI (d k : Z)
  | INC (d : Z) | DEC (d : Z)
  | CLI
  | CPSE (d r : Z) | SBRC (r b : Z) | BRNE (t : nat) | JMP (t : nat)
  | RET.

Definition reg16 (m : avr) (r : Z) : Z := regs m r + 256 * regs m (r + 1).
Definition X : Z := 26.
Definition ZL : Z := 30.

Definition set_reg16 (r v : Z) (m : avr) : avr := set_reg (r + 1) (Z.shiftr v 8) (set_reg r (u8 v) m).

Definition push (v : Z) (m : avr) : avr := set_spr (u16 (spr m - 1)) (st_data (spr m) v m).
Definition pop (m : avr) : Z * avr := let m := set_spr (u16 (spr m + 1)) m in (ld_data m (spr m), m).

(** One instruction that is not a jump. *)
Definition step (i : instr) (m : avr) : avr :=
  match i with
  | PUSH r => push (regs m r) m
  | POP r => let '(v, m) := pop m in set_reg r v m
  | MOVW d r => set_reg (d + 1) (regs m (r + 1)) (set_reg d (regs m r) m)
  | LDS r a => set_reg r (ld_data m a) m
  | STS a r => st_data a (regs m r) m
  | LD_X r => set_reg r (ld_data m (reg16 m X)) m
  | ST_X r => st_data (reg16 m X) (regs m r) m
  | ST_Xp r => let a := reg16 m X in set_reg16 X (u16 (a + 1)) (st_data a (regs m r) m)
  | LD_Zp r => let a := reg16 m ZL in set_reg r (ld_data m a) (set_reg16 ZL (u16 (a + 1)) m)
  | LDD_Z r q => set_reg r (ld_data m (u16 (reg16 m ZL + q))) m
  | LDI r k => set_reg r k m
  | ADD d r => set_sreg (add_flags (regs m d) (regs m r) 0 (sreg m))
                 (set_reg d (u8 (regs m d + regs m r)) m)
  | ADC d r => let c := Z.b2z (Z.testbit (sreg m) FLAG_C) in
               set_sreg (add_flags (regs m d) (regs m r) c (sreg m))
                 (set_reg d (u8 (regs m d + regs m r + c)) m)
  | SUBI d k => set_sreg (sub_flags (regs m d) k (sreg m)) (set_reg d (u8 (regs m d - k)) m)
  | OR d r => let v := Z.lor (regs m d) (regs m r) in set_sreg (svnz v false (sreg m)) (set_reg d v m)
  | EOR d r => let v := Z.lxor (regs m d) (regs m r) in set_sreg (svnz v false (sreg m)) (set_reg d v m)
  | AND d r => let v := Z.land (regs m d) (regs m r) in set_sreg (svnz v false (sreg m)) (set_reg d v m)
  | ANDI d k => let v := Z.land (regs m d) k in set_sreg (svnz v false (sreg m)) (set_reg d v m)
  | INC d => let v := u8 (regs m d + 1) in set_sreg (svnz v (v =? 0x80) (sreg m)) (set_reg d v m)
  | DEC d => let v := u8 (regs m d - 1) in set_sreg (svnz v (v =? 0x7F) (sreg m)) (set_reg d v m)
  | CLI => set_sreg (flag_bit FLAG_I false (sreg m)) m
  | RET => let '(hi, m) := pop m in let '(lo, m) := pop m in set_pc (256 * hi + lo) m
  | CPSE _ _ | SBRC _ _ | BRNE _ | JMP _ => m
  end.

Definition next_index (i : instr) (n : nat) (m : avr) : nat :=
  match i with
  | CPSE d r => if regs m d =? regs m r then S (S n) else S n
  | SBRC r b => if Z.testbit (regs m r) b then S n else S (S n)
  | BRNE t => if Z.testbit (sreg m) FLAG_Z then S n else t
  | JMP t => t
  | _ => S n
  end.

(** Execution from the index [n] to a [RET] or past the end of the list;
    [None] when the fuel runs out. *)
Fixpoint run (fuel : nat) (p : list instr) (n : nat) (m : avr) : option avr :=
  match fuel with
  | O => None
  | S fuel =>
      match p !! n with
      | None => Some m
      | Some RET => Some (step RET m)
      | Some i => run fuel p (next_index i n m) (step i m)
      end
  end.

Definition exec (l : list instr) (m : avr) : avr := foldl (λ m i, step i m) m l.

(** ** The programs *)

(** arch_atomic.S.  An [sts SREG] takes effect after the next instruction: no
    interrupt is taken between it and the store that follows. *)
Definition atomic_get : list instr := [MOVW 26 24; LD_X 24; RET].
Definition atomic_set : list instr := [MOVW 26 24; ST_X 22; RET].
Definition atomic_blind_clear : list instr := [MOVW 26 24; ST_X 1; RET].
Definition atomic_clear : list instr :=
  [MOVW 26 24; LDS 18 SREG; CLI; LD_X 24; STS SREG 18; ST_X 1; RET].
Definition atomic_or : list instr :=
  [MOVW 26 24; LDS 18 SREG; CLI; LD_X 24; OR 22 24; STS SREG 18; ST_X 22; RET].
Definition atomic_xor : list instr :=
  [MOVW 26 24; LDS 18 SREG; CLI; LD_X 24; EOR 22 24; STS SREG 18; ST_X 22; RET].
Definition atomic_and : list instr :=
  [MOVW 26 24; LDS 18 SREG; CLI; LD_X 24; AND 22 24; STS SREG 18; ST_X 22; RET].
Definition atomic_inc : list instr :=
  [MOVW 26 24; LDS 18 SREG; CLI; LD_X 24; INC 24; STS SREG 18; ST_X 24; RET].
Definition atomic_dec : list instr :=
  [MOVW 26 24; LDS 18 SREG; CLI; LD_X 24; DEC 24; STS SREG 18; ST_X 24; RET].
Definition atomic_cas : list instr :=
  [MOVW 26 24; LDS 18 SREG; CLI; LDI 24 0; LD_X 25; CPSE 24 22; JMP 9; LDI 24 1; ST_X 20; STS SREG 18; RET].

(** thread_switch_preempt.S *)
Definition saved_regs : list Z := [2; 3; 4; 5; 6; 7; 8; 9; 10; 11; 12; 13; 14; 15; 16; 17; 28; 29].
Definition z_thread_switch : list instr :=
  [PUSH 2; PUSH 3; PUSH 4; PUSH 5; PUSH 6; PUSH 7; PUSH 8; PUSH 9; PUSH 10; PUSH 11; PUSH 12; PUSH 13;
   PUSH 14; PUSH 15; PUSH 16; PUSH 17; PUSH 28; PUSH 29; LDS 17 SREG; PUSH 17;
   LDS 20 SPL; LDS 21 SPH; ST_Xp 20; ST_Xp 21;
   LD_Zp 20; LD_Zp 21; STS SPL 20; STS SPH 21;
   POP 17; STS SREG 17; POP 29; POP 28; POP 17; POP 16; POP 15; POP 14; POP 13; POP 12; POP 11; POP 10;
   POP 9; POP 8; POP 7; POP 6; POP 5; POP 4; POP 3; POP 2; RET].

(** [z_thread_entry] up to its [icall], to the address in Z. *)
Definition z_thread_entry : list instr := [MOVW 24 2; MOVW 30 4; STS SREG 6].

(** The increment of the tick counter, the four or five bytes at [z_ker + 2],
    by the tick interrupt; r1 is 0. *)
Definition systick_count (bits40 : bool) (z_ker : Z) : list instr :=
  [LDI 18 1;
   LDS 0 (z_ker + 2); ADD 0 18; STS (z_ker + 2) 0;
   LDS 0 (z_ker + 3); ADC 0 1; STS (z_ker + 3) 0;
   LDS 0 (z_ker + 4); ADC 0 1; STS (z_ker + 4) 0;
   LDS 0 (z_ker + 5); ADC 0 1; STS (z_ker + 5) 0] ++
  if bits40 then [LDS 0 (z_ker + 6); ADC 0 1; STS (z_ker + 6) 0] else [].

(** arch_utils.S *)
Definition z_interrupts : list instr := [LDI 24 0; LDS 25 SREG; SBRC 25 FLAG_I; LDI 24 1; RET].
Definition k_ticks_get_32 (z_ker : Z) : list instr :=
  [LDS 26 SREG; CLI; LDS 22 (z_ker + 2); LDS 23 (z_ker + 3); LDS 24 (z_ker + 4); STS SREG 26;
   LDS 25 (z_ker + 5); RET].
Definition k_ticks_get_64 (bits40 : bool) (z_ker : Z) : list instr :=
  [LDS 26 SREG; CLI; LDS 18 (z_ker + 2); LDS 19 (z_ker + 3); LDS 20 (z_ker + 4); LDS 21 (z_ker + 5);
   STS SREG 26; if bits40 then LDS 22 (z_ker + 6) else LDI 22 0; LDI 23 0; LDI 24 0; LDI 25 0; RET].

(** ** Running straight-line code *)

Definition straight (i : instr) : bool :=
  match i with CPSE _ _ | SBRC _ _ | BRNE _ | JMP _ | RET => false | _ => true end.

Lemma run_straight l p n m fuel :
  forallb straight l = true → (length l ≤ fuel)%nat →
  (∀ i x, l !! i = Some x → p !! (n + i)%nat = Some x) →
  run fuel p n m = run (fuel - length l) p (n + length l) (exec l m).
Proof.
  revert n m fuel. induction l as [|x l IH]; intros n m fuel Hs Hf Hp.
  { simpl. by rewrite Nat.sub_0_r, Nat.add_0_r. }
  simpl in Hs. apply andb_true_iff in Hs as [Hx Hs].
  destruct fuel as [|fuel]; [simpl in Hf; lia|]. cbn [run].
  pose proof (Hp O x eq_refl) as E. rewrite Nat.add_0_r in E. rewrite E.
  assert (Hn : next_index x n m = S n) by by destruct x.
  assert (Hr : run fuel p (next_index x n m) (step x m) = run (S fuel - length (x :: l)) p (n + length (x :: l)) (exec (x :: l) m)).
  { rewrite Hn, IH; [|done|simpl in Hf; lia|].
    - simpl. f_equal. lia.
    - intros i y Hy. rewrite <- (Hp (S i) y Hy). f_equal. lia. }
  destruct x; try done.
Qed.

Definition is_ret (i : instr) : bool := match i with RET => true | _ => false end.

Lemma run_step fuel p n m i : p !! n = Some i → is_ret i = false →
  run (S fuel) p n m = run fuel p (next_index i n m) (step i m).
Proof. intros E Hi. cbn [run]. rewrite E. by destruct i. Qed.
Lemma run_step_ret fuel p n m : p !! n = Some RET → run (S fuel) p n m = Some (step RET m).
Proof. intros E. cbn [run]. by rewrite E. Qed.

Lemma run_prefix l rest m fuel :
  forallb straight l = true → (length l ≤ fuel)%nat →
  run fuel (l ++ rest) 0 m = run (fuel - length l) (l ++ rest) (length l) (exec l m).
Proof.
  intros Hs Hf. rewrite (run_straight l); [by rewrite Nat.add_0_l|done|done|].
  intros i x Hx. rewrite lookup_app_l; [done|]. by eapply lookup_lt_Some.
Qed.

(** A program that is straight up to its [RET]. *)
Lemma run_ret l m fuel : forallb straight l = true → (length l < fuel)%nat →
  run fuel (l ++ [RET]) 0 m = Some (step RET (exec l m)).
Proof.
  intros Hs Hf. rewrite run_prefix by (done || lia).
  destruct (fuel - length l)%nat as [|f] eqn:E; [lia|]. cbn [run].
  by rewrite list_lookup_middle.
Qed.

Lemma exec_cons i l m : exec (i :: l) m = exec l (step i m).
Proof. done. Qed.
Lemma exec_app l1 l2 m : exec (l1 ++ l2) m = exec l2 (exec l1 m).
Proof. unfold exec. by rewrite foldl_app. Qed.

(** An address of memory, above the registers. *)
Definition in_ram (a : Z) : Prop := 0x60 <= a < 0x10000.

Lemma ld_ram m a : in_ram a → ld_data m a = ram m a.
Proof.
  intros Ha. unfold ld_data, SPL, SPH, SREG, in_ram in *.
  rewrite (proj2 (Z.ltb_ge _ _)) by lia. by rewrite !(proj2 (Z.eqb_neq _ _)) by lia.
Qed.
Lemma st_ram m a v : in_ram a → st_data a v m = set_ram (upd (ram m) a v) m.
Proof.
  intros Ha. unfold st_data, SPL, SPH, SREG, in_ram in *.
  rewrite (proj2 (Z.ltb_ge _ _)) by lia. by rewrite !(proj2 (Z.eqb_neq _ _)) by lia.
Qed.
Lemma upd_eq f a v : upd f a v a = v.
Proof. unfold upd. by rewrite Z.eqb_refl. Qed.
Lemma upd_ne f a v x : x ≠ a → upd f a v x = f x.
Proof. intros. unfold upd. by rewrite (proj2 (Z.eqb_neq _ _)). Qed.

(** [m'] is [m] after a return. *)
Record returns (m m' : avr) : Prop := {
  rt_sp : spr m' = spr m + 2;
  rt_pc : pc m' = 256 * ram m (spr m + 1) + ram m (spr m + 2);
}.

Lemma step_ret m : in_ram (spr m + 1) → in_ram (spr m + 2) →
  step RET m = set_pc (256 * ram m (spr m + 1) + ram m (spr m + 2)) (set_spr (spr m + 2) m).
Proof.
  intros H1 H2. cbn [step]. unfold pop. rewrite (u16_small (spr m + 1)) by (unfold in_ram in *; lia).
  cbn [spr set_spr]. rewrite ld_ram by done.
  replace (spr m + 1 + 1) with (spr m + 2) by lia. rewrite u16_small by (unfold in_ram in *; lia).
  cbn [spr set_spr]. by rewrite ld_ram.
Qed.
