(* ===== verification/Atomic.v ===== *)
(** * Atomic variables (atomic.c, arch/arch_atomic.S)

    The C functions work on the byte of the variable through the assembly
    routines; the routines are specified by what they return and store, and the
    programs of [Avr] are proved to do so. *)

From S2P Require Import Prelude Avr.

(** ** What a routine returns and stores, given the old value and its operand *)

Definition a_get (old v : Z) : Z * Z := (old, old).
Definition a_clear (old v : Z) : Z * Z := (old, 0).
Definition a_or (old v : Z) : Z * Z := (old, Z.lor v old).
Definition a_xor (old v : Z) : Z * Z := (old, Z.lxor v old).
Definition a_and (old v : Z) : Z * Z := (old, Z.land v old).
Definition a_inc (old v : Z) : Z * Z := (u8 (old + 1), u8 (old + 1)).
Definition a_dec (old v : Z) : Z * Z := (u8 (old - 1), u8 (old - 1)).

(** ** atomic.c

    A function takes the value of the variable and returns its result with the
    new value. *)

Definition BIT (bit : Z) : Z := Z.shiftl 1 bit.
Definition BIT8 (bit : Z) : Z := u8 (BIT bit).
Definition NBIT8 (bit : Z) : Z := u8 (Z.lnot (BIT bit)).

Definition atomic_clear_bit (bit x : Z) : Z := (a_and x (NBIT8 bit)).2.
Definition atomic_set_bit (bit x : Z) : Z := (a_or x (BIT8 bit)).2.
Definition atomic_set_bit_to (bit : Z) (val : bool) (x : Z) : Z :=
  if val then (a_or x (BIT8 bit)).2 else (a_and x (NBIT8 bit)).2.
Definition atomic_toggle_bit (bit x : Z) : Z := (a_xor x (BIT8 bit)).2.
Definition atomic_test_bit (bit x : Z) : bool :=
  let mask := BIT8 bit in
  let old := (a_get x 0).1 in
  negb (Z.land old mask =? 0).
Definition atomic_test_and_clear_bit (bit x : Z) : bool * Z :=
  let mask := BIT8 bit in
  let '(old, x) := a_and x (u8 (Z.lnot mask)) in
  (negb (Z.land old mask =? 0), x).
Definition atomic_test_and_set_bit (bit x : Z) : bool * Z :=
  let mask := BIT8 bit in
  let '(old, x) := a_or x mask in
  (negb (Z.land old mask =? 0), x).
(** The body between [irq_lock] and [irq_unlock]. *)
Definition atomic_cas2 (cmd val x : Z) : bool * Z :=
  if x =? cmd then (true, val) else (false, x).

(** ** The assembly routines *)

(** The variable is at the address in r25:r24, in memory, apart from the return
    address on the stack; r1 is 0. *)
Record atomic_call (m : avr) : Prop := {
  ac_target : in_ram (reg16 m 24);
  ac_ret1 : in_ram (spr m + 1);
  ac_ret2 : in_ram (spr m + 2);
  ac_apart : reg16 m 24 ≠ spr m + 1 ∧ reg16 m 24 ≠ spr m + 2;
  ac_zero : regs m 1 = 0;
}.

(** The routine returns [r] in r24 and stores [x]; nothing else of the memory
    changes and the status register is as it was. *)
Record atomic_result (m m' : avr) (r x : Z) : Prop := {
  ar_value : regs m' 24 = r;
  ar_stored : ram m' (reg16 m 24) = x;
  ar_frame a : a ≠ reg16 m 24 → ram m' a = ram m a;
  ar_sreg : sreg m' = sreg m;
  ar_returns : returns m m';
}.

Ltac avr_simpl := cbn [step regs ram spr sreg pc set_reg set_regs set_ram set_spr set_sreg set_pc push pop].

Lemma movw_X m : reg16 (step (MOVW 26 24) m) X = reg16 m 24.
Proof. done. Qed.

(** The common frame: the address is loaded, interrupts are disabled, the byte
    is read, [mid] computes, the status is restored and the register [r] is
    stored. *)
Definition rmw (mid : list instr) (r : Z) : list instr :=
  [MOVW 26 24; LDS 18 SREG; CLI; LD_X 24] ++ mid ++ [STS SREG 18; ST_X r].

(** The state [mid] runs in. *)
Definition rmw_state (m : avr) : avr := exec [MOVW 26 24; LDS 18 SREG; CLI; LD_X 24] m.

Lemma rmw_state_spec m : in_ram (reg16 m 24) →
  regs (rmw_state m) 24 = ram m (reg16 m 24) ∧ regs (rmw_state m) 18 = sreg m ∧
  regs (rmw_state m) 22 = regs m 22 ∧ regs (rmw_state m) 1 = regs m 1 ∧ reg16 (rmw_state m) X = reg16 m 24 ∧
  ram (rmw_state m) = ram m ∧ spr (rmw_state m) = spr m ∧ Z.testbit (sreg (rmw_state m)) FLAG_I = false.
Proof.
  intros Ha. unfold rmw_state. rewrite !exec_cons. change (exec [] ?x) with x.
  set (m3 := step CLI _).
  assert (E : step (LD_X 24) m3 = set_reg 24 (ram m (reg16 m 24)) m3).
  { cbn [step]. change (reg16 m3 X) with (reg16 m 24). by rewrite ld_ram. }
  rewrite E. split_and!; try done.
  change (Z.testbit (Z.land (sreg m) (Z.lnot (2 ^ 7))) 7 = false).
  rewrite Z.land_spec, Z.lnot_spec by done. apply andb_false_r.
Qed.

(** [mid] changes neither the registers that hold the address and the status
    nor the memory, and leaves interrupts disabled. *)
Definition computes (mid : list instr) : Prop := forallb straight mid = true ∧ (length mid ≤ 1)%nat ∧ ∀ m,
  regs (exec mid m) 18 = regs m 18 ∧ reg16 (exec mid m) X = reg16 m X ∧ ram (exec mid m) = ram m ∧
  spr (exec mid m) = spr m ∧ Z.testbit (sreg (exec mid m)) FLAG_I = Z.testbit (sreg m) FLAG_I.

Lemma rmw_spec mid r m : computes mid → atomic_call m →
  let m4 := exec mid (rmw_state m) in
  ∃ m', run 20 (rmw mid r ++ [RET]) 0 m = Some m' ∧
  atomic_result m m' (regs m4 24) (regs m4 r) ∧
  (∀ n, (3 ≤ n ≤ 4 + length mid)%nat → Z.testbit (sreg (exec (take n (rmw mid r ++ [RET])) m)) FLAG_I = false).
Proof.
  intros (Hi&Hlen&Hc) [Ha Hr1 Hr2 [Hn1 Hn2] _] m4.
  destruct (rmw_state_spec m Ha) as (_&E18&_&_&EX&Eram&Esp&EI).
  destruct (Hc (rmw_state m)) as (C18&CX&Cram&Csp&CI). fold m4 in C18, CX, Cram, Csp, CI.
  exists (step RET (exec (rmw mid r) m)). split.
  { apply run_ret; unfold rmw; [by rewrite !forallb_app, Hi|rewrite !length_app; simpl; lia]. }
  assert (E : exec (rmw mid r) m = set_ram (upd (ram m) (reg16 m 24) (regs m4 r)) (set_sreg (sreg m) m4)).
  { unfold rmw. rewrite !exec_app. fold (rmw_state m). fold m4.
    assert (Es : step (STS SREG 18) m4 = set_sreg (sreg m) m4).
    { change (set_sreg (regs m4 18) m4 = set_sreg (sreg m) m4). by rewrite C18, E18. }
    rewrite !exec_cons, Es. change (exec [] ?x) with x. cbn [step].
    change (reg16 (set_sreg (sreg m) m4) X) with (reg16 m4 X).
    rewrite CX, EX, st_ram by done. change (ram (set_sreg (sreg m) m4)) with (ram m4). by rewrite Cram, Eram. }
  rewrite E.
  assert (Hsp : spr (set_ram (upd (ram m) (reg16 m 24) (regs m4 r)) (set_sreg (sreg m) m4)) = spr m).
  { change (spr m4 = spr m). by rewrite Csp. }
  rewrite step_ret by by rewrite Hsp. rewrite Hsp. split; [split|].
  - done.
  - apply upd_eq.
  - intros a Hna. by apply upd_ne.
  - done.
  - split; [done|]. cbn [pc set_pc set_spr ram set_ram]. by rewrite !upd_ne by auto.
  - intros n Hn. unfold rmw. rewrite <- !app_assoc.
    destruct (decide (n = 3%nat)) as [->|Hne].
    + change (Z.testbit (Z.land (sreg m) (Z.lnot (2 ^ 7))) 7 = false).
      rewrite Z.land_spec, Z.lnot_spec by done. apply andb_false_r.
    + destruct mid as [|i [|]]; simpl in Hlen, Hn; [|  |lia].
      * assert (n = 4)%nat as -> by lia. exact EI.
      * assert (n = 4 ∨ n = 5)%nat as [-> | ->] by lia; [exact EI|].
        change (Z.testbit (sreg m4) FLAG_I = false). by rewrite CI.
Qed.

Lemma flag_bit_I n b s : 0 <= n < 7 → Z.testbit (flag_bit n b s) 7 = Z.testbit s 7.
Proof.
  intros Hn. unfold flag_bit. destruct b.
  - rewrite Z.lor_spec, Z.pow2_bits_false by lia. apply orb_false_r.
  - rewrite Z.land_spec, Z.lnot_spec, Z.pow2_bits_false by lia. apply andb_true_r.
Qed.

Lemma svnz_I res v s : Z.testbit (svnz res v s) FLAG_I = Z.testbit s FLAG_I.
Proof. unfold svnz, FLAG_I. by rewrite !flag_bit_I by (unfold FLAG_Z, FLAG_N, FLAG_V, FLAG_S; lia). Qed.

(** The read-modify-write routines and what they compute. *)
Definition atomic_rmw : list (list instr * (Z → Z → Z * Z)) :=
  [(atomic_clear, a_clear); (atomic_or, a_or); (atomic_xor, a_xor); (atomic_and, a_and);
   (atomic_inc, a_inc); (atomic_dec, a_dec)].

(** C29: each read-modify-write routine returns and stores what it is specified
    to, and changes nothing else: the status register is restored, interrupts
    are disabled from before the variable is read until the instruction before
    it is written, and the routine returns to its caller. *)
Theorem atomic_rmw_spec p f m :
  (p, f) ∈ atomic_rmw → atomic_call m →
  ∃ m', run 20 p 0 m = Some m' ∧
    (let '(r, x) := f (ram m (reg16 m 24)) (regs m 22) in atomic_result m m' r x) ∧
    (∀ n, (3 ≤ n ≤ length p - 3)%nat → Z.testbit (sreg (exec (take n p) m)) FLAG_I = false).
Proof.
  intros Hp Hm. pose proof (rmw_state_spec m (ac_target _ Hm)) as (E24&_&E22&E1&_).
  assert (Hc : ∀ mid r, computes mid → p = rmw mid r ++ [RET] →
    (f (ram m (reg16 m 24)) (regs m 22)) = (regs (exec mid (rmw_state m)) 24, regs (exec mid (rmw_state m)) r) →
    ∃ m', run 20 p 0 m = Some m' ∧
      (let '(r, x) := f (ram m (reg16 m 24)) (regs m 22) in atomic_result m m' r x) ∧
      (∀ n, (3 ≤ n ≤ length p - 3)%nat → Z.testbit (sreg (exec (take n p) m)) FLAG_I = false)).
  { intros mid r Hc -> Ef. destruct (rmw_spec mid r m Hc Hm) as (m'&E&Hres&Hwin).
    exists m'. split_and!; [done|by rewrite Ef|]. intros n Hn. apply Hwin.
    unfold rmw in Hn. rewrite !length_app in Hn. simpl in Hn. lia. }
  unfold atomic_rmw in Hp. rewrite !elem_of_cons in Hp.
  destruct Hp as [[= -> ->]|[[= -> ->]|[[= -> ->]|[[= -> ->]|[[= -> ->]|[[= -> ->]|Hp%not_elem_of_nil]]]]]]; [..|done].
  - apply (Hc [] 1); [by split_and!; [| simpl; lia |]|done|].
    change (exec [] ?x) with x. by rewrite E24, E1, (ac_zero _ Hm).
  - apply (Hc [OR 22 24] 22); [split_and!; [done|done|intros x; split_and!; try done; apply svnz_I]|done|].
    rewrite exec_cons. change (exec [] ?x) with x. cbn [step]. by rewrite <- E24, <- E22.
  - apply (Hc [EOR 22 24] 22); [split_and!; [done|done|intros x; split_and!; try done; apply svnz_I]|done|].
    rewrite exec_cons. change (exec [] ?x) with x. cbn [step]. by rewrite <- E24, <- E22.
  - apply (Hc [AND 22 24] 22); [split_and!; [done|done|intros x; split_and!; try done; apply svnz_I]|done|].
    rewrite exec_cons. change (exec [] ?x) with x. cbn [step]. by rewrite <- E24, <- E22.
  - apply (Hc [INC 24] 24); [split_and!; [done|done|intros x; split_and!; try done; apply svnz_I]|done|].
    rewrite exec_cons. change (exec [] ?x) with x. cbn [step]. by rewrite <- E24.
  - apply (Hc [DEC 24] 24); [split_and!; [done|done|intros x; split_and!; try done; apply svnz_I]|done|].
    rewrite exec_cons. change (exec [] ?x) with x. cbn [step]. by rewrite <- E24.
Qed.

(** [atomic_cas] compares its second argument with the constant 0 and never
    with the variable: called with 0 it stores and reports success whatever
    the variable holds, called with anything else it reports failure. *)
Theorem atomic_cas_compares_zero m :
  atomic_call m →
  ∃ m', run 20 atomic_cas 0 m = Some m' ∧
    atomic_result m m' (if regs m 22 =? 0 then 1 else 0)
      (if regs m 22 =? 0 then regs m 20 else ram m (reg16 m 24)).
Proof.
  intros [Ha Hr1 Hr2 [Hn1 Hn2] _].
  change atomic_cas with ([MOVW 26 24; LDS 18 SREG; CLI; LDI 24 0; LD_X 25] ++
    [CPSE 24 22; JMP 9; LDI 24 1; ST_X 20; STS SREG 18; RET]).
  rewrite run_prefix; [|done|simpl; lia].
  set (m5 := exec _ m).
  assert (E5 : m5 = set_reg 25 (ram m (reg16 m 24)) (exec [MOVW 26 24; LDS 18 SREG; CLI; LDI 24 0] m)).
  { unfold m5. rewrite !exec_cons. change (exec [] ?x) with x. set (m4 := step (LDI 24 0) _).
    cbn [step]. change (reg16 m4 X) with (reg16 m 24). by rewrite ld_ram. }
  assert (Hregs : regs m5 24 = 0 ∧ regs m5 22 = regs m 22 ∧ regs m5 20 = regs m 20 ∧ regs m5 18 = sreg m ∧
    reg16 m5 X = reg16 m 24 ∧ ram m5 = ram m ∧ spr m5 = spr m) by by rewrite E5.
  destruct Hregs as (R24&R22&R20&R18&RX&Rram&Rsp).
  clearbody m5. cbn [length Nat.sub Nat.add].
  rewrite (run_step 14 _ 5 m5 (CPSE 24 22)) by done. cbn [next_index]. rewrite R24, R22, Z.eqb_sym.
  change (step (CPSE 24 22) m5) with m5.
  assert (Hret : ∀ m8 : avr, spr m8 = spr m → step RET m8 = set_pc (256 * ram m8 (spr m + 1) + ram m8 (spr m + 2)) (set_spr (spr m + 2) m8)).
  { intros m8 E8. rewrite step_ret by by rewrite E8. by rewrite E8. }
  destruct (Z.eqb_spec (regs m 22) 0) as [E0|E0].
  - rewrite (run_step 13 _ 7 m5 (LDI 24 1)), (run_step 12 _ _ _ (ST_X 20)), (run_step 11 _ _ _ (STS SREG 18)),
      run_step_ret by done. set (m7 := step (LDI 24 1) m5).
    assert (E8 : step (ST_X 20) m7 = set_ram (upd (ram m) (reg16 m 24) (regs m 20)) m7).
    { cbn [step]. change (reg16 m7 X) with (reg16 m5 X). rewrite RX, st_ram by done.
      change (ram m7) with (ram m5). change (regs m7 20) with (regs m5 20). by rewrite Rram, R20. }
    rewrite E8. set (m8 := set_ram _ m7).
    assert (E9 : step (STS SREG 18) m8 = set_sreg (sreg m) m8).
    { change (set_sreg (regs m5 18) m8 = set_sreg (sreg m) m8). by rewrite R18. }
    rewrite E9. eexists. split; [reflexivity|]. rewrite Hret by exact Rsp. split.
    + done.
    + apply upd_eq.
    + intros a Hna. by apply upd_ne.
    + done.
    + split; [done|]. cbn [pc set_pc]. change (ram (set_sreg _ m8)) with (upd (ram m) (reg16 m 24) (regs m 20)).
      by rewrite !upd_ne by auto.
  - rewrite (run_step 13 _ 6 m5 (JMP 9)), (run_step 12 _ _ _ (STS SREG 18)), run_step_ret by done.
    change (step (JMP 9) m5) with m5.
    assert (E9 : step (STS SREG 18) m5 = set_sreg (sreg m) m5).
    { change (set_sreg (regs m5 18) m5 = set_sreg (sreg m) m5). by rewrite R18. }
    rewrite E9. eexists. split; [reflexivity|]. rewrite Hret by exact Rsp.
    split; try done; [|intros a _|split; [done|]]; cbn [ram pc set_pc set_spr set_sreg]; by rewrite Rram.
Qed.

(** ** The bit operations *)

Lemma BIT_bits bit n : 0 <= bit < 8 → 0 <= n < 8 → Z.testbit (BIT8 bit) n = (n =? bit).
Proof.
  intros Hb Hn. unfold BIT8, BIT. rewrite u8_small.
  - rewrite Z.shiftl_spec by lia. destruct (Z.eqb_spec n bit) as [->|Hne]; [by rewrite Z.sub_diag|].
    destruct (decide (n < bit)) as [Hlt|Hge]; [by apply Z.testbit_neg_r; lia|].
    apply Z.bits_above_log2; [lia|]. simpl. lia.
  - rewrite Z.shiftl_1_l. split; [apply Z.pow_nonneg; lia|].
    change 256 with (2 ^ 8). apply Z.pow_lt_mono_r; lia.
Qed.

Lemma NBIT_bits bit n : 0 <= bit < 8 → 0 <= n < 8 → Z.testbit (NBIT8 bit) n = negb (n =? bit).
Proof.
  intros Hb Hn. unfold NBIT8, u8. change 256 with (2 ^ 8). rewrite Z.mod_pow2_bits_low by lia.
  rewrite Z.lnot_spec by lia. f_equal. rewrite <- (BIT_bits bit n) by done.
  unfold BIT8, u8. change 256 with (2 ^ 8). by rewrite Z.mod_pow2_bits_low by lia.
Qed.

Lemma test_mask bit x : 0 <= bit < 8 → negb (Z.land x (BIT8 bit) =? 0) = Z.testbit x bit.
Proof.
  intros Hb. assert (E : Z.testbit (Z.land x (BIT8 bit)) bit = Z.testbit x bit).
  { rewrite Z.land_spec, BIT_bits, Z.eqb_refl by lia. apply andb_true_r. }
  destruct (Z.eqb_spec (Z.land x (BIT8 bit)) 0) as [E0|E0]; cbn [negb].
  - by rewrite <- E, E0, Z.bits_0.
  - destruct (Z.testbit x bit) eqn:Ex; [done|]. destruct E0. apply Z.bits_inj'. intros n Hn.
    rewrite Z.bits_0, Z.land_spec. destruct (decide (n < 8)) as [Hlt|Hge].
    + rewrite BIT_bits by lia. destruct (Z.eqb_spec n bit) as [->|]; [by rewrite Ex|apply andb_false_r].
    + assert (Hz : Z.testbit (BIT8 bit) n = false); [|rewrite Hz; apply andb_false_r].
      pose proof (u8_range (BIT bit)). unfold BIT8.
      destruct (decide (u8 (BIT bit) = 0)) as [->|]; [apply Z.bits_0|].
      apply Z.bits_above_log2; [lia|]. apply Z.log2_lt_pow2; [lia|].
      enough (2 ^ 8 <= 2 ^ n) by (change (2 ^ 8) with 256 in *; lia). apply Z.pow_le_mono_r; lia.
Qed.

(** The bit operations change the one bit they name and no other of the
    eight, and the tests report its old value. *)
Theorem atomic_bits bit x n :
  0 <= bit < 8 → 0 <= n < 8 →
  let b := Z.testbit x n in
  Z.testbit (atomic_set_bit bit x) n = (n =? bit) || b ∧
  Z.testbit (atomic_clear_bit bit x) n = negb (n =? bit) && b ∧
  Z.testbit (atomic_toggle_bit bit x) n = xorb (n =? bit) b ∧
  (∀ val, Z.testbit (atomic_set_bit_to bit val x) n = if n =? bit then val else b) ∧
  atomic_test_bit bit x = Z.testbit x bit ∧
  atomic_test_and_set_bit bit x = (Z.testbit x bit, atomic_set_bit bit x) ∧
  atomic_test_and_clear_bit bit x = (Z.testbit x bit, atomic_clear_bit bit x).
Proof.
  intros Hb Hn b. unfold atomic_set_bit, atomic_clear_bit, atomic_toggle_bit, atomic_set_bit_to, atomic_test_bit,
    atomic_test_and_set_bit, atomic_test_and_clear_bit, a_or, a_and, a_xor, a_get. cbn [fst snd].
  rewrite !Z.lor_spec, !Z.land_spec, !Z.lxor_spec, !BIT_bits, !NBIT_bits, !test_mask by done.
  split_and!; try done.
  - intros [|]; rewrite ?Z.lor_spec, ?Z.land_spec, ?BIT_bits, ?NBIT_bits by done; fold b;
      by destruct (n =? bit), b.
  - f_equal. f_equal. unfold NBIT8, BIT8. apply Z.bits_inj'. intros i Hi. unfold u8. change 256 with (2 ^ 8).
    destruct (decide (i < 8)).
    + rewrite !Z.mod_pow2_bits_low, !Z.lnot_spec, Z.mod_pow2_bits_low by lia. done.
    + by rewrite !Z.mod_pow2_bits_high by lia.
Qed.

(** ** Instances *)

(** The variable is at 0x200, the return address at 0x8fe. *)
Definition w_avr (x v : Z) : avr :=
  {| regs := upd (upd (λ r, 0) 25 2) 22 v; ram := upd (upd (λ a, 0) 0x200 x) 0x8ff 0x42;
     spr := 0x8fd; sreg := 0x83; pc := 0 |}.

Lemma w_avr_call x v : atomic_call (w_avr x v).
Proof. split; vm_compute; intuition congruence. Qed.

Lemma atomic_rmw_witness :
  ∃ m', run 20 atomic_or 0 (w_avr 0x50 3) = Some m' ∧ regs m' 24 = 0x50 ∧ ram m' 0x200 = 0x53 ∧
    sreg m' = 0x83 ∧ pc m' = 0x42.
Proof.
  destruct (atomic_rmw_spec atomic_or a_or (w_avr 0x50 3)) as (m'&E&[R S _ F [_ P]]&_).
  - right. by left.
  - apply w_avr_call.
  - exists m'. split_and!; done.
Defined.

Lemma atomic_cas_compares_zero_witness :
  ∃ m', run 20 atomic_cas 0 (w_avr 0x50 0x50) = Some m' ∧ regs m' 24 = 0 ∧ ram m' 0x200 = 0x50.
Proof.
  destruct (atomic_cas_compares_zero (w_avr 0x50 0x50)) as (m'&E&[R S _ _ _]).
  - apply w_avr_call.
  - exists m'. split_and!; done.
Defined.

Lemma atomic_bits_witness : Z.testbit (atomic_set_bit 5 0x10) 5 = true.
Proof. destruct (atomic_bits 5 0x10 5) as (E&_); [lia|lia|]. exact E. Defined.
