(* ===== verification/Context.v ===== *)
(** * Context switch and tick counter (arch/thread_switch_preempt.S)

    What the programs of [Avr] do: a switch saves the context of the running
    thread on its stack and restores the one saved by the thread it switches
    to; the tick interrupt increments the tick counter. *)

From S2P Require Import Prelude Avr.

(** ** Pushing and popping a list of registers *)

(** The bytes [vs] stored downwards from [s]. *)
Fixpoint store_down (f : Z → Z) (s : Z) (vs : list Z) : Z → Z :=
  match vs with [] => f | v :: vs => store_down (upd f s v) (s - 1) vs end.

Lemma store_down_other f s vs a : (a ≤ s - Z.of_nat (length vs) ∨ s < a) → store_down f s vs a = f a.
Proof.
  revert f s. induction vs as [|v vs IH]; intros f s Ha; simpl in *; [done|].
  rewrite IH by lia. apply upd_ne. lia.
Qed.

Lemma store_down_at f s vs i v : vs !! i = Some v → store_down f s vs (s - Z.of_nat i) = v.
Proof.
  revert f s i. induction vs as [|w vs IH]; intros f s i Hi; [done|]. destruct i as [|i]; simpl in *.
  - injection Hi as ->. rewrite store_down_other by lia. rewrite Z.sub_0_r. apply upd_eq.
  - replace (s - Z.of_nat (S i)) with (s - 1 - Z.of_nat i) by lia. by apply IH.
Qed.

Lemma exec_pushes rs : ∀ m, 0x60 + Z.of_nat (length rs) <= spr m + 1 → spr m < 0x10000 →
  let m' := exec (PUSH <$> rs) m in
  regs m' = regs m ∧ sreg m' = sreg m ∧ pc m' = pc m ∧ spr m' = spr m - Z.of_nat (length rs) ∧
  ram m' = store_down (ram m) (spr m) (regs m <$> rs).
Proof.
  induction rs as [|r rs IH]; intros m Hlo Hhi; [simpl; by rewrite Z.sub_0_r|].
  cbn [length] in Hlo. cbv zeta. rewrite fmap_cons.
  assert (E : step (PUSH r) m = set_spr (spr m - 1) (set_ram (upd (ram m) (spr m) (regs m r)) m)).
  { cbn [step]. unfold push. rewrite st_ram by (unfold in_ram; lia). by rewrite u16_small by lia. }
  rewrite exec_cons.
  rewrite E. set (m1 := set_spr _ _).
  destruct (IH m1) as (E1&E2&E3&E4&E5); [simpl; lia|simpl; lia|].
  rewrite E1, E2, E3, E4, E5. split_and!; try done. simpl. lia.
Qed.

Lemma exec_pops rs : ∀ m, 0x60 <= spr m + 1 → spr m + Z.of_nat (length rs) < 0x10000 → NoDup rs →
  let m' := exec (POP <$> rs) m in
  ram m' = ram m ∧ sreg m' = sreg m ∧ pc m' = pc m ∧ spr m' = spr m + Z.of_nat (length rs) ∧
  (∀ r, r ∉ rs → regs m' r = regs m r) ∧
  (∀ i r, rs !! i = Some r → regs m' r = ram m (spr m + 1 + Z.of_nat i)).
Proof.
  induction rs as [|r rs IH]; intros m Hlo Hhi Hnd; [simpl; by rewrite Z.add_0_r|].
  cbn [length] in Hhi. apply NoDup_cons in Hnd as [Hr Hnd]. cbv zeta. rewrite fmap_cons.
  change (exec (POP r :: (POP <$> rs)) m) with (exec (POP <$> rs) (step (POP r) m)).
  assert (E : step (POP r) m = set_reg r (ram m (spr m + 1)) (set_spr (spr m + 1) m)).
  { cbn [step]. unfold pop. rewrite u16_small by lia. cbn [spr set_spr].
    by rewrite ld_ram by (unfold in_ram; lia). }
  rewrite E. set (m1 := set_reg _ _ _).
  destruct (IH m1) as (E1&E2&E3&E4&E5&E6); [simpl; lia|simpl; lia|done|].
  rewrite E1, E2, E3, E4. split_and!; try done.
  - simpl. lia.
  - intros x Hx. apply not_elem_of_cons in Hx as [Hne Hx]. rewrite E5 by done. by apply upd_ne.
  - intros [|i] x Hx; simpl in Hx.
    + injection Hx as <-. rewrite E5 by done. rewrite Z.add_0_r. apply upd_eq.
    + rewrite (E6 _ _ Hx). simpl. f_equal. lia.
Qed.

(** ** [z_thread_switch] *)

Definition CTX_PUSHED : Z := 19.

(** The context of [m], running on its stack, is saved in the memory [f], and
    the thread structure at [t] points to it. *)
Record context_saved (m : avr) (t : Z) (f : Z → Z) : Prop := {
  cs_spl : f t = u8 (spr m - CTX_PUSHED);
  cs_sph : f (t + 1) = Z.shiftr (spr m - CTX_PUSHED) 8;
  cs_regs i r : saved_regs !! i = Some r → f (spr m - Z.of_nat i) = regs m r;
  cs_sreg : f (spr m - 18) = sreg m;
  cs_ret : f (spr m + 1) = ram m (spr m + 1) ∧ f (spr m + 2) = ram m (spr m + 2);
}.

(** [m'] runs as [m] did, after a return. *)
Record context_restored (m m' : avr) : Prop := {
  cr_regs r : r ∈ saved_regs → regs m' r = regs m r;
  cr_sreg : sreg m' = sreg m;
  cr_returns : returns m m';
}.

(** The addresses a switch uses, with the stack pointer [s] and the thread at
    [t]: the stack and the thread structure are in memory and apart. *)
Record switch_ok (s t : Z) : Prop := {
  so_low : 0x60 <= s - 18;
  so_high : s + 2 < 0x10000;
  so_thread : 0x60 <= t ∧ t + 1 < 0x10000;
  so_apart : t + 1 < s - 18 ∨ s + 2 < t;
}.

(** The context saved with the stack pointer [s] by the thread at [t] is not
    overwritten by a save with [s'] by the thread at [t']. *)
Definition apart (s t s' t' : Z) : Prop :=
  (s + 2 < s' - 18 ∨ s' < s - 18) ∧ (t' + 1 < s - 18 ∨ s + 2 < t') ∧
  (t + 1 < s' - 18 ∨ s' < t) ∧ (t + 1 < t' ∨ t' + 1 < t).

(** The first half: everything up to the load of the new stack pointer. *)
Definition switch_save : list instr :=
  (PUSH <$> saved_regs) ++ [LDS 17 SREG; PUSH 17; LDS 20 SPL; LDS 21 SPH; ST_Xp 20; ST_Xp 21].
Definition switch_load : list instr := [LD_Zp 20; LD_Zp 21; STS SPL 20; STS SPH 21].
Definition switch_pop : list instr := [POP 17; STS SREG 17] ++ (POP <$> reverse saved_regs).

Lemma z_thread_switch_eq : z_thread_switch = (switch_save ++ switch_load ++ switch_pop) ++ [RET].
Proof. reflexivity. Qed.

Lemma split16 v : 0 <= v < 65536 → u8 v + 256 * Z.shiftr v 8 = v.
Proof. intros Hv. rewrite Z.shiftr_div_pow2 by lia. unfold u8. change (2 ^ 8) with 256.
  pose proof (Z.div_mod v 256). lia. Qed.

Lemma shiftr8 v : 0 <= v < 65536 → 0 <= Z.shiftr v 8 < 256.
Proof. intros Hv. rewrite Z.shiftr_div_pow2 by lia. change (2 ^ 8) with 256.
  split; [apply Z.div_pos; lia|apply Z.div_lt_upper_bound; lia]. Qed.

Lemma reg16_set r v m : 0 <= v < 65536 → reg16 (set_reg16 r v m) r = v.
Proof.
  intros Hv. unfold reg16, set_reg16, set_reg. cbn [regs set_regs]. rewrite upd_ne by lia. rewrite !upd_eq.
  by apply split16.
Qed.

(** The steps of the switch, with the fields they read. *)
Lemma step_push r m : in_ram (spr m) → step (PUSH r) m = set_spr (spr m - 1) (set_ram (upd (ram m) (spr m) (regs m r)) m).
Proof. intros Hs. cbn [step]. unfold push. rewrite st_ram by done. by rewrite u16_small by (unfold in_ram in Hs; lia). Qed.
Lemma step_pop r m : in_ram (spr m + 1) → step (POP r) m = set_reg r (ram m (spr m + 1)) (set_spr (spr m + 1) m).
Proof.
  intros Hs. cbn [step]. unfold pop. rewrite u16_small by (unfold in_ram in Hs; lia). cbn [spr set_spr].
  by rewrite ld_ram.
Qed.
Lemma step_lds_sreg r m : step (LDS r SREG) m = set_reg r (sreg m) m.
Proof. done. Qed.
Lemma step_lds_spl r m : step (LDS r SPL) m = set_reg r (u8 (spr m)) m.
Proof. done. Qed.
Lemma step_lds_sph r m : step (LDS r SPH) m = set_reg r (Z.shiftr (spr m) 8) m.
Proof. done. Qed.
Lemma step_st_xp r m x : reg16 m X = x → in_ram x → x + 1 < 65536 →
  step (ST_Xp r) m = set_reg16 X (x + 1) (set_ram (upd (ram m) x (regs m r)) m).
Proof.
  intros E Hs Hx. cbn [step]. rewrite E, st_ram by done. by rewrite u16_small by (unfold in_ram in Hs; lia).
Qed.
Lemma step_ld_zp r m x : reg16 m ZL = x → in_ram x →
  step (LD_Zp r) m = set_reg r (ram m x) (set_reg16 ZL (u16 (x + 1)) m).
Proof. intros E Hs. cbn [step]. by rewrite E, ld_ram. Qed.

Lemma reg16_set_reg r v m x : x ≠ r → x + 1 ≠ r → reg16 (set_reg r v m) x = reg16 m x.
Proof. intros H1 H2. unfold reg16, set_reg. cbn [regs set_regs]. by rewrite !upd_ne. Qed.
Lemma reg16_set_reg16 r v m x : x + 1 < r ∨ r + 1 < x → reg16 (set_reg16 r v m) x = reg16 m x.
Proof. intros Hx. unfold set_reg16. by rewrite !reg16_set_reg by lia. Qed.
Lemma reg16_set_ram f m x : reg16 (set_ram f m) x = reg16 m x.
Proof. done. Qed.
Lemma reg16_set_spr f m x : reg16 (set_spr f m) x = reg16 m x.
Proof. done. Qed.

(** The state after the status register and the stack pointer are read. *)
Lemma switch_save_head ma s : spr ma = s - 18 → 0x60 <= s - 18 → s < 0x10000 →
  exec [LDS 17 SREG; PUSH 17; LDS 20 SPL; LDS 21 SPH] ma =
    set_reg 21 (Z.shiftr (s - 19) 8) (set_reg 20 (u8 (s - 19))
      (set_spr (s - 19) (set_ram (upd (ram ma) (s - 18) (sreg ma)) (set_reg 17 (sreg ma) ma)))).
Proof.
  intros Es H1 H2. rewrite !exec_cons. change (exec [] ?x) with x. rewrite step_lds_sreg.
  set (m1 := set_reg 17 _ _). assert (E1 : spr m1 = s - 18) by done.
  assert (E2 : regs m1 17 = sreg ma) by apply upd_eq.
  rewrite step_push by (rewrite E1; unfold in_ram; lia). rewrite E1, E2.
  replace (s - 18 - 1) with (s - 19) by lia. rewrite step_lds_spl, step_lds_sph. done.
Qed.

(** The two stores of the stack pointer. *)
Lemma switch_save_tail mb t : reg16 mb X = t → 0x60 <= t → t + 1 < 0x10000 →
  ram (exec [ST_Xp 20; ST_Xp 21] mb) = upd (upd (ram mb) t (regs mb 20)) (t + 1) (regs mb 21) ∧
  reg16 (exec [ST_Xp 20; ST_Xp 21] mb) ZL = reg16 mb ZL.
Proof.
  intros E H1 H2. rewrite !exec_cons. change (exec [] ?x) with x.
  rewrite (step_st_xp 20 mb t) by (done || unfold in_ram; lia).
  set (mc := set_reg16 X (t + 1) _).
  assert (EXc : reg16 mc X = t + 1) by (apply reg16_set; lia).
  assert (EZc : reg16 mc ZL = reg16 mb ZL) by (unfold mc; rewrite reg16_set_reg16 by (unfold ZL, X; lia); done).
  assert (ER : regs mc 21 = regs mb 21) by done.
  assert (Erm : ram mc = upd (ram mb) t (regs mb 20)) by done.
  clearbody mc. cbn [step]. rewrite EXc, st_ram by (unfold in_ram; lia).
  set (md := set_ram _ mc). split.
  - change (ram md = upd (upd (ram mb) t (regs mb 20)) (t + 1) (regs mb 21)). unfold md. cbn [ram set_ram].
    by rewrite Erm, ER.
  - rewrite reg16_set_reg16 by (unfold ZL, X; lia). unfold md. by rewrite reg16_set_ram.
Qed.

Lemma switch_save_spec m : switch_ok (spr m) (reg16 m X) →
  let m1 := exec switch_save m in
  context_saved m (reg16 m X) (ram m1) ∧
  (∀ a, a < spr m - 18 ∨ spr m < a → a ≠ reg16 m X → a ≠ reg16 m X + 1 → ram m1 a = ram m a) ∧
  reg16 m1 ZL = reg16 m ZL.
Proof.
  intros [Hlo Hhi Ht Hap]. cbv zeta. unfold switch_save. rewrite exec_app.
  destruct (exec_pushes saved_regs m) as (E1&E2&_&E4&E5); [simpl; lia|lia|].
  change (Z.of_nat (length saved_regs)) with 18 in E4.
  set (ma := exec (PUSH <$> saved_regs) m) in *. clearbody ma.
  set (s := spr m) in *. set (t := reg16 m X) in *.
  change [LDS 17 SREG; PUSH 17; LDS 20 SPL; LDS 21 SPH; ST_Xp 20; ST_Xp 21] with
    ([LDS 17 SREG; PUSH 17; LDS 20 SPL; LDS 21 SPH] ++ [ST_Xp 20; ST_Xp 21]).
  rewrite exec_app, (switch_save_head ma s) by (done || lia).
  set (mb := set_reg 21 _ _).
  assert (EX : reg16 mb X = t).
  { unfold mb. rewrite !reg16_set_reg, reg16_set_spr, reg16_set_ram, reg16_set_reg by (unfold X; lia).
    unfold reg16. by rewrite E1. }
  assert (EZ : reg16 mb ZL = reg16 m ZL).
  { unfold mb. rewrite !reg16_set_reg, reg16_set_spr, reg16_set_ram, reg16_set_reg by (unfold ZL; lia).
    unfold reg16. by rewrite E1. }
  assert (Eb : regs mb 20 = u8 (s - 19) ∧ regs mb 21 = Z.shiftr (s - 19) 8 ∧
    ram mb = upd (ram ma) (s - 18) (sreg m)) by by rewrite <- E2.
  destruct Eb as (R20&R21&Rb). clearbody mb.
  destruct (switch_save_tail mb t EX) as [Er Ez]; [lia|lia|]. rewrite R20, R21, Rb in Er. rewrite EZ in Ez.
  set (f := ram (exec _ mb)) in *.
  assert (Hother : ∀ a, a ≠ t → a ≠ t + 1 → f a = upd (ram ma) (s - 18) (sreg m) a).
  { intros a H1 H2. rewrite Er. by rewrite (upd_ne _ (t + 1)), (upd_ne _ t). }
  split_and!; [split; fold s|..].
  - rewrite Er. rewrite (upd_ne _ (t + 1)) by lia. apply upd_eq.
  - rewrite Er. apply upd_eq.
  - intros i r Hi. assert (i < 18)%nat by by apply lookup_lt_Some in Hi.
    rewrite Hother, upd_ne by lia. rewrite E5. apply store_down_at. by rewrite list_lookup_fmap, Hi.
  - rewrite Hother by lia. apply upd_eq.
  - rewrite !Hother, !upd_ne, E5, !store_down_other by (simpl; lia). done.
  - intros a Ha H1 H2. rewrite Hother, upd_ne, E5, store_down_other by (simpl; lia). done.
  - exact Ez.
Qed.

Lemma land_hi_add x v : 0 <= v < 256 → u8 (Z.land x 0xFF00 + v) = v.
Proof.
  intros Hv. assert (E : (Z.land x 0xFF00) mod 256 = 0).
  { change 256 with (2 ^ 8). rewrite <- Z.land_ones, <- Z.land_assoc by lia. apply Z.land_0_r. }
  unfold u8. rewrite Z.add_mod, E, Z.add_0_l, Z.mod_mod by done. by apply Z.mod_small.
Qed.

Lemma switch_load_spec m s :
  0x60 <= reg16 m ZL → reg16 m ZL + 1 < 0x10000 → 0 <= s < 65536 →
  ram m (reg16 m ZL) = u8 s → ram m (reg16 m ZL + 1) = Z.shiftr s 8 →
  ram (exec switch_load m) = ram m ∧ spr (exec switch_load m) = s.
Proof.
  intros H1 H2 Hs E1 E2. set (t := reg16 m ZL) in *.
  change (exec switch_load m) with (step (STS SPH 21) (step (STS SPL 20) (step (LD_Zp 21) (step (LD_Zp 20) m)))).
  rewrite (step_ld_zp 20 m t) by (done || unfold in_ram; lia). rewrite E1, u16_small by lia.
  set (ma := set_reg 20 _ _).
  assert (EZ : reg16 ma ZL = t + 1).
  { unfold ma. rewrite reg16_set_reg by (unfold ZL; lia). apply reg16_set. lia. }
  assert (Ea : regs ma 20 = u8 s ∧ ram ma = ram m ∧ spr ma = spr m) by done.
  clearbody ma. destruct Ea as (R20a&Rma&Sma).
  rewrite (step_ld_zp 21 ma (t + 1)) by (done || unfold in_ram; lia). rewrite Rma, E2.
  set (mb := set_reg 21 _ _).
  assert (Eb : regs mb 20 = u8 s ∧ regs mb 21 = Z.shiftr s 8 ∧ ram mb = ram m ∧ spr mb = spr m).
  { unfold mb. rewrite <- R20a, <- Rma, <- Sma. done. }
  clearbody mb. destruct Eb as (R20&R21&Er&Es).
  split; [done|].
  change (spr (step (STS SPH 21) (step (STS SPL 20) mb)))
    with (u8 (Z.land (spr mb) 0xFF00 + regs mb 20) + 256 * regs mb 21).
  rewrite R20, R21. rewrite <- (split16 s) at 3 by done. f_equal.
  apply land_hi_add. apply u8_range.
Qed.

Lemma switch_pop_spec m m0 f s t :
  context_saved m0 t (ram m) → s = spr m0 → spr m = s - 19 → switch_ok s t → f = ram m →
  let m' := exec switch_pop m in
  (∀ r, r ∈ saved_regs → regs m' r = regs m0 r) ∧ sreg m' = sreg m0 ∧ spr m' = s ∧ ram m' = f.
Proof.
  intros [_ _ Hr Hsr _] Es Esp [Hlo Hhi _ _] ->. rewrite <- Es in Hr, Hsr. cbv zeta. unfold switch_pop. rewrite exec_app.
  assert (Ea : exec [POP 17; STS SREG 17] m = set_sreg (sreg m0) (set_reg 17 (sreg m0) (set_spr (s - 18) m))).
  { unfold exec. cbn [foldl step]. unfold pop. rewrite Esp. replace (s - 19 + 1) with (s - 18) by lia.
    rewrite u16_small by lia. cbn [spr set_spr]. rewrite ld_ram by (unfold in_ram; lia).
    change (ram (set_spr (s - 18) m)) with (ram m). by rewrite Hsr. }
  rewrite Ea. set (ma := set_sreg _ _).
  destruct (exec_pops (reverse saved_regs) ma) as (E1&E2&_&E4&_&E6); [simpl; lia|simpl; lia| |].
  { vm_compute. repeat (apply NoDup_cons; split; [set_solver|]). apply NoDup_nil_2. }
  split_and!; [|by rewrite E2|rewrite E4; simpl; lia|by rewrite E1].
  intros r Hin. apply list_elem_of_lookup in Hin as [i Hi].
  assert (Hlt : (i < 18)%nat) by by apply lookup_lt_Some in Hi.
  rewrite (E6 (17 - i)%nat r).
  - rewrite <- (Hr _ _ Hi). change (ram ma) with (ram m). change (spr ma) with (s - 18). f_equal. lia.
  - rewrite reverse_lookup by (simpl; lia). change (length saved_regs) with 18%nat.
    replace (18 - S (17 - i))%nat with i by lia. done.
Qed.

Lemma context_saved_frame b t f g :
  context_saved b t f → 0x60 <= spr b - 18 →
  (∀ a, (spr b - 18 <= a <= spr b + 2 ∨ a = t ∨ a = t + 1) → g a = f a) → context_saved b t g.
Proof.
  intros [H1 H2 H3 H4 [H5 H6]] Hlo Hg. split.
  - by rewrite Hg by auto.
  - by rewrite Hg by auto.
  - intros i r Hi. rewrite Hg; [by apply H3|]. apply lookup_lt_Some in Hi. simpl in Hi. left. lia.
  - rewrite Hg; [done|]. left. lia.
  - rewrite !Hg by (left; lia). done.
Qed.

(** The switch up to its [RET]. *)
Lemma switch_exec m b :
  switch_ok (spr m) (reg16 m X) → switch_ok (spr b) (reg16 m ZL) → context_saved b (reg16 m ZL) (ram m) →
  apart (spr b) (reg16 m ZL) (spr m) (reg16 m X) →
  let m3 := exec (switch_save ++ switch_load ++ switch_pop) m in
  (∀ r, r ∈ saved_regs → regs m3 r = regs b r) ∧ sreg m3 = sreg b ∧ spr m3 = spr b ∧
  context_saved m (reg16 m X) (ram m3) ∧ context_saved b (reg16 m ZL) (ram m3) ∧
  (∀ a, a < spr m - 18 ∨ spr m < a → a ≠ reg16 m X → a ≠ reg16 m X + 1 → ram m3 a = ram m a).
Proof.
  intros Hm Hb Hcs (Ha1&Ha2&Ha3&Ha4). cbv zeta. rewrite !exec_app.
  destruct (switch_save_spec m Hm) as (Hsv&Hfr&HZ).
  set (m1 := exec switch_save m) in *. clearbody m1.
  set (A := reg16 m X) in *. set (B := reg16 m ZL) in *.
  assert (Hcs1 : context_saved b B (ram m1)).
  { eapply context_saved_frame; [exact Hcs|by destruct Hb|]. intros a Ha. apply Hfr; lia. }
  pose proof Hb as [Hlo Hhi [Ht1 Ht2] _].
  destruct (switch_load_spec m1 (spr b - CTX_PUSHED)) as [Er2 Es2];
    [lia|lia|unfold CTX_PUSHED; lia|by rewrite HZ; apply Hcs1|by rewrite HZ; apply Hcs1|].
  set (m2 := exec switch_load m1) in *. clearbody m2.
  destruct (switch_pop_spec m2 b (ram m1) (spr b) B) as (Hr&Hs&Hsp&Hram); [by rewrite Er2|done|done|done|done|].
  set (m3 := exec switch_pop m2) in *. clearbody m3. rewrite Hram. by split_and!.
Qed.

Lemma switch_run m :
  run 60 z_thread_switch 0 m = Some (step RET (exec (switch_save ++ switch_load ++ switch_pop) m)).
Proof. rewrite z_thread_switch_eq. apply run_ret; [reflexivity|]. apply Nat.ltb_lt. reflexivity. Qed.

Lemma switch_ret m m3 b :
  switch_ok (spr b) (reg16 m ZL) → (∀ r, r ∈ saved_regs → regs m3 r = regs b r) → sreg m3 = sreg b →
  spr m3 = spr b → context_saved m (reg16 m X) (ram m3) → context_saved b (reg16 m ZL) (ram m3) →
  (∀ a, a < spr m - 18 ∨ spr m < a → a ≠ reg16 m X → a ≠ reg16 m X + 1 → ram m3 a = ram m a) →
  context_restored b (step RET m3) ∧ context_saved m (reg16 m X) (ram (step RET m3)) ∧
  (∀ a, a < spr m - 18 ∨ spr m < a → a ≠ reg16 m X → a ≠ reg16 m X + 1 → ram (step RET m3) a = ram m a).
Proof.
  intros [Hlo Hhi _ _] Hr Hs Hsp HcA HcB Hfr.
  rewrite step_ret by (rewrite Hsp; unfold in_ram; lia). rewrite Hsp.
  split_and!; [split; [done|done|]|exact HcA|exact Hfr].
  split; [done|]. cbn [pc set_pc]. destruct HcB as [_ _ _ _ [-> ->]]. done.
Qed.

(** C13: a switch saves the context of the running thread, at X, and resumes the
    thread at Z exactly where it was when its own context was saved: every
    call-saved register, the status register, the stack pointer and the return
    address; the saved context is what a later switch back resumes from, and no
    other memory changes. *)
Theorem z_thread_switch_spec m b :
  let A := reg16 m X in
  let B := reg16 m ZL in
  switch_ok (spr m) A → switch_ok (spr b) B → context_saved b B (ram m) →
  apart (spr b) B (spr m) A →
  ∃ m', run 60 z_thread_switch 0 m = Some m' ∧ context_restored b m' ∧ context_saved m A (ram m') ∧
    (∀ a, a < spr m - 18 ∨ spr m < a → a ≠ A → a ≠ A + 1 → ram m' a = ram m a).
Proof.
  intros A B Hm Hb Hcs Hap. destruct (switch_exec m b Hm Hb Hcs Hap) as (Hr&Hs&Hsp&HcA&HcB&Hfr).
  eexists. split; [apply switch_run|]. revert Hr Hs Hsp HcA HcB Hfr.
  generalize (exec (switch_save ++ switch_load ++ switch_pop) m). intros m3 Hr Hs Hsp HcA HcB Hfr.
  apply (switch_ret m m3 b); assumption.
Qed.

(** ** Two concrete threads *)

(** A thread whose context was saved with the stack pointer 0x2FF. *)
Definition w_to : avr :=
  {| regs := λ r, r + 100; ram := λ a, if a =? 0x300 then 0x12 else if a =? 0x301 then 0x34 else 0;
     spr := 0x2FF; sreg := 0x80; pc := 0 |}.
(** A running thread, with that context in memory, the structures of the two
    threads at 0x100 (X) and 0x110 (Z). *)
Definition w_from : avr :=
  {| regs := λ r, if r =? 27 then 1 else if r =? 26 then 0 else if r =? 31 then 1 else if r =? 30 then 0x10 else r;
     ram := upd (upd (upd (upd (store_down (ram w_to) 0x2FF (regs w_to <$> saved_regs)) 0x2ED 0x80)
       0x110 0xEC) 0x111 0x02) 0x200 0x56;
     spr := 0x1FF; sreg := 0; pc := 0 |}.

Lemma w_switch_saved : context_saved w_to 0x110 (ram w_from).
Proof.
  split; try done. intros i r Hi.
  do 18 (destruct i as [|i]; [cbn in Hi; injection Hi as <-; reflexivity|]). done.
Qed.

(** The first switch resumes the second thread at 0x1234. *)
Lemma z_thread_switch_witness :
  ∃ m', run 60 z_thread_switch 0 w_from = Some m' ∧ context_restored w_to m' ∧
    context_saved w_from 0x100 (ram m') ∧
    (∀ a, a < spr w_from - 18 ∨ spr w_from < a → a ≠ 0x100 → a ≠ 0x101 → ram m' a = ram w_from a).
Proof.
  apply (z_thread_switch_spec w_from w_to).
  - split; [discriminate|reflexivity|split; [discriminate|reflexivity]|left; reflexivity].
  - split; [discriminate|reflexivity|split; [discriminate|reflexivity]|left; reflexivity].
  - exact w_switch_saved.
  - split; [right; reflexivity|]. split; [left; reflexivity|]. split; [left; reflexivity|right; reflexivity].
Defined.

(** ** The tick counter *)

(** The [n] bytes at [a] as a little-endian number. *)
Fixpoint counter (n : nat) (f : Z → Z) (a : Z) : Z :=
  match n with O => 0 | S n => f a + 256 * counter n f (a + 1) end.

Definition bytes_ok (f : Z → Z) : Prop := ∀ a, 0 <= f a < 256.

Lemma counter_ext n f g a : (∀ x, a <= x < a + Z.of_nat n → f x = g x) → counter n f a = counter n g a.
Proof.
  revert a. induction n as [|n IH]; intros a Hx; [done|]. cbn [counter].
  rewrite Hx, IH; [done| |lia]. intros x Hr. apply Hx. lia.
Qed.

Lemma counter_range n f a : bytes_ok f → 0 <= counter n f a < 256 ^ Z.of_nat n.
Proof.
  intros Hf. revert a. induction n as [|n IH]; intros a; [cbn; lia|]. cbn [counter].
  rewrite Nat2Z.inj_succ, Z.pow_succ_r by lia. specialize (IH (a + 1)). specialize (Hf a). nia.
Qed.

(** One byte of the addition: [lds], [adc] (or [add]) and [sts]. *)
Definition adc_byte (a : Z) (m : avr) : avr :=
  let c := Z.b2z (Z.testbit (sreg m) FLAG_C) in
  let v := ram m a + c in
  {| regs := upd (upd (regs m) 0 (ram m a)) 0 (u8 v); ram := upd (ram m) a (u8 v); spr := spr m;
     sreg := add_flags (ram m a) 0 c (sreg m); pc := pc m |}.

Lemma adc_byte_exec a m : in_ram a → regs m 1 = 0 →
  exec [LDS 0 a; ADC 0 1; STS a 0] m = adc_byte a m.
Proof.
  intros Ha H1. rewrite !exec_cons. change (exec [] ?x) with x. cbn [step]. rewrite ld_ram by done.
  set (m1 := set_reg 0 _ m). assert (E0 : regs m1 0 = ram m a) by apply upd_eq.
  assert (E1 : regs m1 1 = 0) by (transitivity (regs m 1); [by apply upd_ne|done]).
  rewrite E0, E1, st_ram by done. unfold adc_byte. cbn [ram set_reg set_regs set_sreg sreg regs spr pc].
  rewrite !Z.add_0_r. reflexivity.
Qed.

Lemma testbit_flag_bit n k b s : 0 <= n → 0 <= k → Z.testbit (flag_bit n b s) k = if k =? n then b else Z.testbit s k.
Proof.
  intros Hn Hk. unfold flag_bit. destruct (Z.eqb_spec k n) as [->|Hne].
  - destruct b.
    + by rewrite Z.lor_spec, Z.pow2_bits_true, orb_true_r.
    + by rewrite Z.land_spec, Z.lnot_spec, Z.pow2_bits_true, andb_false_r.
  - destruct b.
    + by rewrite Z.lor_spec, Z.pow2_bits_false, orb_false_r by lia.
    + by rewrite Z.land_spec, Z.lnot_spec, Z.pow2_bits_false, andb_true_r by lia.
Qed.

Lemma add_flags_C a b c s : Z.testbit (add_flags a b c s) FLAG_C = (256 <=? a + b + c).
Proof. unfold add_flags. rewrite !testbit_flag_bit by (unfold FLAG_H, FLAG_C; lia). done. Qed.

(** What the bytes of a counter satisfy after one byte is processed. *)
Lemma adc_byte_spec a m : bytes_ok (ram m) →
  let c := Z.b2z (Z.testbit (sreg m) FLAG_C) in
  let m' := adc_byte a m in
  bytes_ok (ram m') ∧ (∀ r, r ≠ 0 → regs m' r = regs m r) ∧ spr m' = spr m ∧ pc m' = pc m ∧
  (∀ x, x ≠ a → ram m' x = ram m x) ∧
  ram m' a + 256 * Z.b2z (Z.testbit (sreg m') FLAG_C) = ram m a + c.
Proof.
  intros Hm. cbv zeta. set (c := Z.b2z (Z.testbit (sreg m) FLAG_C)). assert (Hc : 0 <= c <= 1) by (unfold c; destruct (Z.testbit _ _); cbn; lia).
  unfold adc_byte. fold c. cbn [ram regs spr pc sreg]. split_and!; try done.
  - intros x. destruct (decide (x = a)) as [->|]; [rewrite upd_eq; apply u8_range|by rewrite upd_ne].
  - intros r Hr. by rewrite !upd_ne.
  - intros x Hx. by apply upd_ne.
  - fold c. rewrite upd_eq, add_flags_C, Z.add_0_r. specialize (Hm a). unfold u8.
    destruct (Z.leb_spec 256 (ram m a + c)); cbn [Z.b2z].
    + rewrite <- (Z.mod_unique (ram m a + c) 256 1 (ram m a + c - 256)); lia.
    + rewrite Z.mod_small; lia.
Qed.

Fixpoint adc_bytes (n : nat) (a : Z) (m : avr) : avr :=
  match n with O => m | S n => adc_bytes n (a + 1) (adc_byte a m) end.

Lemma adc_bytes_spec n a m : bytes_ok (ram m) →
  let m' := adc_bytes n a m in
  bytes_ok (ram m') ∧ (∀ r, r ≠ 0 → regs m' r = regs m r) ∧ spr m' = spr m ∧ pc m' = pc m ∧
  (∀ x, x < a ∨ a + Z.of_nat n <= x → ram m' x = ram m x) ∧
  counter n (ram m') a + 256 ^ Z.of_nat n * Z.b2z (Z.testbit (sreg m') FLAG_C)
  = counter n (ram m) a + Z.b2z (Z.testbit (sreg m) FLAG_C).
Proof.
  revert a m. induction n as [|n IH]; intros a m Hm; cbv zeta; [split_and!; try done; cbn [adc_bytes counter]; cbn; lia|].
  cbn [adc_bytes counter]. destruct (adc_byte_spec a m Hm) as (B1&B2&B3&B4&B5&B6).
  destruct (IH (a + 1) _ B1) as (A1&A2&A3&A4&A5&A6). set (ma := adc_byte a m) in *.
  set (mb := adc_bytes n (a + 1) ma) in *. clearbody mb ma.
  split_and!; [done|intros r Hr; by rewrite A2, B2|congruence|congruence| |].
  - intros x Hx. rewrite A5, B5 by lia. done.
  - rewrite A5 by lia. rewrite Nat2Z.inj_succ, Z.pow_succ_r by lia.
    rewrite (counter_ext n (ram ma) (ram m)) in A6 by (intros x Hx; apply B5; lia). lia.
Qed.

Definition counter_size (bits40 : bool) : nat := if bits40 then 5 else 4.

(** The first byte: the addition of 1. *)
Definition inc_byte (a : Z) (m : avr) : avr :=
  {| regs := upd (upd (upd (regs m) 18 1) 0 (ram m a)) 0 (u8 (ram m a + 1)); ram := upd (ram m) a (u8 (ram m a + 1));
     spr := spr m; sreg := add_flags (ram m a) 1 0 (sreg m); pc := pc m |}.

Lemma inc_byte_exec a m : in_ram a → exec [LDI 18 1; LDS 0 a; ADD 0 18; STS a 0] m = inc_byte a m.
Proof.
  intros Ha. rewrite !exec_cons. change (exec [] ?x) with x. cbn [step].
  set (m0 := set_reg 18 1 m). rewrite (ld_ram m0) by done. change (ram m0 a) with (ram m a).
  set (m1 := set_reg 0 (ram m a) m0). assert (E0 : regs m1 0 = ram m a) by apply upd_eq.
  assert (E1 : regs m1 18 = 1) by (transitivity (regs m0 18); [by apply upd_ne|apply upd_eq]).
  rewrite E0, E1, st_ram by done. reflexivity.
Qed.

Lemma inc_byte_spec a m : bytes_ok (ram m) →
  let m' := inc_byte a m in
  bytes_ok (ram m') ∧ (∀ r, r ≠ 0 → r ≠ 18 → regs m' r = regs m r) ∧ spr m' = spr m ∧ pc m' = pc m ∧
  (∀ x, x ≠ a → ram m' x = ram m x) ∧
  ram m' a + 256 * Z.b2z (Z.testbit (sreg m') FLAG_C) = ram m a + 1.
Proof.
  intros Hm. cbv zeta. unfold inc_byte. cbn [ram regs spr pc sreg]. split_and!; try done.
  - intros x. destruct (decide (x = a)) as [->|]; [rewrite upd_eq; apply u8_range|by rewrite upd_ne].
  - intros r H1 H2. by rewrite !upd_ne.
  - intros x Hx. by apply upd_ne.
  - rewrite upd_eq, add_flags_C, Z.add_0_r. specialize (Hm a). unfold u8.
    destruct (Z.leb_spec 256 (ram m a + 1)); cbn [Z.b2z].
    + rewrite <- (Z.mod_unique (ram m a + 1) 256 1 (ram m a + 1 - 256)); lia.
    + rewrite Z.mod_small; lia.
Qed.

Lemma adc_bytes_exec n a m : 0x60 <= a → a + Z.of_nat n < 0x10000 → regs m 1 = 0 →
  exec (concat ((λ i, [LDS 0 (a + Z.of_nat i); ADC 0 1; STS (a + Z.of_nat i) 0]) <$> seq 0 n)) m = adc_bytes n a m.
Proof.
  revert a m. induction n as [|n IH]; intros a m H1 H2 Hr; [done|].
  cbn [seq]. rewrite fmap_cons. cbn [concat]. rewrite exec_app. cbn [adc_bytes].
  change (Z.of_nat 0) with 0. rewrite Z.add_0_r.
  rewrite adc_byte_exec; [|unfold in_ram; lia|done].
  rewrite <- IH; [|lia|lia|].
  - rewrite <- seq_shift, <- list_fmap_compose. f_equal. f_equal. apply list_fmap_ext. intros i x _. unfold compose.
    by replace (a + Z.of_nat (S x)) with (a + 1 + Z.of_nat x) by lia.
  - unfold adc_byte. cbn [regs]. by rewrite !upd_ne.
Qed.

Lemma systick_count_exec bits40 z m : 0x60 <= z + 2 → z + 8 < 0x10000 → regs m 1 = 0 →
  exec (systick_count bits40 z) m = adc_bytes (counter_size bits40 - 1) (z + 3) (inc_byte (z + 2) m).
Proof.
  intros H1 H2 Hr. assert (Hn : regs (inc_byte (z + 2) m) 1 = 0) by (unfold inc_byte; cbn [regs]; by rewrite !upd_ne).
  rewrite <- inc_byte_exec in * by (unfold in_ram; lia).
  rewrite <- adc_bytes_exec; [|lia|destruct bits40; cbn; lia|done].
  rewrite <- exec_app. unfold systick_count. f_equal.
  destruct bits40; cbn [counter_size Nat.sub seq fmap list_fmap concat app];
    repeat match goal with |- context [z + 3 + Z.of_nat ?n] =>
      let v := eval vm_compute in (3 + Z.of_nat n) in replace (z + 3 + Z.of_nat n) with (z + v) by lia end; reflexivity.
Qed.

(** One run of the increment. *)
Lemma systick_count_spec bits40 z m : 0x60 <= z + 2 → z + 8 < 0x10000 → regs m 1 = 0 → bytes_ok (ram m) →
  let n := counter_size bits40 in
  let m' := exec (systick_count bits40 z) m in
  counter n (ram m') (z + 2) = (counter n (ram m) (z + 2) + 1) mod 256 ^ Z.of_nat n ∧
  bytes_ok (ram m') ∧ (∀ r, r ≠ 0 → r ≠ 18 → regs m' r = regs m r) ∧ spr m' = spr m ∧ pc m' = pc m ∧
  (∀ x, x < z + 2 ∨ z + 2 + Z.of_nat n <= x → ram m' x = ram m x).
Proof.
  intros H1 H2 Hr Hb. cbv zeta. rewrite systick_count_exec by done.
  destruct (inc_byte_spec (z + 2) m Hb) as (A1&A2&A3&A4&A5&A6). set (ma := inc_byte _ _) in *.
  destruct (adc_bytes_spec (counter_size bits40 - 1) (z + 3) ma A1) as (B1&B2&B3&B4&B5&B6).
  set (mb := adc_bytes _ _ _) in *. clearbody ma mb.
  assert (En : counter_size bits40 = S (counter_size bits40 - 1)) by by destruct bits40.
  generalize dependent (counter_size bits40 - 1)%nat. intros k B5 B6 En. rewrite En. split_and!.
  - cbn [counter]. replace (z + 2 + 1) with (z + 3) by lia. rewrite B5 by lia.
    rewrite (counter_ext k (ram ma) (ram m)) in B6 by (intros x Hx; apply A5; lia).
    apply Z.mod_unique with (q := Z.b2z (Z.testbit (sreg mb) FLAG_C)).
    + left. pose proof (counter_range k (ram mb) (z + 3) B1). pose proof (B1 (z + 2)). rewrite B5 in * by lia.
      rewrite Nat2Z.inj_succ, Z.pow_succ_r by lia. nia.
    + rewrite Nat2Z.inj_succ, Z.pow_succ_r by lia. lia.
  - done.
  - intros r Hr0 Hr18. by rewrite B2, A2.
  - congruence.
  - congruence.
  - intros x Hx. rewrite B5, A5 by lia. done.
Qed.

Lemma systick_counts bits40 z m n : 0x60 <= z + 2 → z + 8 < 0x10000 → regs m 1 = 0 → bytes_ok (ram m) →
  let s := counter_size bits40 in
  let m' := Nat.iter n (exec (systick_count bits40 z)) m in
  counter s (ram m') (z + 2) = (counter s (ram m) (z + 2) + Z.of_nat n) mod 256 ^ Z.of_nat s ∧
  bytes_ok (ram m') ∧ regs m' 1 = 0 ∧ spr m' = spr m ∧
  (∀ x, x < z + 2 ∨ z + 2 + Z.of_nat s <= x → ram m' x = ram m x).
Proof.
  intros H1 H2 Hr Hb. cbv zeta. induction n as [|n IH].
  - cbn [Nat.iter nat_rect]. rewrite Z.add_0_r, Z.mod_small by (by apply counter_range). done.
  - destruct IH as (A1&A2&A3&A4&A5). change (Nat.iter (S n) ?f m) with (f (Nat.iter n f m)).
    set (ma := Nat.iter n _ m) in *. clearbody ma.
    destruct (systick_count_spec bits40 z ma) as (B1&B2&B3&B4&_&B6); [done..|].
    set (mb := exec _ ma) in *. clearbody mb. split_and!; [|done|by rewrite B3|congruence|].
    + rewrite B1, A1. rewrite Z.add_mod_idemp_l by (apply Z.pow_nonzero; lia). f_equal. lia.
    + intros x Hx. by rewrite B6, A5.
Qed.

(** The value of a result of [n] registers, the lowest first. *)
Definition result_regs (n : nat) (r : Z) (m : avr) : Z := counter n (regs m) r.

Lemma step_lds r a m : in_ram a → step (LDS r a) m = set_reg r (ram m a) m.
Proof. intros Ha. cbn [step]. by rewrite ld_ram. Qed.

Lemma ram_set_reg r v m : ram (set_reg r v m) = ram m.
Proof. done. Qed.

Lemma k_ticks_get_32_spec z m : 0x60 <= z + 2 → z + 8 < 0x10000 → in_ram (spr m + 1) → in_ram (spr m + 2) →
  ∃ m', run 10 (k_ticks_get_32 z) 0 m = Some m' ∧ result_regs 4 22 m' = counter 4 (ram m) (z + 2) ∧
    sreg m' = sreg m ∧ ram m' = ram m ∧ returns m m'.
Proof.
  intros H1 H2 Hs1 Hs2. eexists. split; [exact (run_ret [LDS 26 SREG; CLI; LDS 22 (z + 2); LDS 23 (z + 3);
    LDS 24 (z + 4); STS SREG 26; LDS 25 (z + 5)] m 10 eq_refl ltac:(cbn; lia))|].
  rewrite !exec_cons. change (exec [] ?x) with x.
  set (m1 := step CLI (step (LDS 26 SREG) m)).
  assert (E1 : ram m1 = ram m ∧ spr m1 = spr m ∧ regs m1 26 = sreg m) by done. clearbody m1.
  destruct E1 as (R1&S1&G1).
  rewrite (step_lds 22), (step_lds 23), (step_lds 24) by (unfold in_ram; lia). rewrite !ram_set_reg, R1.
  set (m2 := set_reg 24 _ _).
  assert (E2 : ram m2 = ram m1 ∧ spr m2 = spr m1 ∧ regs m2 26 = regs m1 26 ∧ regs m2 22 = ram m (z + 2)
    ∧ regs m2 23 = ram m (z + 3) ∧ regs m2 24 = ram m (z + 4)) by done.
  clearbody m2. destruct E2 as (R2&S2&G2&A22&A23&A24).
  change (step (STS SREG 26) m2) with (set_sreg (regs m2 26) m2).
  rewrite (step_lds 25) by (unfold in_ram; lia). change (ram (set_sreg (regs m2 26) m2)) with (ram m2).
  set (m3 := set_reg 25 _ _).
  assert (E3 : ram m3 = ram m2 ∧ spr m3 = spr m2 ∧ sreg m3 = regs m2 26 ∧ regs m3 22 = regs m2 22
    ∧ regs m3 23 = regs m2 23 ∧ regs m3 24 = regs m2 24 ∧ regs m3 25 = ram m2 (z + 5)) by done.
  clearbody m3. destruct E3 as (R3&S3&G3&B22&B23&B24&B25). rewrite G2, G1 in G3. rewrite R2, R1 in *. rewrite S2, S1 in S3.
  rewrite step_ret by (by rewrite S3). rewrite S3, R3. split_and!; [|done|done|done].
  unfold result_regs. cbn [counter regs set_pc set_spr]. change (22 + 1) with 23. change (23 + 1) with 24. change (24 + 1) with 25.
  rewrite B22, B23, B24, B25, A22, A23, A24. replace (z + 2 + 1) with (z + 3) by lia. replace (z + 3 + 1) with (z + 4) by lia.
  by replace (z + 4 + 1) with (z + 5) by lia.
Qed.

(** The tick interrupt counts: after [n] ticks, [k_ticks_get_32] returns
    the number of ticks modulo 2^32, with the interrupt flag as it was; the
    increments change no other memory and neither the stack pointer nor r1. *)
Theorem ticks_counted bits40 z m n : 0x60 <= z + 2 → z + 8 < spr m → spr m + 2 < 0x10000 → regs m 1 = 0 → bytes_ok (ram m) →
  let s := counter_size bits40 in
  let m1 := Nat.iter n (exec (systick_count bits40 z)) m in
  counter s (ram m1) (z + 2) = (counter s (ram m) (z + 2) + Z.of_nat n) mod 256 ^ Z.of_nat s ∧
  regs m1 1 = 0 ∧ spr m1 = spr m ∧ (∀ x, x < z + 2 ∨ z + 2 + Z.of_nat s <= x → ram m1 x = ram m x) ∧
  ∃ m', run 10 (k_ticks_get_32 z) 0 m1 = Some m' ∧
    result_regs 4 22 m' = (counter s (ram m) (z + 2) + Z.of_nat n) mod 2 ^ 32 ∧
    sreg m' = sreg m1 ∧ ram m' = ram m1 ∧ returns m1 m'.
Proof.
  intros H1 H2 H3 Hr Hb. cbv zeta. destruct (systick_counts bits40 z m n) as (A1&A2&A3&A4&A5); [done|lia|done..|].
  set (m1 := Nat.iter n _ m) in *. clearbody m1. split_and!; [done..|].
  destruct (k_ticks_get_32_spec z m1) as (m'&E&Er&?&?&?); [done|lia|unfold in_ram; lia|unfold in_ram; lia|].
  exists m'. split_and!; [done| |done..]. rewrite Er.
  change (2 ^ 32) with (256 ^ 4). destruct bits40; cbn [counter_size] in A1; [|exact A1].
  pose proof (counter_range 4 (ram m1) (z + 2) A2) as Hc. change (Z.of_nat 4) with 4 in Hc.
  assert (E5 : counter 5 (ram m1) (z + 2) = counter 4 (ram m1) (z + 2) + 256 ^ 4 * ram m1 (z + 6)).
  { cbn [counter]. replace (z + 2 + 1 + 1 + 1 + 1) with (z + 6) by lia. change (256 ^ 4) with (256 * (256 * (256 * 256))). ring. }
  rewrite E5 in A1. cbn [counter_size]. generalize dependent (counter 5 (ram m) (z + 2) + Z.of_nat n). intros v A1.
  rewrite <- (Z.mod_small _ _ Hc). rewrite <- (Z.mod_add _ (ram m1 (z + 6))) by done.
  rewrite (Z.mul_comm _ (256 ^ 4)), A1. change (256 ^ Z.of_nat 5) with (256 ^ 4 * 256).
  rewrite Z.rem_mul_r by done. rewrite (Z.mul_comm (256 ^ 4)), Z.mod_add, Z.mod_mod by done. done.
Qed.
Lemma ticks_counted_witness :
  let m := set_spr 0x800 (set_ram (λ a, if a =? 0x202 then 0xFE else if (0x203 <=? a) && (a <=? 0x205) then 0xFF else 0)
    (set_regs (λ _, 0) w_from)) in
  counter 5 (ram m) 0x202 = 0xFFFFFFFE ∧
  ∃ m', run 10 (k_ticks_get_32 0x200) 0 (Nat.iter 3 (exec (systick_count true 0x200)) m) = Some m' ∧
    result_regs 4 22 m' = 1.
Proof.
  cbv zeta. set (m := set_spr _ _). split; [reflexivity|].
  assert (Hb : bytes_ok (ram m)).
  { intros a. cbn. destruct (a =? 0x202); [lia|]. destruct (_ && _); lia. }
  destruct (ticks_counted true 0x200 m 3 ltac:(done) ltac:(done) ltac:(done) eq_refl Hb) as (_&_&_&_&m'&E&Er&_).
  exists m'. split; [exact E|]. rewrite Er. reflexivity.
Defined.
