(* ===== verification/Interrupt.v ===== *)
(** * The tick interrupt (arch/thread_switch_preempt.S)

    The whole handler, with the calls to the C functions of the kernel as
    routines that keep the calling convention of avr-gcc.  What it interrupts
    goes on as if nothing had happened, at once or, when the thread is
    preempted, when it is switched to again. *)

From S2P Require Import Prelude Avr Context.

(** The switches of avrtos_conf.h, the address of [z_ker], and the word address
    of [__intctx_restore]. *)
Class IsrConfig := {
  CONFIG_KERNEL_TICKS_COUNTER : bool;
  CONFIG_CONFIG_KERNEL_TICKS_COUNTER_40BITS : bool;
  Z_KERNEL_TIME_SLICE_MULTIPLE_TICKS : bool;
  CONFIG_KERNEL_COOPERATIVE_THREADS : bool;
  CONFIG_KERNEL_SCHEDULER_COMPARE_THREADS_BEFORE_SWITCH : bool;
  z_ker : Z;
  pm_intctx_restore : Z;
}.

Section Interrupt.
Context `{IsrConfig}.

(** ** Programs with calls and labels *)

Inductive routine := z_sched_enter | z_scheduler.
Inductive label := exit_kernel_int | intctx_restore_minimal | yield | thread_switch.
Inductive xinstr := | Ins (i : instr) | CALL (f : routine) | CP (d r : Z) | XBRNE (l : label) | XJMP (l : label) | RETI.

(** [z_ker + 2 + CONFIG_KERNEL_TICKS_COUNTER_SIZE]. *)
Definition ticks_size : nat := if CONFIG_KERNEL_TICKS_COUNTER then counter_size CONFIG_CONFIG_KERNEL_TICKS_COUNTER_40BITS else 0.
Definition sched_ticks_remaining : Z := z_ker + 2 + Z.of_nat ticks_size.
(** [Z_THREAD_PRIO_COOP | Z_THREAD_SCHED_LOCKED_MSK]. *)
Definition LOCKED_MSK : Z := 20.

Definition isr_head : list instr := [PUSH 1; PUSH 0; LDS 0 SREG; PUSH 0; EOR 1 1; PUSH 18].
Definition isr_count : list instr := if CONFIG_KERNEL_TICKS_COUNTER then systick_count CONFIG_CONFIG_KERNEL_TICKS_COUNTER_40BITS z_ker else [].
Definition isr_slice : list instr := [LDS 18 sched_ticks_remaining; SUBI 18 1; STS sched_ticks_remaining 18].
Definition isr_regs : list Z := [19; 20; 21; 22; 23; 24; 25; 26; 27; 30; 31].
Definition isr_flags : list instr := [LDS 30 z_ker; LDS 31 (z_ker + 1); LDD_Z 18 2; ANDI 18 LOCKED_MSK].
Definition isr_return : list instr := [LDI 24 (u8 pm_intctx_restore); LDI 25 (Z.shiftr pm_intctx_restore 8); PUSH 24; PUSH 25].

Definition restore_minimal : list xinstr := (Ins <$> [POP 18; POP 0; STS SREG 0; POP 0; POP 1]) ++ [RETI].
Definition intctx_restore : list xinstr := (Ins <$> (POP <$> reverse isr_regs)) ++ restore_minimal.
Definition z_yield : list xinstr :=
  CALL z_scheduler :: (Ins <$> [MOVW 26 24; LDS 30 z_ker; LDS 31 (z_ker + 1)]) ++
  (if CONFIG_KERNEL_SCHEDULER_COMPARE_THREADS_BEFORE_SWITCH
   then [CP 26 30; XBRNE thread_switch; CP 27 31; XBRNE thread_switch; Ins RET] else []) ++
  (Ins <$> z_thread_switch).
Definition tick_isr : list xinstr :=
  (Ins <$> isr_head) ++ (Ins <$> isr_count) ++
  (if Z_KERNEL_TIME_SLICE_MULTIPLE_TICKS then (Ins <$> isr_slice) ++ [XBRNE intctx_restore_minimal] else []) ++
  (Ins <$> (PUSH <$> isr_regs)) ++ [CALL z_sched_enter] ++
  (if CONFIG_KERNEL_COOPERATIVE_THREADS
   then (Ins <$> isr_flags) ++ [XBRNE exit_kernel_int] ++ (Ins <$> isr_return) ++ [XJMP yield] else []) ++
  intctx_restore.

Definition code_of (l : label) : list xinstr :=
  match l with
  | exit_kernel_int => intctx_restore
  | intctx_restore_minimal => restore_minimal
  | yield => z_yield
  | thread_switch => Ins <$> z_thread_switch
  end.

(** The return from an interrupt enables interrupts. *)
Definition step_reti (m : avr) : avr := let m := step RET m in set_sreg (flag_bit FLAG_I true (sreg m)) m.

Variable c_code : routine → avr → avr.

(** Execution up to a return; the fuel counts the jumps taken. *)
Fixpoint xrun (jumps : nat) : list xinstr → avr → option avr :=
  fix go (p : list xinstr) (m : avr) : option avr :=
    match p with
    | [] => None
    | Ins RET :: _ => Some (step RET m)
    | Ins i :: p => go p (step i m)
    | CALL f :: p => go p (c_code f m)
    | CP d r :: p => go p (set_sreg (sub_flags (regs m d) (regs m r) (sreg m)) m)
    | XBRNE l :: p => if Z.testbit (sreg m) FLAG_Z then go p m
                      else match jumps with O => None | S jumps => xrun jumps (code_of l) m end
    | XJMP l :: _ => match jumps with O => None | S jumps => xrun jumps (code_of l) m end
    | RETI :: _ => Some (step_reti m)
    end.

(** The hardware pushes the program counter, low byte first, and disables
    interrupts. *)
Definition interrupt (m : avr) : avr :=
  let m := push (Z.shiftr (pc m) 8) (push (u8 (pc m)) m) in
  set_sreg (flag_bit FLAG_I false (sreg m)) m.

(** ** Executing *)

Lemma xrun_nil j m : xrun j [] m = None.
Proof. by destruct j. Qed.
Lemma xrun_straight j l p m : forallb straight l = true → xrun j ((Ins <$> l) ++ p) m = xrun j p (exec l m).
Proof.
  revert m. induction l as [|i l IH]; intros m Hs; [done|]. simpl in Hs. apply andb_true_iff in Hs as [Hi Hs].
  rewrite exec_cons, <- IH by done. by destruct j, i.
Qed.
Lemma xrun_call j f p m : xrun j (CALL f :: p) m = xrun j p (c_code f m).
Proof. by destruct j. Qed.
Lemma xrun_cp j d r p m : xrun j (CP d r :: p) m = xrun j p (set_sreg (sub_flags (regs m d) (regs m r) (sreg m)) m).
Proof. by destruct j. Qed.
Lemma xrun_brne j l p m : xrun (S j) (XBRNE l :: p) m = if Z.testbit (sreg m) FLAG_Z then xrun (S j) p m else xrun j (code_of l) m.
Proof. done. Qed.
Lemma xrun_jmp j l p m : xrun (S j) (XJMP l :: p) m = xrun j (code_of l) m.
Proof. done. Qed.
Lemma xrun_reti j p m : xrun j (RETI :: p) m = Some (step_reti m).
Proof. by destruct j. Qed.
Lemma xrun_ret j p m : xrun j (Ins RET :: p) m = Some (step RET m).
Proof. by destruct j. Qed.

Lemma svnz_Z res v s : Z.testbit (svnz res v s) FLAG_Z = (res =? 0).
Proof. unfold svnz. rewrite !testbit_flag_bit by (unfold FLAG_S, FLAG_V, FLAG_N, FLAG_Z; lia). done. Qed.
Lemma sub_flags_Z a b s : Z.testbit (sub_flags a b s) FLAG_Z = (u8 (a - b) =? 0).
Proof.
  unfold sub_flags. rewrite !(testbit_flag_bit _ FLAG_Z) by (unfold FLAG_H, FLAG_C, FLAG_Z; lia). cbn [FLAG_Z FLAG_H FLAG_C Z.eqb Pos.eqb].
  apply svnz_Z.
Qed.
Lemma sub_flags_Z_eq a b s : 0 <= a < 256 → 0 <= b < 256 → Z.testbit (sub_flags a b s) FLAG_Z = (a =? b).
Proof.
  intros Ha Hb. rewrite sub_flags_Z. unfold u8. destruct (Z.eqb_spec a b) as [->|Hne]; [by rewrite Z.sub_diag|].
  apply Z.eqb_neq. intros E. apply Hne. destruct (Z.lt_ge_cases a b).
  - rewrite <- (Z.mod_unique (a - b) 256 (-1) (a - b + 256)) in E; lia.
  - rewrite Z.mod_small in E; lia.
Qed.

(** ** The frame of the interrupt *)

(** The interrupted machine, and what the C code may write: the data of the
    kernel and of the handlers ([owned]), and a frame of [depth] bytes on the
    stack it is called on. *)
Variables (m0 : avr) (owned : Z → Prop) (depth : Z).
Definition s0 : Z := spr m0.
Definition stack_low : Z := s0 - 40 - depth.
Definition own_stack (a : Z) : Prop := stack_low < a <= s0.

(** The addresses: the stack has room and is apart from the data. *)
Record memory_ok : Prop := {
  mo_depth : 0 <= depth;
  mo_low : 0x60 <= stack_low;
  mo_high : s0 < 0x10000;
  mo_stack a : own_stack a → ¬ owned a;
  mo_ker a : z_ker <= a < z_ker + 8 → owned a;
  mo_ker_low : 0x60 <= z_ker;
  mo_ker_high : z_ker + 8 < 0x10000;
}.
Hypothesis Hmem : memory_ok.

(** The calling convention: the call-saved registers, the stack pointer and
    the zero register are kept, and nothing is written but what may be. *)
Definition c_abi (f : routine) (m : avr) : Prop :=
  let m' := c_code f m in
  spr m' = spr m ∧ (∀ r, r ∈ saved_regs → regs m' r = regs m r) ∧ regs m' 1 = 0 ∧
  ∀ a, ¬ owned a → ¬ (stack_low < a <= spr m) → ram m' a = ram m a.

(** In the handler, [vs] having been pushed: the call-saved registers are those
    of the thread, and the memory that the handler does not use is [g]. *)
Record in_isr (g : Z → Z) (vs : list Z) (m : avr) : Prop := {
  ii_sp : spr m = s0 - Z.of_nat (length vs);
  ii_frame i v : vs !! i = Some v → ram m (s0 - Z.of_nat i) = v;
  ii_saved r : r ∈ saved_regs → regs m r = regs m0 r;
  ii_ram a : ¬ owned a → ¬ own_stack a → ram m a = g a;
}.

Lemma stack_room n : (n < 40)%nat → in_ram (s0 - Z.of_nat n) ∧ own_stack (s0 - Z.of_nat n).
Proof. intros Hn. destruct Hmem. unfold in_ram, own_stack, stack_low, s0 in *. lia. Qed.

Lemma in_isr_start : in_isr (ram m0) [] m0.
Proof. split; try done; cbn; unfold s0; lia. Qed.

Lemma push_run v m : in_ram (spr m) → push v m = set_spr (spr m - 1) (set_ram (upd (ram m) (spr m) v) m).
Proof. intros Hs. unfold push. rewrite st_ram by done. by rewrite u16_small by (unfold in_ram in Hs; lia). Qed.

Lemma in_isr_push {g} v vs m : in_isr g vs m → (length vs < 40)%nat →
  in_isr g (vs ++ [v]) (push v m) ∧ regs (push v m) = regs m ∧ sreg (push v m) = sreg m ∧ pc (push v m) = pc m ∧
  ∀ a, a ≠ spr m → ram (push v m) a = ram m a.
Proof.
  intros [E1 E2 E3 E4] Hl. destruct (stack_room _ Hl) as [Hr Ho]. rewrite push_run by (by rewrite E1). split_and!; try done.
  - split; cbn [spr ram regs set_spr set_ram].
    + rewrite length_app, E1. cbn. lia.
    + intros i w Hi. apply lookup_app_Some in Hi as [Hi|[Hi Hw]].
      * rewrite upd_ne; [by apply E2|]. rewrite E1. apply lookup_lt_Some in Hi. lia.
      * apply list_lookup_singleton_Some in Hw as [Hz <-]. replace i with (length vs) by lia. rewrite E1. apply upd_eq.
    + done.
    + intros a Hn Hs. rewrite upd_ne; [by apply E4|]. rewrite E1. by intros ->.
  - intros a Ha. cbn. by apply upd_ne.
Qed.

Lemma in_isr_pushes {g} rs : ∀ vs m, in_isr g vs m → (length vs + length rs <= 40)%nat →
  in_isr g (vs ++ (regs m <$> rs)) (exec (PUSH <$> rs) m) ∧ regs (exec (PUSH <$> rs) m) = regs m ∧
  ∀ a, ¬ own_stack a → ram (exec (PUSH <$> rs) m) a = ram m a.
Proof.
  induction rs as [|r rs IH]; intros vs m Hi Hl; [cbn; by rewrite app_nil_r|]. cbn [length] in Hl.
  rewrite !fmap_cons, exec_cons. cbn [step].
  destruct (in_isr_push (regs m r) vs m Hi) as (Hi1&Er&_&_&Em); [lia|].
  destruct (IH _ _ Hi1) as (Hi2&Er2&Em2); [rewrite length_app; cbn; lia|].
  rewrite Er in *. rewrite <- app_assoc in Hi2. split_and!; [exact Hi2|done|].
  intros a Ha. rewrite Em2, Em; [done| |done]. intros ->. apply Ha. rewrite (ii_sp _ _ _ Hi). apply stack_room. lia.
Qed.

Lemma in_isr_regs {g} vs m f : in_isr g vs m → (∀ r, r ∈ saved_regs → f r = regs m r) → in_isr g vs (set_regs f m).
Proof. intros [E1 E2 E3 E4] Hf. split; try done. intros r Hr. cbn. by rewrite Hf, E3. Qed.
Lemma in_isr_set_reg {g} r v vs m : in_isr g vs m → r ∉ saved_regs → in_isr g vs (set_reg r v m).
Proof. intros Hi Hr. apply in_isr_regs; [done|]. intros x Hx. apply upd_ne. by intros ->. Qed.
Lemma in_isr_sreg {g} v vs m : in_isr g vs m → in_isr g vs (set_sreg v m).
Proof. by intros []. Qed.
Lemma in_isr_store {g} a v vs m : in_isr g vs m → owned a → (length vs <= 40)%nat → in_isr g vs (set_ram (upd (ram m) a v) m).
Proof.
  intros [E1 E2 E3 E4] Ha Hl. split; try done; cbn [ram set_ram].
  - intros i w Hi. rewrite upd_ne; [by apply E2|]. intros <-. apply lookup_lt_Some in Hi as Hlt.
    destruct (stack_room i) as [_ Ho]; [lia|]. by apply (mo_stack Hmem _ Ho).
  - intros x Hx Hs. rewrite upd_ne; [by apply E4|]. by intros ->.
Qed.

Lemma in_isr_call {g} f vs m : in_isr g vs m → c_abi f m → (0 < length vs < 40)%nat →
  in_isr g vs (c_code f m) ∧ regs (c_code f m) 1 = 0.
Proof.
  intros [E1 E2 E3 E4] (Es&Er&H1'&Hf) Hl. split; [|done]. split.
  - congruence.
  - intros i v Hi. apply lookup_lt_Some in Hi as Hlt. destruct (stack_room i) as [_ Ho]; [lia|].
    rewrite Hf; [by apply E2|by apply (mo_stack Hmem)|lia].
  - intros r Hr. by rewrite Er, E3.
  - intros a Hn Hs. rewrite Hf; [by apply E4|done|]. unfold own_stack in Hs. lia.
Qed.

(** ** Entry *)

(** The interrupted thread runs with interrupts enabled. *)
Record running_ok : Prop := {
  ro_ram : bytes_ok (ram m0);
  ro_regs r : 0 <= regs m0 r < 256;
  ro_pc : 0 <= pc m0 < 65536;
  ro_sreg : 0 <= sreg m0 < 256;
  ro_int : Z.testbit (sreg m0) FLAG_I = true;
}.
Hypothesis Hrun : running_ok.

Definition frame_head : list Z :=
  [u8 (pc m0); Z.shiftr (pc m0) 8; regs m0 1; regs m0 0; flag_bit FLAG_I false (sreg m0); regs m0 18].
Definition frame : list Z := frame_head ++ (regs m0 <$> isr_regs).
Definition frame_yield : list Z := frame ++ [u8 pm_intctx_restore; Z.shiftr pm_intctx_restore 8].

(** Nothing but the stack of the thread has been written yet. *)
Definition fresh (m : avr) : Prop := bytes_ok (ram m) ∧ ∀ a, ¬ own_stack a → ram m a = ram m0 a.

Lemma fresh_push {g} v vs m : in_isr g vs m → (length vs < 40)%nat → fresh m → 0 <= v < 256 → fresh (push v m).
Proof.
  intros Hi Hl [Hb Hf] Hv. destruct (stack_room _ Hl) as [Hr Ho]. rewrite <- (ii_sp _ _ _ Hi) in *. rewrite push_run by done.
  split; intros a; cbn [ram set_spr set_ram]; unfold upd.
  - destruct (a =? _); [done|apply Hb].
  - intros Ha. destruct (Z.eqb_spec a (spr m)) as [->|]; [done|by apply Hf].
Qed.

Lemma exec_isr_head m : exec isr_head m =
  let a := push (regs m 1) m in
  let b := push (regs a 0) a in
  let c := set_reg 0 (sreg b) b in
  let d := step (EOR 1 1) (push (regs c 0) c) in
  push (regs d 18) d.
Proof. reflexivity. Qed.

(** Clearing and setting the interrupt flag. *)
Lemma flag_I_range x : 0 <= x < 256 → 0 <= flag_bit FLAG_I false x < 256.
Proof.
  intros Hx. assert (Hall : forallb (λ x, (0 <=? flag_bit FLAG_I false x) && (flag_bit FLAG_I false x <? 256)) (seqZ 0 256) = true)
    by (vm_compute; done).
  rewrite forallb_forall in Hall. specialize (Hall x ltac:(apply list_elem_of_In, elem_of_seqZ; lia)).
  apply andb_true_iff in Hall as [?%Z.leb_le ?%Z.ltb_lt]. done.
Qed.
Lemma flag_I_back x : 0 <= x → Z.testbit x FLAG_I = true → flag_bit FLAG_I true (flag_bit FLAG_I false x) = x.
Proof.
  intros Hx Hb. apply Z.bits_inj'. intros n Hn. rewrite !testbit_flag_bit by (unfold FLAG_I; lia).
  destruct (Z.eqb_spec n FLAG_I) as [->|]; done.
Qed.

Lemma isr_entry : let m := exec isr_head (interrupt m0) in
  in_isr (ram m0) frame_head m ∧ regs m 1 = 0 ∧ (∀ r, r ≠ 0 → r ≠ 1 → regs m r = regs m0 r) ∧ fresh m.
Proof.
  destruct Hrun as [Hb Hr Hp Hs Hint]. assert (Hf0 : fresh m0) by done. pose proof in_isr_start as Hi. cbv zeta. rewrite exec_isr_head. unfold interrupt. cbv zeta.
  destruct (in_isr_push (u8 (pc m0)) _ _ Hi) as (Hi1&R1&S1&_&_); [cbn; lia|]. pose proof (fresh_push _ _ _ Hi ltac:(cbn; lia) Hf0 (u8_range (pc m0))) as B1.
  set (m1 := push (u8 (pc m0)) m0) in *. clearbody m1.
  destruct (in_isr_push (Z.shiftr (pc m0) 8) _ _ Hi1) as (Hi2&R2&S2&_&_); [cbn; lia|].
  pose proof (fresh_push _ _ _ Hi1 ltac:(cbn; lia) B1 (shiftr8 _ Hp)) as B2. set (m2 := push _ m1) in *. clearbody m2.
  pose proof (in_isr_sreg (flag_bit FLAG_I false (sreg m2)) _ _ Hi2) as Hi3. set (m3 := set_sreg _ m2) in *.
  assert (R3 : regs m3 = regs m0) by (change (regs m3) with (regs m2); congruence).
  assert (S3 : sreg m3 = flag_bit FLAG_I false (sreg m0)) by (change (sreg m3) with (flag_bit FLAG_I false (sreg m2)); congruence).
  assert (B3 : fresh m3) by exact B2. clearbody m3.
  destruct (in_isr_push (regs m3 1) _ _ Hi3) as (Hi4&R4&S4&_&_); [cbn; lia|].
  pose proof (fresh_push (regs m3 1) _ _ Hi3 ltac:(cbn; lia) B3 ltac:(rewrite R3; apply Hr)) as B4. set (m4 := push (regs m3 1) m3) in *. clearbody m4.
  destruct (in_isr_push (regs m4 0) _ _ Hi4) as (Hi5&R5&S5&_&_); [cbn; lia|].
  pose proof (fresh_push (regs m4 0) _ _ Hi4 ltac:(cbn; lia) B4 ltac:(rewrite R4, R3; apply Hr)) as B5. set (m5 := push (regs m4 0) m4) in *. clearbody m5.
  assert (Es : sreg m5 = flag_bit FLAG_I false (sreg m0)) by congruence. rewrite Es.
  set (m6 := set_reg 0 _ m5). assert (E6 : regs m6 0 = flag_bit FLAG_I false (sreg m0)) by apply upd_eq.
  assert (R6 : ∀ r, r ≠ 0 → regs m6 r = regs m0 r) by (intros r Hne; transitivity (regs m5 r); [by apply upd_ne|congruence]).
  assert (Hi6 : in_isr (ram m0) (((([] ++ [u8 (pc m0)]) ++ [Z.shiftr (pc m0) 8]) ++ [regs m3 1]) ++ [regs m4 0]) m6)
    by (apply in_isr_set_reg; [done|set_solver]).
  assert (B6 : fresh m6) by exact B5. clearbody m6. rewrite ?E6.
  destruct (in_isr_push (flag_bit FLAG_I false (sreg m0)) _ _ Hi6) as (Hi7&R7&_&_&_); [cbn; lia|].
  pose proof (fresh_push _ _ _ Hi6 ltac:(cbn; lia) B6 (flag_I_range _ Hs)) as B7. set (m7 := push _ m6) in *. clearbody m7.
  set (m8 := step (EOR 1 1) m7).
  assert (R8 : ∀ r, r ≠ 0 → r ≠ 1 → regs m8 r = regs m0 r).
  { intros r H0 H1. transitivity (regs m7 r); [by apply upd_ne|]. rewrite R7. by apply R6. }
  assert (Z8 : regs m8 1 = 0) by (transitivity (Z.lxor (regs m7 1) (regs m7 1)); [apply upd_eq|apply Z.lxor_nilpotent]).
  assert (Hi8 : in_isr (ram m0) ((((([] ++ [u8 (pc m0)]) ++ [Z.shiftr (pc m0) 8]) ++ [regs m3 1]) ++ [regs m4 0]) ++ [flag_bit FLAG_I false (sreg m0)]) m8).
  { apply in_isr_sreg, in_isr_set_reg; [done|set_solver]. }
  assert (B8 : fresh m8) by exact B7. clearbody m8.
  destruct (in_isr_push (regs m8 18) _ _ Hi8) as (Hi9&R9&_&_&_); [cbn; lia|].
  pose proof (fresh_push (regs m8 18) _ _ Hi8 ltac:(cbn; lia) B8 ltac:(rewrite R8 by done; apply Hr)) as B9.
  set (m9 := push (regs m8 18) m8) in *. clearbody m9.
  split_and!; [|by rewrite R9|intros r H0 H1; rewrite R9; by apply R8|exact B9].
  rewrite R8, R4, R3 in Hi9 by done. exact Hi9.
Qed.

(** ** Exit *)

(** The thread goes on as if it had not been interrupted. *)
Definition goes_on (m : avr) : Prop :=
  (∀ r, 0 <= r < 32 → regs m r = regs m0 r) ∧ sreg m = sreg m0 ∧ spr m = spr m0 ∧ pc m = pc m0.

Lemma reg_cases r : 0 <= r < 32 → r = 0 ∨ r = 1 ∨ r ∈ saved_regs ∨ r ∈ reverse (18 :: isr_regs).
Proof.
  intros Hr. assert (Hall : forallb (λ r, (r =? 0) || (r =? 1) || bool_decide (r ∈ saved_regs) || bool_decide (r ∈ reverse (18 :: isr_regs)))
    (seqZ 0 32) = true) by (vm_compute; done).
  rewrite forallb_forall in Hall. specialize (Hall r ltac:(apply list_elem_of_In, elem_of_seqZ; lia)).
  apply orb_true_iff in Hall as [[[?%Z.eqb_eq|?%Z.eqb_eq]%orb_true_iff|?%bool_decide_eq_true]%orb_true_iff|?%bool_decide_eq_true]; auto.
Qed.

(** The tail: the status register, r0, r1 and the return. *)
Lemma restore_tail {g} vs m :
  in_isr g vs m → vs = take 5 frame_head → (∀ r, r ∈ reverse (18 :: isr_regs) → regs m r = regs m0 r) →
  goes_on (step_reti (exec [POP 0; STS SREG 0; POP 0; POP 1] m)) ∧
  ram (step_reti (exec [POP 0; STS SREG 0; POP 0; POP 1] m)) = ram m.
Proof.
  intros [E1 E2 E3 E4] -> Hr. destruct Hrun as [_ _ Hp Hs Hint]. cbn [length take frame_head] in E1.
  assert (Hin : ∀ n, (n < 40)%nat → in_ram (s0 - Z.of_nat n)) by (intros n Hn; by apply stack_room).
  rewrite !exec_cons. change (exec [] ?x) with x.
  rewrite (step_pop 0 m) by (rewrite E1; replace (s0 - Z.of_nat 5 + 1) with (s0 - Z.of_nat 4) by lia; apply Hin; lia).
  replace (spr m + 1) with (s0 - Z.of_nat 4) by lia. rewrite (E2 4%nat _ eq_refl).
  change (step (STS SREG 0) ?x) with (set_sreg (regs x 0) x).
  change (regs (set_reg 0 ?v ?x) 0) with v.
  set (ma := set_sreg _ _). assert (Ea : spr ma = s0 - Z.of_nat 4 ∧ ram ma = ram m) by done. destruct Ea as [Sa Ra].
  rewrite (step_pop 0 ma) by (rewrite Sa; replace (s0 - Z.of_nat 4 + 1) with (s0 - Z.of_nat 3) by lia; apply Hin; lia).
  rewrite Sa, Ra. replace (s0 - Z.of_nat 4 + 1) with (s0 - Z.of_nat 3) by lia. rewrite (E2 3%nat _ eq_refl).
  set (mb := set_reg 0 _ _). assert (Eb : spr mb = s0 - Z.of_nat 3 ∧ ram mb = ram m) by done. destruct Eb as [Sb Rb].
  rewrite (step_pop 1 mb) by (rewrite Sb; replace (s0 - Z.of_nat 3 + 1) with (s0 - Z.of_nat 2) by lia; apply Hin; lia).
  rewrite Sb, Rb. replace (s0 - Z.of_nat 3 + 1) with (s0 - Z.of_nat 2) by lia. rewrite (E2 2%nat _ eq_refl).
  set (mc := set_reg 1 _ _). assert (Ec : spr mc = s0 - Z.of_nat 2 ∧ ram mc = ram m ∧ sreg mc = flag_bit FLAG_I false (sreg m0)) by done.
  destruct Ec as (Sc&Rc&Gc).
  assert (Hregs : ∀ r, 0 <= r < 32 → regs mc r = regs m0 r).
  { intros r Hr'. unfold mc, mb, ma. cbn [regs set_reg set_regs set_spr set_sreg]. unfold upd.
    destruct (Z.eqb_spec r 1) as [->|H1]; [done|]. destruct (Z.eqb_spec r 0) as [->|H0]; [done|].
    destruct (reg_cases r Hr') as [?|[?|[Hin'|Hin']]]; [done|done|by apply E3|by apply Hr]. }
  clearbody mc. unfold step_reti.
  rewrite step_ret by (rewrite Sc; unfold in_ram; pose proof (Hin 0%nat ltac:(lia)); pose proof (Hin 1%nat ltac:(lia)); unfold in_ram in *; lia).
  rewrite Sc, Rc. replace (s0 - Z.of_nat 2 + 1) with (s0 - Z.of_nat 1) by lia. replace (s0 - Z.of_nat 2 + 2) with (s0 - Z.of_nat 0) by lia.
  rewrite (E2 0%nat _ eq_refl), (E2 1%nat _ eq_refl). split; [|exact Rc]. split_and!.
  - exact Hregs.
  - cbn [sreg set_sreg set_pc set_spr]. rewrite Gc. by apply flag_I_back; [lia|].
  - cbn [spr set_sreg set_pc set_spr]. unfold s0. lia.
  - cbn [pc set_sreg set_pc set_spr]. pose proof (split16 (pc m0) Hp). lia.
Qed.

Lemma in_isr_pop {g} r v vs m : in_isr g (vs ++ [v]) m → (length vs < 40)%nat → r ∉ saved_regs →
  let m' := step (POP r) m in
  in_isr g vs m' ∧ regs m' r = v ∧ (∀ x, x ≠ r → regs m' x = regs m x) ∧ ram m' = ram m.
Proof.
  intros [E1 E2 E3 E4] Hl Hr. rewrite length_app in E1. cbn [length] in E1. destruct (stack_room _ Hl) as [Hin _].
  replace (s0 - Z.of_nat (length vs)) with (spr m + 1) in Hin by lia. cbv zeta. rewrite step_pop by done.
  split; [|split_and!; [|intros x Hx; by apply upd_ne|done]].
  - apply in_isr_set_reg; [|done]. split; cbn [spr ram regs set_spr]; [lia| |done..].
    intros i w Hi. apply E2. by apply lookup_app_l_Some.
  - rewrite <- (E2 (length vs) v) by (by rewrite list_lookup_middle). cbn. rewrite upd_eq. f_equal. lia.
Qed.

Lemma in_isr_pops {g} f rs : ∀ vs m, in_isr g (vs ++ (f <$> rs)) m → (length vs + length rs <= 40)%nat → NoDup rs →
  (∀ r, r ∈ rs → r ∉ saved_regs) →
  let m' := exec (POP <$> reverse rs) m in
  in_isr g vs m' ∧ (∀ r, r ∈ rs → regs m' r = f r) ∧ (∀ x, x ∉ rs → regs m' x = regs m x) ∧ ram m' = ram m.
Proof.
  induction rs as [|r rs IH] using rev_ind; intros vs m Hi Hl Hnd Hs; cbv zeta.
  { cbn in *. rewrite app_nil_r in Hi. split_and!; try done. intros r Hr. by apply not_elem_of_nil in Hr. }
  rewrite length_app in Hl. cbn in Hl. rewrite fmap_app, app_assoc in Hi. cbn [fmap list_fmap] in Hi.
  apply NoDup_app in Hnd as (Hnd&Hx&_).
  destruct (in_isr_pop r _ _ m Hi) as (Hi1&R1&O1&M1); [rewrite length_app, length_fmap; lia|apply Hs; set_solver|].
  rewrite reverse_snoc, fmap_cons, exec_cons.
  destruct (IH vs _ Hi1) as (Hi2&R2&O2&M2); [lia|done|intros x Hin; apply Hs; set_solver|].
  split_and!; [done| | |congruence].
  - intros x [Hin| ->%list_elem_of_singleton]%elem_of_app; [by apply R2|]. rewrite O2; [done|]. intros Hin. by apply (Hx r Hin), list_elem_of_singleton.
  - intros x Hin. rewrite O2, O1; [done|set_solver|set_solver].
Qed.

Lemma isr_regs_ok : NoDup (18 :: isr_regs) ∧ ∀ r, r ∈ 18 :: isr_regs → r ∉ saved_regs.
Proof.
  split; [apply (bool_decide_unpack _); vm_compute; exact I|]. intros r Hr Hs.
  assert (Hall : forallb (λ r, negb (bool_decide (r ∈ saved_regs))) (18 :: isr_regs) = true) by (vm_compute; done).
  rewrite forallb_forall in Hall. specialize (Hall r (proj1 (list_elem_of_In _ _) Hr)). by rewrite bool_decide_true in Hall.
Qed.

Lemma isr_regs_high r : r ∈ isr_regs → r ≠ 0 ∧ r ≠ 1 ∧ r ≠ 18.
Proof.
  intros Hr. assert (Hall : forallb (λ r, 18 <? r) isr_regs = true) by done.
  rewrite forallb_forall in Hall. specialize (Hall r (proj1 (list_elem_of_In _ _) Hr)). apply Z.ltb_lt in Hall. lia.
Qed.

Lemma frame_take : frame_head = take 5 frame_head ++ [regs m0 18].
Proof. done. Qed.

Lemma restore_minimal_run {g} j m : in_isr g frame_head m → (∀ r, r ∈ isr_regs → regs m r = regs m0 r) →
  ∃ m', xrun j restore_minimal m = Some m' ∧ goes_on m' ∧ ram m' = ram m.
Proof.
  intros Hi Hr. unfold restore_minimal. rewrite xrun_straight, xrun_reti by done. eexists. split; [reflexivity|].
  rewrite exec_cons. rewrite frame_take in Hi.
  destruct (in_isr_pop 18 _ _ m Hi) as (Hi1&R1&O1&M1); [cbn; lia|apply isr_regs_ok; by left|].
  destruct (restore_tail _ _ Hi1 eq_refl) as [Hg Hm]; [|split; [exact Hg|by rewrite Hm]].
  intros r Hin. rewrite reverse_cons in Hin. apply elem_of_app in Hin as [Hin| ->%list_elem_of_singleton]; [|done].
  apply elem_of_reverse in Hin. rewrite O1; [by apply Hr|]. intros ->. pose proof isr_regs_ok as [[Hn _]%NoDup_cons _]. done.
Qed.

Lemma intctx_restore_run {g} j m : in_isr g frame m → ∃ m', xrun j intctx_restore m = Some m' ∧ goes_on m' ∧ ram m' = ram m.
Proof.
  intros Hi. unfold intctx_restore. rewrite xrun_straight by reflexivity. pose proof isr_regs_ok as [[_ Hnd]%NoDup_cons Hs].
  destruct (in_isr_pops (regs m0) isr_regs frame_head m Hi) as (Hi1&R1&_&M1); [cbn; lia|done|intros r Hr; apply Hs; by right|].
  destruct (restore_minimal_run j _ Hi1 R1) as (m'&E&Hg&Em). exists m'. split; [done|]. split; [done|]. congruence.
Qed.

(** ** The handler *)

(** What the handler writes before it calls the kernel: the tick counter, and
    the ticks left in the time slice. *)
Definition counter_ok (m : avr) : Prop :=
  counter ticks_size (ram m) (z_ker + 2) = (counter ticks_size (ram m0) (z_ker + 2) + 1) mod 256 ^ Z.of_nat ticks_size ∧
  ∀ a, ¬ own_stack a → (a < z_ker + 2 ∨ z_ker + 2 + Z.of_nat ticks_size <= a) → ram m a = ram m0 a.

Lemma own_stack_ker a : z_ker <= a < z_ker + 8 → ¬ own_stack a.
Proof. intros Ha Ho. by apply (mo_stack Hmem a Ho), (mo_ker Hmem). Qed.

Lemma ticks_size_cases : ticks_size = 0%nat ∨ ticks_size = 4%nat ∨ ticks_size = 5%nat.
Proof. unfold ticks_size, counter_size. destruct CONFIG_KERNEL_TICKS_COUNTER, CONFIG_CONFIG_KERNEL_TICKS_COUNTER_40BITS; auto. Qed.

Lemma isr_begin j p : ∃ m, xrun j ((Ins <$> isr_head) ++ (Ins <$> isr_count) ++ p) (interrupt m0) = xrun j p m ∧
  in_isr (ram m0) frame_head m ∧ regs m 1 = 0 ∧ (∀ r, r ≠ 0 → r ≠ 1 → r ≠ 18 → regs m r = regs m0 r) ∧ bytes_ok (ram m) ∧ counter_ok m.
Proof.
  rewrite xrun_straight by done. destruct isr_entry as (Hi&H1&Hr&Hb&Hf). set (m1 := exec isr_head (interrupt m0)) in *. clearbody m1.
  pose proof (mo_ker_low Hmem). pose proof (mo_ker_high Hmem).
  unfold isr_count, counter_ok, ticks_size. destruct CONFIG_KERNEL_TICKS_COUNTER.
  - rewrite xrun_straight by (by destruct CONFIG_CONFIG_KERNEL_TICKS_COUNTER_40BITS). eexists. split; [reflexivity|].
    destruct (systick_count_spec CONFIG_CONFIG_KERNEL_TICKS_COUNTER_40BITS z_ker m1) as (Ec&Bc&Rc&Sc&_&Fc); [lia|lia|done|done|].
    set (n := counter_size CONFIG_CONFIG_KERNEL_TICKS_COUNTER_40BITS) in *.
    assert (Hn : (n <= 5)%nat) by (unfold n; by destruct CONFIG_CONFIG_KERNEL_TICKS_COUNTER_40BITS; cbn; lia).
    set (m2 := exec _ m1) in *. clearbody m2. destruct Hi as [E1 E2 E3 E4]. split_and!.
    + split; [congruence| | |].
      * intros i v Hiv. apply lookup_lt_Some in Hiv as Hlt. change (length frame_head) with 6%nat in Hlt.
        destruct (stack_room i) as [_ Ho]; [lia|]. rewrite Fc; [by apply E2|].
        destruct (Z.lt_ge_cases (s0 - Z.of_nat i) (z_ker + 2)); [by left|right].
        destruct (Z.lt_ge_cases (s0 - Z.of_nat i) (z_ker + 2 + Z.of_nat n)); [|done]. exfalso. apply (own_stack_ker (s0 - Z.of_nat i)); [lia|done].
      * intros r Hin. rewrite Rc; [by apply E3|intros ->; set_solver|intros ->; set_solver].
      * intros a Hna Hsa. rewrite Fc; [by apply E4|].
        destruct (Z.lt_ge_cases a (z_ker + 2)); [by left|right]. destruct (Z.lt_ge_cases a (z_ker + 2 + Z.of_nat n)); [|done].
        exfalso. apply Hna, (mo_ker Hmem). lia.
    + by rewrite Rc.
    + intros r H0' H1' H18. rewrite Rc by done. by apply Hr.
    + done.
    + rewrite Ec. f_equal. f_equal. apply counter_ext. intros x Hx. apply Hf, own_stack_ker. lia.
    + intros a Hsa Ha. rewrite Fc by done. by apply Hf.
  - exists m1. split; [done|]. split_and!; try done.
    + intros r H0' H1' _. by apply Hr.
    + intros a Ha _. by apply Hf.
Qed.

(** The decision to call the kernel at this tick. *)
Definition slice_ends : bool :=
  negb Z_KERNEL_TIME_SLICE_MULTIPLE_TICKS || (u8 (ram m0 sched_ticks_remaining - 1) =? 0).

Lemma remaining_ker : z_ker + 2 <= sched_ticks_remaining < z_ker + 8.
Proof. unfold sched_ticks_remaining. destruct ticks_size_cases as [->|[->| ->]]; lia. Qed.

Lemma exec_isr_slice m : let r := sched_ticks_remaining in
  exec isr_slice m = set_ram (upd (ram m) r (u8 (ram m r - 1)))
    (set_sreg (sub_flags (ram m r) 1 (sreg m)) (set_reg 18 (u8 (ram m r - 1)) (set_reg 18 (ram m r) m))).
Proof.
  pose proof remaining_ker. pose proof (mo_ker_low Hmem). pose proof (mo_ker_high Hmem). cbv zeta.
  assert (Hin : in_ram sched_ticks_remaining) by (unfold in_ram; lia).
  unfold isr_slice. rewrite !exec_cons. change (exec [] ?x) with x. rewrite (step_lds 18) by done.
  set (v := ram m sched_ticks_remaining). set (ma := set_reg 18 v m).
  assert (Ev : regs ma 18 = v) by apply upd_eq.
  assert (E : step (SUBI 18 1) ma = set_sreg (sub_flags v 1 (sreg m)) (set_reg 18 (u8 (v - 1)) ma)) by (cbn [step]; by rewrite Ev).
  rewrite E. set (mb := set_sreg _ _). assert (Eb : regs mb 18 = u8 (v - 1)) by apply upd_eq.
  cbn [step]. rewrite Eb. by rewrite st_ram by done.
Qed.

(** Within a time slice: only the counters change. *)
Lemma isr_within j : slice_ends = false → ∃ m, xrun (S j) tick_isr (interrupt m0) = Some m ∧ goes_on m ∧
  counter ticks_size (ram m) (z_ker + 2) = (counter ticks_size (ram m0) (z_ker + 2) + 1) mod 256 ^ Z.of_nat ticks_size ∧
  ram m sched_ticks_remaining = u8 (ram m0 sched_ticks_remaining - 1) ∧
  ∀ a, ¬ own_stack a → (a < z_ker + 2 ∨ sched_ticks_remaining < a) → ram m a = ram m0 a.
Proof.
  intros [Em Es]%orb_false_iff. apply negb_false_iff in Em. unfold tick_isr. rewrite Em.
  destruct (isr_begin (S j) (((Ins <$> isr_slice) ++ [XBRNE intctx_restore_minimal]) ++ (Ins <$> (PUSH <$> isr_regs)) ++ [CALL z_sched_enter] ++
    (if CONFIG_KERNEL_COOPERATIVE_THREADS then (Ins <$> isr_flags) ++ [XBRNE exit_kernel_int] ++ (Ins <$> isr_return) ++ [XJMP yield] else []) ++
    intctx_restore)) as (m1&E&Hi&_&Hr&Hb&Hc&Hf). rewrite E. clear E. pose proof remaining_ker as Hrk.
  rewrite <- app_assoc, xrun_straight, exec_isr_slice by done. cbn [app]. rewrite xrun_brne.
  assert (Er : ram m1 sched_ticks_remaining = ram m0 sched_ticks_remaining).
  { apply Hf; [apply own_stack_ker; lia|right; unfold sched_ticks_remaining; lia]. }
  rewrite Er. set (v := ram m0 sched_ticks_remaining) in *. set (m2 := set_ram _ _).
  assert (Ez : Z.testbit (sreg m2) FLAG_Z = false) by (change (sreg m2) with (sub_flags v 1 (sreg m1)); by rewrite sub_flags_Z).
  rewrite Ez. assert (Hi2 : in_isr (ram m0) frame_head m2).
  { apply (in_isr_store _ _ _ (set_sreg (sub_flags v 1 (sreg m1)) (set_reg 18 (u8 (v - 1)) (set_reg 18 v m1))));
      [|apply (mo_ker Hmem); lia|cbn; lia]. apply in_isr_sreg. by do 2 (apply in_isr_set_reg; [|set_solver]). }
  assert (R2 : ram m2 = upd (ram m1) sched_ticks_remaining (u8 (v - 1))) by done.
  assert (G2 : ∀ r, r ≠ 18 → regs m2 r = regs m1 r) by (intros r Hne; cbn; by rewrite !upd_ne). clearbody m2.
  destruct (restore_minimal_run j m2 Hi2) as (m'&E&Hg&Em').
  { intros r Hin. destruct (isr_regs_high r Hin) as (?&?&?). rewrite G2 by done. by apply Hr. }
  exists m'. split; [exact E|]. split; [exact Hg|]. rewrite Em', R2. split_and!.
  - rewrite <- Hc. apply counter_ext. intros x Hx. apply upd_ne. unfold sched_ticks_remaining. lia.
  - apply upd_eq.
  - intros a Ha Hx. rewrite upd_ne by lia. apply Hf; [done|]. unfold sched_ticks_remaining in Hx. lia.
Qed.

(** At the end of a slice the kernel is called on the complete frame, with the
    data it had but for the two counters. *)
Definition counters_end : Z := z_ker + 2 + Z.of_nat ticks_size + (if Z_KERNEL_TIME_SLICE_MULTIPLE_TICKS then 1 else 0).
Record at_tick (m : avr) : Prop := {
  at_frame : in_isr (ram m0) frame m;
  at_count : counter ticks_size (ram m) (z_ker + 2) = (counter ticks_size (ram m0) (z_ker + 2) + 1) mod 256 ^ Z.of_nat ticks_size;
  at_slice : Z_KERNEL_TIME_SLICE_MULTIPLE_TICKS = true → ram m sched_ticks_remaining = 0;
  at_data a : ¬ own_stack a → (a < z_ker + 2 ∨ counters_end <= a) → ram m a = ram m0 a;
}.

Definition after_sched (j : nat) (m : avr) : option avr :=
  xrun j ((if CONFIG_KERNEL_COOPERATIVE_THREADS
   then (Ins <$> isr_flags) ++ [XBRNE exit_kernel_int] ++ (Ins <$> isr_return) ++ [XJMP yield] else []) ++ intctx_restore) m.

Lemma isr_calls j : slice_ends = true → ∃ m, at_tick m ∧ regs m 1 = 0 ∧
  xrun (S j) tick_isr (interrupt m0) = after_sched (S j) (c_code z_sched_enter m).
Proof.
  intros Hse. unfold tick_isr, after_sched.
  set (rest := (if CONFIG_KERNEL_COOPERATIVE_THREADS then _ else _) ++ intctx_restore).
  set (slice := if Z_KERNEL_TIME_SLICE_MULTIPLE_TICKS then _ else _).
  destruct (isr_begin (S j) (slice ++ (Ins <$> (PUSH <$> isr_regs)) ++ [CALL z_sched_enter] ++ rest)) as (m1&E&Hi&H1&Hr&Hb&Hc&Hf).
  rewrite E. clear E.
  assert (Hs : ∃ m2, xrun (S j) (slice ++ (Ins <$> (PUSH <$> isr_regs)) ++ [CALL z_sched_enter] ++ rest) m1 =
    xrun (S j) ((Ins <$> (PUSH <$> isr_regs)) ++ [CALL z_sched_enter] ++ rest) m2 ∧ in_isr (ram m0) frame_head m2 ∧ regs m2 1 = 0 ∧
    (∀ r, r ≠ 0 → r ≠ 1 → r ≠ 18 → regs m2 r = regs m0 r) ∧
    counter ticks_size (ram m2) (z_ker + 2) = (counter ticks_size (ram m0) (z_ker + 2) + 1) mod 256 ^ Z.of_nat ticks_size ∧
    (Z_KERNEL_TIME_SLICE_MULTIPLE_TICKS = true → ram m2 sched_ticks_remaining = 0) ∧
    ∀ a, ¬ own_stack a → (a < z_ker + 2 ∨ counters_end <= a) → ram m2 a = ram m0 a).
  { unfold slice, slice_ends, counters_end in *. destruct Z_KERNEL_TIME_SLICE_MULTIPLE_TICKS.
    2:{ exists m1. split_and!; try done. intros a Ha Hx. apply Hf; [done|lia]. }
    cbn [negb orb] in Hse.
    rewrite <- app_assoc, xrun_straight, exec_isr_slice by done. cbn [app]. rewrite xrun_brne. pose proof remaining_ker as Hrk.
    assert (Er : ram m1 sched_ticks_remaining = ram m0 sched_ticks_remaining).
    { apply Hf; [apply own_stack_ker; lia|right; unfold sched_ticks_remaining; lia]. }
    rewrite Er. set (v := ram m0 sched_ticks_remaining) in *. set (m2 := set_ram _ _).
    assert (Ez : Z.testbit (sreg m2) FLAG_Z = true) by (change (sreg m2) with (sub_flags v 1 (sreg m1)); by rewrite sub_flags_Z).
    rewrite Ez. exists m2. split; [done|]. split_and!.
    - apply (in_isr_store _ _ _ (set_sreg (sub_flags v 1 (sreg m1)) (set_reg 18 (u8 (v - 1)) (set_reg 18 v m1))));
      [|apply (mo_ker Hmem); lia|cbn; lia]. apply in_isr_sreg. by do 2 (apply in_isr_set_reg; [|set_solver]).
    - exact H1.
    - intros r H0' H1' H18. cbn. rewrite !upd_ne by done. by apply Hr.
    - rewrite <- Hc. apply counter_ext. intros x Hx. apply upd_ne. unfold sched_ticks_remaining. lia.
    - intros _. apply Z.eqb_eq in Hse. rewrite <- Hse. apply upd_eq.
    - intros a Ha Hx. transitivity (ram m1 a); [apply upd_ne; unfold sched_ticks_remaining; lia|]. apply Hf; [done|lia]. }
  destruct Hs as (m2&->&Hi2&H12&Hr2&Hc2&Hs2&Hf2). rewrite xrun_straight by reflexivity.
  destruct (in_isr_pushes isr_regs _ _ Hi2) as (Hi3&R3&M3); [cbn; lia|]. exists (exec (PUSH <$> isr_regs) m2).
  pose proof remaining_ker as Hrk. split_and!; [split| |].
  - replace frame with (frame_head ++ (regs m2 <$> isr_regs)); [done|]. unfold frame. f_equal. apply list_fmap_ext.
    intros i r Hin%list_elem_of_lookup_2. destruct (isr_regs_high r Hin) as (?&?&?). by apply Hr2.
  - rewrite <- Hc2. apply counter_ext. intros x Hx. apply M3, own_stack_ker. unfold sched_ticks_remaining in Hrk. lia.
  - intros Hm. rewrite M3 by (apply own_stack_ker; lia). by apply Hs2.
  - intros a Ha Hx. rewrite M3 by done. by apply Hf2.
  - by rewrite R3.
  - cbn [app]. by rewrite xrun_call.
Qed.

(** ** The threads *)

(** What the C code answers at this tick: the current thread, its flags, then the thread
    that the scheduler leaves and the one that it chooses. *)
Definition at_yield (m : avr) : Prop := in_isr (ram m0) frame_yield m ∧
  ∃ m1, at_tick m1 ∧ ∀ a, ¬ own_stack a → ram m a = ram (c_code z_sched_enter m1) a.
Record kernel_ok (tA tB fl : Z) : Prop := {
  ko_A : 0x60 <= tA ∧ tA + 2 < 65536;
  ko_B : 0 <= tB < 65536;
  ko_enter_abi m : at_tick m → regs m 1 = 0 → c_abi z_sched_enter m;
  ko_next_abi m : at_yield m → regs m 1 = 0 → c_abi z_scheduler m;
  ko_enter m : at_tick m → let m' := c_code z_sched_enter m in
    ram m' z_ker = u8 tA ∧ ram m' (z_ker + 1) = Z.shiftr tA 8 ∧ ram m' (tA + 2) = fl;
  ko_next m : at_yield m → let m' := c_code z_scheduler m in
    regs m' 24 = u8 tA ∧ regs m' 25 = Z.shiftr tA 8 ∧ ram m' z_ker = u8 tB ∧ ram m' (z_ker + 1) = Z.shiftr tB 8;
}.

(** The preemption is refused: the same test as [Kernel.sched_locked]. *)
Definition locked (fl : Z) : bool := negb CONFIG_KERNEL_COOPERATIVE_THREADS || negb (Z.land fl LOCKED_MSK =? 0).

Lemma ker_ram : in_ram z_ker ∧ in_ram (z_ker + 1).
Proof. pose proof (mo_ker_low Hmem). pose proof (mo_ker_high Hmem). unfold in_ram. lia. Qed.

Lemma exec_isr_flags tA m : 0x60 <= tA → tA + 2 < 65536 → ram m z_ker = u8 tA → ram m (z_ker + 1) = Z.shiftr tA 8 →
  let m' := exec isr_flags m in
  Z.testbit (sreg m') FLAG_Z = (Z.land (ram m (tA + 2)) LOCKED_MSK =? 0) ∧ ram m' = ram m ∧ spr m' = spr m ∧
  ∀ r, r ≠ 18 → r ≠ 30 → r ≠ 31 → regs m' r = regs m r.
Proof.
  intros Hl Hh E1 E2. cbv zeta. destruct ker_ram as [Hk1 Hk2]. unfold isr_flags. rewrite !exec_cons. change (exec [] ?x) with x.
  rewrite (step_lds 30) by done. set (ma := set_reg 30 _ m). rewrite (step_lds 31 _ ma) by done.
  change (ram ma) with (ram m). set (mb := set_reg 31 _ ma).
  assert (EZ : reg16 mb ZL = tA).
  { unfold mb, ma, reg16, ZL. cbn [regs set_reg set_regs]. rewrite upd_ne, !upd_eq, E1, E2 by lia. apply split16. lia. }
  assert (Eb : step (LDD_Z 18 2) mb = set_reg 18 (ram m (tA + 2)) mb).
  { cbn [step]. rewrite EZ, u16_small by lia. by rewrite ld_ram by (unfold in_ram; lia). }
  rewrite Eb. set (mc := set_reg 18 _ mb). assert (Ec : regs mc 18 = ram m (tA + 2)) by apply upd_eq.
  assert (Hrest : ram mc = ram m ∧ spr mc = spr m ∧ ∀ r, r ≠ 18 → r ≠ 30 → r ≠ 31 → regs mc r = regs m r).
  { split; [done|]. split; [done|]. intros r H1 H2 H3. unfold mc, mb, ma. cbn [regs set_reg set_regs]. by rewrite !upd_ne. }
  clearbody mc. destruct Hrest as (Rc&Sc&Gc). cbn [step]. rewrite Ec. split_and!; [apply svnz_Z|done|done|].
  intros r H1 H2 H3. rewrite <- Gc by done. by apply upd_ne.
Qed.

Lemma in_isr_flags tA m : in_isr (ram m0) frame m → 0x60 <= tA → tA + 2 < 65536 → ram m z_ker = u8 tA → ram m (z_ker + 1) = Z.shiftr tA 8 →
  in_isr (ram m0) frame (exec isr_flags m) ∧ regs (exec isr_flags m) 1 = regs m 1 ∧ ram (exec isr_flags m) = ram m ∧
  Z.testbit (sreg (exec isr_flags m)) FLAG_Z = (Z.land (ram m (tA + 2)) LOCKED_MSK =? 0).
Proof.
  intros [E1 E2 E3 E4] Hl Hh K1 K2. destruct (exec_isr_flags tA m Hl Hh K1 K2) as (Hz&Hr&Hs&Hg).
  set (m' := exec isr_flags m) in *. clearbody m'. split_and!; [|by apply Hg|done|done]. split.
  - congruence.
  - by rewrite Hr.
  - intros r Hin. rewrite Hg; [by apply E3|..]; intros ->; set_solver.
  - by rewrite Hr.
Qed.

Lemma in_isr_return m : in_isr (ram m0) frame m →
  in_isr (ram m0) frame_yield (exec isr_return m) ∧ regs (exec isr_return m) 1 = regs m 1 ∧
  ∀ a, ¬ own_stack a → ram (exec isr_return m) a = ram m a.
Proof.
  intros Hi. unfold isr_return. rewrite !exec_cons. change (exec [] ?x) with x. cbn [step].
  set (ma := set_reg 25 _ (set_reg 24 _ m)).
  assert (Hia : in_isr (ram m0) frame ma) by (do 2 (apply in_isr_set_reg; [|set_solver]); done).
  assert (R24 : regs ma 24 = u8 pm_intctx_restore ∧ regs ma 25 = Z.shiftr pm_intctx_restore 8 ∧ regs ma 1 = regs m 1 ∧ ram ma = ram m) by done.
  clearbody ma. destruct R24 as (R24&R25&R1&Ra). pose proof (ii_sp _ _ _ Hia) as Sa.
  destruct (in_isr_push (regs ma 24) _ _ Hia) as (Hib&Rb&_&_&Mb); [cbn; lia|]. pose proof (ii_sp _ _ _ Hib) as Sb. rewrite Rb. set (mb := push _ ma) in *. clearbody mb.
  destruct (in_isr_push (regs ma 25) _ _ Hib) as (Hic&Rc&_&_&Mc); [cbn; lia|]. set (mc := push _ mb) in *. clearbody mc.
  rewrite R24, R25, <- app_assoc in Hic. split; [exact Hic|]. split; [congruence|].
  intros a Ha. rewrite Mc, Mb, Ra; [done|..]; intros ->; apply Ha; [rewrite Sa|rewrite Sb]; apply stack_room; cbn; lia.
Qed.

(** The call of the scheduler and the two addresses. *)
Definition yield_loads : list instr := [MOVW 26 24; LDS 30 z_ker; LDS 31 (z_ker + 1)].
Lemma in_isr_yield tA tB fl m : kernel_ok tA tB fl → at_yield m → regs m 1 = 0 →
  let m' := exec yield_loads (c_code z_scheduler m) in
  in_isr (ram m0) frame_yield m' ∧ regs m' 26 = u8 tA ∧ regs m' 27 = Z.shiftr tA 8 ∧ regs m' 30 = u8 tB ∧ regs m' 31 = Z.shiftr tB 8.
Proof.
  intros Hk Hi H1. destruct (in_isr_call z_scheduler _ _ (proj1 Hi)) as [Hi' _]; [by apply (ko_next_abi _ _ _ Hk)|cbn; lia|].
  destruct (ko_next _ _ _ Hk m Hi) as (R24&R25&Z0&Z1). cbv zeta. set (ma := c_code z_scheduler m) in *. clearbody ma.
  destruct ker_ram as [Hk1 Hk2]. unfold yield_loads. rewrite !exec_cons. change (exec [] ?x) with x.
  set (mb := step (MOVW 26 24) ma).
  assert (Eb : regs mb 26 = u8 tA ∧ regs mb 27 = Z.shiftr tA 8 ∧ ram mb = ram ma) by (split_and!; [exact R24|exact R25|done]).
  assert (Hib : in_isr (ram m0) frame_yield mb) by (do 2 (apply in_isr_set_reg; [|set_solver]); done).
  clearbody mb. destruct Eb as (R26&R27&Rb). rewrite (step_lds 30) by done. set (mc := set_reg 30 _ mb).
  rewrite (step_lds 31 _ mc) by done. change (ram mc) with (ram mb). rewrite Rb, Z1.
  assert (Hic : in_isr (ram m0) frame_yield mc) by (apply in_isr_set_reg; [done|set_solver]).
  assert (Ec : regs mc 26 = u8 tA ∧ regs mc 27 = Z.shiftr tA 8 ∧ regs mc 30 = u8 tB) by (split_and!; [exact R26|exact R27|exact (eq_trans (f_equal (λ f, f z_ker) Rb) Z0)]).
  clearbody mc. destruct Ec as (C26&C27&C30). split; [apply in_isr_set_reg; [done|set_solver]|]. split_and!; done.
Qed.

Lemma isr_unlocked tA tB fl j : slice_ends = true → kernel_ok tA tB fl → locked fl = false →
  ∃ m, at_yield m ∧ regs m 1 = 0 ∧ xrun (S (S j)) tick_isr (interrupt m0) = xrun (S j) z_yield m.
Proof.
  intros Hse Hk [Hco%negb_false_iff Hfl%negb_false_iff]%orb_false_iff. destruct (isr_calls (S j) Hse) as (m1&Hi1&H11&->).
  destruct (in_isr_call z_sched_enter _ _ (at_frame _ Hi1)) as [Hi2 H12]; [by apply (ko_enter_abi _ _ _ Hk)|cbn; lia|].
  destruct (ko_enter _ _ _ Hk m1 Hi1) as (K0&K1&K2). destruct (ko_A _ _ _ Hk) as [HA1 HA2].
  unfold after_sched. rewrite Hco. set (m2 := c_code z_sched_enter m1) in *.
  assert (Hat : ∃ m1, at_tick m1 ∧ ram m2 = ram (c_code z_sched_enter m1)) by eauto. clearbody m2.
  destruct (in_isr_flags tA m2 Hi2 HA1 HA2 K0 K1) as (Hi3&R3&M3&Z3). rewrite <- app_assoc, xrun_straight by done.
  set (m3 := exec isr_flags m2) in *. clearbody m3. rewrite <- app_assoc. cbn [app]. rewrite xrun_brne, Z3, K2, Hfl.
  rewrite <- app_assoc, xrun_straight by done. cbn [app]. rewrite xrun_jmp.
  destruct (in_isr_return m3 Hi3) as (Hi4&R4&M4). exists (exec isr_return m3). split.
  { split; [done|]. destruct Hat as (m'&Hm'&E'). exists m'. split; [done|]. intros a Ha. by rewrite M4, M3, E'. } split; [congruence|done].
Qed.

Lemma isr_locked tA tB fl j : slice_ends = true → kernel_ok tA tB fl → locked fl = true →
  ∃ m, xrun (S j) tick_isr (interrupt m0) = Some m ∧ goes_on m ∧ ∀ a, ¬ owned a → ¬ own_stack a → ram m a = ram m0 a.
Proof.
  intros Hse Hk Hlo. destruct (isr_calls j Hse) as (m1&Hi1&H11&->).
  destruct (in_isr_call z_sched_enter _ _ (at_frame _ Hi1)) as [Hi2 H12]; [by apply (ko_enter_abi _ _ _ Hk)|cbn; lia|].
  destruct (ko_enter _ _ _ Hk m1 Hi1) as (K0&K1&K2). destruct (ko_A _ _ _ Hk) as [HA1 HA2].
  unfold after_sched. set (m2 := c_code z_sched_enter m1) in *. clearbody m2. unfold locked in Hlo.
  destruct CONFIG_KERNEL_COOPERATIVE_THREADS; cbn [negb orb] in Hlo.
  - destruct (in_isr_flags tA m2 Hi2 HA1 HA2 K0 K1) as (Hi3&_&_&Z3). rewrite <- app_assoc, xrun_straight by done.
    set (m3 := exec isr_flags m2) in *. clearbody m3. rewrite <- app_assoc. cbn [app]. apply negb_true_iff in Hlo.
    rewrite xrun_brne, Z3, K2, Hlo. destruct (intctx_restore_run j m3 Hi3) as (m&E&Hg&Em). exists m. split; [exact E|]. split; [done|].
    intros a Ha Hs. rewrite Em. by apply (ii_ram _ _ _ Hi3).
  - cbn [app]. destruct (intctx_restore_run (S j) m2 Hi2) as (m&E&Hg&Em). exists m. split; [exact E|]. split; [done|].
    intros a Ha Hs. rewrite Em. by apply (ii_ram _ _ _ Hi2).
Qed.

Lemma xrun_switch j m : xrun j (Ins <$> z_thread_switch) m = Some (step RET (exec (switch_save ++ switch_load ++ switch_pop) m)).
Proof. rewrite z_thread_switch_eq, fmap_app, xrun_straight by reflexivity. apply xrun_ret. Qed.

Lemma addr_bytes a : 0 <= a < 65536 → 0 <= u8 a < 256 ∧ 0 <= Z.shiftr a 8 < 256 ∧ u8 a + 256 * Z.shiftr a 8 = a.
Proof. intros Ha. split_and!; [apply u8_range..|by apply shiftr8|by apply shiftr8|by apply split16]. Qed.

(** The scheduler, up to the return or the switch. *)
Lemma isr_yield tA tB fl j m : kernel_ok tA tB fl → at_yield m → regs m 1 = 0 →
  ∃ m', in_isr (ram m0) frame_yield m' ∧ reg16 m' X = tA ∧ reg16 m' ZL = tB ∧
    xrun (S j) z_yield m = if CONFIG_KERNEL_SCHEDULER_COMPARE_THREADS_BEFORE_SWITCH && (tA =? tB) then Some (step RET m')
      else Some (step RET (exec (switch_save ++ switch_load ++ switch_pop) m')).
Proof.
  intros Hk Hi H1. destruct (in_isr_yield tA tB fl m Hk Hi H1) as (Hi1&R26&R27&R30&R31).
  destruct (ko_A _ _ _ Hk) as [HA1 HA2]. pose proof (ko_B _ _ _ Hk) as HB.
  destruct (addr_bytes tA) as (A1&A2&A3); [lia|]. destruct (addr_bytes tB HB) as (B1&B2&B3).
  unfold z_yield. fold yield_loads. rewrite xrun_call, xrun_straight by done.
  set (m1 := exec yield_loads (c_code z_scheduler m)) in *. clearbody m1.
  assert (HX : ∀ x, reg16 (set_sreg x m1) X = tA) by (intros x; unfold reg16, X; cbn [regs set_sreg]; change (26 + 1) with 27; by rewrite R26, R27).
  assert (HZ : ∀ x, reg16 (set_sreg x m1) ZL = tB) by (intros x; unfold reg16, ZL; cbn [regs set_sreg]; change (30 + 1) with 31; by rewrite R30, R31).
  destruct CONFIG_KERNEL_SCHEDULER_COMPARE_THREADS_BEFORE_SWITCH; cbn [andb app].
  2:{ exists m1. split; [done|]. split; [exact (HX (sreg m1))|]. split; [exact (HZ (sreg m1))|]. apply xrun_switch. }
  rewrite xrun_cp, R26, R30. set (f1 := sub_flags (u8 tA) (u8 tB) (sreg m1)). rewrite xrun_brne.
  change (sreg (set_sreg f1 m1)) with f1. unfold f1 at 1. rewrite sub_flags_Z_eq by done.
  destruct (Z.eqb_spec (u8 tA) (u8 tB)) as [E1|E1].
  2:{ exists (set_sreg f1 m1). split; [by apply in_isr_sreg|]. split; [apply HX|]. split; [apply HZ|].
      rewrite (proj2 (Z.eqb_neq tA tB)) by congruence. apply xrun_switch. }
  rewrite xrun_cp. cbn [regs set_sreg sreg]. rewrite R27, R31. set (f2 := sub_flags (Z.shiftr tA 8) (Z.shiftr tB 8) f1). rewrite xrun_brne.
  change (set_sreg f2 (set_sreg f1 m1)) with (set_sreg f2 m1). change (sreg (set_sreg f2 m1)) with f2. unfold f2 at 1. rewrite sub_flags_Z_eq by done.
  exists (set_sreg f2 m1). split; [by apply in_isr_sreg|]. split; [apply HX|]. split; [apply HZ|].
  destruct (Z.eqb_spec (Z.shiftr tA 8) (Z.shiftr tB 8)) as [E2|E2].
  - rewrite (proj2 (Z.eqb_eq tA tB)) by lia. apply xrun_ret.
  - rewrite (proj2 (Z.eqb_neq tA tB)) by congruence. apply xrun_switch.
Qed.

(** ** A preempted thread *)

(** Its stack pointer is saved in [tA]; on its stack are, from the top, the frame
    of the interrupt, the address of [__intctx_restore] and its context. *)
Record parked (tA : Z) (f : Z → Z) : Prop := {
  pk_frame i v : frame_yield !! i = Some v → f (s0 - Z.of_nat i) = v;
  pk_context : ∃ mA, context_saved mA tA f ∧ spr mA = s0 - 19 ∧ ∀ r, r ∈ saved_regs → regs mA r = regs m0 r;
}.

(** The addresses that hold it. *)
Definition park_area (tA a : Z) : Prop := s0 - 37 <= a <= s0 ∨ a = tA ∨ a = tA + 1.

Lemma stack_bounds : 0x60 <= s0 - 37 ∧ s0 < 0x10000.
Proof. destruct Hmem. unfold stack_low in *. lia. Qed.

(** The return to [__intctx_restore]. *)
Lemma ret_to_restore {g} m : in_isr g frame_yield m → 0 <= pm_intctx_restore < 65536 →
  pc (step RET m) = pm_intctx_restore ∧ in_isr g frame (step RET m) ∧ ram (step RET m) = ram m.
Proof.
  intros [E1 E2 E3 E4] Hpm. pose proof stack_bounds. change (Z.of_nat (length frame_yield)) with 19 in E1.
  rewrite step_ret by (rewrite E1; unfold in_ram; lia). cbn [pc set_pc]. rewrite E1.
  replace (s0 - 19 + 1) with (s0 - Z.of_nat 18) by lia. replace (s0 - 19 + 2) with (s0 - Z.of_nat 17) by lia.
  rewrite (E2 18%nat _ eq_refl), (E2 17%nat _ eq_refl). split; [rewrite <- (split16 _ Hpm) at 3; lia|]. split; [|done].
  split; cbn [spr ram regs set_pc set_spr]; [cbn; lia| |done..]. intros i v Hi. apply E2. by apply lookup_app_l_Some.
Qed.

Lemma parked_frame tA f g : parked tA f → (∀ a, park_area tA a → g a = f a) → parked tA g.
Proof.
  intros [Hf (mA&Hc&Es&Er)] Hg. pose proof stack_bounds. split.
  - intros i v Hi. rewrite Hg; [by apply Hf|]. apply lookup_lt_Some in Hi. cbn in Hi. left. lia.
  - exists mA. split; [|done]. eapply context_saved_frame; [exact Hc|lia|]. intros a Ha. apply Hg. unfold park_area. lia.
Qed.

(** A switch of another thread, apart from the area of the preempted one. *)
Definition switch_apart (tA : Z) (m : avr) : Prop :=
  switch_ok (spr m) (reg16 m X) ∧ (∀ a, park_area tA a → ¬ (spr m - 18 <= a <= spr m) ∧ a ≠ reg16 m X ∧ a ≠ reg16 m X + 1) ∧
  (tA + 1 < spr m - 18 ∨ spr m < tA) ∧ (reg16 m X + 1 < s0 - 37 ∨ s0 < reg16 m X).

Lemma thread_apart tA : ¬ own_stack tA → ¬ own_stack (tA + 1) → 0x60 <= tA → tA + 2 < 65536 → switch_ok (s0 - 19) tA.
Proof.
  intros H1 H2 Ht1 Ht2. pose proof stack_bounds. pose proof (mo_depth Hmem). unfold own_stack, stack_low in *. split; lia.
Qed.

Lemma parked_resumes tA m : parked tA (ram m) → switch_ok (s0 - 19) tA → reg16 m ZL = tA → switch_apart tA m → 0 <= pm_intctx_restore < 65536 →
  ∃ m', run 60 z_thread_switch 0 m = Some m' ∧ pc m' = pm_intctx_restore ∧ in_isr (ram m') frame m'.
Proof.
  intros [Hf (mA&Hc&Es&Er)] Hok HZ (Hsw&Hap&Hx1&Hx2) Hpm. subst tA. pose proof stack_bounds as Hsb.
  assert (Happ : apart (spr mA) (reg16 m ZL) (spr m) (reg16 m X)).
  { rewrite Es. assert (Hin : ∀ a, s0 - 37 <= a <= s0 → ¬ (spr m - 18 <= a <= spr m)) by (intros a Ha; apply Hap; by left).
    pose proof (Hin (s0 - 37) ltac:(lia)). pose proof (Hin s0 ltac:(lia)).
    destruct (Hap (reg16 m ZL)) as (_&N1&N2); [right; by left|]. destruct (Hap (reg16 m ZL + 1)) as (_&N3&N4); [by right; right|].
    assert (Hno : ∀ a, s0 - 37 <= a <= s0 → a < spr m - 18 ∨ spr m < a) by (intros a Ha; specialize (Hin a Ha); lia).
    split; [|lia]. destruct (Z.lt_ge_cases (spr m) (s0 - 37)); [by right; lia|left].
    destruct (Z.lt_ge_cases s0 (spr m - 18)); [lia|]. exfalso. apply (Hin (Z.min (spr m) s0)); lia. }
  assert (HokA : switch_ok (spr mA) (reg16 m ZL)) by (by rewrite Es).
  destruct (switch_exec m mA Hsw HokA Hc Happ) as (Hr&Hs&Hsp&_&_&Hfr). eexists. split; [apply switch_run|]. revert Hr Hs Hsp Hfr.
  generalize (exec (switch_save ++ switch_load ++ switch_pop) m). intros m3 Hr Hs Hsp Hfr.
  assert (Hi : in_isr (ram m3) frame_yield m3).
  { split; [rewrite Hsp, Es; reflexivity| |intros r Hin; by rewrite Hr, Er|done]. intros i v Hi. apply lookup_lt_Some in Hi as Hlt. cbn in Hlt.
    destruct (Hap (s0 - Z.of_nat i)) as (N1&N2&N3); [left; lia|]. rewrite Hfr; [by apply Hf|lia|done|done]. }
  destruct (ret_to_restore m3 Hi Hpm) as (Ep&Hi'&Em). split; [exact Ep|]. by rewrite Em.
Qed.

Lemma isr_preempts tA tB fl b : slice_ends = true → kernel_ok tA tB fl → locked fl = false → tA ≠ tB →
  ¬ own_stack tA → ¬ own_stack (tA + 1) → switch_ok (spr b) tB → context_saved b tB (ram m0) → apart (spr b) tB (s0 - 19) tA →
  (∀ a, spr b - 18 <= a <= spr b + 2 ∨ a = tB ∨ a = tB + 1 → ¬ owned a ∧ ¬ own_stack a) →
  ∃ m1, xrun 3 tick_isr (interrupt m0) = Some m1 ∧ context_restored b m1 ∧ parked tA (ram m1) ∧
    ∀ a, ¬ owned a → ¬ own_stack a → a ≠ tA → a ≠ tA + 1 → ram m1 a = ram m0 a.
Proof.
  intros Hse Hk Hl Hne HA1 HA2 Hob Hcb Hap Hout. destruct (isr_unlocked tA tB fl 1 Hse Hk Hl) as (m2&Hi2&H12&->).
  destruct (isr_yield tA tB fl 1 m2 Hk Hi2 H12) as (m3&Hi3&HX&HZ&->). rewrite (proj2 (Z.eqb_neq tA tB) Hne), andb_false_r.
  eexists. split; [reflexivity|]. destruct (ko_A _ _ _ Hk) as [Ht1 Ht2]. pose proof stack_bounds as Hsb.
  assert (Esp : spr m3 = s0 - 19) by (rewrite (ii_sp _ _ _ Hi3); reflexivity).
  pose proof (thread_apart tA HA1 HA2 Ht1 Ht2) as HokA.
  assert (Hcs : context_saved b tB (ram m3)).
  { eapply context_saved_frame; [exact Hcb|by destruct Hob|]. intros a Ha. destruct (Hout a Ha). by apply (ii_ram _ _ _ Hi3). }
  assert (Hsw : switch_ok (spr m3) (reg16 m3 X)) by (by rewrite Esp, HX).
  rewrite <- HZ in Hob, Hcs. assert (Hap' : apart (spr b) (reg16 m3 ZL) (spr m3) (reg16 m3 X)) by (by rewrite Esp, HX, HZ).
  destruct (switch_exec m3 b Hsw Hob Hcs Hap') as (Hr&Hs&Hsp&HcA&HcB&Hfr). revert Hr Hs Hsp HcA HcB Hfr.
  generalize (exec (switch_save ++ switch_load ++ switch_pop) m3). intros m4 Hr Hs Hsp HcA HcB Hfr.
  destruct (switch_ret m3 m4 b Hob Hr Hs Hsp HcA HcB Hfr) as (Hres&HcA'&Hfr'). rewrite HX, Esp in *.
  split; [exact Hres|]. split; [split|].
  - intros i v Hi. apply lookup_lt_Some in Hi as Hlt. cbn in Hlt. destruct (stack_room i) as [_ Ho]; [lia|].
    rewrite Hfr'; [by apply (ii_frame _ _ _ Hi3)|right; lia|intros E; by rewrite E in Ho|intros E; by rewrite E in Ho].
  - exists m3. split; [exact HcA'|]. split; [exact Esp|]. apply (ii_saved _ _ _ Hi3).
  - intros a Hn Hs' N1 N2. rewrite Hfr'; [by apply (ii_ram _ _ _ Hi3)| |done|done].
    unfold own_stack, stack_low in Hs'. pose proof (mo_depth Hmem). lia.
Qed.

(** ** What the interrupted thread sees *)

(** The handler ends in [m']: at once, or by way of the return address that it
    gave to the scheduler. *)
Definition tick_ends (m m' : avr) : Prop := xrun 3 tick_isr m = Some m' ∨
  ∃ m1, xrun 3 tick_isr m = Some m1 ∧ pc m1 = pm_intctx_restore ∧ xrun 0 intctx_restore m1 = Some m'.

(** C14: the tick returns to the thread that it interrupts in every case but a
    preemption: the slice is not over, the preemption is refused, or the
    scheduler chooses the same thread.  All the registers, the status register,
    the stack pointer and the program counter are as they were, and so is the
    memory that is neither the kernel's nor below the stack pointer.  Within a
    slice the handler only counts. *)
Theorem tick_transparent tA tB fl : 0 <= pm_intctx_restore < 65536 →
  slice_ends = false ∨ kernel_ok tA tB fl ∧
    (locked fl = true ∨ CONFIG_KERNEL_SCHEDULER_COMPARE_THREADS_BEFORE_SWITCH = true ∧ tA = tB) →
  ∃ m, tick_ends (interrupt m0) m ∧ goes_on m ∧ (∀ a, ¬ owned a → ¬ own_stack a → ram m a = ram m0 a) ∧
    (slice_ends = false → counter ticks_size (ram m) (z_ker + 2) = (counter ticks_size (ram m0) (z_ker + 2) + 1) mod 256 ^ Z.of_nat ticks_size ∧
       ram m sched_ticks_remaining = u8 (ram m0 sched_ticks_remaining - 1) ∧
       ∀ a, ¬ own_stack a → (a < z_ker + 2 ∨ sched_ticks_remaining < a) → ram m a = ram m0 a).
Proof.
  intros Hpm Hcase. pose proof remaining_ker as Hrk. destruct slice_ends eqn:Hse.
  2:{ destruct (isr_within 2 Hse) as (m&E&Hg&Hc&Hs&Hf). exists m. split; [by left|]. split; [done|]. split; [|done].
      intros a Ha Ho. apply Hf; [done|]. destruct (Z.lt_ge_cases a (z_ker + 2)); [by left|right].
      destruct (Z.lt_ge_cases sched_ticks_remaining a); [done|]. exfalso. apply Ha, (mo_ker Hmem). lia. }
  destruct Hcase as [?|[Hk Hcase]]; [done|]. destruct (locked fl) eqn:Hlo.
  - destruct (isr_locked tA tB fl 2 Hse Hk Hlo) as (m&E&Hg&Hf). exists m. split; [by left|]. done.
  - destruct Hcase as [?|[Hcmp <-]]; [done|]. destruct (isr_unlocked tA tA fl 1 Hse Hk Hlo) as (m1&Hi1&H1&E1).
    destruct (isr_yield tA tA fl 1 m1 Hk Hi1 H1) as (m2&Hi2&_&_&E2). rewrite Hcmp, Z.eqb_refl in E2. cbn [andb] in E2.
    destruct (ret_to_restore m2 Hi2 Hpm) as (Ep&Hi3&Er). destruct (intctx_restore_run 0 _ Hi3) as (m3&E3&Hg&Em). exists m3. split.
    { right. exists (step RET m2). split; [by rewrite E1|]. done. }
    split; [done|]. split; [|done]. intros a Ha Ho. rewrite Em, Er. by apply (ii_ram _ _ _ Hi2).
Qed.

(** C15: a preemption is transparent: the tick resumes the chosen thread where its own
    context was saved, and whatever runs afterwards, provided that it leaves
    alone the stack and the saved stack pointer of the preempted thread, the
    next switch to that thread ends in the code that restores the frame of the
    interrupt, and the thread goes on with all its registers, its status
    register, its stack pointer and its program counter. *)
Theorem preemption_transparent tA tB fl b : 0 <= pm_intctx_restore < 65536 →
  slice_ends = true → kernel_ok tA tB fl → locked fl = false → tA ≠ tB →
  ¬ own_stack tA → ¬ own_stack (tA + 1) → switch_ok (spr b) tB → context_saved b tB (ram m0) → apart (spr b) tB (s0 - 19) tA →
  (∀ a, spr b - 18 <= a <= spr b + 2 ∨ a = tB ∨ a = tB + 1 → ¬ owned a ∧ ¬ own_stack a) →
  ∃ m1, xrun 3 tick_isr (interrupt m0) = Some m1 ∧ context_restored b m1 ∧
    (∀ a, ¬ owned a → ¬ own_stack a → a ≠ tA → a ≠ tA + 1 → ram m1 a = ram m0 a) ∧
    ∀ m2, (∀ a, park_area tA a → ram m2 a = ram m1 a) → reg16 m2 ZL = tA → switch_apart tA m2 →
      ∃ m3 m4, run 60 z_thread_switch 0 m2 = Some m3 ∧ pc m3 = pm_intctx_restore ∧
        xrun 0 intctx_restore m3 = Some m4 ∧ goes_on m4 ∧ ram m4 = ram m3.
Proof.
  intros Hpm Hse Hk Hlo Hne HA1 HA2 Hob Hcb Hap Hout.
  destruct (isr_preempts tA tB fl b Hse Hk Hlo Hne HA1 HA2 Hob Hcb Hap Hout) as (m1&E1&Hres&Hpk&Hf).
  exists m1. split_and!; [done..|]. intros m2 Hm2 HZ Hsa. destruct (ko_A _ _ _ Hk) as [Ht1 Ht2].
  destruct (parked_resumes tA m2) as (m3&E3&Ep&Hi); [by eapply parked_frame|by apply thread_apart|done..|].
  destruct (intctx_restore_run 0 m3 Hi) as (m4&E4&Hg&Em). by exists m3, m4.
Qed.
End Interrupt.

(** ** A concrete system *)

(** [z_ker] at 0x200, the threads at 0x100 and 0x110; the running thread, with
    the flags [fl], is at the end of its slice when [rem] is 1. *)
#[export] Instance w_config : IsrConfig :=
  {| CONFIG_KERNEL_TICKS_COUNTER := true; CONFIG_CONFIG_KERNEL_TICKS_COUNTER_40BITS := true; Z_KERNEL_TIME_SLICE_MULTIPLE_TICKS := true;
     CONFIG_KERNEL_COOPERATIVE_THREADS := true; CONFIG_KERNEL_SCHEDULER_COMPARE_THREADS_BEFORE_SWITCH := true;
     z_ker := 0x200; pm_intctx_restore := 0x1234 |}.
Definition w_interrupted (fl rem : Z) : avr :=
  {| regs := u8; ram := upd (upd (upd (upd (ram w_from) 0x200 0) 0x201 1) 0x207 (u8 rem)) 0x102 (u8 fl); spr := 0x1FF; sreg := 0x81; pc := 0x456 |}.
Definition w_owned (a : Z) : Prop := 0x200 <= a < 0x208.
(** [z_sched_enter] starts a new slice; [z_scheduler] returns the current thread
    and makes the one at 0x110 current. *)
Definition w_c_code (f : routine) (m : avr) : avr :=
  match f with
  | z_sched_enter => set_ram (upd (ram m) 0x207 20) (set_reg 24 0 m)
  | z_scheduler => set_ram (upd (upd (ram m) 0x200 0x10) 0x201 1) (set_reg 25 (ram m 0x201) (set_reg 24 (ram m 0x200) m))
  end.

Lemma bytes_ok_upd f a v : bytes_ok f → 0 <= v < 256 → bytes_ok (upd f a v).
Proof. intros Hf Hv x. unfold upd. destruct (x =? a); [done|apply Hf]. Qed.
Lemma bytes_ok_store_down vs : ∀ f s, bytes_ok f → Forall (λ v, 0 <= v < 256) vs → bytes_ok (store_down f s vs).
Proof.
  induction vs as [|v vs IH]; intros f s Hf Hv; [done|]. apply Forall_cons in Hv as [Hv Hvs]. cbn [store_down].
  apply IH; [by apply bytes_ok_upd|done].
Qed.
Lemma w_memory fl rem : memory_ok (w_interrupted fl rem) w_owned 40.
Proof. split; unfold own_stack, stack_low, w_owned, s0; cbn; lia. Qed.
Lemma w_interrupt_running fl rem : running_ok (w_interrupted fl rem).
Proof.
  split; try done; cbn [ram regs w_interrupted].
  - do 4 (apply bytes_ok_upd; [|try apply u8_range; lia]). unfold w_from. cbn [ram]. do 4 (apply bytes_ok_upd; [|lia]).
    apply bytes_ok_store_down; [|repeat constructor; cbn; lia]. intros a. cbn. repeat destruct (_ =? _); lia.
  - apply u8_range.
Qed.
Lemma w_abi f m : regs m 1 = 0 → c_abi w_c_code (w_interrupted 0 0) w_owned 40 f m.
Proof.
  intros H1. split; [by destruct f|]. split; [|split; [by destruct f|]].
  - intros r Hr. assert (r ≠ 24 ∧ r ≠ 25) as [H24 H25] by (split; intros ->; set_solver).
    destruct f; cbn [w_c_code set_ram set_reg set_regs regs]; by rewrite !upd_ne.
  - intros a Ha _. unfold w_owned in Ha. destruct f; cbn [w_c_code set_ram ram]; rewrite !upd_ne; (done || lia).
Qed.
Lemma w_kernel fl rem : 0 <= fl < 256 → kernel_ok w_c_code (w_interrupted fl rem) w_owned 40 0x100 0x110 fl.
Proof.
  intros Hfl. assert (Hs : ∀ a, a < 0x1AF ∨ 0x1FF < a → ¬ own_stack (w_interrupted fl rem) 40 a).
  { intros a Ha. unfold own_stack, stack_low, s0. cbn. lia. }
  assert (Hd : ∀ m a, at_tick (w_interrupted fl rem) w_owned 40 m → a < 0x1AF ∨ a = 0x200 ∨ a = 0x201 → ram m a = ram (w_interrupted fl rem) a).
  { intros m a Hm Ha. apply (at_data _ _ _ _ Hm); [apply Hs; lia|]. left. cbn. lia. }
  split; [lia|lia|intros m _ H1; by apply w_abi|intros m _ H1; by apply w_abi|..].
  - intros m Hm. cbv zeta. cbn [w_c_code ram set_ram]. rewrite !upd_ne by (cbn; lia). change (ram (set_reg 24 0 m)) with (ram m).
    change z_ker with 0x200. change (0x200 + 1) with 0x201. change (256 + 2) with 258. rewrite !(Hd m) by (assumption || lia).
    split_and!; [done|done|]. cbn [w_interrupted ram]. by rewrite upd_eq, u8_small.
  - intros m (_&m1&Hm1&E). cbv zeta. cbn [w_c_code]. split_and!; [| |done|done].
    + change (ram m 0x200 = 0). rewrite E by (apply Hs; lia). cbn [w_c_code ram set_ram]. rewrite upd_ne by lia.
      change (ram m1 0x200 = 0). by rewrite (Hd m1) by (assumption || lia).
    + change (ram m 0x201 = 1). rewrite E by (apply Hs; lia). cbn [w_c_code ram set_ram]. rewrite upd_ne by lia.
      change (ram m1 0x201 = 1). by rewrite (Hd m1) by (assumption || lia).
Qed.

(** The end of a slice, with the scheduler locked. *)
Lemma tick_transparent_witness : ∃ m, tick_ends w_c_code (interrupt (w_interrupted 16 1)) m ∧ goes_on (w_interrupted 16 1) m.
Proof.
  destruct (tick_transparent w_c_code (w_interrupted 16 1) w_owned 40 (w_memory 16 1) (w_interrupt_running 16 1) 0x100 0x110 16) as (m&E&Hg&_).
  - split; [discriminate|reflexivity].
  - right. split; [apply w_kernel; lia|left; reflexivity].
  - exists m. split; [exact E|exact Hg].
Defined.

Lemma w_saved fl rem : context_saved w_to 0x110 (ram (w_interrupted fl rem)).
Proof.
  eapply context_saved_frame; [exact w_switch_saved|cbn; lia|]. intros a Ha. cbn [w_interrupted ram]. cbn in Ha. by rewrite !upd_ne by lia.
Qed.

(** The other thread runs from 0x1234 with the stack pointer 0x301, then switches
    back. *)
Definition w_back (f : Z → Z) : avr :=
  {| regs := λ r, if (r =? 27) || (r =? 31) then 1 else if r =? 26 then 0x10 else 0; ram := f; spr := 0x2FE; sreg := 0x80; pc := 0x1300 |}.
Lemma preemption_transparent_witness :
  ∃ m1 m3 m4, xrun w_c_code 3 tick_isr (interrupt (w_interrupted 0 1)) = Some m1 ∧ context_restored w_to m1 ∧
    run 60 z_thread_switch 0 (w_back (ram m1)) = Some m3 ∧ xrun w_c_code 0 intctx_restore m3 = Some m4 ∧ goes_on (w_interrupted 0 1) m4.
Proof.
  destruct (preemption_transparent w_c_code (w_interrupted 0 1) w_owned 40 (w_memory 0 1) (w_interrupt_running 0 1) 0x100 0x110 0 w_to)
    as (m1&E1&Hr&_&Hback).
  - split; [discriminate|reflexivity].
  - reflexivity.
  - apply w_kernel. split; [discriminate|reflexivity].
  - reflexivity.
  - discriminate.
  - intros [H1 H2]. discriminate H1.
  - intros [H1 H2]. discriminate H1.
  - split; [discriminate|reflexivity|split; [discriminate|reflexivity]|left; reflexivity].
  - exact (w_saved 0 1).
  - split; [right; reflexivity|]. split; [left; reflexivity|]. split; [left; reflexivity|right; reflexivity].
  - intros a Ha. unfold own_stack, stack_low, w_owned, s0. cbn in *. lia.
  - destruct (Hback (w_back (ram m1))) as (m3&m4&E3&_&E4&Hg&_).
    + intros a _. reflexivity.
    + reflexivity.
    + split; [split; [discriminate|reflexivity|split; [discriminate|reflexivity]|left; reflexivity]|].
      split; [|split; [left; reflexivity|left; reflexivity]]. intros a Ha. unfold park_area, s0 in Ha. clear -Ha. cbn in Ha. change (reg16 (w_back (ram m1)) X) with 0x110. cbn [spr w_back].
      lia.
    + exists m1, m3, m4. split; [exact E1|]. split; [exact Hr|]. split; [exact E3|]. split; [exact E4|exact Hg].
Defined.
