(* ===== verification/DebugUtils.v ===== *)
(** * Readings of the machine for the debug output (arch/debug_utils.S)

    Each routine gives the caller the stack pointer, the return address or the
    status register that the machine had, and leaves the machine as it was but
    for the registers that a call may clobber. *)

From S2P Require Import Prelude Avr Context.

Definition z_read_ra : list instr := [POP 25; POP 24; PUSH 24; PUSH 25; ADD 24 24; ADC 25 25; RET].
Definition z_read_sp : list instr := [LDS 20 SREG; CLI; LDS 24 SPL; LDS 25 SPH; STS SREG 20; RET].
Definition z_set_stack_pointer : list instr :=
  [PUSH 26; PUSH 27; MOVW 26 24; LDS 24 SPL; LDS 25 SPH; ST_Xp 24; ST_Xp 25; POP 27; POP 26; RET].
Definition z_read_sreg : list instr := [LDS 24 SREG; RET].

(** The two registers of a 16-bit result. *)
Definition result16 (m : avr) : Z := reg16 m 24.

(** A routine called with the stack pointer [spr m], below the return address. *)
Record called (m : avr) : Prop := {
  ca_low : 0x62 <= spr m;
  ca_high : spr m + 2 < 0x10000;
  ca_bytes : bytes_ok (ram m);
}.

Lemma doubled lo hi s : 0 <= lo < 256 → 0 <= hi < 256 →
  u8 (lo + lo) + 256 * u8 (hi + hi + Z.b2z (Z.testbit (add_flags lo lo 0 s) FLAG_C)) = u16 (2 * (lo + 256 * hi)).
Proof.
  intros Hlo Hhi. rewrite add_flags_C. unfold u8, u16. destruct (Z.leb_spec 256 (lo + lo + 0)); cbn [Z.b2z];
    Z.div_mod_to_equations; lia.
Qed.

Lemma z_read_sp_spec m : called m →
  ∃ m', run 10 z_read_sp 0 m = Some m' ∧ result16 m' = spr m ∧ sreg m' = sreg m ∧ ram m' = ram m ∧ returns m m'.
Proof.
  intros [Hl Hh _]. eexists. split; [exact (run_ret [LDS 20 SREG; CLI; LDS 24 SPL; LDS 25 SPH; STS SREG 20] m 10 eq_refl ltac:(cbn; lia))|].
  rewrite !exec_cons. change (exec [] ?x) with x. set (m1 := step (STS SREG 20) _).
  assert (E : ram m1 = ram m ∧ spr m1 = spr m ∧ sreg m1 = sreg m ∧ regs m1 24 = u8 (spr m) ∧ regs m1 25 = Z.shiftr (spr m) 8) by done.
  clearbody m1. destruct E as (Er&Es&Eg&E24&E25). rewrite step_ret by (rewrite Es; unfold in_ram; lia). rewrite Er, Es.
  split; [|split; [exact Eg|split; [exact Er|by split]]]. unfold result16, reg16. change (24 + 1) with 25. cbn [regs set_pc set_spr]. rewrite E24, E25. apply split16. lia.
Qed.

Lemma z_read_sreg_spec m : called m →
  ∃ m', run 10 z_read_sreg 0 m = Some m' ∧ regs m' 24 = sreg m ∧ sreg m' = sreg m ∧ ram m' = ram m ∧ returns m m'.
Proof.
  intros [Hl Hh _]. eexists. split; [exact (run_ret [LDS 24 SREG] m 10 eq_refl ltac:(cbn; lia))|].
  rewrite exec_cons. change (exec [] ?x) with x. set (m1 := step (LDS 24 SREG) m).
  assert (E : ram m1 = ram m ∧ spr m1 = spr m ∧ sreg m1 = sreg m ∧ regs m1 24 = sreg m) by done.
  clearbody m1. destruct E as (Er&Es&Eg&E24). rewrite step_ret by (rewrite Es; unfold in_ram; lia). rewrite Er, Es.
  split; [exact E24|]. split; [exact Eg|]. split; [exact Er|by split].
Qed.

(** The two bytes of the return address are popped and pushed back, the address
    of the word becomes the address of the byte. *)
Lemma z_read_ra_spec m : called m →
  ∃ m', run 10 z_read_ra 0 m = Some m' ∧ result16 m' = u16 (2 * (256 * ram m (spr m + 1) + ram m (spr m + 2))) ∧
    (∀ a, ram m' a = ram m a) ∧ returns m m'.
Proof.
  intros [Hl Hh Hb]. eexists.
  split; [exact (run_ret [POP 25; POP 24; PUSH 24; PUSH 25; ADD 24 24; ADC 25 25] m 10 eq_refl ltac:(cbn; lia))|].
  set (s := spr m). set (hi := ram m (s + 1)). set (lo := ram m (s + 2)).
  assert (Hin : in_ram (s + 1) ∧ in_ram (s + 2)) by (unfold in_ram, s; lia). destruct Hin as [Hin1 Hin2].
  rewrite !exec_cons. change (exec [] ?x) with x. rewrite (step_pop 25 m) by done. fold s hi.
  set (ma := set_reg 25 hi _). rewrite (step_pop 24 ma) by (change (spr ma) with (s + 1); by replace (s + 1 + 1) with (s + 2) by lia).
  change (spr ma) with (s + 1). change (ram ma) with (ram m). replace (s + 1 + 1) with (s + 2) by lia. fold lo.
  set (mb := set_reg 24 lo _). rewrite (step_push 24 mb) by done. change (spr mb) with (s + 2). change (regs mb 24) with lo. change (ram mb) with (ram m).
  replace (s + 2 - 1) with (s + 1) by lia. set (mc := set_spr (s + 1) _).
  rewrite (step_push 25 mc) by done. change (spr mc) with (s + 1). change (regs mc 25) with hi. change (ram mc) with (upd (ram m) (s + 2) lo).
  replace (s + 1 - 1) with s by lia. set (md := set_spr s _).
  assert (Ed : ∀ a, ram md a = ram m a).
  { intros a. change (upd (upd (ram m) (s + 2) lo) (s + 1) hi a = ram m a). unfold upd.
    destruct (Z.eqb_spec a (s + 1)) as [->|]; [done|]. by destruct (Z.eqb_spec a (s + 2)) as [->|]. }
  assert (E : spr md = s ∧ regs md 24 = lo ∧ regs md 25 = hi) by done. clearbody md. destruct E as (Es&E24&E25).
  set (me := step (ADD 24 24) md). assert (Ee : ram me = ram md ∧ spr me = s ∧ regs me 24 = u8 (lo + lo) ∧ regs me 25 = hi ∧
    sreg me = add_flags lo lo 0 (sreg md)) by (unfold me; cbn [step]; rewrite E24; split_and!; [done|exact Es|done|exact E25|done]).
  clearbody me. destruct Ee as (Er&Es1&E241&E251&Eg). set (mf := step (ADC 25 25) me).
  assert (Ef : ram mf = ram md ∧ spr mf = s ∧
    result16 mf = u8 (lo + lo) + 256 * u8 (hi + hi + Z.b2z (Z.testbit (add_flags lo lo 0 (sreg md)) FLAG_C))).
  { rewrite <- Eg, <- E241, <- E251. split; [exact Er|]. split; [exact Es1|]. done. }
  clearbody mf. destruct Ef as (Erf&Es'&Eres). rewrite step_ret by (by rewrite Es'). rewrite Es'. split_and!.
  - change (result16 (set_pc ?x ?y)) with (result16 mf). rewrite Eres, doubled by (apply Hb). f_equal. lia.
  - intros a. change (ram (set_pc ?x ?y)) with (ram mf). by rewrite Erf.
  - split; [done|]. cbn [pc set_pc]. by rewrite Erf, !Ed.
Qed.

(** The stack pointer that is stored is the one after the two pushes. *)
Lemma z_set_stack_pointer_spec m t : called m → reg16 m 24 = t → 0x60 <= t → t + 1 < 0x10000 →
  t + 1 < spr m - 1 ∨ spr m + 2 < t →
  ∃ m', run 20 z_set_stack_pointer 0 m = Some m' ∧ ram m' t = u8 (spr m - 2) ∧ ram m' (t + 1) = Z.shiftr (spr m - 2) 8 ∧
    (∀ a, a ≠ t → a ≠ t + 1 → a < spr m - 1 ∨ spr m < a → ram m' a = ram m a) ∧ regs m' 26 = regs m 26 ∧ regs m' 27 = regs m 27 ∧ returns m m'.
Proof.
  intros [Hl Hh Hb] Et Ht1 Ht2 Hap. eexists.
  split; [exact (run_ret [PUSH 26; PUSH 27; MOVW 26 24; LDS 24 SPL; LDS 25 SPH; ST_Xp 24; ST_Xp 25; POP 27; POP 26] m 20 eq_refl ltac:(cbn; lia))|].
  set (s := spr m) in *. rewrite !exec_cons. change (exec [] ?x) with x. rewrite (step_push 26 m) by (fold s; unfold in_ram; lia). fold s.
  set (ma := set_spr (s - 1) _). rewrite (step_push 27 ma) by (change (spr ma) with (s - 1); unfold in_ram; lia). change (spr ma) with (s - 1).
  replace (s - 1 - 1) with (s - 2) by lia. set (mb := set_spr (s - 2) _). set (mc := step (LDS 25 SPH) _).
  assert (Ec : reg16 mc X = t ∧ spr mc = s - 2 ∧ regs mc 24 = u8 (s - 2) ∧ regs mc 25 = Z.shiftr (s - 2) 8 ∧
    ram mc = upd (upd (ram m) s (regs m 26)) (s - 1) (regs m 27)) by (by split_and!).
  clearbody mc. destruct Ec as (EX&Es&E24&E25&Er). clear ma mb.
  rewrite (step_st_xp 24 mc t) by (done || unfold in_ram; lia). rewrite E24. set (md := set_reg16 X (t + 1) _).
  assert (Ed : reg16 md X = t + 1) by (apply reg16_set; lia).
  assert (Ed' : spr md = s - 2 ∧ regs md 25 = Z.shiftr (s - 2) 8 ∧ ram md = upd (ram mc) t (u8 (s - 2))) by (split_and!; [exact Es|exact E25|done]).
  clearbody md. destruct Ed' as (Esd&E25d&Erd). set (me := step (ST_Xp 25) md).
  assert (Ee : spr me = s - 2 ∧ ram me = upd (ram md) (t + 1) (Z.shiftr (s - 2) 8)).
  { unfold me. cbn [step]. rewrite Ed, st_ram, E25d by (unfold in_ram; lia). by split. }
  clearbody me. destruct Ee as (Ese&Ere).
  rewrite (step_pop 27 me) by (rewrite Ese; unfold in_ram; lia). rewrite Ese. replace (s - 2 + 1) with (s - 1) by lia. set (mf := set_reg 27 _ _).
  rewrite (step_pop 26 mf) by (change (spr mf) with (s - 1); unfold in_ram; lia). change (spr mf) with (s - 1). change (ram mf) with (ram me).
  replace (s - 1 + 1) with s by lia. set (mg := set_reg 26 _ _).
  assert (Hs0 : ram me s = regs m 26) by (rewrite Ere, Erd, Er, (upd_ne _ (t + 1)), (upd_ne _ t), (upd_ne _ (s - 1)), upd_eq by lia; done).
  assert (Hs1 : ram me (s - 1) = regs m 27) by (rewrite Ere, Erd, Er, (upd_ne _ (t + 1)), (upd_ne _ t), upd_eq by lia; done).
  assert (Eg : spr mg = s ∧ ram mg = ram me ∧ regs mg 26 = regs m 26 ∧ regs mg 27 = regs m 27) by (split_and!; [done|done|exact Hs0|exact Hs1]).
  clearbody mg. destruct Eg as (Esg&Erg&E26&E27). rewrite step_ret by (rewrite Esg; unfold in_ram; lia). rewrite Esg.
  assert (Hrest : ∀ a, a ≠ t → a ≠ t + 1 → a < s - 1 ∨ s < a → ram mg a = ram m a).
  { intros a N1 N2 Ha. rewrite Erg, Ere, Erd, Er. by rewrite !upd_ne by lia. }
  cbn [ram regs spr pc set_pc set_spr]. split_and!; [..|split].
  - rewrite Erg, Ere, Erd, upd_ne, upd_eq by lia. done.
  - by rewrite Erg, Ere, upd_eq.
  - exact Hrest.
  - done.
  - done.
  - done.
  - cbn [pc set_pc]. rewrite !Hrest by lia. done.
Qed.
