(* ===== verification/Thread.v ===== *)
(** * Threads and their stacks (kernel.c, canaries.c, stack_sentinel.c)

    The creation of a thread writes, at the top of its stack, the context the
    first switch to it restores. *)

From S2P Require Import Prelude Dlist Delta Tqueue Types Event Timer Kernel KernelInv KernelSpec World Bytes Avr Context.

(** The switches of avrtos_conf.h that concern stacks, and the code address of
    [z_thread_entry]. *)
Class StackConfig := {
  CONFIG_THREAD_CANARIES : bool;
  CONFIG_THREAD_CANARIES_SYMBOL : Z;
  CONFIG_THREAD_STACK_SENTINEL : bool;
  CONFIG_THREAD_STACK_SENTINEL_SIZE : Z;
  CONFIG_THREAD_STACK_SENTINEL_SYMBOL : Z;
  CONFIG_THREAD_DEFAULT_SREG : Z;
  CONFIG_THREAD_MAIN_MONITORED : bool;
  z_thread_entry_pc : Z;
}.

Section Thread.
Context `{Layout, Config, Handlers, StackConfig}.
Variable F : mem.

(** [sizeof(struct z_callsaved_ctx)], for a 2-byte program counter. *)
Definition Z_CALLSAVED_CTX_SIZE : Z := 21.
Definition Z_THREAD_STACK_VOID_SIZE : Z := Z_CALLSAVED_CTX_SIZE.
Definition Z_THREAD_CTX_START (stack_end : word) : word := ptr_add stack_end (- Z_CALLSAVED_CTX_SIZE + 1).
Definition Z_THREAD_STACK_MIN_SIZE : Z := Z_THREAD_STACK_VOID_SIZE + CONFIG_THREAD_STACK_SENTINEL_SIZE.

Definition K_STACK_START (stack_end : word) (size : Z) : word := ptr_add stack_end (- size + 1).
Definition Z_STACK_END (stack : word) (size : Z) : word := ptr_add stack (size - 1).
Definition Z_STACK_START_USABLE (stack_end : word) (size : Z) : word :=
  ptr_add (K_STACK_START stack_end size)
    (if CONFIG_THREAD_STACK_SENTINEL then CONFIG_THREAD_STACK_SENTINEL_SIZE else 0).
Definition Z_STACK_SIZE_USABLE (size : Z) : Z :=
  if CONFIG_THREAD_STACK_SENTINEL then size - CONFIG_THREAD_STACK_SENTINEL_SIZE else size.
Definition Z_THREAD_STACK_START_USABLE (t : k_thread) : word :=
  Z_STACK_START_USABLE (stack_end t) (stack_size t).

Definition K_SWAP_ENDIANNESS (n : Z) : Z := Z.lor (Z.shiftl (Z.land n 0xFF) 8) (Z.shiftr (Z.land n 0xFF00) 8).

(** A loop that writes [v] to the [n] bytes from [p] on. *)
Fixpoint fill (n : nat) (p : word) (v : Z) (b : bmem) : bmem :=
  match n with O => b | S n => fill n (ptr_add p 1) v (<[p := v]> b) end.
(** A 16-bit store, low byte first. *)
Definition store16 (p : word) (v : Z) (b : bmem) : bmem :=
  <[ptr_add p 1 := Z.shiftr v 8]> (<[p := u8 v]> b).

Definition set_stack (stack_e : word) (size : Z) (t : k_thread) : k_thread :=
  {| sp := sp t; flags := flags t; swap_data := swap_data t; stack_end := stack_e; stack_size := size;
     symbol := symbol t; sched_lock_cnt := sched_lock_cnt t |}.
Definition with_sp (p : word) (t : k_thread) : k_thread :=
  {| sp := p; flags := flags t; swap_data := swap_data t; stack_end := stack_end t; stack_size := stack_size t;
     symbol := symbol t; sched_lock_cnt := sched_lock_cnt t |}.
Definition with_symbol (c : Z) (t : k_thread) : k_thread :=
  {| sp := sp t; flags := flags t; swap_data := swap_data t; stack_end := stack_end t; stack_size := stack_size t;
     symbol := c; sched_lock_cnt := sched_lock_cnt t |}.

(** The bytes of the initial context, at the offsets of [struct
    z_callsaved_ctx]. *)
Definition init_context (ctx : word) (entry context_p : Z) (b : bmem) : bmem :=
  let b := fill 13 (ptr_add ctx 1) 0 b in
  let b := <[ctx := 0]> b in
  let b := <[ptr_add ctx 14 := CONFIG_THREAD_DEFAULT_SREG]> b in
  let b := store16 (ptr_add ctx 17) (K_SWAP_ENDIANNESS context_p) b in
  let b := store16 (ptr_add ctx 15) (K_SWAP_ENDIANNESS entry) b in
  store16 (ptr_add ctx 19) (K_SWAP_ENDIANNESS z_thread_entry_pc) b.

Definition z_thread_stack_create (thread entry context_p : word) (k : kstate) : kstate :=
  let ctx := Z_THREAD_CTX_START (stack_end (thr k thread)) in
  let k := set_bytes (init_context ctx (word_int entry) (word_int context_p) (bytes k)) k in
  upd_thread thread (with_sp (ptr_add ctx (-1))) k.

(** The number of bytes between two pointers into a stack. *)
Definition ptr_diff (a b : word) : Z :=
  match a, b with Ptr _ x, Ptr _ y => x - y | Int x, Int y => x - y | _, _ => 0 end.

Definition z_init_thread_stack_canaries (thread : word) (k : kstate) : kstate :=
  let t := thr k thread in
  let start := Z_THREAD_STACK_START_USABLE t in
  let last := ptr_add (stack_end t) (- Z_THREAD_STACK_VOID_SIZE) in
  set_bytes (fill (Z.to_nat (ptr_diff last start + 1)) start CONFIG_THREAD_CANARIES_SYMBOL (bytes k)) k.

Definition z_init_thread_stack_sentinel (thread : word) (k : kstate) : kstate :=
  let t := thr k thread in
  set_bytes (fill (Z.to_nat CONFIG_THREAD_STACK_SENTINEL_SIZE) (K_STACK_START (stack_end t) (stack_size t))
    CONFIG_THREAD_STACK_SENTINEL_SYMBOL (bytes k)) k.

Definition k_thread_create (thread entry stack : word) (size prio : Z) (context_p : word) (sym : Z) : M Z :=
  if negb (z_user (nonnull thread && nonnull entry && nonnull stack && (Z_THREAD_STACK_MIN_SIZE <=? size)))
  then ret (- EINVAL)
  else
    modify (upd_thread thread (set_stack (Z_STACK_END stack size) size));;
    (when CONFIG_THREAD_CANARIES do modify (z_init_thread_stack_canaries thread));;
    (when CONFIG_THREAD_STACK_SENTINEL do modify (z_init_thread_stack_sentinel thread));;
    modify (z_thread_stack_create thread entry context_p);;
    modify (set_flags thread (Z.lor Z_THREAD_STATE_STOPPED (Z.land prio Z_THREAD_PRIO_MSK)));;
    modify (upd_thread thread (with_symbol sym));;
    modify (set_swap_data thread NULL);;
    (when CONFIG_KERNEL_REENTRANCY do modify (set_lock_cnt thread 0));;
    (when CONFIG_THREAD_JOIN do modify (upd_links (λ m, dlist_init m (thread_join thread))));;
    ret 0.

(** [z_stack_canaries]: the loop stops at the first byte that is not the
    canary symbol. *)
Fixpoint z_stack_canaries_loop (fuel : nat) (b : bmem) (p : word) : option word :=
  match fuel with
  | O => None
  | S fuel =>
      if rdb b p =? CONFIG_THREAD_CANARIES_SYMBOL then z_stack_canaries_loop fuel b (ptr_add p 1) else Some p
  end.
Definition z_stack_canaries (fuel : nat) (thread : word) (k : kstate) : option word :=
  z_stack_canaries_loop fuel (bytes k)
    (Z_STACK_START_USABLE (stack_end (thr k thread)) (stack_size (thr k thread))).

(** The loop over the [n] sentinel bytes from [p] on. *)
Fixpoint sentinel_loop (n : nat) (b : bmem) (p : word) : bool :=
  match n with
  | O => true
  | S n => if negb (rdb b p =? CONFIG_THREAD_STACK_SENTINEL_SYMBOL) then false else sentinel_loop n b (ptr_add p 1)
  end.
Definition z_thread_verify_sent (thread : word) (k : kstate) : bool :=
  sentinel_loop (Z.to_nat CONFIG_THREAD_STACK_SENTINEL_SIZE) (bytes k)
    (K_STACK_START (stack_end (thr k thread)) (stack_size (thr k thread))).
Definition Z_THREAD_IS_MONITORED (thread : word) : bool :=
  CONFIG_THREAD_MAIN_MONITORED || negb (bool_decide (thread = z_thread_main)).
Definition k_verify_stack_sentinel (thread : word) (k : kstate) : bool :=
  if negb (Z_THREAD_IS_MONITORED thread) then true else z_thread_verify_sent thread k.

Definition K_FAULT_STACK_SENTINEL : Z := 1.
Definition K_FAULT_STACK_OVERFLOW : Z := 2.

(** [z_thread_monitor], with the stack pointer read from SP. *)
Definition z_thread_monitor (thread : word) (SP : Z) : M unit :=
  if negb (Z_THREAD_IS_MONITORED thread) then ret tt
  else
    let* k := get in
    let stack_offset := u16 (word_int (stack_end (thr k thread)) - SP) in
    if stack_size (thr k thread) <? stack_offset then fault K_FAULT_STACK_OVERFLOW
    else when CONFIG_THREAD_STACK_SENTINEL && negb (z_thread_verify_sent thread k) do
      fault K_FAULT_STACK_SENTINEL.

(** ** Bytes of a stack, by their offset *)

Lemma ptr_add_eqb s a j : bool_decide (ptr_add s a = ptr_add s j) = (j =? a).
Proof.
  destruct (Z.eqb_spec j a) as [->|Hne]; [by apply bool_decide_true|].
  apply bool_decide_false. intros E%ptr_add_ofs_inj. lia.
Qed.

Lemma rdb_insert_at b s a v j : rdb (<[ptr_add s a := v]> b) (ptr_add s j) = if j =? a then v else rdb b (ptr_add s j).
Proof.
  rewrite rdb_insert. rewrite <- ptr_add_eqb with (s := s). case_decide; case_bool_decide; done.
Qed.

Lemma rdb_fill_at n s a v j : ∀ b,
  rdb (fill n (ptr_add s a) v b) (ptr_add s j)
  = if (a <=? j) && (j <? a + Z.of_nat n) then v else rdb b (ptr_add s j).
Proof.
  revert a. induction n as [|n IH]; intros a b; cbn [fill].
  { destruct (Z.leb_spec a j), (Z.ltb_spec j (a + Z.of_nat 0)); try done; lia. }
  rewrite ptr_add_assoc, IH, rdb_insert_at.
  destruct (Z.eqb_spec j a), (Z.leb_spec (a + 1) j), (Z.ltb_spec j (a + 1 + Z.of_nat n)), (Z.leb_spec a j),
    (Z.ltb_spec j (a + Z.of_nat (S n))); try done; lia.
Qed.

Lemma rdb_store16_at b s a v j :
  rdb (store16 (ptr_add s a) v b) (ptr_add s j)
  = if j =? a + 1 then Z.shiftr v 8 else if j =? a then u8 v else rdb b (ptr_add s j).
Proof. unfold store16. by rewrite ptr_add_assoc, !rdb_insert_at. Qed.

Lemma swap_bytes v : 0 <= v < 65536 →
  u8 (K_SWAP_ENDIANNESS v) = Z.shiftr v 8 ∧ Z.shiftr (K_SWAP_ENDIANNESS v) 8 = u8 v.
Proof.
  intros Hv. unfold K_SWAP_ENDIANNESS, u8. change 256 with (2 ^ 8). change 0xFF with (Z.ones 8).
  change 0xFF00 with (Z.shiftl (Z.ones 8) 8).
  assert (Hhi : ∀ n, 16 <= n → Z.testbit v n = false).
  { intros n Hn. destruct (decide (v = 0)) as [->|]; [apply Z.bits_0|]. apply Z.bits_above_log2; [lia|].
    assert (Z.log2 v < 16); [|lia]. apply Z.log2_lt_pow2; [lia|]. change (2 ^ 16) with 65536. lia. }
  split; apply Z.bits_inj'; intros n Hn.
  - rewrite <- Z.land_ones, Z.land_spec, Z.lor_spec, Z.shiftl_spec, !Z.shiftr_spec, !Z.land_spec, Z.shiftl_spec by lia.
    replace (n + 8 - 8) with n by lia. destruct (decide (n < 8)).
    + rewrite (Z.ones_spec_low 8 n), (Z.testbit_neg_r v (n - 8)) by lia. by rewrite !andb_true_r.
    + rewrite (Z.ones_spec_high 8 n), !andb_false_r by lia. symmetry. apply Hhi. lia.
  - rewrite <- Z.land_ones by lia. rewrite Z.shiftr_spec, Z.lor_spec, Z.shiftl_spec, Z.shiftr_spec, !Z.land_spec,
      Z.shiftl_spec by lia.
    replace (n + 8 - 8) with n by lia. replace (n + 8 + 8 - 8) with (n + 8) by lia.
    rewrite (Z.ones_spec_high 8 (n + 8)), andb_false_r, orb_false_r by lia. done.
Qed.

(** The byte at the offset [i] of the initial context. *)
Definition context_byte (entry context_p : Z) (i : Z) : Z :=
  if i =? 14 then CONFIG_THREAD_DEFAULT_SREG
  else if i =? 15 then Z.shiftr entry 8 else if i =? 16 then u8 entry
  else if i =? 17 then Z.shiftr context_p 8 else if i =? 18 then u8 context_p
  else if i =? 19 then Z.shiftr z_thread_entry_pc 8 else if i =? 20 then u8 z_thread_entry_pc
  else 0.

Definition addr_ok (v : Z) : Prop := 0 <= v < 65536.

Lemma init_context_at b s c entry context_p j :
  addr_ok entry → addr_ok context_p → addr_ok z_thread_entry_pc →
  rdb (init_context (ptr_add s c) entry context_p b) (ptr_add s j)
  = if (c <=? j) && (j <? c + 21) then context_byte entry context_p (j - c) else rdb b (ptr_add s j).
Proof.
  intros He Hc Hp. unfold init_context. rewrite !ptr_add_assoc.
  rewrite !rdb_store16_at, !rdb_insert_at, rdb_fill_at.
  destruct (swap_bytes _ He) as [-> ->], (swap_bytes _ Hc) as [-> ->], (swap_bytes _ Hp) as [-> ->].
  unfold context_byte. destruct (Z.leb_spec c j), (Z.ltb_spec j (c + 21)); cbn [andb].
  2-4: repeat (rewrite (proj2 (Z.eqb_neq j _)) by lia);
    destruct (Z.leb_spec (c + 1) j), (Z.ltb_spec j (c + 1 + Z.of_nat 13)); try done; lia.
  assert (Hi : ∀ i, (j =? c + i) = (j - c =? i)).
  { intros i. destruct (Z.eqb_spec j (c + i)), (Z.eqb_spec (j - c) i); try done; lia. }
  replace (c + 19 + 1) with (c + 20) by lia. replace (c + 15 + 1) with (c + 16) by lia.
  replace (c + 17 + 1) with (c + 18) by lia. rewrite !Hi.
  repeat match goal with |- context [j - c =? ?n] => destruct (Z.eqb_spec (j - c) n); try lia; try done end;
    destruct (Z.eqb_spec j c), (Z.leb_spec (c + 1) j), (Z.ltb_spec j (c + 1 + Z.of_nat 13)); try done; lia.
Qed.

(** ** [k_thread_create] *)

(** A thread that is in no queue may be given any flags of a stopped thread. *)
Lemma Inv_stopped t fl k T rs ts Q :
  Inv F k T rs ts Q → t ∉ rs → t ∉ ts.*1 → unqueued Q t →
  Z.land fl Z_THREAD_STATE_MSK = Z_THREAD_STATE_STOPPED → Z.land fl Z_THREAD_WAKEUP_SCHED_MSK = 0 →
  Inv F (set_flags t fl k) T rs ts Q.
Proof.
  intros [Hl Hc Hfl Hwf Hid Hs1 Hs2] Hrs Hts Hu H3 H128. split; try done.
  - intros t' Ht' Hx. unfold thread_ok, set_flags. rewrite thr_upd. case_decide as E; [subst t'|by apply Hfl].
    cbn [flags with_flags]. unfold fl_ok. rewrite H3. split_and!.
    + naive_solver.
    + naive_solver.
    + intros [?|(l&ws&Hw&Hin)]; [done|]. by destruct (Hu l ws).
  - unfold z_get_thread_state, set_flags. rewrite thr_upd. case_decide; [cbn [flags with_flags]; by rewrite H3|done].
Qed.

Lemma prio_flags prio :
  let fl := Z.lor Z_THREAD_STATE_STOPPED (Z.land prio Z_THREAD_PRIO_MSK) in
  Z.land fl Z_THREAD_STATE_MSK = Z_THREAD_STATE_STOPPED ∧ Z.land fl Z_THREAD_WAKEUP_SCHED_MSK = 0.
Proof.
  cbv zeta. rewrite Z.lor_0_l, <- !Z.land_assoc. split; apply Z.land_0_r.
Qed.

(** The bytes of a stack after its thread is created, by their offset. *)
Definition usable_ofs : Z := if CONFIG_THREAD_STACK_SENTINEL then CONFIG_THREAD_STACK_SENTINEL_SIZE else 0.
Definition stack_byte (size entry context_p old j : Z) : Z :=
  if size - 21 <=? j then context_byte entry context_p (j - (size - 21))
  else if j <? usable_ofs then CONFIG_THREAD_STACK_SENTINEL_SYMBOL
  else if CONFIG_THREAD_CANARIES then CONFIG_THREAD_CANARIES_SYMBOL else old.

Definition new_thread (stack : word) (size prio sym : Z) (old : k_thread) : k_thread :=
  {| sp := ptr_add stack (size - 22); flags := Z.land prio Z_THREAD_PRIO_MSK; swap_data := NULL;
     stack_end := ptr_add stack (size - 1); stack_size := size; symbol := sym;
     sched_lock_cnt := if CONFIG_KERNEL_REENTRANCY then 0 else sched_lock_cnt old |}.

Lemma sentinel_loop_spec n b s a :
  (∀ j, a <= j < a + Z.of_nat n → rdb b (ptr_add s j) = CONFIG_THREAD_STACK_SENTINEL_SYMBOL) →
  sentinel_loop n b (ptr_add s a) = true.
Proof.
  revert a. induction n as [|n IH]; intros a Hb; [done|]. cbn [sentinel_loop].
  rewrite Hb by lia. rewrite Z.eqb_refl, ptr_add_assoc. apply IH. intros j Hj. apply Hb. lia.
Qed.

Lemma canaries_loop_spec n b s a : ∀ fuel,
  (∀ j, a <= j < a + Z.of_nat n → rdb b (ptr_add s j) = CONFIG_THREAD_CANARIES_SYMBOL) →
  rdb b (ptr_add s (a + Z.of_nat n)) ≠ CONFIG_THREAD_CANARIES_SYMBOL → (n < fuel)%nat →
  z_stack_canaries_loop fuel b (ptr_add s a) = Some (ptr_add s (a + Z.of_nat n)).
Proof.
  revert a. induction n as [|n IH]; intros a [|fuel] Hb Hx Hf; try lia; cbn [z_stack_canaries_loop].
  - rewrite Z.add_0_r in *. by rewrite (proj2 (Z.eqb_neq _ _)).
  - rewrite Hb by lia. rewrite Z.eqb_refl, ptr_add_assoc.
    replace (a + Z.of_nat (S n)) with (a + 1 + Z.of_nat n) in * by lia. apply IH; [|done|lia].
    intros j Hj. apply Hb. lia.
Qed.

Lemma thr_bytes b k t : thr (set_bytes b k) t = thr k t.
Proof. done. Qed.

Lemma thr_links m k t : thr (set_links m k) t = thr k t.
Proof. done. Qed.

Lemma bind_when {A} (b : bool) g (f : unit → M A) k :
  bind (when b do modify g) f k = f tt (if b then g k else k).
Proof. by destruct b. Qed.

(** The writes to the stack, in the order of the calls. *)
Definition create_bytes (stack : word) (size entry context_p : Z) (b : bmem) : bmem :=
  let b := if CONFIG_THREAD_CANARIES
           then fill (Z.to_nat (size - 21 - usable_ofs)) (ptr_add stack usable_ofs) CONFIG_THREAD_CANARIES_SYMBOL b else b in
  let b := if CONFIG_THREAD_STACK_SENTINEL
           then fill (Z.to_nat CONFIG_THREAD_STACK_SENTINEL_SIZE) (ptr_add stack 0) CONFIG_THREAD_STACK_SENTINEL_SYMBOL b else b in
  init_context (ptr_add stack (size - 21)) entry context_p b.

Lemma create_bytes_at stack size entry context_p b j :
  addr_ok entry → addr_ok context_p → addr_ok z_thread_entry_pc →
  0 <= CONFIG_THREAD_STACK_SENTINEL_SIZE → Z_THREAD_STACK_MIN_SIZE <= size → 0 <= j < size →
  rdb (create_bytes stack size entry context_p b) (ptr_add stack j)
  = stack_byte size entry context_p (rdb b (ptr_add stack j)) j.
Proof.
  intros He Hc Hp Hs Hm Hj. unfold Z_THREAD_STACK_MIN_SIZE, Z_THREAD_STACK_VOID_SIZE, Z_CALLSAVED_CTX_SIZE in Hm.
  unfold create_bytes, stack_byte. rewrite init_context_at by done.
  assert (Hu : 0 <= usable_ofs <= CONFIG_THREAD_STACK_SENTINEL_SIZE) by (unfold usable_ofs; destruct CONFIG_THREAD_STACK_SENTINEL; lia).
  destruct (Z.leb_spec (size - 21) j), (Z.ltb_spec j (size - 21 + 21)); cbn [andb]; try done; try lia.
  unfold usable_ofs in *. destruct CONFIG_THREAD_CANARIES, CONFIG_THREAD_STACK_SENTINEL;
    rewrite ?rdb_fill_at, ?Z2Nat.id by lia;
    repeat match goal with |- context [?x <=? ?y] => destruct (Z.leb_spec x y)
                         | |- context [?x <? ?y] => destruct (Z.ltb_spec x y) end; cbn [andb]; try done; lia.
Qed.

(** The writes stay inside the stack. *)
Definition same_outside (stack : word) (size : Z) (b b' : bmem) : Prop :=
  ∀ p, (∀ j, 0 <= j < size → p ≠ ptr_add stack j) → b' !! p = b !! p.

Lemma fill_outside p v n s a : ∀ b,
  (∀ j, a <= j < a + Z.of_nat n → p ≠ ptr_add s j) → fill n (ptr_add s a) v b !! p = b !! p.
Proof.
  revert a. induction n as [|n IH]; intros a b Hp; [done|]. cbn [fill]. rewrite ptr_add_assoc, IH.
  - apply lookup_insert_ne. intros E. apply (Hp a); [lia|done].
  - intros j Hj. apply Hp. lia.
Qed.

Lemma store16_outside p v s a b : p ≠ ptr_add s a → p ≠ ptr_add s (a + 1) → store16 (ptr_add s a) v b !! p = b !! p.
Proof. intros Hp0 Hp1. unfold store16. rewrite ptr_add_assoc. by rewrite !lookup_insert_ne. Qed.

Lemma create_bytes_outside stack size entry context_p b :
  0 <= CONFIG_THREAD_STACK_SENTINEL_SIZE → Z_THREAD_STACK_MIN_SIZE <= size →
  same_outside stack size b (create_bytes stack size entry context_p b).
Proof.
  intros Hs Hm p Hp. unfold Z_THREAD_STACK_MIN_SIZE, Z_THREAD_STACK_VOID_SIZE, Z_CALLSAVED_CTX_SIZE in Hm.
  assert (Hu : 0 <= usable_ofs <= CONFIG_THREAD_STACK_SENTINEL_SIZE) by (unfold usable_ofs; destruct CONFIG_THREAD_STACK_SENTINEL; lia).
  unfold create_bytes, init_context. rewrite !ptr_add_assoc.
  rewrite !store16_outside by (apply Hp; lia).
  rewrite !lookup_insert_ne, fill_outside by (first [intros j Hj; apply Hp; lia|intros E; symmetry in E; revert E; apply Hp; lia]).
  unfold usable_ofs in *. destruct CONFIG_THREAD_CANARIES, CONFIG_THREAD_STACK_SENTINEL;
    rewrite ?fill_outside by (intros j Hj; apply Hp; lia); done.
Qed.

(** The state [k_thread_create] leaves, as updates of the state it is called in. *)
Definition created (thread stack : word) (size entry context_p prio sym : Z) (k : kstate) : kstate :=
  let k := upd_thread thread (set_stack (Z_STACK_END stack size) size) k in
  let k := set_bytes (create_bytes stack size entry context_p (bytes k)) k in
  let k := upd_thread thread (with_sp (ptr_add stack (size - 22))) k in
  let k := set_flags thread (Z.lor Z_THREAD_STATE_STOPPED (Z.land prio Z_THREAD_PRIO_MSK)) k in
  let k := upd_thread thread (with_symbol sym) k in
  let k := set_swap_data thread NULL k in
  let k := if CONFIG_KERNEL_REENTRANCY then set_lock_cnt thread 0 k else k in
  if CONFIG_THREAD_JOIN then upd_links (λ m, dlist_init m (thread_join thread)) k else k.

Lemma ptr_diff_add s x y : ptr_diff (ptr_add s x) (ptr_add s y) = x - y.
Proof. destruct s; simpl; lia. Qed.

Lemma canaries_bytes thread stack size k : stack_end (thr k thread) = Z_STACK_END stack size → stack_size (thr k thread) = size →
  z_init_thread_stack_canaries thread k =
  set_bytes (fill (Z.to_nat (size - 21 - usable_ofs)) (ptr_add stack usable_ofs) CONFIG_THREAD_CANARIES_SYMBOL (bytes k)) k.
Proof.
  intros E1 E2. unfold z_init_thread_stack_canaries, Z_THREAD_STACK_START_USABLE, Z_STACK_START_USABLE, K_STACK_START.
  rewrite E1, E2. unfold Z_STACK_END. rewrite !ptr_add_assoc, ptr_diff_add. fold usable_ofs.
  unfold Z_THREAD_STACK_VOID_SIZE, Z_CALLSAVED_CTX_SIZE. f_equal. f_equal; [f_equal; lia|f_equal; lia].
Qed.

Lemma sentinel_bytes thread stack size k : stack_end (thr k thread) = Z_STACK_END stack size → stack_size (thr k thread) = size →
  z_init_thread_stack_sentinel thread k =
  set_bytes (fill (Z.to_nat CONFIG_THREAD_STACK_SENTINEL_SIZE) (ptr_add stack 0) CONFIG_THREAD_STACK_SENTINEL_SYMBOL (bytes k)) k.
Proof.
  intros E1 E2. unfold z_init_thread_stack_sentinel, K_STACK_START. rewrite E1, E2. unfold Z_STACK_END.
  rewrite ptr_add_assoc. by replace (size - 1 + (- size + 1)) with 0 by lia.
Qed.

Lemma context_bytes thread stack size entry context_p k : stack_end (thr k thread) = Z_STACK_END stack size →
  z_thread_stack_create thread entry context_p k =
  upd_thread thread (with_sp (ptr_add stack (size - 22)))
    (set_bytes (init_context (ptr_add stack (size - 21)) (word_int entry) (word_int context_p) (bytes k)) k).
Proof.
  intros E1. unfold z_thread_stack_create. rewrite E1. unfold Z_THREAD_CTX_START, Z_STACK_END, Z_CALLSAVED_CTX_SIZE.
  rewrite !ptr_add_assoc. replace (size - 1 + (- (21) + 1)) with (size - 21) by lia.
  by replace (size - 1 + (- (21) + 1 + -1)) with (size - 22) by lia.
Qed.

(** [k_thread_create] on every branch. *)
Lemma k_thread_create_run thread entry stack size prio context_p sym k :
  CONFIG_KERNEL_ARGS_CHECKS = true →
  k_thread_create thread entry stack size prio context_p sym k
  = if negb (nonnull thread && nonnull entry && nonnull stack && (Z_THREAD_STACK_MIN_SIZE <=? size)) then Done (- EINVAL) k
    else Done 0 (created thread stack size (word_int entry) (word_int context_p) prio sym k).
Proof.
  intros Hchk. unfold k_thread_create, z_user. rewrite Hchk.
  destruct (nonnull thread && nonnull entry && nonnull stack && (Z_THREAD_STACK_MIN_SIZE <=? size)); cbn [negb]; [|done].
  rewrite bind_modify, !bind_when. rewrite !bind_modify, !bind_when. unfold ret, created, create_bytes.
  set (k1 := upd_thread thread (set_stack (Z_STACK_END stack size) size) k).
  assert (E1 : thr k1 thread = set_stack (Z_STACK_END stack size) size (thr k thread)) by apply thr_upd_eq.
  assert (Ea : stack_end (thr k1 thread) = Z_STACK_END stack size ∧ stack_size (thr k1 thread) = size) by by rewrite E1.
  destruct Ea as [Ea Eb].
  destruct CONFIG_THREAD_CANARIES, CONFIG_THREAD_STACK_SENTINEL;
    rewrite ?(canaries_bytes thread stack size), ?(sentinel_bytes thread stack size), (context_bytes thread stack size) by done;
    reflexivity.
Qed.

Lemma created_thread thread stack size entry context_p prio sym k :
  thr (created thread stack size entry context_p prio sym k) thread = new_thread stack size prio sym (thr k thread) ∧
  (∀ t, t ≠ thread → thr (created thread stack size entry context_p prio sym k) t = thr k t) ∧
  bytes (created thread stack size entry context_p prio sym k) = create_bytes stack size entry context_p (bytes k) ∧
  current (created thread stack size entry context_p prio sym k) = current k.
Proof.
  unfold created, new_thread, set_lock_cnt, set_swap_data, set_flags. split_and!.
  - destruct CONFIG_KERNEL_REENTRANCY, CONFIG_THREAD_JOIN; unfold upd_links;
      rewrite ?thr_links, !thr_upd_eq, ?thr_bytes, !thr_upd_eq; reflexivity.
  - intros t Hne. destruct CONFIG_KERNEL_REENTRANCY, CONFIG_THREAD_JOIN; unfold upd_links;
      rewrite ?thr_links, !thr_upd_ne, ?thr_bytes, ?thr_upd_ne by done; reflexivity.
  - by destruct CONFIG_KERNEL_REENTRANCY, CONFIG_THREAD_JOIN.
  - by destruct CONFIG_KERNEL_REENTRANCY, CONFIG_THREAD_JOIN.
Qed.

(** What [k_thread_create] writes: the record of the thread, the bytes of the
    stack and the ring of the thread's joiners; no other object. *)
Definition only_thread_written (k k' : kstate) : Prop :=
  k' = set_links (links k') (set_bytes (bytes k') (set_threads (threads k') k)).

Lemma created_frame thread stack size entry context_p prio sym k :
  only_thread_written k (created thread stack size entry context_p prio sym k).
Proof. unfold only_thread_written, created. by destruct CONFIG_KERNEL_REENTRANCY, CONFIG_THREAD_JOIN. Qed.

(** Initialising a ring that is empty already leaves the links as they read. *)
Lemma dlist_init_again m h p : Dlist.ring m h [] → rd0 (dlist_init m h) p = rd0 m p ∧ rd1 (dlist_init m h) p = rd1 m p.
Proof.
  intros [E5 E6]%ring_nil. destruct (decide (p = h)) as [->|Hne]; [|by apply dlist_init_frame].
  pose proof (dlist_init_ring m h) as [-> ->]%ring_nil. done.
Qed.

Lemma created_links thread stack size entry context_p prio sym k T rs ts Q p :
  Inv F k T rs ts Q → (CONFIG_THREAD_JOIN = true → Q !! thread_join thread = Some []) →
  rd0 (links (created thread stack size entry context_p prio sym k)) p = rd0 (links k) p ∧
  rd1 (links (created thread stack size entry context_p prio sym k)) p = rd1 (links k) p.
Proof.
  intros Hi Hj. unfold created. destruct CONFIG_THREAD_JOIN; [|by destruct CONFIG_KERNEL_REENTRANCY].
  pose proof (lk_wq _ _ _ _ _ _ _ (inv_links _ _ _ _ _ _ _ Hi) _ _ (Hj eq_refl)) as Hr.
  destruct CONFIG_KERNEL_REENTRANCY; cbn [upd_links links set_links]; by apply dlist_init_again.
Qed.

Lemma created_inv thread stack size entry context_p prio sym k T rs ts Q :
  Inv F k T rs ts Q → thread ∉ rs → thread ∉ ts.*1 → unqueued Q thread →
  (CONFIG_THREAD_JOIN = true → Q !! thread_join thread = Some []) →
  Inv F (created thread stack size entry context_p prio sym k) T rs ts Q.
Proof.
  intros Hi Hrs Hts Hu Hj. unfold created. set (k5 := set_swap_data thread NULL _).
  assert (Hi5 : Inv F k5 T rs ts Q).
  { unfold k5. apply Inv_upd_thread; [done|]. apply Inv_upd_thread; [done|]. destruct (prio_flags prio) as [H3 H128].
    apply Inv_stopped; try done. apply Inv_upd_thread; [done|].
    set (k1 := upd_thread thread (set_stack (Z_STACK_END stack size) size) k).
    apply (Inv_objs _ k1); try done. by apply Inv_upd_thread. }
  set (k6 := if CONFIG_KERNEL_REENTRANCY then _ else _).
  assert (Hi6 : Inv F k6 T rs ts Q) by (unfold k6; destruct CONFIG_KERNEL_REENTRANCY; [by apply Inv_upd_thread|done]).
  destruct CONFIG_THREAD_JOIN; [|done]. apply Inv_set_links; [done|].
  intros p. apply dlist_init_again. exact (lk_wq _ _ _ _ _ _ _ (inv_links _ _ _ _ _ _ _ Hi6) _ _ (Hj eq_refl)).
Qed.

(** What the checks of a stack find on the bytes of a new one. *)
Lemma new_stack_checks k thread stack size entry context_p old :
  0 <= CONFIG_THREAD_STACK_SENTINEL_SIZE → Z_THREAD_STACK_MIN_SIZE <= size →
  stack_end (thr k thread) = ptr_add stack (size - 1) → stack_size (thr k thread) = size →
  (∀ j, 0 <= j < size → rdb (bytes k) (ptr_add stack j) = stack_byte size entry context_p (old j) j) →
  (CONFIG_THREAD_STACK_SENTINEL = true → z_thread_verify_sent thread k = true) ∧
  (CONFIG_THREAD_CANARIES = true → CONFIG_THREAD_CANARIES_SYMBOL ≠ 0 →
     z_stack_canaries (S (Z.to_nat size)) thread k = Some (ptr_add stack (size - 21))).
Proof.
  intros Hss Hm Hend Hsz Hb.
  unfold Z_THREAD_STACK_MIN_SIZE, Z_THREAD_STACK_VOID_SIZE, Z_CALLSAVED_CTX_SIZE in Hm.
  assert (Huo : 0 <= usable_ofs <= CONFIG_THREAD_STACK_SENTINEL_SIZE) by (unfold usable_ofs; destruct CONFIG_THREAD_STACK_SENTINEL; lia).
  split.
  - intros Hs. unfold z_thread_verify_sent. rewrite Hend, Hsz.
    unfold K_STACK_START. rewrite ptr_add_assoc. apply sentinel_loop_spec. intros j Hjj.
    rewrite Z2Nat.id in Hjj by lia. rewrite Hb by lia. unfold stack_byte, usable_ofs. rewrite Hs.
    by rewrite (proj2 (Z.leb_gt _ _)), (proj2 (Z.ltb_lt _ _)) by lia.
  - intros Hcn Hc0. unfold z_stack_canaries. rewrite Hend, Hsz.
    unfold Z_STACK_START_USABLE, K_STACK_START. fold usable_ofs. rewrite !ptr_add_assoc.
    replace (size - 1 + (- size + 1 + usable_ofs)) with usable_ofs by lia.
    rewrite (canaries_loop_spec (Z.to_nat (size - 21 - usable_ofs))).
    + rewrite Z2Nat.id by lia. do 2 f_equal. lia.
    + intros j Hjj. rewrite Z2Nat.id in Hjj by lia. rewrite Hb by lia. unfold stack_byte. rewrite Hcn.
      by rewrite (proj2 (Z.leb_gt _ _)), (proj2 (Z.ltb_ge _ _)) by lia.
    + rewrite Z2Nat.id by lia. replace (usable_ofs + (size - 21 - usable_ofs)) with (size - 21) by lia.
      rewrite Hb by lia. unfold stack_byte. destruct (Z.leb_spec (size - 21) (size - 21)) as [_|]; [|lia].
      replace (size - 21 - (size - 21)) with 0 by lia. intros E. apply Hc0. symmetry. exact E.
    + lia.
Qed.

(** C16: wrong arguments (a missing thread, entry or stack, or a stack that is
    too small) are refused and nothing is written; otherwise the thread is left
    stopped, in no queue, with its priority, its stack bounded by the sentinel,
    filled with canaries and topped by its initial context, and its stack
    pointer just below it; no other thread, no byte outside the stack, no link
    of a queue and no other object of the kernel changes. *)
Theorem k_thread_create_spec thread entry stack size prio context_p sym k T rs ts Q :
  Inv F k T rs ts Q → thread ∉ rs → thread ∉ ts.*1 → unqueued Q thread →
  (CONFIG_THREAD_JOIN = true → Q !! thread_join thread = Some []) →
  CONFIG_KERNEL_ARGS_CHECKS = true →
  addr_ok (word_int entry) → addr_ok (word_int context_p) → addr_ok z_thread_entry_pc →
  0 <= CONFIG_THREAD_STACK_SENTINEL_SIZE →
  if negb (nonnull thread && nonnull entry && nonnull stack && (Z_THREAD_STACK_MIN_SIZE <=? size))
  then k_thread_create thread entry stack size prio context_p sym k = Done (- EINVAL) k
  else ∃ k', k_thread_create thread entry stack size prio context_p sym k = Done 0 k' ∧
    Inv F k' T rs ts Q ∧ current k' = current k ∧
    thr k' thread = new_thread stack size prio sym (thr k thread) ∧
    (∀ t, t ≠ thread → thr k' t = thr k t) ∧
    (∀ j, 0 <= j < size → rdb (bytes k') (ptr_add stack j)
       = stack_byte size (word_int entry) (word_int context_p) (rdb (bytes k) (ptr_add stack j)) j) ∧
    same_outside stack size (bytes k) (bytes k') ∧
    (∀ p, rd0 (links k') p = rd0 (links k) p ∧ rd1 (links k') p = rd1 (links k) p) ∧
    only_thread_written k k' ∧
    (CONFIG_THREAD_STACK_SENTINEL = true → z_thread_verify_sent thread k' = true) ∧
    (CONFIG_THREAD_CANARIES = true → CONFIG_THREAD_CANARIES_SYMBOL ≠ 0 →
       z_stack_canaries (S (Z.to_nat size)) thread k' = Some (ptr_add stack (size - 21))).
Proof.
  intros Hi Hrs Hts Hu Hj Hchk Hae Hac Hap Hss. rewrite k_thread_create_run by done.
  destruct (negb _) eqn:Eg; [done|]. apply negb_false_iff, andb_true_iff in Eg. destruct Eg as [_ Hsz%Z.leb_le].
  eexists. split; [reflexivity|].
  destruct (created_thread thread stack size (word_int entry) (word_int context_p) prio sym k) as (Hth&Hoth&Hby&Hcur).
  split; [by apply created_inv|]. split; [done|]. split; [done|]. split; [done|]. split.
  { intros j Hjj. rewrite Hby. by apply create_bytes_at. }
  split; [rewrite Hby; by apply create_bytes_outside|]. split; [intros p; by eapply created_links|]. split; [apply created_frame|].
  eapply new_stack_checks; [done|assumption|by rewrite Hth|by rewrite Hth|]. intros j Hjj. rewrite Hby. by apply create_bytes_at.
Qed.

(** ** The first run of a thread *)

(** The offset of [r] in the pushes of a switch. *)
Definition saved_index (r : Z) : Z := if r <? 28 then r - 2 else r - 12.

(** The thread as a switch finds it: its saved registers are the bytes of its
    stack, which ends at [e]. *)
Definition first_context (f : Z → Z) (e : Z) : avr :=
  {| regs := λ r, f (e - 2 - saved_index r); ram := f; spr := e - 2; sreg := f (e - 20); pc := 0 |}.

Lemma saved_index_lookup i r : saved_regs !! i = Some r → saved_index r = Z.of_nat i.
Proof. do 18 (destruct i as [|i]; [cbn; by intros [= <-]|]). done. Qed.

Lemma first_context_saved f e t : f t = u8 (e - 21) → f (t + 1) = Z.shiftr (e - 21) 8 →
  context_saved (first_context f e) t f.
Proof.
  intros Hq1 Hq2. unfold first_context, CTX_PUSHED. split; cbn [spr regs ram sreg]; unfold CTX_PUSHED.
  - rewrite Hq1. f_equal. lia.
  - rewrite Hq2. f_equal. lia.
  - intros i r Hi. by rewrite (saved_index_lookup _ _ Hi).
  - f_equal. lia.
  - done.
Qed.

Lemma z_thread_entry_exec m : let m' := exec z_thread_entry m in
  reg16 m' 24 = reg16 m 2 ∧ reg16 m' ZL = reg16 m 4 ∧ sreg m' = regs m 6 ∧ spr m' = spr m.
Proof. done. Qed.

Lemma hi_lo v : addr_ok v → u8 v + 256 * Z.shiftr v 8 = v.
Proof. intros Hv. by apply split16. Qed.

(** The memory [f] holds the bytes of [k] at [stack], which is at [a]. *)
Definition stack_loaded (f : Z → Z) (a : Z) (k : kstate) (stack : word) (size : Z) : Prop :=
  ∀ j, 0 <= j < size → f (a + j) = rdb (bytes k) (ptr_add stack j).

Lemma stack_create_at thread entry context_p k stack size j :
  addr_ok (word_int entry) → addr_ok (word_int context_p) → addr_ok z_thread_entry_pc →
  stack_end (thr k thread) = ptr_add stack (size - 1) → 0 <= j < 21 →
  rdb (bytes (z_thread_stack_create thread entry context_p k)) (ptr_add stack (size - 21 + j))
  = context_byte (word_int entry) (word_int context_p) j.
Proof.
  intros Hq1 Hq2 Hq3 He Hj. unfold z_thread_stack_create. rewrite He. unfold Z_THREAD_CTX_START, Z_CALLSAVED_CTX_SIZE.
  change (bytes (upd_thread thread ?f (set_bytes ?b k))) with b. rewrite ptr_add_assoc.
  replace (size - 1 + (- (21) + 1)) with (size - 21) by lia. rewrite init_context_at by done.
  destruct (Z.leb_spec (size - 21) (size - 21 + j)), (Z.ltb_spec (size - 21 + j) (size - 21 + 21)); try lia.
  cbn [andb]. f_equal. lia.
Qed.

(** The first switch to a thread whose context is at the top of its stack,
    which ends at [e]. *)
Lemma context_first_run entry context_p e m :
  let B := reg16 m ZL in
  addr_ok entry → addr_ok context_p → addr_ok z_thread_entry_pc →
  (∀ j, 0 <= j < 21 → ram m (e - 20 + j) = context_byte entry context_p j) →
  ram m B = u8 (e - 21) → ram m (B + 1) = Z.shiftr (e - 21) 8 →
  switch_ok (spr m) (reg16 m X) → switch_ok (e - 2) B → apart (e - 2) B (spr m) (reg16 m X) →
  ∃ m1, run 60 z_thread_switch 0 m = Some m1 ∧ pc m1 = z_thread_entry_pc ∧ spr m1 = e ∧
    context_saved m (reg16 m X) (ram m1) ∧
    let m2 := exec z_thread_entry m1 in
    reg16 m2 ZL = entry ∧ reg16 m2 24 = context_p ∧ sreg m2 = CONFIG_THREAD_DEFAULT_SREG ∧ spr m2 = e.
Proof.
  intros B He Hc Hp Hbyte Hs1 Hs2 Hm Hb Hap.
  pose proof (first_context_saved (ram m) e B Hs1 Hs2) as Hcs.
  set (b := first_context (ram m) e) in *.
  destruct (switch_exec m b Hm Hb Hcs Hap) as (Hr&Hs&Hspr&HcA&HcB&Hfr).
  eexists. split; [apply switch_run|]. revert Hr Hs Hspr HcA HcB Hfr.
  generalize (exec (switch_save ++ switch_load ++ switch_pop) m). intros m3 Hr Hs Hspr HcA HcB Hfr.
  destruct (switch_ret m m3 b) as ([Ra Rb [Rc Rd]]&Rs&_); [assumption..|].
  set (m1 := step RET m3) in *. clearbody m1.
  destruct (z_thread_entry_exec m1) as (E1&E2&E3&E4). cbv zeta.
  assert (Hreg : ∀ r j, r ∈ saved_regs → saved_index r = 18 - j → 0 <= j < 21 →
    regs m1 r = context_byte entry context_p j).
  { intros r j Hin Hx Hj. rewrite Ra by done. rewrite <- Hbyte by done. unfold b, first_context. cbn [regs].
    f_equal. lia. }
  split_and!; [|by rewrite Rc; unfold b; cbn; lia|exact Rs| | | |].
  - rewrite Rd. unfold b, first_context. cbn [ram spr].
    replace (e - 2 + 1) with (e - 20 + 19) by lia. replace (e - 2 + 2) with (e - 20 + 20) by lia.
    rewrite !Hbyte by lia. pose proof (hi_lo z_thread_entry_pc Hp). unfold context_byte. cbn. lia.
  - rewrite E2. unfold reg16. change (4 + 1) with 5. rewrite (Hreg 4 16), (Hreg 5 15) by (done || set_solver).
    by apply hi_lo.
  - rewrite E1. unfold reg16. change (2 + 1) with 3. rewrite (Hreg 2 18), (Hreg 3 17) by (done || set_solver).
    by apply hi_lo.
  - rewrite E3. by rewrite (Hreg 6 14) by (done || set_solver).
  - rewrite E4, Rc. unfold b. cbn. lia.
Qed.

(** C17: the first switch to a created thread runs [z_thread_entry] on an empty
    stack, and that calls the entry function with the context pointer, under
    the default status register. *)
Theorem thread_first_run thread entry context_p k stack size a m :
  let k' := z_thread_stack_create thread entry context_p k in
  let B := reg16 m ZL in
  let e := a + size - 1 in
  addr_ok (word_int entry) → addr_ok (word_int context_p) → addr_ok z_thread_entry_pc →
  stack_end (thr k thread) = ptr_add stack (size - 1) → 22 <= size →
  (∀ j, 0 <= j < size → word_int (ptr_add stack j) = a + j) →
  stack_loaded (ram m) a k' stack size →
  ram m B = u8 (word_int (sp (thr k' thread))) → ram m (B + 1) = Z.shiftr (word_int (sp (thr k' thread))) 8 →
  switch_ok (spr m) (reg16 m X) → switch_ok (e - 2) B → apart (e - 2) B (spr m) (reg16 m X) →
  ∃ m1, run 60 z_thread_switch 0 m = Some m1 ∧ pc m1 = z_thread_entry_pc ∧ spr m1 = e ∧
    context_saved m (reg16 m X) (ram m1) ∧
    let m2 := exec z_thread_entry m1 in
    reg16 m2 ZL = word_int entry ∧ reg16 m2 24 = word_int context_p ∧ sreg m2 = CONFIG_THREAD_DEFAULT_SREG ∧ spr m2 = e.
Proof.
  intros k' B e He Hc Hp Hse Hsz Haddr Hld Hs1 Hs2 Hm Hb Hap.
  assert (Hsp : word_int (sp (thr k' thread)) = e - 21).
  { unfold k', z_thread_stack_create. rewrite thr_upd_eq. cbn [sp with_sp]. rewrite Hse.
    unfold Z_THREAD_CTX_START, Z_CALLSAVED_CTX_SIZE. rewrite !ptr_add_assoc.
    replace (size - 1 + (- (21) + 1 + -1)) with (size - 22) by lia. rewrite Haddr by lia. unfold e. lia. }
  rewrite Hsp in Hs1, Hs2.
  assert (Hbyte : ∀ j, 0 <= j < 21 → ram m (e - 20 + j) = context_byte (word_int entry) (word_int context_p) j).
  { intros j Hj. rewrite <- (stack_create_at thread entry context_p k stack size j) by done. fold k'.
    rewrite <- Hld by lia. f_equal. unfold e. lia. }
  by apply context_first_run.
Qed.
End Thread.

(** ** A concrete thread *)

#[export] Instance w_stack_config : StackConfig := {
  CONFIG_THREAD_CANARIES := true;
  CONFIG_THREAD_CANARIES_SYMBOL := 0xAA;
  CONFIG_THREAD_STACK_SENTINEL := true;
  CONFIG_THREAD_STACK_SENTINEL_SIZE := 3;
  CONFIG_THREAD_STACK_SENTINEL_SYMBOL := 0x55;
  CONFIG_THREAD_DEFAULT_SREG := 0x80;
  CONFIG_THREAD_MAIN_MONITORED := false;
  z_thread_entry_pc := 0x0123;
}.

Definition w_entry : word := Int 0x0456.
Definition w_stack : word := Ptr 30 0.
Definition w_context : word := Int 0x0789.

Lemma w_addr_ok v : (0 <=? v) && (v <? 65536) = true → addr_ok v.
Proof. intros [H1%Z.leb_le H2%Z.ltb_lt]%andb_true_iff. by split. Qed.

Lemma k_thread_create_witness :
  (∃ k', k_thread_create t3 w_entry w_stack 40 1 w_context 0x41 w_init = Done 0 k' ∧
    Inv w_F k' w_T [] [] w_Q ∧ z_thread_verify_sent t3 k' = true ∧
    z_stack_canaries 41 t3 k' = Some (Ptr 30 19) ∧ bytes k' !! Ptr 30 40 = bytes w_init !! Ptr 30 40 ∧
    mutexes k' = mutexes w_init) ∧
  k_thread_create t3 NULL w_stack 40 1 w_context 0x41 w_init = Done (- EINVAL) w_init ∧
  k_thread_create t3 w_entry w_stack 21 1 w_context 0x41 w_init = Done (- EINVAL) w_init.
Proof.
  assert (Hj : CONFIG_THREAD_JOIN = true → w_Q !! thread_join t3 = Some []) by (intros _; reflexivity).
  assert (Hn : (t3 ∉ @nil word) ∧ (t3 ∉ ([] : list (word * Z)).*1)) by (split; apply not_elem_of_nil).
  assert (Ha : addr_ok (word_int w_entry) ∧ addr_ok (word_int NULL) ∧ addr_ok (word_int w_context) ∧ addr_ok z_thread_entry_pc)
    by (split_and!; by apply w_addr_ok).
  destruct Hn as [Hn1 Hn2], Ha as (Ha1&Ha2&Ha3&Ha4).
  pose proof (λ entry He size, k_thread_create_spec w_F t3 entry w_stack size 1 w_context 0x41 w_init w_T [] [] w_Q w_init_inv
    Hn1 Hn2 (w_unqueued t3) Hj eq_refl He Ha3 Ha4 ltac:(discriminate)) as Hspec.
  split; [|split; [exact (Hspec NULL Ha2 40)|exact (Hspec w_entry Ha1 21)]].
  destruct (Hspec w_entry Ha1 40) as (k'&E&Hi&_&_&_&_&Ho&_&Hw&Hs&Hc).
  exists k'. split; [exact E|]. split; [exact Hi|]. split; [by apply Hs|]. split; [by apply Hc|]. split.
  - apply Ho. intros j Hjj Ej. change (Ptr 30 40 = Ptr 30 (0 + j)) in Ej. injection Ej. lia.
  - rewrite Hw. reflexivity.
Defined.

Definition w_created : kstate := z_thread_stack_create t3 w_entry w_context
  (upd_thread t3 (set_stack (Z_STACK_END w_stack 40) 40) w_init).
Definition w_machine : avr :=
  set_ram (λ x, if (1920 <=? x) && (x <? 1960) then rdb (bytes w_created) (ptr_add w_stack (x - 1920))
    else if x =? 0x110 then u8 1938 else if x =? 0x111 then Z.shiftr 1938 8 else 0) w_from.

Lemma w_machine_loaded : stack_loaded (ram w_machine) 1920 w_created w_stack 40.
Proof.
  intros j Hj. unfold w_machine. cbn [ram set_ram].
  destruct (Z.leb_spec 1920 (1920 + j)), (Z.ltb_spec (1920 + j) 1960); try lia. cbn [andb]. do 2 f_equal. lia.
Qed.

Lemma thread_first_run_witness :
  ∃ m1, run 60 z_thread_switch 0 w_machine = Some m1 ∧ pc m1 = 0x0123 ∧
    reg16 (exec z_thread_entry m1) ZL = 0x0456 ∧ reg16 (exec z_thread_entry m1) 24 = 0x0789.
Proof.
  destruct (thread_first_run t3 w_entry w_context (upd_thread t3 (set_stack (Z_STACK_END w_stack 40) 40) w_init)
    w_stack 40 1920 w_machine) as (m1&E&Ep&_&_&Ez&Ec&_).
  - by apply w_addr_ok.
  - by apply w_addr_ok.
  - by apply w_addr_ok.
  - reflexivity.
  - discriminate.
  - intros j Hj. unfold w_stack. cbn [ptr_add word_int]. change (addr_of 30) with 1920. rewrite u16_small; lia.
  - exact w_machine_loaded.
  - reflexivity.
  - reflexivity.
  - split; [discriminate|reflexivity|split; [discriminate|reflexivity]|left; reflexivity].
  - split; [discriminate|reflexivity|split; [discriminate|reflexivity]|left; reflexivity].
  - split; [right; reflexivity|]. split; [left; reflexivity|]. split; [left; reflexivity|right; reflexivity].
  - exists m1. split; [exact E|]. split; [exact Ep|]. split; [exact Ez|exact Ec].
Defined.
