(* ===== verification/Debug.v ===== *)
(** * Debug dumps (debug.c, dstruct/debug.c)

    What the dumps print, as the characters that they send ([Serial]), and how
    the state of a thread is read back from its line. *)

From Stdlib Require Import Ascii String.
From stdpp Require Import strings.
From S2P Require Import Prelude Dlist Slist Delta Tqueue Types Bytes Serial Avr Thread.

Definition chr (c : ascii) : Z := Z.of_N (N_of_ascii c).
(** The characters of a literal in program memory, what [serial_print_p] sends
    for it. *)
Definition PSTR (s : string) : list Z := chr <$> String.list_ascii_of_string s.

Section Debug.
Context `{Layout, Config, StackConfig}.

(** ** Lists (dstruct/debug.c) *)

Fixpoint print_slist_loop (fuel : nat) (m : mem) (item : word) (qitem_printer : word → list Z) : option (list Z) :=
  match fuel with
  | O => None
  | S fuel =>
      if decide (item = NULL) then Some []
      else out ← print_slist_loop fuel m (rd0 m item) qitem_printer;
           Some (PSTR " - " ++ qitem_printer item ++ out)
  end.
Definition print_slist (fuel : nat) (m : mem) (list : word) (qitem_printer : word → Datatypes.list Z) : option (Datatypes.list Z) :=
  out ← print_slist_loop fuel m (rd0 m list) qitem_printer;
  Some (PSTR "|" ++ out ++ [chr_nl]).

Fixpoint print_tqueue_loop (fuel : nat) (m : mem) (current : word) (titem_printer : word → list Z) : option (list Z) :=
  match fuel with
  | O => None
  | S fuel =>
      if decide (current = NULL) then Some []
      else out ← print_tqueue_loop fuel m (rd1 m current) titem_printer;
           Some (PSTR "- " ++ titem_printer current ++ PSTR "(" ++ serial_u16 (delay_shift m current) ++ PSTR ")" ++ out)
  end.
Definition print_tqueue (fuel : nat) (m : mem) (root : word) (titem_printer : word → list Z) : option (list Z) :=
  out ← print_tqueue_loop fuel m root titem_printer;
  Some (PSTR "| " ++ out ++ [chr_nl]).

Fixpoint print_dlist_loop (fuel : nat) (m : mem) (list node : word) (ditem_printer : word → Datatypes.list Z) : option (Datatypes.list Z) :=
  match fuel with
  | O => None
  | S fuel =>
      if decide (node = list) then Some []
      else out ← print_dlist_loop fuel m list (Dlist.next m node) ditem_printer;
           Some (PSTR " - " ++ ditem_printer node ++ out)
  end.
Definition print_dlist (fuel : nat) (m : mem) (list : word) (ditem_printer : word → Datatypes.list Z) : option (Datatypes.list Z) :=
  out ← print_dlist_loop fuel m list (Dlist.next m list) ditem_printer;
  Some (serial_hex16 (word_int list) ++ out ++ PSTR " - " ++ serial_hex16 (word_int list) ++ [chr_nl]).

(** ** Threads (debug.c) *)

(** [SP] is the stack pointer of the running thread when it is read. *)
Definition k_thread_usage (SP : Z) (thread : word) : M Z :=
  let* k := get in
  let t := thr k thread in
  if decide (NULL = sp t) then ret 0
  else if decide (thread = current k) then
    let* lock := irq_lock in
    irq_unlock lock;;
    ret (u16 (word_int (stack_end t) - SP))
  else ret (u16 (word_int (stack_end t) - word_int (sp t))).

Definition Z_THREAD_PRIO_COOP_MSK : Z := 16.
Definition Z_THREAD_PRIO_LEVEL_MSK : Z := 8.
Definition Z_THREAD_PRIO_HIGH : Z := 8.

(** [sizeof(struct k_thread)]. *)
Definition sizeof_k_thread : Z := ofs_join_waitqueue + (if CONFIG_THREAD_JOIN then 4 else 0).

Definition k_thread_dump_hex (fuel : nat) (b : bmem) (thread : word) : option (list Z) := serial_send_hex fuel b thread sizeof_k_thread.

(** The part of the line that shows the flags: from the priority to the four
    marks. *)
Definition dump_flags (fl : Z) : list Z :=
  [if Z.land fl Z_THREAD_PRIO_COOP_MSK =? Z_THREAD_PRIO_COOP then chr "C" else chr "P"] ++ PSTR " " ++
  (let s := Z.land fl Z_THREAD_STATE_MSK in
   if s =? Z_THREAD_STATE_READY then PSTR "READY  "
   else if s =? Z_THREAD_STATE_STOPPED then PSTR "STOPPED"
   else if s =? Z_THREAD_STATE_PENDING then PSTR "PENDING"
   else if s =? Z_THREAD_STATE_IDLE then PSTR "IDLE   "
   else []) ++ PSTR " " ++
  [if Z.land fl Z_THREAD_PRIO_LEVEL_MSK =? Z_THREAD_PRIO_HIGH then chr "0" else chr "1"] ++ PSTR " " ++
  [if Z.land fl Z_THREAD_SCHED_LOCKED_MSK =? 0 then chr "_" else chr "S";
   if Z.land fl Z_THREAD_TIMER_EXPIRED_MSK =? 0 then chr "_" else chr "X";
   if Z.land fl Z_THREAD_PEND_CANCELED_MSK =? 0 then chr "_" else chr "Y";
   if Z.land fl Z_THREAD_WAKEUP_SCHED_MSK =? 0 then chr "_" else chr "W"].

Definition k_thread_dump (SP : Z) (thread : word) : M (list Z) :=
  let* k := get in
  let t := thr k thread in
  let* usage := k_thread_usage SP thread in
  ret ([symbol t] ++ PSTR " 0x" ++ serial_hex16 (word_int thread) ++ PSTR " " ++ dump_flags (flags t) ++
       PSTR " : SP " ++ serial_u16 usage ++ PSTR "/" ++ serial_u16 (stack_size t) ++ PSTR ":0x" ++
       serial_hex16 (word_int (stack_end t)) ++ [chr_nl]).

(** The threads of the linker section, [n] of them from [start] on; the counter
    has 8 bits. *)
Definition k_thread_dbg_count (n : Z) : list Z := PSTR "THREADS COUNT :" ++ serial_u8 (u8 n) ++ [chr_nl].
Fixpoint k_thread_dump_all_loop (fuel : nat) (SP : Z) (start : word) (i n : Z) : M (list Z) :=
  match fuel with
  | O => λ _, NoFuel
  | S fuel =>
      if i <? n then
        let* line := k_thread_dump SP (ptr_add start (sizeof_k_thread * i)) in
        let* out := k_thread_dump_all_loop fuel SP start (u8 (i + 1)) n in
        ret (line ++ out)
      else ret []
  end.
Definition k_thread_dump_all (fuel : nat) (SP : Z) (start : word) (n : Z) : M (list Z) := k_thread_dump_all_loop fuel SP start 0 n.

Definition z_thread_get_return_addr (thread : word) (k : kstate) : Z :=
  if decide (thread = current k) then
    let p := ptr_add (stack_end (thr k thread)) (-2) in
    K_SWAP_ENDIANNESS (rdb (bytes k) p + 256 * rdb (bytes k) (ptr_add p 1))
  else 0.

Definition z_thread_symbol_runqueue (k : kstate) (item : word) : list Z := [symbol (thr k (thread_of_tie item))].
Definition z_thread_symbol_events_queue (k : kstate) (item : word) : list Z := [symbol (thr k (thread_of_tie item))].
Definition z_print_events_queue (k : kstate) : option (list Z) :=
  print_tqueue loop_fuel (links k) (deref (links k) z_timeouts_queue) (z_thread_symbol_events_queue k).

Definition z_sem_debug (sm : word) : M (list Z) :=
  let* lock := irq_lock in
  let* k := get in
  let count := count (sems k !!! sm) in
  let limit := limit (sems k !!! sm) in
  irq_unlock lock;;
  ret (PSTR "K_SEM " ++ serial_u8 count ++ PSTR "/" ++ serial_u8 limit ++ [chr_nl]).

(** ** Lists *)

Lemma print_slist_loop_spec m pr : ∀ ns p fuel, schain m p ns → (length ns < fuel)%nat →
  print_slist_loop fuel m (rd0 m p) pr = Some (concat ((λ n, PSTR " - " ++ pr n) <$> ns)).
Proof.
  induction ns as [|a ns IH]; intros p fuel Hc Hf; (destruct fuel as [|fuel]; [cbn in Hf; lia|]); cbn [schain print_slist_loop] in *.
  - by rewrite Hc, decide_True.
  - destruct Hc as (->&Hn&Hc). rewrite decide_False, (IH a) by (done || cbn in Hf; lia).
    cbn [mbind option_bind fmap list_fmap concat]. by rewrite <- app_assoc.
Qed.

Lemma print_tqueue_loop_spec m pr : ∀ q p fuel, chain m p q → (length q < fuel)%nat →
  print_tqueue_loop fuel m (rd1 m p) pr = Some (concat ((λ x, PSTR "- " ++ pr x.1 ++ PSTR "(" ++ serial_u16 x.2 ++ PSTR ")") <$> q)).
Proof.
  induction q as [|[a d] q IH]; intros p fuel Hc Hf; (destruct fuel as [|fuel]; [cbn in Hf; lia|]); cbn [chain print_tqueue_loop] in *.
  - by rewrite Hc, decide_True.
  - destruct Hc as (->&Hn&Hd&Hc). rewrite decide_False, (IH a) by (done || cbn in Hf; lia). rewrite (delay_shift_int _ _ _ Hd).
    cbn [mbind option_bind fmap list_fmap concat fst snd]. by rewrite <- !app_assoc.
Qed.

Lemma print_dlist_loop_spec m pr l : ∀ ns p fuel, linked m p (ns ++ [l]) → l ∉ ns → (length ns < fuel)%nat →
  print_dlist_loop fuel m l (Dlist.next m p) pr = Some (concat ((λ n, PSTR " - " ++ pr n) <$> ns)).
Proof.
  induction ns as [|a ns IH]; intros p fuel Hc Hn Hf; (destruct fuel as [|fuel]; [cbn in Hf; lia|]); cbn [linked print_dlist_loop app] in *.
  - destruct Hc as (->&_). by rewrite decide_True.
  - destruct Hc as (->&_&Hc). apply not_elem_of_cons in Hn as [Hne Hn].
    rewrite decide_False, (IH a) by (done || cbn in Hf; lia).
    cbn [mbind option_bind fmap list_fmap concat]. by rewrite <- app_assoc.
Qed.

(** A dump of a list ends and prints its items, each once, in their order. *)
Theorem lists_dumped m l pr fuel :
  (∀ ns, sl_rep m l ns → (length ns < fuel)%nat →
     print_slist fuel m l pr = Some (PSTR "|" ++ concat ((λ n, PSTR " - " ++ pr n) <$> ns) ++ [chr_nl])) ∧
  (∀ q, tq_rep m l q → (length q < fuel)%nat →
     print_tqueue fuel m (deref m l) pr =
     Some (PSTR "| " ++ concat ((λ x, PSTR "- " ++ pr x.1 ++ PSTR "(" ++ serial_u16 x.2 ++ PSTR ")") <$> q) ++ [chr_nl])) ∧
  (∀ ns, ring m l ns → (length ns < fuel)%nat →
     print_dlist fuel m l pr = Some (serial_hex16 (word_int l) ++ concat ((λ n, PSTR " - " ++ pr n) <$> ns) ++
       PSTR " - " ++ serial_hex16 (word_int l) ++ [chr_nl])).
Proof.
  split_and!.
  - intros ns (_&Hc&_) Hf. unfold print_slist. by rewrite (print_slist_loop_spec m pr ns) by done.
  - intros q (_&Hc) Hf. unfold print_tqueue, deref. fold (tq_node l). by rewrite (print_tqueue_loop_spec m pr q) by done.
  - intros ns [Hnd Hc] Hf. apply NoDup_cons in Hnd as [Hn _]. unfold print_dlist. by rewrite (print_dlist_loop_spec m pr l ns) by done.
Qed.

(** ** Reading a line back *)

Record thread_line := { tl_symbol : Z; tl_addr : Z; tl_flags : Z; tl_usage : Z; tl_size : Z; tl_end : Z }.

(** The decimal figures at the front of a text, and what follows them. *)
Fixpoint span_dec (s : list Z) : list Z * list Z :=
  match s with
  | [] => ([], [])
  | c :: s' => if (chr_0 <=? c) && (c <=? chr_0 + 9) then (c :: (span_dec s').1, (span_dec s').2) else ([], s)
  end.

Definition char_at (s : list Z) (i : nat) : Z := default 0 (s !! i).

(** The flags shown by the 16 characters of [dump_flags]. *)
Definition read_flags (s : list Z) : Z :=
  let bit i c v := if char_at s i =? c then v else 0 in
  let state := char_at s 2 in
  (if state =? chr "R" then Z_THREAD_STATE_READY else if state =? chr "P" then Z_THREAD_STATE_PENDING
   else if state =? chr "I" then Z_THREAD_STATE_IDLE else Z_THREAD_STATE_STOPPED) +
  bit 0%nat (chr "C") Z_THREAD_PRIO_COOP + bit 10%nat (chr "0") Z_THREAD_PRIO_HIGH +
  bit 12%nat (chr "S") Z_THREAD_SCHED_LOCKED_MSK + bit 13%nat (chr "X") Z_THREAD_TIMER_EXPIRED_MSK +
  bit 14%nat (chr "Y") Z_THREAD_PEND_CANCELED_MSK + bit 15%nat (chr "W") Z_THREAD_WAKEUP_SCHED_MSK.

Definition read_line (s : list Z) : thread_line :=
  let '(usage, s') := span_dec (drop 31 s) in
  let '(size, s'') := span_dec (drop 1 s') in
  {| tl_symbol := char_at s 0; tl_addr := hex_value (take 4 (drop 4 s)); tl_flags := read_flags (take 16 (drop 9 s));
     tl_usage := dec_value usage; tl_size := dec_value size; tl_end := hex_value (take 4 (drop 3 s'')) |}.

Lemma span_dec_app ds c s : Forall is_dec ds → ¬ is_dec c → span_dec (ds ++ c :: s) = (ds, c :: s).
Proof.
  intros Hd Hc. assert (Hb : ∀ x, (chr_0 <=? x) && (x <=? chr_0 + 9) = bool_decide (is_dec x)).
  { intros x. unfold is_dec. destruct (Z.leb_spec chr_0 x), (Z.leb_spec x (chr_0 + 9)); cbn; symmetry;
      first [apply bool_decide_true|apply bool_decide_false]; lia. }
  induction Hd as [|d ds Hd Hds IH]; cbn [app span_dec]; rewrite Hb.
  - by rewrite bool_decide_false.
  - by rewrite bool_decide_true, IH.
Qed.

Lemma dump_flags_length fl : 0 <= fl < 256 → length (dump_flags fl) = 16%nat.
Proof.
  intros Hfl. assert (Hall : forallb (λ fl, (length (dump_flags fl) =? 16)%nat) (seqZ 0 256) = true) by (vm_compute; done).
  rewrite forallb_forall in Hall. apply Nat.eqb_eq, Hall, list_elem_of_In, elem_of_seqZ. lia.
Qed.
Lemma read_dump_flags fl : 0 <= fl < 256 → read_flags (dump_flags fl) = fl.
Proof.
  intros Hfl. assert (Hall : forallb (λ fl, read_flags (dump_flags fl) =? fl) (seqZ 0 256) = true) by (vm_compute; done).
  rewrite forallb_forall in Hall. apply Z.eqb_eq, Hall, list_elem_of_In, elem_of_seqZ. lia.
Qed.

Lemma k_thread_usage_run SP thread k : k_thread_usage SP thread k =
  Done (let t := thr k thread in if decide (NULL = sp t) then 0
        else u16 (word_int (stack_end t) - if decide (thread = current k) then SP else word_int (sp t))) k.
Proof.
  unfold k_thread_usage. rewrite bind_get. cbv zeta. destruct (decide (NULL = _)); [done|]. destruct (decide (thread = _)); [|done].
  rewrite bind_irq_lock, bind_irq_unlock, set_sreg_set, set_sreg_id. done.
Qed.

(** A line of the thread dump shows the thread: its symbol, its address, its
    eight flags, the use and the size of its stack and its end are read back
    from the characters, and the state is as before. *)
Theorem thread_dump_reads_back SP thread k : let t := thr k thread in
  0 <= word_int thread < 65536 → 0 <= flags t < 256 → 0 <= stack_size t < 65536 → 0 <= word_int (stack_end t) < 65536 →
  ∃ out, k_thread_dump SP thread k = Done out k ∧
    read_line out = {| tl_symbol := symbol t; tl_addr := word_int thread; tl_flags := flags t;
      tl_usage := if decide (NULL = sp t) then 0 else u16 (word_int (stack_end t) - if decide (thread = current k) then SP else word_int (sp t));
      tl_size := stack_size t; tl_end := word_int (stack_end t) |}.
Proof.
  intros t Ha Hf Hs He. destruct serial_numbers_read_back as (_&Hdec&_&_&Hhex). unfold k_thread_dump.
  rewrite bind_get. cbv zeta. rewrite (bind_done _ _ _ _ _ (k_thread_usage_run SP thread k)). cbv zeta. fold t.
  set (usage := if decide (NULL = sp t) then 0 else _).
  assert (Hu : 0 <= usage < 65536) by (unfold usage; destruct (decide (NULL = sp t)); [lia|apply u16_range]). clearbody usage.
  eexists. split; [reflexivity|].
  destruct (Hdec usage Hu) as (U1&U2&_). destruct (Hdec (stack_size t) Hs) as (S1&S2&_).
  pose proof (Hhex _ Ha) as A1. pose proof (Hhex _ He) as E1. pose proof (dump_flags_length _ Hf) as Lf. pose proof (read_dump_flags _ Hf) as F1.
  assert (Lh : ∀ v, length (serial_hex16 v) = 4%nat) by done.
  pose proof (Lh (word_int thread)) as La. pose proof (Lh (word_int (stack_end t))) as Le. clear Lh.
  set (a := serial_hex16 (word_int thread)) in *. set (e := serial_hex16 (word_int (stack_end t))) in *. set (fl := dump_flags (flags t)) in *.
  set (u := serial_u16 usage) in *. set (z := serial_u16 (stack_size t)) in *. clearbody a e fl u z.
  set (tail := PSTR "/" ++ z ++ PSTR ":0x" ++ e ++ [chr_nl]).
  assert (E4 : drop 4 ([symbol t] ++ PSTR " 0x" ++ a ++ PSTR " " ++ fl ++ PSTR " : SP " ++ u ++ tail) = a ++ PSTR " " ++ fl ++ PSTR " : SP " ++ u ++ tail) by done.
  assert (E9 : drop 9 ([symbol t] ++ PSTR " 0x" ++ a ++ PSTR " " ++ fl ++ PSTR " : SP " ++ u ++ tail) = fl ++ PSTR " : SP " ++ u ++ tail).
  { change 9%nat with (4 + 5)%nat. rewrite <- drop_drop, E4, drop_app_ge by lia. by rewrite La. }
  assert (E31 : drop 31 ([symbol t] ++ PSTR " 0x" ++ a ++ PSTR " " ++ fl ++ PSTR " : SP " ++ u ++ tail) = u ++ tail).
  { change 31%nat with (9 + 22)%nat. rewrite <- drop_drop, E9, drop_app_ge by lia. by rewrite Lf. }
  unfold read_line. rewrite E4, E9, E31. unfold tail.
  change (PSTR "/" ++ z ++ PSTR ":0x" ++ e ++ [chr_nl]) with (47 :: z ++ 58 :: 48 :: 120 :: e ++ [chr_nl]).
  rewrite span_dec_app by (done || unfold is_dec, chr_0; lia). cbn [drop]. rewrite drop_0.
  rewrite span_dec_app by (done || unfold is_dec, chr_0; lia). cbn [drop]. rewrite drop_0.
  rewrite !take_app_length', F1, A1, E1, U2, S2 by done. done.
Qed.

(** ** Stack usage *)

(** A thread that has been created, and has not run, uses the bytes of its
    context. *)
Lemma k_thread_usage_created SP thread entry context_p k b o : stack_end (thr k thread) = Ptr b o → thread ≠ current k →
  k_thread_usage SP thread (z_thread_stack_create thread entry context_p k) =
  Done Z_CALLSAVED_CTX_SIZE (z_thread_stack_create thread entry context_p k).
Proof.
  intros He Hc. rewrite k_thread_usage_run. cbv zeta. unfold z_thread_stack_create. rewrite He.
  set (k1 := set_bytes _ k). assert (E : ∀ g, thr (upd_thread thread g k1) thread = g (thr k thread)).
  { intros g. unfold thr at 1, upd_thread. cbn [threads set_threads]. rewrite lookup_total_insert_eq. done. }
  rewrite E. cbn [stack_end sp with_sp]. rewrite He. cbn [Z_THREAD_CTX_START ptr_add]. rewrite decide_False by done.
  change (current (upd_thread thread _ k1)) with (current k). rewrite decide_False by done. f_equal.
  unfold word_int, u16, Z_CALLSAVED_CTX_SIZE. rewrite <- Zminus_mod.
  replace (addr_of b + o - (addr_of b + (o + (-21 + 1) + -1))) with 21 by lia. done.
Qed.

(** The two bytes below the last of the stack are read; a call on an empty stack
    leaves its return address in the last two, one byte higher. *)
Lemma z_thread_get_return_addr_bytes thread k : thread = current k →
  let byte i := rdb (bytes k) (ptr_add (stack_end (thr k thread)) i) in
  0 <= byte (-2) < 256 → 0 <= byte (-1) < 256 → z_thread_get_return_addr thread k = 256 * byte (-2) + byte (-1).
Proof.
  intros Ht byte Hb2 Hb1. unfold z_thread_get_return_addr. rewrite decide_True by done. rewrite ptr_add_assoc. change (-2 + 1) with (-1).
  fold (byte (-2)) (byte (-1)). set (lo := byte (-2)) in *. set (hi := byte (-1)) in *. clearbody lo hi.
  destruct (swap_bytes (lo + 256 * hi)) as [E1 E2]; [lia|].
  assert (Hs : ∀ x, x = u8 x + 256 * Z.shiftr x 8).
  { intros x. rewrite Z.shiftr_div_pow2 by done. change (2 ^ 8) with 256. unfold u8. pose proof (Z.div_mod x 256). lia. }
  rewrite (Hs (K_SWAP_ENDIANNESS _)), E1, E2, Z.shiftr_div_pow2 by done. change (2 ^ 8) with 256. unfold u8. Z.div_mod_to_equations. lia.
Qed.
End Debug.
