(* ===== verification/Fault.v ===== *)
(** * Faults and assertions (fault.c, assert.c)

    What a fault or a failed assertion prints before the machine is stopped.
    The kernel functions end in [Fault] there ([Types]); here is the report that
    the user reads. *)

From Stdlib Require Import Ascii String.
From stdpp Require Import strings.
From S2P Require Import Prelude Dlist Slist Delta Tqueue Types Bytes Serial Avr Thread Debug.

(** The hook that the user may define, and the level of CONFIG_KERNEL_FAULT_VERBOSITY. *)
Class FaultConfig := {
  CONFIG_KERNEL_FAULT_VERBOSITY : Z;
  CONFIG_KERNEL_ASSERT : bool;
  fault_hook : kstate → kstate;
}.

Section Fault.
Context `{Layout, Config, StackConfig, FaultConfig}.

Definition K_FAULT_ASSERT : Z := 0.
Definition K_FAULT_MEMORY : Z := 3.
Definition K_FAULT_THREAD_TERMINATED : Z := 4.
Definition K_FAULT_RUST_PANIC : Z := 6.
Definition K_FAULT_ANY : Z := 0xFF.

Definition fault_name (reason : Z) : list Z :=
  if reason =? K_FAULT_ASSERT then PSTR "Assert"
  else if reason =? K_FAULT_STACK_SENTINEL then PSTR "Stack Sentinel"
  else if reason =? K_FAULT_STACK_OVERFLOW then PSTR "Stack Overflow"
  else if reason =? K_FAULT_MEMORY then PSTR "Memory"
  else if reason =? K_FAULT_THREAD_TERMINATED then PSTR "Thread Terminated"
  else if reason =? K_FAULT_KERNEL_HALT then PSTR "Halt"
  else PSTR "Other".

(** The result is what has been sent when the machine is stopped. *)
Definition __fault (SP reason : Z) : M (list Z) :=
  modify (set_sreg_i false);;
  modify fault_hook;;
  let* k := get in
  if CONFIG_KERNEL_FAULT_VERBOSITY =? 1 then
    ret ([chr_nl] ++ PSTR "***** Kernel Fault *****" ++ [13; chr_nl] ++ PSTR "reason=" ++ serial_hex reason ++
         [9] ++ PSTR "th: 0x" ++ serial_hex16 (word_int (current k)))
  else if 2 <=? CONFIG_KERNEL_FAULT_VERBOSITY then
    let* line := k_thread_dump SP (current k) in
    ret ([chr_nl] ++ PSTR "***** Kernel " ++ fault_name reason ++ PSTR " *****" ++ [chr_nl] ++ line)
  else ret [].

(** [Some] is what has been sent when the machine is stopped, [None] a return. *)
Definition z_assert (expression module acode line : Z) : M (option (list Z)) :=
  if expression =? 0 then
    modify (set_sreg_i false);;
    ret (Some ([chr_nl; chr_nl; chr_nl] ++ PSTR "*** K assert ! ***" ++ [chr_nl] ++ PSTR "m=x" ++ serial_hex module ++
               PSTR " L=" ++ serial_u16 line ++ PSTR " c=" ++ serial_u16 acode))
  else ret None.

Definition K_MODULE_KERNEL : Z := 1.
Definition K_MODULE_APPLICATION : Z := 32.
Definition K_ASSERT_ANY : Z := 0.
Definition K_ASSERT_USER_MODE : Z := 21.
Definition K_ASSERT_THREAD_READY : Z := 23.
Definition K_ASSERT_UNDEFINED_LINE : Z := 0.

(** The value of the assertion is converted to [uint8_t]. *)
Definition Z_ASSERT (module acode assertion line : Z) : M (option (list Z)) :=
  if CONFIG_KERNEL_ASSERT then z_assert (u8 assertion) module acode line else ret None.
Definition k_assert (assertion line : Z) : M (option (list Z)) := Z_ASSERT K_MODULE_APPLICATION K_ASSERT_ANY assertion line.

Definition z_assert_user_context (kernel_mode : Z) : M (option (list Z)) :=
  z_assert (Z.b2z (kernel_mode =? 0)) K_MODULE_KERNEL K_ASSERT_USER_MODE K_ASSERT_UNDEFINED_LINE.
Definition z_assert_thread_ready (thread : word) : M (option (list Z)) :=
  let* k := get in
  z_assert (Z.b2z (Z.land (flags (thr k thread)) Z_THREAD_STATE_MSK =? Z_THREAD_STATE_READY))
    K_MODULE_KERNEL K_ASSERT_THREAD_READY K_ASSERT_UNDEFINED_LINE.

(** ** Reading a report *)

(** The name begins after fourteen characters. *)
Definition read_reason (out : list Z) : Z :=
  let c := char_at out 14 in
  if c =? chr "A" then K_FAULT_ASSERT
  else if c =? chr "S" then (if char_at out 20 =? chr "S" then K_FAULT_STACK_SENTINEL else K_FAULT_STACK_OVERFLOW)
  else if c =? chr "M" then K_FAULT_MEMORY
  else if c =? chr "T" then K_FAULT_THREAD_TERMINATED
  else if c =? chr "H" then K_FAULT_KERNEL_HALT
  else K_FAULT_ANY.

Definition thread_printable (k : kstate) (thread : word) : Prop :=
  0 <= word_int thread < 65536 ∧ 0 <= flags (thr k thread) < 256 ∧ 0 <= stack_size (thr k thread) < 65536 ∧
  0 <= word_int (stack_end (thr k thread)) < 65536.

Lemma read_fault_name reason l : 0 <= reason →
  read_reason ([chr_nl] ++ PSTR "***** Kernel " ++ fault_name reason ++ PSTR " *****" ++ [chr_nl] ++ l) = if reason <? 6 then reason else K_FAULT_ANY.
Proof.
  intros Hr. unfold fault_name, K_FAULT_ASSERT, K_FAULT_STACK_SENTINEL, K_FAULT_STACK_OVERFLOW, K_FAULT_MEMORY, K_FAULT_THREAD_TERMINATED,
    K_FAULT_KERNEL_HALT. repeat match goal with |- context [reason =? ?c] => destruct (Z.eqb_spec reason c) as [->|]; [reflexivity|] end.
  rewrite (proj2 (Z.ltb_ge _ _)) by lia. reflexivity.
Qed.
Lemma drop_report reason (l : list Z) :
  drop (21 + length (fault_name reason)) ([chr_nl] ++ PSTR "***** Kernel " ++ fault_name reason ++ PSTR " *****" ++ [chr_nl] ++ l) = l.
Proof.
  change (21 + ?n)%nat with (14 + (7 + n))%nat. rewrite (Nat.add_comm 7), <- drop_drop. change ([chr_nl] ++ PSTR "***** Kernel " ++ ?x) with (([chr_nl] ++ PSTR "***** Kernel ") ++ x).
  rewrite (drop_app_length' ([chr_nl] ++ _)) by done. rewrite <- drop_drop, drop_app_length. done.
Qed.

(** A fault disables the interrupts, calls the hook and stops the machine,
    whatever the level; with level 1 the code of the reason and the address of the running thread
    are read back from the report, with level 2 and more the name of the
    reason and the state of the thread; level 0 is silent. *)
Theorem fault_reported SP reason k : let k' := fault_hook (set_sreg_i false k) in
  0 <= reason < 256 → thread_printable k' (current k') →
  ∃ out, __fault SP reason k = Done out k' ∧
    (CONFIG_KERNEL_FAULT_VERBOSITY = 1 →
       hex_value (take 2 (drop 34 out)) = reason ∧ hex_value (drop 43 out) = word_int (current k')) ∧
    (2 <= CONFIG_KERNEL_FAULT_VERBOSITY →
       read_reason out = (if reason <? 6 then reason else K_FAULT_ANY) ∧
       ∃ n, tl_flags (read_line (drop n out)) = flags (thr k' (current k')) ∧ tl_addr (read_line (drop n out)) = word_int (current k')) ∧
    (CONFIG_KERNEL_FAULT_VERBOSITY <= 0 → out = []).
Proof.
  intros k' Hr (Ha&Hf&Hs&He). destruct serial_numbers_read_back as (_&_&_&Hhex&Hhex16). unfold __fault.
  rewrite !bind_modify, bind_get. fold k'. destruct (Z.eqb_spec CONFIG_KERNEL_FAULT_VERBOSITY 1) as [->|Hv1].
  { eexists. split; [reflexivity|]. split; [|by split]. intros _. split; [by apply Hhex|by apply Hhex16]. }
  destruct (Z.leb_spec 2 CONFIG_KERNEL_FAULT_VERBOSITY) as [Hv2|Hv2].
  - destruct (thread_dump_reads_back SP (current k') k') as (line&E&El); [done..|].
    rewrite (bind_done _ _ _ _ _ E). eexists. split; [reflexivity|]. split_and!; [lia| |lia]. intros _.
    split; [apply read_fault_name; lia|]. exists (21 + length (fault_name reason))%nat. rewrite drop_report, El. done.
  - eexists. split; [reflexivity|]. split_and!; [lia|lia|done].
Qed.

(** A failed assertion stops the machine; the others go on without effect.  The
    value is tested on 8 bits: a value that is not 0 and is a multiple of 256
    fails. *)
Theorem Z_ASSERT_spec module acode assertion line k : CONFIG_KERNEL_ASSERT = true →
  0 <= acode < 65536 → 0 <= line < 65536 → 0 <= module < 256 →
  if assertion mod 256 =? 0
  then ∃ out, Z_ASSERT module acode assertion line k = Done (Some out) (set_sreg_i false k) ∧ hex_value (take 2 (drop 25 out)) = module
  else Z_ASSERT module acode assertion line k = Done None k.
Proof.
  intros Ha Hc Hl Hm. destruct serial_numbers_read_back as (_&_&_&Hhex&_). unfold Z_ASSERT, z_assert. rewrite Ha. unfold u8.
  destruct (assertion mod 256 =? 0); [|done]. rewrite bind_modify. eexists. split; [reflexivity|]. by apply Hhex.
Qed.
End Fault.
