(* ===== verification/System.v ===== *)
(** * A system of threads that share a semaphore

    The composition of the scheduler, the wait queues, the tick interrupt and
    the semaphore: threads whose code is any sequence of takes, gives and
    yields, and an interrupt that may come between any two of these.  A thread
    that is not running is a continuation, what is left of the call it was
    switched out of. *)

From S2P Require Import Prelude Dlist Delta Tqueue Types Event Timer Kernel KernelInv KernelSpec World Semaphore Sched.

Section System.
Context `{Layout, Config, Handlers}.
Variables (F : mem) (T : gset word) (D : gset word) (s : word).

(** What a thread does: its own code, with the units it has taken; a call it
    was switched out of, by a yield or the tick, or in [k_sem_take]. *)
Inductive tstat :=
  | User (h : nat)
  | Paused (h : nat) (c : kstate → res unit)
  | Taking (h : nat) (c : kstate → res Z).

Definition held (x : tstat) : nat := match x with User h | Paused h _ | Taking h _ => h end.

Record sys := { sk : kstate; st : word → tstat }.

Inductive action := Take (timeout : Z) | Give | Yield | Tick | Resume.

Definition set_st (c : word) (x : tstat) (f : word → tstat) : word → tstat :=
  λ t, if decide (t = c) then x else f t.

(** The interrupt is entered with interrupts disabled and left by [reti]. *)
Definition tick_irq : M unit :=
  (modify (set_sreg_i false);; systick_isr;; modify (set_sreg_i true))%kernel.

Definition after_unit (c : word) (h : nat) (f : word → tstat) (r : res unit) : option sys :=
  match r with
  | Done _ k => Some {| sk := k; st := set_st c (User h) f |}
  | Susp k cont => Some {| sk := k; st := set_st c (Paused h cont) f |}
  | _ => None
  end.
Definition after_take (c : word) (h : nat) (f : word → tstat) (r : res Z) : option sys :=
  match r with
  | Done r k => Some {| sk := k; st := set_st c (User (if r =? 0 then S h else h)) f |}
  | Susp k cont => Some {| sk := k; st := set_st c (Taking h cont) f |}
  | _ => None
  end.

(** One step of the running thread, or the interrupt it takes. *)
Definition sys_step (a : action) (σ : sys) : option sys :=
  let k := sk σ in
  let c := current k in
  match a, st σ c with
  | Take timeout, User h => after_take c h (st σ) (k_sem_take s timeout k)
  | Give, User h =>
      match k_sem_give s k with
      | Done _ k => Some {| sk := k; st := set_st c (User (Nat.pred h)) (st σ) |}
      | _ => None
      end
  | Yield, User h => after_unit c h (st σ) (k_yield k)
  | Tick, User h => after_unit c h (st σ) (tick_irq k)
  | Resume, Paused h cont => after_unit c h (st σ) (cont k)
  | Resume, Taking h cont => after_take c h (st σ) (cont k)
  | _, _ => None
  end.

(** The idle thread takes nothing, a thread gives only units it has taken, and a
    thread that is switched in first finishes its call. *)
Definition enabled (a : action) (σ : sys) : Prop :=
  let c := current (sk σ) in
  match a, st σ c with
  | Take timeout, User _ => c ≠ z_thread_idle ∧ 0 <= timeout < 65536
  | Give, User h => (0 < h)%nat
  | Yield, User _ => True
  | Tick, User _ => True
  | Resume, Paused _ _ | Resume, Taking _ _ => True
  | _, _ => False
  end.

Inductive reachable (σ0 : sys) : sys → Prop :=
  | reach_init : reachable σ0 σ0
  | reach_step a σ σ' : reachable σ0 σ → enabled a σ → sys_step a σ = Some σ' → reachable σ0 σ'.

(** A thread that was woken with a unit has it although its call has not
    returned yet. *)
Definition granted (k : kstate) (t : word) : bool :=
  (z_get_thread_state k t =? Z_THREAD_STATE_READY) && (pend_result (flags (thr k t)) =? 0).
Definition units (k : kstate) (x : tstat) (t : word) : Z :=
  Z.of_nat (held x) + match x with Taking _ _ => if granted k t then 1 else 0 | _ => 0 end.
Definition sum_of (f : word → Z) (l : list word) : Z := foldr (λ t a, f t + a) 0 l.
Definition units_held (σ : sys) : Z := sum_of (λ t, units (sk σ) (st σ t) t) (elements T).

Lemma sum_of_ext f g l : (∀ t, t ∈ l → f t = g t) → sum_of f l = sum_of g l.
Proof.
  induction l as [|x l IH]; intros Hx; [done|]. simpl. rewrite Hx by by left.
  rewrite IH; [done|]. intros t Ht. apply Hx. by right.
Qed.

(** A sum of which one term changes. *)
Lemma sum_of_change f g l c : NoDup l → c ∈ l → (∀ t, t ∈ l → t ≠ c → f t = g t) →
  sum_of f l - f c = sum_of g l - g c.
Proof.
  induction l as [|x l IH]; intros Hnd Hc Hx; [by apply not_elem_of_nil in Hc|].
  apply NoDup_cons in Hnd as [Hn Hnd]. simpl. apply elem_of_cons in Hc as [->|Hc].
  - rewrite (sum_of_ext f g); [lia|]. intros t Ht. apply Hx; [by right|]. by intros ->.
  - rewrite (Hx x); [|by left|by intros ->]. specialize (IH Hnd Hc).
    assert (sum_of f l - f c = sum_of g l - g c) by (apply IH; intros; apply Hx; [by right|done]). lia.
Qed.

Lemma sum_of_nonneg f l : (∀ t, 0 <= f t) → 0 <= sum_of f l.
Proof. intros Hf. induction l as [|x l IH]; simpl; [lia|]. specialize (Hf x). lia. Qed.

Lemma set_st_eq c x f : set_st c x f c = x.
Proof. unfold set_st. by rewrite decide_True. Qed.
Lemma set_st_ne c x f t : t ≠ c → set_st c x f t = f t.
Proof. intros. unfold set_st. by rewrite decide_False. Qed.

(** ** Kernel steps that the composition adds *)

Lemma ready_state k rs ts Q t : Inv F k T rs ts Q → t ∈ T →
  (z_get_thread_state k t =? Z_THREAD_STATE_READY) = bool_decide (t ∈ rs).
Proof.
  intros Hi Ht. destruct (inv_flags _ _ _ _ _ _ _ Hi t Ht) as (Hr&_); [done|]. unfold z_get_thread_state.
  destruct (Z.eqb_spec (Z.land (flags (thr k t)) Z_THREAD_STATE_MSK) Z_THREAD_STATE_READY) as [E|E];
    symmetry; [apply bool_decide_true|apply bool_decide_false]; tauto.
Qed.

(** The idle thread gives way to a thread that became ready. *)
Lemma z_yield_idle k rs ts Q :
  Inv F k T rs ts Q → current k = z_thread_idle →
  let k' := (z_scheduler k).2 in
  Inv F k' T rs ts Q ∧ current k' = running rs ∧ keeps k k' ∧ (∀ t, t ≠ z_thread_idle → thr k' t = thr k t) ∧
  z_yield k = if decide (rs = []) then Done tt k' else Susp k' (λ k2, Done tt (set_sreg_i (sreg_i k) k2)).
Proof.
  intros Hi Hc k'. pose proof (inv_links _ _ _ _ _ _ _ Hi) as Hl.
  pose proof (inv_idle _ _ _ _ _ _ _ Hi) as Hst. rewrite <- Hc in Hst.
  destruct (z_scheduler_links F k T rs ts Q Hl) as (P1&P2&P3&P4&P5&P6&P7&P8); [done|]. fold k' in P2, P3, P4, P5, P6, P7, P8.
  rewrite (proj2 (Z.eqb_neq _ _) Hst) in P4, P5. rewrite Hc in *.
  pose proof (mm_idle _ _ (lk_map _ _ _ _ _ _ _ Hl)) as Hid.
  split_and!; [|done|done|done|].
  - split; [done|by rewrite P3; apply Hi| | | |apply Hi|apply Hi].
    + intros t Ht Hne. pose proof (inv_flags _ _ _ _ _ _ _ Hi t Ht Hne) as Hok. unfold thread_ok in *.
      rewrite P7; [done|]. by intros ->.
    + intros t Ht. destruct P6 as [Hk _]. unfold wqflag. assert (wqflags k' = wqflags k) as -> by (unfold kobjs in Hk; congruence).
      by eapply inv_wqflag.
    + unfold z_get_thread_state. rewrite P8, land_clr_skip by done. exact Hst.
  - unfold z_yield. destruct (z_scheduler k) as [p k1] eqn:E. simpl in P1, k'. subst k' p. rewrite P5.
    destruct rs as [|t rs]; simpl; [by rewrite decide_True|]. rewrite decide_False; [by destruct P6 as [_ ->]|].
    intros <-. apply Hid. eapply lk_rs_T; [done|by left].
Qed.

(** The idle thread runs, or the first of the run queue. *)
Definition runs (c : word) (rs : list word) : Prop := c = z_thread_idle ∨ ∃ rs', rs = c :: rs'.

Lemma runs_running rs : runs (running rs) rs.
Proof. destruct rs; [by left|right; by eexists]. Qed.

(** [z_yield] by whoever runs. *)
Lemma z_yield_running k rs ts Q c :
  Inv F k T rs ts Q → current k = c → runs c rs →
  ∃ k' rs', Inv F k' T rs' ts Q ∧ runs (current k') rs' ∧ keeps k k' ∧ (∀ t, t ∈ rs' ↔ t ∈ rs) ∧
    (∀ t, t ≠ c → thr k' t = thr k t) ∧
    (z_yield k = Done tt k' ∧ current k' = c ∨
     suspends (z_yield k) k' (λ k2, Done tt (set_sreg_i (sreg_i k) k2))).
Proof.
  intros Hi Hc [->|[rs' ->]].
  - destruct (z_yield_idle k rs ts Q Hi Hc) as (Hi'&Hc'&Hk&Ho&E). exists (z_scheduler k).2, rs.
    split_and!; try done; [rewrite Hc'; apply runs_running|]. rewrite E.
    case_decide as Hd; [left|right; by eexists]. split; [done|]. by rewrite Hc', Hd.
  - destruct (z_yield_spec F k T c rs' ts Q Hi Hc) as (Hi'&Hc'&Hk&Ho&E). exists (z_scheduler k).2, (rotate (c :: rs')).
    split_and!; try done; [rewrite Hc'; apply runs_running|intros t; apply rotate_elem|]. rewrite E.
    case_decide as Hd; [left|right; by eexists]. split; [done|]. by rewrite Hc', Hd.
Qed.

(** ** The tick interrupt, when no timer and no event is scheduled *)

Definition quiet (root : word) : Prop := foreign T D (tq_node root) ∧ rd1 F (tq_node root) = NULL.

Lemma set_links_id k : set_links (links k) k = k.
Proof. by destruct k. Qed.

Lemma quiet_deref root k rs ts Q : quiet root → dom Q = D → Inv F k T rs ts Q → deref (links k) root = NULL.
Proof.
  intros [Hf Hn] HD Hi. pose proof (lk_frame _ _ _ _ _ _ _ (inv_links _ _ _ _ _ _ _ Hi)) as Ha. rewrite HD in Ha.
  destruct (Ha _ Hf) as [_ E]. change (deref (links k) root) with (rd1 (links k) (tq_node root)). congruence.
Qed.

Lemma shift_quiet root n k : deref (links k) root = NULL → (0 < loop_fuel)%nat →
  on_links (λ m, tqueue_shift loop_fuel m root n) k = Done tt k.
Proof.
  intros E Hf. unfold on_links, tqueue_shift. destruct loop_fuel as [|f]; [lia|]. cbn [tqueue_shift_loop].
  by rewrite E, decide_True, set_links_id.
Qed.

Lemma pop_quiet root k : deref (links k) root = NULL → tqueue_pop_M root k = Done NULL k.
Proof.
  intros E. unfold tqueue_pop_M, tqueue_pop. destruct (_ && _); [by rewrite set_links_id|].
  rewrite E, decide_False by by intros [? _]. by rewrite set_links_id.
Qed.

Lemma timers_quiet k : deref (links k) z_timers_runqueue = NULL → (0 < loop_fuel)%nat → z_timers_process k = Done tt k.
Proof.
  intros E Hf. unfold z_timers_process. rewrite (bind_done _ _ _ _ _ (shift_quiet _ _ _ E Hf)).
  destruct loop_fuel as [|f]; [lia|]. cbn [z_timers_loop]. rewrite (bind_done _ _ _ _ _ (pop_quiet _ _ E)). done.
Qed.
Lemma events_quiet k : deref (links k) z_event_q = NULL → (0 < loop_fuel)%nat → z_event_q_process k = Done tt k.
Proof.
  intros E Hf. unfold z_event_q_process. rewrite (bind_done _ _ _ _ _ (shift_quiet _ _ _ E Hf)).
  destruct loop_fuel as [|f]; [lia|]. cbn [z_event_q_loop]. rewrite (bind_done _ _ _ _ _ (pop_quiet _ _ E)). done.
Qed.

Lemma dom_wq_dels xs Q : dom (wq_dels xs Q) = dom Q.
Proof.
  unfold wq_dels. revert Q. induction xs as [|x xs IH]; intros Q; [done|]. simpl. rewrite IH.
  unfold wq_del. apply dom_fmap_L.
Qed.

Lemma wq_dels_lookup xs Q l ws : Q !! l = Some ws → wq_dels xs Q !! l = Some (filter (λ x, x ∉ xs) ws).
Proof.
  unfold wq_dels. revert Q ws. induction xs as [|x xs IH]; intros Q ws Hw; simpl.
  - rewrite Hw. f_equal. clear Hw. induction ws as [|w ws IH]; [done|].
    rewrite filter_cons_True by apply not_elem_of_nil. by rewrite <- IH.
  - erewrite IH; [|unfold wq_del; by rewrite lookup_fmap, Hw].
    f_equal. clear Hw. induction ws as [|w ws IHw]; [done|]. rewrite !filter_cons.
    destruct (decide (w ≠ x)) as [Hn|Hn].
    + rewrite filter_cons. destruct (decide (w ∉ xs)), (decide (w ∉ x :: xs)); try set_solver. by rewrite IHw.
    + rewrite IHw. by destruct (decide (w ∉ x :: xs)); [set_solver|].
Qed.

Lemma expiries_elem now (ts : list (word * Z)) t : t ∈ (expiries now ts).*1 → t ∈ ts.*1.
Proof.
  revert now. induction ts as [|[a e] ts IH]; intros now; [done|]. cbn. rewrite !elem_of_cons.
  intros [->|Hin]; [by left|right]. by eapply IH.
Qed.

Hypothesis Hticks : 0 <= Z_KERNEL_TIME_SLICE_TICKS < 65536.
Hypothesis Htimers : CONFIG_KERNEL_TIMERS = true → quiet z_timers_runqueue.
Hypothesis Hevents : CONFIG_KERNEL_EVENTS = true → quiet z_event_q.

(** What one tick does to the threads: those in [due] are ready, with a wait
    that timed out. *)
Lemma sched_enter_quiet k rs ts Q : Inv F k T rs ts Q → dom Q = D →
  ∃ due k1 ts', z_sched_enter k = Done tt k1 ∧ Inv F k1 T (foldl rq_add rs due) ts' (wq_dels due Q) ∧
    keeps k k1 ∧ current k1 = current k ∧ (∀ t, t ∈ due → t ∈ ts.*1) ∧ (∀ t, t ∉ due → thr k1 t = thr k t) ∧
    (∀ t, t ∈ due → pend_result (flags (thr k1 t)) = - ETIMEDOUT).
Proof.
  intros Hi HD. assert (Hfuel : (0 < loop_fuel)%nat) by (pose proof (inv_fuel _ _ _ _ _ _ _ Hi); lia).
  destruct (z_sched_enter_wakes F 0 _ T rs ts Q Hi Hticks) as (k1&ts'&E&Hi1&_&Hk1&Hc1&Ho1&Hf1).
  set (due := (filter _ (expiries 0 ts)).*1) in *. exists due, k1, ts'.
  assert (HD1 : dom (wq_dels due Q) = D) by by rewrite dom_wq_dels.
  assert (Ht1 : CONFIG_KERNEL_TIMERS = true → z_timers_process k1 = Done tt k1).
  { intros Ht. apply timers_quiet; [|done]. eapply quiet_deref; [by apply Htimers|exact HD1|exact Hi1]. }
  assert (He1 : CONFIG_KERNEL_EVENTS = true → z_event_q_process k1 = Done tt k1).
  { intros Ht. apply events_quiet; [|done]. eapply quiet_deref; [by apply Hevents|exact HD1|exact Hi1]. }
  split_and!; try done.
  - rewrite E. unfold bind. destruct CONFIG_KERNEL_TIMERS; [rewrite Ht1 by done|];
      (cbn [rbind ret]; destruct CONFIG_KERNEL_EVENTS; [by apply He1|done]).
  - intros t Ht. apply (expiries_elem 0). unfold due in Ht. apply list_elem_of_fmap in Ht as (p&->&Hp).
    apply list_elem_of_filter in Hp as [_ Hp]. by apply list_elem_of_fmap_2.
  - intros t Ht. rewrite Hf1 by done. apply pend_result_expire.
Qed.

Lemma runs_foldl c rs due : runs c rs → runs c (foldl rq_add rs due).
Proof.
  intros [->|[rs' ->]]; [by left|right]. revert rs'. induction due as [|d l IH]; intros rs'; [by eexists|].
  simpl. apply IH.
Qed.

Lemma runs_untimed k rs ts Q c : Inv F k T rs ts Q → runs c rs → c ∉ ts.*1.
Proof.
  intros Hi Hr Hin. pose proof (inv_links _ _ _ _ _ _ _ Hi) as Hl. destruct Hr as [->|[rs' ->]].
  - eapply mm_idle; [by eapply lk_map|by eapply lk_ts_T].
  - eapply lk_rs_ts; [exact Hl|by left|exact Hin].
Qed.

Lemma tick_spec k rs ts Q c :
  Inv F k T rs ts Q → dom Q = D → current k = c → runs c rs →
  ∃ due k' rs' ts', Inv F k' T rs' ts' (wq_dels due Q) ∧ runs (current k') rs' ∧ kobjs k' = kobjs k ∧
    (∀ t, t ∈ due → t ∈ ts.*1) ∧ (∀ t, t ∈ rs' ↔ t ∈ due ∨ t ∈ rs) ∧
    (∀ t, t ≠ c → t ∉ due → thr k' t = thr k t) ∧
    (∀ t, t ∈ due → pend_result (flags (thr k' t)) = - ETIMEDOUT) ∧
    (tick_irq k = Done tt k' ∧ current k' = c ∧ sreg_i k' = true ∨
     suspends (tick_irq k) k' (λ k2, Done tt (set_sreg_i true k2))).
Proof.
  intros Hi HD Hc Hrun.
  destruct (sched_enter_quiet (set_sreg_i false k) rs ts Q) as (due&k1&ts'&E&Hi1&Hk1&Hc1&Hdue&Ho1&Hf1);
    [by apply Inv_sreg|done|]. change (current (set_sreg_i false k)) with (current k) in Hc1. rewrite Hc in Hc1.
  assert (Hcdue : c ∉ due) by (intros Hin%Hdue; exact (runs_untimed k rs ts Q c Hi Hrun Hin)).
  assert (Hobjs : kobjs k1 = kobjs k) by (destruct Hk1 as [-> _]; done).
  assert (Hel : ∀ t, t ∈ foldl rq_add rs due ↔ t ∈ due ∨ t ∈ rs) by (intros; apply foldl_rq_add_elem).
  assert (Hirq : tick_irq k = rbind (if sched_locked k1 then Done tt k1 else z_yield k1) (λ _, modify (set_sreg_i true))).
  { unfold tick_irq. rewrite bind_modify. unfold systick_isr, bind. rewrite E. cbn [rbind get].
    by destruct (sched_locked k1). }
  destruct (sched_locked k1).
  - exists due, (set_sreg_i true k1), (foldl rq_add rs due), ts'. split_and!; try done.
    + by apply Inv_sreg.
    + change (current (set_sreg_i true k1)) with (current k1). rewrite Hc1. by apply runs_foldl.
    + intros t _. apply Ho1.
    + left. by split_and!.
  - destruct (z_yield_running k1 _ _ _ c Hi1 Hc1) as (k2&rs2&Hi2&Hc2&Hk2&Hel2&Ho2&Hy); [by apply runs_foldl|].
    assert (Hobjs2 : kobjs k2 = kobjs k) by (destruct Hk2 as [-> _]; done).
    assert (Hpr : (∀ t, t ≠ c → t ∉ due → thr k2 t = thr k t) ∧
      (∀ t, t ∈ due → pend_result (flags (thr k2 t)) = - ETIMEDOUT) ∧ (∀ t, t ∈ rs2 ↔ t ∈ due ∨ t ∈ rs)).
    { split_and!.
      - intros t Hn Hd. rewrite Ho2 by done. by apply Ho1.
      - intros t Hd. rewrite Ho2 by (by intros ->). by apply Hf1.
      - intros t. by rewrite Hel2, Hel. }
    destruct Hpr as (Hp1&Hp2&Hp3). destruct Hy as [[Ey Hcy]|(cont&Ey&Hcont)].
    + exists due, (set_sreg_i true k2), rs2, ts'. split_and!; try done; [by apply Inv_sreg|].
      left. rewrite Hirq, Ey. by split_and!.
    + exists due, k2, rs2, ts'. split_and!; try done. right. rewrite Hirq. change (rbind (z_yield k1) ?f) with (bind (z_yield) f k1).
      eapply suspends_ext; [apply (suspends_bind _ _ _ _ (λ k2, Done tt (set_sreg_i (sreg_i k1) k2))); by exists cont|].
      intros k3. reflexivity.
Qed.

(** ** The invariant of the system *)

Hypothesis Hs : s ≠ NULL.
Hypothesis Hidle : CONFIG_KERNEL_THREAD_IDLE = true.

Definition paused_ok (x : tstat) : Prop :=
  match x with
  | User _ => True
  | Paused _ c => ∀ k, c k = Done tt (set_sreg_i true k)
  | Taking _ c => ∀ k, c k = Done (pend_result (flags (thr k (current k)))) (set_sreg_i true k)
  end.
Definition is_user (x : tstat) : Prop := match x with User _ => True | _ => False end.
Definition is_taking (x : tstat) : Prop := match x with Taking _ _ => True | _ => False end.

Record good_at (N : Z) (σ : sys) (rs : list word) (ts : list (word * Z)) (Q : gmap word (list word))
    (ws : list word) : Prop := {
  g_inv : Inv F (sk σ) T rs ts Q;
  g_runs : runs (current (sk σ)) rs;
  g_dom : dom Q = D;
  g_wq : Q !! sem_waitqueue s = Some ws;
  g_sem : sem_ok (sk σ) s ws;
  g_limit : N <= limit (sem (sk σ) s);
  g_all t : t ∈ T → t ∈ rs ∨ t ∈ ws;
  g_user t : is_user (st σ t) → t = current (sk σ) ∧ sreg_i (sk σ) = true;
  g_ok t : paused_ok (st σ t);
  g_wait t : t ∈ ws → is_taking (st σ t) ∧ Z.land (flags (thr (sk σ) t)) SCHED_CLR = 0;
  g_idle : held (st σ z_thread_idle) = O ∧ ¬ is_taking (st σ z_thread_idle);
  g_total : count (sem (sk σ) s) + units_held σ = N;
}.
Definition good (N : Z) (σ : sys) : Prop := ∃ rs ts Q ws, good_at N σ rs ts Q ws.

Lemma good_idle_T N σ rs ts Q ws : good_at N σ rs ts Q ws → z_thread_idle ∉ T.
Proof. intros Hg. eapply mm_idle, lk_map, inv_links, g_inv, Hg. Qed.

Lemma good_waiting N σ rs ts Q ws t : good_at N σ rs ts Q ws → t ∈ ws → t ∈ T ∧ (t ∉ rs).
Proof.
  intros Hg Ht. pose proof (g_inv _ _ _ _ _ _ Hg) as Hi. split.
  - eapply lk_ws_T; [by eapply inv_links|by apply Hg|done].
  - intros Hr. eapply (inv_ready_unqueued F); [exact Hi|exact Hr|by apply Hg|done].
Qed.

Lemma good_current N σ rs ts Q ws : good_at N σ rs ts Q ws → current (sk σ) ∉ ws.
Proof.
  intros Hg Hin. destruct (good_waiting _ _ _ _ _ _ _ Hg Hin) as [HT Hr].
  destruct (g_runs _ _ _ _ _ _ Hg) as [E|[rs' E]].
  - rewrite E in HT. by eapply good_idle_T.
  - apply Hr. rewrite E. by left.
Qed.

Lemma good_timed N σ rs ts Q ws t : good_at N σ rs ts Q ws → t ∈ ts.*1 → t ∈ ws.
Proof.
  intros Hg Ht. pose proof (inv_links _ _ _ _ _ _ _ (g_inv _ _ _ _ _ _ Hg)) as Hl.
  destruct (g_all _ _ _ _ _ _ Hg t) as [Hr|]; [by eapply lk_ts_T| |done].
  exfalso. by eapply lk_rs_ts.
Qed.

(** The units of a thread depend on its flags only, and on them only during a
    take. *)
Lemma units_thr k k' x t : thr k' t = thr k t → units k' x t = units k x t.
Proof. intros E. unfold units, granted, z_get_thread_state. by rewrite E. Qed.

Lemma units_not_ready k x t rs ts Q : Inv F k T rs ts Q → t ∈ T → t ∉ rs → units k x t = Z.of_nat (held x).
Proof.
  intros Hi Ht Hr. unfold units. destruct x; try lia. unfold granted. rewrite (ready_state _ _ _ _ _ Hi Ht).
  rewrite bool_decide_false by done. simpl. lia.
Qed.
Lemma units_ready k x t rs ts Q : Inv F k T rs ts Q → t ∈ T → t ∈ rs → is_taking x →
  units k x t = Z.of_nat (held x) + if pend_result (flags (thr k t)) =? 0 then 1 else 0.
Proof.
  intros Hi Ht Hr Hx. unfold units. destruct x; try done. unfold granted. rewrite (ready_state _ _ _ _ _ Hi Ht).
  rewrite bool_decide_true by done. done.
Qed.
Lemma units_idle k x t : ¬ is_taking x → units k x t = Z.of_nat (held x).
Proof. unfold units. destruct x; simpl; [lia|lia|done]. Qed.

(** The sum over all threads when one thread changes. *)
Lemma units_change k k' f f' c : c ∈ T → (∀ t, t ∈ T → t ≠ c → units k' (f' t) t = units k (f t) t) →
  units_held {| sk := k'; st := f' |} = units_held {| sk := k; st := f |} + units k' (f' c) c - units k (f c) c.
Proof.
  intros Hc Hx. unfold units_held. cbn [sk st].
  pose proof (sum_of_change (λ t, units k' (f' t) t) (λ t, units k (f t) t) (elements T) c) as Ht. cbv beta in Ht.
  rewrite <- (Z.add_cancel_r _ _ (- units k' (f' c) c)). rewrite <- Z.add_opp_r in Ht. rewrite Ht; [lia|..].
  - apply NoDup_elements.
  - by apply elem_of_elements.
  - intros t Htt Hne. apply Hx; [by apply elem_of_elements|done].
Qed.
Lemma units_same k k' f f' : (∀ t, t ∈ T → units k' (f' t) t = units k (f t) t) →
  units_held {| sk := k'; st := f' |} = units_held {| sk := k; st := f |}.
Proof. intros Hx. unfold units_held. cbn [sk st]. apply sum_of_ext. intros t Ht. apply Hx. by apply elem_of_elements. Qed.

Lemma units_change2 k k' f f' c d : c ∈ T → d ∈ T → c ≠ d →
  (∀ t, t ∈ T → t ≠ c → t ≠ d → units k' (f' t) t = units k (f t) t) →
  units_held {| sk := k'; st := f' |} = units_held {| sk := k; st := f |}
    + (units k' (f' c) c - units k (f c) c) + (units k' (f' d) d - units k (f d) d).
Proof.
  intros Hc Hd Hne Hx. unfold units_held. cbn [sk st].
  set (g := λ t, if decide (t = d) then units k (f d) d else units k' (f' t) t).
  pose proof (NoDup_elements T) as Hnd.
  pose proof (sum_of_change (λ t, units k' (f' t) t) g (elements T) d Hnd) as H1'.
  pose proof (sum_of_change g (λ t, units k (f t) t) (elements T) c Hnd) as H2'. cbv beta in H1', H2'.
  assert (Egd : g d = units k (f d) d) by (unfold g; by rewrite decide_True).
  assert (Egc : g c = units k' (f' c) c) by (unfold g; by rewrite decide_False).
  rewrite Egd in H1'. rewrite Egc in H2'.
  assert (H1'' := H1' ltac:(by apply elem_of_elements) ltac:(intros t _ Htd; unfold g; by rewrite decide_False)).
  assert (H2'' := H2' ltac:(by apply elem_of_elements)
    ltac:(intros t Ht Htc; unfold g; case_decide; [by subst t|apply Hx; [by apply elem_of_elements|done|done]])).
  lia.
Qed.

(** What a step has to show: it changes the status of the running thread [c]
    only, and no thread joins the waiting ones but [c]. *)
Lemma good_step N k f rs ts Q ws k' x rs' ts' Q' ws' :
  let c := current k in
  good_at N {| sk := k; st := f |} rs ts Q ws →
  Inv F k' T rs' ts' Q' → runs (current k') rs' → dom Q' = D → Q' !! sem_waitqueue s = Some ws' →
  sem_ok k' s ws' → limit (sem k' s) = limit (sem k s) →
  (∀ t, t ∈ T → t ∈ rs' ∨ t ∈ ws') → paused_ok x → (is_user x → current k' = c ∧ sreg_i k' = true) →
  (∀ t, t ∈ ws' → t ≠ c → t ∈ ws ∧ thr k' t = thr k t) →
  (c ∈ ws' → is_taking x ∧ Z.land (flags (thr k' c)) SCHED_CLR = 0) →
  (c = z_thread_idle → held x = O ∧ ¬ is_taking x) →
  count (sem k' s) + units_held {| sk := k'; st := set_st c x f |} = N →
  good_at N {| sk := k'; st := set_st c x f |} rs' ts' Q' ws'.
Proof.
  intros c Hg Hi Hr HD Hw Ho Hlim Hall Hx Hu Hws Hc Hidl Htot.
  pose proof (g_limit _ _ _ _ _ _ Hg) as HN. cbn [sk] in HN. split; cbn [sk st]; try done.
  - by rewrite Hlim.
  - intros t Ht. unfold set_st in Ht. case_decide as E; [subst t; by destruct (Hu Ht)|].
    destruct (g_user _ _ _ _ _ _ Hg t Ht). done.
  - intros t. unfold set_st. case_decide; [done|]. apply (g_ok _ _ _ _ _ _ Hg).
  - intros t Ht. unfold set_st. case_decide as E; [subst t; by apply Hc|].
    destruct (Hws t Ht E) as [Hin ->]. by apply (g_wait _ _ _ _ _ _ Hg).
  - unfold set_st. case_decide as E; [by apply Hidl|]. apply (g_idle _ _ _ _ _ _ Hg).
Qed.

Lemma good_T N k f rs ts Q ws : good_at N {| sk := k; st := f |} rs ts Q ws → current k ≠ z_thread_idle →
  ∃ rs', rs = current k :: rs' ∧ current k ∈ T.
Proof.
  intros Hg Hc. destruct (g_runs _ _ _ _ _ _ Hg) as [E|[rs' E]]; [done|]. cbn [sk] in E. exists rs'. split; [done|].
  eapply lk_rs_T; [by eapply inv_links; apply Hg|]. cbn [sk]. rewrite E. by left.
Qed.

(** The kernel state of the running thread and what it holds. *)
Lemma good_total N k f rs ts Q ws : good_at N {| sk := k; st := f |} rs ts Q ws →
  count (sem k s) + units_held {| sk := k; st := f |} = N ∧
  (current k ∈ T → units k (f (current k)) (current k) + count (sem k s) <= N).
Proof.
  intros Hg. split; [apply Hg|]. intros Hc. pose proof (g_total _ _ _ _ _ _ Hg) as Ht. cbn [sk] in Ht.
  unfold units_held in Ht. cbn [sk st] in Ht.
  pose proof (sum_of_change (λ t, units k (f t) t) (λ t, if decide (t = current k) then 0 else units k (f t) t)
    (elements T) (current k)) as Hx. cbv beta in Hx. rewrite decide_True in Hx by done.
  assert (0 <= sum_of (λ t, if decide (t = current k) then 0 else units k (f t) t) (elements T)).
  { apply sum_of_nonneg. intros t. case_decide; [lia|]. unfold units. destruct (f t); try lia. case_match; lia. }
  rewrite Z.sub_0_r in Hx. rewrite <- Hx in *; [lia|apply NoDup_elements|by apply elem_of_elements|].
  intros t _ Hne. by rewrite decide_False.
Qed.

(** *** The steps *)

Lemma step_take N k f rs ts Q ws timeout h :
  good_at N {| sk := k; st := f |} rs ts Q ws → f (current k) = User h → current k ≠ z_thread_idle →
  0 <= timeout < 65536 → ∃ σ, after_take (current k) h f (k_sem_take s timeout k) = Some σ ∧ good N σ.
Proof.
  intros Hg Hst Hni Ht. set (c := current k) in *. destruct (good_T _ _ _ _ _ _ _ Hg Hni) as (rs'&->&HcT).
  destruct (good_total _ _ _ _ _ _ _ Hg) as [Htot Hle]. fold c in HcT, Hle. specialize (Hle HcT).
  destruct (g_user _ _ _ _ _ _ Hg c) as [_ Hsr]; [cbn; by rewrite Hst|]. cbn [sk] in Hsr.
  pose proof (g_inv _ _ _ _ _ _ Hg) as Hi. pose proof (g_sem _ _ _ _ _ _ Hg) as Ho.
  pose proof (g_wq _ _ _ _ _ _ Hg) as Hw. cbn [sk] in Hi, Ho. pose proof Ho as [Hr Hlim Hws].
  assert (Hcw : c ∉ ws) by exact (good_current _ _ _ _ _ _ Hg).
  destruct (Z.ltb_spec 0 (count (sem k s))) as [Hc|Hc].
  - rewrite k_sem_take_unit by (done || lia). eexists. split; [reflexivity|]. cbn [Z.eqb].
    exists (c :: rs'), ts, Q, ws. eapply good_step; try done; try apply Hg; try by apply Inv_upd_sem.
    + split; rewrite sem_upd_eq; simpl; [lia|done|]. intros Hne. specialize (Hws Hne). lia.
    + by rewrite sem_upd_eq.
    + rewrite sem_upd_eq. fold c. rewrite (units_change k _ f _ c HcT).
      * rewrite set_st_eq, Hst. unfold units. cbn [held]. simpl count. lia.
      * intros t _ Hne. rewrite set_st_ne by done. by apply units_thr.
  - destruct (decide (timeout = K_NO_WAIT)) as [->|Hne].
    + rewrite k_sem_take_no_wait by done. eexists. split; [reflexivity|]. cbn.
      exists (c :: rs'), ts, Q, ws. eapply good_step; try done; try apply Hg.
      * fold c. rewrite (units_same k k f); [done|]. intros t _. unfold set_st. case_decide; [subst t; by rewrite Hst|done].
    + destruct (k_sem_take_wait F s timeout k T c rs' ts Q ws) as (k'&(cont&E&Hcont)&Hi'&Hc'&Es&Ho'&Hfl);
        [done|done|by left|done|done|done|unfold K_NO_WAIT in Hne; lia|].
      rewrite E. eexists. split; [reflexivity|]. exists (rq_leave rs'), (tmo_add timeout c ts), (<[sem_waitqueue s:=ws ++ [c]]> Q), (ws ++ [c]).
      assert (Hcr : c ∉ rq_leave rs').
      { rewrite rq_leave_elem. by destruct (links_rest_T _ _ _ _ _ _ _ _ (inv_links _ _ _ _ _ _ _ Hi)) as (_&?&_). }
      eapply good_step; try done.
      * rewrite Hc'. apply runs_running.
      * rewrite dom_insert_L. pose proof (g_dom _ _ _ _ _ _ Hg) as HD. apply elem_of_dom_2 in Hw. set_solver.
      * apply lookup_insert_eq.
      * split; rewrite Es; [done|done|]. intros _. lia.
      * by rewrite Es.
      * intros t Hin. rewrite rq_leave_elem. destruct (g_all _ _ _ _ _ _ Hg t Hin) as [Hx|Hx]; [|set_solver].
        apply elem_of_cons in Hx as [->|Hx]; [right; set_solver|by left].
      * intros k2. rewrite Hcont. by rewrite Hsr.
      * intros t Hin Hnc. split; [set_solver|by apply Ho'].
      * fold c. rewrite Es. rewrite (units_change k _ f _ c HcT).
        -- rewrite set_st_eq, Hst. rewrite (units_not_ready _ _ _ _ _ _ Hi' HcT Hcr). unfold units. cbn [held]. lia.
        -- intros t _ Hnc. rewrite set_st_ne by done. apply units_thr. by apply Ho'.
Qed.

Lemma step_give N k f rs ts Q ws h :
  good_at N {| sk := k; st := f |} rs ts Q ws → f (current k) = User (S h) →
  ∃ t k', k_sem_give s k = Done t k' ∧ good N {| sk := k'; st := set_st (current k) (User h) f |}.
Proof.
  intros Hg Hst. set (c := current k) in *.
  assert (Hni : c ≠ z_thread_idle).
  { intros E. destruct (g_idle _ _ _ _ _ _ Hg) as [Hx _]. cbn [st] in Hx. rewrite <- E, Hst in Hx. done. }
  destruct (good_T _ _ _ _ _ _ _ Hg Hni) as (rs'&->&HcT).
  destruct (good_total _ _ _ _ _ _ _ Hg) as [Htot Hle]. fold c in HcT, Hle. specialize (Hle HcT). rewrite Hst in Hle.
  unfold units in Hle. cbn [held] in Hle.
  destruct (g_user _ _ _ _ _ _ Hg c) as [_ Hsr]; [cbn; by rewrite Hst|]. cbn [sk] in Hsr.
  pose proof (g_inv _ _ _ _ _ _ Hg) as Hi. pose proof (g_sem _ _ _ _ _ _ Hg) as Ho.
  pose proof (g_wq _ _ _ _ _ _ Hg) as Hw. pose proof (g_limit _ _ _ _ _ _ Hg) as HN.
  cbn [sk] in Hi, Ho, HN. pose proof Ho as [Hr Hlim Hws].
  assert (Hcw : c ∉ ws) by exact (good_current _ _ _ _ _ _ Hg).
  destruct ws as [|t ws].
  - destruct (k_sem_give_nil F s k T (c :: rs') ts Q) as (k'&E&Hi'&Hsr'&Hc'&Ho'&Es); [done..|].
    exists NULL, k'. split; [done|]. exists (c :: rs'), ts, Q, []. eapply good_step; try done.
    + rewrite Hc'. apply Hg.
    + apply Hg.
    + split; rewrite Es; simpl; [lia|done|done].
    + by rewrite Es.
    + apply Hg.
    + by rewrite Hsr'.
    + fold c. rewrite Es. cbn [count]. rewrite (units_change k _ f _ c HcT).
      * rewrite set_st_eq, Hst. unfold units. cbn [held]. lia.
      * intros t _ Hnc. rewrite set_st_ne by done. by apply units_thr.
  - destruct (k_sem_give_cons F s k T (c :: rs') ts Q t ws) as (k'&E&Hi'&Hk&Hc'&Ho'&Hf); [done..|].
    exists t, k'. split; [done|]. exists (rq_add (c :: rs') t), (tmo_del t ts), (<[sem_waitqueue s:=ws]> Q), ws.
    pose proof (sem_keeps s _ _ Hk) as Es. destruct Hk as [_ Hsr'].
    destruct (g_wait _ _ _ _ _ _ Hg t) as [Htk Hclr]; [by left|]. cbn [st sk] in Htk, Hclr.
    assert (Hne : t ≠ c) by (intros ->; apply Hcw; by left).
    destruct (good_waiting _ _ _ _ _ _ t Hg) as [HtT Htr]; [by left|].
    assert (Hnd : t ∉ ws).
    { pose proof (wq_nodup F _ _ _ _ _ _ _ Hi Hw) as Hnd. by apply NoDup_cons in Hnd as [? _]. }
    eapply good_step; try done.
    + rewrite Hc'. right. by eexists.
    + rewrite dom_insert_L. pose proof (g_dom _ _ _ _ _ _ Hg) as HD. apply elem_of_dom_2 in Hw. set_solver.
    + apply lookup_insert_eq.
    + split; rewrite Es; [done|done|]. intros _. by apply Hws.
    + by rewrite Es.
    + intros t' Ht'. rewrite rq_add_elem. destruct (g_all _ _ _ _ _ _ Hg t' Ht') as [Hx|Hx]; [tauto|].
      apply elem_of_cons in Hx as [->|Hx]; [left; by left|by right].
    + by rewrite Hsr'.
    + intros t' Ht' _. split; [by right|]. apply Ho'. by intros ->.
    + intros Hin. exfalso. apply Hcw. by right.
    + fold c. rewrite Es. rewrite (units_change2 k k' f _ c t HcT HtT); [|done|].
      * rewrite set_st_eq, set_st_ne, Hst by done. rewrite (units_not_ready k (f t) t _ _ _ Hi HtT Htr).
        rewrite (units_ready k' (f t) t _ _ _ Hi' HtT) by (done || (rewrite rq_add_elem; by left)).
        rewrite Hf by done. cbn [Z.eqb]. unfold units. cbn [held]. lia.
      * intros t' _ Hc1 Ht1. rewrite set_st_ne by done. apply units_thr. by apply Ho'.
Qed.

(** The running thread, or the idle thread, keeps its units whatever happens to
    its flags. *)
Lemma units_leave N k f rs ts Q ws k' x h :
  good_at N {| sk := k; st := f |} rs ts Q ws → f (current k) = User h → held x = h → ¬ is_taking x →
  (∀ t, t ∈ T → t ≠ current k → units k' (f t) t = units k (f t) t) →
  units_held {| sk := k'; st := set_st (current k) x f |} = units_held {| sk := k; st := f |}.
Proof.
  intros Hg Hst Hx Hnt Hoth. apply units_same. intros t Ht. unfold set_st. case_decide as E; [|by apply Hoth].
  subst t. rewrite units_idle by done. rewrite units_idle by (rewrite Hst; by intros ?). by rewrite Hst, Hx.
Qed.

Lemma good_total_eq N k f rs ts Q ws : good_at N {| sk := k; st := f |} rs ts Q ws →
  count (sem k s) + units_held {| sk := k; st := f |} = N.
Proof. intros Hg. by destruct (good_total _ _ _ _ _ _ _ Hg). Qed.

(** A thread that is switched out of a call that keeps its units. *)
Lemma step_leave N k f rs ts Q ws h x k' rs' ts' Q' ws' :
  good_at N {| sk := k; st := f |} rs ts Q ws → f (current k) = User h →
  held x = h → ¬ is_taking x → paused_ok x → (is_user x → current k' = current k ∧ sreg_i k' = true) →
  Inv F k' T rs' ts' Q' → runs (current k') rs' → dom Q' = D → Q' !! sem_waitqueue s = Some ws' → sem k' s = sem k s →
  (∀ t, t ∈ T → t ∈ rs' ∨ t ∈ ws') → (∀ t, t ∈ ws' → t ∈ ws ∧ (t ≠ current k → thr k' t = thr k t)) →
  (∀ t, t ∈ T → t ≠ current k → units k' (f t) t = units k (f t) t) →
  good N {| sk := k'; st := set_st (current k) x f |}.
Proof.
  intros Hg Hst Hx Hnt Hok Hu Hi Hr HD Hw Es Hall Hws Hun. exists rs', ts', Q', ws'.
  pose proof (g_sem _ _ _ _ _ _ Hg) as [Ho1 Ho2 Ho3]. cbn [sk] in Ho1, Ho2, Ho3.
  assert (Hcw : current k ∉ ws) by exact (good_current _ _ _ _ _ _ Hg).
  eapply good_step; [exact Hg|done..| |by rewrite Es|done|done|done| | | |].
  - split; rewrite Es; [done|done|]. intros Hne. destruct ws' as [|t l]; [done|]. apply Ho3.
    destruct (Hws t) as [Hin _]; [by left|]. by intros ->; apply not_elem_of_nil in Hin.
  - intros t Ht Hne. destruct (Hws t Ht). auto.
  - intros Hin. exfalso. apply Hcw. by apply Hws.
  - intros E. split; [|done]. destruct (g_idle _ _ _ _ _ _ Hg) as [Hh _]. cbn [st] in Hh. rewrite <- E, Hst in Hh.
    by rewrite Hx.
  - rewrite Es. rewrite (units_leave _ _ _ _ _ _ _ _ _ h Hg Hst) by done. by eapply good_total_eq.
Qed.

Lemma step_yield N k f rs ts Q ws h :
  good_at N {| sk := k; st := f |} rs ts Q ws → f (current k) = User h →
  ∃ σ, after_unit (current k) h f (k_yield k) = Some σ ∧ good N σ.
Proof.
  intros Hg Hst. destruct (g_user _ _ _ _ _ _ Hg (current k)) as [_ Hsr]; [cbn; by rewrite Hst|]. cbn [sk] in Hsr.
  pose proof (g_inv _ _ _ _ _ _ Hg) as Hi. cbn [sk] in Hi.
  destruct (z_yield_running (set_sreg_i false k) rs ts Q (current k)) as (k'&rs'&Hi'&Hr'&Hk&Hel&Hoth&Hy);
    [by apply Inv_sreg|done|apply Hg|].
  assert (Es : sem k' s = sem k s) by (by rewrite (sem_keeps s _ _ Hk)).
  assert (Hall : ∀ t, t ∈ T → t ∈ rs' ∨ t ∈ ws) by (intros t Ht; rewrite Hel; by apply (g_all _ _ _ _ _ _ Hg)).
  unfold k_yield. rewrite bind_irq_lock. rewrite Hsr. destruct Hy as [[Ey Hcy]|Hy].
  - rewrite (bind_done _ _ _ _ _ Ey). eexists. split; [reflexivity|].
    eapply (step_leave _ _ _ _ _ _ _ h); [exact Hg|exact Hst|done|by intros ?|done|by intros _|by apply Inv_sreg|exact Hr'|apply Hg|apply Hg|done|done| |].
    + intros t Ht. split; [done|]. intros Hne. by apply Hoth.
    + intros t _ Hne. apply units_thr. by apply Hoth.
  - destruct (suspends_bind _ (λ _, irq_unlock true) _ _ _ Hy) as (cont&E&Hcont). rewrite E.
    eexists. split; [reflexivity|].
    eapply (step_leave _ _ _ _ _ _ _ h); [exact Hg|exact Hst|done|by intros ?| |by intros ?|exact Hi'|exact Hr'|apply Hg|apply Hg|done|done| |].
    + intros k2. rewrite Hcont. done.
    + intros t Ht. split; [done|]. intros Hne. by apply Hoth.
    + intros t _ Hne. apply units_thr. by apply Hoth.
Qed.

Lemma step_tick N k f rs ts Q ws h :
  good_at N {| sk := k; st := f |} rs ts Q ws → f (current k) = User h →
  ∃ σ, after_unit (current k) h f (tick_irq k) = Some σ ∧ good N σ.
Proof.
  intros Hg Hst. pose proof (g_inv _ _ _ _ _ _ Hg) as Hi. cbn [sk] in Hi.
  destruct (tick_spec k rs ts Q (current k) Hi) as (due&k'&rs'&ts'&Hi'&Hr'&Hk&Hdue&Hel&Hoth&Hres&Hy); [apply Hg|done|apply Hg|].
  assert (Es : sem k' s = sem k s) by (unfold kobjs in Hk; unfold sem; congruence).
  assert (Hdw : ∀ t, t ∈ due → t ∈ ws) by (intros t Ht%Hdue; by eapply good_timed).
  set (ws' := filter (λ x, x ∉ due) ws).
  assert (Hw' : wq_dels due Q !! sem_waitqueue s = Some ws') by (apply wq_dels_lookup; apply Hg).
  assert (HD' : dom (wq_dels due Q) = D) by (rewrite dom_wq_dels; apply Hg).
  assert (Hall : ∀ t, t ∈ T → t ∈ rs' ∨ t ∈ ws').
  { intros t Ht. rewrite Hel. destruct (g_all _ _ _ _ _ _ Hg t Ht) as [Hx|Hx]; [tauto|].
    destruct (decide (t ∈ due)); [tauto|]. right. by apply list_elem_of_filter. }
  assert (Hws : ∀ t, t ∈ ws' → t ∈ ws ∧ (t ≠ current k → thr k' t = thr k t)).
  { intros t [Hn Hin]%list_elem_of_filter. split; [done|]. intros Hne. by apply Hoth. }
  assert (Hun : ∀ t, t ∈ T → t ≠ current k → units k' (f t) t = units k (f t) t).
  { intros t Ht Hne. destruct (decide (t ∈ due)) as [Hd|Hd]; [|by apply units_thr, Hoth].
    destruct (good_waiting _ _ _ _ _ _ t Hg) as [_ Htr]; [by apply Hdw|].
    destruct (g_wait _ _ _ _ _ _ Hg t) as [Htk _]; [by apply Hdw|].
    rewrite (units_not_ready k _ _ _ _ _ Hi Ht Htr), (units_ready k' _ _ _ _ _ Hi' Ht); [|by rewrite Hel; left|done].
    rewrite Hres by done. change (- ETIMEDOUT =? 0) with false. lia. }
  destruct Hy as [(Ey&Hcy&Hsr)|(cont&Ey&Hcont)]; rewrite Ey; (eexists; split; [reflexivity|]).
  - eapply (step_leave _ _ _ _ _ _ _ h); [exact Hg|exact Hst|done|by intros ?|done|by intros _|exact Hi'|exact Hr'|exact HD'|exact Hw'|exact Es|exact Hall|exact Hws|exact Hun].
  - eapply (step_leave _ _ _ _ _ _ _ h); [exact Hg|exact Hst|done|by intros ?|exact Hcont|by intros ?|exact Hi'|exact Hr'|exact HD'|exact Hw'|exact Es|exact Hall|exact Hws|exact Hun].
Qed.

Lemma sem_ok_sreg b k ws : sem_ok k s ws → sem_ok (set_sreg_i b k) s ws.
Proof. intros []. by split. Qed.

Lemma step_resume N k f rs ts Q ws h c :
  good_at N {| sk := k; st := f |} rs ts Q ws → f (current k) = Paused h c →
  ∃ σ, after_unit (current k) h f (c k) = Some σ ∧ good N σ.
Proof.
  intros Hg Hst. pose proof (g_ok _ _ _ _ _ _ Hg (current k)) as Hok. cbn [st] in Hok. rewrite Hst in Hok.
  rewrite Hok. eexists. split; [reflexivity|]. exists rs, ts, Q, ws.
  assert (Hcw : current k ∉ ws) by exact (good_current _ _ _ _ _ _ Hg).
  eapply good_step; [exact Hg|apply Inv_sreg, Hg|apply Hg|apply Hg|apply Hg|apply sem_ok_sreg, Hg|done|apply Hg|done|done|done|done| |].
  - intros E. split; [|by intros ?]. destruct (g_idle _ _ _ _ _ _ Hg) as [Hh _]. cbn [st] in Hh. rewrite <- E, Hst in Hh. done.
  - rewrite (units_same k _ f); [exact (good_total_eq _ _ _ _ _ _ _ Hg)|].
    intros t _. unfold set_st. case_decide as E; [|by apply units_thr]. subst t. by rewrite Hst.
Qed.

Lemma step_resume_take N k f rs ts Q ws h c :
  good_at N {| sk := k; st := f |} rs ts Q ws → f (current k) = Taking h c →
  ∃ σ, after_take (current k) h f (c k) = Some σ ∧ good N σ.
Proof.
  intros Hg Hst. pose proof (g_ok _ _ _ _ _ _ Hg (current k)) as Hok. cbn [st] in Hok. rewrite Hst in Hok.
  assert (Hni : current k ≠ z_thread_idle).
  { intros E. destruct (g_idle _ _ _ _ _ _ Hg) as [_ Hx]. cbn [st] in Hx. rewrite <- E, Hst in Hx. by apply Hx. }
  destruct (good_T _ _ _ _ _ _ _ Hg Hni) as (rs'&->&HcT).
  pose proof (g_inv _ _ _ _ _ _ Hg) as Hi. cbn [sk] in Hi.
  rewrite Hok. eexists. split; [reflexivity|]. exists (current k :: rs'), ts, Q, ws.
  assert (Hcw : current k ∉ ws) by exact (good_current _ _ _ _ _ _ Hg).
  eapply good_step; [exact Hg|by apply Inv_sreg|apply Hg|apply Hg|apply Hg|apply sem_ok_sreg, Hg|done|apply Hg|done|done|done|done|done|].
  rewrite (units_same k _ f); [exact (good_total_eq _ _ _ _ _ _ _ Hg)|].
  intros t _. unfold set_st. case_decide as E; [|by apply units_thr]. subst t. rewrite Hst.
  rewrite (units_ready k (Taking h c) _ _ _ _ Hi HcT) by (done || by left). unfold units. cbn [held].
  destruct (_ =? 0); lia.
Qed.

(** Every enabled step is possible and keeps the invariant. *)
Lemma step_good N σ a : good N σ → enabled a σ → ∃ σ', sys_step a σ = Some σ' ∧ good N σ'.
Proof.
  destruct σ as [k f]. intros (rs&ts&Q&ws&Hg) He. unfold enabled in He. unfold sys_step. cbn [sk st] in *.
  destruct (f (current k)) as [h|h c|h c] eqn:Hst; destruct a as [timeout| | | |]; try done.
  - destruct He. by eapply step_take.
  - destruct h as [|h]; [lia|]. destruct (step_give _ _ _ _ _ _ _ _ Hg Hst) as (t&k'&E&Hg'). rewrite E.
    eexists. split; [reflexivity|done].
  - by eapply step_yield.
  - by eapply step_tick.
  - by eapply step_resume.
  - by eapply step_resume_take.
Qed.

(** A system at its start: every thread is ready, the running one in its own
    code and the others not started yet, and the semaphore has [N] units. *)
Definition starting : tstat := Paused 0 (λ k, Done tt (set_sreg_i true k)).
Record boot (N : Z) (σ : sys) (rs : list word) (Q : gmap word (list word)) : Prop := {
  b_inv : Inv F (sk σ) T rs [] Q;
  b_runs : runs (current (sk σ)) rs;
  b_all t : t ∈ T → t ∈ rs;
  b_dom : dom Q = D;
  b_wq : Q !! sem_waitqueue s = Some [];
  b_sreg : sreg_i (sk σ) = true;
  b_st t : st σ t = if decide (t = current (sk σ)) then User 0 else starting;
  b_count : count (sem (sk σ) s) = N;
  b_limit : 0 <= N <= limit (sem (sk σ) s) ∧ limit (sem (sk σ) s) < 256;
}.

Lemma boot_good N σ rs Q : boot N σ rs Q → good N σ.
Proof.
  intros Hb. exists rs, [], Q, []. pose proof Hb as [Hi Hr Hall HD Hw Hsr Hst Hc [HN Hlim]]. split; try done.
  - split; [lia|done|done].
  - lia.
  - intros t Ht. left. by apply Hall.
  - intros t. rewrite Hst. case_decide; [by intros _|by intros ?].
  - intros t. rewrite Hst. by case_decide.
  - intros t Ht. by apply not_elem_of_nil in Ht.
  - rewrite Hst. case_decide; (split; [done|by intros ?]).
  - unfold units_held. rewrite (sum_of_ext _ (λ _, 0)).
    + assert (E : ∀ l : list word, sum_of (λ _, 0) l = 0) by (induction l; simpl; lia). rewrite E. lia.
    + intros t _. rewrite Hst. by case_decide.
Qed.

Lemma reachable_good N σ0 σ : good N σ0 → reachable σ0 σ → good N σ.
Proof.
  intros Hg. induction 1 as [|a σ σ' _ IH He Hs']; [done|].
  destruct (step_good N σ a IH He) as (σ''&E&Hg''). congruence.
Qed.

Lemma sum_of_held σ : sum_of (λ t, Z.of_nat (held (st σ t))) (elements T) <= units_held σ.
Proof.
  unfold units_held. induction (elements T) as [|t l IH]; simpl; [lia|].
  assert (Z.of_nat (held (st σ t)) <= units (sk σ) (st σ t) t); [|lia].
  unfold units. destruct (st σ t); try lia. case_match; lia.
Qed.

Lemma sum_of_two f l a b : (∀ t, 0 <= f t) → NoDup l → a ∈ l → b ∈ l → a ≠ b → f a + f b <= sum_of f l.
Proof.
  intros Hf. induction l as [|x l IH]; intros Hnd Ha Hb Hne; [by apply not_elem_of_nil in Ha|].
  assert (H1' : ∀ y l, y ∈ l → f y <= sum_of f l).
  { clear -Hf. intros y l. induction l as [|z l IH]; intros Hy; [by apply not_elem_of_nil in Hy|].
    pose proof (sum_of_nonneg f l Hf). specialize (Hf z) as Hz. simpl.
    apply elem_of_cons in Hy as [->|Hy]; [lia|]. specialize (IH Hy). lia. }
  apply NoDup_cons in Hnd as [Hx Hnd]. simpl. specialize (Hf x) as Hfx.
  apply elem_of_cons in Ha as [->|Ha], Hb as [->|Hb]; try done.
  - specialize (H1' _ _ Hb). lia.
  - specialize (H1' _ _ Ha). lia.
  - specialize (IH Hnd Ha Hb Hne). lia.
Qed.

(** C1: the units of a semaphore are conserved: whatever the threads of the
    system do and whenever the tick interrupts them, the count, the units
    taken and those handed to a woken thread add up to the initial count;
    every thread is ready or in the wait queue, and one waits only while the
    count is 0. *)
Theorem sem_units_conserved N σ0 rs0 Q0 σ :
  boot N σ0 rs0 Q0 → reachable σ0 σ →
  count (sem (sk σ) s) + units_held σ = N ∧
  sum_of (λ t, Z.of_nat (held (st σ t))) (elements T) <= N ∧
  ∃ rs ts Q ws, Inv F (sk σ) T rs ts Q ∧ runs (current (sk σ)) rs ∧ Q !! sem_waitqueue s = Some ws ∧
    (∀ t, t ∈ T → t ∈ rs ∨ t ∈ ws) ∧ (ws ≠ [] → count (sem (sk σ) s) = 0).
Proof.
  intros Hb Hr. pose proof (reachable_good N _ _ (boot_good _ _ _ _ Hb) Hr) as (rs&ts&Q&ws&Hg).
  pose proof (g_total _ _ _ _ _ _ Hg) as Ht. pose proof (g_sem _ _ _ _ _ _ Hg) as [Hc _ Hw].
  split; [done|]. split; [pose proof (sum_of_held σ); lia|]. exists rs, ts, Q, ws.
  split_and!; apply Hg || exact Hw.
Qed.

(** C2: a semaphore of one unit is a lock: no two threads hold it at the same
    time in any reachable state. *)
Theorem sem_mutual_exclusion σ0 rs0 Q0 σ t u :
  boot 1 σ0 rs0 Q0 → reachable σ0 σ → t ∈ T → u ∈ T → t ≠ u →
  ¬ ((0 < held (st σ t))%nat ∧ (0 < held (st σ u))%nat).
Proof.
  intros Hb Hr Ht Hu Hne [H1' H2'].
  pose proof (reachable_good 1 _ _ (boot_good _ _ _ _ Hb) Hr) as (rs&ts&Q&ws&Hg).
  pose proof (g_total _ _ _ _ _ _ Hg) as E. pose proof (g_sem _ _ _ _ _ _ Hg) as [Hc _ _].
  pose proof (sum_of_two (λ t, Z.of_nat (held (st σ t))) (elements T) t u) as H2. cbv beta in H2.
  pose proof (sum_of_held σ).
  assert (Z.of_nat (held (st σ t)) + Z.of_nat (held (st σ u)) <= sum_of (λ t, Z.of_nat (held (st σ t))) (elements T)).
  { apply H2; [intros; lia|apply NoDup_elements|by apply elem_of_elements|by apply elem_of_elements|done]. }
  lia.
Qed.

(** C3: the system never stops: in every reachable state the thread that runs
    can take a step, and every step it may take is carried out without a
    fault and without exhausting a loop. *)
Theorem system_progress N σ0 rs0 Q0 σ :
  boot N σ0 rs0 Q0 → reachable σ0 σ →
  (∃ a, enabled a σ) ∧ (∀ a, enabled a σ → ∃ σ', sys_step a σ = Some σ' ∧ reachable σ0 σ').
Proof.
  intros Hb Hr. pose proof (reachable_good N _ _ (boot_good _ _ _ _ Hb) Hr) as Hg. split.
  - unfold enabled. destruct (st σ (current (sk σ))); [by exists Tick|by exists Resume|by exists Resume].
  - intros a He. destruct (step_good N σ a Hg He) as (σ'&E&_). exists σ'. split; [done|]. by eapply reach_step.
Qed.

(** C4: the structures of the kernel are well formed in every reachable state and
    agree with the states of the threads: the run queue is a ring of
    [ready_count] distinct threads, at most 255, whose first is the running
    one unless the idle thread runs; the delays of the time queue are not
    negative and add up to 16 bits; a thread is either READY and in the run
    queue, or PENDING and in the wait queue of the semaphore, and then the flag of
    its timeout is set if it is in the time queue and only then. *)
Theorem threads_well_formed N σ0 rs0 Q0 σ : boot N σ0 rs0 Q0 → reachable σ0 σ →
  let k := sk σ in
  ∃ rs ts ws, rq_ok (links k) (run_queue k) rs ∧ NoDup rs ∧ ready_count k = Z.of_nat (length rs) ∧ (length rs < 256)%nat ∧
    runs (current k) rs ∧ tq_rep (links k) z_timeouts_queue (tq_items ts) ∧ delta_ok ts ∧
    ring (links k) (sem_waitqueue s) (thread_wqh <$> ws) ∧
    ∀ t, t ∈ T →
      (t ∈ rs ∧ t ∉ ws ∧ t ∉ ts.*1 ∧ z_get_thread_state k t = Z_THREAD_STATE_READY) ∨
      (t ∈ ws ∧ t ∉ rs ∧ z_get_thread_state k t = Z_THREAD_STATE_PENDING ∧
       (t ∈ ts.*1 ↔ Z.land (flags (thr k t)) Z_THREAD_WAKEUP_SCHED_MSK ≠ 0)).
Proof.
  intros Hb Hr k. pose proof (reachable_good N _ _ (boot_good _ _ _ _ Hb) Hr) as (rs&ts&Q&ws&Hg).
  pose proof (g_inv _ _ _ _ _ _ Hg) as Hi. pose proof (inv_links _ _ _ _ _ _ _ Hi) as Hl. exists rs, ts, ws.
  split_and!; try apply Hl; try apply Hi; [|apply Hg|apply Hg|].
  - pose proof (inv_count _ _ _ _ _ _ _ Hi). pose proof (inv_size _ _ _ _ _ _ _ Hi).
    enough (length rs <= size T)%nat by lia. change (size T) with (length (elements T)). apply submseteq_length, NoDup_submseteq.
    + by eapply lk_run_nd.
    + intros t Ht. apply elem_of_elements. by eapply lk_rs_T.
  - intros t Ht. destruct (inv_flags _ _ _ _ _ _ _ Hi t Ht) as (Hready&Htimed&Hpend); [done|].
    destruct (g_all _ _ _ _ _ _ Hg t Ht) as [Hin|Hin].
    + left. split_and!; [done| |by eapply lk_rs_ts|by apply Hready].
      intros Hw. by destruct (good_waiting _ _ _ _ _ _ _ Hg Hw).
    + right. split_and!; [done|by eapply good_waiting|apply Hpend; right; exists (sem_waitqueue s), ws; split; [apply Hg|done]|done].
Qed.
End System.

(** ** Three threads and a semaphore of one unit *)

Definition w_sys : sys :=
  {| sk := w_sem 1 w_ready; st := λ t, if decide (t = t1) then User 0 else starting |}.

Lemma w_quiet root : root ∉ w_heads → root ≠ NULL → tq_node root ∉ w_heads → tq_node root ≠ NULL →
  tq_node root ≠ tq_node z_timeouts_queue → tq_node root ∉ thread_tie <$> [t1; t2; t3] →
  tq_node root ∉ thread_wqh <$> [t1; t2; t3] → rd1 w_F (tq_node root) = NULL → quiet w_F w_T (dom w_Q) root.
Proof. intros. split; [|done]. by apply w_foreign. Qed.

Lemma w_timers_quiet : CONFIG_KERNEL_TIMERS = true → quiet w_F w_T (dom w_Q) z_timers_runqueue.
Proof. intros _. apply w_quiet; try done; vm_compute; set_solver. Qed.
Lemma w_events_quiet : CONFIG_KERNEL_EVENTS = true → quiet w_F w_T (dom w_Q) z_event_q.
Proof. intros _. apply w_quiet; try done; vm_compute; set_solver. Qed.

Lemma w_boot : boot w_F w_T (dom w_Q) (w_obj 2) 1 w_sys [t1; t3; t2] w_Q.
Proof.
  split; try done.
  - apply Inv_upd_sem, w_ready_inv.
  - right. by eexists.
  - intros t [->|[->| ->]]%w_T_cases; set_solver.
Qed.

(** The first thread takes the unit, the tick preempts it, and the next one
    waits for the unit. *)
Definition w_actions : list action := [Take K_FOREVER; Tick; Resume; Take 5].

Definition w_enabled (a : action) (σ : sys) : bool :=
  match a, st σ (current (sk σ)) with
  | Take t, User _ => bool_decide (current (sk σ) ≠ z_thread_idle) && (0 <=? t) && (t <? 65536)
  | Give, User h => (0 <? h)%nat
  | Yield, User _ | Tick, User _ | Resume, Paused _ _ | Resume, Taking _ _ => true
  | _, _ => false
  end.
Lemma w_enabled_ok a σ : w_enabled a σ = true → enabled a σ.
Proof.
  unfold w_enabled, enabled. destruct a, (st σ (current (sk σ))); try done.
  - intros [[H1%bool_decide_eq_true H2%Z.leb_le]%andb_true_iff H3%Z.ltb_lt]%andb_true_iff. done.
  - by intros ?%Nat.ltb_lt.
Qed.

Fixpoint w_runs (l : list action) (σ : sys) : option sys :=
  match l with
  | [] => Some σ
  | a :: l => if w_enabled a σ then σ ← sys_step (w_obj 2) a σ; w_runs l σ else None
  end.
Lemma w_runs_reachable l σ0 σ σ' : reachable (w_obj 2) σ0 σ → w_runs l σ = Some σ' → reachable (w_obj 2) σ0 σ'.
Proof.
  revert σ. induction l as [|a l IH]; intros σ Hr E; simpl in E; [by injection E as ->|].
  destruct (w_enabled a σ) eqn:Ea; [|done]. destruct (sys_step (w_obj 2) a σ) as [σ1|] eqn:E1; [|done].
  eapply IH; [|exact E]. eapply reach_step; [exact Hr|by apply w_enabled_ok|exact E1].
Qed.

Definition w_after (l : list action) : sys := default w_sys (w_runs l w_sys).
Definition w_can (l : list action) : bool := match w_runs l w_sys with Some _ => true | None => false end.
Lemma w_after_reachable l : w_can l = true → reachable (w_obj 2) w_sys (w_after l).
Proof.
  unfold w_can. destruct (w_runs l w_sys) as [σ|] eqn:E; [|done]. intros _.
  eapply w_runs_reachable; [apply reach_init|]. unfold w_after. by rewrite E.
Qed.

Lemma w_ticks : 0 <= Z_KERNEL_TIME_SLICE_TICKS < 65536.
Proof. vm_compute. split; [discriminate|reflexivity]. Qed.

Lemma sem_units_conserved_witness :
  let σ := w_after w_actions in
  held (st σ t1) = 1%nat ∧ count (sem (sk σ) (w_obj 2)) + units_held w_T σ = 1.
Proof.
  split.
  - vm_compute. reflexivity.
  - refine (proj1 (sem_units_conserved w_F w_T (dom w_Q) (w_obj 2) w_ticks w_timers_quiet w_events_quiet ltac:(done)
      eq_refl 1 w_sys _ _ (w_after w_actions) w_boot _)).
    apply w_after_reachable. vm_compute. reflexivity.
Defined.

Lemma sem_mutual_exclusion_witness :
  let σ := w_after w_actions in
  held (st σ t1) = 1%nat ∧ ¬ ((0 < held (st σ t1))%nat ∧ (0 < held (st σ t3))%nat).
Proof.
  split; [vm_compute; reflexivity|].
  apply (sem_mutual_exclusion w_F w_T (dom w_Q) (w_obj 2) w_ticks w_timers_quiet w_events_quiet ltac:(done)
    eq_refl w_sys [t1; t3; t2] w_Q (w_after w_actions) t1 t3 w_boot).
  - apply w_after_reachable. vm_compute. reflexivity.
  - set_solver.
  - set_solver.
  - discriminate.
Defined.

Lemma system_progress_witness :
  ∃ σ', sys_step (w_obj 2) Resume (w_after w_actions) = Some σ' ∧ reachable (w_obj 2) w_sys σ'.
Proof.
  refine (proj2 (system_progress w_F w_T (dom w_Q) (w_obj 2) w_ticks w_timers_quiet w_events_quiet ltac:(done)
    eq_refl 1 w_sys [t1; t3; t2] w_Q (w_after w_actions) w_boot _) Resume _).
  - apply w_after_reachable. vm_compute. reflexivity.
  - apply w_enabled_ok. vm_compute. reflexivity.
Defined.

Lemma threads_well_formed_witness :
  let σ := w_after w_actions in
  current (sk σ) = t1 ∧ ∃ rs, rq_ok (links (sk σ)) (run_queue (sk σ)) rs ∧ ready_count (sk σ) = Z.of_nat (length rs).
Proof.
  split; [vm_compute; reflexivity|].
  destruct (threads_well_formed w_F w_T (dom w_Q) (w_obj 2) w_ticks w_timers_quiet w_events_quiet ltac:(done)
    eq_refl 1 w_sys [t1; t3; t2] w_Q (w_after w_actions) w_boot) as (rs&_&_&H1&_&H2&_).
  - apply w_after_reachable. vm_compute. reflexivity.
  - exists rs. by split.
Defined.
