(* ===== verification/Gpio.v ===== *)
(** * General purpose input/output (drivers/gpio.h, drivers/gpio.c)

    A port is three 8-bit registers; the functions are translated on the
    registers of one port.  What the pins do with them is the hardware's. *)

From S2P Require Import Prelude Atomic.

Record GPIO_Device := { PIN : Z; DDR : Z; PORT : Z }.

Definition GPIO_INPUT : Z := 0.
Definition GPIO_OUTPUT : Z := 1.
Definition GPIO_INPUT_NO_PULLUP : Z := 0.
Definition GPIO_INPUT_PULLUP : Z := 1.

Definition with_PIN (v : Z) (g : GPIO_Device) : GPIO_Device := {| PIN := v; DDR := DDR g; PORT := PORT g |}.
Definition with_DDR (v : Z) (g : GPIO_Device) : GPIO_Device := {| PIN := PIN g; DDR := v; PORT := PORT g |}.
Definition with_PORT (v : Z) (g : GPIO_Device) : GPIO_Device := {| PIN := PIN g; DDR := DDR g; PORT := v |}.

Definition gpiol_init (dir_mask pullup_mask : Z) (g : GPIO_Device) : GPIO_Device :=
  with_PORT pullup_mask (with_DDR dir_mask g).

Definition gpiol_pin_init (pin dir pullup : Z) (g : GPIO_Device) : GPIO_Device :=
  let g := if pullup =? GPIO_INPUT_NO_PULLUP
           then with_PORT (u8 (Z.land (PORT g) (Z.lnot (BIT pin)))) g
           else with_PORT (u8 (Z.lor (PORT g) (BIT pin))) g in
  if dir =? GPIO_INPUT
  then with_DDR (u8 (Z.land (DDR g) (Z.lnot (BIT pin)))) g
  else with_DDR (u8 (Z.lor (DDR g) (BIT pin))) g.

(** [(r & ~BIT(pin)) | ((v & 1u) << pin)] *)
Definition put_bit (r pin v : Z) : Z :=
  u8 (Z.lor (Z.land r (Z.lnot (BIT pin))) (Z.shiftl (Z.land v 1) pin)).
Definition get_bit (r pin : Z) : Z := Z.land (Z.shiftr r pin) 1.

Definition gpiol_pin_set_direction (pin direction : Z) (g : GPIO_Device) : GPIO_Device :=
  with_DDR (put_bit (DDR g) pin direction) g.
Definition gpiol_pin_get_direction (pin : Z) (g : GPIO_Device) : Z := get_bit (DDR g) pin.
Definition gpiol_pin_set_pullup (pin pullup : Z) (g : GPIO_Device) : GPIO_Device :=
  with_PORT (put_bit (PORT g) pin pullup) g.
Definition gpiol_pin_write_state (pin state : Z) (g : GPIO_Device) : GPIO_Device :=
  with_PORT (put_bit (PORT g) pin state) g.
Definition gpiol_pin_toggle (pin : Z) (g : GPIO_Device) : GPIO_Device := with_PIN (u8 (BIT pin)) g.
Definition gpiol_pin_read_state (pin : Z) (g : GPIO_Device) : Z := get_bit (PIN g) pin.

(** gpio.c *)
Definition gpio_init := gpiol_init.
Definition gpio_pin_init := gpiol_pin_init.
Definition gpio_pin_set_direction := gpiol_pin_set_direction.
Definition gpio_pin_get_direction := gpiol_pin_get_direction.
Definition gpio_pin_set_pullup := gpiol_pin_set_pullup.
Definition gpio_pin_write_state := gpiol_pin_write_state.
Definition gpio_pin_toggle := gpiol_pin_toggle.
Definition gpio_pin_read_state := gpiol_pin_read_state.

(** ** One pin at a time *)

Lemma testbit_u8 v n : 0 <= n < 8 → Z.testbit (u8 v) n = Z.testbit v n.
Proof.
  intros Hn. unfold u8. change 256 with (2 ^ 8). rewrite Z.mod_pow2_bits_low by lia. done.
Qed.

Lemma put_bit_spec r pin v n : 0 <= pin < 8 → 0 <= n < 8 →
  Z.testbit (put_bit r pin v) n = if n =? pin then Z.testbit v 0 else Z.testbit r n.
Proof.
  intros Hp Hn. unfold put_bit, BIT. rewrite testbit_u8, Z.lor_spec, Z.land_spec, Z.lnot_spec, !Z.shiftl_spec by lia.
  change 1 with (Z.ones 1). rewrite Z.land_spec.
  destruct (Z.eqb_spec n pin) as [->|Hne].
  - rewrite Z.sub_diag, Z.ones_spec_low, andb_false_r, andb_true_r by lia. done.
  - destruct (Z.lt_ge_cases n pin).
    + rewrite !(Z.testbit_neg_r _ (n - pin)) by lia. cbn. by rewrite andb_true_r, orb_false_r.
    + rewrite !Z.ones_spec_high by lia. cbn. by rewrite andb_false_r, andb_true_r, orb_false_r.
Qed.

Lemma get_bit_spec r pin : 0 <= pin → get_bit r pin = Z.b2z (Z.testbit r pin).
Proof.
  intros Hp. unfold get_bit. change 1 with (Z.ones 1). rewrite Z.land_ones by lia. change (2 ^ 1) with 2.
  rewrite <- Z.bit0_mod. by rewrite Z.shiftr_spec.
Qed.

(** The operations on a pin of a port read back, and change no other pin and
    no other register. *)
Theorem gpio_pin_operations g pin v n :
  0 <= pin < 8 → 0 <= n < 8 →
  let w := gpio_pin_write_state pin v g in
  let d := gpio_pin_set_direction pin v g in
  Z.testbit (PORT w) n = (if n =? pin then Z.testbit v 0 else Z.testbit (PORT g) n) ∧
  DDR w = DDR g ∧ PIN w = PIN g ∧
  gpio_pin_get_direction n d = (if n =? pin then v mod 2 else gpio_pin_get_direction n g) ∧
  PORT d = PORT g ∧ PIN d = PIN g.
Proof.
  intros Hp Hn. cbv zeta. split_and!; try done.
  - by apply put_bit_spec.
  - unfold gpio_pin_get_direction, gpiol_pin_get_direction. rewrite !get_bit_spec by lia.
    change (DDR (gpio_pin_set_direction pin v g)) with (put_bit (DDR g) pin v). rewrite put_bit_spec by done.
    destruct (n =? pin); [|done]. rewrite <- Z.bit0_mod. done.
Qed.
Lemma gpio_pin_operations_witness :
  let g := {| PIN := 0; DDR := 0xF0; PORT := 0x0F |} in
  Z.testbit (PORT (gpio_pin_write_state 5 1 g)) 5 = true ∧ gpio_pin_get_direction 7 (gpio_pin_set_direction 5 0 g) = 1.
Proof.
  set (g := {| PIN := 0; DDR := 0xF0; PORT := 0x0F |}). cbv zeta. split.
  - exact (proj1 (gpio_pin_operations g 5 1 5 ltac:(lia) ltac:(lia))).
  - destruct (gpio_pin_operations g 5 0 7 ltac:(lia) ltac:(lia)) as (_&_&_&E&_). exact E.
Defined.
