(* ===== verification/I2c.v ===== *)
(** * I2C master (drivers/i2c.c)

    The driver is a state machine over the status the TWI peripheral reports.
    The peripheral and the devices on the bus are a parameter: [twi_next] gives
    the registers once the peripheral has carried out the last command and set
    TWINT again. *)

From S2P Require Import Prelude Types Bytes World Atomic Gpio.

(** ** Registers and constants *)

Record I2C_Device := { TWBRn : Z; TWSRn : Z; TWARn : Z; TWDRn : Z; TWCRn : Z; TWAMRn : Z }.

Definition with_TWBR (v : Z) (r : I2C_Device) : I2C_Device :=
  {| TWBRn := v; TWSRn := TWSRn r; TWARn := TWARn r; TWDRn := TWDRn r; TWCRn := TWCRn r; TWAMRn := TWAMRn r |}.
Definition with_TWSR (v : Z) (r : I2C_Device) : I2C_Device :=
  {| TWBRn := TWBRn r; TWSRn := v; TWARn := TWARn r; TWDRn := TWDRn r; TWCRn := TWCRn r; TWAMRn := TWAMRn r |}.
Definition with_TWAR (v : Z) (r : I2C_Device) : I2C_Device :=
  {| TWBRn := TWBRn r; TWSRn := TWSRn r; TWARn := v; TWDRn := TWDRn r; TWCRn := TWCRn r; TWAMRn := TWAMRn r |}.
Definition with_TWDR (v : Z) (r : I2C_Device) : I2C_Device :=
  {| TWBRn := TWBRn r; TWSRn := TWSRn r; TWARn := TWARn r; TWDRn := v; TWCRn := TWCRn r; TWAMRn := TWAMRn r |}.
Definition with_TWCR (v : Z) (r : I2C_Device) : I2C_Device :=
  {| TWBRn := TWBRn r; TWSRn := TWSRn r; TWARn := TWARn r; TWDRn := TWDRn r; TWCRn := v; TWAMRn := TWAMRn r |}.
Definition with_TWAMR (v : Z) (r : I2C_Device) : I2C_Device :=
  {| TWBRn := TWBRn r; TWSRn := TWSRn r; TWARn := TWARn r; TWDRn := TWDRn r; TWCRn := TWCRn r; TWAMRn := v |}.

(** <util/twi.h> and the bits of TWCR *)
Definition TW_STATUS_MASK : Z := 0xF8.
Definition TW_START : Z := 0x08.
Definition TW_REP_START : Z := 0x10.
Definition TW_MT_SLA_ACK : Z := 0x18.
Definition TW_MT_SLA_NACK : Z := 0x20.
Definition TW_MT_DATA_ACK : Z := 0x28.
Definition TW_MT_DATA_NACK : Z := 0x30.
Definition TW_MT_ARB_LOST : Z := 0x38.
Definition TW_MR_SLA_ACK : Z := 0x40.
Definition TW_MR_SLA_NACK : Z := 0x48.
Definition TW_MR_DATA_ACK : Z := 0x50.
Definition TW_MR_DATA_NACK : Z := 0x58.
Definition TW_READ : Z := 1.
Definition TW_WRITE : Z := 0.
Definition TWINT : Z := 7.
Definition TWEA : Z := 6.
Definition TWSTA : Z := 5.
Definition TWSTO : Z := 4.
Definition TWEN : Z := 2.
Definition TWIE : Z := 0.

Class I2cConfig := {
  CONFIG_I2C_INTERRUPT_DRIVEN : bool;
  CONFIG_I2C_BLOCKING : bool;
  CONFIG_I2C_LAST_ERROR : bool;
  CONFIG_I2C_MAX_BUF_LEN_BITS : Z;
  I2C0_DEVICE_ENABLED : bool;
  I2C1_DEVICE_ENABLED : bool;
  MCU_I2C_COUNT : Z;
  PRTWI0 : Z;
  PRTWI1 : Z;
}.

(** The peripheral and what is on its bus. *)
Class Twi (B : Type) := twi_next : I2C_Device → B → I2C_Device * B.

Inductive i2c_state_t := UNINITIALIZED | READY | MASTER_TX | MASTER_RX.
#[export] Instance i2c_state_eq_dec : EqDecision i2c_state_t.
Proof. solve_decision. Defined.

Definition I2C_ERROR_NONE : Z := 0.
Definition I2C_ERROR_BUS : Z := 1.
Definition I2C_ERROR_ADDR : Z := 2.
Definition I2C_ERROR_DATA : Z := 3.
Definition I2C_ERROR_ARGS : Z := 4.

Record i2c_context := {
  x_buf : word; sla_w : Z; cursor : Z; state : i2c_state_t; write_len : Z; read_len : Z; x_error : Z;
}.
Definition with_sla_w (v : Z) (x : i2c_context) : i2c_context :=
  {| x_buf := x_buf x; sla_w := v; cursor := cursor x; state := state x; write_len := write_len x;
     read_len := read_len x; x_error := x_error x |}.
Definition with_cursor (v : Z) (x : i2c_context) : i2c_context :=
  {| x_buf := x_buf x; sla_w := sla_w x; cursor := v; state := state x; write_len := write_len x;
     read_len := read_len x; x_error := x_error x |}.
Definition with_state (v : i2c_state_t) (x : i2c_context) : i2c_context :=
  {| x_buf := x_buf x; sla_w := sla_w x; cursor := cursor x; state := v; write_len := write_len x;
     read_len := read_len x; x_error := x_error x |}.
Definition with_error (v : Z) (x : i2c_context) : i2c_context :=
  {| x_buf := x_buf x; sla_w := sla_w x; cursor := cursor x; state := state x; write_len := write_len x;
     read_len := read_len x; x_error := v |}.

Section I2c.
Context `{Config, I2cConfig} {B : Type} `{Twi B}.

(** The driver's state: the registers by the address of the device, the
    contexts by index, the memory, the ports, the power registers and the bus. *)
Record i2c_sys := {
  i2c_regs : gmap Z I2C_Device; i2c_contexts : gmap Z i2c_context; i2c_mem : bmem;
  i2c_ports : gmap Z GPIO_Device; PRR0 : Z; PRR1 : Z; i2c_bus : B;
}.

#[global] Instance I2C_Device_inhabited : Inhabited I2C_Device :=
  populate {| TWBRn := 0; TWSRn := 0; TWARn := 0; TWDRn := 0; TWCRn := 0; TWAMRn := 0 |}.
#[global] Instance i2c_context_inhabited : Inhabited i2c_context :=
  populate {| x_buf := NULL; sla_w := 0; cursor := 0; state := UNINITIALIZED; write_len := 0; read_len := 0; x_error := 0 |}.
#[global] Instance GPIO_Device_inhabited : Inhabited GPIO_Device := populate {| PIN := 0; DDR := 0; PORT := 0 |}.

Definition dev_of (s : i2c_sys) (dev : Z) : I2C_Device := i2c_regs s !!! dev.
Definition ctx_of (s : i2c_sys) (i : Z) : i2c_context := i2c_contexts s !!! i.
Definition upd_dev (dev : Z) (f : I2C_Device → I2C_Device) (s : i2c_sys) : i2c_sys :=
  {| i2c_regs := <[dev := f (dev_of s dev)]> (i2c_regs s); i2c_contexts := i2c_contexts s; i2c_mem := i2c_mem s;
     i2c_ports := i2c_ports s; PRR0 := PRR0 s; PRR1 := PRR1 s; i2c_bus := i2c_bus s |}.
Definition upd_ctx (i : Z) (f : i2c_context → i2c_context) (s : i2c_sys) : i2c_sys :=
  {| i2c_regs := i2c_regs s; i2c_contexts := <[i := f (ctx_of s i)]> (i2c_contexts s); i2c_mem := i2c_mem s;
     i2c_ports := i2c_ports s; PRR0 := PRR0 s; PRR1 := PRR1 s; i2c_bus := i2c_bus s |}.
Definition upd_i2c_mem (f : bmem → bmem) (s : i2c_sys) : i2c_sys :=
  {| i2c_regs := i2c_regs s; i2c_contexts := i2c_contexts s; i2c_mem := f (i2c_mem s);
     i2c_ports := i2c_ports s; PRR0 := PRR0 s; PRR1 := PRR1 s; i2c_bus := i2c_bus s |}.
Definition upd_port (p : Z) (f : GPIO_Device → GPIO_Device) (s : i2c_sys) : i2c_sys :=
  {| i2c_regs := i2c_regs s; i2c_contexts := i2c_contexts s; i2c_mem := i2c_mem s;
     i2c_ports := <[p := f (i2c_ports s !!! p)]> (i2c_ports s); PRR0 := PRR0 s; PRR1 := PRR1 s; i2c_bus := i2c_bus s |}.
Definition set_PRR (p0 p1 : Z) (s : i2c_sys) : i2c_sys :=
  {| i2c_regs := i2c_regs s; i2c_contexts := i2c_contexts s; i2c_mem := i2c_mem s;
     i2c_ports := i2c_ports s; PRR0 := p0; PRR1 := p1; i2c_bus := i2c_bus s |}.

(** The peripheral of [dev] carries out its command. *)
Definition hw_step (dev : Z) (s : i2c_sys) : i2c_sys :=
  let '(r, b) := twi_next (dev_of s dev) (i2c_bus s) in
  {| i2c_regs := <[dev := r]> (i2c_regs s); i2c_contexts := i2c_contexts s; i2c_mem := i2c_mem s;
     i2c_ports := i2c_ports s; PRR0 := PRR0 s; PRR1 := PRR1 s; i2c_bus := b |}.

(** ** Devices *)

Definition I2C0_BASE_ADDR : Z := 0xB8.
Definition I2C1_BASE_ADDR : Z := 0xD8.
Definition I2C0_INDEX : Z := 0.
Definition I2C1_INDEX : Z := if MCU_I2C_COUNT =? 1 then 0 else 1.
Definition GPIOC_ADDR : Z := 0x26.
Definition GPIOE_ADDR : Z := 0x2C.

Definition i2c_get_device_index (dev : Z) : Z :=
  if I2C0_DEVICE_ENABLED && (dev =? I2C0_BASE_ADDR) then I2C0_INDEX
  else if I2C1_DEVICE_ENABLED && (dev =? I2C1_BASE_ADDR) then I2C1_INDEX
  else - EBADF.

(** [NULL] is [None]; what the code finds at [NULL] is the context of index [-1]. *)
Definition i2c_get_context (dev : Z) : option Z :=
  let index := i2c_get_device_index dev in if index <? 0 then None else Some index.

Definition is_ctx (x : option Z) : bool := if x is Some _ then true else false.

Definition prr_enable (dev_index : Z) (s : i2c_sys) : i2c_sys :=
  if I2C0_DEVICE_ENABLED && (dev_index =? I2C0_INDEX)
  then set_PRR (u8 (Z.land (PRR0 s) (Z.lnot (BIT PRTWI0)))) (PRR1 s) s
  else if I2C1_DEVICE_ENABLED && (dev_index =? I2C1_INDEX)
  then set_PRR (PRR0 s) (u8 (Z.land (PRR1 s) (Z.lnot (BIT PRTWI1)))) s
  else s.

Definition i2c_gpio_setup (dev_index : Z) (enable : bool) (s : i2c_sys) : i2c_sys :=
  let pullup := if enable then GPIO_INPUT_PULLUP else GPIO_INPUT_NO_PULLUP in
  if I2C0_DEVICE_ENABLED && (dev_index =? I2C0_INDEX) then
    upd_port GPIOC_ADDR (gpiol_pin_init 5 GPIO_INPUT pullup) (upd_port GPIOC_ADDR (gpiol_pin_init 4 GPIO_INPUT pullup) s)
  else if I2C1_DEVICE_ENABLED && (dev_index =? I2C1_INDEX) then
    upd_port GPIOE_ADDR (gpiol_pin_init 1 GPIO_INPUT pullup) (upd_port GPIOE_ADDR (gpiol_pin_init 0 GPIO_INPUT pullup) s)
  else s.

Definition i2c_init (dev prescaler twbr : Z) (s : i2c_sys) : Z * i2c_sys :=
  let dev_index := i2c_get_device_index dev in
  if dev_index <? 0 then (- EINVAL, s)
  else
    let s := upd_dev dev (with_TWCR 0) s in
    let s := upd_dev dev (λ r, with_TWAMR 0 (with_TWAR 0 (with_TWBR twbr (with_TWSR prescaler r)))) s in
    let s := prr_enable dev_index s in
    let s := i2c_gpio_setup dev_index true s in
    let s := upd_dev dev (with_TWCR (Z.lor (BIT TWINT) (BIT TWEN))) s in
    (0, upd_ctx dev_index (with_state READY) s).

Definition i2c_deinit (dev : Z) (s : i2c_sys) : Z * i2c_sys :=
  let dev_index := i2c_get_device_index dev in
  if dev_index <? 0 then (- EINVAL, s)
  else if decide (state (ctx_of s dev_index) ≠ READY) then (- EBUSY, s)
  else
    let s := upd_dev dev (λ r, with_TWAMR 0 (with_TWDR 1 (with_TWAR 2 (with_TWSR 0 (with_TWBR 0 (with_TWCR 0 r)))))) s in
    let s := i2c_gpio_setup dev_index false s in
    (0, upd_ctx dev_index (with_state UNINITIALIZED) s).

(** ** Transfers *)

(** The fields [cursor], [write_len] and [read_len] have
    [CONFIG_I2C_MAX_BUF_LEN_BITS] bits. *)
Definition i2c_len (v : Z) : Z := v mod 2 ^ CONFIG_I2C_MAX_BUF_LEN_BITS.
Definition I2C_MAX_BUF_LEN : Z := 2 ^ CONFIG_I2C_MAX_BUF_LEN_BITS - 1.

Definition TWI_INT_MASK : Z := if CONFIG_I2C_INTERRUPT_DRIVEN then BIT TWIE else 0.
Definition TWI_ENABLE_MASK : Z := Z.lor (Z.lor (BIT TWINT) (BIT TWEN)) TWI_INT_MASK.
Definition TWI_START (dev : Z) : i2c_sys → i2c_sys := upd_dev dev (with_TWCR (Z.lor TWI_ENABLE_MASK (BIT TWSTA))).
Definition TWI_STOP (dev : Z) : i2c_sys → i2c_sys := upd_dev dev (with_TWCR (Z.lor TWI_ENABLE_MASK (BIT TWSTO))).
Definition TWI_REPLY (dev : Z) (ack : bool) : i2c_sys → i2c_sys :=
  upd_dev dev (with_TWCR (Z.lor TWI_ENABLE_MASK (if ack then BIT TWEA else 0))).

Definition set_error (i err : Z) (s : i2c_sys) : i2c_sys :=
  if CONFIG_I2C_LAST_ERROR then upd_ctx i (with_error err) s else s.
Definition get_error (i : Z) (s : i2c_sys) : Z :=
  if CONFIG_I2C_LAST_ERROR then x_error (ctx_of s i) else I2C_ERROR_NONE.

Definition transfer_stop (dev i : Z) (s : i2c_sys) : i2c_sys := upd_ctx i (with_state READY) (TWI_STOP dev s).

Definition incr_cursor (i : Z) (s : i2c_sys) : i2c_sys := upd_ctx i (λ x, with_cursor (i2c_len (cursor x + 1)) x) s.

(** [x->buf[x->cursor++] = dev->TWDRn] *)
Definition store_data (dev i : Z) (s : i2c_sys) : i2c_sys :=
  let x := ctx_of s i in
  let s := incr_cursor i s in
  upd_i2c_mem (λ m, <[ptr_add (x_buf x) (cursor x) := TWDRn (dev_of s dev)]> m) s.

(** The branch of [TW_MT_SLA_ACK]. *)
Definition send_next (dev i : Z) (s : i2c_sys) : i2c_sys :=
  let x := ctx_of s i in
  if cursor x <? write_len x then
    let s := incr_cursor i s in
    let s := upd_dev dev (with_TWDR (rdb (i2c_mem s) (ptr_add (x_buf x) (cursor x)))) s in
    TWI_REPLY dev true s
  else if negb (read_len x =? 0) then
    let s := upd_ctx i (with_state MASTER_RX) s in
    let s := upd_ctx i (with_cursor 0) s in
    let s := upd_ctx i (λ x, with_sla_w (Z.lor (Z.land (sla_w x) (Z.lnot TW_WRITE)) TW_READ) x) s in
    TWI_START dev s
  else transfer_stop dev i s.

(** The branch of [TW_MR_SLA_ACK]. *)
Definition reply_next (dev i : Z) (s : i2c_sys) : i2c_sys :=
  let x := ctx_of s i in TWI_REPLY dev (1 <? read_len x - cursor x) s.

Definition i2c_state_machine (dev i : Z) (s : i2c_sys) : i2c_sys :=
  let status := Z.land (TWSRn (dev_of s dev)) TW_STATUS_MASK in
  if (status =? TW_START) || (status =? TW_REP_START) then
    TWI_REPLY dev true (upd_dev dev (with_TWDR (sla_w (ctx_of s i))) s)
  else if status =? TW_MT_DATA_ACK then send_next dev i (incr_cursor i s)
  else if status =? TW_MT_SLA_ACK then send_next dev i s
  else if status =? TW_MR_DATA_ACK then reply_next dev i (store_data dev i s)
  else if status =? TW_MR_SLA_ACK then reply_next dev i s
  else if status =? TW_MR_DATA_NACK then transfer_stop dev i (store_data dev i s)
  else if (status =? TW_MT_SLA_NACK) || (status =? TW_MT_DATA_NACK) then
    transfer_stop dev i (set_error i (if status =? TW_MT_SLA_NACK then I2C_ERROR_ADDR else I2C_ERROR_DATA) s)
  else if status =? TW_MT_ARB_LOST then TWI_START dev s
  else if status =? TW_MR_SLA_NACK then transfer_stop dev i (set_error i I2C_ERROR_ADDR s)
  else transfer_stop dev i (set_error i I2C_ERROR_BUS s).

(** The interrupt vectors: both pass the registers of the first device. *)
Definition TWI0_vect (s : i2c_sys) : i2c_sys := i2c_state_machine I2C0_BASE_ADDR I2C0_INDEX s.
Definition TWI1_vect (s : i2c_sys) : i2c_sys := i2c_state_machine I2C0_BASE_ADDR I2C1_INDEX s.

(** [None] when the fuel runs out. *)
Fixpoint i2c_state_machine_loop (fuel : nat) (dev i : Z) (s : i2c_sys) : option i2c_sys :=
  match fuel with
  | O => None
  | S fuel =>
      let s := i2c_state_machine dev i (hw_step dev s) in
      if decide (state (ctx_of s i) ≠ READY) then i2c_state_machine_loop fuel dev i s else Some s
  end.

(** [poll_end] while the interrupts run the state machine. *)
Fixpoint poll_end (fuel : nat) (dev i : Z) (s : i2c_sys) : option i2c_sys :=
  match fuel with
  | O => None
  | S fuel =>
      if decide (state (ctx_of s i) ≠ READY)
      then poll_end fuel dev i ((if dev =? I2C0_BASE_ADDR then TWI0_vect else TWI1_vect) (hw_step dev s))
      else Some s
  end.

Definition i2c_run (fuel : nat) (dev addr : Z) (data : word) (w_len r_len : Z) (s : i2c_sys) : option (Z * i2c_sys) :=
  let x := i2c_get_context dev in
  if negb (z_user (is_ctx x && nonnull data
                   && (w_len <=? I2C_MAX_BUF_LEN) && (r_len <=? I2C_MAX_BUF_LEN))) then Some (- EINVAL, s)
  else
    let i := default (-1) x in
    if decide (state (ctx_of s i) ≠ READY) then Some (- EBUSY, s)
    else
      let rx := w_len =? 0 in
      let s := upd_ctx i (λ x, {| x_buf := data; sla_w := Z.lor (u8 (Z.shiftl addr 1)) (if rx then TW_READ else TW_WRITE);
        cursor := 0; state := if rx then MASTER_RX else MASTER_TX; write_len := i2c_len w_len;
        read_len := i2c_len r_len; x_error := x_error x |}) s in
      let s := set_error i I2C_ERROR_NONE s in
      let s := TWI_START dev s in
      if negb CONFIG_I2C_INTERRUPT_DRIVEN then
        s ← (if I2C0_DEVICE_ENABLED && (dev =? I2C0_BASE_ADDR) then i2c_state_machine_loop fuel I2C0_BASE_ADDR i s
             else if I2C1_DEVICE_ENABLED && (dev =? I2C1_BASE_ADDR) then i2c_state_machine_loop fuel I2C1_BASE_ADDR i s
             else Some s);
        Some (if negb (get_error i s =? I2C_ERROR_NONE) then - EIO else 0, s)
      else if CONFIG_I2C_BLOCKING then
        s ← poll_end fuel dev i s;
        Some (if negb (get_error i s =? I2C_ERROR_NONE) then - EIO else 0, s)
      else Some (0, s).

Definition i2c_master_write (fuel : nat) (dev addr : Z) (data : word) (len : Z) (s : i2c_sys) : option (Z * i2c_sys) :=
  i2c_run fuel dev addr data len 0 s.
Definition i2c_master_read (fuel : nat) (dev addr : Z) (data : word) (len : Z) (s : i2c_sys) : option (Z * i2c_sys) :=
  i2c_run fuel dev addr data 0 len s.
Definition i2c_master_write_read (fuel : nat) (dev addr : Z) (data : word) (wlen rlen : Z) (s : i2c_sys)
  : option (Z * i2c_sys) := i2c_run fuel dev addr data wlen rlen s.

Definition i2c_status (dev : Z) (s : i2c_sys) : Z :=
  let x := i2c_get_context dev in
  if negb (z_user (is_ctx x)) then - EINVAL
  else if decide (state (ctx_of s (default (-1) x)) ≠ READY) then - EBUSY else 0.
Definition i2c_poll_end (fuel : nat) (dev : Z) (s : i2c_sys) : option (Z * i2c_sys) :=
  let x := i2c_get_context dev in
  if negb (z_user (is_ctx x)) then Some (I2C_ERROR_ARGS, s)
  else
    let i := default (-1) x in
    s ← (if CONFIG_I2C_INTERRUPT_DRIVEN then poll_end fuel dev i s else Some s);
    Some (get_error i s, s).
Definition i2c_last_error (dev : Z) (s : i2c_sys) : Z :=
  let x := i2c_get_context dev in
  if negb (z_user (is_ctx x)) then I2C_ERROR_ARGS else get_error (default (-1) x) s.
Definition i2c_calc_config (config : word) (desired_freq : Z) : Z :=
  if negb (z_user (nonnull config)) then - EINVAL else - ENOTSUP.

(** ** What an acknowledging slave does

    The documented behaviour of the peripheral (status codes of the master
    transmitter and receiver modes) with a slave that answers to the address
    [a] and acknowledges every byte: [sent] are the bytes it has received and
    [supply] those it will return. *)
Inductive phase := Free | Started | Writing | Reading.
Definition CR_START : Z := Z.lor TWI_ENABLE_MASK (BIT TWSTA).
Definition CR_STOP : Z := Z.lor TWI_ENABLE_MASK (BIT TWSTO).
Definition CR_REPLY (ack : bool) : Z := Z.lor TWI_ENABLE_MASK (if ack then BIT TWEA else 0).
Definition status_of (r : I2C_Device) : Z := Z.land (TWSRn r) TW_STATUS_MASK.

Class AckingSlave (a : Z) := {
  ph : B → phase;
  sent : B → list Z;
  supply : B → list Z;
  ak_start r b r' b' : TWCRn r = CR_START → twi_next r b = (r', b') →
    (status_of r' = TW_START ∨ status_of r' = TW_REP_START) ∧ ph b' = Started ∧ sent b' = sent b ∧ supply b' = supply b;
  ak_sla_w r b r' b' : ph b = Started → TWCRn r = CR_REPLY true → TWDRn r = 2 * a → twi_next r b = (r', b') →
    status_of r' = TW_MT_SLA_ACK ∧ ph b' = Writing ∧ sent b' = sent b ∧ supply b' = supply b;
  ak_sla_r r b r' b' : ph b = Started → TWCRn r = CR_REPLY true → TWDRn r = 2 * a + 1 → twi_next r b = (r', b') →
    status_of r' = TW_MR_SLA_ACK ∧ ph b' = Reading ∧ sent b' = sent b ∧ supply b' = supply b;
  ak_write r b r' b' : ph b = Writing → TWCRn r = CR_REPLY true → twi_next r b = (r', b') →
    status_of r' = TW_MT_DATA_ACK ∧ ph b' = Writing ∧ sent b' = sent b ++ [TWDRn r] ∧ supply b' = supply b;
  ak_read r b r' b' (ack : bool) v vs : ph b = Reading → TWCRn r = CR_REPLY ack → supply b = v :: vs →
    twi_next r b = (r', b') →
    status_of r' = (if ack then TW_MR_DATA_ACK else TW_MR_DATA_NACK) ∧ TWDRn r' = v ∧
    ph b' = Reading ∧ sent b' = sent b ∧ supply b' = vs;
}.

(** ** Reading the state over updates *)

Lemma dev_upd_dev d f s : dev_of (upd_dev d f s) d = f (dev_of s d).
Proof. unfold dev_of at 1, upd_dev. cbn. by rewrite lookup_total_insert_eq. Qed.
Lemma dev_upd_ctx d i f s : dev_of (upd_ctx i f s) d = dev_of s d.
Proof. done. Qed.
Lemma ctx_upd_ctx i f s : ctx_of (upd_ctx i f s) i = f (ctx_of s i).
Proof. unfold ctx_of at 1, upd_ctx. cbn. by rewrite lookup_total_insert_eq. Qed.
Lemma ctx_upd_dev d i f s : ctx_of (upd_dev d f s) i = ctx_of s i.
Proof. done. Qed.
Lemma hw_step_dev d s r b : twi_next (dev_of s d) (i2c_bus s) = (r, b) →
  dev_of (hw_step d s) d = r ∧ i2c_bus (hw_step d s) = b ∧ i2c_mem (hw_step d s) = i2c_mem s ∧
  i2c_contexts (hw_step d s) = i2c_contexts s.
Proof. intros E. unfold hw_step. rewrite E. split_and!; try done. unfold dev_of. cbn. by rewrite lookup_total_insert_eq. Qed.

(** The steps of the machine on each status of a transfer without errors. *)
Section Steps.
Variables (dev i : Z).

Lemma machine_start s : status_of (dev_of s dev) = TW_START ∨ status_of (dev_of s dev) = TW_REP_START →
  i2c_state_machine dev i s = TWI_REPLY dev true (upd_dev dev (with_TWDR (sla_w (ctx_of s i))) s).
Proof. intros Hs. unfold i2c_state_machine. fold (status_of (dev_of s dev)). by destruct Hs as [-> | ->]. Qed.
Lemma machine_mt_sla s : status_of (dev_of s dev) = TW_MT_SLA_ACK → i2c_state_machine dev i s = send_next dev i s.
Proof. intros Hs. unfold i2c_state_machine. fold (status_of (dev_of s dev)). by rewrite Hs. Qed.
Lemma machine_mt_data s : status_of (dev_of s dev) = TW_MT_DATA_ACK →
  i2c_state_machine dev i s = send_next dev i (incr_cursor i s).
Proof. intros Hs. unfold i2c_state_machine. fold (status_of (dev_of s dev)). by rewrite Hs. Qed.
Lemma machine_mr_sla s : status_of (dev_of s dev) = TW_MR_SLA_ACK → i2c_state_machine dev i s = reply_next dev i s.
Proof. intros Hs. unfold i2c_state_machine. fold (status_of (dev_of s dev)). by rewrite Hs. Qed.
Lemma machine_mr_data s (ack : bool) : status_of (dev_of s dev) = (if ack then TW_MR_DATA_ACK else TW_MR_DATA_NACK) →
  i2c_state_machine dev i s
  = if ack then reply_next dev i (store_data dev i s) else transfer_stop dev i (store_data dev i s).
Proof. intros Hs. unfold i2c_state_machine. fold (status_of (dev_of s dev)). rewrite Hs. by destruct ack. Qed.
Lemma machine_no_slave s : status_of (dev_of s dev) = TW_MT_SLA_NACK ∨ status_of (dev_of s dev) = TW_MR_SLA_NACK →
  i2c_state_machine dev i s = transfer_stop dev i (set_error i I2C_ERROR_ADDR s).
Proof. intros Hs. unfold i2c_state_machine. fold (status_of (dev_of s dev)). by destruct Hs as [-> | ->]. Qed.

(** One turn of the loop. *)
Lemma loop_step fuel s : state (ctx_of (i2c_state_machine dev i (hw_step dev s)) i) ≠ READY →
  i2c_state_machine_loop (S fuel) dev i s = i2c_state_machine_loop fuel dev i (i2c_state_machine dev i (hw_step dev s)).
Proof. intros Hs. cbn [i2c_state_machine_loop]. by rewrite decide_True. Qed.
Lemma loop_end fuel s : state (ctx_of (i2c_state_machine dev i (hw_step dev s)) i) = READY →
  i2c_state_machine_loop (S fuel) dev i s = Some (i2c_state_machine dev i (hw_step dev s)).
Proof. intros Hs. cbn [i2c_state_machine_loop]. rewrite decide_False; [done|]. intros Hn. by apply Hn. Qed.
End Steps.

(** ** A transfer with an acknowledging slave

    [data], [w], [r] and [e] are the fields of the context during the
    transfer, [m] the memory when it starts. *)
Section Transfer.
Context (a : Z) `{!AckingSlave a}.
Variables (dev i : Z) (data : word) (w r e : Z).
Hypothesis (Hw : 0 <= w < I2C_MAX_BUF_LEN) (Hr : 0 <= r <= I2C_MAX_BUF_LEN).

Definition xfer (sla c : Z) (st : i2c_state_t) : i2c_context :=
  {| x_buf := data; sla_w := sla; cursor := c; state := st; write_len := w; read_len := r; x_error := e |}.

Lemma i2c_len_id c : 0 <= c <= I2C_MAX_BUF_LEN → i2c_len c = c.
Proof. unfold i2c_len, I2C_MAX_BUF_LEN. intros Hc. apply Z.mod_small. lia. Qed.

(** The byte of offset [2 j] has been loaded. *)
Record Loaded (m : bmem) (sup : list Z) (j : nat) (l : list Z) (s : i2c_sys) : Prop := {
  ld_lt : 2 * Z.of_nat j < w;
  ld_ctx : ctx_of s i = xfer (2 * a) (2 * Z.of_nat j + 1) MASTER_TX;
  ld_cr : TWCRn (dev_of s dev) = CR_REPLY true;
  ld_dr : TWDRn (dev_of s dev) = rdb m (ptr_add data (2 * Z.of_nat j));
  ld_mem : i2c_mem s = m;
  ld_ph : ph (i2c_bus s) = Writing;
  ld_sent : sent (i2c_bus s) = l;
  ld_sup : supply (i2c_bus s) = sup;
}.

(** [k] bytes have been stored; the next reply has been given. *)
Record Receiving (m : bmem) (k : nat) (l sup : list Z) (s : i2c_sys) : Prop := {
  rc_ctx : ctx_of s i = xfer (2 * a + 1) (Z.of_nat k) MASTER_RX;
  rc_cr : TWCRn (dev_of s dev) = CR_REPLY (1 <? r - Z.of_nat k);
  rc_mem : i2c_mem s = m;
  rc_ph : ph (i2c_bus s) = Reading;
  rc_sent : sent (i2c_bus s) = l;
  rc_sup : supply (i2c_bus s) = sup;
}.

(** The transfer is over. *)
Record Finished (m : bmem) (l sup : list Z) (s : i2c_sys) : Prop := {
  fi_state : state (ctx_of s i) = READY;
  fi_error : x_error (ctx_of s i) = e;
  fi_cr : TWCRn (dev_of s dev) = CR_STOP;
  fi_mem : i2c_mem s = m;
  fi_sent : sent (i2c_bus s) = l;
  fi_sup : supply (i2c_bus s) = sup;
}.

Ltac regs := unfold TWI_REPLY, TWI_START, transfer_stop, TWI_STOP, incr_cursor;
  repeat first [rewrite dev_upd_dev | rewrite dev_upd_ctx | rewrite ctx_upd_ctx | rewrite ctx_upd_dev]; cbn.

Lemma send_next_loads m sup l (j : nat) s :
  ctx_of s i = xfer (2 * a) (2 * Z.of_nat j) MASTER_TX → 2 * Z.of_nat j < w → i2c_mem s = m →
  ph (i2c_bus s) = Writing → sent (i2c_bus s) = l → supply (i2c_bus s) = sup →
  Loaded m sup j l (send_next dev i s).
Proof.
  intros Hc Hj Hm Hp Hl Hs. unfold send_next. rewrite Hc. cbn [cursor write_len x_buf xfer].
  rewrite (proj2 (Z.ltb_lt _ _) Hj). split; regs; rewrite ?Hc, ?Hm; try done.
  unfold xfer. cbn. rewrite i2c_len_id; [done|]. unfold I2C_MAX_BUF_LEN in *. lia.
Qed.

Lemma loaded_step m sup j l s : Loaded m sup j l s → ∃ s',
  i2c_state_machine dev i (hw_step dev s) = send_next dev i s' ∧
  ctx_of s' i = xfer (2 * a) (2 * Z.of_nat (S j)) MASTER_TX ∧ i2c_mem s' = m ∧ ph (i2c_bus s') = Writing ∧
  sent (i2c_bus s') = l ++ [rdb m (ptr_add data (2 * Z.of_nat j))] ∧ supply (i2c_bus s') = sup.
Proof.
  intros [Hj Hc Hcr Hd Hm Hp Hl Hs]. destruct (twi_next (dev_of s dev) (i2c_bus s)) as [r' b'] eqn:E.
  destruct (ak_write _ _ _ _ Hp Hcr E) as (Hst & Hp' & Hl' & Hs').
  destruct (hw_step_dev _ _ _ _ E) as (Er & Eb & Em & Ec).
  exists (incr_cursor i (hw_step dev s)). split; [apply machine_mt_data; by rewrite Er|].
  unfold incr_cursor. rewrite ctx_upd_ctx. unfold ctx_of in Hc |- *. rewrite Ec, Hc. cbn [xfer with_cursor cursor upd_ctx i2c_mem i2c_bus]. rewrite Em, Eb, Hp', Hl', Hs'.
  split_and!; try congruence. unfold xfer, with_cursor. cbn [x_buf sla_w state write_len read_len x_error]. f_equal. rewrite i2c_len_id; [lia|]. unfold I2C_MAX_BUF_LEN in *. lia.
Qed.

(** The bytes of even offset go out until the length is reached. *)
Lemma write_phase m sup n : ∀ j l s, Loaded m sup j l s → 2 * Z.of_nat (j + n) < w →
  ∃ s', (∀ f, i2c_state_machine_loop (n + f) dev i s = i2c_state_machine_loop f dev i s') ∧
    Loaded m sup (j + n) (l ++ ((λ k, rdb m (ptr_add data (2 * Z.of_nat k))) <$> seq j n)) s'.
Proof.
  induction n as [|n IH]; intros j l s Hld Hn.
  - exists s. split; [done|]. rewrite Nat.add_0_r. cbn. by rewrite app_nil_r.
  - destruct (loaded_step _ _ _ _ _ Hld) as (s1 & E & Hc & Hm & Hp & Hl & Hs).
    assert (Loaded m sup (S j) (l ++ [rdb m (ptr_add data (2 * Z.of_nat j))]) (send_next dev i s1)) as Hld'
      by (apply send_next_loads; (done || lia)).
    destruct (IH _ _ _ Hld' ltac:(lia)) as (s' & Hf & Hld2). exists s'. split.
    + intros f. cbn [plus]. rewrite loop_step; rewrite E; [apply Hf|]. by rewrite (ld_ctx _ _ _ _ _ Hld').
    + rewrite <- app_assoc in Hld2. replace (j + S n)%nat with (S j + n)%nat by lia. done.
Qed.

(** START, then the address. *)
Lemma start_step s sla c st : TWCRn (dev_of s dev) = CR_START → ctx_of s i = xfer sla c st →
  let s' := i2c_state_machine dev i (hw_step dev s) in
  ctx_of s' i = xfer sla c st ∧ TWCRn (dev_of s' dev) = CR_REPLY true ∧ TWDRn (dev_of s' dev) = sla ∧
  i2c_mem s' = i2c_mem s ∧ ph (i2c_bus s') = Started ∧ sent (i2c_bus s') = sent (i2c_bus s) ∧
  supply (i2c_bus s') = supply (i2c_bus s).
Proof.
  intros Hcr Hc. destruct (twi_next (dev_of s dev) (i2c_bus s)) as [r' b'] eqn:E.
  destruct (ak_start _ _ _ _ Hcr E) as (Hst & Hp & Hl & Hs).
  destruct (hw_step_dev _ _ _ _ E) as (Er & Eb & Em & Ec).
  cbn zeta. rewrite machine_start by (by rewrite Er). unfold ctx_of in Hc |- *.
  regs. rewrite Ec, Hc, Eb, Em. done.
Qed.

Lemma sla_w_step m sup l s : ctx_of s i = xfer (2 * a) 0 MASTER_TX → TWCRn (dev_of s dev) = CR_REPLY true →
  TWDRn (dev_of s dev) = 2 * a → ph (i2c_bus s) = Started → i2c_mem s = m → sent (i2c_bus s) = l →
  supply (i2c_bus s) = sup → 0 < w → Loaded m sup 0 l (i2c_state_machine dev i (hw_step dev s)).
Proof.
  intros Hc Hcr Hd Hp Hm Hl Hs Hw0. destruct (twi_next (dev_of s dev) (i2c_bus s)) as [r' b'] eqn:E.
  destruct (ak_sla_w _ _ _ _ Hp Hcr Hd E) as (Hst & Hp' & Hl' & Hs').
  destruct (hw_step_dev _ _ _ _ E) as (Er & Eb & Em & Ec).
  rewrite machine_mt_sla by (by rewrite Er). apply send_next_loads; rewrite ?Eb, ?Em; try congruence; [|lia].
  unfold ctx_of in *. by rewrite Ec.
Qed.

Lemma reply_next_receives m l sup (k : nat) s : ctx_of s i = xfer (2 * a + 1) (Z.of_nat k) MASTER_RX →
  i2c_mem s = m → ph (i2c_bus s) = Reading → sent (i2c_bus s) = l → supply (i2c_bus s) = sup →
  Receiving m k l sup (reply_next dev i s).
Proof. intros Hc Hm Hp Hl Hs. unfold reply_next. rewrite Hc. by split; regs. Qed.

Lemma sla_r_step m sup l s : ctx_of s i = xfer (2 * a + 1) 0 MASTER_RX → TWCRn (dev_of s dev) = CR_REPLY true →
  TWDRn (dev_of s dev) = 2 * a + 1 → ph (i2c_bus s) = Started → i2c_mem s = m → sent (i2c_bus s) = l →
  supply (i2c_bus s) = sup → Receiving m 0 l sup (i2c_state_machine dev i (hw_step dev s)).
Proof.
  intros Hc Hcr Hd Hp Hm Hl Hs. destruct (twi_next (dev_of s dev) (i2c_bus s)) as [r' b'] eqn:E.
  destruct (ak_sla_r _ _ _ _ Hp Hcr Hd E) as (Hst & Hp' & Hl' & Hs').
  destruct (hw_step_dev _ _ _ _ E) as (Er & Eb & Em & Ec).
  rewrite machine_mr_sla by (by rewrite Er). apply reply_next_receives; rewrite ?Eb, ?Em; try congruence.
  unfold ctx_of in *. by rewrite Ec.
Qed.

(** One byte received. *)
Lemma receiving_step m k l v sup s : Receiving m k l (v :: sup) s → Z.of_nat k < I2C_MAX_BUF_LEN → ∃ s',
  i2c_state_machine dev i (hw_step dev s)
  = (if 1 <? r - Z.of_nat k then reply_next dev i s' else transfer_stop dev i s') ∧
  ctx_of s' i = xfer (2 * a + 1) (Z.of_nat (S k)) MASTER_RX ∧ i2c_mem s' = <[ptr_add data (Z.of_nat k) := v]> m ∧
  ph (i2c_bus s') = Reading ∧ sent (i2c_bus s') = l ∧ supply (i2c_bus s') = sup.
Proof.
  intros [Hc Hcr Hm Hp Hl Hs] Hk. destruct (twi_next (dev_of s dev) (i2c_bus s)) as [r' b'] eqn:E.
  destruct (ak_read _ _ _ _ _ _ _ Hp Hcr Hs E) as (Hst & Hd & Hp' & Hl' & Hs').
  destruct (hw_step_dev _ _ _ _ E) as (Er & Eb & Em & Ec).
  exists (store_data dev i (hw_step dev s)). split; [apply machine_mr_data; by rewrite Er|].
  assert (ctx_of (hw_step dev s) i = ctx_of s i) as Ec' by (unfold ctx_of; by rewrite Ec).
  unfold store_data, upd_i2c_mem. rewrite Ec', Hc. cbn [i2c_bus i2c_mem i2c_contexts]. regs. rewrite Er, Em, Eb.
  split_and!; try congruence. unfold ctx_of at 1. cbn [i2c_contexts].
  change (ctx_of (incr_cursor i (hw_step dev s)) i = xfer (2 * a + 1) (Z.of_nat (S k)) MASTER_RX).
  unfold incr_cursor. rewrite ctx_upd_ctx, Ec', Hc. unfold xfer, with_cursor.
  cbn [x_buf sla_w state write_len read_len x_error cursor]. f_equal. rewrite i2c_len_id; lia.
Qed.

Lemma stop_finishes m l sup c st sla s : ctx_of s i = xfer sla c st → i2c_mem s = m → sent (i2c_bus s) = l →
  supply (i2c_bus s) = sup → Finished m l sup (transfer_stop dev i s).
Proof. intros Hc Hm Hl Hs. split; regs; try done. by rewrite Hc. Qed.

(** The bytes the slave returns are stored until the length is reached; a
    read of length 0 stores one. *)
Lemma read_phase l sup vs : ∀ m k s, Receiving m k l (vs ++ sup) s → vs ≠ [] →
  Z.of_nat k + Z.of_nat (length vs) = Z.max 1 r → 1 <= I2C_MAX_BUF_LEN →
  ∃ s', (∀ f, i2c_state_machine_loop (length vs + f) dev i s = Some s') ∧
    Finished (put_bytes m data (Z.of_nat k) vs) l sup s'.
Proof.
  induction vs as [|v vs IH]; [done|]. intros m k s Hrc _ Hlen Hmax. cbn [length] in Hlen.
  destruct (receiving_step _ _ _ _ _ _ Hrc) as (s1 & E & Hc & Hm & Hp & Hl & Hs); [lia|].
  destruct vs as [|v' vs].
  - rewrite (proj2 (Z.ltb_ge _ _)) in E by (cbn in Hlen; lia). exists (transfer_stop dev i s1).
    assert (Finished (put_bytes m data (Z.of_nat k) [v]) l sup (transfer_stop dev i s1)) as Hfi
      by (by eapply stop_finishes). split; [|done].
    intros f. cbn [length plus]. rewrite loop_end; rewrite E; [done|]. apply Hfi.
  - rewrite (proj2 (Z.ltb_lt _ _)) in E by (cbn in Hlen; lia).
    pose proof (reply_next_receives _ _ _ _ _ Hc Hm Hp Hl Hs) as Hrc'.
    destruct (IH _ _ _ Hrc') as (s' & Hf & Hfi); [done|lia|done|]. exists s'. split.
    + intros f. change (length (v :: v' :: vs) + f)%nat with (S (length (v' :: vs) + f)).
      rewrite loop_step; rewrite E; [apply Hf|]. by rewrite (rc_ctx _ _ _ _ _ Hrc').
    + cbn [put_bytes] in *. by replace (Z.of_nat (S k)) with (Z.of_nat k + 1) in Hfi by lia.
Qed.

Definition even_bytes (m : bmem) (n : nat) : list Z := (λ k, rdb m (ptr_add data (2 * Z.of_nat k))) <$> seq 0 n.

Lemma read_from_start s vs sup : TWCRn (dev_of s dev) = CR_START → ctx_of s i = xfer (2 * a + 1) 0 MASTER_RX →
  supply (i2c_bus s) = vs ++ sup → Z.of_nat (length vs) = Z.max 1 r → 1 <= I2C_MAX_BUF_LEN →
  ∃ s', (∀ f, i2c_state_machine_loop (2 + length vs + f) dev i s = Some s') ∧
    Finished (put_bytes (i2c_mem s) data 0 vs) (sent (i2c_bus s)) sup s'.
Proof.
  intros Hcr Hc Hs Hlen Hmax. destruct (start_step _ _ _ _ Hcr Hc) as (Hc1 & Hcr1 & Hd1 & Hm1 & Hp1 & Hl1 & Hs1).
  pose proof (sla_r_step _ _ _ _ Hc1 Hcr1 Hd1 Hp1 Hm1 Hl1 (eq_trans Hs1 Hs)) as Hrc.
  destruct (read_phase _ _ _ _ _ _ Hrc) as (s' & Hf & Hfi); [intros ->; cbn [length] in Hlen; lia|lia|done|].
  exists s'. split; [|done]. intros f. cbn [plus].
  rewrite loop_step by (by rewrite Hc1). rewrite loop_step by (by rewrite (rc_ctx _ _ _ _ _ Hrc)). apply Hf.
Qed.

(** The state when the last byte of the write has been acknowledged. *)
Lemma write_from_start s (n : nat) : TWCRn (dev_of s dev) = CR_START → ctx_of s i = xfer (2 * a) 0 MASTER_TX →
  w <= 2 * Z.of_nat n < w + 2 → 0 < w → ∃ s1 s2,
    (∀ f, i2c_state_machine_loop (S (S n) + f) dev i s = i2c_state_machine_loop (S f) dev i s1) ∧
    i2c_state_machine dev i (hw_step dev s1) = send_next dev i s2 ∧
    ctx_of s2 i = xfer (2 * a) (2 * Z.of_nat n) MASTER_TX ∧ i2c_mem s2 = i2c_mem s ∧
    sent (i2c_bus s2) = sent (i2c_bus s) ++ even_bytes (i2c_mem s) n ∧ supply (i2c_bus s2) = supply (i2c_bus s).
Proof.
  intros Hcr Hc Hn Hw0. destruct (start_step _ _ _ _ Hcr Hc) as (Hc1 & Hcr1 & Hd1 & Hm1 & Hp1 & Hl1 & Hs1).
  pose proof (sla_w_step _ _ _ _ Hc1 Hcr1 Hd1 Hp1 Hm1 Hl1 Hs1 Hw0) as Hld.
  destruct n as [|n]; [cbn in Hn; lia|].
  destruct (write_phase _ _ n _ _ _ Hld) as (s1 & Hf & Hld1); [cbn; lia|].
  destruct (loaded_step _ _ _ _ _ Hld1) as (s2 & E2 & Hc2 & Hm2 & Hp2 & Hl2 & Hs2).
  exists s1, s2. split_and!; try done.
  - intros f. replace (S (S (S n)) + f)%nat with (S (S (n + S f))) by lia.
    rewrite loop_step by (by rewrite Hc1). rewrite loop_step by (by rewrite (ld_ctx _ _ _ _ _ Hld)). apply Hf.
  - rewrite Hl2, <- app_assoc. f_equal. unfold even_bytes. rewrite seq_S, fmap_app. done.
Qed.

Lemma loop_transfer s (n : nat) vs sup :
  TWCRn (dev_of s dev) = CR_START →
  ctx_of s i = (if w =? 0 then xfer (2 * a + 1) 0 MASTER_RX else xfer (2 * a) 0 MASTER_TX) →
  w <= 2 * Z.of_nat n < w + 2 → supply (i2c_bus s) = vs ++ sup →
  Z.of_nat (length vs) = (if w =? 0 then Z.max 1 r else r) →
  ∃ s', (∀ f, i2c_state_machine_loop (S (S n) + (S (S (length vs) + f))) dev i s = Some s') ∧
    Finished (put_bytes (i2c_mem s) data 0 vs) (sent (i2c_bus s) ++ even_bytes (i2c_mem s) n) sup s'.
Proof.
  intros Hcr Hc Hn Hs Hlen. destruct (Z.eqb_spec w 0) as [Hw0|Hw0].
  - assert (n = 0%nat) as -> by lia.
    destruct (read_from_start _ _ _ Hcr Hc Hs Hlen) as (s' & Hf & Hfi); [lia|]. exists s'. split.
    + intros f. cbn [even_bytes].
      replace (2 + S (S (length vs) + f))%nat with (2 + length vs + (2 + f))%nat by lia. apply Hf.
    + cbn. by rewrite app_nil_r.
  - destruct (write_from_start _ n Hcr Hc) as (s1 & s2 & Hf & E & Hc2 & Hm2 & Hl2 & Hs2); [lia|lia|].
    unfold send_next in E. rewrite Hc2 in E. cbn [cursor write_len read_len xfer] in E.
    rewrite (proj2 (Z.ltb_ge _ _)) in E by lia. destruct (Z.eqb_spec r 0) as [Hr0|Hr0]; cbn [negb] in E.
    + destruct vs; [|cbn in Hlen; lia]. exists (transfer_stop dev i s2).
      assert (Finished (i2c_mem s) (sent (i2c_bus s) ++ even_bytes (i2c_mem s) n) sup (transfer_stop dev i s2)) as Hfi
        by (by eapply stop_finishes; [done..|rewrite Hs2]).
      split; [|done]. intros f. rewrite Hf. cbn [length plus]. rewrite loop_end; rewrite E; [done|]. apply Hfi.
    + set (s3 := TWI_START dev _) in E.
      assert (ctx_of s3 i = xfer (2 * a + 1) 0 MASTER_RX) as Hc3.
      { unfold s3. regs. rewrite Hc2. cbn. unfold xfer. f_equal.
        rewrite Z.land_m1_r. by destruct a as [|[]|[]]. }
      destruct (read_from_start s3 vs sup) as (s' & Hf' & Hfi); try (done || lia).
      { unfold s3. by regs. }
      { by rewrite <- Hs, <- Hs2. }
      exists s'. split.
      * intros f. rewrite Hf. rewrite loop_step; rewrite E; [apply Hf'|]. by rewrite Hc3.
      * rewrite <- Hl2. by replace (i2c_mem s) with (i2c_mem s3).
Qed.
End Transfer.

(** ** The transfers of the interface *)
Section Run.
Variables (dev i : Z).
Hypothesis Hdev : i2c_get_context dev = Some i.

Lemma run_dispatch fuel s :
  (if I2C0_DEVICE_ENABLED && (dev =? I2C0_BASE_ADDR) then i2c_state_machine_loop fuel I2C0_BASE_ADDR i s
   else if I2C1_DEVICE_ENABLED && (dev =? I2C1_BASE_ADDR) then i2c_state_machine_loop fuel I2C1_BASE_ADDR i s
   else Some s) = i2c_state_machine_loop fuel dev i s.
Proof.
  revert Hdev. unfold i2c_get_context, i2c_get_device_index.
  destruct (I2C0_DEVICE_ENABLED && _) eqn:E0; [apply andb_prop in E0 as [_ ->%Z.eqb_eq]; done|].
  destruct (I2C1_DEVICE_ENABLED && _) eqn:E1; [apply andb_prop in E1 as [_ ->%Z.eqb_eq]; done|]. done.
Qed.

(** The context when the START command is given. *)
Definition xfer_error (s : i2c_sys) : Z := if CONFIG_I2C_LAST_ERROR then I2C_ERROR_NONE else x_error (ctx_of s i).
Definition i2c_begin (addr : Z) (data : word) (w r : Z) (s : i2c_sys) : i2c_sys :=
  let c := if w =? 0 then xfer data w r (xfer_error s) (2 * addr + 1) 0 MASTER_RX
           else xfer data w r (xfer_error s) (2 * addr) 0 MASTER_TX in
  TWI_START dev (set_error i I2C_ERROR_NONE (upd_ctx i (λ x, with_error (x_error x) c) s)).

Lemma upd_ctx_ext f g s : f (ctx_of s i) = g (ctx_of s i) → upd_ctx i f s = upd_ctx i g s.
Proof. unfold upd_ctx. by intros ->. Qed.

Lemma u8_shiftl addr : 0 <= addr < 128 → u8 (Z.shiftl addr 1) = 2 * addr.
Proof. intros Ha. rewrite Z.shiftl_mul_pow2 by lia. unfold u8. rewrite Z.mod_small; lia. Qed.
Lemma sla_w_write addr : 0 <= addr < 128 → Z.lor (u8 (Z.shiftl addr 1)) TW_WRITE = 2 * addr.
Proof. intros Ha. rewrite u8_shiftl by done. apply Z.lor_0_r. Qed.
Lemma sla_w_read addr : 0 <= addr < 128 → Z.lor (u8 (Z.shiftl addr 1)) TW_READ = 2 * addr + 1.
Proof. intros Ha. rewrite u8_shiftl by done. by destruct addr as [|[]|[]]. Qed.

Lemma i2c_run_begins fuel addr data w r s :
  CONFIG_I2C_INTERRUPT_DRIVEN = false → state (ctx_of s i) = READY → nonnull data = true → 0 <= addr < 128 →
  0 <= w <= I2C_MAX_BUF_LEN → 0 <= r <= I2C_MAX_BUF_LEN →
  i2c_run fuel dev addr data w r s =
    (s' ← i2c_state_machine_loop fuel dev i (i2c_begin addr data w r s);
     Some (if negb (get_error i s' =? I2C_ERROR_NONE) then - EIO else 0, s')).
Proof.
  intros Hpoll Hs Hd Ha Hw Hr. unfold i2c_run. rewrite Hdev, Hd, Hpoll. cbn [is_ctx andb default from_option id negb]. cbv zeta.
  rewrite Hs, z_user_true by (by rewrite !(proj2 (Z.leb_le _ _)) by lia). rewrite decide_False by auto.
  rewrite run_dispatch. f_equal. unfold i2c_begin. do 3 f_equal. apply upd_ctx_ext. unfold with_error.
  destruct (w =? 0); cbn [xfer x_buf sla_w cursor state write_len read_len x_error];
    by rewrite !i2c_len_id, ?sla_w_write, ?sla_w_read.
Qed.

Lemma i2c_begin_state addr data w r s : let s' := i2c_begin addr data w r s in
  TWCRn (dev_of s' dev) = CR_START ∧
  ctx_of s' i = (if w =? 0 then xfer data w r (xfer_error s) (2 * addr + 1) 0 MASTER_RX
                 else xfer data w r (xfer_error s) (2 * addr) 0 MASTER_TX) ∧
  i2c_mem s' = i2c_mem s ∧ i2c_bus s' = i2c_bus s.
Proof.
  unfold i2c_begin, set_error, TWI_START. cbn zeta. split_and!; try (by destruct CONFIG_I2C_LAST_ERROR).
  - by rewrite dev_upd_dev.
  - rewrite ctx_upd_dev. unfold xfer_error, with_error, xfer.
    destruct CONFIG_I2C_LAST_ERROR; rewrite !ctx_upd_ctx; by destruct (w =? 0).
Qed.

(** A whole transfer in polling mode. *)
Lemma i2c_transfer addr `{!AckingSlave addr} fuel data w r s :
  CONFIG_I2C_INTERRUPT_DRIVEN = false → state (ctx_of s i) = READY → nonnull data = true → 0 <= addr < 128 →
  0 <= w < I2C_MAX_BUF_LEN → 0 <= r <= I2C_MAX_BUF_LEN →
  let n := Z.to_nat (if w =? 0 then Z.max 1 r else r) in
  (n <= length (supply (i2c_bus s)))%nat → (Z.to_nat (w + r) + 5 <= fuel)%nat →
  ∃ s', i2c_run fuel dev addr data w r s = Some (0, s') ∧ i2c_status dev s' = 0 ∧ i2c_last_error dev s' = 0 ∧
    TWCRn (dev_of s' dev) = CR_STOP ∧
    sent (i2c_bus s') = sent (i2c_bus s) ++ even_bytes data (i2c_mem s) (Z.to_nat ((w + 1) / 2)) ∧
    i2c_mem s' = put_bytes (i2c_mem s) data 0 (take n (supply (i2c_bus s))) ∧
    supply (i2c_bus s') = drop n (supply (i2c_bus s)).
Proof.
  intros Hpoll Hs Hd Ha Hw Hr n Hn Hfuel. rewrite i2c_run_begins by (done || lia).
  destruct (i2c_begin_state addr data w r s) as (Hcr & Hc & Hm & Hb).
  pose proof (Z.div_mod (w + 1) 2). pose proof (Z.mod_pos_bound (w + 1) 2).
  destruct (loop_transfer addr dev i data w r (xfer_error s) Hw Hr (i2c_begin addr data w r s)
    (Z.to_nat ((w + 1) / 2)) (take n (supply (i2c_bus s))) (drop n (supply (i2c_bus s)))) as (s' & Hf & [Hst He Hcr' Hm' Hl Hsup]);
    [done|done|lia|by rewrite Hb, take_drop|rewrite length_take_le by done; unfold n; case_match; lia|].
  exists s'. assert (get_error i s' = I2C_ERROR_NONE) as Hge.
  { unfold get_error. rewrite He. unfold xfer_error. by destruct CONFIG_I2C_LAST_ERROR. }
  rewrite length_take_le in Hf by done.
  assert (Z.to_nat ((w + 1) / 2) + n + 4 <= fuel)%nat by (subst n; destruct (Z.eqb_spec w 0); lia).
  replace fuel with (S (S (Z.to_nat ((w + 1) / 2)))
    + (S (S n + (fuel - 4 - Z.to_nat ((w + 1) / 2) - n))))%nat by lia.
  rewrite Hf. cbn [mbind option_bind]. rewrite Hge, Hm', Hl, Hm, Hb.
  unfold i2c_status, i2c_last_error. rewrite Hdev, z_user_true by done. cbn [default from_option id]. rewrite Hst, decide_False by auto.
  done.
Qed.

(** C31: in polling mode a transfer with an acknowledging slave returns 0 and
    leaves the driver ready; of the bytes to write the slave receives those of
    even offset. *)
Theorem i2c_transfer_spec addr `{!AckingSlave addr} fuel data w r s :
  CONFIG_I2C_INTERRUPT_DRIVEN = false → state (ctx_of s i) = READY → nonnull data = true → 0 <= addr < 128 →
  0 <= w < I2C_MAX_BUF_LEN → 0 <= r <= I2C_MAX_BUF_LEN →
  let n := Z.to_nat (if w =? 0 then Z.max 1 r else r) in
  (n <= length (supply (i2c_bus s)))%nat → (Z.to_nat (w + r) + 5 <= fuel)%nat →
  ∃ s', i2c_run fuel dev addr data w r s = Some (0, s') ∧ i2c_status dev s' = 0 ∧ i2c_last_error dev s' = 0 ∧
    TWCRn (dev_of s' dev) = CR_STOP ∧
    sent (i2c_bus s') = sent (i2c_bus s) ++ even_bytes data (i2c_mem s) (Z.to_nat ((w + 1) / 2)) ∧
    i2c_mem s' = put_bytes (i2c_mem s) data 0 (take n (supply (i2c_bus s))) ∧
    supply (i2c_bus s') = drop n (supply (i2c_bus s)).
Proof. apply i2c_transfer. Qed.

(** ** The full length *)

(** A write of [I2C_MAX_BUF_LEN] bytes: [j] pairs of increments, modulo the
    width of the cursor. *)
Record Sending (addr : Z) `{!AckingSlave addr} (data : word) (r e j : Z) (s : i2c_sys) : Prop := {
  sd_range : 0 <= 2 * j < I2C_MAX_BUF_LEN;
  sd_ctx : ctx_of s i = xfer data I2C_MAX_BUF_LEN r e (2 * addr) (2 * j + 1) MASTER_TX;
  sd_cr : TWCRn (dev_of s dev) = CR_REPLY true;
  sd_ph : ph (i2c_bus s) = Writing;
}.

Lemma sending_next addr `{!AckingSlave addr} data r e j s : 0 <= 2 * j < I2C_MAX_BUF_LEN →
  ctx_of s i = xfer data I2C_MAX_BUF_LEN r e (2 * addr) (2 * j) MASTER_TX → ph (i2c_bus s) = Writing →
  Sending addr data r e j (send_next dev i s).
Proof.
  intros Hj Hc Hp. unfold send_next. rewrite Hc. cbn [cursor write_len xfer].
  rewrite (proj2 (Z.ltb_lt _ _)) by apply Hj. unfold TWI_REPLY, incr_cursor. split; [done| |by rewrite dev_upd_dev|done].
  rewrite !ctx_upd_dev, ctx_upd_ctx, Hc. unfold with_cursor, xfer. cbn [cursor x_buf sla_w state write_len read_len x_error].
  by rewrite i2c_len_id by lia.
Qed.

(** The cursor wraps to an even value again. *)
Lemma cursor_wraps j : 1 <= CONFIG_I2C_MAX_BUF_LEN_BITS →
  i2c_len (2 * j + 1 + 1) = 2 * ((j + 1) mod 2 ^ (CONFIG_I2C_MAX_BUF_LEN_BITS - 1)) ∧
  0 <= 2 * ((j + 1) mod 2 ^ (CONFIG_I2C_MAX_BUF_LEN_BITS - 1)) < I2C_MAX_BUF_LEN.
Proof.
  intros Hb. unfold i2c_len, I2C_MAX_BUF_LEN. set (h := 2 ^ (CONFIG_I2C_MAX_BUF_LEN_BITS - 1)).
  assert (2 ^ CONFIG_I2C_MAX_BUF_LEN_BITS = 2 * h) as -> by (unfold h; rewrite <- Z.pow_succ_r by lia; f_equal; lia).
  assert (0 < h) by (unfold h; apply Z.pow_pos_nonneg; lia). pose proof (Z.mod_pos_bound (j + 1) h).
  replace (2 * j + 1 + 1) with (2 * (j + 1)) by lia. rewrite Z.mul_mod_distr_l by lia. lia.
Qed.

Lemma sending_step addr `{!AckingSlave addr} data r e j s : 1 <= CONFIG_I2C_MAX_BUF_LEN_BITS →
  Sending addr data r e j s →
  Sending addr data r e ((j + 1) mod 2 ^ (CONFIG_I2C_MAX_BUF_LEN_BITS - 1)) (i2c_state_machine dev i (hw_step dev s)).
Proof.
  intros Hb [Hj Hc Hcr Hp]. destruct (twi_next (dev_of s dev) (i2c_bus s)) as [r' b'] eqn:E.
  destruct (ak_write _ _ _ _ Hp Hcr E) as (Hst & Hp' & Hl' & Hs').
  destruct (hw_step_dev _ _ _ _ E) as (Er & Eb & Em & Ec).
  rewrite machine_mt_data by (by rewrite Er). destruct (cursor_wraps j Hb) as [Hw Hlt].
  apply sending_next; [done| |by unfold incr_cursor; cbn; rewrite Eb].
  unfold incr_cursor. rewrite ctx_upd_ctx. unfold ctx_of in Hc |- *. rewrite Ec, Hc.
  unfold with_cursor, xfer. cbn [cursor x_buf sla_w state write_len read_len x_error]. by rewrite Hw.
Qed.

Lemma sending_never_ends addr `{!AckingSlave addr} data r e fuel : 1 <= CONFIG_I2C_MAX_BUF_LEN_BITS →
  ∀ j s, Sending addr data r e j s → i2c_state_machine_loop fuel dev i s = None.
Proof.
  intros Hb. induction fuel as [|fuel IH]; [done|]. intros j s Hsd.
  pose proof (sending_step _ _ _ _ _ _ Hb Hsd) as Hsd'.
  rewrite loop_step by (by rewrite (sd_ctx _ _ _ _ _ _ Hsd')). by eapply IH.
Qed.

(** A write of the largest length the driver accepts, to a slave that
    acknowledges everything, does not return: the cursor of
    [CONFIG_I2C_MAX_BUF_LEN_BITS] bits never reaches the length. *)
Theorem i2c_full_write_never_ends addr `{!AckingSlave addr} fuel data r s :
  CONFIG_I2C_INTERRUPT_DRIVEN = false → 1 <= CONFIG_I2C_MAX_BUF_LEN_BITS → state (ctx_of s i) = READY →
  nonnull data = true → 0 <= addr < 128 → 0 <= r <= I2C_MAX_BUF_LEN →
  i2c_run fuel dev addr data I2C_MAX_BUF_LEN r s = None.
Proof.
  intros Hpoll Hb Hs Hd Ha Hr.
  assert (0 < I2C_MAX_BUF_LEN) as Hpos
    by (unfold I2C_MAX_BUF_LEN; pose proof (Z.pow_gt_1 2 CONFIG_I2C_MAX_BUF_LEN_BITS); lia).
  rewrite i2c_run_begins by (done || lia).
  destruct (i2c_begin_state addr data I2C_MAX_BUF_LEN r s) as (Hcr & Hc & _ & _).
  destruct (Z.eqb_spec I2C_MAX_BUF_LEN 0); [lia|]. set (s0 := i2c_begin _ _ _ _ _) in *.
  destruct (start_step addr dev i data _ _ _ s0 _ _ _ Hcr Hc) as (Hc1 & Hcr1 & Hd1 & Hm1 & Hp1 & Hl1 & Hs1).
  destruct fuel as [|[|fuel]]; [done|cbn [i2c_state_machine_loop]; rewrite decide_True; [done|by rewrite Hc1]|].
  rewrite loop_step by (by rewrite Hc1). set (s1 := i2c_state_machine dev i (hw_step dev s0)) in *.
  destruct (twi_next (dev_of s1 dev) (i2c_bus s1)) as [r' b'] eqn:E.
  destruct (ak_sla_w _ _ _ _ Hp1 Hcr1 Hd1 E) as (Hst & Hp' & Hl' & Hs').
  destruct (hw_step_dev _ _ _ _ E) as (Er & Eb & Em & Ec).
  assert (Sending addr data r (xfer_error s) 0 (i2c_state_machine dev i (hw_step dev s1))) as Hsd.
  { rewrite machine_mt_sla by (by rewrite Er). apply sending_next; [lia| |by rewrite Eb].
    unfold ctx_of in *. by rewrite Ec. }
  rewrite loop_step by (by rewrite (sd_ctx _ _ _ _ _ _ Hsd)). by rewrite (sending_never_ends _ _ _ _ _ Hb _ _ Hsd).
Qed.

(** ** Errors, and the interrupt-driven mode *)

(** Nobody answers: the transfer fails with an address error and leaves the
    driver ready. *)
Theorem i2c_no_slave addr fuel data w r s :
  CONFIG_I2C_INTERRUPT_DRIVEN = false → CONFIG_I2C_LAST_ERROR = true → state (ctx_of s i) = READY →
  nonnull data = true → 0 <= addr < 128 → 0 <= w <= I2C_MAX_BUF_LEN → 0 <= r <= I2C_MAX_BUF_LEN →
  (∀ rg b, TWCRn rg = CR_START → let st := status_of (fst (twi_next rg b)) in st = TW_START ∨ st = TW_REP_START) →
  (∀ rg b, TWCRn rg = CR_REPLY true → Z.shiftr (TWDRn rg) 1 = addr →
    status_of (fst (twi_next rg b)) = if Z.odd (TWDRn rg) then TW_MR_SLA_NACK else TW_MT_SLA_NACK) →
  (2 <= fuel)%nat →
  ∃ s', i2c_run fuel dev addr data w r s = Some (- EIO, s') ∧ i2c_status dev s' = 0 ∧
    i2c_last_error dev s' = I2C_ERROR_ADDR ∧ i2c_mem s' = i2c_mem s.
Proof.
  intros Hpoll Hle Hs Hd Ha Hw Hr Hstart Hsla Hfuel. rewrite i2c_run_begins by (done || lia).
  destruct (i2c_begin_state addr data w r s) as (Hcr & Hc & Hm & Hb).
  set (s0 := i2c_begin _ _ _ _ _) in *. specialize (Hstart (dev_of s0 dev) (i2c_bus s0) Hcr).
  destruct (twi_next (dev_of s0 dev) (i2c_bus s0)) as [r' b'] eqn:E. cbn [fst] in Hstart.
  destruct (hw_step_dev _ _ _ _ E) as (Er & Eb & Em & Ec).
  set (sla := sla_w (ctx_of s0 i)). assert (Z.shiftr sla 1 = addr ∧ state (ctx_of s0 i) ≠ READY) as [Hsh Hnr].
  { unfold sla. rewrite Hc, Z.shiftr_div_pow2 by lia. change (2 ^ 1) with 2.
    destruct (w =? 0); cbn [sla_w state xfer]; (split; [|done]).
    - symmetry. apply (Z.div_unique _ _ _ 1); lia.
    - symmetry. apply (Z.div_unique _ _ _ 0); lia. }
  assert (∃ s1, i2c_state_machine dev i (hw_step dev s0) = s1 ∧ ctx_of s1 i = ctx_of s0 i ∧
    TWCRn (dev_of s1 dev) = CR_REPLY true ∧ TWDRn (dev_of s1 dev) = sla ∧ i2c_mem s1 = i2c_mem s) as (s1 & E1 & Hc1 & Hcr1 & Hd1 & Hm1).
  { eexists. split; [apply machine_start; by rewrite Er|]. unfold TWI_REPLY. rewrite !dev_upd_dev, !ctx_upd_dev.
    unfold sla, ctx_of. rewrite Ec. split_and!; try done. cbn. by rewrite Em. }
  destruct fuel as [|[|fuel]]; [lia|lia|]. rewrite loop_step by (by rewrite E1, Hc1). rewrite E1.
  specialize (Hsla (dev_of s1 dev) (i2c_bus s1) Hcr1 ltac:(by rewrite Hd1)).
  destruct (twi_next (dev_of s1 dev) (i2c_bus s1)) as [r2 b2] eqn:E2. cbn [fst] in Hsla.
  destruct (hw_step_dev _ _ _ _ E2) as (Er2 & Eb2 & Em2 & Ec2).
  assert (i2c_state_machine dev i (hw_step dev s1) = transfer_stop dev i (set_error i I2C_ERROR_ADDR (hw_step dev s1))) as E3
    by (apply machine_no_slave; rewrite Er2; destruct (Z.odd _); auto).
  unfold set_error in E3. rewrite Hle in E3. rewrite loop_end by (rewrite E3; unfold transfer_stop; by rewrite ctx_upd_ctx).
  rewrite E3. unfold transfer_stop.
  eexists. split; [cbn [mbind option_bind]; unfold get_error; rewrite Hle, ctx_upd_ctx; unfold TWI_STOP;
    by rewrite ctx_upd_dev, ctx_upd_ctx|].
  unfold i2c_status, i2c_last_error, get_error. rewrite Hdev, z_user_true, Hle by done. cbn [default from_option id].
  rewrite ctx_upd_ctx. unfold TWI_STOP. rewrite ctx_upd_dev, ctx_upd_ctx. split_and!; try done. cbn. by rewrite Em2.
Qed.

(** An initialised driver is ready with the configuration in its registers;
    one that has been shut down refuses the transfers. *)
Theorem i2c_lifecycle prescaler twbr s fuel addr data w r :
  z_user (nonnull data && (w <=? I2C_MAX_BUF_LEN) && (r <=? I2C_MAX_BUF_LEN)) = true →
  let '(ret, s1) := i2c_init dev prescaler twbr s in
  let '(ret', s2) := i2c_deinit dev s1 in
  ret = 0 ∧ i2c_status dev s1 = 0 ∧ TWBRn (dev_of s1 dev) = twbr ∧ TWSRn (dev_of s1 dev) = prescaler ∧
  TWCRn (dev_of s1 dev) = Z.lor (BIT TWINT) (BIT TWEN) ∧
  ret' = 0 ∧ TWCRn (dev_of s2 dev) = 0 ∧ i2c_run fuel dev addr data w r s2 = Some (- EBUSY, s2).
Proof.
  intros Hargs. pose proof Hdev as Hx. unfold i2c_get_context in Hx. unfold i2c_init, i2c_deinit.
  set (j := i2c_get_device_index dev) in *. destruct (j <? 0) eqn:Hj; [done|]. injection Hx as Hx. rewrite Hx.
  assert (∀ en s', dev_of (i2c_gpio_setup i en s') dev = dev_of s' dev ∧ ctx_of (i2c_gpio_setup i en s') i = ctx_of s' i)
    as Hgp by (intros en s'; unfold i2c_gpio_setup; by repeat case_match).
  assert (∀ s', dev_of (prr_enable i s') dev = dev_of s' dev) as Hpr by (intros s'; unfold prr_enable; by repeat case_match).
  rewrite ctx_upd_ctx. cbn [state with_state]. rewrite decide_False by auto.
  unfold i2c_status, i2c_run. rewrite Hdev, z_user_true by done. cbn [is_ctx andb default from_option id].
  rewrite Hargs. cbn [negb]. rewrite !ctx_upd_ctx. cbn [state with_state]. rewrite decide_False by auto.
  rewrite decide_True by done. do 3 rewrite ?dev_upd_ctx, ?dev_upd_dev, ?(proj1 (Hgp _ _)), ?Hpr. done.
Qed.
End Run.

(** While the interrupts of the first device run the machine, waiting for the
    end is the polling loop. *)
Lemma poll_end_is_loop fuel s : state (ctx_of s I2C0_INDEX) ≠ READY →
  poll_end (S fuel) I2C0_BASE_ADDR I2C0_INDEX s = i2c_state_machine_loop fuel I2C0_BASE_ADDR I2C0_INDEX s.
Proof.
  revert s. induction fuel as [|fuel IH]; intros s Hs; [cbn; by rewrite decide_True|].
  change (poll_end (S (S fuel)) I2C0_BASE_ADDR I2C0_INDEX s) with
    (if decide (state (ctx_of s I2C0_INDEX) ≠ READY)
     then poll_end (S fuel) I2C0_BASE_ADDR I2C0_INDEX (TWI0_vect (hw_step I2C0_BASE_ADDR s)) else Some s).
  rewrite decide_True by done. cbn [i2c_state_machine_loop]. fold (TWI0_vect (hw_step I2C0_BASE_ADDR s)).
  destruct (decide _) as [Hn|Hn]; [by apply IH|]. cbn [poll_end]. by rewrite decide_False.
Qed.

(** The machine writes the registers of the device it is given only. *)
Lemma machine_other_device dev d i s : d ≠ dev → dev_of (i2c_state_machine dev i s) d = dev_of s d.
Proof.
  intros Hd. assert (∀ f s, dev_of (upd_dev dev f s) d = dev_of s d) as Hu
    by (intros f s'; unfold dev_of at 1, upd_dev; cbn [i2c_regs]; by rewrite lookup_total_insert_ne).
  unfold i2c_state_machine, send_next, reply_next, transfer_stop, TWI_REPLY, TWI_START, TWI_STOP, set_error, incr_cursor,
    store_data.
  repeat case_match; rewrite ?Hu, ?dev_upd_ctx, ?Hu; done.
Qed.

(** The interrupt of the second device does not touch that device: its
    TWINT stays set and the transfer of the second context makes no progress
    on its bus. *)
Theorem TWI1_vect_second_device s : dev_of (TWI1_vect s) I2C1_BASE_ADDR = dev_of s I2C1_BASE_ADDR ∧
  i2c_bus (TWI1_vect s) = i2c_bus s.
Proof.
  split; [by apply machine_other_device|]. unfold TWI1_vect, i2c_state_machine, send_next, reply_next, transfer_stop,
    set_error, store_data. repeat case_match; done.
Qed.
End I2c.

(** ** Instances *)

(** The default configuration on an ATmega328PB: polling, buffers of 7 bytes. *)
#[export] Instance w_i2c_config : I2cConfig := {
  CONFIG_I2C_INTERRUPT_DRIVEN := false; CONFIG_I2C_BLOCKING := true; CONFIG_I2C_LAST_ERROR := true;
  CONFIG_I2C_MAX_BUF_LEN_BITS := 3; I2C0_DEVICE_ENABLED := true; I2C1_DEVICE_ENABLED := true;
  MCU_I2C_COUNT := 2; PRTWI0 := 7; PRTWI1 := 5 }.

(** A slave at address [a] that acknowledges everything. *)
Record w_bus := { b_ph : phase; b_sent : list Z; b_supply : list Z }.
Definition w_slave (a : Z) (r : I2C_Device) (b : w_bus) : I2C_Device * w_bus :=
  let go st p := (with_TWSR st r, {| b_ph := p; b_sent := b_sent b; b_supply := b_supply b |}) in
  if Z.testbit (TWCRn r) TWSTA then go TW_START Started
  else match b_ph b with
       | Started => if TWDRn r =? 2 * a then go TW_MT_SLA_ACK Writing
                    else if TWDRn r =? 2 * a + 1 then go TW_MR_SLA_ACK Reading else go TW_MT_SLA_NACK Free
       | Writing => (with_TWSR TW_MT_DATA_ACK r,
                     {| b_ph := Writing; b_sent := b_sent b ++ [TWDRn r]; b_supply := b_supply b |})
       | Reading => let st := if Z.testbit (TWCRn r) TWEA then TW_MR_DATA_ACK else TW_MR_DATA_NACK in
                    (with_TWDR (default 0xFF (head (b_supply b))) (with_TWSR st r),
                     {| b_ph := Reading; b_sent := b_sent b; b_supply := tail (b_supply b) |})
       | Free => (r, b)
       end.

Section Slave.
Variable a : Z.
#[local] Instance w_slave_twi : Twi w_bus := w_slave a.
#[local] Instance w_slave_acks : AckingSlave a.
Proof.
  refine {| ph := b_ph; sent := b_sent; supply := b_supply |}.
  all: intros r b r' b'; cbv [twi_next w_slave_twi w_slave].
  - intros -> E. change (Z.testbit CR_START TWSTA) with true in E; cbv iota in E. simplify_eq.
    split; [by left|done].
  - intros Hp -> -> E. change (Z.testbit (CR_REPLY true) TWSTA) with false in E; cbv iota in E. rewrite Hp, Z.eqb_refl in E. by simplify_eq.
  - intros Hp -> -> E. change (Z.testbit (CR_REPLY true) TWSTA) with false in E; cbv iota in E.
    rewrite Hp, Z.eqb_refl, (proj2 (Z.eqb_neq _ _)) in E by lia. by simplify_eq.
  - intros Hp -> E. change (Z.testbit (CR_REPLY true) TWSTA) with false in E; cbv iota in E. rewrite Hp in E. by simplify_eq.
  - intros ack v vs Hp -> Hs E. rewrite Hp, Hs in E. by destruct ack; vm_compute in E; simplify_eq.
Defined.

Definition w_i2c (supply : list Z) : i2c_sys := {|
  i2c_regs := ∅; i2c_contexts := {[0 := {| x_buf := NULL; sla_w := 0; cursor := 0; state := READY; write_len := 0;
    read_len := 0; x_error := 0 |}]};
  i2c_mem := list_to_map (zip (ptr_add (Ptr 64 0) <$> [0; 1; 2; 3; 4; 5]) [10; 11; 12; 13; 14; 15]);
  i2c_ports := ∅; PRR0 := 0xFF; PRR1 := 0xFF;
  i2c_bus := {| b_ph := Free; b_sent := []; b_supply := supply |} |}.
End Slave.

(** A bus with nothing on it. *)
Definition w_nobody (r : I2C_Device) (b : w_bus) : I2C_Device * w_bus :=
  (with_TWSR (if Z.testbit (TWCRn r) TWSTA then TW_START
              else if Z.odd (TWDRn r) then TW_MR_SLA_NACK else TW_MT_SLA_NACK) r, b).

(** Three bytes written, two read back into the same buffer: the slave
    receives the first and the third. *)
Lemma i2c_transfer_witness : ∃ s',
  @i2c_run w_config w_i2c_config w_bus (w_slave_twi 0x49) 16 I2C0_BASE_ADDR 0x49 (Ptr 64 0) 3 2 (w_i2c [1; 2; 3]) = Some (0, s') ∧
  b_sent (i2c_bus s') = [10; 12] ∧ read_bytes (i2c_mem s') (Ptr 64 0) 4 = [1; 2; 12; 13] ∧ b_supply (i2c_bus s') = [3].
Proof.
  destruct (@i2c_transfer_spec w_config w_i2c_config w_bus (w_slave_twi 0x49) I2C0_BASE_ADDR 0 eq_refl 0x49
    (w_slave_acks 0x49) 16 (Ptr 64 0) 3 2 (w_i2c [1; 2; 3])) as (s' & E & _ & _ & _ & Hl & Hm & Hs);
    [done|done|done|done|done|done|vm_compute; lia|vm_compute; lia|].
  exists s'. split; [exact E|]. split; [exact Hl|]. split; [rewrite Hm; by vm_compute|exact Hs].
Defined.

Lemma i2c_full_write_witness :
  @i2c_run w_config w_i2c_config w_bus (w_slave_twi 0x49) 1000 I2C0_BASE_ADDR 0x49 (Ptr 64 0) 7 0 (w_i2c []) = None.
Proof.
  apply (@i2c_full_write_never_ends w_config w_i2c_config w_bus (w_slave_twi 0x49) I2C0_BASE_ADDR 0 eq_refl 0x49
    (w_slave_acks 0x49) 1000 (Ptr 64 0) 0 (w_i2c [])); done.
Defined.

Lemma i2c_no_slave_witness : ∃ s',
  @i2c_run w_config w_i2c_config w_bus w_nobody 2 I2C0_BASE_ADDR 0x49 (Ptr 64 0) 3 2 (w_i2c []) = Some (- EIO, s') ∧
  @i2c_last_error w_config w_i2c_config w_bus I2C0_BASE_ADDR s' = I2C_ERROR_ADDR.
Proof.
  destruct (@i2c_no_slave w_config w_i2c_config w_bus w_nobody I2C0_BASE_ADDR 0 eq_refl 0x49 2 (Ptr 64 0) 3 2 (w_i2c []))
    as (s' & E & _ & He & _); try done.
  - intros rg b E. cbv zeta. left. unfold w_nobody, twi_next. rewrite E. by vm_compute.
  - intros rg b E _. unfold w_nobody, twi_next. rewrite E. cbn [fst]. by destruct (Z.odd _); vm_compute.
  - by exists s'.
Defined.

Lemma i2c_lifecycle_witness :
  let '(ret, s1) := @i2c_init w_i2c_config w_bus I2C0_BASE_ADDR 0 72 (w_i2c []) in
  let '(ret', s2) := @i2c_deinit w_i2c_config w_bus I2C0_BASE_ADDR s1 in
  ret = 0 ∧ @i2c_status w_config w_i2c_config w_bus I2C0_BASE_ADDR s1 = 0 ∧ TWBRn (dev_of s1 I2C0_BASE_ADDR) = 72 ∧
  TWSRn (dev_of s1 I2C0_BASE_ADDR) = 0 ∧ TWCRn (dev_of s1 I2C0_BASE_ADDR) = Z.lor (BIT TWINT) (BIT TWEN) ∧
  ret' = 0 ∧ TWCRn (dev_of s2 I2C0_BASE_ADDR) = 0 ∧
  @i2c_run w_config w_i2c_config w_bus w_nobody 2 I2C0_BASE_ADDR 0x49 (Ptr 64 0) 3 2 s2 = Some (- EBUSY, s2).
Proof.
  exact (@i2c_lifecycle w_config w_i2c_config w_bus w_nobody I2C0_BASE_ADDR 0 eq_refl 0 72 (w_i2c []) 2 0x49 (Ptr 64 0) 3 2
    eq_refl).
Defined.
