(* ===== verification/Tcn75.v ===== *)
(** * TCN75 temperature sensor (devices/tcn75.c)

    A client of the I2C driver: the buffers on the stack of the functions are
    at an address given as a parameter. *)

From S2P Require Import Prelude Types Bytes World Atomic Gpio I2c.

Definition TCN75_ADDR_BASE : Z := 0x49.
Definition TCN75_TEMPERATURE_REGISTER : Z := 0.
Definition TCN75_CONFIG_REGISTER : Z := 1.
Definition INT16_MAX : Z := 32767.
Definition INT16_MIN : Z := -32768.

Record tcn75_device := { tcn_addr : Z; tcn_config : Z; tcn_i2c : Z }.

(** [(100.0 / 16) * abs] is computed in floating point: 6.25 and the products
    by an integer below 2048 are exact in single precision, and the conversion
    to [int16_t] truncates. *)
Definition tcn75_temp2int16 (msb lsb : Z) : Z :=
  let neg := Z.shiftr msb 7 in
  let abs := u16 (Z.lor (Z.shiftl msb 4) (Z.shiftr lsb 4)) in
  let abs := if neg =? 0 then abs else u16 (Z.lnot abs + 1) in
  let abs := Z.land abs 0x7ff in
  let i16_temp := s16 (abs * 25 / 4) in
  if neg =? 0 then i16_temp else s16 (- i16_temp).

Section Tcn75.
Context `{Config, I2cConfig} {B : Type} `{Twi B}.

(** The functions take a pointer: [None] is [NULL], and what is found there
    without the check of the arguments is zeroes. *)
Definition is_dev (tcn75 : option tcn75_device) : bool := if tcn75 is Some _ then true else false.
Definition tcn75_at (tcn75 : option tcn75_device) : tcn75_device :=
  default {| tcn_addr := 0; tcn_config := 0; tcn_i2c := 0 |} tcn75.

Definition tcn75_init_context (tcn75 : option tcn75_device) (addr_lsb config i2c : Z) : Z * option tcn75_device :=
  if negb (z_user (is_dev tcn75)) then (- EINVAL, tcn75)
  else (0, Some {| tcn_addr := Z.lor (Z.land addr_lsb 0x07) TCN75_ADDR_BASE; tcn_config := config; tcn_i2c := i2c |}).

Definition store_buf (buf : word) (l : list Z) : @i2c_sys B → i2c_sys := upd_i2c_mem (λ m, put_bytes m buf 0 l).

Definition tcn75_configure (fuel : nat) (buf : word) (tcn75 : option tcn75_device) (s : i2c_sys) : option (Z * i2c_sys) :=
  if negb (z_user (is_dev tcn75)) then Some (- EINVAL, s)
  else
    let s := store_buf buf [TCN75_CONFIG_REGISTER; tcn_config (tcn75_at tcn75)] s in
    i2c_master_write fuel (tcn_i2c (tcn75_at tcn75)) (tcn_addr (tcn75_at tcn75)) buf 2 s.

Definition tcn75_select_data_register (fuel : nat) (buf : word) (tcn75 : option tcn75_device) (s : i2c_sys)
  : option (Z * i2c_sys) :=
  if negb (z_user (is_dev tcn75)) then Some (- EINVAL, s)
  else
    let s := store_buf buf [TCN75_TEMPERATURE_REGISTER] s in
    i2c_master_write fuel (tcn_i2c (tcn75_at tcn75)) (tcn_addr (tcn75_at tcn75)) buf 1 s.

Definition temperature_of (buf : word) (r : Z * @i2c_sys B) : Z * i2c_sys :=
  let '(ret, s) := r in
  (if ret =? 0 then tcn75_temp2int16 (rdb (i2c_mem s) (ptr_add buf 0)) (rdb (i2c_mem s) (ptr_add buf 1)) else INT16_MAX, s).

Definition tcn75_read (fuel : nat) (buf : word) (tcn75 : option tcn75_device) (s : i2c_sys) : option (Z * i2c_sys) :=
  if negb (z_user (is_dev tcn75)) then Some (INT16_MIN, s)
  else
    let s := store_buf buf [0; 0] s in
    temperature_of buf <$> i2c_master_read fuel (tcn_i2c (tcn75_at tcn75)) (tcn_addr (tcn75_at tcn75)) buf 2 s.

Definition tcn75_select_read (fuel : nat) (buf : word) (tcn75 : option tcn75_device) (s : i2c_sys) : option (Z * i2c_sys) :=
  if negb (z_user (is_dev tcn75)) then Some (INT16_MIN, s)
  else
    let s := store_buf buf [TCN75_TEMPERATURE_REGISTER; 0] s in
    temperature_of buf <$> i2c_master_write_read fuel (tcn_i2c (tcn75_at tcn75)) (tcn_addr (tcn75_at tcn75)) buf 1 2 s.
End Tcn75.

(** ** The conversion *)

(** The reading of the sensor: a 12-bit two's complement number of 1/16
    degrees. *)
Definition tcn75_raw (msb lsb : Z) : Z :=
  let x := 16 * msb + lsb / 16 in if x <? 2048 then x else x - 4096.

Definition conversion_ok (msb lsb : Z) : bool :=
  tcn75_temp2int16 msb lsb
  =? if tcn75_raw msb lsb =? -2048 then 0 else Z.quot (100 * tcn75_raw msb lsb) 16.

Lemma conversion_ok_all :
  forallb (λ m, forallb (λ l, conversion_ok (Z.of_nat m) (Z.of_nat l)) (seq 0 256)) (seq 0 256) = true.
Proof. vm_compute. reflexivity. Qed.

(** Every reading is converted to hundredths of a degree, rounded towards 0;
    the lowest one, -128 degrees, is converted to 0. *)
Theorem tcn75_temp2int16_spec msb lsb : 0 <= msb < 256 → 0 <= lsb < 256 →
  tcn75_temp2int16 msb lsb = if tcn75_raw msb lsb =? -2048 then 0 else Z.quot (100 * tcn75_raw msb lsb) 16.
Proof.
  intros Hm Hl. apply Z.eqb_eq. fold (conversion_ok msb lsb).
  pose proof (proj1 (forallb_forall _ _) conversion_ok_all (Z.to_nat msb)) as Hc. cbn beta in Hc.
  rewrite forallb_forall in Hc. specialize (Hc ltac:(apply in_seq; lia) (Z.to_nat lsb) ltac:(apply in_seq; lia)).
  by rewrite !Z2Nat.id in Hc by lia.
Qed.

Lemma tcn75_temp2int16_witness : tcn75_temp2int16 0xE7 0x00 = -2500 ∧ tcn75_temp2int16 0x80 0x00 = 0.
Proof. split; [apply (tcn75_temp2int16_spec 0xE7 0x00)|apply (tcn75_temp2int16_spec 0x80 0x00)]; lia. Defined.

(** ** The sensor behind the driver *)
Section Sensor.
Context `{Config, I2cConfig} {B : Type} `{Twi B}.
Variables (d : tcn75_device) (i : Z) (buf : word) (s : @i2c_sys B) (fuel : nat).
Context `{!AckingSlave (tcn_addr d)}.
Hypothesis (Hdev : i2c_get_context (tcn_i2c d) = Some i) (Hpoll : CONFIG_I2C_INTERRUPT_DRIVEN = false)
  (Hready : state (ctx_of s i) = READY) (Hbuf : nonnull buf = true) (Haddr : 0 <= tcn_addr d < 128)
  (Hmax : 2 <= CONFIG_I2C_MAX_BUF_LEN_BITS) (Hfuel : (8 <= fuel)%nat).

Lemma max_buf : 3 <= I2C_MAX_BUF_LEN.
Proof. unfold I2C_MAX_BUF_LEN. pose proof (Z.pow_le_mono_r 2 2 CONFIG_I2C_MAX_BUF_LEN_BITS). lia. Qed.

Lemma rdb_put2 m x y :
  rdb (put_bytes m buf 0 [x; y]) (ptr_add buf 0) = x ∧ rdb (put_bytes m buf 0 [x; y]) (ptr_add buf 1) = y.
Proof.
  cbn [put_bytes]. unfold rdb. change (0 + 1) with 1. rewrite lookup_insert_ne by (destruct buf; cbn; intros [=]; lia).
  by rewrite !lookup_insert_eq.
Qed.

(** Selecting the register and reading it returns the temperature the sensor
    holds. *)
Theorem tcn75_select_read_spec msb lsb sup : supply (i2c_bus s) = msb :: lsb :: sup →
  ∃ s', tcn75_select_read fuel buf (Some d) s = Some (tcn75_temp2int16 msb lsb, s') ∧
    sent (i2c_bus s') = sent (i2c_bus s) ++ [TCN75_TEMPERATURE_REGISTER] ∧ supply (i2c_bus s') = sup ∧
    i2c_status (tcn_i2c d) s' = 0.
Proof.
  intros Hs. pose proof max_buf. unfold tcn75_select_read. rewrite z_user_true by done. cbn [tcn75_at default from_option id].
  destruct (i2c_transfer (tcn_i2c d) i Hdev (tcn_addr d) fuel buf 1 2 (store_buf buf [TCN75_TEMPERATURE_REGISTER; 0] s))
    as (s' & E & Hst & _ & _ & Hl & Hm & Hsup); try (done || lia).
  { change (i2c_bus (store_buf _ _ s)) with (i2c_bus s). rewrite Hs. cbn. lia. }
  exists s'. unfold i2c_master_write_read. rewrite E. cbn [fmap option_fmap option_map temperature_of Z.eqb].
  change (i2c_bus (store_buf _ _ s)) with (i2c_bus s) in *. rewrite Hs in Hm, Hsup.
  destruct (rdb_put2 (i2c_mem (store_buf buf [TCN75_TEMPERATURE_REGISTER; 0] s)) msb lsb) as [E0 E1].
  change (put_bytes _ _ _ _) with (put_bytes (i2c_mem (store_buf buf [TCN75_TEMPERATURE_REGISTER; 0] s)) buf 0 [msb; lsb]) in Hm.
  rewrite Hm, E0, E1. split_and!; try done. rewrite Hl. f_equal.
  exact (f_equal (λ v, [v]) (proj1 (rdb_put2 (i2c_mem s) TCN75_TEMPERATURE_REGISTER 0))).
Qed.

(** Configuring the sensor selects its configuration register and never sends
    the configuration. *)
Theorem tcn75_configure_sends_no_config : ∃ s', tcn75_configure fuel buf (Some d) s = Some (0, s') ∧
  sent (i2c_bus s') = sent (i2c_bus s) ++ [TCN75_CONFIG_REGISTER] ∧ i2c_status (tcn_i2c d) s' = 0.
Proof.
  pose proof max_buf. unfold tcn75_configure. rewrite z_user_true by done. cbn [tcn75_at default from_option id].
  destruct (i2c_transfer (tcn_i2c d) i Hdev (tcn_addr d) fuel buf 2 0
    (store_buf buf [TCN75_CONFIG_REGISTER; tcn_config d] s)) as (s' & E & Hst & _ & _ & Hl & _ & _);
    try (done || lia); [cbn; lia|].
  exists s'. unfold i2c_master_write. rewrite E. split_and!; try done. rewrite Hl. f_equal.
  exact (f_equal (λ v, [v]) (proj1 (rdb_put2 (i2c_mem s) TCN75_CONFIG_REGISTER (tcn_config d)))).
Qed.
End Sensor.

Definition w_tcn : tcn75_device := {| tcn_addr := 0x49; tcn_config := 0x60; tcn_i2c := I2C0_BASE_ADDR |}.
Definition w_tcn_sys : @i2c_sys w_bus := w_i2c [0x19; 0x80].

Lemma w_bounds : 0 <= 0x49 < 128 ∧ 2 <= 3.
Proof. lia. Qed.

Lemma tcn75_select_read_witness : ∃ s',
  @tcn75_select_read w_config w_i2c_config w_bus (w_slave_twi 0x49) 8 (Ptr 65 0) (Some w_tcn) w_tcn_sys = Some (2550, s').
Proof.
  destruct (@tcn75_select_read_spec w_config w_i2c_config w_bus (w_slave_twi 0x49) w_tcn 0 (Ptr 65 0) w_tcn_sys 8
    (w_slave_acks 0x49) eq_refl eq_refl eq_refl eq_refl (proj1 w_bounds) (proj2 w_bounds) (le_n 8) 0x19 0x80 [] eq_refl)
    as (s' & E & _).
  exists s'. exact E.
Defined.

Lemma tcn75_configure_witness : ∃ s',
  @tcn75_configure w_config w_i2c_config w_bus (w_slave_twi 0x49) 8 (Ptr 65 0) (Some w_tcn) w_tcn_sys = Some (0, s') ∧
  b_sent (i2c_bus s') = [1].
Proof.
  destruct (@tcn75_configure_sends_no_config w_config w_i2c_config w_bus (w_slave_twi 0x49) w_tcn 0 (Ptr 65 0) w_tcn_sys 8
    (w_slave_acks 0x49) eq_refl eq_refl eq_refl eq_refl (proj1 w_bounds) (proj2 w_bounds) (le_n 8)) as (s' & E & Hs & _).
  exists s'. split; [exact E|exact Hs].
Defined.

(** The sensors of addresses 0 and 1 are the same device for the driver: bit 0
    of the base address is set. *)
Lemma tcn75_address_bit0 addr_lsb config i2c :
  (tcn_addr <$> (@tcn75_init_context w_config (Some w_tcn) addr_lsb config i2c).2) = Some (Z.lor (Z.land addr_lsb 0x06) 0x49).
Proof.
  cbn. f_equal. apply Z.bits_inj'. intros n Hn. rewrite !Z.lor_spec, !Z.land_spec.
  destruct (decide (n = 0)) as [->|Hn0]; [by rewrite !orb_true_r|].
  f_equal. f_equal. change 7 with (2 * 3 + 1). change 6 with (2 * 3).
  rewrite <- (Z.succ_pred n). by rewrite Z.testbit_odd_succ, Z.testbit_even_succ by lia.
Qed.
