(* ===== verification/Client.v ===== *)
(** * Clients of the kernel

    Modules above the kernel keep state of their own (registers of a
    peripheral, static variables) and call functions that may switch threads.
    [SM S A] is a computation of a thread on a state [S] and the kernel;
    [resumes] says that it runs to its end whatever the other threads do, as
    long as they keep the kernel invariant and an invariant [J]. *)

From S2P Require Import Prelude Dlist Delta Tqueue Types Event Timer Kernel KernelInv KernelSpec World Mutex.

(** ** State and kernel *)

(** What happens to the state [S] while the thread does not run. *)
Class Elsewhere (S : Type) := while_away : S → S.

Section Monad.
Context {S : Type} `{Elsewhere S}.

Definition SM (A : Type) : Type := S → M (A * S).
Definition sret {A} (a : A) : SM A := λ s, ret (a, s).
Definition sbind {A B} (m : SM A) (f : A → SM B) : SM B := λ s, bind (m s) (λ '(a, s'), f a s').
Definition sget : SM S := λ s, ret (s, s).
Definition smodify (f : S → S) : SM unit := λ s, ret (tt, f s).

(** A kernel call.  The state is the caller's: when the call gives the CPU
    away, [while_away] says what became of it. *)
Fixpoint carry {A} (s : S) (r : res A) : res (A * S) :=
  match r with
  | Done a k => Done (a, s) k
  | Susp k f => Susp k (λ k', carry (while_away s) (f k'))
  | Fault n k => Fault n k
  | NoFuel => NoFuel
  end.
Definition lift {A} (m : M A) : SM A := λ s k, carry s (m k).

(** A step on the state alone; [None] is a wait that never ends. *)
Definition local {A} (f : S → option (A * S)) : SM A := λ s k,
  match f s with Some x => Done x k | None => NoFuel end.
End Monad.
#[global] Arguments SM S A : clear implicits.

Declare Scope client_scope.
Delimit Scope client_scope with client.
#[global] Open Scope client_scope.
Notation "'do*' x := c 'in' d" := (sbind c (λ x, d))
  (at level 200, x pattern, c at level 200, d at level 200) : client_scope.

Lemma local_some {S A} (f : S → option (A * S)) s k x : f s = Some x → local f s k = Done x k.
Proof. unfold local. by intros ->. Qed.
Lemma sbind_done {S A B} (m : SM S A) (f : A → SM S B) s k a s' k' :
  m s k = Done (a, s') k' → sbind m f s k = f a s' k'.
Proof. unfold sbind, bind. by intros ->. Qed.
Lemma lift_done {S A} `{Elsewhere S} (m : M A) (s : S) k a k' : m k = Done a k' → lift m s k = Done (a, s) k'.
Proof. unfold lift. by intros ->. Qed.

(** ** Running to the end *)
Section Resumes.
Context `{Layout, Config, Handlers}.
Variables (F : mem) (c : word) (D : gset word).

(** The thread [c] runs, and its wait node is not left over from a wait that
    timed out (the kernel unlinks it again when the next delay of the thread
    expires).  The wait queues of [D] exist. *)
Definition here (k : kstate) : Prop :=
  ∃ T rs ts Q, Inv F k T (c :: rs) ts Q ∧ current k = c ∧ can_idle rs ∧ benign (links k) c ∧ D ⊆ dom Q.
(** It does not. *)
Definition away (k : kstate) : Prop := ∃ T rs ts Q, Inv F k T rs ts Q ∧ c ∉ rs ∧ D ⊆ dom Q.

Section Rely.
Variable J : kstate → Prop.
Hypothesis J_objs : ∀ k k', kobjs k' = kobjs k → J k → J k'.

Fixpoint resumes {A} (P : A → kstate → Prop) (r : res A) : Prop :=
  match r with
  | Done a k => P a k
  | Susp k f => away k ∧ J k ∧ ∀ k', here k' → J k' → resumes P (f k')
  | Fault _ _ => False
  | NoFuel => False
  end.

Lemma resumes_impl {A} (P P' : A → kstate → Prop) r :
  resumes P r → (∀ a k, P a k → P' a k) → resumes P' r.
Proof. intros Hr Hp. induction r as [a k|k f IH|n k|]; cbn in *; [by apply Hp| |done|done]. naive_solver. Qed.

Lemma resumes_rbind {A B} (P : A → kstate → Prop) (P' : B → kstate → Prop) (f : A → M B) r :
  resumes P r → (∀ a k, P a k → resumes P' (f a k)) → resumes P' (rbind r f).
Proof. intros Hr Hp. induction r as [a k|k g IH|n k|]; cbn in *; [by apply Hp| |done|done]. naive_solver. Qed.

Lemma resumes_sbind {S A B} (P : A * S → kstate → Prop) (P' : B * S → kstate → Prop) (m : SM S A) (f : A → SM S B) s k :
  resumes P (m s k) → (∀ a s' k', P (a, s') k' → resumes P' (f a s' k')) → resumes P' (sbind m f s k).
Proof. intros Hm Hf. unfold sbind, bind. eapply resumes_rbind; [exact Hm|]. intros [a s'] k'. apply Hf. Qed.

(** A kernel call that leaves the thread at most once. *)
Lemma resumes_suspends {A} (P : A → kstate → Prop) (r : res A) k' post :
  suspends r k' post → away k' → J k' → (∀ k2, here k2 → J k2 → resumes P (post k2)) → resumes P r.
Proof. intros (cont&->&Hc) Ha Hj Hp. cbn. split_and!; [done|done|]. intros k2 Hh Hj2. rewrite Hc. by apply Hp. Qed.

Lemma here_sreg b k : here k → here (set_sreg_i b k).
Proof. intros (T&rs&ts&Q&Hi&?&?&?&?). exists T, rs, ts, Q. split_and!; try done. by apply Inv_sreg. Qed.

Lemma here_objs k k' : here k → links k' = links k → threads k' = threads k → wqflags k' = wqflags k →
  current k' = current k → ready_count k' = ready_count k → run_queue k' = run_queue k → here k'.
Proof.
  intros (T&rs&ts&Q&Hi&?&?&?&?) E1 E2 E3 E4 E5 E6. exists T, rs, ts, Q. split_and!; [|congruence|done|by rewrite E1|done].
  by eapply Inv_objs.
Qed.

(** [k_sleep] comes back. *)
Lemma k_sleep_suspends timeout k : here k → 0 <= timeout < 65536 →
  ∃ k', suspends (k_sleep timeout k) k' (λ k2, Done tt (set_sreg_i (sreg_i k) k2)) ∧ away k' ∧ kobjs k' = kobjs k ∧
    sreg_i k' = false.
Proof.
  intros (T&rs&ts&Q&Hi&Hc&Hid&Hb&HD) Ht. pose proof (inv_links _ _ _ _ _ _ _ Hi) as Hl.
  destruct (links_rest_T _ _ _ _ _ _ _ _ Hl) as (HcT&Hcrs&Hcts).
  destruct (inv_flags _ _ _ _ _ _ _ Hi c) as (Hr&Hwk&_); [done|done|].
  pose proof (Inv_sreg _ false _ _ _ _ _ Hi) as Hi0.
  destruct (z_pend_current_spec F timeout (set_sreg_i false k) T c rs ts Q) as (k'&E&Hi'&Hcur&[Hk Hsr]&_&_);
    try done; [by apply Inv_open|apply Hr; by left| |by right|].
  { destruct (decide (Z.land (flags (thr (set_sreg_i false k) c)) Z_THREAD_WAKEUP_SCHED_MSK = 0)) as [|Hn]; [done|].
    exfalso. apply Hcts. by apply Hwk. }
  exists k'. split_and!; [|by exists T, (rq_leave rs), (tmo_add timeout c ts), Q; rewrite rq_leave_elem|done|done].
  unfold k_sleep. rewrite bind_irq_lock. eapply suspends_ext; [apply suspends_bind; rewrite E; apply suspends_intro|done].
Qed.

Lemma k_sleep_resumes {S} `{Elsewhere S} timeout (s : S) (P : unit * S → kstate → Prop) k :
  here k → J k → 0 <= timeout < 65536 → (∀ k', here k' → J k' → P (tt, while_away s) k') →
  resumes P (lift (k_sleep timeout) s k).
Proof.
  intros Hh Hj Ht Hp. destruct (k_sleep_suspends timeout k Hh Ht) as (k'&(cont&E&Hcont)&Ha&Hk&_).
  unfold lift. rewrite E. cbn. split_and!; [done|by apply (J_objs k)|]. intros k2 Hh2 Hj2. rewrite Hcont. cbn.
  apply Hp; [by apply here_sreg|by apply (J_objs k2)].
Qed.
End Rely.

(** ** A mutex around the client's operations *)
Definition owns (m : word) (k : kstate) : Prop := mutex k m = {| lock := 1; owner := c |}.

Lemma owns_objs m k k' : kobjs k' = kobjs k → owns m k → owns m k'.
Proof. unfold owns, mutex, kobjs. intros E. by replace (mutexes k') with (mutexes k) by congruence. Qed.

(** The state with the mutex taken. *)
Definition locked (m : word) (k : kstate) : kstate := upd_mutex m (λ _, {| lock := 1; owner := current k |}) k.

Lemma client_lock {S} `{Elsewhere S} m timeout (s : S) k : here k → m ≠ NULL → lock (mutex k m) = 0 →
  lift (k_mutex_lock m timeout) s k = Done (0, s) (locked m k) ∧ here (locked m k) ∧ owns m (locked m k).
Proof.
  intros Hh Hm Hl. split; [apply lift_done; by apply k_mutex_lock_free|]. split; [by eapply here_objs|].
  unfold owns, locked. rewrite mutex_upd_eq. by destruct Hh as (?&?&?&?&?&->&_).
Qed.

(** From [k] to [k'] the thread gives the mutex up: it is free and no queue
    changes when nobody waits for it; else the thread that has waited longest
    is ready after the caller, out of the wait queue and of the time queue,
    and its wait ends in 0, upon which it is the owner ([lock_resume]). *)
Definition released (m : word) (k k' : kstate) : Prop :=
  ∀ T rs ts Q ws, Inv F k T (c :: rs) ts Q → Q !! mutex_waitqueue m = Some ws →
  match ws with
  | [] => Inv F k' T (c :: rs) ts Q ∧ mutex k' m = {| lock := Z_MUTEX_UNLOCKED_VALUE; owner := NULL |}
  | t :: ws' => Inv F k' T (c :: t :: rs) (tmo_del t ts) (<[mutex_waitqueue m := ws']> Q) ∧
      mutex k' m = {| lock := 1; owner := c |} ∧
      (Z.land (flags (thr k t)) SCHED_CLR = 0 → pend_result (flags (thr k' t)) = 0)
  end.

Lemma unlock_released m k t k' : m ≠ NULL → owns m k → current k = c → k_mutex_unlock m k = Done t k' → released m k k'.
Proof.
  intros Hm Ho Hc E T rs ts Q ws Hi Hw.
  assert (owner (mutex k m) = current k ∧ lock (mutex k m) = 1) as [Ho1 Ho2] by (rewrite Ho, Hc; done).
  destruct ws as [|t' ws].
  - destruct (k_mutex_unlock_alone F m k _ _ _ _ Hi Hm Hw Ho1 Ho2) as (m'&Ha&E'). rewrite E in E'. injection E' as _ ->.
    split; [by apply Inv_upd_mutex, Inv_set_links|]. by rewrite mutex_upd_eq.
  - destruct (k_mutex_unlock_waiter F m k _ _ _ _ _ _ Hi Hm Hw Ho1 Ho2) as (k2&E'&Hi'&Hk&_&_&Hfl).
    rewrite E in E'. injection E' as _ ->. split; [exact Hi'|]. rewrite (mutex_keeps m _ _ Hk), Hfl. split; [exact Ho|].
    apply pend_result_wake.
Qed.

(** An operation that locks the mutex and unlocks it at once. *)
Lemma released_locked m k k' : released m (locked m k) k' → released m k k'.
Proof. intros Hr T rs ts Q ws Hi Hw. apply (Hr T rs ts Q ws); [by apply Inv_upd_mutex|done]. Qed.

(** The mutex is free again when nobody waited for it. *)
Lemma released_free m k k' T rs ts Q : released m k k' → Inv F k T (c :: rs) ts Q → Q !! mutex_waitqueue m = Some [] →
  mutex k' m = {| lock := 0; owner := NULL |}.
Proof. intros Hr Hi Hw. exact (proj2 (Hr _ _ _ _ _ Hi Hw)). Qed.

(** The unlock completes, the mutex is released and the thread still runs. *)
Definition unlocked (m : word) (k k' : kstate) : Prop :=
  current k' = c ∧ (∃ T rs ts Q, Inv F k' T (c :: rs) ts Q) ∧ released m k k'.

Lemma client_unlock {S} `{Elsewhere S} m (s : S) k : here k → m ≠ NULL → owns m k → mutex_waitqueue m ∈ D →
  ∃ t k', k_mutex_unlock m k = Done t k' ∧ lift (k_mutex_unlock m) s k = Done (t, s) k' ∧ unlocked m k k'.
Proof.
  intros (T&rs&ts&Q&Hi&Hc&_&_&HD) Hm Ho HwD. assert (Hw : is_Some (Q !! mutex_waitqueue m)) by (apply elem_of_dom; set_solver).
  destruct Hw as [ws Hw]. assert (owner (mutex k m) = current k ∧ lock (mutex k m) = 1) as [Ho1 Ho2]
    by (rewrite Ho, Hc; done).
  assert (∃ t k', k_mutex_unlock m k = Done t k' ∧ current k' = c ∧ ∃ T rs ts Q, Inv F k' T (c :: rs) ts Q) as (t&k'&E&Hc'&Hi').
  { destruct ws as [|t ws].
    - destruct (k_mutex_unlock_alone F m k _ _ _ _ Hi Hm Hw Ho1 Ho2) as (m'&Ha&E). eexists _, _. split; [exact E|]. split; [done|].
      exists T, rs, ts, Q. by apply Inv_upd_mutex, Inv_set_links.
    - destruct (k_mutex_unlock_waiter F m k _ _ _ _ _ _ Hi Hm Hw Ho1 Ho2) as (k'&E&Hi'&_&Hc'&_). eexists _, _. split; [exact E|].
      split; [congruence|]. by exists T, (t :: rs), (tmo_del t ts), (<[mutex_waitqueue m := ws]> Q). }
  exists t, k'. split; [done|]. split; [by apply lift_done|]. split; [done|]. split; [done|]. by eapply unlock_released.
Qed.

(** The same as the first and the last step of an operation. *)
Lemma client_enter {S A} `{Elsewhere S} m timeout (f : Z → SM S A) (s : S) k : here k → m ≠ NULL → lock (mutex k m) = 0 →
  sbind (lift (k_mutex_lock m timeout)) f s k = f 0 s (locked m k) ∧ here (locked m k) ∧ owns m (locked m k).
Proof.
  intros Hh Hm Hl. destruct (client_lock m timeout s k Hh Hm Hl) as (E&?&?). split; [|done].
  by rewrite (sbind_done _ _ _ _ _ _ _ E).
Qed.
Lemma client_leave {S A} `{Elsewhere S} m (f : word → SM S A) (s : S) k :
  here k → m ≠ NULL → owns m k → mutex_waitqueue m ∈ D →
  ∃ t k', k_mutex_unlock m k = Done t k' ∧ sbind (lift (k_mutex_unlock m)) f s k = f t s k' ∧ unlocked m k k'.
Proof.
  intros Hh Hm Ho Hw. destruct (client_unlock m s k Hh Hm Ho Hw) as (t&k'&E0&E&?). exists t, k'. split; [done|]. split; [|done].
  by rewrite (sbind_done _ _ _ _ _ _ _ E).
Qed.
End Resumes.

(** Execute the first step of an operation that takes or releases a mutex. *)
Ltac client_lock_tac Hh Hm Hl Hh' Ho' :=
  match goal with
  | |- context [sbind (lift (k_mutex_lock ?m ?t)) ?f ?s ?k] =>
      let E := fresh in
      destruct (client_enter _ _ _ m t f s k Hh Hm Hl) as (E & Hh' & Ho'); rewrite E; clear E; cbv beta
  end.
Ltac client_unlock_tac Hh Hm Ho Hw t k' Eu Hu :=
  match goal with
  | |- context [sbind (lift (k_mutex_unlock ?m)) ?f ?s ?k] =>
      let E := fresh in
      destruct (client_leave _ _ _ m f s k Hh Hm Ho Hw) as (t & k' & Eu & E & Hu); rewrite E; clear E; cbv beta
  end.

(** ** An instance: [t1] of the concrete kernel runs *)

Definition w_D : gset word := {[mutex_waitqueue (w_obj 1)]}.

Lemma w_mutex_in_Q : mutex_waitqueue (w_obj 1) ∈ dom w_Q.
Proof. apply elem_of_dom. by exists []. Qed.

Lemma w_here l o : here w_F t1 w_D (w_mutex l o w_ready).
Proof.
  exists w_T, [t3; t2], [], w_Q. split_and!; [apply Inv_upd_mutex, w_ready_inv|done|by left|by right|].
  intros q ->%elem_of_singleton. apply w_mutex_in_Q.
Qed.
