(* ===== verification/Time.v ===== *)
(** * System time (systime.c, and K_MSEC of defines.h)

    Conversions between ticks and time are in single precision: they are
    translated with the binary32 operations of the Standard Library's
    SpecFloat. *)

From Stdlib Require Import SpecFloat.
From S2P Require Import Prelude Dlist Delta Tqueue Types Event Timer Kernel KernelInv KernelSpec Mutex World Client.

(** ** Single precision *)

Definition f32_of_Z (n : Z) : spec_float := binary_normalize 24 128 n 0 false.
Definition f32_div (x y : spec_float) : spec_float := SFdiv 24 128 x y.
Definition f32_mul (x y : spec_float) : spec_float := SFmul 24 128 x y.

(** Conversion to an integer, towards 0. *)
Definition f32_trunc (x : spec_float) : Z :=
  match x with
  | S754_finite s m e =>
      let n := match e with Zneg _ => Z.div (Zpos m) (2 ^ (- e)) | _ => Zpos m * 2 ^ e end in
      if s then - n else n
  | _ => 0
  end.

Class TimeConfig := {
  CONFIG_KERNEL_SYSCLOCK_PERIOD_US : Z;
  CONFIG_CONFIG_KERNEL_TICKS_COUNTER_40BITS : bool;
  CONFIG_KERNEL_TIME_API_MS_PRECISION : bool;
}.

Section Time.
Context `{Layout, Config, Handlers, TimeConfig}.

Definition K_TICKS_PER_SECOND : spec_float := f32_div (f32_of_Z 1000000) (f32_of_Z CONFIG_KERNEL_SYSCLOCK_PERIOD_US).
Definition K_TICKS_PER_MS : spec_float := f32_div (f32_of_Z 1000) (f32_of_Z CONFIG_KERNEL_SYSCLOCK_PERIOD_US).

(** [K_TICKS] converts to the 16 bits of [k_ticks_t]. *)
Definition K_MSEC (milliseconds : Z) : Z := u16 (f32_trunc (f32_mul K_TICKS_PER_MS (f32_of_Z milliseconds))).

Definition k_msleep (ms : Z) : M unit := k_sleep (K_MSEC ms).

(** ** Uptime and calendar time *)

(** The tick counter and the reference of the calendar time ([z_time_ref]). *)
Record time_sys := { ticks : Z; timestamp : Z; uptime : Z }.

Definition k_ticks_32 (s : time_sys) : Z := u32 (ticks s).
Definition k_ticks_64 (s : time_sys) : Z := ticks s mod 2 ^ 40.

Definition k_uptime_get (s : time_sys) : Z :=
  u32 (f32_trunc (f32_div (f32_of_Z (if CONFIG_CONFIG_KERNEL_TICKS_COUNTER_40BITS then k_ticks_64 s else k_ticks_32 s)) K_TICKS_PER_SECOND)).
Definition k_uptime_get_ms32 (s : time_sys) : Z := u32 (f32_trunc (f32_div (f32_of_Z (k_ticks_32 s)) K_TICKS_PER_MS)).
Definition k_uptime_get_ms64 (s : time_sys) : Z :=
  u64 (f32_trunc (f32_div (f32_of_Z (if CONFIG_CONFIG_KERNEL_TICKS_COUNTER_40BITS then k_ticks_64 s else k_ticks_32 s)) K_TICKS_PER_MS)).

Record timespec := { tv_sec : Z; tv_msec : Z }.
Definition k_uptime_as_timespec_get (s : time_sys) : timespec :=
  let ms := k_uptime_get_ms64 s in {| tv_sec := u32 (ms / 1000); tv_msec := u16 (ms mod 1000) |}.

Context `{Elsewhere time_sys}.
Variable time_mutex : word.

Definition set_ref (ts up : Z) (s : time_sys) : time_sys := {| ticks := ticks s; timestamp := ts; uptime := up |}.

(** [k_uptime_t] is 64 bits wide in milliseconds, 32 in seconds. *)
Definition k_uptime_now (s : time_sys) : Z :=
  if CONFIG_KERNEL_TIME_API_MS_PRECISION then k_uptime_get_ms64 s else k_uptime_get s.

Definition k_time_set (sec : Z) : SM time_sys unit :=
  do* _ := lift (k_mutex_lock time_mutex K_FOREVER) in
  do* s := sget in
  do* _ := smodify (set_ref sec (k_uptime_now s)) in
  do* _ := lift (k_mutex_unlock time_mutex) in
  sret tt.

(** The value computed between the lock and the unlock. *)
Definition time_of (s : time_sys) : Z :=
  if CONFIG_KERNEL_TIME_API_MS_PRECISION
  then u64 (k_uptime_get_ms64 s - uptime s + u64 (timestamp s) * 1000)
  else u32 (k_uptime_get s - uptime s + timestamp s).
Definition k_time_read : SM time_sys Z :=
  do* _ := lift (k_mutex_lock time_mutex K_FOREVER) in
  do* s := sget in
  do* _ := lift (k_mutex_unlock time_mutex) in
  sret (time_of s).

Definition k_time_get : SM time_sys Z :=
  do* t := k_time_read in
  sret (if CONFIG_KERNEL_TIME_API_MS_PRECISION then u32 (t / 1000) else t).
Definition k_time_get_ms : SM time_sys Z :=
  do* t := k_time_read in
  sret (if CONFIG_KERNEL_TIME_API_MS_PRECISION then t else u64 (t * 1000)).

Definition k_time_is_set : SM time_sys bool :=
  do* _ := lift (k_mutex_lock time_mutex K_FOREVER) in
  do* s := sget in
  do* _ := lift (k_mutex_unlock time_mutex) in
  sret (negb (timestamp s =? 0)).

Definition k_time_unset : SM time_sys unit :=
  do* _ := lift (k_mutex_lock time_mutex K_FOREVER) in
  do* _ := smodify (set_ref 0 0) in
  do* _ := lift (k_mutex_unlock time_mutex) in
  sret tt.
End Time.

(** ** Integers below 2^24 are exact *)

Lemma digits_iter p k : digits2_pos (Pos.iter xO p k) = (digits2_pos p + k)%positive.
Proof.
  induction k as [|k IH] using Pos.peano_ind; [cbn; lia|].
  rewrite Pos.iter_succ. cbn [digits2_pos]. rewrite IH. lia.
Qed.
Lemma iter_xO_val p k : Zpos (Pos.iter xO p k) = Zpos p * 2 ^ Zpos k.
Proof.
  induction k as [|k IH] using Pos.peano_ind; [cbn; lia|].
  rewrite Pos.iter_succ, Pos2Z.inj_xO, IH, Pos2Z.inj_succ, Z.pow_succ_r by lia. lia.
Qed.
Lemma digits_bound p : 2 ^ (Zpos (digits2_pos p) - 1) <= Zpos p.
Proof.
  induction p as [p IH|p IH|]; cbn [digits2_pos]; [| |done].
  all: rewrite Pos2Z.inj_succ; replace (Z.succ (Zpos (digits2_pos p)) - 1) with (Z.succ (Zpos (digits2_pos p) - 1)) by lia;
    rewrite Z.pow_succ_r by lia; lia.
Qed.
Lemma digits_24 p : Zpos p < 2 ^ 24 → (digits2_pos p <= 24)%positive.
Proof.
  intros Hp. pose proof (digits_bound p) as Hb. destruct (Z.le_gt_cases (Zpos (digits2_pos p)) 24) as [|Hg]; [lia|].
  pose proof (Z.pow_le_mono_r 2 24 (Zpos (digits2_pos p) - 1)). lia.
Qed.

Lemma fexp_normal e : - 100 <= e → fexp 24 128 e = e - 24.
Proof. unfold fexp, emin. lia. Qed.

(** Rounding does nothing to a mantissa of 24 digits, nor to one with zeroes
    below its 24 digits. *)
Lemma shr_iter m k : SpecFloat.iter_pos shr_1 k {| shr_m := Zpos (Pos.iter xO m k); shr_r := false; shr_s := false |}
  = {| shr_m := Zpos m; shr_r := false; shr_s := false |}.
Proof.
  revert m. assert (∀ k x, SpecFloat.iter_pos shr_1 k x = Pos.iter shr_1 x k) as Hit.
  { clear. intros k. induction k as [k IH|k IH|]; intros x; cbn; rewrite ?IH; [|done|done].
    by rewrite !Pos.iter_swap. }
  intros m. rewrite Hit. revert m. induction k as [|k IH] using Pos.peano_ind; intros m; [done|].
  rewrite Pos.iter_succ_r. rewrite (Pos.iter_succ k _ xO m). cbn [shr_1 orb]. apply IH.
Qed.

Lemma round_normal m e : digits2_pos m = 24%positive → - 100 <= e <= 100 →
  binary_round_aux 24 128 false (Zpos m) e loc_Exact = S754_finite false m e.
Proof.
  intros Hd He. unfold binary_round_aux, shr_fexp. cbn [Zdigits2]. rewrite Hd, fexp_normal by lia.
  replace (24 + e - 24 - e) with 0 by lia. cbn. rewrite Hd, fexp_normal by lia.
  replace (24 + e - 24 - e) with 0 by lia. cbn. rewrite (proj2 (Z.leb_le _ _)) by lia. done.
Qed.
Lemma round_trailing m k e : digits2_pos m = 24%positive → - 50 <= e <= 50 → (k <= 30)%positive →
  binary_round_aux 24 128 false (Zpos (Pos.iter xO m k)) e loc_Exact = S754_finite false m (e + Zpos k).
Proof.
  intros Hd He Hk. unfold binary_round_aux, shr_fexp at 1. cbn [Zdigits2]. rewrite digits_iter, Hd, fexp_normal by lia.
  replace (Zpos (24 + k) + e - 24 - e) with (Zpos k) by lia. cbn [shr shr_record_of_loc].
  rewrite shr_iter. cbn [shr_m loc_of_shr_record round_nearest_even].
  pose proof (round_normal m (e + Zpos k) Hd ltac:(lia)) as Hr. unfold binary_round_aux, shr_fexp at 1 in Hr.
  cbn [Zdigits2] in Hr. rewrite Hd, fexp_normal in Hr by lia.
  replace (24 + (e + Zpos k) - 24 - (e + Zpos k)) with 0 in Hr by lia. cbn [shr shr_record_of_loc shr_m loc_of_shr_record round_nearest_even] in Hr.
  exact Hr.
Qed.

(** The normal form of an integer. *)
Lemma f32_of_Z_normal n : 0 < n < 2 ^ 24 → ∃ m e, f32_of_Z n = S754_finite false m e ∧ digits2_pos m = 24%positive ∧
  -23 <= e <= 0 ∧ Zpos m = n * 2 ^ (- e).
Proof.
  intros Hn. destruct n as [|p|]; [lia| |lia]. pose proof (digits_24 p ltac:(lia)) as Hd.
  unfold f32_of_Z, binary_normalize, binary_round. rewrite fexp_normal by lia. unfold shl_align.
  replace (Zpos (digits2_pos p) + 0 - 24 - 0) with (Zpos (digits2_pos p) - 24) by lia.
  destruct (Zpos (digits2_pos p) - 24) as [|k|k] eqn:Ek; [|lia|].
  - exists p, 0. rewrite round_normal by lia. split_and!; try done; lia.
  - exists (Pos.iter xO p k), (Zneg k). replace (Zpos (digits2_pos p) + 0 - 24) with (Zneg k) by lia.
    assert (digits2_pos (Pos.iter xO p k) = 24%positive) by (rewrite digits_iter; lia).
    rewrite round_normal by (done || lia). split_and!; try (done || lia). rewrite iter_xO_val. done.
Qed.

Definition f32_one : spec_float := S754_finite false 8388608 (-23).

Lemma f32_trunc_exact m e n : e <= 0 → Zpos m = n * 2 ^ (- e) → f32_trunc (S754_finite false m e) = n.
Proof.
  intros He Hm. cbn. destruct e as [|k|k]; [|lia|]; rewrite Hm; [cbn; lia|].
  apply Z.div_mul. pose proof (Z.pow_pos_nonneg 2 (- Zneg k)). lia.
Qed.

Lemma f32_div_one m e : digits2_pos m = 24%positive → -23 <= e <= 0 →
  f32_div (S754_finite false m e) f32_one = S754_finite false m e.
Proof.
  intros Hd He. unfold f32_div, f32_one, SFdiv, SFdiv_core_binary. cbn [Zdigits2]. rewrite Hd.
  change (digits2_pos 8388608) with 24%positive. rewrite fexp_normal by lia.
  replace (24 + e - (24 + -23) - 24) with (e - 1) by lia.
  rewrite Z.min_l by lia. replace (e - -23 - (e - 1)) with 24 by lia.
  rewrite Z.shiftl_mul_pow2 by lia. assert (Zpos m * 2 ^ 24 = Zpos m~0 * 8388608) as -> by lia.
  pose proof (Z.div_mul (Zpos m~0) 8388608 ltac:(lia)) as Hq. pose proof (Z.mod_mul (Zpos m~0) 8388608 ltac:(lia)) as Hr.
  unfold Z.div, Z.modulo in Hq, Hr. destruct (Z.div_eucl _ _) as [q r]. subst q r.
  change (new_location 8388608 0) with loc_Exact. cbn [xorb].
  change (Zpos m~0) with (Zpos (Pos.iter xO m 1)).
  rewrite (round_trailing m 1 (e - 1)) by (done || lia). f_equal. lia.
Qed.

Lemma f32_mul_one m e : digits2_pos m = 24%positive → -23 <= e <= 0 →
  f32_mul f32_one (S754_finite false m e) = S754_finite false m e.
Proof.
  intros Hd He. unfold f32_mul, f32_one, SFmul. cbn [xorb].
  assert (8388608 * m = Pos.iter xO m 23)%positive as -> by (pose proof (iter_xO_val m 23); lia).
  rewrite round_trailing by (done || lia). f_equal. lia.
Qed.

(** ** Ticks of one millisecond *)
Section Millisecond.
Context `{Layout, Config, Handlers, TimeConfig}.
Hypothesis Hperiod : CONFIG_KERNEL_SYSCLOCK_PERIOD_US = 1000.

Lemma ticks_per_ms_one : K_TICKS_PER_MS = f32_one.
Proof. unfold K_TICKS_PER_MS. rewrite Hperiod. vm_compute. reflexivity. Qed.

Lemma ms_exact n : 0 <= n < 2 ^ 24 → f32_trunc (f32_div (f32_of_Z n) f32_one) = n ∧ f32_trunc (f32_mul f32_one (f32_of_Z n)) = n.
Proof.
  intros Hn. destruct (decide (n = 0)) as [->|Hn0]; [by vm_compute|].
  destruct (f32_of_Z_normal n) as (m&e&->&Hd&He&Hm); [lia|]. rewrite f32_div_one, f32_mul_one by done.
  split; apply f32_trunc_exact; (done || lia).
Qed.

(** All of it at once. *)
Lemma uptime_exact s : 0 <= ticks s →
  (ticks s < 2 ^ 24 → k_uptime_get_ms32 s = ticks s ∧ k_uptime_get_ms64 s = ticks s) ∧
  (ticks s = 2 ^ 24 + 1 → k_uptime_get_ms32 s = 2 ^ 24) ∧
  (∀ ms, 0 <= ms < 65536 → K_MSEC ms = ms).
Proof.
  intros Ht. unfold k_uptime_get_ms32, k_uptime_get_ms64, K_MSEC, k_ticks_64, k_ticks_32. rewrite ticks_per_ms_one. split_and!.
  - intros Hlt. rewrite (u32_small (ticks s)), (Z.mod_small (ticks s)) by lia.
    assert ((if CONFIG_CONFIG_KERNEL_TICKS_COUNTER_40BITS then ticks s else ticks s) = ticks s) as -> by by destruct CONFIG_CONFIG_KERNEL_TICKS_COUNTER_40BITS.
    rewrite (proj1 (ms_exact (ticks s) ltac:(lia))). rewrite u32_small by lia. unfold u64. rewrite Z.mod_small; lia.
  - intros ->. by vm_compute.
  - intros ms Hms. rewrite (proj2 (ms_exact ms ltac:(lia))). apply u16_small. lia.
Qed.


(** A tick of one millisecond: delays and uptimes are exact as long as they
    have 24 bits; the uptime of 2^24 + 1 ms is read as 2^24. *)
Theorem uptime_ms_exact s : 0 <= ticks s →
  (ticks s < 2 ^ 24 → k_uptime_get_ms32 s = ticks s ∧ k_uptime_get_ms64 s = ticks s) ∧
  (ticks s = 2 ^ 24 + 1 → k_uptime_get_ms32 s = 2 ^ 24) ∧
  (∀ ms, 0 <= ms < 65536 → K_MSEC ms = ms).
Proof. exact (uptime_exact s). Qed.
End Millisecond.

(** ** Sleeping in a client *)
Section Sleep.
Context `{Layout, Config, Handlers, TimeConfig} {S : Type} `{Elsewhere S}.
Variables (F : mem) (c : word) (D : gset word) (J : kstate → Prop).
Hypothesis J_objs : ∀ k k', kobjs k' = kobjs k → J k → J k'.

Lemma K_MSEC_range ms : 0 <= K_MSEC ms < 65536.
Proof. unfold K_MSEC. apply Z.mod_pos_bound. lia. Qed.

(** A sleep, then [f], on the client's state after the sleep. *)
Lemma msleep_then {A} ms (f : unit → SM S A) (s : S) (P : A * S → kstate → Prop) k :
  here F c D k → J k → (∀ k', here F c D k' → J k' → resumes F c D J P (f tt (while_away s) k')) →
  resumes F c D J P (sbind (lift (k_msleep ms)) f s k).
Proof.
  intros Hh Hj Hf. eapply (resumes_sbind F c D J (λ x k', x = (tt, while_away s) ∧ here F c D k' ∧ J k')).
  - apply k_sleep_resumes; [by apply J_objs|done..|apply K_MSEC_range|]. by intros k' Hh' Hj'.
  - intros [] s' k' ([= ->]&Hh'&Hj'). by apply Hf.
Qed.
End Sleep.

(** ** The calendar time *)
Section Calendar.
Context `{Layout, Config, Handlers, TimeConfig, Elsewhere time_sys}.
Variables (F : mem) (c : word) (D : gset word) (time_mutex : word).
Hypothesis (Hm : time_mutex ≠ NULL) (HD : mutex_waitqueue time_mutex ∈ D).

(** C40: the time that was set runs on with the ticks: [k_time_get_ms], called when
    the counter holds [n], returns the time set and the milliseconds passed
    since (precision of 1 ms, ticks of 1 ms, 24 bits of ticks).  Both calls
    release the mutex: it is free when nobody waits for it, else handed to the
    thread that has waited longest. *)
Theorem k_time_set_get sec s k :
  CONFIG_KERNEL_SYSCLOCK_PERIOD_US = 1000 → CONFIG_KERNEL_TIME_API_MS_PRECISION = true → 0 <= sec < 2 ^ 32 →
  here F c D k → lock (mutex k time_mutex) = 0 →
  ∃ k' s', k_time_set time_mutex sec s k = Done (tt, s') k' ∧ ticks s' = ticks s ∧ unlocked F c time_mutex k k' ∧
    ∀ n k2, 0 <= ticks s <= n → n < 2 ^ 24 → here F c D k2 → lock (mutex k2 time_mutex) = 0 →
      let now := {| ticks := n; timestamp := timestamp s'; uptime := uptime s' |} in
      ∃ k3, k_time_get_ms time_mutex now k2 = Done (1000 * sec + (n - ticks s), now) k3 ∧ unlocked F c time_mutex k2 k3.
Proof.
  intros Hp Hms Hsec Hh Hl. unfold k_time_set. client_lock_tac Hh Hm Hl Hh1 Ho1. set (k1 := locked time_mutex k) in *.
  change (sbind sget ?f s k1) with (f s s k1). cbv beta.
  change (sbind (smodify ?g) ?f s k1) with (f tt (g s) k1). cbv beta.
  client_unlock_tac Hh1 Hm Ho1 HD tw2 k2 Eu2 Hu2. exists k2, (set_ref sec (k_uptime_now s) s). split; [done|]. split; [done|].
  destruct Hu2 as (Hc2&Hi2&Hr2). split; [split; [done|]; split; [done|]; by apply released_locked|].
  intros n k3 Hn Hlt Hh3 Hl3. cbn zeta. set (now := {| ticks := n; timestamp := _; uptime := _ |}).
  assert (∃ k5, k_time_read time_mutex now k3 = Done (time_of now, now) k5 ∧ unlocked F c time_mutex k3 k5)
    as (k5&E5&?).
  { unfold k_time_read. client_lock_tac Hh3 Hm Hl3 Hh4 Ho4. set (k4 := locked time_mutex k3) in *. change (sbind sget ?f now k4) with (f now now k4). cbv beta.
    client_unlock_tac Hh4 Hm Ho4 HD tw5 k5 Eu5 Hu5.
    destruct Hu5 as (Hc5&Hi5&Hr5). exists k5. split; [done|]. split; [done|]. split; [done|]. by apply released_locked. }
  exists k5. split; [|done]. unfold k_time_get_ms. erewrite sbind_done by exact E5. rewrite Hms.
  assert (time_of now = 1000 * sec + (n - ticks s)) as ->; [|done].
  assert (uptime now = k_uptime_get_ms64 s ∧ timestamp now = sec) as [Eu Et]
    by (unfold now, set_ref, k_uptime_now; cbn [uptime timestamp]; by rewrite Hms).
  unfold time_of. rewrite Hms, Eu, Et.
  assert (Ent : ticks now = n) by done. destruct (uptime_exact Hp now) as (Hn1&_&_); [lia|]. destruct (uptime_exact Hp s) as (Hs1&_&_); [lia|].
  destruct (Hn1 ltac:(lia)) as [_ ->]. destruct (Hs1 ltac:(lia)) as [_ ->]. rewrite Ent.
  unfold u64. rewrite (Z.mod_small sec) by lia. rewrite Z.mod_small by lia. lia.
Qed.
End Calendar.

(** ** Instances *)

#[export] Instance w_time_config : TimeConfig := {
  CONFIG_KERNEL_SYSCLOCK_PERIOD_US := 1000; CONFIG_CONFIG_KERNEL_TICKS_COUNTER_40BITS := true;
  CONFIG_KERNEL_TIME_API_MS_PRECISION := true }.
#[export] Instance w_time_away : Elsewhere time_sys := λ s, s.

Lemma uptime_ms_exact_witness :
  k_uptime_get_ms32 {| ticks := 12345; timestamp := 0; uptime := 0 |} = 12345 ∧
  k_uptime_get_ms32 {| ticks := 16777217; timestamp := 0; uptime := 0 |} = 16777216 ∧ K_MSEC 250 = 250.
Proof.
  split_and!.
  - refine (proj1 (proj1 (@uptime_ms_exact w_time_config eq_refl {| ticks := 12345; timestamp := 0; uptime := 0 |} _) _)); cbn; lia.
  - exact (proj1 (proj2 (@uptime_ms_exact w_time_config eq_refl {| ticks := 16777217; timestamp := 0; uptime := 0 |}
      ltac:(cbn; lia))) eq_refl).
  - refine (proj2 (proj2 (@uptime_ms_exact w_time_config eq_refl {| ticks := 0; timestamp := 0; uptime := 0 |} _)) 250 _);
      cbn; lia.
Defined.

Lemma k_time_set_get_witness :
  let k := w_mutex 0 NULL w_ready in
  ∃ k' s', k_time_set (w_obj 1) 1700000000 {| ticks := 5000; timestamp := 0; uptime := 0 |} k = Done (tt, s') k' ∧
    mutex k' (w_obj 1) = {| lock := 0; owner := NULL |} ∧
    ∃ k3, k_time_get_ms (w_obj 1) {| ticks := 8250; timestamp := timestamp s'; uptime := uptime s' |} k
      = Done (1700000003250, {| ticks := 8250; timestamp := timestamp s'; uptime := uptime s' |}) k3 ∧
      mutex k3 (w_obj 1) = {| lock := 0; owner := NULL |}.
Proof.
  cbv zeta. pose proof (w_here 0 NULL) as Hh. assert (lock (mutex (w_mutex 0 NULL w_ready) (w_obj 1)) = 0) as Hl by done.
  assert (Hi : Inv w_F (w_mutex 0 NULL w_ready) w_T (t1 :: [t3; t2]) [] w_Q) by apply Inv_upd_mutex, w_ready_inv.
  assert (Hq : w_Q !! mutex_waitqueue (w_obj 1) = Some []) by done.
  revert Hh Hl Hi. generalize (w_mutex 0 NULL w_ready). intros k Hh Hl Hi.
  destruct (k_time_set_get w_F t1 w_D (w_obj 1) ltac:(done) ltac:(by apply elem_of_singleton) 1700000000
    {| ticks := 5000; timestamp := 0; uptime := 0 |} k eq_refl eq_refl ltac:(lia) Hh Hl) as (k'&s'&E&_&(_&_&Hr)&Hget).
  exists k', s'. split; [exact E|]. split; [exact (released_free _ _ _ _ _ _ _ _ _ Hr Hi Hq)|].
  destruct (Hget 8250 k ltac:(cbn; lia) ltac:(lia) Hh Hl) as (k3&E3&_&_&Hr3). exists k3. split; [exact E3|].
  exact (released_free _ _ _ _ _ _ _ _ _ Hr3 Hi Hq).
Defined.
