(* ===== verification/Spi.v ===== *)
(** * SPI driver (drivers/spi.c)

    The bus is a parameter: [spi_exchange] shifts a byte out to the device
    whose chip select pin is active and returns the byte shifted in; [None]
    is an exchange that never completes. *)

From S2P Require Import Prelude Types Bytes Atomic Gpio Client World.

(** Bits of SPCR and SPSR. *)
Definition SPIE : Z := 7.
Definition SPE : Z := 6.
Definition MSTR : Z := 4.
Definition CPOL : Z := 3.
Definition CPHA : Z := 2.
Definition SPR0 : Z := 0.
Definition SPIF : Z := 7.
Definition SPI2X : Z := 0.
Definition SPI2X_MASK : Z := BIT SPI2X.

Record spi_regs := { spcr : Z; spsr : Z }.
#[global] Instance spi_regs_eq_dec : EqDecision spi_regs.
Proof. solve_decision. Defined.

(** The ports by address; GPIOB carries the SPI pins, whose numbers depend on
    the microcontroller.  [CHAR_UNSIGNED] is the compiler's [-funsigned-char]. *)
Class SpiConfig := {
  CONFIG_SPI_ASYNC : bool;
  CHAR_UNSIGNED : bool;
  SPI_MOSI_PIN : Z; SPI_MISO_PIN : Z; SPI_SCK_PIN : Z; SPI_SS_PIN : Z;
  GPIOB : Z;
}.

Class SpiWire (B : Type) := {
  spi_exchange : spi_regs → gmap Z GPIO_Device → Z → B → option (Z * B);
  wire_idle : B → B;
}.

(** What [char] makes of a byte. *)
Definition to_char `{SpiConfig} (v : Z) : Z := if CHAR_UNSIGNED then u8 v else s8 v.

Inductive spi_role_t := SPI_ROLE_MASTER | SPI_ROLE_SLAVE.
Inductive spi_clock_polarity_t := SPI_CLOCK_POLARITY_RISING | SPI_CLOCK_POLARITY_FALLING.
Inductive spi_clock_phase_t := SPI_CLOCK_PHASE_SAMPLE | SPI_CLOCK_PHASE_SETUP.
Record spi_config := {
  role : spi_role_t; polarity : spi_clock_polarity_t; phase : spi_clock_phase_t; irq_enabled : bool; prescaler : Z;
}.

Record spi_slave := { cs_port : Z; cs_pin : Z; active_state : Z; slave_regs : spi_regs }.

Section Spi.
Context `{Config, SpiConfig} {B : Type} `{SpiWire B}.

Record spi_sys := {
  regs : spi_regs; spi_ports : gmap Z GPIO_Device; spi_mem : bmem; spi_cb : word; spdr : Z; wire : B;
}.
(** While the thread that uses the bus does not run, the device goes on. *)
#[global] Instance spi_elsewhere : Elsewhere spi_sys := λ s,
  {| regs := regs s; spi_ports := spi_ports s; spi_mem := spi_mem s; spi_cb := spi_cb s; spdr := spdr s; wire := wire_idle (wire s) |}.

Definition set_regs (r : spi_regs) (s : spi_sys) : spi_sys :=
  {| regs := r; spi_ports := spi_ports s; spi_mem := spi_mem s; spi_cb := spi_cb s; spdr := spdr s; wire := wire s |}.
Definition set_spi_mem (m : bmem) (s : spi_sys) : spi_sys :=
  {| regs := regs s; spi_ports := spi_ports s; spi_mem := m; spi_cb := spi_cb s; spdr := spdr s; wire := wire s |}.
Definition set_wire (b : B) (s : spi_sys) : spi_sys :=
  {| regs := regs s; spi_ports := spi_ports s; spi_mem := spi_mem s; spi_cb := spi_cb s; spdr := spdr s; wire := b |}.
Definition set_cb (cb : word) (s : spi_sys) : spi_sys :=
  {| regs := regs s; spi_ports := spi_ports s; spi_mem := spi_mem s; spi_cb := cb; spdr := spdr s; wire := wire s |}.
(** The byte the peripheral is shifting out. *)
Definition set_spdr (v : Z) (s : spi_sys) : spi_sys :=
  {| regs := regs s; spi_ports := spi_ports s; spi_mem := spi_mem s; spi_cb := spi_cb s; spdr := v; wire := wire s |}.
Definition upd_gpio (p : Z) (f : GPIO_Device → GPIO_Device) (s : spi_sys) : spi_sys :=
  {| regs := regs s; spi_ports := <[p := f (default {| PIN := 0; DDR := 0; PORT := 0 |} (spi_ports s !! p))]> (spi_ports s);
     spi_mem := spi_mem s; spi_cb := spi_cb s; spdr := spdr s; wire := wire s |}.

(** ** Configuration *)

Definition spi_config_into_regs (config : spi_config) : spi_regs :=
  let c := Z.lor (BIT SPE) (Z.shiftl (Z.land (prescaler config) 0x3) SPR0) in
  let c := if role config is SPI_ROLE_MASTER then Z.lor c (BIT MSTR) else c in
  let c := if polarity config is SPI_CLOCK_POLARITY_FALLING then Z.lor c (BIT CPOL) else c in
  let c := if phase config is SPI_CLOCK_PHASE_SETUP then Z.lor c (BIT CPHA) else c in
  let c := if irq_enabled config then Z.lor c (BIT SPIE) else c in
  {| spcr := u8 c; spsr := u8 (Z.shiftl (Z.land (Z.shiftr (prescaler config) 2) SPI2X_MASK) SPI2X) |}.

Definition spi_regs_restore (r : spi_regs) : spi_sys → spi_sys := set_regs r.
Definition spi_regs_save (s : spi_sys) : spi_regs := regs s.
(** Returns what [*regs] holds after the call. *)
Definition spi_regs_swap (r : spi_regs) (s : spi_sys) : spi_regs * spi_sys :=
  let current_regs := spi_regs_save s in (current_regs, spi_regs_restore r s).
Definition spi_deinit : spi_sys → spi_sys := set_regs {| spcr := 0; spsr := 0 |}.

Definition GPIO_MODE_INPUT : Z := 0.
Definition GPIO_MODE_OUTPUT : Z := 1.

Definition spi_init (config : spi_config) (s : spi_sys) : Z * spi_sys :=
  let config := if CONFIG_SPI_ASYNC
    then {| role := role config; polarity := polarity config; phase := phase config; irq_enabled := false;
            prescaler := prescaler config |} else config in
  let stg := spi_config_into_regs config in
  let s := spi_deinit s in
  let dir pin mode := upd_gpio GPIOB (gpiol_pin_set_direction pin mode) in
  let s := match role config with
    | SPI_ROLE_MASTER =>
        dir SPI_MISO_PIN GPIO_MODE_INPUT (dir SPI_MOSI_PIN GPIO_MODE_OUTPUT (dir SPI_SCK_PIN GPIO_MODE_OUTPUT s))
    | SPI_ROLE_SLAVE =>
        dir SPI_MISO_PIN GPIO_MODE_OUTPUT (dir SPI_MOSI_PIN GPIO_MODE_INPUT
          (dir SPI_SCK_PIN GPIO_MODE_INPUT (dir SPI_SS_PIN GPIO_MODE_INPUT s)))
    end in
  (0, spi_regs_restore stg s).

(** ** Exchanges *)

(** The byte received, as an [uint8_t]. *)
Definition xfer (tx : Z) (s : spi_sys) : option (Z * spi_sys) :=
  '(rx, b) ← spi_exchange (regs s) (spi_ports s) (u8 tx) (wire s); Some (u8 rx, set_wire b s).

(** The function returns a [char]. *)
Definition spi_transceive (tx : Z) (s : spi_sys) : option (Z * spi_sys) :=
  '(rx, s) ← xfer tx s; Some (to_char rx, s).

Fixpoint spi_transceive_buf_loop (n : nat) (rxtx : word) (s : spi_sys) : option spi_sys :=
  match n with
  | O => Some s
  | S n =>
      '(rx, s) ← spi_transceive (to_char (rdb (spi_mem s) rxtx)) s;
      spi_transceive_buf_loop n (ptr_add rxtx 1) (set_spi_mem (<[rxtx := u8 rx]> (spi_mem s)) s)
  end.
Definition spi_transceive_buf (rxtx : word) (len : Z) (s : spi_sys) : option spi_sys :=
  spi_transceive_buf_loop (Z.to_nat len) rxtx s.

(** The loops of the devices: bytes sent, whatever comes back, and [n] bytes
    received for a filler. *)
Fixpoint send_bytes (l : list Z) (s : spi_sys) : option spi_sys :=
  match l with [] => Some s | b :: l => '(_, s) ← xfer b s; send_bytes l s end.
Fixpoint recv_bytes (fill : Z) (n : nat) (s : spi_sys) : option (list Z * spi_sys) :=
  match n with
  | O => Some ([], s)
  | S n => '(b, s) ← xfer fill s; '(l, s) ← recv_bytes fill n s; Some (b :: l, s)
  end.

(** ** Slaves *)

(** [slave] is returned as the code fills it; the pointers to the arguments
    are given as whether they are not [NULL]. *)
Definition spi_slave_init (slave_ok regs_ok : bool) (slave : spi_slave) (port pin active : Z) (r : spi_regs)
  : Z * spi_slave :=
  if negb (z_user (slave_ok && regs_ok && negb (port =? 0) && (pin <=? 7))) then (- EINVAL, slave)
  else (0, {| cs_port := port; cs_pin := pin mod 8; active_state := active mod 2; slave_regs := r |}).

Definition spi_slave_select (slave : spi_slave) : spi_sys → spi_sys :=
  upd_gpio (cs_port slave) (gpio_pin_write_state (cs_pin slave) (active_state slave)).
Definition spi_slave_unselect (slave : spi_slave) : spi_sys → spi_sys :=
  upd_gpio (cs_port slave) (gpio_pin_write_state (cs_pin slave) (1 - active_state slave)).
Definition spi_slave_ss_init (slave_ok : bool) (slave : spi_slave) (s : spi_sys) : Z * spi_sys :=
  if negb (z_user slave_ok) then (- EINVAL, s) else
  (0, upd_gpio (cs_port slave) (gpio_pin_init (cs_pin slave) GPIO_MODE_OUTPUT
        (if active_state slave =? 0 then 1 else 0)) s).
Definition spi_slave_transceive (slave : spi_slave) (tx : Z) (s : spi_sys) : option (Z * spi_sys) :=
  '(rx, s) ← spi_transceive tx (spi_slave_select slave s); Some (rx, spi_slave_unselect slave s).

(** This function drives the pin to the opposite levels: inactive during the
    exchange, active after it. *)
Definition spi_slave_transceive_buf (slave : spi_slave) (rxtx : word) (len : Z) (s : spi_sys) : option spi_sys :=
  let s := upd_gpio (cs_port slave)
    (gpio_pin_write_state (cs_pin slave) (if negb (active_state slave =? 0) then 0 else 1)) s in
  s ← spi_transceive_buf rxtx len s;
  Some (upd_gpio (cs_port slave)
    (gpio_pin_write_state (cs_pin slave) (if negb (active_state slave =? 0) then 1 else 0)) s).

(** ** Asynchronous exchanges

    The callback is user code: it gets the byte received, or [None] when the
    exchange is cancelled, and returns whether to go on and the next byte. *)
Variable spi_callback : word → option Z → spi_sys → bool * Z * spi_sys.

Definition upd_spcr (f : Z → Z) (s : spi_sys) : spi_sys := set_regs {| spcr := u8 (f (spcr (regs s))); spsr := spsr (regs s) |} s.

(** The interrupt at the end of an exchange, which received [rx]. *)
Definition SPI_STC_vect (rx : Z) (s : spi_sys) : spi_sys :=
  let '(zcontinue, rxtx, s) := spi_callback (spi_cb s) (Some (to_char rx)) s in
  if zcontinue : bool then set_spdr (u8 rxtx) s else upd_spcr (λ c, Z.land c (Z.lnot (BIT SPIE))) s.

Definition spi_async_inprogress (s : spi_sys) : bool := negb (Z.land (spcr (regs s)) (BIT SPIE) =? 0).

Definition spi_transceive_async_start (first_tx : Z) (callback : word) (s : spi_sys) : Z * spi_sys :=
  if negb (z_user (nonnull callback)) then (- EINVAL, s)
  else if spi_async_inprogress s then (- EBUSY, s)
  else (0, upd_spcr (λ c, Z.lor c (BIT SPIE)) (set_spdr (u8 first_tx) (set_cb callback s))).

Definition spi_cancel_async (s : spi_sys) : Z * spi_sys :=
  if spi_async_inprogress s then
    let s := upd_spcr (λ c, Z.land c (Z.lnot (BIT SPIE))) s in
    let '(_, _, s) := spi_callback (spi_cb s) None s in
    (0, set_regs {| spcr := spcr (regs s); spsr := u8 (Z.lor (spsr (regs s)) (BIT SPIF)) |} s)
  else (0, s).

(** ** Chip select *)

Definition port_of (s : spi_sys) (p : Z) : GPIO_Device := default {| PIN := 0; DDR := 0; PORT := 0 |} (spi_ports s !! p).
Definition level (s : spi_sys) (slave : spi_slave) : bool := Z.testbit (PORT (port_of s (cs_port slave))) (cs_pin slave).
Definition slave_ok (slave : spi_slave) : Prop := 0 <= cs_pin slave < 8 ∧ 0 <= active_state slave < 2.

(** The states differ at most by the level of the slave's pin. *)
Definition same_but_cs (slave : spi_slave) (s s' : spi_sys) : Prop :=
  regs s' = regs s ∧ spi_mem s' = spi_mem s ∧ wire s' = wire s ∧
  ∀ p n, 0 <= n < 8 → (p, n) ≠ (cs_port slave, cs_pin slave) →
    Z.testbit (PORT (port_of s' p)) n = Z.testbit (PORT (port_of s p)) n ∧ DDR (port_of s' p) = DDR (port_of s p).

Lemma upd_gpio_write slave v s : slave_ok slave →
  let s' := upd_gpio (cs_port slave) (gpio_pin_write_state (cs_pin slave) v) s in
  level s' slave = Z.testbit v 0 ∧ same_but_cs slave s s'.
Proof.
  intros [Hp _]. cbv zeta. unfold level, port_of, upd_gpio. cbn [spi_ports]. rewrite lookup_insert_eq. cbn [default from_option id].
  split; [|split_and!; try done].
  - cbn [PORT gpio_pin_write_state gpiol_pin_write_state with_PORT].
    rewrite put_bit_spec by done. by rewrite Z.eqb_refl.
  - intros p n Hn Hne. unfold port_of. cbn [spi_ports]. destruct (decide (cs_port slave = p)) as [<-|Hpp].
    + rewrite lookup_insert_eq. cbn [default from_option id PORT DDR gpio_pin_write_state gpiol_pin_write_state with_PORT].
      rewrite put_bit_spec by done. destruct (Z.eqb_spec n (cs_pin slave)) as [->|]; [by destruct Hne|]. done.
    + by rewrite lookup_insert_ne.
Qed.

Lemma select_level slave s : slave_ok slave →
  level (spi_slave_select slave s) slave = (active_state slave =? 1) ∧ same_but_cs slave s (spi_slave_select slave s).
Proof.
  intros Hok. destruct (upd_gpio_write slave (active_state slave) s Hok) as [E1 E2]. split; [|done].
  unfold spi_slave_select. rewrite E1. destruct Hok as [_ Ha]. by assert (active_state slave = 0 ∨ active_state slave = 1) as [-> | ->] by lia.
Qed.
Lemma unselect_level slave s : slave_ok slave →
  level (spi_slave_unselect slave s) slave = negb (active_state slave =? 1) ∧ same_but_cs slave s (spi_slave_unselect slave s).
Proof.
  intros Hok. destruct (upd_gpio_write slave (1 - active_state slave) s Hok) as [E1 E2]. split; [|done].
  unfold spi_slave_unselect. rewrite E1. destruct Hok as [_ Ha]. by assert (active_state slave = 0 ∨ active_state slave = 1) as [-> | ->] by lia.
Qed.
(** [spi_slave_transceive] selects the slave for the exchange and deselects it
    afterwards; [spi_slave_transceive_buf] does the contrary: the slave is
    deselected while the bytes are exchanged, and selected afterwards. *)
Theorem spi_slave_chip_select slave s : slave_ok slave →
  let active := active_state slave =? 1 in
  (∀ tx rx s', spi_slave_transceive slave tx s = Some (rx, s') → ∃ s1 s2,
     level s1 slave = active ∧ same_but_cs slave s s1 ∧ spi_transceive tx s1 = Some (rx, s2) ∧
     level s' slave = negb active ∧ same_but_cs slave s2 s') ∧
  (∀ rxtx len s', spi_slave_transceive_buf slave rxtx len s = Some s' → ∃ s1 s2,
     level s1 slave = negb active ∧ same_but_cs slave s s1 ∧ spi_transceive_buf rxtx len s1 = Some s2 ∧
     level s' slave = active ∧ same_but_cs slave s2 s').
Proof.
  intros Hok. cbn zeta. split.
  - intros tx rx s' E. unfold spi_slave_transceive in E. destruct (select_level slave s Hok) as [Hl Hs].
    destruct (spi_transceive tx _) as [[rx' s2]|] eqn:E2; [|done]. cbn in E. simplify_eq.
    destruct (unselect_level slave s2 Hok) as [Hl2 Hs2]. eexists _, s2. by split_and!.
  - intros rxtx len s' E. unfold spi_slave_transceive_buf in E. cbn zeta in E.
    set (v1 := if negb (active_state slave =? 0) then 0 else 1) in E. set (v2 := if negb (active_state slave =? 0) then 1 else 0) in E.
    destruct (upd_gpio_write slave v1 s Hok) as [Hl Hs].
    destruct (spi_transceive_buf rxtx len _) as [s2|] eqn:E2; [|done]. cbn in E. simplify_eq.
    destruct (upd_gpio_write slave v2 s2 Hok) as [Hl2 Hs2]. eexists _, s2. split_and!; [|exact Hs|exact E2| |exact Hs2].
    + rewrite Hl. unfold v1. by assert (active_state slave = 0 ∨ active_state slave = 1) as [-> | ->] by (destruct Hok; lia).
    + rewrite Hl2. unfold v2. by assert (active_state slave = 0 ∨ active_state slave = 1) as [-> | ->] by (destruct Hok; lia).
Qed.
End Spi.

(** ** Conversations on the bus *)
Section Talk.
Context {B : Type} `{SpiWire B}.
Abbreviation st := (@spi_sys B).

(** The pairs of bytes exchanged on the bus with the registers [r] and the
    ports [g], and the state of the bus after them. *)
Fixpoint talks (r : spi_regs) (g : gmap Z GPIO_Device) (b : B) (l : list (Z * Z)) : option B :=
  match l with
  | [] => Some b
  | (tx, rx) :: l =>
      match spi_exchange r g (u8 tx) b with
      | Some (v, b) => if u8 v =? rx then talks r g b l else None
      | None => None
      end
  end.
Definition talk (s : st) (l : list (Z * Z)) (s' : st) : Prop :=
  ∃ b, talks (regs s) (spi_ports s) (wire s) l = Some b ∧ s' = set_wire b s.

Lemma set_wire_id (s : st) : set_wire (wire s) s = s.
Proof. by destruct s. Qed.

Lemma talk_nil (s s' : st) : talk s [] s' ↔ s' = s.
Proof. split; [intros (b&[= <-]&->); apply set_wire_id|intros ->; exists (wire s); by rewrite set_wire_id]. Qed.

Lemma talk_cons (s : st) tx rx l s' : talk s ((tx, rx) :: l) s' ↔ ∃ s1, xfer tx s = Some (rx, s1) ∧ talk s1 l s'.
Proof.
  unfold talk, xfer. cbn [talks]. split.
  - intros (b&E&->). destruct (spi_exchange _ _ _ _) as [[v b1]|] eqn:Ex; [|done].
    destruct (Z.eqb_spec (u8 v) rx) as [<-|]; [|done]. exists (set_wire b1 s). cbn. split; [done|]. by exists b.
  - intros (s1&E&b&E2&->). destruct (spi_exchange _ _ _ _) as [[v b1]|] eqn:Ex; [|done]. cbn in E. simplify_eq.
    exists b. rewrite Z.eqb_refl. by split.
Qed.

Lemma talk_app (s : st) l1 l2 s' : talk s (l1 ++ l2) s' ↔ ∃ s1, talk s l1 s1 ∧ talk s1 l2 s'.
Proof.
  revert s. induction l1 as [|[tx rx] l1 IH]; intros s; cbn [app].
  - setoid_rewrite talk_nil. naive_solver.
  - rewrite talk_cons. setoid_rewrite IH. setoid_rewrite talk_cons. naive_solver.
Qed.

Lemma send_bytes_talk l junk (s s' : st) : length junk = length l → talk s (zip l junk) s' → send_bytes l s = Some s'.
Proof.
  revert junk s. induction l as [|b l IH]; intros [|j junk] s Hl Ht; try done.
  - cbn in Ht. apply talk_nil in Ht as ->. done.
  - cbn in Ht. apply talk_cons in Ht as (s1&E&Ht). cbn [send_bytes]. rewrite E. cbn. apply (IH junk); [cbn in Hl; lia|done].
Qed.

Lemma talk_mem (s : st) l s' : talk s l s' → spi_mem s' = spi_mem s.
Proof. by intros (b&_&->). Qed.
Lemma talk_set_mem m (s : st) l s' : talk s l s' → talk (set_spi_mem m s) l (set_spi_mem m s').
Proof. intros (b&E&->). by exists b. Qed.
Lemma talk_xfer (s : st) tx rx l s' : talk s ((tx, rx) :: l) s' → ∃ s1, xfer tx s = Some (rx, s1) ∧ talk s1 l s'.
Proof. apply talk_cons. Qed.

Lemma recv_bytes_talk fill data : ∀ (s s' : st), talk s (pair fill <$> data) s' → recv_bytes fill (length data) s = Some (data, s').
Proof.
  induction data as [|b data IH]; intros s s' Ht; cbn [fmap list_fmap length recv_bytes] in *; [by apply talk_nil in Ht as ->|].
  apply talk_xfer in Ht as (s1&E&Ht). rewrite E. cbn [mbind option_bind]. by rewrite (IH s1 s' Ht).
Qed.
End Talk.

(** ** Instances *)

#[export] Instance w_spi_config : SpiConfig := {
  CONFIG_SPI_ASYNC := false; CHAR_UNSIGNED := true; SPI_MOSI_PIN := 3; SPI_MISO_PIN := 4; SPI_SCK_PIN := 5; SPI_SS_PIN := 2;
  GPIOB := 0x100 }.
Definition w_sl : spi_slave := {| cs_port := 0x100; cs_pin := 2; active_state := 0; slave_regs := {| spcr := 0x50; spsr := 0 |} |}.

(** A device that answers the complement of the byte. *)
Definition w_echo : SpiWire unit := {| spi_exchange _ _ tx b := Some (Z.lnot tx, b); wire_idle b := b |}.
Definition w_spi : @spi_sys unit := {|
  regs := {| spcr := 0x50; spsr := 0 |}; spi_ports := {[0x100 := {| PIN := 0; DDR := 0x04; PORT := 0x04 |}]}; spi_mem := ∅;
  spi_cb := NULL; spdr := 0; wire := tt |}.

Lemma spi_slave_chip_select_witness : ∃ rx s',
  @spi_slave_transceive w_spi_config _ w_echo w_sl 0x0F w_spi = Some (rx, s') ∧ rx = 0xF0 ∧ level s' w_sl = true.
Proof.
  assert (Hok : slave_ok w_sl) by by split; cbn; lia.
  destruct (@spi_slave_transceive w_spi_config _ w_echo w_sl 0x0F w_spi) as [[rx s']|] eqn:E; [|by vm_compute in E].
  exists rx, s'. split; [done|]. split; [revert E; vm_compute; by intros [= <- _]|].
  destruct (proj1 (@spi_slave_chip_select w_spi_config _ w_echo w_sl w_spi Hok) 0x0F rx s' E) as (s1&s2&_&_&_&Hl&_).
  exact Hl.
Defined.

(** A scripted device: it answers the bytes of its script, in order, as long
    as the byte shifted out is the one of the script and the chip select (pin 2
    of port 0x100, active low) is active; the clocks it sees otherwise are left
    without an answer.  It does nothing while the driver sleeps. *)

#[export] Instance w_card : SpiWire (list (Z * Z)) := {
  spi_exchange _ g tx b :=
    if Z.testbit (PORT (default {| PIN := 0; DDR := 0; PORT := 0 |} (g !! 0x100))) 2 then Some (0xFF, b)
    else match b with (t, v) :: b => if tx =? t then Some (v, b) else None | [] => Some (0xFF, []) end;
  wire_idle b := b }.

Definition w_bus (script : list (Z * Z)) (m : bmem) : @spi_sys (list (Z * Z)) := {|
  regs := slave_regs w_sl; spi_ports := {[0x100 := {| PIN := 0; DDR := 0x04; PORT := 0x04 |}]}; spi_mem := m; spi_cb := NULL;
  spdr := 0; wire := script |}.

Lemma talk_script (s : @spi_sys (list (Z * Z))) l rest : wire s = l ++ rest →
  Z.testbit (PORT (default {| PIN := 0; DDR := 0; PORT := 0 |} (spi_ports s !! 0x100))) 2 = false →
  Forall (λ x : Z * Z, u8 x.1 = x.1 ∧ u8 x.2 = x.2) l → talk s l (set_wire rest s).
Proof.
  intros Hw Hc Hl. exists rest. split; [|done]. rewrite Hw. clear Hw. induction Hl as [|[t v] l [Et Ev] _ IH]; [done|].
  cbn [talks app fst snd] in *. cbn [spi_exchange w_card]. by rewrite Hc, Et, Z.eqb_refl, Ev, Z.eqb_refl.
Qed.
