(* ===== verification/Sd.v ===== *)
(** * SD card driver (devices/sd.c, devices/sd_priv.h)

    The functions that never sleep are steps on the state of the SPI driver;
    the others run on the kernel as well.  Buffers on the stack are at an
    address given as a parameter, and hold what they are given. *)

From S2P Require Import Prelude Dlist Delta Tqueue Types Event Timer Kernel KernelInv KernelSpec World Mutex Bytes Crc Atomic Gpio Client Time Spi.

(** ** Constants *)

Definition SD_R1_RESPONSE_RETRIES : nat := 8.
Definition SD_POWERUP_CLOCKS : nat := 10.
Definition SD_ACMD41_RETRY_DELAY_MS : Z := 100.
Definition SD_CMD8 : Z := 8.
Definition SD_CMD16 : Z := 16.
Definition SD_CMD17 : Z := 17.
Definition SD_CMD24 : Z := 24.
Definition SD_GO_IDLE_STATE : list Z := [0x40; 0x0; 0x0; 0x0; 0x0; 0x95].
Definition SD_READ_OCR : list Z := [0x7a; 0x00; 0x00; 0x00; 0x00; 0xfd].
Definition SD_APP_CMD : list Z := [0x77; 0x00; 0x00; 0x00; 0x00; 0x65].
Definition SD_SEND_OP_COND : list Z := [0x69; 0x40; 0x00; 0x00; 0x00; 0xe5].
Definition SD_SEND_CSD : list Z := [0x49; 0x00; 0x00; 0x00; 0x00; 0xaf].
Definition SD_SEND_CID : list Z := [0x4a; 0x00; 0x00; 0x00; 0x00; 0x1b].
Definition SD_CSD_SIZE : nat := 16.
Definition SD_CID_SIZE : nat := 16.
Definition SD_CSD_VERSION_1 : Z := 0.
Definition SD_DATA_TOKEN : Z := 0xFE.
Definition SD_CMD_START_BIT : Z := 0x40.
Definition SD_CMD_INDEX_MASK : Z := 0x3F.
Definition SD_CMD_END_BIT : Z := 0x01.
Definition SD_CMD8_VHS_27_36V : Z := 0x01.
Definition SD_CMD8_VHS_SHIFT : Z := 8.
Definition SD_CMD8_CHECK_PATTERN : Z := 0xAA.
Definition SD_CMD8_VOLTAGE_MASK : Z := 0x0F.
Definition SD_DATA_RESPONSE_MASK : Z := 0x07.
Definition SD_DATA_ACCEPTED : Z := 0x05.
Definition R1_IDLE_STATE : Z := 0x01.
Definition R1_ILLEGAL_COMMAND : Z := 0x04.
Definition ENODEV : Z := 19.

Class SdConfig := {
  SD_BLOCK_SIZE : nat;
  CONFIG_SD_INIT_TIMEOUT_MS : Z;
  CONFIG_SD_READ_TIMEOUT : nat;
  CONFIG_SD_WRITE_TIMEOUT_MS : Z;
}.

(** ** Data *)

Definition SD_CARD_TYPE_UNKNOWN : Z := 0.
Definition SD_CARD_TYPE_SDSC_V1 : Z := 1.
Record sd_csd := {
  capacity_bytes : Z; capacity_blocks : Z; csd_structure : Z; max_read_bl_len : Z; max_write_bl_len : Z;
}.
Record sd_cid := {
  manufacturer_id : Z; oem_id : list Z; product_name : list Z; product_revision : Z; serial_number : Z;
  manufacturing_date : Z;
}.
Record sd_card_info := { type : Z; ocr : Z; voltage_accepted : Z }.
Record sd_device := { slave : spi_slave; info : sd_card_info }.

(** [sys_write_be32], [sys_read_be32] (sys.h). *)
Definition sys_write_be32 (val : Z) : list Z :=
  [u8 (Z.shiftr val 24); u8 (Z.shiftr val 16); u8 (Z.shiftr val 8); u8 val].
Definition sys_read_be32 (b : list Z) : Z :=
  let at_ i := nth i b 0 in
  Z.lor (Z.lor (Z.lor (Z.shiftl (at_ 0%nat) 24) (Z.shiftl (at_ 1%nat) 16)) (Z.shiftl (at_ 2%nat) 8)) (at_ 3%nat).

(** ** Commands *)

Definition sd_cmd_prep (index arg : Z) : list Z :=
  let buf := u8 (Z.lor SD_CMD_START_BIT (Z.land index SD_CMD_INDEX_MASK)) :: sys_write_be32 arg in
  buf ++ [u8 (Z.lor (Z.shiftl (crc7 buf) 1) SD_CMD_END_BIT)].

Section Sd.
Context `{Layout, Config, Handlers, TimeConfig, SpiConfig, SdConfig} {B : Type} `{SpiWire B}.
Abbreviation st := (@spi_sys B).

Fixpoint sd_read_r1_loop (n : nat) (res : Z) (s : st) : option (Z * st) :=
  match n with
  | O => Some (res, s)
  | S n => '(res, s) ← xfer 0xFF s; if negb (res =? 0xFF) then Some (res, s) else sd_read_r1_loop n res s
  end.
Definition sd_read_r1 (s : st) : option (Z * st) := sd_read_r1_loop SD_R1_RESPONSE_RETRIES 0 s.

(** Select the card, send a command and read R1: the beginning that the
    functions share. *)
Definition sd_command (slave : spi_slave) (cmd : list Z) (s : st) : option (Z * st) :=
  let s := spi_slave_select slave s in
  '(_, s) ← xfer 0xFF s;
  s ← send_bytes cmd s;
  sd_read_r1 s.

Definition sd_send_cmd_read_r1 (dev : sd_device) (cmd : list Z) (s : st) : option (Z * st) :=
  '(res, s) ← sd_command (slave dev) cmd s; Some (res, spi_slave_unselect (slave dev) s).

Definition sd_send_cmd_r3 (slave : spi_slave) (cmd resp : list Z) (s : st) : option ((Z * list Z) * st) :=
  '(res, s) ← sd_command slave cmd s;
  '(resp, s) ← (if res <=? 1 then recv_bytes 0xFF 4 s else Some (resp, s));
  Some ((res, resp), spi_slave_unselect slave s).

Fixpoint sd_wait_data_token_loop (n : nat) (s : st) : option (Z * st) :=
  match n with
  | O => Some (- ETIMEDOUT, s)
  | S n =>
      '(res, s) ← xfer 0xFF s;
      if negb (res =? 0xFF) then Some (if res =? SD_DATA_TOKEN then 0 else - EIO, s)
      else sd_wait_data_token_loop n s
  end.
Definition sd_wait_data_token (s : st) : option (Z * st) := sd_wait_data_token_loop CONFIG_SD_READ_TIMEOUT s.

(** [for (i = 0; i < size; i++) buf[i] = spi_transceive(0xFF);] *)
Fixpoint read_into (buf : word) (i : Z) (n : nat) (s : st) : option st :=
  match n with
  | O => Some s
  | S n => '(b, s) ← xfer 0xFF s; read_into buf (i + 1) n (set_spi_mem (<[ptr_add buf i := b]> (spi_mem s)) s)
  end.

Definition sd_read_data_block (buf : word) (size : nat) (s : st) : option (Z * st) :=
  '(ret, s) ← sd_wait_data_token s;
  if negb (ret =? 0) then Some (ret, s)
  else
    s ← read_into buf 0 size s;
    '(_, s) ← xfer 0xFF s;
    '(_, s) ← xfer 0xFF s;
    Some (0, s).

(** ** Initialisation *)

Fixpoint sd_clocks (n : nat) (s : st) : option st :=
  match n with O => Some s | S n => '(_, s) ← xfer 0xFF s; sd_clocks n s end.

Definition cmd8_arg : Z := Z.lor (Z.shiftl SD_CMD8_VHS_27_36V SD_CMD8_VHS_SHIFT) SD_CMD8_CHECK_PATTERN.
Definition unit_step (f : st → option st) (s : st) : option (unit * st) := s ← f s; Some (tt, s).

(** The [while (timeout--)] loop, left with a result, or with the value of
    [timeout] after it. *)
Fixpoint sd_acmd41_loop (dev : sd_device) (timeout : nat) : SM st (Z + Z) :=
  match timeout with
  | O => sret (inr 0xFFFF)
  | S timeout =>
      do* res := local (sd_send_cmd_read_r1 dev SD_APP_CMD) in
      if 1 <? res then sret (inl (- EIO))
      else
        do* res := local (sd_send_cmd_read_r1 dev SD_SEND_OP_COND) in
        if res =? 0 then sret (inr (Z.of_nat timeout))
        else if 1 <? res then sret (inl (- EIO))
        else
          do* _ := lift (k_msleep SD_ACMD41_RETRY_DELAY_MS) in
          sd_acmd41_loop dev timeout
  end.

(** From the ACMD41 loop on. *)
Definition sd_init_finish (dev : sd_device) : SM st (Z * sd_device) :=
  do* r := sd_acmd41_loop dev (Z.to_nat (CONFIG_SD_INIT_TIMEOUT_MS / SD_ACMD41_RETRY_DELAY_MS)) in
  match r with
  | inl err => sret (err, dev)
  | inr timeout =>
      if timeout =? 0 then sret (- ETIMEDOUT, dev)
      else
        do* res := local (sd_send_cmd_read_r1 dev (sd_cmd_prep SD_CMD16 (Z.of_nat SD_BLOCK_SIZE))) in
        sret (if negb (res =? 0) then - EIO else 0, dev)
  end.

(** [resp] is what the stack holds before the responses. *)
Definition sd_init (dev_ok slave_ok : bool) (dev : sd_device) (sl : spi_slave) (resp : list Z)
  : SM st (Z * sd_device) :=
  if negb (z_user (dev_ok && slave_ok)) then sret (- EINVAL, dev)
  else
    let dev := {| slave := sl; info := {| type := SD_CARD_TYPE_UNKNOWN; ocr := 0; voltage_accepted := 0 |} |} in
    do* _ := smodify (spi_slave_unselect sl) in
    do* _ := lift (k_msleep 1) in
    do* _ := local (unit_step (sd_clocks SD_POWERUP_CLOCKS)) in
    do* res := local (sd_send_cmd_read_r1 dev SD_GO_IDLE_STATE) in
    if Z.land res R1_IDLE_STATE =? 0 then sret (- EIO, dev)
    else
      do* x := local (sd_send_cmd_r3 sl (sd_cmd_prep SD_CMD8 cmd8_arg) resp) in
      let '(res, resp) := x in
      if Z.land res R1_IDLE_STATE =? 0 then sret (- EIO, dev)
      else if Z.land res R1_ILLEGAL_COMMAND =? 0 then sret (- ENOTSUP, dev)
      else
        let voltage := Z.land (nth 2 resp 0) SD_CMD8_VOLTAGE_MASK in
        let dev := {| slave := sl; info := {| type := SD_CARD_TYPE_SDSC_V1; ocr := 0; voltage_accepted := voltage |} |} in
        do* x := local (sd_send_cmd_r3 sl SD_READ_OCR resp) in
        let '(res, resp) := x in
        if 1 <? res then sret (- EIO, dev)
        else
          sd_init_finish {| slave := sl; info := {| type := SD_CARD_TYPE_SDSC_V1; ocr := sys_read_be32 resp;
                                                     voltage_accepted := voltage |} |}.

(** ** Blocks *)

(** [dev] and [buf] are pointers; [None] is [NULL], and what is found there is
    [dev0]. *)
Variable dev0 : sd_device.
Definition is_dev (dev : option sd_device) : bool := if dev is Some _ then true else false.
Definition dev_at (dev : option sd_device) : sd_device := default dev0 dev.
Definition has_type (dev : option sd_device) : bool := negb (type (info (dev_at dev)) =? 0).

Definition sd_read_block (dev : option sd_device) (block_addr : Z) (buf : word) (s : st) : option (Z * st) :=
  if negb (z_user (negb (is_dev dev) || negb (has_type dev) || negb (nonnull buf))) then Some (- EINVAL, s)
  else
    let sl := slave (dev_at dev) in
    '(res, s) ← sd_command sl (sd_cmd_prep SD_CMD17 (u32 (block_addr * Z.of_nat SD_BLOCK_SIZE))) s;
    '(ret, s) ← (if negb (res =? 0) then Some (- EIO, s) else sd_read_data_block buf SD_BLOCK_SIZE s);
    Some (ret, spi_slave_unselect sl s).

Fixpoint sd_wait_ready_loop (n : nat) : SM st Z :=
  match n with
  | O => sret (- ETIMEDOUT)
  | S n =>
      do* r := local (spi_transceive 0xFF) in
      if r =? 0xFF then sret 0
      else do* _ := lift (k_msleep 1) in sd_wait_ready_loop n
  end.
Definition sd_wait_ready : SM st Z := sd_wait_ready_loop (Z.to_nat (u16 (CONFIG_SD_WRITE_TIMEOUT_MS - 1))).

(** The loop that waits for the data response: the response, unless the
    counter has reached [CONFIG_SD_READ_TIMEOUT]. *)
Fixpoint sd_data_response (n : nat) (s : st) : option (option Z * st) :=
  match n with
  | O => Some (None, s)
  | S n => '(res, s) ← xfer 0xFF s; if negb (res =? 0xFF) then Some (Some res, s) else sd_data_response n s
  end.

(** What is sent after R1: the token, the block and a dummy CRC. *)
Definition sd_send_block (buf : word) (s : st) : option (unit * st) :=
  unit_step (λ s, send_bytes (SD_DATA_TOKEN :: read_bytes (spi_mem s) buf SD_BLOCK_SIZE ++ [0xFF; 0xFF]) s) s.

Definition sd_write_block (dev : option sd_device) (block_addr : Z) (buf : word) : SM st Z :=
  if negb (z_user (is_dev dev && nonnull buf)) then sret (- EINVAL)
  else if negb (z_user (has_type dev)) then sret (- ENODEV)
  else
    let sl := slave (dev_at dev) in
    do* res := local (sd_command sl (sd_cmd_prep SD_CMD24 (u32 (block_addr * Z.of_nat SD_BLOCK_SIZE)))) in
    do* ret :=
      (if negb (res =? 0) then sret (- EIO)
       else
         do* _ := local (sd_send_block buf) in
         do* r := local (sd_data_response CONFIG_SD_READ_TIMEOUT) in
         match r with
         | None => sret (- ETIMEDOUT)
         | Some res =>
             if negb (Z.land res SD_DATA_RESPONSE_MASK =? SD_DATA_ACCEPTED) then sret (- EIO) else sd_wait_ready
         end) in
    do* _ := smodify (spi_slave_unselect sl) in
    sret ret.

(** ** Registers of the card *)

Definition sd_parse_csd_v1 (data : list Z) (csd : sd_csd) : sd_csd :=
  let d i := nth i data 0 in
  let read_bl_len := Z.land (d 5%nat) 0x0F in
  let write_bl_len := Z.lor (Z.shiftl (Z.land (d 12%nat) 0x03) 2) (Z.land (Z.shiftr (d 13%nat) 6) 0x03) in
  let c_size := Z.lor (Z.lor (Z.shiftl (Z.land (d 6%nat) 0x03) 10) (Z.shiftl (d 7%nat) 2))
                      (Z.land (Z.shiftr (d 8%nat) 6) 0x03) in
  let c_size_mult := Z.lor (Z.shiftl (Z.land (d 9%nat) 0x03) 1) (Z.land (Z.shiftr (d 10%nat) 7) 0x01) in
  let blocks := u32 (Z.shiftl (c_size + 1) (c_size_mult + 2)) in
  {| max_read_bl_len := u16 (Z.shiftl 1 read_bl_len); max_write_bl_len := u16 (Z.shiftl 1 write_bl_len);
     capacity_blocks := blocks; capacity_bytes := u32 (blocks * u16 (Z.shiftl 1 read_bl_len));
     csd_structure := csd_structure csd |}.

Definition sd_parse_cid (data : list Z) : sd_cid :=
  let d i := nth i data 0 in
  {| manufacturer_id := d 0%nat;
     oem_id := [d 1%nat; d 2%nat; 0];
     product_name := [d 3%nat; d 4%nat; d 5%nat; d 6%nat; d 7%nat; 0];
     product_revision := d 8%nat;
     serial_number := Z.lor (Z.lor (Z.lor (Z.shiftl (d 9%nat) 24) (Z.shiftl (d 10%nat) 16)) (Z.shiftl (d 11%nat) 8)) (d 12%nat);
     manufacturing_date := u16 (Z.lor (Z.shiftl (d 13%nat) 4) (Z.land (Z.shiftr (d 14%nat) 4) 0x0F)) |}.

(** The card's register, read into [stk]. *)
Definition sd_read_reg (sl : spi_slave) (cmd : list Z) (stk : word) (size : nat) (s : st) : option (Z * st) :=
  '(res, s) ← sd_command sl cmd s;
  if negb (res =? 0) then Some (- EIO, s) else sd_read_data_block stk size s.

Definition sd_read_csd (dev : option sd_device) (stk : word) (csd : sd_csd) (s : st) : option ((Z * sd_csd) * st) :=
  if negb (z_user (is_dev dev)) then Some ((- EINVAL, csd), s)
  else if negb (z_user (has_type dev)) then Some ((- ENODEV, csd), s)
  else
    let sl := slave (dev_at dev) in
    '(ret, s) ← sd_read_reg sl SD_SEND_CSD stk SD_CSD_SIZE s;
    if negb (ret =? 0) then Some ((ret, csd), spi_slave_unselect sl s)
    else
      let buf := read_bytes (spi_mem s) stk SD_CSD_SIZE in
      let structure := Z.land (Z.shiftr (nth 0 buf 0) 6) 0x03 in
      if negb (structure =? SD_CSD_VERSION_1) then Some ((- ENOTSUP, csd), s)
      else
        let csd := sd_parse_csd_v1 buf {| capacity_bytes := capacity_bytes csd; capacity_blocks := capacity_blocks csd;
          csd_structure := structure; max_read_bl_len := max_read_bl_len csd; max_write_bl_len := max_write_bl_len csd |} in
        Some ((0, csd), spi_slave_unselect sl s).

Definition sd_read_cid (dev : option sd_device) (stk : word) (cid : sd_cid) (s : st) : option ((Z * sd_cid) * st) :=
  if negb (z_user (is_dev dev)) then Some ((- EINVAL, cid), s)
  else if negb (z_user (has_type dev)) then Some ((- ENODEV, cid), s)
  else
    let sl := slave (dev_at dev) in
    '(ret, s) ← sd_read_reg sl SD_SEND_CID stk SD_CID_SIZE s;
    if negb (ret =? 0) then Some ((ret, cid), spi_slave_unselect sl s)
    else Some ((0, sd_parse_cid (read_bytes (spi_mem s) stk SD_CID_SIZE)), spi_slave_unselect sl s).
End Sd.
