(* ===== verification/SdSpec.v ===== *)
(** * What the SD card driver does

    A run of the driver is described by the bytes exchanged on the bus. *)

From S2P Require Import Prelude Dlist Delta Tqueue Types Event Timer Kernel KernelInv KernelSpec World Mutex Bytes Crc Atomic Gpio Client Time Spi Sd.

(** ** Command frames *)

(** What a card reads in a frame: the index and the argument, when the start,
    transmission and end bits and the CRC are right.  The CRC is the remainder
    by the polynomial x^7 + x^3 + 1. *)
Definition card_decode (f : list Z) : option (Z * Z) :=
  match f with
  | [c; a3; a2; a1; a0; e] =>
      let crc := gf2_mod 7 0x89 (bits [c; a3; a2; a1; a0] ++ replicate 7 false) in
      if (Z.shiftr c 6 =? 1) && Z.testbit e 0 && (Z.shiftr e 1 =? crc)
      then Some (c mod 64, ((a3 * 256 + a2) * 256 + a1) * 256 + a0) else None
  | _ => None
  end.

Lemma byte_u8 z : byte_ok (u8 z).
Proof. unfold byte_ok. apply Z.mod_pos_bound. lia. Qed.

(** The last byte of a frame and the first one. *)
Lemma crc_byte_fields c : byte_ok c →
  let e := u8 (Z.lor (Z.shiftl (Z.shiftr c 1) 1) SD_CMD_END_BIT) in Z.testbit e 0 = true ∧ Z.shiftr e 1 = Z.shiftr c 1.
Proof.
  intros Hc. assert (H := for_bytes (λ c, let e := u8 (Z.lor (Z.shiftl (Z.shiftr c 1) 1) SD_CMD_END_BIT) in
    Z.testbit e 0 && (Z.shiftr e 1 =? Z.shiftr c 1)) ltac:(by vm_compute) c Hc).
  cbn beta zeta in *. apply andb_prop in H as [H1 H2%Z.eqb_eq]. done.
Qed.
Lemma crc7_fields buf : Forall byte_ok buf →
  let e := u8 (Z.lor (Z.shiftl (crc7 buf) 1) SD_CMD_END_BIT) in Z.testbit e 0 = true ∧ Z.shiftr e 1 = crc7 buf.
Proof. intros Hb. apply (crc_byte_fields (foldl crc7_byte 0 buf)). by apply crc7_bytes. Qed.
Lemma first_byte_fields i : 0 <= i < 64 →
  let b := u8 (Z.lor SD_CMD_START_BIT (Z.land i SD_CMD_INDEX_MASK)) in Z.shiftr b 6 = 1 ∧ b mod 64 = i.
Proof.
  intros Hi. assert (H := for_bytes (λ i, (64 <=? i) || let b := u8 (Z.lor SD_CMD_START_BIT (Z.land i SD_CMD_INDEX_MASK)) in
    (Z.shiftr b 6 =? 1) && (b mod 64 =? i)) ltac:(by vm_compute) i ltac:(unfold byte_ok; lia)).
  cbn beta zeta in *. rewrite (proj2 (Z.leb_gt 64 i)) in H by lia. apply andb_prop in H as [H1%Z.eqb_eq H2%Z.eqb_eq]. done.
Qed.

Lemma be32_value v : 0 <= v < 2 ^ 32 →
  ((u8 (Z.shiftr v 24) * 256 + u8 (Z.shiftr v 16)) * 256 + u8 (Z.shiftr v 8)) * 256 + u8 v = v.
Proof.
  intros Hv. unfold u8. rewrite !Z.shiftr_div_pow2 by lia.
  replace (v / 2 ^ 24) with (v / 256 / 256 / 256) by (rewrite !Z.div_div by lia; done).
  replace (v / 2 ^ 16) with (v / 256 / 256) by (rewrite !Z.div_div by lia; done). change (2 ^ 8) with 256.
  rewrite (Z.mod_small (v / 256 / 256 / 256)) by (rewrite !Z.div_div by lia; split; [apply Z.div_pos|apply Z.div_lt_upper_bound]; lia).
  pose proof (Z.div_mod v 256). pose proof (Z.div_mod (v / 256) 256). pose proof (Z.div_mod (v / 256 / 256) 256). lia.
Qed.

(** C34: the frame of a command is read back by the card as the command, whatever
    its argument. *)
Theorem sd_cmd_prep_decodes index arg : 0 <= index < 64 → 0 <= arg < 2 ^ 32 →
  card_decode (sd_cmd_prep index arg) = Some (index, arg).
Proof.
  intros Hi Ha. unfold sd_cmd_prep, sys_write_be32. cbn zeta.
  set (b0 := u8 (Z.lor _ (Z.land _ _))). destruct (first_byte_fields index Hi) as [Hs Hm]. fold b0 in Hs, Hm.
  set (body := b0 :: _). assert (Forall byte_ok body) as Hb by (repeat constructor; apply byte_u8).
  unfold card_decode, body. cbn [app]. fold body. rewrite Hs, Hm.
  destruct (crc7_fields body Hb) as [E1 E2]. rewrite E1, E2, (crc7_gf2 body Hb). unfold CRC7_POLY. rewrite !Z.eqb_refl. cbn [andb]. f_equal. f_equal.
  by apply be32_value.
Qed.

(** The frames written in the source are those of CMD0, CMD58, CMD55, CMD9
    and CMD10; the CRC of ACMD41 is wrong. *)
Theorem sd_frames :
  card_decode SD_GO_IDLE_STATE = Some (0, 0) ∧ card_decode SD_READ_OCR = Some (58, 0) ∧
  card_decode SD_APP_CMD = Some (55, 0) ∧ card_decode SD_SEND_CSD = Some (9, 0) ∧
  card_decode SD_SEND_CID = Some (10, 0) ∧ card_decode SD_SEND_OP_COND = None ∧
  sd_cmd_prep 41 0x40000000 = [0x69; 0x40; 0; 0; 0; 0x77].
Proof. by vm_compute. Qed.

Lemma sd_cmd_prep_decodes_witness : card_decode (sd_cmd_prep 17 0x12345600) = Some (17, 0x12345600).
Proof. apply (sd_cmd_prep_decodes 17 0x12345600); lia. Defined.

(** ** Registers of the card *)

(** A register of 128 bits is read with its first byte the highest; [bits_of]
    are the bits from [hi] down to [lo]. *)
Definition register (data : list Z) : Z := foldl (λ v b, v * 256 + b) 0 data.
Definition bits_of (v hi lo : Z) : Z := v / 2 ^ lo mod 2 ^ (hi - lo + 1).

Lemma bits_of_split v hi lo top x low : 0 <= lo <= hi → 0 <= x < 2 ^ (hi - lo + 1) → 0 <= low < 2 ^ lo →
  v = (top * 2 ^ (hi - lo + 1) + x) * 2 ^ lo + low → bits_of v hi lo = x.
Proof.
  intros Hlo Hx Hl ->. unfold bits_of. rewrite Z.div_add_l, (Z.div_small low), Z.add_0_r by lia.
  rewrite Z.add_comm, Z.mod_add by lia. by apply Z.mod_small.
Qed.

(** [top] bytes, a byte cut in two, and [low] bytes. *)
Lemma byte_cut b n : byte_ok b → 0 < n → b = n * (b / n) + b mod n ∧ 0 <= b mod n < n ∧ 0 <= b / n.
Proof.
  intros Hb Hn. unfold byte_ok in Hb. pose proof (Z.div_mod b n). pose proof (Z.mod_pos_bound b n).
  pose proof (Z.div_pos b n). lia.
Qed.

Ltac dm_lia := Z.div_mod_to_equations; lia.

Lemma byte_top b n : byte_ok b → 0 <= n <= 8 → ∀ msk, msk = Z.ones (8 - n) → Z.land (Z.shiftr b n) msk = b / 2 ^ n.
Proof.
  intros [Hb0 Hb] Hn msk ->. rewrite Z.land_ones, Z.shiftr_div_pow2 by lia. apply Z.mod_small.
  split; [apply Z.div_pos; lia|]. apply Z.div_lt_upper_bound; [lia|]. rewrite <- Z.pow_add_r by lia.
  by replace (n + (8 - n)) with 8 by lia.
Qed.
Lemma low2 x : Z.land x 3 = x mod 4.
Proof. by apply (Z.land_ones x 2). Qed.
Lemma low4 x : Z.land x 0x0F = x mod 16.
Proof. by apply (Z.land_ones x 4). Qed.
Lemma u16_pow x : 0 <= x < 16 → u16 (Z.shiftl 1 x) = 2 ^ x.
Proof.
  intros Hx. rewrite Z.shiftl_1_l. apply u16_small. pose proof (Z.pow_le_mono_r 2 x 15). lia.
Qed.

Section Registers.
Variables (d0 d1 d2 d3 d4 d5 d6 d7 d8 d9 d10 d11 d12 d13 d14 d15 : Z).
Abbreviation data := [d0; d1; d2; d3; d4; d5; d6; d7; d8; d9; d10; d11; d12; d13; d14; d15].
Hypothesis Hbytes : Forall byte_ok data.

Ltac field_tac b n top low :=
  pose proof Hbytes; destruct (byte_cut b n) as (?&?&?); [by decompose_Forall_hyps|done|];
  unfold byte_ok in *; decompose_Forall_hyps; apply (bits_of_split _ _ _ top _ low); cbn; lia.

Lemma csd_read_bl_len : bits_of (register data) 83 80 = d5 mod 16.
Proof.
  field_tac d5 16 (register [d0; d1; d2; d3; d4] * 16 + d5 / 16) (register [d6; d7; d8; d9; d10; d11; d12; d13; d14; d15]).
Qed.
Lemma csd_write_bl_len : bits_of (register data) 25 22 = d12 mod 4 * 4 + d13 / 64.
Proof.
  pose proof Hbytes. destruct (byte_cut d13 64) as (?&?&?); [by decompose_Forall_hyps|done|].
  field_tac d12 4 (register [d0; d1; d2; d3; d4; d5; d6; d7; d8; d9; d10; d11] * 64 + d12 / 4) (d13 mod 64 * 65536 + register [d14; d15]).
Qed.
Lemma csd_c_size : bits_of (register data) 73 62 = d6 mod 4 * 1024 + (d7 * 4 + d8 / 64).
Proof.
  pose proof Hbytes. destruct (byte_cut d8 64) as (?&?&?); [by decompose_Forall_hyps|done|].
  field_tac d6 4 (register [d0; d1; d2; d3; d4; d5] * 64 + d6 / 4)
    (d8 mod 64 * 2 ^ 56 + register [d9; d10; d11; d12; d13; d14; d15]).
Qed.
Lemma csd_c_size_mult : bits_of (register data) 49 47 = d9 mod 4 * 2 + d10 / 128.
Proof.
  pose proof Hbytes. destruct (byte_cut d10 128) as (?&?&?); [by decompose_Forall_hyps|done|].
  field_tac d9 4 (register [d0; d1; d2; d3; d4; d5; d6; d7; d8] * 64 + d9 / 4)
    (d10 mod 128 * 2 ^ 40 + register [d11; d12; d13; d14; d15]).
Qed.

(** The values of the driver are the same. *)
Lemma drv_write_bl_len : Z.lor (Z.shiftl (Z.land d12 3) 2) (Z.land (Z.shiftr d13 6) 3) = d12 mod 4 * 4 + d13 / 64.
Proof.
  pose proof Hbytes. decompose_Forall_hyps. rewrite (low2 d12), (byte_top d13 6) by (done || lia).
  unfold byte_ok in *. by rewrite lor_high by dm_lia.
Qed.
Lemma drv_c_size : Z.lor (Z.lor (Z.shiftl (Z.land d6 3) 10) (Z.shiftl d7 2)) (Z.land (Z.shiftr d8 6) 3)
  = d6 mod 4 * 1024 + (d7 * 4 + d8 / 64).
Proof.
  pose proof Hbytes. decompose_Forall_hyps. rewrite (low2 d6), (byte_top d8 6) by (done || lia).
  unfold byte_ok in *. rewrite <- Z.lor_assoc, (lor_high d7) by dm_lia. change (2 ^ 2) with 4. by rewrite lor_high by dm_lia.
Qed.
Lemma drv_c_size_mult : Z.lor (Z.shiftl (Z.land d9 3) 1) (Z.land (Z.shiftr d10 7) 1) = d9 mod 4 * 2 + d10 / 128.
Proof.
  pose proof Hbytes. decompose_Forall_hyps. rewrite (low2 d9), (byte_top d10 7) by (done || lia).
  unfold byte_ok in *. by rewrite lor_high by dm_lia.
Qed.

(** [sd_parse_csd_v1] takes READ_BL_LEN, C_SIZE, C_SIZE_MULT and WRITE_BL_LEN
    at their places in the register, and computes the capacity of a version 1
    card from them (in blocks, and in bytes modulo 2^32). *)
Theorem sd_parse_csd_fields csd :
  let f := bits_of (register data) in let out := sd_parse_csd_v1 data csd in
  max_read_bl_len out = 2 ^ f 83 80 ∧ max_write_bl_len out = 2 ^ f 25 22 ∧
  capacity_blocks out = (f 73 62 + 1) * 2 ^ (f 49 47 + 2) ∧
  capacity_bytes out = (f 73 62 + 1) * 2 ^ (f 49 47 + 2) * 2 ^ f 83 80 mod 2 ^ 32.
Proof.
  cbn zeta. rewrite csd_read_bl_len, csd_write_bl_len, csd_c_size, csd_c_size_mult. unfold sd_parse_csd_v1. cbn [nth].
  cbn zeta. cbn [max_read_bl_len max_write_bl_len capacity_blocks capacity_bytes].
  rewrite drv_write_bl_len, drv_c_size, drv_c_size_mult, low4.
  pose proof Hbytes. unfold byte_ok in *. decompose_Forall_hyps.
  assert (u32 (Z.shiftl (d6 mod 4 * 1024 + (d7 * 4 + d8 / 64) + 1) (d9 mod 4 * 2 + d10 / 128 + 2)) =
    (d6 mod 4 * 1024 + (d7 * 4 + d8 / 64) + 1) * 2 ^ (d9 mod 4 * 2 + d10 / 128 + 2)) as Eb.
  { rewrite Z.shiftl_mul_pow2 by dm_lia. apply u32_small.
    pose proof (Z.pow_le_mono_r 2 (d9 mod 4 * 2 + d10 / 128 + 2) 9). pose proof (Z.pow_pos_nonneg 2 (d9 mod 4 * 2 + d10 / 128 + 2)).
    assert (0 <= d6 mod 4 * 1024 + (d7 * 4 + d8 / 64) + 1 <= 4096) by dm_lia. assert (0 <= d9 mod 4 * 2 + d10 / 128 + 2 <= 9) by dm_lia. nia. }
  rewrite Eb, !u16_pow by dm_lia. done.
Qed.

(** [sd_parse_cid] takes the manufacturer, the revision and the serial number
    at their places in the register; the date, which the card has at bits 19
    to 8, is taken from bits 23 to 12. *)
Theorem sd_parse_cid_fields :
  let f := bits_of (register data) in let out := sd_parse_cid data in
  manufacturer_id out = f 127 120 ∧ product_revision out = f 63 56 ∧ serial_number out = f 55 24 ∧
  manufacturing_date out = f 23 12.
Proof.
  cbn zeta. unfold sd_parse_cid. cbn [nth]. cbn zeta. cbn [manufacturer_id product_revision serial_number manufacturing_date].
  pose proof Hbytes as Hb. decompose_Forall_hyps.
  rewrite (byte_top d14 4) by (done || lia).
  destruct (byte_cut d14 16) as (?&?&?); [done..|]. unfold byte_ok in *. split_and!; symmetry.
  - apply (bits_of_split _ _ _ 0 _ (register [d1; d2; d3; d4; d5; d6; d7; d8; d9; d10; d11; d12; d13; d14; d15])); cbn; lia.
  - apply (bits_of_split _ _ _ (register [d0; d1; d2; d3; d4; d5; d6; d7]) _ (register [d9; d10; d11; d12; d13; d14; d15])); cbn; lia.
  - rewrite <- !Z.lor_assoc, !lor_high by (rewrite ?lor_high by (rewrite ?lor_high by lia; lia); lia).
    apply (bits_of_split _ _ _ (register [d0; d1; d2; d3; d4; d5; d6; d7; d8]) _ (register [d13; d14; d15])); cbn; lia.
  - rewrite lor_high, u16_small by dm_lia. change (2 ^ 4) with 16.
    apply (bits_of_split _ _ _ (register [d0; d1; d2; d3; d4; d5; d6; d7; d8; d9; d10; d11; d12]) _ (d14 mod 16 * 256 + d15));
      cbn; lia.
Qed.
End Registers.

Lemma sd_parse_csd_fields_witness :
  let out := sd_parse_csd_v1 [0; 0x26; 0; 0x32; 0x5f; 0x59; 0x83; 0xd4; 0x6d; 0xb7; 0xff; 0x9f; 0x96; 0x40; 0; 0x1d]
    {| capacity_bytes := 0; capacity_blocks := 0; csd_structure := 0; max_read_bl_len := 0; max_write_bl_len := 0 |} in
  max_read_bl_len out = 2 ^ 9 ∧ capacity_blocks out = (3921 + 1) * 2 ^ (7 + 2).
Proof.
  match goal with |- let out := sd_parse_csd_v1 ?data ?csd in _ =>
    assert (Hb : Forall byte_ok data) by (repeat constructor; by unfold byte_ok);
    destruct (sd_parse_csd_fields _ _ _ _ _ _ _ _ _ _ _ _ _ _ _ _ Hb csd) as (E1&_&E2&_) end.
  split; [exact E1|exact E2].
Defined.
(** ** Conversations on the bus *)
Section Talk.
Context `{Layout, Config, Handlers, TimeConfig, SpiConfig, SdConfig} {B : Type} `{SpiWire B}.
Abbreviation st := (@spi_sys B).

(** [n] idle bytes. *)
Definition idle (n : nat) : list (Z * Z) := replicate n (0xFF, 0xFF).
(** The command [cmd], whatever the card shifts out meanwhile ([junk]), then R1
    after [n] idle bytes. *)
Definition cmd_talk (cmd junk : list Z) (n : nat) (r1 : Z) : list (Z * Z) :=
  zip (0xFF :: cmd) junk ++ idle n ++ [(0xFF, r1)].

Lemma read_r1_talk n m r1 res (s s' : st) : (n < m)%nat → r1 ≠ 0xFF → talk s (idle n ++ [(0xFF, r1)]) s' →
  sd_read_r1_loop m res s = Some (r1, s').
Proof.
  intros Hn Hr. revert m res s Hn. induction n as [|n IH]; intros [|m] res s Hn Ht; try lia.
  - cbn in Ht. apply talk_cons in Ht as (s1&E&->%talk_nil). cbn [sd_read_r1_loop]. rewrite E. cbn [mbind option_bind].
    by rewrite (proj2 (Z.eqb_neq _ _) Hr).
  - cbn in Ht. apply talk_cons in Ht as (s1&E&Ht). cbn [sd_read_r1_loop]. rewrite E. cbn. apply IH; [lia|done].
Qed.

Lemma sd_command_talk sl cmd junk n r1 (s s' : st) : length junk = S (length cmd) → (n < 8)%nat → r1 ≠ 0xFF →
  talk (spi_slave_select sl s) (cmd_talk cmd junk n r1) s' → sd_command sl cmd s = Some (r1, s').
Proof.
  intros Hl Hn Hr Ht. unfold cmd_talk in Ht. apply talk_app in Ht as (s1&Hc&Ht).
  destruct junk as [|j junk]; [done|]. cbn [zip zip_with] in Hc. apply talk_cons in Hc as (s0&E0&Hc).
  unfold sd_command. cbn zeta. rewrite E0. cbn [mbind option_bind].
  assert (length junk = length cmd) as Hl' by (cbn in Hl; lia). rewrite (send_bytes_talk cmd junk s0 s1) by done. cbn [mbind option_bind]. by eapply read_r1_talk.
Qed.

Lemma data_token_talk n m tok (s s' : st) : (n < m)%nat → tok ≠ 0xFF → talk s (idle n ++ [(0xFF, tok)]) s' →
  sd_wait_data_token_loop m s = Some (if tok =? SD_DATA_TOKEN then 0 else - EIO, s').
Proof.
  intros Hn Hr. revert m s Hn. induction n as [|n IH]; intros [|m] s Hn Ht; try lia.
  - cbn in Ht. apply talk_cons in Ht as (s1&E&->%talk_nil). cbn [sd_wait_data_token_loop]. rewrite E. cbn [mbind option_bind].
    by rewrite (proj2 (Z.eqb_neq _ _) Hr).
  - cbn in Ht. apply talk_cons in Ht as (s1&E&Ht). cbn [sd_wait_data_token_loop]. rewrite E. cbn. apply IH; [lia|done].
Qed.

Lemma read_into_talk buf data : ∀ i (s s' : st), talk s (pair 0xFF <$> data) s' →
  read_into buf i (length data) s = Some (set_spi_mem (put_bytes (spi_mem s) buf i data) s').
Proof.
  induction data as [|b data IH]; intros i s s' Ht; cbn [fmap list_fmap length read_into put_bytes] in *.
  - apply talk_nil in Ht as ->. by destruct s.
  - apply talk_cons in Ht as (s1&E&Ht). rewrite E. cbn [mbind option_bind].
    set (s2 := set_spi_mem _ s1). assert (spi_mem s1 = spi_mem s ∧ ∃ v, s1 = set_wire v s) as [Em [v Ev]].
    { unfold xfer in E. destruct (spi_exchange _ _ _ _) as [[? ?]|]; [|done]. cbn in E. simplify_eq. split; [done|]. by eexists. }
    assert (talk s2 (pair 0xFF <$> data) (set_spi_mem (spi_mem s2) s')) as Ht2.
    { destruct Ht as (b'&Hb&->). exists b'. split; [exact Hb|done]. }
    rewrite (IH _ _ _ Ht2). unfold s2. cbn. by rewrite Em.
Qed.

(** A block of data: the token after [m] idle bytes, the bytes, the CRC. *)
Definition block_talk (m : nat) (data : list Z) (c1 c2 : Z) : list (Z * Z) :=
  (idle m ++ [(0xFF, SD_DATA_TOKEN)]) ++ (pair 0xFF <$> data) ++ [(0xFF, c1); (0xFF, c2)].

Lemma read_data_block_talk buf size m data c1 c2 (s s' : st) : length data = size → (m < CONFIG_SD_READ_TIMEOUT)%nat →
  talk s (block_talk m data c1 c2) s' →
  sd_read_data_block buf size s = Some (0, set_spi_mem (put_bytes (spi_mem s) buf 0 data) s').
Proof.
  intros <- Hm Ht. apply talk_app in Ht as (s1&Ht&Hd). apply talk_app in Hd as (s2&Hd&Hc).
  unfold sd_read_data_block, sd_wait_data_token. rewrite (data_token_talk m _ SD_DATA_TOKEN s s1) by done.
  cbn [mbind option_bind]. change (negb ((if SD_DATA_TOKEN =? SD_DATA_TOKEN then 0 else - EIO) =? 0)) with false. cbn iota.
  rewrite (read_into_talk buf data 0 s1 s2 Hd). cbn [mbind option_bind]. rewrite (talk_mem _ _ _ Ht).
  apply (talk_set_mem (put_bytes (spi_mem s) buf 0 data)), talk_xfer in Hc as (s3&E3&Hc). rewrite E3. cbn [mbind option_bind].
  apply talk_xfer in Hc as (s4&E4&->%talk_nil). by rewrite E4.
Qed.

(** ** Reading a block *)
Variables (dev0 : sd_device) (d : sd_device).

(** Without argument checks, when the card accepts CMD17 and sends the block,
    [sd_read_block] stores the bytes of the block, in order, and deselects the
    card. *)
Theorem sd_read_block_reads addr buf junk n m data c1 c2 s s' :
  CONFIG_KERNEL_ARGS_CHECKS = false →
  length junk = 7%nat → (n < 8)%nat → (m < CONFIG_SD_READ_TIMEOUT)%nat → length data = SD_BLOCK_SIZE →
  talk (spi_slave_select (slave d) s)
    (cmd_talk (sd_cmd_prep 17 (u32 (addr * Z.of_nat SD_BLOCK_SIZE))) junk n 0 ++ block_talk m data c1 c2) s' →
  sd_read_block dev0 (Some d) addr buf s =
    Some (0, spi_slave_unselect (slave d) (set_spi_mem (put_bytes (spi_mem s) buf 0 data) s')).
Proof.
  intros Hck Hj Hn Hm Hd Ht. apply talk_app in Ht as (s1&Hc&Ht). unfold sd_read_block, z_user. rewrite Hck. cbn [negb orb].
  cbn [dev_at default from_option id]. rewrite (sd_command_talk (slave d) _ junk n 0 s s1) by done. cbn [mbind option_bind].
  cbn [negb Z.eqb]. rewrite (read_data_block_talk buf _ m data c1 c2 s1 s') by done. cbn [mbind option_bind].
  by rewrite (talk_mem _ _ _ Hc).
Qed.

(** With argument checks the guard is inverted: a card that was initialised
    and a buffer are refused, and only calls with a null pointer or with a
    card that was not initialised go on. *)
Theorem sd_read_block_inverted_guard dev addr buf s :
  CONFIG_KERNEL_ARGS_CHECKS = true → is_dev dev = true → has_type dev0 dev = true → nonnull buf = true →
  sd_read_block dev0 dev addr buf s = Some (- EINVAL, s).
Proof. intros Hck Hd Ht Hb. unfold sd_read_block, z_user. by rewrite Hck, Hd, Ht, Hb. Qed.

(** ** The chip select of the card *)

Lemma xfer_ports tx (s s' : st) v : xfer tx s = Some (v, s') → spi_ports s' = spi_ports s.
Proof. unfold xfer. destruct (spi_exchange _ _ _ _) as [[w b]|]; [|done]. by intros [= _ <-]. Qed.

(** One exchange, and what is done with the byte. *)
Ltac xfer_tac Hp := match goal with
  | E : (xfer ?tx ?s ≫= _) = Some _ |- _ =>
      let Ex := fresh "Ex" in destruct (xfer tx s) as [[? ?]|] eqn:Ex; [|done]; cbn [mbind option_bind] in E;
      pose proof (xfer_ports _ _ _ _ Ex) as Hp end.

Lemma send_bytes_ports l : ∀ (s s' : st), send_bytes l s = Some s' → spi_ports s' = spi_ports s.
Proof. induction l as [|b l IH]; intros s s' E; cbn [send_bytes] in E; [by simplify_eq|]. xfer_tac Hp. rewrite <- Hp. by apply IH. Qed.
Lemma read_r1_ports n : ∀ res (s s' : st) v, sd_read_r1_loop n res s = Some (v, s') → spi_ports s' = spi_ports s.
Proof.
  induction n as [|n IH]; intros res s s' v E; cbn [sd_read_r1_loop] in E; [by simplify_eq|]. xfer_tac Hp. rewrite <- Hp.
  destruct (negb _); [by simplify_eq|]. by eapply IH.
Qed.
Lemma command_ports sl cmd (s s' : st) v : sd_command sl cmd s = Some (v, s') → spi_ports s' = spi_ports (spi_slave_select sl s).
Proof.
  unfold sd_command. cbn zeta. intros E. xfer_tac Hp. destruct (send_bytes cmd _) as [s2|] eqn:E2; [|done]. cbn [mbind option_bind] in E.
  rewrite <- Hp, <- (send_bytes_ports _ _ _ E2). by eapply read_r1_ports.
Qed.
Lemma data_token_ports n : ∀ (s s' : st) r, sd_wait_data_token_loop n s = Some (r, s') →
  spi_ports s' = spi_ports s ∧ r ∈ [0; - EIO; - ETIMEDOUT].
Proof.
  induction n as [|n IH]; intros s s' r E; cbn [sd_wait_data_token_loop] in E; [simplify_eq; set_solver|]. xfer_tac Hp. rewrite <- Hp.
  destruct (negb _); [simplify_eq; split; [done|]; destruct (_ =? _); set_solver|]. by apply IH.
Qed.
Lemma read_into_ports buf n : ∀ i (s s' : st), read_into buf i n s = Some s' → spi_ports s' = spi_ports s.
Proof.
  induction n as [|n IH]; intros i s s' E; cbn [read_into] in E; [by simplify_eq|]. xfer_tac Hp. rewrite <- Hp. by apply IH in E.
Qed.
Lemma read_reg_ports sl cmd stk n (s s' : st) r : sd_read_reg sl cmd stk n s = Some (r, s') →
  spi_ports s' = spi_ports (spi_slave_select sl s) ∧ r ∈ [0; - EIO; - ETIMEDOUT].
Proof.
  unfold sd_read_reg. destruct (sd_command sl cmd s) as [[v s1]|] eqn:E1; [|done]. cbn [mbind option_bind].
  rewrite <- (command_ports _ _ _ _ _ E1). destruct (negb _); [intros [= <- <-]; set_solver|].
  unfold sd_read_data_block, sd_wait_data_token. destruct (sd_wait_data_token_loop _ s1) as [[r2 s2]|] eqn:E2; [|done]. cbn [mbind option_bind].
  apply data_token_ports in E2 as [<- Hr]. destruct (negb (r2 =? 0)); [by intros [= <- <-]|].
  destruct (read_into stk 0 n s2) as [s3|] eqn:E3; [|done]. cbn [mbind option_bind]. intros E. xfer_tac Hp1. xfer_tac Hp2.
  simplify_eq. rewrite Hp2, Hp1, (read_into_ports _ _ _ _ _ E3). set_solver.
Qed.

Lemma level_ports slave (s s' : st) : spi_ports s' = spi_ports s → level s' slave = level s slave.
Proof. unfold level, port_of. by intros ->. Qed.

(** C35: every return of [sd_read_csd] leaves the card deselected, but the one for
    a card whose register has a version that is not supported, which leaves it
    selected. *)
Theorem sd_read_csd_chip_select stk csd r csd' s s' : slave_ok (slave d) → type (info d) ≠ 0 →
  sd_read_csd dev0 (Some d) stk csd s = Some ((r, csd'), s') →
  level s' (slave d) = (if r =? - ENOTSUP then active_state (slave d) =? 1 else negb (active_state (slave d) =? 1)).
Proof.
  intros Hok Hty. unfold sd_read_csd, has_type. cbn [is_dev dev_at default from_option id]. rewrite (proj2 (Z.eqb_neq _ _) Hty).
  rewrite (z_user_true true eq_refl), (z_user_true (negb false) eq_refl). cbn zeta.
  destruct (sd_read_reg _ _ _ _ s) as [[r1 s1]|] eqn:E; [|done]. cbn [mbind option_bind]. apply read_reg_ports in E as [Hp Hr].
  assert ((r1 =? - ENOTSUP) = false) as Hr1 by (set_unfold in Hr; destruct Hr as [->|[->|[->|[]]]]; done).
  destruct (Z.eqb_spec r1 0) as [->|]; cbn [negb].
  - destruct (negb (_ =? SD_CSD_VERSION_1)); intros [= <- <- <-].
    + rewrite (level_ports _ _ _ Hp). apply (select_level (slave d) s Hok).
    + apply (unselect_level (slave d) s1 Hok).
  - intros [= <- <- <-]. rewrite Hr1. apply (unselect_level (slave d) s1 Hok).
Qed.

(** ** Waiting

    The functions that sleep between two attempts are described by
    [resumes]. *)
Variables (F : mem) (c : word) (D : gset word) (J : kstate → Prop).
Hypothesis J_objs : ∀ k k', kobjs k' = kobjs k → J k → J k'.

(** The card answers [j] times that it is busy, then that it is not. *)
Fixpoint ready_in (j : nat) (s s' : st) : Prop :=
  match j with
  | O => xfer 0xFF s = Some (0xFF, s')
  | S j => ∃ v s1, xfer 0xFF s = Some (v, s1) ∧ v ≠ 0xFF ∧ ready_in j (while_away s1) s'
  end.

(** [n] exchanges with a sleep after each of them. *)
Fixpoint alive (n : nat) (s : st) : Prop :=
  match n with O => True | S n => ∃ v s1, xfer 0xFF s = Some (v, s1) ∧ alive n (while_away s1) end.

Lemma local_bind {A B'} (f : st → option (A * st)) (g : A → SM st B') s k a s' :
  f s = Some (a, s') → sbind (local f) g s k = g a s' k.
Proof. intros E. apply sbind_done. by apply local_some. Qed.

Lemma xfer_byte tx (s s' : st) v : xfer tx s = Some (v, s') → byte_ok v.
Proof. unfold xfer. destruct (spi_exchange _ _ _ _) as [[w b]|]; [|done]. cbn. intros [= <- _]. apply byte_u8. Qed.

Lemma wait_ready_ready j : ∀ n (s s' : st) k, CHAR_UNSIGNED = true → (j < n)%nat → ready_in j s s' →
  here F c D k → J k → resumes F c D J (λ x k', x = (0, s') ∧ here F c D k' ∧ J k') (sd_wait_ready_loop n s k).
Proof.
  induction j as [|j IH]; intros [|n] s s' k Hcu Hn Hr Hh Hj; try lia; cbn [ready_in sd_wait_ready_loop] in *.
  - rewrite (local_bind _ _ _ _ 0xFF s') by (unfold spi_transceive, to_char; by rewrite Hr, Hcu). by split_and!.
  - destruct Hr as (v&s1&E&Hv&Hr). rewrite (local_bind _ _ _ _ v s1).
    + rewrite (proj2 (Z.eqb_neq _ _) Hv). apply (msleep_then F c D J J_objs); [done..|]. intros k' Hh' Hj'. apply IH; (done || lia).
    + unfold spi_transceive, to_char. rewrite E, Hcu. cbn. unfold u8. rewrite Z.mod_small; [done|]. by eapply xfer_byte.
Qed.

Lemma wait_ready_signed n : ∀ (s : st) k, CHAR_UNSIGNED = false → alive n s → here F c D k → J k →
  resumes F c D J (λ x k', x.1 = - ETIMEDOUT ∧ here F c D k' ∧ J k') (sd_wait_ready_loop n s k).
Proof.
  induction n as [|n IH]; intros s k Hcu Ha Hh Hj; cbn [alive sd_wait_ready_loop] in *; [by split_and!|].
  destruct Ha as (v&s1&E&Ha). rewrite (local_bind _ _ _ _ (s8 v) s1) by (unfold spi_transceive, to_char; by rewrite E, Hcu).
  rewrite (proj2 (Z.eqb_neq _ _)) by (unfold s8; pose proof (Z.mod_pos_bound (v + 128) 256); lia).
  apply (msleep_then F c D J J_objs); [done..|]. intros k' Hh' Hj'. apply IH; done.
Qed.

(** ** Writing a block *)

(** The bytes sent after R1: the token, the block and a dummy CRC. *)
Definition block_bytes (s : st) (buf : word) : list Z :=
  SD_DATA_TOKEN :: read_bytes (spi_mem s) buf SD_BLOCK_SIZE ++ [0xFF; 0xFF].

Lemma data_response_talk n m res s s' : (n < m)%nat → res ≠ 0xFF → talk s (idle n ++ [(0xFF, res)]) s' →
  sd_data_response m s = Some (Some res, s').
Proof.
  intros Hn Hr. revert m s Hn. induction n as [|n IH]; intros [|m] s Hn Ht; try lia.
  - cbn in Ht. apply talk_cons in Ht as (s1&E&->%talk_nil). cbn [sd_data_response]. rewrite E. cbn [mbind option_bind].
    by rewrite (proj2 (Z.eqb_neq _ _) Hr).
  - cbn in Ht. apply talk_cons in Ht as (s1&E&Ht). cbn [sd_data_response]. rewrite E. cbn. apply IH; [lia|done].
Qed.

(** Up to the moment when the card has accepted the block: what is left is
    waiting and deselecting. *)
Lemma write_block_accepted addr buf junk n junk2 m res s s1 k : nonnull buf = true → type (info d) ≠ 0 →
  length junk = 7%nat → (n < 8)%nat → length junk2 = (SD_BLOCK_SIZE + 3)%nat → (m < CONFIG_SD_READ_TIMEOUT)%nat →
  res ≠ 0xFF → Z.land res 7 = 5 →
  talk (spi_slave_select (slave d) s)
    (cmd_talk (sd_cmd_prep 24 (u32 (addr * Z.of_nat SD_BLOCK_SIZE))) junk n 0 ++ zip (block_bytes s buf) junk2 ++
     idle m ++ [(0xFF, res)]) s1 →
  sd_write_block dev0 (Some d) addr buf s k =
    sbind sd_wait_ready (λ ret, do* _ := smodify (spi_slave_unselect (slave d)) in sret ret) s1 k.
Proof.
  intros Hb Hty Hj Hn Hj2 Hm Hres H7 Ht. apply talk_app in Ht as (s2&Hc&Ht). apply talk_app in Ht as (s3&Hd&Ht).
  unfold sd_write_block, has_type. cbn [is_dev dev_at default from_option id]. rewrite Hb, (proj2 (Z.eqb_neq _ _) Hty).
  rewrite (z_user_true (true && true) eq_refl), (z_user_true (negb false) eq_refl).
  rewrite (local_bind _ _ _ _ 0 s2) by (by apply (sd_command_talk _ _ junk n)). cbn [negb Z.eqb].
  unfold sbind at 1, bind at 1. unfold sbind at 1, bind at 1.
  assert (local (sd_send_block buf) s2 k = Done (tt, s3) k) as ->.
  { apply local_some. unfold sd_send_block, unit_step. rewrite (talk_mem _ _ _ Hc).
    assert (length junk2 = length (block_bytes s buf)) by (cbn; rewrite length_app, read_bytes_length; cbn; lia).
    change (spi_mem (spi_slave_select (slave d) s)) with (spi_mem s). by rewrite (send_bytes_talk _ junk2 s2 s3). }
  cbn [rbind]. rewrite (local_bind _ _ _ _ (Some res) s1) by (by eapply data_response_talk).
  change (Z.land res SD_DATA_RESPONSE_MASK) with (Z.land res 7). by rewrite H7.
Qed.

(** The card accepts CMD24, takes the token, the bytes of the buffer in order
    and two bytes for the CRC, and accepts the data. *)
Definition write_accepted (addr : Z) (buf : word) (s s1 : st) : Prop :=
  ∃ junk n junk2 m res, length junk = 7%nat ∧ (n < 8)%nat ∧ length junk2 = (SD_BLOCK_SIZE + 3)%nat ∧
    (m < CONFIG_SD_READ_TIMEOUT)%nat ∧ res ≠ 0xFF ∧ Z.land res 7 = 5 ∧
    talk (spi_slave_select (slave d) s)
      (cmd_talk (sd_cmd_prep 24 (u32 (addr * Z.of_nat SD_BLOCK_SIZE))) junk n 0 ++ zip (block_bytes s buf) junk2 ++
       idle m ++ [(0xFF, res)]) s1.

(** The attempts of [sd_wait_ready]. *)
Definition write_attempts : nat := Z.to_nat (u16 (CONFIG_SD_WRITE_TIMEOUT_MS - 1)).

(** C33: when the card accepts a block, [sd_write_block] polls it, sleeping between
    two polls, and returns 0 with the card deselected once it is ready; if
    [char] is signed the answer is never recognised: the function always times
    out. *)
Theorem sd_write_block_writes addr buf s s1 k :
  nonnull buf = true → type (info d) ≠ 0 → write_accepted addr buf s s1 → here F c D k → J k →
  (CHAR_UNSIGNED = true → ∀ j s2, (j < write_attempts)%nat → ready_in j s1 s2 →
     resumes F c D J (λ x k', x = (0, spi_slave_unselect (slave d) s2) ∧ here F c D k')
       (sd_write_block dev0 (Some d) addr buf s k)) ∧
  (CHAR_UNSIGNED = false → alive write_attempts s1 →
     resumes F c D J (λ x k', x.1 = - ETIMEDOUT ∧ here F c D k') (sd_write_block dev0 (Some d) addr buf s k)).
Proof.
  intros Hb Hty (junk&n&junk2&m&res&?&?&?&?&?&?&Ht) Hh Hj.
  rewrite (write_block_accepted addr buf junk n junk2 m res s s1 k) by done. split.
  - intros Hcu j s2 Hn Hr. eapply resumes_sbind; [by eapply wait_ready_ready|].
    by intros r s' k' ([= -> ->]&Hh'&_).
  - intros Hcu Ha. eapply resumes_sbind; [by eapply wait_ready_signed|]. intros r s' k' [Hr [Hh' _]]. by split.
Qed.

(** ** Initialising the card *)

(** One attempt: CMD55, accepted, and ACMD41, answered by [r1]. *)
Definition attempt (r1 : Z) (s s' : st) : Prop :=
  ∃ r s1, sd_send_cmd_read_r1 d SD_APP_CMD s = Some (r, s1) ∧ r <= 1 ∧
    sd_send_cmd_read_r1 d SD_SEND_OP_COND s1 = Some (r1, s').

(** The card is still in the idle state at [j] attempts, then it is ready. *)
Fixpoint ready_after (j : nat) (s s' : st) : Prop :=
  match j with
  | O => attempt 0 s s'
  | S j => ∃ s1, attempt 1 s s1 ∧ ready_after j (while_away s1) s'
  end.
(** It is in the idle state at [n] attempts. *)
Fixpoint idle_for (n : nat) (s s' : st) : Prop :=
  match n with O => s' = s | S n => ∃ s1, attempt 1 s s1 ∧ idle_for n (while_away s1) s' end.

Lemma acmd41_attempt n r1 s s' k : attempt r1 s s' → sd_acmd41_loop d (S n) s k =
  (if r1 =? 0 then sret (inr (Z.of_nat n))
   else if 1 <? r1 then sret (inl (- EIO))
   else do* _ := lift (k_msleep SD_ACMD41_RETRY_DELAY_MS) in sd_acmd41_loop d n) s' k.
Proof.
  intros (r&s1&E1&Hr&E2). cbn [sd_acmd41_loop]. rewrite (local_bind _ _ _ _ r s1) by done.
  rewrite (proj2 (Z.ltb_ge _ _)) by lia. by rewrite (local_bind _ _ _ _ r1 s').
Qed.

Lemma acmd41_ready j : ∀ n (s s' : st) k, (j < n)%nat → ready_after j s s' → here F c D k → J k →
  resumes F c D J (λ x k', x = (inr (Z.of_nat (n - 1 - j)), s') ∧ here F c D k' ∧ J k') (sd_acmd41_loop d n s k).
Proof.
  induction j as [|j IH]; intros [|n] s s' k Hn Hr Hh Hj; try lia; cbn [ready_after] in Hr.
  - rewrite (acmd41_attempt n 0 s s') by done. cbn. by replace (n - 0 - 0)%nat with n by lia.
  - destruct Hr as (s1&Ha&Hr). rewrite (acmd41_attempt n 1 s s1) by done. cbn [Z.eqb Z.ltb Z.compare Pos.compare Pos.compare_cont].
    apply (msleep_then F c D J J_objs); [done..|]. intros k' Hh' Hj'. replace (S n - 1 - S j)%nat with (n - 1 - j)%nat by lia. apply IH; (done || lia).
Qed.

Lemma acmd41_idle n : ∀ (s s' : st) k, idle_for n s s' → here F c D k → J k →
  resumes F c D J (λ x k', x = (inr 0xFFFF, s') ∧ here F c D k' ∧ J k') (sd_acmd41_loop d n s k).
Proof.
  induction n as [|n IH]; intros s s' k Hi Hh Hj; cbn [idle_for] in Hi.
  - rewrite <- Hi. cbn. done.
  - destruct Hi as (s1&Ha&Hi). rewrite (acmd41_attempt n 1 s s1) by done. cbn [Z.eqb Z.ltb Z.compare Pos.compare Pos.compare_cont].
    apply (msleep_then F c D J J_objs); [done..|]. intros k' Hh' Hj'. by apply IH.
Qed.

Definition init_attempts : nat := Z.to_nat (CONFIG_SD_INIT_TIMEOUT_MS / SD_ACMD41_RETRY_DELAY_MS).

(** C32: the end of [sd_init], which waits for the card to leave the idle state:
    - ready before the last attempt: the block length is set, and the result
      is 0 when the card accepts it;
    - ready at the last attempt: the function reports a timeout;
    - never ready: it does not report one, but goes on to CMD16, whose answer
      decides. *)
Theorem sd_init_waits s k : here F c D k → J k →
  (∀ j s1 r s2, (S j < init_attempts)%nat → ready_after j s s1 →
     sd_send_cmd_read_r1 d (sd_cmd_prep SD_CMD16 (Z.of_nat SD_BLOCK_SIZE)) s1 = Some (r, s2) →
     resumes F c D J (λ x k', x = (if r =? 0 then 0 else - EIO, d, s2) ∧ here F c D k') (sd_init_finish d s k)) ∧
  (∀ s1, (0 < init_attempts)%nat → ready_after (init_attempts - 1) s s1 →
     resumes F c D J (λ x k', x = (- ETIMEDOUT, d, s1) ∧ here F c D k') (sd_init_finish d s k)) ∧
  (∀ s1 r s2, idle_for init_attempts s s1 →
     sd_send_cmd_read_r1 d (sd_cmd_prep SD_CMD16 (Z.of_nat SD_BLOCK_SIZE)) s1 = Some (r, s2) →
     resumes F c D J (λ x k', x = (if r =? 0 then 0 else - EIO, d, s2) ∧ here F c D k') (sd_init_finish d s k)).
Proof.
  intros Hh Hj. unfold sd_init_finish. fold init_attempts. split_and!.
  - intros j s1 r s2 Hn Hr E. eapply resumes_sbind; [eapply acmd41_ready; [|done..]; lia|].
    intros a s' k' ([= -> ->]&Hh'&_). cbv iota.
    assert ((Z.of_nat (init_attempts - 1 - j) =? 0) = false) as -> by (apply Z.eqb_neq; clear - Hn; lia). rewrite (local_bind _ _ _ _ r s2) by done.
    cbn. by destruct (r =? 0).
  - intros s1 Hn Hr. eapply resumes_sbind; [eapply acmd41_ready; [|done..]; lia|].
    intros a s' k' ([= -> ->]&Hh'&_). cbv iota. replace (init_attempts - 1 - (init_attempts - 1))%nat with 0%nat by lia. done.
  - intros s1 r s2 Hi E. eapply resumes_sbind; [by eapply acmd41_idle|].
    intros a s' k' ([= -> ->]&Hh'&_). cbv iota. change (0xFFFF =? 0) with false. cbv iota. rewrite (local_bind _ _ _ _ r s2) by done.
    cbn. by destruct (r =? 0).
Qed.

End Talk.

(** ** Instances: the scripted card of [Spi] *)

#[export] Instance w_sd_config : SdConfig := {
  SD_BLOCK_SIZE := 4; CONFIG_SD_INIT_TIMEOUT_MS := 200; CONFIG_SD_READ_TIMEOUT := 5; CONFIG_SD_WRITE_TIMEOUT_MS := 4 }.
Definition w_sd : sd_device := {| slave := w_sl; info := {| type := SD_CARD_TYPE_SDSC_V1; ocr := 0; voltage_accepted := 0 |} |}.
Definition w_buf : word := w_obj 5.
Definition w_no_checks : Config := {|
  CONFIG_KERNEL_ARGS_CHECKS := false;
  CONFIG_KERNEL_REENTRANCY := true;
  CONFIG_POLLING := true;
  CONFIG_THREAD_JOIN := true;
  CONFIG_KERNEL_THREAD_IDLE := true;
  CONFIG_KERNEL_TIMERS := true;
  CONFIG_KERNEL_EVENTS := true;
  CONFIG_KERNEL_EVENTS_ALLOW_NO_WAIT := true;
  Z_KERNEL_TIME_SLICE_TICKS := 1;
  z_thread_idle := Ptr 20 0;
  z_thread_main := Ptr 1 0;
  z_timeouts_queue := Ptr 21 0;
  z_event_q := Ptr 22 0;
  z_timers_runqueue := Ptr 23 0;
  loop_fuel := 16 |}.

Definition w_read_script : list (Z * Z) :=
  cmd_talk (sd_cmd_prep 17 (u32 (3 * 4))) [0xFF; 0xFF; 0xFF; 0xFF; 0xFF; 0xFF; 0xFF] 1 0 ++ block_talk 2 [1; 2; 3; 4] 0xAB 0xCD.

Lemma sd_read_block_reads_witness : ∃ s',
  @sd_read_block w_no_checks _ _ _ w_sd (Some w_sd) 3 w_buf (w_bus w_read_script ∅) = Some (0, s') ∧
  read_bytes (spi_mem s') w_buf 4 = [1; 2; 3; 4].
Proof.
  set (s := w_bus w_read_script ∅). set (s1 := spi_slave_select w_sl s).
  assert (Ht : talk s1 w_read_script (set_wire [] s1)) by (apply talk_script; [done|done|repeat constructor]).
  eexists. split.
  - exact (@sd_read_block_reads w_no_checks _ _ _ w_sd w_sd 3 w_buf [0xFF; 0xFF; 0xFF; 0xFF; 0xFF; 0xFF; 0xFF] 1 2 [1; 2; 3; 4] 0xAB 0xCD
      s (set_wire [] s1) eq_refl eq_refl ltac:(lia) ltac:(cbn; lia) eq_refl Ht).
  - by vm_compute.
Defined.

Lemma sd_read_block_inverted_guard_witness :
  @sd_read_block w_config _ _ _ w_sd (Some w_sd) 3 w_buf (w_bus w_read_script ∅) = Some (- EINVAL, w_bus w_read_script ∅).
Proof. exact (@sd_read_block_inverted_guard w_config _ _ _ w_sd (Some w_sd) 3 w_buf _ eq_refl eq_refl eq_refl eq_refl). Defined.

(** A register with the version 2 in its first byte. *)
Definition w_csd0 : sd_csd :=
  {| capacity_bytes := 0; capacity_blocks := 0; csd_structure := 0; max_read_bl_len := 0; max_write_bl_len := 0 |}.
Definition w_csd_script : list (Z * Z) :=
  cmd_talk SD_SEND_CSD [0xFF; 0xFF; 0xFF; 0xFF; 0xFF; 0xFF; 0xFF] 0 0 ++ block_talk 0 (0x40 :: replicate 15 0) 0xAB 0xCD.

Lemma sd_read_csd_chip_select_witness : ∃ s',
  sd_read_csd w_sd (Some w_sd) w_buf w_csd0 (w_bus w_csd_script ∅) = Some ((- ENOTSUP, w_csd0), s') ∧ level s' w_sl = false.
Proof.
  destruct (sd_read_csd w_sd (Some w_sd) w_buf w_csd0 (w_bus w_csd_script ∅)) as [[[r csd'] s']|] eqn:E.
  2:{ exfalso. revert E. by vm_compute. }
  assert (r = - ENOTSUP ∧ csd' = w_csd0) as [-> ->] by (revert E; vm_compute; by intros [= <- <- _]).
  exists s'. split; [done|].
  exact (sd_read_csd_chip_select w_sd w_sd w_buf w_csd0 (- ENOTSUP) w_csd0 (w_bus w_csd_script ∅) s'
    ltac:(by split; cbn; lia) ltac:(done) E).
Defined.

(** The block is accepted; the card is busy for one poll. *)
Definition w_write_script : list (Z * Z) :=
  cmd_talk (sd_cmd_prep 24 (u32 (3 * 4))) [0xFF; 0xFF; 0xFF; 0xFF; 0xFF; 0xFF; 0xFF] 0 0 ++
  zip (block_bytes (w_bus [] ∅) w_buf) (replicate 7 0xFF) ++ idle 1 ++ [(0xFF, 0xE5)].
Definition w_busy_script : list (Z * Z) := [(0xFF, 0); (0xFF, 0xFF)].

Lemma sd_write_block_writes_witness : ∃ k, here w_F t1 w_D k ∧
  resumes w_F t1 w_D (λ _, True) (λ x k', x.1 = 0 ∧ level x.2 w_sl = true ∧ here w_F t1 w_D k')
    (sd_write_block w_sd (Some w_sd) 3 w_buf (w_bus (w_write_script ++ w_busy_script) ∅) k).
Proof.
  pose proof (w_here 0 NULL) as Hh. revert Hh. generalize (w_mutex 0 NULL w_ready). intros k Hh. exists k. split; [done|].
  set (s := w_bus (w_write_script ++ w_busy_script) ∅).
  assert (Ha : write_accepted w_sd 3 w_buf s (set_wire w_busy_script (spi_slave_select w_sl s))).
  { exists [0xFF; 0xFF; 0xFF; 0xFF; 0xFF; 0xFF; 0xFF], 0%nat, (replicate 7 0xFF), 1%nat, 0xE5.
    split_and!; [done|lia|done|cbn; lia|done|done|]. apply (talk_script _ w_write_script); [done|done|repeat constructor]. }
  set (s1 := set_wire w_busy_script (spi_slave_select w_sl s)).
  assert (Hr : ready_in 1 s1 (set_wire [] s1)) by (exists 0, (set_wire [(0xFF, 0xFF)] s1); by split_and!).
  refine (resumes_impl _ _ _ _ _ _ _ (proj1 (sd_write_block_writes w_sd w_sd w_F t1 w_D (λ _, True) (λ _ _ _ H, H) 3 w_buf s s1 k
    eq_refl _ Ha Hh I) eq_refl 1%nat _ _ Hr) _); [done|vm_compute; lia|]. intros x k' [-> Hh']. by split_and!.
Defined.

(** A card that stays in the idle state, and accepts CMD16: [sd_init] goes
    through. *)
Definition w_answer (cmd : list Z) (r1 : Z) : list (Z * Z) := cmd_talk cmd [0xFF; 0xFF; 0xFF; 0xFF; 0xFF; 0xFF; 0xFF] 0 r1.
Definition w_idle_script : list (Z * Z) :=
  w_answer SD_APP_CMD 1 ++ w_answer SD_SEND_OP_COND 1 ++ w_answer SD_APP_CMD 1 ++ w_answer SD_SEND_OP_COND 1 ++
  w_answer (sd_cmd_prep SD_CMD16 4) 0.

Lemma sd_init_waits_witness : ∃ k, here w_F t1 w_D k ∧
  resumes w_F t1 w_D (λ _, True) (λ x k', x.1 = (0, w_sd) ∧ here w_F t1 w_D k') (sd_init_finish w_sd (w_bus w_idle_script ∅) k).
Proof.
  pose proof (w_here 0 NULL) as Hh. revert Hh. generalize (w_mutex 0 NULL w_ready). intros k Hh. exists k. split; [done|].
  set (s := w_bus w_idle_script ∅). assert (∃ s1, idle_for w_sd init_attempts s s1 ∧ ∃ s2,
    sd_send_cmd_read_r1 w_sd (sd_cmd_prep SD_CMD16 (Z.of_nat SD_BLOCK_SIZE)) s1 = Some (0, s2)) as (s1&Hi&s2&E).
  { change init_attempts with 2%nat. eexists. split; [|eexists].
    - eexists. split; [eexists _, _; split_and!; [vm_compute; reflexivity|done|vm_compute; reflexivity]|].
      eexists. split; [eexists _, _; split_and!; [vm_compute; reflexivity|done|vm_compute; reflexivity]|]. reflexivity.
    - vm_compute. reflexivity. }
  refine (resumes_impl _ _ _ _ _ _ _ (proj2 (proj2 (sd_init_waits w_sd w_F t1 w_D (λ _, True) (λ _ _ _ H, H) s k Hh I)) s1 0 s2 Hi E) _).
  intros x k' [-> Hh']. by split.
Defined.
