(* ===== verification/Usart.v ===== *)
(** * USART driver (drivers/usart.c, drivers/usart.h)

    The peripheral is a parameter: [uart_next] is what happens while the
    driver polls, [uart_put] a write to the data register, [uart_get] a read.
    The callbacks of the asynchronous interface are parameters too. *)

From S2P Require Import Prelude Types Bytes Atomic Gpio World.

(** Bits of UCSRnA, UCSRnB and UCSRnC. *)
Definition RXCn : Z := 7.
Definition UDREn : Z := 5.
Definition RXCIEn : Z := 7.
Definition TXCIEn : Z := 6.
Definition UDRIEn : Z := 5.
Definition RXENn : Z := 4.
Definition TXENn : Z := 3.
Definition UCSZn2 : Z := 2.
Definition UPMn0 : Z := 4.
Definition USBSn : Z := 3.
Definition UCSZn0 : Z := 1.

Record UART_Device := { UCSRnA : Z; UCSRnB : Z; UCSRnC : Z; UBRRnL : Z; UBRRnH : Z }.
Definition with_UCSRnB (f : Z → Z) (r : UART_Device) : UART_Device :=
  {| UCSRnA := UCSRnA r; UCSRnB := u8 (f (UCSRnB r)); UCSRnC := UCSRnC r; UBRRnL := UBRRnL r; UBRRnH := UBRRnH r |}.
#[export] Instance UART_Device_eq_dec : EqDecision UART_Device.
Proof. solve_decision. Defined.

Definition AVR_USARTn_BASE (n : Z) : Z := 0xC0 + n * 8.
Definition AVR_USARTn_INDEX (usart_dev : Z) : Z := (usart_dev - AVR_USARTn_BASE 0) / 8.
Definition USART0_DEVICE : Z := AVR_USARTn_BASE 0.
Definition USART1_DEVICE : Z := AVR_USARTn_BASE 1.
Definition USART2_DEVICE : Z := AVR_USARTn_BASE 2.
Definition USART3_DEVICE : Z := AVR_USARTn_BASE 2.

Definition USART_MODE_ASYNCHRONOUS : Z := 0.
Definition USART_DATA_BITS_9 : Z := 7.

(** The enumerations by their values; the bit fields bound them. *)
Record usart_config := {
  baudrate : Z; receiver : bool; transmitter : bool; mode : Z; parity : Z; stopbits : Z; databits : Z; speed_mode : bool;
}.

Definition USART_EVENT_RX_COMPLETE : Z := 0.
Definition USART_EVENT_TX_COMPLETE : Z := 1.

Record usart_buf := { u_buf : word; u_size : Z; u_cur : Z }.
Record usart_async_context := { evt : Z; u_callback : word; rx : usart_buf; tx : usart_buf }.

Class Uart (B : Type) := {
  uart_next : Z → UART_Device → B → UART_Device * B;
  uart_put : Z → UART_Device → Z → B → UART_Device * B;
  uart_get : Z → UART_Device → B → Z * (UART_Device * B);
}.

(** ** Baud rate *)
Section Baud.
Variable F_CPU : Z.

Definition calculate_ubrr (baud : Z) (speed : bool) : Z :=
  let q := if speed then 2 else 3 in
  let div := u16 (Z.shiftr F_CPU q / baud) in
  let div := if negb (Z.land div 1 =? 0) then u16 (div + 2) else div in
  u16 (Z.shiftr div 1 - 1).

Definition set_baudrate (baud : Z) (speed : bool) (r : UART_Device) : UART_Device :=
  let ubrr := calculate_ubrr baud speed in
  {| UCSRnA := UCSRnA r; UCSRnB := UCSRnB r; UCSRnC := UCSRnC r; UBRRnL := u8 ubrr; UBRRnH := u8 (Z.shiftr ubrr 8) |}.

(** ** Initialisation *)

Definition ll_usart_init (config : usart_config) (r : UART_Device) : UART_Device :=
  let r := set_baudrate (baudrate config) (speed_mode config) r in
  let ucsrnb := if transmitter config then BIT TXENn else 0 in
  let ucsrnb := if receiver config then Z.lor ucsrnb (BIT RXENn) else ucsrnb in
  let ucsrc := u8 (Z.shiftl (parity config) UPMn0) in
  let ucsrc := u8 (Z.lor ucsrc (Z.shiftl (stopbits config) USBSn)) in
  let ucsrc := u8 (Z.lor ucsrc (Z.shiftl (databits config) UCSZn0)) in
  {| UCSRnA := UCSRnA r; UCSRnB := u8 ucsrnb; UCSRnC := ucsrc; UBRRnL := UBRRnL r; UBRRnH := UBRRnH r |}.
End Baud.

Section Usart.
Context `{Config} {B : Type} `{Uart B}.
Variable F_CPU : Z.

Record usart_sys := {
  uarts : gmap Z UART_Device; usart_async_contexts : gmap Z usart_async_context; u_mem : bmem; u_bus : B;
}.
#[global] Instance UART_Device_inhabited : Inhabited UART_Device :=
  populate {| UCSRnA := 0; UCSRnB := 0; UCSRnC := 0; UBRRnL := 0; UBRRnH := 0 |}.
#[global] Instance usart_async_context_inhabited : Inhabited usart_async_context :=
  populate {| evt := 0; u_callback := NULL; rx := {| u_buf := NULL; u_size := 0; u_cur := 0 |};
              tx := {| u_buf := NULL; u_size := 0; u_cur := 0 |} |}.

Definition uart_of (s : usart_sys) (dev : Z) : UART_Device := uarts s !!! dev.
Definition actx_of (s : usart_sys) (i : Z) : usart_async_context := usart_async_contexts s !!! i.
Definition upd_uart (dev : Z) (f : UART_Device → UART_Device) (s : usart_sys) : usart_sys :=
  {| uarts := <[dev := f (uart_of s dev)]> (uarts s); usart_async_contexts := usart_async_contexts s; u_mem := u_mem s;
     u_bus := u_bus s |}.
Definition upd_actx (i : Z) (f : usart_async_context → usart_async_context) (s : usart_sys) : usart_sys :=
  {| uarts := uarts s; usart_async_contexts := <[i := f (actx_of s i)]> (usart_async_contexts s); u_mem := u_mem s;
     u_bus := u_bus s |}.
Definition set_u_mem (m : bmem) (s : usart_sys) : usart_sys :=
  {| uarts := uarts s; usart_async_contexts := usart_async_contexts s; u_mem := m; u_bus := u_bus s |}.
(** The peripheral [dev] and the bus after an access. *)
Definition set_hw (dev : Z) (x : UART_Device * B) (s : usart_sys) : usart_sys :=
  {| uarts := <[dev := x.1]> (uarts s); usart_async_contexts := usart_async_contexts s; u_mem := u_mem s; u_bus := x.2 |}.

Definition usart_init (dev : Z) (config_ok : bool) (config : usart_config) (s : usart_sys) : Z * usart_sys :=
  if (dev =? 0) || negb config_ok then (- EINVAL, s)
  else if negb (mode config =? USART_MODE_ASYNCHRONOUS) then (- EINVAL, s)
  else if parity config =? 1 then (- EINVAL, s)
  else if negb (Z.land (databits config) 4 =? 0) && negb (databits config =? USART_DATA_BITS_9) then (- EINVAL, s)
  else (0, upd_uart dev (ll_usart_init F_CPU config) s).

Definition usart_deinit (dev : Z) (s : usart_sys) : Z * usart_sys :=
  if dev =? 0 then (- EINVAL, s)
  else (0, upd_uart dev (λ r, {| UCSRnA := 0; UCSRnB := 0; UCSRnC := 0; UBRRnL := UBRRnL r; UBRRnH := UBRRnH r |}) s).

(** ** Polling *)

(** [while (!(dev->UCSRnA & BIT(flag)));] with at most [fuel] rounds. *)
Fixpoint uart_wait (fuel : nat) (dev flag : Z) (s : usart_sys) : option usart_sys :=
  if negb (Z.land (UCSRnA (uart_of s dev)) (BIT flag) =? 0) then Some s
  else match fuel with
       | O => None
       | S fuel => uart_wait fuel dev flag (set_hw dev (uart_next dev (uart_of s dev) (u_bus s)) s)
       end.

Definition udr_write (dev v : Z) (s : usart_sys) : usart_sys := set_hw dev (uart_put dev (uart_of s dev) (u8 v) (u_bus s)) s.
Definition udr_read (dev : Z) (s : usart_sys) : Z * usart_sys :=
  let '(v, x) := uart_get dev (uart_of s dev) (u_bus s) in (u8 v, set_hw dev x s).

Definition ll_usart_sync_putc (fuel : nat) (dev c : Z) (s : usart_sys) : option usart_sys :=
  s ← uart_wait fuel dev UDREn s; Some (udr_write dev c s).
Definition ll_usart_sync_getc (fuel : nat) (dev : Z) (s : usart_sys) : option (Z * usart_sys) :=
  s ← uart_wait fuel dev RXCn s; Some (udr_read dev s).
Definition ll_usart_getc (dev : Z) (s : usart_sys) : Z * usart_sys :=
  if negb (Z.land (UCSRnA (uart_of s dev)) (BIT RXCn) =? 0) then udr_read dev s else (-1, s).

Fixpoint usart_send_loop (fuel : nat) (dev : Z) (buf : word) (i : Z) (n : nat) (s : usart_sys) : option usart_sys :=
  match n with
  | O => Some s
  | S n => s ← ll_usart_sync_putc fuel dev (rdb (u_mem s) (ptr_add buf i)) s; usart_send_loop fuel dev buf (i + 1) n s
  end.
(** The result is converted to the [int8_t] that the function returns. *)
Definition usart_send (fuel : nat) (dev : Z) (buf : word) (len : Z) (s : usart_sys) : option (Z * usart_sys) :=
  if negb (z_user (negb (dev =? 0) && (nonnull buf || (len =? 0)))) then Some (- EINVAL, s)
  else s ← usart_send_loop fuel dev buf 0 (Z.to_nat len) s; Some (s8 len, s).

(** ** Interrupts *)

Definition ll_usart_enable_rx_isr (dev : Z) : usart_sys → usart_sys := upd_uart dev (with_UCSRnB (λ v, Z.lor v (BIT RXCIEn))).
Definition ll_usart_disable_rx_isr (dev : Z) : usart_sys → usart_sys :=
  upd_uart dev (with_UCSRnB (λ v, Z.land v (Z.lnot (BIT RXCIEn)))).
Definition ll_usart_enable_tx_isr (dev : Z) : usart_sys → usart_sys := upd_uart dev (with_UCSRnB (λ v, Z.lor v (BIT TXCIEn))).
Definition ll_usart_disable_tx_isr (dev : Z) : usart_sys → usart_sys :=
  upd_uart dev (with_UCSRnB (λ v, Z.land v (Z.lnot (BIT TXCIEn)))).
Definition ll_usart_enable_udre_isr (dev : Z) : usart_sys → usart_sys := upd_uart dev (with_UCSRnB (λ v, Z.lor v (BIT UDRIEn))).
Definition ll_usart_disable_udre_isr (dev : Z) : usart_sys → usart_sys :=
  upd_uart dev (with_UCSRnB (λ v, Z.land v (Z.lnot (BIT UDRIEn)))).

Definition with_evt (v : Z) (x : usart_async_context) : usart_async_context :=
  {| evt := v; u_callback := u_callback x; rx := rx x; tx := tx x |}.
Definition with_rx (f : usart_buf → usart_buf) (x : usart_async_context) : usart_async_context :=
  {| evt := evt x; u_callback := u_callback x; rx := f (rx x); tx := tx x |}.
Definition with_tx (f : usart_buf → usart_buf) (x : usart_async_context) : usart_async_context :=
  {| evt := evt x; u_callback := u_callback x; rx := rx x; tx := f (tx x) |}.
Definition at_cur (n : Z) (b : usart_buf) : usart_buf := {| u_buf := u_buf b; u_size := u_size b; u_cur := u16 n |}.

(** [callback(dev, ctx)]; the context is given by its index. *)
Variable call_usart_callback : word → Z → Z → usart_sys → usart_sys.

(** The call at the end of a transfer; [None] is the failed assertion that a
    callback was set. *)
Definition usart_event (dev i e : Z) (s : usart_sys) : option usart_sys :=
  let cb := u_callback (actx_of s i) in
  if decide (cb = NULL) then None else Some (call_usart_callback cb dev i (upd_actx i (with_evt e) s)).

Definition rx_interrupt (dev : Z) (s : usart_sys) : option usart_sys :=
  let '(chr, s) := udr_read dev s in
  let i := AVR_USARTn_INDEX dev in
  let r := rx (actx_of s i) in
  let s := set_u_mem (<[ptr_add (u_buf r) (u_cur r) := chr]> (u_mem s)) (upd_actx i (with_rx (at_cur (u_cur r + 1))) s) in
  let r := rx (actx_of s i) in
  if u_cur r =? u_size r
  then s ← usart_event dev i USART_EVENT_RX_COMPLETE s; Some (upd_actx i (with_rx (at_cur 0)) s)
  else Some s.

Definition tx_interrupt (dev : Z) (s : usart_sys) : option usart_sys :=
  let i := AVR_USARTn_INDEX dev in
  let t := tx (actx_of s i) in
  if u_cur t =? u_size t
  then s ← usart_event dev i USART_EVENT_TX_COMPLETE s;
       Some (upd_actx i (with_tx (λ b, {| u_buf := u_buf b; u_size := 0; u_cur := u_cur b |})) s)
  else Some s.

Definition udre_interrupt (dev : Z) (s : usart_sys) : usart_sys :=
  let i := AVR_USARTn_INDEX dev in
  let t := tx (actx_of s i) in
  if u_cur t <? u_size t
  then udr_write dev (rdb (u_mem s) (ptr_add (u_buf t) (u_cur t))) (upd_actx i (with_tx (at_cur (u_cur t + 1))) s)
  else upd_uart dev (with_UCSRnB (λ v, Z.land v (Z.lnot (BIT UDRIEn)))) s.

Definition USART0_RX_vect := rx_interrupt USART0_DEVICE.
Definition USART0_TX_vect := tx_interrupt USART0_DEVICE.
Definition USART0_UDRE_vect := udre_interrupt USART0_DEVICE.
Definition USART1_RX_vect := rx_interrupt USART1_DEVICE.
Definition USART1_TX_vect := tx_interrupt USART1_DEVICE.
Definition USART1_UDRE_vect := udre_interrupt USART1_DEVICE.
Definition USART2_RX_vect := rx_interrupt USART2_DEVICE.
Definition USART2_TX_vect := tx_interrupt USART2_DEVICE.
Definition USART2_UDRE_vect := udre_interrupt USART2_DEVICE.
Definition USART3_RX_vect := rx_interrupt USART3_DEVICE.
Definition USART3_TX_vect := tx_interrupt USART3_DEVICE.
Definition USART3_UDRE_vect := udre_interrupt USART3_DEVICE.

Definition usart_set_callback (dev : Z) (cb : word) (s : usart_sys) : Z * usart_sys :=
  if negb (z_user (negb (dev =? 0))) then (- EINVAL, s)
  else (0, upd_actx (AVR_USARTn_INDEX dev) (λ x, {| evt := evt x; u_callback := cb; rx := rx x; tx := tx x |}) s).

Definition usart_rx_enable (dev : Z) (buf : word) (size : Z) (s : usart_sys) : Z * usart_sys :=
  if negb (z_user (negb (dev =? 0))) then (- EINVAL, s)
  else (0, upd_uart dev (with_UCSRnB (λ v, Z.lor v (Z.lor (BIT RXENn) (BIT RXCIEn))))
             (upd_actx (AVR_USARTn_INDEX dev) (with_rx (λ _, {| u_buf := buf; u_size := size; u_cur := 0 |})) s)).

Definition usart_rx_disable (dev : Z) (s : usart_sys) : Z * usart_sys :=
  if dev =? 0 then (- EINVAL, s) else (0, upd_uart dev (with_UCSRnB (λ v, Z.land v (Z.lnot (BIT RXENn)))) s).

Definition usart_tx (dev : Z) (buf : word) (size : Z) (s : usart_sys) : Z * usart_sys :=
  if negb (z_user (negb (dev =? 0))) then (- EINVAL, s)
  else (0, upd_uart dev (with_UCSRnB (λ v, Z.lor v (Z.lor (Z.lor (BIT TXENn) (BIT UDRIEn)) (BIT TXCIEn))))
             (upd_actx (AVR_USARTn_INDEX dev) (with_tx (λ _, {| u_buf := buf; u_size := size; u_cur := 0 |})) s)).
End Usart.

(** ** The baud rate *)

(** The divider [ubrr + 1] is a nearest one: [2 * (ubrr + 1) * baud] differs
    from the clock (divided by 4 or 8) by at most [baud]. *)
Lemma ubrr_nearest F_CPU baud (speed : bool) : 0 < baud → baud <= Z.shiftr F_CPU (if speed then 2 else 3) →
  Z.shiftr F_CPU (if speed then 2 else 3) / baud < 65534 →
  let d := Z.shiftr F_CPU (if speed then 2 else 3) in let n := calculate_ubrr F_CPU baud speed + 1 in
  1 <= n <= 32767 ∧ - baud <= 2 * n * baud - d <= baud.
Proof.
  intros Hb Hd Hlt. cbn zeta. unfold calculate_ubrr. cbn zeta. set (d := Z.shiftr F_CPU _) in *.
  pose proof (Z.div_le_lower_bound d baud 1 Hb ltac:(lia)). pose proof (Z.div_mod d baud ltac:(lia)) as Hdm.
  pose proof (Z.mod_pos_bound d baud Hb). set (x := d / baud) in *. rewrite (u16_small x) by lia.
  rewrite (Z.land_ones x 1 ltac:(lia) : Z.land x 1 = x mod 2).
  pose proof (Z.div_mod x 2 ltac:(lia)). pose proof (Z.mod_pos_bound x 2 ltac:(lia)). rewrite Z.shiftr_div_pow2 by lia. change (2 ^ 1) with 2.
  destruct (Z.eqb_spec (x mod 2) 0) as [E|E]; cbn [negb].
  - rewrite u16_small by lia. assert (2 * (x / 2) = x) by lia. nia.
  - assert (x mod 2 = 1) by lia. rewrite (u16_small (x + 2)) by lia. replace ((x + 2) / 2) with (x / 2 + 1) by (rewrite <- Z.div_add by lia; f_equal; lia).
    rewrite u16_small by lia. assert (2 * (x / 2) = x - 1) by lia. nia.
Qed.

(** ** The frame *)

(** What the hardware reads in UCSRnB and UCSRnC: the code of the number of
    data bits, of the stop bits and of the parity. *)
Definition frame_of (r : UART_Device) : Z * Z * Z :=
  (Z.land (UCSRnB r) (BIT UCSZn2) + Z.shiftr (UCSRnC r) UCSZn0 mod 4, Z.shiftr (UCSRnC r) USBSn mod 2, Z.shiftr (UCSRnC r) UPMn0 mod 4).
Definition config_ok (c : usart_config) : Prop :=
  mode c = USART_MODE_ASYNCHRONOUS ∧ parity c ∈ [0; 2; 3] ∧ stopbits c ∈ [0; 1] ∧ databits c ∈ [0; 1; 2; 3; 7].

Section UsartSpec.
Context `{Config} {B : Type} `{Uart B}.
Variable F_CPU : Z.

(** [usart_init] sets the frame that is asked for, but with 9 data bits: the
    hardware is then set to 8 data bits and 2 stop bits. *)
Theorem usart_init_frame dev c (s : @usart_sys B) : dev ≠ 0 → config_ok c →
  ∃ s', usart_init F_CPU dev true c s = (0, s') ∧
    frame_of (uart_of s' dev) =
      if databits c =? USART_DATA_BITS_9 then (3, 1, parity c) else (databits c, stopbits c, parity c).
Proof.
  intros Hd (Hm&Hp&Hs&Hb). unfold usart_init. rewrite (proj2 (Z.eqb_neq _ _) Hd), Hm. cbn [negb orb Z.eqb].
  set_unfold. unfold uart_of, upd_uart. cbn [uarts].
  destruct Hp as [Hp|[Hp|[Hp|[]]]]; destruct Hb as [Hb|[Hb|[Hb|[Hb|[Hb|[]]]]]]; rewrite Hp, Hb; cbn [Z.eqb Z.land negb andb Pos.eqb Pos.land N.succ_double N.double Z.of_N USART_DATA_BITS_9];
    (eexists; split; [reflexivity|]; cbn [uarts]; rewrite lookup_total_insert_eq; unfold frame_of, ll_usart_init; cbn [UCSRnB UCSRnC];
     rewrite Hp, Hb; destruct (transmitter c), (receiver c), Hs as [Hs|[Hs|[]]]; rewrite Hs; reflexivity).
Qed.

(** ** Asynchronous transfers *)
Variable call_usart_callback : word → Z → Z → @usart_sys B → @usart_sys B.
Abbreviation st := (@usart_sys B).

Lemma actx_upd i f (s : st) : actx_of (upd_actx i f s) i = f (actx_of s i).
Proof. unfold actx_of, upd_actx. cbn [usart_async_contexts]. by rewrite lookup_total_insert_eq. Qed.
Lemma actx_udr_write i dev v (s : st) : actx_of (udr_write dev v s) i = actx_of s i.
Proof. done. Qed.

(** Bytes written to the data register, one after the other. *)
Definition udr_writes (dev : Z) (l : list Z) (s : st) : st := foldl (λ s v, udr_write dev v s) s l.

Definition same_hw (s s' : st) : Prop := uarts s' = uarts s ∧ u_bus s' = u_bus s.
Lemma udr_writes_hw dev l : ∀ s s', same_hw s s' → same_hw (udr_writes dev l s) (udr_writes dev l s').
Proof.
  induction l as [|v l IH]; intros s s' [E1 E2]; [done|]. cbn [udr_writes foldl]. apply IH.
  unfold udr_write, set_hw, same_hw, uart_of. cbn [uarts u_bus]. by rewrite E1, E2.
Qed.

Lemma udre_interrupts dev n : ∀ (s : st) buf size j, tx (actx_of s (AVR_USARTn_INDEX dev)) = {| u_buf := buf; u_size := size; u_cur := j |} →
  0 <= j → j + Z.of_nat n <= size < 65536 →
  let s' := Nat.iter n (udre_interrupt dev) s in
  same_hw (udr_writes dev ((λ i, rdb (u_mem s) (ptr_add buf (j + Z.of_nat i))) <$> seq 0 n) s) s' ∧ u_mem s' = u_mem s ∧
  actx_of s' (AVR_USARTn_INDEX dev) =
    with_tx (λ _, {| u_buf := buf; u_size := size; u_cur := j + Z.of_nat n |}) (actx_of s (AVR_USARTn_INDEX dev)).
Proof.
  induction n as [|n IH]; intros s buf size j Et Hj Hn; cbn zeta.
  - cbn. split_and!; [done..|]. rewrite Z.add_0_r, <- Et. unfold with_tx. by destruct (actx_of s _).
  - rewrite Nat.iter_succ_r. set (s1 := udre_interrupt dev s).
    assert (E1 : s1 = udr_write dev (rdb (u_mem s) (ptr_add buf j)) (upd_actx (AVR_USARTn_INDEX dev) (with_tx (at_cur (j + 1))) s)).
    { unfold s1, udre_interrupt. cbn zeta. rewrite Et. cbn [u_cur u_size u_buf]. by rewrite (proj2 (Z.ltb_lt j size)) by lia. }
    assert (Ec : actx_of s1 (AVR_USARTn_INDEX dev) =
      with_tx (λ _, {| u_buf := buf; u_size := size; u_cur := j + 1 |}) (actx_of s (AVR_USARTn_INDEX dev))).
    { rewrite E1, actx_udr_write, actx_upd. unfold with_tx, at_cur. rewrite Et. cbn [u_buf u_size]. by rewrite u16_small by lia. }
    destruct (IH s1 buf size (j + 1)) as (Hhw&Hmem&Hctx); [by rewrite Ec|lia|lia|].
    assert (u_mem s1 = u_mem s) as Hm1 by by rewrite E1. split_and!.
    + rewrite Hm1 in Hhw. cbn [seq fmap list_fmap]. rewrite Z.add_0_r.
      replace ((λ i, rdb (u_mem s) (ptr_add buf (j + Z.of_nat i))) <$> seq 1 n)
        with ((λ i, rdb (u_mem s) (ptr_add buf (j + 1 + Z.of_nat i))) <$> seq 0 n).
      2:{ rewrite <- fmap_S_seq, <- list_fmap_compose. apply list_fmap_ext. intros k x _. cbn. do 2 f_equal. lia. }
      destruct Hhw as [H1 H2]. destruct (udr_writes_hw dev ((λ i, rdb (u_mem s) (ptr_add buf (j + 1 + Z.of_nat i))) <$> seq 0 n)
        (udr_write dev (rdb (u_mem s) (ptr_add buf j)) s) s1) as [H3 H4]; [by rewrite E1|]. cbn [udr_writes foldl].
      split; [by rewrite H1, H3|by rewrite H2, H4].
    + by rewrite Hmem.
    + rewrite Hctx, Ec. unfold with_tx. cbn. do 2 f_equal. lia.
Qed.

Abbreviation udre := udre_interrupt.
Abbreviation txc := (tx_interrupt call_usart_callback).
Abbreviation rxc := (rx_interrupt call_usart_callback).

Definition tx_done (b : usart_buf) : usart_buf := {| u_buf := u_buf b; u_size := 0; u_cur := u_cur b |}.

Lemma bit_cleared v n : 0 <= n < 8 → Z.testbit (u8 (Z.land v (Z.lnot (BIT n)))) n = false.
Proof.
  intros Hn. rewrite testbit_u8 by done. rewrite Z.land_spec, Z.lnot_spec by lia. unfold BIT. rewrite Z.shiftl_spec, Z.sub_diag by lia.
  apply andb_false_r.
Qed.

Lemma udre_end dev (s : st) : u_size (tx (actx_of s (AVR_USARTn_INDEX dev))) <= u_cur (tx (actx_of s (AVR_USARTn_INDEX dev))) →
  let s' := udre dev s in
  u_bus s' = u_bus s ∧ actx_of s' (AVR_USARTn_INDEX dev) = actx_of s (AVR_USARTn_INDEX dev) ∧
  Z.testbit (UCSRnB (uart_of s' dev)) UDRIEn = false.
Proof.
  intros Hc. cbn zeta. unfold udre_interrupt. cbn zeta. rewrite (proj2 (Z.ltb_ge _ _)) by done. split_and!; [done..|].
  unfold uart_of, upd_uart. cbn [uarts]. rewrite lookup_total_insert_eq. by apply bit_cleared.
Qed.

Lemma bit_set v m n : 0 <= n < 8 → Z.testbit m n = true → Z.testbit (u8 (Z.lor v m)) n = true.
Proof. intros Hn Hm. rewrite testbit_u8 by done. by rewrite Z.lor_spec, Hm, orb_true_r. Qed.

Lemma bit_kept v n i : 0 <= i < 8 → 0 <= n → i ≠ n → Z.testbit (u8 (Z.land v (Z.lnot (BIT n)))) i = Z.testbit v i.
Proof.
  intros Hi Hn Hne. rewrite testbit_u8 by done. rewrite Z.land_spec, Z.lnot_spec by lia. unfold BIT.
  rewrite Z.shiftl_1_l, Z.pow2_bits_false by lia. apply andb_true_r.
Qed.

(** An interrupt is taken only when its bit of the control register is set:
    the function of its vector then runs, else nothing happens. *)
Definition enabled (dev bit : Z) (s : st) : bool := Z.testbit (UCSRnB (uart_of s dev)) bit.
Definition udre_fires (dev : Z) (s : st) : st := if enabled dev UDRIEn s then udre dev s else s.
Definition txc_fires (dev : Z) (s : st) : option st := if enabled dev TXCIEn s then txc dev s else Some s.

Section Transmit.
(** Writing the data register leaves the control register B alone. *)
Hypothesis put_control : ∀ dev r v b, UCSRnB (uart_put dev r v b).1 = UCSRnB r.

Lemma udre_control dev (s : st) : u_cur (tx (actx_of s (AVR_USARTn_INDEX dev))) < u_size (tx (actx_of s (AVR_USARTn_INDEX dev))) →
  UCSRnB (uart_of (udre dev s) dev) = UCSRnB (uart_of s dev).
Proof.
  intros Hc. unfold udre_interrupt. cbn zeta. rewrite (proj2 (Z.ltb_lt _ _)) by done.
  unfold udr_write, set_hw, uart_of. cbn [uarts]. rewrite lookup_total_insert_eq. apply put_control.
Qed.

(** While bytes are left the interrupt stays enabled, and fires. *)
Lemma udre_fires_iter dev n : ∀ (s : st) buf size j, tx (actx_of s (AVR_USARTn_INDEX dev)) = {| u_buf := buf; u_size := size; u_cur := j |} →
  0 <= j → j + Z.of_nat n <= size < 65536 → enabled dev UDRIEn s = true →
  Nat.iter n (udre_fires dev) s = Nat.iter n (udre dev) s ∧
  UCSRnB (uart_of (Nat.iter n (udre dev) s) dev) = UCSRnB (uart_of s dev).
Proof.
  intros s buf size j Et Hj Hn He. induction n as [|n IH]; [done|].
  destruct IH as [E1 E2]; [lia|]. destruct (udre_interrupts dev n s buf size j Et Hj ltac:(lia)) as (_&_&Ec).
  cbn [Nat.iter nat_rect]. change (nat_rect _ s (λ _, udre_fires dev) n) with (Nat.iter n (udre_fires dev) s).
  change (nat_rect _ s (λ _, udre dev) n) with (Nat.iter n (udre dev) s). rewrite E1. split.
  - unfold udre_fires, enabled. rewrite E2. fold (enabled dev UDRIEn s). by rewrite He.
  - rewrite udre_control; [exact E2|]. rewrite Ec. cbn [with_tx tx u_cur u_size]. lia.
Qed.

(** C39: [usart_tx] returns 0 with the transmitter and both interrupts enabled;
    the data register empty interrupts, each taken because it is still
    enabled, write the bytes of the buffer, in order; a transmit complete
    interrupt before the last byte does nothing; one more data register empty
    interrupt disables itself and is not taken again; the transmit complete
    interrupt, still enabled, then calls the callback and ends the transfer. *)
Theorem usart_tx_sends dev buf size (s : st) (i := AVR_USARTn_INDEX dev) (cb := u_callback (actx_of s i)) :
  dev ≠ 0 → 0 < size < 65536 → cb ≠ NULL →
  let s1 := (usart_tx dev buf size s).2 in
  let after n := Nat.iter n (udre_fires dev) s1 in
  let s2 := after (Z.to_nat size) in
  (usart_tx dev buf size s).1 = 0 ∧ u_bus s1 = u_bus s ∧
  (∀ n, (n <= Z.to_nat size)%nat → enabled dev TXENn (after n) = true ∧ enabled dev UDRIEn (after n) = true ∧
     enabled dev TXCIEn (after n) = true) ∧
  (∀ n, (n < Z.to_nat size)%nat → txc_fires dev (after n) = Some (after n)) ∧
  same_hw (udr_writes dev (read_bytes (u_mem s) buf (Z.to_nat size)) s1) s2 ∧
  (let s3 := udre_fires dev s2 in u_bus s3 = u_bus s2 ∧ enabled dev UDRIEn s3 = false ∧ udre_fires dev s3 = s3 ∧
   enabled dev TXENn s3 = true ∧
   txc_fires dev s3 = Some (upd_actx i (with_tx tx_done) (call_usart_callback cb dev i (upd_actx i (with_evt USART_EVENT_TX_COMPLETE) s3)))).
Proof.
  intros Hd Hs Hcb. cbn zeta. set (s1 := (usart_tx dev buf size s).2).
  assert (Es1 : tx (actx_of s1 i) = {| u_buf := buf; u_size := size; u_cur := 0 |} ∧ u_callback (actx_of s1 i) = cb ∧ u_mem s1 = u_mem s ∧
    u_bus s1 = u_bus s ∧ (usart_tx dev buf size s).1 = 0 ∧ ∀ b, b ∈ [TXENn; UDRIEn; TXCIEn] → enabled dev b s1 = true).
  { unfold s1, usart_tx. rewrite (proj2 (Z.eqb_neq _ _) Hd). cbn [negb]. rewrite (z_user_true true eq_refl). cbn [fst snd].
    change (actx_of (upd_uart dev ?f ?x) i) with (actx_of x i). unfold i. rewrite actx_upd. split_and!; [done..|].
    intros b Hb. unfold enabled, uart_of, upd_uart. cbn [uarts]. rewrite lookup_total_insert_eq. cbn [with_UCSRnB UCSRnB].
    set_unfold. destruct Hb as [->|[->|[->|[]]]]; by apply bit_set. }
  destruct Es1 as (Et&Ecb&Em&Eb&Er&Hen). pose proof (udre_interrupts dev) as Hu. fold i in Hu.
  assert (Hit : ∀ n, (n <= Z.to_nat size)%nat → Nat.iter n (udre_fires dev) s1 = Nat.iter n (udre dev) s1 ∧
    ∀ b, enabled dev b (Nat.iter n (udre dev) s1) = enabled dev b s1).
  { intros n Hn. destruct (udre_fires_iter dev n s1 buf size 0 Et) as [E1 E2]; [lia|lia|apply Hen; set_solver|].
    split; [done|]. intros b. unfold enabled. by rewrite E2. }
  assert (Hctx : ∀ n, (n <= Z.to_nat size)%nat → actx_of (Nat.iter n (udre dev) s1) i =
    with_tx (λ _, {| u_buf := buf; u_size := size; u_cur := Z.of_nat n |}) (actx_of s1 i)).
  { intros n Hn. destruct (Hu n s1 buf size 0 Et) as (_&_&E); [lia|lia|]. exact E. }
  split; [done|]. split; [done|]. split; [|split; [|split]].
  - intros n Hn. destruct (Hit n Hn) as [-> Hb]. rewrite !Hb. split_and!; apply Hen; set_solver.
  - intros n Hn. destruct (Hit n ltac:(lia)) as [-> Hb]. unfold txc_fires. rewrite Hb, Hen by set_solver.
    unfold tx_interrupt. cbn zeta. fold i. rewrite Hctx by lia. cbn [with_tx tx u_cur u_size].
    by rewrite (proj2 (Z.eqb_neq (Z.of_nat n) size)) by lia.
  - rewrite (proj1 (Hit (Z.to_nat size) ltac:(lia))). destruct (Hu (Z.to_nat size) s1 buf size 0 Et) as (Hhw&_&_); [lia|lia|].
    rewrite Em in Hhw. exact Hhw.
  - destruct (Hit (Z.to_nat size) ltac:(lia)) as [-> Hb]. pose proof (Hctx (Z.to_nat size) ltac:(lia)) as Hc.
    set (s2 := Nat.iter (Z.to_nat size) (udre dev) s1) in *. clearbody s2.
    assert (Ef : udre_fires dev s2 = udre dev s2) by (unfold udre_fires; by rewrite Hb, Hen by set_solver). rewrite Ef.
    destruct (udre_end dev s2) as (E1&E2&E3); [fold i; rewrite Hc; cbn; lia|]. fold i in E2.
    assert (Hk : ∀ b, b ∈ [TXENn; TXCIEn] → enabled dev b (udre dev s2) = true).
    { intros b Hbb. rewrite <- (Hen b) by set_solver. rewrite <- Hb. unfold udre_interrupt. cbn zeta. fold i. rewrite Hc.
      cbn [with_tx tx u_cur u_size]. rewrite (proj2 (Z.ltb_ge _ _)) by lia. unfold enabled at 1, uart_of, upd_uart. cbn [uarts].
      rewrite lookup_total_insert_eq. cbn [with_UCSRnB UCSRnB]. set_unfold. destruct Hbb as [->|[->|[]]]; by apply bit_kept. }
    split; [done|]. split; [exact E3|]. split; [unfold udre_fires, enabled; by rewrite E3|]. split; [apply Hk; set_solver|].
    unfold txc_fires. rewrite Hk by set_solver.
    unfold tx_interrupt. cbn zeta. fold i. rewrite E2, Hc. cbn [with_tx tx u_cur u_size].
    rewrite Z2Nat.id, Z.eqb_refl by lia. unfold usart_event. rewrite E2, Hc. cbn [with_tx u_callback]. rewrite Ecb.
    by rewrite decide_False.
Qed.
End Transmit.

(** A callback that starts the next transmission from the end of this one:
    the size it set is cleared after it returns, the next interrupt writes
    nothing and disables itself. *)
Theorem usart_chained_tx_lost dev buf size (s : st) (i := AVR_USARTn_INDEX dev) :
  dev ≠ 0 → u_callback (actx_of s i) ≠ NULL → u_cur (tx (actx_of s i)) = u_size (tx (actx_of s i)) →
  (∀ x, call_usart_callback (u_callback (actx_of s i)) dev i x = (usart_tx dev buf size x).2) →
  ∃ s', txc dev s = Some s' ∧ u_buf (tx (actx_of s' i)) = buf ∧ u_size (tx (actx_of s' i)) = 0 ∧
    u_bus (udre dev s') = u_bus s ∧ Z.testbit (UCSRnB (uart_of (udre dev s') dev)) UDRIEn = false.
Proof.
  intros Hd Hcb Hc Hchain. unfold tx_interrupt. cbn zeta. fold i. rewrite Hc, Z.eqb_refl. unfold usart_event.
  rewrite decide_False by done. rewrite Hchain. unfold usart_tx. rewrite (proj2 (Z.eqb_neq _ _) Hd). cbn [negb].
  rewrite (z_user_true true eq_refl). cbn [snd mbind option_bind]. fold i.
  set (s' := upd_actx i _ (upd_uart dev _ _)). exists s'. split; [done|].
  assert (E : tx (actx_of s' i) = {| u_buf := buf; u_size := 0; u_cur := 0 |}).
  { unfold s'. rewrite actx_upd. change (actx_of (upd_uart dev ?f ?x) i) with (actx_of x i). by rewrite actx_upd. }
  rewrite E. split_and!; [done..| |].
  - by destruct (udre_end dev s') as (->&_); [fold i; rewrite E; cbn; lia|].
  - by destruct (udre_end dev s') as (_&_&H2); [fold i; rewrite E; cbn; lia|].
Qed.

(** [n] receive interrupts: the bytes read, and the state. *)
Fixpoint rx_run (dev : Z) (n : nat) (s : st) : option (list Z * st) :=
  match n with
  | O => Some ([], s)
  | S n => let v := (udr_read dev s).1 in s ← rxc dev s; '(l, s) ← rx_run dev n s; Some (v :: l, s)
  end.

(** One byte: it is stored and the cursor moves. *)
Lemma rx_one dev buf size j (s : st) (i := AVR_USARTn_INDEX dev) :
  rx (actx_of s i) = {| u_buf := buf; u_size := size; u_cur := j |} → 0 <= j < 65535 →
  ∃ s2, rxc dev s = (if j + 1 =? size
                     then s ← usart_event call_usart_callback dev i USART_EVENT_RX_COMPLETE s2; Some (upd_actx i (with_rx (at_cur 0)) s)
                     else Some s2) ∧
    u_mem s2 = <[ptr_add buf j := (udr_read dev s).1]> (u_mem s) ∧
    actx_of s2 i = with_rx (λ _, {| u_buf := buf; u_size := size; u_cur := j + 1 |}) (actx_of s i).
Proof.
  intros Er Hj. unfold rx_interrupt. destruct (udr_read dev s) as [v s1] eqn:Ev. cbn zeta.
  assert (Hs1 : u_mem s1 = u_mem s ∧ ∀ x, actx_of s1 x = actx_of s x).
  { unfold udr_read in Ev. destruct (uart_get _ _ _). injection Ev as <- <-. done. }
  destruct Hs1 as [Em Ea]. fold i. set (s2 := set_u_mem _ _). exists s2.
  assert (Ec : actx_of s2 i = with_rx (λ _, {| u_buf := buf; u_size := size; u_cur := j + 1 |}) (actx_of s i)).
  { unfold s2. change (actx_of (set_u_mem ?m ?x) i) with (actx_of x i). rewrite actx_upd, Ea, Er. unfold with_rx, at_cur.
    rewrite Er. cbn [u_buf u_size u_cur]. by rewrite u16_small by lia. }
  rewrite Ec. cbn [with_rx rx u_cur u_size]. split_and!; [done| |done]. unfold s2. cbn [set_u_mem u_mem fst]. by rewrite Ea, Er, Em.
Qed.

Lemma rx_fills dev n : ∀ j buf size (s : st) (i := AVR_USARTn_INDEX dev) (cb := u_callback (actx_of s i)),
  rx (actx_of s i) = {| u_buf := buf; u_size := size; u_cur := j |} → 0 <= j → size = j + Z.of_nat (S n) → size < 65536 → cb ≠ NULL →
  ∃ l s2, rx_run dev (S n) s = Some (l, upd_actx i (with_rx (at_cur 0)) (call_usart_callback cb dev i s2)) ∧
    length l = S n ∧ u_mem s2 = put_bytes (u_mem s) buf j l ∧ evt (actx_of s2 i) = USART_EVENT_RX_COMPLETE.
Proof.
  induction n as [|n IH]; intros j buf size s i cb Er Hj Hsz Hlt Hcb;
    destruct (rx_one dev buf size j s Er ltac:(lia)) as (s2&E&Em&Ec); fold i in E, Ec.
  - cbn [rx_run]. rewrite E, (proj2 (Z.eqb_eq (j + 1) size)) by lia. unfold usart_event. rewrite Ec. cbn [with_rx u_callback].
    fold cb. rewrite decide_False by done. cbn [mbind option_bind]. eexists [_], _. split_and!; [done|done|exact Em|].
    by rewrite actx_upd.
  - rewrite (proj2 (Z.eqb_neq (j + 1) size)) in E by lia.
    destruct (IH (j + 1) buf size s2) as (l&s3&E3&Hl&Hm&He); [fold i; by rewrite Ec|lia|lia|done|fold i; by rewrite Ec|].
    fold i in E3. rewrite Ec in E3. remember (S n) as m eqn:Em'. cbn [rx_run]. rewrite E. cbn [mbind option_bind]. rewrite E3.
    cbn [mbind option_bind]. eexists (_ :: l), s3. split_and!; [done|by cbn; rewrite Hl| |done]. rewrite Hm, Em. done.
Qed.

(** After [usart_rx_enable], the bytes received fill the buffer in order, and
    the callback is called when the last one is stored. *)
Theorem usart_rx_receives dev buf size (s : st) (i := AVR_USARTn_INDEX dev) (cb := u_callback (actx_of s i)) :
  dev ≠ 0 → 0 < size < 65536 → cb ≠ NULL →
  let s1 := (usart_rx_enable dev buf size s).2 in
  ∃ l s2, rx_run dev (Z.to_nat size) s1 = Some (l, upd_actx i (with_rx (at_cur 0)) (call_usart_callback cb dev i s2)) ∧
    length l = Z.to_nat size ∧ u_mem s2 = put_bytes (u_mem s) buf 0 l ∧ evt (actx_of s2 i) = USART_EVENT_RX_COMPLETE.
Proof.
  intros Hd Hs Hcb. cbn zeta. set (s1 := (usart_rx_enable dev buf size s).2).
  assert (Es1 : rx (actx_of s1 i) = {| u_buf := buf; u_size := size; u_cur := 0 |} ∧ u_callback (actx_of s1 i) = cb ∧ u_mem s1 = u_mem s).
  { unfold s1, usart_rx_enable. rewrite (proj2 (Z.eqb_neq _ _) Hd). cbn [negb]. rewrite (z_user_true true eq_refl). cbn [snd].
    change (actx_of (upd_uart dev ?f ?x) i) with (actx_of x i). unfold i. by rewrite actx_upd. }
  destruct Es1 as (Er&Ecb&Em). replace (Z.to_nat size) with (S (Z.to_nat (size - 1))) by lia.
  destruct (rx_fills dev (Z.to_nat (size - 1)) 0 buf size s1) as (l&s2&E&?&Hm&?); [done|lia|lia|lia|fold i; by rewrite Ecb|].
  fold i in E. rewrite Ecb in E. rewrite Em in Hm. by exists l, s2.
Qed.

(** [usart_send] returns the length as an [int8_t]: 234 bytes sent are
    reported as [-EINVAL], 128 to 255 bytes as an error. *)
Theorem usart_send_length fuel dev buf len (s s' : st) r : usart_send fuel dev buf len s = Some (r, s') → dev ≠ 0 →
  nonnull buf = true → 0 <= len < 65536 →
  usart_send_loop fuel dev buf 0 (Z.to_nat len) s = Some s' ∧ r = s8 len ∧
  (len < 128 → r = len) ∧ (128 <= len < 256 → r < 0) ∧ (len = 234 → r = - EINVAL).
Proof.
  unfold usart_send. intros E Hd Hb Hl. rewrite (proj2 (Z.eqb_neq _ _) Hd), Hb in E. cbn [negb orb andb] in E.
  rewrite (z_user_true true eq_refl) in E. destruct (usart_send_loop _ _ _ _ _ _) as [s2|]; [|done]. cbn [mbind option_bind] in E.
  injection E as <- <-. split_and!; [done..| | |].
  - intros Hlt. apply s8_small. lia.
  - intros Hlt. unfold s8. pose proof (Z.div_mod (len + 128) 256). pose proof (Z.mod_pos_bound (len + 128) 256).
    assert ((len + 128) mod 256 = len + 128 - 256) as ->; [|lia]. symmetry. apply (Z.mod_unique _ _ 1); lia.
  - by intros ->.
Qed.
End UsartSpec.

(** [calculate_ubrr] rounds the divider to a nearest one, for the baud rates
    that the hardware can divide down to. *)
Theorem calculate_ubrr_nearest F_CPU baud (speed : bool) : 0 < baud → baud <= Z.shiftr F_CPU (if speed then 2 else 3) →
  Z.shiftr F_CPU (if speed then 2 else 3) / baud < 65534 →
  let d := Z.shiftr F_CPU (if speed then 2 else 3) in let n := calculate_ubrr F_CPU baud speed + 1 in
  1 <= n <= 32767 ∧ - baud <= 2 * n * baud - d <= baud.
Proof. apply ubrr_nearest. Qed.

(** ** Instances: the bytes written are kept, the byte [0x41] is received *)

#[export] Instance w_uart : Uart (list Z) := {
  uart_next _ r b := ({| UCSRnA := BIT UDREn; UCSRnB := UCSRnB r; UCSRnC := UCSRnC r; UBRRnL := UBRRnL r; UBRRnH := UBRRnH r |}, b);
  uart_put _ r v b := (r, b ++ [v]);
  uart_get _ r b := (0x41, (r, b)) }.
Definition w_cb : word := w_obj 7.
Definition w_ubuf : word := w_obj 5.
Definition w_usart (mem : bmem) (cur size : Z) : @usart_sys (list Z) := {|
  uarts := {[USART0_DEVICE := {| UCSRnA := 0x20; UCSRnB := 0x08; UCSRnC := 6; UBRRnL := 8; UBRRnH := 0 |}]};
  usart_async_contexts := {[0 := {| evt := 0; u_callback := w_cb; rx := {| u_buf := NULL; u_size := 0; u_cur := 0 |};
    tx := {| u_buf := w_ubuf; u_size := size; u_cur := cur |} |}]};
  u_mem := mem; u_bus := [] |}.
Definition w_text : bmem := put_bytes ∅ w_ubuf 0 [72; 105; 33].
Definition w_quiet_cb : word → Z → Z → @usart_sys (list Z) → @usart_sys (list Z) := λ _ _ _ s, s.
Definition w_chain_cb : word → Z → Z → @usart_sys (list Z) → @usart_sys (list Z) := λ _ dev _ s, (usart_tx dev w_ubuf 3 s).2.

Lemma w_put_control dev r v b : UCSRnB (@uart_put _ w_uart dev r v b).1 = UCSRnB r.
Proof. done. Qed.

Lemma usart_tx_sends_witness : let s1 := (usart_tx USART0_DEVICE w_ubuf 3 (w_usart w_text 0 0)).2 in
  enabled USART0_DEVICE UDRIEn s1 = true ∧
  u_bus (Nat.iter 3 (udre_fires USART0_DEVICE) s1) = [72; 105; 33] ∧
  u_bus (Nat.iter 4 (udre_fires USART0_DEVICE) s1) = [72; 105; 33].
Proof.
  cbn zeta.
  destruct (usart_tx_sends w_quiet_cb w_put_control USART0_DEVICE w_ubuf 3 (w_usart w_text 0 0) ltac:(done) ltac:(lia)
    ltac:(done)) as (_&_&He&_&[_ E]&E3&_).
  split; [exact (proj1 (proj2 (He O (Nat.le_0_l _))))|]. split; [exact E|]. etransitivity; [exact E3|exact E].
Defined.

Lemma usart_chained_tx_lost_witness : ∃ s', tx_interrupt w_chain_cb USART0_DEVICE (w_usart w_text 3 3) = Some s' ∧
  u_bus (udre_interrupt USART0_DEVICE s') = [].
Proof.
  destruct (usart_chained_tx_lost w_chain_cb USART0_DEVICE w_ubuf 3 (w_usart w_text 3 3) ltac:(done) ltac:(done) eq_refl
    ltac:(done)) as (s'&E&_&_&Eb&_).
  exists s'. split; [exact E|exact Eb].
Defined.

Lemma usart_rx_receives_witness : ∃ l s2,
  rx_run w_quiet_cb USART0_DEVICE 2 (usart_rx_enable USART0_DEVICE w_ubuf 2 (w_usart ∅ 0 0)).2 = Some (l, s2) ∧ length l = 2%nat.
Proof.
  destruct (usart_rx_receives w_quiet_cb USART0_DEVICE w_ubuf 2 (w_usart ∅ 0 0) ltac:(done) ltac:(lia) ltac:(done)) as (l&s2&E&Hl&_).
  eexists l, _. split; [exact E|exact Hl].
Defined.

Definition w_uconfig (bits : Z) : usart_config := {| baudrate := 115200; receiver := true; transmitter := true; mode := 0;
  parity := 2; stopbits := 0; databits := bits; speed_mode := true |}.
Lemma usart_init_frame_witness : ∃ s',
  usart_init 16000000 USART0_DEVICE true (w_uconfig 3) (w_usart ∅ 0 0) = (0, s') ∧ frame_of (uart_of s' USART0_DEVICE) = (3, 0, 2).
Proof.
  destruct (usart_init_frame 16000000 USART0_DEVICE (w_uconfig 3) (w_usart ∅ 0 0) ltac:(done)) as (s'&E&Ef).
  - split_and!; cbn; set_solver.
  - exists s'. split; [exact E|exact Ef].
Defined.

Lemma usart_send_length_witness : ∃ s' r, usart_send 1 USART0_DEVICE w_ubuf 234 (w_usart ∅ 0 0) = Some (r, s') ∧ r = - EINVAL.
Proof.
  destruct (usart_send 1 USART0_DEVICE w_ubuf 234 (w_usart ∅ 0 0)) as [[r s']|] eqn:E; [|by vm_compute in E].
  exists s', r. split; [done|].
  exact (proj2 (proj2 (proj2 (proj2 (usart_send_length 1 USART0_DEVICE w_ubuf 234 _ s' r E ltac:(done) eq_refl ltac:(lia))))) eq_refl).
Defined.

Lemma calculate_ubrr_nearest_witness : calculate_ubrr 16000000 115200 true = 16 ∧ - 115200 <= 2 * 17 * 115200 - 4000000 <= 115200.
Proof.
  split; [done|]. exact (proj2 (calculate_ubrr_nearest 16000000 115200 true ltac:(lia) ltac:(by vm_compute) ltac:(vm_compute; done))).
Defined.
