(* ===== verification/HwTimer.v ===== *)
(** * Hardware timers (drivers/timer.c, drivers/timer.h) and the clock of the
    kernel (sysclock.c)

    The registers are bytes of the I/O space, at the addresses the code
    computes; a timer is the address of its first register.  What the timers
    do with their registers is the hardware's. *)

From S2P Require Import Prelude Types Atomic World.

(** ** Registers *)

Abbreviation io_space := (gmap Z Z).
Definition ior (a : Z) (s : io_space) : Z := default 0 (s !! a).
Definition iow (a v : Z) (s : io_space) : io_space := <[a := u8 v]> s.
(** A 16-bit register is written high byte first. *)
Definition iow16 (a v : Z) (s : io_space) : io_space := iow a v (iow (a + 1) (Z.shiftr v 8) s).

(** Offsets in [TIMER8_Device] and [TIMER16_Device]. *)
Definition TCCRnA (dev : Z) : Z := dev.
Definition TCCRnB (dev : Z) : Z := dev + 1.
Definition TCNTn8 (dev : Z) : Z := dev + 2.
Definition OCRnA8 (dev : Z) : Z := dev + 3.
Definition OCRnB8 (dev : Z) : Z := dev + 4.
Definition TCCRnC (dev : Z) : Z := dev + 2.
Definition TCNTn (dev : Z) : Z := dev + 4.
Definition IRCN (dev : Z) : Z := dev + 6.
Definition OCRnx (dev i : Z) : Z := dev + 8 + 2 * i.
Definition TIFRn (tim_idx : Z) : Z := 0x35 + tim_idx.
Definition TIMSKn (tim_idx : Z) : Z := 0x6E + tim_idx.

(** Bits. *)
Definition WGMn0 : Z := 0.
Definition WGMn2 : Z := 3.
Definition CSn0 : Z := 0.
Definition CSn1 : Z := 1.
Definition CSn2 : Z := 2.
Definition OCIEnA : Z := 1.

(** The microcontroller and the configuration. *)
Class TimerConfig := {
  F_CPU : Z;
  TIMERS_COUNT : Z;
  TIMER_DEVICE_defined : Z → bool;
  CONFIG_KERNEL_SYSLOCK_HW_TIMER : Z;
  SYSCLOCK_PERIOD_US : Z;
}.

Definition TIMER_DEVICE_ADDR (idx : Z) : Z :=
  if idx =? 0 then 0x44 else if idx =? 1 then 0x80 else if idx =? 2 then 0xB0 else if idx =? 3 then 0x90
  else if idx =? 4 then 0xA0 else 0x120.
Definition TIMER_INDEX_IS_8BITS (idx : Z) : bool := (idx =? 0) || (idx =? 2).
Definition TIMER_INDEX_IS_16BITS (idx : Z) : bool := (idx =? 1) || (idx =? 3) || (idx =? 4) || (idx =? 5).
Definition TIMER_MAX_COUNTER_8BIT : Z := 0xFF.
Definition TIMER_MAX_COUNTER_16BIT : Z := 0xFFFF.

Definition TIMER_MODE_NORMAL : Z := 0.
Definition TIMER_MODE_CTC : Z := 4.
Definition TIMER_PRESCALER_1024 : Z := 5.
Definition TIMER_API_FLAG_AUTOSTART : Z := 1.

Record timer_config := { tc_mode : Z; tc_prescaler : Z; tc_counter : Z; tc_timsk : Z }.
Record timer_channel_compare_config := { ch_mode : Z; ch_value : Z }.
Record timer_api_ctx := { t_cb : word; t_user_data : word; t_prescaler : Z }.

Section HwTimer.
Context `{TimerConfig}.

Definition timer_get_index (dev : Z) : Z :=
  let at_ i := TIMER_DEVICE_defined i && (dev =? TIMER_DEVICE_ADDR i) in
  if at_ 0 then 0 else if at_ 1 then 1 else if at_ 2 then 2 else if at_ 3 then 3 else if at_ 4 then 4
  else if at_ 5 then 5 else - EBADF.
(** 0 is [NULL]. *)
Definition timer_get_device (idx : Z) : Z :=
  if (0 <=? idx) && (idx <=? 5) && TIMER_DEVICE_defined idx then TIMER_DEVICE_ADDR idx else 0.
Definition TIMER_INDEX_EXISTS (idx : Z) : bool := idx <? TIMERS_COUNT.
Definition TIMER_GET_MAX_COUNTER (idx : Z) : Z :=
  if TIMER_INDEX_IS_8BITS idx then TIMER_MAX_COUNTER_8BIT else TIMER_MAX_COUNTER_16BIT.

(** [_get_index], [_is_8bits], [_is_16bits]. *)
Definition _get_index (dev : Z) : Z := timer_get_index dev.
Definition _is_8bits (idx : Z) : bool := TIMER_INDEX_IS_8BITS idx.
Definition _is_16bits (idx : Z) : bool := TIMER_INDEX_IS_16BITS idx.

Definition ll_timer_clear_enable_int_mask (idx : Z) : io_space → io_space := iow (TIMSKn idx) 0.
Definition ll_timer_set_enable_int_mask (idx mask : Z) : io_space → io_space := iow (TIMSKn idx) mask.
Definition ll_timer_clear_irq_flags (idx : Z) : io_space → io_space := iow (TIFRn idx) 0xFF.
Definition ll_timer_get_irq_flags (idx : Z) (s : io_space) : Z := ior (TIFRn idx) s.
Definition cs_mask : Z := Z.lor (Z.lor (BIT CSn0) (BIT CSn1)) (BIT CSn2).
Definition ll_timer8_stop (dev : Z) (s : io_space) : io_space := iow (TCCRnB dev) (Z.land (ior (TCCRnB dev) s) (Z.lnot cs_mask)) s.
Definition ll_timer8_counter_reset (dev : Z) : io_space → io_space := iow (TCNTn8 dev) 0.
Definition ll_timer8_start (dev prescaler : Z) (s : io_space) : io_space :=
  iow (TCCRnB dev) (Z.lor (ior (TCCRnB dev) s) (Z.shiftl prescaler CSn0)) s.
Definition ll_timer16_write_reg16 (reg val : Z) : io_space → io_space := iow16 reg val.
Definition ll_timer16_set_tcnt (dev val : Z) : io_space → io_space := iow16 (TCNTn dev) val.
Definition ll_timer16_get_tcnt (dev : Z) (s : io_space) : Z :=
  u16 (Z.lor (Z.shiftl (ior (TCNTn dev + 1) s) 8) (ior (TCNTn dev) s)).
Definition ll_timer16_stop (dev : Z) (s : io_space) : io_space := iow (TCCRnB dev) (Z.land (ior (TCCRnB dev) s) (Z.lnot cs_mask)) s.
Definition ll_timer16_counter_reset (dev : Z) : io_space → io_space := ll_timer16_set_tcnt dev 0.
Definition ll_timer16_start (dev prescaler : Z) (s : io_space) : io_space :=
  iow (TCCRnB dev) (Z.lor (ior (TCCRnB dev) s) (Z.shiftl prescaler CSn0)) s.
Definition ll_timer_stop (dev : Z) : io_space → io_space := ll_timer8_stop dev.
Definition ll_timer_start (dev prescaler : Z) : io_space → io_space := ll_timer8_start dev prescaler.
Definition ll_timer16_enable_interrupt (idx n : Z) (s : io_space) : io_space := iow (TIMSKn idx) (Z.lor (ior (TIMSKn idx) s) (BIT n)) s.
Definition ll_timer16_disable_interrupt (idx n : Z) (s : io_space) : io_space :=
  iow (TIMSKn idx) (Z.land (ior (TIMSKn idx) s) (Z.lnot (BIT n))) s.

(** ** Initialisation *)

Definition ll_timer8_deinit (dev tim_idx : Z) (s : io_space) : io_space := iow (TCCRnB dev) 0 (iow (TCCRnA dev) 0 s).

Definition ll_timer8_init (dev tim_idx : Z) (config : timer_config) (s : io_space) : io_space :=
  let mode := Z.shiftr (tc_mode config) 1 in
  let s := iow (TCCRnA dev) (Z.shiftl (Z.land mode 3) WGMn0) s in
  let s := iow (TCCRnB dev) (Z.shiftl (Z.shiftr mode 2) WGMn2) s in
  let s := if tc_mode config =? TIMER_MODE_NORMAL then iow (TCNTn8 dev) (tc_counter config) s
           else if tc_mode config =? TIMER_MODE_CTC then iow (OCRnA8 dev) (Z.land (tc_counter config) 0xFF) s
           else s in
  let s := ll_timer_set_enable_int_mask tim_idx (tc_timsk config) s in
  iow (TCCRnB dev) (Z.shiftl (tc_prescaler config) CSn0) s.

(** [None] is a null pointer. *)
Definition timer8_init (dev : Z) (config : option timer_config) (s : io_space) : Z * io_space :=
  match config with
  | None => (- EINVAL, s)
  | Some config =>
      let tim_idx := _get_index dev in
      if tim_idx <? 0 then (tim_idx, s)
      else if negb (_is_8bits tim_idx) then (- EINVAL, s)
      else if (tim_idx =? 2) && (TIMER_PRESCALER_1024 <? tc_prescaler config) then (- EINVAL, s)
      else (0, ll_timer8_init dev tim_idx config s)
  end.

Definition ll_timer16_deinit (dev tim_idx : Z) (s : io_space) : io_space :=
  iow (TCCRnC dev) 0 (iow (TCCRnB dev) 0 (iow (TCCRnA dev) 0 s)).

Definition ll_timer16_init (dev tim_idx : Z) (config : timer_config) (s : io_space) : io_space :=
  let s := iow (TCCRnA dev) (Z.shiftl (Z.land (tc_mode config) 3) WGMn0) s in
  let s := iow (TCCRnB dev) (Z.shiftl (Z.land (Z.shiftr (tc_mode config) 2) 3) WGMn2) s in
  let s := if tc_mode config =? TIMER_MODE_NORMAL then iow16 (TCNTn dev) (tc_counter config) s
           else if tc_mode config =? TIMER_MODE_CTC then iow16 (OCRnx dev 0) (tc_counter config) s
           else s in
  let s := ll_timer_set_enable_int_mask tim_idx (tc_timsk config) s in
  iow (TCCRnB dev) (Z.lor (ior (TCCRnB dev) s) (Z.shiftl (tc_prescaler config) CSn0)) s.

Definition ll_timer16_channel_configure (dev channel : Z) (config : timer_channel_compare_config) (s : io_space) : io_space :=
  let group_shift := u8 (2 * (2 - channel) + 2) in
  let reg_val := u8 (Z.land (ior (TCCRnA dev) s) (Z.lnot (Z.shiftl 3 group_shift))) in
  let s := iow (TCCRnA dev) (Z.lor reg_val (Z.shiftl (ch_mode config) group_shift)) s in
  ll_timer16_write_reg16 (OCRnx dev channel) (ch_value config) s.

Definition timer16_init (dev : Z) (config : option timer_config) (s : io_space) : Z * io_space :=
  match config with
  | None => (- EINVAL, s)
  | Some config =>
      let tim_idx := _get_index dev in
      if tim_idx <? 0 then (tim_idx, s)
      else if negb (_is_16bits tim_idx) then (- EINVAL, s)
      else (0, ll_timer16_init dev tim_idx config s)
  end.

Definition timer8_deinit (dev : Z) (s : io_space) : Z * io_space :=
  let tim_idx := _get_index dev in
  if tim_idx <? 0 then (tim_idx, s)
  else
    let s := ll_timer_clear_irq_flags tim_idx (ll_timer_clear_enable_int_mask tim_idx s) in
    let s := iow (TCCRnA dev) 0 (iow (TCCRnB dev) 0 s) in
    (0, iow (TCNTn8 dev) 0 (iow (OCRnB8 dev) 0 (iow (OCRnA8 dev) 0 s))).

Definition timer16_deinit (dev : Z) (s : io_space) : Z * io_space :=
  let tim_idx := _get_index dev in
  if tim_idx <? 0 then (tim_idx, s)
  else
    let s := ll_timer_clear_irq_flags tim_idx (ll_timer_clear_enable_int_mask tim_idx s) in
    let s := iow (TCCRnC dev) 0 (iow (TCCRnB dev) 0 (iow (TCCRnA dev) 0 s)) in
    let s := iow16 (OCRnx dev 2) 0 (iow16 (OCRnx dev 1) 0 (iow16 (OCRnx dev 0) 0 s)) in
    (0, iow16 (TCNTn dev) 0 (iow16 (IRCN dev) 0 s)).

(** ** Prescalers *)

Definition timer_get_prescaler_value (prescaler : Z) : Z :=
  if prescaler =? 1 then 1 else if prescaler =? 2 then 8 else if prescaler =? 3 then 64 else if prescaler =? 4 then 256
  else if prescaler =? 5 then 1024 else - EINVAL.
Definition timer2_get_presc_value (prescaler : Z) : Z :=
  if prescaler =? 1 then 1 else if prescaler =? 2 then 8 else if prescaler =? 3 then 32 else if prescaler =? 4 then 64
  else if prescaler =? 5 then 128 else if prescaler =? 6 then 256 else if prescaler =? 7 then 1024 else - EINVAL.

(** On 32 bits, as the code uses it. *)
Definition TIMER_CALC_COUNTER_VALUE (period_us prescaler : Z) : Z :=
  u32 (u32 (F_CPU / 1000000 * period_us) / prescaler - 1).

(** The [do ... while] loop: the result and, on success, the counter. *)
Fixpoint calc_prescaler_loop (fuel : nat) (is_timer2 : bool) (period_us max_counter prescaler_id : Z) : option (Z * option Z) :=
  match fuel with
  | O => None
  | S fuel =>
      let prescaler_id := u8 (prescaler_id + 1) in
      let prescaler_val := if is_timer2 then timer2_get_presc_value prescaler_id else timer_get_prescaler_value prescaler_id in
      if prescaler_val <? 0 then Some (- ENOTSUP, None)
      else
        let calc_counter := TIMER_CALC_COUNTER_VALUE period_us prescaler_val in
        if max_counter <? calc_counter then calc_prescaler_loop fuel is_timer2 period_us max_counter prescaler_id
        else Some (s8 prescaler_id, Some (u16 calc_counter))
  end.

(** One round more than there are prescalers. *)
Definition timer_calc_prescaler (timer_index period_us : Z) : option (Z * option Z) :=
  let max_counter := if _is_16bits timer_index then 0xFFFF else 0xFF in
  calc_prescaler_loop 8 (timer_index =? 2) period_us max_counter 0.

(** ** Timers with a callback *)

Record timers := { tio : io_space; tim_ctx : gmap Z timer_api_ctx }.
Definition set_tio (s : io_space) (t : timers) : timers := {| tio := s; tim_ctx := tim_ctx t |}.

Definition _get_device (tim_idx : Z) : Z := timer_get_device tim_idx.

(** The result is [None] when [timer_calc_prescaler] does not end. *)
Definition timer_init (tim_idx period_us : Z) (cb user_data : word) (flags : Z) (t : timers) : option (Z * timers) :=
  if (tim_idx =? CONFIG_KERNEL_SYSLOCK_HW_TIMER) || negb (nonnull cb) then Some (- EINVAL, t)
  else
    let dev := _get_device tim_idx in
    if dev =? 0 then Some (- EINVAL, t)
    else
      '(prescaler_id, counter) ← timer_calc_prescaler tim_idx period_us;
      if prescaler_id <? 0 then Some (prescaler_id, t)
      else
        let t := {| tio := tio t; tim_ctx := <[tim_idx :=
          {| t_cb := cb; t_user_data := user_data; t_prescaler := prescaler_id mod 8 |}]> (tim_ctx t) |} in
        let cfg := {| tc_mode := TIMER_MODE_CTC;
          tc_prescaler := (if negb (Z.land flags TIMER_API_FLAG_AUTOSTART =? 0) then prescaler_id else 0) mod 8;
          tc_counter := default 0 counter; tc_timsk := BIT OCIEnA |} in
        Some (0, set_tio (if _is_16bits tim_idx then ll_timer16_init dev tim_idx cfg (tio t)
                          else ll_timer8_init dev tim_idx cfg (tio t)) t).

Definition timer_get_prescaler (tim_idx : Z) (t : timers) : option Z :=
  if TIMER_INDEX_EXISTS tim_idx then Some (default 0 (t_prescaler <$> tim_ctx t !! tim_idx)) else None.

(** [None] is the failed assertion. *)
Definition timer_start (tim_idx : Z) (t : timers) : option timers :=
  if TIMER_INDEX_EXISTS tim_idx then
    let dev := _get_device tim_idx in
    if negb (dev =? 0) then p ← timer_get_prescaler tim_idx t; Some (set_tio (ll_timer_start dev p (tio t)) t) else Some t
  else None.
Definition timer_stop (tim_idx : Z) (t : timers) : option timers :=
  if TIMER_INDEX_EXISTS tim_idx then
    let dev := _get_device tim_idx in
    Some (if negb (dev =? 0) then set_tio (ll_timer_stop dev (tio t)) t else t)
  else None.

(** The compare match interrupt of timer [n]. *)
Variable call_timer_callback : word → Z → Z → word → timers → timers.
Definition TIMERn_COMPA_vect (n : Z) (t : timers) : timers :=
  match tim_ctx t !! n with
  | Some ctx => if decide (t_cb ctx = NULL) then t else call_timer_callback (t_cb ctx) (timer_get_device n) n (t_user_data ctx) t
  | None => t
  end.

Definition timer_get_max_period_us (tim_idx : Z) : Z :=
  if _is_16bits tim_idx then 1024 * 0x10000 / (F_CPU / 1000000)
  else if _is_8bits tim_idx then 1024 * 0x100 / (F_CPU / 1000000)
  else 0.

(** ** The clock of the kernel *)

(** The preprocessor computes on 64 bits; [None] is [#error]. *)
Definition TIMER_COUNTER_VALUE_FIT (period_us prescaler max : Z) : bool := (F_CPU / 1000000 * period_us / prescaler - 1) mod 2 ^ 64 <=? max.
Definition PRESCALER_VALUE : option Z :=
  let fit v := TIMER_COUNTER_VALUE_FIT SYSCLOCK_PERIOD_US v (TIMER_GET_MAX_COUNTER CONFIG_KERNEL_SYSLOCK_HW_TIMER) in
  let is2 := CONFIG_KERNEL_SYSLOCK_HW_TIMER =? 2 in
  if fit 1 then Some 1 else if fit 8 then Some 8 else if fit 32 && is2 then Some 32 else if fit 64 then Some 64
  else if fit 128 && is2 then Some 128 else if fit 256 then Some 256 else if fit 1024 then Some 1024 else None.
Definition PRESCALER_CONFIG (value : Z) : Z :=
  if CONFIG_KERNEL_SYSLOCK_HW_TIMER =? 2
  then if value =? 1 then 1 else if value =? 8 then 2 else if value =? 32 then 3 else if value =? 64 then 4
       else if value =? 128 then 5 else if value =? 256 then 6 else 7
  else if value =? 1 then 1 else if value =? 8 then 2 else if value =? 64 then 3 else if value =? 256 then 4 else 5.

Definition z_init_sysclock (s : io_space) : option io_space :=
  prescaler ← PRESCALER_VALUE;
  let dev := timer_get_device CONFIG_KERNEL_SYSLOCK_HW_TIMER in
  let cfg := {| tc_mode := TIMER_MODE_CTC; tc_prescaler := PRESCALER_CONFIG prescaler;
    tc_counter := u16 (TIMER_CALC_COUNTER_VALUE SYSCLOCK_PERIOD_US prescaler); tc_timsk := BIT OCIEnA |} in
  Some (if TIMER_INDEX_IS_16BITS CONFIG_KERNEL_SYSLOCK_HW_TIMER
        then ll_timer16_init dev CONFIG_KERNEL_SYSLOCK_HW_TIMER cfg s
        else ll_timer8_init dev CONFIG_KERNEL_SYSLOCK_HW_TIMER cfg s).

(** [#warning "Sysclock may not be accurate"] *)
Definition sysclock_warning : bool :=
  match PRESCALER_VALUE with Some v => negb (F_CPU * SYSCLOCK_PERIOD_US mod (v * 1000000) =? 0) | None => false end.
End HwTimer.

(** ** The prescaler that is found *)

Definition presc_vals (is_timer2 : bool) : list Z := if is_timer2 then [1; 8; 32; 64; 128; 256; 1024] else [1; 8; 64; 256; 1024].

Lemma presc_1024 b : 1024 ∈ presc_vals b.
Proof. destruct b; cbn; set_solver. Qed.

(** The first value whose counter fits, with its rank. *)
Fixpoint first_fit (q : Z → Z) (max : Z) (vals : list Z) (id : Z) : Z * option Z :=
  match vals with
  | [] => (- ENOTSUP, None)
  | v :: vals => if max <? q v then first_fit q max vals (id + 1) else (id, Some (u16 (q v)))
  end.

Lemma first_fit_cons q max v vals id :
  first_fit q max (v :: vals) id = if max <? q v then first_fit q max vals (id + 1) else (id, Some (u16 (q v))).
Proof. done. Qed.

(** Each prescaler is at most 8 times the one before. *)
Fixpoint steps (vals : list Z) : Prop :=
  match vals with v :: ((v' :: _) as vals') => 0 < v < v' ∧ v' <= 8 * v ∧ steps vals' | [v] => 0 < v | [] => True end.

Lemma steps_ok b : steps (presc_vals b).
Proof. destruct b; cbn; lia. Qed.

Lemma first_fit_spec c q max vals : 255 <= max < 65536 → 0 < c < 2 ^ 32 → (∀ v, q v = u32 (c / v - 1)) →
  ∀ id v0, steps (v0 :: vals) → v0 <= c →
  let r := first_fit q max (v0 :: vals) id in
  match r.2 with
  | Some n => ∃ j v, (v0 :: vals) !! j = Some v ∧ r.1 = id + Z.of_nat j ∧ 0 < v ∧ 0 <= n <= max ∧ n = c / v - 1 ∧
      ∀ j' v', (j' < j)%nat → (v0 :: vals) !! j' = Some v' → max < c / v' - 1
  | None => r.1 = - ENOTSUP ∧ ∀ v, v ∈ v0 :: vals → max < c / v - 1
  end.
Proof.
  intros Hmax Hc Hq. induction vals as [|v1 vals IH]; intros id v0 Hs Hle; cbn zeta; rewrite first_fit_cons.
  all: assert (Hv0 : 0 < v0) by (cbn in Hs; lia).
  all: assert (1 <= c / v0 < 2 ^ 32) as Hd by (split; [apply Z.div_le_lower_bound; lia|apply Z.div_lt_upper_bound; nia]).
  all: rewrite Hq, u32_small by lia; destruct (Z.ltb_spec max (c / v0 - 1)) as [Hlt|Hge]; cbn [fst snd].
  all: try (exists 0%nat, v0; rewrite u16_small by lia; split_and!; [done|lia..|]; intros; lia).
  - cbn. split; [done|]. by intros v ->%list_elem_of_singleton.
  - destruct Hs as (Hs1&Hs2&Hs3). assert (v1 <= c) by (pose proof (Z.mul_div_le c v0 Hv0); nia).
    specialize (IH (id + 1) v1 Hs3 ltac:(done)). cbn zeta in IH. destruct (first_fit q max (v1 :: vals) (id + 1)) as [r [n|]]; cbn [fst snd] in *.
    + destruct IH as (j&v&Hj&Hr&Hv&Hn&Hnv&Hbefore). exists (S j), v. split_and!; [done|lia..|]. intros [|j'] v' Hj' Hv'; [injection Hv' as <-; exact Hlt|].
      apply (Hbefore j'); [lia|done].
    + destruct IH as [-> Hall]. split; [done|]. intros v [->|Hin]%elem_of_cons; [done|by apply Hall].
Qed.

Section HwTimerSpec.
Context `{TimerConfig}.

Lemma calc_loop_step fuel (b : bool) p max id v : (if b then timer2_get_presc_value else timer_get_prescaler_value) (u8 (id + 1)) = v →
  0 <= v → calc_prescaler_loop (S fuel) b p max id =
    if max <? TIMER_CALC_COUNTER_VALUE p v then calc_prescaler_loop fuel b p max (u8 (id + 1))
    else Some (s8 (u8 (id + 1)), Some (u16 (TIMER_CALC_COUNTER_VALUE p v))).
Proof.
  intros Hv H0. cbn [calc_prescaler_loop]. cbn zeta. assert ((if b then timer2_get_presc_value (u8 (id + 1))
    else timer_get_prescaler_value (u8 (id + 1))) = v) as -> by (by destruct b). by rewrite (proj2 (Z.ltb_ge v 0)) by lia.
Qed.

Ltac calc_step v := rewrite (calc_loop_step _ _ _ _ _ v) by done; rewrite first_fit_cons;
  match goal with |- context [?m <? ?q] => destruct (m <? q); [|done] end.

Lemma calc_prescaler_first idx p : timer_calc_prescaler idx p =
  Some (first_fit (TIMER_CALC_COUNTER_VALUE p) (if _is_16bits idx then 0xFFFF else 0xFF) (presc_vals (idx =? 2)) 1).
Proof.
  unfold timer_calc_prescaler. generalize (if _is_16bits idx then 0xFFFF else 0xFF). intros max. destruct (idx =? 2); cbn [presc_vals].
  - calc_step 1. calc_step 8. calc_step 32. calc_step 64. calc_step 128. calc_step 256. calc_step 1024. done.
  - calc_step 1. calc_step 8. calc_step 64. calc_step 256. calc_step 1024. done.
Qed.

Definition max_counter (idx : Z) : Z := if _is_16bits idx then 0xFFFF else 0xFF.
Lemma max_counter_range idx : 255 <= max_counter idx < 65536.
Proof. unfold max_counter. destruct (_is_16bits idx); lia. Qed.

(** The cycles of a period. *)
Definition cycles (period_us : Z) : Z := F_CPU / 1000000 * period_us.

Lemma calc_prescaler_cases idx p : 0 < cycles p < 2 ^ 32 →
  ∃ r, timer_calc_prescaler idx p = Some r ∧
  match r.2 with
  | Some n => ∃ j v, presc_vals (idx =? 2) !! j = Some v ∧ r.1 = 1 + Z.of_nat j ∧ 0 < v ∧ 0 <= n <= max_counter idx ∧
      n = cycles p / v - 1 ∧ ∀ j' v', (j' < j)%nat → presc_vals (idx =? 2) !! j' = Some v' → max_counter idx < cycles p / v' - 1
  | None => r.1 = - ENOTSUP ∧ ∀ v, v ∈ presc_vals (idx =? 2) → max_counter idx < cycles p / v - 1
  end.
Proof.
  intros Hc. eexists. split; [apply calc_prescaler_first|]. fold (max_counter idx).
  assert (Hq : ∀ v, TIMER_CALC_COUNTER_VALUE p v = u32 (cycles p / v - 1)).
  { intros v. unfold TIMER_CALC_COUNTER_VALUE. fold (cycles p). by rewrite (u32_small (cycles p)) by lia. }
  pose proof (steps_ok (idx =? 2)) as Hs.
  assert (∃ vs, presc_vals (idx =? 2) = 1 :: vs) as [vs Evs] by (destruct (idx =? 2); eexists; done). rewrite Evs in *.
  exact (first_fit_spec (cycles p) _ (max_counter idx) vs (max_counter_range idx) Hc Hq 1 1 Hs ltac:(lia)).
Qed.

(** C38: [timer_calc_prescaler] finds the finest prescaler whose counter fits:
    the timer then counts [(counter + 1) * v] cycles, the period rounded down
    to a multiple of the prescaler [v]; it fails only when even the largest
    prescaler is too small. *)
Theorem timer_calc_prescaler_finest idx p : 0 < cycles p < 2 ^ 32 →
  ∃ r, timer_calc_prescaler idx p = Some r ∧
  match r.2 with
  | Some n => ∃ v, presc_vals (idx =? 2) !! Z.to_nat (r.1 - 1) = Some v ∧ 1 <= r.1 ∧ 0 <= n <= max_counter idx ∧
      (n + 1) * v <= cycles p < (n + 2) * v ∧
      ∀ j' v', (j' < Z.to_nat (r.1 - 1))%nat → presc_vals (idx =? 2) !! j' = Some v' → (max_counter idx + 1) * v' < cycles p
  | None => r.1 = - ENOTSUP ∧ (max_counter idx + 1) * 1024 < cycles p
  end.
Proof.
  intros Hc. destruct (calc_prescaler_cases idx p Hc) as (r&E&Hr). exists r. split; [done|]. destruct (r.2) as [n|].
  - destruct Hr as (j&v&Hj&Er&Hv&Hn&En&Hb). exists v. rewrite Er. replace (Z.to_nat (1 + Z.of_nat j - 1)) with j by lia.
    pose proof (Z.mul_div_le (cycles p) v Hv). pose proof (Z.mul_succ_div_gt (cycles p) v Hv). split_and!; [done|lia..|nia|nia|].
    intros j' v' Hj' Hv'. specialize (Hb j' v' Hj' Hv'). pose proof (max_counter_range idx).
    destruct (Z.lt_ge_cases 0 v') as [Hv0|Hv0]; [|nia]. pose proof (Z.mul_div_le (cycles p) v' Hv0). nia.
  - destruct Hr as [-> Hall]. split; [done|]. specialize (Hall 1024 (presc_1024 _)).
    pose proof (Z.mul_div_le (cycles p) 1024). pose proof (max_counter_range idx). lia.
Qed.

(** Every period up to [timer_get_max_period_us] is accepted. *)
Theorem timer_max_period_accepted idx p : 1000000 <= F_CPU → _is_8bits idx = true ∨ _is_16bits idx = true →
  0 < p <= timer_get_max_period_us idx → ∃ id n, timer_calc_prescaler idx p = Some (id, Some n) ∧ 1 <= id.
Proof.
  intros Hf Hk Hp. assert (0 < F_CPU / 1000000) as Hm by (apply Z.div_str_pos; lia).
  assert (Hle : cycles p <= 1024 * (max_counter idx + 1)).
  { unfold cycles, max_counter, timer_get_max_period_us in *. destruct (_is_16bits idx).
    - pose proof (Z.mul_div_le (1024 * 0x10000) (F_CPU / 1000000) Hm). nia.
    - destruct Hk as [Hk|]; [|done]. rewrite Hk in Hp. pose proof (Z.mul_div_le (1024 * 0x100) (F_CPU / 1000000) Hm). nia. }
  pose proof (max_counter_range idx) as Hr. destruct (calc_prescaler_cases idx p) as (r&E&Hcase); [unfold cycles in *; nia|].
  destruct r as [id [n|]]; cbn [fst snd] in Hcase.
  - destruct Hcase as (j&v&_&->&_). exists (1 + Z.of_nat j), n. split; [done|lia].
  - destruct Hcase as [_ Hall]. specialize (Hall 1024 (presc_1024 _)).
    pose proof (Z.mul_div_le (cycles p) 1024). lia.
Qed.

(** The multiplication is on 32 bits: with a clock of 16 MHz a period is
    taken modulo 2^28 microseconds instead of being refused. *)
Theorem timer_calc_prescaler_wraps idx p : F_CPU / 1000000 = 16 → timer_calc_prescaler idx (p + 2 ^ 28) = timer_calc_prescaler idx p.
Proof.
  intros Hf. rewrite !calc_prescaler_first. f_equal.
  assert (∀ v, TIMER_CALC_COUNTER_VALUE (p + 2 ^ 28) v = TIMER_CALC_COUNTER_VALUE p v) as Hq.
  { intros v. unfold TIMER_CALC_COUNTER_VALUE. rewrite Hf. replace (16 * (p + 2 ^ 28)) with (16 * p + 1 * 4294967296) by lia.
    unfold u32 at 2 4. by rewrite Z.mod_add. }
  generalize (presc_vals (idx =? 2)). generalize 1. intros id vals. revert id.
  induction vals as [|v vals IH]; intros id; [done|]. by rewrite !first_fit_cons, Hq, IH.
Qed.

(** ** Registers after initialisation *)

Lemma ior_iow a b v s : ior a (iow b v s) = if decide (b = a) then u8 v else ior a s.
Proof. unfold ior, iow. rewrite lookup_insert. by case_decide. Qed.

Lemma ior_eq a v s : ior a (iow a v s) = u8 v.
Proof. by rewrite ior_iow, decide_True. Qed.
Lemma ior_ne a b v s : b ≠ a → ior a (iow b v s) = ior a s.
Proof. intros. by rewrite ior_iow, decide_False. Qed.
Lemma ior_if a (b : bool) s1 s2 : ior a (if b then s1 else s2) = if b then ior a s1 else ior a s2.
Proof. by destruct b. Qed.

(** The value of the waveform mode bits of an 8-bit timer. *)
Definition wgm8 (dev : Z) (s : io_space) : Z :=
  Z.land (ior (TCCRnA dev) s) 3 + 4 * Z.b2z (Z.testbit (ior (TCCRnB dev) s) WGMn2).
(** The bits CSn2 to CSn0. *)
Definition clock_select (dev : Z) (s : io_space) : Z := Z.land (ior (TCCRnB dev) s) 7.

Definition dev8 (dev : Z) : Prop := dev = TIMER_DEVICE_ADDR 0 ∨ dev = TIMER_DEVICE_ADDR 2.
Definition config_wf (c : timer_config) : Prop := 0 <= tc_mode c < 16 ∧ 0 <= tc_prescaler c < 8.

Lemma prescaler_bits n : 0 <= n < 8 → Z.land (u8 (Z.shiftl n 0)) 7 = n ∧ Z.testbit (u8 (Z.shiftl n 0)) 3 = false.
Proof.
  intros Hn. assert (n ∈ [0; 1; 2; 3; 4; 5; 6; 7]) as Hin by (set_unfold; lia).
  set_unfold in Hin. destruct_or! Hin; try subst n; try done.
Qed.

Lemma mode_bits m : 0 <= m < 16 → Z.land (u8 (Z.shiftl (Z.land (Z.shiftr m 1) 3) 0)) 3 = m / 2 mod 4.
Proof.
  intros Hm. assert (m ∈ Z.of_nat <$> seq 0 16) as Hin.
  { apply list_elem_of_fmap. exists (Z.to_nat m). split; [lia|]. apply elem_of_seq. lia. }
  cbn in Hin. set_unfold in Hin. destruct_or! Hin; try subst m; try done.
Qed.

(** [ll_timer8_init] starts the timer with the prescaler, but the last write
    to TCCRnB clears WGMn2: of the mode only the two low bits are left, so
    that modes 5 (PWM) and 7 (fast PWM), with their top at OCRnA, are set up
    as modes 1 and 3. *)
Theorem ll_timer8_init_mode dev idx c s : dev8 dev → 0 <= idx < 6 → config_wf c →
  let s' := ll_timer8_init dev idx c s in
  wgm8 dev s' = tc_mode c / 2 mod 4 ∧ clock_select dev s' = tc_prescaler c ∧ ior (TIMSKn idx) s' = u8 (tc_timsk c).
Proof.
  intros Hd Hi [Hm Hp]. cbn zeta. destruct (prescaler_bits _ Hp) as [Hp1 Hp2].
  unfold wgm8, clock_select, ll_timer8_init, ll_timer_set_enable_int_mask. cbn zeta. unfold TCCRnA, TCCRnB, TCNTn8, OCRnA8, TIMSKn, WGMn2, CSn0.
  assert (dev = 0x44 ∨ dev = 0xB0) as Hd' by done. clear Hd.
  rewrite ior_eq, Hp2, Hp1, (ior_ne (110 + idx)), ior_eq by lia. split_and!; [|done|done].
  rewrite !(ior_ne dev), !ior_if by lia. unfold WGMn0.
  (destruct (tc_mode c =? TIMER_MODE_NORMAL); [|destruct (tc_mode c =? TIMER_MODE_CTC)]); rewrite ?(ior_ne dev), ior_eq, mode_bits by (done || lia); cbn; lia.
Qed.

(** The guard of [timer8_init] is on timer 2, which has the two prescalers it
    refuses; on timer 0, where the same codes select an external clock,
    they are accepted. *)
Theorem timer8_init_guard c s : TIMER_DEVICE_defined 0 = true → TIMER_DEVICE_defined 2 = true → tc_prescaler c ∈ [6; 7] →
  timer8_init (TIMER_DEVICE_ADDR 2) (Some c) s = (- EINVAL, s) ∧
  (timer8_init (TIMER_DEVICE_ADDR 0) (Some c) s).1 = 0.
Proof.
  intros H0 H2 Hp. unfold timer8_init, _get_index, timer_get_index. cbn [TIMER_DEVICE_ADDR Z.eqb Pos.eqb]. rewrite H0, H2. cbn.
  rewrite !andb_false_r. cbn. set_unfold in Hp. destruct_or! Hp; rewrite Hp; done.
Qed.

(** The compare value of a timer. *)
Definition compare_value (idx dev : Z) (s : io_space) : Z :=
  if _is_16bits idx then ior (OCRnx dev 0 + 1) s * 256 + ior (OCRnx dev 0) s else ior (OCRnA8 dev) s.

Lemma ll_timer16_init_ctc dev idx n p m s : dev ∈ [0x80; 0x90; 0xA0; 0x120] → 0 <= idx < 6 → 0 <= n < 65536 → 0 <= p < 8 →
  let s' := ll_timer16_init dev idx {| tc_mode := TIMER_MODE_CTC; tc_prescaler := p; tc_counter := n; tc_timsk := m |} s in
  ior (OCRnx dev 0 + 1) s' * 256 + ior (OCRnx dev 0) s' = n ∧ ior (TCCRnB dev) s' = 8 + p ∧ ior (TCCRnA dev) s' = 0 ∧ ior (TIMSKn idx) s' = u8 m.
Proof.
  intros Hd Hi Hn Hp. cbn zeta. unfold ll_timer16_init, ll_timer_set_enable_int_mask, iow16, TCCRnA, TCCRnB, TIMSKn, OCRnx, TCNTn. cbn [tc_mode tc_prescaler tc_counter tc_timsk].
  change (TIMER_MODE_CTC =? TIMER_MODE_NORMAL) with false. rewrite Z.eqb_refl. cbv iota.
  change (Z.shiftl (Z.land TIMER_MODE_CTC 3) WGMn0) with 0. change (Z.shiftl (Z.land (Z.shiftr TIMER_MODE_CTC 2) 3) WGMn2) with 8.
  assert (dev = 0x80 ∨ dev = 0x90 ∨ dev = 0xA0 ∨ dev = 0x120) as Hd' by (set_unfold; tauto). clear Hd.
  assert (u8 (Z.lor (u8 8) (Z.shiftl p CSn0)) = 8 + p) as Ep.
  { assert (p ∈ [0; 1; 2; 3; 4; 5; 6; 7]) as Hin by (set_unfold; lia). set_unfold in Hin. destruct_or! Hin; subst p; done. }
  split_and!.
  - rewrite !(ior_ne (dev + 8 + 2 * 0 + 1)), !(ior_ne (dev + 8 + 2 * 0)), !ior_eq by lia.
    unfold u8. rewrite Z.shiftr_div_pow2 by lia. change (2 ^ 8) with 256.
    rewrite (Z.mod_small (n / 256)) by (split; [apply Z.div_pos; lia|apply Z.div_lt_upper_bound; lia]). pose proof (Z.div_mod n 256). lia.
  - rewrite ior_eq. rewrite !(ior_ne (dev + 1)), ior_eq by lia. exact Ep.
  - by rewrite !(ior_ne dev), ior_eq by lia.
  - rewrite (ior_ne (110 + idx)), ior_eq by lia. done.
Qed.

Lemma ll_timer8_init_ctc dev idx n p m s : dev8 dev → 0 <= idx < 6 → 0 <= n < 256 → 0 <= p < 8 →
  let s' := ll_timer8_init dev idx {| tc_mode := TIMER_MODE_CTC; tc_prescaler := p; tc_counter := n; tc_timsk := m |} s in
  ior (OCRnA8 dev) s' = n ∧ ior (TCCRnB dev) s' = p ∧ ior (TCCRnA dev) s' = 2 ∧ ior (TIMSKn idx) s' = u8 m.
Proof.
  intros Hd Hi Hn Hp. cbn zeta. unfold ll_timer8_init, ll_timer_set_enable_int_mask, TCCRnA, TCCRnB, TIMSKn, OCRnA8, TCNTn8. cbn [tc_mode tc_prescaler tc_counter tc_timsk].
  change (TIMER_MODE_CTC =? TIMER_MODE_NORMAL) with false. rewrite Z.eqb_refl. cbv iota.
  assert (dev = 0x44 ∨ dev = 0xB0) as Hd' by done. clear Hd. split_and!.
  - rewrite !(ior_ne (dev + 3)), ior_eq by lia. change 255 with (Z.ones 8). rewrite Z.land_ones by lia. unfold u8. change (2 ^ 8) with 256.
    rewrite Z.mod_mod by lia. by apply Z.mod_small.
  - rewrite ior_eq. unfold CSn0. rewrite Z.shiftl_0_r. unfold u8. apply Z.mod_small. lia.
  - by rewrite !(ior_ne dev), ior_eq by lia.
  - rewrite (ior_ne (110 + idx)), ior_eq by lia. done.
Qed.

Lemma prescaler_value_spec v : PRESCALER_VALUE = Some v →
  TIMER_COUNTER_VALUE_FIT SYSCLOCK_PERIOD_US v (TIMER_GET_MAX_COUNTER CONFIG_KERNEL_SYSLOCK_HW_TIMER) = true ∧ 0 < v ∧ 1 <= PRESCALER_CONFIG v < 8 ∧
  (if CONFIG_KERNEL_SYSLOCK_HW_TIMER =? 2 then timer2_get_presc_value else timer_get_prescaler_value) (PRESCALER_CONFIG v) = v.
Proof.
  unfold PRESCALER_VALUE, PRESCALER_CONFIG. intros E.
  repeat match type of E with context [TIMER_COUNTER_VALUE_FIT ?p ?x ?m] => destruct (TIMER_COUNTER_VALUE_FIT p x m) eqn:? end;
    destruct (CONFIG_KERNEL_SYSLOCK_HW_TIMER =? 2); cbn [andb] in E; try discriminate E; injection E as <-;
    split_and!; first [assumption | reflexivity | cbn; lia].
Qed.

Lemma idx_cases i : 0 <= i < 6 →
  if TIMER_INDEX_IS_16BITS i then TIMER_INDEX_IS_8BITS i = false ∧ TIMER_DEVICE_ADDR i ∈ [0x80; 0x90; 0xA0; 0x120]
  else TIMER_INDEX_IS_8BITS i = true ∧ dev8 (TIMER_DEVICE_ADDR i).
Proof.
  intros Hi. assert (i = 0 ∨ i = 1 ∨ i = 2 ∨ i = 3 ∨ i = 4 ∨ i = 5) as Hc by lia.
  destruct_or! Hc; subst i; cbn; unfold dev8; cbn; (split; [done|set_solver]).
Qed.
Lemma cs_bits p : 0 <= p < 8 → Z.land (8 + p) 7 = p ∧ Z.land p 7 = p.
Proof.
  intros Hp. assert (p ∈ [0; 1; 2; 3; 4; 5; 6; 7]) as Hin by (set_unfold; lia). set_unfold in Hin. by destruct_or! Hin; subst p.
Qed.

(** [z_init_sysclock] sets the timer of the kernel to clear on compare match
    with an interrupt every [(OCRnA + 1) * prescaler] cycles: exactly the
    period of the configuration when the clock is a whole number of MHz and
    the compiler gives no warning. *)
Theorem sysclock_period v s : let idx := CONFIG_KERNEL_SYSLOCK_HW_TIMER in let dev := timer_get_device idx in
  0 <= idx < 6 → TIMER_DEVICE_defined idx = true → F_CPU mod 1000000 = 0 → 0 < cycles SYSCLOCK_PERIOD_US < 2 ^ 32 →
  PRESCALER_VALUE = Some v → sysclock_warning = false →
  ∃ s', z_init_sysclock s = Some s' ∧ (compare_value idx dev s' + 1) * v * 1000000 = F_CPU * SYSCLOCK_PERIOD_US ∧
    (if idx =? 2 then timer2_get_presc_value else timer_get_prescaler_value) (clock_select dev s') = v ∧
    ior (TIMSKn idx) s' = BIT OCIEnA.
Proof.
  cbn zeta. intros Hi Hdef Hf Hc Hv Hw. unfold z_init_sysclock. rewrite Hv. cbn [mbind option_bind].
  destruct (prescaler_value_spec v Hv) as (Hfit&Hv0&Hcfg&Hback). eexists. split; [reflexivity|].
  unfold sysclock_warning in Hw. rewrite Hv in Hw. apply negb_false_iff, Z.eqb_eq in Hw.
  pose proof (Z.div_mod F_CPU 1000000 ltac:(lia)) as Hdm. set (m := F_CPU / 1000000) in *.
  assert (Hcyc : cycles SYSCLOCK_PERIOD_US = m * SYSCLOCK_PERIOD_US) by done.
  assert (Hdiv : (cycles SYSCLOCK_PERIOD_US) mod v = 0).
  { rewrite Hcyc. replace (F_CPU * SYSCLOCK_PERIOD_US) with (m * SYSCLOCK_PERIOD_US * 1000000) in Hw by nia.
    rewrite Z.mul_mod_distr_r in Hw by lia. lia. }
  pose proof (Z.div_mod (cycles SYSCLOCK_PERIOD_US) v ltac:(lia)) as Hdm2. set (n := cycles SYSCLOCK_PERIOD_US / v) in *.
  assert (1 <= n) as Hn1 by nia. assert (n < 2 ^ 32) as Hn2 by nia.
  assert (Hmax : n - 1 <= TIMER_GET_MAX_COUNTER CONFIG_KERNEL_SYSLOCK_HW_TIMER).
  { unfold TIMER_COUNTER_VALUE_FIT in Hfit. fold m in Hfit. rewrite <- Hcyc in Hfit. fold n in Hfit.
    rewrite Z.mod_small in Hfit by lia. lia. }
  assert (Hcnt : TIMER_CALC_COUNTER_VALUE SYSCLOCK_PERIOD_US v = n - 1).
  { unfold TIMER_CALC_COUNTER_VALUE. fold m. rewrite <- Hcyc, (u32_small (cycles _)) by lia. fold n. apply u32_small. lia. }
  rewrite Hcnt. assert (Hdev : timer_get_device CONFIG_KERNEL_SYSLOCK_HW_TIMER = TIMER_DEVICE_ADDR CONFIG_KERNEL_SYSLOCK_HW_TIMER).
  { unfold timer_get_device. by rewrite Hdef, (proj2 (Z.leb_le 0 _)), (proj2 (Z.leb_le _ 5)) by lia. }
  rewrite Hdev. unfold TIMER_GET_MAX_COUNTER, TIMER_MAX_COUNTER_8BIT, TIMER_MAX_COUNTER_16BIT in Hmax. unfold compare_value, clock_select, _is_16bits.
  pose proof (idx_cases _ Hi) as Hcase. destruct (TIMER_INDEX_IS_16BITS CONFIG_KERNEL_SYSLOCK_HW_TIMER); destruct Hcase as [E8 Had]; rewrite E8 in Hmax.
  - rewrite u16_small by lia. destruct (ll_timer16_init_ctc _ _ (n - 1) (PRESCALER_CONFIG v) (BIT OCIEnA) s Had Hi) as (E1&E2&_&E4); [lia|lia|].
    rewrite E1, E2, E4. split_and!; [nia| |done]. destruct (cs_bits (PRESCALER_CONFIG v)) as [-> _]; [lia|exact Hback].
  - rewrite u16_small by lia. destruct (ll_timer8_init_ctc _ _ (n - 1) (PRESCALER_CONFIG v) (BIT OCIEnA) s Had Hi) as (E1&E2&_&E4); [lia|lia|].
    rewrite E1, E2, E4. split_and!; [nia| |done]. destruct (cs_bits (PRESCALER_CONFIG v)) as [_ ->]; [lia|exact Hback].
Qed.
End HwTimerSpec.

(** ** Instances: an ATmega328P *)

#[export] Instance w_mcu : TimerConfig := {
  F_CPU := 16000000; TIMERS_COUNT := 3; TIMER_DEVICE_defined i := (i <=? 2); CONFIG_KERNEL_SYSLOCK_HW_TIMER := 1; SYSCLOCK_PERIOD_US := 1000 }.

(** A clock that is not a whole number of MHz is rounded down to one: the
    tick of 10 ms is programmed as 17500 times 8 cycles instead of 18432 times
    8, and the compiler does not warn. *)
Definition w_baud_clock : TimerConfig := {|
  F_CPU := 14745600; TIMERS_COUNT := 3; TIMER_DEVICE_defined i := (i <=? 2); CONFIG_KERNEL_SYSLOCK_HW_TIMER := 1; SYSCLOCK_PERIOD_US := 10000 |}.
Theorem sysclock_truncated : @PRESCALER_VALUE w_baud_clock = Some 8 ∧ @sysclock_warning w_baud_clock = false ∧
  ∃ s', @z_init_sysclock w_baud_clock ∅ = Some s' ∧ compare_value 1 0x80 s' + 1 = 17500 ∧ 18432 * 8 * 1000000 = 14745600 * 10000.
Proof.
  split; [by vm_compute|]. split; [by vm_compute|].
  destruct (@z_init_sysclock w_baud_clock ∅) as [s'|] eqn:E; [|by vm_compute in E]. exists s'. split; [done|].
  split; [|done]. revert E. vm_compute. by intros [= <-].
Qed.

Lemma timer_calc_prescaler_finest_witness : ∃ v, timer_calc_prescaler 1 100000 = Some (3, Some 24999) ∧
  presc_vals false !! 2%nat = Some v ∧ (24999 + 1) * v <= 1600000 < (24999 + 2) * v.
Proof.
  destruct (timer_calc_prescaler_finest 1 100000) as (r&E&Hr); [by vm_compute|].
  assert (timer_calc_prescaler 1 100000 = Some (3, Some 24999)) as E' by by vm_compute. rewrite E' in E. injection E as <-.
  destruct Hr as (v&Hv&_&_&Hb&_). exists v. split; [exact E'|]. split; [exact Hv|exact Hb].
Defined.

Lemma timer_max_period_accepted_witness : ∃ id n, timer_calc_prescaler 2 16384 = Some (id, Some n) ∧ 1 <= id.
Proof. apply (timer_max_period_accepted 2 16384); [by vm_compute|by left|by vm_compute]. Defined.

Lemma timer_calc_prescaler_wraps_witness : timer_calc_prescaler 1 (1000 + 2 ^ 28) = Some (1, Some 15999).
Proof. rewrite (@timer_calc_prescaler_wraps w_mcu 1 1000 eq_refl). by vm_compute. Defined.

Lemma ll_timer8_init_mode_witness : let c := {| tc_mode := 15; tc_prescaler := 2; tc_counter := 0; tc_timsk := 0 |} in
  wgm8 0xB0 (ll_timer8_init 0xB0 2 c ∅) = 3.
Proof.
  cbn zeta. apply (ll_timer8_init_mode 0xB0 2 {| tc_mode := 15; tc_prescaler := 2; tc_counter := 0; tc_timsk := 0 |} ∅);
    [by right|lia|split; cbn; lia].
Defined.

Lemma timer8_init_guard_witness : let c := {| tc_mode := 4; tc_prescaler := 7; tc_counter := 100; tc_timsk := 2 |} in
  timer8_init 0xB0 (Some c) ∅ = (- EINVAL, ∅) ∧ (timer8_init 0x44 (Some c) ∅).1 = 0.
Proof.
  cbn zeta. apply (@timer8_init_guard w_mcu {| tc_mode := 4; tc_prescaler := 7; tc_counter := 100; tc_timsk := 2 |} ∅ eq_refl eq_refl).
  cbn. set_solver.
Defined.

Lemma sysclock_period_witness : ∃ s', z_init_sysclock ∅ = Some s' ∧
  (compare_value 1 0x80 s' + 1) * 1 * 1000000 = 16000000 * 1000.
Proof.
  destruct (sysclock_period 1 ∅) as (s'&E&Hc&_); [cbn; lia|done|done|by vm_compute|by vm_compute|by vm_compute|].
  exists s'. split; [exact E|exact Hc].
Defined.
