(* ===== verification/Mcp2515.v ===== *)
(** * MCP2515 CAN controller (devices/mcp2515.c, devices/mcp2515_priv.h)

    The driver runs on the SPI driver, sleeps, and protects its operations
    with a mutex.  Pointers to the device, to frames and to configurations
    are not [NULL], as the assertions of the code require; a frame is given
    and returned by value. *)

From S2P Require Import Prelude Dlist Delta Tqueue Types Event Timer Kernel KernelInv KernelSpec World Mutex Bytes Crc Atomic Gpio Client Time Spi.

(** ** Constants *)

Definition MCP_RESET : Z := 0xC0.
Definition MCP_WRITE : Z := 0x02.
Definition MCP_READ_STATUS : Z := 0xA0.
Definition MCP_BIT_MODIFY : Z := 0x05.
Definition MCP_READ_RX_BUFFER (n m : Z) : Z := Z.lor (Z.lor 0x90 (Z.shiftl n 2)) (Z.shiftl m 1).
Definition MCP_LOAD_TX_BUFFER (a b c : Z) : Z := Z.lor (Z.lor (Z.lor 0x40 (Z.shiftl a 5)) (Z.shiftl b 6)) (Z.shiftl c 7).
Definition MCP_RTS (tx0 tx1 tx2 : Z) : Z := Z.lor (Z.lor (Z.lor 0x80 tx0) (Z.shiftl tx1 1)) (Z.shiftl tx2 2).
Definition MCP_READ_RX_AT_RXB0SIDH : Z := MCP_READ_RX_BUFFER 0 0.
Definition MCP_READ_RX_AT_RXB1SIDH : Z := MCP_READ_RX_BUFFER 1 0.
Definition MCP_LOAD_TX_AT_TXB0SIDH : Z := MCP_LOAD_TX_BUFFER 0 0 0.
Definition MCP_LOAD_TX_AT_TXB1SIDH : Z := MCP_LOAD_TX_BUFFER 0 1 0.
Definition MCP_LOAD_TX_AT_TXB2SIDH : Z := MCP_LOAD_TX_BUFFER 1 0 0.
Definition MCP_RTS_TXB0 : Z := MCP_RTS 1 0 0.
Definition MCP_RTS_TXB1 : Z := MCP_RTS 0 1 0.
Definition MCP_RTS_TXB2 : Z := MCP_RTS 0 0 1.

Definition MCP_RXB_SIDL_IDE_MASK : Z := 0x08.
Definition MCP_RXB_DLC_DLC_MASK : Z := 0x0F.
Definition MCP_RXB_DLC_RTR_MASK : Z := 0x40.

Definition MCP_R_CANCTRL : Z := 0x0F.
Definition MCP_R_CANINTE : Z := 0x2B.
Definition MCP_R_CANINTF : Z := 0x2C.
Definition MCP_R_CNF3 : Z := 0x28.
Definition MCP_R_CNF2 : Z := 0x29.
Definition MCP_R_CNF1 : Z := 0x2A.
Definition MCP_R_TXB0CTRL : Z := 0x30.
Definition MCP_R_TXB1CTRL : Z := 0x40.
Definition MCP_R_TXB2CTRL : Z := 0x50.
Definition MCP_R_RXB0CTRL : Z := 0x60.
Definition MCP_R_RXB1CTRL : Z := 0x70.
(** [MCP_R_RXF0SIDH] to [MCP_R_RXF5SIDH], [MCP_R_RXM0SIDH] and [MCP_R_RXM1SIDH]. *)
Definition MCP_R_RXFnSIDH : list Z := [0x00; 0x04; 0x08; 0x10; 0x14; 0x18].
Definition MCP_R_RXMnSIDH : list Z := [0x20; 0x24].

Definition MCP_RXB0CTRL_RXM_MASK : Z := 0x60.
Definition MCP_RXB0CTRL_BUKT_MASK : Z := 0x04.
Definition MCP_RXB1CTRL_RXM_MASK : Z := 0x60.
Definition MCP_STATUS_RX0IF : Z := 0x01.
Definition MCP_STATUS_RX1IF : Z := 0x02.
Definition MCP_STATUS_TX0REQ : Z := 0x04.
Definition MCP_STATUS_TX1REQ : Z := 0x10.
Definition MCP_STATUS_TX2REQ : Z := 0x40.
Definition MCP_STATUS_TXREQ_MASK : Z := Z.lor (Z.lor MCP_STATUS_TX0REQ MCP_STATUS_TX1REQ) MCP_STATUS_TX2REQ.
Definition MCP_CANINTE_RX : Z := Z.lor 0x01 0x02.
Definition MCP_CANINTE_TX : Z := Z.lor (Z.lor 0x04 0x08) 0x10.
Definition MCP_CANINTF_RX0IF : Z := 0x01.
Definition MCP_CANINTF_RX1IF : Z := 0x02.
Definition MCP_CANINTF_TX0IF : Z := 0x04.
Definition MCP_CANINTF_TX1IF : Z := 0x08.
Definition MCP_CANINTF_TX2IF : Z := 0x10.
Definition MCP_CANINTF_WAKIF : Z := 0x40.
Definition MCP_MASK_MODE : Z := 0xE0.
Definition MCP_MODE_NORMAL : Z := 0x00.
Definition MCP_MODE_CONFIG : Z := 0x80.
Definition MCP_16MHz_500kBPS_CFG1 : Z := 0x00.
Definition MCP_16MHz_500kBPS_CFG2 : Z := 0xF0.
Definition MCP_16MHz_500kBPS_CFG3 : Z := 0x86.
Definition MCP2515_CAN_SPEED_500KBPS : Z := 6.
Definition MCP2515_CLOCK_SET_16MHZ : Z := 1.
Definition MCP2515_INT_RX : Z := BIT 0.
Definition MCP2515_INT_TX : Z := BIT 1.
Definition MCP2515_DEBUG_NO_ROLLOVER : Z := BIT 2.
Definition MCP2515_DEBUG_RX_ANY : Z := BIT 3.
Definition CONFIG_MCP2515_RESET_DELAY_MS : Z := 10.
Definition CONFIG_MCP2515_MODE_DELAY_MS : Z := 5.

(** ** Data *)

Record mcp2515_config := { can_speed : Z; clock_speed : Z; mcp_flags : Z }.
Record can_frame := { data : list Z; len : Z; id : Z; rtr : bool; is_ext : bool }.

(** ** Identifiers and frames *)

(** The four bytes SIDH, SIDL, EID8 and EID0. *)
Definition can_id_to_buf (id : Z) (is_ext : bool) : list Z :=
  let half := u16 id in
  if is_ext then
    let eid0 := u8 half in
    let eid8 := u8 (Z.shiftr half 8) in
    let half := u16 (Z.shiftr id 16) in
    let sidl := u8 (Z.land half 0x03) in
    let sidl := u8 (Z.lor sidl MCP_RXB_SIDL_IDE_MASK) in
    let sidl := u8 (Z.lor sidl (Z.land (u16 (Z.shiftl half 3)) 0xE0)) in
    [u8 (Z.shiftr half 5); sidl; eid8; eid0]
  else [u8 (Z.shiftr half 3); u8 (Z.land (u16 (Z.shiftl half 5)) 0xE0); 0; 0].

(** The identifier that [read_rx_buf] computes from the bytes. *)
Definition id_of_buf (b : list Z) : Z * bool :=
  let at_ i := nth i b 0 in
  let fid := Z.lor (Z.shiftl (at_ 0%nat) 3) (Z.shiftr (at_ 1%nat) 5) mod 2 ^ 29 in
  if negb (Z.land (at_ 1%nat) MCP_RXB_SIDL_IDE_MASK =? 0) then
    let fid := Z.lor (Z.shiftl fid 2) (Z.land (at_ 1%nat) 0x03) mod 2 ^ 29 in
    let fid := Z.lor (Z.shiftl fid 8) (at_ 2%nat) mod 2 ^ 29 in
    (Z.lor (Z.shiftl fid 8) (at_ 3%nat) mod 2 ^ 29, true)
  else (fid, false).

Section Mcp.
Context `{Layout, Config, Handlers, TimeConfig, SpiConfig} {B : Type} `{SpiWire B}.

(** The device and the SPI driver. *)
Record mcp_sys := { mslave : spi_slave; mspi : @spi_sys B }.
#[global] Instance mcp_elsewhere : Elsewhere mcp_sys := λ s, {| mslave := mslave s; mspi := while_away (mspi s) |}.
Definition set_mspi (x : spi_sys) (s : mcp_sys) : mcp_sys := {| mslave := mslave s; mspi := x |}.
Definition set_mslave (sl : spi_slave) (s : mcp_sys) : mcp_sys := {| mslave := sl; mspi := mspi s |}.

Variable mcp_mutex : word.

(** [MCP_SELECT], exchanges, [MCP_UNSELECT]. *)
Definition selected {A} (body : @spi_sys B → option (A * @spi_sys B)) : SM mcp_sys A := local (λ s,
  '(a, x) ← body (spi_slave_select (mslave s) (mspi s)); Some (a, set_mspi (spi_slave_unselect (mslave s) x) s)).
Definition sends (l : list Z) (s : @spi_sys B) : option (unit * @spi_sys B) := s ← send_bytes l s; Some (tt, s).

Definition write_register (reg_addr reg_val : Z) : SM mcp_sys unit := selected (sends [MCP_WRITE; reg_addr; reg_val]).
Definition write_registers (reg_addr : Z) (buf : list Z) : SM mcp_sys unit := selected (sends (MCP_WRITE :: reg_addr :: buf)).
Definition modify_register (reg_addr mask data : Z) : SM mcp_sys unit := selected (sends [MCP_BIT_MODIFY; reg_addr; mask; data]).

Definition set_mode (new_mode : Z) : SM mcp_sys unit :=
  do* _ := modify_register MCP_R_CANINTF MCP_CANINTF_WAKIF 0 in
  do* _ := modify_register MCP_R_CANCTRL MCP_MASK_MODE new_mode in
  lift (k_msleep CONFIG_MCP2515_MODE_DELAY_MS).

Definition read_status : SM mcp_sys Z := selected (λ s,
  '(_, s) ← xfer MCP_READ_STATUS s; xfer 0x00 s).

Definition mcp_reset : SM mcp_sys unit :=
  do* _ := selected (sends [MCP_RESET]) in
  lift (k_msleep CONFIG_MCP2515_RESET_DELAY_MS).

Definition config_dr (speed clock : Z) : SM mcp_sys Z :=
  if negb (speed =? MCP2515_CAN_SPEED_500KBPS) || negb (clock =? MCP2515_CLOCK_SET_16MHZ) then sret (- ENOTSUP)
  else
    do* _ := write_register MCP_R_CNF1 MCP_16MHz_500kBPS_CFG1 in
    do* _ := write_register MCP_R_CNF2 MCP_16MHz_500kBPS_CFG2 in
    do* _ := write_register MCP_R_CNF3 MCP_16MHz_500kBPS_CFG3 in
    do* _ := lift (k_msleep CONFIG_MCP2515_MODE_DELAY_MS) in
    sret 0.

Fixpoint clear_tx_buffers (n : nat) (tx1 tx2 tx3 : Z) : SM mcp_sys unit :=
  match n with
  | O => sret tt
  | S n =>
      do* _ := write_register tx1 0 in
      do* _ := write_register tx2 0 in
      do* _ := write_register tx3 0 in
      clear_tx_buffers n (tx1 + 1) (tx2 + 1) (tx3 + 1)
  end.

Definition has_flag (flags f : Z) : bool := negb (Z.land flags f =? 0).

(** From the configuration of the bus on. *)
Definition mcp2515_configure (config : mcp2515_config) : SM mcp_sys Z :=
  do* ret := config_dr (can_speed config) (clock_speed config) in
  if negb (ret =? 0) then sret ret
  else
    do* _ := clear_tx_buffers 14 MCP_R_TXB0CTRL MCP_R_TXB1CTRL MCP_R_TXB2CTRL in
    do* _ := write_register MCP_R_RXB0CTRL 0 in
    do* _ := write_register MCP_R_RXB1CTRL 0 in
    let flags := mcp_flags config in
    let inte := Z.lor (if has_flag flags MCP2515_INT_RX then MCP_CANINTE_RX else 0)
                      (if has_flag flags MCP2515_INT_TX then MCP_CANINTE_TX else 0) in
    do* _ := write_register MCP_R_CANINTE inte in
    let rxm := if has_flag flags MCP2515_DEBUG_RX_ANY then MCP_RXB0CTRL_RXM_MASK else 0 in
    let rxb0ctrl := Z.lor rxm (if has_flag flags MCP2515_DEBUG_NO_ROLLOVER then 0 else MCP_RXB0CTRL_BUKT_MASK) in
    do* _ := modify_register MCP_R_RXB0CTRL (Z.lor MCP_RXB0CTRL_RXM_MASK MCP_RXB0CTRL_BUKT_MASK) rxb0ctrl in
    do* _ := modify_register MCP_R_RXB1CTRL MCP_RXB1CTRL_RXM_MASK rxm in
    do* _ := set_mode MCP_MODE_NORMAL in
    sret ret.

Definition mcp2515_init (config : mcp2515_config) (sl : spi_slave) : SM mcp_sys Z :=
  do* _ := smodify (set_mslave sl) in
  do* _ := lift (k_mutex_init mcp_mutex) in
  do* _ := local (λ s, let '(r, x) := spi_slave_ss_init true (mslave s) (mspi s) in Some (r, set_mspi x s)) in
  do* _ := smodify (λ s, set_mspi (spi_regs_restore (slave_regs sl) (mspi s)) s) in
  do* _ := mcp_reset in
  do* _ := set_mode MCP_MODE_CONFIG in
  mcp2515_configure config.

(** [memset(mcp, 0, sizeof(struct mcp2515_device))]: the slave, and the mutex
    with its wait queue. *)
Definition zero_slave : spi_slave := {| cs_port := 0; cs_pin := 0; active_state := 0; slave_regs := {| spcr := 0; spsr := 0 |} |}.
Definition mcp_clear : SM mcp_sys unit :=
  do* _ := smodify (set_mslave zero_slave) in
  do* _ := lift (modify (upd_mutex mcp_mutex (λ _, {| lock := 0; owner := NULL |}))) in
  lift (modify (upd_links (λ l, wr1 (wr0 l (mutex_waitqueue mcp_mutex) NULL) (mutex_waitqueue mcp_mutex) NULL))).

Definition mcp2515_deinit : SM mcp_sys Z :=
  do* _ := lift (k_mutex_lock mcp_mutex K_FOREVER) in
  do* _ := mcp_reset in
  do* _ := lift (k_mutex_cancel_wait mcp_mutex) in
  do* _ := mcp_clear in
  sret 0.

(** ** Frames *)

Definition rx_header (frame : can_frame) (b : list Z) (dlc : Z) : can_frame :=
  {| data := data frame; len := Z.min (Z.land dlc MCP_RXB_DLC_DLC_MASK) 8; id := (id_of_buf b).1;
     rtr := negb (Z.land dlc MCP_RXB_DLC_RTR_MASK =? 0); is_ext := (id_of_buf b).2 |}.
Definition store_rx (bytes : list Z) (frame : can_frame) : can_frame :=
  {| data := bytes ++ drop (length bytes) (data frame); len := len frame; id := id frame; rtr := rtr frame; is_ext := is_ext frame |}.

Definition read_rx_buf (frame : can_frame) (rxb_reg : Z) : SM mcp_sys can_frame := selected (λ s,
  '(_, s) ← xfer rxb_reg s;
  '(b, s) ← recv_bytes 0x00 4 s;
  '(dlc, s) ← xfer 0x00 s;
  let frame := rx_header frame b dlc in
  '(bytes, s) ← recv_bytes 0x00 (Z.to_nat (len frame)) s;
  Some (store_rx bytes frame, s)).

Definition start_transmit (reg_rts : Z) : SM mcp_sys unit := selected (sends [reg_rts]).

(** The buffer that is free: its flag, its load instruction, its request to
    send. *)
Definition tx_buffer (txreq : Z) : option (Z * Z * Z) :=
  if Z.land txreq MCP_STATUS_TX0REQ =? 0 then Some (MCP_CANINTF_TX0IF, MCP_LOAD_TX_AT_TXB0SIDH, MCP_RTS_TXB0)
  else if Z.land txreq MCP_STATUS_TX1REQ =? 0 then Some (MCP_CANINTF_TX1IF, MCP_LOAD_TX_AT_TXB1SIDH, MCP_RTS_TXB1)
  else if Z.land txreq MCP_STATUS_TX2REQ =? 0 then Some (MCP_CANINTF_TX2IF, MCP_LOAD_TX_AT_TXB2SIDH, MCP_RTS_TXB2)
  else None.

(** The bytes loaded in the buffer. *)
Definition tx_bytes (frame : can_frame) : list Z :=
  let l := Z.min (len frame) 8 in
  can_id_to_buf (id frame) (is_ext frame) ++ Z.lor l (if rtr frame then MCP_RXB_DLC_RTR_MASK else 0) :: take (Z.to_nat l) (data frame).

Definition mcp2515_send (frame : can_frame) : SM mcp_sys Z :=
  do* _ := lift (k_mutex_lock mcp_mutex K_FOREVER) in
  do* status := read_status in
  do* ret :=
    match tx_buffer (Z.land status MCP_STATUS_TXREQ_MASK) with
    | None => sret (- EBUSY)
    | Some (reg_txnif, reg_txload, reg_txrts) =>
        do* _ := modify_register MCP_R_CANINTF reg_txnif 0 in
        do* _ := selected (sends (reg_txload :: tx_bytes frame)) in
        do* _ := start_transmit reg_txrts in
        sret 0
    end in
  do* _ := lift (k_mutex_unlock mcp_mutex) in
  sret ret.

Definition mcp2515_recv (frame : can_frame) : SM mcp_sys (Z * can_frame) :=
  do* _ := lift (k_mutex_lock mcp_mutex K_FOREVER) in
  do* status := read_status in
  do* r :=
    (if negb (Z.land status MCP_STATUS_RX0IF =? 0) then
       do* frame := read_rx_buf frame MCP_READ_RX_AT_RXB0SIDH in
       do* _ := modify_register MCP_R_CANINTF MCP_CANINTF_RX0IF 0 in
       sret (0, frame)
     else if negb (Z.land status MCP_STATUS_RX1IF =? 0) then
       do* frame := read_rx_buf frame MCP_READ_RX_AT_RXB1SIDH in
       do* _ := modify_register MCP_R_CANINTF MCP_CANINTF_RX1IF 0 in
       sret (0, frame)
     else sret (- ENOMSG, frame)) in
  do* _ := lift (k_mutex_unlock mcp_mutex) in
  sret r.

(** ** Filters and masks *)

(** The registers are written in the configuration mode. *)
Definition configure_id (reg : option Z) (is_ext : bool) (id : Z) : SM mcp_sys Z :=
  do* _ := lift (k_mutex_lock mcp_mutex K_FOREVER) in
  do* _ := set_mode MCP_MODE_CONFIG in
  do* _ := (match reg with Some reg => write_registers reg (can_id_to_buf id is_ext) | None => sret tt end) in
  do* _ := set_mode MCP_MODE_NORMAL in
  do* _ := lift (k_mutex_unlock mcp_mutex) in
  sret 0.

Definition mcp2515_set_filter (index : Z) (is_ext : bool) (filter : Z) : SM mcp_sys Z :=
  if 5 <? index then sret (- EINVAL) else configure_id (MCP_R_RXFnSIDH !! Z.to_nat index) is_ext filter.
Definition mcp2515_set_mask (index : Z) (is_ext : bool) (mask : Z) : SM mcp_sys Z :=
  if 1 <? index then sret (- EINVAL) else configure_id (MCP_R_RXMnSIDH !! Z.to_nat index) is_ext mask.
End Mcp.

(** ** Identifiers are read back *)

Definition id_ok (id : Z) (is_ext : bool) : Prop := 0 <= id < if is_ext then 2 ^ 29 else 2 ^ 11.

Lemma below_n (P : Z → bool) (n : nat) : forallb (λ i, P (Z.of_nat i)) (seq 0 n) = true → ∀ v, 0 <= v < Z.of_nat n → P v = true.
Proof.
  intros Hall v Hv. rewrite forallb_forall in Hall. specialize (Hall (Z.to_nat v)). rewrite Z2Nat.id in Hall by lia.
  apply Hall, in_seq. lia.
Qed.

(** The fields of SIDL, for the 13 high bits of an extended identifier. *)
Definition sidl_of (half : Z) : Z :=
  u8 (Z.lor (u8 (Z.lor (u8 (Z.land half 0x03)) MCP_RXB_SIDL_IDE_MASK)) (Z.land (u16 (Z.shiftl half 3)) 0xE0)).
Lemma sidl_fields half : 0 <= half < 8192 →
  Z.shiftr (sidl_of half) 5 = half / 4 mod 8 ∧ Z.land (sidl_of half) MCP_RXB_SIDL_IDE_MASK ≠ 0 ∧ Z.land (sidl_of half) 0x03 = half mod 4.
Proof.
  intros Hh. assert (H := below_n (λ h, (Z.shiftr (sidl_of h) 5 =? h / 4 mod 8) && negb (Z.land (sidl_of h) MCP_RXB_SIDL_IDE_MASK =? 0) &&
    (Z.land (sidl_of h) 0x03 =? h mod 4)) (Z.to_nat 8192) ltac:(vm_compute; reflexivity) half ltac:(lia)). cbn beta in H.
  apply andb_prop in H as [[H1 H2]%andb_prop H3]. apply Z.eqb_eq in H1, H3. apply negb_true_iff, Z.eqb_neq in H2. done.
Qed.

Lemma std_id_back i : 0 <= i < 2048 → id_of_buf (can_id_to_buf i false) = (i, false).
Proof.
  intros Hi. assert (H := below_n (λ i, let '(j, e) := id_of_buf (can_id_to_buf i false) in (j =? i) && negb e) (Z.to_nat 2048)
    ltac:(vm_compute; reflexivity) i ltac:(lia)). cbn beta in H.
  destruct (id_of_buf (can_id_to_buf i false)) as [j e]. apply andb_prop in H as [->%Z.eqb_eq ->%negb_true_iff]. done.
Qed.

Lemma ext_id_back i : 0 <= i < 2 ^ 29 → id_of_buf (can_id_to_buf i true) = (i, true).
Proof.
  intros Hi. unfold can_id_to_buf. cbn zeta. set (half := u16 (Z.shiftr i 16)).
  assert (Hh : half = i / 65536) by (unfold half; rewrite Z.shiftr_div_pow2 by lia; apply u16_small; change (2 ^ 16) with 65536;
    split; [apply Z.div_pos; lia|apply Z.div_lt_upper_bound; lia]).
  assert (0 <= half < 8192) as Hr by (rewrite Hh; split; [apply Z.div_pos; lia|apply Z.div_lt_upper_bound; lia]).
  fold (sidl_of half). destruct (sidl_fields half Hr) as (E1&E2&E3). unfold id_of_buf. cbn [nth]. cbn zeta.
  rewrite E1, E3, (proj2 (Z.eqb_neq _ _) E2). cbn [negb].
  assert (Hb : u8 (Z.shiftr half 5) = half / 32) by (rewrite Z.shiftr_div_pow2 by lia; change (2 ^ 5) with 32; unfold u8; apply Z.mod_small;
    split; [apply Z.div_pos; lia|apply Z.div_lt_upper_bound; lia]). rewrite Hb.
  pose proof (Z.div_mod half 32). pose proof (Z.mod_pos_bound half 32). pose proof (Z.div_mod half 4). pose proof (Z.mod_pos_bound half 4).
  pose proof (Z.mod_pos_bound (half / 4) 8). assert (half / 4 mod 8 = half / 4 - 8 * (half / 32)) as E4.
  { rewrite Z.mod_eq by lia. rewrite Z.div_div by lia. done. }
  pose proof (u8_range (u16 i)). pose proof (u8_range (Z.shiftr (u16 i) 8)).
  set (x := half / 4 mod 8) in *. set (y := half mod 4) in *.
  rewrite (lor_high (half / 32)) by lia. change (2 ^ 3) with 8. rewrite (Z.mod_small (half / 32 * 8 + x)) by lia.
  rewrite (lor_high (half / 32 * 8 + x)) by lia. change (2 ^ 2) with 4. rewrite (Z.mod_small ((half / 32 * 8 + x) * 4 + y)) by lia.
  rewrite (lor_high ((half / 32 * 8 + x) * 4 + y)) by lia. change (2 ^ 8) with 256.
  rewrite (Z.mod_small (((half / 32 * 8 + x) * 4 + y) * 256 + _)) by lia. rewrite lor_high by lia. change (2 ^ 8) with 256.
  assert (Eid : u8 (Z.shiftr (u16 i) 8) * 256 + u8 (u16 i) = i mod 65536).
  { unfold u16, u8. rewrite Z.shiftr_div_pow2 by lia. change (2 ^ 8) with 256. pose proof (Z.mod_pos_bound i 65536).
    rewrite (Z.mod_small (_ / 256)) by (split; [apply Z.div_pos; lia|apply Z.div_lt_upper_bound; lia]).
    pose proof (Z.div_mod (i mod 65536) 256). lia. }
  pose proof (Z.div_mod i 65536). rewrite Z.mod_small by lia. f_equal. lia.
Qed.

Lemma id_back i e : id_ok i e → id_of_buf (can_id_to_buf i e) = (i, e).
Proof. destruct e; [apply ext_id_back|apply std_id_back]. Qed.

(** ** Sending and receiving *)
Section McpSpec.
Context `{Layout, Config, Handlers, TimeConfig, SpiConfig} {B : Type} `{SpiWire B}.
Abbreviation st := (@mcp_sys B).

(** A selection of the controller during which [l] is exchanged. *)
Definition txn (l : list (Z * Z)) (s s' : st) : Prop :=
  ∃ x, talk (spi_slave_select (mslave s) (mspi s)) l x ∧ s' = set_mspi (spi_slave_unselect (mslave s) x) s.

Lemma selected_done {A} (body : @spi_sys B → option (A * @spi_sys B)) (s : st) k a x :
  body (spi_slave_select (mslave s) (mspi s)) = Some (a, x) →
  selected body s k = Done (a, set_mspi (spi_slave_unselect (mslave s) x) s) k.
Proof. intros E. apply local_some. by rewrite E. Qed.

Lemma sends_txn l junk (s s' : st) k : length junk = length l → txn (zip l junk) s s' → selected (sends l) s k = Done (tt, s') k.
Proof.
  intros Hl (x&Ht&->). apply selected_done. unfold sends. by rewrite (send_bytes_talk l junk _ x).
Qed.

Lemma read_status_txn j status (s s' : st) k : txn [(MCP_READ_STATUS, j); (0x00, status)] s s' →
  read_status s k = Done (status, s') k.
Proof.
  intros (x&Ht&->). apply selected_done. apply talk_xfer in Ht as (s1&E1&Ht). apply talk_xfer in Ht as (s2&E2&->%talk_nil).
  by rewrite E1.
Qed.

(** What [read_rx_buf] makes of the bytes of a buffer. *)
Definition received (frame : can_frame) (bytes : list Z) : can_frame :=
  store_rx (drop 5 bytes) (rx_header frame (take 4 bytes) (nth 4 bytes 0)).

Lemma read_rx_txn reg j frame b dlc bytes (s s' : st) k : length b = 4%nat →
  length bytes = Z.to_nat (Z.min (Z.land dlc MCP_RXB_DLC_DLC_MASK) 8) →
  txn ((reg, j) :: (pair 0x00 <$> b ++ dlc :: bytes)) s s' →
  read_rx_buf frame reg s k = Done (received frame (b ++ dlc :: bytes), s') k.
Proof.
  intros Hb Hn (x&Ht&->). apply talk_xfer in Ht as (s1&E1&Ht). rewrite fmap_app, talk_app in Ht. destruct Ht as (s2&Hr2&Ht).
  rewrite fmap_cons in Ht. apply talk_xfer in Ht as (s3&E3&Hr4).
  apply recv_bytes_talk in Hr2. rewrite Hb in Hr2. apply recv_bytes_talk in Hr4. rewrite Hn in Hr4.
  assert (received frame (b ++ dlc :: bytes) = store_rx bytes (rx_header frame b dlc)) as ->.
  { unfold received. rewrite take_app_length' by done. rewrite app_nth2 by lia. rewrite Hb. cbn [nth Nat.sub].
    change 5%nat with (4 + 1)%nat. rewrite <- drop_drop, drop_app_length' by done. done. }
  unfold read_rx_buf. apply selected_done. rewrite E1. cbn [mbind option_bind]. rewrite Hr2. cbn [mbind option_bind].
  rewrite E3. cbn [mbind option_bind]. cbn zeta. cbn [len rx_header]. by rewrite Hr4.
Qed.

(** Well-formed frames. *)
Definition frame_ok (f : can_frame) : Prop := id_ok (id f) (is_ext f) ∧ length (data f) = 8%nat ∧ 0 <= len f <= 8.

Lemma dlc_fields l (r : bool) : 0 <= l <= 8 →
  Z.land (Z.lor l (if r then MCP_RXB_DLC_RTR_MASK else 0)) MCP_RXB_DLC_DLC_MASK = l ∧
  negb (Z.land (Z.lor l (if r then MCP_RXB_DLC_RTR_MASK else 0)) MCP_RXB_DLC_RTR_MASK =? 0) = r.
Proof.
  intros Hl. assert (l = 0 ∨ l = 1 ∨ l = 2 ∨ l = 3 ∨ l = 4 ∨ l = 5 ∨ l = 6 ∨ l = 7 ∨ l = 8) as Hc by lia.
  destruct_or! Hc; subst l; by destruct r.
Qed.

Lemma received_tx f f0 : frame_ok f →
  received f0 (tx_bytes f) = {| data := take (Z.to_nat (len f)) (data f) ++ drop (Z.to_nat (len f)) (data f0); len := len f; id := id f;
    rtr := rtr f; is_ext := is_ext f |}.
Proof.
  intros (Hi&Hd&Hl). unfold tx_bytes. cbn zeta. rewrite Z.min_l by lia.
  assert (length (can_id_to_buf (id f) (is_ext f)) = 4%nat) as Hn4 by (unfold can_id_to_buf; by destruct (is_ext f)).
  unfold received. rewrite take_app_length' by done. rewrite app_nth2 by lia. rewrite Hn4. cbn [nth Nat.sub].
  change 5%nat with (4 + 1)%nat. rewrite <- drop_drop, drop_app_length' by done. cbn [drop].
  destruct (dlc_fields (len f) (rtr f) Hl) as [E1 E2]. unfold store_rx, rx_header. rewrite !drop_0. cbn [data len id rtr is_ext].
  rewrite E1, E2, (id_back _ _ Hi), Z.min_l, length_take_le by lia. done.
Qed.

(** C36: loopback: a controller whose receive buffer gives back the bytes that
    [mcp2515_send] loads makes [read_rx_buf] return the frame that was sent
    (the bytes of [data] after [len] are not touched). *)
Theorem mcp_frame_roundtrip f f0 reg j (s s' : st) k : frame_ok f →
  txn ((reg, j) :: (pair 0x00 <$> tx_bytes f)) s s' →
  read_rx_buf f0 reg s k = Done ({| data := take (Z.to_nat (len f)) (data f) ++ drop (Z.to_nat (len f)) (data f0); len := len f;
    id := id f; rtr := rtr f; is_ext := is_ext f |}, s') k.
Proof.
  intros Hf Ht. rewrite <- (received_tx f f0 Hf). destruct Hf as (Hi&Hd&Hl). unfold tx_bytes in *. cbn zeta in *.
  rewrite Z.min_l in * by lia. apply (read_rx_txn reg j); [unfold can_id_to_buf; by destruct (is_ext f)| |done].
  destruct (dlc_fields (len f) (rtr f) Hl) as [-> _]. rewrite Z.min_l, length_take_le by lia. done.
Qed.

Variables (F : mem) (c : word) (D : gset word) (mcp_mutex : word).
Hypothesis (Hm : mcp_mutex ≠ NULL) (HD : mutex_waitqueue mcp_mutex ∈ D).

Lemma leave_with {A} (a : A) (s : st) k : here F c D k → owns c mcp_mutex k →
  ∃ t k', k_mutex_unlock mcp_mutex k = Done t k' ∧
    (do* _ := lift (k_mutex_unlock mcp_mutex) in sret a) s k = Done (a, s) k' ∧ unlocked F c mcp_mutex k k'.
Proof. intros Hh Ho. client_unlock_tac Hh Hm Ho HD tw k' Eu Hu. by exists tw, k'. Qed.

(** The same after operations that only changed the client's state. *)
Lemma leave_locked {A} (a : A) (s : st) k : here F c D (locked mcp_mutex k) → owns c mcp_mutex (locked mcp_mutex k) →
  ∃ k', (do* _ := lift (k_mutex_unlock mcp_mutex) in sret a) s (locked mcp_mutex k) = Done (a, s) k' ∧ unlocked F c mcp_mutex k k'.
Proof.
  intros Hh Ho. destruct (leave_with a s _ Hh Ho) as (t&k'&_&E&Hc&Hi&Hr). exists k'. split; [done|].
  split; [done|]. split; [done|]. by apply released_locked.
Qed.

(** [mcp2515_send] with the mutex free: the first free buffer gets the bytes
    of the frame, is marked as not sent, and is requested to send; when all
    buffers are busy the result is [-EBUSY].  The mutex is released in every
    case. *)
Theorem mcp2515_send_spec f j status s s1 k : here F c D k → lock (mutex k mcp_mutex) = 0 →
  txn [(MCP_READ_STATUS, j); (0x00, status)] s s1 →
  match tx_buffer (Z.land status MCP_STATUS_TXREQ_MASK) with
  | None => ∃ k', mcp2515_send mcp_mutex f s k = Done (- EBUSY, s1) k' ∧ unlocked F c mcp_mutex k k'
  | Some (txnif, txload, txrts) =>
      ∀ j1 j2 j3 s2 s3 s4, length j1 = 4%nat → length j2 = S (length (tx_bytes f)) → length j3 = 1%nat →
      txn (zip [MCP_BIT_MODIFY; MCP_R_CANINTF; txnif; 0] j1) s1 s2 → txn (zip (txload :: tx_bytes f) j2) s2 s3 → txn (zip [txrts] j3) s3 s4 →
      ∃ k', mcp2515_send mcp_mutex f s k = Done (0, s4) k' ∧ unlocked F c mcp_mutex k k'
  end.
Proof.
  intros Hh Hl Hs. unfold mcp2515_send. client_lock_tac Hh Hm Hl Hh1 Ho1.
  erewrite sbind_done by (by eapply read_status_txn). destruct (tx_buffer _) as [[[txnif txload] txrts]|].
  - intros j1 j2 j3 s2 s3 s4 L1 L2 L3 T1 T2 T3. erewrite sbind_done; [apply (leave_locked 0 s4 k Hh1 Ho1)|].
    erewrite sbind_done by (by apply (sends_txn _ j1)). erewrite sbind_done by (by apply (sends_txn _ j2)).
    by erewrite sbind_done by (by apply (sends_txn _ j3)).
  - erewrite sbind_done by reflexivity. apply leave_locked; done.
Qed.

(** [mcp2515_recv] with the mutex free: the frame of the first full buffer,
    whose flag is cleared, or [-ENOMSG]. *)
Theorem mcp2515_recv_spec f0 j status s s1 k : here F c D k → lock (mutex k mcp_mutex) = 0 →
  txn [(MCP_READ_STATUS, j); (0x00, status)] s s1 →
  if (Z.land status MCP_STATUS_RX0IF =? 0) && (Z.land status MCP_STATUS_RX1IF =? 0) then ∃ k', mcp2515_recv mcp_mutex f0 s k = Done ((- ENOMSG, f0), s1) k' ∧ unlocked F c mcp_mutex k k'
  else
    let n := if Z.land status MCP_STATUS_RX0IF =? 0 then 1 else 0 in
    ∀ j1 j2 b dlc bytes s2 s3, length b = 4%nat → length bytes = Z.to_nat (Z.min (Z.land dlc MCP_RXB_DLC_DLC_MASK) 8) → length j2 = 4%nat →
    txn ((MCP_READ_RX_BUFFER n 0, j1) :: (pair 0x00 <$> b ++ dlc :: bytes)) s1 s2 →
    txn (zip [MCP_BIT_MODIFY; MCP_R_CANINTF; Z.shiftl 1 n; 0] j2) s2 s3 →
    ∃ k', mcp2515_recv mcp_mutex f0 s k = Done ((0, received f0 (b ++ dlc :: bytes)), s3) k' ∧ unlocked F c mcp_mutex k k'.
Proof.
  intros Hh Hl Hs. unfold mcp2515_recv. client_lock_tac Hh Hm Hl Hh1 Ho1. erewrite sbind_done by (by eapply read_status_txn).
  destruct (Z.land status MCP_STATUS_RX0IF =? 0) eqn:E0; cbn [andb negb].
  - destruct (Z.land status MCP_STATUS_RX1IF =? 0) eqn:E1; cbn [andb negb]; cbn zeta.
    + erewrite sbind_done by reflexivity. apply leave_locked; done.
    + intros j1 j2 b dlc bytes s2 s3 Hb Hn Hj T1 T2. erewrite sbind_done; [apply (leave_locked _ s3 k Hh1 Ho1)|].
      erewrite sbind_done by (by apply (read_rx_txn _ j1 f0 b dlc bytes s1 s2)). by erewrite sbind_done by (by apply (sends_txn _ j2)).
  - cbn zeta. intros j1 j2 b dlc bytes s2 s3 Hb Hn Hj T1 T2. erewrite sbind_done; [apply (leave_locked _ s3 k Hh1 Ho1)|].
    erewrite sbind_done by (by apply (read_rx_txn _ j1 f0 b dlc bytes s1 s2)). by erewrite sbind_done by (by apply (sends_txn _ j2)).
Qed.

(** ** Filters *)

Lemma set_mode_then {A} mode (f : unit → SM st A) j1 j2 (s s1 s2 : st) (P : A * st → kstate → Prop) k :
  here F c D k → owns c mcp_mutex k → length j1 = 4%nat → length j2 = 4%nat →
  txn (zip [MCP_BIT_MODIFY; MCP_R_CANINTF; MCP_CANINTF_WAKIF; 0] j1) s s1 →
  txn (zip [MCP_BIT_MODIFY; MCP_R_CANCTRL; MCP_MASK_MODE; mode] j2) s1 s2 →
  (∀ k', here F c D k' → owns c mcp_mutex k' → resumes F c D (owns c mcp_mutex) P (f tt (while_away s2) k')) →
  resumes F c D (owns c mcp_mutex) P (sbind (set_mode mode) f s k).
Proof.
  intros Hh Ho L1 L2 T1 T2 Hf.
  assert (E : sbind (set_mode mode) f s k = sbind (lift (k_msleep CONFIG_MCP2515_MODE_DELAY_MS)) f s2 k).
  { unfold sbind at 1, bind at 1, set_mode. erewrite sbind_done by (by apply (sends_txn _ j1)).
    by erewrite sbind_done by (by apply (sends_txn _ j2)). }
  rewrite E. apply (msleep_then F c D _ (λ k k', owns_objs c mcp_mutex k k')); done.
Qed.

(** C37: [mcp2515_set_filter] with the mutex free: configuration mode, the
    identifier in the registers of the filter, normal mode.  The mutex is held
    during both sleeps; at the end it is unlocked by its owner and released:
    free when nobody waits for it, else handed to the thread that has waited
    longest. *)
Theorem mcp2515_set_filter_spec index e filter reg j1 j2 j3 j4 j5 s s1 s2 s3 s4 s5 k :
  here F c D k → lock (mutex k mcp_mutex) = 0 → 0 <= index → MCP_R_RXFnSIDH !! Z.to_nat index = Some reg →
  length j1 = 4%nat → length j2 = 4%nat → length j3 = 6%nat → length j4 = 4%nat → length j5 = 4%nat →
  txn (zip [MCP_BIT_MODIFY; MCP_R_CANINTF; MCP_CANINTF_WAKIF; 0] j1) s s1 →
  txn (zip [MCP_BIT_MODIFY; MCP_R_CANCTRL; MCP_MASK_MODE; MCP_MODE_CONFIG] j2) s1 s2 →
  txn (zip (MCP_WRITE :: reg :: can_id_to_buf filter e) j3) (while_away s2) s3 →
  txn (zip [MCP_BIT_MODIFY; MCP_R_CANINTF; MCP_CANINTF_WAKIF; 0] j4) s3 s4 →
  txn (zip [MCP_BIT_MODIFY; MCP_R_CANCTRL; MCP_MASK_MODE; MCP_MODE_NORMAL] j5) s4 s5 →
  resumes F c D (owns c mcp_mutex) (λ x k', x = (0, while_away s5) ∧
    ∃ k3 t, here F c D k3 ∧ owns c mcp_mutex k3 ∧ k_mutex_unlock mcp_mutex k3 = Done t k' ∧ unlocked F c mcp_mutex k3 k')
    (mcp2515_set_filter mcp_mutex index e filter s k).
Proof.
  intros Hh Hl Hi Hreg L1 L2 L3 L4 L5 T1 T2 T3 T4 T5. pose proof (lookup_lt_Some _ _ _ Hreg) as Hlt. cbn in Hlt.
  unfold mcp2515_set_filter. rewrite (proj2 (Z.ltb_ge 5 index)) by lia. rewrite Hreg. unfold configure_id.
  client_lock_tac Hh Hm Hl Hh1 Ho1. apply (set_mode_then _ _ j1 j2 s s1 s2); [done..|]. intros k2 Hh2 Ho2.
  assert (length (can_id_to_buf filter e) = 4%nat) as Hn4 by (unfold can_id_to_buf; by destruct e).
  erewrite sbind_done by (apply (sends_txn _ j3); [cbn [length]; lia|done]).
  apply (set_mode_then _ _ j4 j5 s3 s4 s5); [done..|]. intros k3 Hh3 Ho3.
  destruct (leave_with 0 (while_away s5) k3 Hh3 Ho3) as (t&k4&Eu&E&Hleft). rewrite E. split; [done|]. by exists k3, t.
Qed.
End McpSpec.

(** The load instructions: buffer 1 has the one of buffer 0, so that a frame
    sent while buffer 0 is busy is written over it, and buffer 1 is requested
    to send what it held before; that of buffer 2 is none of the controller's
    (which has 0x40, 0x42 and 0x44). *)
Theorem mcp_load_instructions :
  tx_buffer 0 = Some (0x04, 0x40, 0x81) ∧ tx_buffer MCP_STATUS_TX0REQ = Some (0x08, 0x40, 0x82) ∧
  tx_buffer (Z.lor MCP_STATUS_TX0REQ MCP_STATUS_TX1REQ) = Some (0x10, 0x60, 0x84).
Proof. by vm_compute. Qed.

(** ** Instances: the scripted device of [Spi] *)

Definition w_frame : can_frame :=
  {| data := [1; 2; 3; 4; 5; 6; 7; 8]; len := 3; id := 0x12345678; rtr := true; is_ext := true |}.
Definition w_frame0 : can_frame := {| data := replicate 8 0; len := 0; id := 0; rtr := false; is_ext := false |}.
Definition w_mcp (script : list (Z * Z)) : @mcp_sys (list (Z * Z)) := {| mslave := w_sl; mspi := w_bus script ∅ |}.

(** A script that starts with a transaction. *)
Lemma txn_script l rest : Forall (λ x : Z * Z, u8 x.1 = x.1 ∧ u8 x.2 = x.2) l → ∀ s : @mcp_sys (list (Z * Z)),
  wire (mspi s) = l ++ rest → mslave s = w_sl →
  ∃ s', txn l s s' ∧ wire (mspi s') = rest ∧ mslave s' = w_sl.
Proof.
  intros Hl s Hw Hs. eexists. split; [exists (set_wire rest (spi_slave_select (mslave s) (mspi s))); split; [|reflexivity]|].
  - apply talk_script; [done| |done]. rewrite Hs. assert (slave_ok w_sl) as Hok by (split; cbn; lia). exact (proj1 (select_level w_sl (mspi s) Hok)).
  - by rewrite Hs.
Qed.

Lemma mcp_frame_roundtrip_witness : ∃ s' k', read_rx_buf w_frame0 MCP_READ_RX_AT_RXB0SIDH
    (w_mcp ((MCP_READ_RX_AT_RXB0SIDH, 0xFF) :: (pair 0x00 <$> tx_bytes w_frame))) (w_mutex 0 NULL w_ready) =
  Done ({| data := [1; 2; 3; 0; 0; 0; 0; 0]; len := 3; id := 0x12345678; rtr := true; is_ext := true |}, s') k'.
Proof.
  generalize (w_mutex 0 NULL w_ready). intros k. set (l := (MCP_READ_RX_AT_RXB0SIDH, 0xFF) :: (pair 0x00 <$> tx_bytes w_frame)).
  destruct (txn_script l [] ltac:(vm_compute; repeat constructor) (w_mcp l)) as (s'&Ht&_); [by rewrite app_nil_r|done|].
  exists s', k. assert (Hf : frame_ok w_frame) by (split_and!; unfold id_ok; cbn; lia).
  exact (mcp_frame_roundtrip w_frame w_frame0 MCP_READ_RX_AT_RXB0SIDH 0xFF (w_mcp l) s' k Hf Ht).
Defined.

Definition w_send_script : list (Z * Z) :=
  [(MCP_READ_STATUS, 0xFF); (0x00, 0x00)] ++
  zip [MCP_BIT_MODIFY; MCP_R_CANINTF; 0x04; 0] (replicate 4 0xFF) ++ zip (0x40 :: tx_bytes w_frame) (replicate 9 0xFF) ++ [(0x81, 0xFF)].
Lemma mcp2515_send_spec_witness : ∃ k s' k', here w_F t1 w_D k ∧ mcp2515_send (w_obj 1) w_frame (w_mcp w_send_script) k = Done (0, s') k'.
Proof.
  pose proof (w_here 0 NULL) as Hh. assert (lock (mutex (w_mutex 0 NULL w_ready) (w_obj 1)) = 0) as Hl by done.
  revert Hh Hl. generalize (w_mutex 0 NULL w_ready). intros k Hh Hl.
  destruct (txn_script [(MCP_READ_STATUS, 0xFF); (0x00, 0x00)] _ ltac:(repeat constructor) (w_mcp w_send_script) eq_refl eq_refl) as (s1&T1&W1&E1).
  destruct (txn_script (zip [MCP_BIT_MODIFY; MCP_R_CANINTF; 0x04; 0] (replicate 4 0xFF)) _ ltac:(repeat constructor) s1 W1 E1) as (s2&T2&W2&E2).
  destruct (txn_script (zip (0x40 :: tx_bytes w_frame) (replicate 9 0xFF)) _ ltac:(vm_compute; repeat constructor) s2 W2 E2) as (s3&T3&W3&E3).
  destruct (txn_script [(0x81, 0xFF)] [] ltac:(repeat constructor) s3 W3 E3) as (s4&T4&_).
  destruct (mcp2515_send_spec w_F t1 w_D (w_obj 1) ltac:(done) ltac:(by apply elem_of_singleton) w_frame 0xFF 0x00 _ s1 k Hh Hl T1
    (replicate 4 0xFF) (replicate 9 0xFF) [0xFF] s2 s3 s4 eq_refl eq_refl eq_refl T2 T3 T4) as (k'&E&_).
  exists k, s4, k'. split; [done|exact E].
Defined.

Definition w_modify (r m v : Z) : list (Z * Z) := zip [MCP_BIT_MODIFY; r; m; v] (replicate 4 0xFF).
Definition w_filter_script : list (Z * Z) :=
  w_modify MCP_R_CANINTF MCP_CANINTF_WAKIF 0 ++ w_modify MCP_R_CANCTRL MCP_MASK_MODE MCP_MODE_CONFIG ++
  zip (MCP_WRITE :: 0x08 :: can_id_to_buf 0x7FF false) (replicate 6 0xFF) ++
  w_modify MCP_R_CANINTF MCP_CANINTF_WAKIF 0 ++ w_modify MCP_R_CANCTRL MCP_MASK_MODE MCP_MODE_NORMAL.
Lemma mcp2515_set_filter_spec_witness : ∃ k, here w_F t1 w_D k ∧
  resumes w_F t1 w_D (owns t1 (w_obj 1)) (λ x k', x.1 = 0 ∧ current k' = t1 ∧ ∃ k3, here w_F t1 w_D k3 ∧
      ∀ T rs ts Q, Inv w_F k3 T (t1 :: rs) ts Q → Q !! mutex_waitqueue (w_obj 1) = Some [] →
        mutex k' (w_obj 1) = {| lock := 0; owner := NULL |})
    (mcp2515_set_filter (w_obj 1) 2 false 0x7FF (w_mcp w_filter_script) k).
Proof.
  pose proof (w_here 0 NULL) as Hh. assert (lock (mutex (w_mutex 0 NULL w_ready) (w_obj 1)) = 0) as Hl by done.
  revert Hh Hl. generalize (w_mutex 0 NULL w_ready). intros k Hh Hl. exists k. split; [done|].
  destruct (txn_script (w_modify MCP_R_CANINTF MCP_CANINTF_WAKIF 0) _ ltac:(vm_compute; repeat constructor) (w_mcp w_filter_script) eq_refl eq_refl)
    as (s1&T1&W1&E1).
  destruct (txn_script (w_modify MCP_R_CANCTRL MCP_MASK_MODE MCP_MODE_CONFIG) _ ltac:(vm_compute; repeat constructor) s1 W1 E1) as (s2&T2&W2&E2).
  destruct (txn_script (zip (MCP_WRITE :: 0x08 :: can_id_to_buf 0x7FF false) (replicate 6 0xFF)) _ ltac:(vm_compute; repeat constructor)
    (while_away s2) W2 E2) as (s3&T3&W3&E3).
  destruct (txn_script (w_modify MCP_R_CANINTF MCP_CANINTF_WAKIF 0) _ ltac:(vm_compute; repeat constructor) s3 W3 E3) as (s4&T4&W4&E4).
  destruct (txn_script (w_modify MCP_R_CANCTRL MCP_MASK_MODE MCP_MODE_NORMAL) [] ltac:(vm_compute; repeat constructor) s4
    ltac:(by rewrite app_nil_r) E4) as (s5&T5&_).
  refine (resumes_impl _ _ _ _ _ _ _ (mcp2515_set_filter_spec w_F t1 w_D (w_obj 1) ltac:(done) ltac:(by apply elem_of_singleton) 2 false 0x7FF 0x08
    (replicate 4 0xFF) (replicate 4 0xFF) (replicate 6 0xFF) (replicate 4 0xFF) (replicate 4 0xFF) _ s1 s2 s3 s4 s5 k Hh Hl
    ltac:(lia) eq_refl eq_refl eq_refl eq_refl eq_refl eq_refl T1 T2 T3 T4 T5) _).
  intros x k' [-> (k3&t&Hh3&_&_&Hc&_&Hr)]. split_and!; [done|done|]. exists k3. split; [done|].
  intros T rs ts Q Hi Hq. exact (released_free _ _ _ _ _ _ _ _ _ Hr Hi Hq).
Defined.

Lemma mcp2515_recv_spec_witness : ∃ k s' k', here w_F t1 w_D k ∧
  mcp2515_recv (w_obj 1) w_frame0 (w_mcp [(MCP_READ_STATUS, 0xFF); (0x00, 0x04)]) k = Done ((- ENOMSG, w_frame0), s') k'.
Proof.
  pose proof (w_here 0 NULL) as Hh. assert (lock (mutex (w_mutex 0 NULL w_ready) (w_obj 1)) = 0) as Hl by done.
  revert Hh Hl. generalize (w_mutex 0 NULL w_ready). intros k Hh Hl.
  destruct (txn_script [(MCP_READ_STATUS, 0xFF); (0x00, 0x04)] [] ltac:(repeat constructor)
    (w_mcp [(MCP_READ_STATUS, 0xFF); (0x00, 0x04)]) eq_refl eq_refl) as (s1&T1&_).
  destruct (mcp2515_recv_spec w_F t1 w_D (w_obj 1) ltac:(done) ltac:(by apply elem_of_singleton) w_frame0 0xFF 0x04 _ s1 k Hh Hl T1)
    as (k'&E&_).
  exists k, s1, k'. split; [done|exact E].
Defined.
