(* ===== verification/Exti.v ===== *)
(** * External interrupts (drivers/exti.h, drivers/exti.c) and the led (misc/led.c)

    The registers are bytes of the I/O space of [HwTimer].  A flag register is
    not memory: writing to it is a parameter, with the law that the hardware
    documents (a one clears the flag, a zero has no effect). *)

From S2P Require Import Prelude Types Atomic Gpio HwTimer World.

Definition ISCn0 : Z := 0.
Definition ISCn1 : Z := 1.
Definition ISC_LOW_LEVEL : Z := 0.
Definition ISC_EDGE : Z := 1.
Definition ISC_FALLING : Z := 2.
Definition ISC_RISING : Z := 3.
Definition EICRn (regn : Z) : Z := 0x69 + regn.
Definition PCMSK (group : Z) : Z := 0x6B + group.

(** The microcontroller: the number of interrupts and the addresses of the
    registers that avr-libc names, and a write to a flag register. *)
Class ExtiDevice := {
  EXTI_COUNT : Z;
  EIFR : Z; EIMSK : Z; PCIFR : Z; PCICR : Z;
  flag_write : Z → Z → io_space → io_space;
}.
Class FlagRegisters `{ExtiDevice} := {
  flag_write_eq a v s : ior a (flag_write a v s) = Z.land (ior a s) (Z.lnot (u8 v));
  flag_write_ne a v s b : b ≠ a → ior b (flag_write a v s) = ior b s;
}.

Section Exti.
Context `{Config, ExtiDevice}.

Definition exti_configure (exti isc : Z) (s : io_space) : Z * io_space :=
  if negb (z_user (exti <? EXTI_COUNT)) then (- EINVAL, s)
  else
    let isc := if CONFIG_KERNEL_ARGS_CHECKS then Z.land isc 3 else isc in
    let regn := Z.shiftr exti 2 in
    let group := Z.land exti 3 in
    let group_mask := u8 (Z.shiftl (Z.lor (BIT ISCn0) (BIT ISCn1)) (Z.shiftl group 1)) in
    let eicrn := ior (EICRn regn) s in
    (0, iow (EICRn regn) (Z.lor (Z.land eicrn (Z.lnot group_mask)) (Z.shiftl isc (Z.shiftl group 1))) s).

(** [reg |= BIT(n)] and [reg &= ~BIT(n)] on a register that is memory. *)
Definition set_reg_bit (reg n : Z) (s : io_space) : io_space := iow reg (Z.lor (ior reg s) (BIT n)) s.
Definition clr_reg_bit (reg n : Z) (s : io_space) : io_space := iow reg (Z.land (ior reg s) (Z.lnot (BIT n))) s.

Definition exti_clear_flag (exti : Z) (s : io_space) : io_space := flag_write EIFR (Z.lor (ior EIFR s) (BIT exti)) s.
Definition exti_get_flag (exti : Z) (s : io_space) : Z := u8 (Z.shiftr (Z.land (ior EIFR s) (BIT exti)) exti).

(** The flag is set by the hardware, step by step. *)
Variable io_next : io_space → io_space.
Fixpoint exti_poll_flag (fuel : nat) (exti : Z) (s : io_space) : option io_space :=
  if negb (exti_get_flag exti s =? 0) then Some s
  else match fuel with O => None | S fuel => exti_poll_flag fuel exti (io_next s) end.

Definition exti_enable (exti : Z) : io_space → io_space := set_reg_bit EIMSK exti.
Definition exti_disable (exti : Z) : io_space → io_space := clr_reg_bit EIMSK exti.

Definition pci_configure (pci_group mask : Z) : io_space → io_space := iow (PCMSK pci_group) mask.
Definition pci_pin_enable_group_line (group line : Z) : io_space → io_space := set_reg_bit (PCMSK group) line.
Definition pci_pin_disable_group_line (group line : Z) : io_space → io_space := clr_reg_bit (PCMSK group) line.
Definition pci_pin_enable (pci : Z) : io_space → io_space := pci_pin_enable_group_line (Z.shiftr pci 3) (Z.land pci 7).
Definition pci_pin_disable (pci : Z) : io_space → io_space := pci_pin_disable_group_line (Z.shiftr pci 3) (Z.land pci 7).
Definition pci_clear_flag (group : Z) (s : io_space) : io_space := flag_write PCIFR (Z.lor (ior PCIFR s) (BIT group)) s.
Definition pci_enable (group : Z) : io_space → io_space := set_reg_bit PCICR group.
Definition pci_disable (group : Z) : io_space → io_space := clr_reg_bit PCICR group.
End Exti.

(** ** The led: a pin of a port *)
Section Led.
Variable BUILTIN_LED_PIN : Z.

Definition led_init : GPIO_Device → GPIO_Device := gpiol_pin_init BUILTIN_LED_PIN GPIO_OUTPUT 0.
Definition led_on : GPIO_Device → GPIO_Device := gpiol_pin_write_state BUILTIN_LED_PIN 1.
Definition led_off : GPIO_Device → GPIO_Device := gpiol_pin_write_state BUILTIN_LED_PIN 0.
Definition led_set (state : Z) : GPIO_Device → GPIO_Device := gpiol_pin_write_state BUILTIN_LED_PIN state.
Definition led_toggle : GPIO_Device → GPIO_Device := gpiol_pin_toggle BUILTIN_LED_PIN.
Definition led_get (g : GPIO_Device) : Z := gpiol_pin_read_state BUILTIN_LED_PIN g.
End Led.

(** ** What is configured *)
Section ExtiSpec.
Context `{Config, ExtiDevice, !FlagRegisters}.

(** The sense mode of the interrupt [i]: two bits of its control register. *)
Definition sense_of (i : Z) (s : io_space) : Z := Z.shiftr (ior (EICRn (i / 4)) s) (2 * (i mod 4)) mod 4.

(** A field of two bits is replaced, the others are kept. *)
Lemma field_put r g v i : 0 <= r < 256 → 0 <= g < 4 → 0 <= v < 4 → 0 <= i < 4 →
  Z.shiftr (u8 (Z.lor (Z.land r (Z.lnot (u8 (Z.shiftl 3 (Z.shiftl g 1))))) (Z.shiftl v (Z.shiftl g 1)))) (2 * i) mod 4
  = if i =? g then v else Z.shiftr r (2 * i) mod 4.
Proof.
  intros Hr Hg Hv Hi.
  assert (g ∈ [0; 1; 2; 3] ∧ v ∈ [0; 1; 2; 3] ∧ i ∈ [0; 1; 2; 3]) as (Eg&Ev&Ei) by (set_unfold; lia).
  assert (Hall : forallb (λ r, forallb (λ g, forallb (λ v, forallb (λ i,
    Z.shiftr (u8 (Z.lor (Z.land r (Z.lnot (u8 (Z.shiftl 3 (Z.shiftl g 1))))) (Z.shiftl v (Z.shiftl g 1)))) (2 * i) mod 4 =?
    (if i =? g then v else Z.shiftr r (2 * i) mod 4)) [0; 1; 2; 3]) [0; 1; 2; 3]) [0; 1; 2; 3]) (seqZ 0 256) = true) by (vm_compute; done).
  rewrite forallb_forall in Hall. specialize (Hall r). rewrite forallb_forall in Hall.
  assert (In r (seqZ 0 256)) as Hin by (apply list_elem_of_In, elem_of_seqZ; lia). specialize (Hall Hin g).
  rewrite forallb_forall in Hall. specialize (Hall (proj1 (list_elem_of_In _ _) Eg) v).
  rewrite forallb_forall in Hall. specialize (Hall (proj1 (list_elem_of_In _ _) Ev) i (proj1 (list_elem_of_In _ _) Ei)).
  by apply Z.eqb_eq.
Qed.

Lemma ior_iow_eq a v s : ior a (iow a v s) = u8 v.
Proof. unfold ior, iow. by rewrite lookup_insert_eq. Qed.
Lemma ior_iow_ne a b v s : a ≠ b → ior b (iow a v s) = ior b s.
Proof. intros. unfold ior, iow. by rewrite lookup_insert_ne. Qed.

(** [exti_configure] sets the sense mode of one interrupt and leaves that of
    every other one; an interrupt that does not exist is refused.  Without
    argument checks a mode above 3 spills into the next interrupt of the
    register. *)
Theorem exti_configure_spec i isc s : (∀ a, 0 <= ior a s < 256) → 0 <= i < EXTI_COUNT → 0 <= isc →
  CONFIG_KERNEL_ARGS_CHECKS = true ∨ isc < 4 →
  ∃ s', exti_configure i isc s = (0, s') ∧ sense_of i s' = isc mod 4 ∧ ∀ j, 0 <= j → j ≠ i → sense_of j s' = sense_of j s.
Proof.
  intros Hs Hi Hisc Hc. unfold exti_configure. rewrite z_user_true by (apply Z.ltb_lt; lia).
  set (v := if CONFIG_KERNEL_ARGS_CHECKS then Z.land isc 3 else isc).
  assert (Ev : v = isc mod 4 ∧ 0 <= v < 4).
  { pose proof (Z.mod_pos_bound isc 4). unfold v. change 3 with (Z.ones 2). rewrite Z.land_ones by lia. change (2 ^ 2) with 4.
    destruct CONFIG_KERNEL_ARGS_CHECKS; [lia|]. destruct Hc; [done|]. rewrite Z.mod_small; lia. }
  destruct Ev as [Ev Hv]. rewrite Z.shiftr_div_pow2 by lia. change (2 ^ 2) with 4.
  change (Z.land i 3) with (Z.land i (Z.ones 2)). rewrite Z.land_ones by lia. change (2 ^ 2) with 4.
  pose proof (Z.mod_pos_bound i 4 ltac:(lia)) as Hg. change (Z.lor (BIT ISCn0) (BIT ISCn1)) with 3.
  eexists. split; [reflexivity|]. unfold sense_of. split.
  - rewrite ior_iow_eq, field_put by (done || lia). by rewrite Z.eqb_refl.
  - intros j Hj Hne. destruct (decide (j / 4 = i / 4)) as [E|E].
    + rewrite E, ior_iow_eq, field_put by (apply Hs || lia || by apply Z.mod_pos_bound).
      rewrite (proj2 (Z.eqb_neq (j mod 4) (i mod 4))); [done|]. pose proof (Z.div_mod i 4). pose proof (Z.div_mod j 4). lia.
    + by rewrite ior_iow_ne by (unfold EICRn; lia).
Qed.

(** [EIFR |= BIT(exti)] writes back the flags it reads: every pending
    interrupt is cleared, not only [exti]. *)
Theorem exti_clear_flag_all i j s : (∀ a, 0 <= ior a s < 256) → 0 <= i < 8 →
  ior EIFR (exti_clear_flag i s) = 0 ∧ exti_get_flag j (exti_clear_flag i s) = 0.
Proof.
  intros Hs Hi. unfold exti_get_flag, exti_clear_flag. rewrite flag_write_eq. specialize (Hs EIFR).
  assert (E : Z.land (ior EIFR s) (Z.lnot (u8 (Z.lor (ior EIFR s) (BIT i)))) = 0).
  { apply Z.bits_inj'. intros n Hn. rewrite Z.bits_0, Z.land_spec, Z.lnot_spec by done. destruct (Z.lt_ge_cases n 8).
    - rewrite testbit_u8, Z.lor_spec by lia. by destruct (Z.testbit (ior EIFR s) n).
    - replace (ior EIFR s) with (ior EIFR s mod 2 ^ 8) by (apply Z.mod_small; lia).
      by rewrite Z.mod_pow2_bits_high by lia. }
  by rewrite E, Z.shiftr_0_l.
Qed.
End ExtiSpec.

(** ** Instances: an ATmega2560 *)

#[export] Instance w_exti : ExtiDevice := {
  EXTI_COUNT := 8; EIFR := 0x3C; EIMSK := 0x3D; PCIFR := 0x3B; PCICR := 0x68;
  flag_write a v s := <[a := Z.land (ior a s) (Z.lnot (u8 v))]> s;
}.
#[export] Instance w_flag_registers : FlagRegisters.
Proof.
  split; intros; unfold flag_write, w_exti, ior at 1; [by rewrite lookup_insert_eq|by rewrite lookup_insert_ne].
Qed.
Definition w_io : io_space := <[0x3C := 0x21]> (<[0x6A := 0xAA]> ∅).
Lemma w_io_bytes a : 0 <= ior a w_io < 256.
Proof. unfold w_io, ior. rewrite !lookup_insert, lookup_empty. repeat case_decide; cbn; lia. Qed.

Lemma exti_configure_spec_witness :
  ∃ s', exti_configure 5 ISC_RISING w_io = (0, s') ∧ sense_of 5 s' = 3 ∧ ∀ j, 0 <= j → j ≠ 5 → sense_of j s' = sense_of j w_io.
Proof. apply (exti_configure_spec 5 ISC_RISING w_io w_io_bytes); [done|done|by left]. Defined.
Lemma exti_clear_flag_all_witness : ior EIFR w_io = 0x21 ∧ ior EIFR (exti_clear_flag 0 w_io) = 0 ∧ exti_get_flag 5 (exti_clear_flag 0 w_io) = 0.
Proof. split; [done|]. apply (exti_clear_flag_all 0 5 w_io w_io_bytes). done. Defined.
