(* ===== verification/Startup.v ===== *)
(** * Start-up and the idle thread (init.c, idle.c, z_init_threads of kernel.c,
      and the loops over the linker sections)

    The linker gathers the threads, the memory slabs and the timers that are
    defined at compile time in sections: lists of addresses here, in the
    linker's order.  [static_image] is the memory before the first
    instruction, as the initialisers of the macros write it. *)

From S2P Require Import Prelude Dlist Delta Tqueue Types Event Timer Kernel KernelInv KernelSpec World Semaphore MemSlab Fifo Workqueue Bytes Avr Context Thread Atomic System Client Time HwTimer.

(** The switches of avrtos_conf.h, and the registers and bits that avr-libc
    names. *)
Class StartConfig := {
  CONFIG_AVRTOS_LINKER_SCRIPT : bool;
  CONFIG_INTERRUPT_POLICY : Z;
  CONFIG_THREAD_MAIN_COOPERATIVE : bool;
  CONFIG_THREAD_MAIN_STACK_SIZE : Z;
  Z_THREAD_MAIN_STACK_END_ADDR : word;
  CONFIG_KERNEL_CLEAR_WDT_ON_INIT : bool;
  CONFIG_KERNEL_MINICORE_SAVE_RESET_CAUSE : bool;
  CONFIG_KERNEL_THREAD_IDLE_ADD_STACK : Z;
  CONFIG_THREAD_IDLE_COOPERATIVE : bool;
  CONFIG_IDLE_HOOK : bool;
  MCUSR : Z; WDTCSR : Z; WDRF : Z; WDCE : Z; WDE : Z;
}.

Section Startup.
Context `{Layout, Config, Handlers, StackConfig, TimeConfig, TimerConfig, StartConfig}.

(** ** What is initialised at compile time *)

Definition Z_THREAD_PRIO_PREEMPT : Z := 0.
Definition Z_THREAD_PRIO_LOW : Z := 0.
Definition Z_THREAD_MAIN_PRIORITY : Z := if CONFIG_THREAD_MAIN_COOPERATIVE then Z_THREAD_PRIO_COOP else Z_THREAD_PRIO_PREEMPT.
Definition z_thread_main_init : k_thread := {|
  sp := NULL; flags := Z.lor (Z.lor Z_THREAD_STATE_READY Z_THREAD_MAIN_PRIORITY) Z_THREAD_PRIO_LOW; swap_data := NULL;
  stack_end := Z_THREAD_MAIN_STACK_END_ADDR; stack_size := CONFIG_THREAD_MAIN_STACK_SIZE; symbol := 77; sched_lock_cnt := 0 |}.

(** [Z_THREAD_DEFINE(...)]. *)
Record thread_decl := {
  d_thread : word; d_entry : word; d_stack : word; d_size : Z; d_prio : Z; d_context : word; d_symbol : Z; d_auto_start : bool }.

Definition Z_THREAD_INITIALIZER (d : thread_decl) : k_thread := {|
  sp := ptr_add (Z_STACK_END (d_stack d) (d_size d)) (- Z_CALLSAVED_CTX_SIZE);
  flags := Z.lor (if d_auto_start d then Z_THREAD_STATE_READY else Z_THREAD_STATE_STOPPED) (d_prio d); swap_data := NULL;
  stack_end := Z_STACK_END (d_stack d) (d_size d); stack_size := d_size d; symbol := d_symbol d; sched_lock_cnt := 0 |}.

(** A 16-bit value in memory, low byte first. *)
Definition le16 (v : Z) : list Z := [u8 v; Z.shiftr v 8].
Definition Z_CORE_CONTEXT_INIT (entry ctx : Z) : list Z :=
  0 :: replicate 13 0 ++ [CONFIG_THREAD_DEFAULT_SREG] ++ le16 entry ++ le16 ctx ++ le16 z_thread_entry_pc.
Definition Z_STACK_INITIALIZER (d : thread_decl) : list Z :=
  replicate (Z.to_nat (d_size d - Z_CALLSAVED_CTX_SIZE)) 0 ++ Z_CORE_CONTEXT_INIT (word_int (d_entry d)) (word_int (d_context d)).

(** The kernel, the threads and their stacks; [heads] are the wait queues of
    the objects defined at compile time, [objs] holds the objects. *)
Definition static_image (decls : list thread_decl) (heads : list word) (objs : kstate) : kstate := {|
  links := foldl dlist_init (links objs) (thread_tie z_thread_main :: heads);
  threads := <[z_thread_main := z_thread_main_init]> (list_to_map ((λ d, (d_thread d, Z_THREAD_INITIALIZER d)) <$> decls));
  wqflags := list_to_map ((λ t, (thread_wqh t, 0)) <$> z_thread_main :: (d_thread <$> decls));
  current := z_thread_main; ready_count := 1; run_queue := thread_tie z_thread_main; sreg_i := false;
  sems := sems objs; mutexes := mutexes objs; signals := signals objs; kflags := kflags objs; msgqs := msgqs objs;
  slabs := slabs objs; events := events objs; Types.timers := Types.timers objs; workqueues := workqueues objs; works := works objs;
  pollfds := pollfds objs;
  bytes := foldl (λ b d, put_bytes b (d_stack d) 0 (Z_STACK_INITIALIZER d)) (bytes objs) decls |}.

(** ** The threads *)

Definition Z_THREAD_IS_MAIN (thread : word) : bool := bool_decide (thread = z_thread_main).

Definition load16 (p : word) (b : bmem) : Z := Z.lor (rdb b p) (Z.shiftl (rdb b (ptr_add p 1)) 8).
Definition HTONS (n : Z) : Z := Z.lor (Z.shiftl (Z.land (u16 n) 0xFF) 8) (Z.shiftr (Z.land (u16 n) 0xFF00) 8).
Definition swap_endianness (addr : word) (b : bmem) : bmem := store16 addr (HTONS (load16 addr b)) b.
Definition z_thread_finalize_stack_init (thread : word) (k : kstate) : kstate :=
  let ctx := ptr_add (stack_end (thr k thread)) (- (Z_CALLSAVED_CTX_SIZE - 1)) in
  let b := swap_endianness (ptr_add ctx 17) (bytes k) in
  let b := swap_endianness (ptr_add ctx 15) b in
  set_bytes (swap_endianness (ptr_add ctx 19) b) k.

(** The body of the loop of [z_init_threads]. *)
Definition init_thread (thread : word) (k : kstate) : kstate :=
  if Z_THREAD_IS_MAIN thread then k
  else
    let k := if z_get_thread_state k thread =? Z_THREAD_STATE_READY
             then upd_links (λ m, dlist_append m (run_queue k) (thread_tie thread)) (set_ready_count (u8 (ready_count k + 1)) k)
             else k in
    z_thread_finalize_stack_init thread k.

(** [for (uint8_t i = 0; i < n; i++)] over a section: an 8-bit counter never
    reaches the end of one of 256 entries or more. *)
Fixpoint for_u8 (fuel : nat) (body : word → kstate → kstate) (sec : list word) (i : Z) : M unit :=
  match fuel with
  | O => λ _, NoFuel
  | S fuel =>
      if i <? Z.of_nat (length sec)
      then modify (body (sec !!! Z.to_nat i));; for_u8 fuel body sec (u8 (i + 1))
      else ret tt
  end.

(** The idle thread has an entry, a stack and a size of its own. *)
Variables (z_thread_idle_entry_p z_thread_idle_stack : word) (Z_INTCTX_SIZE : Z).
Definition Z_THREAD_IDLE_PRIORITY : Z :=
  if CONFIG_THREAD_IDLE_COOPERATIVE then Z.lor Z_THREAD_PRIO_COOP Z_THREAD_PRIO_LOW else Z.lor Z_THREAD_PRIO_PREEMPT Z_THREAD_PRIO_LOW.
Definition Z_THREAD_IDLE_STACK_SIZE : Z :=
  Z_THREAD_STACK_MIN_SIZE + (if CONFIG_THREAD_IDLE_COOPERATIVE then 0 else Z_INTCTX_SIZE) + CONFIG_KERNEL_THREAD_IDLE_ADD_STACK.
Definition z_thread_idle_create : M unit :=
  let* _ := k_thread_create z_thread_idle z_thread_idle_entry_p z_thread_idle_stack Z_THREAD_IDLE_STACK_SIZE Z_THREAD_IDLE_PRIORITY NULL 73 in
  ret tt.

(** The fuel is one round more than an 8-bit counter counts. *)
Definition z_init_threads (k_threads : list word) : M unit :=
  (when CONFIG_KERNEL_THREAD_IDLE do
     ((when negb CONFIG_AVRTOS_LINKER_SCRIPT do z_thread_idle_create);;
      modify (z_set_thread_state z_thread_idle Z_THREAD_STATE_IDLE)));;
  when CONFIG_AVRTOS_LINKER_SCRIPT do for_u8 257 init_thread k_threads 0.

(** ** The other modules *)

Definition z_mem_slab_init_module (k_mem_slabs : list word) : M unit :=
  modify (λ k, foldl (λ k s, z_slab_alloc_finalize_init s k) k (take (Z.to_nat (u8 (Z.of_nat (length k_mem_slabs)))) k_mem_slabs)).

Fixpoint timer_init_loop (k_timers : list word) : M unit :=
  match k_timers with
  | [] => ret tt
  | timer :: k_timers =>
      let* k := get in
      (when negb (tie_timeout k timer =? K_TIMER_STOPPED) do z_timer_start timer (K_MSEC (tie_timeout k timer)));;
      timer_init_loop k_timers
  end.
Definition z_timer_init_module (k_timers : list word) : M unit :=
  timer_init_loop (take (Z.to_nat (u8 (Z.of_nat (length k_timers)))) k_timers).

Definition z_init_stacks_canaries (k_threads : list word) : M unit :=
  modify (λ k, foldl (λ k t, z_init_thread_stack_canaries t k) k k_threads).
Definition z_init_stacks_sentinel (k_threads : list word) : M unit :=
  modify (λ k, foldl (λ k t, if Z_THREAD_IS_MONITORED t then z_init_thread_stack_sentinel t k else k) k k_threads).

(** ** [z_avrtos_init] *)

(** The watchdog is disabled, its flag cleared. *)
Definition clear_watchdog (s : io_space) : io_space :=
  if negb (Z.land (ior MCUSR s) (BIT WDRF) =? 0) then
    let s := iow MCUSR (Z.land (ior MCUSR s) (Z.lnot (BIT WDRF))) s in
    let s := iow WDTCSR (Z.lor (ior WDTCSR s) (Z.lor (BIT WDCE) (BIT WDE))) s in
    iow WDTCSR 0 s
  else s.

#[global] Instance io_elsewhere : Elsewhere io_space := λ s, s.

(** The led, the serial line and the debug pins are not initialised here:
    their drivers are modelled apart. *)
Definition z_avrtos_init (k_threads k_mem_slabs k_timers : list word) : SM io_space unit :=
  do* _ := smodify (λ s, if CONFIG_KERNEL_CLEAR_WDT_ON_INIT then clear_watchdog s else s) in
  do* _ := smodify (λ s, if CONFIG_KERNEL_MINICORE_SAVE_RESET_CAUSE then iow MCUSR 0 s else s) in
  do* _ := lift (z_init_threads k_threads) in
  do* _ := lift (when CONFIG_AVRTOS_LINKER_SCRIPT do z_mem_slab_init_module k_mem_slabs) in
  do* _ := lift (when CONFIG_KERNEL_TIMERS && CONFIG_AVRTOS_LINKER_SCRIPT do z_timer_init_module k_timers) in
  do* _ := lift (when CONFIG_THREAD_CANARIES && CONFIG_AVRTOS_LINKER_SCRIPT do z_init_stacks_canaries k_threads) in
  do* _ := lift (when CONFIG_THREAD_STACK_SENTINEL do z_init_stacks_sentinel k_threads) in
  do* _ := local (λ s, s ← z_init_sysclock s; Some (tt, s)) in
  do* _ := lift (when (CONFIG_INTERRUPT_POLICY =? 2) && negb CONFIG_THREAD_MAIN_COOPERATIVE do k_sched_lock) in
  lift (when 0 <? CONFIG_INTERRUPT_POLICY do modify (set_sreg_i true)).

(** ** The idle thread *)

Variables (z_idle_hook sleep_cpu : M unit).

Fixpoint z_thread_idle_entry (turns : nat) : M unit :=
  match turns with
  | O => ret tt
  | S turns =>
      (when CONFIG_IDLE_HOOK do z_idle_hook);;
      (when CONFIG_THREAD_IDLE_COOPERATIVE do k_yield);;
      (when negb CONFIG_THREAD_IDLE_COOPERATIVE do sleep_cpu);;
      z_thread_idle_entry turns
  end.

Definition k_is_cpu_idle : M bool := let* k := get in ret (CONFIG_KERNEL_THREAD_IDLE && (ready_count k =? 0)).
Definition k_idle : M unit :=
  let* k := get in
  if negb (ready_count k =? 0) then k_yield else sleep_cpu.
End Startup.

(** ** Loops over a section *)
Section Loops.
Context `{Config}.

Lemma for_u8_run body sec n : ∀ i fuel k, i + Z.of_nat n = Z.of_nat (length sec) → 0 <= i → (length sec < 256)%nat → (n < fuel)%nat →
  for_u8 fuel body sec i k = Done tt (foldl (λ k t, body t k) k (drop (Z.to_nat i) sec)).
Proof.
  induction n as [|n IH]; intros i [|fuel] k Hi H0 Hl Hf; try lia; cbn [for_u8].
  - rewrite (proj2 (Z.ltb_ge _ _)) by lia. by rewrite drop_ge by lia.
  - rewrite (proj2 (Z.ltb_lt _ _)) by lia. unfold bind, modify. cbn [rbind]. rewrite u8_small by lia.
    destruct (sec !! Z.to_nat i) as [t|] eqn:Et; [|apply lookup_ge_None in Et; lia].
    rewrite (drop_S _ _ _ Et), (list_lookup_total_correct _ _ _ Et), IH by lia.
    by replace (Z.to_nat (i + 1)) with (S (Z.to_nat i)) by lia.
Qed.

Lemma for_u8_all body sec k : (length sec < 256)%nat →
  for_u8 257 body sec 0 k = Done tt (foldl (λ k t, body t k) k sec).
Proof. intros Hl. apply (for_u8_run body sec (length sec)); lia. Qed.

Lemma for_u8_endless fuel body sec : ∀ i k, (256 <= length sec)%nat → 0 <= i < 256 → for_u8 fuel body sec i k = NoFuel.
Proof.
  induction fuel as [|fuel IH]; intros i k Hl Hi; [done|]. cbn [for_u8]. rewrite (proj2 (Z.ltb_lt _ _)) by lia.
  unfold bind, modify. cbn [rbind]. apply IH; [done|apply u8_range].
Qed.
End Loops.

Section StartupSpec.
Context `{Layout, Config, Handlers, StackConfig, TimeConfig, TimerConfig, StartConfig}.
Variable F : mem.

(** ** The run queue *)

Lemma links_run_append T m rq t0 rs ts Q t :
  links_ok F T m rq (t0 :: rs) ts Q → t ∈ T → t ∉ t0 :: rs → t ∉ ts.*1 →
  links_ok F T (dlist_append m rq (thread_tie t)) rq (t0 :: rs ++ [t]) ts Q.
Proof.
  intros Hl Ht Hrs Hts. destruct (lk_run _ _ _ _ _ _ _ Hl) as [-> Hr].
  assert (Hn : thread_tie t ∉ thread_tie t0 :: (thread_tie <$> rs)).
  { intros Hin. change (thread_tie t0 :: (thread_tie <$> rs)) with (thread_tie <$> (t0 :: rs)) in Hin.
    by apply list_elem_of_fmap in Hin as (?&->%(inj thread_tie)&?). }
  eapply links_ok_ties; [done| | | |].
  - intros p Hp. eapply dlist_append_frame; [done|]. intros Hin.
    apply elem_of_cons in Hin as [->|Hin]; [by apply (Hp t)|].
    change (thread_tie t0 :: (thread_tie <$> rs)) with (thread_tie <$> (t0 :: rs)) in Hin.
    apply list_elem_of_fmap in Hin as (t'&->&?).
    apply (Hp t'); [by eapply lk_rs_T|by eapply lk_rs_ts|done].
  - split; [done|]. rewrite fmap_app. by apply dlist_append_ring.
  - pose proof (lk_run_nd _ _ _ _ _ _ _ Hl) as Hnd. rewrite app_comm_cons. apply NoDup_app. split_and!; [done| |by apply NoDup_singleton].
    intros x Hx ->%list_elem_of_singleton. done.
  - intros t' Ht'. destruct (decide (t' = t)) as [->|]; [done|].
    split; [eapply lk_rs_T|eapply lk_rs_ts]; [done|set_solver|done|set_solver].
Qed.

(** The threads of a section that the start-up makes ready. *)
Definition auto (k : kstate) (t : word) : bool := negb (Z_THREAD_IS_MAIN t) && (z_get_thread_state k t =? Z_THREAD_STATE_READY).

(** What the loop does not touch. *)
Definition same_but_queue (k k' : kstate) : Prop :=
  threads k' = threads k ∧ current k' = current k ∧ sreg_i k' = sreg_i k ∧ wqflags k' = wqflags k ∧
  (sems k', mutexes k', signals k', kflags k', msgqs k', slabs k', events k', Types.timers k', workqueues k', works k', pollfds k')
  = (sems k, mutexes k, signals k, kflags k, msgqs k, slabs k, events k, Types.timers k, workqueues k, works k, pollfds k).
#[local] Instance same_but_queue_preorder : PreOrder same_but_queue.
Proof. split; [done|]. intros k1 k2 k3 (?&?&?&?&?) (?&?&?&?&?). split_and!; congruence. Qed.

Lemma auto_same k k' t : threads k' = threads k → auto k' t = auto k t.
Proof. intros E. unfold auto, z_get_thread_state, thr. by rewrite E. Qed.

Lemma init_thread_spec T t0 rs Q k t :
  links_ok F T (links k) (run_queue k) (t0 :: rs) [] Q → ready_count k = Z.of_nat (length (t0 :: rs)) → 
  (auto k t = true → t ∈ T ∧ t ∉ t0 :: rs ∧ (length (t0 :: rs) < 255)%nat) →
  let k' := init_thread t k in let new := if auto k t then [t] else [] in
  links_ok F T (links k') (run_queue k') (t0 :: rs ++ new) [] Q ∧ ready_count k' = Z.of_nat (length (t0 :: rs ++ new)) ∧
  same_but_queue k k'.
Proof.
  intros Hl Hc Ht. unfold init_thread, auto in *. destruct (Z_THREAD_IS_MAIN t) eqn:Em; cbn [negb andb] in *.
  { rewrite app_nil_r. by split_and!. }
  destruct (z_get_thread_state k t =? Z_THREAD_STATE_READY) eqn:Es.
  - destruct (Ht eq_refl) as (HT&Hrs&Hn). cbn [z_thread_finalize_stack_init set_bytes upd_links set_ready_count links run_queue ready_count].
    split_and!; try done.
    + apply links_run_append; try done. set_solver.
    + cbn. rewrite Hc, u8_small, length_app by (cbn in *; lia). cbn. lia.
  - rewrite app_nil_r. by split_and!.
Qed.

Lemma k_idle_run sleep_cpu k T c rs ts Q : Inv F k T (c :: rs) ts Q → k_idle sleep_cpu k = k_yield k.
Proof.
  intros Hi. pose proof (inv_count _ _ _ _ _ _ _ Hi) as Hc. unfold k_idle. rewrite bind_get.
  by rewrite (proj2 (Z.eqb_neq (ready_count k) 0)) by (rewrite Hc; cbn; lia).
Qed.

(** [k_idle] keeps the calling thread ready, so [ready_count] is not 0: it
    never sleeps, even when no other thread is ready, and [k_is_cpu_idle] is
    true only in the idle thread. *)
Theorem k_idle_never_sleeps sleep_cpu k T c rs ts Q : Inv F k T (c :: rs) ts Q →
  k_idle sleep_cpu k = k_yield k ∧ k_is_cpu_idle k = Done false k.
Proof.
  intros Hi. split; [by eapply k_idle_run|]. pose proof (inv_count _ _ _ _ _ _ _ Hi) as Hc. unfold k_is_cpu_idle. rewrite bind_get.
  rewrite (proj2 (Z.eqb_neq (ready_count k) 0)) by (rewrite Hc; cbn; lia). by rewrite andb_false_r.
Qed.

Lemma init_threads_spec T t0 Q sec : ∀ k rs,
  links_ok F T (links k) (run_queue k) (t0 :: rs) [] Q → ready_count k = Z.of_nat (length (t0 :: rs)) →
  (length (t0 :: rs) + length (filter (λ t, auto k t = true) sec) < 256)%nat → NoDup sec → (∀ t, t ∈ sec → auto k t = true → t ∈ T ∧ t ∉ t0 :: rs) →
  let k' := foldl (λ k t, init_thread t k) k sec in
  let rs' := rs ++ filter (λ t, auto k t = true) sec in
  links_ok F T (links k') (run_queue k') (t0 :: rs') [] Q ∧ ready_count k' = Z.of_nat (length (t0 :: rs')) ∧ same_but_queue k k'.
Proof.
  induction sec as [|t sec IH]; intros k rs Hl Hc Hn Hnd Ht; cbn [foldl].
  { cbn. rewrite app_nil_r. by split_and!. }
  apply NoDup_cons in Hnd as [Htn Hnd]. set (new := if auto k t then [t] else []).
  assert (Ef : filter (λ t, auto k t = true) (t :: sec) = new ++ filter (λ t, auto k t = true) sec).
  { rewrite filter_cons. unfold new. destruct (auto k t) eqn:Ea; [by rewrite decide_True|by rewrite decide_False by congruence]. }
  rewrite Ef in Hn. rewrite Ef. rewrite length_app in Hn.
  destruct (init_thread_spec T t0 rs Q k t) as (Hl1&Hc1&Hs1); [done|done| |].
  { intros Ha. unfold new in Hn. rewrite Ha in Hn. destruct (Ht t) as [??]; [by left|done|]. split_and!; [done|done|cbn in *; lia]. }
  set (k1 := init_thread t k) in *. fold new in Hl1, Hc1.
  assert (E : filter (λ t, auto k1 t = true) sec = filter (λ t, auto k t = true) sec).
  { apply list_filter_iff. intros u. by rewrite (auto_same _ _ _ (proj1 Hs1)). }
  destruct (IH k1 (rs ++ new)) as (Hl2&Hc2&Hs2); [done|done| |done| |].
  - rewrite E. rewrite length_cons, length_app in *. lia.
  - intros u Hu Ha. rewrite (auto_same _ _ _ (proj1 Hs1)) in Ha. destruct (Ht u) as [HT Hrs]; [by right|done|]. split; [done|].
    unfold new. destruct (auto k t); set_solver.
  - rewrite E, <- app_assoc in Hl2, Hc2. split_and!; [done|done|by etransitivity].
Qed.

End StartupSpec.

(** ** The static image *)
Section Image.
Context `{Layout, Config, Handlers, StackConfig, TimeConfig, TimerConfig, StartConfig}.
Variables (decls : list thread_decl) (heads : list word) (objs : kstate) (sec : list word).

Definition threads_of : gset word := list_to_set (filter (λ t, t ≠ z_thread_idle) sec).
Definition queues_of : gmap word (list word) := list_to_map ((λ l, (l, [])) <$> heads).
(** The thread is declared to start automatically. *)
Definition auto_started (t : word) : bool :=
  negb (bool_decide (t = z_thread_idle)) && existsb (λ d, bool_decide (d_thread d = t) && d_auto_start d) decls.

(** What the linker and the macros promise: the section holds the threads,
    once each, fewer than 256; the nodes are distinct; the flags given are
    priorities; the queue of delays is empty. *)
Record image_ok : Prop := {
  io_threads : NoDup (z_thread_main :: (d_thread <$> decls));
  io_sec : sec ≡ₚ z_thread_main :: (d_thread <$> decls);
  io_count : (length sec < 256)%nat;
  io_fuel : (length sec < loop_fuel)%nat;
  io_prio d : d ∈ decls → d_prio d ∈ [0; 8; 16; 24];
  io_map : memmap threads_of (list_to_set heads);
  io_main : z_thread_main ≠ z_thread_idle;
  io_idle : CONFIG_KERNEL_THREAD_IDLE = true;
  io_root : rd1 (links objs) (tq_node z_timeouts_queue) = NULL;
}.

Lemma inits_ring l : ∀ m p, p ∈ l → ring (foldl dlist_init m l) p [].
Proof.
  induction l as [|x l IH] using rev_ind; intros m p Hp; [by apply not_elem_of_nil in Hp|]. rewrite foldl_app. cbn [foldl].
  destruct (decide (p = x)) as [->|Hne]; [apply dlist_init_ring|].
  assert (ring (foldl dlist_init m l) p []) as Hr by (apply IH; set_solver).
  apply ring_nil in Hr. apply ring_nil. by destruct (dlist_init_frame (foldl dlist_init m l) x p Hne) as [-> ->].
Qed.
Lemma inits_frame l m p : p ∉ l → rd1 (foldl dlist_init m l) p = rd1 m p.
Proof.
  revert m. induction l as [|x l IH]; intros m Hp; [done|]. cbn [foldl]. rewrite IH by set_solver.
  assert (p ≠ x) as Hne by set_solver. by apply (dlist_init_frame m x p Hne).
Qed.

Lemma queues_lookup l ws : queues_of !! l = Some ws ↔ l ∈ heads ∧ ws = [].
Proof.
  unfold queues_of. split.
  - intros Hl%elem_of_list_to_map_2. apply list_elem_of_fmap in Hl as (l'&[= -> ->]&Hin). done.
  - intros [Hl ->]. induction heads as [|h hs IH]; [by apply not_elem_of_nil in Hl|]. cbn.
    destruct (decide (l = h)) as [->|Hne]; [by rewrite lookup_insert_eq|]. rewrite lookup_insert_ne by done. apply IH. set_solver.
Qed.
Lemma queues_dom : dom queues_of = list_to_set heads.
Proof.
  apply set_eq. intros l. rewrite elem_of_dom, elem_of_list_to_set. split.
  - intros [ws [Hw _]%queues_lookup]. done.
  - intros Hl. exists []. by apply queues_lookup.
Qed.

Lemma image_links : image_ok →
  links_ok (links (static_image decls heads objs)) threads_of (links (static_image decls heads objs)) (thread_tie z_thread_main)
    [z_thread_main] [] queues_of.
Proof.
  intros Hio. pose proof (io_map Hio) as Hmm.
  assert (Hmain : z_thread_main ∈ threads_of).
  { unfold threads_of. rewrite elem_of_list_to_set, list_elem_of_filter. split; [by apply Hio|]. rewrite (io_sec Hio). by left. }
  assert (Hno : ∀ l ws t, queues_of !! l = Some ws → t ∉ ws).
  { intros l ws t [_ ->]%queues_lookup. apply not_elem_of_nil. }
  split; try done.
  - by rewrite queues_dom.
  - by intros t ->%list_elem_of_singleton.
  - intros t Ht. by apply not_elem_of_nil in Ht.
  - intros l ws t Hl Ht. by destruct (Hno l ws t).
  - intros t _. apply not_elem_of_nil.
  - intros l1 l2 ws1 ws2 t Hl _ Ht _. by destruct (Hno l1 ws1 t).
  - split; [done|]. apply (inits_ring (thread_tie z_thread_main :: heads)). by left.
  - apply NoDup_singleton.
  - split; [apply NoDup_singleton|]. cbn [tq_items fmap list_fmap chain static_image links].
    rewrite inits_frame; [apply Hio|]. apply not_elem_of_cons. split; [by apply (mm_root_tie _ _ Hmm)|].
    pose proof (mm_root_head _ _ Hmm). set_solver.
  - intros l ws [Hl ->]%queues_lookup. apply (inits_ring (thread_tie z_thread_main :: heads)). by right.
  - intros t Ht. by apply not_elem_of_nil in Ht.
Qed.

(** The flags of the threads, in the image and once the idle thread is
    marked. *)
Lemma prio_state prio s : prio ∈ [0; 8; 16; 24] → s ∈ [Z_THREAD_STATE_STOPPED; Z_THREAD_STATE_READY] →
  Z.land (Z.lor s prio) Z_THREAD_STATE_MSK = s ∧ Z.land (Z.lor s prio) Z_THREAD_WAKEUP_SCHED_MSK = 0.
Proof. intros Hp Hs. set_unfold in Hp. set_unfold in Hs. by destruct_or! Hp; destruct_or! Hs; subst. Qed.

Lemma image_thread d : image_ok → d ∈ decls → thr (static_image decls heads objs) (d_thread d) = Z_THREAD_INITIALIZER d.
Proof.
  intros Hio Hd. pose proof (io_threads Hio) as [Hm Hnd]%NoDup_cons. unfold thr, static_image. cbn [threads].
  assert (d_thread d ∈ d_thread <$> decls) by (by apply list_elem_of_fmap_2).
  rewrite lookup_total_insert_ne by congruence. apply lookup_total_correct, elem_of_list_to_map.
  - by rewrite <- list_fmap_compose.
  - apply list_elem_of_fmap. by exists d.
Qed.
Lemma image_main : thr (static_image decls heads objs) z_thread_main = z_thread_main_init.
Proof. apply lookup_total_insert_eq. Qed.

Definition marked : kstate := z_set_thread_state z_thread_idle Z_THREAD_STATE_IDLE (static_image decls heads objs).

Lemma marked_thread t : t ≠ z_thread_idle → thr marked t = thr (static_image decls heads objs) t.
Proof. intros Hne. by apply thr_upd_ne. Qed.
Lemma marked_idle : z_get_thread_state marked z_thread_idle = Z_THREAD_STATE_IDLE.
Proof.
  unfold z_get_thread_state, marked, z_set_thread_state, set_flags. rewrite thr_upd_eq. cbn [flags with_flags].
  apply (land_set_field _ Z_THREAD_STATE_MSK Z_THREAD_STATE_IDLE). done.
Qed.

Lemma auto_started_decl d : image_ok → d ∈ decls → auto_started (d_thread d) = negb (bool_decide (d_thread d = z_thread_idle)) && d_auto_start d.
Proof.
  intros Hio Hd. pose proof (io_threads Hio) as [_ Hnd]%NoDup_cons. unfold auto_started. f_equal.
  destruct (d_auto_start d) eqn:Ea.
  - apply existsb_exists. exists d. rewrite list_elem_of_In in Hd. by rewrite bool_decide_true, Ea.
  - apply not_true_is_false. intros (d'&Hd'&[Heq%bool_decide_eq_true Ha']%andb_true_iff)%existsb_exists.
    apply list_elem_of_In in Hd'. apply list_elem_of_lookup in Hd as [i Hi], Hd' as [j Hj].
    assert (i = j) as ->.
    { eapply NoDup_lookup; [exact Hnd| |]; rewrite list_lookup_fmap; [by rewrite Hi|rewrite Hj; cbn; by rewrite Heq]. }
    congruence.
Qed.

(** A thread of the section: the main one, or a declared one. *)
Lemma sec_cases t : image_ok → t ∈ sec → t = z_thread_main ∨ ∃ d, d ∈ decls ∧ t = d_thread d.
Proof.
  intros Hio Ht. rewrite (io_sec Hio) in Ht. apply elem_of_cons in Ht as [->|Ht]; [by left|right].
  apply list_elem_of_fmap in Ht as (d&->&Hd). by exists d.
Qed.

Lemma auto_marked t : image_ok → t ∈ sec → auto marked t = negb (Z_THREAD_IS_MAIN t) && auto_started t.
Proof.
  intros Hio Ht. unfold auto, Z_THREAD_IS_MAIN. destruct (sec_cases t Hio Ht) as [->|(d&Hd&->)]; [by rewrite bool_decide_true|].
  f_equal. rewrite auto_started_decl by done. destruct (decide (d_thread d = z_thread_idle)) as [->|Hne].
  - by rewrite marked_idle, bool_decide_true.
  - rewrite bool_decide_false by done. cbn [negb andb]. unfold z_get_thread_state. rewrite marked_thread, image_thread by done.
    cbn [Z_THREAD_INITIALIZER flags]. destruct (d_auto_start d).
    + rewrite (proj1 (prio_state (d_prio d) _ (io_prio Hio d Hd) ltac:(right; left))). done.
    + rewrite (proj1 (prio_state (d_prio d) _ (io_prio Hio d Hd) ltac:(left))). done.
Qed.
Abbreviation image := (static_image decls heads objs).
(** The threads ready after the start-up, but the main one. *)
Definition ready_threads : list word := filter (λ t, negb (Z_THREAD_IS_MAIN t) && auto_started t = true) sec.

Lemma ready_thread t : image_ok → t ∈ ready_threads → t ∈ threads_of ∧ t ≠ z_thread_main.
Proof.
  intros Hio [[Hm Ha]%andb_true_iff Hs]%list_elem_of_filter. apply negb_true_iff, bool_decide_eq_false in Hm. split; [|done].
  unfold threads_of. rewrite elem_of_list_to_set, list_elem_of_filter. split; [|done].
  unfold auto_started in Ha. apply andb_true_iff in Ha as [Hi _]. by apply negb_true_iff, bool_decide_eq_false in Hi.
Qed.

Lemma started_flags t : image_ok → t ∈ threads_of →
  (t ∈ z_thread_main :: ready_threads ↔ z_get_thread_state marked t = Z_THREAD_STATE_READY) ∧
  Z.land (flags (thr marked t)) Z_THREAD_WAKEUP_SCHED_MSK = 0.
Proof.
  intros Hio Ht. unfold threads_of in Ht. rewrite elem_of_list_to_set, list_elem_of_filter in Ht. destruct Ht as [Hi Hs].
  pose proof (auto_marked t Hio Hs) as Ha. unfold auto in Ha. split.
  - destruct (Z_THREAD_IS_MAIN t) eqn:Em.
    + apply bool_decide_eq_true in Em as ->. split; [intros _|by left]. unfold z_get_thread_state. rewrite marked_thread, image_main by done.
      cbn [flags z_thread_main_init]. unfold Z_THREAD_MAIN_PRIORITY. by destruct CONFIG_THREAD_MAIN_COOPERATIVE.
    + cbn [negb andb] in Ha. rewrite elem_of_cons. unfold ready_threads. rewrite list_elem_of_filter, Em, <- Ha. cbn [negb andb].
      rewrite Z.eqb_eq. apply bool_decide_eq_false in Em. tauto.
  - rewrite marked_thread by done. destruct (sec_cases t Hio Hs) as [->|(d&Hd&->)].
    + rewrite image_main. cbn [flags z_thread_main_init]. unfold Z_THREAD_MAIN_PRIORITY. by destruct CONFIG_THREAD_MAIN_COOPERATIVE.
    + rewrite image_thread by done. cbn [Z_THREAD_INITIALIZER flags].
      apply prio_state; [by apply io_prio|]. destruct (d_auto_start d); [right; left|left].
Qed.

Lemma threads_size : image_ok → (size threads_of <= length sec)%nat.
Proof.
  intros Hio. unfold threads_of. etransitivity; [|apply (length_filter (λ t, t ≠ z_thread_idle))].
  rewrite size_list_to_set; [done|]. apply NoDup_filter. rewrite (io_sec Hio). by apply io_threads.
Qed.

Lemma image_wqflag t : t ∈ sec → image_ok → wqflag image (thread_wqh t) = 0.
Proof.
  intros Ht Hio. unfold wqflag. cbn [static_image wqflags]. apply lookup_total_correct, elem_of_list_to_map.
  - rewrite <- list_fmap_compose. apply (NoDup_fmap_2 thread_wqh). apply Hio.
  - apply list_elem_of_fmap. exists t. split; [done|]. by rewrite <- (io_sec Hio).
Qed.

Lemma filter_bools (f g : word → bool) (l : list word) : (∀ t, t ∈ l → f t = g t) → filter (λ t, f t = true) l = filter (λ t, g t = true) l.
Proof.
  induction l as [|x l IH]; intros E; [done|]. rewrite !filter_cons, (E x) by (by left). rewrite IH; [done|]. intros t Ht. apply E. by right.
Qed.

(** The kernel after the loop over the threads, and after those that complete
    their stacks. *)
Definition started : kstate := foldl (λ k t, init_thread t k) marked sec.
Definition with_canaries : kstate :=
  if CONFIG_THREAD_CANARIES then foldl (λ k t, z_init_thread_stack_canaries t k) started sec else started.
Definition completed : kstate :=
  if CONFIG_THREAD_STACK_SENTINEL
  then foldl (λ k t, if Z_THREAD_IS_MONITORED t then z_init_thread_stack_sentinel t k else k) with_canaries sec else with_canaries.

Lemma startup_run p s n : image_ok → CONFIG_AVRTOS_LINKER_SCRIPT = true →
  z_init_threads p s n sec image = Done tt started ∧
  Inv (links image) started threads_of (z_thread_main :: ready_threads) [] queues_of ∧ same_but_queue marked started.
Proof.
  intros Hio Hls. assert (Hnd : NoDup sec) by (rewrite (io_sec Hio); by apply io_threads).
  assert (Eall : filter (λ t, auto marked t = true) sec = ready_threads).
  { apply filter_bools. intros t Ht. by apply auto_marked. }
  unfold started. destruct (init_threads_spec (links image) threads_of z_thread_main queues_of sec marked []) as (Hl&Hc&Hsame); [by apply image_links|done| |done| |].
  { rewrite Eall. pose proof (io_count Hio). assert (length ready_threads < length sec)%nat; [|cbn; lia].
    apply (length_filter_lt _ _ z_thread_main); [rewrite (io_sec Hio); by left|]. by unfold Z_THREAD_IS_MAIN; rewrite bool_decide_true. }
  { intros t Ht Ha. rewrite auto_marked in Ha by done. destruct (ready_thread t Hio) as [HT Hm]; [by apply list_elem_of_filter|]. set_solver. }
  cbn [app] in Hl, Hc. rewrite Eall in Hl, Hc. split_and!; [| |done].
  - unfold z_init_threads. rewrite (io_idle Hio), Hls. cbn [negb]. unfold bind, modify, ret. cbn [rbind].
    by apply for_u8_all, Hio.
  - destruct Hsame as (Hth&Hcur&Hsr&Hwq&_).
    assert (Hthr : ∀ t, thr (foldl (λ k t, init_thread t k) marked sec) t = thr marked t) by (intros t; unfold thr; by rewrite Hth).
    split; [exact Hl|exact Hc| | | | |].
    + intros t Ht _. destruct (started_flags t Hio Ht) as [Hr Hw]. unfold thread_ok, fl_ok. rewrite Hthr. split_and!.
      * apply Hr.
      * rewrite Hw. split; [intros Hn; by apply not_elem_of_nil in Hn|done].
      * intros [Hn|(l&ws&Hlw&Hin)]; [by apply not_elem_of_nil in Hn|]. apply queues_lookup in Hlw as [_ ->]. by apply not_elem_of_nil in Hin.
    + intros t Ht. unfold wqflag. rewrite Hwq. apply image_wqflag; [|done]. unfold threads_of in Ht.
      rewrite elem_of_list_to_set, list_elem_of_filter in Ht. apply Ht.
    + unfold z_get_thread_state. rewrite Hthr. fold (z_get_thread_state marked z_thread_idle). by rewrite marked_idle.
    + pose proof (threads_size Hio). pose proof (io_count Hio). lia.
    + pose proof (threads_size Hio). pose proof (io_fuel Hio). lia.
Qed.


(** ** From the first instruction to the running system *)

Lemma fold_bytes (f : kstate → word → kstate) l : (∀ k t, ∃ b, f k t = set_bytes b k) → ∀ k, ∃ b, foldl f k l = set_bytes b k.
Proof.
  intros Hf. induction l as [|t l IH]; intros k; [by exists (bytes k); destruct k|]. cbn [foldl].
  destruct (Hf k t) as [b ->], (IH (set_bytes b k)) as [b' ->]. by exists b'.
Qed.
Lemma canaries_only_bytes l k : ∃ b, foldl (λ k t, z_init_thread_stack_canaries t k) k l = set_bytes b k.
Proof. apply fold_bytes. intros. by eexists. Qed.
Lemma sentinels_only_bytes l k :
  ∃ b, foldl (λ k t, if Z_THREAD_IS_MONITORED t then z_init_thread_stack_sentinel t k else k) k l = set_bytes b k.
Proof. apply fold_bytes. intros k' t. destruct (Z_THREAD_IS_MONITORED t); [by eexists|by exists (bytes k'); destruct k']. Qed.

Lemma completed_bytes : ∃ b, completed = set_bytes b started.
Proof.
  unfold completed, with_canaries. destruct (canaries_only_bytes sec started) as [b1 E1].
  assert (∃ b, (if CONFIG_THREAD_CANARIES then foldl (λ k t, z_init_thread_stack_canaries t k) started sec else started) = set_bytes b started)
    as [b ->] by (destruct CONFIG_THREAD_CANARIES; [by exists b1|by exists (bytes started); destruct started]).
  destruct (sentinels_only_bytes sec (set_bytes b started)) as [b2 E2]. destruct CONFIG_THREAD_STACK_SENTINEL; [by exists b2|by exists b].
Qed.

(** [z_avrtos_init] with no memory slab and no timer in the sections. *)
Lemma avrtos_init_run p st n v io : image_ok → CONFIG_AVRTOS_LINKER_SCRIPT = true → CONFIG_INTERRUPT_POLICY = 1 → PRESCALER_VALUE = Some v →
  let k := set_sreg_i true completed in
  (∃ io', z_avrtos_init p st n sec [] [] io image = Done (tt, io') k) ∧
  Inv (links image) k threads_of (z_thread_main :: ready_threads) [] queues_of ∧ current k = z_thread_main ∧ sems k = sems objs.
Proof.
  intros Hio Hls Hpol Hv k. destruct (startup_run p st n Hio Hls) as (E1&Hi1&(Hth&Hcur&Hsr&Hwq&Hobj)). split.
  - unfold z_avrtos_init. rewrite Hls, Hpol. cbn [Z.eqb Pos.eqb andb Z.ltb Z.compare]. rewrite !andb_true_r.
    do 2 erewrite sbind_done by reflexivity. erewrite sbind_done by (by apply lift_done).
    erewrite (sbind_done _ _ _ started) by (apply (lift_done _ _ _ tt started); unfold z_mem_slab_init_module, modify; by rewrite take_nil).
    erewrite (sbind_done _ _ _ started) by (apply (lift_done _ _ _ tt started); unfold z_timer_init_module; rewrite take_nil; by destruct CONFIG_KERNEL_TIMERS).
    erewrite (sbind_done _ _ _ started _ _ with_canaries) by (apply (lift_done _ _ _ tt); unfold z_init_stacks_canaries, with_canaries; by destruct CONFIG_THREAD_CANARIES).
    erewrite (sbind_done _ _ _ _ _ _ completed) by (apply (lift_done _ _ _ tt); unfold z_init_stacks_sentinel, completed; by destruct CONFIG_THREAD_STACK_SENTINEL).
    erewrite sbind_done by (apply local_some; unfold z_init_sysclock; rewrite Hv; reflexivity).
    erewrite sbind_done by reflexivity. by eexists.
  - unfold k. destruct completed_bytes as [b ->]. split_and!; [apply Inv_sreg; by eapply Inv_objs|exact Hcur|].
    cbn [set_sreg_i set_bytes sems]. by injection Hobj as -> _.
Qed.

Definition first_sys (k : kstate) : sys := {| sk := k; st := λ t, if decide (t = z_thread_main) then User 0 else starting |}.

Lemma all_ready t : image_ok → (∀ d, d ∈ decls → d_thread d ≠ z_thread_idle → d_auto_start d = true) →
  t ∈ threads_of → t ∈ z_thread_main :: ready_threads.
Proof.
  intros Hio Hall Ht. unfold threads_of in Ht. rewrite elem_of_list_to_set, list_elem_of_filter in Ht. destruct Ht as [Hi Hs].
  destruct (sec_cases t Hio Hs) as [->|(d&Hd&->)]; [by left|]. right. apply list_elem_of_filter. split; [|done].
  rewrite (auto_started_decl d Hio Hd), (Hall d Hd Hi), bool_decide_false by done.
  unfold Z_THREAD_IS_MAIN. rewrite bool_decide_false; [done|]. intros E. pose proof (io_threads Hio) as [Hm _]%NoDup_cons.
  apply Hm. rewrite <- E. by apply list_elem_of_fmap_2.
Qed.

(** C5: from the first instruction on: the memory that the initialisers of the
    macros describe, [z_avrtos_init], then any interleaving of the calls and of
    the tick.  The start-up ends; the kernel invariant holds with the main
    thread first and then the threads of the section in its order; and in
    every state reached from there the units of a semaphore defined at compile
    time are conserved and every step allowed is carried out. *)
Theorem startup_system p stk n v io s N :
  image_ok → CONFIG_AVRTOS_LINKER_SCRIPT = true → CONFIG_INTERRUPT_POLICY = 1 → PRESCALER_VALUE = Some v →
  (∀ d, d ∈ decls → d_thread d ≠ z_thread_idle → d_auto_start d = true) →
  s ≠ NULL → sem_waitqueue s ∈ heads → count (sem objs s) = N → 0 <= N <= limit (sem objs s) → limit (sem objs s) < 256 →
  0 <= Z_KERNEL_TIME_SLICE_TICKS < 65536 →
  (CONFIG_KERNEL_TIMERS = true → quiet (links image) threads_of (list_to_set heads) z_timers_runqueue) →
  (CONFIG_KERNEL_EVENTS = true → quiet (links image) threads_of (list_to_set heads) z_event_q) →
  ∃ io' k, z_avrtos_init p stk n sec [] [] io image = Done (tt, io') k ∧
    Inv (links image) k threads_of (z_thread_main :: ready_threads) [] queues_of ∧ current k = z_thread_main ∧
    ∀ σ, reachable s (first_sys k) σ →
      count (sem (sk σ) s) + units_held threads_of σ = N ∧ ∀ a, enabled a σ → ∃ σ', sys_step s a σ = Some σ'.
Proof.
  intros Hio Hls Hpol Hv Hall Hs Hwq Hc HN Hlim Htk Htm Hev.
  destruct (avrtos_init_run p stk n v io Hio Hls Hpol Hv) as ((io'&E)&Hi&Hcur&Hsem). set (k := set_sreg_i true completed) in *.
  exists io', k. split_and!; [done..|].
  intros σ Hr.
  assert (Hb : boot (links image) threads_of (list_to_set heads) s N (first_sys k) (z_thread_main :: ready_threads) queues_of).
  { split; cbn [first_sys sk st]; try done.
    - right. eexists. by rewrite Hcur.
    - intros t Ht. by apply all_ready.
    - by rewrite queues_dom.
    - by apply queues_lookup.
    - by rewrite Hcur.
    - unfold sem. by rewrite Hsem.
    - unfold sem. by rewrite Hsem. }
  pose proof (reachable_good _ _ _ _ Htk Htm Hev Hs (io_idle Hio) _ _ _ (boot_good _ _ _ _ _ _ _ _ Hb) Hr) as Hg. split.
  - destruct Hg as (rs&ts&Q&ws&Hg). by apply Hg.
  - intros a Ha. destruct (step_good _ _ _ _ Htk Htm Hev Hs (io_idle Hio) N σ a Hg Ha) as (σ'&E'&_). by exists σ'.
Qed.
End Image.

(** ** Instances: three threads and the idle one, in the linker's order *)

#[export] Instance w_start : StartConfig := {
  CONFIG_AVRTOS_LINKER_SCRIPT := true; CONFIG_INTERRUPT_POLICY := 1; CONFIG_THREAD_MAIN_COOPERATIVE := false;
  CONFIG_THREAD_MAIN_STACK_SIZE := 64; Z_THREAD_MAIN_STACK_END_ADDR := Ptr 29 63;
  CONFIG_KERNEL_CLEAR_WDT_ON_INIT := true; CONFIG_KERNEL_MINICORE_SAVE_RESET_CAUSE := false;
  CONFIG_KERNEL_THREAD_IDLE_ADD_STACK := 0; CONFIG_THREAD_IDLE_COOPERATIVE := false; CONFIG_IDLE_HOOK := false;
  MCUSR := 0x54; WDTCSR := 0x60; WDRF := 3; WDCE := 4; WDE := 3;
}.

Definition w_decl2 : thread_decl := {| d_thread := t2; d_entry := Int 0x0456; d_stack := Ptr 30 0; d_size := 40; d_prio := 8;
  d_context := Int 0x0789; d_symbol := 66; d_auto_start := true |}.
Definition w_decl3 : thread_decl := {| d_thread := t3; d_entry := Int 0x0500; d_stack := Ptr 31 0; d_size := 32; d_prio := 0;
  d_context := NULL; d_symbol := 67; d_auto_start := true |}.
Definition w_decl_idle : thread_decl := {| d_thread := z_thread_idle; d_entry := Int 0x0600; d_stack := Ptr 32 0; d_size := 24;
  d_prio := Z_THREAD_IDLE_PRIORITY; d_context := NULL; d_symbol := 73; d_auto_start := false |}.
Definition w_decls : list thread_decl := [w_decl2; w_decl_idle; w_decl3].
Definition w_sec : list word := [t3; t1; z_thread_idle; t2].
Definition w_objs : kstate := w_sem 1 w_init.
Definition w_image : kstate := static_image w_decls w_heads w_objs.

Definition w_alone : kstate := set_current t1 (z_schedule t1 w_init).
Lemma k_idle_never_sleeps_witness : ready_count w_alone = 1 ∧ k_idle (λ _, NoFuel) w_alone = k_yield w_alone ∧ k_is_cpu_idle w_alone = Done false w_alone.
Proof.
  split; [vm_compute; reflexivity|].
  destruct (w_start_inv w_init [] t1) as [Hi _]; [apply w_init_inv|set_solver|set_solver|done|].
  apply (k_idle_never_sleeps w_F (λ _, NoFuel) w_alone w_T t1 [] [] w_Q). unfold w_alone. revert Hi. generalize (z_schedule t1 w_init).
  intros k Hi. by eapply Inv_objs.
Defined.

Lemma w_threads_of : threads_of w_sec = w_T.
Proof. vm_compute. reflexivity. Qed.
Lemma w_heads_set : list_to_set w_heads = dom w_Q.
Proof. vm_compute. reflexivity. Qed.

Lemma w_decls_cases d : d ∈ w_decls → d = w_decl2 ∨ d = w_decl_idle ∨ d = w_decl3.
Proof. unfold w_decls. set_solver. Qed.

Lemma w_image_ok : image_ok w_decls w_heads w_objs w_sec.
Proof.
  split; try done.
  - apply NoDup_cons. split; [cbn; set_solver|]. cbn. repeat (apply NoDup_cons; split; [set_solver|]). by apply NoDup_nil.
  - change (w_sec ≡ₚ [t1; t2; z_thread_idle; t3]). unfold w_sec. transitivity [t1; t3; z_thread_idle; t2]; [apply perm_swap|].
    constructor. transitivity [z_thread_idle; t3; t2]; [apply perm_swap|]. transitivity [z_thread_idle; t2; t3]; [constructor; apply perm_swap|apply perm_swap].
  - cbn. lia.
  - cbn. lia.
  - intros d [->|[->| ->]]%w_decls_cases; cbn; set_solver.
  - rewrite w_threads_of, w_heads_set. apply w_memmap.
Qed.

Lemma w_image_quiet root : root = z_timers_runqueue ∨ root = z_event_q →
  quiet (links w_image) (threads_of w_sec) (list_to_set w_heads) root.
Proof.
  rewrite w_threads_of, w_heads_set. intros Hr. split.
  - apply w_foreign; destruct Hr as [-> | ->]; try done; vm_compute; set_solver.
  - by destruct Hr as [-> | ->].
Qed.

Lemma startup_system_witness :
  ∃ io' k, z_avrtos_init NULL NULL 0 w_sec [] [] ∅ w_image = Done (tt, io') k ∧ current k = t1 ∧
    ready_threads w_decls w_sec = [t3; t2] ∧
    ∀ σ, reachable (w_obj 2) (first_sys k) σ → count (sem (sk σ) (w_obj 2)) + units_held (threads_of w_sec) σ = 1.
Proof.
  destruct (@startup_system w_layout w_config w_handlers w_stack_config w_time_config w_mcu w_start w_decls w_heads w_objs w_sec NULL NULL 0 1 ∅ (w_obj 2) 1 w_image_ok eq_refl eq_refl ltac:(vm_compute; reflexivity))
    as (io'&k&E&_&Hc&Hr).
  - intros d [->|[->| ->]]%w_decls_cases Hi; done.
  - discriminate.
  - cbn. set_solver.
  - reflexivity.
  - vm_compute. split; discriminate.
  - reflexivity.
  - apply w_ticks.
  - intros _. apply w_image_quiet. by left.
  - intros _. apply w_image_quiet. by right.
  - exists io', k. split; [exact E|]. split; [exact Hc|]. split; [vm_compute; reflexivity|]. intros σ Hs. apply (Hr σ Hs).
Defined.
