(* ===== verification/StaticThreads.v ===== *)
(** * Threads defined at compile time

    The initialiser of a stack holds its addresses in the linker's byte order
    and neither canaries nor sentinel: [z_avrtos_init] completes it.  A thread
    defined by [K_THREAD_DEFINE] is then what [k_thread_create] makes. *)

From S2P Require Import Prelude Dlist Delta Tqueue Types Event Timer Kernel KernelInv KernelSpec World Bytes Avr Context Thread Atomic Client Time HwTimer Startup.

#[export] Instance thread_decl_eq_dec : EqDecision thread_decl.
Proof. solve_decision. Defined.

(** ** Stacks in blocks of memory of their own *)

Definition same_block (p q : word) : bool :=
  match p, q with Ptr a _, Ptr b _ => bool_decide (a = b) | Int _, Int _ => true | _, _ => false end.

Lemma same_block_add p i q : same_block (ptr_add p i) q = same_block p q.
Proof. by destruct p. Qed.
Lemma same_block_add_r p i q : same_block p (ptr_add q i) = same_block p q.
Proof. by destruct p, q. Qed.
Lemma same_block_refl p : same_block p p = true.
Proof. destruct p; cbn; [done|by apply bool_decide_true]. Qed.
Lemma same_block_eq p q : same_block p q = false → p ≠ q.
Proof. intros E ->. by rewrite same_block_refl in E. Qed.

Lemma fill_frame n : ∀ p v b q, same_block p q = false → rdb (fill n p v b) q = rdb b q.
Proof.
  induction n as [|n IH]; intros p v b q Hq; [done|]. cbn [fill]. rewrite IH by (by rewrite same_block_add).
  rewrite rdb_insert, decide_False; [done|]. by apply same_block_eq.
Qed.
Lemma store16_frame p v b q : same_block p q = false → rdb (store16 p v b) q = rdb b q.
Proof.
  intros Hq. unfold store16. rewrite !rdb_insert, !decide_False; [done| |]; apply same_block_eq; by rewrite ?same_block_add.
Qed.
Lemma put_bytes_frame l : ∀ p i b q, same_block p q = false → rdb (put_bytes b p i l) q = rdb b q.
Proof.
  induction l as [|v l IH]; intros p i b q Hq; [done|]. cbn [put_bytes]. rewrite IH by done.
  rewrite rdb_insert, decide_False; [done|]. apply same_block_eq. by rewrite same_block_add.
Qed.

(** Memories that agree on a block. *)
Definition agree_block (p : word) (b b' : bmem) : Prop := ∀ q, same_block p q = true → rdb b q = rdb b' q.

Lemma fill_local n : ∀ p r v b b', same_block r p = true → agree_block r b b' → agree_block r (fill n p v b) (fill n p v b').
Proof.
  induction n as [|n IH]; intros p r v b b' Hr Hb; [done|]. cbn [fill]. apply IH; [by rewrite same_block_add_r|].
  intros q Hq. rewrite !rdb_insert. case_decide; [done|by apply Hb].
Qed.
Lemma store16_local p r v b b' : agree_block r b b' → agree_block r (store16 p v b) (store16 p v b').
Proof. intros Hb q Hq. unfold store16. rewrite !rdb_insert. repeat case_decide; [done..|by apply Hb]. Qed.
Lemma swap_local p r b b' : same_block r p = true → agree_block r b b' → agree_block r (swap_endianness p b) (swap_endianness p b').
Proof.
  intros Hr Hb. unfold swap_endianness, load16. rewrite (Hb p), (Hb (ptr_add p 1)) by (by rewrite ?same_block_add_r).
  by apply store16_local.
Qed.

(** A loop over threads, each turn of which writes to the stack of its thread
    only: what it leaves in one stack. *)
Section Fold.
Variables (f : kstate → word → kstate) (G : k_thread → word → bmem → bmem).
Hypothesis f_threads : ∀ k t, threads (f k t) = threads k.
Hypothesis f_bytes : ∀ k t, bytes (f k t) = G (thr k t) t (bytes k).
Hypothesis G_frame : ∀ th t b q, same_block (stack_end th) q = false → rdb (G th t b) q = rdb b q.
Hypothesis G_local : ∀ th t b b', agree_block (stack_end th) b b' → agree_block (stack_end th) (G th t b) (G th t b').

Lemma fold_threads l : ∀ k, threads (foldl f k l) = threads k.
Proof. induction l as [|t l IH]; intros k; [done|]. cbn [foldl]. by rewrite IH, f_threads. Qed.

Lemma fold_frame p l : ∀ k, (∀ u, u ∈ l → same_block (stack_end (thr k u)) p = false) → agree_block p (bytes (foldl f k l)) (bytes k).
Proof.
  induction l as [|u l IH]; intros k Hl; [done|]. cbn [foldl]. intros q Hq. rewrite IH; [|intros x Hx|done].
  - rewrite f_bytes, G_frame; [done|]. specialize (Hl u ltac:(by left)). destruct (stack_end (thr k u)), p, q; cbn in *; try done.
    apply bool_decide_eq_true in Hq as ->. done.
  - unfold thr. rewrite f_threads. apply Hl. by right.
Qed.

Lemma fold_one t l k : NoDup l → t ∈ l → (∀ u, u ∈ l → u ≠ t → same_block (stack_end (thr k u)) (stack_end (thr k t)) = false) →
  agree_block (stack_end (thr k t)) (bytes (foldl f k l)) (G (thr k t) t (bytes k)).
Proof.
  intros Hnd (l1&l2&->)%list_elem_of_split Hl. apply NoDup_app in Hnd as (_&Hn1&Hnd). apply NoDup_cons in Hnd as [Hn2 _].
  rewrite foldl_app. cbn [foldl]. set (k1 := foldl f k l1).
  assert (Ht1 : ∀ u, thr k1 u = thr k u) by (intros u; unfold thr, k1; by rewrite fold_threads).
  intros q Hq. rewrite (fold_frame (stack_end (thr k t))); [|intros u Hu|done].
  - rewrite f_bytes, Ht1. apply G_local; [|done]. apply fold_frame. intros u Hu. apply Hl; [set_solver|]. intros ->.
    apply (Hn1 t Hu). by left.
  - unfold thr. rewrite f_threads. fold (thr k1 u). rewrite Ht1. apply Hl; [set_solver|]. by intros ->.
Qed.
End Fold.

(** ** The three loops of the start-up *)
Section Static.
Context `{Layout, Config, Handlers, StackConfig, TimeConfig, TimerConfig, StartConfig}.

Definition finalized (t : k_thread) (thread : word) (b : bmem) : bmem :=
  if Z_THREAD_IS_MAIN thread then b
  else
    let ctx := ptr_add (stack_end t) (- (Z_CALLSAVED_CTX_SIZE - 1)) in
    swap_endianness (ptr_add ctx 19) (swap_endianness (ptr_add ctx 15) (swap_endianness (ptr_add ctx 17) b)).
Definition canaried (t : k_thread) (thread : word) (b : bmem) : bmem :=
  let start := Z_THREAD_STACK_START_USABLE t in
  fill (Z.to_nat (ptr_diff (ptr_add (stack_end t) (- Z_THREAD_STACK_VOID_SIZE)) start + 1)) start CONFIG_THREAD_CANARIES_SYMBOL b.
Definition sentineled (t : k_thread) (thread : word) (b : bmem) : bmem :=
  if Z_THREAD_IS_MONITORED thread
  then fill (Z.to_nat CONFIG_THREAD_STACK_SENTINEL_SIZE) (K_STACK_START (stack_end t) (stack_size t)) CONFIG_THREAD_STACK_SENTINEL_SYMBOL b
  else b.

Lemma init_thread_parts k t : threads (init_thread t k) = threads k ∧ bytes (init_thread t k) = finalized (thr k t) t (bytes k).
Proof.
  unfold init_thread, finalized. destruct (Z_THREAD_IS_MAIN t); [done|]. by destruct (_ =? _).
Qed.

Lemma swap_frame p b q : same_block p q = false → rdb (swap_endianness p b) q = rdb b q.
Proof. apply store16_frame. Qed.

Lemma finalized_frame th t b q : same_block (stack_end th) q = false → rdb (finalized th t b) q = rdb b q.
Proof. intros Hq. unfold finalized. destruct (Z_THREAD_IS_MAIN t); [done|]. cbn zeta. by rewrite !swap_frame by (by rewrite !same_block_add). Qed.
Lemma finalized_local th t b b' : agree_block (stack_end th) b b' → agree_block (stack_end th) (finalized th t b) (finalized th t b').
Proof.
  intros Hb. unfold finalized. destruct (Z_THREAD_IS_MAIN t); [done|]. cbn zeta.
  repeat apply swap_local; rewrite ?same_block_add_r; try apply same_block_refl; done.
Qed.
Lemma canaried_frame th t b q : same_block (stack_end th) q = false → rdb (canaried th t b) q = rdb b q.
Proof.
  intros Hq. apply fill_frame. unfold Z_THREAD_STACK_START_USABLE, Z_STACK_START_USABLE, K_STACK_START. by rewrite !same_block_add.
Qed.
Lemma canaried_local th t b b' : agree_block (stack_end th) b b' → agree_block (stack_end th) (canaried th t b) (canaried th t b').
Proof.
  apply fill_local. unfold Z_THREAD_STACK_START_USABLE, Z_STACK_START_USABLE, K_STACK_START. rewrite !same_block_add_r. apply same_block_refl.
Qed.
Lemma sentineled_frame th t b q : same_block (stack_end th) q = false → rdb (sentineled th t b) q = rdb b q.
Proof.
  intros Hq. unfold sentineled. destruct (Z_THREAD_IS_MONITORED t); [|done]. apply fill_frame. unfold K_STACK_START. by rewrite !same_block_add.
Qed.
Lemma sentineled_local th t b b' : agree_block (stack_end th) b b' → agree_block (stack_end th) (sentineled th t b) (sentineled th t b').
Proof.
  intros Hb. unfold sentineled. destruct (Z_THREAD_IS_MONITORED t); [|done]. apply fill_local; [|done]. unfold K_STACK_START.
  rewrite same_block_add_r. apply same_block_refl.
Qed.

(** ** Bytes of the image *)

Lemma put_bytes_at l : ∀ s i b j, rdb (put_bytes b s i l) (ptr_add s j) =
  if (i <=? j) && (j <? i + Z.of_nat (length l)) then nth (Z.to_nat (j - i)) l 0 else rdb b (ptr_add s j).
Proof.
  induction l as [|v l IH]; intros s i b j; cbn [put_bytes length].
  { destruct (Z.leb_spec i j), (Z.ltb_spec j (i + Z.of_nat 0)); try done; lia. }
  rewrite IH, rdb_insert_at. destruct (Z.eqb_spec j i) as [->|Hne].
  - rewrite Z.sub_diag. destruct (Z.leb_spec (i + 1) i), (Z.leb_spec i i), (Z.ltb_spec i (i + Z.of_nat (S (length l)))); try done; lia.
  - destruct (Z.leb_spec (i + 1) j), (Z.leb_spec i j), (Z.ltb_spec j (i + 1 + Z.of_nat (length l))),
      (Z.ltb_spec j (i + Z.of_nat (S (length l)))); try done; try lia; cbn [andb].
    by replace (Z.to_nat (j - i)) with (S (Z.to_nat (j - (i + 1)))) by lia.
Qed.

Lemma core_length entry ctx : length (Z_CORE_CONTEXT_INIT entry ctx) = 21%nat.
Proof. done. Qed.

Lemma nth_zeros n : ∀ i, nth i (replicate n 0) 0 = 0.
Proof. induction n as [|n IH]; intros [|i]; cbn; done. Qed.

(** The byte [j] of the initialiser of a stack. *)
Lemma initializer_at d j : 21 <= d_size d → 0 <= j < d_size d →
  nth (Z.to_nat j) (Z_STACK_INITIALIZER d) 0 =
  if j <? d_size d - 21 then 0 else nth (Z.to_nat (j - (d_size d - 21))) (Z_CORE_CONTEXT_INIT (word_int (d_entry d)) (word_int (d_context d))) 0.
Proof.
  intros Hs Hj. unfold Z_STACK_INITIALIZER, Z_CALLSAVED_CTX_SIZE. destruct (Z.ltb_spec j (d_size d - 21)).
  - rewrite app_nth1 by (rewrite length_replicate; lia). apply nth_zeros.
  - rewrite app_nth2 by (rewrite length_replicate; lia). rewrite length_replicate. f_equal. lia.
Qed.

(** ** The context *)

Lemma le16_value v : addr_ok v → Z.lor (u8 v) (Z.shiftl (Z.shiftr v 8) 8) = v.
Proof.
  intros Hv. unfold u8, addr_ok in *. change 256 with (2 ^ 8). rewrite Z.lor_comm, lor_high, Z.shiftr_div_pow2 by (try apply Z.mod_pos_bound; lia).
  rewrite Z.mul_comm. symmetry. apply Z.div_mod. lia.
Qed.

Lemma swap_at b s a v j : addr_ok v → rdb b (ptr_add s a) = u8 v → rdb b (ptr_add s (a + 1)) = Z.shiftr v 8 →
  rdb (swap_endianness (ptr_add s a) b) (ptr_add s j) =
  if j =? a + 1 then u8 v else if j =? a then Z.shiftr v 8 else rdb b (ptr_add s j).
Proof.
  intros Hv E0 E1. unfold swap_endianness, load16. rewrite ptr_add_assoc, E0, E1, le16_value by done.
  unfold HTONS. rewrite (u16_small v) by done. fold (K_SWAP_ENDIANNESS v). rewrite rdb_store16_at. by destruct (swap_bytes v Hv) as [-> ->].
Qed.

(** The stack of a declared thread after the first loop. *)
Lemma finalized_at d b j : addr_ok (word_int (d_entry d)) → addr_ok (word_int (d_context d)) → addr_ok z_thread_entry_pc →
  Z_THREAD_IS_MAIN (d_thread d) = false → 21 <= d_size d → 0 <= j < d_size d →
  (∀ i, 0 <= i < d_size d → rdb b (ptr_add (d_stack d) i) = nth (Z.to_nat i) (Z_STACK_INITIALIZER d) 0) →
  rdb (finalized (Z_THREAD_INITIALIZER d) (d_thread d) b) (ptr_add (d_stack d) j) =
  if d_size d - 21 <=? j then context_byte (word_int (d_entry d)) (word_int (d_context d)) (j - (d_size d - 21)) else 0.
Proof.
  intros He Hc Hp Hm Hs Hj Hb. unfold finalized. rewrite Hm. cbn zeta.
  cbn [Z_THREAD_INITIALIZER stack_end]. unfold Z_STACK_END, Z_CALLSAVED_CTX_SIZE. rewrite !ptr_add_assoc.
  set (c := d_size d - 21).
  replace (d_size d - 1 + (- (21 - 1) + 19)) with (c + 19) by lia. replace (d_size d - 1 + (- (21 - 1) + 15)) with (c + 15) by lia.
  replace (d_size d - 1 + (- (21 - 1) + 17)) with (c + 17) by lia.
  assert (Hcore : ∀ i, 0 <= i < 21 → rdb b (ptr_add (d_stack d) (c + i)) =
    nth (Z.to_nat i) (Z_CORE_CONTEXT_INIT (word_int (d_entry d)) (word_int (d_context d))) 0).
  { intros i Hi. rewrite Hb, initializer_at by lia. rewrite (proj2 (Z.ltb_ge _ _)) by lia. f_equal. lia. }
  pose proof (λ x, swap_at b (d_stack d) (c + 17) _ x Hc (Hcore 17 ltac:(lia))) as S17. rewrite <- Z.add_assoc in S17. specialize (λ x, S17 x (Hcore 18 ltac:(lia))).
  set (b1 := swap_endianness (ptr_add (d_stack d) (c + 17)) b) in *.
  assert (H15 : rdb b1 (ptr_add (d_stack d) (c + 15)) = u8 (word_int (d_entry d)) ∧ rdb b1 (ptr_add (d_stack d) (c + 15 + 1)) = Z.shiftr (word_int (d_entry d)) 8).
  { rewrite !S17, !(proj2 (Z.eqb_neq _ _)) by lia. rewrite <- Z.add_assoc. by rewrite !Hcore by lia. }
  pose proof (λ x, swap_at b1 (d_stack d) (c + 15) _ x He (proj1 H15) (proj2 H15)) as S15.
  set (b2 := swap_endianness (ptr_add (d_stack d) (c + 15)) b1) in *.
  assert (H19 : rdb b2 (ptr_add (d_stack d) (c + 19)) = u8 z_thread_entry_pc ∧ rdb b2 (ptr_add (d_stack d) (c + 19 + 1)) = Z.shiftr z_thread_entry_pc 8).
  { rewrite !S15, !(proj2 (Z.eqb_neq _ _)), !S17, !(proj2 (Z.eqb_neq _ _)) by lia. rewrite <- Z.add_assoc. by rewrite !Hcore by lia. }
  rewrite (swap_at b2 (d_stack d) (c + 19) _ j Hp (proj1 H19) (proj2 H19)), S15, S17.
  destruct (Z.leb_spec c j) as [Hcj|Hcj].
  - assert (∃ i, j = c + i ∧ i ∈ seqZ 0 21) as (i&->&Hi) by (exists (j - c); rewrite elem_of_seqZ; lia).
    rewrite Hcore by (apply elem_of_seqZ in Hi; lia). replace (c + i - c) with i by lia.
    assert (Hq : ∀ n, (c + i =? c + n) = (i =? n)).
    { intros n. destruct (Z.eqb_spec (c + i) (c + n)), (Z.eqb_spec i n); try done; lia. }
    rewrite <- !Z.add_assoc, !Hq. apply elem_of_seqZ in Hi.
    assert (i = 0 ∨ i = 1 ∨ i = 2 ∨ i = 3 ∨ i = 4 ∨ i = 5 ∨ i = 6 ∨ i = 7 ∨ i = 8 ∨ i = 9 ∨ i = 10 ∨ i = 11 ∨ i = 12 ∨ i = 13 ∨ i = 14 ∨ i = 15 ∨ i = 16 ∨ i = 17 ∨ i = 18 ∨ i = 19 ∨ i = 20) as Hc21 by lia.
    clear - Hc21. by destruct_or! Hc21; subst i.
  - rewrite !(proj2 (Z.eqb_neq _ _)) by lia. rewrite Hb, initializer_at by lia. by rewrite (proj2 (Z.ltb_lt _ _)).
Qed.

(** ** The stacks after the start-up *)
Variables (decls : list thread_decl) (heads : list word) (objs : kstate) (sec : list word).
Abbreviation img := (static_image decls heads objs).

(** The stacks are large enough and in blocks of their own; addresses have 16
    bits. *)
Record stacks_ok : Prop := {
  so_blocks d d' : d ∈ decls → d' ∈ decls → d ≠ d' → same_block (d_stack d) (d_stack d') = false;
  so_main d : d ∈ decls → same_block Z_THREAD_MAIN_STACK_END_ADDR (d_stack d) = false;
  so_size d : d ∈ decls → Z_THREAD_STACK_MIN_SIZE <= d_size d;
  so_addr d : d ∈ decls → addr_ok (word_int (d_entry d)) ∧ addr_ok (word_int (d_context d));
  so_pc : addr_ok z_thread_entry_pc;
  so_sentinel : 0 <= CONFIG_THREAD_STACK_SENTINEL_SIZE;
}.

Lemma stack_of_end d q : same_block (stack_end (Z_THREAD_INITIALIZER d)) q = same_block (d_stack d) q.
Proof. cbn [Z_THREAD_INITIALIZER stack_end]. unfold Z_STACK_END. apply same_block_add. Qed.

Lemma image_bytes d : stacks_ok → d ∈ decls →
  ∀ i, 0 <= i < d_size d → rdb (bytes img) (ptr_add (d_stack d) i) = nth (Z.to_nat i) (Z_STACK_INITIALIZER d) 0.
Proof.
  intros Hso Hd i Hi. cbn [static_image bytes].
  assert (Hlen : Z.of_nat (length (Z_STACK_INITIALIZER d)) = d_size d).
  { pose proof (so_size Hso d Hd) as Hsz. pose proof (so_sentinel Hso). unfold Z_THREAD_STACK_MIN_SIZE, Z_THREAD_STACK_VOID_SIZE, Z_CALLSAVED_CTX_SIZE in Hsz.
    unfold Z_STACK_INITIALIZER. rewrite length_app, core_length, length_replicate. unfold Z_CALLSAVED_CTX_SIZE. lia. }
  assert (Hother : ∀ l b, (∀ x, x ∈ l → x ∈ decls) → d ∉ l →
    rdb (foldl (λ b d, put_bytes b (d_stack d) 0 (Z_STACK_INITIALIZER d)) b l) (ptr_add (d_stack d) i) = rdb b (ptr_add (d_stack d) i)).
  { induction l as [|x l IH]; intros b Hl Hn; [done|]. cbn [foldl]. rewrite IH by set_solver. apply put_bytes_frame.
    rewrite same_block_add_r. apply (so_blocks Hso); set_solver. }
  assert (Hgen : ∀ l b, (∀ x, x ∈ l → x ∈ decls) → d ∈ l →
    rdb (foldl (λ b d, put_bytes b (d_stack d) 0 (Z_STACK_INITIALIZER d)) b l) (ptr_add (d_stack d) i) = nth (Z.to_nat i) (Z_STACK_INITIALIZER d) 0).
  { induction l as [|x l IH]; intros b Hl Hn; [by apply not_elem_of_nil in Hn|]. cbn [foldl].
    destruct (in_dec (λ a b, decide (a = b)) d l) as [Hin|Hin]; rewrite <- list_elem_of_In in Hin; [apply IH; set_solver|].
    apply elem_of_cons in Hn as [->|]; [|done]. rewrite Hother by set_solver. rewrite put_bytes_at, Hlen.
    destruct (Z.leb_spec 0 i), (Z.ltb_spec i (0 + d_size x)); try lia. cbn. f_equal. lia. }
  apply Hgen; done.
Qed.

Abbreviation mk := (marked decls heads objs).

(** The stack of a thread does not move when the idle thread is marked. *)
Lemma marked_stack t : stack_end (thr mk t) = stack_end (thr img t) ∧ stack_size (thr mk t) = stack_size (thr img t) ∧ sp (thr mk t) = sp (thr img t).
Proof. unfold marked, z_set_thread_state, set_flags. rewrite thr_upd. by case_decide; subst. Qed.

Lemma sec_stacks d u : image_ok decls heads objs sec → stacks_ok → d ∈ decls → u ∈ sec → u ≠ d_thread d →
  same_block (stack_end (thr mk u)) (d_stack d) = false.
Proof.
  intros Hio Hso Hd Hu Hne. destruct (marked_stack u) as [-> _]. destruct (sec_cases decls heads objs sec u Hio Hu) as [->|(d'&Hd'&->)].
  - rewrite image_main. by apply (so_main Hso).
  - rewrite (image_thread decls heads objs sec d' Hio Hd'), stack_of_end. apply (so_blocks Hso); [done..|congruence].
Qed.

(** What the three loops leave in the stack of one thread. *)
Lemma completed_stack d : image_ok decls heads objs sec → stacks_ok → d ∈ decls →
  let th := Z_THREAD_INITIALIZER d in let t := d_thread d in
  let b := finalized th t (bytes img) in
  let b := if CONFIG_THREAD_CANARIES then canaried th t b else b in
  agree_block (d_stack d) (bytes (completed decls heads objs sec)) (if CONFIG_THREAD_STACK_SENTINEL then sentineled th t b else b).
Proof.
  intros Hio Hso Hd. cbn zeta. set (th := Z_THREAD_INITIALIZER d). set (t := d_thread d).
  assert (Hnd : NoDup sec) by (rewrite (io_sec _ _ _ _ Hio); by apply (io_threads _ _ _ _ Hio)).
  assert (Hts : t ∈ sec) by (rewrite (io_sec _ _ _ _ Hio); right; by apply list_elem_of_fmap_2).
  assert (Hst : ∀ k, threads k = threads mk → thr k t = thr mk t ∧ ∀ u, u ∈ sec → u ≠ t → same_block (stack_end (thr k u)) (stack_end (thr k t)) = false).
  { intros k E. assert (Et : ∀ u, thr k u = thr mk u) by (intros u; unfold thr; by rewrite E). split; [done|]. intros u Hu Hne. rewrite !Et.
    destruct (marked_stack t) as [-> _]. rewrite (image_thread decls heads objs sec d Hio Hd). cbn [Z_THREAD_INITIALIZER stack_end].
    unfold Z_STACK_END. rewrite same_block_add_r. by apply sec_stacks. }
  assert (Hse : ∀ q, same_block (stack_end (thr mk t)) q = same_block (d_stack d) q).
  { intros q. destruct (marked_stack t) as [-> _]. rewrite (image_thread decls heads objs sec d Hio Hd). apply stack_of_end. }
  assert (Hth : ∀ b, finalized (thr mk t) t b = finalized th t b ∧ canaried (thr mk t) t b = canaried th t b ∧ sentineled (thr mk t) t b = sentineled th t b).
  { intros b. destruct (marked_stack t) as (E1&E2&_). unfold finalized, canaried, sentineled, Z_THREAD_STACK_START_USABLE. rewrite E1, E2.
    by rewrite (image_thread decls heads objs sec d Hio Hd). }
  (* the threads are completed *)
  assert (H1' : threads (started decls heads objs sec) = threads mk ∧ agree_block (d_stack d) (bytes (started decls heads objs sec)) (finalized th t (bytes img))).
  { unfold started. pose proof (fold_threads _ (λ k u, proj1 (init_thread_parts k u)) sec mk) as E. split; [exact E|].
    intros q Hq. rewrite <- (proj1 (Hth _)). change (bytes img) with (bytes mk).
    apply (fold_one _ finalized (λ k u, proj1 (init_thread_parts k u)) (λ k u, proj2 (init_thread_parts k u)) finalized_frame finalized_local); try done.
    - by apply Hst.
    - by rewrite Hse. }
  destruct H1' as [E1 H1'].
  (* canaries *)
  assert (H2' : threads (with_canaries decls heads objs sec) = threads mk ∧
    agree_block (d_stack d) (bytes (with_canaries decls heads objs sec)) (if CONFIG_THREAD_CANARIES then canaried th t (finalized th t (bytes img)) else finalized th t (bytes img))).
  { unfold with_canaries. destruct CONFIG_THREAD_CANARIES; [|done].
    pose proof (fold_threads (λ k u, z_init_thread_stack_canaries u k) (λ k u, eq_refl) sec (started decls heads objs sec)) as E. split; [congruence|].
    destruct (Hst _ E1) as [Et Hne]. intros q Hq.
    rewrite (fold_one (λ k u, z_init_thread_stack_canaries u k) canaried (λ k u, eq_refl) (λ k u, eq_refl) canaried_frame canaried_local t sec); try done; [|by rewrite Et, Hse].
    rewrite Et, (proj1 (proj2 (Hth _))). apply canaried_local; [|by unfold th; rewrite stack_of_end]. intros x Hx. apply H1'.
    by unfold th in Hx; rewrite stack_of_end in Hx. }
  destruct H2' as [E2 H2'].
  (* sentinels *)
  unfold completed. destruct CONFIG_THREAD_STACK_SENTINEL; [|done]. destruct (Hst _ E2) as [Et Hne]. intros q Hq.
  assert (P : ∀ k u, threads (if Z_THREAD_IS_MONITORED u then z_init_thread_stack_sentinel u k else k) = threads k ∧
    bytes (if Z_THREAD_IS_MONITORED u then z_init_thread_stack_sentinel u k else k) = sentineled (thr k u) u (bytes k))
    by (intros k u; unfold sentineled; by destruct (Z_THREAD_IS_MONITORED u)).
  rewrite (fold_one (λ k u, if Z_THREAD_IS_MONITORED u then z_init_thread_stack_sentinel u k else k) sentineled (λ k u, proj1 (P k u)) (λ k u, proj2 (P k u)) sentineled_frame sentineled_local t sec); try done; [|by rewrite Et, Hse].
  rewrite Et, (proj2 (proj2 (Hth _))). apply sentineled_local; [|by unfold th; rewrite stack_of_end]. intros x Hx. apply H2'.
  by unfold th in Hx; rewrite stack_of_end in Hx.
Qed.

Lemma sentinel_threads k u : threads (if Z_THREAD_IS_MONITORED u then z_init_thread_stack_sentinel u k else k) = threads k.
Proof. by destruct (Z_THREAD_IS_MONITORED u). Qed.

Lemma completed_threads : threads (completed decls heads objs sec) = threads mk.
Proof.
  unfold completed, with_canaries, started.
  pose proof (fold_threads _ (λ k u, proj1 (init_thread_parts k u)) sec mk) as E1.
  pose proof (λ k, fold_threads (λ k u, z_init_thread_stack_canaries u k) (λ k u, eq_refl) sec k) as E2.
  pose proof (λ k, fold_threads (λ k u, if Z_THREAD_IS_MONITORED u then z_init_thread_stack_sentinel u k else k)
    sentinel_threads sec k) as E3.
  destruct CONFIG_THREAD_STACK_SENTINEL, CONFIG_THREAD_CANARIES; rewrite ?E3, ?E2; exact E1.
Qed.

(** The bytes of the stack of a declared thread. *)
Lemma completed_bytes_at d j : image_ok decls heads objs sec → stacks_ok → d ∈ decls → 0 <= j < d_size d →
  rdb (bytes (completed decls heads objs sec)) (ptr_add (d_stack d) j)
  = stack_byte (d_size d) (word_int (d_entry d)) (word_int (d_context d)) 0 j.
Proof.
  intros Hio Hso Hd Hj. rewrite (completed_stack d Hio Hso Hd) by (by rewrite same_block_add_r, same_block_refl).
  pose proof (so_size Hso d Hd) as Hsz. destruct (so_addr Hso d Hd) as [He Hc]. pose proof (so_sentinel Hso) as Hsn.
  unfold Z_THREAD_STACK_MIN_SIZE, Z_THREAD_STACK_VOID_SIZE, Z_CALLSAVED_CTX_SIZE in Hsz.
  assert (Hm : Z_THREAD_IS_MAIN (d_thread d) = false).
  { unfold Z_THREAD_IS_MAIN. apply bool_decide_eq_false. intros E. pose proof (io_threads _ _ _ _ Hio) as [Hm _]%NoDup_cons.
    apply Hm. rewrite <- E. by apply list_elem_of_fmap_2. }
  pose proof (finalized_at d (bytes img) j He Hc (so_pc Hso) Hm ltac:(lia) Hj (image_bytes d Hso Hd)) as Ef.
  assert (Emon : Z_THREAD_IS_MONITORED (d_thread d) = true).
  { unfold Z_THREAD_IS_MONITORED. unfold Z_THREAD_IS_MAIN in Hm. rewrite Hm. apply orb_true_r. }
  unfold sentineled, canaried, Z_THREAD_STACK_START_USABLE, Z_STACK_START_USABLE, K_STACK_START. rewrite Emon. fold usable_ofs.
  cbn [Z_THREAD_INITIALIZER stack_end stack_size]. unfold Z_STACK_END. rewrite !ptr_add_assoc, ptr_diff_add.
  replace (d_size d - 1 + (- d_size d + 1)) with 0 by lia.
  rewrite !Z.add_0_l.
  unfold Z_THREAD_STACK_VOID_SIZE, Z_CALLSAVED_CTX_SIZE, stack_byte, usable_ofs in *.
  destruct CONFIG_THREAD_CANARIES, CONFIG_THREAD_STACK_SENTINEL; rewrite ?rdb_fill_at, ?Ef, ?Z2Nat.id by lia;
    repeat match goal with |- context [?x <=? ?y] => destruct (Z.leb_spec x y)
                         | |- context [?x <? ?y] => destruct (Z.ltb_spec x y) end; cbn [andb]; try done; lia.
Qed.

(** C6: a thread defined at compile time is, after the start-up, what
    [k_thread_create] makes of the same arguments, but for its state, which is
    READY when it starts automatically: the same stack, byte for byte (the
    addresses in the order the switch pops them, the canaries and the sentinel,
    which [k_verify_stack_sentinel] accepts and from which the unused part is
    measured), whatever the order of the section and the other threads. *)
Theorem static_thread_created d old : image_ok decls heads objs sec → stacks_ok → d ∈ decls → d_thread d ≠ z_thread_idle →
  sched_lock_cnt old = 0 →
  let k := completed decls heads objs sec in
  thr k (d_thread d) = with_flags (Z.lor (if d_auto_start d then Z_THREAD_STATE_READY else Z_THREAD_STATE_STOPPED) (d_prio d))
    (new_thread (d_stack d) (d_size d) (d_prio d) (d_symbol d) old) ∧
  (d_auto_start d = false → thr k (d_thread d) = new_thread (d_stack d) (d_size d) (d_prio d) (d_symbol d) old) ∧
  (∀ j, 0 <= j < d_size d → rdb (bytes k) (ptr_add (d_stack d) j)
     = stack_byte (d_size d) (word_int (d_entry d)) (word_int (d_context d)) 0 j) ∧
  (CONFIG_THREAD_STACK_SENTINEL = true → z_thread_verify_sent (d_thread d) k = true) ∧
  (CONFIG_THREAD_CANARIES = true → CONFIG_THREAD_CANARIES_SYMBOL ≠ 0 →
     z_stack_canaries (S (Z.to_nat (d_size d))) (d_thread d) k = Some (ptr_add (d_stack d) (d_size d - 21))).
Proof.
  intros Hio Hso Hd Hi Hold k.
  assert (Hth : thr k (d_thread d) = Z_THREAD_INITIALIZER d).
  { unfold thr, k. rewrite completed_threads. fold (thr mk (d_thread d)). rewrite marked_thread by done. by apply (image_thread _ _ _ sec). }
  assert (Hb : ∀ j, 0 <= j < d_size d → rdb (bytes k) (ptr_add (d_stack d) j)
     = stack_byte (d_size d) (word_int (d_entry d)) (word_int (d_context d)) 0 j) by (intros; by apply completed_bytes_at).
  split; [|split; [|split; [exact Hb|]]].
  - rewrite Hth. unfold Z_THREAD_INITIALIZER, new_thread, with_flags, Z_STACK_END, Z_CALLSAVED_CTX_SIZE. cbn. rewrite ptr_add_assoc, Hold.
    replace (d_size d - 1 + - (21)) with (d_size d - 22) by lia. by destruct CONFIG_KERNEL_REENTRANCY.
  - intros Ha. rewrite Hth. unfold Z_THREAD_INITIALIZER, new_thread, with_flags, Z_STACK_END, Z_CALLSAVED_CTX_SIZE. rewrite Ha, ptr_add_assoc, Hold.
    replace (d_size d - 1 + - (21)) with (d_size d - 22) by lia.
    replace (Z.lor Z_THREAD_STATE_STOPPED (d_prio d)) with (Z.land (d_prio d) Z_THREAD_PRIO_MSK); [by destruct CONFIG_KERNEL_REENTRANCY|].
    pose proof (io_prio _ _ _ _ Hio d Hd) as Hp. set_unfold in Hp. by destruct_or! Hp; rewrite Hp.
  - apply (new_stack_checks k (d_thread d) (d_stack d) (d_size d) (word_int (d_entry d)) (word_int (d_context d)) (λ _, 0)); [by apply so_sentinel|by apply so_size|by rewrite Hth..|exact Hb].
Qed.

(** The first switch to such a thread runs [z_thread_entry] on its empty stack,
    with its entry function and its context in the registers from which it is
    called. *)
Theorem static_thread_first_run d a m : image_ok decls heads objs sec → stacks_ok → d ∈ decls → d_thread d ≠ z_thread_idle →
  let k := completed decls heads objs sec in
  let B := reg16 m ZL in
  let e := a + d_size d - 1 in
  22 <= d_size d → (∀ j, 0 <= j < d_size d → word_int (ptr_add (d_stack d) j) = a + j) →
  stack_loaded (ram m) a k (d_stack d) (d_size d) →
  ram m B = u8 (word_int (sp (thr k (d_thread d)))) → ram m (B + 1) = Z.shiftr (word_int (sp (thr k (d_thread d)))) 8 →
  switch_ok (spr m) (reg16 m X) → switch_ok (e - 2) B → apart (e - 2) B (spr m) (reg16 m X) →
  ∃ m1, run 60 z_thread_switch 0 m = Some m1 ∧ pc m1 = z_thread_entry_pc ∧ spr m1 = e ∧
    let m2 := exec z_thread_entry m1 in
    reg16 m2 ZL = word_int (d_entry d) ∧ reg16 m2 24 = word_int (d_context d) ∧ sreg m2 = CONFIG_THREAD_DEFAULT_SREG ∧ spr m2 = e.
Proof.
  intros Hio Hso Hd Hi k B e Hsz Haddr Hld Hs1 Hs2 Hm Hb Hap. destruct (so_addr Hso d Hd) as [He Hc].
  assert (Hsp : word_int (sp (thr k (d_thread d))) = e - 21).
  { unfold thr, k. rewrite completed_threads. fold (thr mk (d_thread d)). rewrite marked_thread, (image_thread _ _ _ sec) by done.
    cbn [Z_THREAD_INITIALIZER sp]. unfold Z_STACK_END, Z_CALLSAVED_CTX_SIZE. rewrite ptr_add_assoc.
    replace (d_size d - 1 + - (21)) with (d_size d - 22) by lia. rewrite Haddr by lia. unfold e. lia. }
  rewrite Hsp in Hs1, Hs2.
  destruct (context_first_run (word_int (d_entry d)) (word_int (d_context d)) e m) as (m1&E&Epc&Espr&_&Hrest); try done; [apply Hso| |by exists m1].
  intros j Hj. replace (e - 20 + j) with (a + (d_size d - 21 + j)) by (unfold e; lia). rewrite Hld by lia.
  unfold k. rewrite completed_bytes_at by (done || lia). unfold stack_byte. rewrite (proj2 (Z.leb_le _ _)) by lia. f_equal. lia.
Qed.
End Static.

(** ** The threads of the concrete image *)

Lemma w_stacks_ok : stacks_ok w_decls.
Proof.
  split; try done.
  - intros d d' [->|[->| ->]]%w_decls_cases [->|[->| ->]]%w_decls_cases; done.
  - intros d [->|[->| ->]]%w_decls_cases; done.
  - intros d [->|[->| ->]]%w_decls_cases; vm_compute; discriminate.
  - intros d [->|[->| ->]]%w_decls_cases; split; by apply w_addr_ok.
Qed.

Definition w_completed : kstate := completed w_decls w_heads w_objs w_sec.

Lemma static_thread_created_witness :
  thr w_completed t2 = with_flags (Z.lor Z_THREAD_STATE_READY 8) (new_thread (Ptr 30 0) 40 8 66 (w_thread 0)) ∧
  z_thread_verify_sent t2 w_completed = true ∧ z_stack_canaries 41 t2 w_completed = Some (Ptr 30 19).
Proof.
  destruct (static_thread_created w_decls w_heads w_objs w_sec w_decl2 (w_thread 0) w_image_ok w_stacks_ok) as (E&_&_&Hs&Hc).
  - cbn. set_solver.
  - discriminate.
  - reflexivity.
  - split; [exact E|]. split; [by apply Hs|by apply Hc].
Defined.

Definition w_static_machine : avr :=
  set_ram (λ x, if (1920 <=? x) && (x <? 1960) then rdb (bytes w_completed) (ptr_add (Ptr 30 0) (x - 1920))
    else if x =? 0x110 then u8 1938 else if x =? 0x111 then Z.shiftr 1938 8 else 0) w_from.

Lemma static_thread_first_run_witness :
  ∃ m1, run 60 z_thread_switch 0 w_static_machine = Some m1 ∧ pc m1 = 0x0123 ∧
    reg16 (exec z_thread_entry m1) ZL = 0x0456 ∧ reg16 (exec z_thread_entry m1) 24 = 0x0789.
Proof.
  destruct (static_thread_first_run w_decls w_heads w_objs w_sec w_decl2 1920 w_static_machine w_image_ok w_stacks_ok)
    as (m1&E&Ep&_&Ez&Ec&_).
  - cbn. set_solver.
  - discriminate.
  - cbn. lia.
  - intros j Hj. cbn [w_decl2 d_size d_stack ptr_add word_int] in *. change (addr_of 30) with 1920. rewrite u16_small; lia.
  - intros j Hj. unfold w_static_machine. cbn [ram set_ram]. cbn [w_decl2 d_size d_stack] in *.
    destruct (Z.leb_spec 1920 (1920 + j)), (Z.ltb_spec (1920 + j) 1960); try lia. cbn [andb]. unfold w_completed. do 2 f_equal. lia.
  - reflexivity.
  - reflexivity.
  - split; [discriminate|reflexivity|split; [discriminate|reflexivity]|left; reflexivity].
  - split; [discriminate|reflexivity|split; [discriminate|reflexivity]|left; reflexivity].
  - split; [right; reflexivity|]. split; [left; reflexivity|]. split; [left; reflexivity|right; reflexivity].
  - exists m1. split; [exact E|]. split; [exact Ep|]. split; [exact Ez|exact Ec].
Defined.
