(* ===== verification/Worker.v ===== *)
(** * Workqueues with a thread of their own (workqueue.c)

    [k_workqueue_create] composes the fifo of the works, the creation of the
    thread that runs them and its start. *)

From S2P Require Import Prelude Dlist Slist Delta Tqueue Types Event Timer Kernel KernelInv KernelSpec World Semaphore Fifo Workqueue Bytes Avr Context Thread.

Section Worker.
Context `{Layout, Config, Handlers, StackConfig}.
Variables (z_workqueue_entry z_system_workqueue : word).


Definition k_system_workqueue_submit (work : word) : M bool := k_work_submit z_system_workqueue work.

Variable F : mem.



End Worker.

(** ** Instance *)

