(* ===== verification/Wait.v ===== *)
(** * Waiting (k_wait of kernel.c)

    [k_wait] reads the tick counter until a delay has passed, and idles in one
    of three ways between two readings.  The readings are given: they are what
    the tick interrupt makes of the counter in the meantime. *)

From S2P Require Import Prelude Dlist Delta Tqueue Types Event Timer Kernel KernelInv KernelSpec World Client Startup.

(** The number of readings made so far. *)
#[export] Instance readings_elsewhere : Elsewhere nat := λ n, n.

Section Wait.
Context `{Layout, Config, Handlers, StartConfig}.
Variables (tick_at : nat → Z) (sleep_cpu : M unit).

Definition K_WAIT_MODE_IDLE : Z := 0.
Definition K_WAIT_MODE_ACTIVE : Z := 1.
Definition K_WAIT_MODE_BLOCK : Z := 2.

Definition read_ticks : SM nat Z := λ n, ret (u32 (tick_at n), S n).

Definition wait_turn (mode : Z) : M unit :=
  if mode =? K_WAIT_MODE_ACTIVE then ret tt
  else if mode =? K_WAIT_MODE_BLOCK then sleep_cpu
  else k_idle sleep_cpu.

Fixpoint wait_loop (fuel : nat) (mode delay ticks : Z) : SM nat unit :=
  match fuel with
  | O => λ _ _, NoFuel
  | S fuel =>
      do* _ := lift (wait_turn mode) in
      do* now := read_ticks in
      if u32 (now - ticks) <? delay then wait_loop fuel mode delay ticks else sret tt
  end.

Definition k_wait (fuel : nat) (delay mode : Z) : SM nat unit :=
  do* ticks := read_ticks in
  do* locked := lift k_sched_locked in
  let unlock_sched := (mode =? K_WAIT_MODE_BLOCK) && (CONFIG_KERNEL_REENTRANCY || negb locked) in
  do* _ := lift (when unlock_sched do k_sched_lock) in
  do* _ := wait_loop fuel mode delay ticks in
  lift (when unlock_sched do k_sched_unlock).

(** ** A thread that stays ready *)
Variables (F : mem) (c : word).

Definition running_here (k : kstate) : Prop := ∃ T rs ts Q, Inv F k T (c :: rs) ts Q ∧ current k = c.
(** It has yielded: another thread runs and it is still in the run queue. *)
Definition yielded (k : kstate) : Prop := ∃ T rs ts Q, Inv F k T rs ts Q ∧ c ∈ rs ∧ current k ≠ c.

(** The call ends, whatever the other threads do when it yields. *)
Fixpoint comes_back {A} (P : A → kstate → Prop) (r : res A) : Prop :=
  match r with
  | Done a k => P a k
  | Susp k f => yielded k ∧ ∀ k', running_here k' → comes_back P (f k')
  | Fault _ _ | NoFuel => False
  end.

Lemma comes_back_sbind {S A B} (P : A * S → kstate → Prop) (P' : B * S → kstate → Prop) (m : SM S A) (f : A → SM S B) s k :
  comes_back P (m s k) → (∀ a s' k', P (a, s') k' → comes_back P' (f a s' k')) → comes_back P' (sbind m f s k).
Proof.
  intros Hm Hf. unfold sbind, bind. induction (m s k) as [[a s'] k'|k' g IH|n k'|]; cbn in *; [by apply Hf| |done|done].
  destruct Hm as [Hy Hm]. split; [done|]. intros k2 Hk2. by apply IH, Hm.
Qed.

Lemma running_sreg b k : running_here k → running_here (set_sreg_i b k).
Proof. intros (T&rs&ts&Q&Hi&?). exists T, rs, ts, Q. split; [by apply Inv_sreg|done]. Qed.

Lemma k_yield_comes_back (n : nat) k : running_here k →
  comes_back (λ '(_, n') k', n' = n ∧ running_here k') (lift k_yield n k).
Proof.
  intros (T&rs&ts&Q&Hi&Hc). pose proof (Inv_sreg _ false _ _ _ _ _ Hi) as Hi0.
  destruct (z_yield_spec F (set_sreg_i false k) T c rs ts Q Hi0 Hc) as (Hi'&Hcur&_&_&E).
  unfold lift, k_yield. rewrite bind_irq_lock. set (k' := (z_scheduler (set_sreg_i false k)).2) in *. clearbody k'.
  destruct (decide (rs = [])) as [->|Hne].
  - rewrite (bind_done _ _ _ _ _ E). cbn. split; [done|]. apply running_sreg. by exists T, [], ts, Q.
  - unfold bind. rewrite E. cbn. split; [|intros k2 Hk2; split; [done|by do 2 apply running_sreg]].
    exists T, (rotate (c :: rs)), ts, Q. split_and!; [done|by rewrite rotate_elem; left|].
    rewrite Hcur. destruct rs as [|t rs]; [done|]. cbn. intros ->.
    pose proof (lk_run_nd _ _ _ _ _ _ _ (inv_links _ _ _ _ _ _ _ Hi)) as Hnd. nodup. set_solver.
Qed.

(** ** The loop *)

(** The [n]-th reading after the first one is the first that is [delay] ticks
    later; the counter may have wrapped around. *)
Definition first_reach (delay : Z) (start n : nat) : Prop :=
  (∀ i, (i < n)%nat → 0 <= tick_at (S start + i)%nat - tick_at start < delay) ∧
  delay <= tick_at (S start + n)%nat - tick_at start < 2 ^ 32.

Lemma u32_elapsed a b : 0 <= a - b < 2 ^ 32 → u32 (u32 a - u32 b) = a - b.
Proof. intros Hr. unfold u32. rewrite <- Zminus_mod. by apply Z.mod_small. Qed.

Lemma wait_loop_ends P mode delay start n : 0 <= delay < 65536 → first_reach delay start n →
  (∀ m k, P k → comes_back (λ '(_, m') k', m' = m ∧ P k') (lift (wait_turn mode) m k)) →
  ∀ fuel i k, (i <= n)%nat → (n - i < fuel)%nat → P k →
  comes_back (λ '(_, m') k', m' = (start + n + 2)%nat ∧ P k') (wait_loop fuel mode delay (u32 (tick_at start)) (S start + i)%nat k).
Proof.
  intros Hd [Hb Ha] Ht. induction fuel as [|fuel IH]; intros i k Hi Hf Hp; [lia|]. cbn [wait_loop].
  eapply comes_back_sbind; [by apply Ht|]. intros a m' k' [-> Hp'].
  rewrite (sbind_done read_ticks _ _ _ _ _ _ eq_refl). destruct (decide (i = n)) as [->|Hne].
  - rewrite u32_elapsed, (proj2 (Z.ltb_ge _ _)) by lia. cbn. split; [lia|done].
  - specialize (Hb i ltac:(lia)). rewrite u32_elapsed, (proj2 (Z.ltb_lt _ _)) by lia.
    replace (S (S start + i)%nat) with (S start + S i)%nat by lia. apply IH; [lia|lia|done].
Qed.

(** ** The scheduler lock *)

(** Only the record of [c] is changed, by [f]. *)
Definition edits (f : k_thread → k_thread) (k k' : kstate) : Prop :=
  thr k' c = f (thr k c) ∧ (∀ t, t ≠ c → thr k' t = thr k t) ∧ links k' = links k ∧ run_queue k' = run_queue k ∧
  ready_count k' = ready_count k ∧ current k' = current k ∧ kobjs k' = kobjs k.

Lemma edits_upd f k : edits f k (upd_thread c f k).
Proof. split_and!; try done; [apply thr_upd_eq|intros t Ht; by apply thr_upd_ne]. Qed.
Lemma edits_trans f g k1 k2 k3 : edits f k1 k2 → edits g k2 k3 → edits (g ∘ f) k1 k3.
Proof.
  intros (E&Eo&?&?&?&?&?) (E'&Eo'&?&?&?&?&?). split_and!; try congruence.
  - by rewrite E', E.
  - intros t Ht. by rewrite Eo', Eo.
Qed.
Lemma edits_sreg b f k k' : edits f k k' → edits f k (set_sreg_i b k').
Proof. by intros (?&?&?&?&?&?&?). Qed.
Lemma edits_sreg_l b f k k' : edits f (set_sreg_i b k) k' → edits f k k'.
Proof. by intros (?&?&?&?&?&?&?). Qed.
Lemma edits_ext f g k k' : f (thr k c) = g (thr k c) → edits f k k' → edits g k k'.
Proof. intros E (?&?&?&?&?&?&?). split_and!; try done. congruence. Qed.

Definition lock_thread (t : k_thread) : k_thread :=
  let t := with_flags (Z.lor (flags t) Z_THREAD_SCHED_LOCKED_MSK) t in
  if CONFIG_KERNEL_REENTRANCY then with_sched_lock_cnt (u8 (sched_lock_cnt t + 1)) t else t.
Definition clear_lock (t : k_thread) : k_thread := with_flags (Z.land (flags t) (Z.lnot Z_THREAD_SCHED_LOCKED_MSK)) t.
Definition unlock_thread (t : k_thread) : k_thread :=
  if CONFIG_KERNEL_REENTRANCY then
    if sched_lock_cnt t =? 0 then t
    else if sched_lock_cnt t =? 1 then clear_lock (with_sched_lock_cnt 0 t) else with_sched_lock_cnt (u8 (sched_lock_cnt t - 1)) t
  else clear_lock t.

Lemma k_sched_lock_edits k : current k = c → ∃ k', k_sched_lock k = Done tt k' ∧ edits lock_thread k k'.
Proof.
  intros Hc. unfold k_sched_lock. mred. cbn [current set_sreg_i]. rewrite Hc.
  set (k1 := set_sreg_i (sreg_i k) (or_flags c Z_THREAD_SCHED_LOCKED_MSK (set_sreg_i false k))).
  assert (E1 : edits (λ t, with_flags (Z.lor (flags t) Z_THREAD_SCHED_LOCKED_MSK) t) k k1).
  { apply edits_sreg, (edits_sreg_l false). eapply edits_ext; [|apply edits_upd]. done. }
  assert (Hc1 : current k1 = c) by exact Hc. unfold lock_thread.
  destruct CONFIG_KERNEL_REENTRANCY; cbn [rbind]; [|by exists k1]. eexists. split; [reflexivity|].
  rewrite Hc1. pose proof (edits_trans _ _ _ _ _ E1 (edits_upd (with_sched_lock_cnt (u8 (sched_lock_cnt (thr k1 c) + 1))) k1)) as E2.
  eapply edits_ext; [|exact E2]. cbn. destruct E1 as [-> _]. done.
Qed.

Lemma unlock_flag_edits k : current k = c → ∃ k', k_sched_unlock_flag k = Done tt k' ∧ edits clear_lock k k'.
Proof.
  intros Hc. unfold k_sched_unlock_flag. mred. cbn [current set_sreg_i]. rewrite Hc. eexists. split; [reflexivity|].
  apply edits_sreg, (edits_sreg_l false). eapply edits_ext; [|apply edits_upd]. done.
Qed.

Lemma k_sched_unlock_edits k : current k = c → ∃ k', k_sched_unlock k = Done tt k' ∧ edits unlock_thread k k'.
Proof.
  intros Hc. unfold k_sched_unlock, unlock_thread. destruct CONFIG_KERNEL_REENTRANCY; [|by apply unlock_flag_edits].
  rewrite bind_get, Hc. cbn zeta.
  destruct (Z.eqb_spec (sched_lock_cnt (thr k c)) 0) as [E0|E0].
  { exists k. split; [done|]. split_and!; try done. by rewrite E0. }
  destruct (Z.eqb_spec (sched_lock_cnt (thr k c)) 1) as [E1|E1].
  - rewrite bind_modify. destruct (unlock_flag_edits (set_lock_cnt c 0 k) Hc) as (k'&E&Ed). exists k'. split; [exact E|].
    eapply edits_ext; [|exact (edits_trans _ _ _ _ _ (edits_upd (with_sched_lock_cnt 0) k) Ed)]. cbn. by rewrite E1.
  - eexists. split; [reflexivity|]. eapply edits_ext; [|apply edits_upd]. cbn.
    by rewrite (proj2 (Z.eqb_neq _ 0) E0), (proj2 (Z.eqb_neq _ 1) E1).
Qed.

(** The record of a thread is consistent: the flag is set while it holds
    locks. *)
Definition lock_flag_ok (t : k_thread) : Prop :=
  0 <= flags t ∧ 0 <= sched_lock_cnt t < 255 ∧
  (CONFIG_KERNEL_REENTRANCY = true → Z.testbit (flags t) 2 = bool_decide (0 < sched_lock_cnt t)).

Lemma unlock_lock t : lock_flag_ok t → (CONFIG_KERNEL_REENTRANCY = false → Z.testbit (flags t) 2 = false) →
  unlock_thread (lock_thread t) = t.
Proof.
  intros (Hf&Hn&Hr) Hu.
  assert (Eset : Z.testbit (flags t) 2 = true → Z.lor (flags t) 4 = flags t).
  { intros E. apply Z.bits_inj'. intros i Hi. rewrite Z.lor_spec. change 4 with (2 ^ 2). rewrite Z.pow2_bits_eqb by lia.
    destruct (Z.eqb_spec 2 i) as [<-|]; [by rewrite E|by rewrite orb_false_r]. }
  assert (Eclr : Z.testbit (flags t) 2 = false → Z.land (Z.lor (flags t) 4) (Z.lnot 4) = flags t).
  { intros E. apply Z.bits_inj'. intros i Hi. rewrite Z.land_spec, Z.lor_spec, Z.lnot_spec by done.
    change 4 with (2 ^ 2). rewrite Z.pow2_bits_eqb by lia.
    destruct (Z.eqb_spec 2 i) as [<-|]; [by rewrite E|by rewrite orb_false_r, andb_true_r]. }
  unfold unlock_thread, lock_thread, clear_lock, Z_THREAD_SCHED_LOCKED_MSK. destruct CONFIG_KERNEL_REENTRANCY.
  - specialize (Hr eq_refl). cbn [sched_lock_cnt with_sched_lock_cnt with_flags]. rewrite u8_small by lia.
    rewrite (proj2 (Z.eqb_neq _ 0)) by lia. destruct (Z.eqb_spec (sched_lock_cnt t + 1) 1) as [E1|E1].
    + cbn [with_flags with_sched_lock_cnt flags sp swap_data stack_end stack_size symbol sched_lock_cnt].
      rewrite Eclr by (rewrite Hr; apply bool_decide_eq_false; lia). replace 0 with (sched_lock_cnt t) by lia. by destruct t.
    + cbn [with_flags with_sched_lock_cnt flags sp swap_data stack_end stack_size symbol sched_lock_cnt].
      rewrite Eset by (rewrite Hr; apply bool_decide_eq_true; lia). rewrite u8_small by lia.
      replace (sched_lock_cnt t + 1 - 1) with (sched_lock_cnt t) by lia. by destruct t.
  - cbn [with_flags flags sp swap_data stack_end stack_size symbol sched_lock_cnt]. rewrite Eclr by by apply Hu. by destruct t.
Qed.

Lemma running_edits f k k' : (∀ t, Z.land (flags (f t)) (Z.lnot 4) = Z.land (flags t) (Z.lnot 4)) →
  edits f k k' → running_here k → running_here k'.
Proof.
  intros Hf (Ec&Eo&El&Erq&Erc&Ecu&Eob) (T&rs&ts&Q&Hi&Hc). exists T, rs, ts, Q. split; [|congruence].
  assert (Hm : ∀ t m, Z.land m (Z.lnot 4) = m → Z.land (flags (thr k' t)) m = Z.land (flags (thr k t)) m).
  { intros t m Em. destruct (decide (t = c)) as [->|Hne]; [|by rewrite Eo].
    rewrite Ec, <- Em, (Z.land_comm m), !Z.land_assoc. by rewrite Hf. }
  assert (Hwq : ∀ h, wqflag k' h = wqflag k h) by (intros h; unfold wqflag; unfold kobjs in Eob; by injection Eob as ->).
  destruct Hi as [Hl Hn Hfl Hw Hid Hs1 Hs2]. split; try done.
  - by rewrite El, Erq.
  - congruence.
  - intros t Ht Hx. specialize (Hfl t Ht Hx). unfold thread_ok, fl_ok in *. by rewrite !Hm.
  - intros t Ht. by rewrite Hwq, Hw.
  - unfold z_get_thread_state. by rewrite Hm.
Qed.

Lemma sched_locked_bit k : current k = c → Z.testbit (flags (thr k c)) 2 = true → sched_locked k = true.
Proof.
  intros Hc E. unfold sched_locked, test_flags. rewrite Hc. apply negb_true_iff, Z.eqb_neq. intros E0.
  assert (E2 : Z.testbit (Z.land (flags (thr k c)) (Z.lor Z_THREAD_PRIO_COOP Z_THREAD_SCHED_LOCKED_MSK)) 2 = true)
    by (rewrite Z.land_spec, E; done).
  by rewrite E0 in E2.
Qed.
Lemma unlocked_bit k : current k = c → sched_locked k = false → Z.testbit (flags (thr k c)) 2 = false.
Proof. intros Hc E. destruct (Z.testbit _ 2) eqn:Eb; [|done]. by rewrite (sched_locked_bit k Hc Eb) in E. Qed.

Lemma lock_thread_flags t : Z.land (flags (lock_thread t)) (Z.lnot 4) = Z.land (flags t) (Z.lnot 4) ∧ Z.testbit (flags (lock_thread t)) 2 = true.
Proof.
  assert (flags (lock_thread t) = Z.lor (flags t) 4) as -> by (unfold lock_thread; by destruct CONFIG_KERNEL_REENTRANCY).
  split; [by apply land_lor_skip|]. rewrite Z.lor_spec. apply orb_true_r.
Qed.

(** Sleeping with the scheduler locked lasts until an interrupt, after which
    the thread goes on. *)
Hypothesis sleep_locked : ∀ k, current k = c → sched_locked k = true → sleep_cpu k = Done tt k.

(** C26: [k_wait] ends at the first reading of the counter that is at least [delay]
    ticks after its first one, and not before, even when the counter wraps
    around, in each of its modes and whatever the threads it yields to do.  The
    calling thread is then running; the modes that keep the CPU leave the
    kernel as they found it, and sleep with the scheduler locked only. *)
Theorem k_wait_spec mode delay start n fuel k :
  running_here k → 0 <= delay < 65536 → first_reach delay start n → (n < fuel)%nat → lock_flag_ok (thr k c) →
  comes_back (λ '(_, m) k', m = (start + n + 2)%nat ∧ running_here k' ∧
      (mode = K_WAIT_MODE_ACTIVE ∨ mode = K_WAIT_MODE_BLOCK → edits id k k'))
    (k_wait fuel delay mode start k).
Proof.
  intros Hk Hd Hr Hf Hl. assert (Hc : current k = c) by by destruct Hk as (?&?&?&?&_&?).
  unfold k_wait. rewrite (sbind_done read_ticks _ _ _ _ _ _ eq_refl).
  rewrite (sbind_done (lift k_sched_locked) _ _ _ (sched_locked k) (S start) k eq_refl). cbv zeta.
  replace (S start) with (S start + 0)%nat by lia.
  destruct (Z.eqb_spec mode K_WAIT_MODE_BLOCK) as [->|Hb]; cbn [andb].
  - destruct (CONFIG_KERNEL_REENTRANCY || negb (sched_locked k)) eqn:Eu.
    + destruct (k_sched_lock_edits k Hc) as (k1&E1&Ed1). rewrite (sbind_done _ _ _ _ _ _ _ (lift_done _ _ _ _ _ E1)).
      assert (Hc1 : current k1 = c) by (destruct Ed1 as (_&_&_&_&_&->&_); done).
      assert (Hs1 : sched_locked k1 = true).
      { apply sched_locked_bit; [done|]. destruct Ed1 as [-> _]. apply lock_thread_flags. }
      eapply comes_back_sbind; [apply (wait_loop_ends (λ k', k' = k1) _ _ _ n Hd Hr); [|lia|lia|done]|].
      { intros m k' ->. unfold lift, wait_turn. cbn [Z.eqb K_WAIT_MODE_BLOCK K_WAIT_MODE_ACTIVE Pos.eqb]. by rewrite sleep_locked. }
      intros _ m k' [-> ->]. destruct (k_sched_unlock_edits k1 Hc1) as (k2&E2&Ed2). rewrite (lift_done _ _ _ _ _ E2). cbn [comes_back].
      assert (Ed : edits id k k2).
      { eapply edits_ext; [|exact (edits_trans _ _ _ _ _ Ed1 Ed2)]. cbn. apply unlock_lock; [done|]. intros Ec. rewrite Ec in Eu.
        apply unlocked_bit; [done|]. by apply negb_true_iff. }
      split; [done|]. split; [|done]. by eapply (running_edits id).
    + rewrite (sbind_done _ _ _ _ _ _ _ (lift_done _ _ _ _ _ (eq_refl : ret tt k = Done tt k))).
      apply orb_false_iff in Eu as [_ Es%negb_false_iff].
      eapply comes_back_sbind; [apply (wait_loop_ends (λ k', k' = k) _ _ _ n Hd Hr); [|lia|lia|done]|].
      { intros m k' ->. unfold lift, wait_turn. cbn [Z.eqb K_WAIT_MODE_BLOCK K_WAIT_MODE_ACTIVE Pos.eqb]. by rewrite sleep_locked. }
      intros _ m k' [-> ->]. cbn. done.
  - rewrite (sbind_done _ _ _ _ _ _ _ (lift_done _ _ _ _ _ (eq_refl : ret tt k = Done tt k))).
    destruct (Z.eqb_spec mode K_WAIT_MODE_ACTIVE) as [->|Ha].
    + eapply comes_back_sbind; [apply (wait_loop_ends (λ k', k' = k) _ _ _ n Hd Hr); [|lia|lia|done]|].
      { intros m k' ->. by cbn. }
      intros _ m k' [-> ->]. cbn. done.
    + eapply comes_back_sbind; [apply (wait_loop_ends running_here _ _ _ n Hd Hr); [|lia|lia|done]|].
      { intros m k' Hk'. unfold wait_turn. rewrite (proj2 (Z.eqb_neq _ _) Hb), (proj2 (Z.eqb_neq _ _) Ha).
        unfold lift. destruct Hk' as (T&rs&ts&Q&Hi&Hc'). rewrite (k_idle_run _ _ _ _ _ _ _ _ Hi).
        apply k_yield_comes_back. by exists T, rs, ts, Q. }
      intros _ m k' [-> Hk']. cbn. split_and!; [done|done|]. by intros [?|?].
Qed.
End Wait.

(** ** Instance: a delay of 5 ticks while the counter wraps around *)

Definition w_tick_at (n : nat) : Z := 2 ^ 32 - 3 + 2 * Z.of_nat n.
Definition w_sleep : M unit := λ k, if sched_locked k then Done tt k else NoFuel.

Lemma w_running : running_here w_F t1 w_ready.
Proof. exists w_T, [t3; t2], [], w_Q. split; [apply w_ready_inv|done]. Qed.

Lemma k_wait_witness :
  sched_locked w_ready = false ∧
  comes_back w_F t1 (λ '(_, m) k', m = 4%nat ∧ running_here w_F t1 k' ∧ (2 = 1 ∨ 2 = 2 → edits t1 id w_ready k'))
    (k_wait w_tick_at w_sleep 10%nat 5 K_WAIT_MODE_BLOCK 0%nat w_ready) ∧
  comes_back w_F t1 (λ '(_, m) k', m = 4%nat ∧ running_here w_F t1 k' ∧ (0 = 1 ∨ 0 = 2 → edits t1 id w_ready k'))
    (k_wait w_tick_at w_sleep 10%nat 5 K_WAIT_MODE_IDLE 0%nat w_ready).
Proof.
  assert (Hr : first_reach w_tick_at 5 0%nat 2%nat).
  { split; [intros [|[|i]] Hi; unfold w_tick_at; lia|unfold w_tick_at; lia]. }
  assert (Hs : ∀ k, current k = t1 → sched_locked k = true → w_sleep k = Done tt k) by (intros k _ E; unfold w_sleep; by rewrite E).
  assert (Hl : lock_flag_ok (thr w_ready t1)) by (split; [discriminate|split; [split; [discriminate|reflexivity]|reflexivity]]).
  split; [reflexivity|]. split.
  - apply (k_wait_spec w_tick_at w_sleep w_F t1 Hs K_WAIT_MODE_BLOCK 5 0 2 10 w_ready w_running); [lia|exact Hr|lia|exact Hl].
  - apply (k_wait_spec w_tick_at w_sleep w_F t1 Hs K_WAIT_MODE_IDLE 5 0 2 10 w_ready w_running); [lia|exact Hr|lia|exact Hl].
Defined.
